(* ===== verification/_CoqProject ===== *)
-Q . S2P
Prelude.v
Json.v
ResType.v
Supervisor.v
ProcessGroup.v
World.v
CgroupAdjuster.v
CgroupEventHandler.v
SchedController.v
SupervisorFacts.v
CgroupInvariant.v
CgroupSafety.v
Demo.v
CgroupReach.v
CgroupAdjust.v
CgroupFocus.v
CgroupHandlers.v
CgroupIsolation.v
CgroupRegistry.v
CgroupRefinement.v
ProcessGroupFacts.v
PluginConfig.v
PluginMgr.v
PluginMgrFacts.v
SignatureValidator.v
SocPerf.v
SocPerfHandlers.v
SocPerfFacts.v
SocPerfBattery.v
SocPerfMode.v
SignatureFacts.v
CommonUtil.v
CommonUtilFacts.v
LruCache.v
Ipc.v
NotifierMgr.v
EventListenerMgr.v
ServiceWorld.v
ResSchedMgr.v
ResSchedService.v
ServiceDemo.v
ServiceFacts.v
NotifierFacts.v
SceneRecognizer.v
SlideRecognizer.v
SceneFacts.v
SceneReach.v
SceneService.v
SceneRules.v
Client.v
KillEvent.v
ClientFacts.v
ClientService.v
SchedReports.v
EventController.v
EventFacts.v
AudioObserver.v
AudioFacts.v
AppStateObserver.v
StartupFacts.v
WindowObservers.v
OobeManager.v
OobeFacts.v
ObserverManager.v
ObserverFacts.v
Executor.v
ExeClient.v
ExecutorFacts.v
SocPerfExecutor.v
SocPerfExecutorFacts.v
FrameAware.v
DeviceStandby.v
SuspendManager.v
SuspendFacts.v
FileUtil.v
FileFacts.v
KitSystemload.v
KitBackground.v
SystemUtil.v
Ability.v
