(* ===== verification/Prelude.v ===== *)
(** * Resource schedule service: a verification library

    The resource schedule service collects what happens on a device (processes,
    windows, tasks, audio, input) and lets plugins react.  This library models its
    core as executable functions over explicit state and proves what makes it
    correct.  File names below without a directory are files of the library; the
    paths of the program are under [src/ressched/].

    ** Parts of the program and their models

    Events reach the service by IPC ([services/resschedservice]), pass its checks, and go
    through [ResSchedMgr] to the plugins and to the scene recognizers; notifiers and event
    listeners tell clients what changed.
    - [ServiceWorld.v], [ResSchedMgr.v], [ResSchedService.v]: the process with its parts, the
      manager ([res_sched_mgr.cpp], [kill_process.cpp], [res_ipc_init.cpp]), the entry points
      of the service with its limits, checks and dumps.
    - [PluginConfig.v], [PluginMgr.v]: switches, parameters, loading of plugins,
      subscriptions and the dispatch of events ([plugin_mgr.cpp], [config_reader.cpp],
      [plugin_switch.cpp]).
    - [NotifierMgr.v], [EventListenerMgr.v]: the tables of remote callbacks.
    - [Client.v], [KillEvent.v], [ClientService.v]: the library other processes link
      ([interfaces/innerkits/ressched_client/src]), and its composition with the service.
    - [SchedReports.v], [EventController.v], [AudioObserver.v], [AppStateObserver.v],
      [WindowObservers.v], [ObserverManager.v]: [sched_controller], which
      subscribes at other services and reports what they tell (common events, audio,
      applications and the scene of continuous starts, windows, displays and sessions,
      logged events), and the manager that registers the observers.
    - [OobeManager.v]: tasks that wait until the statement of the first start is agreed
      ([oobe_manager.cpp], [oobe_datashare_utils.cpp]).
    - [SceneRecognizer.v], [SlideRecognizer.v], [SceneService.v]: [scene_recognize/src], and
      its composition with the service.
    - [Ability.v]: the ability that starts, joins and stops the parts of the process
      ([res_sched_service_ability.cpp]), with what the observers report carried out on the
      service.
    - [SignatureValidator.v], [LruCache.v], [CommonUtil.v], [Ipc.v], [FileUtil.v],
      [SystemUtil.v]: utilities of [common], with files, their storage and daily reports,
      times and sizes, and the helper that asks the bundle manager.
    - [KitSystemload.v], [KitBackground.v]: the bindings of [interfaces/kits] to JavaScript,
      ArkTS and C, on top of the client library.
    - [Executor.v], [ExeClient.v]: the second process, [src/ressched_executor], which has
      plugins of its own, and its client inside the service process.
      [SocPerfExecutor.v]: its plugin that writes nodes of the kernel.
    - [SuspendManager.v]: [services/suspend_manager_base] and its client library, for who
      wants to know which applications are frozen.
    - [FrameAware.v], [DeviceStandby.v]: the plugins [frame_aware_plugin] (with the device
      file for a low network latency) and [device_standby_plugin].

    The cgroup plugin [plugins/cgroup_sched_plugin/framework] keeps a model of all
    applications and their processes, decides a scheduling group for each process
    and asks the kernel to move it there.
    - [Supervisor.v]: [supervisor.cpp], [supervisor.h]; one record type per class,
      std::map is [gmap], pointers between records are paths (uid and pid).
    - [ProcessGroup.v]: the directory [process_group]; the singletons are one state
      record, the operating system and the executor service the class [Os].
    - [World.v]: [ressched_utils.cpp], the class [Platform] of everything outside
      the repository, the state [World] and the primitives of the plugin's code.
    - [CgroupAdjuster.v], [CgroupEventHandler.v], [SchedController.v]: the files
      [cgroup_adjuster.cpp], [cgroup_event_handler.cpp], [sched_controller.cpp].

    The SocPerf plugin asks a performance service for boosts and limits.
    - [SocPerf.v], [SocPerfHandlers.v]: [plugins/socperf_plugin].

    Shared by all: [Json.v], payloads as an interface with laws and one implementation;
    [ResType.v], the constants of [res_type.h] and [res_value.h] in use.

    Code that changes state is in the monad [ST] of this file.  Its only failure is
    undefined behaviour (a null or dangling dereference, a shift out of range, an
    uncaught exception); an early return or an error code is an ordinary result.
    Calls that leave a part are recorded in order.  Queues are lists of tasks as data;
    what can happen next (an event arrives, a queue runs its oldest task, a delayed task
    comes due) is a type of events, and theorems quantify over lists of them.  Time
    itself is not modelled: a delayed task may come due at any moment after it was
    posted.  What one part needs from others is a class: [Platform] and [Os] (cgroup
    plugin), [PluginHost] (libraries of plugins), [Xml], [SocEnv], [SignatureChecker] and
    [BundleMgr], [SceneDispatcher] (implemented by the scene recognizers), [SceneHost],
    [NotifierHost], [AccessTokenKit], [ServiceHost], [JsonText], [RemoteService] (implemented
    by the requests of the service) and [ClientEnv] (client library), [CommonEventSupport],
    [EventHost], [AudioFramework], [AppExecFwk], [Rosen],
    [Frameworks] and [DataShare] (observers), [ExeHost] and [RemoteExecutor] (executor,
    implemented by the executor itself) and [NodeHost] (its plugin), [SuspendHost] and
    [SuspendRemote], [LatencyHost] and [StandbyHost], [FileSystem], [ReportHost], [LogClock],
    [LocalTime], [SystemInfo] and [BundleService] (utilities), [AbilityHost], [ScriptEngine] and
    [AppNapClient] (bindings), and the error codes and build flags as
    [ErrCodes], [Build], [ServiceBuild], [SocBuild], [FrameBuild].

    ** What is proved

    - Cgroup plugin: [CgroupInvariant.v] states the invariant (records filed under their
      identity, groups set before they are recorded, flags, timers) and
      [CgroupSafety.v] proves that every handler keeps it and is defined; the
      theorems about reachable states are in [CgroupReach.v].  [CgroupAdjust.v] and
      [CgroupFocus.v]: the group decided, its application with all outcomes, attached
      processes, the focus.  [CgroupHandlers.v]: handlers, start and stop.
      [CgroupIsolation.v]: isolation between applications, with the frame rules of
      [CgroupInvariant.v].  [CgroupRegistry.v] is an abstract plugin that knows uids and pids
      only; [CgroupRefinement.v] is the simulation.  [SupervisorFacts.v],
      [ProcessGroupFacts.v]: the records, and what setting and reading a policy does.
    - Plugins: [PluginMgrFacts.v]: who is loaded, who gets an event, subscriptions against
      an abstract set, the fate of a slow plugin.  [SocPerfFacts.v], [SocPerfBattery.v],
      [SocPerfMode.v]: safety, the battery limits in force, start, the weak mode.
    - Service: [ServiceFacts.v]: the limit of requests and the gate of reports.
      [NotifierFacts.v]: what clients know of the system load.  [SceneFacts.v],
      [SceneReach.v], [SceneService.v], [SceneRules.v]: flings end, scenes are reported in
      turn, the rules of the background scene, the busy table.
    - Client library: [ClientFacts.v] proves, against the class [RemoteRegistry] of laws of
      the service, that the service knows all local listeners but those it turned down;
      [ClientService.v] discharges the laws with the service and its limit of requests, and
      follows an event from the service to its listeners. [KillEvent.v]: the configured
      reasons and the counted kills.
    - Subscriptions: [EventFacts.v]: every common event is reported with the type, the value
      and the payload of its entry in a table, and what that tells of the state of the
      device. [AudioFacts.v]: what plugins were told about the audio of a process is true.
      [StartupFacts.v]: the scene of continuous starts against a reference that only counts
      the last run of starts. [ObserverFacts.v]: observers are registered exactly at the
      services that are there, on every kind of device. [OobeFacts.v]: no waiting task is
      lost or runs twice.
    - Executor: [ExecutorFacts.v]: the configuration of the plugins reaches the executor,
      whole or in pieces and in any order of them.  [SocPerfExecutorFacts.v]: the table of
      resources is sound, and the nodes get the texts that are asked for.
    - [SuspendFacts.v]: observers of suspended applications are told what the codes of their
      registrations promise.  [FrameAware.v]: clients that want a low latency have one timer
      each, the device file is open for them only, and each request ends.
    - The process: [Ability.v]: what the application manager tells about a process decides
      whether the gate takes its reports.
    - Bindings: [KitSystemload.v]: scripts are called for each level as they asked.
    - Utilities: [FileFacts.v]: file sizes are reported daily, and what the storage saved is
      read back as far as the file took it. [SignatureFacts.v] (the caches do not change a
      verdict), [LruCache.v], [CommonUtilFacts.v].
    Examples and witnesses run on [Demo.v], [ServiceDemo.v] and the ends of
    the files with facts.

    ** Bounds and fuel

    Machine integers are [Z] with their wrap-around written out ([to_u32] and its
    relatives).  Two loops have fuel.  The rounding of a storage size: 32 tests are
    enough where it ends, and where they are not it does not end at all; both are proved.
    The cutting of a text into pieces: its length and one is enough, since the pieces are
    proved to be the text.

    ** Assumptions

    - The build has the power manager and the extension points of the repository
      itself; code under build flags of other repositories is left out of the cgroup
      plugin.
    - The extension library is either absent or a function on the process model
      that keeps the identity of the records ([PlatformLaws] in
      [CgroupInvariant.v]); the functions that dispatch or deliver an event to it
      change the outer state only.
    - The type ids of continuous tasks are below 32 and serial numbers are not
      negative ([payload_ok]); the code does not check either.
    - [JsonLaws] states the documented behaviour of the JSON library.
    - Unordered maps and sets are walked in some order of their elements; where the
      order matters to a statement it is a parameter.  Allocation never fails.
    - Mutexes are not modelled: an operation runs to its end.
    - The calls that wait for the thread of a script are one queue ([ThreadSafeCallBack]),
      whereas each listener has a function of its own (js_systemload_listener.cpp): the order
      between the calls of two listeners is one of those that are possible.
    - Times in milliseconds are integers without bounds where the code has 64 bits and the
      system gives the time, as in [ReportFileSizeDaily].

    ** Not modelled

    The transport of inter-process communication and the stubs and proxies generated for it,
    the registration of the script modules with their engine, the XML library, and the
    logging and tracing. *)
From Stdlib Require Export ZArith Lia String Ascii.
From stdpp Require Export base tactics numbers list gmap strings sorting.
From Stdlib Require Import DecimalString DecimalZ DecimalPos.

#[export] Set Warnings "-clear-no-such-hyp".

#[global] Open Scope string_scope.
#[global] Open Scope list_scope.
#[global] Open Scope Z_scope.

(** ** Machine integers *)

(** Conversions of C++ to a w-bit type: reduction modulo [2^w]. *)
Definition to_u32 (z : Z) : Z := z mod 2 ^ 32.
Definition to_u64 (z : Z) : Z := z mod 2 ^ 64.
Definition to_s32 (z : Z) : Z := (z + 2 ^ 31) mod 2 ^ 32 - 2 ^ 31.
Definition to_s64 (z : Z) : Z := (z + 2 ^ 63) mod 2 ^ 64 - 2 ^ 63.

Definition is_s32 (z : Z) : Prop := - 2 ^ 31 <= z < 2 ^ 31.
Definition is_u32 (z : Z) : Prop := 0 <= z < 2 ^ 32.

#[global] Instance is_s32_dec z : Decision (is_s32 z).
Proof. unfold is_s32. apply _. Defined.
#[global] Instance is_u32_dec z : Decision (is_u32 z).
Proof. unfold is_u32. apply _. Defined.

Ltac int_simpl := unfold to_u32, to_u64, to_s32, to_s64, is_s32, is_u32 in *.

Lemma to_s32_id z : is_s32 z -> to_s32 z = z.
Proof. int_simpl. intros H. rewrite Z.mod_small; lia. Qed.

Lemma to_u32_id z : is_u32 z -> to_u32 z = z.
Proof. int_simpl. intros H. by apply Z.mod_small. Qed.

Lemma to_s32_range z : is_s32 (to_s32 z).
Proof. int_simpl. pose proof (Z.mod_pos_bound (z + 2 ^ 31) (2 ^ 32)). lia. Qed.

Lemma to_u32_range z : is_u32 (to_u32 z).
Proof. int_simpl. apply Z.mod_pos_bound. lia. Qed.

Lemma to_s32_to_u32 z : to_s32 (to_u32 z) = to_s32 z.
Proof. int_simpl. by rewrite Zplus_mod_idemp_l. Qed.

Lemma to_u32_to_s32 z : to_u32 (to_s32 z) = to_u32 z.
Proof.
  int_simpl. rewrite Zminus_mod_idemp_l. f_equal. lia.
Qed.

Lemma to_s32_u32_id z : is_s32 z -> to_s32 (to_u32 z) = z.
Proof. intros. rewrite to_s32_to_u32. by apply to_s32_id. Qed.

Create HintDb ints.
#[export] Hint Resolve to_s32_range to_u32_range to_s32_id to_u32_id to_s32_u32_id : ints.

(** ** Decimal text *)

(** [std::to_string] on an integer. *)
Definition to_string (z : Z) : string := NilZero.string_of_int (Z.to_int z).

Definition digit_of (c : ascii) : option Z :=
  let n := Z.of_N (N_of_ascii c) in
  if (48 <=? n) && (n <=? 57) then Some (n - 48) else None.

(** [isspace] in the C locale: space and the characters 9 to 13. *)
Definition is_space (c : ascii) : bool :=
  let n := Z.of_N (N_of_ascii c) in (n =? 32) || ((9 <=? n) && (n <=? 13)).

Fixpoint parse_digits (acc : Z) (s : string) : Z :=
  match s with
  | EmptyString => acc
  | String c s' =>
      match digit_of c with
      | Some d => parse_digits (acc * 10 + d) s'
      | None => acc
      end
  end.

Fixpoint skip_space (s : string) : string :=
  match s with
  | String c s' => if is_space c then skip_space s' else s
  | EmptyString => s
  end.

(** The integer that [strtol] reads, before it is put in a machine type. *)
Definition parse_dec (s : string) : Z :=
  match skip_space s with
  | String "-"%char s' => - parse_digits 0 s'
  | String "+"%char s' => parse_digits 0 s'
  | s' => parse_digits 0 s'
  end.

(** [atoi] and [atoll].  The C standard leaves the result open when the number
    does not fit; the model takes the two's complement wrap-around. *)
Definition atoi (s : string) : Z := to_s32 (parse_dec s).
Definition atoll (s : string) : Z := to_s64 (parse_dec s).

Lemma parse_digits_uint p d :
  parse_digits (Zpos p) (NilEmpty.string_of_uint d) = Zpos (Pos.of_uint_acc d p).
Proof.
  revert p. induction d; intros p; simpl; [done|..];
    match goal with
    | IH : forall p, parse_digits _ _ = _ |- parse_digits ?e _ = Z.pos (Pos.of_uint_acc _ ?q) =>
        replace e with (Zpos q) by lia; apply IH
    end.
Qed.

Lemma parse_digits_zero d :
  parse_digits 0 (NilEmpty.string_of_uint d) = Z.of_N (Pos.of_uint d).
Proof.
  induction d; simpl; [done|done|..]; apply parse_digits_uint.
Qed.

Lemma skip_space_uint d :
  d <> Decimal.Nil -> skip_space (NilEmpty.string_of_uint d) = NilEmpty.string_of_uint d.
Proof. by destruct d. Qed.

Lemma parse_dec_uint d :
  d <> Decimal.Nil -> parse_dec (NilEmpty.string_of_uint d) = Z.of_N (Pos.of_uint d).
Proof.
  intros Hd. unfold parse_dec. rewrite skip_space_uint by done.
  rewrite <- parse_digits_zero. by destruct d.
Qed.

Lemma to_uint_nonnil p : Pos.to_uint p <> Decimal.Nil.
Proof. apply Unsigned.to_uint_nonnil. Qed.

(** Printing then reading gives the number back. *)
Lemma parse_dec_to_string z : parse_dec (to_string z) = z.
Proof.
  destruct z as [|p|p]; [done|..]; unfold to_string; simpl;
    unfold NilZero.string_of_uint.
  - pose proof (to_uint_nonnil p) as Hn.
    destruct (Pos.to_uint p) eqn:E; try done;
      rewrite <- E in *; rewrite parse_dec_uint by done;
      by rewrite Unsigned.of_to.
  - pose proof (to_uint_nonnil p) as Hn.
    destruct (Pos.to_uint p) eqn:E; try done;
      rewrite <- E in *; unfold parse_dec; simpl; rewrite parse_digits_zero;
      by rewrite Unsigned.of_to.
Qed.

Lemma atoi_to_string z : is_s32 z -> atoi (to_string z) = z.
Proof. intros H. unfold atoi. rewrite parse_dec_to_string. by apply to_s32_id. Qed.

(** ** Field update of records

    [Eta R] is the expansion of a record over its fields; [Field proj] is the
    update of one field, found by substituting in that expansion. *)
Class Eta (R : Type) := eta : R -> R.
Class Field {R T : Type} (proj : R -> T) := over : (T -> T) -> R -> R.
Arguments over {_ _} proj {_} _ _ : simpl nomatch.

Ltac solve_field :=
  lazymatch goal with
  | |- @Field ?R ?T ?proj =>
      let e := constr:(_ : Eta R) in
      let f := fresh "f" in let r := fresh "r" in
      intros f r;
      let body := eval hnf in e in
      let body := eval cbv beta in (body r) in
      let body := eval pattern (proj r) in body in
      lazymatch body with
      | ?F _ => let t := eval cbv beta in (F (f (proj r))) in exact t
      end
  end.
#[export] Hint Extern 0 (Field _) => solve_field : typeclass_instances.

Declare Scope field_scope.
#[global] Open Scope field_scope.
Notation "r <| proj := v |>" := (over proj (fun _ => v) r)
  (at level 1, left associativity, format "r  <| proj  :=  v |>") : field_scope.
Notation "r <| proj ::= f |>" := (over proj f r)
  (at level 1, left associativity, format "r  <| proj  ::=  f |>") : field_scope.

(** ** State monad with undefined behaviour

    [ST S A] threads a state and has one failure, [None]: the C++ program has
    no defined behaviour there (a null or dangling dereference, a shift out of
    range, a read past a buffer).  An early [return] is not a failure: it is a
    branch of the code. *)
Definition ST (S A : Type) : Type := S -> option (A * S).

#[global] Instance ST_ret S : MRet (ST S) := fun A a s => Some (a, s).
#[global] Instance ST_bind S : MBind (ST S) := fun A B k m s =>
  match m s with
  | Some (a, s') => k a s'
  | None => None
  end.

Definition st_get {S} : ST S S := fun s => Some (s, s).
Definition st_put {S} (s : S) : ST S unit := fun _ => Some (tt, s).
Definition st_modify {S} (f : S -> S) : ST S unit := fun s => Some (tt, f s).
Definition st_undefined {S A} : ST S A := fun _ => None.
(** The value of an expression that is undefined when the option is empty. *)
Definition st_some {S A} (o : option A) : ST S A :=
  match o with Some a => mret a | None => st_undefined end.
Definition st_when {S} (b : bool) (m : ST S unit) : ST S unit :=
  if b then m else mret tt.

Fixpoint st_iter {S A} (f : A -> ST S unit) (l : list A) : ST S unit :=
  match l with
  | [] => mret tt
  | x :: l' => f x ;; st_iter f l'
  end.

(** [x <-? e; k]: read an optional value or return from a void function. *)
Notation "x '<-?' e ; k" := (match e with Some x => k | None => mret tt end)
  (at level 20, e at level 100, k at level 200, right associativity, only parsing) : stdpp_scope.
(** [ret_if b; k]: an early return of a void function. *)
Notation "'ret_if' b ; k" := (if b then mret tt else k)
  (at level 20, b at level 100, k at level 200, right associativity, only parsing)
  : stdpp_scope.

(** *** Specifications

    [spec stuck P m Q]: from a state in [P], [m] ends in [Q], or is undefined
    and then [stuck] holds.  With [stuck := False] this is total correctness,
    with [stuck := True] partial correctness; the rules serve both. *)
Definition spec {S A} (stuck : Prop) (P : S -> Prop) (m : ST S A)
    (Q : A -> S -> Prop) : Prop :=
  forall s, P s -> match m s with Some (a, s') => Q a s' | None => stuck end.

Section spec_rules.
Context {S : Type} (stuck : Prop).
Implicit Types (P : S -> Prop).

Lemma spec_ret {A} P (a : A) (Q : A -> S -> Prop) :
  (forall s, P s -> Q a s) -> spec stuck P (mret a) Q.
Proof. intros H s Hs. apply H, Hs. Qed.

Lemma spec_bind {A B} P (m : ST S A) (k : A -> ST S B) R Q :
  spec stuck P m R -> (forall a, spec stuck (R a) (k a) Q) ->
  spec stuck P (m ≫= k) Q.
Proof.
  intros Hm Hk s Hs. unfold mbind, ST_bind. specialize (Hm s Hs).
  destruct (m s) as [[a s']|]; [by apply Hk | done].
Qed.

Lemma spec_conseq {A} (P P' : S -> Prop) (m : ST S A) (Q Q' : A -> S -> Prop) :
  spec stuck P' m Q' -> (forall s, P s -> P' s) ->
  (forall a s, Q' a s -> Q a s) -> spec stuck P m Q.
Proof.
  intros Hm HP HQ s Hs. specialize (Hm s (HP s Hs)).
  destruct (m s) as [[a s']|]; eauto.
Qed.

Lemma spec_modify P (f : S -> S) (Q : unit -> S -> Prop) :
  (forall s, P s -> Q tt (f s)) -> spec stuck P (st_modify f) Q.
Proof. intros H s Hs. apply H, Hs. Qed.

Lemma spec_undefined {A} P (Q : A -> S -> Prop) :
  (forall s, P s -> stuck) -> spec stuck P st_undefined Q.
Proof. intros H s Hs. eapply H, Hs. Qed.

Lemma spec_some {A} P (o : option A) (Q : A -> S -> Prop) :
  (forall a s, o = Some a -> P s -> Q a s) -> (forall s, o = None -> P s -> stuck) ->
  spec stuck P (st_some o) Q.
Proof. intros H1 H2 s Hs. destruct o; simpl; eauto. Qed.

Lemma spec_pure {A} P (phi : Prop) (m : ST S A) (Q : A -> S -> Prop) :
  (phi -> spec stuck P m Q) -> spec stuck (fun s => P s /\ phi) m Q.
Proof. intros Hm s [Hs Hphi]. by apply Hm. Qed.

Lemma spec_iter {A} P (f : A -> ST S unit) l :
  (forall x, x ∈ l -> spec stuck P (f x) (fun _ => P)) ->
  spec stuck P (st_iter f l) (fun _ => P).
Proof.
  induction l as [|x l IH]; intros H; simpl.
  - by apply spec_ret.
  - apply spec_bind with (R := fun _ => P); [apply H; set_solver |].
    intros _. apply IH. intros y Hy. apply H. set_solver.
Qed.
End spec_rules.

(** Running the first part of a sequence. *)
Lemma run_bind {S A B} (m : ST S A) (k : A -> ST S B) s a s' :
  m s = Some (a, s') -> (m ≫= k) s = k a s'.
Proof. intros E. unfold mbind, ST_bind. by rewrite E. Qed.

Lemma run_bind_some {S A B} (m : ST S A) (k : A -> ST S B) s r :
  (m ≫= k) s = Some r -> exists x s1, m s = Some (x, s1) /\ k x s1 = Some r.
Proof. unfold mbind, ST_bind. destruct (m s) as [[x s1]|] eqn:E; [eauto|done]. Qed.

Lemma run_get_bind {S B} (k : S -> ST S B) s : (st_get ≫= k) s = k s s.
Proof. done. Qed.

Lemma st_iter_ext {S A} (f g : A -> ST S unit) l s :
  (forall x s, f x s = g x s) -> st_iter f l s = st_iter g l s.
Proof.
  intros Hfg. revert s. induction l as [|x l IH]; intros s; [done|]. cbn [st_iter].
  unfold mbind, ST_bind. rewrite Hfg. by destruct (g x s) as [[[] s']|].
Qed.

(** A computation that keeps [P] whenever its result is defined. *)
Definition keeps {S A} (P : S -> Prop) (m : ST S A) : Prop :=
  spec True P m (fun _ => P).

Section keeps_rules.
Context {S : Type} (P : S -> Prop).

Lemma keeps_ret {A} (a : A) : keeps P (mret a).
Proof. by apply spec_ret. Qed.
Lemma keeps_bind {A B} (m : ST S A) (k : A -> ST S B) :
  keeps P m -> (forall a, keeps P (k a)) -> keeps P (m ≫= k).
Proof. intros H1 H2. by apply spec_bind with (R := fun _ => P). Qed.
Lemma keeps_get : keeps P st_get.
Proof. by intros s Hs. Qed.
Lemma keeps_undefined {A} : keeps P (st_undefined (A := A)).
Proof. by intros s Hs. Qed.
Lemma keeps_some {A} (o : option A) : keeps P (st_some o).
Proof. by intros s Hs; destruct o. Qed.
Lemma keeps_when b (m : ST S unit) : keeps P m -> keeps P (st_when b m).
Proof. intros H. destruct b; [done | apply keeps_ret]. Qed.
Lemma keeps_iter {A} (f : A -> ST S unit) l :
  (forall x, keeps P (f x)) -> keeps P (st_iter f l).
Proof. intros H. apply spec_iter. intros x _. apply H. Qed.
Lemma keeps_modify f : (forall s, P s -> P (f s)) -> keeps P (st_modify f).
Proof. intros H. by apply spec_modify. Qed.
Lemma keeps_run {A} (m : ST S A) s a s' : keeps P m -> P s -> m s = Some (a, s') -> P s'.
Proof. intros H Hs E. specialize (H s Hs). by rewrite E in H. Qed.
End keeps_rules.

Create HintDb keeps.
#[export] Hint Resolve keeps_ret keeps_get keeps_undefined keeps_some : keeps.

(** Follows the code: binds, branches and matches; leaves the primitives to the
    [keeps] hint database. *)
Ltac keeps_step :=
  first
  [ solve [eauto 1 with keeps nocore]
  | lazymatch goal with
    | |- keeps _ (_ ≫= _) => apply keeps_bind; [|intros ?]
    | |- keeps _ (st_when _ _) => apply keeps_when
    | |- keeps _ (st_iter _ _) => apply keeps_iter; intros ?
    | |- keeps _ (match ?x with _ => _ end) => destruct x
    | |- keeps _ (let _ := _ in _) => cbv zeta
    end ].
Ltac keeps_auto := repeat keeps_step.

(** A computation that is defined in every state. *)
Definition total {S A} (m : ST S A) : Prop := forall s, is_Some (m s).

Section total_rules.
Context {S : Type}.

Lemma total_ret {A} (a : A) : total (mret a : ST S A).
Proof. intros s. by eexists. Qed.
Lemma total_get : total (st_get (S := S)).
Proof. intros s. by eexists. Qed.
Lemma total_modify (f : S -> S) : total (st_modify f).
Proof. intros s. by eexists. Qed.
Lemma total_bind {A B} (m : ST S A) (k : A -> ST S B) :
  total m -> (forall a, total (k a)) -> total (m ≫= k).
Proof.
  intros Hm Hk s. unfold mbind, ST_bind. destruct (Hm s) as [[a s'] ->]. apply Hk.
Qed.
Lemma total_when b (m : ST S unit) : total m -> total (st_when b m).
Proof. intros Hm. destruct b; [done | apply total_ret]. Qed.
Lemma total_iter {A} (f : A -> ST S unit) l : (forall x, total (f x)) -> total (st_iter f l).
Proof.
  intros Hf. induction l as [|x l IH]; simpl; [apply total_ret|]. apply total_bind; auto.
Qed.
End total_rules.

Create HintDb total.
#[export] Hint Resolve total_ret total_get total_modify : total.
Ltac total_step :=
  first
  [ solve [eauto 1 with total nocore]
  | lazymatch goal with
    | |- total (_ ≫= _) => apply total_bind; [|intros ?]
    | |- total (st_when _ _) => apply total_when
    | |- total (st_iter _ _) => apply total_iter; intros ?
    | |- total (match ?x with _ => _ end) => destruct x
    | |- total (let _ := _ in _) => cbv zeta
    end ].
Ltac total_auto := repeat total_step.

(** A computation that is defined in every state of [P] and stays in [P]. *)
Definition safe {S A} (P : S -> Prop) (m : ST S A) : Prop :=
  spec False P m (fun _ => P).

Section safe_rules.
Context {S : Type} (P : S -> Prop).

Lemma safe_ret {A} (a : A) : safe P (mret a).
Proof. by apply spec_ret. Qed.
Lemma safe_bind {A B} (m : ST S A) (k : A -> ST S B) :
  safe P m -> (forall a, safe P (k a)) -> safe P (m ≫= k).
Proof. intros H1 H2. by apply spec_bind with (R := fun _ => P). Qed.
(** The state that is read satisfies [P]. *)
Lemma safe_get_bind {B} (k : S -> ST S B) : (forall s, P s -> safe P (k s)) -> safe P (st_get ≫= k).
Proof. intros Hk s Hs. exact (Hk s Hs s Hs). Qed.
Lemma safe_when b (m : ST S unit) : (b = true -> safe P m) -> safe P (st_when b m).
Proof. intros H. destruct b; [by apply H | apply safe_ret]. Qed.
Lemma safe_iter {A} (f : A -> ST S unit) l : (forall x, safe P (f x)) -> safe P (st_iter f l).
Proof. intros H. apply spec_iter. intros x _. apply H. Qed.
Lemma safe_modify f : (forall s, P s -> P (f s)) -> safe P (st_modify f).
Proof. intros H. by apply spec_modify. Qed.
Lemma safe_run {A} (m : ST S A) s : safe P m -> P s -> exists a s', m s = Some (a, s') /\ P s'.
Proof. intros H Hs. specialize (H s Hs). destruct (m s) as [[a s']|]; [eauto|done]. Qed.
End safe_rules.

Create HintDb safe.
#[export] Hint Resolve safe_ret : safe.
Ltac safe_step :=
  first
  [ solve [eauto 1 with safe nocore]
  | lazymatch goal with
    | |- safe _ (st_get ≫= _) => apply safe_get_bind; intros ? ?
    | |- safe _ (_ ≫= _) => apply safe_bind; [|intros ?]
    | |- safe _ (st_when _ _) => apply safe_when; intros ?
    | |- safe _ (st_iter _ _) => apply safe_iter; intros ?
    | |- safe _ (match ?x with _ => _ end) => destruct x eqn:?
    | |- safe _ (let _ := _ in _) => cbv zeta
    end ].
Ltac safe_auto := repeat safe_step.

(** ** Maps walked in the order of their keys

    [std::map] is iterated by increasing key. *)
Definition key_le {A} (x y : Z * A) : Prop := x.1 <= y.1.
#[global] Instance key_le_dec {A} : RelDecision (@key_le A).
Proof. intros x y. unfold key_le. apply _. Defined.
#[global] Instance key_le_total {A} : Total (@key_le A).
Proof. intros x y. unfold key_le. lia. Qed.
#[global] Instance key_le_trans {A} : Transitive (@key_le A).
Proof. intros x y z. unfold key_le. lia. Qed.

Definition in_order {A} (m : gmap Z A) : list (Z * A) := merge_sort key_le (map_to_list m).
Definition keys_in_order {A} (m : gmap Z A) : list Z := (in_order m).*1.

Lemma in_order_perm {A} (m : gmap Z A) : in_order m ≡ₚ map_to_list m.
Proof. apply merge_sort_Permutation. Qed.

Lemma elem_of_in_order {A} (m : gmap Z A) k x : (k, x) ∈ in_order m <-> m !! k = Some x.
Proof. rewrite in_order_perm. apply elem_of_map_to_list. Qed.

Lemma elem_of_keys_in_order {A} (m : gmap Z A) k : k ∈ keys_in_order m <-> is_Some (m !! k).
Proof.
  unfold keys_in_order. rewrite list_elem_of_fmap. split.
  - intros ([k' x] & -> & H%elem_of_in_order). by exists x.
  - intros [x H%elem_of_in_order]. by exists (k, x).
Qed.

Lemma NoDup_keys_in_order {A} (m : gmap Z A) : NoDup (keys_in_order m).
Proof.
  unfold keys_in_order. rewrite in_order_perm. apply NoDup_fst_map_to_list.
Qed.

Lemma in_order_sorted {A} (m : gmap Z A) : Sorted key_le (in_order m).
Proof. apply Sorted_merge_sort, _. Qed.

(** A map with string keys in the order of [std::map]. *)
Definition name_le {A} (x y : string * A) : Prop := strings.String.le x.1 y.1.
#[global] Instance name_le_dec {A} : RelDecision (@name_le A).
Proof. intros x y. unfold name_le. apply _. Defined.

Definition by_name {A} (m : gmap string A) : list (string * A) := merge_sort name_le (map_to_list m).

Lemma by_name_perm {A} (m : gmap string A) : by_name m ≡ₚ map_to_list m.
Proof. apply merge_sort_Permutation. Qed.

Lemma elem_of_by_name {A} (m : gmap string A) k x : (k, x) ∈ by_name m <-> m !! k = Some x.
Proof. rewrite by_name_perm. apply elem_of_map_to_list. Qed.

Lemma NoDup_by_name {A} (m : gmap string A) : NoDup (by_name m).*1.
Proof. rewrite by_name_perm. apply NoDup_fst_map_to_list. Qed.

(** ** Texts *)

Lemma substring_all s : substring 0 (String.length s) s = s.
Proof. induction s as [|c s IH]; [done|]. cbn. by rewrite IH. Qed.
