(* ===== verification/Json.v ===== *)
(** * JSON payloads

    Events carry an [nlohmann::json] value.  That library is not part of the
    repository, so the model is written against the interface [Json], which has
    the operations the source calls, and the proofs use only [JsonLaws].  The
    tree type [json] at the end implements the interface; examples run on it. *)
From S2P Require Import Prelude.

Class Json (J : Type) := {
  (** [j.contains(k)] and [j.at(k)] together: [None] on a missing key and on a
      value that is not an object. *)
  json_find : string -> J -> option J;
  (** [is_string()] with [get<std::string>()]. *)
  json_string : J -> option string;
  (** [is_number_integer()] with the number before [get<T>()] narrows it. *)
  json_integer : J -> option Z;
  (** [is_number_unsigned()] with the number. *)
  json_unsigned : J -> option Z;
  (** [is_boolean()] with the truth value. *)
  json_boolean : J -> option bool;
  (** [is_array()] with the elements. *)
  json_array : J -> option (list J);
  (** [is_object()] with the entries. *)
  json_entries : J -> option (list (string * J));
  (** [is_object()] and [is_null()]. *)
  json_is_object : J -> bool;
  json_is_null : J -> bool;
  (** A default constructed value, which is null. *)
  json_null : J;
  (** [j[k] = v] on an object or on null. *)
  json_set : string -> J -> J -> J;
  (** Conversions from a string and from an integer. *)
  json_of_string : string -> J;
  json_of_int : Z -> J;
}.

Class JsonLaws (J : Type) `{Json J} := {
  json_string_of_string s : json_string (json_of_string s) = Some s;
  json_integer_of_int z : json_integer (json_of_int z) = Some z;
  json_find_set_eq k v j :
    json_is_object j = true \/ json_is_null j = true -> json_find k (json_set k v j) = Some v;
  json_find_set_ne k k' v j :
    k <> k' -> json_find k' (json_set k v j) = json_find k' j;
  json_find_object k j v : json_find k j = Some v -> json_is_object j = true;
  json_set_object k v j :
    json_is_object j = true \/ json_is_null j = true -> json_is_object (json_set k v j) = true;
  json_null_is_null : json_is_null json_null = true;
  json_null_no_object : json_is_object json_null = false;
}.

(** Fields of an object with the test of their type. *)
Section fields.
Context {J : Type} `{Json J}.

Definition find_string (k : string) (j : J) : option string := json_find k j ≫= json_string.
Definition find_integer (k : string) (j : J) : option Z := json_find k j ≫= json_integer.

Context `{!JsonLaws J}.

Lemma find_string_set_eq k s (j : J) :
  json_is_object j = true \/ json_is_null j = true ->
  find_string k (json_set k (json_of_string s) j) = Some s.
Proof.
  intros Hj. unfold find_string. rewrite json_find_set_eq by done. simpl.
  apply json_string_of_string.
Qed.

Lemma find_string_set_ne k k' v (j : J) :
  k <> k' -> find_string k' (json_set k v j) = find_string k' j.
Proof. intros Hk. unfold find_string. by rewrite json_find_set_ne. Qed.

Lemma find_string_object k s (j : J) : find_string k j = Some s -> json_is_object j = true.
Proof.
  unfold find_string. destruct (json_find k j) eqn:E; [|done].
  intros _. by eapply json_find_object.
Qed.
End fields.

(** ** An implementation for examples *)

#[local] Set Warnings "-register-all".
Inductive json : Type :=
  | JNull
  | JBool (b : bool)
  | JInteger (z : Z)
  | JUnsigned (z : Z)
  | JString (s : string)
  | JArray (l : list json)
  | JObject (l : list (string * json)).

Fixpoint assoc {A} (k : string) (l : list (string * A)) : option A :=
  match l with
  | [] => None
  | (k', v) :: l' => if String.eqb k k' then Some v else assoc k l'
  end.

Fixpoint assoc_set {A} (k : string) (v : A) (l : list (string * A)) : list (string * A) :=
  match l with
  | [] => [(k, v)]
  | (k', v') :: l' => if String.eqb k k' then (k, v) :: l' else (k', v') :: assoc_set k v l'
  end.

#[export] Instance json_ops : Json json := {|
  json_find k j := match j with JObject l => assoc k l | _ => None end;
  json_string j := match j with JString s => Some s | _ => None end;
  json_integer j := match j with JInteger z | JUnsigned z => Some z | _ => None end;
  json_unsigned j := match j with JUnsigned z => Some z | _ => None end;
  json_boolean j := match j with JBool b => Some b | _ => None end;
  json_array j := match j with JArray l => Some l | _ => None end;
  json_entries j := match j with JObject l => Some l | _ => None end;
  json_is_object j := match j with JObject _ => true | _ => false end;
  json_is_null j := match j with JNull => true | _ => false end;
  json_null := JNull;
  json_set k v j :=
    match j with
    | JObject l => JObject (assoc_set k v l)
    | JNull => JObject [(k, v)]
    | _ => j
    end;
  json_of_string := JString;
  json_of_int := JInteger;
|}.

Lemma assoc_set_eq {A} k (v : A) l : assoc k (assoc_set k v l) = Some v.
Proof.
  induction l as [|[k' v'] l IH]; simpl; [by rewrite String.eqb_refl|].
  destruct (String.eqb k k') eqn:E; simpl; [by rewrite String.eqb_refl | by rewrite E].
Qed.

Lemma assoc_set_ne {A} k k' (v : A) l : k <> k' -> assoc k' (assoc_set k v l) = assoc k' l.
Proof.
  intros Hne. induction l as [|[k2 v2] l IH]; simpl.
  - destruct (String.eqb_spec k' k); [congruence | done].
  - destruct (String.eqb_spec k k2) as [<-|]; simpl.
    + destruct (String.eqb_spec k' k); [congruence | done].
    + by rewrite IH.
Qed.

#[export] Instance json_laws : JsonLaws json.
Proof.
  split; try done.
  - intros k v [] [?|?]; try discriminate; simpl; [by rewrite String.eqb_refl|].
    apply assoc_set_eq.
  - intros k k' v [] Hne; simpl; try done.
    + destruct (String.eqb_spec k' k); [congruence | done].
    + by apply assoc_set_ne.
  - intros k [] v Hf; try discriminate. done.
  - intros k v [] [?|?]; try discriminate; done.
Qed.

(** Payloads whose fields are all text, as most events carry them. *)
Definition text_payload (l : list (string * string)) : json :=
  JObject ((fun p => (p.1, JString p.2)) <$> l).
