(* ===== verification/ResType.v ===== *)
(** * Event types and values

    The constants of [res_type.h] and [res_value.h] that the modelled code
    uses, grouped by the enumeration they belong to. *)
From S2P Require Import Prelude.

(** The event types of [res_type.h]. *)
Definition RES_TYPE_SCREEN_STATUS : Z := 0. (* res_type.h:28 *)
Definition RES_TYPE_APP_STATE_CHANGE : Z := 1. (* res_type.h:30 *)
Definition RES_TYPE_ABILITY_STATE_CHANGE : Z := 2. (* res_type.h:32 *)
Definition RES_TYPE_EXTENSION_STATE_CHANGE : Z := 3. (* res_type.h:34 *)
Definition RES_TYPE_PROCESS_STATE_CHANGE : Z := 4. (* res_type.h:36 *)
Definition RES_TYPE_WINDOW_FOCUS : Z := 5. (* res_type.h:38 *)
Definition RES_TYPE_TRANSIENT_TASK : Z := 6. (* res_type.h:40 *)
Definition RES_TYPE_CONTINUOUS_TASK : Z := 7. (* res_type.h:42 *)
Definition RES_TYPE_CGROUP_ADJUSTER : Z := 8. (* res_type.h:47 *)
Definition RES_TYPE_CLICK_RECOGNIZE : Z := 9. (* res_type.h:49 *)
Definition RES_TYPE_SLIDE_RECOGNIZE : Z := 11. (* res_type.h:53 *)
Definition RES_TYPE_WINDOW_VISIBILITY_CHANGE : Z := 12. (* res_type.h:55 *)
Definition RES_TYPE_APP_INSTALL_UNINSTALL : Z := 15. (* res_type.h:61 *)
Definition RES_TYPE_WIFI_CONNECT_STATE_CHANGE : Z := 16. (* res_type.h:63 *)
Definition RES_TYPE_SCREEN_LOCK : Z := 19. (* res_type.h:69 *)
Definition RES_TYPE_BLUETOOTH_A2DP_CONNECT_STATE_CHANGE : Z := 20. (* res_type.h:71 *)
Definition RES_TYPE_APP_ABILITY_START : Z := 27. (* res_type.h:90 *)
Definition RES_TYPE_POP_PAGE : Z := 28. (* res_type.h:92 *)
Definition RES_TYPE_WEB_GESTURE : Z := 29. (* res_type.h:94 *)
Definition RES_TYPE_RESIZE_WINDOW : Z := 31. (* res_type.h:98 *)
Definition RES_TYPE_MOVE_WINDOW : Z := 32. (* res_type.h:100 *)
Definition RES_TYPE_SHOW_REMOTE_ANIMATION : Z := 33. (* res_type.h:102 *)
Definition RES_TYPE_LOAD_PAGE : Z := 34. (* res_type.h:104 *)
Definition RES_TYPE_REPORT_CAMERA_STATE : Z := 35. (* res_type.h:106 *)
Definition RES_TYPE_RUNNINGLOCK_STATE : Z := 36. (* res_type.h:109 *)
Definition RES_TYPE_DRAG_STATUS_BAR : Z := 37. (* res_type.h:111 *)
Definition RES_TYPE_REPORT_SCENE_BOARD : Z := 38. (* res_type.h:113 *)
Definition RES_TYPE_REPORT_KEY_THREAD : Z := 39. (* res_type.h:115 *)
Definition RES_TYPE_REPORT_WINDOW_STATE : Z := 40. (* res_type.h:117 *)
Definition RES_TYPE_WEB_GESTURE_MOVE : Z := 42. (* res_type.h:121 *)
Definition RES_TYPE_WEB_SLIDE_NORMAL : Z := 43. (* res_type.h:123 *)
Definition RES_TYPE_LOAD_URL : Z := 44. (* res_type.h:125 *)
Definition RES_TYPE_MOUSEWHEEL : Z := 45. (* res_type.h:127 *)
Definition RES_TYPE_WEBVIEW_AUDIO_STATUS_CHANGE : Z := 46. (* res_type.h:129 *)
Definition RES_TYPE_MMI_INPUT_STATE : Z := 47. (* res_type.h:131 *)
Definition RES_TYPE_ANCO_CUST : Z := 48. (* res_type.h:133 *)
Definition RES_TYPE_AV_CODEC_STATE : Z := 57. (* res_type.h:151 *)
Definition RES_TYPE_THERMAL_STATE : Z := 66. (* res_type.h:163 *)
Definition RES_TYPE_SOCPERF_CUST_EVENT_BEGIN : Z := 67. (* res_type.h:165 *)
Definition RES_TYPE_SOCPERF_CUST_EVENT_END : Z := 68. (* res_type.h:167 *)
Definition RES_TYPE_WINDOW_DRAWING_CONTENT_CHANGE : Z := 69. (* res_type.h:169 *)
Definition RES_TYPE_REPORT_SCREEN_CAPTURE : Z := 70. (* res_type.h:172 *)
Definition RES_TYPE_KEY_PERF_SCENE : Z := 72. (* res_type.h:176 *)
Definition RES_TYPE_SA_CONTROL_APP_EVENT : Z := 76. (* res_type.h:184 *)
Definition RES_TYPE_SYSTEM_CPU_LOAD : Z := 77. (* res_type.h:186 *)
Definition RES_TYPE_WEBVIEW_SCREEN_CAPTURE : Z := 83. (* res_type.h:198 *)
Definition RES_TYPE_WEBVIEW_VIDEO_STATUS_CHANGE : Z := 84. (* res_type.h:200 *)
Definition RES_TYPE_DEVICE_MODE_STATUS : Z := 88. (* res_type.h:207 *)
Definition RES_TYPE_WEB_DRAG_RESIZE : Z := 90. (* res_type.h:211 *)
Definition RES_TYPE_FORM_STATE_CHANGE_EVENT : Z := 91. (* res_type.h:213 *)
Definition RES_TYPE_POWER_MODE_CHANGED : Z := 92. (* res_type.h:215 *)
Definition RES_TYPE_BOOT_COMPLETED : Z := 94. (* res_type.h:219 *)
Definition RES_TYPE_CONTINUOUS_STARTUP : Z := 95. (* res_type.h:221 *)
Definition RES_TYPE_ACCOUNT_ACTIVATING : Z := 96. (* res_type.h:223 *)
Definition RES_TYPE_ONLY_PERF_APP_COLD_START : Z := 104. (* res_type.h:239 *)
Definition RES_TYPE_SCENE_ROTATION : Z := 105. (* res_type.h:241 *)
Definition RES_TYPE_SYSTEM_ABILITY_STATUS_CHANGE : Z := 108. (* res_type.h:245 *)
Definition RES_TYPE_MMI_STATUS_CHANGE : Z := 109. (* res_type.h:247 *)
Definition RES_TYPE_BMM_MONITER_CHANGE_EVENT : Z := 113. (* res_type.h:255 *)
Definition RES_TYPE_RSS_CLOUD_CONFIG_UPDATE : Z := 115. (* res_type.h:259 *)
Definition RES_TYPE_MMI_INPUT_POWER_KEY : Z := 117. (* res_type.h:263 *)
Definition RES_TYPE_APP_STOPPED : Z := 118. (* res_type.h:265 *)
Definition RES_TYPE_APP_GAME_BOOST_EVENT : Z := 120. (* res_type.h:269 *)
Definition RES_TYPE_KEY_EVENT : Z := 122. (* res_type.h:273 *)
Definition RES_TYPE_WEB_SLIDE_SCROLL : Z := 127. (* res_type.h:283 *)
Definition RES_TYPE_CROWN_ROTATION_STATUS : Z := 129. (* res_type.h:285 *)
Definition RES_TYPE_FILE_COPY_STATUS : Z := 139. (* res_type.h:303 *)
Definition RES_TYPE_HIGH_FREQUENCE_LOAD_SCENE_WITHOUT_AGGREGATION : Z := 146. (* res_type.h:317 *)
Definition RES_TYPE_REPORT_GAME_STATE_CHANGE : Z := 148. (* res_type.h:321 *)
Definition RES_TYPE_SOCPERF_CUST_ACTION : Z := 149. (* res_type.h:323 *)
Definition RES_TYPE_RECENT_BUILD : Z := 150. (* res_type.h:325 *)
Definition RES_TYPE_DEVICE_ORIENTATION_STATUS : Z := 152. (* res_type.h:329 *)
Definition RES_TYPE_INNER_AUDIO_STATE : Z := 154. (* res_type.h:333 *)
Definition RES_TYPE_REPORT_BATTERY_STATUS_CHANGE : Z := 155. (* res_type.h:335 *)
Definition RES_TYPE_SCHED_MODE_CHANGE : Z := 163. (* res_type.h:351 *)
Definition RES_TYPE_NAP_MODE : Z := 178. (* res_type.h:379 *)
Definition RES_TYPE_AUDIO_CAPTURE_STATUS_CHANGED : Z := 179. (* res_type.h:381 *)
Definition RES_TYPE_SWIPER_FLING_END_EXCEPTION_FLAG : Z := 183. (* res_type.h:389 *)
Definition RES_TYPE_WEB_SUBWIN_TASK : Z := 195. (* res_type.h:411 *)
Definition RES_TYPE_OOBE_CLONE : Z := 197. (* res_type.h:415 *)
Definition RES_TYPE_CREATE_LIVING_APP_PROCESS : Z := 198. (* res_type.h:417 *)
Definition RES_TYPE_SOCPERF_PERFORMANCE_MODE_CHANGED : Z := 213. (* res_type.h:443 *)
Definition RES_TYPE_COSMIC_CUBE_STATE_CHANGE : Z := 502. (* res_type.h:483 *)
Definition RES_TYPE_DISPLAY_POWER_WAKE_UP : Z := 509. (* res_type.h:497 *)

(** Types that only the service, its names or the scene recognizers use. *)
Definition RES_TYPE_PUSH_PAGE : Z := 10. (* res_type.h:51 *)
Definition RES_TYPE_REPORT_MMI_PROCESS : Z := 13. (* res_type.h:57 *)
Definition RES_TYPE_REPORT_RENDER_THREAD : Z := 14. (* res_type.h:59 *)
Definition RES_TYPE_USER_SWITCH : Z := 17. (* res_type.h:65 *)
Definition RES_TYPE_USER_REMOVE : Z := 18. (* res_type.h:67 *)
Definition RES_TYPE_NETWORK_LATENCY_REQUEST : Z := 21. (* res_type.h:73 *)
Definition RES_TYPE_CALL_STATE_UPDATE : Z := 22. (* res_type.h:76 *)
Definition RES_TYPE_THREAD_QOS_CHANGE : Z := 23. (* res_type.h:78 *)
Definition RES_TYPE_AUDIO_RENDER_STATE_CHANGE : Z := 24. (* res_type.h:82 *)
Definition RES_TYPE_AUDIO_RING_MODE_CHANGE : Z := 25. (* res_type.h:85 *)
Definition RES_TYPE_AUDIO_VOLUME_KEY_CHANGE : Z := 26. (* res_type.h:86 *)
Definition RES_TYPE_DEVICE_STILL_STATE_CHANGE : Z := 30. (* res_type.h:96 *)
Definition RES_TYPE_REPORT_SCENE_SCHED : Z := 41. (* res_type.h:119 *)
Definition RES_TYPE_START_UIEXTENSION_PROC : Z := 49. (* res_type.h:135 *)
Definition RES_TYPE_TIMEZONE_CHANGED : Z := 50. (* res_type.h:137 *)
Definition RES_TYPE_CONNECTION_OBSERVER : Z := 51. (* res_type.h:139 *)
Definition RES_TYPE_AV_SESSION_ON_SESSION_CREATE : Z := 52. (* res_type.h:141 *)
Definition RES_TYPE_AV_SESSION_ON_SESSION_RELEASE : Z := 53. (* res_type.h:143 *)
Definition RES_TYPE_AV_SESSION_ON_TOP_SESSION_CHANGE : Z := 54. (* res_type.h:145 *)
Definition RES_TYPE_ON_APP_STATE_CHANGED : Z := 55. (* res_type.h:147 *)
Definition RES_TYPE_EFFICIENCY_RESOURCES_STATE_CHANGED : Z := 56. (* res_type.h:149 *)
Definition RES_TYPE_NITZ_TIME_CHANGED : Z := 58. (* res_type.h:153 *)
Definition RES_TYPE_TIME_CHANGED : Z := 59. (* res_type.h:154 *)
Definition RES_TYPE_NITZ_TIMEZONE_CHANGED : Z := 60. (* res_type.h:155 *)
Definition RES_TYPE_CHARGING_DISCHARGING : Z := 61. (* res_type.h:156 *)
Definition RES_TYPE_USB_DEVICE : Z := 62. (* res_type.h:157 *)
Definition RES_TYPE_CALL_STATE_CHANGED : Z := 63. (* res_type.h:158 *)
Definition RES_TYPE_WIFI_P2P_STATE_CHANGED : Z := 64. (* res_type.h:159 *)
Definition RES_TYPE_APP_ASSOCIATED_START : Z := 65. (* res_type.h:161 *)
Definition RES_TYPE_LONG_FRAME : Z := 71. (* res_type.h:174 *)
Definition RES_TYPE_SUPER_LAUNCHER : Z := 73. (* res_type.h:178 *)
Definition RES_TYPE_CAST_SCREEN : Z := 74. (* res_type.h:180 *)
Definition RES_TYPR_SCREEN_COLLABROATION : Z := 75. (* res_type.h:182 *)
Definition RES_TYPE_UPLOAD_DOWNLOAD : Z := 78. (* res_type.h:188 *)
Definition RES_TYPE_SPLIT_SCREEN : Z := 79. (* res_type.h:190 *)
Definition RES_TYPE_FLOATING_WINDOW : Z := 80. (* res_type.h:192 *)
Definition RES_TYPE_REPORT_DISTRIBUTE_TID : Z := 81. (* res_type.h:194 *)
Definition RES_TYPE_FRAME_RATE_REPORT : Z := 82. (* res_type.h:196 *)
Definition RES_TYPE_LOCATION_STATUS_CHANGE : Z := 85. (* res_type.h:203 *)
Definition RES_TYPE_FORM_RENDER_EVENT : Z := 86. (* res_type.h:205 *)
Definition RES_TYPE_REPORT_DISTRIBUTE_COMPONENT_CHANGE : Z := 89. (* res_type.h:209 *)
Definition RES_TYPE_THERMAL_SCENARIO_REPORT : Z := 93. (* res_type.h:217 *)
Definition RES_TYPE_AUDIO_RENDERER_SILENT_PLAYBACK : Z := 97. (* res_type.h:225 *)
Definition RES_TYPE_CONTINUOUS_INSTALL : Z := 98. (* res_type.h:227 *)
Definition RES_TYPE_FIRST_BOOT_AFTER_SYSTEM_UPGRADE : Z := 99. (* res_type.h:229 *)
Definition RES_TYPE_BACKGROUND_PERCEIVABLE_SCENE : Z := 100. (* res_type.h:231 *)
Definition RES_TYPE_REPORT_GAME_SCHED : Z := 102. (* res_type.h:235 *)
Definition RES_TYPE_SEND_FRAME_EVENT : Z := 103. (* res_type.h:237 *)
Definition RES_TYPE_CLOUD_CONFIG_UPDATE : Z := 107. (* res_type.h:243 *)
Definition RES_TYPE_BT_SERVICE_EVENT : Z := 112. (* res_type.h:253 *)
Definition RES_TYPE_APP_FRAME_DROP : Z := 114. (* res_type.h:257 *)
Definition RES_TYPE_GAME_INFO_NOTIFY : Z := 116. (* res_type.h:261 *)
Definition RES_TYPE_AUDIO_RENDERER_STANDBY : Z := 119. (* res_type.h:267 *)
Definition RES_TYPE_GESTURE_ANIMATION : Z := 121. (* res_type.h:271 *)
Definition RES_TYPE_AXIS_EVENT : Z := 123. (* res_type.h:275 *)
Definition RES_TYPE_GET_GAME_SCENE_INFO : Z := 124. (* res_type.h:277 *)
Definition RES_TYPE_DISPLAY_MULTI_SCREEN : Z := 125. (* res_type.h:279 *)
Definition RES_TYPE_INTENT_CTRL_APP : Z := 126. (* res_type.h:281 *)
Definition RES_TYPE_RED_ENVELOPE : Z := 130. (* res_type.h:287 *)
Definition RES_TYPE_SET_BACKGROUND_PROCESS_PRIORITY : Z := 134. (* res_type.h:295 *)
Definition RES_TYPE_FRAME_RATE_REPORT_FROM_RS : Z := 136. (* res_type.h:299 *)
Definition RES_TYPE_SHORT_TERM_LOAD : Z := 137. (* res_type.h:301 *)
Definition RES_TYPE_PAGE_TRANSITION : Z := 140. (* res_type.h:305 *)
Definition RES_TYPE_VOICE_RECOGNIZE_WAKE : Z := 142. (* res_type.h:309 *)
Definition RES_TYPE_MODEM_PA_HIGH_POWER_ABNORMAL : Z := 143. (* res_type.h:311 *)
Definition RES_TYPE_PARAM_UPDATE_EVENT : Z := 144. (* res_type.h:313 *)
Definition RES_TYPE_CAMERA_PRELAUNCH : Z := 145. (* res_type.h:315 *)
Definition RES_TYPE_OVERLAY_EVENT : Z := 151. (* res_type.h:327 *)
Definition RES_TYPE_WIFI_POWER_STATE_CHANGE : Z := 153. (* res_type.h:331 *)
Definition RES_TYPE_ABILITY_OR_PAGE_SWITCH : Z := 156. (* res_type.h:337 *)
Definition RES_TRPE_GAME_SUSPEND_MODE : Z := 157. (* res_type.h:339 *)
Definition RES_TYPE_APP_OPT_FROM_RECENT : Z := 158. (* res_type.h:341 *)
Definition RES_TYPE_SWIPE_DIRECTION_UP : Z := 159. (* res_type.h:343 *)
Definition RES_TYPE_WINDOW_PANEL : Z := 160. (* res_type.h:345 *)
Definition RES_TYPE_REPORT_BOKER_GATT_CONNECT : Z := 161. (* res_type.h:347 *)
Definition RES_TYPE_WINDOW_SPLIT_SCREEN : Z := 162. (* res_type.h:349 *)
Definition RES_TYPE_SUPPLY_LEVEL : Z := 164. (* res_type.h:353 *)
Definition RES_TYPE_CAMERA_RESET_PRIORITY : Z := 165. (* res_type.h:355 *)
Definition RES_TYPE_DEVICE_IDLE_CHANGED : Z := 167. (* res_type.h:357 *)
Definition RES_TYPE_USER_SLEEP_STATE_CHANGED : Z := 168. (* res_type.h:359 *)
Definition RES_TYPE_APP_HIGH_POWER_CONSUMPTION : Z := 170. (* res_type.h:363 *)
Definition RES_TYPE_ADJUST_PROTECTLRU_RECLAIM_RATIO : Z := 171. (* res_type.h:365 *)
Definition RES_TYPE_STANDBY_FREEZE_FAILED : Z := 172. (* res_type.h:367 *)
Definition RES_TYPE_PROCESS_PRE_FOREGROUND_CHANGE : Z := 173. (* res_type.h:369 *)
Definition RES_TYPE_TDP_TURBO : Z := 174. (* res_type.h:371 *)
Definition RES_TYPE_BACKGROUND_STATUS : Z := 175. (* res_type.h:373 *)
Definition RES_TYPE_CAMERA_STATUS_CHANGED : Z := 176. (* res_type.h:375 *)
Definition RES_TYPE_MEM_OFF_PEAK : Z := 177. (* res_type.h:377 *)
Definition RES_TYPE_CODEC_ENCODE_STATUS_CHANGED : Z := 180. (* res_type.h:383 *)
Definition RES_TYPE_CAMERA_LENS_STATUS_CHANGED : Z := 181. (* res_type.h:385 *)
Definition RES_TYPE_SA_PULL_APP_IDENTIFIER : Z := 182. (* res_type.h:387 *)
Definition RES_TYPE_BACKPRESSED_EVENT : Z := 184. (* res_type.h:391 *)
Definition RES_TYPE_GC_EVENT : Z := 185. (* res_type.h:393 *)
Definition RES_TYPE_START_INPUT_METHOD_PROCESS : Z := 186. (* res_type.h:395 *)
Definition RES_TYPE_IME_QOS_CHANGE : Z := 190. (* res_type.h:401 *)
Definition RES_TYPE_LIVE_VIEW_EVENT : Z := 191. (* res_type.h:403 *)
Definition RES_TYPE_IMAGE_PROCESS_STATE_CHANGED : Z := 199. (* res_type.h:419 *)
Definition RES_TYPE_SNAPSHOT_FAILURE : Z := 200. (* res_type.h:421 *)
Definition RES_TYPE_INPUT_METHOD_CHANGE : Z := 201. (* res_type.h:423 *)
Definition RES_TYPE_NEARLINK_SERVICE_EVENT : Z := 203. (* res_type.h:425 *)
Definition RES_TYPE_AVCODE_HARDWARE_RESOURCES : Z := 207. (* res_type.h:431 *)
Definition RES_TYPE_FLOATING_WINDOW_V1 : Z := 208. (* res_type.h:433 *)
Definition RES_TYPE_FLOATING_WINDOW_V2 : Z := 209. (* res_type.h:435 *)
Definition RES_TYPE_FLOATING_BALL : Z := 210. (* res_type.h:437 *)
Definition RES_TYPE_FIRST_FRAME_DRAWN : Z := 211. (* res_type.h:439 *)
Definition RES_TYPE_COMPONENT_STATE_CHANGE : Z := 212. (* res_type.h:441 *)
Definition RES_TYPE_LOAD_KILL_REASON_CONFIG : Z := 214. (* res_type.h:445 *)
Definition RES_TYPE_FLOAT_START_FROM_SIDEBAR : Z := 216. (* res_type.h:449 *)
Definition RES_TYPE_DISTRIBUTED_CONTINUATION_EVENT : Z := 217. (* res_type.h:451 *)
Definition RES_TYPE_PROCESS_QOS_CHANGE : Z := 221. (* res_type.h:459 *)
Definition RES_TYPE_BGTASK_ADJUST_EVENT : Z := 223. (* res_type.h:463 *)
Definition RES_TYPE_REPORT_NFC_SIGNAL : Z := 224. (* res_type.h:465 *)
Definition RES_TYPE_DIALOG_SHOW_EVENT : Z := 225. (* res_type.h:467 *)
Definition RES_TYPE_LV_INTO_INIM : Z := 226. (* res_type.h:469 *)
Definition RES_TYPE_CAMERA_TORCH_STATE_CHANGE : Z := 227. (* res_type.h:471 *)
Definition SYNC_RES_TYPE_REQUEST_MUTEX_STATUS : Z := 500. (* res_type.h:479 *)
Definition SYNC_RES_TYPE_CHECK_MUTEX_BEFORE_START : Z := 501. (* res_type.h:481 *)
Definition RES_TYPE_RAISE_WORKER_THREAD_PRIORITY : Z := 503. (* res_type.h:485 *)
Definition RES_TYPE_CHECK_APP_IS_IN_SCHEDULE_LIST : Z := 504. (* res_type.h:487 *)
Definition RES_TYPE_DYNAMICALLY_SET_SUSPEND_EXEMPT : Z := 505. (* res_type.h:489 *)
Definition SYNC_RES_TYPE_GET_SUSPEND_STATE_BY_UID : Z := 506. (* res_type.h:491 *)
Definition SYNC_RES_TYPE_GET_SUSPEND_STATE_BY_PID : Z := 507. (* res_type.h:493 *)
Definition SYNC_RES_TYPE_QUERY_TOPN_BUNDLE_USAGE_INFO : Z := 508. (* res_type.h:495 *)
Definition SYNC_RES_TYPE_GET_SMART_GC_SCENE_INFO : Z := 510. (* res_type.h:499 *)
Definition SYNC_RES_TYPE_APP_IS_IN_TAIHANG_LIST : Z := 511. (* res_type.h:501 *)
Definition RES_TYPE_CTRL_FORKALL_IMAGE_INTERFACE : Z := 512. (* res_type.h:503 *)
Definition SYNC_RES_TYPE_GET_IS_TEMPLATE_PROCESS : Z := 513. (* res_type.h:505 *)
Definition SYNC_RES_TYPE_FORKALL_CONFIG_CHANGE : Z := 514. (* res_type.h:507 *)
Definition SYNC_RES_TYPE_GET_UI_NODE_GC_CONFIG : Z := 515. (* res_type.h:509 *)
Definition SYNC_RES_TYPE_NOTIFY_MAKE_IMAGE : Z := 516. (* res_type.h:511 *)
Definition SYNC_RES_TYPE_THAW_ONE_APP : Z := 517. (* res_type.h:513 *)
Definition SYNC_RES_TYPE_GET_ALL_SUSPEND_STATE : Z := 518. (* res_type.h:515 *)
Definition SYNC_RES_TYPE_GET_THERMAL_DATA : Z := 519. (* res_type.h:517 *)
Definition SYNC_RES_TYPE_SHOULD_FORCE_KILL_PROCESS : Z := 520. (* res_type.h:519 *)
Definition SYNC_RES_TYPE_GET_NWEB_PRELOAD_SET : Z := 521. (* res_type.h:521 *)
Definition RES_TYPE_PRELOAD_APPLICATION : Z := 522. (* res_type.h:523 *)
Definition SYNC_RES_TYPE_GET_APP_TYPE : Z := 523. (* res_type.h:525 *)
Definition SYNC_RES_TYPE_DFX_CTRL_IMAGE_INTERFACE : Z := 524. (* res_type.h:527 *)

(** [enum ScreenStatus] of [res_value.h]. *)
Definition SCREEN_OFF : Z := 0. (* res_value.h:134 *)
Definition SCREEN_ON : Z := 1. (* res_value.h:135 *)

(** [enum WakeUpStatus] of [res_value.h]. *)
Definition WAKE_UP_TIMEOUT : Z := 0. (* res_value.h:142 *)
Definition WAKE_UP_START : Z := 1. (* res_value.h:143 *)

(** [enum AppInstallStatus] of [res_value.h]. *)
Definition APP_UNINSTALL : Z := 0. (* res_value.h:150 *)

(** [enum ProcessStatus] of [res_value.h]. *)
Definition PROCESS_CREATED : Z := 0. (* res_value.h:171 *)
Definition PROCESS_BACKGROUND : Z := 4. (* res_value.h:175 *)
Definition PROCESS_DIED : Z := 5. (* res_value.h:176 *)

(** [enum TransientTaskStatus] of [res_value.h]. *)
Definition TRANSIENT_TASK_START : Z := 0. (* res_value.h:183 *)
Definition TRANSIENT_TASK_END : Z := 1. (* res_value.h:184 *)

(** [enum ContinuousTaskStatus] of [res_value.h]. *)
Definition CONTINUOUS_TASK_START : Z := 0. (* res_value.h:194 *)
Definition CONTINUOUS_TASK_END : Z := 1. (* res_value.h:195 *)
Definition CONTINUOUS_TASK_UPDATE : Z := 2. (* res_value.h:196 *)

(** [enum WindowFocusStatus] of [res_value.h]. *)
Definition WINDOW_FOCUS : Z := 0. (* res_value.h:221 *)
Definition WINDOW_UNFOCUS : Z := 1. (* res_value.h:222 *)

(** [enum SlideEventStatus] of [res_value.h]. *)
Definition SLIDE_EVENT_OFF : Z := 0. (* res_value.h:237 *)
Definition SLIDE_EVENT_ON : Z := 1. (* res_value.h:238 *)
Definition SLIDE_NORMAL_BEGIN : Z := 3. (* res_value.h:240 *)
Definition SLIDE_NORMAL_END : Z := 4. (* res_value.h:241 *)
Definition MOVE_EVENT_ON : Z := 7. (* res_value.h:244 *)
Definition SWIPER_FLING_END : Z := 8. (* res_value.h:245 *)

(** [enum ClickEventType] of [res_value.h]. *)
Definition TOUCH_EVENT_DOWN : Z := 1. (* res_value.h:263 *)
Definition CLICK_EVENT : Z := 2. (* res_value.h:264 *)
Definition TOUCH_EVENT_UP : Z := 3. (* res_value.h:265 *)
Definition TOUCH_EVENT_DOWN_MMI : Z := 5. (* res_value.h:267 *)

(** [enum KeyEventType] of [res_value.h]. *)
Definition KEY_EVENT_DOWN : Z := 1. (* res_value.h:275 *)
Definition KEY_EVENT_UP : Z := 2. (* res_value.h:276 *)

(** [enum PushPageType] of [res_value.h]. *)
Definition PUSH_PAGE_START : Z := 0. (* res_value.h:283 *)
Definition PUSH_PAGE_COMPLETE : Z := 1. (* res_value.h:284 *)

(** [enum AppStartType] of [res_value.h]. *)
Definition APP_WARM_START : Z := 0. (* res_value.h:291 *)
Definition APP_COLD_START : Z := 1. (* res_value.h:292 *)

(** [enum WindowResizeType] of [res_value.h]. *)
Definition WINDOW_RESIZING : Z := 0. (* res_value.h:299 *)
Definition WINDOW_RESIZE_STOP : Z := 1. (* res_value.h:300 *)

(** [enum WindowMoveType] of [res_value.h]. *)
Definition WINDOW_MOVING : Z := 0. (* res_value.h:307 *)
Definition WINDOW_MOVE_STOP : Z := 1. (* res_value.h:308 *)

(** [enum ShowRemoteAnimationStatus] of [res_value.h]. *)
Definition ANIMATION_BEGIN : Z := 0. (* res_value.h:315 *)
Definition ANIMATION_END : Z := 1. (* res_value.h:316 *)
Definition ANIMATION_UNLOCK_BEGIN : Z := 2. (* res_value.h:317 *)
Definition ANIMATION_UNLOCK_END : Z := 3. (* res_value.h:318 *)

(** [enum LoadPageType] of [res_value.h]. *)
Definition LOAD_PAGE_START : Z := 0. (* res_value.h:325 *)
Definition LOAD_PAGE_COMPLETE : Z := 1. (* res_value.h:326 *)

(** [enum StatusBarDragStatus] of [res_value.h]. *)
Definition DRAG_START : Z := 0. (* res_value.h:334 *)
Definition DRAG_END : Z := 1. (* res_value.h:335 *)

(** [enum ReportChangeStatus] of [res_value.h]. *)
Definition CREATE : Z := 0. (* res_value.h:342 *)

(** [enum WindowStates] of [res_value.h]. *)
Definition ACTIVE : Z := 0. (* res_value.h:350 *)

(** [enum WebGesture] of [res_value.h]. *)
Definition WEB_GESTURE_START : Z := 0. (* res_value.h:405 *)
Definition WEB_GESTURE_END : Z := 1. (* res_value.h:406 *)

(** [enum WebGestureMove] of [res_value.h]. *)
Definition WEB_GESTURE_MOVE_START : Z := 0. (* res_value.h:413 *)
Definition WEB_GESTURE_MOVE_END : Z := 1. (* res_value.h:414 *)

(** [enum WebSlideNormal] of [res_value.h]. *)
Definition WEB_SLIDE_NORMAL_START : Z := 0. (* res_value.h:421 *)
Definition WEB_SLIDE_NORMAL_END : Z := 1. (* res_value.h:422 *)

(** [enum WebSubwinCall] of [res_value.h]. *)
Definition WEB_SUBWIN_CALL_START : Z := 0. (* res_value.h:429 *)

(** [enum CameraState] of [res_value.h]. *)
Definition CAMERA_CONNECT : Z := 0. (* res_value.h:437 *)
Definition CAMERA_DISCONNECT : Z := 1. (* res_value.h:438 *)

(** [enum RunninglockState] of [res_value.h]. *)
Definition RUNNINGLOCK_STATE_ENABLE : Z := 1. (* res_value.h:446 *)

(** [enum AvCodecState] of [res_value.h]. *)
Definition CODEC_START_INFO : Z := 0. (* res_value.h:493 *)

(** [enum WindowDrawingStatus] of [res_value.h]. *)
Definition NotDrawing : Z := 0. (* res_value.h:518 *)
Definition Drawing : Z := 1. (* res_value.h:519 *)

(** [enum ScreenCaptureStatus] of [res_value.h]. *)
Definition START_SCREEN_CAPTURE : Z := 0. (* res_value.h:526 *)

(** [enum SystemloadLevel] of [res_value.h]. *)
Definition WARNING : Z := 5. (* res_value.h:610 *)

(** [enum DeviceModeStatus] of [res_value.h]. *)
Definition MODE_ENTER : Z := 0. (* res_value.h:631 *)
Definition MODE_QUIT : Z := 1. (* res_value.h:632 *)

(** [enum WebScreenCapture] of [res_value.h]. *)
Definition WEB_SCREEN_CAPTURE_START : Z := 0. (* res_value.h:639 *)

(** [enum WebVideoState] of [res_value.h]. *)
Definition WEB_VIDEO_PLAYING_START : Z := 0. (* res_value.h:647 *)

(** [enum WebDragResizeStatus] of [res_value.h]. *)
Definition WEB_DRAG_START : Z := 0. (* res_value.h:671 *)
Definition WEB_DRAG_END : Z := 1. (* res_value.h:672 *)

(** [enum AccountActivatingStatus] of [res_value.h]. *)
Definition ACCOUNT_ACTIVATING_START : Z := 0. (* res_value.h:695 *)

(** [enum CrownRotationStatus] of [res_value.h]. *)
Definition CROWN_ROTATION_START : Z := 0. (* res_value.h:710 *)
Definition CROWN_ROTATION_END : Z := 2. (* res_value.h:711 *)

(** [enum BmmMoniterStatus] of [res_value.h]. *)
Definition BMM_CLOSE : Z := 0. (* res_value.h:761 *)
Definition BMM_BACKGROUND : Z := 2. (* res_value.h:763 *)

(** [enum GameBoostState] of [res_value.h]. *)
Definition GAME_BOOST_LEVEL0 : Z := 0. (* res_value.h:800 *)
Definition GAME_BOOST_LEVEL1 : Z := 1. (* res_value.h:801 *)
Definition GAME_BOOST_LEVEL2 : Z := 2. (* res_value.h:802 *)
Definition GAME_BOOST_LEVEL3 : Z := 3. (* res_value.h:803 *)

(** [enum CosmicCubeState] of [res_value.h]. *)
Definition APPLICATION_ABOUT_TO_HIDE : Z := 1. (* res_value.h:812 *)
Definition APPLICATION_ABOUT_TO_RECOVER : Z := 2. (* res_value.h:813 *)

(** [enum CopyStatus] of [res_value.h]. *)
Definition COPY_STOP : Z := 0. (* res_value.h:859 *)
Definition COPY_START : Z := 1. (* res_value.h:860 *)

(** [enum HighFrequenceLoadSceneState] of [res_value.h]. *)
Definition HFLS_SCENE_IN : Z := 0. (* res_value.h:868 *)
Definition HFLS_SCENE_OUT : Z := 1. (* res_value.h:869 *)

(** [enum GameState] of [res_value.h]. *)
Definition GAME_GEE_FOCUS_STATE : Z := 4. (* res_value.h:890 *)
Definition GAME_LOST_FOCUS_STATE : Z := 5. (* res_value.h:891 *)

(** [enum GameEnvType] of [res_value.h]. *)
Definition GAME_CUST : Z := 1. (* res_value.h:899 *)

(** [enum RecentBuildStatus] of [res_value.h]. *)
Definition RECENT_BUILD_START : Z := 0. (* res_value.h:906 *)
Definition RECENT_BUILD_STOP : Z := 1. (* res_value.h:907 *)

(** [enum CloneState] of [res_value.h]. *)
Definition CLONE_FINISH : Z := 0. (* res_value.h:1021 *)
Definition CLONE_RUNNING : Z := 1. (* res_value.h:1022 *)
