(* ===== verification/Supervisor.v ===== *)
(** * Process model of the cgroup plugin

    [supervisor.h] and [supervisor.cpp]: the applications by uid, their
    processes by pid, abilities and windows of a process.

    The C++ objects are shared pointers held by the maps [uidsMap_] and
    [pidsMap_] and by the vectors [abilities_] and [windows_].  An object is
    named here by its path in these containers (a uid, a uid and a pid, a uid, a
    pid and a window id); a second pointer to the same object ([focusedProcess_],
    [linkedWindow_]) is that path, and a write through it is a write at the
    path. *)
From S2P Require Import Prelude.

(** ** Constants of the application framework

    The enumerations of the application framework are not in the repository. *)
Class AppExecFwk := {
  APP_STATE_FOREGROUND : Z;
  APP_STATE_BACKGROUND : Z;
  APP_STATE_TERMINATED : Z;
  ABILITY_STATE_CREATE : Z;
  ABILITY_STATE_BACKGROUND : Z;
  ABILITY_STATE_TERMINATED : Z;
  EXTENSION_STATE_TERMINATED : Z;
  AbilityType_SERVICE : Z;
  AbilityType_EXTENSION : Z;
  AbilityType_DATA : Z;
  ProcessType_EXTENSION : Z;
  ProcessType_RENDER : Z;
  ProcessType_GPU : Z;
  ProcessType_CHILD : Z;
  PRE_LAUNCH : Z;
}.

(** ** Policies and record types *)

(** [using SchedPolicy = uint32_t] and its values. *)
Definition SchedPolicy : Type := Z. (* sched_policy.h:25 *)
Definition SP_DEFAULT : SchedPolicy := 0. (* sched_policy.h:33 *)
Definition SP_BACKGROUND : SchedPolicy := 1. (* sched_policy.h:34 *)
Definition SP_FOREGROUND : SchedPolicy := 2. (* sched_policy.h:35 *)
Definition SP_SYSTEM_BACKGROUND : SchedPolicy := 3. (* sched_policy.h:36 *)
Definition SP_TOP_APP : SchedPolicy := 4. (* sched_policy.h:37 *)
Definition SP_UPPER_LIMIT : SchedPolicy := 255. (* sched_policy.h:40 *)

(** [enum ProcRecordType : int32_t]. *)
Definition NORMAL : Z := 0. (* supervisor.h:41 *)
Definition EXTENSION : Z := 1. (* supervisor.h:42 *)
Definition RENDER : Z := 2. (* supervisor.h:43 *)
Definition GPU : Z := 3. (* supervisor.h:44 *)
Definition CHILD : Z := 4. (* supervisor.h:45 *)
Definition PROC_RECORD_TYPE_MAX : Z := 5. (* supervisor.h:46 *)

(** [CpuLevelType::DEFAULT]. *)
Definition CPU_DEFAULT : Z := -1. (* supervisor.h:50 *)

(** supervisor.h:58-71 [WindowInfo] *)
Record WindowInfo := mkWindowInfo {
  windowId_ : Z;
  isVisible_ : bool;
  isFocused_ : bool;
  drawingContentState_ : bool;
  windowType_ : Z;
  displayId_ : Z;
  topWebviewRenderUid_ : Z;
}.
#[export] Instance WindowInfo_eta : Eta WindowInfo := fun w =>
  mkWindowInfo (windowId_ w) (isVisible_ w) (isFocused_ w) (drawingContentState_ w)
    (windowType_ w) (displayId_ w) (topWebviewRenderUid_ w).

(** supervisor.h:60-70 [WindowInfo::WindowInfo] [WindowInfo(windowId)] with the member initialisers. *)
Definition new_WindowInfo (windowId : Z) : WindowInfo :=
  mkWindowInfo windowId false false false 0 0 0.

(** supervisor.h:73-83 [AbilityInfo] *)
Record AbilityInfo := mkAbilityInfo {
  state_ : Z;
  estate_ : Z;
  type_ : Z;
  recordId_ : Z;
  ability_name_ : string;
}.
#[export] Instance AbilityInfo_eta : Eta AbilityInfo := fun a =>
  mkAbilityInfo (state_ a) (estate_ a) (type_ a) (recordId_ a) (ability_name_ a).

(** supervisor.h:75-82 [AbilityInfo::AbilityInfo] *)
Definition new_AbilityInfo (recordId : Z) : AbilityInfo :=
  mkAbilityInfo (-1) (-1) (-1) recordId "".

(** A window by its path: uid and pid of the process that holds it, window id. *)
Record WindowRef := mkWindowRef { ref_uid : Z; ref_pid : Z; ref_window : Z }.

(** supervisor.h:85-171 [ProcessRecord] *)
Record ProcessRecord := mkProcessRecord {
  lastSchedGroup_ : SchedPolicy;
  curSchedGroup_ : SchedPolicy;
  setSchedGroup_ : SchedPolicy;
  specialSchedGroup_ : SchedPolicy;
  policyDescription_ : Z;
  runningTransientTask_ : bool;
  isActive_ : bool;
  inSelfRenderCgroup_ : bool;
  isNapState_ : bool;
  processDrawingState_ : bool;
  screenCaptureState_ : bool;
  videoState_ : bool;
  isLoadState_ : bool;
  webSubWinTaskState_ : bool;
  saPullAppState_ : bool;
  cpuLevel_ : Z;
  processType_ : Z;
  continuousTaskFlag_ : Z;
  audioPlayingState_ : Z;
  audioCapTureState_ : Z;
  processState_ : Z;
  linkedWindow_ : option WindowRef;
  serialNum_ : Z;
  extensionType_ : Z;
  mmiStatus_ : Z;
  cameraState_ : Z;
  bluetoothState_ : Z;
  wifiState_ : Z;
  hostPid_ : Z;
  suppressState_ : Z;
  preloadMode_ : Z;
  rssPullApp : Z;
  runningLockState_ : gmap Z bool;
  avCodecState_ : gmap Z bool;
  abilityIdAndContinuousTaskFlagMap_ : gmap Z (list Z);
  abilities_ : list AbilityInfo;
  windows_ : list WindowInfo;
  keyThreadRoleMap_ : gmap Z Z;
  specialSchedThread_ : gmap Z SchedPolicy;
  policyBeforUnlimitedSuppress_ : gmap Z SchedPolicy;
  processName_ : string;
  codecEncodeState_ : Z;
  pr_uid_ : Z;
  pr_pid_ : Z;
}.
#[export] Instance ProcessRecord_eta : Eta ProcessRecord := fun r =>
  mkProcessRecord (lastSchedGroup_ r) (curSchedGroup_ r) (setSchedGroup_ r) (specialSchedGroup_ r)
    (policyDescription_ r) (runningTransientTask_ r) (isActive_ r) (inSelfRenderCgroup_ r)
    (isNapState_ r) (processDrawingState_ r) (screenCaptureState_ r) (videoState_ r)
    (isLoadState_ r) (webSubWinTaskState_ r) (saPullAppState_ r) (cpuLevel_ r) (processType_ r)
    (continuousTaskFlag_ r) (audioPlayingState_ r) (audioCapTureState_ r) (processState_ r)
    (linkedWindow_ r) (serialNum_ r) (extensionType_ r) (mmiStatus_ r) (cameraState_ r)
    (bluetoothState_ r) (wifiState_ r) (hostPid_ r) (suppressState_ r) (preloadMode_ r)
    (rssPullApp r) (runningLockState_ r) (avCodecState_ r) (abilityIdAndContinuousTaskFlagMap_ r)
    (abilities_ r) (windows_ r) (keyThreadRoleMap_ r) (specialSchedThread_ r)
    (policyBeforUnlimitedSuppress_ r) (processName_ r) (codecEncodeState_ r) (pr_uid_ r) (pr_pid_ r).

(** supervisor.h:87-170 [ProcessRecord::ProcessRecord] [ProcessRecord(uid, pid)]: the uid is kept as an unsigned [uid_t]. *)
Definition new_ProcessRecord (uid pid : Z) : ProcessRecord := {|
  lastSchedGroup_ := SP_UPPER_LIMIT; curSchedGroup_ := SP_UPPER_LIMIT;
  setSchedGroup_ := SP_UPPER_LIMIT; specialSchedGroup_ := SP_UPPER_LIMIT;
  policyDescription_ := 0; runningTransientTask_ := false; isActive_ := false;
  inSelfRenderCgroup_ := false; isNapState_ := false; processDrawingState_ := false;
  screenCaptureState_ := false; videoState_ := false; isLoadState_ := false;
  webSubWinTaskState_ := false; saPullAppState_ := false;
  cpuLevel_ := CPU_DEFAULT; processType_ := NORMAL; continuousTaskFlag_ := 0;
  audioPlayingState_ := -1; audioCapTureState_ := -1; processState_ := 0;
  linkedWindow_ := None; serialNum_ := -1; extensionType_ := -1; mmiStatus_ := -1;
  cameraState_ := -1; bluetoothState_ := -1; wifiState_ := -1; hostPid_ := -1;
  suppressState_ := 0; preloadMode_ := -1; rssPullApp := 0;
  runningLockState_ := ∅; avCodecState_ := ∅; abilityIdAndContinuousTaskFlagMap_ := ∅;
  abilities_ := []; windows_ := []; keyThreadRoleMap_ := ∅; specialSchedThread_ := ∅;
  policyBeforUnlimitedSuppress_ := ∅; processName_ := ""; codecEncodeState_ := -1;
  pr_uid_ := to_u32 uid; pr_pid_ := pid |}.

(** supervisor.h:173-214 [Application] *)
Record Application := mkApplication {
  focusedProcess_ : option Z;
  isCosmicCubeStateHide_ : bool;
  delayTaskPerf_ : bool;
  liveViewState_ : Z;
  app_cpuLevel_ : Z;
  app_uid_ : Z;
  app_name_ : string;
  pidsMap_ : gmap Z ProcessRecord;
  hostPidsSet_ : gset Z;
}.
#[export] Instance Application_eta : Eta Application := fun a =>
  mkApplication (focusedProcess_ a) (isCosmicCubeStateHide_ a) (delayTaskPerf_ a)
    (liveViewState_ a) (app_cpuLevel_ a) (app_uid_ a) (app_name_ a) (pidsMap_ a) (hostPidsSet_ a).

(** supervisor.h:175-213 [Application::Application] *)
Definition new_Application (uid : Z) : Application := {|
  focusedProcess_ := None; isCosmicCubeStateHide_ := false; delayTaskPerf_ := false;
  liveViewState_ := -1; app_cpuLevel_ := CPU_DEFAULT; app_uid_ := to_u32 uid;
  app_name_ := ""; pidsMap_ := ∅; hostPidsSet_ := ∅ |}.

(** supervisor.h:216-247 [Supervisor] *)
Record Supervisor := mkSupervisor {
  sceneBoardUidPid_ : gset (Z * Z);
  installsPid_ : Z;
  installsUid_ : Z;
  uidsMap_ : gmap Z Application;
  systemLoadLevel_ : Z;
  appManager_ : bool;  (* whether the proxy pointer is set *)
}.
#[export] Instance Supervisor_eta : Eta Supervisor := fun s =>
  mkSupervisor (sceneBoardUidPid_ s) (installsPid_ s) (installsUid_ s) (uidsMap_ s)
    (systemLoadLevel_ s) (appManager_ s).

(** supervisor.h:231-246 [Supervisor] *)
Definition new_Supervisor : Supervisor := {|
  sceneBoardUidPid_ := ∅; installsPid_ := -1; installsUid_ := -1; uidsMap_ := ∅;
  systemLoadLevel_ := -1; appManager_ := false |}.

(** ** Vectors searched by an id *)

(** The first element that satisfies the test, as [std::find_if] finds it. *)
Fixpoint find_first {A} (p : A -> bool) (l : list A) : option A :=
  match l with
  | [] => None
  | x :: l' => if p x then Some x else find_first p l'
  end.

(** A write through the pointer that [std::find_if] returns. *)
Fixpoint alter_first {A} (p : A -> bool) (f : A -> A) (l : list A) : list A :=
  match l with
  | [] => []
  | x :: l' => if p x then f x :: l' else x :: alter_first p f l'
  end.

(** [erase] of the first element that satisfies the test. *)
Fixpoint erase_first {A} (p : A -> bool) (l : list A) : list A :=
  match l with
  | [] => []
  | x :: l' => if p x then l' else x :: erase_first p l'
  end.

(** ** ProcessRecord *)

Definition is_ability (recordId : Z) (a : AbilityInfo) : bool := recordId_ a =? recordId.
Definition is_window (windowId : Z) (w : WindowInfo) : bool := windowId_ w =? windowId.

(** supervisor.cpp:27-32 [ProcessRecord::SetName] *)
Definition ProcessRecord_SetName (name : string) (pr : ProcessRecord) : ProcessRecord :=
  if String.eqb (processName_ pr) "" then pr <| processName_ := name |> else pr.

(** supervisor.cpp:47-56 [ProcessRecord::GetAbilityInfo] *)
Definition GetAbilityInfo (recordId : Z) (pr : ProcessRecord) : option AbilityInfo :=
  find_first (is_ability recordId) (abilities_ pr).

(** supervisor.cpp:34-45 [ProcessRecord::GetAbilityInfoNonNull] The record with an ability of this id, which is appended when missing. *)
Definition GetAbilityInfoNonNull (recordId : Z) (pr : ProcessRecord) : ProcessRecord :=
  match find_first (is_ability recordId) (abilities_ pr) with
  | Some _ => pr
  | None => pr <| abilities_ := abilities_ pr ++ [new_AbilityInfo recordId] |>
  end.

Definition alter_ability (recordId : Z) (f : AbilityInfo -> AbilityInfo)
    (pr : ProcessRecord) : ProcessRecord :=
  pr <| abilities_ := alter_first (is_ability recordId) f (abilities_ pr) |>.

(** supervisor.cpp:71-80 [ProcessRecord::GetWindowInfo] *)
Definition GetWindowInfo (windowId : Z) (pr : ProcessRecord) : option WindowInfo :=
  find_first (is_window windowId) (windows_ pr).

(** supervisor.cpp:58-69 [ProcessRecord::GetWindowInfoNonNull] *)
Definition GetWindowInfoNonNull (windowId : Z) (pr : ProcessRecord) : ProcessRecord :=
  match find_first (is_window windowId) (windows_ pr) with
  | Some _ => pr
  | None => pr <| windows_ := windows_ pr ++ [new_WindowInfo windowId] |>
  end.

Definition alter_window (windowId : Z) (f : WindowInfo -> WindowInfo)
    (pr : ProcessRecord) : ProcessRecord :=
  pr <| windows_ := alter_first (is_window windowId) f (windows_ pr) |>.

(** supervisor.cpp:82-90 [ProcessRecord::RemoveAbilityByRecordId] *)
Definition RemoveAbilityByRecordId (recordId : Z) (pr : ProcessRecord) : ProcessRecord :=
  pr <| abilities_ := erase_first (is_ability recordId) (abilities_ pr) |>.

(** supervisor.cpp:92-97 [ProcessRecord::HasAbility] *)
Definition HasAbility (recordId : Z) (pr : ProcessRecord) : bool :=
  existsb (is_ability recordId) (abilities_ pr).

(** supervisor.cpp:99-106 [ProcessRecord::HasServiceExtension] *)
Definition HasServiceExtension `{AppExecFwk} (pr : ProcessRecord) : bool :=
  existsb (fun abi => (type_ abi =? AbilityType_SERVICE) || (type_ abi =? AbilityType_EXTENSION)
                      || (type_ abi =? AbilityType_DATA)) (abilities_ pr).

(** supervisor.cpp:108-113 [ProcessRecord::IsVisible] *)
Definition IsVisible (pr : ProcessRecord) : bool := existsb isVisible_ (windows_ pr).

(** supervisor.cpp:115-125 [ProcessRecord::GetKeyTidSetByRole] *)
Definition GetKeyTidSetByRole (role : Z) (pr : ProcessRecord) : gset Z :=
  dom (filter (fun '(_, tidRole) => tidRole = role) (keyThreadRoleMap_ pr)).

(** ** Application *)

(** supervisor.cpp:127-133 [Application::AddProcessRecord] *)
Definition AddProcessRecord (pr : option ProcessRecord) (app : Application) : Application :=
  match pr with
  | Some pr => app <| pidsMap_ ::= <[pr_pid_ pr := pr]> |>
  | None => app
  end.

(** supervisor.cpp:206-213 [Application::IsHostProcess] *)
Definition IsHostProcess (hostPid : Z) (app : Application) : bool :=
  bool_decide (hostPid ∈ hostPidsSet_ app).

(** supervisor.cpp:201-204 [Application::AddHostProcess] *)
Definition AddHostProcess (hostPid : Z) (app : Application) : Application :=
  app <| hostPidsSet_ ::= union {[hostPid]} |>.

(** supervisor.cpp:135-147 [Application::RemoveProcessRecord] *)
Definition RemoveProcessRecord (pid : Z) (app : Application) : Application :=
  match pidsMap_ app !! pid with
  | Some _ =>
      let app := if decide (focusedProcess_ app = Some pid)
                 then app <| focusedProcess_ := None |> else app in
      let app := if IsHostProcess pid app
                 then app <| hostPidsSet_ ::= fun s => s ∖ {[pid]} |> else app in
      app <| pidsMap_ ::= delete pid |>
  | None => app
  end.

(** supervisor.cpp:149-156 [Application::GetProcessRecord] *)
Definition GetProcessRecord (pid : Z) (app : Application) : option ProcessRecord :=
  pidsMap_ app !! pid.

(** supervisor.cpp:158-167 [Application::GetProcessRecordNonNull] *)
Definition GetProcessRecordNonNull (pid : Z) (app : Application) : Application :=
  match pidsMap_ app !! pid with
  | Some _ => app
  | None => app <| pidsMap_ ::= <[pid := new_ProcessRecord (app_uid_ app) pid]> |>
  end.

(** supervisor.cpp:169-178 [Application::FindProcessRecordByRecordId] The pid of the first process, by increasing pid, that has the ability. *)
Definition FindProcessRecordByRecordId (recordId : Z) (app : Application) : option Z :=
  fst <$> find_first (fun '(_, pr) => HasAbility recordId pr) (in_order (pidsMap_ app)).

(** supervisor.cpp:187-199 [Application::FindProcessRecordByWindowId] *)
Definition FindProcessRecordByWindowId (windowId : Z) (app : Application) : option Z :=
  fst <$> find_first (fun '(_, pr) => existsb (is_window windowId) (windows_ pr))
            (in_order (pidsMap_ app)).

(** supervisor.cpp:180-185 [Application::SetName] *)
Definition Application_SetName (name : string) (app : Application) : Application :=
  if String.eqb (app_name_ app) "" then app <| app_name_ := name |> else app.

(** ** Supervisor *)

(** supervisor.cpp:215-222 [Supervisor::GetAppRecord] *)
Definition GetAppRecord (uid : Z) (sup : Supervisor) : option Application := uidsMap_ sup !! uid.

(** [GetAppRecord] then [GetProcessRecord], null when either is. *)
Definition find_proc (uid pid : Z) (sup : Supervisor) : option ProcessRecord :=
  GetAppRecord uid sup ≫= GetProcessRecord pid.

(** supervisor.cpp:224-233 [Supervisor::GetAppRecordNonNull] *)
Definition GetAppRecordNonNull (uid : Z) (sup : Supervisor) : Supervisor :=
  match uidsMap_ sup !! uid with
  | Some _ => sup
  | None => sup <| uidsMap_ ::= <[uid := new_Application uid]> |>
  end.

(** supervisor.cpp:235-246 [Supervisor::FindProcessRecord] The path of the first record with this pid, by increasing uid. *)
Definition FindProcessRecord (pid : Z) (sup : Supervisor) : option (Z * Z) :=
  (fun p => (p.1, pid)) <$>
    find_first (fun '(_, app) => bool_decide (is_Some (GetProcessRecord pid app)))
      (in_order (uidsMap_ sup)).

(** The processes of all applications in the order of the two nested loops. *)
Definition all_processes (sup : Supervisor) : list (Z * Z * ProcessRecord) :=
  '(uid, app) ← in_order (uidsMap_ sup);
  '(pid, pr) ← in_order (pidsMap_ app);
  [(uid, pid, pr)].

(** supervisor.cpp:248-262 [Supervisor::FindProcessRecordByProcName] *)
Definition FindProcessRecordByProcName (appName procName : string)
    (sup : Supervisor) : option (Z * Z) :=
  fst <$> find_first (fun '(_, pr) => String.eqb (processName_ pr) procName)
    ('(uid, app) ← in_order (uidsMap_ sup);
     if String.eqb (app_name_ app) appName
     then (fun '(pid, pr) => (uid, pid, pr)) <$> in_order (pidsMap_ app) else []).

(** supervisor.cpp:264-270 [Supervisor::RemoveApplication] *)
Definition RemoveApplication (uid : Z) (sup : Supervisor) : Supervisor :=
  sup <| uidsMap_ ::= delete uid |>.

(** supervisor.cpp:272-285 [Supervisor::SearchAbilityRecordId] *)
Definition SearchAbilityRecordId (recordId : Z) (sup : Supervisor) : option (Z * Z) :=
  fst <$> find_first (fun '(_, pr) => HasAbility recordId pr) (all_processes sup).

(** supervisor.cpp:287-305 [Supervisor::SearchWindowId] The path of the first window with this id. *)
Definition SearchWindowId (windowId : Z) (sup : Supervisor) : option WindowRef :=
  (fun '(uid, pid, _) => mkWindowRef uid pid windowId) <$>
    find_first (fun '(_, pr) => existsb (is_window windowId) (windows_ pr)) (all_processes sup).

(** supervisor.cpp:307-310 [Supervisor::SetSystemLoadLevelState] *)
Definition SetSystemLoadLevelState (level : Z) (sup : Supervisor) : Supervisor :=
  sup <| systemLoadLevel_ := level |>.

(** supervisor.cpp:312-315 [Supervisor::GetSystemLoadLevel] *)
Definition GetSystemLoadLevel (sup : Supervisor) : Z := systemLoadLevel_ sup.

(** *** Reload from the application manager *)

(** The fields read from the framework's [RunningProcessInfo] and [ChildProcessInfo]. *)
Record RunningProcessInfo := { rp_uid : Z; rp_pid : Z; rp_bundleNames : list string }.
Record ChildProcessInfo := { cp_hostUid : Z; cp_hostPid : Z; cp_pid : Z }.

Definition alter_app (uid : Z) (f : Application -> Application) (sup : Supervisor) : Supervisor :=
  sup <| uidsMap_ ::= alter f uid |>.

Definition alter_proc (uid pid : Z) (f : ProcessRecord -> ProcessRecord)
    (sup : Supervisor) : Supervisor :=
  alter_app uid (fun app => app <| pidsMap_ ::= alter f pid |>) sup.

(** supervisor.cpp:317-329 [Supervisor::ConnectAppManagerService] The service manager or the remote object may be missing, which leaves the
    proxy as it was ([None]); otherwise the cast may give a null proxy. *)
Definition ConnectAppManagerService (object : option bool) (sup : Supervisor) : Supervisor :=
  match object with
  | None => sup
  | Some proxy => sup <| appManager_ := proxy |>
  end.

(** supervisor.cpp:331-347 [Supervisor::ReloadApplication] *)
Definition ReloadApplication (runningProcess : list RunningProcessInfo)
    (sup : Supervisor) : Supervisor :=
  if negb (appManager_ sup) then sup else
  foldl (fun sup process =>
    let sup := GetAppRecordNonNull (rp_uid process) sup in
    let sup := match rp_bundleNames process with
               | name :: _ => alter_app (rp_uid process) (Application_SetName name) sup
               | [] => sup
               end in
    alter_app (rp_uid process) (GetProcessRecordNonNull (rp_pid process)) sup) sup runningProcess.

(** supervisor.cpp:349-367 [Supervisor::ReloadChildProcess] *)
Definition ReloadChildProcess (childProcess : list ChildProcessInfo)
    (sup : Supervisor) : Supervisor :=
  if negb (appManager_ sup) then sup else
  foldl (fun sup process =>
    let uid := cp_hostUid process in
    let sup := GetAppRecordNonNull uid sup in
    let sup := alter_app uid (AddHostProcess (cp_hostPid process)) sup in
    let sup := alter_app uid (GetProcessRecordNonNull (cp_pid process)) sup in
    let sup := alter_proc uid (cp_pid process) (fun pr => pr <| processType_ := CHILD |>) sup in
    alter_proc uid (cp_pid process) (fun pr => pr <| hostPid_ := cp_hostPid process |>) sup)
    sup childProcess.

(** supervisor.cpp:369-376 [Supervisor::InitSuperVisorContent] *)
Definition InitSuperVisorContent (object : option bool) (runningProcess : list RunningProcessInfo)
    (childProcess : list ChildProcessInfo) (sup : Supervisor) : Supervisor :=
  ReloadChildProcess childProcess
    (ReloadApplication runningProcess (ConnectAppManagerService object sup)).
