(* ===== verification/ProcessGroup.v ===== *)
(** * Process groups

    The directory [process_group] of the cgroup plugin: which scheduling policy
    names exist ([CgroupAction]), which cgroup controllers are configured
    ([CgroupMap]), the file descriptors they write to ([CgroupController]) and
    the entry points that move a process or a thread to a policy
    ([sched_policy.cpp]).

    The singletons are one state record [ProcessGroup]; the function-local
    statics [enable] and [enabled] are fields that are empty until the first
    call.  The operating system and the executor service are the class [Os]. *)
From S2P Require Import Prelude Json Supervisor.

(** ** Environment

    What the code calls outside the repository, over a state [O]. *)
Class Os (J O : Type) := {
  (** [access(path, F_OK) == 0] *)
  os_access : string -> O -> bool;
  (** [realpath], and [PathToRealPath] of the common library *)
  os_realpath : string -> O -> option string;
  (** [open(path, O_WRONLY | O_CLOEXEC)] *)
  os_open : string -> O -> Z * O;
  (** [write(fd, text, length)]: the result and [errno] *)
  os_write : Z -> string -> O -> (Z * Z) * O;
  (** [vsnprintf_s] into a buffer of 256 bytes, given the full expansion: its
      result and the text in the buffer *)
  os_vsnprintf : string -> Z * string;
  (** [GetCfgFiles]: absent, or the list of paths, each of which may be null *)
  os_GetCfgFiles : string -> O -> option (list (option string));
  (** [nlohmann::json::parse] of a file: [None] when the file does not open or
      the text does not parse *)
  os_parse_file : string -> O -> option J;
  (** [ResSchedExeClient::SendRequestSync(resType, value, payload, reply)]: the
      result and the reply *)
  os_SendRequestSync : Z -> Z -> J -> O -> (Z * J) * O;
  (** [system::GetParameter("ohos.boot.kernel", "")] *)
  os_boot_kernel : string;
}.

(** ** Constants *)

Definition PATH_MAX : Z := 4096.
Definition ESRCH : Z := 3.
(** res_exe_type.h:26-40 [RES_TYPE_CGROUP_SYNC_EVENT] *)
Definition RES_TYPE_CGROUP_SYNC_EVENT : Z := 3.
Definition RES_TYPE_CGROUP_PROC_TASK_SYNC_EVENT : Z := 4.
Definition RES_TYPE_SET_THREAD_SCHED_POLICY_SYNC_EVENT : Z := 5.
Definition RES_TYPE_SET_THREAD_GROUP_SCHED_POLICY_SYNC_EVENT : Z := 6.

(** ** State *)

(** cgroup_controller.h:29-62 [CgroupController] *)
Record CgroupController := mkCgroupController {
  cc_name_ : string;
  cc_path_ : string;
  policyToTaskFd_ : gmap Z Z;
  policyToProcFd_ : gmap Z Z;
}.
#[export] Instance CgroupController_eta : Eta CgroupController := fun c =>
  mkCgroupController (cc_name_ c) (cc_path_ c) (policyToTaskFd_ c) (policyToProcFd_ c).

(** cgroup_action.h:55-58 [CgroupAction] *)
Record CgroupAction := mkCgroupAction {
  allowToAdd_ : bool;
  fullNames_ : gmap Z string;
  abbrNames_ : gmap Z string;
}.
#[export] Instance CgroupAction_eta : Eta CgroupAction := fun a =>
  mkCgroupAction (allowToAdd_ a) (fullNames_ a) (abbrNames_ a).

(** cgroup_map.h:31-53 [CgroupMap] *)
Definition CgroupMap : Type := gmap string CgroupController.

Record ProcessGroup (O : Type) := mkProcessGroup {
  action : CgroupAction;
  controllers_ : CgroupMap;
  enable : option bool;   (* the static of CgroupAction::IsEnabled *)
  enabled : option bool;  (* the static of CgroupController::IsEnabled *)
  os : O;
}.
Arguments mkProcessGroup {_}.
Arguments action {_}.
Arguments controllers_ {_}.
Arguments enable {_}.
Arguments enabled {_}.
Arguments os {_}.
#[export] Instance ProcessGroup_eta O : Eta (ProcessGroup O) := fun s =>
  mkProcessGroup (action s) (controllers_ s) (enable s) (enabled s) (os s).

Definition controllers_in_order (m : CgroupMap) : list (string * CgroupController) := by_name m.

(** ** Declared policies *)

(** cgroup_action.cpp:68-96 [CgroupAction::AddSchedPolicyDeclaration] *)
Definition AddSchedPolicyDeclaration (policy : SchedPolicy) (fullName abbrName : string)
    (a : CgroupAction) : CgroupAction :=
  if negb (allowToAdd_ a) then a
  else if policy >=? SP_UPPER_LIMIT then a
  else if String.eqb fullName "" || String.eqb abbrName "" then a
  else if bool_decide (is_Some (fullNames_ a !! policy)) then a
  else if existsb (fun kv => String.eqb kv.2 fullName) (map_to_list (fullNames_ a)) then a
  else a <| fullNames_ ::= <[policy := fullName]> |> <| abbrNames_ ::= <[policy := abbrName]> |>.

(** cgroup_action.cpp:59-66 [CgroupAction::CgroupAction] *)
Definition new_CgroupAction : CgroupAction :=
  AddSchedPolicyDeclaration SP_TOP_APP "sp_top_app" "ta"
  (AddSchedPolicyDeclaration SP_SYSTEM_BACKGROUND "sp_system_background" "sy"
  (AddSchedPolicyDeclaration SP_FOREGROUND "sp_foreground" "fg"
  (AddSchedPolicyDeclaration SP_BACKGROUND "sp_background" "bg"
  (AddSchedPolicyDeclaration SP_DEFAULT "sp_default" "df"
    (mkCgroupAction true ∅ ∅))))).

(** cgroup_action.cpp:98-105 [CgroupAction::GetSchedPolicyList] *)
Definition GetSchedPolicyList (a : CgroupAction) : list SchedPolicy := keys_in_order (fullNames_ a).

(** cgroup_action.cpp:107-111 [CgroupAction::IsSchedPolicyValid] *)
Definition IsSchedPolicyValid (policy : SchedPolicy) (a : CgroupAction) : bool :=
  bool_decide (is_Some (fullNames_ a !! policy)).

(** cgroup_action.cpp:113-120 [CgroupAction::GetSchedPolicyFullName] *)
Definition GetSchedPolicyFullName (policy : SchedPolicy) (a : CgroupAction) : string :=
  match fullNames_ a !! policy with Some n => n | None => "error" end.

(** cgroup_action.cpp:122-129 [CgroupAction::GetSchedPolicyAbbrName] *)
Definition GetSchedPolicyAbbrName (policy : SchedPolicy) (a : CgroupAction) : string :=
  match abbrNames_ a !! policy with Some n => n | None => "error" end.

(** cgroup_action.cpp:229-240 [CgroupAction::GetSchedPolicyByName] the result
    and the policy stored through the pointer *)
Definition GetSchedPolicyByName (name : string) (a : CgroupAction) : Z * SchedPolicy :=
  match find_first (fun kv => String.eqb kv.2 name) (in_order (fullNames_ a)) with
  | Some (policy, _) => (0, policy)
  | None => (-1, SP_UPPER_LIMIT)
  end.

Section process_group.
  Context {J O : Type} `{!Json J} `{!Os J O}.

(** The monad of the code that uses the singletons. *)
#[local] Abbreviation PG := (ST (ProcessGroup O)).

Definition os_run {A} (f : O -> A * O) : PG A :=
  fun s => let '(a, o) := f (os s) in Some (a, s <| os := o |>).

(** ** Paths *)

(** process_group_util.cpp:37-57 [StringPrintf] on the expanded text *)
Definition StringPrintf (text : string) : string :=
  let '(nWritten, buffer) := os_vsnprintf (J := J) (O := O) text in
  if nWritten >? 0 then substring 0 (Z.to_nat nWritten) buffer else "".

(** ** Controllers *)

(** cgroup_controller.cpp:37-46 [CgroupController::CgroupController] *)
Definition new_CgroupController (name path : string) (a : CgroupAction) : CgroupController :=
  foldl (fun c policy =>
    c <| policyToTaskFd_ ::= <[policy := -1]> |> <| policyToProcFd_ ::= <[policy := -1]> |>)
    (mkCgroupController name path ∅ ∅) (GetSchedPolicyList a).

(** cgroup_controller.cpp:79-84 [CgroupController::IsEnabled] *)
Definition CgroupController_IsEnabled (c : CgroupController) : PG bool :=
  s ← st_get;
  match enabled s with
  | Some b => mret b
  | None =>
      let b := os_access (J := J) (cc_path_ c +:+ "/tasks") (os s) in
      st_modify (fun s => s <| enabled := Some b |>);; mret b
  end.

(** cgroup_controller.cpp:100-113 [CgroupController::AddTidToCgroup] *)
Definition AddTidToCgroup (tid fd : Z) : PG bool :=
  let value := to_string tid in
  let len := to_s32 (Z.of_nat (String.length value)) in
  '(written, errno) ← os_run (os_write (J := J) fd value);
  if written =? len then mret true
  else if errno =? ESRCH then mret true
  else mret false.

(** cgroup_controller.cpp:86-98 [CgroupController::SetThreadSchedPolicy].
    [operator[]] adds the entry 0 when the policy has none; the controller is
    given by its key in [controllers_]. *)
Definition CgroupController_SetThreadSchedPolicy (key : string) (c : CgroupController) (tid : Z)
    (policy : SchedPolicy) (isSetThreadGroup : bool) : PG bool :=
  let fds := if isSetThreadGroup then policyToProcFd_ c else policyToTaskFd_ c in
  let fd := default 0 (fds !! policy) in
  let fds := <[policy := fd]> fds in
  let c := if isSetThreadGroup then c <| policyToProcFd_ := fds |>
           else c <| policyToTaskFd_ := fds |> in
  st_modify (fun s => s <| controllers_ ::= <[key := c]> |>);;
  if fd <? 0 then mret false else AddTidToCgroup tid fd.

(** The two functions that open a file of a group differ in the file's name. *)
Definition open_group_file (file : string) (c : CgroupController) (subgroup : string)
    : PG (option Z) :=
  let filePath :=
    if String.eqb subgroup "" then StringPrintf (cc_path_ c +:+ "/" +:+ file)
    else StringPrintf (cc_path_ c +:+ "/" +:+ subgroup +:+ "/" +:+ file) in
  s ← st_get;
  match os_realpath (J := J) filePath (os s) with
  | None => mret None
  | Some realPath =>
      fd ← os_run (os_open (J := J) realPath);
      if fd <? 0 then mret None else mret (Some fd)
  end.

(** cgroup_controller.cpp:142-163 [CgroupController::AddThreadSchedPolicy] *)
Definition AddThreadSchedPolicy (policy : SchedPolicy) (subgroup : string)
    (c : CgroupController) : PG (bool * CgroupController) :=
  o ← open_group_file "tasks" c subgroup;
  match o with
  | None => mret (false, c)
  | Some fd => mret (true, c <| policyToTaskFd_ ::= <[policy := fd]> |>)
  end.

(** cgroup_controller.cpp:165-186 [CgroupController::AddThreadGroupSchedPolicy] *)
Definition AddThreadGroupSchedPolicy (policy : SchedPolicy) (subgroup : string)
    (c : CgroupController) : PG (bool * CgroupController) :=
  o ← open_group_file "cgroup.procs" c subgroup;
  match o with
  | None => mret (false, c)
  | Some fd => mret (true, c <| policyToProcFd_ ::= <[policy := fd]> |>)
  end.

(** cgroup_controller.cpp:115-118 [CgroupController::AddSchedPolicy] *)
Definition AddSchedPolicy (policy : SchedPolicy) (subgroup : string)
    (c : CgroupController) : PG (bool * CgroupController) :=
  '(b, c) ← AddThreadSchedPolicy policy subgroup c;
  if b : bool then AddThreadGroupSchedPolicy policy subgroup c else mret (false, c).

(** process_group_util.cpp:59-72 [ReadFileToStringForVFSFromExecutor] *)
Definition ReadFileToStringForVFSFromExecutor (tid : Z) : PG (option string) :=
  let payload := json_set "pid" (json_of_int tid) json_null in
  '(_, reply) ← os_run (os_SendRequestSync RES_TYPE_CGROUP_SYNC_EVENT 0 payload);
  mret (find_string "res" reply).

(** [substr(startPos)] throws when the position is past the end. *)
Definition substr_from (startPos : nat) (s : string) : option string :=
  if (startPos <=? String.length s)%nat
  then Some (substring startPos (String.length s - startPos) s) else None.

(** cgroup_controller.cpp:120-140 [CgroupController::GetTaskGroup]: [None] is
    the result [false] *)
Definition GetTaskGroup (tid : Z) (c : CgroupController) : PG (option string) :=
  o ← ReadFileToStringForVFSFromExecutor tid;
  match o with
  | None => mret None
  | Some content =>
      let cgTag := StringPrintf (":" +:+ cc_name_ c +:+ ":") in
      match index 0 cgTag content with
      | None => mret None
      | Some startPos =>
          let startPos := (startPos + (String.length cgTag + 1))%nat in
          match index startPos (String "010"%char "") content with
          | None => subgroup ← st_some (substr_from startPos content); mret (Some subgroup)
          | Some endPos => mret (Some (substring startPos (endPos - startPos) content))
          end
      end
  end.

(** ** Configured controllers *)

(** cgroup_map.cpp:41-53 [CgroupMap::SetThreadSchedPolicy] *)
Definition CgroupMap_SetThreadSchedPolicy (tid : Z) (policy : SchedPolicy)
    (isThreadGroup : bool) : PG bool :=
  s ← st_get;
  st_iter (fun '(key, controller) =>
    e ← CgroupController_IsEnabled controller;
    if e : bool then
      CgroupController_SetThreadSchedPolicy key controller tid policy isThreadGroup;; mret tt
    else mret tt) (controllers_in_order (controllers_ s));;
  mret true.

(** cgroup_map.cpp:60-79 [CgroupMap::CheckCgroupConfigFormat]: the checked
    fields when the format is right *)
Definition CheckCgroupConfigFormat (cgroupObj : J) : option (string * string * J) :=
  if negb (json_is_object cgroupObj) then None else
  match find_string "controller" cgroupObj, find_string "path" cgroupObj,
        json_find "sched_policy" cgroupObj with
  | Some name, Some path, Some policy =>
      if json_is_object policy then Some (name, path, policy) else None
  | _, _, _ => None
  end.

(** cgroup_map.cpp:139-151 [CgroupMap::LoadSchedPolicyConfig] the loop *)
Fixpoint load_policies (a : CgroupAction) (policyObj : J) (policyList : list SchedPolicy)
    (count : Z) (c : CgroupController) : PG (bool * CgroupController) :=
  match policyList with
  | [] => mret (count >? 0, c)
  | policy :: policyList =>
      let keyString := GetSchedPolicyFullName policy a in
      if String.eqb keyString "error" then load_policies a policyObj policyList count c
      else match find_string keyString policyObj with
           | None => load_policies a policyObj policyList count c
           | Some subgroup =>
               '(b, c) ← AddSchedPolicy policy subgroup c;
               load_policies a policyObj policyList (if b : bool then count + 1 else count) c
           end
  end.

(** cgroup_map.cpp:130-153 [CgroupMap::LoadSchedPolicyConfig] *)
Definition LoadSchedPolicyConfig (c : CgroupController) (policyObj : J)
    : PG (bool * CgroupController) :=
  if negb (json_is_object policyObj) then mret (false, c) else
  s ← st_get;
  load_policies (action s) policyObj (GetSchedPolicyList (action s)) 0 c.

(** One element of the configuration array: whether it counts. *)
Definition load_controller (cgroupObj : J) : PG bool :=
  match CheckCgroupConfigFormat cgroupObj with
  | None => mret false
  | Some (name, rootPath, policyObj) =>
      if String.eqb name "" || String.eqb rootPath "" then mret false else
      s ← st_get;
      match controllers_ s !! name with
      | Some c =>
          '(b, c) ← LoadSchedPolicyConfig c policyObj;
          st_modify (fun s => s <| controllers_ ::= <[name := c]> |>);; mret b
      | None =>
          '(b, c) ← LoadSchedPolicyConfig (new_CgroupController name rootPath (action s)) policyObj;
          st_when b (st_modify (fun s => s <| controllers_ ::= <[name := c]> |>));; mret b
      end
  end.

Fixpoint load_controllers (jsonArrObj : list J) (count : Z) : PG Z :=
  match jsonArrObj with
  | [] => mret count
  | cgroupObj :: rest =>
      b ← load_controller cgroupObj;
      load_controllers rest (if b : bool then count + 1 else count)
  end.

(** cgroup_map.cpp:81-128 [CgroupMap::LoadConfigFromJsonObj] *)
Definition LoadConfigFromJsonObj (jsonObj : J) : PG bool :=
  if negb (json_is_object jsonObj) then mret false else
  match json_find "Cgroups" jsonObj ≫= json_array with
  | None => mret false
  | Some jsonArrObj =>
      count ← load_controllers jsonArrObj 0;
      mret (negb (count =? 0))
  end.

(** cgroup_map.cpp:155-163 [CgroupMap::FindAllEnableCgroupControllers] *)
Definition FindAllEnableCgroupControllers : PG (list CgroupController) :=
  s ← st_get;
  (fix find (l : list (string * CgroupController)) : PG (list CgroupController) :=
     match l with
     | [] => mret []
     | (_, c) :: l =>
         e ← CgroupController_IsEnabled c;
         cs ← find l;
         mret (if e : bool then c :: cs else cs)
     end) (controllers_in_order (controllers_ s)).

(** res_sched_json_util.cpp:97-121 [LoadFileToJsonObj] *)
Definition LoadFileToJsonObj (absolutePath : string) (o : O) : option J :=
  let len := Z.of_nat (String.length absolutePath) in
  if (len =? 0) || (len >? PATH_MAX) then None else
  match os_realpath (J := J) absolutePath o with
  | None => None
  | Some realConfigFile => os_parse_file realConfigFile o
  end.

(** cgroup_action.cpp:242-272 [CgroupAction::ParseConfigFileToJsonObj]: the
    objects found; the result is whether there is one *)
Definition ParseConfigFileToJsonObj : PG (list J) :=
  s ← st_get;
  match os_GetCfgFiles (J := J) "etc/cgroup_sched/cgroup_action_config.json" (os s) with
  | None => mret []
  | Some paths =>
      let cfgFiles := omap (fun configFilePath : option string =>
        match configFilePath with
        | None => None
        | Some p =>
            let len := Z.of_nat (String.length p) in
            if (len =? 0) || (len >? PATH_MAX) then None else os_realpath (J := J) p (os s)
        end) paths in
      mret (omap (fun cfgFile =>
        match LoadFileToJsonObj cfgFile (os s) with
        | Some j => match json_find "Cgroups" j with Some _ => Some j | None => None end
        | None => None
        end) cfgFiles)
  end.

(** cgroup_action.cpp:171-185 [CgroupAction::LoadConfigFile] *)
Definition LoadConfigFile : PG bool :=
  jsonObjRoots ← ParseConfigFileToJsonObj;
  (fix load (l : list J) (ret : bool) : PG bool :=
     match l with
     | [] => mret ret
     | j :: l => b ← LoadConfigFromJsonObj j; load l (if b : bool then true else ret)
     end) jsonObjRoots false.

(** cgroup_action.cpp:187-195 [CgroupAction::IsEnabled] *)
Definition CgroupAction_IsEnabled : PG bool :=
  st_modify (fun s => s <| action ::= fun a => a <| allowToAdd_ := false |> |>);;
  s ← st_get;
  match enable s with
  | Some b => mret b
  | None =>
      b ← LoadConfigFile;
      st_modify (fun s => s <| enable := Some b |>);; mret b
  end.

(** ** Setting a policy *)

(** cgroup_action.cpp:131-140 [CgroupAction::SetThreadSchedPolicy] *)
Definition CgroupAction_SetThreadSchedPolicy (tid : Z) (policy : SchedPolicy) : PG bool :=
  s ← st_get;
  if negb (IsSchedPolicyValid policy (action s)) then mret false else
  e ← CgroupAction_IsEnabled;
  if negb e then mret false else
  CgroupMap_SetThreadSchedPolicy tid policy false.

(** cgroup_action.cpp:142-151 [CgroupAction::SetThreadGroupSchedPolicy] *)
Definition CgroupAction_SetThreadGroupSchedPolicy (tid : Z) (policy : SchedPolicy) : PG bool :=
  s ← st_get;
  if negb (IsSchedPolicyValid policy (action s)) then mret false else
  e ← CgroupAction_IsEnabled;
  if negb e then mret false else
  CgroupMap_SetThreadSchedPolicy tid policy true.

(** cgroup_action.cpp:153-169 [CgroupAction::SetSchedPolicyByExecutor] *)
Definition SetSchedPolicyByExecutor (tid policy resType : Z) : PG Z :=
  let payload := json_set "tid" (json_of_string (to_string tid)) json_null in
  let payload := json_set "policy" (json_of_string (to_string policy)) payload in
  '(ret, reply) ← os_run (os_SendRequestSync resType 0 payload);
  if negb (ret =? 0) then mret ret else
  match find_string "ret" reply with
  | Some text => mret (atoi text)
  | None => mret ret
  end.

(** sched_policy.cpp:25-25 [IS_NEED_TO_SET_POLICY_BY_EXECUTOR] *)
Definition IS_NEED_TO_SET_POLICY_BY_EXECUTOR : bool :=
  (String.length (os_boot_kernel (J := J) (O := O)) =? 0)%nat.

(** sched_policy.cpp:28-40 [SetThreadSchedPolicy] *)
Definition SetThreadSchedPolicy (tid policy : Z) : PG Z :=
  if tid <=? 0 then mret (-1) else
  b ← CgroupAction_SetThreadSchedPolicy tid (to_u32 policy);
  if IS_NEED_TO_SET_POLICY_BY_EXECUTOR
  then SetSchedPolicyByExecutor tid policy RES_TYPE_SET_THREAD_SCHED_POLICY_SYNC_EVENT
  else mret (if b : bool then 0 else -1).

(** sched_policy.cpp:42-54 [SetThreadGroupSchedPolicy] *)
Definition SetThreadGroupSchedPolicy_impl (pid policy : Z) : PG Z :=
  if pid <=? 0 then mret (-1) else
  b ← CgroupAction_SetThreadGroupSchedPolicy pid (to_u32 policy);
  if IS_NEED_TO_SET_POLICY_BY_EXECUTOR
  then SetSchedPolicyByExecutor pid policy RES_TYPE_SET_THREAD_GROUP_SCHED_POLICY_SYNC_EVENT
  else mret (if b : bool then 0 else -1).

(** ** Reading a policy *)

(** [std::replace] of ['-'] by ['_']. *)
Fixpoint dash_to_underscore (s : string) : string :=
  match s with
  | EmptyString => EmptyString
  | String c s => String (if Ascii.eqb c "-" then "_"%char else c) (dash_to_underscore s)
  end.

(** The loop over the controllers in [GetSchedPolicy]. *)
Fixpoint first_task_group (tid : Z) (cs : list CgroupController) : PG (option string) :=
  match cs with
  | [] => mret None
  | c :: cs =>
      o ← GetTaskGroup tid c;
      match o with
      | Some subgroup => mret (Some subgroup)
      | None => first_task_group tid cs
      end
  end.

(** cgroup_action.cpp:197-227 [CgroupAction::GetSchedPolicy] *)
Definition GetSchedPolicy (tid : Z) : PG (Z * SchedPolicy) :=
  e ← CgroupAction_IsEnabled;
  if negb e then mret (-1, SP_UPPER_LIMIT) else
  controllers ← FindAllEnableCgroupControllers;
  o ← first_task_group tid controllers;
  match o with
  | None => mret (-1, SP_UPPER_LIMIT)
  | Some subgroup =>
      if String.eqb subgroup "" then mret (0, SP_DEFAULT) else
      s ← st_get;
      mret (GetSchedPolicyByName ("sp_" +:+ dash_to_underscore subgroup) (action s))
  end.

(** sched_policy.cpp:56-62 [GetThreadSchedPolicy]: [None] for the policy when
    the pointer is not written *)
Definition GetThreadSchedPolicy (tid : Z) : PG (Z * option SchedPolicy) :=
  if tid <=? 0 then mret (-1, None) else
  '(ret, policy) ← GetSchedPolicy tid;
  mret (ret, Some policy).

(** ** Definedness

    Moving a process never fails to return; only reading a group can throw. *)

Lemma total_os_run {A} (f : O -> A * O) : total (os_run f).
Proof. intros s. unfold os_run. destruct (f (os s)). by eexists. Qed.
#[local] Hint Resolve total_os_run : total.

Lemma total_open_group_file file c subgroup : total (open_group_file file c subgroup).
Proof. unfold open_group_file. total_auto. Qed.
#[local] Hint Resolve total_open_group_file : total.

Lemma total_AddSchedPolicy policy subgroup c : total (AddSchedPolicy policy subgroup c).
Proof.
  unfold AddSchedPolicy, AddThreadSchedPolicy, AddThreadGroupSchedPolicy. total_auto.
Qed.
#[local] Hint Resolve total_AddSchedPolicy : total.

Lemma total_LoadSchedPolicyConfig c policyObj : total (LoadSchedPolicyConfig c policyObj).
Proof.
  assert (Hl : forall a l count c, total (load_policies a policyObj l count c)).
  { intros a l. induction l as [|policy l IH]; intros count c0; simpl; total_auto; apply IH. }
  unfold LoadSchedPolicyConfig. total_auto.
Qed.
#[local] Hint Resolve total_LoadSchedPolicyConfig : total.

Lemma total_load_controllers l count : total (load_controllers l count).
Proof.
  revert count. induction l as [|x l IH]; intros count; simpl; [total_auto|].
  apply total_bind; [unfold load_controller; total_auto | intros b; apply IH].
Qed.
#[local] Hint Resolve total_load_controllers : total.

Lemma total_LoadConfigFile : total LoadConfigFile.
Proof.
  unfold LoadConfigFile, ParseConfigFileToJsonObj. apply total_bind; [total_auto|].
  intros l. generalize false as ret. induction l as [|j l IH]; intros ret; [total_auto|].
  apply total_bind; [unfold LoadConfigFromJsonObj; total_auto | intros b; apply IH].
Qed.
#[local] Hint Resolve total_LoadConfigFile : total.

Lemma total_CgroupAction_IsEnabled : total CgroupAction_IsEnabled.
Proof. unfold CgroupAction_IsEnabled. total_auto. Qed.
Lemma total_CgroupController_IsEnabled c : total (CgroupController_IsEnabled c).
Proof. unfold CgroupController_IsEnabled. total_auto. Qed.
#[local] Hint Resolve total_CgroupAction_IsEnabled total_CgroupController_IsEnabled : total.

Lemma total_CgroupMap_SetThreadSchedPolicy tid policy isThreadGroup :
  total (CgroupMap_SetThreadSchedPolicy tid policy isThreadGroup).
Proof.
  unfold CgroupMap_SetThreadSchedPolicy, CgroupController_SetThreadSchedPolicy, AddTidToCgroup.
  total_auto.
Qed.
#[local] Hint Resolve total_CgroupMap_SetThreadSchedPolicy : total.

Lemma total_SetSchedPolicyByExecutor tid policy resType :
  total (SetSchedPolicyByExecutor tid policy resType).
Proof. unfold SetSchedPolicyByExecutor. total_auto. Qed.
#[local] Hint Resolve total_SetSchedPolicyByExecutor : total.

Lemma total_SetThreadGroupSchedPolicy pid policy : total (SetThreadGroupSchedPolicy_impl pid policy).
Proof. unfold SetThreadGroupSchedPolicy_impl, CgroupAction_SetThreadGroupSchedPolicy. total_auto. Qed.

End process_group.
