(* ===== verification/World.v ===== *)
(** * The world the cgroup plugin runs in

    Shared by the adjuster, the event handler and the controller: the extension
    library behind [ResSchedUtils], the rest of the platform as a class, the
    state [World] and the monad [M] of the code that runs on the event queue. *)
From S2P Require Import Prelude Json ResType Supervisor ProcessGroup.

(** ** Reasons to adjust *)

(** cgroup_adjuster.h:25-60 [AdjustSource] *)
Inductive AdjustSource : Type :=
  | ADJS_FG_APP_CHANGE
  | ADJS_ABILITY_STATE
  | ADJS_EXTENSION_STATE
  | ADJS_PROCESS_CREATE
  | ADJS_TRANSIENT_BEGIN
  | ADJS_TRANSIENT_END
  | ADJS_CONTINUOUS_BEGIN
  | ADJS_CONTINUOUS_END
  | ADJS_FOCUSED_WINDOW
  | ADJS_UNFOCUSED_WINDOW
  | ADJS_WINDOW_VISIBILITY_CHANGED
  | ADJS_REPORT_IMPORTANT_DISPLAY_THREAD
  | ADJS_SELF_RENDER_THREAD
  | ADJS_REPORT_WINDOW_STATE_CHANGED
  | ADJS_REPORT_AUDIO_STATE_CHANGED
  | ADJS_REPORT_WEBVIEW_AUDIO_STATE_CHANGED
  | ADJS_REPORT_ENTER_NAP
  | ADJS_REPORT_EXIT_NAP
  | ADJS_PROCESS_STATE
  | ADJS_REPORT_SCREEN_CAPTURE
  | ADJS_REPORT_WEBVIEW_SCREEN_CAPTURE
  | ADJS_REPORT_WEBVIEW_ENTER_NAP
  | ADJS_SYSTEMLOAD_LEVEL_CHANGED
  | ADJS_APP_PRELOAD
  | ADJS_CALCULATE_AGAIN
  | ADJS_APP_KEEP_ALIVE
  | ADJS_SERVICE_EXTENSION_CONNETCED_STATE
  | ADJS_SERVICE_EXTENSION_UPDATE_STATE
  | ADJS_SCREEN_STATUS
  | ADJS_EFFICIENCY_RESOURCES_STATE_CHANGED
  | ADJS_UIEXTENSION_PRELOAD
  | ADJS_END
  | ADJS_UPLIMIT.
#[export] Instance AdjustSource_eq_dec : EqDecision AdjustSource.
Proof. solve_decision. Defined.

(** ** Setting the group of a process

    What the plugin's scheduling code needs of [process_group]. *)
Class SchedPolicyApi (K : Type) :=
  SetThreadGroupSchedPolicy : Z -> Z -> ST K Z.

Class SchedPolicyLaws (K : Type) `{SchedPolicyApi K} := {
  set_group_defined pid policy k : is_Some (SetThreadGroupSchedPolicy pid policy k);
  set_group_nonpos pid policy k :
    pid <= 0 -> SetThreadGroupSchedPolicy pid policy k = Some (-1, k);
}.

(** [process_group] keeps the promise. *)
Section process_group_api.
Context {J O : Type} `{!Json J} `{!Os J O}.

Definition process_group_api : SchedPolicyApi (ProcessGroup O) :=
  SetThreadGroupSchedPolicy_impl (J := J).

Lemma process_group_laws : @SchedPolicyLaws _ process_group_api.
Proof.
  split.
  - intros pid policy k. apply total_SetThreadGroupSchedPolicy.
  - intros pid policy k Hp. unfold SetThreadGroupSchedPolicy, process_group_api,
      SetThreadGroupSchedPolicy_impl. by rewrite (proj2 (Z.leb_le _ _) Hp).
Qed.
End process_group_api.

(** ** The extension library

    A function of [libcgroup_sched_ext.z.so] gets an application and a process
    record by reference: here the uid, the path of the record and its last
    argument, over the process model and the outer state. *)
Definition ExtFunc (A K : Type) : Type :=
  Z -> Z * Z -> A -> Supervisor * K -> Supervisor * K.

(** The symbols of a library; a missing symbol is [None]. *)
Record ExtLib (J K : Type) := mkExtLib {
  ReportArbitrationResult_sym : option (ExtFunc AdjustSource K);
  DispatchResourceExt_sym : option (Z -> Z -> J -> K -> K);
  ReportSysEvent_sym : option (ExtFunc (Z * Z) K);
  ReportCallerEvent_sym : option (ExtFunc Z K);
  SubscribeResourceExt_sym : option (K -> K);
  SubscribeSyncResourceExt_sym : option (K -> K);
  DeliverResourceExt_sym : option (Z -> Z -> J -> K -> K);
}.
Arguments ReportArbitrationResult_sym {_ _}.
Arguments DispatchResourceExt_sym {_ _}.
Arguments ReportSysEvent_sym {_ _}.
Arguments ReportCallerEvent_sym {_ _}.
Arguments SubscribeResourceExt_sym {_ _}.
Arguments SubscribeSyncResourceExt_sym {_ _}.
Arguments DeliverResourceExt_sym {_ _}.

(** ressched_utils.h:36-86 [ResSchedUtils] with one flag more: whether
    [dlclose] was called on the extension library *)
Record ResSchedUtils (J K : Type) := mkResSchedUtils {
  reportFunc_ : bool;
  reportArbitrationResultFunc_ : option (ExtFunc AdjustSource K);
  dispatchResourceExtFunc_ : option (Z -> Z -> J -> K -> K);
  reportSysEventFunc_ : option (ExtFunc (Z * Z) K);
  reportCallerEventFunc_ : option (ExtFunc Z K);
  subscribeResourceExtFunc_ : option (K -> K);
  subscribeSyncResourceExtFunc_ : option (K -> K);
  deliverResourceExtFunc_ : option (Z -> Z -> J -> K -> K);
  ext_closed : bool;
}.
Arguments mkResSchedUtils {_ _}.
Arguments reportFunc_ {_ _}.
Arguments reportArbitrationResultFunc_ {_ _}.
Arguments dispatchResourceExtFunc_ {_ _}.
Arguments reportSysEventFunc_ {_ _}.
Arguments reportCallerEventFunc_ {_ _}.
Arguments subscribeResourceExtFunc_ {_ _}.
Arguments subscribeSyncResourceExtFunc_ {_ _}.
Arguments deliverResourceExtFunc_ {_ _}.
Arguments ext_closed {_ _}.
#[export] Instance ResSchedUtils_eta J K : Eta (ResSchedUtils J K) := fun u =>
  mkResSchedUtils (reportFunc_ u) (reportArbitrationResultFunc_ u) (dispatchResourceExtFunc_ u)
    (reportSysEventFunc_ u) (reportCallerEventFunc_ u) (subscribeResourceExtFunc_ u)
    (subscribeSyncResourceExtFunc_ u) (deliverResourceExtFunc_ u) (ext_closed u).

Definition no_ResSchedUtils {J K} : ResSchedUtils J K :=
  mkResSchedUtils false None None None None None None None false.

Section load.
Context {J K : Type}.
Implicit Types (u : ResSchedUtils J K).

(** ressched_utils.cpp:41-63 [ResSchedUtils::LoadUtils] [lib] says whether the
    service library opens and, if so, whether it has the symbol *)
Definition LoadUtils (lib : option bool) u : ResSchedUtils J K :=
  match lib with
  | None => u
  | Some symbol => u <| reportFunc_ := symbol |>
  end.

(** ressched_utils.cpp:122-138 [ResSchedUtils::LoadSyncResourceEx] *)
Definition LoadSyncResourceEx (lib : ExtLib J K) u : ResSchedUtils J K :=
  let u := u <| subscribeSyncResourceExtFunc_ := SubscribeSyncResourceExt_sym lib |> in
  if negb (bool_decide (is_Some (subscribeSyncResourceExtFunc_ u)))
  then u <| ext_closed := true |> else
  let u := u <| deliverResourceExtFunc_ := DeliverResourceExt_sym lib |> in
  if negb (bool_decide (is_Some (deliverResourceExtFunc_ u)))
  then u <| ext_closed := true |> else u.

(** ressched_utils.cpp:65-120 [ResSchedUtils::LoadUtilsExtra] *)
Definition LoadUtilsExtra (lib : option (ExtLib J K)) u : ResSchedUtils J K :=
  match lib with
  | None => u
  | Some lib =>
      let u := u <| reportArbitrationResultFunc_ := ReportArbitrationResult_sym lib |> in
      if negb (bool_decide (is_Some (reportArbitrationResultFunc_ u)))
      then u <| ext_closed := true |> else
      let u := u <| dispatchResourceExtFunc_ := DispatchResourceExt_sym lib |> in
      if negb (bool_decide (is_Some (dispatchResourceExtFunc_ u)))
      then u <| ext_closed := true |> else
      let u := u <| reportSysEventFunc_ := ReportSysEvent_sym lib |> in
      if negb (bool_decide (is_Some (reportSysEventFunc_ u)))
      then u <| ext_closed := true |> else
      let u := u <| reportCallerEventFunc_ := ReportCallerEvent_sym lib |> in
      if negb (bool_decide (is_Some (reportCallerEventFunc_ u)))
      then u <| ext_closed := true |> else
      let u := u <| subscribeResourceExtFunc_ := SubscribeResourceExt_sym lib |> in
      if negb (bool_decide (is_Some (subscribeResourceExtFunc_ u)))
      then u <| ext_closed := true |> else
      LoadSyncResourceEx lib u
  end.
End load.

(** ** The platform *)

(** The fields read of the power manager's [RunningLockInfo]. *)
Record RunningLockInfo := { lock_uid : Z; lock_pid : Z; lock_type : Z }.

Class Platform (J K : Type) := {
  platform_sched :: SchedPolicyApi K;
  platform_utils : ResSchedUtils J K;
  platform_SendRequestSync : Z -> Z -> J -> K -> (Z * J) * K;
  platform_realpath : string -> K -> option string;
  (** [open(path, O_RDONLY)] and [read] of at most 4096 bytes: [None] when it
      does not open, [Some None] when reading fails *)
  platform_read : string -> K -> option (option string);
  platform_getpid : K -> Z;
  (** [IBundleMgr::GetNameForUid]: [None] when the service manager is absent,
      [Some None] when the bundle manager is *)
  platform_GetNameForUid : Z -> K -> option (option string);
  (** The application manager: see [ConnectAppManagerService], then its two
      lists *)
  platform_app_manager : K -> option bool;
  platform_running : K -> list RunningProcessInfo;
  platform_children : K -> list ChildProcessInfo;
  (** [QueryRunningLockLists]: [None] when it fails; the map in its order *)
  platform_running_locks : K -> option (list (string * RunningLockInfo));
  (** [ToString] of the common library, on integers *)
  platform_ToString : Z -> string;
  RUNNINGLOCK_PROXIMITY_SCREEN_CONTROL : Z;
  APP_MGR_SERVICE_ID : Z;
  POWER_MANAGER_SERVICE_ID : Z;
}.

(** ** State *)

(** A closure that was posted to the queue: what it captures. *)
Inductive Task (J : Type) : Type :=
  | TaskDispatch (resType value : Z) (payload : J)   (* through dispatchResFuncMap_ *)
  | TaskOther (resType value : Z) (payload : J)      (* from DispatchOtherResource *)
  | TaskAbilityStatus (saId : Z) (deviceId : string) (value : Z)
  | TaskAdjustSelf
  | TaskCheckWebSubWin (resType uid pid : Z).
Arguments TaskDispatch {_}.
Arguments TaskOther {_}.
Arguments TaskAbilityStatus {_}.
Arguments TaskAdjustSelf {_}.
Arguments TaskCheckWebSubWin {_}.

(** The calls that leave the plugin, recorded in order. *)
Inductive Call (J : Type) : Type :=
  | CallSetGroup (pid policy ret : Z)
  | CallReport (resType value : Z) (payload : J)
  | CallArbitration (uid : Z) (pr : Z * Z) (source : AdjustSource)
  | CallSysEvent (uid : Z) (pr : Z * Z) (resType state : Z)
  | CallCaller (uid : Z) (pr : Z * Z) (callerUid : Z)
  | CallDispatchExt (resType value : Z) (payload : J)
  | CallSubscribe (pluginLib : string) (resType : Z)
  | CallSubscribeAccurately (pluginLib : string) (resType value : Z)
  | CallUnSubscribe (pluginLib : string) (resType : Z)
  | CallUnSubscribeAccurately (pluginLib : string) (resType value : Z).
Arguments CallSetGroup {_}.
Arguments CallReport {_}.
Arguments CallArbitration {_}.
Arguments CallSysEvent {_}.
Arguments CallCaller {_}.
Arguments CallDispatchExt {_}.
Arguments CallSubscribe {_}.
Arguments CallSubscribeAccurately {_}.
Arguments CallUnSubscribe {_}.
Arguments CallUnSubscribeAccurately {_}.

(** A task submitted with a delay (in microseconds) under a name. *)
Record DelayedTask (J : Type) := mkDelayedTask {
  dt_name : string;
  dt_delay : Z;
  dt_task : Task J;
}.
Arguments mkDelayedTask {_}.
Arguments dt_name {_}.
Arguments dt_delay {_}.
Arguments dt_task {_}.

(** [CgroupEventHandler] and [SchedController] share the process model:
    [supervisor_] is the handler's pointer, [sched_supervisor_] says whether the
    controller's pointer, to the same object, is set.  The queue runs one task
    at a time in order; a delayed task waits in [delayed_] under its handle. *)
Record World (J K : Type) := mkWorld {
  supervisor_ : option Supervisor;
  sched_supervisor_ : bool;
  cgHandler_ : bool;
  cgroupEventQueue_ : option (list (Task J));
  delayTaskMap_ : gmap string Z;
  delayed_ : gmap Z (DelayedTask J);
  next_handle_ : Z;
  calls : list (Call J);
  outer : K;
}.
Arguments mkWorld {_ _}.
Arguments supervisor_ {_ _}.
Arguments sched_supervisor_ {_ _}.
Arguments cgHandler_ {_ _}.
Arguments cgroupEventQueue_ {_ _}.
Arguments delayTaskMap_ {_ _}.
Arguments delayed_ {_ _}.
Arguments next_handle_ {_ _}.
Arguments calls {_ _}.
Arguments outer {_ _}.
#[export] Instance World_eta J K : Eta (World J K) := fun w =>
  mkWorld (supervisor_ w) (sched_supervisor_ w) (cgHandler_ w) (cgroupEventQueue_ w)
    (delayTaskMap_ w) (delayed_ w) (next_handle_ w) (calls w) (outer w).

(** The plugin before it starts. *)
Definition new_World {J K} (k : K) : World J K :=
  mkWorld None false false None ∅ ∅ 1 [] k.

(** ** Primitives *)
Section primitives.
Context {J K : Type} `{!Json J} `{!Platform J K}.
#[local] Abbreviation M := (ST (World J K)).

(** Dereferencing [supervisor_]. *)
Definition get_sup : M Supervisor := w ← st_get; st_some (supervisor_ w).
Definition set_sup (sup : Supervisor) : M unit :=
  st_modify (fun w => w <| supervisor_ := Some sup |>).
Definition upd_sup (f : Supervisor -> Supervisor) : M unit := sup ← get_sup; set_sup (f sup).

(** The object behind a pointer to an application or to a process record. *)
Definition get_app (uid : Z) : M Application := sup ← get_sup; st_some (GetAppRecord uid sup).
Definition get_proc (uid pid : Z) : M ProcessRecord :=
  app ← get_app uid; st_some (GetProcessRecord pid app).
Definition upd_app (uid : Z) (f : Application -> Application) : M unit :=
  _ ← get_app uid; upd_sup (alter_app uid f).
Definition upd_proc (uid pid : Z) (f : ProcessRecord -> ProcessRecord) : M unit :=
  _ ← get_proc uid pid; upd_sup (alter_proc uid pid f).

Definition call (c : Call J) : M unit := st_modify (fun w => w <| calls ::= fun cs => cs ++ [c] |>).

(** Code over the outer state. *)
Definition lift_outer {A} (m : ST K A) : M A := fun w =>
  match m (outer w) with
  | Some (a, k) => Some (a, w <| outer := k |>)
  | None => None
  end.

(** [CgroupSetting::SetThreadGroupSchedPolicy]. *)
Definition set_group (pid policy : Z) : M Z :=
  ret ← lift_outer (SetThreadGroupSchedPolicy pid policy);
  call (CallSetGroup pid policy ret);; mret ret.

(** A call of an extension function with references to an application and to
    a process record.  Its code is gone once the library is closed. *)
Definition call_ext {A} (func : option (ExtFunc A K)) (c : Call J) (uid : Z) (pr : Z * Z)
    (a : A) : M unit :=
  func <-? func;
  if ext_closed (platform_utils (J := J) (K := K)) then st_undefined else
  _ ← get_app uid;
  _ ← get_proc pr.1 pr.2;
  sup ← get_sup;
  w ← st_get;
  let '(sup, k) := func uid pr a (sup, outer w) in
  set_sup sup;; st_modify (fun w => w <| outer := k |>);; call c.

(** ressched_utils.cpp:140-147 [ResSchedUtils::ReportDataInProcess] *)
Definition ReportDataInProcess (resType value : Z) (payload : J) : M unit :=
  ret_if negb (reportFunc_ (platform_utils (J := J) (K := K)));
  call (CallReport resType value payload).

(** ressched_utils.cpp:149-156 [ResSchedUtils::ReportArbitrationResult] *)
Definition ReportArbitrationResult (uid : Z) (pr : Z * Z) (source : AdjustSource) : M unit :=
  call_ext (reportArbitrationResultFunc_ platform_utils) (CallArbitration uid pr source)
    uid pr source.

(** ressched_utils.cpp:158-165 [ResSchedUtils::ReportCallerEvent] *)
Definition ReportCallerEvent (uid : Z) (pr : Z * Z) (callerUid : Z) : M unit :=
  call_ext (reportCallerEventFunc_ platform_utils) (CallCaller uid pr callerUid) uid pr callerUid.

(** ressched_utils.cpp:167-174 [ResSchedUtils::ReportSysEvent] *)
Definition ReportSysEvent (uid : Z) (pr : Z * Z) (resType state : Z) : M unit :=
  call_ext (reportSysEventFunc_ platform_utils) (CallSysEvent uid pr resType state)
    uid pr (resType, state).

(** ressched_utils.cpp:176-189 [ResSchedUtils::CheckTidIsInPid] *)
Definition CheckTidIsInPid (pid tid : Z) : M bool :=
  let payload := json_set "tid" (json_of_int tid) (json_set "pid" (json_of_int pid) json_null) in
  '(_, reply) ← lift_outer (fun k =>
    Some (platform_SendRequestSync RES_TYPE_CGROUP_PROC_TASK_SYNC_EVENT 0 payload k));
  mret (default false (json_find "res" reply ≫= json_boolean)).

(** ressched_utils.cpp:191-212 [ResSchedUtils::GetProcessFilePath] *)
Definition GetProcessFilePath (uid : Z) (bundleName : string) (pid : Z) : M string :=
  if (uid <? 0) || (pid <? 0) then mret "" else
  let userId := Z.quot uid 200000 in
  let path := "/dev/pids/" +:+ to_string userId +:+ "/" +:+ bundleName +:+ "/app_"
              +:+ to_string pid +:+ "/cgroup.procs" in
  w ← st_get;
  mret (default "" (platform_realpath (J := J) path (outer w))).

(** ressched_utils.cpp:214-221 [ResSchedUtils::DispatchResourceExt] *)
Definition DispatchResourceExt (resType value : Z) (payload : J) : M unit :=
  func <-? dispatchResourceExtFunc_ platform_utils;
  if ext_closed (platform_utils (J := J) (K := K)) then st_undefined else
  st_modify (fun w => w <| outer ::= func resType value payload |>);;
  call (CallDispatchExt resType value payload).

(** ressched_utils.cpp:236-243 [ResSchedUtils::SubscribeResourceExt] *)
Definition SubscribeResourceExt : M unit :=
  func <-? subscribeResourceExtFunc_ platform_utils;
  if ext_closed (platform_utils (J := J) (K := K)) then st_undefined else
  st_modify (fun w => w <| outer ::= func |>).

(** ressched_utils.cpp:245-252 [ResSchedUtils::SubscribeSyncResourceExt] *)
Definition SubscribeSyncResourceExt : M unit :=
  func <-? subscribeSyncResourceExtFunc_ platform_utils;
  if ext_closed (platform_utils (J := J) (K := K)) then st_undefined else
  st_modify (fun w => w <| outer ::= func |>).

(** ressched_utils.cpp:254-263 [ResSchedUtils::DeliverResourceExt] *)
Definition DeliverResourceExt (resType value : Z) (payload : J) : M Z :=
  match deliverResourceExtFunc_ platform_utils with
  | None => mret 0
  | Some func =>
      if ext_closed (platform_utils (J := J) (K := K)) then st_undefined else
      st_modify (fun w => w <| outer ::= func resType value payload |>);; mret 0
  end.
End primitives.
