(* ===== verification/CgroupAdjuster.v ===== *)
(** * Adjuster

    [cgroup_adjuster.cpp]: the scheduling group a process should have, the call
    that moves it there, and the attached processes that follow their host. *)
From S2P Require Import Prelude Json ResType Supervisor ProcessGroup World.

(** The attached processes: render, GPU and child processes. *)
Definition is_attached (pr : ProcessRecord) : bool :=
  (processType_ pr =? RENDER) || (processType_ pr =? GPU) || (processType_ pr =? CHILD).

Section compute.
Context `{AppExecFwk}.

(** cgroup_adjuster.cpp:159-197 [CgroupAdjuster::ComputeProcessGroup] the
    group that is stored in [setSchedGroup_] *)
Definition compute_group (app : Application) (pr : ProcessRecord) (source : AdjustSource)
    : SchedPolicy :=
  if processType_ pr =? RENDER then
    match GetProcessRecord (hostPid_ pr) app with
    | Some hostProcRecord => curSchedGroup_ hostProcRecord
    | None => SP_DEFAULT
    end
  else if bool_decide (source = ADJS_PROCESS_CREATE) then SP_DEFAULT
  else if match focusedProcess_ app with Some pid => pid =? pr_pid_ pr | None => false end
  then SP_TOP_APP
  else if (length (abilities_ pr) =? 0)%nat then
    if processState_ pr =? APP_STATE_BACKGROUND then SP_BACKGROUND else SP_DEFAULT
  else if IsVisible pr then SP_FOREGROUND
  else if HasServiceExtension pr then
    if processState_ pr =? APP_STATE_BACKGROUND then SP_BACKGROUND else SP_DEFAULT
  else if processState_ pr =? APP_STATE_BACKGROUND then SP_BACKGROUND
  else if processState_ pr =? APP_STATE_FOREGROUND then SP_FOREGROUND
  else SP_DEFAULT.
End compute.

(** [strtok] with a newline: the maximal pieces without newlines. *)
Fixpoint split_lines (s : string) : list string :=
  match s with
  | EmptyString => []
  | String c s' =>
      if Ascii.eqb c "010" then split_lines s'
      else match s' with
           | EmptyString => [String c ""]
           | String c' _ =>
               if Ascii.eqb c' "010" then String c "" :: split_lines s'
               else match split_lines s' with
                    | [] => [String c ""]
                    | l :: ls => String c l :: ls
                    end
           end
  end.

(** The C string in a buffer of 4096 bytes that was zeroed before [read]:
    [None] when the content fills it and has no terminator. *)
Definition buffer_string (content : string) : option string :=
  match index 0 (String "000"%char "") content with
  | Some n => Some (substring 0 n content)
  | None => if (String.length content <? 4096)%nat then Some content else None
  end.

Section adjuster.
Context {J K : Type} `{!Json J} `{!Platform J K} `{!AppExecFwk}.
#[local] Abbreviation M := (ST (World J K)).

Definition ComputeProcessGroup (uid pid : Z) (source : AdjustSource) : M unit :=
  app ← get_app uid;
  pr ← get_proc uid pid;
  upd_proc uid pid (fun pr' => pr' <| setSchedGroup_ := compute_group app pr source |>).

(** cgroup_adjuster.cpp:61-99 [CgroupAdjuster::AdjustForkProcessGroup] *)
Definition AdjustForkProcessGroup (uid pid : Z) : M unit :=
  app ← get_app uid;
  pr ← get_proc uid pid;
  filePath ← GetProcessFilePath (to_s32 (app_uid_ app)) (app_name_ app) (pr_pid_ pr);
  w ← st_get;
  rd <-? platform_read (J := J) filePath (outer w);
  fileContent ← st_some (match rd with Some content => buffer_string content | None => Some "" end);
  st_iter (fun line =>
    let forkPid := atoi line in
    if forkPid =? 0 then mret tt
    else if negb (forkPid =? pr_pid_ pr) then
      pr ← get_proc uid pid;
      set_group forkPid (to_s32 (curSchedGroup_ pr));; mret tt
    else mret tt) (split_lines fileContent).

(** cgroup_adjuster.cpp:224-229 [CgroupAdjuster::ApplyProcessGroup] *)
Definition group_change_payload (app : Application) (pr : ProcessRecord) : J :=
  let payload := json_set "pid" (json_of_string (to_string (pr_pid_ pr))) json_null in
  let payload := json_set "uid" (json_of_string (to_string (pr_uid_ pr))) payload in
  let payload := json_set "name" (json_of_string (app_name_ app)) payload in
  let payload :=
    json_set "oldGroup" (json_of_string (to_string (to_s32 (lastSchedGroup_ pr)))) payload in
  json_set "newGroup" (json_of_string (to_string (to_s32 (curSchedGroup_ pr)))) payload.

(** cgroup_adjuster.cpp:224-231 [CgroupAdjuster::ApplyProcessGroup] once the
    record has its new group *)
Definition report_group_change (uid pid : Z) : M unit :=
  app ← get_app uid;
  pr ← get_proc uid pid;
  ReportDataInProcess RES_TYPE_CGROUP_ADJUSTER 0 (group_change_payload app pr);;
  AdjustForkProcessGroup uid pid.

(** cgroup_adjuster.cpp:212-213 [CgroupAdjuster::ApplyProcessGroup] *)
Definition record_group (pr : ProcessRecord) : ProcessRecord :=
  pr <| lastSchedGroup_ := curSchedGroup_ pr |> <| curSchedGroup_ := setSchedGroup_ pr |>.

(** cgroup_adjuster.cpp:199-234 [CgroupAdjuster::ApplyProcessGroup] *)
Definition ApplyProcessGroup (uid pid : Z) (source : AdjustSource) : M unit :=
  pr ← get_proc uid pid;
  ret_if (curSchedGroup_ pr =? setSchedGroup_ pr);
  ret ← set_group (pr_pid_ pr) (to_s32 (setSchedGroup_ pr));
  ret_if negb (ret =? 0);
  upd_proc uid pid record_group;;
  report_group_change uid pid.

(** cgroup_adjuster.cpp:113-134 [CgroupAdjuster::AdjustProcessGroup] the body
    of the loop: [iter] follows the host process [pid] *)
Definition follow_host (uid pid : Z) (source : AdjustSource) (iter : Z) : M unit :=
  app ← get_app uid;
  pr ← get_proc uid pid;
  procRecord ← get_proc uid iter;
  ret_if negb (is_attached procRecord);
  hostProcRecord <-? GetProcessRecord (hostPid_ procRecord) app;
  ret_if negb (hostPid_ procRecord =? pr_pid_ pr);
  upd_proc uid iter (fun pr => pr <| setSchedGroup_ := curSchedGroup_ hostProcRecord |>);;
  st_when ((processType_ procRecord =? RENDER)
           || ((processType_ procRecord =? GPU) && (curSchedGroup_ hostProcRecord =? SP_TOP_APP)))
    (ReportArbitrationResult uid (uid, iter) ADJS_SELF_RENDER_THREAD);;
  ApplyProcessGroup uid iter source.

(** cgroup_adjuster.cpp:101-135 [CgroupAdjuster::AdjustProcessGroup] *)
Definition AdjustProcessGroup (uid pid : Z) (source : AdjustSource) : M unit :=
  ComputeProcessGroup uid pid source;;
  ReportArbitrationResult uid (uid, pid) source;;
  ApplyProcessGroup uid pid source;;
  app ← get_app uid;
  pr ← get_proc uid pid;
  ret_if negb (IsHostProcess (pr_pid_ pr) app);
  st_iter (follow_host uid pid source) (keys_in_order (pidsMap_ app)).

(** cgroup_adjuster.cpp:137-147 [CgroupAdjuster::AdjustAllProcessGroup] *)
Definition AdjustAllProcessGroup (uid : Z) (source : AdjustSource) : M unit :=
  app ← get_app uid;
  st_iter (fun pid =>
    procRecord ← get_proc uid pid;
    if is_attached procRecord then mret tt else AdjustProcessGroup uid pid source)
    (keys_in_order (pidsMap_ app)).

(** cgroup_adjuster.cpp:149-157 [CgroupAdjuster::AdjustSelfProcessGroup] *)
Definition AdjustSelfProcessGroup : M unit :=
  w ← st_get;
  set_group (platform_getpid (J := J) (outer w)) SP_FOREGROUND;; mret tt.
End adjuster.
