(* ===== verification/CgroupEventHandler.v ===== *)
(** * Event handler

    [cgroup_event_handler.cpp]: what each event does to the process model, the
    adjustments it asks for and the tasks it posts.  The closures that the code
    posts are the data [Task]; [SchedController.v] runs them. *)
From S2P Require Import Prelude Json ResType Supervisor ProcessGroup World CgroupAdjuster.

(** cgroup_event_handler.cpp:39-40 [MAX_SPAN_SERIAL] *)
Definition MAX_SPAN_SERIAL : Z := 99.
(** cgroup_event_handler.cpp:40-40 [CHECK_WEB_SUBWIN_TASK_DELAY] *)
Definition CHECK_WEB_SUBWIN_TASK_DELAY : Z := 60 * 1000.
(** cgroup_event_handler.cpp:44-44 [PRELOAD_SET] *)
Definition PRELOAD_SET : list Z := [1; 2; 4].
(** cgroup_event_handler.h:114-117 [ffrtSwitch_] *)
Definition ffrtSwitch_ : Z := 1000.

(** cgroup_event_handler.h:87-95 [ProcessCreateInfo] *)
Record ProcessCreateInfo := mkProcessCreateInfo {
  info_uid : Z;
  info_pid : Z;
  info_hostPid : Z;
  info_bundleName : string;
  info_extensionType : Z;
  info_processType : Z;
  info_preloadMode : Z;
}.

(** The out-parameters of [ParseConfig]. *)
Record AbilityConfig := mkAbilityConfig {
  cfg_uid : Z;
  cfg_pid : Z;
  cfg_bundleName : string;
  cfg_abilityName : string;
  cfg_recordId : Z;
  cfg_abilityState : Z;
  cfg_abilityType : Z;
  cfg_callerUid : Z;
  cfg_preloadMode : Z;
}.

(** [1U << typeId] or-ed over all types; a shift by 32 or more is undefined.
    The order in which the unordered map is walked does not matter. *)
Definition continuous_flags (m : gmap Z (list Z)) : option Z :=
  let typeIds := concat (map_to_list m).*2 in
  if forallb (fun typeId => typeId <? 32) typeIds
  then Some (foldr (fun typeId flag => Z.lor flag (Z.shiftl 1 typeId)) 0 typeIds)
  else None.

(** ** Parsing of payloads *)
Section parse.
Context {J : Type} `{!Json J}.

(** cgroup_event_handler.cpp:1514-1522 [CgroupEventHandler::ParseValue] *)
Definition ParseValue (name : string) (payload : J) : option Z :=
  atoi <$> find_string name payload.

(** cgroup_event_handler.cpp:1524-1532 [CgroupEventHandler::ParseLongValue] *)
Definition ParseLongValue (name : string) (payload : J) : option Z :=
  atoll <$> find_string name payload.

(** cgroup_event_handler.cpp:1504-1512 [CgroupEventHandler::ParseString] *)
Definition ParseString (name : string) (payload : J) : option string :=
  find_string name payload.

(** cgroup_event_handler.cpp:1479-1488 [CgroupEventHandler::ParsePayload] *)
Definition ParsePayload (payload : J) : option (Z * Z) :=
  uid ← ParseValue "uid" payload;
  pid ← ParseValue "pid" payload;
  if (uid <=? 0) || (pid <=? 0) then None else Some (uid, pid).

(** cgroup_event_handler.cpp:383-392 [CgroupEventHandler::ParseProcessCreateInfo] *)
Definition ParseProcessCreateInfo (payload : J) : option ProcessCreateInfo :=
  uid ← ParseValue "uid" payload;
  pid ← ParseValue "pid" payload;
  bundleName ← ParseString "bundleName" payload;
  hostPid ← ParseValue "hostPid" payload;
  extensionType ← ParseValue "extensionType" payload;
  processType ← ParseValue "processType" payload;
  preloadMode ← ParseValue "preloadMode" payload;
  Some (mkProcessCreateInfo uid pid hostPid bundleName extensionType processType preloadMode).

(** cgroup_event_handler.cpp:1465-1477 [CgroupEventHandler::ParseConfig] *)
Definition ParseConfig (payload : J) : option AbilityConfig :=
  uid ← ParseValue "uid" payload;
  pid ← ParseValue "pid" payload;
  bundleName ← ParseString "bundleName" payload;
  abilityName ← ParseString "abilityName" payload;
  recordId ← ParseValue "recordId" payload;
  callerUid ← ParseValue "callerUid" payload;
  abilityState ← ParseValue "abilityState" payload;
  abilityType ← ParseValue "abilityType" payload;
  let preloadMode := default (-1) (ParseValue "preloadMode" payload) in
  Some (mkAbilityConfig uid pid bundleName abilityName recordId abilityState abilityType
          callerUid preloadMode).

(** cgroup_event_handler.cpp:478-488 [CgroupEventHandler::GetArrayFromJson] *)
Definition GetArrayFromJson (jsonObj : J) (name : string) : option (list J) :=
  if json_is_null jsonObj || String.eqb name "" then None else
  json_find name jsonObj ≫= json_array.

(** cgroup_event_handler.cpp:490-505 [CgroupEventHandler::GetTypeIdsFromJson]
    the ids pushed to [typeIds], none when the result is [false] *)
Definition GetTypeIdsFromJson (payload : J) (name : string) : list Z :=
  match GetArrayFromJson payload name with
  | None => []
  | Some jsonArray => omap (fun value => to_u32 <$> json_unsigned value) jsonArray
  end.

(** [contains] and [is_number_integer], then [get<int32_t>]. *)
Definition parse_int32 (name : string) (payload : J) : option Z :=
  to_s32 <$> find_integer name payload.
End parse.

Section handler.
  Context {J K : Type} `{!Json J} `{!Platform J K} `{!AppExecFwk}.
  #[local] Abbreviation M := (ST (World J K)).

(** ** Posting tasks *)

(** cgroup_event_handler.cpp:1534-1543 [CgroupEventHandler::PostTask] *)
Definition PostTask (task : Task J) : M unit :=
  st_modify (fun w => w <| cgroupEventQueue_ ::= fmap (fun q => q ++ [task]) |>).

(** cgroup_event_handler.cpp:1545-1558 [CgroupEventHandler::PostTask] *)
Definition PostDelayedTask (task : Task J) (taskName : string) (delayTime : Z) : M unit :=
  w ← st_get;
  _ <-? cgroupEventQueue_ w;
  let handle := next_handle_ w in
  st_modify (fun w =>
    w <| delayed_ ::= <[handle := mkDelayedTask taskName (delayTime * ffrtSwitch_) task]> |>
      <| delayTaskMap_ ::= <[taskName := handle]> |>
      <| next_handle_ := handle + 1 |>).

(** cgroup_event_handler.cpp:1570-1578 [CgroupEventHandler::RemoveTask] *)
Definition RemoveTask (taskName : string) : M unit :=
  w ← st_get;
  handle <-? delayTaskMap_ w !! taskName;
  _ ← st_some (cgroupEventQueue_ w);
  st_modify (fun w => w <| delayed_ ::= delete handle |> <| delayTaskMap_ ::= delete taskName |>).

(** ** System abilities *)

(** sched_controller.cpp:328-350 [SchedController::GetRunningLockState] *)
Definition GetRunningLockState : M unit :=
  w ← st_get;
  ret_if negb (sched_supervisor_ w);
  runningLockLists <-? platform_running_locks (J := J) (outer w);
  st_iter (fun '(_, lockInfo) =>
    let uid := lock_uid lockInfo in
    let pid := lock_pid lockInfo in
    upd_sup (GetAppRecordNonNull uid);;
    upd_app uid (GetProcessRecordNonNull pid);;
    upd_proc uid pid (fun pr => pr <| runningLockState_ ::= <[to_u32 (lock_type lockInfo) := true]> |>))
    runningLockLists.

(** cgroup_event_handler.cpp:81-97 [CgroupEventHandler::HandleAbilityAdded] *)
Definition HandleAbilityAdded (saId : Z) (deviceId : string) : M unit :=
  w ← st_get;
  if saId =? APP_MGR_SERVICE_ID (J := J) (K := K) then
    _ <-? supervisor_ w;
    let k := outer w in
    upd_sup (InitSuperVisorContent (platform_app_manager (J := J) k)
               (platform_running (J := J) k) (platform_children (J := J) k))
  else if saId =? POWER_MANAGER_SERVICE_ID (J := J) (K := K) then GetRunningLockState
  else mret tt.

(** cgroup_event_handler.cpp:99-102 [CgroupEventHandler::HandleAbilityRemoved] *)
Definition HandleAbilityRemoved (saId : Z) (deviceId : string) : M unit := mret tt.

(** cgroup_event_handler.cpp:1226-1244 [CgroupEventHandler::ReportAbilityStatus] *)
Definition ReportAbilityStatus (resType value : Z) (payload : J) : M unit :=
  let saId := default (-1) (parse_int32 "saId" payload) in
  let deviceId := default "" (find_string "deviceId" payload) in
  PostTask (TaskAbilityStatus saId deviceId value).

(** ** Applications, abilities and processes *)

(** cgroup_event_handler.cpp:104-133 [CgroupEventHandler::HandleApplicationStateChanged] *)
Definition HandleApplicationStateChanged (resType value : Z) (payload : J) : M unit :=
  w ← st_get; _ <-? supervisor_ w;
  uid <-? ParseValue "uid" payload;
  pid <-? ParseValue "pid" payload;
  bundleName <-? ParseString "bundleName" payload;
  state <-? ParseValue "state" payload;
  ret_if state =? APP_STATE_TERMINATED;
  upd_sup (GetAppRecordNonNull uid);;
  upd_app uid (Application_SetName bundleName).

(** cgroup_event_handler.cpp:135-169 [CgroupEventHandler::HandleProcessStateChanged] *)
Definition HandleProcessStateChanged (resType value : Z) (payload : J) : M unit :=
  uid <-? ParseValue "uid" payload;
  pid <-? ParseValue "pid" payload;
  bundleName <-? ParseString "bundleName" payload;
  state <-? ParseValue "state" payload;
  let preloadMode := default (-1) (ParseValue "preloadMode" payload) in
  upd_sup (GetAppRecordNonNull uid);;
  upd_app uid (GetProcessRecordNonNull pid);;
  upd_proc uid pid (fun pr => pr <| processState_ := state |>);;
  ret_if (state =? PROCESS_BACKGROUND) && (preloadMode =? PRE_LAUNCH);
  upd_proc uid pid (fun pr => pr <| preloadMode_ := preloadMode |>);;
  AdjustProcessGroup uid pid ADJS_PROCESS_STATE.

(** cgroup_event_handler.cpp:264-315 [CgroupEventHandler::HandleExtensionStateChanged] *)
Definition HandleExtensionStateChanged (resType value : Z) (payload : J) : M unit :=
  w ← st_get; _ <-? supervisor_ w;
  uid <-? ParseValue "uid" payload;
  pid <-? ParseValue "pid" payload;
  bundleName <-? ParseString "bundleName" payload;
  abilityName <-? ParseString "abilityName" payload;
  recordId <-? ParseValue "recordId" payload;
  extensionState <-? ParseValue "extensionState" payload;
  abilityType <-? ParseValue "abilityType" payload;
  if extensionState =? EXTENSION_STATE_TERMINATED then
    sup ← get_sup;
    _ <-? find_proc uid pid sup;
    upd_proc uid pid (RemoveAbilityByRecordId recordId);;
    AdjustProcessGroup uid pid ADJS_EXTENSION_STATE
  else
  upd_sup (GetAppRecordNonNull uid);;
  upd_app uid (Application_SetName bundleName);;
  upd_app uid (GetProcessRecordNonNull pid);;
  upd_proc uid pid (GetAbilityInfoNonNull recordId);;
  upd_proc uid pid (alter_ability recordId (fun abiInfo =>
    abiInfo <| ability_name_ := abilityName |> <| estate_ := extensionState |>
            <| type_ := abilityType |>));;
  AdjustProcessGroup uid pid ADJS_EXTENSION_STATE.

(** cgroup_event_handler.cpp:171-185 [CgroupEventHandler::HandleUIExtensionAbilityStateChange] *)
Definition HandleUIExtensionAbilityStateChange (resType value : Z) (payload : J) : M unit :=
  extensionAbilityType <-? ParseValue "extensionAbilityType" payload;
  uiExtensionState <-? ParseValue "uiExtensionState" payload;
  let payloadChange :=
    json_set "extensionState" (json_of_string (to_string uiExtensionState)) payload in
  HandleExtensionStateChanged resType value payloadChange.

(** cgroup_event_handler.cpp:240-249 [CgroupEventHandler::HandlePrelaunch] *)
Definition HandlePrelaunch (abilityState preloadMode : Z) : bool :=
  ((abilityState =? ABILITY_STATE_CREATE) || (abilityState =? ABILITY_STATE_BACKGROUND))
  && (preloadMode =? PRE_LAUNCH).

(** cgroup_event_handler.cpp:251-262 [CgroupEventHandler::HandleAbilityTerminated] *)
Definition HandleAbilityTerminated (uid pid recordId : Z) : M unit :=
  sup ← get_sup;
  _ <-? find_proc uid pid sup;
  upd_proc uid pid (RemoveAbilityByRecordId recordId);;
  AdjustProcessGroup uid pid ADJS_ABILITY_STATE.

(** cgroup_event_handler.cpp:187-238 [CgroupEventHandler::HandleAbilityStateChanged] *)
Definition HandleAbilityStateChanged (resType value : Z) (payload : J) : M unit :=
  w ← st_get; _ <-? supervisor_ w;
  c <-? ParseConfig payload;
  let '(mkAbilityConfig uid pid bundleName abilityName recordId abilityState abilityType
          callerUid preloadMode) := c in
  if abilityType =? AbilityType_EXTENSION
  then HandleUIExtensionAbilityStateChange resType value payload
  else if abilityState =? ABILITY_STATE_TERMINATED then HandleAbilityTerminated uid pid recordId
  else
  ret_if HandlePrelaunch abilityState preloadMode;
  upd_sup (GetAppRecordNonNull uid);;
  upd_app uid (Application_SetName bundleName);;
  upd_app uid (GetProcessRecordNonNull pid);;
  upd_proc uid pid (GetAbilityInfoNonNull recordId);;
  upd_proc uid pid (alter_ability recordId (fun abiInfo =>
    abiInfo <| ability_name_ := abilityName |> <| state_ := abilityState |>
            <| type_ := abilityType |>));;
  upd_proc uid pid (fun pr => pr <| preloadMode_ := preloadMode |>);;
  st_when (abilityState =? 0) (ReportCallerEvent uid (uid, pid) callerUid);;
  AdjustProcessGroup uid pid ADJS_ABILITY_STATE.

(** cgroup_event_handler.cpp:332-381 [CgroupEventHandler::HandleProcessCreated] *)
Definition HandleProcessCreated (resType value : Z) (payload : J) : M unit :=
  info <-? ParseProcessCreateInfo payload;
  let '(mkProcessCreateInfo uid pid hostPid bundleName extensionType processType preloadMode) :=
    info in
  upd_sup (GetAppRecordNonNull uid);;
  upd_app uid (GetProcessRecordNonNull pid);;
  upd_app uid (Application_SetName bundleName);;
  match ParseString "processName" payload with
  | Some processName => upd_proc uid pid (ProcessRecord_SetName processName)
  | None => mret tt
  end;;
  upd_proc uid pid (fun pr => pr <| processType_ :=
    if processType <? PROC_RECORD_TYPE_MAX then processType else NORMAL |>);;
  (if (processType =? ProcessType_RENDER) || (processType =? ProcessType_CHILD)
      || (processType =? ProcessType_GPU) then
     upd_proc uid pid (fun pr => pr <| hostPid_ := hostPid |>);;
     upd_app uid (AddHostProcess hostPid)
   else if processType =? ProcessType_EXTENSION then
     upd_proc uid pid (fun pr => pr <| extensionType_ := extensionType |>)
   else mret tt);;
  upd_proc uid pid (fun pr => pr <| preloadMode_ := preloadMode |>);;
  let policy := if bool_decide (preloadMode ∈ PRELOAD_SET) then ADJS_APP_PRELOAD
                else ADJS_PROCESS_CREATE in
  let policy := match ParseValue "isPreloadUIExtension" payload with
                | Some isPreloadUIExtension =>
                    if isPreloadUIExtension =? 0 then policy else ADJS_UIEXTENSION_PRELOAD
                | None => policy
                end in
  AdjustProcessGroup uid pid policy.

(** cgroup_event_handler.cpp:394-425 [CgroupEventHandler::HandleProcessDied] *)
Definition HandleProcessDied (resType value : Z) (payload : J) : M unit :=
  uid <-? ParseValue "uid" payload;
  pid <-? ParseValue "pid" payload;
  bundleName <-? ParseString "bundleName" payload;
  sup ← get_sup;
  app <-? GetAppRecord uid sup;
  st_when (bool_decide (is_Some (GetProcessRecord pid app)))
    (ReportSysEvent uid (uid, pid) RES_TYPE_PROCESS_STATE_CHANGE PROCESS_DIED);;
  upd_sup (fun sup => sup <| sceneBoardUidPid_ ::= fun s => s ∖ {[(uid, pid)]} |>);;
  upd_app uid (RemoveProcessRecord pid);;
  app ← get_app uid;
  st_when (size (pidsMap_ app) =? 0)%nat (upd_sup (RemoveApplication uid)).

(** cgroup_event_handler.cpp:317-330 [CgroupEventHandler::HandleProcessStateChangedEx] *)
Definition HandleProcessStateChangedEx (resType value : Z) (payload : J) : M unit :=
  w ← st_get; _ <-? supervisor_ w;
  if value =? PROCESS_CREATED then HandleProcessCreated resType value payload
  else if value =? PROCESS_DIED then HandleProcessDied resType value payload
  else HandleProcessStateChanged resType value payload.

(** cgroup_event_handler.cpp:1415-1438 [CgroupEventHandler::HandleOnAppStopped] *)
Definition HandleOnAppStopped (resType value : Z) (payload : J) : M unit :=
  w ← st_get; _ <-? supervisor_ w;
  uid <-? parse_int32 "uid" payload;
  bundleName <-? find_string "bundleName" payload;
  upd_sup (RemoveApplication uid).

(** ** Transient and continuous tasks *)

(** cgroup_event_handler.cpp:446-460 [CgroupEventHandler::HandleTransientTaskStart] *)
Definition HandleTransientTaskStart (uid pid : Z) (packageName : string) : M unit :=
  w ← st_get; _ <-? supervisor_ w;
  upd_sup (GetAppRecordNonNull uid);;
  upd_app uid (Application_SetName packageName);;
  app ← get_app uid;
  _ <-? GetProcessRecord pid app;
  upd_proc uid pid (fun pr => pr <| runningTransientTask_ := true |>).

(** cgroup_event_handler.cpp:462-476 [CgroupEventHandler::HandleTransientTaskEnd] *)
Definition HandleTransientTaskEnd (uid pid : Z) (packageName : string) : M unit :=
  w ← st_get; _ <-? supervisor_ w;
  upd_sup (GetAppRecordNonNull uid);;
  upd_app uid (Application_SetName packageName);;
  app ← get_app uid;
  _ <-? GetProcessRecord pid app;
  upd_proc uid pid (fun pr => pr <| runningTransientTask_ := false |>).

(** cgroup_event_handler.cpp:427-444 [CgroupEventHandler::HandleTransientTaskStatus] *)
Definition HandleTransientTaskStatus (resType value : Z) (payload : J) : M unit :=
  uid <-? ParseValue "uid" payload;
  pid <-? ParseValue "pid" payload;
  bundleName <-? ParseString "bundleName" payload;
  if value =? TRANSIENT_TASK_START then HandleTransientTaskStart uid pid bundleName
  else if value =? TRANSIENT_TASK_END then HandleTransientTaskEnd uid pid bundleName
  else mret tt.

(** The loops that or the flags of all types into [continuousTaskFlag_]. *)
Definition set_continuous_flags (uid pid : Z) : M unit :=
  pr ← get_proc uid pid;
  flags ← st_some (continuous_flags (abilityIdAndContinuousTaskFlagMap_ pr));
  upd_proc uid pid (fun pr => pr <| continuousTaskFlag_ := flags |>).

(** cgroup_event_handler.cpp:529-552 [CgroupEventHandler::HandleContinuousTaskUpdate] *)
Definition HandleContinuousTaskUpdate (uid pid : Z) (typeIds : list Z) (abilityId : Z) : M unit :=
  w ← st_get; _ <-? supervisor_ w;
  upd_sup (GetAppRecordNonNull uid);;
  upd_app uid (GetProcessRecordNonNull pid);;
  upd_proc uid pid (fun pr =>
    pr <| abilityIdAndContinuousTaskFlagMap_ ::= <[abilityId := typeIds]> |>);;
  set_continuous_flags uid pid;;
  AdjustProcessGroup uid pid ADJS_CONTINUOUS_BEGIN.

(** cgroup_event_handler.cpp:554-576 [CgroupEventHandler::HandleContinuousTaskCancel] *)
Definition HandleContinuousTaskCancel (uid pid abilityId : Z) : M unit :=
  w ← st_get; _ <-? supervisor_ w;
  upd_sup (GetAppRecordNonNull uid);;
  app ← get_app uid;
  _ <-? GetProcessRecord pid app;
  upd_proc uid pid (fun pr => pr <| abilityIdAndContinuousTaskFlagMap_ ::= delete abilityId |>);;
  set_continuous_flags uid pid;;
  AdjustProcessGroup uid pid ADJS_CONTINUOUS_END.

(** cgroup_event_handler.cpp:507-527 [CgroupEventHandler::HandleContinuousTaskStatus] *)
Definition HandleContinuousTaskStatus (resType value : Z) (payload : J) : M unit :=
  uid <-? ParseValue "uid" payload;
  pid <-? ParseValue "pid" payload;
  abilityId <-? ParseValue "abilityId" payload;
  if (value =? CONTINUOUS_TASK_START) || (value =? CONTINUOUS_TASK_UPDATE) then
    HandleContinuousTaskUpdate uid pid (GetTypeIdsFromJson payload "typeIds") abilityId
  else if value =? CONTINUOUS_TASK_END then HandleContinuousTaskCancel uid pid abilityId
  else mret tt.

(** ** Windows *)

(** sched_controller.cpp:209-227 [SchedController::GetBundleNameByUid] *)
Definition GetBundleNameByUid (uid : Z) : M string :=
  w ← st_get;
  o ← st_some (platform_GetNameForUid (J := J) uid (outer w));
  mret (default "" o).

(** cgroup_event_handler.cpp:631-633 [CgroupEventHandler::HandleFocusedWindow] *)
Definition name_from_bundle (uid : Z) : M unit :=
  app ← get_app uid;
  if String.eqb (app_name_ app) "" then
    name ← GetBundleNameByUid uid; upd_app uid (Application_SetName name)
  else mret tt.

(** cgroup_event_handler.cpp:609-634 [CgroupEventHandler::HandleFocusedWindow] *)
Definition HandleFocusedWindow (windowId windowType displayId pid uid : Z) : M unit :=
  upd_sup (GetAppRecordNonNull uid);;
  upd_app uid (GetProcessRecordNonNull pid);;
  upd_proc uid pid (GetWindowInfoNonNull windowId);;
  upd_proc uid pid (fun pr => pr <| linkedWindow_ := Some (mkWindowRef uid pid windowId) |>);;
  upd_proc uid pid (alter_window windowId (fun win =>
    win <| windowType_ := to_s32 windowType |> <| isFocused_ := true |>
        <| displayId_ := displayId |>));;
  upd_app uid (fun app => app <| focusedProcess_ := Some pid |>);;
  AdjustAllProcessGroup uid ADJS_FOCUSED_WINDOW;;
  ReportSysEvent uid (uid, pid) RES_TYPE_WINDOW_FOCUS WINDOW_FOCUS;;
  name_from_bundle uid.

(** cgroup_event_handler.cpp:636-665 [CgroupEventHandler::HandleUnfocusedWindow] *)
Definition HandleUnfocusedWindow (windowId windowType displayId pid uid : Z) : M unit :=
  sup ← get_sup;
  _ <-? find_proc uid pid sup;
  upd_proc uid pid (GetWindowInfoNonNull windowId);;
  upd_proc uid pid (alter_window windowId (fun win =>
    win <| windowType_ := to_s32 windowType |> <| isFocused_ := false |>
        <| displayId_ := displayId |>));;
  upd_app uid (fun app => if decide (focusedProcess_ app = Some pid)
                          then app <| focusedProcess_ := None |> else app);;
  AdjustAllProcessGroup uid ADJS_UNFOCUSED_WINDOW;;
  ReportSysEvent uid (uid, pid) RES_TYPE_WINDOW_FOCUS WINDOW_UNFOCUS;;
  name_from_bundle uid.

(** cgroup_event_handler.cpp:578-607 [CgroupEventHandler::HandleFocusStateChange] *)
Definition HandleFocusStateChange (resType value : Z) (payload : J) : M unit :=
  w ← st_get; _ <-? supervisor_ w;
  pid <-? ParseValue "pid" payload;
  uid <-? ParseValue "uid" payload;
  windowId <-? ParseValue "windowId" payload;
  windowType <-? ParseValue "windowType" payload;
  displayId <-? ParseLongValue "displayId" payload;
  if value =? WINDOW_FOCUS then
    HandleFocusedWindow (to_u32 windowId) (to_u32 windowType) (to_u64 displayId) pid uid
  else if value =? WINDOW_UNFOCUS then
    HandleUnfocusedWindow (to_u32 windowId) (to_u32 windowType) (to_u64 displayId) pid uid
  else mret tt.

(** cgroup_event_handler.cpp:667-713 [CgroupEventHandler::HandleWindowVisibilityChanged] *)
Definition HandleWindowVisibilityChanged (resType value : Z) (payload : J) : M unit :=
  w ← st_get; _ <-? supervisor_ w;
  pid <-? ParseValue "pid" payload;
  uid <-? ParseValue "uid" payload;
  windowId <-? ParseValue "windowId" payload;
  windowType <-? ParseValue "windowType" payload;
  let windowId := to_u32 windowId in
  let isVisible := negb (value =? 0) in
  (if isVisible then
     upd_sup (GetAppRecordNonNull uid);; upd_app uid (GetProcessRecordNonNull pid)
   else mret tt);;
  sup ← get_sup;
  _ <-? find_proc uid pid sup;
  upd_proc uid pid (GetWindowInfoNonNull windowId);;
  procRecord ← get_proc uid pid;
  windowInfo ← st_some (GetWindowInfo windowId procRecord);
  let visibleStatusNotChanged := eqb (isVisible_ windowInfo) isVisible in
  upd_proc uid pid (alter_window windowId (fun win =>
    win <| isVisible_ := isVisible |> <| windowType_ := windowType |>));;
  ret_if visibleStatusNotChanged;
  AdjustProcessGroup uid pid ADJS_WINDOW_VISIBILITY_CHANGED.

(** cgroup_event_handler.cpp:715-753 [CgroupEventHandler::HandleDrawingContentChangeWindow] *)
Definition HandleDrawingContentChangeWindow (resType value : Z) (payload : J) : M unit :=
  w ← st_get; _ <-? supervisor_ w;
  let drawingContentState := negb (value =? 0) in
  pid <-? ParseValue "pid" payload;
  uid <-? ParseValue "uid" payload;
  windowId <-? ParseValue "windowId" payload;
  windowType <-? ParseValue "windowType" payload;
  sup ← get_sup;
  _ <-? find_proc uid pid sup;
  upd_proc uid pid (fun pr => pr <| processDrawingState_ := drawingContentState |>);;
  upd_proc uid pid (GetWindowInfoNonNull (to_u32 windowId));;
  upd_proc uid pid (alter_window (to_u32 windowId) (fun win =>
    win <| drawingContentState_ := drawingContentState |>));;
  ReportSysEvent uid (uid, pid) RES_TYPE_WINDOW_DRAWING_CONTENT_CHANGE
    (if drawingContentState then Drawing else NotDrawing).

(** ** Events about one process *)

(** cgroup_event_handler.cpp:1440-1463 [CgroupEventHandler::GetProcInfoByPayload] *)
Definition GetProcInfoByPayload (payload : J) : M (option (Z * Z)) :=
  w ← st_get;
  match supervisor_ w, ParsePayload payload with
  | Some sup, Some (uid, pid) =>
      match GetAppRecord uid sup with
      | Some _ => upd_app uid (GetProcessRecordNonNull pid);; mret (Some (uid, pid))
      | None => mret None
      end
  | _, _ => mret None
  end.

(** The adjustment of the host of a process, when there is one. *)
Definition adjust_host (uid pid : Z) (source : AdjustSource) (k : M unit) : M unit :=
  app ← get_app uid;
  procRecord ← get_proc uid pid;
  _ <-? GetProcessRecord (hostPid_ procRecord) app;
  AdjustProcessGroup uid (hostPid_ procRecord) source;; k.

(** cgroup_event_handler.cpp:755-792 [CgroupEventHandler::HandleReportKeyThread] *)
Definition HandleReportKeyThread (resType value : Z) (payload : J) : M unit :=
  o ← GetProcInfoByPayload payload;
  up <-? o; let '(uid, pid) := up in
  keyTid <-? ParseValue "tid" payload;
  role <-? ParseValue "role" payload;
  ok ← CheckTidIsInPid pid keyTid;
  ret_if negb ok;
  upd_proc uid pid (fun pr => pr <| keyThreadRoleMap_ ::= fun m =>
    if value =? CREATE
    then match m !! keyTid with Some _ => m | None => <[keyTid := role]> m end
    else delete keyTid m |>);;
  adjust_host uid pid ADJS_REPORT_IMPORTANT_DISPLAY_THREAD (mret tt).

(** cgroup_event_handler.cpp:834-867 [CgroupEventHandler::UpdateActivepWebRenderInfo] *)
Definition UpdateActivepWebRenderInfo (state windowId uid pid : Z) : M unit :=
  w ← st_get; _ <-? supervisor_ w;
  if state =? ACTIVE then
    app ← get_app uid;
    proc ← get_proc uid pid;
    sup ← get_sup;
    let windowId := to_u32 windowId in
    let win := match GetProcessRecord (hostPid_ proc) app ≫= GetWindowInfo windowId with
               | Some _ => Some (mkWindowRef uid (hostPid_ proc) windowId)
               | None => SearchWindowId windowId sup
               end in
    win <-? win;
    upd_proc (ref_uid win) (ref_pid win) (alter_window (ref_window win) (fun w =>
      w <| topWebviewRenderUid_ := pr_uid_ proc |>));;
    upd_proc uid pid (fun pr => pr <| linkedWindow_ := Some win |> <| isActive_ := true |>)
  else upd_proc uid pid (fun pr => pr <| linkedWindow_ := None |> <| isActive_ := false |>).

(** cgroup_event_handler.cpp:794-832 [CgroupEventHandler::HandleReportWindowState]
    the difference of the serial numbers is undefined when it overflows *)
Definition HandleReportWindowState (resType value : Z) (payload : J) : M unit :=
  o ← GetProcInfoByPayload payload;
  up <-? o; let '(uid, pid) := up in
  windowId <-? ParseValue "windowId" payload;
  state <-? ParseValue "state" payload;
  nowSerialNum <-? ParseValue "serialNum" payload;
  procRecord ← get_proc uid pid;
  stale ← (if nowSerialNum <=? serialNum_ procRecord then
             let span := serialNum_ procRecord - nowSerialNum in
             if bool_decide (is_s32 span) then mret (span <=? MAX_SPAN_SERIAL) else st_undefined
           else mret false);
  ret_if stale : bool;
  upd_proc uid pid (fun pr => pr <| serialNum_ := nowSerialNum |>);;
  UpdateActivepWebRenderInfo state windowId uid pid;;
  adjust_host uid pid ADJS_REPORT_WINDOW_STATE_CHANGED
    (ReportSysEvent uid (uid, pid) RES_TYPE_REPORT_WINDOW_STATE state).

(** cgroup_event_handler.cpp:869-902 [CgroupEventHandler::HandleReportAudioState] *)
Definition HandleReportAudioState (resType value : Z) (payload : J) : M unit :=
  w ← st_get; _ <-? supervisor_ w;
  uid <-? ParseValue "uid" payload;
  pid <-? ParseValue "pid" payload;
  ret_if (uid <=? 0) || (pid <=? 0);
  sup ← get_sup;
  _ <-? find_proc uid pid sup;
  upd_proc uid pid (fun pr => pr <| audioPlayingState_ := to_s32 value |>);;
  AdjustProcessGroup uid pid ADJS_REPORT_AUDIO_STATE_CHANGED;;
  ReportSysEvent uid (uid, pid) resType (to_s32 value).

(** cgroup_event_handler.cpp:904-934 [CgroupEventHandler::HandleReportAudioCapTureState] *)
Definition HandleReportAudioCapTureState (resType value : Z) (payload : J) : M unit :=
  w ← st_get; _ <-? supervisor_ w;
  uid <-? ParseValue "uid" payload;
  pid <-? ParseValue "pid" payload;
  ret_if (uid <=? 0) || (pid <=? 0);
  sup ← get_sup;
  _ <-? find_proc uid pid sup;
  upd_proc uid pid (fun pr => pr <| audioCapTureState_ := to_s32 value |>);;
  AdjustProcessGroup uid pid ADJS_REPORT_AUDIO_STATE_CHANGED.

(** cgroup_event_handler.cpp:936-971 [CgroupEventHandler::HandleReportWebviewAudioState] *)
Definition HandleReportWebviewAudioState (resType value : Z) (payload : J) : M unit :=
  w ← st_get; _ <-? supervisor_ w;
  uid <-? ParseValue "uid" payload;
  pid <-? ParseValue "pid" payload;
  ret_if (uid <=? 0) || (pid <=? 0);
  upd_sup (GetAppRecordNonNull uid);;
  app ← get_app uid;
  _ <-? GetProcessRecord pid app;
  upd_proc uid pid (fun pr => pr <| audioPlayingState_ := to_s32 value |>);;
  AdjustProcessGroup uid pid ADJS_REPORT_WEBVIEW_AUDIO_STATE_CHANGED;;
  ReportSysEvent uid (uid, pid) resType (to_s32 value).

(** cgroup_event_handler.cpp:973-1009 [CgroupEventHandler::HandleReportRunningLockEvent] *)
Definition HandleReportRunningLockEvent (resType value : Z) (payload : J) : M unit :=
  w ← st_get; _ <-? supervisor_ w;
  uid <-? ParseValue "uid" payload;
  pid <-? ParseValue "pid" payload;
  ret_if (uid <=? 0) || (pid <=? 0);
  let type := match find_string "type" payload with Some text => to_u32 (atoi text) | None => 0 end in
  let state := to_s32 value in
  ret_if type =? to_u32 (RUNNINGLOCK_PROXIMITY_SCREEN_CONTROL (J := J) (K := K));
  sup ← get_sup;
  _ <-? find_proc uid pid sup;
  upd_proc uid pid (fun pr =>
    pr <| runningLockState_ ::= <[type := state =? RUNNINGLOCK_STATE_ENABLE]> |>);;
  ReportSysEvent uid (uid, pid) resType state.

(** cgroup_event_handler.cpp:1011-1040 [CgroupEventHandler::HandleReportBluetoothConnectState] *)
Definition HandleReportBluetoothConnectState (resType value : Z) (payload : J) : M unit :=
  w ← st_get; _ <-? supervisor_ w;
  uid <-? ParseValue "uid" payload;
  pid <-? ParseValue "pid" payload;
  ret_if (uid <=? 0) || (pid <=? 0);
  sup ← get_sup;
  _ <-? find_proc uid pid sup;
  upd_proc uid pid (fun pr => pr <| bluetoothState_ := to_s32 value |>);;
  ReportSysEvent uid (uid, pid) resType (to_s32 value).

(** cgroup_event_handler.cpp:1042-1068 [CgroupEventHandler::HandleNapModeEvent] *)
Definition HandleNapModeEvent (resType value : Z) (payload : J) : M unit :=
  w ← st_get; _ <-? supervisor_ w;
  uid <-? ParseValue "UID" payload;
  pid <-? ParseValue "PID" payload;
  ret_if (uid <=? 0) || (pid <=? 0);
  sup ← get_sup;
  _ <-? find_proc uid pid sup;
  ReportSysEvent uid (uid, pid) resType (to_s32 value).

(** cgroup_event_handler.cpp:1070-1113 [CgroupEventHandler::HandleReportHisysEvent] *)
Definition HandleReportHisysEvent (resType value : Z) (payload : J) : M unit :=
  w ← st_get; _ <-? supervisor_ w;
  uid <-? ParseValue "uid" payload;
  pid <-? ParseValue "pid" payload;
  ret_if (uid <=? 0) || (pid <=? 0);
  sup ← get_sup;
  _ <-? find_proc uid pid sup;
  upd_proc uid pid (fun pr =>
    if resType =? RES_TYPE_REPORT_CAMERA_STATE then pr <| cameraState_ := to_s32 value |>
    else if resType =? RES_TYPE_WIFI_CONNECT_STATE_CHANGE then pr <| wifiState_ := to_s32 value |>
    else if resType =? RES_TYPE_MMI_INPUT_STATE then
      match find_string "syncStatus" payload with
      | Some text => pr <| mmiStatus_ := atoi text |>
      | None => pr
      end
    else pr);;
  ReportSysEvent uid (uid, pid) resType (to_s32 value).

(** cgroup_event_handler.cpp:1115-1147 [CgroupEventHandler::HandleReportScreenCaptureEvent] *)
Definition HandleReportScreenCaptureEvent (resType value : Z) (payload : J) : M unit :=
  w ← st_get; _ <-? supervisor_ w;
  uid <-? ParseValue "uid" payload;
  pid <-? ParseValue "pid" payload;
  ret_if (uid <=? 0) || (pid <=? 0);
  sup ← get_sup;
  _ <-? find_proc uid pid sup;
  upd_proc uid pid (fun pr => pr <| screenCaptureState_ := value =? START_SCREEN_CAPTURE |>);;
  AdjustProcessGroup uid pid ADJS_REPORT_SCREEN_CAPTURE;;
  ReportSysEvent uid (uid, pid) resType (to_s32 value).

(** cgroup_event_handler.cpp:1149-1183 [CgroupEventHandler::HandleReportAvCodecEvent] *)
Definition HandleReportAvCodecEvent (resType value : Z) (payload : J) : M unit :=
  w ← st_get; _ <-? supervisor_ w;
  uid <-? ParseValue "uid" payload;
  pid <-? ParseValue "pid" payload;
  ret_if (uid <=? 0) || (pid <=? 0);
  instanceId <-? ParseValue "instanceId" payload;
  ret_if instanceId <? 0;
  let state := to_s32 value in
  sup ← get_sup;
  _ <-? find_proc uid pid sup;
  upd_proc uid pid (fun pr => pr <| avCodecState_ ::= <[instanceId := state =? CODEC_START_INFO]> |>);;
  ReportSysEvent uid (uid, pid) resType state.

(** cgroup_event_handler.cpp:1185-1202 [CgroupEventHandler::HandleSceneBoardState] *)
Definition HandleSceneBoardState (resType value : Z) (payload : J) : M unit :=
  w ← st_get; _ <-? supervisor_ w;
  sceneBoardPid <-? ParseValue "pid" payload;
  sceneBoardUid <-? ParseValue "uid" payload;
  ret_if sceneBoardPid <=? 0;
  upd_sup (fun sup => sup <| sceneBoardUidPid_ ::= union {[(sceneBoardUid, sceneBoardPid)]} |>).

(** cgroup_event_handler.cpp:1204-1224 [CgroupEventHandler::HandleWebviewScreenCapture] *)
Definition HandleWebviewScreenCapture (resType value : Z) (payload : J) : M unit :=
  o ← GetProcInfoByPayload payload;
  up <-? o; let '(uid, pid) := up in
  upd_proc uid pid (fun pr => pr <| screenCaptureState_ := value =? WEB_SCREEN_CAPTURE_START |>);;
  AdjustProcessGroup uid pid ADJS_REPORT_WEBVIEW_SCREEN_CAPTURE;;
  procRecord ← get_proc uid pid;
  ReportSysEvent uid (uid, pid) resType (Z.b2z (screenCaptureState_ procRecord)).

(** cgroup_event_handler.cpp:1246-1268 [CgroupEventHandler::UpdateMmiStatus] *)
Definition UpdateMmiStatus (resType value : Z) (payload : J) : M unit :=
  w ← st_get; _ <-? supervisor_ w;
  pid <-? parse_int32 "pid" payload;
  uid <-? parse_int32 "uid" payload;
  status <-? parse_int32 "status" payload;
  sup ← get_sup;
  _ <-? find_proc uid pid sup;
  upd_proc uid pid (fun pr => pr <| mmiStatus_ := status |>).

(** cgroup_event_handler.cpp:1395-1413 [CgroupEventHandler::HandleReportWebviewVideoState] *)
Definition HandleReportWebviewVideoState (resType value : Z) (payload : J) : M unit :=
  o ← GetProcInfoByPayload payload;
  up <-? o; let '(uid, pid) := up in
  upd_proc uid pid (fun pr => pr <| videoState_ := value =? WEB_VIDEO_PLAYING_START |>);;
  procRecord ← get_proc uid pid;
  ReportSysEvent uid (uid, pid) resType (Z.b2z (videoState_ procRecord)).

(** ** Cosmic cube *)

(** cgroup_event_handler.cpp:1270-1296 [CgroupEventHandler::HandleEmptyPayloadForCosmicCubeState] *)
Definition HandleEmptyPayloadForCosmicCubeState (resType value : Z) : M unit :=
  let isNeedRecover := (resType =? RES_TYPE_COSMIC_CUBE_STATE_CHANGE)
                       && (value =? APPLICATION_ABOUT_TO_RECOVER) in
  ret_if negb isNeedRecover;
  sup ← get_sup;
  st_iter (fun uid =>
    app ← get_app uid;
    if negb (isCosmicCubeStateHide_ app) then mret tt else
    upd_app uid (fun app => app <| isCosmicCubeStateHide_ := false |>);;
    st_iter (fun pid =>
      procRecord ← get_proc uid pid;
      if processType_ procRecord =? NORMAL then AdjustProcessGroup uid pid ADJS_PROCESS_STATE
      else mret tt) (keys_in_order (pidsMap_ app))) (keys_in_order (uidsMap_ sup)).

(** cgroup_event_handler.cpp:1298-1323 [CgroupEventHandler::HandleReportCosmicCubeState] *)
Definition HandleReportCosmicCubeState (resType value : Z) (payload : J) : M unit :=
  w ← st_get; _ <-? supervisor_ w;
  match ParsePayload payload with
  | None => HandleEmptyPayloadForCosmicCubeState resType value
  | Some (uid, pid) =>
      sup ← get_sup;
      _ <-? find_proc uid pid sup;
      upd_app uid (fun app =>
        app <| isCosmicCubeStateHide_ := value =? APPLICATION_ABOUT_TO_HIDE |>);;
      procRecord ← get_proc uid pid;
      if processType_ procRecord =? NORMAL then AdjustProcessGroup uid pid ADJS_PROCESS_STATE
      else mret tt
  end.

(** ** Web sub-windows *)

(** cgroup_event_handler.cpp:1358-1358 [taskName] *)
Definition web_subwin_task_name (pid uid : Z) : string :=
  "webSubWinTask" +:+ to_string pid +:+ to_string uid.

(** cgroup_event_handler.cpp:1325-1369 [CgroupEventHandler::HandleReportWebSubWinTaskStatus] *)
Definition HandleReportWebSubWinTaskStatus (resType value : Z) (payload : J) : M unit :=
  w ← st_get; _ <-? supervisor_ w;
  pid <-? ParseValue "pid" payload;
  ret_if pid <=? 0;
  sup ← get_sup;
  pr <-? FindProcessRecord pid sup;
  procRecord ← get_proc pr.1 pr.2;
  let uid := to_s32 (pr_uid_ procRecord) in
  upd_sup (GetAppRecordNonNull uid);;
  let webSubWinTaskState := value =? WEB_SUBWIN_CALL_START in
  upd_proc pr.1 pr.2 (fun pr => pr <| webSubWinTaskState_ := webSubWinTaskState |>);;
  ReportSysEvent uid pr resType (Z.b2z webSubWinTaskState);;
  w ← st_get;
  ret_if negb (cgHandler_ w);
  let taskName := web_subwin_task_name pid uid in
  RemoveTask taskName;;
  procRecord ← get_proc pr.1 pr.2;
  st_when (webSubWinTaskState_ procRecord)
    (PostDelayedTask (TaskCheckWebSubWin resType uid pid) taskName CHECK_WEB_SUBWIN_TASK_DELAY).

(** cgroup_event_handler.cpp:1371-1393 [CgroupEventHandler::CheckWebSubWinTaskStatus] *)
Definition CheckWebSubWinTaskStatus (resType uid pid : Z) : M unit :=
  w ← st_get; _ <-? supervisor_ w;
  sup ← get_sup;
  procRecord <-? find_proc uid pid sup;
  if webSubWinTaskState_ procRecord then
    upd_proc uid pid (fun pr => pr <| webSubWinTaskState_ := false |>);;
    ReportSysEvent uid (uid, pid) resType (Z.b2z false)
  else mret tt.

End handler.
