(* ===== verification/SchedController.v ===== *)
(** * Controller

    [sched_controller.cpp]: the table from event types to handlers, the queue of
    tasks, start and stop of the plugin, the queries and the dumps. *)
From S2P Require Import Prelude Json ResType Supervisor ProcessGroup World CgroupAdjuster CgroupEventHandler.

(** sched_controller.cpp:41-43 [LIB_NAME] *)
Definition LIB_NAME : string := "libcgroup_sched.z.so".

(** sched_controller.cpp:101-141 [SchedController::InitResTypes] the set that
    [resTypes] holds, in increasing order *)
Definition resTypes : list Z := merge_sort Z.le [
  RES_TYPE_REPORT_KEY_THREAD;
  RES_TYPE_REPORT_WINDOW_STATE;
  RES_TYPE_WEBVIEW_AUDIO_STATUS_CHANGE;
  RES_TYPE_INNER_AUDIO_STATE;
  RES_TYPE_RUNNINGLOCK_STATE;
  RES_TYPE_REPORT_SCENE_BOARD;
  RES_TYPE_WEBVIEW_SCREEN_CAPTURE;
  RES_TYPE_WEBVIEW_VIDEO_STATUS_CHANGE;
  RES_TYPE_SYSTEM_ABILITY_STATUS_CHANGE;
  RES_TYPE_MMI_STATUS_CHANGE;
  RES_TYPE_REPORT_CAMERA_STATE;
  RES_TYPE_BLUETOOTH_A2DP_CONNECT_STATE_CHANGE;
  RES_TYPE_WIFI_CONNECT_STATE_CHANGE;
  RES_TYPE_MMI_INPUT_STATE;
  RES_TYPE_REPORT_SCREEN_CAPTURE;
  RES_TYPE_AV_CODEC_STATE;
  RES_TYPE_SA_CONTROL_APP_EVENT;
  RES_TYPE_FORM_STATE_CHANGE_EVENT;
  RES_TYPE_CONTINUOUS_STARTUP;
  RES_TYPE_SCREEN_LOCK;
  RES_TYPE_BOOT_COMPLETED;
  RES_TYPE_SYSTEM_CPU_LOAD;
  RES_TYPE_THERMAL_STATE;
  RES_TYPE_COSMIC_CUBE_STATE_CHANGE;
  RES_TYPE_APP_STOPPED;
  RES_TYPE_ABILITY_STATE_CHANGE;
  RES_TYPE_EXTENSION_STATE_CHANGE;
  RES_TYPE_PROCESS_STATE_CHANGE;
  RES_TYPE_APP_STATE_CHANGE;
  RES_TYPE_WINDOW_FOCUS;
  RES_TYPE_WINDOW_VISIBILITY_CHANGE;
  RES_TYPE_WINDOW_DRAWING_CONTENT_CHANGE;
  RES_TYPE_CONTINUOUS_TASK;
  RES_TYPE_NAP_MODE;
  RES_TYPE_AUDIO_CAPTURE_STATUS_CHANGED;
  RES_TYPE_WEB_SUBWIN_TASK
].

(** sched_controller.cpp:143-149 [SchedController::InitResTypeWithVal] *)
Definition resTypeWithVal_ : list (Z * Z) := [
  (RES_TYPE_TRANSIENT_TASK, TRANSIENT_TASK_START);
  (RES_TYPE_TRANSIENT_TASK, TRANSIENT_TASK_END)
].

Section controller.
  Context {J K : Type} `{!Json J} `{!Platform J K} `{!AppExecFwk}.
  #[local] Abbreviation M := (ST (World J K)).
  #[local] Abbreviation Handler := (Z -> Z -> J -> M unit).

(** ** Dispatching *)

(** sched_controller.cpp:291-326 [SchedController::InitAddDispatchResFuncMap] *)
Definition AddDispatchResFuncMap : list (Z * Handler) := [
  (RES_TYPE_ABILITY_STATE_CHANGE, HandleAbilityStateChanged);
  (RES_TYPE_EXTENSION_STATE_CHANGE, HandleExtensionStateChanged);
  (RES_TYPE_PROCESS_STATE_CHANGE, HandleProcessStateChangedEx);
  (RES_TYPE_APP_STATE_CHANGE, HandleApplicationStateChanged);
  (RES_TYPE_WINDOW_FOCUS, HandleFocusStateChange);
  (RES_TYPE_WINDOW_VISIBILITY_CHANGE, HandleWindowVisibilityChanged);
  (RES_TYPE_WINDOW_DRAWING_CONTENT_CHANGE, HandleDrawingContentChangeWindow);
  (RES_TYPE_TRANSIENT_TASK, HandleTransientTaskStatus);
  (RES_TYPE_CONTINUOUS_TASK, HandleContinuousTaskStatus);
  (RES_TYPE_AUDIO_CAPTURE_STATUS_CHANGED, HandleReportAudioCapTureState);
  (RES_TYPE_WEB_SUBWIN_TASK, HandleReportWebSubWinTaskStatus)
].

(** sched_controller.cpp:245-289 [SchedController::InitDispatchResFuncMap] *)
Definition dispatchResFuncMap_ : list (Z * Handler) := [
  (RES_TYPE_REPORT_KEY_THREAD, HandleReportKeyThread);
  (RES_TYPE_REPORT_WINDOW_STATE, HandleReportWindowState);
  (RES_TYPE_WEBVIEW_AUDIO_STATUS_CHANGE, HandleReportWebviewAudioState);
  (RES_TYPE_INNER_AUDIO_STATE, HandleReportAudioState);
  (RES_TYPE_RUNNINGLOCK_STATE, HandleReportRunningLockEvent);
  (RES_TYPE_REPORT_SCENE_BOARD, HandleSceneBoardState);
  (RES_TYPE_WEBVIEW_SCREEN_CAPTURE, HandleWebviewScreenCapture);
  (RES_TYPE_REPORT_SCREEN_CAPTURE, HandleReportScreenCaptureEvent);
  (RES_TYPE_WEBVIEW_VIDEO_STATUS_CHANGE, HandleReportWebviewVideoState);
  (RES_TYPE_SYSTEM_ABILITY_STATUS_CHANGE, ReportAbilityStatus);
  (RES_TYPE_MMI_STATUS_CHANGE, UpdateMmiStatus);
  (RES_TYPE_COSMIC_CUBE_STATE_CHANGE, HandleReportCosmicCubeState);
  (RES_TYPE_APP_STOPPED, HandleOnAppStopped)
] ++ AddDispatchResFuncMap.

Definition find_handler (resType : Z) : option Handler :=
  snd <$> find_first (fun p => p.1 =? resType) dispatchResFuncMap_.

(** sched_controller.cpp:175-207 [SchedController::DispatchOtherResource] the
    posted closure *)
Definition run_other (resType value : Z) (payload : J) : M unit :=
  if (resType =? RES_TYPE_REPORT_CAMERA_STATE) || (resType =? RES_TYPE_WIFI_CONNECT_STATE_CHANGE)
     || (resType =? RES_TYPE_MMI_INPUT_STATE)
  then HandleReportHisysEvent resType value payload
  else if resType =? RES_TYPE_BLUETOOTH_A2DP_CONNECT_STATE_CHANGE
  then HandleReportBluetoothConnectState resType value payload
  else if resType =? RES_TYPE_AV_CODEC_STATE then HandleReportAvCodecEvent resType value payload
  else if resType =? RES_TYPE_NAP_MODE then HandleNapModeEvent resType value payload
  else mret tt.

(** sched_controller.cpp:175-207 [SchedController::DispatchOtherResource] *)
Definition DispatchOtherResource (resType value : Z) (payload : J) : M unit :=
  w ← st_get;
  ret_if negb (cgHandler_ w);
  PostTask (TaskOther resType value payload);;
  DispatchResourceExt resType value payload.

(** sched_controller.cpp:151-167 [SchedController::DispatchResource] *)
Definition DispatchResource (resType value : Z) (payload : J) : M unit :=
  w ← st_get;
  ret_if negb (cgHandler_ w);
  match find_handler resType with
  | None => DispatchOtherResource resType value payload
  | Some _ =>
      PostTask (TaskDispatch resType value payload);;
      DispatchOtherResource resType value payload
  end.

(** sched_controller.cpp:169-173 [SchedController::DeliverResource] *)
Definition DeliverResource (resType value : Z) (payload : J) : M Z :=
  DeliverResourceExt resType value payload;; mret 0.

(** The body of each posted closure. *)
Definition run_task (task : Task J) : M unit :=
  match task with
  | TaskDispatch resType value payload =>
      match find_handler resType with
      | Some func => func resType value payload
      | None => mret tt
      end
  | TaskOther resType value payload => run_other resType value payload
  | TaskAbilityStatus saId deviceId value =>
      if value >? 0 then HandleAbilityAdded saId deviceId else HandleAbilityRemoved saId deviceId
  | TaskAdjustSelf => AdjustSelfProcessGroup
  | TaskCheckWebSubWin resType uid pid => CheckWebSubWinTaskStatus resType uid pid
  end.

(** ** The queue *)

(** The queue runs its oldest task. *)
Definition run_head : M unit :=
  w ← st_get;
  match cgroupEventQueue_ w with
  | Some (task :: rest) =>
      st_modify (fun w => w <| cgroupEventQueue_ := Some rest |>);; run_task task
  | _ => mret tt
  end.

Fixpoint run_queue (n : nat) : M unit :=
  match n with
  | O => mret tt
  | S n => run_head;; run_queue n
  end.

(** cgroup_event_handler.cpp:1553-1557 [CgroupEventHandler::PostTask] the
    delayed task under a handle comes due *)
Definition fire (handle : Z) : M unit :=
  w ← st_get;
  dt <-? delayed_ w !! handle;
  st_modify (fun w => w <| delayed_ ::= delete handle |>);;
  run_task (dt_task dt);;
  st_modify (fun w => w <| delayTaskMap_ ::= delete (dt_name dt) |>).

(** cgroup_event_handler.cpp:1560-1568 [CgroupEventHandler::PostTaskAndWait]
    of a task that does nothing: the tasks posted before it have run *)
Definition wait_queue : M unit :=
  w ← st_get;
  queue <-? cgroupEventQueue_ w;
  run_queue (length queue).

(** ** Start and stop *)

(** cgroup_adjuster.cpp:49-59 [CgroupAdjuster::InitAdjuster] *)
Definition InitAdjuster : M unit :=
  w ← st_get;
  st_when (cgHandler_ w) (PostTask TaskAdjustSelf).

(** sched_controller.cpp:48-71 [SchedController::Init] with
    [InitSupervisor], [InitCgroupHandler] and [InitCgroupAdjuster] *)
Definition Init : M unit :=
  st_modify (fun w => w <| sched_supervisor_ := true |>);;
  st_modify (fun w => w <| cgHandler_ := true |> <| cgroupEventQueue_ := Some [] |>
                        <| delayTaskMap_ := ∅ |> <| supervisor_ := Some new_Supervisor |>);;
  InitAdjuster;;
  st_iter (fun resType => call (CallSubscribe LIB_NAME resType)) resTypes;;
  st_iter (fun '(resType, val) => call (CallSubscribeAccurately LIB_NAME resType val))
    resTypeWithVal_;;
  SubscribeResourceExt;;
  SubscribeSyncResourceExt.

(** sched_controller.cpp:73-89 [SchedController::Disable]; the handler lives on
    while a task refers to it *)
Definition Disable : M unit :=
  st_iter (fun resType => call (CallUnSubscribe LIB_NAME resType)) resTypes;;
  st_iter (fun '(resType, val) => call (CallUnSubscribeAccurately LIB_NAME resType val))
    resTypeWithVal_;;
  w ← st_get;
  st_when (cgHandler_ w) (wait_queue;; st_modify (fun w => w <| cgHandler_ := false |>));;
  st_modify (fun w => w <| sched_supervisor_ := false |>).

(** sched_controller.cpp:466-474 [OnPluginInit] *)
Definition OnPluginInit (libName : string) : M bool :=
  if negb (String.eqb libName LIB_NAME) then mret false else Init;; mret true.

(** ** Runs *)

(** What happens next to the plugin: an event arrives, the queue runs a task, a
    delayed task comes due (the time is not modelled). *)
Inductive Event : Type :=
  | EvDispatch (resType value : Z) (payload : J)
  | EvRun
  | EvFire (handle : Z).

Definition exec_event (e : Event) : M unit :=
  match e with
  | EvDispatch resType value payload => DispatchResource resType value payload
  | EvRun => run_head
  | EvFire handle => fire handle
  end.

(** The plugin is started and then sees the events in this order. *)
Definition plugin_run (k : K) (events : list Event) : option (unit * World J K) :=
  (Init;; st_iter exec_event events) (new_World k).

(** ** Queries *)

(** sched_controller.cpp:91-99 [SchedController::GetProcessGroup] *)
Definition SchedController_GetProcessGroup (pid : Z) : M Z :=
  w ← st_get;
  if negb (sched_supervisor_ w) then mret (to_s32 SP_DEFAULT) else
  sup ← get_sup;
  match FindProcessRecord pid sup with
  | Some path => pr ← get_proc path.1 path.2; mret (to_s32 (curSchedGroup_ pr))
  | None => mret (to_s32 SP_DEFAULT)
  end.

(** sched_controller.cpp:491-501 [GetProcessGroup] *)
Definition GetProcessGroup (pid : Z) : M Z :=
  w ← st_get;
  if negb (cgHandler_ w) then mret (to_s32 SP_DEFAULT) else
  match cgroupEventQueue_ w with
  | None => mret (to_s32 SP_DEFAULT)
  | Some _ => wait_queue;; SchedController_GetProcessGroup pid
  end.

(** ** Dumps *)

#[local] Abbreviation ToString := (platform_ToString (J := J) (K := K)).

(** sched_controller.cpp:368-375 [SchedController::DumpHelp] *)
Definition DumpHelp : string :=
  let nl := String "010"%char "" in
  "        plugin name : libcgroup_sched.z.so " +:+ nl
  +:+ "                   -h: show the cgroup_sched_plugin help. " +:+ nl
  +:+ "                   -getRunningLockInfo: get all runnable process lock info. " +:+ nl
  +:+ "                   -getProcessEventInfo: get all runnable process event info. " +:+ nl
  +:+ "                   -getProcessWindowInfo: get all runnable process window info. " +:+ nl.

(** The text of all processes in the order of the two loops. *)
Definition dump_processes (f : Z -> Application -> Z -> ProcessRecord -> string)
    (sup : Supervisor) : string :=
  String.concat "" (
    '(uid, app) ← in_order (uidsMap_ sup);
    '(pid, pr) ← in_order (pidsMap_ app);
    [f uid app pid pr]).

(** sched_controller.cpp:377-398 [SchedController::DumpProcessRunningLock] *)
Definition DumpProcessRunningLock : Supervisor -> string :=
  dump_processes (fun uid _ pid process =>
    String.concat "" ((fun '(lockType, lockState) =>
      "uid: " +:+ ToString uid +:+ ", pid: " +:+ ToString pid
      +:+ ", lockType: " +:+ ToString lockType
      +:+ ", lockState: " +:+ ToString (Z.b2z lockState)) <$> in_order (runningLockState_ process))).

(** sched_controller.cpp:400-433 [SchedController::DumpProcessEventState] *)
Definition DumpProcessEventState : Supervisor -> string :=
  dump_processes (fun uid _ pid process =>
    "uid: " +:+ ToString uid
    +:+ ", pid: " +:+ ToString pid
    +:+ ", processName: " +:+ processName_ process
    +:+ ", processState: " +:+ ToString (processState_ process)
    +:+ ", extensionType: " +:+ ToString (extensionType_ process)
    +:+ ", napState: " +:+ ToString (Z.b2z (isNapState_ process))
    +:+ ", processDrawingState: " +:+ ToString (Z.b2z (processDrawingState_ process))
    +:+ ", mmiState: " +:+ ToString (mmiStatus_ process)
    +:+ ", cameraState: " +:+ ToString (cameraState_ process)
    +:+ ", bluetoothState: " +:+ ToString (bluetoothState_ process)
    +:+ ", wifiState: " +:+ ToString (wifiState_ process)
    +:+ ", screenCaptureState: " +:+ ToString (Z.b2z (screenCaptureState_ process))
    +:+ ", videoState: " +:+ ToString (Z.b2z (videoState_ process))
    +:+ ", isActive: " +:+ ToString (Z.b2z (isActive_ process))
    +:+ ", linkedWindowId: "
    +:+ match linkedWindow_ process with None => "" | Some w => ToString (ref_window w) end
    +:+ ", audioCapTureState: " +:+ ToString (audioCapTureState_ process)
    +:+ ", audioPlayingState: " +:+ ToString (audioPlayingState_ process)
    +:+ ", policyDescription: " +:+ ToString (policyDescription_ process)
    +:+ ", curSchedGroup: " +:+ ToString (curSchedGroup_ process)
    +:+ String "010"%char "").

(** sched_controller.cpp:435-464 [SchedController::DumpProcessWindowInfo] *)
Definition DumpProcessWindowInfo : Supervisor -> string :=
  dump_processes (fun uid app pid process =>
    if (length (windows_ process) =? 0)%nat then "" else
    "uid: " +:+ ToString uid
    +:+ ", pid: " +:+ ToString pid
    +:+ ", bundleName: " +:+ app_name_ app
    +:+ ", processDrawingState: " +:+ ToString (Z.b2z (processDrawingState_ process))
    +:+ ", windowInfo: " +:+ String "010"%char ""
    +:+ String.concat "" ((fun windows =>
      "    windowId:" +:+ ToString (windowId_ windows)
      +:+ "    isVisible:" +:+ ToString (Z.b2z (isVisible_ windows))
      +:+ "    isFocus:" +:+ ToString (Z.b2z (isFocused_ windows))
      +:+ "    topWebviewRenderUid:" +:+ ToString (topWebviewRenderUid_ windows)
      +:+ String "010"%char "") <$> windows_ process)).

(** The controller's own pointer to the process model. *)
Definition get_sched_sup : M Supervisor :=
  w ← st_get;
  if sched_supervisor_ w then get_sup else st_undefined.

(** sched_controller.cpp:352-366 [SchedController::Dump] the text appended; the
    dumps dereference the pointer to the process model *)
Definition Dump (args : list string) : M string :=
  match args with
  | [arg] =>
      if String.eqb arg "-h" then mret DumpHelp
      else if String.eqb arg "-getRunningLockInfo" then sup ← get_sched_sup; mret (DumpProcessRunningLock sup)
      else if String.eqb arg "-getProcessEventInfo" then sup ← get_sched_sup; mret (DumpProcessEventState sup)
      else if String.eqb arg "-getProcessWindowInfo" then sup ← get_sched_sup; mret (DumpProcessWindowInfo sup)
      else mret ""
  | _ => mret ""
  end.

End controller.

Arguments EvDispatch {_}.
Arguments EvRun {_}.
Arguments EvFire {_}.
