(* ===== verification/SupervisorFacts.v ===== *)
(** * Well-formed process models

    The invariant of the data of [Supervisor.v]: every record is filed under its
    own uid and pid, ids are unique, the focused process is a process of the
    application.  Each operation keeps it. *)
From S2P Require Import Prelude Supervisor CgroupEventHandler.

(** ** Definitions *)

(** [ok pid g]: moving [pid] to group [g] succeeded at some time. *)
Record wf_proc (ok : Z -> Z -> Prop) (uid pid : Z) (pr : ProcessRecord) : Prop := {
  wf_pr_uid : pr_uid_ pr = to_u32 uid;
  wf_pr_pid : pr_pid_ pr = pid;
  wf_windows : NoDup (windowId_ <$> windows_ pr);
  wf_abilities : NoDup (recordId_ <$> abilities_ pr);
  wf_flags : continuous_flags (abilityIdAndContinuousTaskFlagMap_ pr)
             = Some (continuousTaskFlag_ pr);
  wf_serial : -1 <= serialNum_ pr < 2 ^ 31;
  wf_cur : curSchedGroup_ pr = SP_UPPER_LIMIT \/ ok pid (to_s32 (curSchedGroup_ pr));
}.

Record wf_app (ok : Z -> Z -> Prop) (uid : Z) (app : Application) : Prop := {
  wf_app_uid : app_uid_ app = to_u32 uid;
  wf_procs : forall pid pr, pidsMap_ app !! pid = Some pr -> wf_proc ok uid pid pr;
  wf_focus : forall pid, focusedProcess_ app = Some pid -> is_Some (pidsMap_ app !! pid);
}.

Record wf_sup (ok : Z -> Z -> Prop) (sup : Supervisor) : Prop := {
  wf_uids : forall uid app, uidsMap_ sup !! uid = Some app -> is_s32 uid;
  wf_apps : forall uid app, uidsMap_ sup !! uid = Some app -> wf_app ok uid app;
}.

(** The fields that the extension library sets: scheduling decisions. *)
Definition frame_proc (pr : ProcessRecord) : ProcessRecord :=
  pr <| setSchedGroup_ := 0 |> <| specialSchedGroup_ := 0 |> <| policyDescription_ := 0 |>
     <| cpuLevel_ := 0 |> <| suppressState_ := 0 |> <| specialSchedThread_ := ∅ |>
     <| policyBeforUnlimitedSuppress_ := ∅ |>.
Definition frame_app (app : Application) : Application :=
  app <| pidsMap_ ::= fmap frame_proc |> <| delayTaskPerf_ := false |> <| liveViewState_ := 0 |>
      <| app_cpuLevel_ := 0 |>.
Definition frame_sup (sup : Supervisor) : Supervisor := sup <| uidsMap_ ::= fmap frame_app |>.

(** ** Lists searched by id *)

Lemma find_first_None {A} (p : A -> bool) l : find_first p l = None <-> Forall (fun x => p x = false) l.
Proof.
  induction l as [|x l IH]; simpl; [done|]. rewrite Forall_cons, <- IH.
  destruct (p x); split; [done | by intros [? _] | done | by intros [_ ?]].
Qed.

Lemma find_first_Some {A} (p : A -> bool) l x :
  find_first p l = Some x -> x ∈ l /\ p x = true.
Proof.
  induction l as [|y l IH]; simpl; [done|]. destruct (p y) eqn:E.
  - intros [= ->]. split; [apply list_elem_of_here | done].
  - intros [? ?]%IH. split; [by right | done].
Qed.

Lemma fmap_alter_first {A B} (g : A -> B) (p : A -> bool) (f : A -> A) l :
  (forall x, g (f x) = g x) -> g <$> alter_first p f l = g <$> l.
Proof.
  intros Hf. induction l as [|x l IH]; simpl; [done|].
  destruct (p x); csimpl; by rewrite ?Hf, ?IH.
Qed.

Lemma fmap_erase_first {A B} (g : A -> B) (p : A -> bool) l :
  sublist (g <$> erase_first p l) (g <$> l).
Proof.
  induction l as [|x l IH]; simpl; [constructor|].
  destruct (p x); csimpl; [by apply sublist_cons | by apply sublist_skip].
Qed.

Lemma NoDup_append_new {A} (g : A -> Z) (l : list A) x :
  NoDup (g <$> l) -> find_first (fun y => g y =? g x) l = None -> NoDup (g <$> (l ++ [x])).
Proof.
  intros Hl Hx%find_first_None. rewrite fmap_app. simpl. apply NoDup_app.
  split_and!; [done| |apply NoDup_singleton].
  intros i Hi%list_elem_of_fmap. destruct Hi as (y & -> & Hy).
  rewrite list_elem_of_singleton. intros E.
  eapply Forall_forall in Hx; [|exact Hy]. simpl in Hx. lia.
Qed.

(** ** Records *)
Section proc.
Context (ok : Z -> Z -> Prop) (uid pid : Z).
Implicit Types pr : ProcessRecord.

Lemma wf_new_proc : wf_proc ok uid pid (new_ProcessRecord (to_u32 uid) pid).
Proof.
  split; try done; [|constructor|constructor|by left].
  simpl. unfold to_u32. by rewrite Zmod_mod.
Qed.

Lemma wf_GetAbilityInfoNonNull recordId pr :
  wf_proc ok uid pid pr -> wf_proc ok uid pid (GetAbilityInfoNonNull recordId pr).
Proof.
  intros []. unfold GetAbilityInfoNonNull. destruct find_first eqn:E; [done|].
  split; try done. apply (NoDup_append_new recordId_); [done | exact E].
Qed.

Lemma wf_alter_ability recordId f pr :
  (forall a, recordId_ (f a) = recordId_ a) ->
  wf_proc ok uid pid pr -> wf_proc ok uid pid (alter_ability recordId f pr).
Proof. intros Hf []. split; try done. simpl. by rewrite fmap_alter_first. Qed.

Lemma wf_GetWindowInfoNonNull windowId pr :
  wf_proc ok uid pid pr -> wf_proc ok uid pid (GetWindowInfoNonNull windowId pr).
Proof.
  intros []. unfold GetWindowInfoNonNull. destruct find_first eqn:E; [done|].
  split; try done. apply (NoDup_append_new windowId_); [done | exact E].
Qed.

Lemma wf_alter_window windowId f pr :
  (forall a, windowId_ (f a) = windowId_ a) ->
  wf_proc ok uid pid pr -> wf_proc ok uid pid (alter_window windowId f pr).
Proof. intros Hf []. split; try done. simpl. by rewrite fmap_alter_first. Qed.

Lemma wf_RemoveAbility recordId pr :
  wf_proc ok uid pid pr -> wf_proc ok uid pid (RemoveAbilityByRecordId recordId pr).
Proof.
  intros []. split; try done. eapply sublist_NoDup; [done | apply fmap_erase_first].
Qed.

Lemma wf_proc_SetName name pr :
  wf_proc ok uid pid pr -> wf_proc ok uid pid (ProcessRecord_SetName name pr).
Proof. intros Hw. unfold ProcessRecord_SetName. destruct String.eqb; [|done]. by destruct Hw. Qed.

Lemma wf_proc_frame pr pr' :
  frame_proc pr' = frame_proc pr -> wf_proc ok uid pid pr -> wf_proc ok uid pid pr'.
Proof.
  destruct pr, pr'. unfold frame_proc. simpl. intros [= -> -> ->] []. simplify_eq. by split.
Qed.
End proc.

Lemma wf_proc_mono (ok ok' : Z -> Z -> Prop) uid pid pr :
  (forall p g, ok p g -> ok' p g) -> wf_proc ok uid pid pr -> wf_proc ok' uid pid pr.
Proof. intros Hok []. split; try done. destruct wf_cur0; eauto. Qed.

(** A window that [GetWindowInfoNonNull] gave is found. *)
Lemma GetWindowInfo_NonNull windowId pr :
  is_Some (GetWindowInfo windowId (GetWindowInfoNonNull windowId pr)).
Proof.
  unfold GetWindowInfoNonNull, GetWindowInfo.
  destruct (find_first _ (windows_ pr)) eqn:E; [by rewrite E|]. simpl.
  induction (windows_ pr) as [|w l IH]; simpl in *.
  - unfold is_window. simpl. by rewrite Z.eqb_refl.
  - destruct (is_window windowId w); [done | auto].
Qed.

(** ** Applications *)
Section app.
Context (ok : Z -> Z -> Prop) (uid : Z).
Implicit Types app : Application.

Lemma wf_new_app : is_s32 uid -> wf_app ok uid (new_Application uid).
Proof. intros H. split; try done. Qed.

Lemma wf_GetProcessRecordNonNull pid app :
  wf_app ok uid app -> wf_app ok uid (GetProcessRecordNonNull pid app).
Proof.
  intros Hw. destruct Hw as [Hu Hp Hf]. unfold GetProcessRecordNonNull.
  destruct (pidsMap_ app !! pid) eqn:E; [done|]. split; simpl; [done|..].
  - intros pid' pr. rewrite lookup_insert_Some. intros [[<- <-]|[_ H]]; [|by apply Hp].
    rewrite Hu. apply wf_new_proc.
  - intros pid' H. rewrite lookup_insert_is_Some'. right. by apply Hf.
Qed.

Lemma wf_alter_pids pid f app :
  (forall pr, wf_proc ok uid pid pr -> wf_proc ok uid pid (f pr)) ->
  wf_app ok uid app -> wf_app ok uid (app <| pidsMap_ ::= alter f pid |>).
Proof.
  intros Hpr [Hu Hp Hf]. split; simpl; [done|..].
  - intros pid' pr. rewrite lookup_alter_Some.
    intros [(-> & pr0 & H & ->)|[? H]]; [apply Hpr; by apply Hp | by apply Hp].
  - intros pid' H. rewrite lookup_alter_is_Some. by apply Hf.
Qed.

Lemma wf_RemoveProcessRecord pid app :
  wf_app ok uid app -> wf_app ok uid (RemoveProcessRecord pid app).
Proof.
  intros [Hu Hp Hf]. unfold RemoveProcessRecord.
  destruct (pidsMap_ app !! pid) eqn:E; [|done].
  split.
  - by do 2 case_match.
  - intros pid' pr. assert (H : forall a, pidsMap_ (a <| pidsMap_ ::= delete pid |>)
      = delete pid (pidsMap_ a)) by done. rewrite H.
    intros [_ H']%lookup_delete_Some. apply Hp.
    by repeat case_match.
  - intros pid' H. destruct (decide (pid = pid')) as [<-|Hne].
    + by repeat case_match.
    + simpl. rewrite lookup_delete_ne by done.
      repeat case_match; simpl in *; try done; by apply Hf.
Qed.

Lemma wf_app_simple app app' :
  app_uid_ app' = app_uid_ app -> pidsMap_ app' = pidsMap_ app ->
  (focusedProcess_ app' = focusedProcess_ app \/ focusedProcess_ app' = None) ->
  wf_app ok uid app -> wf_app ok uid app'.
Proof.
  intros E1 E2 E3 [Hu Hp Hf]. split; [congruence|by rewrite E2|].
  intros pid. rewrite E2. destruct E3 as [-> | ->]; [apply Hf | done].
Qed.

Lemma wf_app_SetName name app : wf_app ok uid app -> wf_app ok uid (Application_SetName name app).
Proof. unfold Application_SetName. case_match; [|done]. apply wf_app_simple; auto. Qed.
End app.

(** ** The whole model *)

(** What a handler knows to be there: an application, a process of it. *)
Inductive Fact : Type := FApp (uid : Z) | FProc (uid pid : Z).
Definition fact_holds (sup : Supervisor) (f : Fact) : Prop :=
  match f with
  | FApp uid => is_Some (GetAppRecord uid sup)
  | FProc uid pid => is_Some (find_proc uid pid sup)
  end.
Definition grows (sup sup' : Supervisor) : Prop :=
  forall f, fact_holds sup f -> fact_holds sup' f.

#[export] Instance grows_preorder : PreOrder grows.
Proof. split; [by intros ?? | intros x y z H1 H2 f Hf; auto]. Qed.

Section sup.
Context (ok : Z -> Z -> Prop).
Implicit Types sup : Supervisor.

Lemma wf_new_sup : wf_sup ok new_Supervisor.
Proof. split; intros uid app H; simpl in H; by rewrite lookup_empty in H. Qed.

Lemma wf_GetAppRecordNonNull uid sup :
  is_s32 uid -> wf_sup ok sup -> wf_sup ok (GetAppRecordNonNull uid sup).
Proof.
  intros Hu [H1 H2]. unfold GetAppRecordNonNull. destruct (uidsMap_ sup !! uid); [done|].
  split; simpl; intros uid' app; rewrite lookup_insert_Some;
    intros [[<- <-]|[_ H]]; eauto using wf_new_app.
Qed.

Lemma wf_alter_app uid f sup :
  (forall app, wf_app ok uid app -> wf_app ok uid (f app)) ->
  wf_sup ok sup -> wf_sup ok (alter_app uid f sup).
Proof.
  intros Hf [H1 H2]. split; simpl; intros uid' app; rewrite lookup_alter_Some;
    intros [(-> & app0 & H & ->)|[? H]]; eauto.
Qed.

Lemma wf_alter_proc uid pid f sup :
  (forall pr, wf_proc ok uid pid pr -> wf_proc ok uid pid (f pr)) ->
  wf_sup ok sup -> wf_sup ok (alter_proc uid pid f sup).
Proof. intros Hf. apply wf_alter_app. intros app. by apply wf_alter_pids. Qed.

Lemma wf_RemoveApplication uid sup : wf_sup ok sup -> wf_sup ok (RemoveApplication uid sup).
Proof.
  intros [H1 H2]. split; simpl; intros uid' app [_ H]%lookup_delete_Some; eauto.
Qed.

Lemma wf_sup_simple sup sup' :
  uidsMap_ sup' = uidsMap_ sup -> wf_sup ok sup -> wf_sup ok sup'.
Proof. intros E [H1 H2]. split; rewrite E; done. Qed.

Lemma wf_ConnectAppManagerService o sup :
  wf_sup ok sup -> wf_sup ok (ConnectAppManagerService o sup).
Proof. destruct o; [by apply wf_sup_simple | done]. Qed.

Lemma wf_foldl {A} (f : Supervisor -> A -> Supervisor) l sup :
  (forall sup x, x ∈ l -> wf_sup ok sup -> wf_sup ok (f sup x)) ->
  wf_sup ok sup -> wf_sup ok (foldl f sup l).
Proof.
  revert sup. induction l as [|x l IH]; intros sup Hf Hs; simpl; [done|].
  apply IH; [|apply Hf; [left | done]]. intros sup' y Hy. apply Hf. by right.
Qed.

Lemma wf_ReloadApplication l sup :
  Forall (fun p => is_s32 (rp_uid p)) l ->
  wf_sup ok sup -> wf_sup ok (ReloadApplication l sup).
Proof.
  intros Hl Hs. unfold ReloadApplication. case_match; [done|].
  apply wf_foldl; [|done]. intros s p Hp Hw.
  rewrite Forall_forall in Hl. specialize (Hl p Hp).
  apply wf_alter_app; [intros; by apply wf_GetProcessRecordNonNull|].
  case_match; [by apply wf_GetAppRecordNonNull|].
  apply wf_alter_app; [intros; by apply wf_app_SetName | by apply wf_GetAppRecordNonNull].
Qed.

Lemma wf_ReloadChildProcess l sup :
  Forall (fun p => is_s32 (cp_hostUid p)) l ->
  wf_sup ok sup -> wf_sup ok (ReloadChildProcess l sup).
Proof.
  intros Hl Hs. unfold ReloadChildProcess. case_match; [done|].
  apply wf_foldl; [|done]. intros s p Hp Hw.
  rewrite Forall_forall in Hl. specialize (Hl p Hp).
  do 2 (apply wf_alter_proc; [by intros pr []|]).
  apply wf_alter_app; [intros; by apply wf_GetProcessRecordNonNull|].
  apply wf_alter_app; [intros app; by apply wf_app_simple; auto|].
  by apply wf_GetAppRecordNonNull.
Qed.

Lemma lookup_frame_app uid sup sup' :
  frame_sup sup' = frame_sup sup ->
  frame_app <$> uidsMap_ sup' !! uid = frame_app <$> uidsMap_ sup !! uid.
Proof.
  intros E%(f_equal uidsMap_). simpl in E.
  apply (f_equal (lookup uid)) in E. by rewrite !lookup_fmap in E.
Qed.

Lemma lookup_frame_proc pid app app' :
  frame_app app' = frame_app app ->
  frame_proc <$> pidsMap_ app' !! pid = frame_proc <$> pidsMap_ app !! pid.
Proof.
  intros E%(f_equal pidsMap_). simpl in E.
  apply (f_equal (lookup pid)) in E. by rewrite !lookup_fmap in E.
Qed.

Lemma wf_app_frame uid app app' :
  frame_app app' = frame_app app -> wf_app ok uid app -> wf_app ok uid app'.
Proof.
  intros E [H1 H2 H3]. split.
  - rewrite <- H1. apply (f_equal app_uid_ E).
  - intros pid pr Hpr. pose proof (lookup_frame_proc pid _ _ E) as Hl.
    rewrite Hpr in Hl. simpl in Hl. symmetry in Hl.
    apply fmap_Some in Hl as (pr0 & Hpr0 & Hl). eapply wf_proc_frame; eauto.
  - intros pid Hpid. pose proof (lookup_frame_proc pid _ _ E) as Hl.
    destruct (H3 pid) as [pr Hpr]; [by rewrite <- Hpid; symmetry; apply (f_equal focusedProcess_ E)|].
    rewrite Hpr in Hl. apply fmap_Some in Hl as (pr0 & -> & _). by exists pr0.
Qed.

Lemma wf_sup_frame sup sup' : frame_sup sup' = frame_sup sup -> wf_sup ok sup -> wf_sup ok sup'.
Proof.
  intros E [H1 H2]. split; intros uid app Happ;
    pose proof (lookup_frame_app uid _ _ E) as Hl; rewrite Happ in Hl; simpl in Hl;
    symmetry in Hl; apply fmap_Some in Hl as (app0 & Happ0 & Hl); [by eapply H1|].
  eapply wf_app_frame; eauto.
Qed.
End sup.

Lemma wf_sup_mono (ok ok' : Z -> Z -> Prop) sup :
  (forall p g, ok p g -> ok' p g) -> wf_sup ok sup -> wf_sup ok' sup.
Proof.
  intros Hok [H1 H2]. split; [done|]. intros uid app H. destruct (H2 _ _ H).
  split; try done. intros. eapply wf_proc_mono; eauto.
Qed.

(** ** What stays there *)

Lemma find_proc_Some uid pid sup pr :
  find_proc uid pid sup = Some pr <->
  exists app, GetAppRecord uid sup = Some app /\ GetProcessRecord pid app = Some pr.
Proof. unfold find_proc. rewrite bind_Some. done. Qed.

(** The change of one record, with what is known of the record that is there. *)
Lemma wf_alter_proc_at ok uid pid f sup pr :
  find_proc uid pid sup = Some pr ->
  (wf_proc ok uid pid pr -> wf_proc ok uid pid (f pr)) ->
  wf_sup ok sup -> wf_sup ok (alter_proc uid pid f sup).
Proof.
  intros (app & Ha & Hp)%find_proc_Some Hf [Hu Hw].
  unfold GetAppRecord, GetProcessRecord in *.
  split; simpl; intros uid' app'; rewrite lookup_alter_Some;
    intros [(-> & app0 & Hl & ->)|[? Hl]]; eauto.
  simplify_eq. specialize (Hw _ _ Ha). destruct Hw as [Hau Hap Haf]. split; simpl; [done|..].
  - intros pid' pr'. rewrite lookup_alter_Some.
    intros [(-> & pr0 & Hl' & ->)|[? Hl']]; [|by apply Hap]. simplify_eq. by apply Hf, Hap.
  - intros pid' Hq. rewrite lookup_alter_is_Some. by apply Haf.
Qed.

Lemma alter_proc_compose uid pid f g sup :
  alter_proc uid pid g (alter_proc uid pid f sup) = alter_proc uid pid (g ∘ f) sup.
Proof.
  unfold alter_proc, alter_app. destruct sup. unfold over. simpl. f_equal.
  rewrite alter_alter_eq. apply alter_ext. intros [] _. unfold over. simpl. f_equal.
  apply alter_alter_eq.
Qed.

Lemma GetAppRecord_alter_app uid uid' f sup :
  GetAppRecord uid (alter_app uid' f sup)
  = if decide (uid' = uid) then f <$> GetAppRecord uid sup else GetAppRecord uid sup.
Proof.
  unfold GetAppRecord, alter_app. simpl. rewrite lookup_alter.
  by destruct (decide (uid' = uid)) as [->|].
Qed.

Lemma find_proc_alter_proc uid pid f sup pr :
  find_proc uid pid sup = Some pr ->
  find_proc uid pid (alter_proc uid pid f sup) = Some (f pr).
Proof.
  intros (app & Ha & Hp)%find_proc_Some. apply find_proc_Some.
  exists (app <| pidsMap_ ::= alter f pid |>). split.
  - unfold alter_proc. rewrite GetAppRecord_alter_app, Ha. by rewrite decide_True.
  - unfold GetProcessRecord in *. simpl. by rewrite lookup_alter_eq, Hp.
Qed.

Lemma grows_alter_app uid f sup :
  (forall app pid, is_Some (pidsMap_ app !! pid) -> is_Some (pidsMap_ (f app) !! pid)) ->
  grows sup (alter_app uid f sup).
Proof.
  intros Hf [uid'|uid' pid]; simpl.
  - rewrite GetAppRecord_alter_app. case_decide; [by rewrite fmap_is_Some | done].
  - intros [pr (app & Ha & Hp)%find_proc_Some]. unfold find_proc.
    rewrite GetAppRecord_alter_app, Ha. case_decide; simpl; [|by exists pr].
    apply Hf. by exists pr.
Qed.

Lemma grows_alter_proc uid pid f sup : grows sup (alter_proc uid pid f sup).
Proof.
  apply grows_alter_app. intros app pid' H. simpl. by apply lookup_alter_is_Some.
Qed.

Lemma grows_GetAppRecordNonNull uid sup : grows sup (GetAppRecordNonNull uid sup).
Proof.
  unfold GetAppRecordNonNull. destruct (uidsMap_ sup !! uid) eqn:E; [done|].
  intros [uid'|uid' pid]; unfold fact_holds, find_proc, GetAppRecord; simpl;
    destruct (decide (uid = uid')) as [<-|]; rewrite ?E, ?lookup_insert_ne by done; try done;
    intros [? [=]].
Qed.

Lemma grows_GetProcessRecordNonNull uid pid sup :
  grows sup (alter_app uid (GetProcessRecordNonNull pid) sup).
Proof.
  apply grows_alter_app. intros app pid' H. unfold GetProcessRecordNonNull.
  case_match; [done|]. simpl. rewrite lookup_insert_is_Some'. by right.
Qed.

Lemma grows_simple_app uid f sup :
  (forall app, pidsMap_ (f app) = pidsMap_ app) -> grows sup (alter_app uid f sup).
Proof. intros Hf. apply grows_alter_app. intros app pid. by rewrite Hf. Qed.

Lemma grows_simple sup sup' : uidsMap_ sup' = uidsMap_ sup -> grows sup sup'.
Proof. intros E [|]; unfold fact_holds, find_proc, GetAppRecord; by rewrite E. Qed.

Lemma grows_frame sup sup' : frame_sup sup' = frame_sup sup -> grows sup sup'.
Proof.
  intros E [uid|uid pid]; unfold fact_holds, find_proc, GetAppRecord.
  - pose proof (lookup_frame_app uid _ _ E) as H. intros [app Ha]. rewrite Ha in H.
    apply fmap_Some in H as (app' & -> & _). by exists app'.
  - pose proof (lookup_frame_app uid _ _ E) as H. intros [pr (app & Ha & Hp)%find_proc_Some].
    unfold GetAppRecord in Ha. rewrite Ha in H.
    apply fmap_Some in H as (app' & -> & H). simpl. symmetry in H.
    pose proof (lookup_frame_proc pid _ _ H) as Hl. unfold GetProcessRecord in *.
    rewrite Hp in Hl. apply fmap_Some in Hl as (pr' & -> & _). by exists pr'.
Qed.

Lemma fact_GetAppRecordNonNull uid sup : fact_holds (GetAppRecordNonNull uid sup) (FApp uid).
Proof.
  unfold fact_holds, GetAppRecord, GetAppRecordNonNull.
  destruct (uidsMap_ sup !! uid) eqn:E; [by rewrite E|]. simpl. by rewrite lookup_insert_eq.
Qed.

Lemma fact_GetProcessRecordNonNull uid pid sup :
  fact_holds sup (FApp uid) ->
  fact_holds (alter_app uid (GetProcessRecordNonNull pid) sup) (FProc uid pid).
Proof.
  intros [app Ha]. unfold fact_holds, find_proc. rewrite GetAppRecord_alter_app, Ha.
  rewrite decide_True by done. simpl. unfold GetProcessRecord, GetProcessRecordNonNull.
  destruct (pidsMap_ app !! pid) eqn:E; [by rewrite E|]. simpl. by rewrite lookup_insert_eq.
Qed.

Lemma fact_app_of_proc uid pid sup : fact_holds sup (FProc uid pid) -> fact_holds sup (FApp uid).
Proof. intros [pr (app & Ha & _)%find_proc_Some]. by exists app. Qed.

(** ** The flags of the continuous tasks *)

Lemma foldr_flags_testbit l i :
  0 <= i ->
  Z.testbit (foldr (fun typeId flag => Z.lor flag (Z.shiftl 1 typeId)) 0 l) i = true <-> i ∈ l.
Proof.
  intros Hi. induction l as [|t l IH]; simpl.
  - rewrite Z.bits_0, elem_of_nil. done.
  - rewrite Z.lor_spec, orb_true_iff, IH, elem_of_cons, Z.shiftl_spec by done.
    enough (Z.testbit 1 (i - t) = true <-> i = t) by tauto.
    destruct (decide (i = t)) as [->|]; [by rewrite Z.sub_diag|].
    split; [|done]. destruct (Z.lt_total (i - t) 0) as [Hn|[Hz|Hp]]; [by rewrite Z.testbit_neg_r|lia|].
    change 1 with (2 ^ 0). by rewrite Z.pow2_bits_false by lia.
Qed.

Lemma elem_of_concat {A} (x : A) ls : x ∈ concat ls <-> exists l, l ∈ ls /\ x ∈ l.
Proof.
  rewrite list_elem_of_In, in_concat. by setoid_rewrite list_elem_of_In.
Qed.

Lemma continuous_flags_testbit m flags i :
  continuous_flags m = Some flags -> 0 <= i ->
  Z.testbit flags i = true <-> exists abilityId typeIds, m !! abilityId = Some typeIds /\ i ∈ typeIds.
Proof.
  unfold continuous_flags. intros E Hi. destruct (forallb _ _); [|done]. injection E as <-.
  rewrite foldr_flags_testbit, elem_of_concat by done. split.
  - intros (l & Hl & Hin). apply list_elem_of_fmap in Hl as ([a l'] & -> & Hm%elem_of_map_to_list). eauto.
  - intros (a & l & Hm & Hin). exists l. split; [|done]. apply list_elem_of_fmap.
    exists (a, l). split; [done|]. by apply elem_of_map_to_list.
Qed.

Lemma continuous_flags_below m flags abilityId typeIds i :
  continuous_flags m = Some flags -> m !! abilityId = Some typeIds -> i ∈ typeIds -> i < 32.
Proof.
  unfold continuous_flags. intros E Hm Hin. destruct (forallb _ _) eqn:Ef; [|done].
  rewrite forallb_forall in Ef. specialize (Ef i). enough ((i <? 32) = true) by lia. apply Ef.
  apply list_elem_of_In, elem_of_concat. exists typeIds. split; [|done].
  apply list_elem_of_fmap. exists (abilityId, typeIds). split; [done|]. by apply elem_of_map_to_list.
Qed.

Lemma find_proc_alter uid pid f sup u p :
  find_proc u p (alter_proc uid pid f sup)
  = if decide ((u, p) = (uid, pid)) then f <$> find_proc u p sup else find_proc u p sup.
Proof.
  unfold find_proc, alter_proc, alter_app, GetAppRecord, GetProcessRecord, over. simpl.
  destruct (decide (u = uid)) as [->|Hu].
  - rewrite lookup_alter_eq. destruct (uidsMap_ sup !! uid) as [app|]; simpl; [|by case_decide].
    destruct (decide (p = pid)) as [->|Hp].
    + rewrite lookup_alter_eq. by rewrite decide_True.
    + rewrite lookup_alter_ne by done. by rewrite decide_False by congruence.
  - rewrite lookup_alter_ne by done. by rewrite decide_False by congruence.
Qed.

Lemma find_proc_alter_ne uid pid f sup u p :
  (u, p) <> (uid, pid) -> find_proc u p (alter_proc uid pid f sup) = find_proc u p sup.
Proof. intros Hne. rewrite find_proc_alter. by rewrite decide_False. Qed.

Lemma alter_proc_id uid pid sup : alter_proc uid pid id sup = sup.
Proof.
  assert (Hid : forall A (m : gmap Z A) i, alter id i m = m).
  { intros A m i. apply map_eq. intros j. rewrite lookup_alter. case_decide; [subst|done].
    by destruct (m !! j). }
  unfold alter_proc, alter_app, over. destruct sup as [? ? ? m ? ?]. simpl. f_equal.
  rewrite <- (Hid _ m uid) at 2.
  apply alter_ext. intros [] _. simpl. by rewrite Hid.
Qed.

Lemma alter_app_noop uid f sup app :
  GetAppRecord uid sup = Some app -> f app = app -> alter_app uid f sup = sup.
Proof.
  unfold GetAppRecord, alter_app, over. intros Ha Hf. destruct sup as [? ? ? m ? ?]. simpl in *. f_equal.
  apply map_eq. intros u. rewrite lookup_alter. case_decide; [subst|done].
  by rewrite Ha; simpl; rewrite Hf.
Qed.

Lemma alter_proc_noop uid pid f sup pr :
  find_proc uid pid sup = Some pr -> f pr = pr -> alter_proc uid pid f sup = sup.
Proof.
  intros (app & Ha & Hp)%find_proc_Some Hf. eapply alter_app_noop; [exact Ha|].
  destruct app as [? ? ? ? ? ? ? m ?]. unfold GetProcessRecord, over in *. simpl in *. f_equal.
  apply map_eq. intros u. rewrite lookup_alter. case_decide; [subst|done].
  by rewrite Hp; simpl; rewrite Hf.
Qed.

(** ** Everything but the groups *)

Definition group_free (pr : ProcessRecord) : ProcessRecord :=
  pr <| lastSchedGroup_ := 0 |> <| curSchedGroup_ := 0 |> <| setSchedGroup_ := 0 |>.
Definition group_free_app (app : Application) : Application :=
  app <| pidsMap_ ::= fmap group_free |>.
Definition groups_free (sup : Supervisor) : Supervisor :=
  sup <| uidsMap_ ::= fmap group_free_app |>.

Lemma groups_free_alter uid pid f sup :
  (forall pr, group_free (f pr) = group_free pr) ->
  groups_free (alter_proc uid pid f sup) = groups_free sup.
Proof.
  intros Hf. unfold groups_free, alter_proc, alter_app, over. simpl. f_equal.
  apply map_eq. intros u. rewrite !lookup_fmap, lookup_alter. case_decide as Hu; [subst|done].
  destruct (uidsMap_ sup !! u) as [app|]; simpl; [|done]. unfold group_free_app, over. simpl. do 2 f_equal.
  apply map_eq. intros p. rewrite !lookup_fmap, lookup_alter. case_decide as Hp; [subst|done].
  destruct (pidsMap_ app !! p); simpl; [|done]. by rewrite Hf.
Qed.

(** A process seen through a call of the extension library. *)
Lemma frame_find sup sup' u p pr :
  frame_sup sup' = frame_sup sup -> find_proc u p sup = Some pr ->
  exists pr', find_proc u p sup' = Some pr' /\ frame_proc pr' = frame_proc pr.
Proof.
  intros Hf (app & Ha & Hp)%find_proc_Some. unfold GetAppRecord, GetProcessRecord in *.
  pose proof (lookup_frame_app u _ _ Hf) as Hl. rewrite Ha in Hl. simpl in Hl.
  apply fmap_Some in Hl as (app' & Ha' & Happ). symmetry in Happ.
  pose proof (lookup_frame_proc p _ _ Happ) as Hl. rewrite Hp in Hl. simpl in Hl.
  apply fmap_Some in Hl as (pr' & Hp' & Hpr). exists pr'. split; [|done].
  apply find_proc_Some. exists app'. done.
Qed.
