(* ===== verification/CgroupInvariant.v ===== *)
(** * The event handler is safe

    Under the laws of the platform, every handler that starts in a state of the
    invariant ends in one, without undefined behaviour, on every payload that
    does not shift out of range.  The chapter follows the code: rules for the
    primitives, the adjuster, the handlers, the queue, whole runs. *)
From S2P Require Import Prelude Json ResType Supervisor ProcessGroup World CgroupAdjuster CgroupEventHandler SchedController SupervisorFacts.

(** ** Hypotheses about the platform *)

(** An extension function sets scheduling fields and nothing else. *)
Definition ext_frame {A K} (func : option (ExtFunc A K)) : Prop :=
  forall f uid pr a sup k, func = Some f -> frame_sup (f uid pr a (sup, k)).1 = frame_sup sup.

Class PlatformLaws (J K : Type) `{!Json J} `{!Platform J K} := {
  pl_sched :: SchedPolicyLaws K;
  (** the libraries were loaded with all their symbols *)
  pl_open : ext_closed (platform_utils (J := J) (K := K)) = false;
  pl_arbitration : ext_frame (reportArbitrationResultFunc_ (platform_utils (J := J) (K := K)));
  pl_sysevent : ext_frame (reportSysEventFunc_ (platform_utils (J := J) (K := K)));
  pl_caller : ext_frame (reportCallerEventFunc_ (platform_utils (J := J) (K := K)));
  (** a list of processes is shorter than the buffer of 4096 bytes *)
  pl_read path k content :
    platform_read (J := J) path k = Some (Some content) -> is_Some (buffer_string content);
  (** the service manager exists *)
  pl_samgr uid (k : K) : is_Some (platform_GetNameForUid (J := J) uid k);
  (** uids are 32-bit *)
  pl_running (k : K) : Forall (fun p => is_s32 (rp_uid p)) (platform_running (J := J) k);
  pl_children (k : K) : Forall (fun p => is_s32 (cp_hostUid p)) (platform_children (J := J) k);
  pl_locks (k : K) l : platform_running_locks (J := J) k = Some l ->
    Forall (fun p => is_s32 (lock_uid p.2)) l;
}.

Section invariant.
Context {J K : Type} `{!Json J} `{!JsonLaws J} `{!Platform J K} `{!AppExecFwk}.
#[local] Abbreviation M := (ST (World J K)).
Implicit Types (w : World J K) (sup : Supervisor).

(** ** The invariant *)

(** The payloads on which the shift and the subtraction are defined. *)
Definition payload_ok (payload : J) : Prop :=
  Forall (fun typeId => typeId < 32) (GetTypeIdsFromJson payload "typeIds") /\
  forall serialNum, ParseValue "serialNum" payload = Some serialNum -> 0 <= serialNum.

Definition task_ok (task : Task J) : Prop :=
  match task with
  | TaskDispatch _ _ payload | TaskOther _ _ payload => payload_ok payload
  | TaskCheckWebSubWin _ uid pid => True
  | _ => True
  end.

(** A past call moved the process to the group. *)
Definition group_was_set w (pid g : Z) : Prop := CallSetGroup pid g 0 ∈ calls w.

(** A pending delayed task is the check of one process and is the one
    registered under its name. *)
Definition timer_ok w (handle : Z) (dt : DelayedTask J) : Prop :=
  delayTaskMap_ w !! dt_name dt = Some handle /\
  exists resType uid pid, dt_task dt = TaskCheckWebSubWin resType uid pid /\
                          dt_name dt = web_subwin_task_name pid uid.

Record Inv w : Prop := {
  inv_sup : forall sup, supervisor_ w = Some sup -> wf_sup (group_was_set w) sup;
  inv_sched : sched_supervisor_ w = true -> is_Some (supervisor_ w);
  inv_queue : forall q, cgroupEventQueue_ w = Some q -> Forall task_ok q;
  inv_timer : forall handle dt, delayed_ w !! handle = Some dt -> timer_ok w handle dt;
  inv_handles : forall handle, is_Some (delayed_ w !! handle) -> handle < next_handle_ w;
  inv_names : forall name, is_Some (delayTaskMap_ w !! name) -> is_Some (cgroupEventQueue_ w);
}.

(** The queue and the timers, which most code leaves alone. *)
Definition timers w := (cgHandler_ w, cgroupEventQueue_ w, delayTaskMap_ w, delayed_ w,
                        next_handle_ w).

(** [I t fs]: the invariant, a process model with the facts [fs], the queue
    and timers [t]. *)
Definition I t (fs : list Fact) w : Prop :=
  Inv w /\ timers w = t /\ exists sup, supervisor_ w = Some sup /\ Forall (fact_holds sup) fs.

#[local] Abbreviation ok t fs m := (spec False (I t fs) m (fun _ => I t fs)).

Lemma I_inv t fs w : I t fs w -> Inv w.
Proof. by intros [? _]. Qed.

Lemma I_fact t fs f w sup :
  I t fs w -> supervisor_ w = Some sup -> f ∈ fs -> fact_holds sup f.
Proof.
  intros (_ & _ & sup' & E & Hf) E' Hin. simplify_eq. rewrite Forall_forall in Hf. by apply Hf.
Qed.

Lemma I_add t fs f w sup :
  I t fs w -> supervisor_ w = Some sup -> fact_holds sup f -> I t (f :: fs) w.
Proof.
  intros (H1 & H2 & sup' & E & Hf) E' Hin. simplify_eq. split_and!; eauto.
Qed.

(** ** Rules for the primitives *)

(** A change of the process model that keeps it well-formed and its records. *)
Lemma Inv_sup w sup sup' :
  Inv w -> supervisor_ w = Some sup ->
  (forall ok', wf_sup ok' sup -> wf_sup ok' sup') -> Inv (w <| supervisor_ := Some sup' |>).
Proof.
  intros [H1 H2 H3 H4 H5 H6] E Hwf. split; try done.
  simpl. intros ? [= <-]. by apply Hwf, H1.
Qed.

Lemma I_sup t fs w sup sup' :
  I t fs w -> supervisor_ w = Some sup ->
  (forall ok', wf_sup ok' sup -> wf_sup ok' sup') -> grows sup sup' ->
  I t fs (w <| supervisor_ := Some sup' |>).
Proof.
  intros (H1 & H2 & sup0 & E & Hf) E' Hwf Hg. simplify_eq. split_and!; [by eapply Inv_sup|done|].
  exists sup'. split; [done|]. eapply Forall_impl; [done|]. apply Hg.
Qed.

Lemma I_sup_at t fs w sup sup' :
  I t fs w -> supervisor_ w = Some sup ->
  (wf_sup (group_was_set w) sup -> wf_sup (group_was_set w) sup') -> grows sup sup' ->
  I t fs (w <| supervisor_ := Some sup' |>).
Proof.
  intros ([H1 H2 H3 H4 H5 H6] & Ht & sup0 & E & Hf) E' Hwf Hg. simplify_eq. split_and!; [|done|].
  - split; try done. simpl. intros ? [= <-]. by apply Hwf, H1.
  - eexists. split; [done|]. eapply Forall_impl; [done | apply Hg].
Qed.

(** A change of the outer state and of the trace. *)
Lemma Inv_outer w k cs : Inv w -> Inv (w <| outer := k |> <| calls ::= fun c => c ++ cs |>).
Proof.
  intros [H1 H2 H3 H4 H5 H6]. split; try done.
  intros sup E. eapply wf_sup_mono; [|by apply H1].
  intros p g Hg. unfold group_was_set in *. simpl. apply elem_of_app. by left.
Qed.

Lemma I_outer t fs w k cs : I t fs w -> I t fs (w <| outer := k |> <| calls ::= fun c => c ++ cs |>).
Proof. intros (H1 & H2 & H3). split_and!; [by apply Inv_outer | done..]. Qed.

Lemma I_outer_only t fs w k : I t fs w -> I t fs (w <| outer := k |>).
Proof.
  intros Hw%(I_outer _ _ _ k []). destruct w. unfold over in *. simpl in *.
  by rewrite app_nil_r in Hw.
Qed.

Lemma spec_get_sup t fs (Q : Supervisor -> World J K -> Prop) :
  (forall sup w, I t fs w -> supervisor_ w = Some sup -> Q sup w) ->
  spec False (I t fs) get_sup Q.
Proof.
  intros HQ w Hw. pose proof Hw as (_ & _ & sup & E & _).
  unfold get_sup, st_some, mbind, ST_bind, st_get. rewrite E. simpl. by apply HQ.
Qed.

Lemma spec_get_app t fs uid (Q : Application -> World J K -> Prop) :
  FApp uid ∈ fs ->
  (forall sup app w, I t fs w -> supervisor_ w = Some sup -> GetAppRecord uid sup = Some app ->
    Q app w) ->
  spec False (I t fs) (get_app uid) Q.
Proof.
  intros Hf HQ w Hw. pose proof Hw as (_ & _ & sup & E & _).
  pose proof (I_fact _ _ _ _ _ Hw E Hf) as [app Ha].
  unfold get_app, get_sup, st_some, mbind, ST_bind, st_get. rewrite E. simpl. rewrite Ha.
  by eapply HQ.
Qed.

Lemma spec_get_proc t fs uid pid (Q : ProcessRecord -> World J K -> Prop) :
  FProc uid pid ∈ fs ->
  (forall sup pr w, I t fs w -> supervisor_ w = Some sup -> find_proc uid pid sup = Some pr ->
    Q pr w) ->
  spec False (I t fs) (get_proc uid pid) Q.
Proof.
  intros Hf HQ w Hw. pose proof Hw as (_ & _ & sup & E & _).
  pose proof (I_fact _ _ _ _ _ Hw E Hf) as [pr Hpr].
  pose proof Hpr as (app & Ha & Hp)%find_proc_Some.
  unfold get_proc, get_app, get_sup, st_some, mbind, ST_bind, st_get. rewrite E. simpl.
  rewrite Ha. simpl. rewrite Hp. by eapply HQ.
Qed.

(** The state itself, when only that is read. *)
Lemma ok_bind {A B} t fs (m : M A) (k : A -> M B) Q :
  spec False (I t fs) m (fun _ => I t fs) -> (forall a, spec False (I t fs) (k a) Q) ->
  spec False (I t fs) (m ≫= k) Q.
Proof. intros H1 H2. by eapply spec_bind. Qed.

Lemma ok_get_app t fs uid :
  FApp uid ∈ fs -> spec False (I t fs) (get_app uid) (fun _ => I t fs).
Proof. intros Hin. apply spec_get_app; [done | by intros]. Qed.

Lemma ok_get_proc t fs uid pid :
  FProc uid pid ∈ fs -> spec False (I t fs) (get_proc uid pid) (fun _ => I t fs).
Proof. intros Hin. apply spec_get_proc; [done | by intros]. Qed.

Lemma ok_get t fs : spec False (I t fs) (st_get (S := World J K)) (fun _ => I t fs).
Proof. by intros w Hw. Qed.

Lemma ok_ret {A} t fs (a : A) : spec False (I t fs) (mret a : M A) (fun _ => I t fs).
Proof. by intros w Hw. Qed.

Lemma ok_upd_sup t fs fs' f :
  (forall ok' sup, wf_sup ok' sup -> wf_sup ok' (f sup)) ->
  (forall sup, Forall (fact_holds sup) fs -> Forall (fact_holds (f sup)) fs') ->
  spec False (I t fs) (upd_sup f) (fun _ => I t fs').
Proof.
  intros Hwf Hg. unfold upd_sup. eapply spec_bind;
    [apply spec_get_sup with (Q := fun sup w => I t fs w /\ supervisor_ w = Some sup); auto|].
  intros sup w [(H1 & H2 & sup0 & E & Hf) E']. simplify_eq. simpl.
  split_and!; [by eapply Inv_sup; eauto|done|]. eexists. split; [done|]. auto.
Qed.

Lemma ok_GetAppRecordNonNull t fs uid :
  is_s32 uid ->
  spec False (I t fs) (upd_sup (GetAppRecordNonNull uid)) (fun _ => I t (FApp uid :: fs)).
Proof.
  intros Hu. apply ok_upd_sup; [intros; by apply wf_GetAppRecordNonNull|].
  intros sup Hf. constructor; [apply fact_GetAppRecordNonNull|].
  eapply Forall_impl; [done | apply grows_GetAppRecordNonNull].
Qed.

Lemma ok_upd_app t fs fs' uid f :
  FApp uid ∈ fs ->
  (forall ok' app, wf_app ok' uid app -> wf_app ok' uid (f app)) ->
  (forall sup, Forall (fact_holds sup) fs -> Forall (fact_holds (alter_app uid f sup)) fs') ->
  spec False (I t fs) (upd_app uid f) (fun _ => I t fs').
Proof.
  intros Hin Hwf Hg. unfold upd_app. apply ok_bind; [by apply ok_get_app|]. intros _.
  apply ok_upd_sup; [|done]. intros ok' sup. apply wf_alter_app, Hwf.
Qed.

Lemma ok_GetProcessRecordNonNull t fs uid pid :
  FApp uid ∈ fs ->
  spec False (I t fs) (upd_app uid (GetProcessRecordNonNull pid))
    (fun _ => I t (FProc uid pid :: fs)).
Proof.
  intros Hin. apply ok_upd_app; [done|intros; by apply wf_GetProcessRecordNonNull|].
  intros sup Hf. constructor.
  - apply fact_GetProcessRecordNonNull. rewrite Forall_forall in Hf. by apply Hf.
  - eapply Forall_impl; [done | apply grows_GetProcessRecordNonNull].
Qed.

Lemma ok_simple_app t fs uid f :
  FApp uid ∈ fs ->
  (forall ok' app, wf_app ok' uid app -> wf_app ok' uid (f app)) ->
  (forall app, pidsMap_ (f app) = pidsMap_ app) -> ok t fs (upd_app uid f).
Proof.
  intros Hin Hwf Hp. apply ok_upd_app; [done..|].
  intros sup Hf. eapply Forall_impl; [done | by apply grows_simple_app].
Qed.

Lemma ok_upd_proc t fs uid pid f :
  FProc uid pid ∈ fs ->
  (forall ok' pr, wf_proc ok' uid pid pr -> wf_proc ok' uid pid (f pr)) ->
  ok t fs (upd_proc uid pid f).
Proof.
  intros Hin Hwf. unfold upd_proc. apply ok_bind; [by apply ok_get_proc|]. intros _.
  apply ok_upd_sup; [intros ok' sup; apply wf_alter_proc, Hwf|].
  intros sup Hf. eapply Forall_impl; [done | apply grows_alter_proc].
Qed.

Lemma run_upd_proc w sup uid pid pr f :
  supervisor_ w = Some sup -> find_proc uid pid sup = Some pr ->
  upd_proc uid pid f w = Some (tt, w <| supervisor_ := Some (alter_proc uid pid f sup) |>).
Proof.
  intros E (app & Ha & Hp)%find_proc_Some.
  unfold upd_proc, get_proc, get_app, upd_sup, get_sup, st_some, mbind, ST_bind, st_get,
    set_sup, st_modify. rewrite E. simpl. rewrite Ha. simpl. rewrite Hp. simpl. by rewrite E.
Qed.

(** The same with what is known of the record that is there. *)
Lemma ok_upd_proc_at t fs (R : World J K -> Prop) uid pid f :
  FProc uid pid ∈ fs ->
  (forall w sup pr, I t fs w -> R w -> supervisor_ w = Some sup -> find_proc uid pid sup = Some pr ->
     wf_proc (group_was_set w) uid pid pr -> wf_proc (group_was_set w) uid pid (f pr)) ->
  spec False (fun w => I t fs w /\ R w) (upd_proc uid pid f) (fun _ => I t fs).
Proof.
  intros Hin Hwf w [Hw HR]. pose proof Hw as (_ & _ & sup & E & _).
  pose proof (I_fact _ _ _ _ _ Hw E Hin) as [pr Hpr].
  rewrite (run_upd_proc _ _ _ _ _ _ E Hpr).
  apply (I_sup_at t fs w sup); [done..| |apply grows_alter_proc].
  eapply wf_alter_proc_at; [done|]. by eapply Hwf.
Qed.

(** ** Rules for calls *)

Context `{!PlatformLaws J K}.

Lemma spec_set_group t fs (R : Supervisor -> Prop) pid policy :
  spec False (fun w => I t fs w /\ exists sup, supervisor_ w = Some sup /\ R sup)
    (set_group pid policy)
    (fun ret w => I t fs w /\ (exists sup, supervisor_ w = Some sup /\ R sup)
                  /\ (ret = 0 -> group_was_set w pid policy)).
Proof.
  intros w [Hw HR]. unfold set_group, lift_outer, call, mbind, ST_bind, st_modify.
  destruct (set_group_defined pid policy (outer w)) as [[ret k] E]. rewrite E. simpl.
  split_and!; [by apply (I_outer _ _ _ k [CallSetGroup pid policy ret]) | done |].
  intros ->. unfold group_was_set. simpl. apply elem_of_app. right. by apply list_elem_of_singleton.
Qed.

Lemma ok_set_group t fs pid policy :
  spec False (I t fs) (set_group pid policy) (fun _ => I t fs).
Proof.
  eapply spec_conseq; [apply (spec_set_group t fs (fun _ => True)) | | by intros ?? (?&?&?)].
  intros w Hw. split; [done|]. destruct Hw as (_ & _ & sup & E & _). eauto.
Qed.

Lemma ok_call t fs c : ok t fs (call c).
Proof.
  intros w Hw. unfold call, st_modify. pose proof (I_outer _ _ _ (outer w) [c] Hw) as H'.
  by destruct w.
Qed.

Lemma ok_call_ext {A} t fs (func : option (ExtFunc A K)) c uid pr a :
  ext_frame func -> FApp uid ∈ fs -> FProc pr.1 pr.2 ∈ fs ->
  ok t fs (call_ext func c uid pr a).
Proof.
  intros Hframe Happ Hproc. unfold call_ext. destruct func as [f|]; [|apply ok_ret].
  rewrite pl_open. apply ok_bind; [by apply ok_get_app|]. intros _.
  apply ok_bind; [by apply ok_get_proc|]. intros _.
  intros w Hw. pose proof Hw as (_ & _ & sup & E & _).
  unfold get_sup, st_some, mbind, ST_bind, st_get. rewrite E. simpl.
  pose proof (Hframe f uid pr a sup (outer w) eq_refl) as Hf.
  destruct (f uid pr a (sup, outer w)) as [sup' k]. simpl in *.
  apply (I_outer _ _ (w <| supervisor_ := Some sup' |>)).
  eapply I_sup; [done..| |]; [intros ok' ?; by eapply wf_sup_frame | by apply grows_frame].
Qed.

Lemma ok_ReportDataInProcess t fs resType value payload :
  ok t fs (ReportDataInProcess resType value payload).
Proof. unfold ReportDataInProcess. case_match; [apply ok_ret | apply ok_call]. Qed.

Lemma ok_ReportArbitrationResult t fs uid pr source :
  FApp uid ∈ fs -> FProc pr.1 pr.2 ∈ fs -> ok t fs (ReportArbitrationResult uid pr source).
Proof. apply ok_call_ext, pl_arbitration. Qed.

Lemma ok_ReportSysEvent t fs uid pr resType state :
  FApp uid ∈ fs -> FProc pr.1 pr.2 ∈ fs -> ok t fs (ReportSysEvent uid pr resType state).
Proof. apply ok_call_ext, pl_sysevent. Qed.

Lemma ok_ReportCallerEvent t fs uid pr callerUid :
  FApp uid ∈ fs -> FProc pr.1 pr.2 ∈ fs -> ok t fs (ReportCallerEvent uid pr callerUid).
Proof. apply ok_call_ext, pl_caller. Qed.

Lemma ok_GetProcessFilePath t fs uid bundleName pid :
  spec False (I t fs) (GetProcessFilePath uid bundleName pid : M string) (fun _ => I t fs).
Proof. intros w Hw. unfold GetProcessFilePath. by destruct ((uid <? 0) || (pid <? 0)). Qed.

Lemma ok_CheckTidIsInPid t fs pid tid :
  spec False (I t fs) (CheckTidIsInPid pid tid : M bool) (fun _ => I t fs).
Proof.
  intros w Hw. unfold CheckTidIsInPid, lift_outer, mbind, ST_bind.
  destruct platform_SendRequestSync as [[ret reply] k].
  by apply I_outer_only.
Qed.

Lemma ok_iter {A} t fs (f : A -> M unit) l :
  (forall x, x ∈ l -> ok t fs (f x)) -> ok t fs (st_iter f l).
Proof. apply spec_iter. Qed.

Lemma ok_when t fs b (m : M unit) : ok t fs m -> ok t fs (st_when b m).
Proof. intros Hm. destruct b; [done | apply ok_ret]. Qed.

Lemma I_weaken t fs fs' w : I t fs w -> fs' ⊆ fs -> I t fs' w.
Proof.
  intros (H1 & H2 & sup & E & Hf) Hs. split_and!; try done. exists sup. split; [done|].
  rewrite Forall_forall in *. auto.
Qed.

Lemma spec_weaken {A} t fs fs' (m : M A) Q :
  fs' ⊆ fs -> spec False (I t fs') m Q -> spec False (I t fs) m Q.
Proof. intros Hs Hm w Hw. apply Hm. by eapply I_weaken. Qed.

Lemma ok_weaken {A} t fs fs' (m : M A) :
  fs ⊆ fs' -> spec False (I t fs') m (fun _ => I t fs') ->
  spec False (I t fs') m (fun _ => I t fs).
Proof.
  intros Hs Hm. eapply spec_conseq; [exact Hm | done |]. intros a w Hw. exact (I_weaken _ _ _ _ Hw Hs).
Qed.

(** What a lookup shows: the records that it finds are there. *)
Lemma ok_find {A} t fs uid pid (k1 : ProcessRecord -> M A) (k2 : M A) Q :
  (forall pr, spec False (I t (FProc uid pid :: FApp uid :: fs)) (k1 pr) Q) ->
  spec False (I t fs) k2 Q ->
  spec False (I t fs)
    (get_sup ≫= fun sup => match find_proc uid pid sup with Some pr => k1 pr | None => k2 end) Q.
Proof.
  intros H1 H2. eapply spec_bind;
    [apply (spec_get_sup _ _ (fun sup w => I t fs w /\ supervisor_ w = Some sup)); auto|].
  intros sup w [Hw E]. destruct (find_proc uid pid sup) as [pr|] eqn:Ep; [|by apply H2].
  apply H1. eapply I_add; [|done|by exists pr]. eapply I_add; [done..|].
  eapply fact_app_of_proc. by exists pr.
Qed.

Lemma ok_find_in_app {A} t fs uid pid (k1 : ProcessRecord -> M A) (k2 : M A) Q :
  FApp uid ∈ fs ->
  (forall pr, spec False (I t (FProc uid pid :: fs)) (k1 pr) Q) ->
  spec False (I t fs) k2 Q ->
  spec False (I t fs)
    (get_app uid ≫= fun app => match GetProcessRecord pid app with Some pr => k1 pr | None => k2 end) Q.
Proof.
  intros Hin H1 H2. eapply spec_bind;
    [apply (spec_get_app _ _ _ (fun app w => I t fs w /\ exists sup, supervisor_ w = Some sup /\
       GetAppRecord uid sup = Some app)); eauto|].
  intros app w (Hw & sup & E & Ha). destruct (GetProcessRecord pid app) as [pr|] eqn:Ep;
    [|by apply H2].
  apply H1. eapply I_add; [done..|]. exists pr. apply find_proc_Some. eauto.
Qed.

Lemma spec_get_app_procs t fs uid :
  FApp uid ∈ fs ->
  spec False (I t fs) (get_app uid)
    (fun app => I t (map (FProc uid) (keys_in_order (pidsMap_ app)) ++ fs)).
Proof.
  intros Hin. apply spec_get_app; [done|]. intros sup app w (H1 & H2 & sup' & E' & Hf) E Ha.
  simplify_eq. split_and!; [done..|]. exists sup'. split; [done|].
  rewrite Forall_app. split; [|done]. apply Forall_fmap, Forall_forall.
  intros pid [pr Hp]%elem_of_keys_in_order. exists pr. apply find_proc_Some. eauto.
Qed.

Lemma find_host t fs uid pid w :
  I t fs w -> FProc uid pid ∈ fs ->
  exists sup app pr, supervisor_ w = Some sup /\ GetAppRecord uid sup = Some app /\
    GetProcessRecord pid app = Some pr /\
    get_app uid w = Some (app, w) /\ get_proc uid pid w = Some (pr, w).
Proof.
  intros Hw Hin. pose proof Hw as (_ & _ & sup & E & _).
  pose proof (I_fact _ _ _ _ _ Hw E Hin) as [pr (app & Ha & Hp)%find_proc_Some].
  exists sup, app, pr. split_and!; try done;
    unfold get_proc, get_app, get_sup, st_some, mbind, ST_bind, st_get;
    rewrite E; simpl; rewrite Ha; simpl; by rewrite ?Hp.
Qed.

(** The window that [GetWindowInfoNonNull] gave is there. *)
Lemma ok_window t fs uid pid windowId (k : WindowInfo -> M unit) Q :
  FProc uid pid ∈ fs -> (forall win, spec False (I t fs) (k win) Q) ->
  spec False (I t fs)
    (upd_proc uid pid (GetWindowInfoNonNull windowId);;
     procRecord ← get_proc uid pid;
     windowInfo ← st_some (GetWindowInfo windowId procRecord);
     k windowInfo) Q.
Proof.
  intros Hin Hk w Hw. destruct (find_host _ _ _ _ _ Hw Hin) as (sup & app & pr & E & Ha & Hp & _).
  assert (Hpr : find_proc uid pid sup = Some pr) by (apply find_proc_Some; eauto).
  unfold mbind at 1, ST_bind at 1. rewrite (run_upd_proc _ _ _ _ _ _ E Hpr).
  set (w1 := w <| supervisor_ := _ |>).
  assert (Hw1 : I t fs w1).
  { eapply I_sup; [done..| |apply grows_alter_proc].
    intros ok'. apply wf_alter_proc. intros. by apply wf_GetWindowInfoNonNull. }
  destruct (find_host _ _ _ _ _ Hw1 Hin) as (sup1 & app1 & pr1 & E1 & Ha1 & Hp1 & _ & Hget).
  unfold mbind, ST_bind. rewrite Hget.
  assert (pr1 = GetWindowInfoNonNull windowId pr) as ->.
  { pose proof (find_proc_alter_proc uid pid (GetWindowInfoNonNull windowId) _ _ Hpr) as Hf.
    simpl in E1. simplify_eq. apply find_proc_Some in Hf as (? & ? & ?). congruence. }
  destruct (GetWindowInfo_NonNull windowId pr) as [win ->]. by apply Hk.
Qed.
End invariant.

(** ** Following the code *)

Abbreviation ok t fs m := (spec False (I t fs) m (fun _ => I t fs)).

Ltac solve_in :=
  first [assumption | apply list_elem_of_here | apply list_elem_of_further; solve_in].
Ltac solve_sub := intros ?; rewrite ?elem_of_cons, ?elem_of_nil; tauto.

(** A change of a record that the invariant does not see. *)
Ltac solve_wf :=
  intros;
  first
  [ apply wf_GetAbilityInfoNonNull; assumption
  | apply wf_GetWindowInfoNonNull; assumption
  | apply wf_RemoveAbility; assumption
  | apply wf_proc_SetName; assumption
  | apply wf_app_SetName; assumption
  | apply wf_alter_ability; [by intros | assumption]
  | apply wf_alter_window; [by intros | assumption]
  | repeat case_match;
    (eapply wf_app_simple; [| | | eassumption]; [done | done | first [by left | by right]])
  | match goal with H : wf_proc _ _ _ _ |- _ => destruct H; split; done end
  | match goal with H : wf_proc _ _ _ _ |- _ => repeat case_match; destruct H; split; done end ].

(** A change of an application that leaves its processes. *)
Ltac solve_pids := intros; unfold Application_SetName; repeat case_match; reflexivity.

Create HintDb cgroup.
#[export] Hint Resolve ok_get_app ok_get_proc ok_get ok_ret ok_set_group ok_call
  ok_ReportDataInProcess ok_ReportArbitrationResult ok_ReportSysEvent ok_ReportCallerEvent
  ok_GetProcessFilePath ok_CheckTidIsInPid : cgroup.
#[export] Hint Extern 1 (_ ∈ _) => solve_in : cgroup.
#[export] Hint Extern 1 (is_s32 _) => assumption : cgroup.

(** One step along a handler.  Binds of a primitive, branches, early returns. *)
Ltac hstep :=
  lazymatch goal with
  | |- spec False (I _ _) (get_sup ≫= fun sup => match find_proc _ _ sup with _ => _ end) _ =>
      apply ok_find; [intros ?|]
  | |- spec False (I _ _) (get_app ?u ≫= fun app => match GetProcessRecord _ app with _ => _ end) _ =>
      apply ok_find_in_app; [solve_in | intros ? |]
  | |- spec False (I _ _) (upd_sup (GetAppRecordNonNull _) ≫= _) _ =>
      eapply spec_bind; [apply ok_GetAppRecordNonNull; solve [eauto with cgroup] | intros []; cbv beta]
  | |- spec False (I _ _) (upd_app _ (GetProcessRecordNonNull _) ≫= _) _ =>
      eapply spec_bind; [apply ok_GetProcessRecordNonNull; solve_in | intros []; cbv beta]
  | |- spec False (I _ _) (upd_app _ _ ≫= _) _ =>
      apply ok_bind; [apply ok_simple_app; [solve_in | solve_wf | solve_pids] | intros _]
  | |- spec False (I _ _)
         (upd_proc _ _ (GetWindowInfoNonNull _) ≫= fun _ => get_proc _ _ ≫= _) _ =>
      apply ok_window; [solve_in | intros ?]
  | |- spec False (I _ _) (upd_proc _ _ _ ≫= _) _ =>
      apply ok_bind; [apply ok_upd_proc; [solve_in | solve_wf] | intros _]
  | |- spec False (I _ _) (st_when _ _ ≫= _) _ =>
      apply ok_bind; [apply ok_when; solve [eauto with cgroup] | intros _]
  | |- spec False (I _ _) ((match _ with _ => _ end) ≫= _) _ => apply ok_bind; [|intros ?; cbv beta]
  | |- spec False (I _ _) (_ ≫= _) _ =>
      apply ok_bind; [solve [eauto with cgroup] | intros ?; cbv beta]
  | |- spec False (I _ _) (match ?x with _ => _ end) _ => destruct x eqn:?
  | |- spec False (I _ _) (let _ := _ in _) _ => cbv zeta
  | |- spec False (I _ ?fs) _ (fun _ => I _ ?fs) =>
      first [ apply ok_upd_proc; [solve_in | solve_wf]
            | apply ok_simple_app; [solve_in | solve_wf | solve_pids]
            | solve [eauto with cgroup] ]
  | |- spec False (I _ ?fs) _ (fun _ => I _ _) =>
      apply ok_weaken; [solve_sub|]
  end.
Ltac hsteps := repeat hstep.

(** ** What the adjuster and the handlers leave alone

    Partial-correctness rules for predicates on the process model: a predicate
    that survives the changes of one application survives a handler for it. *)
(** The record without its scheduling groups and the fields of the extension. *)
Definition frame_sched (pr : ProcessRecord) : ProcessRecord :=
  (frame_proc pr) <| lastSchedGroup_ := 0 |> <| curSchedGroup_ := 0 |>.

Section frames.
Context {J K : Type} `{!Json J} `{!Platform J K} `{!AppExecFwk}.
#[local] Abbreviation M := (ST (World J K)).

(** The plugin is started, its queue is [q], and the process model is in [R]. *)
Definition on_sup (q : option (list (Task J))) (R : Supervisor -> Prop) (w : World J K) : Prop :=
  sched_supervisor_ w = true /\ cgHandler_ w = true /\ cgroupEventQueue_ w = q /\
  forall sup, supervisor_ w = Some sup -> R sup.

Section rules.
Context (q : option (list (Task J))) (R : Supervisor -> Prop).
#[local] Abbreviation P := (on_sup q R).

Lemma keeps_get_sup : keeps P (get_sup (J := J) (K := K)).
Proof. unfold get_sup. apply keeps_bind; [apply keeps_get | intros; apply keeps_some]. Qed.
Lemma keeps_get_app uid : keeps P (get_app (J := J) (K := K) uid).
Proof. unfold get_app. apply keeps_bind; [apply keeps_get_sup | intros; apply keeps_some]. Qed.
Lemma keeps_get_proc uid pid : keeps P (get_proc (J := J) (K := K) uid pid).
Proof. unfold get_proc. apply keeps_bind; [apply keeps_get_app | intros; apply keeps_some]. Qed.

(** Rules with another predicate afterwards. *)
Lemma spec_upd_sup R' f :
  (forall sup, R sup -> R' (f sup)) ->
  spec True P (upd_sup (J := J) (K := K) f) (fun _ => on_sup q R').
Proof.
  intros Hf w (H1 & H2 & H3 & Hw). unfold upd_sup, get_sup, mbind, ST_bind, st_get, st_some.
  destruct (supervisor_ w) as [sup|] eqn:E; [|done]. simpl. split_and!; [done..|].
  intros ? [= <-]. by apply Hf, Hw.
Qed.

Lemma spec_upd_app R' uid f :
  (forall sup, R sup -> R' (alter_app uid f sup)) ->
  spec True P (upd_app (J := J) (K := K) uid f) (fun _ => on_sup q R').
Proof.
  intros Hf. unfold upd_app. eapply spec_bind; [apply keeps_get_app|]. intros ?.
  by apply spec_upd_sup.
Qed.

Lemma keeps_upd_sup f :
  (forall sup, R sup -> R (f sup)) -> keeps P (upd_sup (J := J) (K := K) f).
Proof. apply spec_upd_sup. Qed.
Lemma keeps_upd_app uid f :
  (forall sup, R sup -> R (alter_app uid f sup)) -> keeps P (upd_app (J := J) (K := K) uid f).
Proof.
  intros Hf. unfold upd_app. apply keeps_bind; [apply keeps_get_app|]. intros _.
  by apply keeps_upd_sup.
Qed.
Lemma keeps_upd_proc uid pid f :
  (forall sup, R sup -> R (alter_proc uid pid f sup)) ->
  keeps P (upd_proc (J := J) (K := K) uid pid f).
Proof.
  intros Hf. unfold upd_proc. apply keeps_bind; [apply keeps_get_proc|]. intros _.
  by apply keeps_upd_sup.
Qed.

Lemma keeps_call c : keeps P (call c : M unit).
Proof. by apply keeps_modify. Qed.
Lemma keeps_lift_outer {A} (m : ST K A) : keeps P (lift_outer m : M A).
Proof.
  intros w Hw. unfold lift_outer. by destruct (m (outer w)) as [[a k]|].
Qed.
Lemma keeps_set_group pid policy : keeps P (set_group pid policy : M Z).
Proof.
  unfold set_group. apply keeps_bind; [apply keeps_lift_outer|]. intros ret.
  apply keeps_bind; [apply keeps_call|]. intros _. apply keeps_ret.
Qed.
Lemma keeps_ReportDataInProcess resType value payload :
  keeps P (ReportDataInProcess resType value payload : M unit).
Proof. unfold ReportDataInProcess. case_match; [apply keeps_ret | apply keeps_call]. Qed.
Lemma keeps_GetProcessFilePath uid bundleName pid :
  keeps P (GetProcessFilePath uid bundleName pid : M string).
Proof.
  unfold GetProcessFilePath. case_match; [apply keeps_ret|].
  apply keeps_bind; [apply keeps_get|]. intros. apply keeps_ret.
Qed.
Lemma keeps_CheckTidIsInPid pid tid : keeps P (CheckTidIsInPid pid tid : M bool).
Proof.
  unfold CheckTidIsInPid. apply keeps_bind; [apply keeps_lift_outer|].
  intros []. apply keeps_ret.
Qed.

(** [ext_keeps]: the extension's function keeps [R] when it is given [uid]. *)
Definition ext_keeps {A} (uid : Z) (func : option (ExtFunc A K)) : Prop :=
  forall f pr a sup k, func = Some f -> R sup -> R (f uid pr a (sup, k)).1.

Lemma keeps_call_ext {A} (func : option (ExtFunc A K)) c uid pr a :
  ext_keeps uid func -> keeps P (call_ext func c uid pr a : M unit).
Proof.
  intros Hf. unfold call_ext. destruct func as [f|]; [|apply keeps_ret].
  destruct ext_closed; [apply keeps_undefined|].
  apply keeps_bind; [apply keeps_get_app|]. intros _.
  apply keeps_bind; [apply keeps_get_proc|]. intros _.
  intros w (H1 & H2 & H3 & Hw). unfold get_sup, mbind, ST_bind, st_get, st_some.
  destruct (supervisor_ w) as [sup|] eqn:E; [|done]. simpl.
  pose proof (Hf f pr a sup (outer w) eq_refl (Hw _ eq_refl)) as Hr.
  destruct (f uid pr a (sup, outer w)) as [sup' k]. simpl in *.
  split_and!; [done..|]. by intros ? [= <-].
Qed.
Lemma keeps_RemoveTask name : keeps P (RemoveTask name : M unit).
Proof.
  unfold RemoveTask. apply keeps_bind; [apply keeps_get|]. intros w'. case_match; [|apply keeps_ret].
  apply keeps_bind; [apply keeps_some|]. intros _. by apply keeps_modify.
Qed.
Lemma keeps_PostDelayedTask task name delay : keeps P (PostDelayedTask task name delay : M unit).
Proof.
  unfold PostDelayedTask. apply keeps_bind; [apply keeps_get|]. intros w'.
  case_match; [|apply keeps_ret]. by apply keeps_modify.
Qed.
End rules.
End frames.

#[export] Hint Resolve keeps_get_sup keeps_get_app keeps_get_proc keeps_call keeps_lift_outer
  keeps_set_group keeps_ReportDataInProcess keeps_GetProcessFilePath keeps_CheckTidIsInPid
  keeps_RemoveTask keeps_PostDelayedTask : keeps.

(** ** The adjuster *)
Section adjuster.
Context {J K : Type} `{!Json J} `{!Platform J K} `{!AppExecFwk}.
#[local] Abbreviation M := (ST (World J K)).
Context (q : option (list (Task J))) (R : Supervisor -> Prop) (uid : Z).
(** [R] does not see the groups of the processes of [uid]. *)
Context (R_sched : forall pid f sup,
  (forall pr, frame_sched (f pr) = frame_sched pr) -> R sup -> R (alter_proc uid pid f sup)).
Context (R_arbitration : ext_keeps R uid (reportArbitrationResultFunc_ (platform_utils (J := J) (K := K)))).

Lemma keeps_ReportArbitrationResult pr source :
  keeps (on_sup q R) (ReportArbitrationResult uid pr source : M unit).
Proof. by apply keeps_call_ext. Qed.
#[local] Hint Resolve keeps_ReportArbitrationResult : keeps.

Lemma keeps_sched pid f :
  (forall pr, frame_sched (f pr) = frame_sched pr) ->
  keeps (on_sup q R) (upd_proc uid pid f : M unit).
Proof. intros Hf. apply keeps_upd_proc. intros sup. by apply R_sched. Qed.

Lemma keeps_ApplyProcessGroup pid source :
  keeps (on_sup q R) (ApplyProcessGroup uid pid source : M unit).
Proof.
  unfold ApplyProcessGroup, report_group_change, AdjustForkProcessGroup. keeps_auto.
  by apply keeps_sched.
Qed.
#[local] Hint Resolve keeps_ApplyProcessGroup : keeps.

Lemma keeps_AdjustProcessGroup pid source :
  keeps (on_sup q R) (AdjustProcessGroup uid pid source : M unit).
Proof.
  unfold AdjustProcessGroup, ComputeProcessGroup, follow_host. keeps_auto; by apply keeps_sched.
Qed.
#[local] Hint Resolve keeps_AdjustProcessGroup : keeps.

Lemma keeps_AdjustAllProcessGroup source :
  keeps (on_sup q R) (AdjustAllProcessGroup uid source : M unit).
Proof. unfold AdjustAllProcessGroup. keeps_auto. Qed.
End adjuster.
