(* ===== verification/CgroupSafety.v ===== *)
(** * Safety of the handlers and of whole runs

    The rules of [CgroupInvariant.v] applied to the adjuster, to every handler,
    to the queue and to runs from [Init]. *)
From S2P Require Import Prelude Json ResType Supervisor ProcessGroup World CgroupAdjuster CgroupEventHandler SchedController SupervisorFacts CgroupInvariant.

Section safety.
Context {J K : Type} `{!Json J} `{!JsonLaws J} `{!Platform J K} `{!AppExecFwk}.
Context `{!PlatformLaws J K}.
#[local] Abbreviation M := (ST (World J K)).
Implicit Types (w : World J K) (sup : Supervisor).

(** ** The adjuster *)

Lemma ok_AdjustForkProcessGroup t fs uid pid :
  FApp uid ∈ fs -> FProc uid pid ∈ fs -> ok t fs (AdjustForkProcessGroup (J := J) (K := K) uid pid).
Proof.
  intros Ha Hp. unfold AdjustForkProcessGroup.  do 3 hstep.
  intros w Hw. unfold st_get, mbind, ST_bind.
  destruct (platform_read _ (outer w)) as [rd|] eqn:E; [|done].
  assert (is_Some (match rd with Some content => buffer_string content | None => Some "" end))
    as [content ->] by (destruct rd; [by eapply pl_read | done]).
  simpl. revert w Hw E. cut (ok t fs (st_iter (fun line =>
    if atoi line =? 0 then mret tt
    else if negb (atoi line =? pr_pid_ a0) then
      pr ← get_proc uid pid; set_group (J := J) (K := K) (atoi line) (to_s32 (curSchedGroup_ pr));; mret tt
    else mret tt) (split_lines content))); [intros Hi w Hw _; by apply Hi|].
  apply ok_iter. intros line _.  hsteps.
Qed.

Lemma ok_report_group_change t fs uid pid :
  FApp uid ∈ fs -> FProc uid pid ∈ fs -> ok t fs (report_group_change (J := J) (K := K) uid pid).
Proof. intros Ha Hp. unfold report_group_change. hsteps. by apply ok_AdjustForkProcessGroup. Qed.

(** The group is recorded only after the call that sets it succeeded. *)
Lemma ok_record_group t fs uid pid sup pr :
  FProc uid pid ∈ fs -> find_proc uid pid sup = Some pr ->
  spec False (fun w => I t fs w /\ (exists s, supervisor_ w = Some s /\ s = sup) /\
                group_was_set w (pr_pid_ pr) (to_s32 (setSchedGroup_ pr)))
    (upd_proc uid pid record_group) (fun _ => I t fs).
Proof.
  intros Hp Hpr. eapply spec_conseq;
    [apply (ok_upd_proc_at t fs (fun w => supervisor_ w = Some sup /\
      group_was_set w (pr_pid_ pr) (to_s32 (setSchedGroup_ pr)))) | |]; [done|..|done].
  - intros w' sup' pr' _ (E1 & Hset) E2 Hpr' Hwf. simplify_eq.
    destruct Hwf. split; try done. right. simpl. congruence.
  - intros w' (? & (? & ? & ->) & ?). eauto.
Qed.

Lemma ok_ApplyProcessGroup t fs uid pid source :
  FApp uid ∈ fs -> FProc uid pid ∈ fs ->
  ok t fs (ApplyProcessGroup (J := J) (K := K) uid pid source).
Proof.
  intros Ha Hp. unfold ApplyProcessGroup.
  eapply spec_bind; [apply (spec_get_proc _ _ _ _ (fun pr w => I t fs w /\
    exists sup, supervisor_ w = Some sup /\ find_proc uid pid sup = Some pr)); eauto|].
  intros pr. cbv beta. destruct (curSchedGroup_ pr =? setSchedGroup_ pr); [by intros w [? _]|].
  intros w (Hw & sup & E & Hpr). revert w Hw E.
  cut (spec False (fun w => I t fs w /\ exists s, supervisor_ w = Some s /\ s = sup)
    (ret ← set_group (J := J) (K := K) (pr_pid_ pr) (to_s32 (setSchedGroup_ pr));
     ret_if negb (ret =? 0); upd_proc uid pid record_group;; report_group_change uid pid)
    (fun _ => I t fs)); [intros Hm w Hw E; apply Hm; eauto|].
  eapply spec_bind; [apply spec_set_group|]. intros ret. cbv beta.
  destruct (Z.eqb_spec ret 0) as [->|]; cbn [negb]; [|by intros w [? _]].
  apply spec_bind with (R := fun _ => I t fs); [|intros _; by apply ok_report_group_change].
  eapply spec_conseq; [by apply (ok_record_group t fs uid pid sup pr)| |by intros].
  intros w (? & ? & Hset). auto.
Qed.

Lemma ok_ComputeProcessGroup t fs uid pid source :
  FApp uid ∈ fs -> FProc uid pid ∈ fs ->
  ok t fs (ComputeProcessGroup (J := J) (K := K) uid pid source).
Proof. intros Ha Hp. unfold ComputeProcessGroup. hsteps. Qed.

Lemma ok_follow_host t fs uid pid source iter :
  FApp uid ∈ fs -> FProc uid pid ∈ fs -> FProc uid iter ∈ fs ->
  ok t fs (follow_host (J := J) (K := K) uid pid source iter).
Proof.
  intros Ha Hp Hi. unfold follow_host. hsteps. by apply ok_ApplyProcessGroup.
Qed.

Lemma ok_AdjustProcessGroup t fs uid pid source :
  FApp uid ∈ fs -> FProc uid pid ∈ fs ->
  ok t fs (AdjustProcessGroup (J := J) (K := K) uid pid source).
Proof.
  intros Ha Hp. unfold AdjustProcessGroup.
  apply ok_bind; [by apply ok_ComputeProcessGroup|intros _].
  hstep. apply ok_bind; [by apply ok_ApplyProcessGroup|intros _].
  eapply spec_bind; [by apply spec_get_app_procs|]. intros app. cbv beta.
  set (fs' := map (FProc uid) (keys_in_order (pidsMap_ app)) ++ fs).
  assert (FProc uid pid ∈ fs') by (apply elem_of_app; by right).
  assert (FApp uid ∈ fs') by (apply elem_of_app; by right).
  assert (Hsub : fs ⊆ fs') by (intros ? ?; apply elem_of_app; by right).
  hstep; hstep; [apply ok_weaken; [done | apply ok_ret]|].
  apply ok_weaken; [done|]. apply ok_iter.
  intros iter Hiter. apply ok_follow_host; [done..|].
  apply elem_of_app. left. apply list_elem_of_fmap. eauto.
Qed.

Lemma ok_AdjustAllProcessGroup t fs uid source :
  FApp uid ∈ fs -> ok t fs (AdjustAllProcessGroup (J := J) (K := K) uid source).
Proof.
  intros Ha. unfold AdjustAllProcessGroup.
  eapply spec_bind; [by apply spec_get_app_procs|]. intros app. cbv beta.
  set (fs' := map (FProc uid) (keys_in_order (pidsMap_ app)) ++ fs).
  assert (FApp uid ∈ fs') by (apply elem_of_app; by right).
  assert (Hsub : fs ⊆ fs') by (intros ? ?; apply elem_of_app; by right).
  apply ok_weaken; [done|]. apply ok_iter.
  intros iter Hiter.
  assert (FProc uid iter ∈ fs') by
    (apply elem_of_app; left; apply list_elem_of_fmap; eauto).
  hsteps. by apply ok_AdjustProcessGroup.
Qed.

Lemma ok_AdjustSelfProcessGroup t fs : ok t fs (AdjustSelfProcessGroup (J := J) (K := K)).
Proof. unfold AdjustSelfProcessGroup. hsteps. Qed.
End safety.

#[export] Hint Resolve ok_AdjustProcessGroup ok_AdjustAllProcessGroup : cgroup.

Lemma ParseValue_s32 {J} `{!Json J} name (payload : J) z : ParseValue name payload = Some z -> is_s32 z.
Proof. unfold ParseValue. intros (s & _ & ->)%fmap_Some. apply to_s32_range. Qed.
Lemma parse_int32_s32 {J} `{!Json J} name (payload : J) z : parse_int32 name payload = Some z -> is_s32 z.
Proof. unfold parse_int32. intros (s & _ & ->)%fmap_Some. apply to_s32_range. Qed.

Lemma ParsePayload_Some {J} `{!Json J} (payload : J) uid pid :
  ParsePayload payload = Some (uid, pid) ->
  ParseValue "uid" payload = Some uid /\ ParseValue "pid" payload = Some pid /\ 0 < uid /\ 0 < pid.
Proof.
  unfold ParsePayload. destruct (ParseValue "uid" payload) as [u|]; [|done].
  destruct (ParseValue "pid" payload) as [p|]; [|done]. simpl.
  destruct (Z.leb_spec u 0), (Z.leb_spec p 0); simpl; try done. intros [= -> ->]. auto.
Qed.

Lemma ParseConfig_s32 {J} `{!Json J} (payload : J) c : ParseConfig payload = Some c -> is_s32 (cfg_uid c).
Proof.
  unfold ParseConfig. intros (uid & Hu%ParseValue_s32 & H)%bind_Some.
  repeat (apply bind_Some in H as (? & _ & H)). by simplify_eq.
Qed.

Lemma ParseProcessCreateInfo_s32 {J} `{!Json J} (payload : J) c :
  ParseProcessCreateInfo payload = Some c -> is_s32 (info_uid c).
Proof.
  unfold ParseProcessCreateInfo. intros (uid & Hu%ParseValue_s32 & H)%bind_Some.
  repeat (apply bind_Some in H as (? & _ & H)). by simplify_eq.
Qed.

#[export] Hint Extern 1 (is_s32 _) =>
  first [ eapply ParseValue_s32; eassumption | eapply parse_int32_s32; eassumption
        | match goal with
          | H : ParseConfig _ = Some _ |- _ => exact (ParseConfig_s32 _ _ H)
          | H : ParseProcessCreateInfo _ = Some _ |- _ => exact (ParseProcessCreateInfo_s32 _ _ H)
          end ] : cgroup.

Section handlers.
Context {J K : Type} `{!Json J} `{!JsonLaws J} `{!Platform J K} `{!AppExecFwk}.
Context `{!PlatformLaws J K}.
#[local] Abbreviation M := (ST (World J K)).
#[local] Abbreviation safe t m := (ok t [] (m : M unit)).

Lemma safe_HandleApplicationStateChanged t resType value payload :
  safe t (HandleApplicationStateChanged resType value payload).
Proof. unfold HandleApplicationStateChanged. hsteps. Qed.

Lemma safe_HandleProcessStateChanged t resType value payload :
  safe t (HandleProcessStateChanged resType value payload).
Proof. unfold HandleProcessStateChanged. hsteps. Qed.

Lemma safe_HandleExtensionStateChanged t resType value payload :
  safe t (HandleExtensionStateChanged resType value payload).
Proof. unfold HandleExtensionStateChanged. hsteps. Qed.

#[local] Hint Resolve safe_HandleExtensionStateChanged : cgroup.

Lemma safe_HandleAbilityStateChanged t resType value payload :
  safe t (HandleAbilityStateChanged resType value payload).
Proof.
  unfold HandleAbilityStateChanged, HandleUIExtensionAbilityStateChange,
    HandleAbilityTerminated. hsteps.
Qed.

Lemma safe_HandleProcessCreated t resType value payload :
  safe t (HandleProcessCreated resType value payload).
Proof. unfold HandleProcessCreated. hsteps. Qed.

(** Removing a process or an application keeps the invariant; the facts about
    it are lost. *)
Lemma ok_RemoveProcessRecord t fs uid pid :
  FApp uid ∈ fs ->
  spec False (I t fs) (upd_app uid (RemoveProcessRecord pid) : M unit) (fun _ => I t [FApp uid]).
Proof.
  intros Hin. apply ok_upd_app; [done | intros; by apply wf_RemoveProcessRecord |].
  intros sup Hf. rewrite Forall_forall in Hf. apply Forall_singleton.
  destruct (Hf _ Hin) as [app Ha]. unfold fact_holds.
  rewrite GetAppRecord_alter_app, Ha. by rewrite decide_True.
Qed.

Lemma ok_RemoveApplication t fs uid :
  spec False (I t fs) (upd_sup (RemoveApplication uid) : M unit) (fun _ => I t []).
Proof. apply ok_upd_sup; [intros; by apply wf_RemoveApplication | done]. Qed.

Lemma safe_HandleProcessDied t resType value payload :
  safe t (HandleProcessDied resType value payload).
Proof.
  unfold HandleProcessDied. do 3 (hstep; [|by apply ok_ret]).
  eapply spec_bind; [apply (spec_get_sup _ _ (fun sup w => I t [] w /\ supervisor_ w = Some sup)); auto|].
  intros sup. cbv beta. destruct (GetAppRecord z sup) as [app|] eqn:Ea; [|by intros w [? _]].
  intros w [Hw E].
  assert (H1 : I t (if bool_decide (is_Some (GetProcessRecord z0 app))
                    then [FProc z z0; FApp z] else [FApp z]) w).
  { assert (I t [FApp z] w) by (eapply I_add; [done..|by exists app]).
    case_bool_decide as Hp; [|done]. eapply I_add; [done..|].
    destruct Hp as [pr Hp]. exists pr. apply find_proc_Some. eauto. }
  revert w Hw E H1. set (fs := if bool_decide _ then _ else _).
  assert (FApp z ∈ fs) by (unfold fs; case_match; solve_in).
  match goal with |- forall w, _ -> _ -> _ -> match ?m w with _ => _ end =>
    cut (spec False (I t fs) m (fun _ => I t [])); [intros Hm w _ _; apply Hm|] end.
  apply ok_bind.
  { unfold fs. case_bool_decide; simpl; [|apply ok_ret].
    apply ok_ReportSysEvent; solve_in. }
  intros _. apply spec_bind with (R := fun _ => I t fs).
  { apply ok_upd_sup; [intros ok' sup0; by apply wf_sup_simple|].
    intros sup0 Hf. eapply Forall_impl; [done|]. by apply grows_simple. }
  intros _. apply spec_bind with (R := fun _ => I t [FApp z]);
    [by apply ok_RemoveProcessRecord|].
  intros _. hstep. destruct (size (pidsMap_ a) =? 0)%nat; simpl.
  - apply ok_RemoveApplication.
  - apply ok_weaken; [solve_sub | apply ok_ret].
Qed.
#[local] Hint Resolve safe_HandleProcessDied safe_HandleProcessCreated
  safe_HandleProcessStateChanged ok_RemoveApplication : cgroup.

Lemma safe_HandleProcessStateChangedEx t resType value payload :
  safe t (HandleProcessStateChangedEx resType value payload).
Proof. unfold HandleProcessStateChangedEx. hsteps. Qed.

Lemma safe_HandleOnAppStopped t resType value payload :
  safe t (HandleOnAppStopped resType value payload).
Proof. unfold HandleOnAppStopped. hsteps. Qed.

Lemma safe_HandleTransientTaskStatus t resType value payload :
  safe t (HandleTransientTaskStatus resType value payload).
Proof.
  unfold HandleTransientTaskStatus, HandleTransientTaskStart, HandleTransientTaskEnd. hsteps.
Qed.
(** *** Continuous tasks *)

Lemma continuous_flags_is_Some (m : gmap Z (list Z)) :
  is_Some (continuous_flags m) <-> map_Forall (fun _ typeIds => Forall (fun i => i < 32) typeIds) m.
Proof.
  unfold continuous_flags.
  assert (forallb (fun typeId => typeId <? 32) (concat (map_to_list m).*2) = true <->
          map_Forall (fun _ typeIds => Forall (fun i => i < 32) typeIds) m) as <-.
  { rewrite forallb_forall. split.
    - intros Ha k ids Hk. apply Forall_forall. intros i Hi. apply Z.ltb_lt, Ha.
      apply in_concat. exists ids. rewrite <- !list_elem_of_In. split; [|done].
      apply list_elem_of_fmap. exists (k, ids). split; [done|]. by apply elem_of_map_to_list.
    - intros Ha i Hi. apply in_concat in Hi as (ids & Hids & Hi).
      rewrite <- !list_elem_of_In in *.
      apply list_elem_of_fmap in Hids as ((k & ids') & -> & Hk%elem_of_map_to_list).
      specialize (Ha _ _ Hk). rewrite Forall_forall in Ha. simpl in Hi. apply Z.ltb_lt. auto. }
  case_match; split; try done; by intros [??].
Qed.

Lemma ok_change_flags t fs uid pid (f : gmap Z (list Z) -> gmap Z (list Z)) (k : M unit) Q :
  FProc uid pid ∈ fs ->
  (forall m, is_Some (continuous_flags m) -> is_Some (continuous_flags (f m))) ->
  spec False (I t fs) k Q ->
  spec False (I t fs)
    (upd_proc uid pid (fun pr => pr <| abilityIdAndContinuousTaskFlagMap_ ::= f |>);;
     set_continuous_flags uid pid;; k) Q.
Proof.
  intros Hin Hf Hk w Hw. destruct (find_host _ _ _ _ _ Hw Hin) as (sup & app & pr & E & Ha & Hp & _).
  assert (Hpr : find_proc uid pid sup = Some pr) by (apply find_proc_Some; eauto).
  assert (Hwf : wf_proc (group_was_set w) uid pid pr).
  { pose proof Hw as ([Hs _ _ _ _ _] & _). destruct (Hs _ E) as [_ Happs].
    destruct (Happs _ _ Ha) as [_ Hps _]. by apply Hps. }
  destruct (Hf (abilityIdAndContinuousTaskFlagMap_ pr)) as [flags Hflags];
    [rewrite (wf_flags _ _ _ _ Hwf); eauto|].
  unfold mbind, ST_bind. rewrite (run_upd_proc _ _ _ _ _ _ E Hpr).
  set (g := fun pr : ProcessRecord => pr <| abilityIdAndContinuousTaskFlagMap_ ::= f |>).
  set (w1 := w <| supervisor_ := _ |>).
  assert (Hpr1 : find_proc uid pid (alter_proc uid pid g sup) = Some (g pr))
    by by apply find_proc_alter_proc.
  assert (Hset : set_continuous_flags uid pid w1 = Some (tt, w <| supervisor_ := Some (
    alter_proc uid pid (fun pr => g pr <| continuousTaskFlag_ := flags |>) sup) |>)).
  { unfold set_continuous_flags, mbind, ST_bind.
    pose proof Hpr1 as (app1 & Ha1 & Hp1)%find_proc_Some.
    unfold get_proc at 1, get_app, get_sup, st_some, mbind, ST_bind, st_get.
    unfold w1 at 1. simpl. rewrite Ha1. simpl. rewrite Hp1. simpl. rewrite Hflags. simpl.
    rewrite (run_upd_proc w1 (alter_proc uid pid g sup) _ _ (g pr)) by done.
    by rewrite alter_proc_compose. }
  rewrite Hset. apply Hk. apply (I_sup_at t fs w sup); [done..| |apply grows_alter_proc].
  eapply wf_alter_proc_at; [done|]. intros []. split; try done.
Qed.

Lemma payload_ok_typeIds (payload : J) m abilityId :
  payload_ok payload -> is_Some (continuous_flags m) ->
  is_Some (continuous_flags (<[abilityId := GetTypeIdsFromJson payload "typeIds"]> m)).
Proof.
  intros [Ht _]. rewrite !continuous_flags_is_Some. intros Hm. by apply map_Forall_insert_2.
Qed.

Lemma delete_typeIds m (abilityId : Z) :
  is_Some (continuous_flags m) -> is_Some (continuous_flags (delete abilityId m)).
Proof. rewrite !continuous_flags_is_Some. apply map_Forall_delete. Qed.

Lemma safe_HandleContinuousTaskUpdate t uid pid payload abilityId :
  payload_ok payload -> is_s32 uid ->
  safe t (HandleContinuousTaskUpdate uid pid (GetTypeIdsFromJson payload "typeIds") abilityId).
Proof.
  intros Hok Hu. unfold HandleContinuousTaskUpdate. do 4 hstep.
  apply ok_change_flags; [solve_in | by intros; apply payload_ok_typeIds|]. hsteps.
Qed.

Lemma safe_HandleContinuousTaskCancel t uid pid abilityId :
  is_s32 uid -> safe t (HandleContinuousTaskCancel uid pid abilityId).
Proof.
  intros Hu. unfold HandleContinuousTaskCancel. do 4 hstep; [|hsteps].
  apply ok_change_flags; [solve_in | by intros; apply delete_typeIds|]. hsteps.
Qed.
#[local] Hint Resolve safe_HandleContinuousTaskUpdate safe_HandleContinuousTaskCancel : cgroup.

Lemma safe_HandleContinuousTaskStatus t resType value payload :
  payload_ok payload -> safe t (HandleContinuousTaskStatus resType value payload).
Proof. intros Hok. unfold HandleContinuousTaskStatus. hsteps. Qed.
(** *** Windows *)

Lemma ok_GetProcessRecordNonNull_same t fs uid pid :
  FApp uid ∈ fs -> ok t fs (upd_app uid (GetProcessRecordNonNull pid) : M unit).
Proof.
  intros Hin. eapply spec_conseq; [by apply ok_GetProcessRecordNonNull | done |].
  intros a w Hw. eapply I_weaken; [exact Hw | solve_sub].
Qed.
#[local] Hint Resolve ok_GetProcessRecordNonNull_same : cgroup.

Lemma ok_name_from_bundle t fs uid :
  FApp uid ∈ fs -> ok t fs (name_from_bundle (J := J) (K := K) uid).
Proof.
  intros Hin. unfold name_from_bundle. hstep. hstep; [|apply ok_ret].
  apply ok_bind.
  - intros w Hw. unfold GetBundleNameByUid, mbind, ST_bind, st_get.
    by destruct (pl_samgr (J := J) uid (outer w)) as [o ->].
  - intros name. hsteps.
Qed.
#[local] Hint Resolve ok_name_from_bundle : cgroup.

Lemma ok_set_focus t fs uid pid :
  FApp uid ∈ fs -> FProc uid pid ∈ fs ->
  ok t fs (upd_app uid (fun app => app <| focusedProcess_ := Some pid |>) : M unit).
Proof.
  intros Happ Hin w Hw.
  destruct (find_host _ _ _ _ _ Hw Hin) as (sup & app & pr & E & Ha & Hp & Hget & _).
  unfold upd_app, upd_sup, get_sup, st_some, mbind, ST_bind, st_get. rewrite Hget, E. simpl.
  apply (I_sup_at t fs w sup); [done..| |by apply grows_simple_app].
  intros [Hu Hwf]. split; simpl; intros uid' app'; rewrite lookup_alter_Some;
    intros [(-> & app0 & Hl & ->)|[? Hl]]; eauto.
  destruct (Hwf _ _ Hl) as [H1 H2 H3]. split; simpl; [done..|].
  intros ? [= <-]. unfold GetAppRecord, GetProcessRecord in *. simplify_eq. eauto.
Qed.
#[local] Hint Resolve ok_set_focus : cgroup.

Lemma safe_HandleFocusStateChange t resType value payload :
  safe t (HandleFocusStateChange resType value payload).
Proof.
  unfold HandleFocusStateChange, HandleFocusedWindow, HandleUnfocusedWindow. hsteps.
  apply ok_bind; [apply ok_set_focus; solve_in|intros _]. hsteps.
Qed.

Lemma safe_HandleWindowVisibilityChanged t resType value payload :
  safe t (HandleWindowVisibilityChanged resType value payload).
Proof. unfold HandleWindowVisibilityChanged. hsteps. Qed.

Lemma safe_HandleDrawingContentChangeWindow t resType value payload :
  safe t (HandleDrawingContentChangeWindow resType value payload).
Proof. unfold HandleDrawingContentChangeWindow. hsteps. Qed.

(** *** Events about one process *)

Lemma spec_GetProcInfoByPayload t payload :
  spec False (I t []) (GetProcInfoByPayload payload : M (option (Z * Z)))
    (fun o => match o with
              | Some (uid, pid) => I t [FProc uid pid; FApp uid]
              | None => I t []
              end).
Proof.
  intros w Hw. unfold GetProcInfoByPayload, mbind at 1, ST_bind at 1, st_get.
  pose proof Hw as (_ & _ & sup & E & _). rewrite E.
  destruct (ParsePayload payload) as [[uid pid]|]; [|done].
  destruct (GetAppRecord uid sup) as [app|] eqn:Ea; [|done].
  pose proof (ok_GetProcessRecordNonNull (K := K) t [FApp uid] uid pid ltac:(solve_in)) as Hm.
  specialize (Hm w ltac:(by eapply I_add; [done..|by exists app])).
  unfold mbind, ST_bind. by destruct (upd_app _ _ w) as [[[] w']|].
Qed.

Lemma ok_adjust_host t fs uid pid source (k : M unit) :
  FApp uid ∈ fs -> FProc uid pid ∈ fs -> (forall fs', fs ⊆ fs' -> ok t fs' k) ->
  ok t fs (adjust_host uid pid source k).
Proof.
  intros Happ Hin Hk w Hw.
  destruct (find_host _ _ _ _ _ Hw Hin) as (sup & app & pr & E & Ha & Hp & Hga & Hgp).
  unfold adjust_host, mbind, ST_bind. rewrite Hga, Hgp.
  destruct (GetProcessRecord (hostPid_ pr) app) as [host|] eqn:Eh; [|done].
  assert (Hf : I t (FProc uid (hostPid_ pr) :: fs) w).
  { eapply I_add; [done..|]. exists host. apply find_proc_Some. eauto. }
  assert (Hm : ok t (FProc uid (hostPid_ pr) :: fs)
            (AdjustProcessGroup (J := J) (K := K) uid (hostPid_ pr) source;; k)).
  { hstep. apply Hk. solve_sub. }
  specialize (Hm w Hf). unfold mbind, ST_bind in Hm.
  destruct (AdjustProcessGroup _ _ _ w) as [[[] w']|]; [|done].
  destruct (k w') as [[[] w'']|]; [|done]. eapply I_weaken; [exact Hm | solve_sub].
Qed.

(** The body of a handler that starts with [GetProcInfoByPayload]. *)
Lemma ok_with_proc t payload (k : Z -> Z -> M unit) :
  (forall uid pid, ok t [FProc uid pid; FApp uid] (k uid pid)) ->
  safe t (o ← GetProcInfoByPayload payload; up <-? o; let '(uid, pid) := up in k uid pid).
Proof.
  intros Hk. eapply spec_bind; [apply spec_GetProcInfoByPayload|].
  intros [[uid pid]|]; [|apply ok_ret]. cbv beta iota. apply ok_weaken; [solve_sub|]. apply Hk.
Qed.

Lemma safe_HandleReportKeyThread t resType value payload :
  safe t (HandleReportKeyThread resType value payload).
Proof.
  apply ok_with_proc. intros uid pid. hsteps. apply ok_adjust_host; [solve_in..|].
  intros fs' _. apply ok_ret.
Qed.

(** A search shows that the window's process is there. *)
Lemma SearchWindowId_fact windowId sup win :
  SearchWindowId windowId sup = Some win -> fact_holds sup (FProc (ref_uid win) (ref_pid win)).
Proof.
  unfold SearchWindowId. intros (((u & p) & pr) & Hf & ->)%fmap_Some. simpl.
  apply find_first_Some in Hf as [Hin _]. unfold all_processes in Hin.
  apply list_elem_of_bind in Hin as ((u' & app) & Hin & Ha%elem_of_in_order).
  apply list_elem_of_bind in Hin as ((p' & pr') & Hin & Hp%elem_of_in_order).
  apply list_elem_of_singleton in Hin. simplify_eq.
  eexists. apply find_proc_Some. eauto.
Qed.

Lemma ok_UpdateActivepWebRenderInfo t fs state windowId uid pid :
  FApp uid ∈ fs -> FProc uid pid ∈ fs ->
  ok t fs (UpdateActivepWebRenderInfo state windowId uid pid : M unit).
Proof.
  intros Happ Hin. unfold UpdateActivepWebRenderInfo. do 2 hstep; [|hsteps].
  destruct (state =? ACTIVE); [|hsteps].
  intros w Hw. destruct (find_host _ _ _ _ _ Hw Hin) as (sup & app & pr & E & Ha & Hp & Hga & Hgp).
  unfold mbind, ST_bind, get_sup at 1. rewrite Hga, Hgp.
  unfold mbind at 1, ST_bind at 1, st_get. rewrite E. simpl. cbv zeta.
  set (win := match (_ : option WindowInfo) with Some _ => _ | None => _ end).
  destruct win as [win0|] eqn:Ew; [|done].
  assert (Hf : I t (FProc (ref_uid win0) (ref_pid win0) :: fs) w).
  { eapply I_add; [done..|]. unfold win in Ew.
    destruct (GetProcessRecord (hostPid_ pr) app) as [host|] eqn:Eh; simpl in Ew;
      [|by apply SearchWindowId_fact in Ew].
    destruct (GetWindowInfo _ host); [|by apply SearchWindowId_fact in Ew].
    injection Ew as <-. exists host. apply find_proc_Some. eauto. }
  assert (Hm : ok t (FProc (ref_uid win0) (ref_pid win0) :: fs)
    (upd_proc (ref_uid win0) (ref_pid win0) (alter_window (ref_window win0) (fun w =>
       w <| topWebviewRenderUid_ := pr_uid_ pr |>));;
     upd_proc uid pid (fun pr => pr <| linkedWindow_ := Some win0 |> <| isActive_ := true |>)
     : M unit)) by hsteps.
  specialize (Hm w Hf). unfold mbind, ST_bind in Hm.
  destruct (upd_proc _ _ _ w) as [[[] w']|]; [|done].
  destruct (upd_proc _ _ _ w') as [[[] w'']|]; [|done]. eapply I_weaken; [exact Hm | solve_sub].
Qed.
#[local] Hint Resolve ok_UpdateActivepWebRenderInfo : cgroup.

(** The serial numbers of the model are at least -1, so the difference to a
    number that is not negative does not overflow. *)
Lemma safe_HandleReportWindowState t resType value payload :
  payload_ok payload -> safe t (HandleReportWindowState resType value payload).
Proof.
  intros [_ Hserial]. apply ok_with_proc. intros uid pid.
  do 3 (hstep; [|apply ok_ret]).
  match goal with H : ParseValue "serialNum" payload = Some ?z |- _ =>
    rename z into now; pose proof (Hserial _ eq_refl); pose proof (ParseValue_s32 _ _ _ H) end.
  eapply spec_bind; [apply (spec_get_proc _ _ _ _ (fun pr w => I t [FProc uid pid; FApp uid] w /\
    -1 <= serialNum_ pr < 2 ^ 31)); [solve_in|]|].
  { intros sup pr w Hw E (app & Ha & Hp)%find_proc_Some. split; [done|].
    pose proof Hw as ([Hs _ _ _ _ _] & _). destruct (Hs _ E) as [_ Happs].
    destruct (Happs _ _ Ha) as [_ Hps _]. by destruct (Hps _ _ Hp). }
  intros pr. cbv beta. apply spec_bind with (R := fun _ => I t [FProc uid pid; FApp uid]).
  { intros w [Hw Hs]. destruct (Z.leb_spec now (serialNum_ pr)); [|done].
    cbv zeta iota. rewrite bool_decide_true by (unfold is_s32 in *; lia). done. }
  intros stale. hstep; [apply ok_ret|]. apply ok_bind.
  { apply ok_upd_proc; [solve_in|]. intros ok' pr' []. split; try done.
    simpl. unfold is_s32 in *. lia. }
  intros _. apply ok_bind; [apply ok_UpdateActivepWebRenderInfo; solve_in|intros _].
  apply ok_adjust_host; [solve_in..|]. intros fs' Hsub.
  apply ok_ReportSysEvent; apply Hsub; solve_in.
Qed.

Lemma safe_HandleReportAudioState t resType value payload :
  safe t (HandleReportAudioState resType value payload).
Proof. unfold HandleReportAudioState. hsteps. Qed.
Lemma safe_HandleReportAudioCapTureState t resType value payload :
  safe t (HandleReportAudioCapTureState resType value payload).
Proof. unfold HandleReportAudioCapTureState. hsteps. Qed.
Lemma safe_HandleReportWebviewAudioState t resType value payload :
  safe t (HandleReportWebviewAudioState resType value payload).
Proof. unfold HandleReportWebviewAudioState. hsteps. Qed.
Lemma safe_HandleReportRunningLockEvent t resType value payload :
  safe t (HandleReportRunningLockEvent resType value payload).
Proof. unfold HandleReportRunningLockEvent. hsteps. Qed.
Lemma safe_HandleReportBluetoothConnectState t resType value payload :
  safe t (HandleReportBluetoothConnectState resType value payload).
Proof. unfold HandleReportBluetoothConnectState. hsteps. Qed.
Lemma safe_HandleNapModeEvent t resType value payload :
  safe t (HandleNapModeEvent resType value payload).
Proof. unfold HandleNapModeEvent. hsteps. Qed.
Lemma safe_HandleReportHisysEvent t resType value payload :
  safe t (HandleReportHisysEvent resType value payload).
Proof. unfold HandleReportHisysEvent. hsteps. Qed.
Lemma safe_HandleReportScreenCaptureEvent t resType value payload :
  safe t (HandleReportScreenCaptureEvent resType value payload).
Proof. unfold HandleReportScreenCaptureEvent. hsteps. Qed.
Lemma safe_HandleReportAvCodecEvent t resType value payload :
  safe t (HandleReportAvCodecEvent resType value payload).
Proof. unfold HandleReportAvCodecEvent. hsteps. Qed.
Lemma safe_HandleSceneBoardState t resType value payload :
  safe t (HandleSceneBoardState resType value payload).
Proof.
  unfold HandleSceneBoardState. hsteps.
  apply ok_upd_sup; [intros ok' sup; by apply wf_sup_simple | done].
Qed.
Lemma safe_UpdateMmiStatus t resType value payload :
  safe t (UpdateMmiStatus resType value payload).
Proof. unfold UpdateMmiStatus. hsteps. Qed.
Lemma safe_HandleWebviewScreenCapture t resType value payload :
  safe t (HandleWebviewScreenCapture resType value payload).
Proof. apply ok_with_proc. intros uid pid. hsteps. Qed.
Lemma safe_HandleReportWebviewVideoState t resType value payload :
  safe t (HandleReportWebviewVideoState resType value payload).
Proof. apply ok_with_proc. intros uid pid. hsteps. Qed.

(** *** System abilities and the cosmic cube *)

Lemma safe_GetRunningLockState t : safe t GetRunningLockState.
Proof.
  unfold GetRunningLockState. intros w Hw. unfold mbind at 1, ST_bind at 1, st_get.
  destruct (negb (sched_supervisor_ w)); [done|].
  destruct (platform_running_locks (outer w)) as [l|] eqn:El; [|done].
  pose proof (pl_locks _ _ El) as Hl. rewrite Forall_forall in Hl.
  revert w Hw El.
  match goal with |- forall w, _ -> _ -> match ?m w with _ => _ end =>
    cut (safe t m); [intros Hm w Hw _; by apply Hm|] end.
  apply ok_iter. intros [name lock] Hin. specialize (Hl _ Hin). simpl in Hl. hsteps.
Qed.
#[local] Hint Resolve safe_GetRunningLockState : cgroup.

Lemma safe_HandleAbilityAdded t saId deviceId : safe t (HandleAbilityAdded saId deviceId).
Proof.
  unfold HandleAbilityAdded. hsteps. apply ok_upd_sup; [|done]. intros ok' sup Hs.
  unfold InitSuperVisorContent. apply wf_ReloadChildProcess; [apply pl_children|].
  apply wf_ReloadApplication; [apply pl_running|]. by apply wf_ConnectAppManagerService.
Qed.

Lemma safe_HandleEmptyPayloadForCosmicCubeState t resType value :
  safe t (HandleEmptyPayloadForCosmicCubeState resType value).
Proof.
  unfold HandleEmptyPayloadForCosmicCubeState. hstep; [apply ok_ret|].
  apply spec_bind with
    (R := fun sup => I t (map FApp (keys_in_order (uidsMap_ sup)))).
  { apply spec_get_sup. intros sup w (H1 & H2 & sup' & E & _) E'. simplify_eq.
    split_and!; [done..|]. exists sup'. split; [done|].
    apply Forall_fmap, Forall_forall. intros uid [app Ha]%elem_of_keys_in_order. by exists app. }
  intros sup. set (fs := map FApp _). apply ok_weaken; [solve_sub|].
  apply ok_iter. intros uid Huid.
  assert (FApp uid ∈ fs) by (apply list_elem_of_fmap; eauto).
  eapply spec_bind; [by apply spec_get_app_procs|]. intros app. cbv beta.
  set (fs' := map (FProc uid) (keys_in_order (pidsMap_ app)) ++ fs).
  assert (FApp uid ∈ fs') by (apply elem_of_app; by right).
  apply ok_weaken; [intros ??; apply elem_of_app; by right|].
  hstep; [apply ok_ret|]. hstep. apply ok_iter. intros pid Hpid.
  assert (FProc uid pid ∈ fs') by (apply elem_of_app; left; apply list_elem_of_fmap; eauto).
  hsteps.
Qed.
#[local] Hint Resolve safe_HandleEmptyPayloadForCosmicCubeState : cgroup.

Lemma safe_HandleReportCosmicCubeState t resType value payload :
  safe t (HandleReportCosmicCubeState resType value payload).
Proof. unfold HandleReportCosmicCubeState. hsteps. Qed.

(** *** Web sub-windows *)

(** A state of the invariant with a process model. *)
Definition Live (w : World J K) : Prop := Inv w /\ is_Some (supervisor_ w).

Lemma I_live t fs (w : World J K) : I t fs w -> Live w.
Proof. intros (H1 & _ & sup & E & _). split; [done | by exists sup]. Qed.
Lemma live_I (w : World J K) : Live w -> I (timers w) [] w.
Proof. intros [H1 [sup E]]. split_and!; try done. exists sup. auto. Qed.

Lemma FindProcessRecord_fact t (w : World J K) sup pid path :
  I t [] w -> supervisor_ w = Some sup -> FindProcessRecord pid sup = Some path ->
  path.2 = pid /\ is_s32 path.1 /\ I t [FProc path.1 pid; FApp path.1] w.
Proof.
  intros Hw E. unfold FindProcessRecord. intros ((u & app) & Hf & ->)%fmap_Some. simpl.
  apply find_first_Some in Hf as [Ha%elem_of_in_order Hb].
  apply bool_decide_eq_true in Hb as [pr Hp].
  split; [done|]. split.
  - pose proof Hw as ([Hs _ _ _ _ _] & _). destruct (Hs _ E) as [Hu _]. by eapply Hu.
  - eapply I_add; [eapply I_add; [done..|by exists app]|done|].
    exists pr. apply find_proc_Some. eauto.
Qed.

Lemma Inv_timers (w : World J K) q m d n :
  Inv w -> cgroupEventQueue_ w = q ->
  (forall handle dt, d !! handle = Some dt -> m !! dt_name dt = Some handle /\
     exists resType uid pid, dt_task dt = TaskCheckWebSubWin resType uid pid /\
                             dt_name dt = web_subwin_task_name pid uid) ->
  (forall handle, is_Some (d !! handle) -> handle < n) ->
  (forall name, is_Some (m !! name) -> is_Some q) ->
  Inv (w <| delayed_ := d |> <| delayTaskMap_ := m |> <| next_handle_ := n |>).
Proof. intros [H1 H2 H3 H4 H5 H6] <- Hd Hn Hm. by split. Qed.

Lemma I_timers t fs (w : World J K) d m n :
  I t fs w ->
  (forall handle dt, d !! handle = Some dt -> m !! dt_name dt = Some handle /\
     exists resType uid pid, dt_task dt = TaskCheckWebSubWin resType uid pid /\
                             dt_name dt = web_subwin_task_name pid uid) ->
  (forall handle, is_Some (d !! handle) -> handle < n) ->
  (forall name, is_Some (m !! name) -> is_Some (cgroupEventQueue_ w)) ->
  exists t', I t' fs (w <| delayed_ := d |> <| delayTaskMap_ := m |> <| next_handle_ := n |>).
Proof.
  intros (H1 & H2 & H3) Hd Hn Hm. eexists. split_and!; [by eapply Inv_timers|done|done].
Qed.

(** Cancelling leaves no task registered under the name. *)
Lemma spec_RemoveTask t fs name :
  spec False (I t fs) (RemoveTask name : M unit)
    (fun _ w => (exists t', I t' fs w) /\ delayTaskMap_ w !! name = None).
Proof.
  intros w Hw. unfold RemoveTask, mbind, ST_bind, st_get.
  destruct (delayTaskMap_ w !! name) as [h|] eqn:Eh; [|split; [by exists t | done]].
  pose proof Hw as ([H1 H2 H3 H4 H5 H6] & _).
  destruct (H6 name) as [q Eq]; [by eauto|]. rewrite Eq. simpl.
  rewrite lookup_delete_eq. split; [|done].
  destruct (I_timers t fs w (delete h (delayed_ w)) (delete name (delayTaskMap_ w)) (next_handle_ w) Hw)
    as [t' Ht']; [..|exists t'; exact Ht'].
  - intros handle dt [Hne Hl]%lookup_delete_Some. destruct (H4 _ _ Hl) as [Hn Hex].
    split; [|done]. rewrite lookup_delete_ne; [done|]. intros ->. congruence.
  - intros handle [dt [_ Hl]%lookup_delete_Some]. apply H5. by exists dt.
  - intros name' [h' [_ Hl]%lookup_delete_Some]. apply (H6 name'). by exists h'.
Qed.

(** Setting the timer of a process that has none. *)
Lemma spec_PostDelayedTask t fs resType uid pid :
  spec False (fun w => I t fs w /\ delayTaskMap_ w !! web_subwin_task_name pid uid = None)
    (PostDelayedTask (TaskCheckWebSubWin resType uid pid) (web_subwin_task_name pid uid)
       CHECK_WEB_SUBWIN_TASK_DELAY : M unit)
    (fun _ w => exists t', I t' fs w).
Proof.
  intros w [Hw Hnone]. unfold PostDelayedTask, mbind, ST_bind, st_get.
  destruct (cgroupEventQueue_ w) as [q|] eqn:Eq; [|by exists t].
  set (dt := mkDelayedTask _ _ _). set (h := next_handle_ w). unfold st_modify.
  pose proof Hw as ([H1 H2 H3 H4 H5 H6] & _).
  assert (Hfresh : delayed_ w !! h = None).
  { apply eq_None_not_Some. intros Hs%H5. unfold h in *. lia. }
  destruct (I_timers t fs w (<[h := dt]> (delayed_ w))
           (<[web_subwin_task_name pid uid := h]> (delayTaskMap_ w)) (h + 1) Hw)
    as [t' Ht']; [..|exists t'; exact Ht'].
  - intros handle dt'. rewrite lookup_insert_Some. intros [[<- <-]|[Hne Hl]].
    + unfold dt. simpl. rewrite lookup_insert_eq. eauto 10.
    + destruct (H4 _ _ Hl) as [Hn Hex]. split; [|done].
      rewrite lookup_insert_ne; [done|]. intros E. congruence.
  - intros handle. rewrite lookup_insert_is_Some'. intros [<-|Hl%H5]; unfold h in *; lia.
  - rewrite Eq. eauto.
Qed.

Lemma live_HandleReportWebSubWinTaskStatus t resType value payload :
  spec False (I t []) (HandleReportWebSubWinTaskStatus resType value payload : M unit)
    (fun _ => Live).
Proof.
  unfold HandleReportWebSubWinTaskStatus.
  assert (Hret : forall t fs, spec False (I t fs) (mret tt : M unit) (fun _ => Live))
    by (intros ?? w Hw; by eapply I_live).
  hstep. hstep; [|apply Hret]. hstep; [|apply Hret]. hstep; [apply Hret|].
  match goal with H : ParseValue "pid" payload = Some ?z |- _ => rename z into pid end.
  eapply spec_bind; [apply (spec_get_sup _ _ (fun sup w => I t [] w /\ supervisor_ w = Some sup)); auto|].
  intros sup. cbv beta. destruct (FindProcessRecord pid sup) as [[u pid']|] eqn:Ef;
    [|intros w [Hw _]; by eapply I_live].
  intros w0 [Hw0 E0]. destruct (FindProcessRecord_fact _ _ _ _ _ Hw0 E0 Ef) as (E & Hu & Hw1).
  simpl in *. subst pid'. clear Hw0 E0. revert w0 Hw1.
  eapply spec_bind; [apply (spec_get_proc _ _ _ _ (fun pr w => I t [FProc u pid; FApp u] w /\
    pr_uid_ pr = to_u32 u)); [solve_in|]|].
  { intros sup' pr w Hw E (app & Ha & Hp)%find_proc_Some. split; [done|].
    pose proof Hw as ([Hs _ _ _ _ _] & _). destruct (Hs _ E) as [_ Happs].
    destruct (Happs _ _ Ha) as [_ Hps _]. by destruct (Hps _ _ Hp). }
  intros pr w [Hw Epr]. rewrite Epr, to_s32_u32_id by done. clear Epr pr. revert w Hw.
  match goal with |- forall w, _ -> match ?m w with _ => _ end =>
    change (spec False (I t [FProc u pid; FApp u]) m (fun _ => Live)) end.
  do 4 hstep. hstep; [apply Hret|].
  eapply spec_bind; [apply spec_RemoveTask|]. intros [] w [(t' & Hw) Hnone].
  destruct (find_host _ _ u pid _ Hw ltac:(solve_in)) as (? & ? & pr & _ & _ & _ & _ & Hget).
  unfold mbind, ST_bind. rewrite Hget.
  destruct (webSubWinTaskState_ pr); simpl; [|by eapply I_live].
  pose proof (spec_PostDelayedTask t' _ resType u pid w (conj Hw Hnone)) as Hp.
  destruct (PostDelayedTask _ _ _ w) as [[[] w']|]; [|done].
  destruct Hp as [t'' Hp]. by eapply I_live.
Qed.

Lemma safe_CheckWebSubWinTaskStatus t resType uid pid :
  safe t (CheckWebSubWinTaskStatus resType uid pid).
Proof. unfold CheckWebSubWinTaskStatus. hsteps. Qed.

(** ** The queue *)

#[local] Abbreviation live m := (spec False Live (m : M unit) (fun _ => Live)).

Lemma safe_live (m : M unit) : (forall t, safe t m) -> live m.
Proof.
  intros Hm w Hw%live_I. specialize (Hm _ w Hw). destruct (m w) as [[? w']|]; [|done].
  by eapply I_live.
Qed.

Lemma live_ret : live (mret tt).
Proof. by intros w Hw. Qed.

Lemma live_PostTask task : task_ok task -> live (PostTask task).
Proof.
  intros Ht w [[H1 H2 H3 H4 H5 H6] Hs]. unfold PostTask, st_modify. split; [|done].
  split; try done.
  - simpl. intros q Hq. apply fmap_Some in Hq as (q0 & Hq0 & ->).
    apply Forall_app. split; [by apply H3 | by apply Forall_singleton].
  - simpl. intros name Hn%H6. by apply fmap_is_Some.
Qed.

Lemma live_ReportAbilityStatus resType value payload : live (ReportAbilityStatus resType value payload).
Proof. by apply live_PostTask. Qed.

Lemma live_WebSubWin resType value payload :
  live (HandleReportWebSubWinTaskStatus resType value payload).
Proof. intros w Hw%live_I. by apply (live_HandleReportWebSubWinTaskStatus _ _ _ _ w Hw). Qed.

Create HintDb handlers discriminated.
#[local] Hint Constants Opaque : handlers.
#[local] Hint Resolve safe_HandleReportKeyThread safe_HandleReportWindowState
  safe_HandleReportWebviewAudioState safe_HandleReportAudioState
  safe_HandleReportRunningLockEvent safe_HandleSceneBoardState safe_HandleWebviewScreenCapture
  safe_HandleReportScreenCaptureEvent safe_HandleReportWebviewVideoState safe_UpdateMmiStatus
  safe_HandleReportCosmicCubeState safe_HandleOnAppStopped safe_HandleAbilityStateChanged
  safe_HandleExtensionStateChanged safe_HandleProcessStateChangedEx
  safe_HandleApplicationStateChanged safe_HandleFocusStateChange
  safe_HandleWindowVisibilityChanged safe_HandleDrawingContentChangeWindow
  safe_HandleTransientTaskStatus safe_HandleContinuousTaskStatus
  safe_HandleReportAudioCapTureState safe_HandleReportHisysEvent
  safe_HandleReportBluetoothConnectState safe_HandleReportAvCodecEvent
  safe_HandleNapModeEvent : handlers.

(** Every handler of the table is safe on every payload that is in range. *)
Lemma live_dispatchResFuncMap :
  Forall (fun p => forall resType value payload, payload_ok payload ->
            live (p.2 resType value payload)) (dispatchResFuncMap_ (J := J) (K := K)).
Proof.
  unfold dispatchResFuncMap_, AddDispatchResFuncMap. cbn [app].
  repeat (apply Forall_cons; split; [intros resType value payload Hp; cbn [snd]|]);
    [.. | by apply Forall_nil].
  all: lazymatch goal with
       | |- spec _ _ (ReportAbilityStatus _ _ _) _ => apply live_ReportAbilityStatus
       | |- spec _ _ (HandleReportWebSubWinTaskStatus _ _ _) _ => apply live_WebSubWin
       | |- _ => apply safe_live; intros t; solve [eauto with handlers nocore]
       end.
Qed.

Lemma live_run_other resType value payload :
  payload_ok payload -> live (run_other resType value payload).
Proof.
  intros Hp. unfold run_other. repeat case_match;
    first [apply live_ret | apply safe_live; intros t; solve [eauto with handlers nocore]].
Qed.

Lemma live_run_task task : task_ok task -> live (run_task task).
Proof.
  destruct task as [rt v p|rt v p|saId deviceId value| |rt uid pid]; simpl; intros Ht.
  - unfold find_handler. destruct (find_first _ _) as [[rt' f]|] eqn:E; simpl; [|apply live_ret].
    apply find_first_Some in E as [Hin _].
    pose proof live_dispatchResFuncMap as Hall. rewrite Forall_forall in Hall.
    by apply (Hall _ Hin).
  - by apply live_run_other.
  - case_match; apply safe_live; intros t; [apply safe_HandleAbilityAdded | apply ok_ret].
  - apply safe_live. intros t. apply ok_AdjustSelfProcessGroup.
  - apply safe_live. intros t. apply safe_CheckWebSubWinTaskStatus.
Qed.

Lemma live_run_head : live run_head.
Proof.
  intros w Hw. unfold run_head, mbind, ST_bind, st_get.
  destruct (cgroupEventQueue_ w) as [[|task rest]|] eqn:Eq; [done| |done].
  destruct Hw as [[H1 H2 H3 H4 H5 H6] Hs]. pose proof (H3 _ Eq) as Hq.
  apply Forall_cons in Hq as [Ht Hq]. unfold st_modify. apply live_run_task; [done|].
  split; [|done]. split; try done; simpl; by intros ? [= <-].
Qed.

Lemma live_fire handle : live (fire handle).
Proof.
  intros w [[H1 H2 H3 H4 H5 H6] Hs]. unfold fire, mbind, ST_bind, st_get.
  destruct (delayed_ w !! handle) as [dt|] eqn:Ed; [|done].
  unfold st_modify. destruct (H4 _ _ Ed) as (Hname & resType & uid & pid & Htask & _).
  set (w1 := w <| delayed_ ::= delete handle |>).
  assert (Hw1 : Live w1).
  { split; [|done]. split; try done; simpl.
    - intros h dt' [_ Hl]%lookup_delete_Some. by apply H4.
    - intros h [dt' [_ Hl]%lookup_delete_Some]. apply H5. by exists dt'. }
  pose proof (safe_CheckWebSubWinTaskStatus _ resType uid pid w1 (live_I _ Hw1)) as Hc.
  rewrite Htask. simpl. destruct (CheckWebSubWinTaskStatus _ _ _ w1) as [[[] w2]|]; [|done].
  destruct Hc as ([G1 G2 G3 G4 G5 G6] & Ht & sup & Esup & _). unfold timers in Ht.
  injection Ht as E1 E2 E3 E4 E5. split; [|by exists sup]. split; try done; simpl.
  - intros h dt' Hl. destruct (G4 _ _ Hl) as [Hn Hex]. split; [|done]. simpl.
    rewrite lookup_delete_ne; [done|]. intros E. rewrite E3, <- E in Hn. simpl in Hn.
    assert (h = handle) as -> by congruence.
    rewrite E4 in Hl. simpl in Hl. by rewrite lookup_delete_eq in Hl.
  - intros name [h [_ Hl]%lookup_delete_Some]. apply (G6 name). by exists h.
Qed.

Lemma live_call c : live (call c).
Proof. apply safe_live. intros t. apply ok_call. Qed.

Lemma live_outer k (w : World J K) : Live w -> Live (w <| outer := k |>).
Proof. intros Hw%live_I. eapply I_live, I_outer_only, Hw. Qed.

Lemma live_DispatchResourceExt resType value payload :
  live (DispatchResourceExt resType value payload).
Proof.
  unfold DispatchResourceExt. destruct (dispatchResourceExtFunc_ _) as [f|]; [|apply live_ret].
  rewrite pl_open. apply spec_bind with (R := fun _ => Live); [|intros _; apply live_call].
  intros w Hw. by apply live_outer.
Qed.

Lemma live_DispatchResource resType value payload :
  payload_ok payload -> live (DispatchResource resType value payload).
Proof.
  intros Hp. assert (Hother : live (DispatchOtherResource resType value payload)).
  { unfold DispatchOtherResource. intros w Hw. unfold mbind at 1, ST_bind at 1, st_get.
    destruct (negb (cgHandler_ w)); [done|]. revert w Hw.
    apply spec_bind with (R := fun _ => Live); [by apply live_PostTask|].
    intros _. apply live_DispatchResourceExt. }
  unfold DispatchResource. intros w Hw. unfold mbind at 1, ST_bind at 1, st_get.
  destruct (negb (cgHandler_ w)); [done|]. revert w Hw.
  destruct (find_handler resType); [|apply Hother].
  apply spec_bind with (R := fun _ => Live); [by apply live_PostTask|]. intros _. apply Hother.
Qed.

(** ** Start and runs *)

Lemma live_Init k : spec False (fun w => w = new_World k) (Init : M unit) (fun _ => Live).
Proof.
  unfold Init.
  apply spec_bind with (R := fun _ w => w = (new_World k) <| sched_supervisor_ := true |>);
    [by intros w -> |]. intros _.
  apply spec_bind with (R := fun _ => Live).
  { intros w ->. split; [|by eexists]. split; simpl; try done.
    - intros sup [= <-]. apply wf_new_sup.
    - by intros q [= <-].
    - intros handle [? Hl]. by rewrite lookup_empty in Hl. }
  intros _. apply spec_bind with (R := fun _ => Live).
  { intros w Hw. unfold InitAdjuster, mbind, ST_bind, st_get.
    destruct (cgHandler_ w); [|done]. by apply live_PostTask. }
  intros _. apply spec_bind with (R := fun _ => Live);
    [apply spec_iter; intros; apply live_call|].
  intros _. apply spec_bind with (R := fun _ => Live);
    [apply spec_iter; intros []; intros; apply live_call|].
  intros _. apply spec_bind with (R := fun _ => Live);
    [|intros _]; [unfold SubscribeResourceExt | unfold SubscribeSyncResourceExt];
    (case_match; [|apply live_ret]); rewrite pl_open; intros w Hw; by apply live_outer.
Qed.

Definition event_ok (e : Event (J := J)) : Prop :=
  match e with EvDispatch _ _ payload => payload_ok payload | _ => True end.

Lemma live_exec_event e : event_ok e -> live (exec_event e).
Proof.
  destruct e; simpl; [apply live_DispatchResource | intros _; apply live_run_head
                     | intros _; apply live_fire].
Qed.

Lemma live_run k events :
  Forall event_ok events ->
  exists w, plugin_run (J := J) k events = Some (tt, w) /\ Live w.
Proof.
  intros He. rewrite Forall_forall in He.
  assert (Hr : spec False (fun w => w = new_World k)
    (Init;; st_iter exec_event events : M unit) (fun _ => Live)).
  { apply spec_bind with (R := fun _ => Live); [apply live_Init|]. intros _.
    apply spec_iter. intros e Hin. apply live_exec_event. auto. }
  specialize (Hr _ eq_refl). unfold plugin_run.
  destruct ((Init;; st_iter exec_event events) (new_World k)) as [[[] w]|]; [eauto|done].
Qed.
End handlers.
