(* ===== verification/Demo.v ===== *)
(** * A platform for examples

    Concrete values for what the repository does not define: an operating system
    whose files all exist, an executor that accepts every request, no extension
    library.  The examples of the other files run on it. *)
From S2P Require Import Prelude Json ResType Supervisor ProcessGroup World CgroupAdjuster CgroupEventHandler SchedController SupervisorFacts CgroupInvariant CgroupSafety.

(** The state of the operating system: the next descriptor and what was written. *)
Record DemoOs := mkDemoOs { next_fd : Z; written : list (Z * string) }.

(** One controller with three groups. *)
Definition demo_config : json :=
  JObject [("Cgroups", JArray [JObject [
    ("controller", JString "cpuset"); ("path", JString "/dev/cpuset");
    ("sched_policy", JObject [("sp_background", JString "background");
                              ("sp_foreground", JString "foreground");
                              ("sp_top_app", JString "top-app")])]])].

(** [kernel] is the boot parameter, [write_ok] whether writes succeed. *)
Definition demo_os (kernel : string) (write_ok : bool) : Os json DemoOs := {|
  os_access _ _ := true;
  os_realpath path _ := Some path;
  os_open _ o := (next_fd o, mkDemoOs (next_fd o + 1) (written o));
  os_write fd text o :=
    if write_ok then ((Z.of_nat (String.length text), 0), mkDemoOs (next_fd o) (written o ++ [(fd, text)]))
    else ((-1, 13), o);
  os_vsnprintf text := (Z.of_nat (String.length text), text);
  os_GetCfgFiles path _ := Some [Some path];
  os_parse_file _ _ := Some demo_config;
  os_SendRequestSync _ _ _ o := ((0, JObject [("ret", JString "0")]), o);
  os_boot_kernel := kernel;
|}.

Definition demo_process_group : ProcessGroup DemoOs :=
  mkProcessGroup new_CgroupAction ∅ None None (mkDemoOs 3 []).

(** The platform of the plugin on top of it. *)
#[export] Instance demo_platform : Platform json (ProcessGroup DemoOs) := {|
  platform_sched := process_group_api (J := json) (Os0 := demo_os "linux" true);
  platform_utils := no_ResSchedUtils;
  platform_SendRequestSync _ _ _ k := ((0, JObject [("res", JBool true)]), k);
  platform_realpath path _ := Some path;
  platform_read _ _ := None;
  platform_getpid _ := 1;
  platform_GetNameForUid _ _ := Some None;
  platform_app_manager _ := Some true;
  platform_running _ := [{| rp_uid := 20010001; rp_pid := 100; rp_bundleNames := ["demo"] |}];
  platform_children _ := [];
  platform_running_locks _ := None;
  platform_ToString := to_string;
  RUNNINGLOCK_PROXIMITY_SCREEN_CONTROL := 2;
  APP_MGR_SERVICE_ID := 501;
  POWER_MANAGER_SERVICE_ID := 3301;
|}.

#[export] Instance demo_laws : PlatformLaws json (ProcessGroup DemoOs).
Proof.
  split; try done.
  - apply process_group_laws.
  - intros k. simpl. repeat constructor; unfold is_s32; simpl; lia.
Qed.

#[export] Instance demo_fwk : AppExecFwk := {|
  APP_STATE_FOREGROUND := 2; APP_STATE_BACKGROUND := 4; APP_STATE_TERMINATED := 5;
  ABILITY_STATE_CREATE := 0; ABILITY_STATE_BACKGROUND := 4; ABILITY_STATE_TERMINATED := 5;
  EXTENSION_STATE_TERMINATED := 2;
  AbilityType_SERVICE := 2; AbilityType_EXTENSION := 5; AbilityType_DATA := 4;
  ProcessType_EXTENSION := 1; ProcessType_RENDER := 2; ProcessType_GPU := 3; ProcessType_CHILD := 4;
  PRE_LAUNCH := 4 |}.

(** Payloads. *)
Definition pl_process (uid pid bundleName state : string) : json :=
  text_payload [("uid", uid); ("pid", pid); ("bundleName", bundleName); ("state", state)].
Definition pl_window (uid pid windowId : string) : json :=
  text_payload [("uid", uid); ("pid", pid); ("windowId", windowId); ("windowType", "1");
                ("displayId", "0")].
Definition pl_created (uid pid hostPid bundleName processType : string) : json :=
  text_payload [("uid", uid); ("pid", pid); ("hostPid", hostPid); ("bundleName", bundleName);
                ("extensionType", "0"); ("processType", processType); ("preloadMode", "0");
                ("processName", bundleName)].

(** An application with a main process, its window, a render process, a task. *)
Definition demo_events : list (Event (J := json)) := [
  EvRun;
  EvDispatch RES_TYPE_PROCESS_STATE_CHANGE PROCESS_CREATED (pl_created "20010001" "100" "0" "demo" "0");
  EvRun; EvRun;
  EvDispatch RES_TYPE_PROCESS_STATE_CHANGE PROCESS_CREATED
    (pl_created "20010001" "101" "100" "demo" "2");
  EvRun; EvRun;
  EvDispatch RES_TYPE_WINDOW_FOCUS WINDOW_FOCUS (pl_window "20010001" "100" "7");
  EvRun; EvRun;
  EvDispatch RES_TYPE_CONTINUOUS_TASK CONTINUOUS_TASK_START
    (JObject [("uid", JString "20010001"); ("pid", JString "100"); ("abilityId", JString "5");
              ("typeIds", JArray [JUnsigned 1; JUnsigned 3])]);
  EvRun; EvRun;
  EvDispatch RES_TYPE_WEB_SUBWIN_TASK WEB_SUBWIN_CALL_START (text_payload [("pid", "101")]);
  EvRun; EvRun ].

Definition demo_run := plugin_run demo_process_group demo_events.

Example demo_groups :
  match demo_run with
  | Some (_, w) =>
      option_map (fun sup => (fun '(u, p, pr) => (u, p, curSchedGroup_ pr, continuousTaskFlag_ pr))
                               <$> all_processes sup) (supervisor_ w)
      = Some [(20010001, 100, SP_TOP_APP, 10); (20010001, 101, SP_TOP_APP, 0)]
  | None => False
  end.
Proof. vm_compute. reflexivity. Qed.

(** The demonstration run sees payloads in range only. *)
Lemma demo_events_ok : Forall event_ok demo_events.
Proof.
  assert (Hok : forall l, Forall (fun typeId => typeId < 32) (GetTypeIdsFromJson (JObject l) "typeIds") ->
    ParseValue "serialNum" (JObject l) = None -> payload_ok (JObject l)) by (intros l H1 H2; split; [done | congruence]).
  unfold demo_events.
  repeat match goal with
  | |- Forall event_ok [] => constructor
  | |- Forall event_ok (_ :: _) => constructor
  | |- event_ok EvRun => exact Logic.I
  | |- event_ok _ => apply Hok; [|reflexivity]; vm_compute; repeat (constructor; [reflexivity|]); constructor
  end.
Defined.

Definition demo_state : World json (ProcessGroup DemoOs) :=
  match demo_run with Some (_, w) => w | None => new_World demo_process_group end.

Lemma demo_run_state : demo_run = Some (tt, demo_state).
Proof. vm_compute. reflexivity. Qed.

Lemma demo_live : Live demo_state.
Proof.
  destruct (live_run demo_process_group demo_events demo_events_ok) as (w & E & Hw).
  unfold demo_state, demo_run. rewrite E. exact Hw.
Qed.

(** Its process model, the application and the two processes. *)
Definition demo_sup : Supervisor := default new_Supervisor (supervisor_ demo_state).
Definition demo_app : Application := default (new_Application 0) (GetAppRecord 20010001 demo_sup).
Definition demo_proc (pid : Z) : ProcessRecord :=
  default (new_ProcessRecord 0 0) (GetProcessRecord pid demo_app).

Lemma demo_sup_eq : supervisor_ demo_state = Some demo_sup.
Proof. vm_compute. reflexivity. Qed.
Lemma demo_app_eq : GetAppRecord 20010001 demo_sup = Some demo_app.
Proof. vm_compute. reflexivity. Qed.
Lemma demo_host_eq : GetProcessRecord 100 demo_app = Some (demo_proc 100).
Proof. vm_compute. reflexivity. Qed.
Lemma demo_render_eq : GetProcessRecord 101 demo_app = Some (demo_proc 101).
Proof. vm_compute. reflexivity. Qed.
Lemma demo_find_host : find_proc 20010001 100 demo_sup = Some (demo_proc 100).
Proof. vm_compute. reflexivity. Qed.
Lemma demo_find_render : find_proc 20010001 101 demo_sup = Some (demo_proc 101).
Proof. vm_compute. reflexivity. Qed.
