(* ===== verification/CgroupReach.v ===== *)
(** * What holds in every state the cgroup plugin reaches

    Properties of [plugin_run]: the plugin is started and then sees any sequence
    of events, its queue runs tasks and its timers come due in any order. *)
From S2P Require Import Prelude Json ResType Supervisor ProcessGroup World CgroupAdjuster CgroupEventHandler SchedController SupervisorFacts CgroupInvariant CgroupSafety Demo.

Section reachable.
Context {J K : Type} `{!Json J} `{!JsonLaws J} `{!Platform J K} `{!AppExecFwk}.
Context `{!PlatformLaws J K}.
Implicit Types (w : World J K).

Lemma live_reached k events w :
  Forall event_ok events -> plugin_run k events = Some (tt, w) -> Live w.
Proof. intros He E. destruct (live_run k events He) as (w' & E' & Hw). congruence. Qed.

Lemma reached_proc k events w sup uid pid pr :
  Forall event_ok events -> plugin_run k events = Some (tt, w) -> supervisor_ w = Some sup ->
  find_proc uid pid sup = Some pr -> wf_proc (group_was_set w) uid pid pr.
Proof.
  intros He E Es (app & Ha & Hp)%find_proc_Some.
  destruct (live_reached _ _ _ He E) as [[Hs _ _ _ _ _] _].
  by eapply wf_procs, Hp; eapply wf_apps, Ha; apply Hs.
Qed.
End reachable.

(** C2: The plugin does not run into undefined behaviour as long as the payloads and the
    outside are as follows: from its start, whatever events arrive, with type ids below 32 and
    serial numbers that are not negative in their payloads, and in whatever order tasks and
    timers run, every handler returns, the process model exists and the plugin is running. The
    outside is as [PlatformLaws] says: the libraries were loaded with all their symbols, their
    functions write scheduling fields only, the list of processes of a group is shorter than
    the buffer of 4096 bytes, the service manager is there, uids have 32 bits, and the group
    API answers. Where these fail the handlers are undefined. *)
Theorem plugin_runs_safely {J K} `{!Json J} `{!JsonLaws J} `{!Platform J K} `{!AppExecFwk}
    `{!PlatformLaws J K} (k : K) (events : list (Event (J := J))) :
  Forall event_ok events ->
  exists w sup, plugin_run k events = Some (tt, w) /\ supervisor_ w = Some sup.
Proof.
  intros He. destruct (live_run k events He) as (w & E & _ & sup & Es). eauto.
Qed.

Lemma plugin_runs_safely_witness :
  exists w sup, demo_run = Some (tt, w) /\ supervisor_ w = Some sup.
Proof. exact (plugin_runs_safely demo_process_group demo_events demo_events_ok). Defined.

(** C5: Every record the plugin holds is filed under its own identity: an
    application under its uid (as the unsigned type keeps it), a process under the
    uid of its application and its pid; the window ids and the ability ids of a
    process are distinct, and the focused process of an application is one of its
    processes, so no pointer to it dangles. *)
Theorem reachable_records {J K} `{!Json J} `{!JsonLaws J} `{!Platform J K} `{!AppExecFwk}
    `{!PlatformLaws J K} (k : K) (events : list (Event (J := J))) w sup uid app :
  Forall event_ok events -> plugin_run k events = Some (tt, w) -> supervisor_ w = Some sup ->
  uidsMap_ sup !! uid = Some app ->
  is_s32 uid /\ app_uid_ app = to_u32 uid /\
  (forall pid, focusedProcess_ app = Some pid -> is_Some (pidsMap_ app !! pid)) /\
  (forall pid pr, pidsMap_ app !! pid = Some pr ->
     pr_uid_ pr = to_u32 uid /\ pr_pid_ pr = pid /\
     NoDup (windowId_ <$> windows_ pr) /\ NoDup (recordId_ <$> abilities_ pr)).
Proof.
  intros He E Es Ha. destruct (live_reached _ _ _ He E) as [[Hs _ _ _ _ _] _].
  destruct (Hs _ Es) as [Hu Happ]. destruct (Happ _ _ Ha) as [H1 H2 H3].
  split_and!; [by eapply Hu|done..|]. intros pid pr [? ? ? ? _ _ _]%H2. done.
Qed.

Lemma reachable_records_witness :
  exists w sup app, demo_run = Some (tt, w) /\ supervisor_ w = Some sup /\
    uidsMap_ sup !! 20010001 = Some app /\
    (forall pid, focusedProcess_ app = Some pid -> is_Some (pidsMap_ app !! pid)).
Proof.
  eexists _, _, _. split_and!; [vm_compute; reflexivity..|].
  eapply (reachable_records demo_process_group demo_events _ _ 20010001 _ demo_events_ok);
    vm_compute; reflexivity.
Defined.

(** C6: No group is recorded before the API was asked for it. In every state that the plugin
    reaches on payloads and a platform as in [plugin_runs_safely], the group that a process
    record holds is the initial one, or the group API was called for this very process with
    this group and answered 0. That answer is all the plugin has: the API gives 0 whatever the
    writes to the files of the group answer (cgroup_map.cpp:41), so the kernel may not have
    moved the process. *)
Theorem reachable_group_was_set {J K} `{!Json J} `{!JsonLaws J} `{!Platform J K} `{!AppExecFwk}
    `{!PlatformLaws J K} (k : K) (events : list (Event (J := J))) w sup uid pid pr :
  Forall event_ok events -> plugin_run k events = Some (tt, w) -> supervisor_ w = Some sup ->
  find_proc uid pid sup = Some pr ->
  curSchedGroup_ pr = SP_UPPER_LIMIT \/ CallSetGroup pid (to_s32 (curSchedGroup_ pr)) 0 ∈ calls w.
Proof. intros He E Es Hp. by destruct (reached_proc _ _ _ _ _ _ _ He E Es Hp). Qed.

Lemma reachable_group_was_set_witness :
  exists w sup pr, demo_run = Some (tt, w) /\ supervisor_ w = Some sup /\
    find_proc 20010001 101 sup = Some pr /\
    (curSchedGroup_ pr = SP_UPPER_LIMIT \/ CallSetGroup 101 (to_s32 (curSchedGroup_ pr)) 0 ∈ calls w).
Proof.
  eexists _, _, _. split_and!; [vm_compute; reflexivity..|].
  eapply (reachable_group_was_set demo_process_group demo_events _ _ 20010001 101 _ demo_events_ok);
    vm_compute; reflexivity.
Defined.

(** The continuous task flags of a process are always the union of what its
    abilities registered: bit [i] of [continuousTaskFlag_] is set exactly when
    some ability's list of types holds [i], and no bit from 32 on is set. *)
Theorem reachable_flags {J K} `{!Json J} `{!JsonLaws J} `{!Platform J K} `{!AppExecFwk}
    `{!PlatformLaws J K} (k : K) (events : list (Event (J := J))) w sup uid pid pr i :
  Forall event_ok events -> plugin_run k events = Some (tt, w) -> supervisor_ w = Some sup ->
  find_proc uid pid sup = Some pr -> 0 <= i ->
  (Z.testbit (continuousTaskFlag_ pr) i = true <->
   exists abilityId typeIds,
     abilityIdAndContinuousTaskFlagMap_ pr !! abilityId = Some typeIds /\ i ∈ typeIds) /\
  (32 <= i -> Z.testbit (continuousTaskFlag_ pr) i = false).
Proof.
  intros He E Es Hp Hi. destruct (reached_proc _ _ _ _ _ _ _ He E Es Hp) as [_ _ _ _ Hf _ _].
  pose proof (continuous_flags_testbit _ _ i Hf Hi) as Ht. split; [done|].
  intros H32. apply not_true_is_false. intros (a & l & Hm & Hin)%Ht.
  pose proof (continuous_flags_below _ _ _ _ _ Hf Hm Hin). lia.
Qed.

Lemma reachable_flags_witness :
  exists w sup pr, demo_run = Some (tt, w) /\ supervisor_ w = Some sup /\
    find_proc 20010001 100 sup = Some pr /\ continuousTaskFlag_ pr = 10 /\
    (Z.testbit (continuousTaskFlag_ pr) 3 = true <->
     exists abilityId typeIds,
       abilityIdAndContinuousTaskFlagMap_ pr !! abilityId = Some typeIds /\ 3 ∈ typeIds).
Proof.
  eexists _, _, _. split_and!; [vm_compute; reflexivity..|].
  eapply (reachable_flags demo_process_group demo_events _ _ 20010001 100 _ 3 demo_events_ok);
    [vm_compute; reflexivity..|lia].
Defined.

(** Delayed tasks never pile up: a pending one is the check of one web
    sub-window process, it is registered under the name made of that process, and
    two pending tasks have different names. *)
Theorem reachable_timers {J K} `{!Json J} `{!JsonLaws J} `{!Platform J K} `{!AppExecFwk}
    `{!PlatformLaws J K} (k : K) (events : list (Event (J := J))) w handle dt :
  Forall event_ok events -> plugin_run k events = Some (tt, w) ->
  delayed_ w !! handle = Some dt ->
  delayTaskMap_ w !! dt_name dt = Some handle /\
  (exists resType uid pid, dt_task dt = TaskCheckWebSubWin resType uid pid /\
                           dt_name dt = web_subwin_task_name pid uid) /\
  (forall handle' dt', delayed_ w !! handle' = Some dt' -> dt_name dt' = dt_name dt ->
                       handle' = handle).
Proof.
  intros He E Hd. destruct (live_reached _ _ _ He E) as [[_ _ _ Ht _ _] _].
  destruct (Ht _ _ Hd) as [H1 H2]. split_and!; [done..|].
  intros handle' dt' Hd' Hn. destruct (Ht _ _ Hd') as [H1' _]. congruence.
Qed.

Lemma reachable_timers_witness :
  exists w dt, demo_run = Some (tt, w) /\ delayed_ w !! 1 = Some dt /\
    delayTaskMap_ w !! dt_name dt = Some 1.
Proof.
  eexists _, _. split_and!; [vm_compute; reflexivity..|].
  eapply (reachable_timers demo_process_group demo_events _ 1 _ demo_events_ok);
    vm_compute; reflexivity.
Defined.
