(* ===== verification/CgroupAdjust.v ===== *)
(** * What the adjuster computes and applies

    The decision of [ComputeProcessGroup] as a table, the outcomes of
    [ApplyProcessGroup], and the attached processes that follow their host. *)
From S2P Require Import Prelude Json ResType Supervisor ProcessGroup World CgroupAdjuster CgroupEventHandler SchedController SupervisorFacts CgroupInvariant CgroupSafety Demo CgroupReach.

(** ** The decision *)

Section table.
Context `{AppExecFwk}.

(** The process is the focused one and the adjustment is not for its creation. *)
Definition decided_top (app : Application) (pr : ProcessRecord) (source : AdjustSource) : Prop :=
  source <> ADJS_PROCESS_CREATE /\ focusedProcess_ app = Some (pr_pid_ pr).

Definition decided_foreground (app : Application) (pr : ProcessRecord) (source : AdjustSource) : Prop :=
  source <> ADJS_PROCESS_CREATE /\ focusedProcess_ app <> Some (pr_pid_ pr) /\ abilities_ pr <> [] /\
  ((exists win, win ∈ windows_ pr /\ isVisible_ win = true) \/
   (HasServiceExtension pr = false /\ processState_ pr = APP_STATE_FOREGROUND)).

Definition decided_background (app : Application) (pr : ProcessRecord) (source : AdjustSource) : Prop :=
  source <> ADJS_PROCESS_CREATE /\ focusedProcess_ app <> Some (pr_pid_ pr) /\
  processState_ pr = APP_STATE_BACKGROUND /\
  (abilities_ pr = [] \/ forall win, win ∈ windows_ pr -> isVisible_ win = false).
End table.

Lemma decided_exclusive `{AppExecFwk} app pr source :
  APP_STATE_FOREGROUND <> APP_STATE_BACKGROUND ->
  ~ (decided_top app pr source /\ decided_foreground app pr source) /\
  ~ (decided_top app pr source /\ decided_background app pr source) /\
  ~ (decided_foreground app pr source /\ decided_background app pr source).
Proof.
  intros Hne. unfold decided_top, decided_foreground, decided_background. split_and!; [tauto|tauto|].
  intros [(_ & _ & Ha & Hv) (_ & _ & Hs & Hb)].
  destruct Hb as [?|Hb]; [done|]. destruct Hv as [(win & Hin & Hv)|[_ ?]]; [|congruence].
  by rewrite (Hb win Hin) in Hv.
Qed.

Lemma IsVisible_spec pr :
  if IsVisible pr then exists win, win ∈ windows_ pr /\ isVisible_ win = true
  else forall win, win ∈ windows_ pr -> isVisible_ win = false.
Proof.
  unfold IsVisible. destruct (existsb _ _) eqn:E.
  - apply existsb_exists in E as (win & ?%list_elem_of_In & ?). eauto.
  - intros win Hw. apply not_true_is_false. intros Hv. apply not_true_iff_false in E. apply E.
    apply existsb_exists. exists win. split; [by apply list_elem_of_In | done].
Qed.

Lemma compute_group_cases `{AppExecFwk} app pr source :
  processType_ pr <> RENDER ->
  let g := compute_group app pr source in
  (g = SP_TOP_APP /\ decided_top app pr source) \/
  (g = SP_FOREGROUND /\ decided_foreground app pr source) \/
  (g = SP_BACKGROUND /\ decided_background app pr source) \/
  (g = SP_DEFAULT /\ ~ decided_top app pr source /\ ~ decided_foreground app pr source /\
   ~ decided_background app pr source).
Proof.
  intros Ht g. subst g. unfold compute_group, decided_top, decided_foreground, decided_background.
  rewrite (proj2 (Z.eqb_neq _ _) Ht).
  case_bool_decide as Hc; [tauto|].
  assert (Hfoc : match focusedProcess_ app with Some pid => pid =? pr_pid_ pr | None => false end
                 = bool_decide (focusedProcess_ app = Some (pr_pid_ pr))).
  { destruct (focusedProcess_ app) as [p|]; [|done]. destruct (Z.eqb_spec p (pr_pid_ pr));
      symmetry; [apply bool_decide_eq_true | apply bool_decide_eq_false]; congruence. }
  rewrite Hfoc. case_bool_decide as Hf; [tauto|]. clear Hfoc.
  pose proof (IsVisible_spec pr) as Hvis.
  assert (Hab : if (length (abilities_ pr) =? 0)%nat then abilities_ pr = [] else abilities_ pr <> []).
  { by destruct (abilities_ pr). }
  destruct (length (abilities_ pr) =? 0)%nat, (IsVisible pr), (HasServiceExtension pr),
    (Z.eqb_spec (processState_ pr) APP_STATE_BACKGROUND),
    (Z.eqb_spec (processState_ pr) APP_STATE_FOREGROUND); try tauto.
  all: right; right; right; split_and!; [done|tauto| |].
  all: try (intros (_ & _ & Ha & Hv); first [done | destruct Hv as [(win & Hin & Hv)|[? ?]]; [|done]; by rewrite (Hvis _ Hin) in Hv]).
  all: intros (_ & _ & ? & [?|Hv]); try done; destruct Hvis as (win & Hin & Hw); by rewrite (Hv _ Hin) in Hw.
Qed.

(** The group decided for a process that is not a render process is one of
    four, and each has its exact condition: top-app when the process is the
    focused one; foreground when it is not, has abilities and either shows a
    window or is a foreground process without service extension; background when
    it is in the background and shows nothing; default in every other case, and
    always at its creation.  A render process gets the group its host has. *)
Theorem compute_group_spec `{AppExecFwk} app pr source :
  APP_STATE_FOREGROUND <> APP_STATE_BACKGROUND ->
  let g := compute_group app pr source in
  (processType_ pr = RENDER ->
     g = match pidsMap_ app !! hostPid_ pr with Some host => curSchedGroup_ host | None => SP_DEFAULT end) /\
  (processType_ pr <> RENDER ->
     (g = SP_TOP_APP <-> decided_top app pr source) /\
     (g = SP_FOREGROUND <-> decided_foreground app pr source) /\
     (g = SP_BACKGROUND <-> decided_background app pr source) /\
     (g = SP_DEFAULT <-> ~ decided_top app pr source /\ ~ decided_foreground app pr source /\
                         ~ decided_background app pr source)).
Proof.
  intros Hne g. split; [intros Ht; unfold g, compute_group; by rewrite Ht, Z.eqb_refl|].
  intros Ht. pose proof (decided_exclusive app pr source Hne) as (? & ? & ?).
  pose proof (compute_group_cases app pr source Ht) as Hcases. cbv zeta in Hcases. fold g in Hcases.
  unfold SP_TOP_APP, SP_FOREGROUND, SP_BACKGROUND, SP_DEFAULT in *.
  destruct Hcases as [[E ?]|[[E ?]|[[E ?]|(E & ? & ? & ?)]]]; rewrite E;
    split_and!; split; intros; first [lia | tauto].
Qed.

Lemma compute_group_spec_witness :
  let pr := (new_ProcessRecord 20010001 100) <| processState_ := APP_STATE_BACKGROUND |> in
  let app := (new_Application 20010001) <| focusedProcess_ := Some 7 |> in
  APP_STATE_FOREGROUND <> APP_STATE_BACKGROUND /\ processType_ pr <> RENDER /\
  compute_group app pr ADJS_PROCESS_STATE = SP_BACKGROUND /\
  (compute_group app pr ADJS_PROCESS_STATE = SP_BACKGROUND <->
   decided_background app pr ADJS_PROCESS_STATE).
Proof.
  intros pr app. assert (Hne : APP_STATE_FOREGROUND <> APP_STATE_BACKGROUND) by done.
  assert (Ht : processType_ pr <> RENDER) by done.
  split_and!; [exact Hne|exact Ht|reflexivity|].
  exact (proj1 (proj2 (proj2 (proj2 (compute_group_spec app pr ADJS_PROCESS_STATE Hne) Ht)))).
Defined.

(** ** Applying a group *)

Section apply.
Context {J K : Type} `{!Json J} `{!JsonLaws J} `{!Platform J K} `{!AppExecFwk}.
Context `{!PlatformLaws J K}.
#[local] Abbreviation M := (ST (World J K)).
Implicit Types (w : World J K) (sup : Supervisor).

(** From [w0] nothing happened but calls of this kind, and the outer state. *)
Definition only_calls (P : Call J -> Prop) w0 w : Prop :=
  supervisor_ w = supervisor_ w0 /\ timers w = timers w0 /\
  sched_supervisor_ w = sched_supervisor_ w0 /\
  exists cs, calls w = calls w0 ++ cs /\ Forall P cs.

Lemma only_calls_refl P w : only_calls P w w.
Proof. split_and!; try done. exists []. by rewrite app_nil_r. Qed.

Lemma only_calls_trans P w0 w1 w2 :
  only_calls P w0 w1 -> only_calls P w1 w2 -> only_calls P w0 w2.
Proof.
  intros (E1 & E2 & E3 & cs & E4 & H1) (F1 & F2 & F3 & cs' & F4 & H2).
  split_and!; [congruence..|]. exists (cs ++ cs'). rewrite F4, E4, app_assoc. split; [done|].
  by apply Forall_app.
Qed.

Lemma only_calls_outer P w0 w k : only_calls P w0 w -> only_calls P w0 (w <| outer := k |>).
Proof. done. Qed.

Lemma only_calls_call P w0 c : P c -> keeps (only_calls P w0) (call c : M unit).
Proof.
  intros Hc. apply keeps_modify. intros w (E1 & E2 & E3 & cs & E4 & H1). split_and!; [done..|].
  exists (cs ++ [c]). simpl. rewrite E4, app_assoc. split; [done|]. apply Forall_app.
  split; [done | by apply Forall_singleton].
Qed.

Lemma only_calls_set_group P w0 pid policy :
  (forall ret, P (CallSetGroup pid policy ret)) ->
  keeps (only_calls P w0) (set_group pid policy : M Z).
Proof.
  intros HP. unfold set_group. apply keeps_bind.
  - intros w Hw. unfold lift_outer. by destruct (SetThreadGroupSchedPolicy _ _ _) as [[??]|].
  - intros ret. apply keeps_bind; [by apply only_calls_call|]. intros _. apply keeps_ret.
Qed.

Lemma only_calls_get_proc P w0 sup uid pid pr :
  supervisor_ w0 = Some sup -> find_proc uid pid sup = Some pr ->
  spec True (only_calls P w0) (get_proc uid pid : M ProcessRecord)
    (fun pr' w => only_calls P w0 w /\ pr' = pr).
Proof.
  intros E (app & Ha & Hp)%find_proc_Some w Hw. pose proof Hw as (Es & _).
  unfold get_proc, get_app, get_sup, st_some, mbind, ST_bind, st_get.
  rewrite Es, E. simpl. rewrite Ha. simpl. by rewrite Hp.
Qed.

(** What a process that changed its group makes the plugin call. *)
Definition group_change_call (pid g : Z) (c : Call J) : Prop :=
  match c with
  | CallReport resType value _ => resType = RES_TYPE_CGROUP_ADJUSTER /\ value = 0
  | CallSetGroup forkPid policy _ => forkPid <> 0 /\ forkPid <> pid /\ policy = g
  | _ => False
  end.

Lemma keeps_get_app_any (P : World J K -> Prop) uid : keeps P (get_app uid : M Application).
Proof.
  unfold get_app, get_sup. apply keeps_bind; [apply keeps_bind; [apply keeps_get|]|];
    intros; apply keeps_some.
Qed.

Lemma only_calls_AdjustFork w0 sup uid pid pr :
  supervisor_ w0 = Some sup -> find_proc uid pid sup = Some pr -> pr_pid_ pr = pid ->
  keeps (only_calls (group_change_call pid (to_s32 (curSchedGroup_ pr))) w0)
    (AdjustForkProcessGroup uid pid : M unit).
Proof.
  intros E Hp Hpid. unfold AdjustForkProcessGroup.
  apply keeps_bind; [apply keeps_get_app_any|]. intros app.
  eapply spec_bind; [by eapply only_calls_get_proc|]. intros pr1. apply spec_pure. intros ->.
  apply keeps_bind.
  { unfold GetProcessFilePath. case_match; keeps_auto. }
  intros filePath. apply keeps_bind; [apply keeps_get|]. intros w.
  destruct (platform_read filePath (outer w)) as [rd|]; [|apply keeps_ret].
  apply keeps_bind; [apply keeps_some|]. intros content.
  apply keeps_iter. intros line. cbv zeta.
  destruct (Z.eqb_spec (atoi line) 0); [apply keeps_ret|].
  destruct (Z.eqb_spec (atoi line) (pr_pid_ pr)); [apply keeps_ret|]. cbn [negb].
  eapply spec_bind; [by eapply only_calls_get_proc|]. intros pr1. apply spec_pure. intros ->.
  apply keeps_bind; [|intros; apply keeps_ret]. apply only_calls_set_group. intros ret.
  simpl. split_and!; [lia|lia|done].
Qed.

Lemma only_calls_report w0 sup uid pid pr :
  supervisor_ w0 = Some sup -> find_proc uid pid sup = Some pr -> pr_pid_ pr = pid ->
  keeps (only_calls (group_change_call pid (to_s32 (curSchedGroup_ pr))) w0)
    (report_group_change uid pid : M unit).
Proof.
  intros E Hp Hpid. unfold report_group_change, ReportDataInProcess.
  apply keeps_bind; [apply keeps_get_app_any|]. intros app.
  eapply spec_bind; [by eapply only_calls_get_proc|]. intros pr1. apply spec_pure. intros ->.
  apply keeps_bind; [|intros _; by eapply only_calls_AdjustFork].
  case_match; [apply keeps_ret | by apply only_calls_call].
Qed.

Lemma run_set_group w pid policy :
  exists ret k, set_group pid policy w
    = Some (ret, w <| outer := k |> <| calls ::= fun c => c ++ [CallSetGroup pid policy ret] |>).
Proof.
  unfold set_group, lift_outer, call, mbind, ST_bind, st_modify.
  destruct (set_group_defined pid policy (outer w)) as [[ret k] E]. rewrite E. simpl. eauto.
Qed.

Lemma run_get_proc w sup uid pid pr :
  supervisor_ w = Some sup -> find_proc uid pid sup = Some pr -> get_proc uid pid w = Some (pr, w).
Proof.
  intros E (app & Ha & Hp)%find_proc_Some.
  unfold get_proc, get_app, get_sup, st_some, mbind, ST_bind, st_get.
  rewrite E. simpl. rewrite Ha. simpl. by rewrite Hp.
Qed.

Lemma run_get_sup w sup : supervisor_ w = Some sup -> get_sup w = Some (sup, w).
Proof. intros E. unfold get_sup, st_some, mbind, ST_bind, st_get. by rewrite E. Qed.

Lemma run_get_app w sup uid app :
  supervisor_ w = Some sup -> GetAppRecord uid sup = Some app -> get_app uid w = Some (app, w).
Proof.
  intros E Ha. unfold get_app, get_sup, st_some, mbind, ST_bind, st_get.
  rewrite E. simpl. by rewrite Ha.
Qed.

Lemma live_facts w sup uid pid pr :
  Live w -> supervisor_ w = Some sup -> find_proc uid pid sup = Some pr ->
  I (timers w) [FProc uid pid; FApp uid] w /\ wf_proc (group_was_set w) uid pid pr.
Proof.
  intros Hl E Hp. pose proof (live_I _ Hl) as Hw. pose proof Hp as (app & Ha & Hp')%find_proc_Some. split.
  - eapply I_add; [eapply I_add|..]; [done|done| |done|]; [by exists app | by exists pr].
  - destruct Hl as [[Hs _ _ _ _ _] _]. by eapply wf_procs, Hp'; eapply wf_apps, Ha; apply Hs.
Qed.

(** The outcomes of applying the group that was decided. *)
Definition applied w sup uid pid pr w' : Prop :=
  (curSchedGroup_ pr = setSchedGroup_ pr /\ w' = w) \/
  (curSchedGroup_ pr <> setSchedGroup_ pr /\ timers w' = timers w /\ exists ret cs,
     calls w' = calls w ++ CallSetGroup pid (to_s32 (setSchedGroup_ pr)) ret :: cs /\
     ((ret <> 0 /\ cs = [] /\ supervisor_ w' = Some sup) \/
      (ret = 0 /\ Forall (group_change_call pid (to_s32 (setSchedGroup_ pr))) cs /\
       supervisor_ w' = Some (alter_proc uid pid record_group sup)))).

Lemma run_ApplyProcessGroup w sup uid pid pr source :
  Live w -> supervisor_ w = Some sup -> find_proc uid pid sup = Some pr ->
  exists w', ApplyProcessGroup uid pid source w = Some (tt, w') /\ Live w' /\
    applied w sup uid pid pr w'.
Proof.
  intros Hl E Hp. destruct (live_facts _ _ _ _ _ Hl E Hp) as [Hw Hwf].
  pose proof (ok_ApplyProcessGroup (timers w) [FProc uid pid; FApp uid] uid pid source
    ltac:(solve_in) ltac:(solve_in) w Hw) as Hok.
  destruct (ApplyProcessGroup uid pid source w) as [[[] w']|] eqn:Er; [|done].
  exists w'. split_and!; [done|by eapply I_live|].
  unfold ApplyProcessGroup, mbind, ST_bind in Er. rewrite (run_get_proc _ _ _ _ _ E Hp) in Er.
  destruct (Z.eqb_spec (curSchedGroup_ pr) (setSchedGroup_ pr)) as [?|Hne];
    [left; split; [done | by injection Er]|].
  right. split; [done|]. rewrite (wf_pr_pid _ _ _ _ Hwf) in Er.
  destruct (run_set_group w pid (to_s32 (setSchedGroup_ pr))) as (ret & k & Eg).
  rewrite Eg in Er. set (w1 := _ <| calls ::= _ |>) in Er.
  destruct (Z.eqb_spec ret 0) as [->|Hret]; cbn [negb] in Er.
  - rewrite (run_upd_proc w1 sup uid pid pr record_group) in Er by done.
    set (w2 := w1 <| supervisor_ := _ |>) in Er.
    pose proof (find_proc_alter_proc uid pid record_group _ _ Hp) as Hp2.
    pose proof (only_calls_report w2 _ uid pid (record_group pr) eq_refl Hp2 (wf_pr_pid _ _ _ _ Hwf)
      w2 (only_calls_refl _ _)) as Hc.
    destruct (report_group_change uid pid w2) as [[[] w3]|]; [|done]. injection Er as <-.
    destruct Hc as (E1 & E2 & _ & cs & E3 & HF). split; [done|]. exists 0, cs.
    split; [rewrite E3; simpl; by rewrite <- app_assoc|]. right. done.
  - injection Er as <-. split; [done|]. exists ret, []. split; [done|]. left. done.
Qed.

(** ** Attached processes *)

Context (no_arbitration : reportArbitrationResultFunc_ (platform_utils (J := J) (K := K)) = None).

Lemma run_ReportArbitrationResult w uid pr source :
  ReportArbitrationResult uid pr source w = Some (tt, w).
Proof. unfold ReportArbitrationResult, call_ext. by rewrite no_arbitration. Qed.

(** The host of [uid] with this pid is in group [g]. *)
Definition host_in uid pid g w : Prop :=
  exists sup host, supervisor_ w = Some sup /\ find_proc uid pid sup = Some host /\
                   curSchedGroup_ host = g.

(** The process [iter] follows: [g] is decided for it, and it is in [g] unless
    the operating system refused. *)
Definition follows uid pid g w iter : Prop :=
  forall sup it, supervisor_ w = Some sup -> find_proc uid iter sup = Some it ->
    is_attached it = true -> hostPid_ it = pid -> iter <> pid ->
    setSchedGroup_ it = g /\
    (curSchedGroup_ it = g \/ exists ret, ret <> 0 /\ CallSetGroup iter (to_s32 g) ret ∈ calls w).

Definition known uid w iter : Prop :=
  exists sup it, supervisor_ w = Some sup /\ find_proc uid iter sup = Some it.

(** From [w] to [w'] nothing happened but calls, and changes of the groups of the
    processes of [uid] in [who]. *)
Definition sched_only uid (who : Z -> ProcessRecord -> Prop) w w' : Prop :=
  exists sup sup', supervisor_ w = Some sup /\ supervisor_ w' = Some sup' /\
    (exists cs, calls w' = calls w ++ cs) /\ timers w' = timers w /\
    groups_free sup' = groups_free sup /\
    forall u p pr, find_proc u p sup = Some pr -> ~ (u = uid /\ who p (group_free pr)) ->
      find_proc u p sup' = Some pr.

Lemma sched_only_refl uid who w : is_Some (supervisor_ w) -> sched_only uid who w w.
Proof.
  intros [sup E]. exists sup, sup. split_and!; try done. exists []. by rewrite app_nil_r.
Qed.

Lemma sched_only_trans uid who w1 w2 w3 :
  sched_only uid who w1 w2 -> sched_only uid who w2 w3 -> sched_only uid who w1 w3.
Proof.
  intros (s1 & s2 & E1 & E2 & [c1 C1] & T1 & G1 & P1) (s2' & s3 & E2' & E3 & [c2 C2] & T2 & G2 & P2).
  assert (s2' = s2) as -> by congruence. exists s1, s3. split_and!; try congruence.
  - exists (c1 ++ c2). by rewrite C2, C1, app_assoc.
  - intros u p pr Hp Hn. apply P2; [by apply P1 | done].
Qed.

Lemma sched_only_weaken uid (who who' : Z -> ProcessRecord -> Prop) w w' :
  (forall p pr, who p pr -> who' p pr) -> sched_only uid who w w' -> sched_only uid who' w w'.
Proof.
  intros Hw (s1 & s2 & ? & ? & ? & ? & ? & P1). exists s1, s2. split_and!; try done.
  intros u p pr Hp Hn. apply P1; [done|]. intros [-> ?]. apply Hn. auto.
Qed.

Lemma sched_only_alter uid (who : Z -> ProcessRecord -> Prop) w w' sup p f pr :
  supervisor_ w = Some sup -> find_proc uid p sup = Some pr -> who p (group_free pr) ->
  (forall pr, group_free (f pr) = group_free pr) ->
  supervisor_ w' = Some (alter_proc uid p f sup) -> (exists cs, calls w' = calls w ++ cs) ->
  timers w' = timers w -> sched_only uid who w w'.
Proof.
  intros E Hp Hwho Hf E' Hc Ht. exists sup, (alter_proc uid p f sup). split_and!; try done.
  - by apply groups_free_alter.
  - intros u p' pr' Hp' Hn. rewrite find_proc_alter. case_decide as Hd; [|done].
    injection Hd as -> ->. exfalso. apply Hn. split; [done|]. congruence.
Qed.

(** What one turn of the loop guarantees. *)
Definition turn uid pid g w w' : Prop :=
  Live w' /\ host_in uid pid g w' /\ (forall j, follows uid pid g w j -> follows uid pid g w' j) /\
  (forall j, known uid w j <-> known uid w' j) /\
  sched_only uid (fun _ pr => is_attached pr = true /\ hostPid_ pr = pid) w w'.

Lemma turn_refl uid pid g w : Live w -> host_in uid pid g w -> turn uid pid g w w.
Proof. intros Hl Hh. split_and!; try done. apply sched_only_refl. by destruct Hl. Qed.

Lemma turn_alter uid pid g w sup it iter w' :
  Live w' -> host_in uid pid g w -> supervisor_ w = Some sup -> find_proc uid iter sup = Some it ->
  (exists f, supervisor_ w' = Some (alter_proc uid iter f sup) /\
             (iter = pid -> curSchedGroup_ (f it) = curSchedGroup_ it) /\
             (forall pr, group_free (f pr) = group_free pr)) ->
  (exists cs, calls w' = calls w ++ cs) -> timers w' = timers w ->
  is_attached it = true -> hostPid_ it = pid -> follows uid pid g w' iter -> turn uid pid g w w'.
Proof.
  intros Hl (sup0 & host & E0 & Hh & Hg) E Hit (f & Ef & Hcur & Hgf) [cs Ec] Ht Hatt Hhp Hf.
  assert (sup0 = sup) as -> by congruence.
  split_and!; [done| | | |by eapply sched_only_alter; eauto].
  - exists (alter_proc uid iter f sup). rewrite find_proc_alter.
    case_decide as Hd; [|by exists host]. assert (iter = pid) as -> by congruence.
    exists (f host). rewrite Hh. split_and!; [done..|]. assert (it = host) as <- by congruence.
    by rewrite Hcur.
  - intros j Hj. destruct (decide (j = iter)) as [->|Hji]; [done|].
    intros sup' it' Es Hp Ha Hh' Hn. rewrite Ef in Es. injection Es as <-.
    rewrite find_proc_alter_ne in Hp by congruence.
    destruct (Hj _ _ E Hp Ha Hh' Hn) as [H1 H2]. split; [done|].
    destruct H2 as [H2|(ret & Hr & H2)]; [by left|right]. exists ret. split; [done|].
    rewrite Ec. apply elem_of_app. by left.
  - assert (Hd : forall j, is_Some (find_proc uid j (alter_proc uid iter f sup)) <->
                           is_Some (find_proc uid j sup)).
    { intros j. rewrite find_proc_alter. case_decide; [by rewrite fmap_is_Some | done]. }
    intros j. split.
    + intros (s & x & Es & Hx). assert (s = sup) as -> by congruence.
      destruct (proj2 (Hd j)) as [y Hy]; [by exists x|]. exists (alter_proc uid iter f sup), y. done.
    + intros (s & x & Es & Hx). assert (s = alter_proc uid iter f sup) as -> by congruence.
      destruct (proj1 (Hd j)) as [y Hy]; [by exists x|]. exists sup, y. done.
Qed.

Lemma run_follow_host w uid pid g source iter :
  Live w -> host_in uid pid g w -> known uid w iter ->
  exists w', follow_host uid pid source iter w = Some (tt, w') /\ turn uid pid g w w' /\
    follows uid pid g w' iter.
Proof.
  intros Hl Hhost (sup & it & E & Hit).
  pose proof Hhost as (sup0 & host & E0 & Hh & Hg). assert (sup0 = sup) as -> by congruence.
  destruct (live_facts _ _ _ _ _ Hl E Hh) as [_ Hwh].
  pose proof Hh as (app & Ha & Hah)%find_proc_Some.
  assert (Hskip : is_attached it = false \/ hostPid_ it <> pid -> follows uid pid g w iter).
  { intros Hs sup' it' ? ? ? ? ?. simplify_eq. destruct Hs; congruence. }
  unfold follow_host, mbind at 1 2 3, ST_bind.
  rewrite (run_get_app _ _ _ _ E Ha), (run_get_proc _ _ _ _ _ E Hh), (run_get_proc _ _ _ _ _ E Hit).
  destruct (is_attached it) eqn:Hatt; cbn [negb]; [|exists w; by auto using turn_refl].
  destruct (Z.eq_dec (hostPid_ it) pid) as [Ehp|Ehp]; [|].
  2: { destruct (GetProcessRecord (hostPid_ it) app); [|exists w; by auto using turn_refl].
       rewrite (wf_pr_pid _ _ _ _ Hwh), (proj2 (Z.eqb_neq _ _) Ehp). cbn [negb].
       exists w. by auto using turn_refl. }
  rewrite Ehp, Hah, (wf_pr_pid _ _ _ _ Hwh), Z.eqb_refl. cbn [negb].
  unfold mbind, ST_bind.
  rewrite (run_upd_proc w sup uid iter it) by done. rewrite Hg.
  set (f := fun pr => pr <| setSchedGroup_ := g |>).
  set (w1 := w <| supervisor_ := _ |>).
  assert (Hl1 : Live w1).
  { destruct (live_facts _ _ _ _ _ Hl E Hit) as [Hw _].
    pose proof (ok_upd_proc (timers w) [FProc uid iter; FApp uid] uid iter f ltac:(solve_in)
      ltac:(unfold f; solve_wf) w Hw) as Ho. rewrite (run_upd_proc w sup uid iter it) in Ho by done.
    by eapply I_live. }
  assert (Hit1 : find_proc uid iter (alter_proc uid iter f sup) = Some (f it)) by
    by apply find_proc_alter_proc.
  replace (st_when _ (ReportArbitrationResult uid (uid, iter) ADJS_SELF_RENDER_THREAD) w1)
    with (Some (tt, w1)) by (unfold st_when; case_match; by rewrite ?run_ReportArbitrationResult).
  destruct (run_ApplyProcessGroup w1 _ uid iter (f it) source Hl1 eq_refl Hit1) as (w2 & -> & Hl2 & Hap).
  exists w2. split; [done|].
  assert (Hcg : iter = pid -> curSchedGroup_ it = g) by (intros ->; congruence).
  assert (Hturn : forall h cs, supervisor_ w2 = Some (alter_proc uid iter h sup) ->
    calls w2 = calls w ++ cs -> timers w2 = timers w ->
    (forall pr, group_free (h pr) = group_free pr) ->
    (iter = pid -> curSchedGroup_ (h it) = curSchedGroup_ it) ->
    setSchedGroup_ (h it) = g ->
    (curSchedGroup_ (h it) = g \/ exists ret, ret <> 0 /\ CallSetGroup iter (to_s32 g) ret ∈ calls w2) ->
    turn uid pid g w w2 /\ follows uid pid g w2 iter).
  { intros h cs Es Ec Ht Hgf Hcur Hset Hgot. assert (Hf : follows uid pid g w2 iter).
    { intros sup' it' Es' Hp' _ _ _. rewrite Es in Es'. injection Es' as <-.
      rewrite (find_proc_alter_proc _ _ h _ _ Hit) in Hp'. injection Hp' as <-. by split. }
    split; [|done]. eapply (turn_alter _ _ _ _ sup it iter); [done..| | | | | |]; [by exists h | by exists cs|done..]. }
  destruct Hap as [[Hcur ->]|(Hcur & Ht & ret & cs & Ec & Hcase)].
  - eapply (Hturn f []); [done|by rewrite app_nil_r|done|done|done|done|by left].
  - simpl in Hcur. destruct Hcase as [(Hret & -> & Es2)|(-> & _ & Es2)].
    + eapply (Hturn f); [done..|]. right. exists ret. split; [done|].
      rewrite Ec. apply elem_of_app. right. apply list_elem_of_here.
    + rewrite alter_proc_compose in Es2.
      eapply (Hturn (record_group ∘ f)); [done|done|done|done| |done|by left].
      intros Hi. simpl. by rewrite Hcg.
Qed.

Lemma run_follow_hosts uid pid g source l w :
  Live w -> host_in uid pid g w -> Forall (known uid w) l ->
  exists w', st_iter (follow_host uid pid source) l w = Some (tt, w') /\ turn uid pid g w w' /\
    Forall (follows uid pid g w') l.
Proof.
  revert w. induction l as [|iter l IH]; intros w Hl Hh Hk; simpl.
  - exists w. split_and!; [done|by apply turn_refl|by apply List.Forall_nil].
  - apply Forall_cons in Hk as [Hk Hks]. unfold mbind, ST_bind.
    destruct (run_follow_host w uid pid g source iter Hl Hh Hk) as (w1 & -> & (Hl1 & Hh1 & Hf1 & Hk1 & Hs1) & Hi).
    destruct (IH w1 Hl1 Hh1) as (w2 & -> & (Hl2 & Hh2 & Hf2 & Hk2 & Hs2) & Hfl).
    { eapply Forall_impl; [done|]. intros j. apply Hk1. }
    exists w2. split_and!; [done| |].
    + split_and!; auto; [intros j; by rewrite Hk1|]. by eapply sched_only_trans.
    + apply Forall_cons. split; [by apply Hf2 | done].
Qed.

Lemma run_ComputeProcessGroup w sup app uid pid pr source :
  Live w -> supervisor_ w = Some sup -> GetAppRecord uid sup = Some app ->
  GetProcessRecord pid app = Some pr ->
  let f pr' := pr' <| setSchedGroup_ := compute_group app pr source |> in
  let w' := w <| supervisor_ := Some (alter_proc uid pid f sup) |> in
  ComputeProcessGroup uid pid source w = Some (tt, w') /\ Live w'.
Proof.
  intros Hl E Ha Hp f w'. assert (Hpr : find_proc uid pid sup = Some pr) by (apply find_proc_Some; eauto).
  assert (Er : ComputeProcessGroup uid pid source w = Some (tt, w')).
  { unfold ComputeProcessGroup, mbind, ST_bind.
    rewrite (run_get_app _ _ _ _ E Ha), (run_get_proc _ _ _ _ _ E Hpr). by rewrite (run_upd_proc w sup uid pid pr). }
  split; [done|]. destruct (live_facts _ _ _ _ _ Hl E Hpr) as [Hw _].
  pose proof (ok_ComputeProcessGroup (timers w) [FProc uid pid; FApp uid] uid pid source
    ltac:(solve_in) ltac:(solve_in) w Hw) as Ho. rewrite Er in Ho. by eapply I_live.
Qed.

(** The group a process got: the one decided, unless the system refused it. *)
Definition got_group w iter g it : Prop :=
  setSchedGroup_ it = g /\
  (curSchedGroup_ it = g \/ exists ret, ret <> 0 /\ CallSetGroup iter (to_s32 g) ret ∈ calls w).

Lemma applied_got w sup uid pid pr w' :
  supervisor_ w = Some sup -> find_proc uid pid sup = Some pr -> applied w sup uid pid pr w' ->
  exists f, supervisor_ w' = Some (alter_proc uid pid f sup) /\
    got_group w' pid (setSchedGroup_ pr) (f pr) /\ (forall pr, group_free (f pr) = group_free pr) /\
    (exists cs, calls w' = calls w ++ cs) /\ timers w' = timers w.
Proof.
  intros E Hp [[Hcur ->]|(Hcur & Ht & ret & cs & Ec & Hcase)].
  - exists id. rewrite alter_proc_id. split_and!; try done; [by split; [|left]|].
    exists []. by rewrite app_nil_r.
  - destruct Hcase as [(Hret & -> & Es)|(-> & _ & Es)].
    + exists id. rewrite alter_proc_id. split_and!; try done; [|by eexists].
      split; [done|]. right. exists ret. split; [done|]. rewrite Ec. apply elem_of_app. right. apply list_elem_of_here.
    + exists record_group. split_and!; try done; [by split; [|left]|by eexists].
Qed.

Lemma known_proc uid w sup j :
  supervisor_ w = Some sup -> known uid w j <-> is_Some (find_proc uid j sup).
Proof.
  intros E. split.
  - intros (s & x & Es & Hx). assert (s = sup) as -> by congruence. by exists x.
  - intros [x Hx]. by exists sup, x.
Qed.

Lemma run_AdjustProcessGroup w sup app uid pid pr source :
  Live w -> supervisor_ w = Some sup -> GetAppRecord uid sup = Some app ->
  GetProcessRecord pid app = Some pr ->
  exists w1 sup1 host w', AdjustProcessGroup uid pid source w = Some (tt, w') /\
    Live w1 /\ Live w' /\
    supervisor_ w1 = Some sup1 /\ find_proc uid pid sup1 = Some host /\
    got_group w1 pid (compute_group app pr source) host /\
    sched_only uid (fun p pr => p = pid \/ (is_attached pr = true /\ hostPid_ pr = pid)) w w1 /\
    sched_only uid (fun p pr => p = pid \/ (is_attached pr = true /\ hostPid_ pr = pid)) w w' /\
    (if IsHostProcess pid app
     then turn uid pid (curSchedGroup_ host) w1 w' /\
          forall iter, known uid w1 iter -> follows uid pid (curSchedGroup_ host) w' iter
     else w' = w1).
Proof.
  intros Hl E Ha Hp. assert (Hpr : find_proc uid pid sup = Some pr) by (apply find_proc_Some; eauto).
  destruct (run_ComputeProcessGroup w sup app uid pid pr source Hl E Ha Hp) as [Er0 Hl0].
  revert Er0 Hl0. set (f := fun pr' : ProcessRecord => _). set (w0 := w <| supervisor_ := _ |>).
  intros Er0 Hl0. unfold AdjustProcessGroup, mbind, ST_bind. rewrite Er0, run_ReportArbitrationResult.
  pose proof (find_proc_alter_proc uid pid f sup pr Hpr) as Hpr0.
  destruct (run_ApplyProcessGroup w0 _ uid pid (f pr) source Hl0 eq_refl Hpr0) as (w1 & -> & Hl1 & Hap).
  destruct (applied_got w0 _ uid pid (f pr) w1 eq_refl Hpr0 Hap) as (h & Es1 & Hgot & Hgf & Hcs & Htm).
  rewrite alter_proc_compose in Es1.
  pose proof (find_proc_alter_proc uid pid (h ∘ f) sup pr Hpr) as Hp1.
  pose proof Hp1 as (app1 & Ha1 & Hap1)%find_proc_Some.
  destruct (live_facts _ _ _ _ _ Hl1 Es1 Hp1) as [_ Hwf1].
  rewrite (run_get_app _ _ _ _ Es1 Ha1), (run_get_proc _ _ _ _ _ Es1 Hp1), (wf_pr_pid _ _ _ _ Hwf1).
  assert (IsHostProcess pid app1 = IsHostProcess pid app) as ->.
  { unfold alter_proc in Ha1. rewrite GetAppRecord_alter_app, decide_True, Ha in Ha1 by done.
    by injection Ha1 as <-. }
  assert (Hso : sched_only uid (fun p pr => p = pid \/ (is_attached pr = true /\ hostPid_ pr = pid)) w w1).
  { eapply (sched_only_alter _ _ _ _ sup pid (h ∘ f)); try done; [by left|]. intros pr'. simpl. by rewrite Hgf. }
  exists w1, (alter_proc uid pid (h ∘ f) sup), (h (f pr)).
  destruct (IsHostProcess pid app); cbn [negb].
  - destruct (run_follow_hosts uid pid (curSchedGroup_ (h (f pr))) source (keys_in_order (pidsMap_ app1)) w1)
      as (w2 & -> & Ht & Hf); [done|by eexists _, _| |].
    { apply Forall_forall. intros j [x Hx]%elem_of_keys_in_order. apply (known_proc _ _ _ _ Es1).
      exists x. apply find_proc_Some. eauto. }
    exists w2. split_and!; try done; [by apply Ht| |].
    { eapply sched_only_trans; [done|]. destruct Ht as (_ & _ & _ & _ & Hs).
      eapply sched_only_weaken, Hs. by right. }
    intros iter Hk%(known_proc _ _ _ _ Es1).
    destruct Hk as [x (a & Hx1 & Hx2)%find_proc_Some].
    assert (a = app1) as -> by congruence. rewrite Forall_forall in Hf. apply Hf.
    apply elem_of_keys_in_order. by exists x.
  - exists w1. by split_and!.
Qed.
End apply.

(** A group is applied faithfully.  When the decided group is the current
    one nothing happens at all.  Otherwise the operating system is asked first,
    for this process and this group; if it refuses, nothing else is called and no
    record changes; if it accepts, exactly this record changes (the old group
    becomes the last one, the decided group the current one), and what follows is
    the report of the change and the moves of the forked processes, which are
    other processes and go to the same group. *)
Theorem ApplyProcessGroup_outcomes {J K} `{!Json J} `{!JsonLaws J} `{!Platform J K}
    `{!AppExecFwk} `{!PlatformLaws J K} (w : World J K) sup uid pid pr source :
  Live w -> supervisor_ w = Some sup -> find_proc uid pid sup = Some pr ->
  exists w', ApplyProcessGroup uid pid source w = Some (tt, w') /\
   ((curSchedGroup_ pr = setSchedGroup_ pr /\ w' = w) \/
    (curSchedGroup_ pr <> setSchedGroup_ pr /\ timers w' = timers w /\ exists ret cs,
       calls w' = calls w ++ CallSetGroup pid (to_s32 (setSchedGroup_ pr)) ret :: cs /\
       ((ret <> 0 /\ cs = [] /\ supervisor_ w' = Some sup) \/
        (ret = 0 /\
         Forall (fun c => match c with
           | CallReport resType value _ => resType = RES_TYPE_CGROUP_ADJUSTER /\ value = 0
           | CallSetGroup forkPid policy _ =>
               forkPid <> 0 /\ forkPid <> pid /\ policy = to_s32 (setSchedGroup_ pr)
           | _ => False
           end) cs /\
         supervisor_ w' = Some (alter_proc uid pid (fun pr => pr
           <| lastSchedGroup_ := curSchedGroup_ pr |> <| curSchedGroup_ := setSchedGroup_ pr |>) sup))))).
Proof.
  intros Hl E Hp. destruct (run_ApplyProcessGroup w sup uid pid pr source Hl E Hp) as (w' & Er & _ & Ha).
  exists w'. split; [done|]. exact Ha.
Qed.

Lemma ApplyProcessGroup_outcomes_witness :
  exists w', ApplyProcessGroup 20010001 101 ADJS_PROCESS_STATE demo_state = Some (tt, w').
Proof.
  destruct (ApplyProcessGroup_outcomes demo_state demo_sup 20010001 101 (demo_proc 101)
    ADJS_PROCESS_STATE demo_live demo_sup_eq demo_find_render) as (w' & E & _).
  exists w'. exact E.
Defined.


