(* ===== verification/CgroupFocus.v ===== *)
(** * The focused window

    A focus event puts the process of the window into the top-app group: the
    adjustment of a whole application and the handler of the event. *)
From S2P Require Import Prelude Json ResType Supervisor ProcessGroup World CgroupAdjuster CgroupEventHandler SchedController SupervisorFacts CgroupInvariant CgroupSafety Demo CgroupReach CgroupAdjust.

Lemma groups_free_lookup sup sup' u :
  groups_free sup' = groups_free sup ->
  group_free_app <$> GetAppRecord u sup' = group_free_app <$> GetAppRecord u sup.
Proof.
  intros Hg. assert (Hm : uidsMap_ (groups_free sup') = uidsMap_ (groups_free sup)) by congruence.
  change (group_free_app <$> uidsMap_ sup' = group_free_app <$> uidsMap_ sup) in Hm.
  unfold GetAppRecord. rewrite <- !lookup_fmap. by rewrite Hm.
Qed.

(** The same process, but for its groups. *)
Lemma groups_free_find sup sup' u p pr :
  groups_free sup' = groups_free sup -> find_proc u p sup = Some pr ->
  exists pr', find_proc u p sup' = Some pr' /\ group_free pr' = group_free pr.
Proof.
  intros Hg (app & Ha & Hp)%find_proc_Some. pose proof (groups_free_lookup _ _ u Hg) as Hu.
  rewrite Ha in Hu. simpl in Hu. destruct (GetAppRecord u sup') as [app'|] eqn:Ea'; [|done].
  injection Hu as _ _ _ _ _ _ _ Hpids _. unfold GetProcessRecord in Hp.
  assert (Hl : group_free <$> pidsMap_ app' !! p = Some (group_free pr)).
  { rewrite <- lookup_fmap, Hpids, lookup_fmap. by rewrite Hp. }
  apply fmap_Some in Hl as (pr' & Hp' & ->). exists pr'. split; [|done]. apply find_proc_Some. eauto.
Qed.

Lemma groups_free_focus sup sup' u app :
  groups_free sup' = groups_free sup -> GetAppRecord u sup = Some app ->
  exists app', GetAppRecord u sup' = Some app' /\ focusedProcess_ app' = focusedProcess_ app.
Proof.
  intros Hg Ha. pose proof (groups_free_lookup _ _ u Hg) as Hu. rewrite Ha in Hu. simpl in Hu.
  destruct (GetAppRecord u sup') as [app'|]; [|done]. exists app'. split; [done|].
  by injection Hu as ? _.
Qed.

Section focus.
Context {J K : Type} `{!Json J} `{!JsonLaws J} `{!Platform J K} `{!AppExecFwk}.
Context `{!PlatformLaws J K}.
#[local] Abbreviation M := (ST (World J K)).
Implicit Types (w : World J K) (sup : Supervisor).
Context (no_arbitration : reportArbitrationResultFunc_ (platform_utils (J := J) (K := K)) = None).

(** [pid] is the focused process of [uid], and follows no host. *)
Definition focused_in uid pid w : Prop :=
  exists sup app pr, supervisor_ w = Some sup /\ GetAppRecord uid sup = Some app /\
    GetProcessRecord pid app = Some pr /\ focusedProcess_ app = Some pid /\ is_attached pr = false.

Definition is_top uid pid w : Prop :=
  exists sup pr, supervisor_ w = Some sup /\ find_proc uid pid sup = Some pr /\
    got_group w pid SP_TOP_APP pr.

Lemma focused_sched_only uid pid who w w' :
  sched_only uid who w w' -> focused_in uid pid w -> focused_in uid pid w'.
Proof.
  intros (s & s' & E & E' & _ & _ & Hg & _) (sup & app & pr & Es & Ha & Hp & Hf & Hatt).
  assert (sup = s) as -> by congruence.
  destruct (groups_free_focus _ _ _ _ Hg Ha) as (app' & Ha' & Hf').
  destruct (groups_free_find s s' uid pid pr Hg) as (pr' & Hp' & Hgf); [by apply find_proc_Some; eauto|].
  exists s', app', pr'. split_and!; [done|done| |congruence|].
  - apply find_proc_Some in Hp' as (a & Ha2 & ?). congruence.
  - transitivity (is_attached (group_free pr')); [done|]. by rewrite Hgf.
Qed.

Lemma top_sched_only uid pid (who : Z -> ProcessRecord -> Prop) w w' :
  sched_only uid who w w' -> focused_in uid pid w ->
  (forall pr, is_attached pr = false -> ~ who pid pr) -> is_top uid pid w -> is_top uid pid w'.
Proof.
  intros (s & s' & E & E' & [cs Hc] & _ & Hg & Hsame) (sup & app & pr & Es & Ha & Hp & Hf & Hatt) Hwho
    (sup2 & pr2 & Es2 & Hp2 & Hset & Hgot).
  assert (sup = s) as -> by congruence. assert (sup2 = s) as -> by congruence.
  assert (pr2 = pr) as ->.
  { apply find_proc_Some in Hp2 as (a & ? & ?). congruence. }
  exists s', pr. split_and!; [done| |].
  - apply Hsame; [done|]. intros [_ Hw]. by apply (Hwho (group_free pr)).
  - split; [done|]. destruct Hgot as [?|(ret & ? & ?)]; [by left|right]. exists ret. split; [done|].
    rewrite Hc. apply elem_of_app. by left.
Qed.

(** One turn of the loop over all processes. *)
Definition adjust_one uid source (pid : Z) : M unit :=
  procRecord ← get_proc uid pid;
  if is_attached procRecord then mret tt else AdjustProcessGroup uid pid source.

Lemma run_adjust_one w uid pid j source :
  source <> ADJS_PROCESS_CREATE ->
  Live w -> focused_in uid pid w -> known uid w j ->
  exists w', adjust_one uid source j w = Some (tt, w') /\ Live w' /\
    sched_only uid (fun _ _ => True) w w' /\ focused_in uid pid w' /\
    (is_top uid pid w \/ j = pid -> is_top uid pid w').
Proof.
  intros Hsrc Hl Hfoc (sup & it & E & Hit). unfold adjust_one.
  rewrite (run_bind _ _ _ _ _ (run_get_proc _ _ _ _ _ E Hit)).
  pose proof Hfoc as (sup0 & app & pr & E0 & Ha & Hp & Hf & Hatt). assert (sup0 = sup) as -> by congruence.
  pose proof Hit as (app2 & Ha2 & Hj)%find_proc_Some. assert (app2 = app) as -> by congruence.
  destruct (is_attached it) eqn:Hai.
  { exists w. split_and!; [done|done|apply sched_only_refl; by exists sup|done|].
    intros [?| ->]; [done|]. congruence. }
  destruct (run_AdjustProcessGroup no_arbitration w sup app uid j it source Hl E Ha Hj)
    as (w1 & sup1 & host & w' & -> & Hl1 & Hl' & Es1 & Hp1 & Hgot & Hso1 & Hso & Hif).
  exists w'. split_and!; [done|done|by eapply sched_only_weaken, Hso|by eapply focused_sched_only|].
  intros Htop. destruct (decide (j = pid)) as [->|Hne].
  - assert (it = pr) as -> by congruence.
    destruct (live_facts w sup uid pid pr Hl E Hit) as [_ Hwf].
    assert (Hcg : compute_group app pr source = SP_TOP_APP).
    { unfold compute_group. unfold is_attached in Hatt. apply orb_false_iff in Hatt as [[-> _]%orb_false_iff _].
      rewrite bool_decide_eq_false_2 by done. by rewrite Hf, (wf_pr_pid _ _ _ _ Hwf), Z.eqb_refl. }
    rewrite Hcg in Hgot. assert (Ht1 : is_top uid pid w1) by (exists sup1, host; done).
    destruct (IsHostProcess pid app); [|by subst w'].
    destruct Hif as [(_ & _ & _ & _ & Hs) _].
    assert (Hf1 : focused_in uid pid w1) by by eapply focused_sched_only.
    eapply top_sched_only; [exact Hs|exact Hf1| |exact Ht1]. intros pr' Hpr' [? _]. congruence.
  - destruct Htop as [Htop|?]; [|done]. eapply top_sched_only; [exact Hso|done| |done].
    intros pr' Hpr' [?|[? _]]; congruence.
Qed.

Lemma known_sched_only uid who w w' j : sched_only uid who w w' -> known uid w j -> known uid w' j.
Proof.
  intros (s & s' & E & E' & _ & _ & Hg & _) (sup & it & Es & Hit). assert (sup = s) as -> by congruence.
  destruct (groups_free_find _ _ _ _ _ Hg Hit) as (it' & Hit' & _). by exists s', it'.
Qed.

Lemma run_adjust_list uid pid source l w :
  source <> ADJS_PROCESS_CREATE -> Live w -> focused_in uid pid w -> Forall (known uid w) l ->
  exists w', st_iter (adjust_one uid source) l w = Some (tt, w') /\ Live w' /\
    sched_only uid (fun _ _ => True) w w' /\ focused_in uid pid w' /\
    (is_top uid pid w \/ pid ∈ l -> is_top uid pid w').
Proof.
  intros Hsrc. revert w. induction l as [|j l IH]; intros w Hl Hf Hk.
  - exists w. split_and!; [done|done|apply sched_only_refl; by destruct Hl|done|].
    intros [?|Hin]; [done|]. by apply elem_of_nil in Hin.
  - apply Forall_cons in Hk as [Hk Hks].
    destruct (run_adjust_one w uid pid j source Hsrc Hl Hf Hk) as (w1 & E1 & Hl1 & Hs1 & Hf1 & Ht1).
    destruct (IH w1 Hl1 Hf1) as (w2 & E2 & Hl2 & Hs2 & Hf2 & Ht2).
    { eapply Forall_impl; [exact Hks|]. intros i. by eapply known_sched_only. }
    exists w2. cbn [st_iter]. rewrite (run_bind _ _ _ _ _ E1). split_and!; [done..| |done|].
    + by eapply sched_only_trans.
    + intros [Ht|Hin]; [auto|]. apply elem_of_cons in Hin as [->|Hin]; auto.
Qed.

Lemma run_AdjustAllProcessGroup w uid pid source :
  source <> ADJS_PROCESS_CREATE -> Live w -> focused_in uid pid w ->
  exists w', AdjustAllProcessGroup uid source w = Some (tt, w') /\ Live w' /\
    sched_only uid (fun _ _ => True) w w' /\ focused_in uid pid w' /\ is_top uid pid w'.
Proof.
  intros Hsrc Hl Hf. pose proof Hf as (sup & app & pr & E & Ha & Hp & _).
  unfold AdjustAllProcessGroup. rewrite (run_bind _ _ _ _ _ (run_get_app _ _ _ _ E Ha)).
  destruct (run_adjust_list uid pid source (keys_in_order (pidsMap_ app)) w Hsrc Hl Hf)
    as (w' & E' & Hl' & Hs & Hf' & Ht).
  { apply Forall_forall. intros j [x Hx]%elem_of_keys_in_order. exists sup, x. split; [done|].
    apply find_proc_Some. eauto. }
  exists w'. split_and!; [exact E'|done..|]. apply Ht. right. apply elem_of_keys_in_order. by exists pr.
Qed.

(** ** The handler *)

Lemma run_upd_sup w sup f :
  supervisor_ w = Some sup -> upd_sup f w = Some (tt, w <| supervisor_ := Some (f sup) |>).
Proof. intros E. unfold upd_sup. by rewrite (run_bind _ _ _ _ _ (run_get_sup _ _ E)). Qed.

Lemma run_upd_app w sup app uid f :
  supervisor_ w = Some sup -> GetAppRecord uid sup = Some app ->
  upd_app uid f w = Some (tt, w <| supervisor_ := Some (alter_app uid f sup) |>).
Proof.
  intros E Ha. unfold upd_app. rewrite (run_bind _ _ _ _ _ (run_get_app _ _ _ _ E Ha)).
  by apply run_upd_sup.
Qed.

(** The process model once the focus is recorded. *)
Definition focus_sup (windowId windowType displayId pid uid : Z) sup : Supervisor :=
  let sup := alter_app uid (GetProcessRecordNonNull pid) (GetAppRecordNonNull uid sup) in
  let sup := alter_proc uid pid (GetWindowInfoNonNull windowId) sup in
  let sup := alter_proc uid pid (fun pr => pr <| linkedWindow_ := Some (mkWindowRef uid pid windowId) |>) sup in
  let sup := alter_proc uid pid (alter_window windowId (fun win =>
    win <| windowType_ := to_s32 windowType |> <| isFocused_ := true |> <| displayId_ := displayId |>)) sup in
  alter_app uid (fun app => app <| focusedProcess_ := Some pid |>) sup.

Lemma wf_set_focus ok uid pid sup pr :
  find_proc uid pid sup = Some pr -> wf_sup ok sup ->
  wf_sup ok (alter_app uid (fun app => app <| focusedProcess_ := Some pid |>) sup).
Proof.
  intros (app & Ha & Hp)%find_proc_Some [Hu Hwf]. unfold GetAppRecord, GetProcessRecord in *.
  split; simpl; intros uid' app'; rewrite lookup_alter_Some;
    intros [(-> & app0 & Hl & ->)|[? Hl]]; eauto.
  destruct (Hwf _ _ Hl) as [H1 H2 H3]. split; simpl; [done..|]. intros ? [= <-]. simplify_eq. eauto.
Qed.

Lemma find_focus_sup windowId windowType displayId pid uid sup :
  exists app pr, GetAppRecord uid (focus_sup windowId windowType displayId pid uid sup) = Some app /\
    GetProcessRecord pid app = Some pr /\ focusedProcess_ app = Some pid /\
    forall ok, is_s32 uid -> wf_sup ok sup -> wf_sup ok (focus_sup windowId windowType displayId pid uid sup).
Proof.
  destruct (fact_GetProcessRecordNonNull uid pid (GetAppRecordNonNull uid sup)
    (fact_GetAppRecordNonNull uid sup)) as [pr2 Hp2].
  unfold focus_sup. cbv zeta.
  set (sup2 := alter_app uid (GetProcessRecordNonNull pid) _) in *.
  pose proof (find_proc_alter_proc uid pid (GetWindowInfoNonNull windowId) _ _ Hp2) as Hp3.
  set (sup3 := alter_proc _ _ _ sup2) in *.
  pose proof (find_proc_alter_proc uid pid (fun pr => pr <| linkedWindow_ := Some (mkWindowRef uid pid windowId) |>) _ _ Hp3) as Hp4.
  set (sup4 := alter_proc _ _ _ sup3) in *.
  pose proof (find_proc_alter_proc uid pid (alter_window windowId (fun win =>
    win <| windowType_ := to_s32 windowType |> <| isFocused_ := true |> <| displayId_ := displayId |>)) _ _ Hp4) as Hp5.
  set (sup5 := alter_proc _ _ _ sup4) in *.
  pose proof Hp5 as (app & Ha & Hp)%find_proc_Some.
  eexists (app <| focusedProcess_ := Some pid |>), _. split_and!; [|exact Hp|done|].
  - by rewrite GetAppRecord_alter_app, decide_True, Ha.
  - intros ok Hu Hwf. eapply wf_set_focus; [exact Hp5|]. unfold sup5, sup4, sup3, sup2.
    apply wf_alter_proc; [intros; by apply wf_alter_window|].
    apply wf_alter_proc; [intros pr' []; by split|].
    apply wf_alter_proc; [intros; by apply wf_GetWindowInfoNonNull|].
    apply wf_alter_app; [intros; by apply wf_GetProcessRecordNonNull|].
    by apply wf_GetAppRecordNonNull.
Qed.

(** The handler up to the adjustment. *)
Lemma run_focus_prefix w sup windowId windowType displayId pid uid :
  supervisor_ w = Some sup ->
  HandleFocusedWindow windowId windowType displayId pid uid w
  = (AdjustAllProcessGroup uid ADJS_FOCUSED_WINDOW;;
     ReportSysEvent uid (uid, pid) RES_TYPE_WINDOW_FOCUS WINDOW_FOCUS;;
     name_from_bundle uid)
    (w <| supervisor_ := Some (focus_sup windowId windowType displayId pid uid sup) |>).
Proof.
  intros E. destruct (fact_GetAppRecordNonNull uid sup) as [app0 Ha0].
  destruct (fact_GetProcessRecordNonNull uid pid (GetAppRecordNonNull uid sup)
    (fact_GetAppRecordNonNull uid sup)) as [pr2 Hp2].
  unfold HandleFocusedWindow.
  erewrite run_bind by (apply run_upd_sup; exact E).
  erewrite run_bind by (eapply run_upd_app; [reflexivity|exact Ha0]).
  erewrite run_bind by (eapply run_upd_proc; [reflexivity|exact Hp2]).
  apply (find_proc_alter_proc uid pid (GetWindowInfoNonNull windowId)) in Hp2.
  erewrite run_bind by (eapply run_upd_proc; [reflexivity|exact Hp2]).
  apply (find_proc_alter_proc uid pid (fun pr => pr <| linkedWindow_ := Some (mkWindowRef uid pid windowId) |>)) in Hp2.
  erewrite run_bind by (eapply run_upd_proc; [reflexivity|exact Hp2]).
  apply (find_proc_alter_proc uid pid (alter_window windowId (fun win =>
    win <| windowType_ := to_s32 windowType |> <| isFocused_ := true |> <| displayId_ := displayId |>))) in Hp2.
  apply find_proc_Some in Hp2 as (app5 & Ha5 & _).
  erewrite run_bind by (eapply run_upd_app; [reflexivity|exact Ha5]). done.
Qed.

Lemma run_GetBundleNameByUid uid w : exists name, GetBundleNameByUid uid w = Some (name, w).
Proof.
  unfold GetBundleNameByUid. rewrite run_get_bind.
  destruct (pl_samgr (J := J) uid (outer w)) as [o Eo]. rewrite Eo. by eexists.
Qed.

Lemma run_name_from_bundle w sup app uid :
  supervisor_ w = Some sup -> GetAppRecord uid sup = Some app ->
  exists f w', name_from_bundle uid w = Some (tt, w') /\ calls w' = calls w /\
    supervisor_ w' = Some (alter_app uid f sup) /\
    (forall app, pidsMap_ (f app) = pidsMap_ app /\ focusedProcess_ (f app) = focusedProcess_ app).
Proof.
  intros E Ha. unfold name_from_bundle. rewrite (run_bind _ _ _ _ _ (run_get_app _ _ _ _ E Ha)).
  destruct (String.eqb (app_name_ app) "").
  - destruct (run_GetBundleNameByUid uid w) as [name En]. rewrite (run_bind _ _ _ _ _ En).
    rewrite (run_upd_app w sup app uid _ E Ha).
    eexists (Application_SetName _), _. split_and!; [done..|].
    intros a. unfold Application_SetName. by case_match.
  - exists id, w. split_and!; [done..| |done]. rewrite E. f_equal. unfold alter_app, over. destruct sup as [? ? ? m ? ?].
    simpl. f_equal. apply map_eq. intros u. rewrite lookup_alter. case_decide; [subst|done].
    by destruct (m !! u).
Qed.

Lemma find_first_alter {A} (p : A -> bool) f l x :
  find_first p l = Some x -> p (f x) = true -> find_first p (alter_first p f l) = Some (f x).
Proof.
  intros Hf Hp. induction l as [|y l IH]; simpl in *; [done|]. destruct (p y) eqn:Ey; simpl.
  - injection Hf as ->. by rewrite Hp.
  - rewrite Ey. auto.
Qed.

(** The record of the process once the focus is recorded. *)
Definition focus_proc (windowId windowType displayId pid uid : Z) (pr : ProcessRecord) : ProcessRecord :=
  alter_window windowId (fun win =>
    win <| windowType_ := to_s32 windowType |> <| isFocused_ := true |> <| displayId_ := displayId |>)
    ((GetWindowInfoNonNull windowId pr) <| linkedWindow_ := Some (mkWindowRef uid pid windowId) |>).

Lemma find_alter_app uid pid f sup :
  (forall app, pidsMap_ (f app) = pidsMap_ app) ->
  find_proc uid pid (alter_app uid f sup) = find_proc uid pid sup.
Proof.
  intros Hf. unfold find_proc. rewrite GetAppRecord_alter_app. rewrite decide_True by done.
  destruct (GetAppRecord uid sup); simpl; [|done]. unfold GetProcessRecord. by rewrite Hf.
Qed.

Lemma find_focus_proc windowId windowType displayId pid uid sup :
  find_proc uid pid (focus_sup windowId windowType displayId pid uid sup)
  = focus_proc windowId windowType displayId pid uid
      <$> find_proc uid pid (alter_app uid (GetProcessRecordNonNull pid) (GetAppRecordNonNull uid sup)).
Proof.
  unfold focus_sup. cbv zeta. rewrite find_alter_app by done.
  rewrite !find_proc_alter, !decide_True by done.
  by destruct (find_proc _ _ _).
Qed.

(** The record that the look-ups of the handler give. *)
Lemma find_nonnull uid pid sup :
  find_proc uid pid (alter_app uid (GetProcessRecordNonNull pid) (GetAppRecordNonNull uid sup))
  = Some (default (new_ProcessRecord (app_uid_ (default (new_Application uid) (GetAppRecord uid sup))) pid)
            (find_proc uid pid sup)).
Proof.
  unfold find_proc. rewrite GetAppRecord_alter_app, decide_True by done.
  unfold GetAppRecord, GetAppRecordNonNull. destruct (uidsMap_ sup !! uid) as [app|] eqn:Ea.
  - rewrite Ea. simpl. unfold GetProcessRecordNonNull, GetProcessRecord.
    destruct (pidsMap_ app !! pid) as [pr|] eqn:Ep; simpl; [by rewrite Ep|]. by rewrite lookup_insert_eq.
  - simpl. rewrite lookup_insert_eq. simpl. unfold GetProcessRecordNonNull, GetProcessRecord. simpl.
    rewrite lookup_empty. simpl. by rewrite lookup_insert_eq.
Qed.

Lemma focus_proc_window windowId windowType displayId pid uid pr :
  exists win, GetWindowInfo windowId (focus_proc windowId windowType displayId pid uid pr) = Some win /\
    isFocused_ win = true.
Proof.
  destruct (GetWindowInfo_NonNull windowId pr) as [win Hwin]. unfold focus_proc, GetWindowInfo. simpl.
  set (f := fun win => win <| windowType_ := to_s32 windowType |> <| isFocused_ := true |> <| displayId_ := displayId |>).
  exists (f win). split; [|done]. apply find_first_alter; [exact Hwin|].
  by apply find_first_Some in Hwin as [_ ?].
Qed.
End focus.

(** C3: The window in focus decides, where no extension library arbitrates or hears of events.
    When, in a live state and with the laws of the platform, a focus event with all its
    numbers arrives for a window of a process that is not attached to a host (not a render,
    GPU or child process), the handler returns, the process becomes the focused process of its
    application and its window is recorded as focused; the top-app group is decided for it,
    and it is in that group when the event is handled unless the operating system refused the
    move. *)
Theorem focus_moves_to_top {J K} `{!Json J} `{!JsonLaws J} `{!Platform J K} `{!AppExecFwk}
    `{!PlatformLaws J K} (w : World J K) sup resType payload pid uid windowId windowType displayId :
  reportArbitrationResultFunc_ (platform_utils (J := J) (K := K)) = None ->
  reportSysEventFunc_ (platform_utils (J := J) (K := K)) = None ->
  Live w -> supervisor_ w = Some sup ->
  ParseValue "pid" payload = Some pid -> ParseValue "uid" payload = Some uid ->
  ParseValue "windowId" payload = Some windowId -> ParseValue "windowType" payload = Some windowType ->
  ParseLongValue "displayId" payload = Some displayId ->
  (forall pr, find_proc uid pid sup = Some pr -> is_attached pr = false) ->
  exists w' sup' app pr win, HandleFocusStateChange resType WINDOW_FOCUS payload w = Some (tt, w') /\
    supervisor_ w' = Some sup' /\ GetAppRecord uid sup' = Some app /\ focusedProcess_ app = Some pid /\
    GetProcessRecord pid app = Some pr /\
    GetWindowInfo (to_u32 windowId) pr = Some win /\ isFocused_ win = true /\
    setSchedGroup_ pr = SP_TOP_APP /\
    (curSchedGroup_ pr = SP_TOP_APP \/
     exists ret, ret <> 0 /\ CallSetGroup pid (to_s32 SP_TOP_APP) ret ∈ calls w').
Proof.
  intros Hna Hns Hl E Epid Euid Ewin Etype Edisp Hatt.
  pose proof (ParseValue_s32 _ _ _ Euid) as Hu.
  unfold HandleFocusStateChange. rewrite run_get_bind, E, Epid, Euid, Ewin, Etype, Edisp, Z.eqb_refl.
  rewrite (run_focus_prefix _ _ _ _ _ _ _ E).
  set (win := to_u32 windowId). set (ty := to_u32 windowType). set (di := to_u64 displayId).
  set (sup1 := focus_sup win ty di pid uid sup). set (w1 := w <| supervisor_ := Some sup1 |>).
  destruct (find_focus_sup win ty di pid uid sup) as (app1 & pr1 & Ha1 & Hp1 & Hf1 & Hwf). fold sup1 in Ha1, Hwf.
  assert (Hl1 : Live w1).
  { destruct Hl as [Hinv _]. split; [eapply Inv_sup; [exact Hinv|exact E|]; auto|by exists sup1]. }
  assert (Hpr1 : pr1 = focus_proc win ty di pid uid (default (new_ProcessRecord
    (app_uid_ (default (new_Application uid) (GetAppRecord uid sup))) pid) (find_proc uid pid sup))).
  { assert (find_proc uid pid sup1 = Some pr1) as Hfp by (apply find_proc_Some; eauto).
    unfold sup1 in Hfp. rewrite find_focus_proc, find_nonnull in Hfp. by injection Hfp as <-. }
  assert (Hatt1 : is_attached pr1 = false).
  { rewrite Hpr1. unfold focus_proc, GetWindowInfoNonNull.
    destruct (find_proc uid pid sup) as [pr0|] eqn:Ef; cbn [default];
      case_match; first [exact (Hatt _ eq_refl) | done]. }
  destruct (run_AdjustAllProcessGroup Hna w1 uid pid ADJS_FOCUSED_WINDOW ltac:(done) Hl1)
    as (w2 & E2 & Hl2 & Hs2 & (sup2 & app2 & pr2 & Es2 & Ha2 & Hp2 & Hf2 & _) & Htop).
  { exists sup1, app1, pr1. done. }
  destruct Htop as (sup2' & pr2' & Es2' & Hp2' & Hset & Hgot).
  assert (sup2' = sup2) as -> by congruence.
  assert (pr2' = pr2) as -> by (apply find_proc_Some in Hp2' as (? & ? & ?); congruence).
  rewrite (run_bind _ _ _ _ _ E2).
  assert (Esys : ReportSysEvent uid (uid, pid) RES_TYPE_WINDOW_FOCUS WINDOW_FOCUS w2 = Some (tt, w2)).
  { unfold ReportSysEvent, call_ext. by rewrite Hns. }
  rewrite (run_bind _ _ _ _ _ Esys).
  destruct (run_name_from_bundle w2 sup2 app2 uid Es2 Ha2) as (f & w3 & E3 & Hc3 & Es3 & Hf3).
  assert (Hwin : exists x, GetWindowInfo win pr2 = Some x /\ isFocused_ x = true).
  { destruct Hs2 as (s1 & s2 & Q1 & Q2 & _ & _ & Q5 & _).
    assert (s1 = sup1) as -> by (simpl in Q1; congruence). assert (s2 = sup2) as -> by congruence.
    destruct (groups_free_find sup1 sup2 uid pid pr1 Q5) as (pr2' & Hp & Hg); [apply find_proc_Some; eauto|].
    assert (pr2' = pr2) as -> by congruence.
    destruct (focus_proc_window win ty di pid uid (default (new_ProcessRecord
      (app_uid_ (default (new_Application uid) (GetAppRecord uid sup))) pid) (find_proc uid pid sup)))
      as (x & Hx & Hfx). rewrite <- Hpr1 in Hx. exists x. split; [|done].
    assert (windows_ pr2 = windows_ pr1) as Hw by (injection Hg; congruence).
    unfold GetWindowInfo in *. by rewrite Hw. }
  destruct Hwin as (x & Hx & Hfx). exists w3, (alter_app uid f sup2), (f app2), pr2, x.
  split_and!; [exact E3|exact Es3| | | |done..|].
  - by rewrite GetAppRecord_alter_app, decide_True, Ha2.
  - by rewrite (proj2 (Hf3 app2)).
  - unfold GetProcessRecord in *. by rewrite (proj1 (Hf3 app2)).
  - by rewrite Hc3.
Qed.

Lemma focus_moves_to_top_witness :
  exists w', HandleFocusStateChange RES_TYPE_WINDOW_FOCUS WINDOW_FOCUS (pl_window "20010001" "100" "9") demo_state
    = Some (tt, w').
Proof.
  assert (Hna : reportArbitrationResultFunc_ (platform_utils (J := json) (K := ProcessGroup DemoOs)) = None) by reflexivity.
  assert (Hns : reportSysEventFunc_ (platform_utils (J := json) (K := ProcessGroup DemoOs)) = None) by reflexivity.
  destruct (focus_moves_to_top demo_state demo_sup RES_TYPE_WINDOW_FOCUS (pl_window "20010001" "100" "9")
    100 20010001 9 1 0 Hna Hns demo_live demo_sup_eq) as (w' & _ & _ & _ & _ & E & _);
    [vm_compute; reflexivity..| |exists w'; exact E].
  intros pr Hp. rewrite demo_find_host in Hp. apply (inj Some) in Hp. rewrite <- Hp. vm_compute. reflexivity.
Defined.
