(* ===== verification/CgroupHandlers.v ===== *)
(** * What single events do

    Payloads without the fields of a process, the death of a process, stale and
    repeated reports, the watchdog of web sub-windows, the subscriptions. *)
From S2P Require Import Prelude Json ResType Supervisor ProcessGroup World CgroupAdjuster CgroupEventHandler SchedController SupervisorFacts CgroupInvariant CgroupSafety Demo CgroupReach CgroupAdjust CgroupFocus.

(** The function that is applied. *)
Ltac head_of t := match t with ?f _ => head_of f | _ => t end.

(** ** Malformed payloads *)
Section malformed.
Context {J K : Type} `{!Json J} `{!Platform J K} `{!AppExecFwk}.

(** The handler does nothing on this payload. *)
Definition ignores (payload : J) (func : Z -> Z -> J -> ST (World J K) unit) : Prop :=
  forall resType value w, func resType value payload w = Some (tt, w).

Lemma no_field name (payload : J) :
  json_find name payload = None ->
  ParseValue name payload = None /\ parse_int32 name payload = None /\ ParseString name payload = None.
Proof. unfold ParseValue, parse_int32, ParseString, find_string, find_integer. by intros ->. Qed.

Lemma table_ignores payload :
  json_find "uid" payload = None -> json_find "pid" payload = None ->
  Forall (fun p => p.1 = RES_TYPE_SYSTEM_ABILITY_STATUS_CHANGE \/ p.1 = RES_TYPE_COSMIC_CUBE_STATE_CHANGE
                   \/ ignores payload p.2) (dispatchResFuncMap_ (J := J) (K := K)).
Proof.
  intros (U1 & U2 & U3)%no_field (P1 & P2 & P3)%no_field.
  unfold dispatchResFuncMap_, AddDispatchResFuncMap. cbn [app].
  repeat (apply List.Forall_cons); [..|by apply List.Forall_nil]; cbn [fst snd];
    first [by left | by right; left | right; right].
  all: intros resType value w.
  all: match goal with |- ?t = _ => let h := head_of t in unfold h end.
  all: unfold GetProcInfoByPayload, ParseConfig, HandleProcessCreated, HandleProcessDied,
    HandleProcessStateChanged, ParseProcessCreateInfo, ParsePayload;
    rewrite ?U1, ?U2, ?P1, ?P2; unfold mbind, ST_bind, st_get, mret, ST_ret; cbn; repeat case_match;
    simplify_eq; try done; congruence.
Qed.
End malformed.

(** A report that names no process does nothing.  For every event type of the
    table (but the two that are not about a process), a payload without a "uid"
    and a "pid" leaves the whole state as it was: no record appears, no task is
    posted, nothing is called. *)
Theorem malformed_payload_ignored {J K} `{!Json J} `{!Platform J K} `{!AppExecFwk}
    resType value payload func (w : World J K) :
  find_handler (J := J) (K := K) resType = Some func ->
  resType <> RES_TYPE_SYSTEM_ABILITY_STATUS_CHANGE -> resType <> RES_TYPE_COSMIC_CUBE_STATE_CHANGE ->
  json_find "uid" payload = None -> json_find "pid" payload = None ->
  func resType value payload w = Some (tt, w).
Proof.
  intros Ef H1 H2 Hu Hp. unfold find_handler in Ef. destruct (find_first _ _) as [[t g]|] eqn:E; [|done].
  apply find_first_Some in E as [Hin Ht]. simpl in Ht. apply Z.eqb_eq in Ht as ->. injection Ef as ->.
  pose proof (table_ignores (K := K) payload Hu Hp) as Hall. rewrite Forall_forall in Hall.
  destruct (Hall _ Hin) as [?|[?|Hi]]; [done|done|apply Hi].
Qed.

Lemma malformed_payload_ignored_witness :
  HandleOnAppStopped RES_TYPE_APP_STOPPED 1 (text_payload [("bundleName", "demo")]) demo_state
  = Some (tt, demo_state).
Proof.
  apply (malformed_payload_ignored RES_TYPE_APP_STOPPED 1 (text_payload [("bundleName", "demo")])
    HandleOnAppStopped demo_state); [reflexivity|done|done|reflexivity|reflexivity].
Defined.

(** ** The death of a process *)

Lemma RemoveProcessRecord_spec pid app pr :
  GetProcessRecord pid app = Some pr ->
  pidsMap_ (RemoveProcessRecord pid app) = delete pid (pidsMap_ app) /\
  focusedProcess_ (RemoveProcessRecord pid app) <> Some pid /\
  pid ∉ hostPidsSet_ (RemoveProcessRecord pid app).
Proof.
  unfold GetProcessRecord, RemoveProcessRecord, IsHostProcess. intros ->.
  repeat case_match; simpl; (split_and!; [done|try done|try set_solver]).
  all: try (match goal with E : bool_decide _ = false |- _ => by apply bool_decide_eq_false in E end).
Qed.

(** A dead process is forgotten.  When its death is reported, no record of it
    is left, it is not a scene board any more, its application neither has it as
    the focused process nor as a host, the other processes of the application
    keep their records, and the application itself is gone exactly when this was
    its last process. *)
Theorem process_died_forgets {J K} `{!Json J} `{!Platform J K} `{!AppExecFwk} (w : World J K) sup app pr resType value payload uid pid bundleName :
  reportSysEventFunc_ (platform_utils (J := J) (K := K)) = None ->
  supervisor_ w = Some sup -> GetAppRecord uid sup = Some app ->
  GetProcessRecord pid app = Some pr ->
  ParseValue "uid" payload = Some uid -> ParseValue "pid" payload = Some pid ->
  ParseString "bundleName" payload = Some bundleName ->
  exists w' sup', HandleProcessDied resType value payload w = Some (tt, w') /\
    supervisor_ w' = Some sup' /\ calls w' = calls w /\
    ~ ((uid, pid) ∈ sceneBoardUidPid_ sup') /\
    (forall u p, (u, p) <> (uid, pid) -> find_proc u p sup' = find_proc u p sup) /\
    match GetAppRecord uid sup' with
    | None => dom (pidsMap_ app) = {[pid]}
    | Some app' => pidsMap_ app' = delete pid (pidsMap_ app) /\ pidsMap_ app' <> ∅ /\
        focusedProcess_ app' <> Some pid /\ pid ∉ hostPidsSet_ app'
    end.
Proof.
  intros Hns E Ha Hp Eu Ep Eb. unfold HandleProcessDied. rewrite Eu, Ep, Eb.
  rewrite (run_bind _ _ _ _ _ (run_get_sup _ _ E)), Ha.
  assert (Er : st_when (bool_decide (is_Some (GetProcessRecord pid app)))
    (ReportSysEvent uid (uid, pid) RES_TYPE_PROCESS_STATE_CHANGE PROCESS_DIED) w = Some (tt, w)).
  { unfold st_when, ReportSysEvent, call_ext. rewrite Hns. by destruct (bool_decide _). }
  rewrite (run_bind _ _ _ _ _ Er), (run_bind _ _ _ _ _ (run_upd_sup _ _ _ E)).
  set (sup1 := sup <| sceneBoardUidPid_ ::= _ |>).
  erewrite run_bind by (eapply run_upd_app; [reflexivity|exact Ha]).
  set (sup2 := alter_app uid (RemoveProcessRecord pid) sup1).
  assert (Ha2 : GetAppRecord uid sup2 = Some (RemoveProcessRecord pid app)).
  { unfold sup2. rewrite GetAppRecord_alter_app, decide_True by done.
    change (GetAppRecord uid sup1) with (GetAppRecord uid sup). by rewrite Ha. }
  erewrite run_bind by (eapply run_get_app; [reflexivity|exact Ha2]).
  destruct (RemoveProcessRecord_spec pid app pr Hp) as (Hpids & Hfoc & Hhost).
  assert (Hother : forall u p, (u, p) <> (uid, pid) -> find_proc u p sup2 = find_proc u p sup).
  { intros u p Hne. unfold find_proc, sup2. rewrite GetAppRecord_alter_app.
    change (GetAppRecord u sup1) with (GetAppRecord u sup). case_decide as Hu; [subst|done].
    rewrite Ha. simpl. unfold GetProcessRecord. rewrite Hpids, lookup_delete_ne; [done|congruence]. }
  assert (Hsb : (uid, pid) ∉ sceneBoardUidPid_ sup2) by (simpl; set_solver).
  destruct (Nat.eqb_spec (size (pidsMap_ (RemoveProcessRecord pid app))) 0) as [Hz|Hz]; cbn [st_when].
  - apply map_size_empty_inv in Hz. rewrite Hpids in Hz.
    erewrite run_upd_sup by reflexivity.
    eexists _, (RemoveApplication uid sup2). split; [reflexivity|]. split; [done|]. split; [done|].
    split; [done|]. split.
    + intros u p Hne. destruct (decide (u = uid)) as [->|Hu].
      * unfold find_proc, RemoveApplication, GetAppRecord, over. simpl. rewrite lookup_delete_eq. simpl.
        unfold GetAppRecord in Ha. rewrite Ha. simpl. unfold GetProcessRecord.
        rewrite <- (lookup_delete_ne _ pid p) by congruence. by rewrite Hz, lookup_empty.
      * rewrite <- (Hother u p Hne). unfold find_proc, RemoveApplication, GetAppRecord, over. simpl.
        by rewrite lookup_delete_ne.
    + unfold RemoveApplication, GetAppRecord, over. simpl. rewrite lookup_delete_eq.
      apply set_eq. intros i. rewrite elem_of_singleton, elem_of_dom. split.
      * intros [x Hx]. destruct (decide (i = pid)) as [|Hi]; [done|].
        rewrite <- (lookup_delete_ne _ pid i), Hz, lookup_empty in Hx by done. done.
      * intros ->. by exists pr.
  - eexists _, sup2. split; [reflexivity|]. split; [done|]. split; [done|]. split; [done|]. split; [done|].
    rewrite Ha2. split_and!; [done| |done..]. intros He. apply Hz. by rewrite He, map_size_empty.
Qed.

Lemma process_died_forgets_witness :
  exists w', HandleProcessDied RES_TYPE_PROCESS_STATE_CHANGE PROCESS_DIED
    (text_payload [("uid", "20010001"); ("pid", "100"); ("bundleName", "demo")]) demo_state = Some (tt, w').
Proof.
  assert (Hns : reportSysEventFunc_ (platform_utils (J := json) (K := ProcessGroup DemoOs)) = None) by reflexivity.
  destruct (process_died_forgets demo_state demo_sup demo_app (demo_proc 100) RES_TYPE_PROCESS_STATE_CHANGE
    PROCESS_DIED (text_payload [("uid", "20010001"); ("pid", "100"); ("bundleName", "demo")])
    20010001 100 "demo" Hns demo_sup_eq demo_app_eq demo_host_eq) as (w' & _ & E & _);
    [vm_compute; reflexivity..|exists w'; exact E].
Defined.

(** ** Repeated and stale reports *)

(** A window whose visibility did not change costs nothing.  When the window
    of a known process is reported with the visibility it has, no group is
    computed and nothing is called; only the type of the window is noted. *)
Theorem unchanged_visibility_is_free {J K} `{!Json J} `{!Platform J K} `{!AppExecFwk}
    (w : World J K) sup pr win resType value payload uid pid windowId windowType :
  supervisor_ w = Some sup -> find_proc uid pid sup = Some pr ->
  ParseValue "uid" payload = Some uid -> ParseValue "pid" payload = Some pid ->
  ParseValue "windowId" payload = Some windowId -> ParseValue "windowType" payload = Some windowType ->
  GetWindowInfo (to_u32 windowId) pr = Some win -> isVisible_ win = negb (value =? 0) ->
  HandleWindowVisibilityChanged resType value payload w
  = Some (tt, w <| supervisor_ := Some (alter_proc uid pid (alter_window (to_u32 windowId) (fun win =>
        win <| isVisible_ := negb (value =? 0) |> <| windowType_ := windowType |>)) sup) |>).
Proof.
  intros E Hp Eu Ep Ewin Ety Hwin Hvis. pose proof Hp as (app & Ha & Hpr)%find_proc_Some.
  assert (Hnn : forall w, supervisor_ w = Some sup ->
    (if negb (value =? 0) then upd_sup (GetAppRecordNonNull uid);; upd_app uid (GetProcessRecordNonNull pid)
     else mret tt : ST (World J K) unit) w = Some (tt, w <| supervisor_ := Some sup |>)).
  { intros w0 E0. assert (Hid : GetAppRecordNonNull uid sup = sup).
    { unfold GetAppRecordNonNull, GetAppRecord in *. by rewrite Ha. }
    assert (Hid2 : alter_app uid (GetProcessRecordNonNull pid) sup = sup).
    { eapply alter_app_noop; [exact Ha|]. unfold GetProcessRecordNonNull, GetProcessRecord in *. by rewrite Hpr. }
    destruct (negb (value =? 0)).
    - rewrite (run_bind _ _ _ _ _ (run_upd_sup _ _ _ E0)), Hid.
      erewrite run_upd_app by (reflexivity || exact Ha). by rewrite Hid2.
    - destruct w0. simpl in E0. by subst. }
  unfold HandleWindowVisibilityChanged. rewrite run_get_bind, E, Ep, Eu, Ewin, Ety.
  rewrite (run_bind _ _ _ _ _ (Hnn w E)). set (w1 := w <| supervisor_ := Some sup |>).
  rewrite (run_bind _ _ _ _ _ (run_get_sup w1 sup eq_refl)), Hp.
  assert (Hw : GetWindowInfoNonNull (to_u32 windowId) pr = pr).
  { unfold GetWindowInfoNonNull. unfold GetWindowInfo in Hwin. by rewrite Hwin. }
  rewrite (run_bind _ _ _ _ _ (run_upd_proc w1 sup uid pid pr _ eq_refl Hp)).
  rewrite (alter_proc_noop uid pid (GetWindowInfoNonNull (to_u32 windowId)) sup pr Hp Hw).
  set (w2 := w1 <| supervisor_ := Some sup |>).
  rewrite (run_bind _ _ _ _ _ (run_get_proc w2 sup uid pid pr eq_refl Hp)), Hwin.
  cbn [st_some]. rewrite (run_bind _ _ _ win w2) by done. cbv zeta.
  rewrite (run_bind _ _ _ _ _ (run_upd_proc w2 sup uid pid pr _ eq_refl Hp)).
  rewrite Hvis, eqb_reflx. done.
Qed.

Lemma unchanged_visibility_is_free_witness :
  exists w', HandleWindowVisibilityChanged RES_TYPE_WINDOW_VISIBILITY_CHANGE 0
    (pl_window "20010001" "100" "7") demo_state = Some (tt, w') /\ calls w' = calls demo_state.
Proof.
  eexists. split.
  - apply (unchanged_visibility_is_free demo_state demo_sup (demo_proc 100)
      (default (new_WindowInfo 0) (GetWindowInfo 7 (demo_proc 100))) RES_TYPE_WINDOW_VISIBILITY_CHANGE 0
      (pl_window "20010001" "100" "7") 20010001 100 7 1 demo_sup_eq demo_find_host); vm_compute; reflexivity.
  - vm_compute. reflexivity.
Defined.

(** The last serial number of a process survives everything but its own report. *)
Section serial.
Context {J K : Type} `{!Json J} `{!JsonLaws J} `{!Platform J K} `{!AppExecFwk}.
Context `{!PlatformLaws J K}.
#[local] Abbreviation M := (ST (World J K)).
Context (q : option (list (Task J))) (uid pid serial : Z).

Definition serial_is (sup : Supervisor) : Prop :=
  exists pr, find_proc uid pid sup = Some pr /\ serialNum_ pr = serial.

Lemma serial_alter u p f sup :
  (forall pr, serialNum_ (f pr) = serialNum_ pr) -> serial_is sup -> serial_is (alter_proc u p f sup).
Proof.
  intros Hf (pr & Hp & Hs). unfold serial_is. rewrite find_proc_alter. case_decide as Hd.
  - exists (f pr). rewrite Hp. split; [done | by rewrite Hf].
  - by exists pr.
Qed.

Lemma serial_ext {A} u (func : option (ExtFunc A K)) : ext_frame func -> ext_keeps serial_is u func.
Proof.
  intros Hf f pr a sup k E (pr0 & Hp & Hs).
  destruct (frame_find _ _ _ _ _ (Hf f u pr a sup k E) Hp) as (pr' & Hp' & Hfr).
  exists pr'. split; [done|]. apply (f_equal serialNum_) in Hfr. simpl in Hfr. congruence.
Qed.

Lemma serial_upd_proc u p f :
  (forall pr, serialNum_ (f pr) = serialNum_ pr) -> keeps (on_sup q serial_is) (upd_proc u p f : M unit).
Proof. intros Hf. apply keeps_upd_proc. intros sup. by apply serial_alter. Qed.

Lemma serial_Adjust u p source : keeps (on_sup q serial_is) (AdjustProcessGroup u p source : M unit).
Proof.
  apply keeps_AdjustProcessGroup; [|apply serial_ext, pl_arbitration].
  intros p' f sup Hf. apply serial_alter. intros pr. specialize (Hf pr).
  apply (f_equal serialNum_) in Hf. exact Hf.
Qed.

Lemma serial_SysEvent u pr t s : keeps (on_sup q serial_is) (ReportSysEvent u pr t s : M unit).
Proof. apply keeps_call_ext, serial_ext, pl_sysevent. Qed.

(** What follows the update of the serial number. *)
Lemma serial_rest state windowId t :
  keeps (on_sup q serial_is)
    (UpdateActivepWebRenderInfo state windowId uid pid;;
     adjust_host uid pid ADJS_REPORT_WINDOW_STATE_CHANGED (ReportSysEvent uid (uid, pid) t state) : M unit).
Proof.
  unfold UpdateActivepWebRenderInfo, adjust_host.
  repeat first [ keeps_step | apply keeps_get_sup | apply keeps_get_app | apply keeps_get_proc
               | by apply serial_upd_proc | apply serial_Adjust | apply serial_SysEvent ].
Qed.
End serial.

(** Stale window reports of a web process are dropped.  A report whose serial
    number is at most 99 behind the last one (or repeats it) leaves the process
    and everything else as it was; any other report is taken, and its number
    becomes the last one. *)
Theorem stale_window_report_ignored {J K} `{!Json J} `{!JsonLaws J} `{!Platform J K} `{!AppExecFwk}
    `{!PlatformLaws J K} (w : World J K) sup pr resType value payload uid pid windowId state serial :
  Live w -> sched_supervisor_ w = true -> cgHandler_ w = true ->
  supervisor_ w = Some sup -> find_proc uid pid sup = Some pr ->
  ParsePayload payload = Some (uid, pid) -> ParseValue "windowId" payload = Some windowId ->
  ParseValue "state" payload = Some state -> ParseValue "serialNum" payload = Some serial ->
  payload_ok payload ->
  if (serial <=? serialNum_ pr) && (serialNum_ pr - serial <=? MAX_SPAN_SERIAL)
  then HandleReportWindowState resType value payload w = Some (tt, w <| supervisor_ := Some sup |>)
  else exists w' sup' pr', HandleReportWindowState resType value payload w = Some (tt, w') /\
         supervisor_ w' = Some sup' /\ find_proc uid pid sup' = Some pr' /\ serialNum_ pr' = serial.
Proof.
  intros Hl Hss Hcg E Hp Epay Ewin Est Eser Hok. pose proof Hp as (app & Ha & Hpr)%find_proc_Some.
  pose proof (safe_HandleReportWindowState (timers w) resType value payload Hok w (live_I _ Hl)) as Hsafe.
  destruct (live_facts _ _ _ _ _ Hl E Hp) as [_ [_ _ _ _ _ Hs _]].
  assert (Hrun : HandleReportWindowState resType value payload w
    = (procRecord ← get_proc uid pid;
       stale ← (if serial <=? serialNum_ procRecord then
             let span := serialNum_ procRecord - serial in
             if bool_decide (is_s32 span) then mret (span <=? MAX_SPAN_SERIAL) else st_undefined
           else mret false);
       ret_if stale : bool;
       upd_proc uid pid (fun pr => pr <| serialNum_ := serial |>);;
       UpdateActivepWebRenderInfo state windowId uid pid;;
       adjust_host uid pid ADJS_REPORT_WINDOW_STATE_CHANGED
         (ReportSysEvent uid (uid, pid) RES_TYPE_REPORT_WINDOW_STATE state))
      (w <| supervisor_ := Some sup |>)).
  { unfold HandleReportWindowState, GetProcInfoByPayload.
    assert (Hid : alter_app uid (GetProcessRecordNonNull pid) sup = sup).
    { eapply alter_app_noop; [exact Ha|]. unfold GetProcessRecordNonNull, GetProcessRecord in *. by rewrite Hpr. }
    erewrite run_bind; [|rewrite run_get_bind, E, Epay, Ha, (run_bind _ _ _ _ _ (run_upd_app _ _ _ _ _ E Ha)), Hid; reflexivity].
    by rewrite Ewin, Est, Eser. }
  set (w1 := w <| supervisor_ := Some sup |>) in *.
  rewrite (run_bind _ _ _ _ _ (run_get_proc w1 sup uid pid pr eq_refl Hp)) in Hrun.
  pose proof (proj2 Hok _ Eser) as H0. set (rest := UpdateActivepWebRenderInfo state windowId uid pid;; _) in Hrun.
  assert (Htaken : HandleReportWindowState resType value payload w
      = (upd_proc uid pid (fun pr => pr <| serialNum_ := serial |>);; rest) w1 ->
    exists w' sup' pr', HandleReportWindowState resType value payload w = Some (tt, w') /\
         supervisor_ w' = Some sup' /\ find_proc uid pid sup' = Some pr' /\ serialNum_ pr' = serial).
  { intros Hr. destruct (HandleReportWindowState resType value payload w) as [[[] w']|]; [|done].
    rewrite (run_bind _ _ _ _ _ (run_upd_proc w1 sup uid pid pr _ eq_refl Hp)) in Hr.
    set (w2 := w1 <| supervisor_ := _ |>) in Hr.
    pose proof (serial_rest (cgroupEventQueue_ w) uid pid serial state windowId RES_TYPE_REPORT_WINDOW_STATE w2) as Hk.
    fold rest in Hk. rewrite <- Hr in Hk.
    destruct Hsafe as (_ & _ & sup' & Es' & _).
    destruct Hk as (_ & _ & _ & Hk); [|destruct (Hk _ Es') as (pr' & Hp' & Hs'); by exists w', sup', pr'].
    split_and!; [done..|]. intros sup2 [= <-]. exists (pr <| serialNum_ := serial |>).
    split; [|done]. by apply find_proc_alter_proc. }
  destruct (Z.leb_spec serial (serialNum_ pr)) as [Hle|Hgt]; cbn [andb]; [|by apply Htaken; rewrite Hrun].
  cbv zeta in Hrun. rewrite bool_decide_true in Hrun by (unfold is_s32; lia).
  destruct (Z.leb_spec (serialNum_ pr - serial) MAX_SPAN_SERIAL); [exact Hrun | by apply Htaken; rewrite Hrun].
Qed.

Lemma stale_window_report_ignored_witness :
  let p := JObject [("uid", JString "20010001"); ("pid", JString "101"); ("windowId", JString "7");
                    ("state", JString "1"); ("serialNum", JString "5")] in
  exists w', HandleReportWindowState RES_TYPE_REPORT_WINDOW_STATE 0 p demo_state = Some (tt, w').
Proof.
  intros p.
  assert (Hok : payload_ok p).
  { split; [vm_compute; constructor|]. intros s Hs. vm_compute in Hs. apply (inj Some) in Hs. lia. }
  assert (Hserial : serialNum_ (demo_proc 101) = -1) by (vm_compute; reflexivity).
  pose proof (stale_window_report_ignored demo_state demo_sup (demo_proc 101) RES_TYPE_REPORT_WINDOW_STATE 0 p
    20010001 101 7 1 5 demo_live ltac:(vm_compute; reflexivity) ltac:(vm_compute; reflexivity)
    demo_sup_eq demo_find_render
    ltac:(vm_compute; reflexivity) ltac:(vm_compute; reflexivity) ltac:(vm_compute; reflexivity)
    ltac:(vm_compute; reflexivity) Hok) as Hw.
  rewrite Hserial in Hw. destruct Hw as (w' & _ & _ & E & _). exists w'. exact E.
Defined.

(** ** The watchdog of web sub-windows *)
Section watchdog.
Context {J K : Type} `{!Json J} `{!JsonLaws J} `{!Platform J K} `{!AppExecFwk}.
Context `{!PlatformLaws J K}.
Implicit Types (w : World J K).

(** No delayed task of this name is registered or pending. *)
Definition no_timer w (name : string) : Prop :=
  delayTaskMap_ w !! name = None /\
  forall handle dt, delayed_ w !! handle = Some dt -> dt_name dt <> name.

Lemma run_RemoveTask w name :
  Inv w -> exists w', RemoveTask name w = Some (tt, w') /\ no_timer w' name /\
    supervisor_ w' = supervisor_ w /\ cgroupEventQueue_ w' = cgroupEventQueue_ w /\
    calls w' = calls w /\ next_handle_ w' = next_handle_ w.
Proof.
  intros [_ _ _ H4 _ H6]. unfold RemoveTask. rewrite run_get_bind.
  destruct (delayTaskMap_ w !! name) as [h|] eqn:Eh.
  - destruct (H6 name) as [q Eq]; [by exists h|]. rewrite Eq.
    eexists. split; [reflexivity|]. split_and!; try done.
    split; [simpl; apply lookup_delete_eq|]. simpl. intros handle dt Hd Hn.
    apply lookup_delete_Some in Hd as [Hne Hd].
    destruct (H4 _ _ Hd) as [Hr _]. rewrite Hn in Hr. congruence.
  - exists w. split_and!; try done. split; [done|]. intros handle dt Hd Hn.
    destruct (H4 _ _ Hd) as [Hr _]. rewrite Hn in Hr. congruence.
Qed.

Lemma find_record_app sup uid pid pr :
  find_proc uid pid sup = Some pr -> GetAppRecordNonNull uid sup = sup.
Proof.
  intros (app & Ha & _)%find_proc_Some. unfold GetAppRecordNonNull, GetAppRecord in *. by rewrite Ha.
Qed.

(** The handler up to the timer. *)
Lemma run_web_subwin w sup resType value payload uid pid pr :
  reportSysEventFunc_ (platform_utils (J := J) (K := K)) = None ->
  Live w -> supervisor_ w = Some sup -> cgHandler_ w = true ->
  ParseValue "pid" payload = Some pid -> 0 < pid -> FindProcessRecord pid sup = Some (uid, pid) ->
  find_proc uid pid sup = Some pr ->
  let b := value =? WEB_SUBWIN_CALL_START in
  let sup' := alter_proc uid pid (fun pr => pr <| webSubWinTaskState_ := b |>) sup in
  exists w1, no_timer w1 (web_subwin_task_name pid uid) /\ supervisor_ w1 = Some sup' /\
    cgroupEventQueue_ w1 = cgroupEventQueue_ w /\ calls w1 = calls w /\
    HandleReportWebSubWinTaskStatus resType value payload w
    = st_when b (PostDelayedTask (TaskCheckWebSubWin resType uid pid) (web_subwin_task_name pid uid)
                   CHECK_WEB_SUBWIN_TASK_DELAY) w1.
Proof.
  intros Hns Hl E Hcg Epid Hpos Ef Hp b sup'. destruct (live_facts _ _ _ _ _ Hl E Hp) as [HI Hwf].
  pose proof (FindProcessRecord_fact _ _ _ _ _ (live_I _ Hl) E Ef) as (_ & Hu & _). simpl in Hu.
  assert (Hinv : Inv (w <| supervisor_ := Some sup' |>)).
  { eapply Inv_sup; [by destruct Hl|exact E|]. intros ok'. apply wf_alter_proc. intros pr' []. by split. }
  destruct (run_RemoveTask _ (web_subwin_task_name pid uid) Hinv) as (w1 & Er & Hno & Es & Eq & Ec & _).
  exists w1. split_and!; [done..|].
  unfold HandleReportWebSubWinTaskStatus. rewrite run_get_bind, E, Epid.
  rewrite (proj2 (Z.leb_gt _ _) Hpos), (run_bind _ _ _ _ _ (run_get_sup _ _ E)), Ef. cbn [fst snd].
  rewrite (run_bind _ _ _ _ _ (run_get_proc _ _ _ _ _ E Hp)), (wf_pr_uid _ _ _ _ Hwf), (to_s32_u32_id _ Hu).
  rewrite (run_bind _ _ _ _ _ (run_upd_sup _ _ _ E)), (find_record_app _ _ _ _ Hp).
  cbv zeta. erewrite run_bind by (eapply run_upd_proc; [reflexivity|exact Hp]).
  erewrite run_bind by (unfold ReportSysEvent, call_ext; rewrite Hns; reflexivity).
  rewrite run_get_bind. simpl. rewrite Hcg. cbn [negb]. fold b. fold sup'.
  change (w <| supervisor_ := Some sup |> <| supervisor_ := Some sup' |>) with (w <| supervisor_ := Some sup' |>).
  rewrite (run_bind _ _ _ _ _ Er).
  pose proof (find_proc_alter_proc uid pid (fun pr => pr <| webSubWinTaskState_ := b |>) _ _ Hp) as Hp'.
  erewrite run_bind by (eapply run_get_proc; [exact Es|exact Hp']). done.
Qed.
End watchdog.

(** The watchdog of web sub-windows.  When the call of a web sub-window starts,
    exactly one check of that process is pending, due in a minute, and it is the
    registered one; when the call ends, none is pending or registered. *)
Theorem web_subwin_watchdog {J K} `{!Json J} `{!JsonLaws J} `{!Platform J K} `{!AppExecFwk}
    `{!PlatformLaws J K} (w : World J K) sup resType value payload uid pid pr q :
  reportSysEventFunc_ (platform_utils (J := J) (K := K)) = None ->
  Live w -> supervisor_ w = Some sup -> cgHandler_ w = true -> cgroupEventQueue_ w = Some q ->
  ParseValue "pid" payload = Some pid -> 0 < pid -> FindProcessRecord pid sup = Some (uid, pid) ->
  find_proc uid pid sup = Some pr ->
  let name := web_subwin_task_name pid uid in
  exists w', HandleReportWebSubWinTaskStatus resType value payload w = Some (tt, w') /\
    supervisor_ w' = Some (alter_proc uid pid
      (fun pr => pr <| webSubWinTaskState_ := value =? WEB_SUBWIN_CALL_START |>) sup) /\
    if value =? WEB_SUBWIN_CALL_START then
      exists handle, delayTaskMap_ w' !! name = Some handle /\
        delayed_ w' !! handle = Some (mkDelayedTask name 60000000 (TaskCheckWebSubWin resType uid pid)) /\
        (forall handle' dt, delayed_ w' !! handle' = Some dt -> dt_name dt = name -> handle' = handle)
    else delayTaskMap_ w' !! name = None /\
      (forall handle dt, delayed_ w' !! handle = Some dt -> dt_name dt <> name).
Proof.
  intros Hns Hl E Hcg Eq Epid Hpos Ef Hp name.
  destruct (run_web_subwin w sup resType value payload uid pid pr Hns Hl E Hcg Epid Hpos Ef Hp)
    as (w1 & [Hno1 Hno2] & Es & Eq1 & _ & ->). fold name in Hno1, Hno2 |- *.
  destruct (value =? WEB_SUBWIN_CALL_START); cbn [st_when]; [|exists w1; by split_and!].
  unfold PostDelayedTask. rewrite run_get_bind, Eq1, Eq. eexists. split; [reflexivity|].
  split; [done|]. exists (next_handle_ w1). split_and!.
  - simpl. apply lookup_insert_eq.
  - simpl. rewrite lookup_insert_eq. done.
  - simpl. intros h dt Hd Hn. destruct (decide (h = next_handle_ w1)) as [|Hne]; [done|].
    rewrite lookup_insert_ne in Hd by done. by apply Hno2 in Hd.
Qed.

Lemma web_subwin_watchdog_witness :
  exists w', HandleReportWebSubWinTaskStatus RES_TYPE_WEB_SUBWIN_TASK WEB_SUBWIN_CALL_START
    (text_payload [("pid", "101")]) demo_state = Some (tt, w').
Proof.
  assert (Hns : reportSysEventFunc_ (platform_utils (J := json) (K := ProcessGroup DemoOs)) = None) by reflexivity.
  destruct (web_subwin_watchdog demo_state demo_sup RES_TYPE_WEB_SUBWIN_TASK WEB_SUBWIN_CALL_START
    (text_payload [("pid", "101")]) 20010001 101 (demo_proc 101) [] Hns demo_live demo_sup_eq) as (w' & E & _);
    [vm_compute; reflexivity..|exact demo_find_render|exists w'; exact E].
Defined.

(** Different processes can share a name: the check of one is cancelled by the
    call of the other. *)
Example web_subwin_names_collide : web_subwin_task_name 1 23 = web_subwin_task_name 12 3.
Proof. reflexivity. Qed.

(** ** Start, stop and queries of the plugin *)
Section start.
Context {J K : Type} `{!Json J} `{!JsonLaws J} `{!Platform J K} `{!AppExecFwk}.
Context `{!PlatformLaws J K}.
Implicit Types (w : World J K).

Lemma run_calls {A} (f : A -> Call J) l w :
  st_iter (fun x => call (f x) : ST (World J K) unit) l w = Some (tt, w <| calls ::= fun cs => cs ++ map f l |>).
Proof.
  revert w. induction l as [|x l IH]; intros w; cbn [st_iter].
  - unfold over. simpl. rewrite app_nil_r. by destruct w.
  - rewrite (run_bind _ _ _ tt (w <| calls ::= fun cs => cs ++ [f x] |>)) by done.
    rewrite IH. unfold over. simpl. by rewrite <- app_assoc.
Qed.

Definition subscriptions : list (Call J) :=
  map (CallSubscribe LIB_NAME) resTypes
  ++ map (fun p => CallSubscribeAccurately LIB_NAME p.1 p.2) resTypeWithVal_.
Definition unsubscriptions : list (Call J) :=
  map (CallUnSubscribe LIB_NAME) resTypes
  ++ map (fun p => CallUnSubscribeAccurately LIB_NAME p.1 p.2) resTypeWithVal_.

Lemma live_calls {A} (f : A -> Call J) l w : Live w -> Live (w <| calls ::= fun cs => cs ++ map f l |>).
Proof.
  intros Hl. assert (Hs : spec False Live (st_iter (fun x => call (f x) : ST (World J K) unit) l) (fun _ => Live)).
  { apply spec_iter. intros x _. apply live_call. }
  specialize (Hs w Hl). by rewrite run_calls in Hs.
Qed.

Lemma run_accurate (f : Z -> Z -> Call J) l w :
  st_iter (fun '(resType, val) => call (f resType val) : ST (World J K) unit) l w
  = Some (tt, w <| calls ::= fun cs => cs ++ map (fun p => f p.1 p.2) l |>).
Proof.
  rewrite <- (run_calls (fun p => f p.1 p.2)). revert w.
  induction l as [|[a b] l IH]; intros w; [done|]. cbn [st_iter].
  rewrite !(run_bind _ _ _ tt (w <| calls ::= fun cs => cs ++ [f a b] |>)) by done. apply IH.
Qed.

(** The two symbols of the extension library change the outer state only. *)
Lemma run_SubscribeExt w :
  exists k, (SubscribeResourceExt;; SubscribeSyncResourceExt) w = Some (tt, w <| outer := k |>).
Proof.
  unfold SubscribeResourceExt, SubscribeSyncResourceExt. rewrite pl_open.
  destruct (subscribeResourceExtFunc_ _) as [f|], (subscribeSyncResourceExtFunc_ _) as [g|];
    [exists (g (f (outer w)))|exists (f (outer w))|exists (g (outer w))|exists (outer w)]; by destruct w.
Qed.

Lemma run_Init k :
  exists w, Init (new_World k) = Some (tt, w) /\ calls w = subscriptions /\ cgHandler_ w = true /\
    sched_supervisor_ w = true /\ supervisor_ w = Some new_Supervisor /\
    cgroupEventQueue_ w = Some [TaskAdjustSelf].
Proof.
  unfold Init. erewrite run_bind by reflexivity. erewrite run_bind by reflexivity.
  unfold InitAdjuster. erewrite run_bind by reflexivity.
  rewrite (run_bind _ _ _ _ _ (run_calls _ _ _)), (run_bind _ _ _ _ _ (run_accurate _ _ _)).
  match goal with
  | |- exists w, ?m ?w0 = _ /\ _ => destruct (run_SubscribeExt w0) as [k' E]
  end.
  eexists. split; [exact E|]. done.
Qed.

(** Taking the subscriptions back. *)
Lemma run_unsubscribe {A} (m : ST (World J K) A) w :
  Live w ->
  let w0 := w <| calls ::= fun cs => cs ++ unsubscriptions |> in
  (st_iter (fun resType => call (CallUnSubscribe LIB_NAME resType)) resTypes;;
   st_iter (fun '(resType, val) => call (CallUnSubscribeAccurately LIB_NAME resType val)) resTypeWithVal_;;
   m) w = m w0 /\ Live w0.
Proof.
  intros Hl w0. assert (E0 : w0 = w <| calls ::= fun cs => cs ++ map (CallUnSubscribe LIB_NAME) resTypes |>
    <| calls ::= fun cs => cs ++ map (fun p => CallUnSubscribeAccurately LIB_NAME p.1 p.2) resTypeWithVal_ |>).
  { unfold w0, unsubscriptions. generalize (map (CallUnSubscribe (J := J) LIB_NAME) resTypes).
    generalize (map (fun p => CallUnSubscribeAccurately (J := J) LIB_NAME p.1 p.2) resTypeWithVal_).
    intros l1 l2. unfold over. simpl. by rewrite app_assoc. }
  split.
  - rewrite (run_bind _ _ _ _ _ (run_calls _ _ _)), (run_bind _ _ _ _ _ (run_accurate _ _ _)).
    by rewrite E0.
  - rewrite E0. pose proof (live_calls (CallUnSubscribe LIB_NAME) resTypes w Hl) as H1.
    exact (live_calls (fun p => CallUnSubscribeAccurately LIB_NAME p.1 p.2) resTypeWithVal_ _ H1).
Qed.

Lemma live_run_queue n w : Live w -> exists w', run_queue n w = Some (tt, w') /\ Live w'.
Proof.
  revert w. induction n as [|n IH]; intros w Hw; [by exists w|]. cbn [run_queue].
  pose proof (live_run_head w Hw) as Hh. destruct (run_head w) as [[[] w1]|] eqn:E; [|done].
  rewrite (run_bind _ _ _ _ _ E). by apply IH.
Qed.
(** ** The plugin stays started until it is stopped *)

Definition running w : Prop :=
  cgHandler_ w = true /\ sched_supervisor_ w = true /\ is_Some (cgroupEventQueue_ w).
#[local] Abbreviation M := (ST (World J K)).

Lemma running_lift_outer {A} (m : ST K A) : keeps running (lift_outer m : M A).
Proof. intros w Hw. unfold lift_outer. by destruct (m (outer w)) as [[a k]|]. Qed.
Lemma running_modify (f : World J K -> World J K) :
  (forall w, cgHandler_ (f w) = cgHandler_ w /\ sched_supervisor_ (f w) = sched_supervisor_ w /\
     (is_Some (cgroupEventQueue_ w) -> is_Some (cgroupEventQueue_ (f w)))) ->
  keeps running (st_modify f : M unit).
Proof.
  intros Hf. apply keeps_modify. intros w (H1 & H2 & H3). destruct (Hf w) as (E1 & E2 & E3).
  split_and!; [congruence..|auto].
Qed.
Lemma running_PostTask task : keeps running (PostTask task : M unit).
Proof. apply running_modify. intros w. split_and!; [done..|]. intros [q Hq]. simpl. rewrite Hq. by eexists. Qed.
#[local] Hint Resolve running_lift_outer running_PostTask : keeps.

(** Follows the code down to the primitives. *)
Ltac running_keeps :=
  repeat first
  [ keeps_step
  | apply running_modify; intros ?; split_and!; done
  | match goal with |- keeps _ ?t => let h := head_of t in unfold h end ].

Lemma running_call_ext {A} (func : option (ExtFunc A K)) c uid pr a :
  keeps running (call_ext func c uid pr a : M unit).
Proof. unfold call_ext. running_keeps. Qed.
#[local] Hint Resolve running_call_ext : keeps.

Lemma running_Adjust uid pid source : keeps running (AdjustProcessGroup uid pid source : M unit).
Proof. running_keeps. Qed.
#[local] Hint Resolve running_Adjust : keeps.

Lemma running_table resType value payload :
  Forall (fun p => keeps running (p.2 resType value payload))
    (dispatchResFuncMap_ (J := J) (K := K)).
Proof.
  unfold dispatchResFuncMap_, AddDispatchResFuncMap. cbn [app].
  repeat (apply List.Forall_cons); [..|by apply List.Forall_nil]; cbn [snd]; running_keeps.
Qed.

Lemma running_run_task task : keeps running (run_task task : M unit).
Proof.
  destruct task as [rt v p|rt v p|saId deviceId value| |rt uid pid]; simpl; [|running_keeps..].
  unfold find_handler. destruct (find_first _ _) as [[rt' f]|] eqn:E; simpl; [|apply keeps_ret].
  apply find_first_Some in E as [Hin _]. pose proof (running_table rt v p) as Hall.
  rewrite Forall_forall in Hall. exact (Hall _ Hin).
Qed.
#[local] Hint Resolve running_run_task : keeps.

Lemma running_exec e : keeps running (exec_event e : M unit).
Proof.
  destruct e as [rt v p| |handle]; simpl; [| |running_keeps].
  - unfold DispatchResource, DispatchOtherResource, DispatchResourceExt. running_keeps.
  - unfold run_head. keeps_step; [apply keeps_get|]. case_match; [|apply keeps_ret].
    case_match; [apply keeps_ret|]. apply keeps_bind; [|intros; apply running_run_task].
    apply running_modify. done.
Qed.

Lemma reached_running k events w : plugin_run k events = Some (tt, w) -> running w.
Proof.
  intros E. unfold plugin_run in E. destruct (run_Init k) as (w0 & E0 & _ & Hc & Hs & _ & Hq).
  rewrite (run_bind _ _ _ _ _ E0) in E. eapply keeps_run; [|split_and!; [exact Hc|exact Hs|by rewrite Hq]|exact E].
  apply keeps_iter. apply running_exec.
Qed.
End start.

(** The plugin starts as it should: its start subscribes to the event types it
    has handlers for, each once and nothing twice, in increasing order, and with the
    library's own name; it leaves an empty process model and one task, which moves
    the service itself to the foreground group.  An event type with a handler in the
    table is always among the subscribed ones. *)
Theorem start_subscribes {J K} `{!Json J} `{!Platform J K} `{!AppExecFwk} `{!PlatformLaws J K} (k : K) :
  (exists w : World J K, Init (new_World k) = Some (tt, w) /\ calls w = subscriptions /\
     supervisor_ w = Some new_Supervisor /\ cgroupEventQueue_ w = Some [TaskAdjustSelf]) /\
  NoDup resTypes /\ NoDup resTypeWithVal_ /\
  (forall resType, is_Some (find_handler (J := J) (K := K) resType) ->
     resType ∈ resTypes \/ exists value, (resType, value) ∈ resTypeWithVal_).
Proof.
  split_and!; [|by apply (bool_decide_unpack _); vm_compute..|].
  - destruct (run_Init k) as (w & E & Hc & _ & _ & Hs & Hq). by exists w.
  - intros resType [f Hf]. unfold find_handler in Hf.
    destruct (find_first _ _) as [[t g]|] eqn:E; [|done].
    apply find_first_Some in E as [Hin Heq]. simpl in Heq. apply Z.eqb_eq in Heq as <-.
    assert (Hall : Forall (fun t => t ∈ resTypes \/ (exists value, (t, value) ∈ resTypeWithVal_))
      (fst <$> dispatchResFuncMap_ (J := J) (K := K))).
    { cbn. repeat (apply List.Forall_cons); [..|by apply List.Forall_nil];
        first [left; apply (bool_decide_unpack _); by vm_compute
              |right; exists TRANSIENT_TASK_START; apply (bool_decide_unpack _); by vm_compute]. }
    rewrite Forall_forall in Hall. apply Hall. apply list_elem_of_fmap. by exists (t, g).
Qed.

Lemma start_subscribes_witness :
  (exists w, Init (new_World demo_process_group) = Some (tt, w) /\ calls w = subscriptions) /\
  RES_TYPE_WINDOW_FOCUS ∈ resTypes.
Proof.
  destruct (start_subscribes demo_process_group) as ((w & E & Hc & _) & _ & _ & Ht).
  split; [by exists w|]. destruct (Ht RES_TYPE_WINDOW_FOCUS) as [Hin|[v Hin]]; [by eexists|exact Hin|].
  exfalso. vm_compute in Hin. apply list_elem_of_In in Hin. destruct Hin as [Hin|[Hin|[]]]; discriminate Hin.
Defined.

(** The plugin stops in order: from any state it reaches, [Disable] takes every
    subscription back, then lets exactly the tasks that wait run, and only then drops
    its queue and the process model; afterwards an event of any type changes
    nothing and a query answers with the default group. *)
Theorem stop_drains {J K} `{!Json J} `{!JsonLaws J} `{!Platform J K} `{!AppExecFwk}
    `{!PlatformLaws J K} (k : K) (events : list (Event (J := J))) w q :
  Forall event_ok events -> plugin_run k events = Some (tt, w) -> cgroupEventQueue_ w = Some q ->
  exists w1, run_queue (length q) (w <| calls ::= fun cs => cs ++ unsubscriptions |>) = Some (tt, w1) /\
    let w2 := w1 <| cgHandler_ := false |> <| sched_supervisor_ := false |> in
    Disable w = Some (tt, w2) /\
    (forall resType value payload, DispatchResource resType value payload w2 = Some (tt, w2)) /\
    (forall pid, GetProcessGroup pid w2 = Some (to_s32 SP_DEFAULT, w2)).
Proof.
  intros He E Eq. pose proof (live_reached _ _ _ He E) as Hl.
  destruct (reached_running _ _ _ E) as (Hc & Hs & _).
  set (w0 := w <| calls ::= fun cs => cs ++ unsubscriptions |>).
  assert (Hl0 : Live w0) by (apply (run_unsubscribe (mret tt) w Hl)).
  destruct (live_run_queue (length q) w0 Hl0) as (w1 & E1 & _). exists w1. split; [exact E1|].
  intros w2. split_and!; [|done..]. unfold Disable.
  etransitivity; [apply (run_unsubscribe (w ← st_get; _) w Hl)|]. fold w0. rewrite run_get_bind.
  replace (cgHandler_ w0) with true by done. cbn [st_when].
  assert (Ew : (wait_queue : ST (World J K) unit) w0 = Some (tt, w1)).
  { unfold wait_queue. rewrite run_get_bind. simpl. rewrite Eq. exact E1. }
  erewrite run_bind; [reflexivity|]. rewrite (run_bind _ _ _ _ _ Ew). reflexivity.
Qed.

Lemma stop_drains_witness :
  let w0 := default (new_World demo_process_group)
    (snd <$> plugin_run demo_process_group (take 2 demo_events)) in
  exists w1, Disable w0 = Some (tt, w1 <| cgHandler_ := false |> <| sched_supervisor_ := false |>).
Proof.
  intros w0.
  assert (E : plugin_run demo_process_group (take 2 demo_events) = Some (tt, w0)) by (vm_compute; reflexivity).
  assert (He : Forall event_ok (take 2 demo_events)).
  { apply Forall_take. exact demo_events_ok. }
  assert (Hq : exists q, cgroupEventQueue_ w0 = Some q) by (eexists; vm_compute; reflexivity).
  destruct Hq as [q Hq].
  destruct (stop_drains _ _ _ _ He E Hq) as (w1 & _ & Ed & _). exists w1. exact Ed.
Defined.
