(* ===== verification/CgroupIsolation.v ===== *)
(** * Applications do not disturb each other

    An event about one application leaves the records of every other one. *)
From S2P Require Import Prelude Json ResType Supervisor ProcessGroup World CgroupAdjuster CgroupEventHandler SchedController SupervisorFacts CgroupInvariant CgroupSafety Demo CgroupReach CgroupAdjust CgroupHandlers.

(** An extension function that writes to the application it is given. *)
Definition ext_local {A K} (func : option (ExtFunc A K)) : Prop :=
  forall f uid pr a sup k u, func = Some f -> u <> uid ->
    GetAppRecord u (f uid pr a (sup, k)).1 = GetAppRecord u sup.

Section isolation.
Context {J K : Type} `{!Json J} `{!JsonLaws J} `{!Platform J K} `{!AppExecFwk}.
#[local] Abbreviation M := (ST (World J K)).
Context (arbitration_local : ext_local (reportArbitrationResultFunc_ (platform_utils (J := J) (K := K))))
  (sysevent_local : ext_local (reportSysEventFunc_ (platform_utils (J := J) (K := K))))
  (caller_local : ext_local (reportCallerEventFunc_ (platform_utils (J := J) (K := K)))).
Context (q : option (list (Task J))) (u uid : Z) (a : option Application) (other : u <> uid).

(** The other application is as it was. *)
Definition app_is (sup : Supervisor) : Prop := GetAppRecord u sup = a.
#[local] Abbreviation iso m := (keeps (on_sup q app_is) (m : M unit)).

Lemma app_is_alter f sup : app_is sup -> app_is (alter_app uid f sup).
Proof. unfold app_is. rewrite GetAppRecord_alter_app. by rewrite decide_False by congruence. Qed.

Lemma iso_NonNull : iso (upd_sup (GetAppRecordNonNull uid)).
Proof.
  apply keeps_upd_sup. unfold app_is, GetAppRecordNonNull, GetAppRecord. intros sup Ha.
  case_match; [done|]. simpl. by rewrite lookup_insert_ne.
Qed.
Lemma iso_upd_app f : iso (upd_app uid f).
Proof. apply keeps_upd_app. intros sup. apply app_is_alter. Qed.
Lemma iso_upd_proc pid f : iso (upd_proc uid pid f).
Proof. apply keeps_upd_proc. intros sup. apply app_is_alter. Qed.
Lemma iso_Remove : iso (upd_sup (RemoveApplication uid)).
Proof.
  apply keeps_upd_sup. unfold app_is, RemoveApplication, GetAppRecord. intros sup Ha. simpl.
  by rewrite lookup_delete_ne.
Qed.
Lemma iso_sup f : (forall sup, uidsMap_ (f sup) = uidsMap_ sup) -> iso (upd_sup f).
Proof. intros Hf. apply keeps_upd_sup. unfold app_is, GetAppRecord. intros sup. by rewrite Hf. Qed.

Lemma iso_ext {A} (func : option (ExtFunc A K)) : ext_local func -> ext_keeps app_is uid func.
Proof. intros Hf f pr x sup k E Ha. unfold app_is. by rewrite (Hf f). Qed.

Lemma iso_Arbitration pr source : iso (ReportArbitrationResult uid pr source).
Proof. apply keeps_call_ext, iso_ext, arbitration_local. Qed.
Lemma iso_SysEvent pr t s : iso (ReportSysEvent uid pr t s).
Proof. apply keeps_call_ext, iso_ext, sysevent_local. Qed.
Lemma iso_Caller pr c : iso (ReportCallerEvent uid pr c).
Proof. apply keeps_call_ext, iso_ext, caller_local. Qed.

Lemma iso_Adjust pid source : iso (AdjustProcessGroup uid pid source).
Proof.
  apply keeps_AdjustProcessGroup; [|apply iso_ext, arbitration_local].
  intros p f sup _. apply app_is_alter.
Qed.
Lemma iso_AdjustAll source : iso (AdjustAllProcessGroup uid source).
Proof.
  apply keeps_AdjustAllProcessGroup; [|apply iso_ext, arbitration_local].
  intros p f sup _. apply app_is_alter.
Qed.

Ltac iso_keeps :=
  repeat first
  [ keeps_step
  | apply keeps_get_sup | apply keeps_get_app | apply keeps_get_proc | apply keeps_CheckTidIsInPid
  | apply iso_NonNull | apply iso_upd_app | apply iso_upd_proc | apply iso_Remove
  | apply iso_sup; solve [reflexivity]
  | apply iso_SysEvent | apply iso_Caller | apply iso_Adjust | apply iso_AdjustAll ].

(** The payload names no other application, in text or as a number. *)
Definition about_uid (payload : J) : Prop :=
  (forall v, ParseValue "uid" payload = Some v -> v = uid) /\
  (forall v, parse_int32 "uid" payload = Some v -> v = uid).

Lemma iso_proc_info payload (k : Z * Z -> M unit) :
  about_uid payload -> (forall pid, iso (k (uid, pid))) ->
  iso (o ← GetProcInfoByPayload payload; up <-? o; k up).
Proof.
  intros [Hu _] Hk. unfold GetProcInfoByPayload, ParsePayload.
  eapply spec_bind with (R := fun o w => on_sup q app_is w /\
    match o with Some (u', _) => u' = uid | None => True end).
  - intros w Hw. rewrite run_get_bind. destruct (supervisor_ w); [|done].
    destruct (ParseValue "uid" payload) as [v|]; [|done]. rewrite (Hu v eq_refl).
    destruct (ParseValue "pid" payload) as [pid|]; simpl; [|done].
    destruct ((uid <=? 0) || (pid <=? 0)); [done|]. destruct (GetAppRecord uid s); [|done].
    pose proof (iso_upd_app (GetProcessRecordNonNull pid) w Hw) as Hi. unfold mbind, ST_bind.
    by destruct (upd_app _ _ w) as [[? w']|].
  - intros [[u' pid]|] w [Hw Hu']; [subst u'; by apply Hk | done].
Qed.

Lemma iso_adjust_host pid source (k : M unit) : iso k -> iso (adjust_host uid pid source k).
Proof. intros Hk. unfold adjust_host. iso_keeps. Qed.

Ltac iso_uid Hu1 Hu2 :=
  repeat match goal with
  | |- context [ParseValue "uid" ?p] =>
      let v := fresh "v" in destruct (ParseValue "uid" p) as [v|];
      [let E := fresh in pose proof (Hu1 v eq_refl) as E; subst v|]
  | |- context [parse_int32 "uid" ?p] =>
      let v := fresh "v" in destruct (parse_int32 "uid" p) as [v|];
      [let E := fresh in pose proof (Hu2 v eq_refl) as E; subst v|]
  end; iso_keeps.
Ltac iso_handler Hu1 Hu2 :=
  match goal with |- keeps _ ?t => let h := head_of t in unfold h end; iso_uid Hu1 Hu2.

Lemma iso_extension resType value payload :
  about_uid payload -> iso (HandleExtensionStateChanged resType value payload).
Proof. intros [Hu1 Hu2]. iso_handler Hu1 Hu2. Qed.

Lemma iso_created resType value payload :
  about_uid payload -> iso (HandleProcessCreated resType value payload).
Proof.
  intros [Hu1 _]. unfold HandleProcessCreated.
  destruct (ParseProcessCreateInfo payload) as [info|] eqn:E; [|apply keeps_ret].
  assert (Hi : info_uid info = uid).
  { unfold ParseProcessCreateInfo in E. apply bind_Some in E as (v & Hv & E).
    repeat (apply bind_Some in E as (? & _ & E)). injection E as <-. by apply Hu1. }
  destruct info as [v pid hostPid bundleName extensionType processType preloadMode].
  simpl in Hi. subst v. iso_keeps.
Qed.

Lemma iso_ability resType value payload :
  about_uid payload -> iso (HandleAbilityStateChanged resType value payload).
Proof.
  intros Hab. pose proof Hab as [Hu1 _]. unfold HandleAbilityStateChanged.
  keeps_step; [apply keeps_get|]. case_match; [|apply keeps_ret].
  destruct (ParseConfig payload) as [c|] eqn:E; [|apply keeps_ret].
  assert (Hi : cfg_uid c = uid).
  { unfold ParseConfig in E. apply bind_Some in E as (v & Hv & E).
    repeat (apply bind_Some in E as (? & _ & E)). injection E as <-. by apply Hu1. }
  destruct c as [v pid bundleName abilityName recordId state type callerUid preload].
  simpl in Hi. subst v. case_match; [|unfold HandleAbilityTerminated; iso_keeps].
  unfold HandleUIExtensionAbilityStateChange. iso_keeps. apply iso_extension.
  unfold about_uid, ParseValue, parse_int32, find_integer. rewrite find_string_set_ne, json_find_set_ne by done.
  exact Hab.
Qed.

(** The event types whose handler stays in the application it is about. *)
Definition local_types : list Z := [
  RES_TYPE_REPORT_KEY_THREAD; RES_TYPE_WEBVIEW_AUDIO_STATUS_CHANGE; RES_TYPE_INNER_AUDIO_STATE;
  RES_TYPE_RUNNINGLOCK_STATE; RES_TYPE_REPORT_SCENE_BOARD; RES_TYPE_WEBVIEW_SCREEN_CAPTURE;
  RES_TYPE_REPORT_SCREEN_CAPTURE; RES_TYPE_WEBVIEW_VIDEO_STATUS_CHANGE; RES_TYPE_MMI_STATUS_CHANGE;
  RES_TYPE_APP_STOPPED; RES_TYPE_ABILITY_STATE_CHANGE; RES_TYPE_EXTENSION_STATE_CHANGE;
  RES_TYPE_PROCESS_STATE_CHANGE; RES_TYPE_APP_STATE_CHANGE; RES_TYPE_WINDOW_FOCUS;
  RES_TYPE_WINDOW_VISIBILITY_CHANGE; RES_TYPE_WINDOW_DRAWING_CONTENT_CHANGE; RES_TYPE_TRANSIENT_TASK;
  RES_TYPE_CONTINUOUS_TASK; RES_TYPE_AUDIO_CAPTURE_STATUS_CHANGED ].

Lemma table_local resType value payload :
  about_uid payload ->
  Forall (fun p => existsb (Z.eqb p.1) local_types = true -> iso (p.2 resType value payload))
    (dispatchResFuncMap_ (J := J) (K := K)).
Proof.
  intros Hab. pose proof Hab as [Hu1 Hu2]. unfold dispatchResFuncMap_, AddDispatchResFuncMap. cbn [app].
  repeat (apply List.Forall_cons); [..|by apply List.Forall_nil]; cbn [fst snd]; intros Hin;
    try discriminate Hin; clear Hin.
  - apply (iso_proc_info _ (fun up => let '(uid, pid) := up in _) Hab). intros pid. iso_keeps.
    apply iso_adjust_host, keeps_ret.
  - iso_handler Hu1 Hu2.
  - iso_handler Hu1 Hu2.
  - iso_handler Hu1 Hu2.
  - iso_handler Hu1 Hu2.
  - apply (iso_proc_info _ (fun up => let '(uid, pid) := up in _) Hab). intros pid. iso_keeps.
  - iso_handler Hu1 Hu2.
  - apply (iso_proc_info _ (fun up => let '(uid, pid) := up in _) Hab). intros pid. iso_keeps.
  - iso_handler Hu1 Hu2.
  - iso_handler Hu1 Hu2.
  - by apply iso_ability.
  - by apply iso_extension.
  - unfold HandleProcessStateChangedEx, HandleProcessDied, HandleProcessStateChanged.
    keeps_step; [apply keeps_get|]. case_match; [|apply keeps_ret].
    case_match; [by apply iso_created|]. iso_uid Hu1 Hu2.
  - iso_handler Hu1 Hu2.
  - unfold HandleFocusStateChange, HandleFocusedWindow, HandleUnfocusedWindow, name_from_bundle, GetBundleNameByUid.
    iso_uid Hu1 Hu2.
  - iso_handler Hu1 Hu2.
  - iso_handler Hu1 Hu2.
  - unfold HandleTransientTaskStatus, HandleTransientTaskStart, HandleTransientTaskEnd.
    iso_uid Hu1 Hu2.
  - unfold HandleContinuousTaskStatus, HandleContinuousTaskUpdate, HandleContinuousTaskCancel, set_continuous_flags.
    iso_uid Hu1 Hu2.
  - iso_handler Hu1 Hu2.
Qed.
End isolation.

(** C7: Applications do not disturb each other, for the twenty event types of [local_types]
    (not for [RES_TYPE_REPORT_WINDOW_STATE], nor for the types that are about several
    applications). When such an event names one application, the plugin is running, the
    handler returns and the functions of the extension library write only to the application
    they are given, then every other application is as it was, with all its processes, windows
    and groups, also when adjustments fail or the handler returns early. *)
Theorem events_are_isolated {J K} `{!Json J} `{!JsonLaws J} `{!Platform J K} `{!AppExecFwk}
    resType value payload func (w w' : World J K) sup sup' u uid :
  ext_local (reportArbitrationResultFunc_ (platform_utils (J := J) (K := K))) ->
  ext_local (reportSysEventFunc_ (platform_utils (J := J) (K := K))) ->
  ext_local (reportCallerEventFunc_ (platform_utils (J := J) (K := K))) ->
  find_handler resType = Some func -> existsb (Z.eqb resType) local_types = true ->
  about_uid uid payload -> u <> uid ->
  sched_supervisor_ w = true -> cgHandler_ w = true ->
  supervisor_ w = Some sup -> func resType value payload w = Some (tt, w') -> supervisor_ w' = Some sup' ->
  GetAppRecord u sup' = GetAppRecord u sup.
Proof.
  intros L1 L2 L3 Ef Ht Hab Hne Hs Hc E Er E'. unfold find_handler in Ef.
  destruct (find_first _ _) as [[t g]|] eqn:Eff; [|done].
  apply find_first_Some in Eff as [Hin Heq]. simpl in Heq. apply Z.eqb_eq in Heq as ->. injection Ef as ->.
  pose proof (table_local L1 L2 L3 (cgroupEventQueue_ w) u uid (GetAppRecord u sup) Hne resType value payload Hab) as Htab.
  rewrite Forall_forall in Htab. specialize (Htab _ Hin Ht w). cbn [snd] in Htab. rewrite Er in Htab.
  destruct Htab as (_ & _ & _ & Hr); [|by apply Hr]. split_and!; [done..|]. intros s Es. unfold app_is. congruence.
Qed.

Lemma events_are_isolated_witness :
  let p := text_payload [("uid", "7"); ("pid", "9"); ("bundleName", "other"); ("state", "2")] in
  exists w' sup', HandleProcessStateChangedEx RES_TYPE_PROCESS_STATE_CHANGE 3 p demo_state = Some (tt, w') /\
    supervisor_ w' = Some sup' /\ GetAppRecord 20010001 sup' = GetAppRecord 20010001 demo_sup.
Proof.
  intros p.
  assert (Hs : exists w' sup', HandleProcessStateChangedEx RES_TYPE_PROCESS_STATE_CHANGE 3 p demo_state = Some (tt, w') /\
    supervisor_ w' = Some sup') by (eexists _, _; split; vm_compute; reflexivity).
  destruct Hs as (w' & sup' & E & E'). exists w', sup'. split; [exact E|]. split; [exact E'|].
  apply (events_are_isolated RES_TYPE_PROCESS_STATE_CHANGE 3 p HandleProcessStateChangedEx demo_state w' demo_sup sup'
    20010001 7); [intros f uid pr a sup k u Hf; discriminate Hf..|reflexivity|reflexivity| |done
    |vm_compute; reflexivity|vm_compute; reflexivity|exact demo_sup_eq|exact E|exact E'].
  split; intros v Hv; vm_compute in Hv; [|discriminate]. by apply (inj Some) in Hv.
Defined.
