(* ===== verification/CgroupRegistry.v ===== *)
(** * The registry of processes: an abstract specification

    Seen from outside, the process model is a registry: which applications are
    known and which processes each of them has.  [abs_exec] says what every event
    does to the registry and to the queue, without records, groups or calls; the
    plugin refines it. *)
From S2P Require Import Prelude Json ResType Supervisor ProcessGroup World CgroupAdjuster CgroupEventHandler SchedController SupervisorFacts CgroupInvariant CgroupSafety Demo.

(** ** The abstract state and its operations *)

(** The pids by uid, and whether the application manager is connected. *)
Record Registry := mkRegistry {
  reg_pids : gmap Z (gset Z);
  reg_manager : bool;
}.
#[export] Instance Registry_eta : Eta Registry := fun r => mkRegistry (reg_pids r) (reg_manager r).

(** An application becomes known. *)
Definition reg_app (uid : Z) (r : Registry) : Registry :=
  r <| reg_pids ::= fun m => match m !! uid with Some _ => m | None => <[uid := ∅]> m end |>.
(** A process of a known application becomes known. *)
Definition reg_pid (uid pid : Z) (r : Registry) : Registry :=
  r <| reg_pids ::= alter (union {[pid]}) uid |>.
Definition reg_proc (uid pid : Z) (r : Registry) : Registry := reg_pid uid pid (reg_app uid r).
(** A process is gone, and its application with its last process. *)
Definition reg_died (uid pid : Z) (r : Registry) : Registry :=
  r <| reg_pids ::= fun m =>
    match m !! uid with
    | Some s => if decide (s ∖ {[pid]} = ∅) then delete uid m else <[uid := s ∖ {[pid]}]> m
    | None => m
    end |>.
Definition reg_stopped (uid : Z) (r : Registry) : Registry := r <| reg_pids ::= delete uid |>.

Definition registry (sup : Supervisor) : Registry :=
  mkRegistry ((fun app => dom (pidsMap_ app)) <$> uidsMap_ sup) (appManager_ sup).

(** ** What each event does to the registry *)
Section effects.
Context {J K : Type} `{!Json J} `{!Platform J K} `{!AppExecFwk}.

Definition extension_effect (payload : J) (state : option Z) (r : Registry) : Registry :=
  match ParseValue "uid" payload, ParseValue "pid" payload, ParseString "bundleName" payload,
    ParseString "abilityName" payload, ParseValue "recordId" payload, state,
    ParseValue "abilityType" payload with
  | Some uid, Some pid, Some _, Some _, Some _, Some state, Some _ =>
      if state =? EXTENSION_STATE_TERMINATED then r else reg_proc uid pid r
  | _, _, _, _, _, _, _ => r
  end.

Definition ability_effect (payload : J) (r : Registry) : Registry :=
  match ParseConfig payload with
  | None => r
  | Some c =>
      if cfg_abilityType c =? AbilityType_EXTENSION then
        match ParseValue "extensionAbilityType" payload, ParseValue "uiExtensionState" payload with
        | Some _, Some state => extension_effect payload (Some state) r
        | _, _ => r
        end
      else if (cfg_abilityState c =? ABILITY_STATE_TERMINATED)
              || HandlePrelaunch (cfg_abilityState c) (cfg_preloadMode c) then r
      else reg_proc (cfg_uid c) (cfg_pid c) r
  end.

Definition process_effect (value : Z) (payload : J) (r : Registry) : Registry :=
  if value =? PROCESS_CREATED then
    match ParseProcessCreateInfo payload with
    | Some info => reg_proc (info_uid info) (info_pid info) r
    | None => r
    end
  else match ParseValue "uid" payload, ParseValue "pid" payload, ParseString "bundleName" payload with
       | Some uid, Some pid, Some _ =>
           if value =? PROCESS_DIED then reg_died uid pid r
           else match ParseValue "state" payload with
                | Some _ => reg_proc uid pid r
                | None => r
                end
       | _, _, _ => r
       end.

Definition app_state_effect (payload : J) (r : Registry) : Registry :=
  match ParseValue "uid" payload, ParseValue "pid" payload, ParseString "bundleName" payload,
    ParseValue "state" payload with
  | Some uid, Some _, Some _, Some state =>
      if state =? APP_STATE_TERMINATED then r else reg_app uid r
  | _, _, _, _ => r
  end.

Definition focus_effect (value : Z) (payload : J) (r : Registry) : Registry :=
  match ParseValue "pid" payload, ParseValue "uid" payload, ParseValue "windowId" payload,
    ParseValue "windowType" payload, ParseLongValue "displayId" payload with
  | Some pid, Some uid, Some _, Some _, Some _ =>
      if value =? WINDOW_FOCUS then reg_proc uid pid r else r
  | _, _, _, _, _ => r
  end.

Definition visibility_effect (value : Z) (payload : J) (r : Registry) : Registry :=
  match ParseValue "pid" payload, ParseValue "uid" payload, ParseValue "windowId" payload,
    ParseValue "windowType" payload with
  | Some pid, Some uid, Some _, Some _ => if value =? 0 then r else reg_proc uid pid r
  | _, _, _, _ => r
  end.

Definition transient_effect (value : Z) (payload : J) (r : Registry) : Registry :=
  match ParseValue "uid" payload, ParseValue "pid" payload, ParseString "bundleName" payload with
  | Some uid, Some _, Some _ =>
      if (value =? TRANSIENT_TASK_START) || (value =? TRANSIENT_TASK_END) then reg_app uid r else r
  | _, _, _ => r
  end.

Definition continuous_effect (value : Z) (payload : J) (r : Registry) : Registry :=
  match ParseValue "uid" payload, ParseValue "pid" payload, ParseValue "abilityId" payload with
  | Some uid, Some pid, Some _ =>
      if (value =? CONTINUOUS_TASK_START) || (value =? CONTINUOUS_TASK_UPDATE) then reg_proc uid pid r
      else if value =? CONTINUOUS_TASK_END then reg_app uid r else r
  | _, _, _ => r
  end.

(** A report about a process of a known application. *)
Definition info_effect (payload : J) (r : Registry) : Registry :=
  match ParsePayload payload with Some (uid, pid) => reg_pid uid pid r | None => r end.

Definition webview_audio_effect (payload : J) (r : Registry) : Registry :=
  match ParseValue "uid" payload, ParseValue "pid" payload with
  | Some uid, Some pid => if (uid <=? 0) || (pid <=? 0) then r else reg_app uid r
  | _, _ => r
  end.

Definition stopped_effect (payload : J) (r : Registry) : Registry :=
  match parse_int32 "uid" payload, find_string "bundleName" payload with
  | Some uid, Some _ => reg_stopped uid r
  | _, _ => r
  end.

(** The events that change the registry; all others leave it. *)
Definition effects : list (Z * (Z -> J -> Registry -> Registry)) := [
  (RES_TYPE_ABILITY_STATE_CHANGE, fun _ => ability_effect);
  (RES_TYPE_EXTENSION_STATE_CHANGE, fun _ p => extension_effect p (ParseValue "extensionState" p));
  (RES_TYPE_PROCESS_STATE_CHANGE, process_effect);
  (RES_TYPE_APP_STATE_CHANGE, fun _ => app_state_effect);
  (RES_TYPE_WINDOW_FOCUS, focus_effect);
  (RES_TYPE_WINDOW_VISIBILITY_CHANGE, visibility_effect);
  (RES_TYPE_TRANSIENT_TASK, transient_effect);
  (RES_TYPE_CONTINUOUS_TASK, continuous_effect);
  (RES_TYPE_REPORT_KEY_THREAD, fun _ => info_effect);
  (RES_TYPE_REPORT_WINDOW_STATE, fun _ => info_effect);
  (RES_TYPE_WEBVIEW_SCREEN_CAPTURE, fun _ => info_effect);
  (RES_TYPE_WEBVIEW_VIDEO_STATUS_CHANGE, fun _ => info_effect);
  (RES_TYPE_WEBVIEW_AUDIO_STATUS_CHANGE, fun _ => webview_audio_effect);
  (RES_TYPE_APP_STOPPED, fun _ => stopped_effect)
].

Definition effect (resType : Z) : Z -> J -> Registry -> Registry :=
  default (fun _ _ r => r) (snd <$> find_first (fun p => p.1 =? resType) effects).

(** The service of a system ability became available. *)
Definition added_effect (k : K) (saId : Z) (r : Registry) : Registry :=
  if saId =? APP_MGR_SERVICE_ID (J := J) (K := K) then
    let r := match platform_app_manager (J := J) k with
             | Some proxy => r <| reg_manager := proxy |>
             | None => r
             end in
    if reg_manager r then
      foldl (fun r p => reg_proc (cp_hostUid p) (cp_pid p) r)
        (foldl (fun r p => reg_proc (rp_uid p) (rp_pid p) r) r (platform_running (J := J) k))
        (platform_children (J := J) k)
    else r
  else if saId =? POWER_MANAGER_SERVICE_ID (J := J) (K := K) then
    match platform_running_locks (J := J) k with
    | Some l => foldl (fun r p => reg_proc (lock_uid p.2) (lock_pid p.2) r) r l
    | None => r
    end
  else r.

(** ** The abstract plugin *)

Record Abstract := mkAbstract { abs_queue : list (Task J); abs_registry : Registry }.

Definition abs_task (k : K) (task : Task J) (a : Abstract) : Abstract :=
  let '(mkAbstract q r) := a in
  match task with
  | TaskDispatch resType value payload =>
      if resType =? RES_TYPE_SYSTEM_ABILITY_STATUS_CHANGE then
        mkAbstract (q ++ [TaskAbilityStatus (default (-1) (parse_int32 "saId" payload))
                            (default "" (find_string "deviceId" payload)) value]) r
      else mkAbstract q (effect resType value payload r)
  | TaskAbilityStatus saId _ value =>
      mkAbstract q (if value >? 0 then added_effect k saId r else r)
  | TaskOther _ _ _ | TaskAdjustSelf | TaskCheckWebSubWin _ _ _ => a
  end.

Definition abs_exec (k : K) (e : Event (J := J)) (a : Abstract) : Abstract :=
  match e with
  | EvDispatch resType value payload =>
      mkAbstract (abs_queue a ++
        (if existsb (Z.eqb resType) (map fst (dispatchResFuncMap_ (J := J) (K := K)))
         then [TaskDispatch resType value payload] else [])
        ++ [TaskOther resType value payload]) (abs_registry a)
  | EvRun =>
      match abs_queue a with
      | [] => a
      | task :: q => abs_task k task (mkAbstract q (abs_registry a))
      end
  | EvFire _ => a
  end.

(** The abstract state of a running plugin. *)
Definition abstracts (w : World J K) (a : Abstract) : Prop :=
  sched_supervisor_ w = true /\ cgHandler_ w = true /\ cgroupEventQueue_ w = Some (abs_queue a) /\
  exists sup, supervisor_ w = Some sup /\ registry sup = abs_registry a.
End effects.

(** ** The registry of a changed process model *)

Lemma registry_ext m1 m2 b :
  (forall uid, m1 !! uid = m2 !! uid) -> mkRegistry m1 b = mkRegistry m2 b.
Proof. intros Hm. f_equal. by apply map_eq. Qed.

Lemma registry_alter_app uid f sup :
  (forall app, dom (pidsMap_ (f app)) = dom (pidsMap_ app)) -> registry (alter_app uid f sup) = registry sup.
Proof.
  intros Hf. apply registry_ext. intros u. rewrite !lookup_fmap. unfold alter_app, over. simpl.
  rewrite lookup_alter. case_decide as Hu; [subst|done]. destruct (uidsMap_ sup !! u); simpl; by rewrite ?Hf.
Qed.

Lemma registry_alter_proc uid pid f sup : registry (alter_proc uid pid f sup) = registry sup.
Proof. apply registry_alter_app. intros app. simpl. apply dom_alter_L. Qed.

Lemma registry_GetAppRecordNonNull uid sup :
  registry (GetAppRecordNonNull uid sup) = reg_app uid (registry sup).
Proof.
  unfold registry, GetAppRecordNonNull, reg_app, over. simpl. rewrite lookup_fmap.
  destruct (uidsMap_ sup !! uid); simpl; [done|]. by rewrite fmap_insert.
Qed.

Lemma registry_GetProcessRecordNonNull uid pid sup :
  registry (alter_app uid (GetProcessRecordNonNull pid) sup) = reg_pid uid pid (registry sup).
Proof.
  apply registry_ext. intros u. unfold over. simpl. rewrite lookup_fmap, !lookup_alter, !lookup_fmap.
  case_decide as Hu; [subst|done].
  destruct (uidsMap_ sup !! u) as [app|]; simpl; [|done]. f_equal. unfold GetProcessRecordNonNull.
  destruct (pidsMap_ app !! pid) eqn:Hp; simpl; [|apply dom_insert_L].
  apply set_eq. intros i. rewrite elem_of_union, elem_of_singleton, elem_of_dom.
  split; [by right|]. intros [->|?]; [by eexists|done].
Qed.

Lemma registry_frame sup sup' : frame_sup sup' = frame_sup sup -> registry sup' = registry sup.
Proof.
  intros Hf.
  assert (Hr : forall s, registry (frame_sup s) = registry s).
  { intros s. apply registry_ext. intros u. unfold frame_sup, over. simpl.
    rewrite <- map_fmap_compose, !lookup_fmap. destruct (uidsMap_ s !! u); simpl; [|done].
    f_equal. apply dom_fmap_L. }
  by rewrite <- (Hr sup), <- (Hr sup'), Hf.
Qed.

(** ** The handlers refine their effects *)
Section refine.
Context {J K : Type} `{!Json J} `{!JsonLaws J} `{!Platform J K} `{!AppExecFwk}.
Context `{!PlatformLaws J K}.
#[local] Abbreviation M := (ST (World J K)).
Context (q : option (list (Task J))).

Definition reg_is (r : Registry) : World J K -> Prop := on_sup q (fun sup => registry sup = r).

#[local] Abbreviation refines r m r' := (spec True (reg_is r) (m : M unit) (fun _ => reg_is r')).

Lemma reg_upd_proc r uid pid f : keeps (reg_is r) (upd_proc uid pid f : M unit).
Proof. apply keeps_upd_proc. intros sup <-. apply registry_alter_proc. Qed.

Lemma reg_upd_app r uid f :
  (forall app, pidsMap_ (f app) = pidsMap_ app) -> keeps (reg_is r) (upd_app uid f : M unit).
Proof. intros Hf. apply keeps_upd_app. intros sup <-. apply registry_alter_app. intros. by rewrite Hf. Qed.

Lemma reg_SetName r uid name : keeps (reg_is r) (upd_app uid (Application_SetName name) : M unit).
Proof. apply reg_upd_app. intros. unfold Application_SetName. by case_match. Qed.

Lemma reg_AddHost r uid pid : keeps (reg_is r) (upd_app uid (AddHostProcess pid) : M unit).
Proof. by apply reg_upd_app. Qed.

Lemma reg_ext_keeps {A} r uid (func : option (ExtFunc A K)) :
  ext_frame func -> ext_keeps (fun sup => registry sup = r) uid func.
Proof. intros Hf f pr a sup k E <-. apply registry_frame. by apply Hf. Qed.

Lemma reg_Report r uid pr source : keeps (reg_is r) (ReportArbitrationResult uid pr source : M unit).
Proof. apply keeps_call_ext, reg_ext_keeps, pl_arbitration. Qed.
Lemma reg_SysEvent r uid pr t s : keeps (reg_is r) (ReportSysEvent uid pr t s : M unit).
Proof. apply keeps_call_ext, reg_ext_keeps, pl_sysevent. Qed.
Lemma reg_Caller r uid pr c : keeps (reg_is r) (ReportCallerEvent uid pr c : M unit).
Proof. apply keeps_call_ext, reg_ext_keeps, pl_caller. Qed.

Lemma reg_Adjust r uid pid source : keeps (reg_is r) (AdjustProcessGroup uid pid source : M unit).
Proof.
  apply keeps_AdjustProcessGroup; [|apply reg_ext_keeps, pl_arbitration].
  intros p f sup _ <-. apply registry_alter_proc.
Qed.
Lemma reg_AdjustAll r uid source : keeps (reg_is r) (AdjustAllProcessGroup uid source : M unit).
Proof.
  apply keeps_AdjustAllProcessGroup; [|apply reg_ext_keeps, pl_arbitration].
  intros p f sup _ <-. apply registry_alter_proc.
Qed.

Lemma spec_reg_app r uid : refines r (upd_sup (GetAppRecordNonNull uid)) (reg_app uid r).
Proof. apply spec_upd_sup. intros sup <-. apply registry_GetAppRecordNonNull. Qed.
Lemma spec_reg_pid r uid pid : refines r (upd_app uid (GetProcessRecordNonNull pid)) (reg_pid uid pid r).
Proof. apply spec_upd_app. intros sup <-. apply registry_GetProcessRecordNonNull. Qed.

(** The test of the pointer to the process model. *)
Lemma reg_with_sup r r' (k : M unit) :
  refines r k r' ->
  refines r (st_get ≫= fun w => match supervisor_ w with Some _ => k | None => mret tt end) r'.
Proof.
  intros Hk w Hw. unfold mbind, ST_bind, st_get. destruct (supervisor_ w) eqn:E; [by apply Hk|].
  destruct Hw as (? & ? & ? & _). split_and!; [done..|]. intros sup Es. congruence.
Qed.

Lemma refines_same r r' r'' (m : M unit) : refines r m r' -> r' = r'' -> refines r m r''.
Proof. by intros Hm <-. Qed.
End refine.

(** A part of a handler that leaves the registry. *)
Ltac reg_keeps :=
  repeat first
  [ keeps_step
  | apply reg_upd_proc | apply reg_SetName | apply reg_AddHost | apply reg_Report
  | apply keeps_upd_sup; solve [by intros ? <-]
  | apply reg_upd_app; intros; solve [repeat case_match; reflexivity]
  | apply reg_SysEvent | apply reg_Caller | apply reg_Adjust | apply reg_AdjustAll
  | apply keeps_get_sup | apply keeps_get_app | apply keeps_get_proc
  | apply keeps_RemoveTask | apply keeps_PostDelayedTask | apply keeps_CheckTidIsInPid ].

(** Follows a handler and its effect together. *)
Ltac reg_step :=
  lazymatch goal with
  | |- spec _ _ (st_get ≫= fun w => match supervisor_ w with _ => _ end) _ =>
      apply reg_with_sup
  | |- spec True ?P ?m (fun _ => ?P) => change (keeps P m); solve [reg_keeps]
  | |- spec _ _ (upd_sup (GetAppRecordNonNull _) ≫= _) _ =>
      eapply spec_bind; [apply spec_reg_app | intros []; cbv beta]
  | |- spec _ _ (upd_app _ (GetProcessRecordNonNull _) ≫= _) _ =>
      eapply spec_bind; [apply spec_reg_pid | intros []; cbv beta]
  | |- spec _ _ (upd_sup (GetAppRecordNonNull _)) _ => apply spec_reg_app
  | |- spec _ ?P (_ ≫= _) _ =>
      apply spec_bind with (R := fun _ => P);
      [lazymatch goal with |- spec True ?P ?m _ => change (keeps P m) end; solve [reg_keeps]
      | intros ?; cbv beta]
  | |- spec _ _ (match ?x with _ => _ end) _ => destruct x eqn:?
  | |- spec _ _ (let _ := _ in _) _ => cbv zeta
  | |- spec True ?P ?m (fun _ => ?P') => unify P P'; change (keeps P m); solve [reg_keeps]
  end.
Ltac reg_steps := repeat reg_step.

Section handlers.
Context {J K : Type} `{!Json J} `{!JsonLaws J} `{!Platform J K} `{!AppExecFwk}.
Context `{!PlatformLaws J K}.
#[local] Abbreviation M := (ST (World J K)).
Context (q : option (list (Task J))).
Implicit Types (payload : J) (r : Registry).

#[local] Abbreviation refines r m r' :=
  (spec True (reg_is (K := K) q r) (m : M unit) (fun _ => reg_is (K := K) q r')).

Lemma ref_HandleExtensionStateChanged resType value payload r :
  refines r (HandleExtensionStateChanged resType value payload)
    (extension_effect payload (ParseValue "extensionState" payload) r).
Proof.
  unfold HandleExtensionStateChanged, extension_effect.
  reg_steps.
Qed.

Lemma ref_HandleApplicationStateChanged resType value payload r :
  refines r (HandleApplicationStateChanged resType value payload) (app_state_effect payload r).
Proof. unfold HandleApplicationStateChanged, app_state_effect. reg_steps. Qed.

Lemma ref_HandleProcessStateChanged resType value payload r :
  value <> PROCESS_CREATED -> value <> PROCESS_DIED ->
  refines r (HandleProcessStateChanged resType value payload) (process_effect value payload r).
Proof.
  intros H1%Z.eqb_neq H2%Z.eqb_neq. unfold HandleProcessStateChanged, process_effect. rewrite H1, H2.
  reg_steps.
Qed.

Lemma ref_HandleProcessCreated resType payload r :
  refines r (HandleProcessCreated resType PROCESS_CREATED payload)
    (process_effect PROCESS_CREATED payload r).
Proof. unfold HandleProcessCreated, process_effect. rewrite Z.eqb_refl. reg_steps. Qed.

Lemma ref_HandleTransientTaskStatus resType value payload r :
  refines r (HandleTransientTaskStatus resType value payload) (transient_effect value payload r).
Proof.
  unfold HandleTransientTaskStatus, transient_effect, HandleTransientTaskStart, HandleTransientTaskEnd.
  reg_steps.
Qed.

Lemma ref_HandleContinuousTaskStatus resType value payload r :
  refines r (HandleContinuousTaskStatus resType value payload) (continuous_effect value payload r).
Proof.
  unfold HandleContinuousTaskStatus, continuous_effect, HandleContinuousTaskUpdate,
    HandleContinuousTaskCancel, set_continuous_flags. reg_steps.
Qed.

Lemma ref_HandleFocusStateChange resType value payload r :
  refines r (HandleFocusStateChange resType value payload) (focus_effect value payload r).
Proof.
  unfold HandleFocusStateChange, focus_effect, HandleFocusedWindow, HandleUnfocusedWindow,
    name_from_bundle, GetBundleNameByUid. reg_steps.
Qed.

Lemma ref_HandleWindowVisibilityChanged resType value payload r :
  refines r (HandleWindowVisibilityChanged resType value payload) (visibility_effect value payload r).
Proof.
  unfold HandleWindowVisibilityChanged, visibility_effect. destruct (value =? 0); cbn [negb]; reg_steps.
  eapply spec_bind; [eapply spec_bind; [apply spec_reg_app|intros []; apply spec_reg_pid]|].
  intros []. cbv beta. reg_steps.
Qed.

Lemma ref_HandleReportWebviewAudioState resType value payload r :
  refines r (HandleReportWebviewAudioState resType value payload) (webview_audio_effect payload r).
Proof. unfold HandleReportWebviewAudioState, webview_audio_effect. reg_steps. Qed.

(** Events about a process of a known application. *)
Lemma ref_GetProcInfoByPayload r payload :
  spec True (reg_is q r) (GetProcInfoByPayload payload : M _) (fun _ => reg_is q (info_effect payload r)).
Proof.
  unfold GetProcInfoByPayload, info_effect. intros w Hw. unfold mbind at 1, ST_bind at 1, st_get.
  destruct (supervisor_ w) as [sup|] eqn:Es.
  2: { destruct Hw as (? & ? & ? & _). split_and!; [done..|]. intros sup Es'. congruence. }
  destruct (ParsePayload payload) as [[uid pid]|]; [|done].
  destruct (GetAppRecord uid sup) as [app|] eqn:Ea.
  - revert w Hw Es. assert (Hr : spec True (reg_is q r)
      (upd_app uid (GetProcessRecordNonNull pid);; mret (Some (uid, pid)) : M _)
      (fun _ => reg_is q (reg_pid uid pid r))).
    { eapply spec_bind; [apply spec_reg_pid|]. intros []. apply keeps_ret. }
    intros w Hw _. by apply Hr.
  - destruct Hw as (? & ? & ? & Hr). split_and!; [done..|]. intros sup' Es'.
    rewrite Es in Es'. injection Es' as <-. rewrite <- (Hr _ Es). symmetry. apply registry_ext.
    intros u. rewrite lookup_alter. case_decide as Hu; [subst|done]. unfold registry, GetAppRecord in *.
    simpl. by rewrite lookup_fmap, Ea.
Qed.

Lemma ref_info (k : Z * Z -> M unit) r payload :
  (forall r' up, keeps (reg_is q r') (k up)) ->
  refines r (o ← GetProcInfoByPayload payload; up <-? o; k up) (info_effect payload r).
Proof.
  intros Hk. eapply spec_bind; [apply ref_GetProcInfoByPayload|]. intros [up|]; [apply Hk|apply keeps_ret].
Qed.

Lemma reg_adjust_host r uid pid source (k : M unit) :
  keeps (reg_is q r) k -> keeps (reg_is q r) (adjust_host uid pid source k).
Proof. intros Hk. unfold adjust_host. reg_keeps. Qed.

Lemma ref_HandleReportKeyThread resType value payload r :
  refines r (HandleReportKeyThread resType value payload) (info_effect payload r).
Proof.
  apply (ref_info (fun up => let '(uid, pid) := up in _)). intros r' [uid pid].
  reg_keeps. apply reg_adjust_host, keeps_ret.
Qed.

Lemma ref_HandleReportWindowState resType value payload r :
  refines r (HandleReportWindowState resType value payload) (info_effect payload r).
Proof.
  apply (ref_info (fun up => let '(uid, pid) := up in _)). intros r' [uid pid].
  reg_keeps; [unfold UpdateActivepWebRenderInfo; reg_keeps|]. apply reg_adjust_host. reg_keeps.
Qed.

Lemma ref_HandleWebviewScreenCapture resType value payload r :
  refines r (HandleWebviewScreenCapture resType value payload) (info_effect payload r).
Proof. apply (ref_info (fun up => let '(uid, pid) := up in _)). intros r' [uid pid]. reg_keeps. Qed.

Lemma ref_HandleReportWebviewVideoState resType value payload r :
  refines r (HandleReportWebviewVideoState resType value payload) (info_effect payload r).
Proof. apply (ref_info (fun up => let '(uid, pid) := up in _)). intros r' [uid pid]. reg_keeps. Qed.

(** Events that leave the registry. *)
Lemma ref_HandleDrawingContentChangeWindow resType value payload r :
  refines r (HandleDrawingContentChangeWindow resType value payload) r.
Proof. unfold HandleDrawingContentChangeWindow. reg_steps. Qed.

Lemma ref_reports resType value payload r :
  Forall (fun h => refines r (h resType value payload) r)
    [HandleReportAudioState; HandleReportAudioCapTureState; HandleReportRunningLockEvent;
     HandleReportBluetoothConnectState; HandleNapModeEvent; HandleReportHisysEvent;
     HandleReportScreenCaptureEvent; HandleReportAvCodecEvent; UpdateMmiStatus].
Proof.
  repeat (apply List.Forall_cons); [..|by apply List.Forall_nil];
    [unfold HandleReportAudioState | unfold HandleReportAudioCapTureState
    | unfold HandleReportRunningLockEvent | unfold HandleReportBluetoothConnectState
    | unfold HandleNapModeEvent | unfold HandleReportHisysEvent
    | unfold HandleReportScreenCaptureEvent | unfold HandleReportAvCodecEvent
    | unfold UpdateMmiStatus]; reg_steps.
Qed.

Lemma ref_HandleSceneBoardState resType value payload r :
  refines r (HandleSceneBoardState resType value payload) r.
Proof. unfold HandleSceneBoardState. reg_steps. Qed.

Lemma ref_HandleReportCosmicCubeState resType value payload r :
  refines r (HandleReportCosmicCubeState resType value payload) r.
Proof.
  unfold HandleReportCosmicCubeState, HandleEmptyPayloadForCosmicCubeState. reg_steps.
Qed.

Lemma ref_CheckWebSubWinTaskStatus resType uid pid r :
  refines r (CheckWebSubWinTaskStatus resType uid pid) r.
Proof. unfold CheckWebSubWinTaskStatus. reg_steps. Qed.

Lemma ref_run_other resType value payload r : refines r (run_other resType value payload) r.
Proof.
  pose proof (ref_reports resType value payload r) as Hr. rewrite !Forall_cons in Hr.
  destruct Hr as (_ & _ & _ & ? & ? & ? & _ & ? & _). unfold run_other.
  repeat case_match; first [assumption | apply keeps_ret].
Qed.

(** A UI extension's state goes through the text of the payload. *)
Lemma ui_extension_payload name state payload uid :
  is_s32 state -> ParseValue "uid" payload = Some uid ->
  let p := json_set "extensionState" (json_of_string (to_string state)) payload in
  ParseValue "extensionState" p = Some state /\
  (name <> "extensionState" -> ParseValue name p = ParseValue name payload /\
                              ParseString name p = ParseString name payload).
Proof.
  intros Hs Hu p. unfold ParseValue, ParseString, p in *. apply fmap_Some in Hu as (t & Ht & _).
  pose proof (find_string_object _ _ _ Ht) as Ho. split.
  - rewrite find_string_set_eq by (by left). simpl. f_equal. by apply atoi_to_string.
  - intros Hn. by rewrite find_string_set_ne by done.
Qed.

Lemma ref_HandleUIExtensionAbilityStateChange resType value payload uid r :
  ParseValue "uid" payload = Some uid ->
  refines r (HandleUIExtensionAbilityStateChange resType value payload)
    (match ParseValue "extensionAbilityType" payload, ParseValue "uiExtensionState" payload with
     | Some _, Some state => extension_effect payload (Some state) r
     | _, _ => r
     end).
Proof.
  intros Hu. unfold HandleUIExtensionAbilityStateChange.
  destruct (ParseValue "extensionAbilityType" payload); [|apply keeps_ret].
  destruct (ParseValue "uiExtensionState" payload) as [state|] eqn:Es; [|apply keeps_ret]. cbv zeta.
  pose proof (fun name => ui_extension_payload name state payload uid (ParseValue_s32 _ _ _ Es) Hu) as Hp.
  cbv zeta in Hp. revert Hp. set (p := json_set _ _ payload). intros Hp.
  eapply refines_same; [apply ref_HandleExtensionStateChanged|].
  unfold extension_effect. rewrite (proj1 (Hp "")).
  assert (HV : forall name, name <> "extensionState" -> ParseValue name p = ParseValue name payload)
    by (intros name Hn; apply (Hp name), Hn).
  assert (HS : forall name, name <> "extensionState" -> ParseString name p = ParseString name payload)
    by (intros name Hn; apply (Hp name), Hn).
  by rewrite !HV, !HS by done.
Qed.

Lemma ref_HandleAbilityTerminated r uid pid recordId :
  keeps (reg_is q r) (HandleAbilityTerminated uid pid recordId : M unit).
Proof. unfold HandleAbilityTerminated. reg_keeps. Qed.

Lemma ref_HandleAbilityStateChanged resType value payload r :
  refines r (HandleAbilityStateChanged resType value payload) (ability_effect payload r).
Proof.
  unfold HandleAbilityStateChanged, ability_effect. apply reg_with_sup.
  destruct (ParseConfig payload) as [c|] eqn:Ec; [|apply keeps_ret].
  assert (Hu : ParseValue "uid" payload = Some (cfg_uid c)).
  { clear -Ec. unfold ParseConfig in Ec. apply bind_Some in Ec as (uid & Hu & Ec).
    repeat (apply bind_Some in Ec as (? & _ & Ec)). by simplify_eq. }
  destruct c as [uid pid bundleName abilityName recordId state type callerUid preload]. simpl in *.
  destruct (type =? AbilityType_EXTENSION); [by eapply ref_HandleUIExtensionAbilityStateChange|].
  destruct (state =? ABILITY_STATE_TERMINATED); simpl; [apply ref_HandleAbilityTerminated|].
  destruct (HandlePrelaunch state preload); [apply keeps_ret|]. reg_steps.
Qed.
End handlers.
