(* ===== verification/CgroupRefinement.v ===== *)
(** * The plugin refines the registry

    The handlers that look at the process model before they change the registry,
    the dispatch table, and the simulation of [exec_event] by [abs_exec]. *)
From S2P Require Import Prelude Json ResType Supervisor ProcessGroup World CgroupAdjuster CgroupEventHandler SchedController SupervisorFacts CgroupInvariant CgroupSafety Demo CgroupAdjust CgroupRegistry.

(** ** Registry facts *)

Lemma registry_lookup sup uid :
  reg_pids (registry sup) !! uid = (fun app => dom (pidsMap_ app)) <$> GetAppRecord uid sup.
Proof. apply lookup_fmap. Qed.

Lemma reg_app_known uid r : is_Some (reg_pids r !! uid) -> reg_app uid r = r.
Proof. intros [s Hs]. unfold reg_app, over. rewrite Hs. by destruct r. Qed.

Lemma reg_manager_foldl {A} (f : A -> Z * Z) l r :
  reg_manager (foldl (fun r p => reg_proc (f p).1 (f p).2 r) r l) = reg_manager r.
Proof. revert r. induction l as [|x l IH]; intros r; simpl; [done|]. by rewrite IH. Qed.

Lemma registry_foldl {A} (f : Supervisor -> A -> Supervisor) (g : Registry -> A -> Registry) l sup :
  (forall s x, registry (f s x) = g (registry s) x) -> registry (foldl f sup l) = foldl g (registry sup) l.
Proof. intros Hf. revert sup. induction l as [|x l IH]; intros sup; simpl; [done|]. by rewrite IH, Hf. Qed.

Lemma registry_ReloadApplication l sup :
  registry (ReloadApplication l sup)
  = if appManager_ sup then foldl (fun r p => reg_proc (rp_uid p) (rp_pid p) r) (registry sup) l
    else registry sup.
Proof.
  unfold ReloadApplication. destruct (appManager_ sup); [|done]. simpl. apply registry_foldl.
  intros s x. unfold reg_proc. rewrite registry_GetProcessRecordNonNull. f_equal.
  rewrite <- registry_GetAppRecordNonNull. destruct (rp_bundleNames x) as [|name ?]; [done|].
  apply registry_alter_app. intros app. unfold Application_SetName. by case_match.
Qed.

Lemma appManager_ReloadApplication l sup : appManager_ (ReloadApplication l sup) = appManager_ sup.
Proof.
  change (reg_manager (registry (ReloadApplication l sup)) = appManager_ sup).
  rewrite registry_ReloadApplication. destruct (appManager_ sup) eqn:E; [|done].
  by rewrite (reg_manager_foldl (fun p => (rp_uid p, rp_pid p)) l).
Qed.

Lemma registry_ReloadChildProcess l sup :
  registry (ReloadChildProcess l sup)
  = if appManager_ sup then foldl (fun r p => reg_proc (cp_hostUid p) (cp_pid p) r) (registry sup) l
    else registry sup.
Proof.
  unfold ReloadChildProcess. destruct (appManager_ sup); [|done]. simpl. apply registry_foldl.
  intros s x. cbv zeta. rewrite !registry_alter_proc, registry_GetProcessRecordNonNull.
  unfold reg_proc. f_equal. by rewrite registry_alter_app, registry_GetAppRecordNonNull.
Qed.

Lemma registry_InitSuperVisorContent o l l' sup :
  registry (InitSuperVisorContent o l l' sup)
  = let r := match o with Some proxy => (registry sup) <| reg_manager := proxy |> | None => registry sup end in
    if reg_manager r then
      foldl (fun r p => reg_proc (cp_hostUid p) (cp_pid p) r)
        (foldl (fun r p => reg_proc (rp_uid p) (rp_pid p) r) r l) l'
    else r.
Proof.
  unfold InitSuperVisorContent.
  rewrite registry_ReloadChildProcess, appManager_ReloadApplication, registry_ReloadApplication.
  by destruct o as [[]|]; simpl; [..|destruct (appManager_ sup)].
Qed.

Lemma registry_RemoveProcessRecord uid pid sup app :
  GetAppRecord uid sup = Some app ->
  registry (let sup := alter_app uid (RemoveProcessRecord pid) sup in
            if (size (pidsMap_ (RemoveProcessRecord pid app)) =? 0)%nat
            then RemoveApplication uid sup else sup)
  = reg_died uid pid (registry sup).
Proof.
  intros Ha. cbv zeta. 
  assert (Hl : reg_pids (registry sup) !! uid = Some (dom (pidsMap_ app))) by
    by rewrite registry_lookup, Ha.
  unfold reg_died, over. cbv beta iota. rewrite Hl.
  assert (Hd : dom (pidsMap_ (RemoveProcessRecord pid app)) = dom (pidsMap_ app) ∖ {[pid]}).
  { unfold RemoveProcessRecord. destruct (pidsMap_ app !! pid) eqn:Hp.
    - repeat case_match; simpl; apply dom_delete_L.
    - apply not_elem_of_dom in Hp. apply set_eq. intros i. rewrite elem_of_difference, elem_of_singleton.
      split; [intros Hi; split; [done|by intros ->] | by intros [? _]]. }
  rewrite <- Hd.
  assert (Hs : (size (pidsMap_ (RemoveProcessRecord pid app)) =? 0)%nat
               = bool_decide (dom (pidsMap_ (RemoveProcessRecord pid app)) = ∅)).
  { destruct (Nat.eqb_spec (size (pidsMap_ (RemoveProcessRecord pid app))) 0) as [E|E]; symmetry.
    - apply bool_decide_eq_true. apply map_size_empty_inv in E. rewrite E. apply dom_empty_L.
    - apply bool_decide_eq_false. intros E'. apply E. apply dom_empty_inv_L in E'. rewrite E'. apply map_size_empty. }
  rewrite Hs. destruct (decide (dom (pidsMap_ (RemoveProcessRecord pid app)) = ∅)) as [E|E].
  - rewrite bool_decide_eq_true_2 by done. apply registry_ext. intros u. simpl. unfold over. simpl.
    rewrite !lookup_fmap. destruct (decide (u = uid)) as [->|?]; [by rewrite !lookup_delete_eq|].
    rewrite !lookup_delete_ne, lookup_alter_ne by done. by rewrite lookup_fmap.
  - rewrite bool_decide_eq_false_2 by done. apply registry_ext. intros u. simpl.
    rewrite lookup_fmap. unfold GetAppRecord in Ha.
    destruct (decide (u = uid)) as [->|?]; [by rewrite lookup_alter_eq, lookup_insert_eq, Ha|].
    by rewrite lookup_alter_ne, lookup_insert_ne, lookup_fmap by done.
Qed.

Section refinement.
Context {J K : Type} `{!Json J} `{!JsonLaws J} `{!Platform J K} `{!AppExecFwk}.
Context `{!PlatformLaws J K}.
#[local] Abbreviation M := (ST (World J K)).
Implicit Types (w : World J K) (payload : J) (r : Registry).

#[local] Abbreviation refines q r m r' :=
  (spec True (reg_is (K := K) q r) (m : M unit) (fun _ => reg_is (K := K) q r')).

Lemma reg_is_sup q r w sup : reg_is q r w -> supervisor_ w = Some sup -> registry sup = r.
Proof. intros (_ & _ & _ & Hr). apply Hr. Qed.

Lemma reg_is_none q r r' w : reg_is q r w -> supervisor_ w = None -> reg_is q r' w.
Proof. intros (? & ? & ? & _) E. split_and!; [done..|]. intros sup E'. congruence. Qed.

Lemma reg_is_set q r r' w sup :
  reg_is q r w -> registry sup = r' -> reg_is q r' (w <| supervisor_ := Some sup |>).
Proof. intros (? & ? & ? & _) <-. split_and!; [done..|]. by intros ? [= <-]. Qed.

(** The case distinction on whether the application is known. *)
Lemma ref_find_app q r r' uid (k : Application -> M unit) :
  (forall app, refines q r (k app) r') -> (reg_pids r !! uid = None -> r' = r) ->
  refines q r (sup ← get_sup; app <-? GetAppRecord uid sup; k app) r'.
Proof.
  intros Hk Hn w Hw. unfold get_sup, mbind, ST_bind, st_get, st_some.
  destruct (supervisor_ w) as [sup|] eqn:E; [|done]. simpl.
  destruct (GetAppRecord uid sup) as [app|] eqn:Ea; [by apply Hk|]. rewrite Hn; [done|].
  by rewrite <- (reg_is_sup _ _ _ _ Hw E), registry_lookup, Ea.
Qed.

Lemma ref_remove_process q r uid pid :
  refines q r (upd_app uid (RemoveProcessRecord pid);;
               app ← get_app uid;
               st_when (size (pidsMap_ app) =? 0)%nat (upd_sup (RemoveApplication uid)))
    (reg_died uid pid r).
Proof.
  intros w Hw. unfold upd_app, get_app, upd_sup, get_sup, mbind, ST_bind, st_get, st_some, set_sup,
    st_modify. destruct (supervisor_ w) as [sup|] eqn:E; [|done]. simpl.
  destruct (GetAppRecord uid sup) as [app|] eqn:Ea; simpl; [|done]. rewrite E. simpl.
  rewrite GetAppRecord_alter_app, decide_True, Ea by done. simpl.
  pose proof (registry_RemoveProcessRecord uid pid sup app Ea) as Hr. cbv zeta in Hr.
  rewrite (reg_is_sup _ _ _ _ Hw E) in Hr.
  destruct Hw as (? & ? & ? & _).
  destruct (_ =? 0)%nat; (split_and!; [done..|]); intros ? [= <-]; exact Hr.
Qed.

Lemma reg_died_unknown uid pid r : reg_pids r !! uid = None -> reg_died uid pid r = r.
Proof. intros Hn. unfold reg_died, over. rewrite Hn. by destruct r. Qed.

Lemma ref_HandleProcessDied q resType payload r :
  refines q r (HandleProcessDied resType PROCESS_DIED payload)
    (process_effect PROCESS_DIED payload r).
Proof.
  unfold HandleProcessDied, process_effect. change (PROCESS_DIED =? PROCESS_CREATED) with false.
  rewrite Z.eqb_refl.
  destruct (ParseValue "uid" payload) as [uid|]; [|apply keeps_ret].
  destruct (ParseValue "pid" payload) as [pid|]; [|apply keeps_ret].
  destruct (ParseString "bundleName" payload); [|apply keeps_ret].
  apply ref_find_app; [|apply reg_died_unknown]. intros app.
  do 2 reg_step. apply ref_remove_process.
Qed.

Lemma ref_HandleProcessStateChangedEx q resType value payload r :
  refines q r (HandleProcessStateChangedEx resType value payload) (process_effect value payload r).
Proof.
  unfold HandleProcessStateChangedEx. apply reg_with_sup.
  destruct (Z.eqb_spec value PROCESS_CREATED) as [->|]; [apply ref_HandleProcessCreated|].
  destruct (Z.eqb_spec value PROCESS_DIED) as [->|]; [apply ref_HandleProcessDied|].
  by apply ref_HandleProcessStateChanged.
Qed.

Lemma ref_HandleOnAppStopped q resType value payload r :
  refines q r (HandleOnAppStopped resType value payload) (stopped_effect payload r).
Proof.
  unfold HandleOnAppStopped, stopped_effect. apply reg_with_sup.
  destruct (parse_int32 "uid" payload) as [uid|]; [|apply keeps_ret].
  destruct (find_string "bundleName" payload); [|apply keeps_ret].
  apply spec_upd_sup. intros sup <-. apply registry_ext. intros u. simpl. unfold over. simpl.
  by rewrite fmap_delete.
Qed.

(** The uid in a record is the key of its application. *)
Lemma ref_HandleReportWebSubWinTaskStatus q resType value payload r :
  spec True (fun w => Live w /\ reg_is q r w)
    (HandleReportWebSubWinTaskStatus resType value payload) (fun _ => reg_is q r).
Proof.
  intros w [Hl Hw]. pose proof Hl as [_ [sup E]]. unfold HandleReportWebSubWinTaskStatus.
  rewrite run_get_bind, E.
  destruct (ParseValue "pid" payload) as [pid|]; [|done]. destruct (pid <=? 0); [done|].
  rewrite (run_bind _ _ _ _ _ (run_get_sup _ _ E)).
  destruct (FindProcessRecord pid sup) as [[u p]|] eqn:Ef; [|done]. cbn [fst snd].
  destruct (FindProcessRecord_fact _ _ _ _ _ (live_I _ Hl) E Ef) as (Hp & Hu & HI). simpl in Hp, Hu, HI.
  subst p. pose proof (I_fact _ _ (FProc u pid) _ _ HI E ltac:(solve_in)) as [pr Hpr].
  rewrite (run_bind _ _ _ _ _ (run_get_proc _ _ _ _ _ E Hpr)).
  destruct (live_facts _ _ _ _ _ Hl E Hpr) as [_ Hwf].
  rewrite (wf_pr_uid _ _ _ _ Hwf), (to_s32_u32_id _ Hu).
  assert (Hk : reg_app u r = r).
  { apply reg_app_known. rewrite <- (reg_is_sup _ _ _ _ Hw E), registry_lookup.
    apply find_proc_Some in Hpr as (app & -> & _). by eexists. }
  clear Hwf HI. revert w Hw Hl E. cut (refines q r (upd_sup (GetAppRecordNonNull u);;
    let webSubWinTaskState := value =? WEB_SUBWIN_CALL_START in
    upd_proc u pid (fun pr => pr <| webSubWinTaskState_ := webSubWinTaskState |>);;
    ReportSysEvent u (u, pid) resType (Z.b2z webSubWinTaskState);;
    w ← st_get;
    ret_if negb (cgHandler_ w);
    let taskName := web_subwin_task_name pid u in
    RemoveTask taskName;;
    procRecord ← get_proc u pid;
    st_when (webSubWinTaskState_ procRecord)
      (PostDelayedTask (TaskCheckWebSubWin resType u pid) taskName CHECK_WEB_SUBWIN_TASK_DELAY)) r);
    [intros Hr w Hw _ _; by apply Hr|].
  eapply spec_bind; [apply spec_reg_app|]. intros []. cbv beta. rewrite Hk. reg_steps.
Qed.

(** ** The table *)

(** What is shown of the handler of one event type. *)
Definition handler_refines q (resType : Z) (func : Z -> Z -> J -> M unit) : Prop :=
  forall value payload r, spec True (fun w => Live w /\ reg_is q r w) (func resType value payload)
    (fun _ => reg_is q (effect resType value payload r)).

Lemma handler_refines_live q resType func :
  (forall value payload r, refines q r (func resType value payload) (effect resType value payload r)) ->
  handler_refines q resType func.
Proof. intros Hf value payload r w [_ Hw]. by apply Hf. Qed.

(** Every handler of the table but the one that posts a task. *)
Lemma table_refines q :
  Forall (fun p => p.1 = RES_TYPE_SYSTEM_ABILITY_STATUS_CHANGE \/ handler_refines q p.1 p.2)
    (dispatchResFuncMap_ (J := J) (K := K)).
Proof.
  unfold dispatchResFuncMap_, AddDispatchResFuncMap. cbn [app].
  repeat (apply List.Forall_cons); [..|by apply List.Forall_nil]; cbn [fst snd];
    first [by left | right].
  all: try (apply handler_refines_live; intros value payload r;
    first
    [ exact (ref_HandleReportKeyThread q _ value payload r)
    | exact (ref_HandleReportWindowState q _ value payload r)
    | exact (ref_HandleReportWebviewAudioState q _ value payload r)
    | exact (ref_HandleSceneBoardState q _ value payload r)
    | exact (ref_HandleWebviewScreenCapture q _ value payload r)
    | exact (ref_HandleReportWebviewVideoState q _ value payload r)
    | exact (ref_HandleReportCosmicCubeState q _ value payload r)
    | exact (ref_HandleOnAppStopped q _ value payload r)
    | exact (ref_HandleAbilityStateChanged q _ value payload r)
    | exact (ref_HandleExtensionStateChanged q _ value payload r)
    | exact (ref_HandleProcessStateChangedEx q _ value payload r)
    | exact (ref_HandleApplicationStateChanged q _ value payload r)
    | exact (ref_HandleFocusStateChange q _ value payload r)
    | exact (ref_HandleWindowVisibilityChanged q _ value payload r)
    | exact (ref_HandleDrawingContentChangeWindow q _ value payload r)
    | exact (ref_HandleTransientTaskStatus q _ value payload r)
    | exact (ref_HandleContinuousTaskStatus q _ value payload r)
    | lazymatch goal with |- spec _ _ (_ ?resType _ _) _ =>
        let Hr := fresh in pose proof (ref_reports q resType value payload r) as Hr;
        rewrite !Forall_cons in Hr; destruct Hr as (? & ? & ? & ? & ? & ? & ? & ? & ? & _); assumption
      end ]).
  intros value payload r. exact (ref_HandleReportWebSubWinTaskStatus q _ value payload r).
Qed.

(** ** System abilities *)

Lemma ref_GetRunningLockState q r k l :
  platform_running_locks (J := J) k = Some l ->
  spec True (fun w => reg_is q r w /\ outer w = k) (GetRunningLockState : M unit)
    (fun _ => reg_is q (foldl (fun r p => reg_proc (lock_uid p.2) (lock_pid p.2) r) r l)).
Proof.
  intros Hl w [Hw Hk]. unfold GetRunningLockState. rewrite run_get_bind, Hk, Hl.
  pose proof Hw as (Hs & _). rewrite Hs. cbn [negb]. clear Hk Hl Hs. revert r w Hw.
  induction l as [|[name lock] l IH]; intros r; [by intros w Hw|]. cbn [st_iter foldl snd].
  apply spec_bind with (R := fun _ => reg_is q (reg_proc (lock_uid lock) (lock_pid lock) r));
    [|intros []; exact (IH _)].
  eapply spec_bind; [apply spec_reg_app|]. intros []. eapply spec_bind; [apply spec_reg_pid|]. intros [].
  apply reg_upd_proc.
Qed.

Lemma ref_HandleAbilityAdded q r k saId deviceId :
  spec True (fun w => reg_is q r w /\ outer w = k) (HandleAbilityAdded saId deviceId : M unit)
    (fun _ => reg_is q (added_effect (J := J) k saId r)).
Proof.
  intros w [Hw Hk]. unfold HandleAbilityAdded, added_effect. rewrite run_get_bind.
  destruct (saId =? APP_MGR_SERVICE_ID).
  - destruct (supervisor_ w) as [sup|] eqn:E; [|by eapply reg_is_none].
    unfold upd_sup. rewrite (run_bind _ _ _ _ _ (run_get_sup _ _ E)). unfold set_sup, st_modify.
    eapply reg_is_set; [exact Hw|]. rewrite registry_InitSuperVisorContent, (reg_is_sup _ _ _ _ Hw E), Hk.
    done.
  - destruct (saId =? POWER_MANAGER_SERVICE_ID); [|done].
    destruct (platform_running_locks (J := J) k) as [l|] eqn:El.
    + by apply (ref_GetRunningLockState q r k l El w).
    + unfold GetRunningLockState. rewrite run_get_bind, Hk, El. by destruct (negb _).
Qed.

(** ** Tasks *)

Lemma effect_default resType value payload r :
  find_handler (J := J) (K := K) resType = None -> effect resType value payload r = r.
Proof.
  intros Hn. unfold effect. destruct (find_first _ effects) as [[t f]|] eqn:E; [|done]. exfalso.
  apply find_first_Some in E as [Hin Ht]. simpl in Ht. apply Z.eqb_eq in Ht as ->.
  assert (Hall : Forall (fun p => is_Some (find_handler (J := J) (K := K) p.1)) (effects (J := J))).
  { unfold effects. repeat (apply List.Forall_cons; [by eexists|]). by apply List.Forall_nil. }
  rewrite Forall_forall in Hall. specialize (Hall _ Hin). simpl in Hall. rewrite Hn in Hall.
  by destruct Hall.
Qed.

Lemma abstracts_reg_is w a :
  abstracts w a <->
  reg_is (Some (abs_queue a)) (abs_registry a) w /\ is_Some (supervisor_ w).
Proof.
  unfold abstracts, reg_is, on_sup. split.
  - intros (H1 & H2 & H3 & sup & E & Hr). split; [|by exists sup]. split_and!; [done..|]. congruence.
  - intros [(H1 & H2 & H3 & Hr) [sup E]]. split_and!; [done..|]. exists sup. auto.
Qed.

Lemma refine_task w a task :
  Live w -> abstracts w a -> task_ok task ->
  exists w', run_task task w = Some (tt, w') /\ Live w' /\ abstracts w' (abs_task (outer w) task a).
Proof.
  intros Hl [Hw _]%abstracts_reg_is Ht. pose proof (live_run_task task Ht w Hl) as Hlive.
  destruct (run_task task w) as [[[] w']|] eqn:Er; [|done]. exists w'. split_and!; [done..|].
  apply abstracts_reg_is. split; [|by destruct Hlive].
  destruct a as [queue r]. cbn [abs_queue abs_registry] in *.
  destruct task as [resType value payload|resType value payload|saId deviceId value| |resType uid pid];
    cbn [run_task abs_task] in *.
  - destruct (Z.eqb_spec resType RES_TYPE_SYSTEM_ABILITY_STATUS_CHANGE) as [->|Hne].
    + change (find_handler RES_TYPE_SYSTEM_ABILITY_STATUS_CHANGE) with (Some (ReportAbilityStatus (J := J) (K := K))) in Er.
      unfold ReportAbilityStatus, PostTask, st_modify in Er. injection Er as <-.
      destruct Hw as (H1 & H2 & H3 & Hr). split_and!; [done..| |done]. simpl. by rewrite H3.
    + destruct (find_handler resType) as [f|] eqn:Ef.
      * unfold find_handler in Ef. destruct (find_first _ _) as [[t g]|] eqn:E; [|done]. injection Ef as ->.
        apply find_first_Some in E as [Hin Heq]. simpl in Heq. apply Z.eqb_eq in Heq as ->.
        pose proof (table_refines (Some queue)) as Htab. rewrite Forall_forall in Htab.
        destruct (Htab _ Hin) as [?|Hr]; [done|]. specialize (Hr value payload r w (conj Hl Hw)).
        cbn [snd fst] in Hr. by rewrite Er in Hr.
      * injection Er as <-. by rewrite effect_default.
  - pose proof (ref_run_other (Some queue) resType value payload r w Hw) as Hr. by rewrite Er in Hr.
  - destruct (value >? 0); [|by injection Er as <-].
    pose proof (ref_HandleAbilityAdded (Some queue) r (outer w) saId deviceId w (conj Hw eq_refl)) as Hr.
    by rewrite Er in Hr.
  - assert (Hr : keeps (reg_is (Some queue) r) (AdjustSelfProcessGroup : M unit)).
    { unfold AdjustSelfProcessGroup. reg_keeps. }
    specialize (Hr w Hw). by rewrite Er in Hr.
  - pose proof (ref_CheckWebSubWinTaskStatus (Some queue) resType uid pid r w Hw) as Hr. by rewrite Er in Hr.
Qed.

(** ** Events *)

Lemma find_handler_keys resType :
  existsb (Z.eqb resType) (map fst (dispatchResFuncMap_ (J := J) (K := K)))
  = bool_decide (is_Some (find_handler (J := J) (K := K) resType)).
Proof.
  unfold find_handler. induction dispatchResFuncMap_ as [|[t f] l IH]; [done|]. simpl.
  rewrite (Z.eqb_sym resType t). destruct (t =? resType); [done|]. exact IH.
Qed.

Lemma refine_post w a task :
  abstracts w a -> abstracts (w <| cgroupEventQueue_ ::= fmap (fun q => q ++ [task]) |>)
                     (mkAbstract (abs_queue a ++ [task]) (abs_registry a)).
Proof. intros (? & ? & Hq & sup & E & ?). split_and!; [done..| |by exists sup]. simpl. by rewrite Hq. Qed.

Lemma refine_other w a resType value payload w' :
  abstracts w a -> DispatchOtherResource resType value payload w = Some (tt, w') ->
  abstracts w' (mkAbstract (abs_queue a ++ [TaskOther resType value payload]) (abs_registry a)).
Proof.
  intros Ha Ed. pose proof Ha as (_ & Hc & _). unfold DispatchOtherResource in Ed.
  rewrite run_get_bind, Hc in Ed. cbn [negb] in Ed. unfold PostTask, mbind, ST_bind, st_modify in Ed.
  apply (refine_post w a (TaskOther resType value payload)) in Ha.
  unfold DispatchResourceExt in Ed. destruct (dispatchResourceExtFunc_ _) as [f|];
    [rewrite pl_open in Ed|]; injection Ed as <-; exact Ha.
Qed.

Lemma refine_dispatch w a resType value payload w' :
  abstracts w a -> DispatchResource resType value payload w = Some (tt, w') ->
  abstracts w' (abs_exec (outer w) (EvDispatch resType value payload) a).
Proof.
  intros Ha Er. pose proof Ha as (_ & Hc & _). unfold DispatchResource in Er.
  rewrite run_get_bind, Hc in Er. cbn [negb] in Er. cbn [abs_exec]. rewrite find_handler_keys.
  destruct (find_handler resType) as [f|]; simpl; [|by eapply refine_other].
  unfold PostTask, mbind at 1, ST_bind at 1, st_modify at 1 in Er.
  eapply refine_other in Er; [|by apply refine_post]. simpl in Er. by rewrite <- app_assoc in Er.
Qed.

Lemma live_pop w task rest :
  Live w -> cgroupEventQueue_ w = Some (task :: rest) ->
  Live (w <| cgroupEventQueue_ := Some rest |>) /\ task_ok task.
Proof.
  intros [[G1 G2 G3 G4 G5 G6] G7] Hq. pose proof (G3 _ Hq) as [Ht Hrest]%Forall_cons.
  split; [|done]. split; [|done]. split; try done; simpl; by intros ? [= <-].
Qed.

Lemma refine_run_head w a w' :
  Live w -> abstracts w a -> run_head w = Some (tt, w') -> abstracts w' (abs_exec (outer w) EvRun a).
Proof.
  intros Hl (Hs & Hc & Hq & sup & E & Hr) Er. unfold run_head in Er. rewrite run_get_bind, Hq in Er.
  cbn [abs_exec]. destruct (abs_queue a) as [|task rest] eqn:Eq.
  { injection Er as <-. split_and!; [done..|by rewrite Eq|by exists sup]. }
  rewrite (run_bind _ _ _ tt (w <| cgroupEventQueue_ := Some rest |>)) in Er by done.
  destruct (live_pop _ _ _ Hl Hq) as [Hl1 Ht].
  destruct (refine_task _ (mkAbstract rest (abs_registry a)) task Hl1) as (w2 & Er2 & _ & Ha2);
    [split_and!; [done..|by exists sup]|done|].
  rewrite Er in Er2. injection Er2 as <-. exact Ha2.
Qed.

Lemma refine_fire w a handle w' :
  Live w -> Live w' -> abstracts w a -> fire handle w = Some (tt, w') -> abstracts w' a.
Proof.
  intros Hl Hl' Ha Er. unfold fire in Er. rewrite run_get_bind in Er.
  destruct (delayed_ w !! handle) as [dt|] eqn:Ed; [|by injection Er as <-].
  set (w1 := w <| delayed_ ::= delete handle |>) in *.
  rewrite (run_bind _ _ _ tt w1) in Er by done.
  destruct Hl as [[_ _ _ G4 _ _] _]. destruct (G4 _ _ Ed) as (_ & resType & uid & pid & Ht & _).
  rewrite Ht in Er. cbn [run_task] in Er.
  assert (Hw1 : reg_is (Some (abs_queue a)) (abs_registry a) w1) by (apply abstracts_reg_is; done).
  pose proof (ref_CheckWebSubWinTaskStatus _ resType uid pid _ w1 Hw1) as Hk.
  destruct (CheckWebSubWinTaskStatus resType uid pid w1) as [[[] w2]|] eqn:Ec;
    [|unfold mbind, ST_bind in Er; by rewrite Ec in Er].
  rewrite (run_bind _ _ _ _ _ Ec) in Er. injection Er as <-.
  apply abstracts_reg_is. split; [exact Hk|]. by destruct Hl'.
Qed.
End refinement.

(** C1: The plugin refines the registry of processes. In a live state (the invariant holds and
    the process model exists), whatever event comes next, with type ids below 32 and serial
    numbers that are not negative in its payload, is answered, and the registry of
    applications and processes, the link to the application manager and the queue afterwards
    are those of the abstract plugin [abs_exec], which knows nothing of records, windows,
    abilities, groups or calls. The outside is as [PlatformLaws] says: the libraries were
    loaded with all their symbols, their functions write scheduling fields only, the list of
    processes of a group is shorter than the buffer of 4096 bytes, the service manager is
    there, uids have 32 bits, and the group API answers, with -1 for ids that are not
    positive. A larger type id makes the handler shift too far, which is undefined. *)
Theorem plugin_refines_registry {J K} `{!Json J} `{!JsonLaws J} `{!Platform J K} `{!AppExecFwk}
    `{!PlatformLaws J K} (w : World J K) (a : Abstract (J := J)) (e : Event (J := J)) :
  Live w -> abstracts w a -> event_ok e ->
  exists w', exec_event e w = Some (tt, w') /\ Live w' /\ abstracts w' (abs_exec (outer w) e a).
Proof.
  intros Hl Ha He. pose proof (live_exec_event e He w Hl) as Hlive.
  destruct (exec_event e w) as [[[] w']|] eqn:Er; [|done]. exists w'. split_and!; [done..|].
  destruct e as [resType value payload| |handle]; cbn [exec_event] in Er.
  - by apply refine_dispatch.
  - by apply refine_run_head.
  - by apply (refine_fire w a handle).
Qed.

Lemma plugin_refines_registry_witness :
  exists a w', abstracts demo_state a /\
    reg_pids (abs_registry a) = {[ 20010001 := {[100; 101]} ]} /\
    exec_event (EvDispatch RES_TYPE_APP_STOPPED 0 (text_payload [])) demo_state = Some (tt, w') /\
    abstracts w' (abs_exec (outer demo_state) (EvDispatch RES_TYPE_APP_STOPPED 0 (text_payload [])) a).
Proof.
  assert (Ha : abstracts demo_state (mkAbstract [] (registry demo_sup))).
  { split_and!; [vm_compute; reflexivity..|]. exists demo_sup. split; [exact demo_sup_eq | reflexivity]. }
  assert (He : event_ok (EvDispatch RES_TYPE_APP_STOPPED 0 (text_payload []))).
  { split; [vm_compute; constructor | intros s Hs; vm_compute in Hs; discriminate]. }
  destruct (plugin_refines_registry demo_state _ _ demo_live Ha He) as (w' & E & _ & Ha').
  exists (mkAbstract [] (registry demo_sup)), w'. split_and!; [exact Ha|vm_compute; reflexivity|exact E|exact Ha'].
Defined.
