(* ===== verification/ProcessGroupFacts.v ===== *)
(** * Facts about process groups

    The table of policy names over any sequence of declarations, the states that
    the entry points reach, and what moving a process writes. *)
From S2P Require Import Prelude Json Supervisor SupervisorFacts ProcessGroup World Demo.

(** ** The table of names *)

Record names_ok (a : CgroupAction) : Prop := {
  no_upper : forall (p : SchedPolicy) n, fullNames_ a !! p = Some n -> p < SP_UPPER_LIMIT;
  no_empty : forall (p : SchedPolicy) n, fullNames_ a !! p = Some n -> n <> "";
  no_clash : forall (p p' : SchedPolicy) n, fullNames_ a !! p = Some n -> fullNames_ a !! p' = Some n -> p = p';
  same_dom : forall p : SchedPolicy, is_Some (abbrNames_ a !! p) <-> is_Some (fullNames_ a !! p);
  abbr_no_empty : forall (p : SchedPolicy) n, abbrNames_ a !! p = Some n -> n <> "";
}.

Lemma name_used_false a n :
  existsb (fun kv => String.eqb kv.2 n) (map_to_list (fullNames_ a)) = false ->
  forall p, fullNames_ a !! p <> Some n.
Proof.
  intros Hx p Hp. apply not_true_iff_false in Hx. apply Hx, existsb_exists.
  exists (p, n). split; [|apply String.eqb_refl]. by apply list_elem_of_In, elem_of_map_to_list.
Qed.

Lemma names_ok_declare policy fullName abbrName a :
  names_ok a -> names_ok (AddSchedPolicyDeclaration policy fullName abbrName a).
Proof.
  intros Ha. unfold AddSchedPolicyDeclaration.
  destruct (negb _); [done|]. destruct (policy >=? SP_UPPER_LIMIT) eqn:Eu; [done|].
  destruct (String.eqb fullName "" || String.eqb abbrName "") eqn:Ee; [done|].
  case_bool_decide as Hd; [done|]. destruct (existsb _ _) eqn:Ex; [done|].
  apply orb_false_iff in Ee as [Ef Eab]. apply String.eqb_neq in Ef, Eab.
  pose proof (name_used_false _ _ Ex) as Hfree. destruct Ha as [H1 H2 H3 H4 H5].
  assert (Hlt : policy < SP_UPPER_LIMIT) by lia.
  split; simpl.
  - intros p n [[<- <-]|[_ Hp]]%lookup_insert_Some; [done | by eapply H1].
  - intros p n [[<- <-]|[_ Hp]]%lookup_insert_Some; [done | by eapply H2].
  - intros p p' n [[<- <-]|[Hn Hp]]%lookup_insert_Some [[<- E]|[Hn' Hp']]%lookup_insert_Some;
      [done | by destruct (Hfree p') | subst; by destruct (Hfree p) | by eapply H3].
  - intros p. by rewrite !lookup_insert_is_Some', H4.
  - intros p n [[<- <-]|[_ Hp]]%lookup_insert_Some; [done | by eapply H5].
Qed.

Lemma names_ok_new : names_ok new_CgroupAction.
Proof.
  unfold new_CgroupAction. do 5 apply names_ok_declare.
  split; simpl; intros *; by rewrite ?lookup_empty.
Qed.

(** Any sequence of declarations. *)
Definition declare_all (ds : list (Z * string * string)) (a : CgroupAction) : CgroupAction :=
  foldl (fun a d => AddSchedPolicyDeclaration d.1.1 d.1.2 d.2 a) a ds.

Lemma names_ok_declare_all ds a : names_ok a -> names_ok (declare_all ds a).
Proof.
  revert a. induction ds as [|d ds IH]; intros a Ha; [done|]. by apply IH, names_ok_declare.
Qed.

Lemma declare_keeps policy fullName abbrName a p n :
  fullNames_ a !! p = Some n ->
  fullNames_ (AddSchedPolicyDeclaration policy fullName abbrName a) !! p = Some n.
Proof.
  intros Hp. unfold AddSchedPolicyDeclaration. destruct (negb _); [done|].
  destruct (_ >=? _); [done|]. destruct (_ || _); [done|]. case_bool_decide as Hd; [done|].
  destruct (existsb _ _); [done|]. simpl. rewrite lookup_insert_ne; [done|].
  intros ->. apply Hd. by eexists.
Qed.

Lemma declare_all_keeps ds a p n :
  fullNames_ a !! p = Some n -> fullNames_ (declare_all ds a) !! p = Some n.
Proof.
  revert a. induction ds as [|d ds IH]; intros a Ha; [done|]. by apply IH, declare_keeps.
Qed.

Lemma by_name_found a p n :
  names_ok a -> fullNames_ a !! p = Some n -> GetSchedPolicyByName n a = (0, p).
Proof.
  intros Ha Hp. unfold GetSchedPolicyByName.
  destruct (find_first _ _) as [[q m]|] eqn:E.
  - apply find_first_Some in E as [Hin Heq]. simpl in Heq. apply String.eqb_eq in Heq as ->.
    apply elem_of_in_order in Hin. by rewrite (no_clash _ Ha _ _ _ Hin Hp).
  - apply elem_of_in_order in Hp. apply find_first_None in E. rewrite Forall_forall in E. pose proof (E _ Hp) as Hn.
    simpl in Hn. by rewrite String.eqb_refl in Hn.
Qed.

Lemma by_name_sound a p n :
  GetSchedPolicyByName n a = (0, p) -> fullNames_ a !! p = Some n.
Proof.
  unfold GetSchedPolicyByName. destruct (find_first _ _) as [[q m]|] eqn:E; [|done].
  intros [= <-]. apply find_first_Some in E as [Hin Heq]. simpl in Heq.
  apply String.eqb_eq in Heq as ->. by apply elem_of_in_order.
Qed.

(** Policy names and policies are in bijection, whatever is declared: after any
    sequence of declarations (also of used, empty or out-of-range ones, which are
    refused) on top of the built-in ones, looking up the full name of a valid policy
    gives that policy, a name that is found is the full name of the policy found,
    every valid policy is below the upper limit and has two names that are not
    empty, and the built-in policies keep theirs. *)
Theorem policy_names_round_trip ds :
  let a := declare_all ds new_CgroupAction in
  (forall p, IsSchedPolicyValid p a = true ->
     GetSchedPolicyByName (GetSchedPolicyFullName p a) a = (0, p) /\ p < SP_UPPER_LIMIT /\
     GetSchedPolicyFullName p a <> "" /\ GetSchedPolicyAbbrName p a <> "") /\
  (forall p n, GetSchedPolicyByName n a = (0, p) ->
     IsSchedPolicyValid p a = true /\ GetSchedPolicyFullName p a = n) /\
  GetSchedPolicyByName "sp_top_app" a = (0, SP_TOP_APP).
Proof.
  intros a. assert (Ha : names_ok a) by apply names_ok_declare_all, names_ok_new.
  split_and!.
  - intros p Hv%bool_decide_eq_true. destruct Hv as [n Hn]. pose proof (mk_is_Some _ _ Hn) as Hab.
    apply (same_dom _ Ha) in Hab as [m Hm]. unfold GetSchedPolicyFullName, GetSchedPolicyAbbrName.
    rewrite Hn, Hm. split_and!; [by apply by_name_found|by eapply no_upper|by eapply no_empty|by eapply abbr_no_empty].
  - intros p n Hp%by_name_sound. unfold IsSchedPolicyValid, GetSchedPolicyFullName. rewrite Hp.
    split; [|done]. by apply bool_decide_eq_true.
  - apply by_name_found; [done|]. by apply declare_all_keeps.
Qed.

Lemma policy_names_round_trip_witness :
  let a := declare_all [(10, "sp_custom", "cu"); (11, "sp_custom", "cv"); (300, "sp_high", "hi")] new_CgroupAction in
  GetSchedPolicyByName (GetSchedPolicyFullName 10 a) a = (0, 10).
Proof.
  intros a.
  destruct (policy_names_round_trip [(10, "sp_custom", "cu"); (11, "sp_custom", "cv"); (300, "sp_high", "hi")])
    as (Hr & _). apply Hr. by vm_compute.
Defined.

(** ** The states that the entry points reach *)

Section reach.
Context {J O : Type} `{!Json J} `{!Os J O}.
#[local] Abbreviation PG := (ST (ProcessGroup O)).
Implicit Types (a : CgroupAction) (c : CgroupController) (s : ProcessGroup O).

(** What other code asks of this directory. *)
Inductive PgCall : Type :=
  | PgDeclare (policy : Z) (fullName abbrName : string)
  | PgSetThread (tid policy : Z)
  | PgSetThreadGroup (pid policy : Z)
  | PgGetThread (tid : Z).

Definition exec_pg (x : PgCall) : PG unit :=
  match x with
  | PgDeclare policy fullName abbrName =>
      st_modify (fun s => s <| action ::= AddSchedPolicyDeclaration policy fullName abbrName |>)
  | PgSetThread tid policy => SetThreadSchedPolicy (J := J) tid policy;; mret tt
  | PgSetThreadGroup pid policy => SetThreadGroupSchedPolicy_impl (J := J) pid policy;; mret tt
  | PgGetThread tid => GetThreadSchedPolicy (J := J) tid;; mret tt
  end.

(** The process starts with the built-in names and no controller. *)
Definition new_ProcessGroup (o : O) : ProcessGroup O :=
  mkProcessGroup new_CgroupAction ∅ None None o.

Definition pg_run (o : O) (xs : list PgCall) : option (unit * ProcessGroup O) :=
  st_iter exec_pg xs (new_ProcessGroup o).

(** A controller has a descriptor, possibly -1, for each declared policy and for
    no other; it is filed under its name. *)
Definition covers a c : Prop :=
  (forall p, is_Some (policyToTaskFd_ c !! p) <-> is_Some (fullNames_ a !! p)) /\
  (forall p, is_Some (policyToProcFd_ c !! p) <-> is_Some (fullNames_ a !! p)).

(** Once the names are frozen. *)
Definition frozen a s : Prop :=
  action s = a /\ allowToAdd_ a = false /\
  forall key c, controllers_ s !! key = Some c -> covers a c.

Definition pg_inv s : Prop :=
  names_ok (action s) /\
  if allowToAdd_ (action s) then controllers_ s = ∅ else frozen (action s) s.

Lemma lookup_insert_covered {A} (m : gmap Z A) (f : gmap Z string) p x :
  is_Some (f !! p) -> (forall q, is_Some (m !! q) <-> is_Some (f !! q)) ->
  forall q, is_Some (<[p := x]> m !! q) <-> is_Some (f !! q).
Proof. intros Hp Hm q. rewrite lookup_insert_is_Some'. naive_solver. Qed.

Lemma covers_new name path a : covers a (new_CgroupController name path a).
Proof.
  unfold new_CgroupController, GetSchedPolicyList.
  assert (Hf : forall l c q,
    (is_Some (policyToTaskFd_ (foldl (fun c policy =>
      c <| policyToTaskFd_ ::= <[policy := -1]> |> <| policyToProcFd_ ::= <[policy := -1]> |>) c l) !! q)
      <-> q ∈ l \/ is_Some (policyToTaskFd_ c !! q)) /\
    (is_Some (policyToProcFd_ (foldl (fun c policy =>
      c <| policyToTaskFd_ ::= <[policy := -1]> |> <| policyToProcFd_ ::= <[policy := -1]> |>) c l) !! q)
      <-> q ∈ l \/ is_Some (policyToProcFd_ c !! q))).
  { induction l as [|p l IH]; intros c q; simpl; [set_solver|].
    destruct (IH (c <| policyToTaskFd_ ::= <[p := -1]> |> <| policyToProcFd_ ::= <[p := -1]> |>) q) as [-> ->].
    simpl. rewrite !lookup_insert_is_Some', !elem_of_cons. naive_solver. }
  split; intros p; destruct (Hf (keys_in_order (fullNames_ a)) (mkCgroupController name path ∅ ∅) p) as [H1 H2];
    [rewrite H1|rewrite H2]; rewrite elem_of_keys_in_order; simpl; rewrite lookup_empty; naive_solver.
Qed.

(** *** Reading the configuration *)

Lemma frozen_os_run {A} a (f : O -> A * O) : keeps (frozen a) (os_run f).
Proof. intros s Hs. unfold os_run. by destruct (f (os s)). Qed.
#[local] Hint Resolve frozen_os_run : keeps.

Lemma frozen_open a file c subgroup : keeps (frozen a) (open_group_file (J := J) file c subgroup).
Proof. unfold open_group_file. keeps_auto. Qed.
#[local] Hint Resolve frozen_open : keeps.

(** [m] keeps the state frozen and gives a controller that covers the names. *)
Definition gives_cover a (m : PG (bool * CgroupController)) : Prop :=
  spec True (frozen a) m (fun r s => frozen a s /\ covers a r.2).

Lemma gives_cover_ret a b c : covers a c -> gives_cover a (mret (b, c)).
Proof. intros Hc s Hs. done. Qed.

Lemma gives_cover_bind a m k :
  gives_cover a m -> (forall b c, covers a c -> gives_cover a (k (b, c))) -> gives_cover a (m ≫= k).
Proof.
  intros Hm Hk. eapply spec_bind; [exact Hm|]. intros [b c] s [Hs Hc]. by apply Hk.
Qed.

Lemma cover_AddSchedPolicy a policy subgroup c :
  is_Some (fullNames_ a !! policy) -> covers a c ->
  gives_cover a (AddSchedPolicy (J := J) policy subgroup c).
Proof.
  intros Hp Hc. unfold AddSchedPolicy.
  assert (Hfile : forall file c (g : Z -> CgroupController), covers a c -> (forall fd, covers a (g fd)) ->
    gives_cover a (o ← open_group_file (J := J) file c subgroup;
      match o with None => mret (false, c) | Some fd => mret (true, g fd) end)).
  { intros file c0 g Hc0 Hg. eapply spec_bind; [apply frozen_open|]. intros [fd|]; by apply gives_cover_ret. }
  apply gives_cover_bind.
  - apply Hfile; [done|]. intros fd. destruct Hc as [H1 H2]. split; [|done].
    by apply lookup_insert_covered.
  - intros [] c1 Hc1; [|by apply gives_cover_ret]. apply Hfile; [done|]. intros fd.
    destruct Hc1 as [H1 H2]. split; [done|]. by apply lookup_insert_covered.
Qed.

Lemma cover_load_policies a policyObj l count c :
  (forall p, p ∈ l -> is_Some (fullNames_ a !! p)) -> covers a c ->
  gives_cover a (load_policies (J := J) a policyObj l count c).
Proof.
  revert count c. induction l as [|p l IH]; intros count c Hl Hc; simpl; [by apply gives_cover_ret|].
  assert (Hl' : forall p, p ∈ l -> is_Some (fullNames_ a !! p)) by set_solver.
  destruct (String.eqb _ _); [by apply IH|]. destruct (find_string _ _); [|by apply IH].
  apply gives_cover_bind; [apply cover_AddSchedPolicy; [set_solver|done]|]. intros b c1 Hc1. by apply IH.
Qed.

Lemma cover_LoadSchedPolicyConfig a c policyObj :
  covers a c -> gives_cover a (LoadSchedPolicyConfig (J := J) c policyObj).
Proof.
  intros Hc. unfold LoadSchedPolicyConfig. destruct (negb _); [by apply gives_cover_ret|].
  intros s Hs. rewrite run_get_bind. destruct (Hs) as (-> & _). revert s Hs.
  apply cover_load_policies; [|done]. intros p. unfold GetSchedPolicyList. apply elem_of_keys_in_order.
Qed.

Lemma frozen_load_controller a cgroupObj : keeps (frozen a) (load_controller (J := J) cgroupObj).
Proof.
  unfold load_controller. destruct (CheckCgroupConfigFormat cgroupObj) as [[[name path] policyObj]|]; [|keeps_auto].
  destruct (_ || _); [keeps_auto|]. intros s Hs. rewrite run_get_bind.
  assert (Hins : forall c s, frozen a s /\ covers a c ->
    frozen a (s <| controllers_ ::= <[name := c]> |>) /\ frozen a s).
  { intros c s0 [(H1 & H2 & H3) Hc]. split; [|done]. split_and!; [done..|].
    intros key c'. simpl. intros [[<- <-]|[_ Hl]]%lookup_insert_Some; [done|by eapply H3]. }
  destruct (controllers_ s !! name) as [c|] eqn:E.
  - assert (Hc : covers a c) by (destruct Hs as (_ & _ & H3); by eapply H3).
    revert s Hs E. intros s Hs _. revert s Hs. eapply spec_bind; [by apply cover_LoadSchedPolicyConfig|].
    intros [b c1] s Hs. apply (Hins c1 s Hs).
  - destruct (Hs) as (-> & _). revert s Hs E. intros s Hs _. revert s Hs.
    eapply spec_bind; [apply cover_LoadSchedPolicyConfig, covers_new|].
    intros [[] c1] s Hs; apply (Hins c1 s Hs).
Qed.
#[local] Hint Resolve frozen_load_controller : keeps.

Lemma frozen_LoadConfigFile a : keeps (frozen a) (LoadConfigFile (J := J)).
Proof.
  assert (Hl : forall l count, keeps (frozen a) (load_controllers (J := J) l count)).
  { induction l as [|x l IH]; intros count; simpl; keeps_auto. }
  unfold LoadConfigFile, ParseConfigFileToJsonObj. apply keeps_bind; [keeps_auto|].
  intros l. generalize false as ret. induction l as [|j l IH]; intros ret; [keeps_auto|].
  apply keeps_bind; [unfold LoadConfigFromJsonObj; keeps_auto | intros b; apply IH].
Qed.
#[local] Hint Resolve frozen_LoadConfigFile : keeps.

(** Checking whether cgroups are configured freezes the names. *)
Lemma frozen_IsEnabled s :
  pg_inv s -> exists b s', CgroupAction_IsEnabled (J := J) s = Some (b, s') /\
    frozen ((action s) <| allowToAdd_ := false |>) s' /\ enable s' = Some b.
Proof.
  intros [Hn Hi]. set (a := (action s) <| allowToAdd_ := false |>).
  assert (Hf : frozen a (s <| action ::= fun a => a <| allowToAdd_ := false |> |>)).
  { destruct (allowToAdd_ (action s)) eqn:E.
    - split_and!; [done..|]. intros key c Hk. change (controllers_ s !! key = Some c) in Hk.
      rewrite Hi in Hk. by apply (lookup_empty_Some (M := gmap string)) in Hk.
    - destruct Hi as (_ & _ & H3). done. }
  unfold CgroupAction_IsEnabled. erewrite run_bind by reflexivity. rewrite run_get_bind.
  destruct (enable _) as [b|] eqn:Eb; [by eexists b, _|].
  pose proof (frozen_LoadConfigFile a _ Hf) as Hl.
  destruct (total_LoadConfigFile (J := J) (s <| action ::= fun a => a <| allowToAdd_ := false |> |>)) as [[b s1] E].
  rewrite E in Hl. rewrite (run_bind _ _ _ _ _ E). eexists b, _. split; [reflexivity|]. done.
Qed.

(** ** Writing an id to the controllers *)

(** The descriptors of a policy, in the order of the controllers' names. *)
Definition policy_fds (isThreadGroup : bool) (policy : SchedPolicy) (m : CgroupMap) : list Z :=
  filter (fun fd => 0 <= fd)
    (omap (fun kc : string * CgroupController =>
       (if isThreadGroup then policyToProcFd_ kc.2 else policyToTaskFd_ kc.2) !! policy)
     (controllers_in_order m)).

(** The effect meant: the id is written once to each of them. *)
Definition write_all (text : string) (fds : list Z) (o : O) : O :=
  foldl (fun o fd => (os_write (J := J) fd text o).2) o fds.

(** Whether controllers count as usable: asked once, of the first controller that
    is used in the life of the process. *)
Definition usable s : option bool :=
  match enabled s, controllers_in_order (controllers_ s) with
  | Some b, _ => Some b
  | None, [] => None
  | None, (_, c) :: _ => Some (os_access (J := J) (cc_path_ c +:+ "/tasks") (os s))
  end.

Definition after_set (isThreadGroup : bool) (id : Z) (policy : SchedPolicy) s : ProcessGroup O :=
  s <| enabled := usable s |>
    <| os ::= fun o => if default false (usable s)
                       then write_all (to_string id) (policy_fds isThreadGroup policy (controllers_ s)) o
                       else o |>.

(** One controller, once it is known whether controllers are usable. *)
Definition set_one (tid : Z) (policy : SchedPolicy) (isThreadGroup : bool)
    (kc : string * CgroupController) : PG unit :=
  e ← CgroupController_IsEnabled (J := J) kc.2;
  if e : bool then
    CgroupController_SetThreadSchedPolicy (J := J) kc.1 kc.2 tid policy isThreadGroup;; mret tt
  else mret tt.

Lemma controllers_insert_id (m : CgroupMap) key c : m !! key = Some c -> <[key := c]> m = m.
Proof. apply (insert_id (M := gmap string)). Qed.
Lemma fds_insert_id (m : gmap Z Z) (policy : SchedPolicy) fd :
  m !! policy = Some fd -> <[policy := fd]> m = m.
Proof. apply (insert_id (M := gmap Z)). Qed.

Lemma run_set_thread s key c tid (policy : SchedPolicy) (isThreadGroup : bool) fd :
  controllers_ s !! key = Some c ->
  (if isThreadGroup then policyToProcFd_ c else policyToTaskFd_ c) !! policy = Some fd ->
  exists b, CgroupController_SetThreadSchedPolicy (J := J) key c tid policy isThreadGroup s
    = Some (b, s <| os ::= fun o => if 0 <=? fd then (os_write (J := J) fd (to_string tid) o).2 else o |>).
Proof.
  intros Hc Hfd.
  assert (Em : forall c', c' = c -> st_modify (fun s => s <| controllers_ ::= <[key := c']> |>) s = Some (tt, s)).
  { intros c' ->. unfold st_modify, over. rewrite controllers_insert_id by done. by destruct s. }
  unfold CgroupController_SetThreadSchedPolicy. cbv zeta. rewrite Hfd. change (default 0 (Some fd)) with fd.
  rewrite (run_bind _ _ s tt s).
  2: { apply Em. destruct isThreadGroup; unfold over; rewrite fds_insert_id by exact Hfd; destruct c; reflexivity. }
  destruct (fd <? 0) eqn:E.
  - exists false. replace (0 <=? fd) with false by lia. by destruct s.
  - replace (0 <=? fd) with true by lia. unfold AddTidToCgroup, os_run, mbind, ST_bind.
    unfold over. destruct (os_write fd (to_string tid) (os s)) as [[written errno] o] eqn:Ew. simpl.
    destruct (_ =? _); [by exists true|]. destruct (errno =? ESRCH); by eexists.
Qed.

Lemma run_set_list (b : bool) tid (policy : SchedPolicy) (isThreadGroup : bool) l s :
  enabled s = Some b ->
  Forall (fun kc => controllers_ s !! kc.1 = Some kc.2 /\
    is_Some ((if isThreadGroup then policyToProcFd_ kc.2 else policyToTaskFd_ kc.2) !! policy)) l ->
  st_iter (set_one tid policy isThreadGroup) l s
  = Some (tt, s <| os ::= fun o => if b then write_all (to_string tid)
      (filter (fun fd => 0 <= fd) (omap (fun kc : string * CgroupController =>
       (if isThreadGroup then policyToProcFd_ kc.2 else policyToTaskFd_ kc.2) !! policy) l)) o else o |>).
Proof.
  intros He Hl. revert s He Hl. induction l as [|[key c] l IH]; intros s He Hl.
  { simpl. destruct b; by destruct s. }
  apply Forall_cons in Hl as [(Hc & fd & Hfd) Hl]. cbn [fst snd] in *. cbn [st_iter].
  assert (E1 : set_one tid policy isThreadGroup (key, c) s = Some (tt, s <| os ::= fun o =>
    if b then if 0 <=? fd then (os_write (J := J) fd (to_string tid) o).2 else o else o |>)).
  { unfold set_one, CgroupController_IsEnabled. erewrite run_bind; [|rewrite run_get_bind, He; reflexivity].
    destruct b; [|by destruct s]. destruct (run_set_thread s key c tid policy isThreadGroup fd Hc Hfd) as [r Er].
    by rewrite (run_bind _ _ _ _ _ Er). }
  rewrite (run_bind _ _ _ _ _ E1), IH by done. f_equal. f_equal. unfold over. simpl. f_equal.
  destruct b; [|done]. rewrite Hfd. simpl. rewrite filter_cons.
  destruct (0 <=? fd) eqn:E0; [rewrite decide_True by lia|rewrite decide_False by lia]; done.
Qed.

Lemma run_CgroupMap s a tid (policy : SchedPolicy) (isThreadGroup : bool) :
  frozen a s -> is_Some (fullNames_ a !! policy) ->
  CgroupMap_SetThreadSchedPolicy (J := J) tid policy isThreadGroup s
  = Some (true, after_set isThreadGroup tid policy s).
Proof.
  intros (Ha & _ & Hcov) Hp. unfold CgroupMap_SetThreadSchedPolicy. rewrite run_get_bind.
  assert (Hl : Forall (fun kc => controllers_ s !! kc.1 = Some kc.2 /\
    is_Some ((if isThreadGroup then policyToProcFd_ kc.2 else policyToTaskFd_ kc.2) !! policy))
    (controllers_in_order (controllers_ s))).
  { apply Forall_forall. intros [key c] Hin. apply (elem_of_by_name (A := CgroupController)) in Hin. split; [done|].
    destruct (Hcov _ _ Hin) as [H1 H2]. destruct isThreadGroup; [by apply H2|by apply H1]. }
  rewrite (run_bind _ _ s tt (after_set isThreadGroup tid policy s)); [done|].
  rewrite (st_iter_ext _ (set_one tid policy isThreadGroup)) by by intros [].
  unfold after_set, usable, policy_fds. destruct (enabled s) as [b|] eqn:Ee.
  { rewrite (run_set_list b) by done. clear - Ee. destruct s. simpl in Ee. by subst. }
  destruct (controllers_in_order (controllers_ s)) as [|[key c] l] eqn:El.
  { clear - Ee. destruct s. simpl in Ee. by subst. }
  set (b := os_access (J := J) (cc_path_ c +:+ "/tasks") (os s)).
  transitivity (st_iter (set_one tid policy isThreadGroup) ((key, c) :: l) (s <| enabled := Some b |>)).
  - assert (E1 : set_one tid policy isThreadGroup (key, c) s
      = set_one tid policy isThreadGroup (key, c) (s <| enabled := Some b |>)).
    { unfold set_one, CgroupController_IsEnabled, mbind, ST_bind, st_get. cbv beta iota. by rewrite Ee. }
    cbn [st_iter]. unfold mbind, ST_bind. by rewrite E1.
  - rewrite (run_set_list b) by done. reflexivity.
Qed.

(** ** Every call keeps the invariant *)

Lemma frozen_after_set a isThreadGroup id policy s :
  frozen a s -> frozen a (after_set isThreadGroup id policy s).
Proof. done. Qed.

Lemma frozen_keeps_IsEnabled a : keeps (frozen a) (CgroupAction_IsEnabled (J := J)).
Proof.
  unfold CgroupAction_IsEnabled. keeps_auto.
  - apply keeps_modify. intros s (<- & Hf & H3). split_and!; [|done..].
    unfold over. simpl. rewrite <- Hf. by destruct (action s).
  - by apply keeps_modify.
Qed.

(** The two entry points that set a policy have one body. *)
Definition set_policy (isThreadGroup : bool) (id policy : Z) : PG bool :=
  if isThreadGroup then CgroupAction_SetThreadGroupSchedPolicy (J := J) id policy
  else CgroupAction_SetThreadSchedPolicy (J := J) id policy.

Lemma set_policy_unfold isThreadGroup id policy s :
  set_policy isThreadGroup id policy s =
  if negb (IsSchedPolicyValid policy (action s)) then Some (false, s) else
  (e ← CgroupAction_IsEnabled (J := J);
   if negb e then mret false else CgroupMap_SetThreadSchedPolicy (J := J) id policy isThreadGroup) s.
Proof.
  unfold set_policy, CgroupAction_SetThreadGroupSchedPolicy, CgroupAction_SetThreadSchedPolicy.
  destruct isThreadGroup; rewrite run_get_bind; by destruct (negb _).
Qed.

(** From a state with the invariant, setting a valid policy ends frozen. *)
Lemma run_set_policy isThreadGroup id policy s :
  pg_inv s -> IsSchedPolicyValid policy (action s) = true ->
  exists e s1, CgroupAction_IsEnabled (J := J) s = Some (e, s1) /\
    frozen ((action s) <| allowToAdd_ := false |>) s1 /\
    set_policy isThreadGroup id policy s
    = Some (e, if e then after_set isThreadGroup id policy s1 else s1).
Proof.
  intros Hs Hp. destruct (frozen_IsEnabled s Hs) as (e & s1 & E & Hf & _). exists e, s1.
  split_and!; [done..|]. rewrite set_policy_unfold, Hp. cbn [negb].
  rewrite (run_bind _ _ _ _ _ E). destruct e; [|done]. cbn [negb].
  eapply run_CgroupMap; [exact Hf|]. by apply bool_decide_eq_true in Hp.
Qed.

Lemma frozen_pg_inv a s : names_ok a -> frozen a s -> pg_inv s.
Proof. intros Hn Hf. pose proof Hf as (E1 & E2 & H3). split; rewrite E1; [done|]. by rewrite E2. Qed.

Lemma frozen_set_policy a isThreadGroup id policy : keeps (frozen a) (set_policy isThreadGroup id policy).
Proof.
  intros s Hs. rewrite set_policy_unfold. destruct (IsSchedPolicyValid policy (action s)) eqn:Hp; [|done].
  cbn [negb]. pose proof (frozen_keeps_IsEnabled a s Hs) as Hi. unfold mbind, ST_bind.
  destruct (CgroupAction_IsEnabled s) as [[e s1]|]; [|done]. destruct e; [|done]. cbn [negb].
  destruct Hs as (<- & _). rewrite (run_CgroupMap s1 (action s)); [done|done|].
  by apply bool_decide_eq_true in Hp.
Qed.
#[local] Hint Resolve frozen_set_policy frozen_keeps_IsEnabled : keeps.

Lemma frozen_ControllerIsEnabled a c : keeps (frozen a) (CgroupController_IsEnabled (J := J) c).
Proof. unfold CgroupController_IsEnabled. keeps_auto. by apply keeps_modify. Qed.
#[local] Hint Resolve frozen_ControllerIsEnabled : keeps.

Lemma keeps_GetSchedPolicy_tail (P : ProcessGroup O -> Prop) tid :
  (forall A (f : O -> A * O), keeps P (os_run f)) ->
  (forall c, keeps P (CgroupController_IsEnabled (J := J) c)) ->
  keeps P (controllers ← FindAllEnableCgroupControllers (J := J);
           o ← first_task_group (J := J) tid controllers;
           match o with
           | None => mret (-1, SP_UPPER_LIMIT)
           | Some subgroup =>
               if String.eqb subgroup "" then mret (0, SP_DEFAULT) else
               s ← st_get;
               mret (GetSchedPolicyByName ("sp_" +:+ dash_to_underscore subgroup) (action s))
           end).
Proof.
  intros Hos He. apply keeps_bind.
  - unfold FindAllEnableCgroupControllers. apply keeps_bind; [keeps_auto|]. intros s.
    induction (controllers_in_order (controllers_ s)) as [|[k c] l IH]; [keeps_auto|].
    apply keeps_bind; [apply He|]. intros e. apply keeps_bind; [apply IH|]. keeps_auto.
  - intros cs. apply keeps_bind; [|intros o; keeps_auto]. induction cs as [|c cs IH]; simpl; [keeps_auto|].
    apply keeps_bind; [|intros o; keeps_auto].
    unfold GetTaskGroup, ReadFileToStringForVFSFromExecutor. keeps_auto; apply Hos.
Qed.

(** Frozen names stay frozen whatever is called. *)
Lemma frozen_exec a x : keeps (frozen a) (exec_pg x).
Proof.
  destruct x as [policy fullName abbrName|tid policy|pid policy|tid]; simpl.
  - apply keeps_modify. intros s (<- & Hf & H3). split_and!; [|done..].
    unfold over. simpl. unfold AddSchedPolicyDeclaration. by rewrite Hf.
  - unfold SetThreadSchedPolicy, SetSchedPolicyByExecutor. apply keeps_bind; [|intros; apply keeps_ret].
    case_match; [apply keeps_ret|]. apply keeps_bind; [apply (frozen_set_policy a false)|]. intros b. keeps_auto.
  - unfold SetThreadGroupSchedPolicy_impl, SetSchedPolicyByExecutor. apply keeps_bind; [|intros; apply keeps_ret].
    case_match; [apply keeps_ret|]. apply keeps_bind; [apply (frozen_set_policy a true)|]. intros b. keeps_auto.
  - unfold GetThreadSchedPolicy, GetSchedPolicy. apply keeps_bind; [|intros; apply keeps_ret].
    case_match; [apply keeps_ret|]. apply keeps_bind; [|intros [? ?]; keeps_auto].
    apply keeps_bind; [apply frozen_keeps_IsEnabled|]. intros e. destruct (negb e); [apply keeps_ret|].
    apply keeps_GetSchedPolicy_tail; [intros; apply frozen_os_run|apply frozen_ControllerIsEnabled].
Qed.

Lemma pg_inv_os_run {A} (f : O -> A * O) : keeps pg_inv (os_run f).
Proof. intros s Hs. unfold os_run. by destruct (f (os s)). Qed.
#[local] Hint Resolve pg_inv_os_run : keeps.

Lemma pg_inv_set_policy isThreadGroup id policy : keeps pg_inv (set_policy isThreadGroup id policy).
Proof.
  intros s Hs. destruct (IsSchedPolicyValid policy (action s)) eqn:Hp.
  - destruct (run_set_policy isThreadGroup id policy s Hs Hp) as (e & s1 & _ & Hf & ->).
    eapply frozen_pg_inv; [|destruct e; [apply frozen_after_set|]; exact Hf]. destruct Hs as [[] _]. by split.
  - rewrite set_policy_unfold, Hp. done.
Qed.

Lemma pg_inv_exec x : keeps pg_inv (exec_pg x).
Proof.
  destruct x as [policy fullName abbrName|tid policy|pid policy|tid]; simpl.
  - apply keeps_modify. intros s [Hn Hi]. split; [by apply names_ok_declare|]. unfold over. simpl.
    assert (Ha : allowToAdd_ (AddSchedPolicyDeclaration policy fullName abbrName (action s)) = allowToAdd_ (action s)).
    { unfold AddSchedPolicyDeclaration. by repeat case_match. }
    rewrite Ha. destruct (allowToAdd_ (action s)) eqn:E; [done|]. destruct Hi as (_ & _ & H3).
    unfold AddSchedPolicyDeclaration. rewrite E. simpl. by split_and!.
  - unfold SetThreadSchedPolicy, SetSchedPolicyByExecutor. apply keeps_bind; [|intros; apply keeps_ret].
    case_match; [apply keeps_ret|]. apply keeps_bind; [apply (pg_inv_set_policy false)|]. intros b. keeps_auto.
  - unfold SetThreadGroupSchedPolicy_impl, SetSchedPolicyByExecutor. apply keeps_bind; [|intros; apply keeps_ret].
    case_match; [apply keeps_ret|]. apply keeps_bind; [apply (pg_inv_set_policy true)|]. intros b. keeps_auto.
  - unfold GetThreadSchedPolicy, GetSchedPolicy. apply keeps_bind; [|intros; apply keeps_ret].
    case_match; [apply keeps_ret|]. apply keeps_bind; [|intros [? ?]; keeps_auto].
    apply keeps_bind.
    { intros s Hs. destruct (frozen_IsEnabled s Hs) as (e & s1 & -> & Hf & _).
      eapply frozen_pg_inv, Hf. destruct Hs as [[] _]. by split. }
    intros e. destruct (negb e); [apply keeps_ret|].
    apply keeps_GetSchedPolicy_tail; [intros; apply pg_inv_os_run|].
    intros c. unfold CgroupController_IsEnabled. keeps_auto. by apply keeps_modify.
Qed.

Lemma pg_inv_run o xs s : pg_run o xs = Some (tt, s) -> pg_inv s.
Proof.
  intros E. eapply keeps_run; [apply keeps_iter, pg_inv_exec| |exact E].
  split; [apply names_ok_new|]. done.
Qed.
End reach.


(** The state after one process was moved, on the demonstration system. *)
Definition demo_pg : ProcessGroup DemoOs :=
  default (new_ProcessGroup (mkDemoOs 3 []))
    (snd <$> pg_run (Os0 := demo_os "linux" true) (mkDemoOs 3 []) [PgSetThreadGroup 100 SP_FOREGROUND]).
Lemma demo_pg_run :
  pg_run (Os0 := demo_os "linux" true) (mkDemoOs 3 []) [PgSetThreadGroup 100 SP_FOREGROUND] = Some (tt, demo_pg).
Proof. vm_compute. reflexivity. Qed.


(** The names freeze at the first use: once a policy was set (or a group read)
    the declared policies and their names are fixed for the life of the process,
    whatever is declared or called later, and every controller keeps descriptors for
    exactly these policies, so that setting a policy never falls back to the
    descriptor 0 that an unknown policy would give. *)
Theorem names_freeze {J O} `{!Json J} `{!Os J O} (o : O) xs (s : ProcessGroup O) id policy s' ys s'' :
  pg_run o xs = Some (tt, s) -> 0 < id -> IsSchedPolicyValid (to_u32 policy) (action s) = true ->
  exec_pg (PgSetThreadGroup id policy) s = Some (tt, s') -> st_iter exec_pg ys s' = Some (tt, s'') ->
  fullNames_ (action s'') = fullNames_ (action s) /\ abbrNames_ (action s'') = abbrNames_ (action s) /\
  forall key c, controllers_ s'' !! key = Some c ->
    forall p, (is_Some (policyToTaskFd_ c !! p) <-> is_Some (fullNames_ (action s) !! p)) /\
              (is_Some (policyToProcFd_ c !! p) <-> is_Some (fullNames_ (action s) !! p)).
Proof.
  intros E Hid Hp E1 E2. pose proof (pg_inv_run _ _ _ E) as Hs.
  set (a := (action s) <| allowToAdd_ := false |>).
  assert (Hf : spec True (eq s) (exec_pg (PgSetThreadGroup id policy)) (fun _ => frozen a)).
  { cbn [exec_pg]. unfold SetThreadGroupSchedPolicy_impl. replace (id <=? 0) with false by lia.
    apply spec_bind with (R := fun _ => frozen a); [|intros r; apply (keeps_ret (frozen a))].
    apply spec_bind with (R := fun _ => frozen a); [intros w <-|intros b; unfold SetSchedPolicyByExecutor].
    - destruct (run_set_policy true id (to_u32 policy) s Hs Hp) as (e & s1 & _ & Hf & Er).
      cbn [set_policy] in Er. rewrite Er. by destruct e; [apply frozen_after_set|].
    - change (keeps (frozen a) (if IS_NEED_TO_SET_POLICY_BY_EXECUTOR (J := J) (O := O)
        then SetSchedPolicyByExecutor (J := J) (O := O) id policy RES_TYPE_SET_THREAD_GROUP_SCHED_POLICY_SYNC_EVENT
        else mret (if b then 0 else -1))). unfold SetSchedPolicyByExecutor. keeps_auto; apply frozen_os_run. }
  specialize (Hf s eq_refl). rewrite E1 in Hf.
  pose proof (keeps_run _ _ _ _ _ (keeps_iter _ exec_pg ys (frozen_exec a)) Hf E2) as (Ea & _ & Hc).
  rewrite Ea. split_and!; [done..|]. intros key c Hk p. destruct (Hc _ _ Hk) as [H1 H2]. split; [apply H1|apply H2].
Qed.

Lemma names_freeze_witness :
  exists s'', st_iter (exec_pg (Os0 := demo_os "linux" true))
      [PgDeclare 10 "sp_late" "lt"; PgSetThread 7 SP_BACKGROUND] demo_pg = Some (tt, s'') /\
    fullNames_ (action s'') = fullNames_ new_CgroupAction.
Proof.
  assert (E : exists s'', st_iter (exec_pg (Os0 := demo_os "linux" true))
      [PgDeclare 10 "sp_late" "lt"; PgSetThread 7 SP_BACKGROUND] demo_pg = Some (tt, s''))
    by (eexists; vm_compute; reflexivity).
  destruct E as [s'' E]. exists s''. split; [exact E|].
  apply (names_freeze (Os0 := demo_os "linux" true) (mkDemoOs 3 []) [] (new_ProcessGroup (mkDemoOs 3 [])) 100
    SP_FOREGROUND demo_pg [PgDeclare 10 "sp_late" "lt"; PgSetThread 7 SP_BACKGROUND] s'');
    [reflexivity|lia|vm_compute; reflexivity|vm_compute; reflexivity|exact E].
Defined.

(** ** Reading a group back *)
#[local] Arguments String.append : simpl nomatch.

Lemma index_skip t a b : index (String.length a) t (a +:+ b) = (Nat.add (String.length a)) <$> index 0 t b.
Proof.
  induction a as [|x a IH]; simpl; [by destruct (index 0 t b)|].
  rewrite IH. by destruct (index 0 t b).
Qed.

Lemma substring_skip a b n : substring (String.length a) n (a +:+ b) = substring 0 n b.
Proof. by induction a. Qed.

Lemma substring_prefix a b : substring 0 (String.length a) (a +:+ b) = a.
Proof. induction a as [|x a IH]; simpl; [by destruct b|]. by rewrite IH. Qed.

(** No character of the text is a line feed. *)
Definition one_line (g : string) : bool :=
  forallb (fun c => negb (Ascii.eqb c "010")) (list_ascii_of_string g).

Lemma index_line g post :
  one_line g = true -> index 0 (String "010"%char "") (g +:+ String "010"%char post) = Some (String.length g).
Proof.
  unfold one_line. induction g as [|x g IH]; [by destruct post|].
  cbn [list_ascii_of_string forallb]. intros [Hx Hg]%andb_true_iff. cbn [String.append].
  cbn [index String.prefix String.length]. rewrite (IH Hg). destruct (ascii_dec "010"%char x) as [<-|Hn]; [discriminate Hx|done].
Qed.

Lemma length_app_string a b : String.length (a +:+ b) = (String.length a + String.length b)%nat.
Proof. induction a; simpl; congruence. Qed.

Lemma string_app_assoc a b c : (a +:+ b) +:+ c = a +:+ (b +:+ c).
Proof. induction a; simpl; congruence. Qed.
Section read.
Context {J O : Type} `{!Json J} `{!Os J O}.
(** [vsnprintf_s] when the text fits the buffer. *)
Definition vsnprintf_fits : Prop :=
  forall text, (0 < String.length text < 256)%nat ->
    os_vsnprintf (J := J) (O := O) text = (Z.of_nat (String.length text), text).

Lemma StringPrintf_id text :
  vsnprintf_fits -> (0 < String.length text < 256)%nat -> StringPrintf (J := J) (O := O) text = text.
Proof.
  intros Hv Hl. unfold StringPrintf. rewrite Hv by done. replace (_ >? 0) with true by lia.
  rewrite Nat2Z.id. pose proof (substring_prefix text "") as Hs.
  assert (E : text +:+ "" = text) by (clear; induction text; simpl; congruence). by rewrite E in Hs.
Qed.

(** What the kernel reports about a thread: one line of it names the group. *)
Definition task_line (c : CgroupController) (pre g post : string) : string :=
  pre +:+ ((":" +:+ cc_name_ c +:+ ":") +:+ ("/" +:+ (g +:+ String "010"%char post))).

Lemma run_GetTaskGroup tid c (s : ProcessGroup O) r reply o' pre g post :
  vsnprintf_fits -> (String.length (cc_name_ c) < 254)%nat ->
  os_SendRequestSync RES_TYPE_CGROUP_SYNC_EVENT 0 (json_set "pid" (json_of_int tid) json_null) (os s)
    = ((r, reply), o') ->
  find_string "res" reply = Some (task_line c pre g post) ->
  index 0 (":" +:+ cc_name_ c +:+ ":") (task_line c pre g post) = Some (String.length pre) ->
  one_line g = true ->
  GetTaskGroup tid c s = Some (Some g, s <| os := o' |>).
Proof.
  intros Hv Hlen Hr Hf Hi Hg. unfold GetTaskGroup, ReadFileToStringForVFSFromExecutor.
  set (tag := ":" +:+ cc_name_ c +:+ ":") in *.
  assert (Htag : StringPrintf (J := J) (O := O) tag = tag).
  { apply StringPrintf_id; [done|]. unfold tag. rewrite !length_app_string. simpl. lia. }
  erewrite run_bind.
  2: { unfold os_run, mbind, ST_bind. rewrite Hr. rewrite Hf. reflexivity. }
  rewrite Htag, Hi. cbv zeta.
  set (skipped := pre +:+ (tag +:+ "/")).
  assert (Es : (String.length pre + (String.length tag + 1))%nat = String.length skipped).
  { unfold skipped. rewrite !length_app_string. simpl. lia. }
  assert (Ec : task_line c pre g post = skipped +:+ (g +:+ String "010"%char post)).
  { unfold task_line, skipped. fold tag. by rewrite !string_app_assoc. }
  rewrite Es, Ec, index_skip, index_line by done. simpl.
  replace (String.length skipped + String.length g - String.length skipped)%nat with (String.length g) by lia.
  by rewrite substring_skip, substring_prefix.
Qed.
End read.

(** Reading the policy of a thread gives back what the kernel reports: when the
    executor returns the thread's cgroup table, its first line for the first usable
    controller names the group, and the answer is the policy whose full name is
    [sp_] and the group's name with every dash turned into an underscore; the root
    group is the default policy, and an unknown group is an error. *)
Theorem thread_policy_read_back {J O} `{!Json J} `{!Os J O} (s : ProcessGroup O) tid s1 c cs s2 r reply o' pre g post :
  0 < tid -> CgroupAction_IsEnabled s = Some (true, s1) ->
  FindAllEnableCgroupControllers s1 = Some (c :: cs, s2) ->
  vsnprintf_fits (J := J) (O := O) -> (String.length (cc_name_ c) < 254)%nat ->
  os_SendRequestSync RES_TYPE_CGROUP_SYNC_EVENT 0 (json_set "pid" (json_of_int tid) json_null) (os s2)
    = ((r, reply), o') ->
  find_string "res" reply = Some (task_line c pre g post) ->
  index 0 (":" +:+ cc_name_ c +:+ ":") (task_line c pre g post) = Some (String.length pre) ->
  one_line g = true ->
  GetThreadSchedPolicy tid s
  = Some (if String.eqb g "" then (0, Some SP_DEFAULT)
          else let '(ret, policy) := GetSchedPolicyByName ("sp_" +:+ dash_to_underscore g) (action s2) in
               (ret, Some policy), s2 <| os := o' |>).
Proof.
  intros Ht Ei Ef Hv Hlen Hr Hres Hi Hg. unfold GetThreadSchedPolicy, GetSchedPolicy.
  replace (tid <=? 0) with false by lia.
  pose proof (run_GetTaskGroup tid c s2 r reply o' pre g post Hv Hlen Hr Hres Hi Hg) as Hg'.
  assert (Eft : first_task_group tid (c :: cs) s2 = Some (Some g, s2 <| os := o' |>)).
  { cbn [first_task_group]. by rewrite (run_bind _ _ _ _ _ Hg'). }
  set (res := if String.eqb g "" then (0, SP_DEFAULT)
              else GetSchedPolicyByName ("sp_" +:+ dash_to_underscore g) (action s2)).
  rewrite (run_bind _ _ s res (s2 <| os := o' |>)).
  - unfold res. destruct (String.eqb g ""); [done|]. by destruct (GetSchedPolicyByName _ _).
  - rewrite (run_bind _ _ _ _ _ Ei). cbn [negb]. rewrite (run_bind _ _ _ _ _ Ef), (run_bind _ _ _ _ _ Eft).
    unfold res. by destruct (String.eqb g "").
Qed.

Definition demo_table : string :=
  "4:cpu:/" +:+ String "010"%char ("3:cpuset:/top-app" +:+ String "010"%char "").

(** The demonstration system with a cgroup table for every thread. *)
Definition demo_read_os : Os json DemoOs := {|
  os_access := os_access (Os := demo_os "linux" true);
  os_realpath := os_realpath (Os := demo_os "linux" true);
  os_open := os_open (Os := demo_os "linux" true);
  os_write := os_write (Os := demo_os "linux" true);
  os_vsnprintf := os_vsnprintf (Os := demo_os "linux" true);
  os_GetCfgFiles := os_GetCfgFiles (Os := demo_os "linux" true);
  os_parse_file := os_parse_file (Os := demo_os "linux" true);
  os_SendRequestSync _ _ _ o :=
    ((0, text_payload [("res", demo_table)]), o);
  os_boot_kernel := "linux";
|}.

Lemma thread_policy_read_back_witness :
  exists s', GetThreadSchedPolicy (Os0 := demo_read_os) 100 demo_pg = Some ((0, Some SP_TOP_APP), s').
Proof.
  assert (E : exists s1 c s2, CgroupAction_IsEnabled (Os0 := demo_read_os) demo_pg = Some (true, s1) /\
    FindAllEnableCgroupControllers (Os0 := demo_read_os) s1 = Some ([c], s2) /\ cc_name_ c = "cpuset" /\
    GetSchedPolicyByName "sp_top_app" (action s2) = (0, SP_TOP_APP))
    by (eexists _, _, _; split_and!; vm_compute; reflexivity).
  destruct E as (s1 & c & s2 & E1 & E2 & Hc & Hn). exists (s2 <| os := os s2 |>).
  assert (Hl : task_line c ("4:cpu:/" +:+ String "010"%char "3") "top-app" "" = demo_table)
    by (unfold task_line; rewrite Hc; vm_compute; reflexivity).
  assert (Hi : index 0 (":" +:+ cc_name_ c +:+ ":") demo_table = Some 9%nat)
    by (rewrite Hc; vm_compute; reflexivity).
  pose proof (thread_policy_read_back (Os0 := demo_read_os) demo_pg 100 s1 c [] s2 0
    (text_payload [("res", demo_table)]) (os s2) ("4:cpu:/" +:+ String "010"%char "3") "top-app" "") as Hr.
  rewrite Hl in Hr. change (String.length ("4:cpu:/" +:+ String "010"%char "3")) with 9%nat in Hr.
  specialize (Hr ltac:(lia) E1 E2 (fun text _ => eq_refl)).
  rewrite Hc in Hr. change ("sp_" +:+ dash_to_underscore "top-app") with "sp_top_app" in Hr. rewrite Hn in Hr.
  apply Hr; [simpl; lia|reflexivity|reflexivity| |reflexivity]. rewrite Hc in Hi. exact Hi.
Defined.
