(* ===== verification/PluginConfig.v ===== *)
(** * Configuration of the plugins

    [plugin_switch.cpp] and [config_reader.cpp]: which plugins are switched on and
    the parameters of each.  Both read XML with libxml2, which is not part of the
    repository: the model is written against the interface [Xml]; a tree type for
    examples implements it. *)
From S2P Require Import Prelude.

(** ** XML documents *)
Class Xml (N : Type) := {
  (** [xmlReadMemory]: [None] when it fails, else the root element, if any *)
  xml_read : string -> option (option N);
  (** [node.name] *)
  xml_name : N -> option string;
  (** [node.type == XML_COMMENT_NODE] *)
  xml_is_comment : N -> bool;
  (** [node.xmlChildrenNode] and its siblings *)
  xml_children : N -> list N;
  (** the names in [node.properties] *)
  xml_attrs : N -> list (option string);
  (** [xmlGetProp] *)
  xml_prop : string -> N -> option string;
  (** [xmlNodeGetContent] *)
  xml_content : N -> option string;
}.

(** config_info.h:26-30 [SubItem] *)
Record SubItem := mkSubItem {
  sub_name : string;
  sub_value : string;
  sub_properties : gmap string string;
}.

(** config_info.h:32-35 [Item] *)
Record Item := mkItem {
  itemProperties : gmap string string;
  subItemList : list SubItem;
}.

(** config_info.h:37-39 [PluginConfig] *)
Record PluginConfig := mkPluginConfig { itemList : list Item }.

(** config_info.h:41-41 [PluginConfigMap] *)
Definition PluginConfigMap : Type := gmap string PluginConfig.

(** plugin_switch.h:29-32 [PluginInfo] *)
Record PluginInfo := mkPluginInfo { libPath : string; switchOn : bool }.

(** plugin_switch.h:34-54 [PluginSwitch] the member [pluginSwitchMap_] *)
Definition PluginSwitch : Type := gmap string PluginInfo.

(** config_reader.h:28-77 [ConfigReader] the member [allPluginConfigs_] *)
Definition ConfigReader : Type := gmap string PluginConfigMap.

Section config.
Context {N : Type} `{!Xml N}.

(** plugin_switch.cpp:33-39 [PluginSwitch::IsInvalidNode] and its copy in
    [ConfigReader] *)
Definition IsInvalidNode (currNode : N) : bool :=
  match xml_name currNode with None => true | Some _ => xml_is_comment currNode end.

(** [xmlStrcmp] of the name of a node that has one. *)
Definition has_name (tag : string) (n : N) : bool :=
  match xml_name n with Some name => String.eqb name tag | None => false end.

(** The root element of a document with the right tag. *)
Definition read_root (tag content : string) : option N :=
  match xml_read content with
  | Some (Some root) => if has_name tag root then Some root else None
  | _ => None
  end.

(** ** Switches *)

(** plugin_switch.cpp:41-70 [PluginSwitch::FillinPluginInfo] *)
Definition FillinPluginInfo (currNode : N) (isRssExe : bool) : option PluginInfo :=
  match xml_prop (if isRssExe then "libpathexe" else "libpath") currNode with
  | None => None
  | Some libPath =>
      if String.eqb libPath "" then None else
      Some (mkPluginInfo libPath
        match xml_prop "switch" currNode with Some value => String.eqb value "1" | None => false end)
  end.

(** plugin_switch.cpp:89-107 [PluginSwitch::LoadFromConfigContent] the loop *)
Fixpoint load_plugin_nodes (isRssExe : bool) (nodes : list N) (m : PluginSwitch)
    : bool * PluginSwitch :=
  match nodes with
  | [] => (true, m)
  | n :: nodes =>
      if IsInvalidNode n then load_plugin_nodes isRssExe nodes m
      else if negb (has_name "plugin" n) then (false, m)
      else match FillinPluginInfo n isRssExe with
           | None => load_plugin_nodes isRssExe nodes m
           | Some info => load_plugin_nodes isRssExe nodes (<[libPath info := info]> m)
           end
  end.

(** plugin_switch.cpp:72-110 [PluginSwitch::LoadFromConfigContent] *)
Definition PluginSwitch_Load (content : string) (isRssExe : bool) (m : PluginSwitch)
    : bool * PluginSwitch :=
  match read_root "pluginlist" content with
  | None => (false, m)
  | Some root => load_plugin_nodes isRssExe (xml_children root) m
  end.

(** plugin_switch.cpp:112-119 [PluginSwitch::GetPluginSwitch] *)
Definition GetPluginSwitch (m : PluginSwitch) : list PluginInfo := snd <$> by_name m.

(** ** Parameters *)

(** config_reader.cpp:39-57 [ConfigReader::ParseProperties] *)
Definition ParseProperties (currNode : N) : gmap string string :=
  foldl (fun m attr =>
    match attr with
    | None => m
    | Some name => match xml_prop name currNode with None => m | Some value => <[name := value]> m end
    end) ∅ (xml_attrs currNode).

(** config_reader.cpp:59-79 [ConfigReader::ParseSubItem] *)
Definition ParseSubItem (parentNode : N) : list SubItem :=
  omap (fun n =>
    if IsInvalidNode n then None else
    Some (mkSubItem (default "" (xml_name n)) (default "" (xml_content n)) (ParseProperties n)))
    (xml_children parentNode).

(** config_reader.cpp:81-94 [ConfigReader::ParseItem] *)
Definition ParseItem (parentNode : N) (pluginConfig : PluginConfig) : PluginConfig :=
  mkPluginConfig (itemList pluginConfig ++
    omap (fun n =>
      if IsInvalidNode n || negb (has_name "item" n) then None
      else Some (mkItem (ParseProperties n) (ParseSubItem n))) (xml_children parentNode)).

(** config_reader.cpp:96-115 [ConfigReader::ParseConfig] *)
Definition ParseConfig_node (parentNode : N) (m : PluginConfigMap) : PluginConfigMap :=
  foldl (fun (m : PluginConfigMap) n =>
    if IsInvalidNode n || negb (has_name "config" n) then m else
    match xml_prop "name" n with
    | None => m
    | Some configName => <[configName := ParseItem n (default (mkPluginConfig []) (m !! configName))]> m
    end) m (xml_children parentNode).

(** config_reader.cpp:117-128 [ConfigReader::ParsePluginConfig] *)
Definition ParsePluginConfig (currNode : N) (m : ConfigReader) : option ConfigReader :=
  match xml_prop "name" currNode with
  | None => None
  | Some pluginName => Some (<[pluginName := ParseConfig_node currNode (default ∅ (m !! pluginName))]> m)
  end.

(** config_reader.cpp:147-160 [ConfigReader::LoadFromConfigContent] the loop:
    [None] when a node is wrong *)
Fixpoint load_config_nodes (nodes : list N) (m : ConfigReader) : option ConfigReader :=
  match nodes with
  | [] => Some m
  | n :: nodes =>
      if IsInvalidNode n then load_config_nodes nodes m
      else if has_name "plugin" n then
        match ParsePluginConfig n m with
        | Some m => load_config_nodes nodes m
        | None => None
        end
      else None
  end.
End config.

(** config_reader.cpp:179-185 [ConfigReader::MergePluginConfigMap] *)
Definition MergePluginConfigMap (cur next : PluginConfigMap) : PluginConfigMap :=
  foldl (fun (m : PluginConfigMap) kv => <[kv.1 := kv.2]> m) cur (by_name next).

(** config_reader.cpp:168-177 [ConfigReader::MergeConfigList] *)
Definition MergeConfigList (pluginConfigs all : ConfigReader) : ConfigReader :=
  foldl (fun (m : gmap string PluginConfigMap) kv =>
    match m !! kv.1 with
    | None => <[kv.1 := kv.2]> m
    | Some cur => <[kv.1 := MergePluginConfigMap cur kv.2]> m
    end) all (by_name pluginConfigs).

Section reader.
Context {N : Type} `{!Xml N}.

(** config_reader.cpp:130-166 [ConfigReader::LoadFromConfigContent] *)
Definition ConfigReader_Load (content : string) (all : ConfigReader) : bool * ConfigReader :=
  match read_root (N := N) "ressched" content with
  | None => (false, all)
  | Some root =>
      match load_config_nodes (xml_children root) ∅ with
      | None => (false, all)
      | Some m => (true, MergeConfigList m all)
      end
  end.
End reader.

(** config_reader.cpp:187-204 [ConfigReader::GetConfig] *)
Definition ConfigReader_GetConfig (pluginName configName : string) (all : ConfigReader) : PluginConfig :=
  match all !! pluginName with
  | None => mkPluginConfig []
  | Some configMap => default (mkPluginConfig []) ((configMap : gmap string PluginConfig) !! configName)
  end.

(** config_reader.cpp:206-226 [ConfigReader::RemoveConfig] *)
Definition ConfigReader_RemoveConfig (pluginName configName : string) (all : ConfigReader) : ConfigReader :=
  match all !! pluginName with
  | None => all
  | Some configMap =>
      match (configMap : gmap string PluginConfig) !! configName with
      | None => all
      | Some _ =>
          let configMap := delete configName configMap in
          if (size configMap =? 0)%nat then delete pluginName all else <[pluginName := configMap]> all
      end
  end.

(** config_reader.cpp:228-238 [ConfigReader::RemovePluginConfig] *)
Definition ConfigReader_RemovePluginConfig (pluginName : string) (all : ConfigReader) : ConfigReader :=
  delete pluginName all.

(** The text of properties in their order. *)
Definition dump_properties (m : gmap string string) : string :=
  String.concat "" ((fun kv => kv.1 +:+ " = " +:+ kv.2 +:+ " ") <$> by_name m).

Definition nl : string := String "010"%char "".

(** config_reader.cpp:257-271 [ConfigReader::DumpItem] *)
Definition DumpItem (item : Item) : string :=
  "Item : " +:+ dump_properties (itemProperties item) +:+ " " +:+ nl
  +:+ String.concat "" ((fun subItem =>
    "subItemName : " +:+ sub_name subItem +:+ " " +:+ dump_properties (sub_properties subItem)
    +:+ " value :" +:+ sub_value subItem +:+ " " +:+ nl) <$> subItemList item).

(** config_reader.cpp:240-255 [ConfigReader::Dump] *)
Definition ConfigReader_Dump (all : ConfigReader) : string :=
  "================Resource Schedule Plugin Config ================" +:+ nl
  +:+ String.concat "" ((fun '((name, m) : string * PluginConfigMap) =>
    "pluginName:" +:+ name +:+ " " +:+ nl
    +:+ String.concat "" ((fun '((cname, c) : string * PluginConfig) =>
      "configName:" +:+ cname +:+ " " +:+ nl +:+ String.concat "" (DumpItem <$> itemList c)) <$> by_name m))
    <$> by_name all).

(** ** A tree of nodes for examples *)
#[local] Set Warnings "-register-all".
Inductive XmlTree : Type :=
  | XNode (name : string) (attrs : list (string * string)) (children : list XmlTree)
  | XText (text : string)
  | XComment.

Definition xml_tree (docs : string -> option XmlTree) : Xml XmlTree := {|
  xml_read content := Some <$> docs content;
  xml_name n := match n with XNode name _ _ => Some name | XText _ => Some "text" | XComment => Some "comment" end;
  xml_is_comment n := match n with XComment => true | _ => false end;
  xml_children n := match n with XNode _ _ children => children | _ => [] end;
  xml_attrs n := match n with XNode _ attrs _ => Some ∘ fst <$> attrs | _ => [] end;
  xml_prop k n := match n with
                  | XNode _ attrs _ => list_to_map (M := gmap string string) attrs !! k
                  | _ => None end;
  xml_content n := match n with XText text => Some text | XNode _ _ [XText text] => Some text | _ => Some "" end;
|}.
