(* ===== verification/PluginMgr.v ===== *)
(** * Plugin manager

    [plugin_mgr.cpp]: loads the plugins that are switched on, keeps who subscribed
    to which events, hands events to their subscribers and looks after plugins that
    are too slow.  Both builds of the dispatcher are modelled: one queue per plugin
    (with the task library FFRT) and one queue for all.  The mutexes are not: an
    operation runs to its end.  Logging and fault reports are left out. *)
From S2P Require Import Prelude Json ResType Supervisor PluginConfig.

Definition DISPATCH_TIME_OUT : Z := 50. (* plugin_mgr.h:59 *)
Definition DISPATCH_TIME_OUT_US : Z := DISPATCH_TIME_OUT * 1000. (* plugin_mgr.h:60 *)
Definition PLUGIN_REQUEST_ERROR : Z := -1. (* plugin_mgr.cpp:54 *)
Definition HOT_EVENT_TOPN : Z := 10. (* plugin_mgr.cpp:56 *)
Definition ONE_DAY_MILLS : Z := 24 * 60 * 60 * 1000. (* plugin_mgr.cpp:57 *)
Definition LOG_INTERVAL_TIME : Z := 10 * 60 * 1000. (* plugin_mgr.cpp:58 *)
Definition DEFAULT_VALUE : Z := -1. (* plugin_mgr.cpp:64 *)
Definition MAX_PLUGIN_TIMEOUT_TIMES : Z := 3. (* plugin_mgr.h:309 *)
Definition DISABLE_PLUGIN_TIME : Z := 60000. (* plugin_mgr.h:310 *)

(** plugin_mgr.h:63-85 [PluginStat]; a point in time is in nanoseconds *)
Record PluginStat := mkPluginStat {
  totalTime : Z;
  useCount : Z;
  timeOutTime : list Z;
}.
#[export] Instance PluginStat_eta : Eta PluginStat := fun s =>
  mkPluginStat (totalTime s) (useCount s) (timeOutTime s).

(** The entry that [pluginStat_[lib]] creates. *)
Definition new_PluginStat : PluginStat := mkPluginStat 0 0 [].

(** plugin_mgr.h:68-79 [PluginStat::Update] *)
Definition PluginStat_Update (costTime : Z) (s : PluginStat) : PluginStat :=
  if (costTime >? 0) && (costTime <? DISPATCH_TIME_OUT_US) then
    if to_u64 (totalTime s + costTime) <? totalTime s
    then s <| totalTime := costTime |> <| useCount := 1 |>
    else s <| totalTime := to_u64 (totalTime s + costTime) |> <| useCount := to_u64 (useCount s + 1) |>
  else s.

(** plugin_mgr.h:81-84 [PluginStat::AverageTime] *)
Definition AverageTime (s : PluginStat) : Z :=
  if useCount s >? 0 then totalTime s / useCount s else 0.

(** plugin_mgr.h:87-94 [PluginLib] which of its functions a library has *)
Record PluginLib := mkPluginLib {
  has_onPluginInit : bool;
  has_onDispatchResource : bool;
  has_onDeliverResource : bool;
  has_onDump : bool;
  has_onPluginDisable : bool;
}.

(** res_data.h:24-38 [ResData] the pointer for a reply is in the result
    of the delivery *)
Record ResData (J : Type) := mkResData { rd_resType : Z; rd_value : Z; rd_payload : J }.
Arguments mkResData {_}.
Arguments rd_resType {_}.
Arguments rd_value {_}.
Arguments rd_payload {_}.

(** What waits in a queue. *)
Inductive QTask (J : Type) : Type :=
  | QDispatch (lib : string) (resData : ResData J)
  | QDispatchAll (pluginList : list string) (resData : ResData J)
  | QCallback (callback : Z).
Arguments QDispatch {_}.
Arguments QDispatchAll {_}.
Arguments QCallback {_}.

(** Tasks of the task library's own pool; a delay is in microseconds. *)
Inductive GTask : Type :=
  | GResume (lib : string) (delay : Z)
  | GCallback (callback : Z).

(** What the manager does to the outside, in order. *)
Inductive PCall (J : Type) : Type :=
  | PInit (lib : string) (arg : string)
  | PDispatch (lib : string) (resData : ResData J)
  | PDeliver (lib : string) (resData : ResData J)
  | PDisable (lib : string)
  | PDump (lib : string) (args : list string)
  | PRunCallback (callback : Z)
  | PHotEvent (hot : list (string * Z)).
Arguments PInit {_}.
Arguments PDispatch {_}.
Arguments PDeliver {_}.
Arguments PDisable {_}.
Arguments PDump {_}.
Arguments PRunCallback {_}.
Arguments PHotEvent {_}.

(** plugin_mgr.h:313-365 [pluginLibMap_] the members; [trace] records the calls and
    [host] is the outer state *)
Record PluginMgr (J K : Type) := mkPluginMgr {
  configReader_ : option ConfigReader;
  pluginSwitch_ : option PluginSwitch;
  pluginLibMap_ : gmap string PluginLib;
  subscriptionAccuractlyEnable_ : bool;
  resTypeLibMap_ : gmap Z (list string);
  resTyperesValueLibMap_ : gmap (Z * Z) (list string);
  resTypeLibSyncMap_ : gmap Z string;
  resTypeStrMap_ : gmap Z string;
  linkJumpOptSet_ : gset string;
  initFinishCallbacks_ : gmap string (option (option Z));
  dispatchers_ : gmap string (option (list (QTask J)));
  dispatcher_ : option (list (QTask J));
  pool : list GTask;
  runningStats_ : gmap string bool;
  disablePlugins_ : gset string;
  isInit : bool;
  pluginStat_ : gmap string PluginStat;
  getExtMultiConfigFunc_ : bool;
  pluginBlockTime : Z;
  reportCount_ : gmap Z Z;
  lastReportCountTime_ : Z;
  logReportCount_ : gmap Z Z;
  lastLogReportCountTime_ : Z;
  trace : list (PCall J);
  host : K;
}.
Arguments mkPluginMgr {_ _}.
Arguments configReader_ {_ _}.
Arguments pluginSwitch_ {_ _}.
Arguments pluginLibMap_ {_ _}.
Arguments subscriptionAccuractlyEnable_ {_ _}.
Arguments resTypeLibMap_ {_ _}.
Arguments resTyperesValueLibMap_ {_ _}.
Arguments resTypeLibSyncMap_ {_ _}.
Arguments resTypeStrMap_ {_ _}.
Arguments linkJumpOptSet_ {_ _}.
Arguments initFinishCallbacks_ {_ _}.
Arguments dispatchers_ {_ _}.
Arguments dispatcher_ {_ _}.
Arguments pool {_ _}.
Arguments runningStats_ {_ _}.
Arguments disablePlugins_ {_ _}.
Arguments isInit {_ _}.
Arguments pluginStat_ {_ _}.
Arguments getExtMultiConfigFunc_ {_ _}.
Arguments pluginBlockTime {_ _}.
Arguments reportCount_ {_ _}.
Arguments lastReportCountTime_ {_ _}.
Arguments logReportCount_ {_ _}.
Arguments lastLogReportCountTime_ {_ _}.
Arguments trace {_ _}.
Arguments host {_ _}.
#[export] Instance PluginMgr_eta J K : Eta (PluginMgr J K) := fun s =>
  mkPluginMgr (configReader_ s) (pluginSwitch_ s) (pluginLibMap_ s)
    (subscriptionAccuractlyEnable_ s) (resTypeLibMap_ s) (resTyperesValueLibMap_ s)
    (resTypeLibSyncMap_ s) (resTypeStrMap_ s) (linkJumpOptSet_ s) (initFinishCallbacks_ s)
    (dispatchers_ s) (dispatcher_ s) (pool s) (runningStats_ s) (disablePlugins_ s) (isInit s)
    (pluginStat_ s) (getExtMultiConfigFunc_ s) (pluginBlockTime s) (reportCount_ s)
    (lastReportCountTime_ s) (logReportCount_ s) (lastLogReportCountTime_ s) (trace s) (host s).

(** The singleton when the process starts. *)
Definition new_PluginMgr {J K} (k : K) : PluginMgr J K :=
  mkPluginMgr None None ∅ true ∅ ∅ ∅ ∅ ∅ ∅ ∅ None [] ∅ ∅ false ∅ false (10 * 60 * 1000 * 1000)
    ∅ 0 ∅ 0 [] k.

(** ** Environment *)

(** The flags of the build. *)
Class Build := { WITH_FFRT : bool; WITH_EXT_RES : bool }.

(** What the manager uses from outside.  The functions of a plugin may call the
    manager again: they act on its state. *)
Class PluginHost (J K : Type) := {
  (** [dlopen] and [dlsym] *)
  ph_dlopen : string -> K -> option PluginLib;
  ph_init : string -> string -> ST (PluginMgr J K) bool;
  ph_dispatch : string -> ResData J -> ST (PluginMgr J K) unit;
  (** the result, and what the plugin writes into the reply *)
  ph_deliver : string -> ResData J -> ST (PluginMgr J K) (Z * option J);
  ph_disable : string -> ST (PluginMgr J K) unit;
  (** the text a plugin appends *)
  ph_dump : string -> list string -> ST (PluginMgr J K) string;
  ph_callback : Z -> ST (PluginMgr J K) unit;
  (** the steady clock: [GetNowMillTime(true)], and [Clock::now()] in ns *)
  ph_now_ms : K -> Z * K;
  ph_now_ns : K -> Z * K;
  (** [GetSystemProperties] of the flag for accurate subscriptions *)
  ph_accurate_property : K -> string;
  (** [StrToInt] of the common library *)
  ph_StrToInt : string -> option Z;
  (** the library for configuration: [None], or whether it has the function *)
  ph_ext_config : K -> option bool;
  ph_GetExtMultiConfig : Z -> K -> list string;
  (** [GetCfgDirList], [realpath], [LoadStringFromFile] *)
  ph_cfg_dirs : K -> option (list (option string));
  ph_realpath : string -> K -> option string;
  ph_file : string -> K -> string;
  (** the order in which a hash set of these strings is walked *)
  ph_hash_order : gset string -> list string;
}.

(** A stable sort by insertion, for [std::list::sort] and [std::sort]. *)
Fixpoint insert_by {A} (lt : A -> A -> bool) (x : A) (l : list A) : list A :=
  match l with
  | [] => [x]
  | y :: l' => if lt y x then y :: insert_by lt x l' else x :: l
  end.
Fixpoint sort_by {A} (lt : A -> A -> bool) (l : list A) : list A :=
  match l with
  | [] => []
  | x :: l => insert_by lt x (sort_by lt l)
  end.

Section plugin_mgr.
Context {J K N : Type} `{!Json J} `{!Build} `{!PluginHost J K} `{!Xml N}.
#[local] Abbreviation M := (ST (PluginMgr J K)).

Definition on_host {A} (f : K -> A * K) : M A :=
  fun s => let '(a, k) := f (host s) in Some (a, s <| host := k |>).
Definition now_ms : M Z := on_host (ph_now_ms (J := J)).
Definition now_ns : M Z := on_host (ph_now_ns (J := J)).
Definition record (c : PCall J) : M unit := st_modify (fun s => s <| trace ::= fun l => l ++ [c] |>).

(** Calls of a plugin's functions. *)
Definition call_init (lib arg : string) : M bool := record (PInit lib arg);; ph_init lib arg.
Definition call_dispatch (lib : string) (d : ResData J) : M unit :=
  record (PDispatch lib d);; ph_dispatch lib d.
Definition call_deliver (lib : string) (d : ResData J) : M (Z * option J) :=
  record (PDeliver lib d);; ph_deliver lib d.
Definition call_disable (lib : string) : M unit := record (PDisable lib);; ph_disable lib.
Definition call_dump (lib : string) (args : list string) : M string :=
  record (PDump lib args);; ph_dump lib args.

(** ** Start *)

(** plugin_mgr.cpp:1178-1185 [PluginMgr::ReadSubscriptionAccuractlyEnableProperties] *)
Definition ReadSubscriptionAccuractlyEnableProperties : M unit :=
  s ← st_get;
  enableInt <-? ph_StrToInt (J := J) (K := K) (ph_accurate_property (J := J) (host s));
  st_modify (fun s => s <| subscriptionAccuractlyEnable_ := negb (enableInt =? 0) |>).

(** plugin_mgr.cpp:207-219 [PluginMgr::LoadGetExtConfigFunc] *)
Definition LoadGetExtConfigFunc : M unit :=
  s ← st_get;
  found <-? ph_ext_config (J := J) (host s);
  st_modify (fun s => s <| getExtMultiConfigFunc_ := found |>).

(** plugin_mgr.cpp:79-99 [PluginMgr::Init] *)
Definition PluginMgr_Init (isRssExe : bool) : M unit :=
  s ← st_get;
  ret_if bool_decide (is_Some (pluginSwitch_ s));
  st_modify (fun s => s <| pluginSwitch_ := Some ∅ |>);;
  st_when (bool_decide (configReader_ s = None))
    (st_modify (fun s => s <| configReader_ := Some ∅ |>));;
  st_when (negb isRssExe) LoadGetExtConfigFunc;;
  ReadSubscriptionAccuractlyEnableProperties;;
  t ← now_ms;
  st_modify (fun s => s <| lastReportCountTime_ := t |>).

(** plugin_mgr.cpp:262-270 [PluginMgr::CheckRealPath] *)
Definition CheckRealPath (partialPath : string) : M (option string) :=
  s ← st_get;
  mret (if Z.of_nat (String.length partialPath) >? 4096 then None
        else ph_realpath (J := J) partialPath (host s)).

(** plugin_mgr.cpp:241-260 [PluginMgr::GetAllRealConfigPath] *)
Definition GetAllRealConfigPath (configName : string) : M (list string) :=
  s ← st_get;
  match ph_cfg_dirs (J := J) (host s) with
  | None => mret []
  | Some paths =>
      (fix walk (paths : list (option string)) : M (list string) :=
         match paths with
         | [] => mret []
         | None :: paths => walk paths
         | Some cfgDir :: paths =>
             o ← CheckRealPath (cfgDir +:+ "/" +:+ configName);
             rest ← walk paths;
             mret (match o with Some p => p :: rest | None => rest end)
         end) paths
  end.

(** plugin_mgr.cpp:221-239 [PluginMgr::GetConfigContent] *)
Definition GetConfigContent (configIdx : Z) (configPath : string) : M (list string) :=
  s ← st_get;
  if negb (configIdx =? -1) && getExtMultiConfigFunc_ s
  then mret (ph_GetExtMultiConfig (J := J) configIdx (host s)) else
  configFilePaths ← GetAllRealConfigPath configPath;
  s ← st_get;
  mret (omap (fun p => if String.eqb p "" then None else Some (ph_file (J := J) p (host s)))
         configFilePaths).

(** plugin_mgr.cpp:101-106 [PluginMgr::GetConfigReaderStr] *)
Definition GetConfigReaderStr : M (list string) := GetConfigContent 1 "etc/ressched/res_sched_config.xml".

(** plugin_mgr.cpp:108-113 [PluginMgr::GetPluginSwitchStr] *)
Definition GetPluginSwitchStr : M (list string) :=
  GetConfigContent 0 "etc/ressched/res_sched_plugin_switch.xml".

(** plugin_mgr.cpp:115-139 [PluginMgr::ParseConfigReader] *)
Definition ParseConfigReader (configStrs : list string) : M unit :=
  s ← st_get;
  _ <-? configReader_ s;
  st_iter (fun content =>
    ret_if String.eqb content "";
    st_modify (fun s => s <| configReader_ ::= fmap (fun r => (ConfigReader_Load (N := N) content r).2) |>))
    configStrs.

(** res_sched_file_util.cpp:264-267 [IsValidPath] *)
Definition IsValidPath (path : string) : bool :=
  negb (String.eqb path "" || bool_decide (is_Some (index 0 (String "000"%char "") path))).

(** plugin_mgr.cpp:357-380 [PluginMgr::CheckValidPlugin] *)
Definition CheckValidPlugin (lib : string) (syms : PluginLib) : M bool :=
  if negb (has_onPluginInit syms) then mret false
  else if negb (has_onPluginDisable syms) then mret false
  else call_init lib lib.

(** plugin_mgr.cpp:307-355 [PluginMgr::LoadOnePlugin] *)
Definition LoadOnePlugin (info : PluginInfo) : M (option PluginLib) :=
  if negb (IsValidPath (libPath info)) then mret None else
  s ← st_get;
  match ph_dlopen (J := J) (libPath info) (host s) with
  | None => mret None
  | Some syms =>
      ok ← CheckValidPlugin (libPath info) syms;
      mret (if ok : bool then Some syms else None)
  end.

(** plugin_mgr.cpp:272-305 [PluginMgr::LoadPlugin] *)
Definition LoadPlugin : M unit :=
  s ← st_get;
  sw <-? pluginSwitch_ s;
  st_iter (fun info =>
    ret_if negb (switchOn info);
    s ← st_get;
    ret_if bool_decide (is_Some (pluginLibMap_ s !! libPath info));
    initStartTime ← now_ms;
    o ← LoadOnePlugin info;
    lib <-? o;
    t ← now_ms;
    st_modify (fun s => s <| pluginLibMap_ ::= fun m =>
      match m !! libPath info with Some _ => m | None => <[libPath info := lib]> m end |>))
    (GetPluginSwitch sw).

(** plugin_mgr.cpp:151-176 [PluginMgr::InitDispatchersAfterPluginLoad]; the
    handlers of a timeout that it builds are not given to the queues *)
Definition InitDispatchersAfterPluginLoad : M unit :=
  if WITH_FFRT then
    st_modify (fun s => s <| dispatchers_ := (fun _ => Some []) <$> pluginLibMap_ s |>)
  else
    st_modify (fun s => s <| dispatcher_ ::= fun d => match d with None => Some [] | Some q => Some q end |>).

(** plugin_mgr.cpp:1187-1197 [PluginMgr::RegisterOnInitFinishCallback] *)
Definition RegisterOnInitFinishCallback (libName : string) (callback : option (option Z)) : M unit :=
  c <-? callback;
  _ <-? c;
  st_modify (fun s => s <| initFinishCallbacks_ ::= <[libName := callback]> |>).

(** plugin_mgr.cpp:1199-1235 [PluginMgr::CallOnInitFinishCallbacks] *)
Definition CallOnInitFinishCallbacks : M unit :=
  s ← st_get;
  let callbacks := by_name (initFinishCallbacks_ s) in
  st_modify (fun s => s <| initFinishCallbacks_ := ∅ |>);;
  st_iter (fun '(libName, callback) =>
    c <-? callback : option (option Z);
    f <-? c;
    if WITH_FFRT then
      st_modify (fun s =>
        match dispatchers_ s !! libName with
        | Some (Some q) => s <| dispatchers_ ::= <[libName := Some (q ++ [QCallback f])]> |>
        | _ => s <| pool ::= fun l => l ++ [GCallback f] |>
        end)
    else
      s ← st_get;
      match dispatcher_ s with
      | Some q => st_modify (fun s => s <| dispatcher_ := Some (q ++ [QCallback f]) |>)
      | None => record (PRunCallback f);; ph_callback f
      end) callbacks.

(** plugin_mgr.cpp:141-149 [PluginMgr::CompletePluginInitialization] *)
Definition CompletePluginInitialization : M unit :=
  st_modify (fun s => s <| isInit := true |>);; CallOnInitFinishCallbacks.

(** plugin_mgr.cpp:178-205 [PluginMgr::ParsePluginSwitch] *)
Definition ParsePluginSwitch (switchStrs : list string) (isRssExe : bool) : M unit :=
  s ← st_get;
  _ <-? pluginSwitch_ s;
  st_iter (fun content =>
    ret_if String.eqb content "";
    st_modify (fun s => s <| pluginSwitch_ ::=
      fmap (fun m => (PluginSwitch_Load (N := N) content isRssExe m).2) |>)) switchStrs;;
  LoadPlugin;;
  InitDispatchersAfterPluginLoad;;
  CompletePluginInitialization.

(** ** Subscriptions *)

Definition add_lib {A} `{!EqDecision A} `{!Countable A} (lib : string) (k : A)
    (m : gmap A (list string)) : gmap A (list string) :=
  <[k := default [] (m !! k) ++ [lib]]> m.

(** [list::remove] and the erasure of an empty list. *)
Definition remove_lib {A} `{!EqDecision A} `{!Countable A} (lib : string) (k : A)
    (m : gmap A (list string)) : gmap A (list string) :=
  match m !! k with
  | None => m
  | Some l =>
      let l := filter (fun x => x <> lib) l in
      match l with [] => delete k m | _ => <[k := l]> m end
  end.

(** plugin_mgr.cpp:659-667 [PluginMgr::SubscribeResource] *)
Definition SubscribeResource (pluginLib : string) (resType : Z) : M unit :=
  ret_if String.eqb pluginLib "";
  st_modify (fun s => s <| resTypeLibMap_ ::= add_lib pluginLib resType |>).

(** plugin_mgr.cpp:669-686 [PluginMgr::UnSubscribeResource] *)
Definition UnSubscribeResource (pluginLib : string) (resType : Z) : M unit :=
  ret_if String.eqb pluginLib "";
  st_modify (fun s => s <| resTypeLibMap_ ::= remove_lib pluginLib resType |>).

(** [std::find] and [erase] of the place found. *)
Fixpoint erase_first (lib : string) (l : list string) : list string :=
  match l with
  | [] => []
  | x :: l => if String.eqb x lib then l else x :: erase_first lib l
  end.

(** plugin_mgr.cpp:696-709 [PluginMgr::UnSubscribeAllResources] one of the two
    blocks: the loop variable is a copy of the entry, so the list in the map
    stays as it is *)
Definition unsubscribe_block {A} `{!EqDecision A} `{!Countable A} (lib : string)
    (m : gmap A (list string)) : gmap A (list string) :=
  let keysToDelete := filter (fun kv => erase_first lib kv.2 = []) m in
  m ∖ keysToDelete.

(** plugin_mgr.cpp:688-726 [PluginMgr::UnSubscribeAllResources] *)
Definition UnSubscribeAllResources (pluginLib : string) : M unit :=
  ret_if String.eqb pluginLib "";
  st_modify (fun s => s <| resTypeLibMap_ ::= unsubscribe_block pluginLib |>);;
  st_modify (fun s => s <| resTyperesValueLibMap_ ::= unsubscribe_block pluginLib |>).

(** plugin_mgr.cpp:728-741 [PluginMgr::SubscribeSyncResource] *)
Definition SubscribeSyncResource (pluginLib : string) (resType : Z) : M unit :=
  ret_if String.eqb pluginLib "";
  st_modify (fun s => s <| resTypeLibSyncMap_ ::= <[resType := pluginLib]> |>).

(** plugin_mgr.cpp:743-756 [PluginMgr::UnSubscribeSyncResource] *)
Definition UnSubscribeSyncResource (pluginLib : string) (resType : Z) : M unit :=
  ret_if String.eqb pluginLib "";
  st_modify (fun s => s <| resTypeLibSyncMap_ ::= delete resType |>).

(** plugin_mgr.cpp:1124-1138 [PluginMgr::SubscribeResourceAccurately] *)
Definition SubscribeResourceAccurately (pluginLib : string) (resType resValue : Z) : M unit :=
  ret_if String.eqb pluginLib "";
  s ← st_get;
  if negb (subscriptionAccuractlyEnable_ s) then SubscribeResource pluginLib resType
  else st_modify (fun s => s <| resTyperesValueLibMap_ ::= add_lib pluginLib (resType, resValue) |>).

(** plugin_mgr.cpp:1140-1163 [PluginMgr::UnSubscribeResourceAccurately] *)
Definition UnSubscribeResourceAccurately (pluginLib : string) (resType resValue : Z) : M unit :=
  ret_if String.eqb pluginLib "";
  s ← st_get;
  if negb (subscriptionAccuractlyEnable_ s) then UnSubscribeResource pluginLib resType
  else st_modify (fun s => s <| resTyperesValueLibMap_ ::= remove_lib pluginLib (resType, resValue) |>).

(** plugin_mgr.cpp:433-443 [PluginMgr::GetPluginListByResType] *)
Definition GetPluginListByResType (resType : Z) (s : PluginMgr J K) : list string :=
  default [] (resTypeLibMap_ s !! resType).

(** plugin_mgr.cpp:1165-1176 [PluginMgr::GetPluginListByResTypeAndValue] *)
Definition GetPluginListByResTypeAndValue (resType resValue : Z) (s : PluginMgr J K) : list string :=
  default [] (resTyperesValueLibMap_ s !! (resType, resValue)).

(** plugin_mgr.cpp:455-469 [PluginMgr::GetResTypeList] what is added to the set *)
Definition GetResTypeList (s : PluginMgr J K) : gset Z :=
  dom (resTypeLibMap_ s) ∪ set_map fst (dom (resTyperesValueLibMap_ s)).

(** plugin_mgr.cpp:470-479 [PluginMgr::GetPluginLib] *)
Definition GetPluginLib (lib : string) (s : PluginMgr J K) : option PluginLib := pluginLibMap_ s !! lib.

(** plugin_mgr.cpp:1081-1085 [PluginMgr::GetStrFromResTypeStrMap] *)
Definition GetStrFromResTypeStrMap (resType : Z) (s : PluginMgr J K) : string :=
  match resTypeStrMap_ s !! resType with Some t => t | None => to_string resType end.

(** ** Reports *)

(** plugin_mgr.cpp:639-657 [PluginMgr::UpdateLogReportCount] *)
Definition UpdateLogReportCount (resType currTime : Z) : M unit :=
  st_modify (fun s => s <| logReportCount_ ::= fun m =>
    <[resType := match m !! resType with None => 1 | Some n => to_u32 (n + 1) end]> m |>);;
  s ← st_get;
  ret_if currTime - lastLogReportCountTime_ s <? LOG_INTERVAL_TIME;
  st_modify (fun s => s <| lastLogReportCountTime_ := currTime |> <| logReportCount_ := ∅ |>).

(** plugin_mgr.cpp:624-633 [PluginMgr::UpdateReportCount] the most frequent
    types with their counts; equal counts come in any order in the code *)
Definition hot_events (s : PluginMgr J K) : list (string * Z) :=
  (fun kv => (GetStrFromResTypeStrMap kv.1 s, kv.2)) <$>
    take (Z.to_nat HOT_EVENT_TOPN) (sort_by (fun a b => a.2 >? b.2) (in_order (reportCount_ s))).

(** plugin_mgr.cpp:607-637 [PluginMgr::UpdateReportCount] *)
Definition UpdateReportCount (resType : Z) : M unit :=
  st_modify (fun s => s <| reportCount_ ::= fun m =>
    <[resType := match m !! resType with None => 1 | Some n => to_u32 (n + 1) end]> m |>);;
  currTime ← now_ms;
  UpdateLogReportCount resType currTime;;
  s ← st_get;
  ret_if currTime - lastReportCountTime_ s <? ONE_DAY_MILLS;
  record (PHotEvent (hot_events s));;
  st_modify (fun s => s <| lastReportCountTime_ := currTime |> <| reportCount_ := ∅ |>).

(** ** Dispatching *)

(** plugin_mgr.cpp:415-430 [PluginMgr::GetExtTypeByResPayload] *)
Definition GetExtTypeByResPayload (d : ResData J) : Z :=
  if negb (rd_resType d =? RES_TYPE_KEY_PERF_SCENE) then DEFAULT_VALUE else
  match find_string "extType" (rd_payload d) with
  | None => DEFAULT_VALUE
  | Some text => default DEFAULT_VALUE (ph_StrToInt (J := J) (K := K) text)
  end.

(** plugin_mgr.cpp:516-521 [PluginMgr::DispatchResource] a performance scene may
    name another type *)
Definition effective (d : ResData J) : ResData J :=
  let extType := if WITH_EXT_RES then GetExtTypeByResPayload d else DEFAULT_VALUE in
  if extType =? DEFAULT_VALUE then d else mkResData (to_u32 extType) (rd_value d) (rd_payload d).

(** plugin_mgr.cpp:940-973 [PluginMgr::DispatchResourceToPluginAsync] *)
Definition DispatchResourceToPluginAsync (pluginList : list string) (d : ResData J) : M unit :=
  st_iter (fun lib =>
    s ← st_get;
    ret_if bool_decide (lib ∈ disablePlugins_ s);
    libInfo <-? pluginLibMap_ s !! lib;
    ret_if negb (has_onDispatchResource libInfo);
    match dispatchers_ s !! lib with
    | Some (Some q) => st_modify (fun s => s <| dispatchers_ ::= <[lib := Some (q ++ [QDispatch lib d])]> |>)
    | _ => st_modify (fun s => s <| dispatchers_ ::= <[lib := None]> |>)
    end) pluginList.

(** plugin_mgr.cpp:505-552 [PluginMgr::DispatchResource] *)
Definition PluginMgr_DispatchResource (resData : option (ResData J)) : M unit :=
  s ← st_get;
  ret_if negb (isInit s);
  d <-? resData;
  let d := effective d in
  UpdateReportCount (rd_resType d);;
  s ← st_get;
  let pluginList := GetPluginListByResType (rd_resType d) s
                    ++ GetPluginListByResTypeAndValue (rd_resType d) (rd_value d) s in
  ret_if bool_decide (pluginList = []);
  let pluginList := ph_hash_order (J := J) (K := K) (list_to_set pluginList) in
  if WITH_FFRT then DispatchResourceToPluginAsync pluginList d
  else match dispatcher_ s with
       | Some q => st_modify (fun s => s <| dispatcher_ := Some (q ++ [QDispatchAll pluginList d]) |>)
       | None => mret tt
       end.

(** plugin_mgr.cpp:554-605 [PluginMgr::DeliverResource] *)
Definition PluginMgr_DeliverResource (resData : option (ResData J)) : M (Z * option J) :=
  s ← st_get;
  if negb (isInit s) then mret (PLUGIN_REQUEST_ERROR, None) else
  match resData with
  | None => mret (PLUGIN_REQUEST_ERROR, None)
  | Some d =>
      UpdateReportCount (rd_resType d);;
      s ← st_get;
      match resTypeLibSyncMap_ s !! rd_resType d with
      | None => mret (PLUGIN_REQUEST_ERROR, None)
      | Some lib =>
          match pluginLibMap_ s !! lib with
          | None => mret (PLUGIN_REQUEST_ERROR, None)
          | Some libInfo =>
              if negb (has_onDeliverResource libInfo) then mret (PLUGIN_REQUEST_ERROR, None)
              else call_deliver lib d
          end
      end
  end.

(** ** Slow plugins *)

Definition upd_stat (lib : string) (f : PluginStat -> PluginStat) : M unit :=
  st_modify (fun s => s <| pluginStat_ ::= fun m => <[lib := f (default new_PluginStat (m !! lib))]> m |>).
Definition get_stat (lib : string) : M PluginStat :=
  s ← st_get; mret (default new_PluginStat (pluginStat_ s !! lib)).

(** plugin_mgr.cpp:864-895 [PluginMgr::RepairPlugin]; [front] of an empty list
    is undefined *)
Definition RepairPlugin (endTime : Z) (lib : string) (libInfo : PluginLib) : M unit :=
  upd_stat lib id;;
  st ← get_stat lib;
  first ← st_some (head (timeOutTime st));
  let crash_time := to_s32 (Z.quot (endTime - first) 1000000) in
  upd_stat lib (fun st => st <| timeOutTime ::= fun l => l ++ [endTime] |>);;
  st ← get_stat lib;
  if MAX_PLUGIN_TIMEOUT_TIMES <=? to_s32 (Z.of_nat (length (timeOutTime st))) then
    if crash_time <? DISABLE_PLUGIN_TIME then
      st_when (has_onPluginDisable libInfo) (call_disable lib);;
      upd_stat lib (fun st => st <| timeOutTime := [] |>);;
      st_modify (fun s => s <| pluginLibMap_ ::= delete lib |>)
    else
      upd_stat lib (fun st => st <| timeOutTime ::= tail |>);;
      st_when (has_onPluginDisable libInfo && has_onPluginInit libInfo)
        (call_disable lib;; call_init lib lib;; mret tt)
  else
    st_when (has_onPluginDisable libInfo && has_onPluginInit libInfo)
      (call_disable lib;; call_init lib lib;; mret tt).

(** plugin_mgr.cpp:1087-1097 [PluginMgr::SortPluginList] *)
Definition SortPluginList (pluginList : list string) (s : PluginMgr J K) : list string :=
  sort_by (fun a b =>
    match pluginStat_ s !! a, pluginStat_ s !! b with
    | Some x, Some y => AverageTime x <? AverageTime y
    | _, _ => false
    end) pluginList.

(** plugin_mgr.cpp:897-937 [PluginMgr::DispatchResourceToPluginSync] *)
Definition DispatchResourceToPluginSync (pluginList : list string) (d : ResData J) : M unit :=
  s ← st_get;
  st_iter (fun lib =>
    s ← st_get;
    libInfo <-? pluginLibMap_ s !! lib;
    ret_if negb (has_onDispatchResource libInfo);
    beginTime ← now_ns;
    call_dispatch lib d;;
    endTime ← now_ns;
    let costTimeUs := to_s32 (Z.quot (endTime - beginTime) 1000) in
    let costTime := Z.quot costTimeUs 1000 in
    upd_stat lib (PluginStat_Update costTimeUs);;
    st_when (costTime >? DISPATCH_TIME_OUT) (RepairPlugin endTime lib libInfo))
    (SortPluginList pluginList s).

(** plugin_mgr.cpp:1004-1008 [PluginMgr::RecordRinningStat] *)
Definition RecordRinningStat (lib : string) (isRunning : bool) : M unit :=
  st_modify (fun s => s <| runningStats_ ::= <[lib := isRunning]> |>).

(** plugin_mgr.cpp:1010-1018 [PluginMgr::IsPluginRunning] *)
Definition IsPluginRunning (lib : string) (s : PluginMgr J K) : bool :=
  default false (runningStats_ s !! lib).

(** [ffrt_queue_cancel_all] of a queue; a null pointer is dereferenced. *)
Definition cancel_all (lib : string) : M unit :=
  s ← st_get;
  match dispatchers_ s !! lib with
  | Some (Some _) => st_modify (fun s => s <| dispatchers_ ::= <[lib := Some []]> |>)
  | _ => st_undefined
  end.

(** plugin_mgr.cpp:975-989 [PluginMgr::EnablePluginIfResume] *)
Definition EnablePluginIfResume (lib : string) : M unit :=
  cancel_all lib;;
  s ← st_get;
  if negb (IsPluginRunning lib s) then st_modify (fun s => s <| disablePlugins_ ::= fun d => d ∖ {[lib]} |>)
  else st_modify (fun s => s <| pool ::= fun l => l ++ [GResume lib (pluginBlockTime s)] |>).

(** plugin_mgr.cpp:991-1002 [PluginMgr::HandlePluginTimeout] *)
Definition HandlePluginTimeout (lib : string) : M unit :=
  cancel_all lib;;
  s ← st_get;
  st_when (IsPluginRunning lib s) (st_modify (fun s => s <| disablePlugins_ ::= fun d => d ∪ {[lib]} |>)).

(** The queues run their oldest task. *)
Definition run_plugin_queue (lib : string) : M unit :=
  s ← st_get;
  match dispatchers_ s !! lib with
  | Some (Some (t :: q)) =>
      st_modify (fun s => s <| dispatchers_ ::= <[lib := Some q]> |>);;
      match t with
      | QDispatch lib d => call_dispatch lib d
      | QCallback f => record (PRunCallback f);; ph_callback f
      | QDispatchAll pluginList d => DispatchResourceToPluginSync pluginList d
      end
  | _ => mret tt
  end.
Definition run_dispatcher : M unit :=
  s ← st_get;
  match dispatcher_ s with
  | Some (t :: q) =>
      st_modify (fun s => s <| dispatcher_ := Some q |>);;
      match t with
      | QDispatchAll pluginList d => DispatchResourceToPluginSync pluginList d
      | QCallback f => record (PRunCallback f);; ph_callback f
      | QDispatch lib d => call_dispatch lib d
      end
  | _ => mret tt
  end.

(** ** Stop *)

(** plugin_mgr.cpp:840-862 [PluginMgr::ClearResource] *)
Definition ClearResource : M unit :=
  st_modify (fun s => s <| resTypeLibMap_ := ∅ |> <| resTypeLibSyncMap_ := ∅ |> <| resTypeStrMap_ := ∅ |>
                        <| linkJumpOptSet_ := ∅ |> <| resTyperesValueLibMap_ := ∅ |>).

(** plugin_mgr.cpp:1021-1033 [PluginMgr::UnLoadPlugin] *)
Definition UnLoadPlugin : M unit :=
  s ← st_get;
  st_iter (fun '(lib, libInfo) => st_when (has_onPluginDisable libInfo) (call_disable lib))
    (by_name (pluginLibMap_ s));;
  st_modify (fun s => s <| pluginLibMap_ := ∅ |>).

(** plugin_mgr.cpp:1035-1051 [PluginMgr::OnDestroy] *)
Definition OnDestroy : M unit :=
  UnLoadPlugin;;
  st_modify (fun s => s <| configReader_ := None |> <| pluginSwitch_ := None |>);;
  ClearResource;;
  if WITH_FFRT then st_modify (fun s => s <| dispatchers_ := ∅ |>)
  else st_modify (fun s => s <| dispatcher_ := None |>).

(** plugin_mgr.cpp:409-412 [PluginMgr::Stop] *)
Definition PluginMgr_Stop : M unit := OnDestroy.

(** ** Settings *)

(** plugin_mgr.cpp:1053-1057 [PluginMgr::SetResTypeStrMap] *)
Definition SetResTypeStrMap (resTypeStr : gmap Z string) : M unit :=
  st_modify (fun s => s <| resTypeStrMap_ := resTypeStr |>).

(** plugin_mgr.cpp:1059-1062 [PluginMgr::SetBlockedTime] *)
Definition SetBlockedTime (time : Z) : M unit := st_modify (fun s => s <| pluginBlockTime := time |>).

(** plugin_mgr.cpp:1064-1068 [PluginMgr::SetLinkJumpOptSet] *)
Definition SetLinkJumpOptSet (opts : gset string) : M unit :=
  st_modify (fun s => s <| linkJumpOptSet_ := opts |>).

(** plugin_mgr.cpp:1070-1079 [PluginMgr::GetLinkJumpOptConfig]; the result and
    whether the reference becomes true *)
Definition GetLinkJumpOptConfig (bundleName : string) (s : PluginMgr J K) : bool :=
  bool_decide (bundleName ∈ linkJumpOptSet_ s).

(** plugin_mgr.cpp:382-389 [PluginMgr::GetConfig] *)
Definition PluginMgr_GetConfig (pluginName configName : string) (s : PluginMgr J K) : PluginConfig :=
  match configReader_ s with
  | None => mkPluginConfig []
  | Some r => ConfigReader_GetConfig pluginName configName r
  end.

(** plugin_mgr.cpp:391-398 [PluginMgr::RemoveConfig] *)
Definition PluginMgr_RemoveConfig (pluginName configName : string) : M unit :=
  st_modify (fun s => s <| configReader_ ::= fmap (ConfigReader_RemoveConfig pluginName configName) |>).

(** plugin_mgr.cpp:400-407 [PluginMgr::RemovePluginConfig] *)
Definition PluginMgr_RemovePluginConfig (pluginName : string) : M unit :=
  st_modify (fun s => s <| configReader_ ::= fmap (ConfigReader_RemovePluginConfig pluginName) |>).

(** ** Dumps: the text appended; a missing switch or reader is dereferenced *)

Definition get_switch : M PluginSwitch := s ← st_get; st_some (pluginSwitch_ s).

(** plugin_mgr.cpp:825-838 [PluginMgr::DumpPluginInfoAppend] *)
Definition DumpPluginInfoAppend (info : PluginInfo) (s : PluginMgr J K) : string :=
  let tab := String "009"%char "" in
  (if switchOn info then " | switch on" +:+ tab else " | switch off" +:+ tab)
  +:+ (if bool_decide (is_Some (pluginLibMap_ s !! libPath info))
       then " | running now" +:+ nl else " | disabled" +:+ nl).

(** plugin_mgr.cpp:758-765 [PluginMgr::DumpAllPlugin] *)
Definition DumpAllPlugin : M string :=
  sw ← get_switch; s ← st_get;
  mret (String.concat "" ((fun info => libPath info +:+ " " +:+ DumpPluginInfoAppend info s)
                            <$> GetPluginSwitch sw)).

(** plugin_mgr.cpp:767-775 [PluginMgr::DumpAllPluginConfig] *)
Definition DumpAllPluginConfig : M string :=
  sw ← get_switch; s ← st_get;
  r ← st_some (configReader_ s);
  mret ("================Resource Schedule Plugin Switch================" +:+ nl
    +:+ String.concat "" ((fun info => libPath info +:+ " " +:+ to_string (Z.b2z (switchOn info)) +:+ nl)
                            <$> GetPluginSwitch sw)
    +:+ ConfigReader_Dump r).

(** plugin_mgr.cpp:798-811 [PluginMgr::DumpInfoFromPlugin] the text appended
    and the message *)
Definition DumpInfoFromPlugin (lib : string) (args : list string) : M (string * string) :=
  s ← st_get;
  match pluginLibMap_ s !! lib with
  | None => mret ("", "Error params.")
  | Some libInfo =>
      if has_onDump libInfo then text ← call_dump lib args; mret (text +:+ nl, "")
      else mret ("", "")
  end.

(** plugin_mgr.cpp:777-796 [PluginMgr::DumpOnePlugin] *)
Definition DumpOnePlugin (pluginName : string) (args : list string) : M string :=
  sw ← get_switch;
  match find_first (fun info => String.eqb pluginName (libPath info)) (GetPluginSwitch sw) with
  | None => mret (" Error params." +:+ nl)
  | Some info =>
      match args with
      | [] => s ← st_get; mret (pluginName +:+ " " +:+ DumpPluginInfoAppend info s)
      | _ => '(text, errMsg) ← DumpInfoFromPlugin (libPath info) args; mret (nl +:+ text +:+ errMsg)
      end
  end.

(** plugin_mgr.cpp:813-823 [PluginMgr::DumpHelpFromPlugin] *)
Definition DumpHelpFromPlugin : M string :=
  sw ← get_switch;
  (fix walk (l : list PluginInfo) : M string :=
     match l with
     | [] => mret ""
     | info :: l => '(text, _) ← DumpInfoFromPlugin (libPath info) ["-h"]; rest ← walk l; mret (text +:+ rest)
     end) (GetPluginSwitch sw).
End plugin_mgr.
