(* ===== verification/PluginMgrFacts.v ===== *)
(** * Facts about the plugin manager

    Subscriptions against a set of subscriptions, what a dispatch puts in the
    queues, the counters, and plugins that are too slow. *)
From S2P Require Import Prelude Json ResType Supervisor SupervisorFacts PluginConfig PluginMgr.

(** ** Subscriptions *)

Lemma add_lib_lookup {A} `{Countable A} lib (k k' : A) m :
  default [] (add_lib lib k m !! k') = if decide (k = k') then default [] (m !! k) ++ [lib] else default [] (m !! k').
Proof.
  unfold add_lib. case_decide as E; [subst; by rewrite lookup_insert_eq|by rewrite lookup_insert_ne].
Qed.

Lemma remove_lib_lookup {A} `{Countable A} lib (k k' : A) m :
  default [] (remove_lib lib k m !! k')
  = if decide (k = k') then filter (fun x => x <> lib) (default [] (m !! k)) else default [] (m !! k').
Proof.
  unfold remove_lib. case_decide as E; [subst k'|].
  - destruct (m !! k) as [l|] eqn:El; simpl; [|by rewrite El].
    destruct (filter _ l) eqn:Ef; [by rewrite lookup_delete_eq|by rewrite lookup_insert_eq, <- Ef].
  - destruct (m !! k) as [l|]; [|done].
    destruct (filter _ l); [by rewrite lookup_delete_ne|by rewrite lookup_insert_ne].
Qed.

(** No type is kept without a subscriber. *)
Definition no_empty {A} `{Countable A} (m : gmap A (list string)) : Prop := forall k, m !! k <> Some [].

Lemma no_empty_add {A} `{Countable A} lib (k : A) m : no_empty m -> no_empty (add_lib lib k m).
Proof.
  intros Hm k'. unfold add_lib. destruct (decide (k = k')) as [<-|Hn].
  - rewrite lookup_insert_eq. intros [= E]. by apply app_eq_nil in E as [_ ?].
  - rewrite lookup_insert_ne by done. apply Hm.
Qed.

Lemma no_empty_remove {A} `{Countable A} lib (k : A) m : no_empty m -> no_empty (remove_lib lib k m).
Proof.
  intros Hm k'. unfold remove_lib. destruct (m !! k) as [l|]; [|apply Hm].
  destruct (filter _ l) eqn:Ef; (destruct (decide (k = k')) as [<-|Hn];
    [rewrite ?lookup_delete_eq, ?lookup_insert_eq|rewrite ?lookup_delete_ne, ?lookup_insert_ne by done]);
    [done|apply Hm|done|apply Hm].
Qed.

Lemma erase_first_nil lib l : l <> [] -> erase_first lib l = [] <-> l = [lib].
Proof.
  destruct l as [|x l]; [done|]. intros _. simpl. destruct (String.eqb_spec x lib) as [->|Hn]; split; try done.
  - by intros ->.
  - by intros [= ->].
  - by intros [= ? ?].
Qed.

Lemma unsubscribe_block_lookup {A} `{Countable A} lib (m : gmap A (list string)) k :
  no_empty m ->
  unsubscribe_block lib m !! k = if decide (m !! k = Some [lib]) then None else m !! k.
Proof.
  intros Hm. unfold unsubscribe_block. rewrite lookup_difference.
  destruct (m !! k) as [l|] eqn:E.
  - assert (Hl : l <> []) by (intros ->; by apply (Hm k)).
    case_decide as Ed.
    + injection Ed as ->. rewrite (map_lookup_filter_Some_2 _ _ k [lib]); [done|done|by apply erase_first_nil].
    + rewrite (map_lookup_filter_None_2 _ m k); [done|]. right. intros l' [= <-]%(eq_trans (eq_sym E)) Hf. simpl in Hf.
      apply Ed. f_equal. by apply erase_first_nil in Hf.
  - rewrite decide_False by done. by destruct (filter _ m !! k).
Qed.

Section subscriptions.
Context {J K N : Type} `{!Json J} `{!Build} `{!PluginHost J K} `{!Xml N}.
Implicit Types (s : PluginMgr J K).

(** What plugins ask for. *)
Inductive SubOp : Type :=
  | Sub (lib : string) (resType : Z)
  | UnSub (lib : string) (resType : Z)
  | SubAcc (lib : string) (resType value : Z)
  | UnSubAcc (lib : string) (resType value : Z).

Definition exec_sub (op : SubOp) : ST (PluginMgr J K) unit :=
  match op with
  | Sub lib t => SubscribeResource lib t
  | UnSub lib t => UnSubscribeResource lib t
  | SubAcc lib t v => SubscribeResourceAccurately lib t v
  | UnSubAcc lib t v => UnSubscribeResourceAccurately lib t v
  end.

(** The specification: a set of subscriptions, to all values of a type or to one. *)
Definition Subs : Type := gset (string * Z * option Z).

Definition abs_sub (accurate : bool) (op : SubOp) (a : Subs) : Subs :=
  match op with
  | Sub lib t => if String.eqb lib "" then a else a ∪ {[(lib, t, None)]}
  | UnSub lib t => if String.eqb lib "" then a else a ∖ {[(lib, t, None)]}
  | SubAcc lib t v => if String.eqb lib "" then a else a ∪ {[(lib, t, if accurate then Some v else None)]}
  | UnSubAcc lib t v => if String.eqb lib "" then a else a ∖ {[(lib, t, if accurate then Some v else None)]}
  end.

Definition implements s (a : Subs) : Prop :=
  no_empty (resTypeLibMap_ s) /\ no_empty (resTyperesValueLibMap_ s) /\
  (forall lib t, lib ∈ GetPluginListByResType t s <-> (lib, t, None) ∈ a) /\
  (forall lib t v, lib ∈ GetPluginListByResTypeAndValue t v s <-> (lib, t, Some v) ∈ a).

Lemma implements_sub s a lib t :
  implements s a -> implements (s <| resTypeLibMap_ ::= add_lib lib t |>) (a ∪ {[(lib, t, None)]}).
Proof.
  intros (H1 & H2 & H3 & H4). split_and!; [by apply no_empty_add|done| |].
  - intros l u. unfold GetPluginListByResType. simpl. rewrite add_lib_lookup.
    case_decide as E; [subst u|]; [rewrite elem_of_app, list_elem_of_singleton|]; specialize (H3 l); unfold GetPluginListByResType in H3;
      rewrite H3; set_solver.
  - intros l u v. rewrite (H4 l u v) || (unfold GetPluginListByResTypeAndValue in *; simpl; rewrite H4); set_solver.
Qed.

Lemma implements_unsub s a lib t :
  implements s a -> implements (s <| resTypeLibMap_ ::= remove_lib lib t |>) (a ∖ {[(lib, t, None)]}).
Proof.
  intros (H1 & H2 & H3 & H4). split_and!; [by apply no_empty_remove|done| |].
  - intros l u. unfold GetPluginListByResType. simpl. rewrite remove_lib_lookup.
    case_decide as E; [subst u|]; [rewrite list_elem_of_filter|]; specialize (H3 l); unfold GetPluginListByResType in H3;
      rewrite H3; set_solver.
  - intros l u v. unfold GetPluginListByResTypeAndValue in *; simpl; rewrite H4; set_solver.
Qed.

Lemma implements_subacc s a lib t v :
  implements s a -> implements (s <| resTyperesValueLibMap_ ::= add_lib lib (t, v) |>) (a ∪ {[(lib, t, Some v)]}).
Proof.
  intros (H1 & H2 & H3 & H4). split_and!; [done|by apply no_empty_add| |].
  - intros l u. unfold GetPluginListByResType in *; simpl; rewrite H3; set_solver.
  - intros l u w. unfold GetPluginListByResTypeAndValue. simpl. rewrite add_lib_lookup.
    case_decide as E; [simplify_eq|]; [rewrite elem_of_app, list_elem_of_singleton|]; unfold GetPluginListByResTypeAndValue in H4;
      rewrite H4; set_solver.
Qed.

Lemma implements_unsubacc s a lib t v :
  implements s a -> implements (s <| resTyperesValueLibMap_ ::= remove_lib lib (t, v) |>) (a ∖ {[(lib, t, Some v)]}).
Proof.
  intros (H1 & H2 & H3 & H4). split_and!; [done|by apply no_empty_remove| |].
  - intros l u. unfold GetPluginListByResType in *; simpl; rewrite H3; set_solver.
  - intros l u w. unfold GetPluginListByResTypeAndValue. simpl. rewrite remove_lib_lookup.
    case_decide as E; [simplify_eq|]; [rewrite list_elem_of_filter|]; unfold GetPluginListByResTypeAndValue in H4;
      rewrite H4; set_solver.
Qed.

Lemma exec_sub_implements op s a :
  implements s a ->
  exists s', exec_sub op s = Some (tt, s') /\ implements s' (abs_sub (subscriptionAccuractlyEnable_ s) op a) /\
    subscriptionAccuractlyEnable_ s' = subscriptionAccuractlyEnable_ s.
Proof.
  intros Hs. destruct op as [lib t|lib t|lib t v|lib t v]; simpl;
    unfold SubscribeResource, UnSubscribeResource, SubscribeResourceAccurately, UnSubscribeResourceAccurately,
      SubscribeResource, UnSubscribeResource, mbind, ST_bind, st_get, st_modify;
    destruct (String.eqb lib "") eqn:E; try (by eexists).
  - eexists. split_and!; [done|by apply implements_sub|done].
  - eexists. split_and!; [done|by apply implements_unsub|done].
  - destruct (subscriptionAccuractlyEnable_ s) eqn:Ea; simpl;
      eexists; (split_and!; [done| |done]); [by apply implements_subacc|by apply implements_sub].
  - destruct (subscriptionAccuractlyEnable_ s) eqn:Ea; simpl;
      eexists; (split_and!; [done| |done]); [by apply implements_unsubacc|by apply implements_unsub].
Qed.

Lemma run_subs ops s a :
  implements s a ->
  exists s', st_iter exec_sub ops s = Some (tt, s') /\
    implements s' (foldl (fun a op => abs_sub (subscriptionAccuractlyEnable_ s) op a) a ops) /\
    subscriptionAccuractlyEnable_ s' = subscriptionAccuractlyEnable_ s.
Proof.
  revert s a. induction ops as [|op ops IH]; intros s a Hs; [by exists s|]. cbn [st_iter foldl].
  destruct (exec_sub_implements op s a Hs) as (s1 & E1 & H1 & Ea1). rewrite (run_bind _ _ _ _ _ E1).
  destruct (IH s1 _ H1) as (s2 & E2 & H2 & Ea2). exists s2. rewrite Ea1 in *. split_and!; [done|done|congruence].
Qed.

Lemma implements_new k : implements (new_PluginMgr (J := J) k) ∅.
Proof.
  split_and!; [intros ?; cbn; by rewrite lookup_empty..| |].
  - intros lib t. unfold GetPluginListByResType. simpl. rewrite lookup_empty. set_solver.
  - intros lib t v. unfold GetPluginListByResTypeAndValue. simpl. rewrite lookup_empty. set_solver.
Qed.
(** The types that are reported are those somebody subscribed to. *)
Lemma types_of_subs s a t :
  implements s a -> t ∈ GetResTypeList s <-> exists lib o, (lib, t, o) ∈ a.
Proof.
  intros (H1 & H2 & H3 & H4). unfold GetResTypeList. rewrite elem_of_union, elem_of_map, elem_of_dom. split.
  - intros [[l Hl]|([u v] & -> & [l Hl]%elem_of_dom)].
    + destruct l as [|lib l]; [by destruct (H1 t)|]. exists lib, None. apply H3.
      unfold GetPluginListByResType. rewrite Hl. simpl. left.
    + destruct l as [|lib l]; [by destruct (H2 (u, v))|]. exists lib, (Some v). apply H4.
      unfold GetPluginListByResTypeAndValue. cbn [fst]. rewrite Hl. simpl. left.
  - intros (lib & [v|] & Ha).
    + right. exists (t, v). split; [done|]. apply H4 in Ha. unfold GetPluginListByResTypeAndValue in Ha.
      apply elem_of_dom. destruct (resTyperesValueLibMap_ s !! (t, v)); [by eexists|by apply not_elem_of_nil in Ha].
    + left. apply H3 in Ha. unfold GetPluginListByResType in Ha.
      destruct (resTypeLibMap_ s !! t); [by eexists|by apply not_elem_of_nil in Ha].
Qed.

(** What is left of an entry when those that name one plugin alone are erased. *)
Lemma elem_of_rest (o : option (list string)) lib p :
  p ∈ default [] (if decide (o = Some [lib]) then None else o)
  <-> p ∈ default [] o /\ default [] o <> [lib].
Proof.
  case_decide as Ho; [subst; cbn; split; [by intros ?%elem_of_nil|naive_solver]|].
  destruct o as [l|]; cbn; [naive_solver|]. split; [by intros ?%elem_of_nil|by intros [?%elem_of_nil _]].
Qed.
End subscriptions.

(** Taking all subscriptions back does not.  [UnSubscribeAllResources] removes an
    entry exactly when the plugin is its only subscriber, once; every other entry
    stays as it is, so a plugin that shares a type with another one, or subscribed to
    it twice, goes on receiving it. *)
Theorem unsubscribe_all_keeps_shared {J K} `{!Build} `{!PluginHost J K} (s : PluginMgr J K) lib :
  lib <> "" -> no_empty (resTypeLibMap_ s) -> no_empty (resTyperesValueLibMap_ s) ->
  exists s', UnSubscribeAllResources lib s = Some (tt, s') /\
    (forall t, resTypeLibMap_ s' !! t
               = if decide (resTypeLibMap_ s !! t = Some [lib]) then None else resTypeLibMap_ s !! t) /\
    (forall tv, resTyperesValueLibMap_ s' !! tv
               = if decide (resTyperesValueLibMap_ s !! tv = Some [lib]) then None else resTyperesValueLibMap_ s !! tv).
Proof.
  intros Hlib H1 H2. unfold UnSubscribeAllResources. apply String.eqb_neq in Hlib. rewrite Hlib.
  eexists. split; [reflexivity|]. simpl.
  split; intros t; by apply unsubscribe_block_lookup.
Qed.

(** C10: The subscription tables are a set of subscriptions.  After any sequence of single
    subscriptions and their withdrawals, plain or for one value, repeated or of
    nothing, a plugin is listed for a type (or for a type with a value) exactly when
    the set built by the same sequence holds it; with accurate subscriptions switched
    off, one for a value counts for the whole type.  No empty entry is kept, so the
    manager reports exactly the types that someone subscribed to.  When a plugin then takes
    all its subscriptions back at once, an entry goes exactly when it lists this plugin alone,
    once; the plugin stays listed wherever another one, or itself again, is listed too. *)
Theorem subscriptions_refine_set {J K} `{!Build} `{!PluginHost J K} (k : K) accurate ops :
  let s0 := (new_PluginMgr (J := J) k) <| subscriptionAccuractlyEnable_ := accurate |> in
  exists s, st_iter exec_sub ops s0 = Some (tt, s) /\
    let a := foldl (fun a op => abs_sub accurate op a) ∅ ops in
    (forall lib t, lib ∈ GetPluginListByResType t s <-> (lib, t, None) ∈ a) /\
    (forall lib t v, lib ∈ GetPluginListByResTypeAndValue t v s <-> (lib, t, Some v) ∈ a) /\
    (forall t, t ∈ GetResTypeList s <-> exists lib o, (lib, t, o) ∈ a) /\
    (forall lib, lib <> "" -> exists s', UnSubscribeAllResources lib s = Some (tt, s') /\
       (forall p t, p ∈ GetPluginListByResType t s' <->
          (p, t, None) ∈ a /\ GetPluginListByResType t s <> [lib]) /\
       (forall p t v, p ∈ GetPluginListByResTypeAndValue t v s' <->
          (p, t, Some v) ∈ a /\ GetPluginListByResTypeAndValue t v s <> [lib])).
Proof.
  intros s0. assert (H0 : implements s0 ∅) by exact (implements_new (J := J) k).
  destruct (run_subs ops s0 ∅ H0) as (s & E & (H1 & H2 & H3 & H4) & _). exists s. split; [exact E|]. cbn zeta.
  change (subscriptionAccuractlyEnable_ s0) with accurate in H3, H4. split_and!; [exact H3|exact H4|..].
  - intros t. by apply types_of_subs.
  - intros lib Hlib. destruct (unsubscribe_all_keeps_shared s lib Hlib H1 H2) as (s' & E' & Ht & Hv).
    exists s'. split; [exact E'|].
    unfold GetPluginListByResType, GetPluginListByResTypeAndValue in *. split.
    + intros p t. rewrite Ht, <- H3. apply elem_of_rest.
    + intros p t v. rewrite Hv, <- H4. apply elem_of_rest.
Qed.


(** ** Dispatching *)

(** A hash set of strings is walked in some order, each element once. *)
Class PluginHostLaws (J K : Type) `{!PluginHost J K} := {
  hash_order_spec (X : gset string) :
    NoDup (ph_hash_order (J := J) (K := K) X) /\ forall x, x ∈ ph_hash_order (J := J) (K := K) X <-> x ∈ X;
}.

Section dispatch.
Context {J K N : Type} `{!Json J} `{!Build} `{!PluginHost J K} `{!Xml N}.
Implicit Types (s : PluginMgr J K).

(** Only the counters, the clock and the report of frequent events differ. *)
Definition same_core s s' : Prop :=
  exists rc t lrc lt tr k,
    s' = s <| reportCount_ := rc |> <| lastReportCountTime_ := t |> <| logReportCount_ := lrc |>
           <| lastLogReportCountTime_ := lt |> <| trace := tr |> <| host := k |> /\
    (tr = trace s \/ exists hot, tr = trace s ++ [PHotEvent hot]).

(** One more report of a type. *)
Definition count_up (t : Z) (m : gmap Z Z) : gmap Z Z :=
  <[t := match m !! t with None => 1 | Some n => to_u32 (n + 1) end]> m.

Lemma run_UpdateLogReportCount t now s :
  exists lrc lt, UpdateLogReportCount t now s
    = Some (tt, s <| logReportCount_ := lrc |> <| lastLogReportCountTime_ := lt |>).
Proof.
  unfold UpdateLogReportCount, st_modify, st_get, mbind, ST_bind. cbn [mret].
  destruct (_ <? LOG_INTERVAL_TIME); eexists _, _; unfold mret, ST_ret; f_equal; f_equal; by destruct s.
Qed.

Lemma run_UpdateReportCount t s :
  exists s' now k, ph_now_ms (J := J) (host s) = (now, k) /\ UpdateReportCount t s = Some (tt, s') /\ same_core s s' /\
    host s' = k /\
    if now - lastReportCountTime_ s <? ONE_DAY_MILLS
    then reportCount_ s' = count_up t (reportCount_ s) /\ lastReportCountTime_ s' = lastReportCountTime_ s
    else reportCount_ s' = ∅ /\ lastReportCountTime_ s' = now.
Proof.
  destruct (ph_now_ms (J := J) (host s)) as [now k] eqn:En.
  unfold UpdateReportCount, now_ms, on_host. rewrite (run_bind _ _ s tt (s <| reportCount_ ::= count_up t |>)) by done.
  set (s1 := s <| reportCount_ ::= count_up t |> <| host := k |>).
  erewrite run_bind by (change (host (s <| reportCount_ ::= count_up t |>)) with (host s); rewrite En; reflexivity).
  destruct (run_UpdateLogReportCount t now s1) as (lrc & lt & El). fold s1. rewrite (run_bind _ _ _ _ _ El).
  rewrite run_get_bind. change (lastReportCountTime_ (s1 <| logReportCount_ := lrc |> <| lastLogReportCountTime_ := lt |>))
    with (lastReportCountTime_ s).
  destruct (now - lastReportCountTime_ s <? ONE_DAY_MILLS) eqn:Ed.
  - eexists _, now, k. split_and!; [done|reflexivity| |done|by rewrite Ed].
    exists (count_up t (reportCount_ s)), (lastReportCountTime_ s), lrc, lt, (trace s), k. split; [by destruct s|by left].
  - eexists _, now, k. split_and!; [done|reflexivity| |done|by rewrite Ed].
    eexists ∅, now, lrc, lt, _, k. split; [reflexivity|]. right. by eexists.
Qed.

(** What a dispatch does to the queue of one of the chosen plugins. *)
Definition queue_after s (d : ResData J) (lib : string) : option (option (list (QTask J))) :=
  if bool_decide (lib ∈ disablePlugins_ s) then dispatchers_ s !! lib else
  match pluginLibMap_ s !! lib with
  | Some libInfo =>
      if has_onDispatchResource libInfo then
        match dispatchers_ s !! lib with
        | Some (Some q) => Some (Some (q ++ [QDispatch lib d]))
        | _ => Some None
        end
      else dispatchers_ s !! lib
  | None => dispatchers_ s !! lib
  end.

Lemma run_Async l d s :
  NoDup l ->
  exists m, DispatchResourceToPluginAsync l d s = Some (tt, s <| dispatchers_ := m |>) /\
    forall lib, m !! lib = if decide (lib ∈ l) then queue_after s d lib else dispatchers_ s !! lib.
Proof.
  intros Hl. unfold DispatchResourceToPluginAsync. revert s. induction Hl as [|x l Hx Hl IH]; intros s.
  { exists (dispatchers_ s). split; [by destruct s|done]. }
  assert (Hstep : forall m, (forall lib, m !! lib = if decide (lib = x) then queue_after s d lib else dispatchers_ s !! lib) ->
    exists m', st_iter (fun lib => s ← st_get;
      ret_if bool_decide (lib ∈ disablePlugins_ s); libInfo <-? pluginLibMap_ s !! lib;
      ret_if negb (has_onDispatchResource libInfo);
      match dispatchers_ s !! lib with
      | Some (Some q) => st_modify (fun s => s <| dispatchers_ ::= <[lib := Some (q ++ [QDispatch lib d])]> |>)
      | _ => st_modify (fun s => s <| dispatchers_ ::= <[lib := None]> |>)
      end) l (s <| dispatchers_ := m |>) = Some (tt, s <| dispatchers_ := m' |>) /\
    forall lib, m' !! lib = if decide (lib ∈ x :: l) then queue_after s d lib else dispatchers_ s !! lib).
  { intros m Hm. destruct (IH (s <| dispatchers_ := m |>)) as (m' & E & Hm'). exists m'. split; [exact E|].
    intros lib. rewrite Hm'. destruct (decide (lib ∈ l)) as [Hin|Hn].
    - rewrite decide_True by by right. assert (Hne : lib <> x) by (intros ->; done).
      unfold queue_after. simpl. by rewrite Hm, decide_False.
    - simpl. rewrite Hm. destruct (decide (lib = x)) as [->|Hne]; [by rewrite decide_True by by left|].
      by rewrite decide_False by set_solver. }
  cbn [st_iter]. unfold mbind at 1, ST_bind at 1. rewrite run_get_bind.
  assert (Hsame : queue_after s d x = dispatchers_ s !! x -> exists m', _ /\ _) by (intros Eq; apply (Hstep (dispatchers_ s));
    intros lib; destruct (decide (lib = x)) as [->|]; done).
  assert (Es : s <| dispatchers_ := dispatchers_ s |> = s) by (by destruct s). rewrite Es in Hsame.
  unfold queue_after in Hsame at 1.
  destruct (bool_decide (x ∈ disablePlugins_ s)) eqn:Ed; [by apply Hsame|].
  destruct (pluginLibMap_ s !! x) as [info|] eqn:Ei; [|by apply Hsame].
  destruct (has_onDispatchResource info) eqn:Ef; [cbn [negb]|by apply Hsame].
  destruct (dispatchers_ s !! x) as [[q|]|] eqn:Eq; apply (Hstep (<[x := _]> (dispatchers_ s))); intros lib;
    (destruct (decide (lib = x)) as [->|Hne]; [rewrite lookup_insert_eq|by rewrite lookup_insert_ne]);
    unfold queue_after; by rewrite Ed, Ei, Ef, Eq.
Qed.
End dispatch.

Lemma core_lists {J K} `{!Build} `{!PluginHost J K} (s s' : PluginMgr J K) :
  same_core s s' ->
  (forall t, GetPluginListByResType t s' = GetPluginListByResType t s) /\
  (forall t v, GetPluginListByResTypeAndValue t v s' = GetPluginListByResTypeAndValue t v s) /\
  dispatchers_ s' = dispatchers_ s /\ (forall d lib, queue_after s' d lib = queue_after s d lib) /\
  forall m, same_core (s <| dispatchers_ := m |>) (s' <| dispatchers_ := m |>).
Proof.
  intros (rc & t & lrc & lt & tr & h & -> & Htr). destruct s. split_and!; try done.
  intros m. by exists rc, t, lrc, lt, tr, h.
Qed.

(** C9: Every subscriber gets an event exactly once, and nobody else does.  With one
    queue per plugin, a dispatch by the started manager puts the event once at the
    end of the queue of each plugin that subscribed to its type or to its type with
    its value (also of one that subscribed both ways or twice), provided the plugin
    is loaded, has a dispatch function and is not disabled; every other queue, and
    all the rest of the manager but its counters, is as before. *)
Theorem dispatch_reaches_subscribers {J K} `{!Json J} `{!Build} `{!PluginHost J K} `{!PluginHostLaws J K}
    (s : PluginMgr J K) (d : ResData J) :
  WITH_FFRT = true -> isInit s = true ->
  exists s', PluginMgr_DispatchResource (Some d) s = Some (tt, s') /\
    same_core (s <| dispatchers_ := dispatchers_ s' |>) s' /\
    let d' := effective (K := K) d in
    forall lib, dispatchers_ s' !! lib =
      if decide (lib ∈ GetPluginListByResType (rd_resType d') s
                 \/ lib ∈ GetPluginListByResTypeAndValue (rd_resType d') (rd_value d') s)
      then queue_after s d' lib else dispatchers_ s !! lib.
Proof.
  intros Hf Hi. cbv zeta. unfold PluginMgr_DispatchResource. rewrite run_get_bind, Hi. cbn [negb]. cbv zeta.
  generalize (effective (K := K) d) as d'. clear d. intros d.
  destruct (run_UpdateReportCount (rd_resType d) s) as (s1 & now & k & _ & E1 & Hcore & _ & _).
  rewrite (run_bind _ _ _ _ _ E1), run_get_bind. clear E1.
  destruct (core_lists s s1 Hcore) as (L1 & L2 & L3 & L4 & L5). rewrite L1, L2.
  case_bool_decide as El.
  - exists s1. apply app_eq_nil in El as [-> ->]. split; [done|]. split.
    + rewrite L3. replace (s <| dispatchers_ := dispatchers_ s |>) with s by (by destruct s). done.
    + intros lib. rewrite decide_False by set_solver. by rewrite L3.
  - rewrite Hf. destruct (hash_order_spec (J := J) (K := K) (list_to_set (GetPluginListByResType (rd_resType d) s
      ++ GetPluginListByResTypeAndValue (rd_resType d) (rd_value d) s))) as [Hnd Hin].
    destruct (run_Async _ d s1 Hnd) as (m & -> & Hm).
    exists (s1 <| dispatchers_ := m |>). split; [done|]. split; [by apply L5|].
    intros lib. cbn. rewrite Hm, L3, L4.
    apply decide_ext. rewrite Hin, elem_of_list_to_set. apply elem_of_app.
Qed.

(** ** Examples *)

Definition demo_build : Build := {| WITH_FFRT := true; WITH_EXT_RES := false |}.
Definition sync_build : Build := {| WITH_FFRT := false; WITH_EXT_RES := false |}.

(** A host whose clock advances by 60 ms with each reading; plugins do nothing. *)
Definition demo_host : PluginHost json Z := {|
  ph_dlopen lib _ := if String.eqb lib "libmissing.z.so" then None else Some (mkPluginLib true true true true true);
  ph_init lib _ := mret (negb (String.eqb lib "libbad.z.so"));
  ph_dispatch _ _ := mret tt;
  ph_deliver _ d := mret (rd_value d, Some (rd_payload d));
  ph_disable _ := mret tt;
  ph_dump _ _ := mret "";
  ph_callback _ := mret tt;
  ph_now_ms k := (k / 1000000, k);
  ph_now_ns k := (k + 60000000, k + 60000000);
  ph_accurate_property _ := "1";
  ph_StrToInt _ := None;
  ph_ext_config _ := None;
  ph_GetExtMultiConfig _ _ := [];
  ph_cfg_dirs _ := None;
  ph_realpath _ _ := None;
  ph_file _ _ := "";
  ph_hash_order X := elements X;
|}.
#[export] Instance demo_host_laws : @PluginHostLaws json Z demo_host.
Proof. split. intros X. split; [apply NoDup_elements|]. intros x. apply elem_of_elements. Qed.

(** Two plugins that are loaded and subscribed. *)
Definition demo_mgr : PluginMgr json Z :=
  (new_PluginMgr 0) <| isInit := true |>
    <| pluginLibMap_ := {["liba.z.so" := mkPluginLib true true true true true;
                          "libb.z.so" := mkPluginLib true true false false true]} |>
    <| dispatchers_ := {["liba.z.so" := Some []; "libb.z.so" := Some []]} |>
    <| resTypeLibMap_ := {[5 := ["liba.z.so"; "liba.z.so"]; 6 := ["liba.z.so"; "libb.z.so"]; 7 := ["libb.z.so"]]} |>
    <| resTyperesValueLibMap_ := {[(5, 1) := ["liba.z.so"]]} |>
    <| resTypeLibSyncMap_ := {[9 := "liba.z.so"; 10 := "libb.z.so"]} |>.

Lemma dispatch_reaches_subscribers_witness :
  exists s', @PluginMgr_DispatchResource json Z _ demo_build demo_host (Some (mkResData 5 1 JNull)) demo_mgr = Some (tt, s') /\
    dispatchers_ s' !! "liba.z.so" = Some (Some [QDispatch "liba.z.so" (mkResData 5 1 JNull)]) /\
    dispatchers_ s' !! "libb.z.so" = Some (Some []).
Proof.
  destruct (@dispatch_reaches_subscribers json Z _ demo_build demo_host _ demo_mgr (mkResData 5 1 JNull) eq_refl eq_refl)
    as (s' & E & _ & Hq).
  exists s'. split; [exact E|]. split; rewrite Hq; vm_compute; reflexivity.
Defined.

Lemma no_empty_dec {A} `{Countable A} (m : gmap A (list string)) :
  map_Forall (fun _ l => l <> []) m -> no_empty m.
Proof. intros Hm k E. by apply (Hm k []). Qed.

Lemma unsubscribe_all_keeps_shared_witness :
  exists s', @UnSubscribeAllResources json Z "libb.z.so" demo_mgr = Some (tt, s') /\
    resTypeLibMap_ s' !! 6 = Some ["liba.z.so"; "libb.z.so"] /\ resTypeLibMap_ s' !! 7 = None.
Proof.
  destruct (@unsubscribe_all_keeps_shared json Z demo_build demo_host demo_mgr "libb.z.so") as (s' & E & H1 & _);
    [done|apply no_empty_dec, (bool_decide_unpack _); vm_compute; exact Logic.I..|].
  exists s'. split; [exact E|]. split; rewrite H1; vm_compute; reflexivity.
Defined.

(** ** Delivery *)

(** A synchronous event has exactly one outcome.  When the manager is started,
    one plugin subscribed to the type, is loaded and can take it, that plugin is
    called once with the event and its answer is the result; in every other case the
    result is -1, no plugin is called, and nothing but the counters changes. *)
Theorem deliver_outcomes {J K} `{!Json J} `{!Build} `{!PluginHost J K} (s : PluginMgr J K) (o : option (ResData J)) :
  let target := d ← o; (if isInit s then resTypeLibSyncMap_ s !! rd_resType d else None) ≫= fun lib =>
    (libInfo ← pluginLibMap_ s !! lib; if has_onDeliverResource libInfo then Some (d, lib) else None) in
  match target with
  | Some (d, lib) => exists s1, same_core s s1 /\
      PluginMgr_DeliverResource o s
      = ph_deliver lib d (s1 <| trace ::= fun l => l ++ [PDeliver lib d] |>)
  | None => exists s', PluginMgr_DeliverResource o s = Some ((PLUGIN_REQUEST_ERROR, None), s') /\ (s' = s \/ same_core s s')
  end.
Proof.
  cbv zeta. unfold PluginMgr_DeliverResource. destruct o as [d|]; simpl.
  2: { rewrite run_get_bind. exists s. split; [by destruct (negb (isInit s))|by left]. }
  rewrite run_get_bind. destruct (isInit s) eqn:Ei; simpl; [|exists s; split; [done|by left]].
  destruct (run_UpdateReportCount (rd_resType d) s) as (s1 & now & k & _ & E1 & Hcore & _ & _).
  rewrite (run_bind _ _ _ _ _ E1), run_get_bind. clear E1.
  assert (Hc : resTypeLibSyncMap_ s1 = resTypeLibSyncMap_ s /\ pluginLibMap_ s1 = pluginLibMap_ s).
  { destruct Hcore as (? & ? & ? & ? & ? & ? & -> & _). done. }
  destruct Hc as [-> Hl]. destruct (resTypeLibSyncMap_ s !! rd_resType d) as [lib|]; simpl; [|exists s1; split; [done|by right]].
  rewrite Hl. destruct (pluginLibMap_ s !! lib) as [info|]; simpl; [|exists s1; split; [done|by right]].
  destruct (has_onDeliverResource info); simpl; [by exists s1|exists s1; split; [done|by right]].
Qed.

(** ** Time spent in plugins *)

Definition accepted (cost : Z) : bool := (cost >? 0) && (cost <? DISPATCH_TIME_OUT_US).

Definition stat_ok (st : PluginStat) : Prop :=
  0 <= useCount st <= totalTime st /\ totalTime st < 2 ^ 64 /\
  totalTime st <= (DISPATCH_TIME_OUT_US - 1) * useCount st.

Lemma stat_ok_Update cost st : stat_ok st -> stat_ok (PluginStat_Update cost st).
Proof.
  intros (H1 & H2 & H3). unfold PluginStat_Update, DISPATCH_TIME_OUT_US, DISPATCH_TIME_OUT in *.
  destruct ((cost >? 0) && (cost <? 50 * 1000)) eqn:E; [|done]. unfold to_u64.
  destruct (Z_lt_ge_dec (totalTime st + cost) (2 ^ 64)) as [Hs|Hw].
  - rewrite (Z.mod_small (totalTime st + cost)) by lia. replace (_ <? totalTime st) with false by lia.
    unfold stat_ok. simpl. unfold to_u64. rewrite !Z.mod_small by lia. unfold DISPATCH_TIME_OUT_US, DISPATCH_TIME_OUT. lia.
  - assert (Em : (totalTime st + cost) mod 2 ^ 64 = totalTime st + cost - 2 ^ 64).
    { symmetry. apply (Z.mod_unique _ _ 1); lia. }
    rewrite Em. replace (_ <? totalTime st) with true by lia. unfold stat_ok. simpl.
    unfold DISPATCH_TIME_OUT_US, DISPATCH_TIME_OUT. lia.
Qed.

(** The mean time of a plugin is a mean of times below the limit.  Whatever times
    are recorded, also negative ones and ones over the limit, the use counter never
    exceeds the total, the total fits its 64 bits (the sum starts again instead of
    wrapping), the mean is below 50 ms, and as long as the accepted times sum up to
    less than 2^64 they are all counted. *)
Theorem average_time_bounds (costs : list Z) :
  let st := foldl (fun st cost => PluginStat_Update cost st) new_PluginStat costs in
  0 <= AverageTime st < DISPATCH_TIME_OUT_US /\ useCount st <= totalTime st < 2 ^ 64 /\
  (foldr Z.add 0 (filter (fun c => accepted c = true) costs) < 2 ^ 64 ->
   totalTime st = foldr Z.add 0 (filter (fun c => accepted c = true) costs) /\
   useCount st = Z.of_nat (length (filter (fun c => accepted c = true) costs))).
Proof.
  assert (Hok : forall st, stat_ok st -> stat_ok (foldl (fun st cost => PluginStat_Update cost st) st costs)).
  { induction costs as [|c cs IH]; intros st Hst; [done|]. by apply IH, stat_ok_Update. }
  assert (Hsum : forall st, stat_ok st -> let S := foldr Z.add 0 (filter (fun c => accepted c = true) costs) in
    totalTime st + S < 2 ^ 64 ->
    let st' := foldl (fun st cost => PluginStat_Update cost st) st costs in
    totalTime st' = totalTime st + S /\
    useCount st' = useCount st + Z.of_nat (length (filter (fun c => accepted c = true) costs))).
  { clear Hok. induction costs as [|c cs IH]; intros st Hst; [simpl; lia|]. cbn [foldl].
    assert (Hpos : 0 <= foldr Z.add 0 (filter (fun c => accepted c = true) cs)).
    { clear. induction cs as [|c cs IH]; [done|]. rewrite filter_cons. case_decide as E; [simpl|done].
      unfold accepted in E. lia. }
    rewrite filter_cons. case_decide as E; [cbn [foldr length]|].
    - intros Hlt. assert (E' := E). unfold accepted, DISPATCH_TIME_OUT_US, DISPATCH_TIME_OUT in E'.
      destruct (IH _ (stat_ok_Update c _ Hst)) as [H1 H2];
        unfold PluginStat_Update in *; fold (accepted c) in *; rewrite E in *; unfold to_u64 in *;
        rewrite (Z.mod_small (totalTime st + c)) in * by (destruct Hst; lia);
        replace (totalTime st + c <? totalTime st) with false in * by lia; simpl in *;
        [lia|]. rewrite H1, H2. destruct Hst as (Hu & _). rewrite Z.mod_small by lia. lia.
    - unfold PluginStat_Update. fold (accepted c). destruct (accepted c); [done|]. apply IH, Hst. }
  assert (H0 : stat_ok new_PluginStat) by (unfold stat_ok; simpl; lia).
  cbv zeta. destruct (Hok _ H0) as (Hu & Ht & Hm). split_and!; try lia.
  - unfold AverageTime. case_match; [apply Z.div_pos; lia|lia].
  - unfold AverageTime. unfold DISPATCH_TIME_OUT_US, DISPATCH_TIME_OUT in *. case_match; [|lia].
    apply Z.div_lt_upper_bound; lia.
  - intros Hlt. destruct (Hsum _ H0 Hlt) as [-> ->]. simpl. lia.
Qed.

(** C11: A plugin that is slow for the first time crashes the service.  In the build
    with one queue for all, when a plugin takes more than 50 ms for an event the
    manager reads the first of its recorded timeouts; there is none, so the access is
    undefined.  A plugin within its time is called once, and its time is recorded. *)
Theorem slow_plugin_outcome {J K} `{!Json J} `{!Build} `{!PluginHost J K} (s s2 : PluginMgr J K) lib info d b k1 e k2 :
  pluginLibMap_ s !! lib = Some info -> has_onDispatchResource info = true ->
  timeOutTime (default new_PluginStat (pluginStat_ s !! lib)) = [] ->
  ph_now_ns (J := J) (host s) = (b, k1) ->
  ph_dispatch lib d (s <| host := k1 |> <| trace ::= fun l => l ++ [PDispatch lib d] |>) = Some (tt, s2) ->
  pluginStat_ s2 = pluginStat_ s -> ph_now_ns (J := J) (host s2) = (e, k2) ->
  let cost := to_s32 (Z.quot (e - b) 1000) in
  DispatchResourceToPluginSync [lib] d s =
  if Z.quot cost 1000 >? DISPATCH_TIME_OUT then None
  else Some (tt, s2 <| host := k2 |>
                    <| pluginStat_ ::= fun m => <[lib := PluginStat_Update cost (default new_PluginStat (m !! lib))]> m |>).
Proof.
  intros Hl Hf Hto Hb Hd Hst He. cbv zeta. unfold DispatchResourceToPluginSync. rewrite run_get_bind.
  cbn [SortPluginList sort_by insert_by st_iter]. unfold mbind at 1, ST_bind at 1. rewrite run_get_bind, Hl, Hf. cbn [negb].
  unfold now_ns, on_host. erewrite run_bind by (rewrite Hb; reflexivity).
  unfold call_dispatch. erewrite run_bind; [|erewrite run_bind by reflexivity; exact Hd].
  erewrite run_bind by (rewrite He; reflexivity). cbv zeta.
  erewrite run_bind by reflexivity.
  set (cost := to_s32 (Z.quot (e - b) 1000)).
  destruct (Z.quot cost 1000 >? DISPATCH_TIME_OUT); cbn [st_when]; [|done].
  unfold RepairPlugin. erewrite (run_bind (upd_stat lib id)) by reflexivity. unfold get_stat at 1.
  erewrite run_bind by reflexivity. simpl. rewrite !lookup_insert_eq. cbn [default].
  assert (Hu : forall st, timeOutTime (PluginStat_Update cost st) = timeOutTime st).
  { intros st. unfold PluginStat_Update. destruct (_ && _); [|done]. by destruct (_ <? _). }
  rewrite Hst. simpl. rewrite Hu, Hto. done.
Qed.

Lemma slow_plugin_outcome_witness :
  @DispatchResourceToPluginSync json Z demo_host ["liba.z.so"] (mkResData 5 1 JNull) demo_mgr = None.
Proof.
  exact (@slow_plugin_outcome json Z _ sync_build demo_host demo_mgr _ "liba.z.so" _ (mkResData 5 1 JNull)
    60000000 60000000 120000000 120000000 eq_refl eq_refl eq_refl eq_refl eq_refl eq_refl eq_refl).
Defined.

(** ** Loading *)
Section loading.
Context {J K N : Type} `{!Json J} `{!Build} `{!PluginHost J K} `{!Xml N}.
(** Plugins whose start does not call the manager, and a library directory that
    does not change. *)
Context (ok : string -> bool) (syms : string -> option PluginLib).
Context (init_ok : forall lib arg (s : PluginMgr J K), ph_init lib arg s = Some (ok lib, s)).
Context (dlopen_syms : forall lib k, ph_dlopen (J := J) lib k = syms lib).
Implicit Types (s : PluginMgr J K).

(** The functions of a library that can be loaded. *)
Definition loadable (lib : string) : option PluginLib :=
  if negb (IsValidPath lib) then None else
  match syms lib with
  | Some l => if has_onPluginInit l && has_onPluginDisable l && ok lib then Some l else None
  | None => None
  end.

Lemma run_LoadOnePlugin info s :
  exists tr, LoadOnePlugin info s = Some (loadable (libPath info), s <| trace := tr |>).
Proof.
  unfold LoadOnePlugin, loadable. destruct (IsValidPath (libPath info)); cbn [negb]; [|exists (trace s); by destruct s].
  rewrite run_get_bind, dlopen_syms. destruct (syms (libPath info)) as [l|]; [|exists (trace s); by destruct s].
  unfold CheckValidPlugin. destruct (has_onPluginInit l); cbn [negb andb]; [|exists (trace s); by destruct s].
  destruct (has_onPluginDisable l); cbn [negb andb]; [|exists (trace s); by destruct s].
  unfold call_init. erewrite run_bind; [|erewrite run_bind by reflexivity; apply init_ok]. by eexists.
Qed.

Definition switched_on (infos : list PluginInfo) (lib : string) : bool :=
  existsb (fun info => switchOn info && String.eqb (libPath info) lib) infos.

Definition loaded_after (infos : list PluginInfo) (m : gmap string PluginLib) (lib : string) : option PluginLib :=
  match m !! lib with
  | Some l => Some l
  | None => if switched_on infos lib then loadable lib else None
  end.

(** The body of the loop in [LoadPlugin]. *)
Definition load_one (info : PluginInfo) : ST (PluginMgr J K) unit :=
  ret_if negb (switchOn info);
  s ← st_get;
  ret_if bool_decide (is_Some (pluginLibMap_ s !! libPath info));
  initStartTime ← now_ms;
  o ← LoadOnePlugin info;
  lib <-? o;
  t ← now_ms;
  st_modify (fun s => s <| pluginLibMap_ ::= fun m =>
    match m !! libPath info with Some _ => m | None => <[libPath info := lib]> m end |>).

Lemma run_load_one info s :
  exists s', load_one info s = Some (tt, s') /\
    forall lib, pluginLibMap_ s' !! lib = loaded_after [info] (pluginLibMap_ s) lib.
Proof.
  unfold load_one, loaded_after, switched_on. cbn [existsb].
  assert (Hno : forall s', pluginLibMap_ s' = pluginLibMap_ s ->
    switchOn info = false \/ is_Some (pluginLibMap_ s !! libPath info) \/ loadable (libPath info) = None ->
    forall lib, pluginLibMap_ s' !! lib = match pluginLibMap_ s !! lib with Some l => Some l
      | None => if (switchOn info && String.eqb (libPath info) lib || false) then loadable lib else None end).
  { intros s' -> Hcase lib. destruct (pluginLibMap_ s !! lib) eqn:El; [done|].
    destruct (switchOn info); [|done]. destruct (String.eqb_spec (libPath info) lib) as [<-|]; [|done].
    destruct Hcase as [?|[[? ?]| ->]]; [done|congruence|done]. }
  destruct (switchOn info) eqn:Es; cbn [negb]; [|exists s; split; [done|]; apply Hno; auto].
  rewrite run_get_bind. case_bool_decide as Hin; [exists s; split; [done|]; apply Hno; auto|].
  apply eq_None_not_Some in Hin. unfold now_ms, on_host. destruct (ph_now_ms (host s)) as [t k] eqn:Et.
  erewrite run_bind by (rewrite Et; reflexivity).
  destruct (run_LoadOnePlugin info (s <| host := k |>)) as (tr & E). rewrite (run_bind _ _ _ _ _ E).
  destruct (loadable (libPath info)) as [l|] eqn:El.
  2: { eexists. split; [reflexivity|]. apply Hno; [done|auto]. }
  destruct (ph_now_ms (host (s <| host := k |> <| trace := tr |>))) as [t2 k2] eqn:Et2.
  erewrite run_bind by (rewrite Et2; reflexivity). eexists. split; [reflexivity|].
  intros lib. simpl. rewrite Hin. destruct (String.eqb_spec (libPath info) lib) as [<-|Hne].
  - by rewrite lookup_insert_eq, Hin.
  - rewrite lookup_insert_ne by done. by destruct (pluginLibMap_ s !! lib).
Qed.

Lemma run_load_list infos s :
  exists s', st_iter load_one infos s = Some (tt, s') /\
    forall lib, pluginLibMap_ s' !! lib = loaded_after infos (pluginLibMap_ s) lib.
Proof.
  revert s. induction infos as [|info infos IH]; intros s.
  { exists s. split; [done|]. intros lib. unfold loaded_after. simpl. by destruct (pluginLibMap_ s !! lib). }
  destruct (run_load_one info s) as (s1 & E1 & H1). destruct (IH s1) as (s2 & E2 & H2).
  exists s2. cbn [st_iter]. rewrite (run_bind _ _ _ _ _ E1). split; [done|].
  intros lib. rewrite H2. unfold loaded_after. rewrite H1. unfold loaded_after, switched_on. cbn [existsb].
  destruct (pluginLibMap_ s !! lib) as [l|]; [done|]. rewrite orb_false_r.
  destruct (switchOn info && String.eqb (libPath info) lib); [|done]. cbn [orb].
  destruct (loadable lib); [done|]. by destruct (existsb _ infos).
Qed.
End loading.

(** Exactly the plugins that are switched on and can be loaded are loaded: the
    path is proper, the library opens and has a start and a stop function, and its
    start succeeds.  A plugin that was loaded before is not loaded again. *)
Theorem plugins_loaded {J K} `{!Json J} `{!Build} `{!PluginHost J K} ok syms (s : PluginMgr J K) sw :
  (forall lib arg (s : PluginMgr J K), ph_init lib arg s = Some (ok lib, s)) ->
  (forall lib k, ph_dlopen (J := J) lib k = syms lib) ->
  pluginSwitch_ s = Some sw ->
  exists s', LoadPlugin s = Some (tt, s') /\
    forall lib, pluginLibMap_ s' !! lib =
      match pluginLibMap_ s !! lib with
      | Some l => Some l
      | None => if switched_on (GetPluginSwitch sw) lib then loadable ok syms lib else None
      end.
Proof.
  intros Hi Hd Hs. unfold LoadPlugin. rewrite run_get_bind, Hs.
  exact (run_load_list ok syms Hi Hd (GetPluginSwitch sw) s).
Qed.

Lemma plugins_loaded_witness :
  let sw := PluginSwitch_Load (N := XmlTree) (Xml0 := xml_tree (fun _ => Some (XNode "pluginlist" [] [
      XNode "plugin" [("libpath", "liba.z.so"); ("switch", "1")] []; XComment;
      XNode "plugin" [("libpath", "libb.z.so"); ("switch", "0")] [];
      XNode "plugin" [("libpath", "libbad.z.so"); ("switch", "1")] []]))) "x" false ∅ in
  exists s', @LoadPlugin json Z demo_host ((new_PluginMgr 0) <| pluginSwitch_ := Some sw.2 |>) = Some (tt, s') /\
    is_Some (pluginLibMap_ s' !! "liba.z.so") /\ pluginLibMap_ s' !! "libb.z.so" = None /\
    pluginLibMap_ s' !! "libbad.z.so" = None.
Proof.
  intros sw.
  destruct (@plugins_loaded json Z _ demo_build demo_host (fun lib => negb (String.eqb lib "libbad.z.so"))
    (fun lib => if String.eqb lib "libmissing.z.so" then None else Some (mkPluginLib true true true true true))
    ((new_PluginMgr 0) <| pluginSwitch_ := Some sw.2 |>) sw.2) as (s' & E & H); [done..|].
  exists s'. split; [exact E|]. rewrite !H. split_and!; [eexists; vm_compute; reflexivity|vm_compute; reflexivity..].
Defined.

(** ** Parameters of the plugins *)

(** Entries put one after the other, each computed from what was there. *)
Lemma foldl_upsert_lookup {A} (f : option A -> A -> A) (l : list (string * A)) (m : gmap string A) k :
  NoDup l.*1 ->
  foldl (fun m kv => <[kv.1 := f (m !! kv.1) kv.2]> m) m l !! k
  = match list_to_map (M := gmap string A) l !! k with Some x => Some (f (m !! k) x) | None => m !! k end.
Proof.
  revert m. induction l as [|[k' x] l IH]; intros m; [done|]. rewrite fmap_cons, NoDup_cons.
  intros [Hn Hl]. cbn [foldl fst snd list_to_map foldr]. rewrite IH by done.
  destruct (decide (k' = k)) as [<-|Hne].
  - rewrite lookup_insert_eq. rewrite (not_elem_of_list_to_map_1 _ _ Hn). by rewrite lookup_insert_eq.
  - by rewrite !lookup_insert_ne by done.
Qed.

Lemma list_to_map_by_name {A} (m : gmap string A) : list_to_map (by_name m) = m.
Proof.
  rewrite <- (list_to_map_to_list m) at 2. apply list_to_map_proper; [apply NoDup_by_name|apply by_name_perm].
Qed.

Lemma Merge_lookup (cur next : PluginConfigMap) k :
  MergePluginConfigMap cur next !! k = match next !! k with Some c => Some c | None => cur !! k end.
Proof.
  unfold MergePluginConfigMap. pose proof (foldl_upsert_lookup (fun _ x => x) (by_name next) cur k (NoDup_by_name next)) as E.
  rewrite (list_to_map_by_name (next : gmap string PluginConfig)) in E. exact E.
Qed.

Lemma MergeConfigList_lookup (next all : ConfigReader) p :
  MergeConfigList next all !! p =
  match next !! p with
  | Some n => Some (match all !! p with Some c => MergePluginConfigMap c n | None => n end)
  | None => all !! p
  end.
Proof.
  unfold MergeConfigList.
  pose proof (foldl_upsert_lookup (fun o n => match o with Some c => MergePluginConfigMap c n | None => n end)
    (by_name next) all p (NoDup_by_name next)) as E.
  rewrite (list_to_map_by_name (next : gmap string PluginConfigMap)) in E. etransitivity; [|exact E].
  clear E. f_equal. generalize (by_name next) all. clear. induction l as [|[k x] l IH]; intros m; [done|].
  cbn [foldl fst snd]. rewrite IH. by destruct ((m : gmap string PluginConfigMap) !! k).
Qed.

(** The parameters of one configuration of a plugin, if it has that configuration. *)
Definition config_of (p c : string) (all : ConfigReader) : option PluginConfig :=
  all !! p ≫= fun m : PluginConfigMap => (m : gmap string PluginConfig) !! c.

(** The parameters of the plugins are read as a whole and the last file wins.  A
    text with an error anywhere changes nothing; a text without one sets each
    configuration it holds, as a whole, and leaves every other one as it was;
    removing one configuration, or all of a plugin, makes exactly these empty. *)
Theorem config_last_wins {N} `{!Xml N} content (all : ConfigReader) :
  let '(ok, all') := ConfigReader_Load (N := N) content all in
  (if ok : bool then exists root m, read_root (N := N) "ressched" content = Some root /\
     load_config_nodes (xml_children root) ∅ = Some m /\
     forall p c, ConfigReader_GetConfig p c all'
       = match config_of p c m with Some x => x | None => ConfigReader_GetConfig p c all end
   else all' = all) /\
  (forall p c p' c', ConfigReader_GetConfig p' c' (ConfigReader_RemoveConfig p c all)
     = if decide (p' = p /\ c' = c) then mkPluginConfig [] else ConfigReader_GetConfig p' c' all) /\
  (forall p p' c', ConfigReader_GetConfig p' c' (ConfigReader_RemovePluginConfig p all)
     = if decide (p' = p) then mkPluginConfig [] else ConfigReader_GetConfig p' c' all).
Proof.
  destruct (ConfigReader_Load content all) as [ok all'] eqn:E. split_and!.
  - unfold ConfigReader_Load in E. destruct (read_root _ _) as [root|]; [|by injection E as <- <-].
    destruct (load_config_nodes _ _) as [m|] eqn:Em; injection E as <- <-; [|done].
    exists root, m. split_and!; [done..|]. intros p c. unfold ConfigReader_GetConfig, config_of.
    rewrite MergeConfigList_lookup. unfold ConfigReader in *. destruct (m !! p) as [n|]; simpl; [|done].
    destruct (all !! p) as [cur|]; simpl; [|by destruct ((n : gmap string PluginConfig) !! c)].
    pose proof (Merge_lookup cur n c) as Em'. unfold PluginConfigMap in *. rewrite Em'. by destruct (n !! c).
  - intros p c p' c'. unfold ConfigReader_RemoveConfig, ConfigReader_GetConfig, ConfigReader, PluginConfigMap in *.
    destruct (all !! p) as [m|] eqn:Ep.
    2: { case_decide as Ed; [|done]. destruct Ed as [-> ->]. by rewrite Ep. }
    destruct ((m : gmap string PluginConfig) !! c) as [x|] eqn:Ec.
    2: { case_decide as Ed; [|done]. destruct Ed as [-> ->]. by rewrite Ep, Ec. }
    destruct (decide (p' = p)) as [->|Hp].
    + rewrite Ep. destruct (size (delete c m) =? 0)%nat eqn:Es.
      * rewrite lookup_delete_eq. apply Nat.eqb_eq, map_size_empty_inv in Es.
        destruct (decide (p = p /\ c' = c)) as [|Hn]; [done|].
        assert (Hc : delete c m !! c' = m !! c') by (apply lookup_delete_ne; naive_solver).
        rewrite Es, lookup_empty in Hc. by rewrite <- Hc.
      * rewrite lookup_insert_eq. destruct (decide (p = p /\ c' = c)) as [[_ ->]|Hn];
          [by rewrite lookup_delete_eq|by rewrite lookup_delete_ne by naive_solver].
    + rewrite decide_False by naive_solver.
      destruct (size (delete c m) =? 0)%nat; [by rewrite lookup_delete_ne|by rewrite lookup_insert_ne].
  - intros p p' c'. unfold ConfigReader_RemovePluginConfig, ConfigReader_GetConfig, ConfigReader, PluginConfigMap in *.
    case_decide as Ed; [subst; by rewrite lookup_delete_eq|by rewrite lookup_delete_ne].
Qed.
