(* ===== verification/SignatureValidator.v ===== *)
(** * Signatures of applications

    [res_sched_signature_validator.cpp]: whether an application that a configuration
    names carries the signature the configuration gives.  The service that knows the
    installed applications is reached through [BundleMgrHelper], the class
    [BundleMgr] here.  The mutex is not modelled: an operation runs to its end. *)
From S2P Require Import Prelude.

(** [enum SignatureCheckResult] *)
Definition CHECK_OK : Z := 0. (* res_sched_signature_validator.h:29 *)
Definition ERR_SIGNATURE_NO_MATCH : Z := 1. (* res_sched_signature_validator.h:30 *)
Definition ERR_NO_SIGNATURE_CONFIG : Z := 2. (* res_sched_signature_validator.h:31 *)
Definition ERR_PARAM_INVALID : Z := 3. (* res_sched_signature_validator.h:32 *)
Definition ERR_INTERNAL_ERROR : Z := 4. (* res_sched_signature_validator.h:33 *)
Definition ERR_NOT_IN_LIST : Z := 5. (* res_sched_signature_validator.h:34 *)
Definition ERR_NOT_SUPPORT : Z := 6. (* res_sched_signature_validator.h:35 *)
Definition MAX_SIGNATURE_CACHE : Z := 200. (* res_sched_signature_validator.cpp:27 *)

(** bundle_mgr_helper.h:24-31 [BundleMgrHelper] the virtual functions; the answer
    about a signature is an error code and a text *)
Class BundleMgr (K : Type) := {
  bm_GetBundleNameByUid : Z -> K -> string * K;
  bm_GetUidByBundleName : string -> Z -> K -> Z * K;
  bm_GetSignatureInfoByUid : Z -> K -> (Z * string) * K;
  bm_GetCurrentUserId : K -> list Z * K;
}.

(** res_sched_signature_validator.h:74-80 [validCache_] the members;
    [reports] is what [ReportCheckError] writes *)
Record Validator (K : Type) := mkValidator {
  validCache_ : gmap string (Z * bool);
  signatureConfig_ : gmap string string;
  bundleNameToUid_ : gmap string Z;
  has_bundleMgr_ : bool;
  reports : list (string * string);
  bundleMgr_ : K;
}.
Arguments mkValidator {_}.
Arguments validCache_ {_}.
Arguments signatureConfig_ {_}.
Arguments bundleNameToUid_ {_}.
Arguments has_bundleMgr_ {_}.
Arguments reports {_}.
Arguments bundleMgr_ {_}.
#[export] Instance Validator_eta K : Eta (Validator K) := fun v =>
  mkValidator (validCache_ v) (signatureConfig_ v) (bundleNameToUid_ v) (has_bundleMgr_ v)
    (reports v) (bundleMgr_ v).

(** The singleton when the process starts. *)
Definition new_Validator {K} (k : K) : Validator K := mkValidator ∅ ∅ ∅ false [] k.

(** What a client of the validator uses of it. *)
Class SignatureChecker (V : Type) := check_signature : string -> V -> Z * V.

Section validator.
Context {K : Type} `{!BundleMgr K}.
#[local] Abbreviation V := (Validator K).

Definition on_bundleMgr {A} (f : K -> A * K) (v : V) : A * V :=
  let '(a, k) := f (bundleMgr_ v) in (a, v <| bundleMgr_ := k |>).

(** res_sched_signature_validator.cpp:224-230 [ResSchedSignatureValidator::ReportCheckError] *)
Definition ReportCheckError (bundleName reason : string) (v : V) : V :=
  v <| reports ::= fun l => l ++ [(bundleName, reason)] |>.

(** res_sched_signature_validator.cpp:30-34 [ResSchedSignatureValidator::InitSignatureDependencyInterface] *)
Definition InitSignatureDependencyInterface (k : K) (v : V) : V :=
  v <| has_bundleMgr_ := true |> <| bundleMgr_ := k |>.

(** res_sched_signature_validator.cpp:42-47 [ResSchedSignatureValidator::OnAppInstallChanged] *)
Definition OnAppInstallChanged (bundleName : string) (v : V) : V :=
  v <| bundleNameToUid_ ::= delete bundleName |> <| validCache_ ::= delete bundleName |>.

(** res_sched_signature_validator.cpp:120-132 [ResSchedSignatureValidator::GetSignatureFromConfig] *)
Definition GetSignatureFromConfig (bundleName : string) (v : V) : option string * V :=
  match signatureConfig_ v !! bundleName with
  | None => (None, ReportCheckError bundleName "ERR_NO_SIGNATURE_CONFIG" v)
  | Some signature => (Some signature, v)
  end.

(** res_sched_signature_validator.cpp:134-151 [ResSchedSignatureValidator::CheckSignatureCache] *)
Definition CheckSignatureCache (bundleName : string) (uid : Z) (v : V) : option bool * V :=
  match validCache_ v !! bundleName with
  | None => (None, v)
  | Some (cacheUid, cacheIsValid) =>
      if cacheUid =? uid then (Some cacheIsValid, v)
      else (None, v <| validCache_ ::= delete bundleName |>)
  end.

(** res_sched_signature_validator.cpp:153-161 [ResSchedSignatureValidator::GetSignatureInfo] *)
Definition GetSignatureInfo (uid : Z) (v : V) : option string * V :=
  let '((ret, signatureInfo), v) := on_bundleMgr (bm_GetSignatureInfoByUid uid) v in
  (if ret =? 0 then Some signatureInfo else None, v).

(** res_sched_signature_validator.cpp:163-170 [ResSchedSignatureValidator::UpdateSignatureCache] *)
Definition UpdateSignatureCache (bundleName : string) (uid : Z) (isValid : bool) (v : V) : V :=
  let v := if Z.of_nat (size (validCache_ v)) >=? MAX_SIGNATURE_CACHE
           then v <| validCache_ := ∅ |> else v in
  v <| validCache_ ::= <[bundleName := (uid, isValid)]> |>.

(** res_sched_signature_validator.cpp:172-205 [ResSchedSignatureValidator::CheckSignature] *)
Definition CheckSignature (uid : Z) (bundleName : string) (v : V) : Z * V :=
  if negb (has_bundleMgr_ v)
  then (ERR_NOT_SUPPORT, ReportCheckError bundleName "ERR_NOT_SUPPORT" v) else
  let '(signature, v) := GetSignatureFromConfig bundleName v in
  match signature with
  | None => (ERR_NO_SIGNATURE_CONFIG, v)
  | Some signature =>
      let '(cachedResult, v) := CheckSignatureCache bundleName uid v in
      match cachedResult with
      | Some valid => (if valid : bool then CHECK_OK else ERR_SIGNATURE_NO_MATCH, v)
      | None =>
          let '(signatureInfo, v) := GetSignatureInfo uid v in
          match signatureInfo with
          | None => (ERR_INTERNAL_ERROR,
                     ReportCheckError bundleName "ERR_INTERNAL_ERROR/GetSignatureError" v)
          | Some signatureInfo =>
              let isValid := String.eqb signatureInfo signature in
              let v := UpdateSignatureCache bundleName uid isValid v in
              let v := if negb isValid
                       then ReportCheckError bundleName "ERR_SIGNATURE_NO_MATCH" v else v in
              (if isValid then CHECK_OK else ERR_SIGNATURE_NO_MATCH, v)
          end
      end
  end.

(** res_sched_signature_validator.cpp:207-213 [ResSchedSignatureValidator::GetCurrentUserId] *)
Definition GetCurrentUserId (v : V) : list Z * V :=
  if negb (has_bundleMgr_ v) then ([], v) else on_bundleMgr bm_GetCurrentUserId v.

(** res_sched_signature_validator.cpp:73-81 [ResSchedSignatureValidator::CheckSignatureByBundleName]
    the loop over the active users *)
Fixpoint uid_for_users (bundleName : string) (uid : Z) (users : list Z) (v : V) : Z * V :=
  match users with
  | [] => (uid, v)
  | userId :: users =>
      let '(uid, v) := on_bundleMgr (bm_GetUidByBundleName bundleName userId) v in
      if uid >=? 0 then (uid, v <| bundleNameToUid_ ::= <[bundleName := uid]> |>)
      else uid_for_users bundleName uid users v
  end.

(** res_sched_signature_validator.cpp:49-90 [ResSchedSignatureValidator::CheckSignatureByBundleName] *)
Definition CheckSignatureByBundleName (bundleName : string) (v : V) : Z * V :=
  if negb (has_bundleMgr_ v)
  then (ERR_NOT_SUPPORT, ReportCheckError bundleName "ERR_NOT_SUPPORT" v) else
  if String.eqb bundleName ""
  then (ERR_PARAM_INVALID, ReportCheckError bundleName "ERR_PARAM_INVALID" v) else
  let uid := default (-1) (bundleNameToUid_ v !! bundleName) in
  let '(uid, v) :=
    if uid <? 0 then
      let '(activatedOsAccountIds, v) := GetCurrentUserId v in
      uid_for_users bundleName uid activatedOsAccountIds v
    else (uid, v) in
  if uid <? 0
  then (ERR_INTERNAL_ERROR, ReportCheckError bundleName "ERR_INTERNAL_ERROR/ConvertUid" v)
  else CheckSignature uid bundleName v.

(** res_sched_signature_validator.cpp:92-105 [ResSchedSignatureValidator::CheckSignatureByUid] *)
Definition CheckSignatureByUid (uid : Z) (v : V) : Z * V :=
  if negb (has_bundleMgr_ v)
  then (ERR_NOT_SUPPORT, ReportCheckError ("uid/" +:+ to_string uid) "ERR_NOT_SUPPORT" v) else
  let '(bundleName, v) := on_bundleMgr (bm_GetBundleNameByUid uid) v in
  if String.eqb bundleName ""
  then (ERR_INTERNAL_ERROR,
        ReportCheckError ("uid/" +:+ to_string uid) "ERR_INTERNAL_ERROR/ConvertBundleName" v)
  else CheckSignature uid bundleName v.

(** res_sched_signature_validator.cpp:107-118 [ResSchedSignatureValidator::CheckBundleInList] *)
Definition CheckBundleInList (whiteList : list string) (bundleName : string) (v : V) : Z * V :=
  if bool_decide (whiteList = []) || String.eqb bundleName "" then (ERR_NOT_IN_LIST, v)
  else if bool_decide (bundleName ∈ whiteList) then CheckSignatureByBundleName bundleName v
  else (ERR_NOT_IN_LIST, v).

(** res_sched_signature_validator.cpp:215-222 [ResSchedSignatureValidator::AddSignatureConfig] *)
Definition AddSignatureConfig (config : list (string * string)) (v : V) : V :=
  foldl (fun v kv => v <| signatureConfig_ ::= <[kv.1 := kv.2]> |> <| validCache_ ::= delete kv.1 |>)
    v config.
End validator.

#[export] Instance Validator_checker {K} `{!BundleMgr K} : SignatureChecker (Validator K) :=
  CheckSignatureByBundleName.
