(* ===== verification/SocPerf.v ===== *)
(** * SocPerf plugin: state, configuration, start and stop

    [socperf_plugin.cpp] turns events into requests to the performance service:
    boosts, device modes and limits.  This file has its members, the parameters it
    reads from the plugin manager, its tables and its start and stop; the handlers
    are in [SocPerfHandlers.v].  Requests are recorded in order in [sp_calls].  Time
    is read through [SocEnv]; the two kinds of delayed tasks are data.  The mutex of
    the screen status is not modelled: a handler runs to its end. *)
From S2P Require Import Prelude Json ResType PluginConfig PluginMgr SignatureValidator.

(** ** Constants of the SocPerf plugin

    The names and numbers of [common_define.h] that the plugin uses. *)
(** Names of configurations, of fields of payloads and of modes. *)
Definition LIB_NAME : string := "libsocperf_plugin.z.so". (* common_define.h:25 *)
Definition PLUGIN_NAME : string := "SOCPERF". (* common_define.h:26 *)
Definition ITEM_KEY_CAPACITY : string := "capacity". (* common_define.h:27 *)
Definition CONFIG_NAME_SOCPERF_FEATURE_SWITCH : string := "socperfFeatureSwitch". (* common_define.h:28 *)
Definition CONFIG_NAME_SOCPERF_EVENT_ID : string := "socperfEventId". (* common_define.h:29 *)
Definition CONFIG_NAME_SOCPERF_POLICY_MODE : string := "socperfPolicyMode". (* common_define.h:30 *)
Definition CONFIG_NAME_SOCPERF_LIMIT_POLICY : string := "limitPolicy". (* common_define.h:31 *)
Definition SUB_ITEM_KEY_NAME_SOCPERF_GAME_BOOST : string := "socperf_game_boost". (* common_define.h:33 *)
Definition CONFIG_NAME_SOCPERF_BUNDLE_NAME_BOOST_LIST : string := "socperfBundleNameBoostList". (* common_define.h:34 *)
Definition SUB_ITEM_KEY_NAME_APP_USE_CAMERA_BOOST : string := "app_use_camera_boost". (* common_define.h:35 *)
Definition SUB_ITEM_KEY_NAME_APP_MOVE_EVENT_BOOST : string := "app_move_event_boost". (* common_define.h:36 *)
Definition CNOFIG_NAME_SOCPERF_CRUCIAL_FUNC : string := "socperfCrucialFunc". (* common_define.h:37 *)
Definition SUB_ITEM_KEY_NAME_SOCPERF_RERQ_APPTYPE_PATH : string := "socperf_req_apptype_path". (* common_define.h:38 *)
Definition SUB_ITEM_KEY_NAME_SOCPERF_RERQ_APPTYPE_FUNC : string := "socperf_req_apptype_func". (* common_define.h:39 *)
Definition CONFIG_NAME_SOCPERF_BATTERY_CAPACITY_LIMIT_FREQ : string := "socperfBatteryCapacityLimitFreq". (* common_define.h:40 *)
Definition BUNDLE_NAME : string := "bundleName". (* common_define.h:41 *)
Definition CALLER_BUNDLE_NAME : string := "callerBundleName". (* common_define.h:42 *)
Definition SPECIAL_EXTENSION_STRING : string := "specialExtension". (* common_define.h:43 *)
Definition INFO_STRING : string := "info". (* common_define.h:44 *)
Definition PID_NAME : string := "pid". (* common_define.h:45 *)
Definition CLIENT_PID_NAME : string := "clientPid". (* common_define.h:46 *)
Definition UID_NAME : string := "uid". (* common_define.h:47 *)
Definition SOCPERF_TYPE_ID : string := "socperf_type_id". (* common_define.h:49 *)
Definition SOCPERF_TYPE_RGM : string := "socperf_type_rgm". (* common_define.h:50 *)
Definition SOCPERF_POLICY_MODE : string := "socperf_mode". (* common_define.h:51 *)
Definition EXTENSION_TYPE_KEY : string := "extensionType". (* common_define.h:52 *)
Definition DEVICE_MODE_TYPE_KEY : string := "deviceModeType". (* common_define.h:53 *)
Definition DEVICE_MODE_PAYMODE_NAME : string := "deviceMode". (* common_define.h:54 *)
Definition DISPLAY_MODE_KEY : string := "display". (* common_define.h:55 *)
Definition DEVICE_ORIENTATION_TYPE_KEY : string := "deviceOrientation". (* common_define.h:56 *)
Definition DISPLAY_MODE_FULL : string := "displayFull". (* common_define.h:57 *)
Definition DISPLAY_MODE_MAIN : string := "displayMain". (* common_define.h:58 *)
Definition DISPLAY_MODE_GLOBAL_FULL : string := "displayGlobalFull". (* common_define.h:60 *)
Definition DISPLAY_ORIENTAYION_LANDSCAPE : string := "displayLandscape". (* common_define.h:61 *)
Definition DISPLAY_ORIENTAYION_PORTRAIT : string := "displayPortrait". (* common_define.h:62 *)
Definition SCREEN_MODE_KEY : string := "screenStatus". (* common_define.h:63 *)
Definition SCREEN_MODE_ON : string := "screen_on". (* common_define.h:64 *)
Definition SCREEN_MODE_OFF : string := "screen_off". (* common_define.h:65 *)
Definition POWER_MODE_KEY : string := "power". (* common_define.h:66 *)
Definition POWER_MODE : string := "powerMode". (* common_define.h:67 *)
Definition POWER_STATUS_KEY : string := "powerStatus". (* common_define.h:68 *)
Definition PRELOAD_MODE : string := "preloadMode". (* common_define.h:69 *)
Definition WEAK_ACTION_STRING : string := "weakInterAction". (* common_define.h:71 *)
Definition WEAK_ACTION_MODE : string := "actionmode:weakaction". (* common_define.h:72 *)
Definition KEY_APP_TYPE : string := "key_app_type". (* common_define.h:73 *)
Definition GAME_ENV : string := "env". (* common_define.h:74 *)
Definition RES_ID : string := "resId". (* common_define.h:75 *)
Definition COMMON_EVENT_CHARGE_STATE : string := "chargeState". (* common_define.h:76 *)
Definition SCHED_MODE_KEY : string := "schedMode". (* common_define.h:77 *)
Definition CLOUD_PARAMS : string := "params". (* common_define.h:78 *)
Definition ENABLE_STRING : string := "enable". (* common_define.h:79 *)

(** Numbers; times are in milliseconds or, for a delay, in microseconds. *)
Definition SCENE_LIVE_BROADCAST : Z := 5. (* common_define.h:80 *)
Definition SOC_PERF_SA_ID : Z := 1906. (* common_define.h:81 *)
Definition INVALID_VALUE : Z := -1. (* common_define.h:82 *)
Definition APP_TYPE_GAME : Z := 2. (* common_define.h:83 *)
Definition INVALID_APP_TYPE : Z := 0. (* common_define.h:84 *)
Definition POWERMODE_ON : Z := 601. (* common_define.h:85 *)
Definition TIME_INTERVAL : Z := 4500. (* common_define.h:86 *)
Definition WAKE_UP_TIME_DELAY : Z := 3000000. (* common_define.h:87 *)
Definition SCREEN_OFF_TIME_DELAY : Z := 5000000. (* common_define.h:88 *)
Definition PERF_REQUEST_CMD_ID_RGM_BOOTING_START : Z := 1000. (* common_define.h:89 *)
Definition PERF_REQUEST_CMD_ID_APP_START : Z := 10000. (* common_define.h:90 *)
Definition PERF_REQUEST_CMD_ID_WARM_START : Z := 10001. (* common_define.h:91 *)
Definition PERF_REQUEST_CMD_ID_WINDOW_SWITCH : Z := 10002. (* common_define.h:92 *)
Definition PERF_REQUEST_CMD_ID_EVENT_CLICK : Z := 10006. (* common_define.h:93 *)
Definition PERF_REQUEST_CMD_ID_LOAD_PAGE_START : Z := 10007. (* common_define.h:94 *)
Definition PERF_REQUEST_CMD_ID_EVENT_FLING : Z := 10008. (* common_define.h:95 *)
Definition PERF_REQUEST_CMD_ID_EVENT_TOUCH_DOWN : Z := 10010. (* common_define.h:96 *)
Definition PERF_REQUEST_CMD_ID_LOAD_PAGE_COMPLETE : Z := 10011. (* common_define.h:97 *)
Definition PERF_REQUEST_CMD_ID_EVENT_WEB_GESTURE : Z := 10012. (* common_define.h:98 *)
Definition PERF_REQUEST_CMD_ID_POP_PAGE : Z := 10016. (* common_define.h:99 *)
Definition PERF_REQUEST_CMD_ID_RESIZE_WINDOW : Z := 10018. (* common_define.h:100 *)
Definition PERF_REQUEST_CMD_ID_MOVE_WINDOW : Z := 10019. (* common_define.h:101 *)
Definition PERF_REQUEST_CMD_ID_WEB_GESTURE_MOVE : Z := 10020. (* common_define.h:102 *)
Definition PERF_REQUEST_CMD_ID_WEB_SLIDE_NORMAL : Z := 10025. (* common_define.h:103 *)
Definition PERF_REQUEST_CMD_ID_ROTATION : Z := 10027. (* common_define.h:104 *)
Definition PERF_REQUEST_CMD_ID_SCREEN_ON : Z := 10028. (* common_define.h:105 *)
Definition PERF_REQUEST_CMD_ID_SCREEN_OFF : Z := 10029. (* common_define.h:106 *)
Definition PERF_REQUEST_CMD_ID_REMOTE_ANIMATION : Z := 10030. (* common_define.h:107 *)
Definition PERF_REQUEST_CMD_ID_DRAG_STATUS_BAR : Z := 10034. (* common_define.h:108 *)
Definition PERF_REQUEST_CMD_ID_EVENT_TOUCH_UP : Z := 10040. (* common_define.h:110 *)
Definition PERF_REQUEST_CMD_ID_REMOTE_UNLOCK : Z := 10041. (* common_define.h:111 *)
Definition PERF_REQUEST_CMD_ID_ACCOUNT_ACTIVATING : Z := 10043. (* common_define.h:112 *)
Definition PERF_REQUEST_CMD_ID_EVENT_KEY_DOWN : Z := 10044. (* common_define.h:113 *)
Definition PERF_REQUEST_CMD_ID_POWER_KEY : Z := 10045. (* common_define.h:115 *)
Definition PERF_REQUEST_CMD_ID_CROWN_ROTATION : Z := 10046. (* common_define.h:116 *)
Definition PERF_REQUEST_CMD_ID_LOAD_URL : Z := 10070. (* common_define.h:118 *)
Definition PERF_REQUEST_CMD_ID_MOUSEWHEEL : Z := 10071. (* common_define.h:119 *)
Definition PERF_REQUEST_CMD_ID_WEB_DRAG_RESIZE : Z := 10073. (* common_define.h:120 *)
Definition PERF_REQUEST_CMD_ID_BMM_MONITER_START : Z := 10081. (* common_define.h:121 *)
Definition PERF_REQUEST_CMD_ID_DISPLAY_MODE_FULL : Z := 10082. (* common_define.h:122 *)
Definition PERF_REQUEST_CMD_ID_DISPLAY_MODE_MAIN : Z := 10083. (* common_define.h:123 *)
Definition PERF_REQUEST_CMD_ID_GAME_BOOST : Z := 10085. (* common_define.h:124 *)
Definition PERF_REQUEST_CMD_ID_APP_USE_CAMERA : Z := 10086. (* common_define.h:125 *)
Definition PERF_REQUEST_CMD_ID_FILE_COPY : Z := 10087. (* common_define.h:127 *)
Definition PERF_REQUEST_CMD_ID_SCREEN_SWITCHED : Z := 10090. (* common_define.h:129 *)
Definition PERF_REQUEST_CMD_ID_MOVE_EVENT_BOOST : Z := 10091. (* common_define.h:130 *)
Definition PERF_REQUEST_CMD_ID_EVENT_DRAG : Z := 10092. (* common_define.h:131 *)
Definition PERF_REQUEST_CMD_ID_GAME_BOOST_LEVEL1 : Z := 10093. (* common_define.h:132 *)
Definition PERF_REQUEST_CMD_ID_GAME_BOOST_LEVEL2 : Z := 10094. (* common_define.h:133 *)
Definition PERF_REQUEST_CMD_ID_GAME_BOOST_LEVEL3 : Z := 10095. (* common_define.h:134 *)
Definition PERF_REQUEST_CMD_ID_WEB_SLIDE_SCROLL : Z := 10097. (* common_define.h:135 *)
Definition PERF_REQUEST_CMD_ID_DISPLAY_GLOBAL_L : Z := 10098. (* common_define.h:136 *)
Definition PERF_REQUEST_CMD_ID_DISPLAY_GLOBAL_P : Z := 10203. (* common_define.h:137 *)
Definition PERF_REQUEST_CMD_ID_RECENT_BUILD : Z := 10200. (* common_define.h:138 *)
Definition PERF_REQUEST_CMD_ID_LIVE_BROADCAST : Z := 10224. (* common_define.h:139 *)
Definition PERF_REQUEST_CMD_ID_OOBE_CLONE : Z := 10225. (* common_define.h:140 *)
Definition PERF_REQUEST_CMD_ID_IMAGE_WORK_PROCESS_START : Z := 10221. (* common_define.h:141 *)
Definition PERF_REQUEST_CMD_ID_SCREEN_ON_PERFORMANCE_MODE : Z := 30028. (* common_define.h:143 *)
Definition PERF_REQUEST_CMD_ID_SCREEN_OFF_PERFORMANCE_MODE : Z := 30029. (* common_define.h:144 *)

(** common_define.h:147-147 [PRELOAD_SET] *)
Definition PRELOAD_SET : list string := ["1"; "2"; "4"].

(** res_value.h:593-599 [UI_SENSITIVE_EXTENSION] *)
Definition UI_SENSITIVE_EXTENSION : list Z := [2; 255; 256; 257; 500].

(** [enum BatteryChargeState] and [enum PerformanceMode] *)
Definition CHARGE_STATE_ENABLE : Z := 1. (* socperf_plugin.h:75 *)
Definition CHARGE_STATE_FULL : Z := 3. (* socperf_plugin.h:79 *)
Definition POWER_MODE_MIN : Z := 600. (* socperf_plugin.h:85 *)
Definition NORMAL_MODE : Z := 600. (* socperf_plugin.h:86 *)
Definition PERFORMANCE_MODE : Z := 602. (* socperf_plugin.h:88 *)
Definition POWER_MODE_MAX : Z := 603. (* socperf_plugin.h:90 *)

(** The flags of the build. *)
Class SocBuild := { CUST_SOC_PERF : bool; CROWN_POWER_KEY : bool; FILE_COPY_SOC_PERF : bool }.

(** What the plugin uses from outside. *)
Class SocEnv (K : Type) := {
  (** the library for types of applications: whether it opens, and whether it has
      the function *)
  se_dlopen : string -> string -> K -> option bool;
  se_reqAppType : string -> K -> Z * K;
  (** the system ability manager, the bundle manager, and its answer with a code *)
  se_has_service_manager : K -> bool;
  se_has_bundle_manager : K -> bool;
  se_GetNameForUid : Z -> K -> (Z * string) * K;
  (** the steady clock in milliseconds *)
  se_now_ms : K -> Z * K;
  se_IsScreenOn : K -> bool * K;
}.

(** Requests to the performance service, and a report to the service itself. *)
Inductive SocCall : Type :=
  | PerfRequest (cmdId : Z) (msg : string)
  | PerfRequestEx (cmdId : Z) (onOffTag : bool) (msg : string)
  | RequestDeviceMode (mode : string) (status : bool)
  | PowerLimitBoost (onOffTag : bool) (msg : string)
  | LimitRequest (tags configs : list Z) (msg : string)
  | ReportDataInProcess (resType value : Z).

(** Delayed tasks. *)
Inductive SocTask : Type := TScreenOff | TWakeUpTimeOut.

(** The handlers that the function map holds. *)
Inductive Handler : Type :=
  | HWindowFocus | HEventClick | HLoadPage | HEventSlide | HEventWebGesture | HPopPage
  | HAppAbilityStart | HResizeWindow | HMoveWindow | HRemoteAnimation | HDragStatusBar
  | HWebGestureMove | HWebSlideNormal | HLoadUrl | HMousewheel | HAppStateChange
  | HDeviceModeStatusChange | HSocperfAccountActivating | HWebDragResize | HFileCopyStatus
  | HWebSildeScroll | HCustEvent | HCustEventBegin | HCustEventEnd | HCustAction
  | HAppColdStartEx | HSceneRotation | HBmmMoniterStatus | HPowerModeChanged
  | HScreenStatusAnalysis | HGameBoost | HEventKey | HPowerEventKey | HCrownRotation
  | HUninstallEvent | HProcessStateChange | HCameraStateChange | HGameStateChange
  | HSocperfSceneBoard | HRgmBootingStatus | HRecentBuild | HDeviceOrientationStatusChange
  | HBatteryStatusChange | HSchedModeChange | HRssCloudConfigUpdate | HReportAbilityStatus
  | HDisplayPowerWakeUp | HSwiperFlingEndEx | HLiveBroadcast | HOobeClone
  | HResTypeCreateLivingApp | HPerformanceModeChange.
#[export] Instance Handler_eq_dec : EqDecision Handler.
Proof. solve_decision. Defined.

(** socperf_plugin.h:33-61 [AppKeyMessage] *)
Record AppKeyMessage := mkAppKeyMessage { msg_appType : Z; msg_bundleName : string }.

(** socperf_plugin.h:63-66 [Frequencies] *)
Record Frequencies := mkFrequencies { freq_tags : list Z; freq_configs : list Z }.

(** socperf_plugin.h:105-142 [SocPerfPlugin] the members, with the two statics of
    [HandleContinuousDrag], the delayed tasks, the calls and the outer state *)
Record SocPerf (K : Type) := mkSocPerf {
  sp_resTypes : gset Z;
  sp_resTypeWithVal_ : gset (Z * Z);
  focusAppUids_ : gset Z;
  weakActionEnable_ : bool;
  weakActionStatus_ : bool;
  keyAppName_ : gset string;
  focusCustGameUids_ : gset Z;
  keyAppType_ : gset Z;
  appNameUseCamera_ : gset string;
  appNameMoveEvent_ : gset string;
  functionMap : gmap Z Handler;
  uidToAppMsgMap_ : gmap Z AppKeyMessage;
  pidToAppTypeMap_ : gmap Z Z;
  socperfBatteryConfig_ : gmap Z Frequencies;
  specialExtensionMap_ : gmap string (gset string);
  perfReqAppTypeSoPath_ : string;
  perfReqAppTypeSoFunc_ : string;
  isFocusAppsGameType_ : bool;
  screenStatus_ : Z;
  deviceMode_ : string;
  performanceMode_ : Z;
  deviceOrientation_ : string;
  handle_ : bool;
  reqAppTypeFunc_ : bool;
  RES_TYPE_SCENE_BOARD_ID : Z;
  RES_TYPE_RGM_BOOTING_STATUS : Z;
  maxBatteryLimitCapacity_ : Z;
  lastBatteryLimitCap_ : Z;
  powerLimit_ : option bool;
  thermalLimit_ : option bool;
  socperfGameBoostSwitch_ : bool;
  custGameState_ : bool;
  flingExceptionFlag_ : bool;
  wakeUpTimeOutTask_ : option nat;
  drag_lastTime : Z;
  drag_lastStatus : Z;
  sp_tasks : list (nat * SocTask * Z);
  sp_next : nat;
  sp_calls : list SocCall;
  sp_env : K;
}.
Arguments mkSocPerf {_}.
Arguments sp_resTypes {_}.
Arguments sp_resTypeWithVal_ {_}.
Arguments focusAppUids_ {_}.
Arguments weakActionEnable_ {_}.
Arguments weakActionStatus_ {_}.
Arguments keyAppName_ {_}.
Arguments focusCustGameUids_ {_}.
Arguments keyAppType_ {_}.
Arguments appNameUseCamera_ {_}.
Arguments appNameMoveEvent_ {_}.
Arguments functionMap {_}.
Arguments uidToAppMsgMap_ {_}.
Arguments pidToAppTypeMap_ {_}.
Arguments socperfBatteryConfig_ {_}.
Arguments specialExtensionMap_ {_}.
Arguments perfReqAppTypeSoPath_ {_}.
Arguments perfReqAppTypeSoFunc_ {_}.
Arguments isFocusAppsGameType_ {_}.
Arguments screenStatus_ {_}.
Arguments deviceMode_ {_}.
Arguments performanceMode_ {_}.
Arguments deviceOrientation_ {_}.
Arguments handle_ {_}.
Arguments reqAppTypeFunc_ {_}.
Arguments RES_TYPE_SCENE_BOARD_ID {_}.
Arguments RES_TYPE_RGM_BOOTING_STATUS {_}.
Arguments maxBatteryLimitCapacity_ {_}.
Arguments lastBatteryLimitCap_ {_}.
Arguments powerLimit_ {_}.
Arguments thermalLimit_ {_}.
Arguments socperfGameBoostSwitch_ {_}.
Arguments custGameState_ {_}.
Arguments flingExceptionFlag_ {_}.
Arguments wakeUpTimeOutTask_ {_}.
Arguments drag_lastTime {_}.
Arguments drag_lastStatus {_}.
Arguments sp_tasks {_}.
Arguments sp_next {_}.
Arguments sp_calls {_}.
Arguments sp_env {_}.
#[export] Instance SocPerf_eta K : Eta (SocPerf K) := fun s =>
  mkSocPerf (sp_resTypes s) (sp_resTypeWithVal_ s) (focusAppUids_ s) (weakActionEnable_ s)
    (weakActionStatus_ s) (keyAppName_ s) (focusCustGameUids_ s) (keyAppType_ s)
    (appNameUseCamera_ s) (appNameMoveEvent_ s) (functionMap s) (uidToAppMsgMap_ s)
    (pidToAppTypeMap_ s) (socperfBatteryConfig_ s) (specialExtensionMap_ s)
    (perfReqAppTypeSoPath_ s) (perfReqAppTypeSoFunc_ s) (isFocusAppsGameType_ s)
    (screenStatus_ s) (deviceMode_ s) (performanceMode_ s) (deviceOrientation_ s) (handle_ s)
    (reqAppTypeFunc_ s) (RES_TYPE_SCENE_BOARD_ID s) (RES_TYPE_RGM_BOOTING_STATUS s)
    (maxBatteryLimitCapacity_ s) (lastBatteryLimitCap_ s) (powerLimit_ s) (thermalLimit_ s)
    (socperfGameBoostSwitch_ s) (custGameState_ s) (flingExceptionFlag_ s)
    (wakeUpTimeOutTask_ s) (drag_lastTime s) (drag_lastStatus s) (sp_tasks s) (sp_next s)
    (sp_calls s) (sp_env s).

(** The singleton when the process starts. *)
Definition new_SocPerf {K} (k : K) : SocPerf K :=
  mkSocPerf ∅ ∅ ∅ true true ∅ ∅ ∅ ∅ ∅ ∅ ∅ ∅ ∅ ∅ "" "" false 1 "" NORMAL_MODE "" false false 0 0
    (-1) (-1) None None false false false None 0 SLIDE_NORMAL_END [] 0%nat [] k.

(** ** Sets in order and parts of a text *)

(** The order in which a set of integers, or of pairs, is walked. *)
Definition set_in_order (X : gset Z) : list Z := merge_sort Z.le (elements X).
Definition pair_le (x y : Z * Z) : Prop := x.1 < y.1 \/ (x.1 = y.1 /\ x.2 <= y.2).
#[export] Instance pair_le_dec : RelDecision pair_le.
Proof. intros x y. unfold pair_le. apply _. Defined.
Definition pairs_in_order (X : gset (Z * Z)) : list (Z * Z) := merge_sort pair_le (elements X).

(** [std::getline] with a separator until the end of the text: a separator at the
    end starts no new part. *)
Fixpoint getlines_from (sep : ascii) (part s : string) : list string :=
  match s with
  | EmptyString => if String.eqb part "" then [] else [part]
  | String c s' =>
      if Ascii.eqb c sep then part :: getlines_from sep "" s'
      else getlines_from sep (part +:+ String c "") s'
  end.
Definition getlines (sep : ascii) (s : string) : list string := getlines_from sep "" s.

Section socperf.
Context {J K : Type} `{!Json J} `{!Build} `{!SocBuild} `{!SocEnv K} `{!SignatureChecker K}.
#[local] Abbreviation M := (ST (SocPerf K)).

Definition call (c : SocCall) : M unit := st_modify (fun s => s <| sp_calls ::= fun l => l ++ [c] |>).
Definition on_env {A} (f : K -> A * K) : M A :=
  fun s => let '(a, k) := f (sp_env s) in Some (a, s <| sp_env := k |>).

(** The call through [reqAppTypeFunc_], which must not happen once its library is
    closed. *)
Definition reqAppType (bundleName : string) : M Z :=
  s ← st_get;
  if negb (handle_ s) then st_undefined else on_env (se_reqAppType bundleName).

(** ** Parameters *)

(** The loops over all items and all their parts. *)
Definition for_each_sub (f : SubItem -> M unit) (c : PluginConfig) : M unit :=
  st_iter (fun item => st_iter f (subItemList item)) (itemList c).

(** utils.cpp:22-28 [Utils::AddKeyAppName] *)
Definition AddKeyAppName (subValue : string) (keyAppName : gset string) : gset string :=
  if String.eqb subValue "" then keyAppName else {[subValue]} ∪ keyAppName.

(** utils.cpp:30-36 [Utils::AddKeyAppType] *)
Definition AddKeyAppType (subValue : string) (keyAppType : gset Z) : gset Z :=
  if String.eqb subValue "" then keyAppType else {[atoi subValue]} ∪ keyAppType.

(** utils.cpp:38-49 [Utils::GetPolicyMode] *)
Definition GetPolicyMode (socperfPolicy : PluginConfig) : string :=
  foldl (fun policyMode item =>
    foldl (fun policyMode sub =>
      if String.eqb (sub_name sub) SOCPERF_POLICY_MODE then sub_value sub else policyMode)
      policyMode (subItemList item)) "" (itemList socperfPolicy).

(** utils.cpp:51-74 [Utils::ApplyPolicyLimits] *)
Definition ApplyPolicyLimits (limitPolicy : PluginConfig) (policyMode : string)
    (limits : option bool * option bool) : option bool * option bool :=
  match find (fun item => bool_decide (itemProperties item !! "key" = Some policyMode))
             (itemList limitPolicy) with
  | None => limits
  | Some it =>
      foldl (fun '(powerLimit, thermalLimit) item =>
        (if String.eqb (sub_name item) "power_limit"
         then Some (negb (atoi (sub_value item) =? 0)) else powerLimit,
         if String.eqb (sub_name item) "thermal_limit"
         then Some (negb (atoi (sub_value item) =? 0)) else thermalLimit))
        limits (subItemList it)
  end.

(** ** The weak interaction mode *)

(** socperf_plugin.cpp:620-631 [SocPerfPlugin::UpdateWeakActionStatus] the body of
    the loop: whether this application switches the mode off *)
Definition is_key_app (appUid : Z) : M bool :=
  s ← st_get;
  match uidToAppMsgMap_ s !! appUid with
  | None => mret false
  | Some msg =>
      byName ← (if bool_decide (msg_bundleName msg ∈ keyAppName_ s)
                then r ← on_env (check_signature (msg_bundleName msg)); mret (r =? CHECK_OK)
                else mret false);
      mret ((byName : bool) || bool_decide (msg_appType msg ∈ keyAppType_ s))
  end.

Fixpoint any_key_app (uids : list Z) : M bool :=
  match uids with
  | [] => mret false
  | uid :: uids => found ← is_key_app uid; if found : bool then mret true else any_key_app uids
  end.

(** socperf_plugin.cpp:617-640 [SocPerfPlugin::UpdateWeakActionStatus] *)
Definition UpdateWeakActionStatus : M unit :=
  s ← st_get;
  found ← any_key_app (set_in_order (focusAppUids_ s));
  let status := if found : bool then false else weakActionEnable_ s in
  let status := if custGameState_ s then false else status in
  st_when (negb (Bool.eqb status (weakActionStatus_ s)))
    (st_modify (fun s => s <| weakActionStatus_ := status |>);;
     call (RequestDeviceMode WEAK_ACTION_MODE status)).

(** socperf_plugin.cpp:106-114 [SocPerfPlugin::SetWeakActionEnable] *)
Definition SetWeakActionEnable (subValue : string) : M unit :=
  ret_if String.eqb subValue "";
  st_modify (fun s => s <| weakActionEnable_ := negb (atoi subValue =? 0) |>);;
  UpdateWeakActionStatus.

(** socperf_plugin.cpp:91-104 [SocPerfPlugin::LoadWeakInterAction] *)
Definition LoadWeakInterAction : PluginConfig -> M unit :=
  for_each_sub (fun sub =>
    if String.eqb (sub_name sub) ENABLE_STRING then SetWeakActionEnable (sub_value sub)
    else if String.eqb (sub_name sub) BUNDLE_NAME then
      st_modify (fun s => s <| keyAppName_ ::= AddKeyAppName (sub_value sub) |>)
    else if String.eqb (sub_name sub) KEY_APP_TYPE then
      st_modify (fun s => s <| keyAppType_ ::= AddKeyAppType (sub_value sub) |>)
    else mret tt).

(** ** Other parameters *)

(** socperf_plugin.cpp:187-198 [SocPerfPlugin::HandleSubValue] *)
Definition HandleSubValue (subValue : string) (nameSet : gset string) : gset string :=
  if String.eqb subValue "" then nameSet
  else foldl (fun nameSet bundleName => {[bundleName]} ∪ nameSet) nameSet (getlines "," subValue).

(** socperf_plugin.cpp:172-185 [SocPerfPlugin::InitBundleNameBoostLists] *)
Definition InitBundleNameBoostLists : PluginConfig -> M unit :=
  for_each_sub (fun sub =>
    if String.eqb (sub_name sub) SUB_ITEM_KEY_NAME_APP_USE_CAMERA_BOOST then
      st_modify (fun s => s <| appNameUseCamera_ ::= HandleSubValue (sub_value sub) |>)
    else if String.eqb (sub_name sub) SUB_ITEM_KEY_NAME_APP_MOVE_EVENT_BOOST then
      st_modify (fun s => s <| appNameMoveEvent_ ::= HandleSubValue (sub_value sub) |>)
    else mret tt).

(** socperf_plugin.cpp:216-230 [SocPerfPlugin::HandleBatterySubValue] *)
Definition HandleBatterySubValue (capacity tag config : Z) : M unit :=
  s ← st_get;
  let frequencies := default (mkFrequencies [] []) (socperfBatteryConfig_ s !! capacity) in
  st_when (capacity >? maxBatteryLimitCapacity_ s)
    (st_modify (fun s => s <| maxBatteryLimitCapacity_ := capacity |>));;
  let frequencies := mkFrequencies (freq_tags frequencies ++ [tag]) (freq_configs frequencies ++ [config]) in
  st_modify (fun s => s <| socperfBatteryConfig_ ::= <[capacity := frequencies]> |>).

(** socperf_plugin.cpp:205-211 [SocPerfPlugin::InitBatteryCapacityLimitFreq] the loops *)
Definition LoadBatteryCapacityLimitFreq (itemLists : PluginConfig) : M unit :=
  st_iter (fun item =>
    let itemCapacity := default "" (itemProperties item !! ITEM_KEY_CAPACITY) in
    st_iter (fun sub =>
      HandleBatterySubValue (atoi itemCapacity) (atoi (default "" (sub_properties sub !! RES_ID)))
        (atoi (sub_value sub))) (subItemList item)) (itemList itemLists).

(** socperf_plugin.cpp:232-241 [SocPerfPlugin::StringToSet] *)
Definition StringToSet (str : string) (pattern : ascii) : gset string :=
  foldl (fun result token => {[token]} ∪ result) ∅ (getlines pattern str).

(** socperf_plugin.cpp:243-253 [SocPerfPlugin::AddSpecialExtension] *)
Definition AddSpecialExtension (sub : SubItem) : M unit :=
  bundleName <-? sub_properties sub !! BUNDLE_NAME;
  callerBundleNames <-? sub_properties sub !! CALLER_BUNDLE_NAME;
  st_modify (fun s => s <| specialExtensionMap_ ::= <[bundleName := StringToSet callerBundleNames "|"]> |>).

(** socperf_plugin.cpp:262-271 [SocPerfPlugin::LoadSpecialExtension] *)
Definition LoadSpecialExtension : PluginConfig -> M unit :=
  for_each_sub (fun sub =>
    if String.eqb (sub_name sub) INFO_STRING then AddSpecialExtension sub else mret tt).

(** socperf_plugin.cpp:116-133 [SocPerfPlugin::InitPerfCrucialFunc] *)
Definition InitPerfCrucialFunc (perfSoPath perfSoFunc : string) : M unit :=
  s ← st_get;
  match se_dlopen perfSoPath perfSoFunc (sp_env s) with
  | None => st_modify (fun s => s <| handle_ := false |>)
  | Some true => st_modify (fun s => s <| handle_ := true |> <| reqAppTypeFunc_ := true |>)
  | Some false => st_modify (fun s => s <| handle_ := false |> <| reqAppTypeFunc_ := false |>)
  end.

(** socperf_plugin.cpp:67-80 [SocPerfPlugin::InitPerfCrucialSo] the loops and the
    call after them *)
Definition LoadPerfCrucialSo (itemLists : PluginConfig) : M unit :=
  for_each_sub (fun sub =>
    st_when (String.eqb (sub_name sub) SUB_ITEM_KEY_NAME_SOCPERF_RERQ_APPTYPE_PATH)
      (st_modify (fun s => s <| perfReqAppTypeSoPath_ := sub_value sub |>));;
    st_when (String.eqb (sub_name sub) SUB_ITEM_KEY_NAME_SOCPERF_RERQ_APPTYPE_FUNC)
      (st_modify (fun s => s <| perfReqAppTypeSoFunc_ := sub_value sub |>))) itemLists;;
  s ← st_get;
  st_when (negb (String.eqb (perfReqAppTypeSoPath_ s) "") && negb (String.eqb (perfReqAppTypeSoFunc_ s) ""))
    (InitPerfCrucialFunc (perfReqAppTypeSoPath_ s) (perfReqAppTypeSoFunc_ s)).

(** socperf_plugin.cpp:138-146 [SocPerfPlugin::InitEventId] the loops *)
Definition LoadEventId : PluginConfig -> M unit :=
  for_each_sub (fun sub =>
    if String.eqb (sub_name sub) SOCPERF_TYPE_ID then
      st_modify (fun s => s <| RES_TYPE_SCENE_BOARD_ID := atoi (sub_value sub) |>)
    else if String.eqb (sub_name sub) SOCPERF_TYPE_RGM then
      st_modify (fun s => s <| RES_TYPE_RGM_BOOTING_STATUS := atoi (sub_value sub) |>)
    else mret tt).

(** socperf_plugin.cpp:154-157 [SocPerfPlugin::InitPolicyMode] between the reads and
    the removals *)
Definition LoadPolicyMode (socperfPolicy limitPolicy : PluginConfig) : M unit :=
  st_when (negb (bool_decide (itemList socperfPolicy = [])) && negb (bool_decide (itemList limitPolicy = [])))
    (let policyMode := GetPolicyMode socperfPolicy in
     st_modify (fun s =>
       let '(power, thermal) := ApplyPolicyLimits limitPolicy policyMode (powerLimit_ s, thermalLimit_ s) in
       s <| powerLimit_ := power |> <| thermalLimit_ := thermal |>)).

(** socperf_plugin.cpp:529-536 [SocPerfPlugin::InitFeatureSwitch] the loops *)
Definition feature_switch (featureName : string) (itemLists : PluginConfig) : bool :=
  match find (fun sub => String.eqb (sub_name sub) featureName) (concat (subItemList <$> itemList itemLists)) with
  | Some sub => String.eqb (sub_value sub) "1"
  | None => false
  end.

(** ** Event types and their handlers *)

(** [insert] leaves an entry that is there. *)
Definition insert_handler (kv : Z * Handler) (m : gmap Z Handler) : gmap Z Handler :=
  match m !! kv.1 with Some _ => m | None => <[kv.1 := kv.2]> m end.
Definition insert_handlers (l : list (Z * Handler)) (m : gmap Z Handler) : gmap Z Handler :=
  foldl (fun m kv => insert_handler kv m) m l.

(** An entry that a flag of the build switches on. *)
Definition when_built {A} (flag : bool) (l : list A) : list A := if flag then l else [].

(** socperf_plugin.cpp:405-432 [SocPerfPlugin::AddOtherEventToFunctionMap] the
    insertions *)
Definition other_handlers : list (Z * Handler) :=
  [(RES_TYPE_RECENT_BUILD, HRecentBuild);
   (RES_TYPE_DEVICE_ORIENTATION_STATUS, HDeviceOrientationStatusChange);
   (RES_TYPE_REPORT_BATTERY_STATUS_CHANGE, HBatteryStatusChange);
   (RES_TYPE_SCHED_MODE_CHANGE, HSchedModeChange);
   (RES_TYPE_RSS_CLOUD_CONFIG_UPDATE, HRssCloudConfigUpdate);
   (RES_TYPE_SYSTEM_ABILITY_STATUS_CHANGE, HReportAbilityStatus);
   (RES_TYPE_DISPLAY_POWER_WAKE_UP, HDisplayPowerWakeUp);
   (RES_TYPE_SWIPER_FLING_END_EXCEPTION_FLAG, HSwiperFlingEndEx);
   (RES_TYPE_HIGH_FREQUENCE_LOAD_SCENE_WITHOUT_AGGREGATION, HLiveBroadcast);
   (RES_TYPE_OOBE_CLONE, HOobeClone);
   (RES_TYPE_CREATE_LIVING_APP_PROCESS, HResTypeCreateLivingApp);
   (RES_TYPE_SOCPERF_PERFORMANCE_MODE_CHANGED, HPerformanceModeChange)].

(** socperf_plugin.cpp:324-373 [SocPerfPlugin::AddEventToFunctionMap] the insertions;
    the configured types become unsigned *)
Definition event_handlers (s : SocPerf K) : list (Z * Handler) :=
  when_built CUST_SOC_PERF
    [(RES_TYPE_ANCO_CUST, HCustEvent); (RES_TYPE_SOCPERF_CUST_EVENT_BEGIN, HCustEventBegin);
     (RES_TYPE_SOCPERF_CUST_EVENT_END, HCustEventEnd); (RES_TYPE_SOCPERF_CUST_ACTION, HCustAction)] ++
  [(RES_TYPE_ONLY_PERF_APP_COLD_START, HAppColdStartEx);
   (RES_TYPE_SCENE_ROTATION, HSceneRotation);
   (RES_TYPE_BMM_MONITER_CHANGE_EVENT, HBmmMoniterStatus);
   (RES_TYPE_POWER_MODE_CHANGED, HPowerModeChanged);
   (RES_TYPE_SCREEN_STATUS, HScreenStatusAnalysis);
   (RES_TYPE_APP_GAME_BOOST_EVENT, HGameBoost);
   (RES_TYPE_KEY_EVENT, HEventKey)] ++
  when_built CROWN_POWER_KEY
    [(RES_TYPE_MMI_INPUT_POWER_KEY, HPowerEventKey); (RES_TYPE_CROWN_ROTATION_STATUS, HCrownRotation)] ++
  [(RES_TYPE_APP_INSTALL_UNINSTALL, HUninstallEvent);
   (RES_TYPE_PROCESS_STATE_CHANGE, HProcessStateChange);
   (RES_TYPE_REPORT_CAMERA_STATE, HCameraStateChange);
   (RES_TYPE_REPORT_GAME_STATE_CHANGE, HGameStateChange)] ++
  when_built (negb (RES_TYPE_SCENE_BOARD_ID s =? 0))
    [(to_u32 (RES_TYPE_SCENE_BOARD_ID s), HSocperfSceneBoard)] ++
  when_built (negb (RES_TYPE_RGM_BOOTING_STATUS s =? 0))
    [(to_u32 (RES_TYPE_RGM_BOOTING_STATUS s), HRgmBootingStatus)] ++
  other_handlers.

(** socperf_plugin.cpp:275-320 [SocPerfPlugin::InitFunctionMap] the entries *)
Definition first_handlers : list (Z * Handler) :=
  [(RES_TYPE_WINDOW_FOCUS, HWindowFocus); (RES_TYPE_CLICK_RECOGNIZE, HEventClick);
   (RES_TYPE_LOAD_PAGE, HLoadPage); (RES_TYPE_SLIDE_RECOGNIZE, HEventSlide);
   (RES_TYPE_WEB_GESTURE, HEventWebGesture); (RES_TYPE_POP_PAGE, HPopPage);
   (RES_TYPE_APP_ABILITY_START, HAppAbilityStart); (RES_TYPE_RESIZE_WINDOW, HResizeWindow);
   (RES_TYPE_MOVE_WINDOW, HMoveWindow); (RES_TYPE_SHOW_REMOTE_ANIMATION, HRemoteAnimation);
   (RES_TYPE_DRAG_STATUS_BAR, HDragStatusBar); (RES_TYPE_WEB_GESTURE_MOVE, HWebGestureMove);
   (RES_TYPE_WEB_SLIDE_NORMAL, HWebSlideNormal); (RES_TYPE_LOAD_URL, HLoadUrl);
   (RES_TYPE_MOUSEWHEEL, HMousewheel); (RES_TYPE_APP_STATE_CHANGE, HAppStateChange);
   (RES_TYPE_DEVICE_MODE_STATUS, HDeviceModeStatusChange);
   (RES_TYPE_ACCOUNT_ACTIVATING, HSocperfAccountActivating);
   (RES_TYPE_WEB_DRAG_RESIZE, HWebDragResize)] ++
  when_built FILE_COPY_SOC_PERF [(RES_TYPE_FILE_COPY_STATUS, HFileCopyStatus)] ++
  [(RES_TYPE_WEB_SLIDE_SCROLL, HWebSildeScroll)].

(** socperf_plugin.cpp:273-322 [SocPerfPlugin::InitFunctionMap] *)
Definition InitFunctionMap : M unit :=
  st_modify (fun s => s <| functionMap := insert_handlers (first_handlers ++ event_handlers s) ∅ |>).

(** socperf_plugin.cpp:375-403 [SocPerfPlugin::InitResTypeWithVal] *)
Definition soc_resTypeWithVal (s : SocPerf K) : list (Z * Z) :=
  [(RES_TYPE_WINDOW_FOCUS, WINDOW_FOCUS); (RES_TYPE_WINDOW_FOCUS, WINDOW_UNFOCUS);
   (RES_TYPE_CLICK_RECOGNIZE, TOUCH_EVENT_DOWN_MMI); (RES_TYPE_CLICK_RECOGNIZE, TOUCH_EVENT_DOWN);
   (RES_TYPE_CLICK_RECOGNIZE, TOUCH_EVENT_UP); (RES_TYPE_CLICK_RECOGNIZE, CLICK_EVENT);
   (RES_TYPE_LOAD_PAGE, LOAD_PAGE_START); (RES_TYPE_LOAD_PAGE, LOAD_PAGE_COMPLETE);
   (RES_TYPE_SLIDE_RECOGNIZE, SLIDE_EVENT_ON); (RES_TYPE_SLIDE_RECOGNIZE, SLIDE_EVENT_OFF);
   (RES_TYPE_SLIDE_RECOGNIZE, SWIPER_FLING_END); (RES_TYPE_SLIDE_RECOGNIZE, SLIDE_NORMAL_BEGIN);
   (RES_TYPE_SLIDE_RECOGNIZE, SLIDE_NORMAL_END); (RES_TYPE_SLIDE_RECOGNIZE, MOVE_EVENT_ON);
   (RES_TYPE_APP_STATE_CHANGE, PROCESS_CREATED);
   (RES_TYPE_BMM_MONITER_CHANGE_EVENT, BMM_BACKGROUND);
   (RES_TYPE_BMM_MONITER_CHANGE_EVENT, BMM_CLOSE);
   (RES_TYPE_APP_INSTALL_UNINSTALL, APP_UNINSTALL);
   (RES_TYPE_PROCESS_STATE_CHANGE, PROCESS_DIED)] ++
  when_built (negb (RES_TYPE_SCENE_BOARD_ID s =? 0))
    [(to_u32 (RES_TYPE_SCENE_BOARD_ID s), ANIMATION_BEGIN);
     (to_u32 (RES_TYPE_SCENE_BOARD_ID s), ANIMATION_END)].

(** socperf_plugin.cpp:481-495 [SocPerfPlugin::InitOtherResTypes] *)
Definition soc_other_resTypes (s : SocPerf K) : list Z :=
  [RES_TYPE_REPORT_BATTERY_STATUS_CHANGE; RES_TYPE_RECENT_BUILD; RES_TYPE_SCHED_MODE_CHANGE;
   RES_TYPE_RSS_CLOUD_CONFIG_UPDATE; RES_TYPE_SYSTEM_ABILITY_STATUS_CHANGE;
   RES_TYPE_CREATE_LIVING_APP_PROCESS] ++
  when_built (negb (RES_TYPE_SCENE_BOARD_ID s =? 0)) [to_u32 (RES_TYPE_SCENE_BOARD_ID s)] ++
  when_built (negb (RES_TYPE_RGM_BOOTING_STATUS s =? 0)) [to_u32 (RES_TYPE_RGM_BOOTING_STATUS s)].

(** socperf_plugin.cpp:434-479 [SocPerfPlugin::InitResTypes] *)
Definition soc_resTypes (s : SocPerf K) : list Z :=
  [RES_TYPE_KEY_EVENT; RES_TYPE_WEB_GESTURE; RES_TYPE_POP_PAGE; RES_TYPE_APP_ABILITY_START;
   RES_TYPE_RESIZE_WINDOW; RES_TYPE_MOVE_WINDOW; RES_TYPE_SHOW_REMOTE_ANIMATION;
   RES_TYPE_DRAG_STATUS_BAR; RES_TYPE_WEB_GESTURE_MOVE; RES_TYPE_WEB_SLIDE_NORMAL;
   RES_TYPE_LOAD_URL; RES_TYPE_MOUSEWHEEL; RES_TYPE_DEVICE_MODE_STATUS;
   RES_TYPE_ACCOUNT_ACTIVATING; RES_TYPE_DEVICE_ORIENTATION_STATUS] ++
  when_built CUST_SOC_PERF
    [RES_TYPE_ANCO_CUST; RES_TYPE_SOCPERF_CUST_EVENT_BEGIN; RES_TYPE_SOCPERF_CUST_EVENT_END;
     RES_TYPE_SOCPERF_CUST_ACTION] ++
  [RES_TYPE_ONLY_PERF_APP_COLD_START; RES_TYPE_SCENE_ROTATION; RES_TYPE_POWER_MODE_CHANGED;
   RES_TYPE_SCREEN_STATUS; RES_TYPE_APP_GAME_BOOST_EVENT; RES_TYPE_MMI_INPUT_POWER_KEY;
   RES_TYPE_CROWN_ROTATION_STATUS; RES_TYPE_WEB_DRAG_RESIZE; RES_TYPE_REPORT_CAMERA_STATE;
   RES_TYPE_REPORT_GAME_STATE_CHANGE] ++
  when_built FILE_COPY_SOC_PERF [RES_TYPE_FILE_COPY_STATUS] ++
  [RES_TYPE_WEB_SLIDE_SCROLL; RES_TYPE_DISPLAY_POWER_WAKE_UP;
   RES_TYPE_SWIPER_FLING_END_EXCEPTION_FLAG;
   RES_TYPE_HIGH_FREQUENCE_LOAD_SCENE_WITHOUT_AGGREGATION; RES_TYPE_OOBE_CLONE;
   RES_TYPE_SOCPERF_PERFORMANCE_MODE_CHANGED] ++ soc_other_resTypes s.

(** ** Start and stop

    These run inside the plugin manager, whose outer state is the plugin. *)
#[local] Abbreviation PM := (ST (PluginMgr J (SocPerf K))).

Definition in_plugin {A} (m : M A) : PM A := fun p =>
  match m (host p) with Some (a, s) => Some (a, p <| host := s |>) | None => None end.

(** The parameters are read, used and dropped. *)
Definition with_config (configName : string) (use : PluginConfig -> M unit) : PM unit :=
  p ← st_get;
  in_plugin (use (PluginMgr_GetConfig PLUGIN_NAME configName p));;
  PluginMgr_RemoveConfig PLUGIN_NAME configName.

(** socperf_plugin.cpp:135-148 [SocPerfPlugin::InitEventId] *)
Definition InitEventId : PM unit := with_config CONFIG_NAME_SOCPERF_EVENT_ID LoadEventId.

(** socperf_plugin.cpp:255-260 [SocPerfPlugin::InitSpecialExtension] *)
Definition InitSpecialExtension : PM unit := with_config SPECIAL_EXTENSION_STRING LoadSpecialExtension.

(** socperf_plugin.cpp:64-82 [SocPerfPlugin::InitPerfCrucialSo] *)
Definition InitPerfCrucialSo : PM unit := with_config CNOFIG_NAME_SOCPERF_CRUCIAL_FUNC LoadPerfCrucialSo.

(** socperf_plugin.cpp:163-170 [SocPerfPlugin::InitBundleNameBoostList] *)
Definition InitBundleNameBoostList : PM unit :=
  with_config CONFIG_NAME_SOCPERF_BUNDLE_NAME_BOOST_LIST InitBundleNameBoostLists.

(** socperf_plugin.cpp:84-89 [SocPerfPlugin::InitWeakInterAction] *)
Definition InitWeakInterAction : PM unit := with_config WEAK_ACTION_STRING LoadWeakInterAction.

(** socperf_plugin.cpp:200-214 [SocPerfPlugin::InitBatteryCapacityLimitFreq] *)
Definition InitBatteryCapacityLimitFreq : PM unit :=
  with_config CONFIG_NAME_SOCPERF_BATTERY_CAPACITY_LIMIT_FREQ LoadBatteryCapacityLimitFreq.

(** socperf_plugin.cpp:150-161 [SocPerfPlugin::InitPolicyMode] *)
Definition InitPolicyMode : PM unit :=
  p ← st_get;
  in_plugin (LoadPolicyMode (PluginMgr_GetConfig PLUGIN_NAME CONFIG_NAME_SOCPERF_POLICY_MODE p)
                            (PluginMgr_GetConfig PLUGIN_NAME CONFIG_NAME_SOCPERF_LIMIT_POLICY p));;
  PluginMgr_RemoveConfig PLUGIN_NAME CONFIG_NAME_SOCPERF_POLICY_MODE;;
  PluginMgr_RemoveConfig PLUGIN_NAME CONFIG_NAME_SOCPERF_LIMIT_POLICY.

(** socperf_plugin.cpp:525-537 [SocPerfPlugin::InitFeatureSwitch] *)
Definition InitFeatureSwitch (featureName : string) : PM bool :=
  p ← st_get;
  PluginMgr_RemoveConfig PLUGIN_NAME CONFIG_NAME_SOCPERF_FEATURE_SWITCH;;
  mret (feature_switch featureName (PluginMgr_GetConfig PLUGIN_NAME CONFIG_NAME_SOCPERF_FEATURE_SWITCH p)).

(** socperf_plugin.cpp:41-60 [SocPerfPlugin::Init]; the last step of
    [InitFunctionMap] reads the switch for games *)
Definition SocPerf_Init : PM unit :=
  InitEventId;;
  in_plugin (st_modify (fun s => s <| sp_resTypes := list_to_set (soc_resTypes s) |>));;
  in_plugin (st_modify (fun s => s <| sp_resTypeWithVal_ := list_to_set (soc_resTypeWithVal s) |>));;
  in_plugin InitFunctionMap;;
  boost ← InitFeatureSwitch SUB_ITEM_KEY_NAME_SOCPERF_GAME_BOOST;
  in_plugin (st_modify (fun s => s <| socperfGameBoostSwitch_ := boost |>));;
  InitSpecialExtension;;
  p ← st_get;
  st_iter (fun resType => SubscribeResource LIB_NAME resType) (set_in_order (sp_resTypes (host p)));;
  st_iter (fun '(resType, val) => SubscribeResourceAccurately LIB_NAME resType val)
    (pairs_in_order (sp_resTypeWithVal_ (host p)));;
  InitPerfCrucialSo;;
  InitBundleNameBoostList;;
  InitWeakInterAction;;
  InitBatteryCapacityLimitFreq;;
  InitPolicyMode.

(** socperf_plugin.cpp:497-512 [SocPerfPlugin::Disable] *)
Definition SocPerf_Disable : PM unit :=
  in_plugin (st_modify (fun s => s <| functionMap := ∅ |>));;
  p ← st_get;
  st_iter (fun resType => UnSubscribeResource LIB_NAME resType) (set_in_order (sp_resTypes (host p)));;
  st_iter (fun '(resType, val) => UnSubscribeResourceAccurately LIB_NAME resType val)
    (pairs_in_order (sp_resTypeWithVal_ (host p)));;
  in_plugin (st_modify (fun s => s <| sp_resTypes := ∅ |> <| handle_ := false |>)).

(** socperf_plugin.cpp:1894-1902 [OnPluginInit] *)
Definition SocPerf_OnPluginInit (libName : string) : PM bool :=
  if negb (String.eqb libName LIB_NAME) then mret false else
  SocPerf_Init;; mret true.
End socperf.
