(* ===== verification/SocPerfHandlers.v ===== *)
(** * SocPerf plugin: handlers

    One definition per handler of [socperf_plugin.cpp], with the dispatch through
    the function map and the delayed tasks.  The tests for a missing event are left
    out: [DispatchResource] reads the event before it calls a handler. *)
From S2P Require Import Prelude Json ResType PluginConfig PluginMgr SignatureValidator SocPerf.

Section handlers.
Context {J K : Type} `{!Json J} `{!Build} `{!SocBuild} `{!SocEnv K} `{!SignatureChecker K}.
#[local] Abbreviation M := (ST (SocPerf K)).
Implicit Types (data : ResData J).

(** ** Fields of a payload *)

(** socperf_plugin.cpp:539-551 [ParsePayload] *)
Definition soc_ParsePayload data (key : string) : Z :=
  match json_find key (rd_payload data) with
  | None => INVALID_VALUE
  | Some j =>
      match json_string j with
      | Some str => atoi str
      | None => match json_integer j with Some z => to_s32 z | None => INVALID_VALUE end
      end
  end.

(** socperf_plugin.cpp:869-877 [SocPerfPlugin::GetUidByData] *)
Definition GetUidByData data : Z :=
  match find_string UID_NAME (rd_payload data) with Some str => atoi str | None => INVALID_VALUE end.

(** socperf_plugin.cpp:1464-1472 [SocPerfPlugin::GetPidByData] *)
Definition GetPidByData data (key : string) : Z :=
  match find_string key (rd_payload data) with Some str => atoi str | None => INVALID_VALUE end.

(** A request for a start or an end. *)
Definition on_off (cmdId : Z) (onOffTag : bool) : M unit := call (PerfRequestEx cmdId onOffTag "").
Definition boost (cmdId : Z) : M unit := call (PerfRequest cmdId "").

(** ** Types of applications *)

(** The test that the code repeats before it files an application. *)
Definition known_type (appType : Z) : bool :=
  negb (appType =? INVALID_VALUE) && negb (appType =? INVALID_APP_TYPE).

(** socperf_plugin.cpp:594-604 [SocPerfPlugin::UpdateUidToAppMsgMap] with a type *)
Definition UpdateUidToAppMsgMap_typed data (appType : Z) (bundleName : string) : M unit :=
  let uid := GetUidByData data in
  st_when (known_type appType && negb (uid =? INVALID_VALUE))
    (st_modify (fun s => s <| uidToAppMsgMap_ ::= <[uid := mkAppKeyMessage appType bundleName]> |>)).

(** socperf_plugin.cpp:1120-1140 [SocPerfPlugin::UpdateUidToAppMsgMap] *)
Definition UpdateUidToAppMsgMap data : M unit :=
  let uid := GetUidByData data in
  ret_if uid =? INVALID_VALUE;
  s ← st_get;
  ret_if bool_decide (is_Some (uidToAppMsgMap_ s !! uid));
  ret_if negb (reqAppTypeFunc_ s);
  bundleName <-? find_string BUNDLE_NAME (rd_payload data);
  appType ← reqAppType bundleName;
  st_when (known_type appType)
    (st_modify (fun s => s <| uidToAppMsgMap_ ::= <[uid := mkAppKeyMessage appType bundleName]> |>)).

(** socperf_plugin.cpp:709-730 [SocPerfPlugin::GetBundleNameByUid] *)
Definition SocPerf_GetBundleNameByUid (uid : Z) : M string :=
  s ← st_get;
  if negb (se_has_service_manager (sp_env s)) then mret "" else
  if negb (se_has_bundle_manager (sp_env s)) then mret "" else
  r ← on_env (se_GetNameForUid uid);
  mret r.2.

(** socperf_plugin.cpp:682-699 [SocPerfPlugin::IsFocusAppsAllGame] *)
Definition IsFocusAppsAllGame (s : SocPerf K) : bool :=
  if bool_decide (focusAppUids_ s = ∅) || bool_decide (uidToAppMsgMap_ s = ∅) then false else
  forallb (fun uid => match uidToAppMsgMap_ s !! uid with
                      | Some msg => msg_appType msg =? APP_TYPE_GAME
                      | None => false
                      end) (set_in_order (focusAppUids_ s)).

(** socperf_plugin.cpp:701-707 [SocPerfPlugin::UpdatesFocusAppsType] *)
Definition UpdatesFocusAppsType (appType : Z) (s : SocPerf K) : bool :=
  if Z.of_nat (size (focusAppUids_ s)) =? 1 then appType =? APP_TYPE_GAME
  else isFocusAppsGameType_ s && (appType =? APP_TYPE_GAME).

(** socperf_plugin.cpp:642-680 [SocPerfPlugin::UpdateFocusAppType] *)
Definition UpdateFocusAppType data (focusStatus : bool) : M unit :=
  let uid := GetUidByData data in
  ret_if uid =? INVALID_VALUE;
  if negb focusStatus then
    st_modify (fun s => s <| focusAppUids_ ::= fun X => X ∖ {[uid]} |>);;
    UpdateWeakActionStatus;;
    st_modify (fun s => s <| isFocusAppsGameType_ := IsFocusAppsAllGame s |>)
  else
  st_modify (fun s => s <| focusAppUids_ ::= fun X => {[uid]} ∪ X |>);;
  UpdateWeakActionStatus;;
  let pid := GetPidByData data PID_NAME in
  s ← st_get;
  match uidToAppMsgMap_ s !! uid with
  | Some msg =>
      st_when (negb (pid =? INVALID_VALUE))
        (st_modify (fun s => s <| pidToAppTypeMap_ ::= <[pid := msg_appType msg]> |>));;
      st_modify (fun s => s <| isFocusAppsGameType_ := UpdatesFocusAppsType (msg_appType msg) s |>)
  | None =>
      ret_if negb (reqAppTypeFunc_ s);
      bundleName ← SocPerf_GetBundleNameByUid uid;
      focusAppType ← reqAppType bundleName;
      st_when (known_type focusAppType)
        (st_when (negb (pid =? INVALID_VALUE))
           (st_modify (fun s => s <| pidToAppTypeMap_ ::= <[pid := focusAppType]> |>));;
         st_modify (fun s => s <| uidToAppMsgMap_ ::= <[uid := mkAppKeyMessage focusAppType bundleName]> |>));;
      st_modify (fun s => s <| isFocusAppsGameType_ := UpdatesFocusAppsType focusAppType s |>)
  end.

(** socperf_plugin.cpp:606-615 [SocPerfPlugin::HandleWindowFocus] *)
Definition HandleWindowFocus data : M unit :=
  if rd_value data =? WINDOW_FOCUS then
    boost PERF_REQUEST_CMD_ID_WINDOW_SWITCH;; UpdateFocusAppType data true
  else if rd_value data =? WINDOW_UNFOCUS then UpdateFocusAppType data false
  else mret tt.

(** socperf_plugin.cpp:553-578 [SocPerfPlugin::HandleAppAbilityStart]; the field for
    a warm start must be text *)
Definition HandleAppAbilityStart data : M unit :=
  if rd_value data =? APP_COLD_START then
    boost PERF_REQUEST_CMD_ID_APP_START;;
    s ← st_get;
    ret_if negb (reqAppTypeFunc_ s);
    bundleName <-? find_string BUNDLE_NAME (rd_payload data);
    appType ← reqAppType bundleName;
    UpdateUidToAppMsgMap_typed data appType bundleName
  else if rd_value data =? APP_WARM_START then
    match json_find "supportWarmSmartGC" (rd_payload data) with
    | None => boost PERF_REQUEST_CMD_ID_WARM_START
    | Some j =>
        str ← st_some (json_string j);
        if atoi str =? 1 then boost PERF_REQUEST_CMD_ID_APP_START
        else boost PERF_REQUEST_CMD_ID_WARM_START
    end
  else mret tt.

(** socperf_plugin.cpp:1084-1118 [SocPerfPlugin::HandleAppStateChange] *)
Definition HandleAppStateChange data : M unit :=
  ret_if negb (rd_value data =? PROCESS_CREATED);
  let extensionType := soc_ParsePayload data EXTENSION_TYPE_KEY in
  if bool_decide (extensionType ∈ UI_SENSITIVE_EXTENSION) then
    ret_if match find_string PRELOAD_MODE (rd_payload data) with
           | Some mode => bool_decide (mode ∈ PRELOAD_SET)
           | None => false
           end;
    boost PERF_REQUEST_CMD_ID_APP_START;;
    UpdateUidToAppMsgMap data
  else
    bundleName <-? find_string BUNDLE_NAME (rd_payload data);
    callerBundleName <-? find_string CALLER_BUNDLE_NAME (rd_payload data);
    s ← st_get;
    callerBundleNames <-? specialExtensionMap_ s !! bundleName;
    st_when (bool_decide (callerBundleNames = ∅) || bool_decide (callerBundleName ∈ callerBundleNames))
      (boost PERF_REQUEST_CMD_ID_APP_START).

(** socperf_plugin.cpp:846-867 [SocPerfPlugin::HandleUninstallEvent] *)
Definition HandleUninstallEvent data : M unit :=
  ret_if negb (rd_value data =? APP_UNINSTALL);
  z <-? find_integer UID_NAME (rd_payload data);
  let uid := to_s32 z in
  ret_if uid =? INVALID_VALUE;
  st_modify (fun s => s <| uidToAppMsgMap_ ::= delete uid |>).

(** socperf_plugin.cpp:1454-1462 [SocPerfPlugin::HandleDeadProcess] *)
Definition HandleDeadProcess data : M unit :=
  let pid := GetPidByData data PID_NAME in
  ret_if pid =? INVALID_VALUE;
  st_modify (fun s => s <| pidToAppTypeMap_ ::= delete pid |>).

(** socperf_plugin.cpp:1446-1452 [SocPerfPlugin::HandleProcessStateChange] *)
Definition SocPerf_HandleProcessStateChange data : M unit :=
  st_when (rd_value data =? PROCESS_DIED) (HandleDeadProcess data).

(** ** Games *)

(** socperf_plugin.cpp:836-844 [SocPerfPlugin::IsGameEvent]; reading the map files
    an unknown process with type 0 *)
Definition IsGameEvent data : M bool :=
  let pid := GetPidByData data CLIENT_PID_NAME in
  if pid =? INVALID_VALUE then mret false else
  s ← st_get;
  let appType := default 0 (pidToAppTypeMap_ s !! pid) in
  st_modify (fun s => s <| pidToAppTypeMap_ ::= <[pid := appType]> |>);;
  mret (appType =? APP_TYPE_GAME).

(** socperf_plugin.cpp:734-737 [SocPerfPlugin::HandleEventClick] the test for a game,
    also in [HandleEventSlide] *)
Definition game_suppresses data : M bool :=
  s ← st_get;
  if negb (socperfGameBoostSwitch_ s) then mret false
  else if isFocusAppsGameType_ s then mret true else IsGameEvent data.

(** socperf_plugin.cpp:756-771 [SocPerfPlugin::HandleMoveEventBoost] *)
Definition HandleMoveEventBoost data (isSet : bool) : M unit :=
  bundleName <-? find_string BUNDLE_NAME (rd_payload data);
  s ← st_get;
  ret_if negb (bool_decide (bundleName ∈ appNameMoveEvent_ s));
  r ← on_env (check_signature bundleName);
  st_when (r =? CHECK_OK) (on_off PERF_REQUEST_CMD_ID_MOVE_EVENT_BOOST isSet).

(** socperf_plugin.cpp:732-754 [SocPerfPlugin::HandleEventClick] *)
Definition HandleEventClick data : M unit :=
  game ← game_suppresses data;
  ret_if (game : bool);
  s ← st_get;
  ret_if custGameState_ s;
  if rd_value data =? TOUCH_EVENT_DOWN_MMI then boost PERF_REQUEST_CMD_ID_EVENT_TOUCH_DOWN
  else if rd_value data =? TOUCH_EVENT_DOWN then boost PERF_REQUEST_CMD_ID_EVENT_TOUCH_DOWN
  else if rd_value data =? TOUCH_EVENT_UP then
    boost PERF_REQUEST_CMD_ID_EVENT_TOUCH_UP;; HandleMoveEventBoost data false
  else st_when (rd_value data =? CLICK_EVENT) (boost PERF_REQUEST_CMD_ID_EVENT_CLICK).

(** socperf_plugin.cpp:773-786 [SocPerfPlugin::HandleEventKey] *)
Definition HandleEventKey data : M unit :=
  s ← st_get;
  ret_if socperfGameBoostSwitch_ s && isFocusAppsGameType_ s;
  if rd_value data =? KEY_EVENT_DOWN then boost PERF_REQUEST_CMD_ID_EVENT_KEY_DOWN
  else st_when (rd_value data =? KEY_EVENT_UP) (boost PERF_REQUEST_CMD_ID_EVENT_KEY_DOWN).

(** socperf_plugin.cpp:814-834 [SocPerfPlugin::HandleGameBoost] *)
Definition HandleGameBoost data : M unit :=
  s ← st_get;
  ret_if negb (socperfGameBoostSwitch_ s);
  if rd_value data =? GAME_BOOST_LEVEL0 then on_off PERF_REQUEST_CMD_ID_GAME_BOOST true
  else if rd_value data =? GAME_BOOST_LEVEL1 then
    on_off PERF_REQUEST_CMD_ID_GAME_BOOST true;; on_off PERF_REQUEST_CMD_ID_GAME_BOOST_LEVEL1 true
  else if rd_value data =? GAME_BOOST_LEVEL2 then
    on_off PERF_REQUEST_CMD_ID_GAME_BOOST true;; on_off PERF_REQUEST_CMD_ID_GAME_BOOST_LEVEL2 true
  else st_when (rd_value data =? GAME_BOOST_LEVEL3)
    (on_off PERF_REQUEST_CMD_ID_GAME_BOOST true;; on_off PERF_REQUEST_CMD_ID_GAME_BOOST_LEVEL3 true).

(** socperf_plugin.cpp:1412-1427 [SocPerfPlugin::UpdateCustGameState] *)
Definition UpdateCustGameState (uid : Z) data : M bool :=
  (if rd_value data =? GAME_GEE_FOCUS_STATE then
     st_modify (fun s => s <| focusCustGameUids_ ::= fun X => {[uid]} ∪ X |> <| custGameState_ := true |>)
   else st_when (rd_value data =? GAME_LOST_FOCUS_STATE)
     (st_modify (fun s => s <| focusCustGameUids_ ::= fun X => X ∖ {[uid]} |>);;
      st_modify (fun s => if bool_decide (focusCustGameUids_ s = ∅)
                          then s <| custGameState_ := false |> else s)));;
  UpdateWeakActionStatus;;
  s ← st_get;
  mret (custGameState_ s).

(** socperf_plugin.cpp:1394-1410 [SocPerfPlugin::HandleGameStateChange] *)
Definition HandleGameStateChange data : M unit :=
  uid <-? find_integer UID_NAME (rd_payload data);
  env <-? find_integer GAME_ENV (rd_payload data);
  st_when (env =? GAME_CUST)
    (state ← UpdateCustGameState (to_s32 uid) data;
     st_modify (fun s => s <| custGameState_ := state |>)).

(** ** Requests that follow the value of an event *)

(** [on_at a b cmd]: a start at value [a], an end at value [b]. *)
Definition on_at data (start stop cmdId : Z) : M unit :=
  if rd_value data =? start then on_off cmdId true
  else st_when (rd_value data =? stop) (on_off cmdId false).

(** The same with a single request for the start. *)
Definition boost_at data (start stop cmdId : Z) : M unit :=
  if rd_value data =? start then boost cmdId
  else st_when (rd_value data =? stop) (on_off cmdId false).

(** socperf_plugin.cpp:580-592 [SocPerfPlugin::HandleSocperfSceneBoard] *)
Definition HandleSocperfSceneBoard data : M unit :=
  on_at data ANIMATION_BEGIN ANIMATION_END PERF_REQUEST_CMD_ID_REMOTE_ANIMATION.

(** socperf_plugin.cpp:789-797 [SocPerfPlugin::HandlePowerEventKey] *)
Definition HandlePowerEventKey data : M unit :=
  call (PerfRequest PERF_REQUEST_CMD_ID_POWER_KEY "powerkey").

(** socperf_plugin.cpp:799-811 [SocPerfPlugin::HandleCrownRotation] *)
Definition HandleCrownRotation data : M unit :=
  on_at data CROWN_ROTATION_START CROWN_ROTATION_END PERF_REQUEST_CMD_ID_CROWN_ROTATION.

(** socperf_plugin.cpp:879-889 [SocPerfPlugin::HandleLoadPage] *)
Definition HandleLoadPage data : M unit :=
  if rd_value data =? LOAD_PAGE_START then on_off PERF_REQUEST_CMD_ID_LOAD_PAGE_START true
  else st_when (rd_value data =? LOAD_PAGE_COMPLETE)
    (on_off PERF_REQUEST_CMD_ID_LOAD_PAGE_START false;; boost PERF_REQUEST_CMD_ID_LOAD_PAGE_COMPLETE).

(** socperf_plugin.cpp:891-895 [SocPerfPlugin::HandlePopPage] *)
Definition HandlePopPage data : M unit := boost PERF_REQUEST_CMD_ID_POP_PAGE.

(** socperf_plugin.cpp:926-938 [SocPerfPlugin::HandleSwiperFlingEndEx] *)
Definition HandleSwiperFlingEndEx data : M unit :=
  st_modify (fun s => s <| flingExceptionFlag_ := negb (rd_value data =? 0) |>).

(** socperf_plugin.cpp:940-954 [SocPerfPlugin::HandleResTypeCreateLivingApp] *)
Definition HandleResTypeCreateLivingApp data : M unit :=
  if rd_value data =? 0 then on_off PERF_REQUEST_CMD_ID_IMAGE_WORK_PROCESS_START true
  else on_off PERF_REQUEST_CMD_ID_IMAGE_WORK_PROCESS_START false.

(** socperf_plugin.cpp:978-989 [SocPerfPlugin::HandleEventWebGesture] *)
Definition HandleEventWebGesture data : M unit :=
  on_at data WEB_GESTURE_START WEB_GESTURE_END PERF_REQUEST_CMD_ID_EVENT_WEB_GESTURE.

(** socperf_plugin.cpp:991-1002 [SocPerfPlugin::HandleResizeWindow] *)
Definition HandleResizeWindow data : M unit :=
  boost_at data WINDOW_RESIZING WINDOW_RESIZE_STOP PERF_REQUEST_CMD_ID_RESIZE_WINDOW.

(** socperf_plugin.cpp:1004-1015 [SocPerfPlugin::HandleMoveWindow] *)
Definition HandleMoveWindow data : M unit :=
  boost_at data WINDOW_MOVING WINDOW_MOVE_STOP PERF_REQUEST_CMD_ID_MOVE_WINDOW.

(** socperf_plugin.cpp:1017-1031 [SocPerfPlugin::HandleRemoteAnimation] *)
Definition HandleRemoteAnimation data : M unit :=
  if rd_value data =? ANIMATION_BEGIN then on_off PERF_REQUEST_CMD_ID_REMOTE_ANIMATION true
  else if rd_value data =? ANIMATION_END then on_off PERF_REQUEST_CMD_ID_REMOTE_ANIMATION false
  else if rd_value data =? ANIMATION_UNLOCK_BEGIN then on_off PERF_REQUEST_CMD_ID_REMOTE_UNLOCK true
  else st_when (rd_value data =? ANIMATION_UNLOCK_END) (on_off PERF_REQUEST_CMD_ID_REMOTE_UNLOCK false).

(** socperf_plugin.cpp:1033-1044 [SocPerfPlugin::HandleDragStatusBar] *)
Definition HandleDragStatusBar data : M unit :=
  boost_at data DRAG_START DRAG_END PERF_REQUEST_CMD_ID_DRAG_STATUS_BAR.

(** socperf_plugin.cpp:1046-1057 [SocPerfPlugin::HandleWebGestureMove] *)
Definition HandleWebGestureMove data : M unit :=
  on_at data WEB_GESTURE_MOVE_START WEB_GESTURE_MOVE_END PERF_REQUEST_CMD_ID_WEB_GESTURE_MOVE.

(** socperf_plugin.cpp:1059-1070 [SocPerfPlugin::HandleWebSlideNormal] *)
Definition HandleWebSlideNormal data : M unit :=
  on_at data WEB_SLIDE_NORMAL_START WEB_SLIDE_NORMAL_END PERF_REQUEST_CMD_ID_WEB_SLIDE_NORMAL.

(** socperf_plugin.cpp:1072-1076 [SocPerfPlugin::HandleLoadUrl] *)
Definition HandleLoadUrl data : M unit := boost PERF_REQUEST_CMD_ID_LOAD_URL.

(** socperf_plugin.cpp:1078-1082 [SocPerfPlugin::HandleMousewheel] *)
Definition HandleMousewheel data : M unit := boost PERF_REQUEST_CMD_ID_MOUSEWHEEL.

(** socperf_plugin.cpp:1363-1376 [SocPerfPlugin::HandlePowerModeChanged] *)
Definition HandlePowerModeChanged data : M unit :=
  let powerModeStr := POWER_MODE_KEY +:+ ":" +:+ POWER_MODE in
  if rd_value data =? POWERMODE_ON then call (RequestDeviceMode powerModeStr true)
  else call (RequestDeviceMode powerModeStr false).

(** socperf_plugin.cpp:1429-1444 [SocPerfPlugin::IsAllowBoostScene] *)
Definition IsAllowBoostScene (s : SocPerf K) : bool :=
  existsb (fun uid => match uidToAppMsgMap_ s !! uid with
                      | Some msg => bool_decide (msg_bundleName msg ∈ appNameUseCamera_ s)
                      | None => false
                      end) (set_in_order (focusAppUids_ s)).

(** socperf_plugin.cpp:1378-1392 [SocPerfPlugin::HandleCameraStateChange] *)
Definition HandleCameraStateChange data : M unit :=
  if rd_value data =? CAMERA_CONNECT then
    s ← st_get; st_when (IsAllowBoostScene s) (on_off PERF_REQUEST_CMD_ID_APP_USE_CAMERA true)
  else st_when (rd_value data =? CAMERA_DISCONNECT) (on_off PERF_REQUEST_CMD_ID_APP_USE_CAMERA false).

(** socperf_plugin.cpp:1474-1484 [SocPerfPlugin::HandleSocperfAccountActivating] *)
Definition HandleSocperfAccountActivating data : M unit :=
  st_when (rd_value data =? ACCOUNT_ACTIVATING_START) (on_off PERF_REQUEST_CMD_ID_ACCOUNT_ACTIVATING true).

(** socperf_plugin.cpp:1487-1495 [SocPerfPlugin::HandleCustEvent] *)
Definition HandleCustEvent data : M unit :=
  ret_if rd_value data <=? 0; boost (rd_value data).

(** socperf_plugin.cpp:1497-1505 [SocPerfPlugin::HandleCustEventBegin] *)
Definition HandleCustEventBegin data : M unit :=
  ret_if rd_value data <=? 0; on_off (rd_value data) true.

(** socperf_plugin.cpp:1507-1515 [SocPerfPlugin::HandleCustEventEnd] *)
Definition HandleCustEventEnd data : M unit :=
  ret_if rd_value data <=? 0; on_off (rd_value data) false.

(** socperf_plugin.cpp:1517-1526 [SocPerfPlugin::HandleCustAction] *)
Definition HandleCustAction data : M unit :=
  s ← st_get;
  ret_if (rd_value data <=? 0) || custGameState_ s;
  boost (rd_value data).

(** socperf_plugin.cpp:1529-1539 [SocPerfPlugin::HandleRgmBootingStatus] *)
Definition HandleRgmBootingStatus data : M unit :=
  st_when (rd_value data =? 0) (on_off PERF_REQUEST_CMD_ID_RGM_BOOTING_START true).

(** socperf_plugin.cpp:1541-1553 [SocPerfPlugin::HandleAppColdStartEx] *)
Definition HandleAppColdStartEx data : M unit := on_at data 0 1 PERF_REQUEST_CMD_ID_APP_START.

(** socperf_plugin.cpp:1555-1567 [SocPerfPlugin::HandleSceneRotation] *)
Definition HandleSceneRotation data : M unit := on_at data 0 1 PERF_REQUEST_CMD_ID_ROTATION.

(** socperf_plugin.cpp:1569-1585 [SocPerfPlugin::HandleBmmMoniterStatus] *)
Definition HandleBmmMoniterStatus data : M unit :=
  on_at data BMM_BACKGROUND BMM_CLOSE PERF_REQUEST_CMD_ID_BMM_MONITER_START.

(** socperf_plugin.cpp:1587-1598 [SocPerfPlugin::HandleWebDragResize] *)
Definition HandleWebDragResize data : M unit :=
  boost_at data WEB_DRAG_START WEB_DRAG_END PERF_REQUEST_CMD_ID_WEB_DRAG_RESIZE.

(** socperf_plugin.cpp:1601-1616 [SocPerfPlugin::HandleFileCopyStatus] *)
Definition HandleFileCopyStatus data : M unit :=
  on_at data COPY_START COPY_STOP PERF_REQUEST_CMD_ID_FILE_COPY.

(** socperf_plugin.cpp:1619-1631 [SocPerfPlugin::HandleWebSildeScroll] *)
Definition HandleWebSildeScroll data : M unit :=
  st_when (rd_value data =? WEB_DRAG_START) (on_off PERF_REQUEST_CMD_ID_WEB_SLIDE_SCROLL true);;
  st_when (rd_value data =? WEB_DRAG_END) (on_off PERF_REQUEST_CMD_ID_WEB_SLIDE_SCROLL false).

(** socperf_plugin.cpp:1633-1645 [SocPerfPlugin::HandleRecentBuild] *)
Definition HandleRecentBuild data : M unit :=
  on_at data RECENT_BUILD_START RECENT_BUILD_STOP PERF_REQUEST_CMD_ID_RECENT_BUILD.

(** socperf_plugin.cpp:1647-1665 [SocPerfPlugin::HandleSchedModeChange]; the field
    must be text *)
Definition HandleSchedModeChange data : M unit :=
  j <-? json_find SCHED_MODE_KEY (rd_payload data);
  schedModeStr ← st_some (json_string j);
  call (RequestDeviceMode (POWER_STATUS_KEY +:+ ":" +:+ schedModeStr) true).

(** socperf_plugin.cpp:1781-1804 [SocPerfPlugin::HandleLiveBroadcast] *)
Definition HandleLiveBroadcast data : M unit :=
  scene <-? find_string "scene" (rd_payload data);
  ret_if negb (atoi scene =? SCENE_LIVE_BROADCAST);
  on_at data HFLS_SCENE_IN HFLS_SCENE_OUT PERF_REQUEST_CMD_ID_LIVE_BROADCAST.

(** socperf_plugin.cpp:1806-1819 [SocPerfPlugin::HandleOobeClone] *)
Definition HandleOobeClone data : M unit :=
  on_at data CLONE_RUNNING CLONE_FINISH PERF_REQUEST_CMD_ID_OOBE_CLONE.

(** socperf_plugin.cpp:1821-1829 [ReportConfiguredLimitBoost] *)
Definition ReportConfiguredLimitBoost (powerLimit thermalLimit : option bool) : M unit :=
  (power <-? powerLimit; call (PowerLimitBoost power "type=policy_config"));;
  (thermal <-? thermalLimit; call (PowerLimitBoost thermal "type=policy_config")).

(** socperf_plugin.cpp:1830-1848 [SocPerfPlugin::ReportAbilityStatus] *)
Definition ReportAbilityStatus data : M unit :=
  z <-? find_integer "saId" (rd_payload data);
  ret_if negb ((to_s32 z =? SOC_PERF_SA_ID) && (rd_value data >? 0));
  UpdateWeakActionStatus;;
  s ← st_get;
  ReportConfiguredLimitBoost (powerLimit_ s) (thermalLimit_ s).

(** ** Slides *)

(** socperf_plugin.cpp:956-976 [SocPerfPlugin::HandleContinuousDrag]; times are
    unsigned *)
Definition HandleContinuousDrag (dragStatus : Z) : M unit :=
  now ← on_env se_now_ms;
  let curMs := to_u64 now in
  s ← st_get;
  ret_if (drag_lastStatus s =? SLIDE_NORMAL_END) && (dragStatus =? MOVE_EVENT_ON);
  st_modify (fun s => s <| drag_lastStatus := dragStatus |>);;
  if dragStatus =? SLIDE_NORMAL_END then
    st_modify (fun s => s <| drag_lastTime := 0 |>);; on_off PERF_REQUEST_CMD_ID_EVENT_DRAG false
  else st_when ((curMs >? drag_lastTime s) && (curMs - drag_lastTime s >=? TIME_INTERVAL))
    (st_modify (fun s => s <| drag_lastTime := curMs |>);; on_off PERF_REQUEST_CMD_ID_EVENT_DRAG true).

(** socperf_plugin.cpp:897-924 [SocPerfPlugin::HandleEventSlide] *)
Definition HandleEventSlide data : M unit :=
  game ← game_suppresses data;
  ret_if (game : bool);
  s ← st_get;
  ret_if custGameState_ s;
  if rd_value data =? SLIDE_EVENT_ON then on_off PERF_REQUEST_CMD_ID_EVENT_FLING true
  else if rd_value data =? SLIDE_EVENT_OFF then on_off PERF_REQUEST_CMD_ID_EVENT_FLING false
  else if rd_value data =? SWIPER_FLING_END then
    st_when (negb (flingExceptionFlag_ s)) (on_off PERF_REQUEST_CMD_ID_EVENT_FLING false)
  else if rd_value data =? SLIDE_NORMAL_BEGIN then HandleContinuousDrag (rd_value data)
  else if rd_value data =? SLIDE_NORMAL_END then HandleContinuousDrag (rd_value data)
  else st_when (rd_value data =? MOVE_EVENT_ON)
    (HandleMoveEventBoost data true;; HandleContinuousDrag (rd_value data)).

(** ** Screen and display *)

(** The delayed tasks: a task has an identity, by which it can be skipped. *)
Definition submit (t : SocTask) (delay : Z) : M nat :=
  s ← st_get;
  st_modify (fun s => s <| sp_tasks ::= fun l => l ++ [(sp_next s, t, delay)] |> <| sp_next := S (sp_next s) |>);;
  mret (sp_next s).
Definition skip (handle : nat) : M unit :=
  st_modify (fun s => s <| sp_tasks ::= filter (fun x => x.1.1 <> handle) |>).
Definition skip_wakeUpTimeOut : M unit :=
  s ← st_get;
  handle <-? wakeUpTimeOutTask_ s;
  skip handle.

(** Landscape and portrait of the whole display: the others off, one on. *)
Definition global_landscape : M unit :=
  on_off PERF_REQUEST_CMD_ID_DISPLAY_MODE_MAIN false;;
  on_off PERF_REQUEST_CMD_ID_DISPLAY_MODE_FULL false;;
  on_off PERF_REQUEST_CMD_ID_DISPLAY_GLOBAL_P false;;
  on_off PERF_REQUEST_CMD_ID_DISPLAY_GLOBAL_L true.
Definition global_portrait : M unit :=
  on_off PERF_REQUEST_CMD_ID_DISPLAY_MODE_MAIN false;;
  on_off PERF_REQUEST_CMD_ID_DISPLAY_MODE_FULL false;;
  on_off PERF_REQUEST_CMD_ID_DISPLAY_GLOBAL_L false;;
  on_off PERF_REQUEST_CMD_ID_DISPLAY_GLOBAL_P true.
Definition is_landscape (s : SocPerf K) : bool :=
  String.eqb (deviceMode_ s) DISPLAY_MODE_GLOBAL_FULL
  && String.eqb (deviceOrientation_ s) DISPLAY_ORIENTAYION_LANDSCAPE.
Definition is_portrait (s : SocPerf K) : bool :=
  String.eqb (deviceMode_ s) DISPLAY_MODE_GLOBAL_FULL
  && String.eqb (deviceOrientation_ s) DISPLAY_ORIENTAYION_PORTRAIT.

(** socperf_plugin.cpp:1142-1171 [SocPerfPlugin::HandleScreenOn] *)
Definition HandleScreenOn : M unit :=
  on_off PERF_REQUEST_CMD_ID_SCREEN_OFF false;;
  on_off PERF_REQUEST_CMD_ID_SCREEN_ON true;;
  s ← st_get;
  st_when (performanceMode_ s =? PERFORMANCE_MODE)
    (on_off PERF_REQUEST_CMD_ID_SCREEN_OFF_PERFORMANCE_MODE false;;
     on_off PERF_REQUEST_CMD_ID_SCREEN_ON_PERFORMANCE_MODE true);;
  (if String.eqb (deviceMode_ s) DISPLAY_MODE_FULL then on_off PERF_REQUEST_CMD_ID_DISPLAY_MODE_FULL true
   else if String.eqb (deviceMode_ s) DISPLAY_MODE_MAIN then on_off PERF_REQUEST_CMD_ID_DISPLAY_MODE_MAIN true
   else if is_landscape s then global_landscape
   else st_when (is_portrait s) global_portrait);;
  call (RequestDeviceMode (SCREEN_MODE_KEY +:+ ":" +:+ SCREEN_MODE_ON) true).

(** socperf_plugin.cpp:1173-1196 [SocPerfPlugin::HandleScreenOff] *)
Definition HandleScreenOff : M unit :=
  s ← st_get;
  ret_if negb (screenStatus_ s =? SCREEN_OFF);
  on_off PERF_REQUEST_CMD_ID_SCREEN_ON false;;
  on_off PERF_REQUEST_CMD_ID_SCREEN_OFF true;;
  st_when (performanceMode_ s =? PERFORMANCE_MODE)
    (on_off PERF_REQUEST_CMD_ID_SCREEN_ON_PERFORMANCE_MODE false;;
     on_off PERF_REQUEST_CMD_ID_SCREEN_OFF_PERFORMANCE_MODE true);;
  on_off PERF_REQUEST_CMD_ID_DISPLAY_MODE_FULL false;;
  on_off PERF_REQUEST_CMD_ID_DISPLAY_MODE_MAIN false;;
  on_off PERF_REQUEST_CMD_ID_DISPLAY_GLOBAL_P false;;
  on_off PERF_REQUEST_CMD_ID_DISPLAY_GLOBAL_L false;;
  call (RequestDeviceMode (SCREEN_MODE_KEY +:+ ":" +:+ SCREEN_MODE_OFF) true).

(** socperf_plugin.cpp:1198-1227 [SocPerfPlugin::HandleScreenStatusAnalysis] *)
Definition HandleScreenStatusAnalysis data : M unit :=
  st_modify (fun s => s <| screenStatus_ := rd_value data |>);;
  if rd_value data =? SCREEN_ON then
    st_when WITH_FFRT (skip_wakeUpTimeOut;; st_modify (fun s => s <| wakeUpTimeOutTask_ := None |>))
  else st_when (rd_value data =? SCREEN_OFF)
    (if WITH_FFRT then _ ← submit TScreenOff SCREEN_OFF_TIME_DELAY; mret tt else HandleScreenOff).

(** socperf_plugin.cpp:1229-1258 [SocPerfPlugin::HandleDisplayPowerWakeUp] *)
Definition HandleDisplayPowerWakeUp data : M unit :=
  if rd_value data =? WAKE_UP_START then
    HandleScreenOn;;
    st_when WITH_FFRT
      (skip_wakeUpTimeOut;;
       handle ← submit TWakeUpTimeOut WAKE_UP_TIME_DELAY;
       st_modify (fun s => s <| wakeUpTimeOutTask_ := Some handle |>))
  else st_when (rd_value data =? WAKE_UP_TIMEOUT) HandleScreenOff.

(** socperf_plugin.cpp:1243-1248 [SocPerfPlugin::HandleDisplayPowerWakeUp] the task,
    and the one of [HandleScreenStatusAnalysis] *)
Definition run_task (t : SocTask) : M unit :=
  match t with
  | TScreenOff => HandleScreenOff
  | TWakeUpTimeOut =>
      on ← on_env se_IsScreenOn;
      st_when (negb on) (call (ReportDataInProcess RES_TYPE_DISPLAY_POWER_WAKE_UP WAKE_UP_TIMEOUT))
  end.

(** A delayed task comes due: it leaves the list and runs. *)
Definition soc_fire (id : nat) : M unit :=
  s ← st_get;
  match find (fun x => bool_decide (x.1.1 = id)) (sp_tasks s) with
  | None => mret tt
  | Some (_, t, _) => skip id;; run_task t
  end.

(** socperf_plugin.cpp:1281-1317 [SocPerfPlugin::HandleSceenModeBoost] *)
Definition HandleSceenModeBoost (deviceModeType : string) : M unit :=
  ret_if negb (String.eqb deviceModeType DISPLAY_MODE_KEY);
  s ← st_get;
  let on := screenStatus_ s =? SCREEN_ON in
  (if String.eqb (deviceMode_ s) DISPLAY_MODE_FULL && on then
     on_off PERF_REQUEST_CMD_ID_DISPLAY_MODE_MAIN false;;
     on_off PERF_REQUEST_CMD_ID_DISPLAY_MODE_FULL true;;
     on_off PERF_REQUEST_CMD_ID_DISPLAY_GLOBAL_L false;;
     on_off PERF_REQUEST_CMD_ID_DISPLAY_GLOBAL_P false
   else if String.eqb (deviceMode_ s) DISPLAY_MODE_MAIN && on then
     on_off PERF_REQUEST_CMD_ID_DISPLAY_MODE_FULL false;;
     on_off PERF_REQUEST_CMD_ID_DISPLAY_GLOBAL_L false;;
     on_off PERF_REQUEST_CMD_ID_DISPLAY_GLOBAL_P false;;
     on_off PERF_REQUEST_CMD_ID_DISPLAY_MODE_MAIN true
   else if is_landscape s && on then global_landscape
   else st_when (is_portrait s && on) global_portrait);;
  st_when (String.eqb (deviceMode_ s) DISPLAY_MODE_FULL || String.eqb (deviceMode_ s) DISPLAY_MODE_GLOBAL_FULL
           || String.eqb (deviceMode_ s) DISPLAY_MODE_MAIN)
    (on_off PERF_REQUEST_CMD_ID_SCREEN_SWITCHED true).

(** socperf_plugin.cpp:1260-1279 [SocPerfPlugin::HandleDeviceModeStatusChange] *)
Definition HandleDeviceModeStatusChange data : M unit :=
  ret_if negb (rd_value data =? MODE_ENTER) && negb (rd_value data =? MODE_QUIT);
  deviceModeType <-? find_string DEVICE_MODE_TYPE_KEY (rd_payload data);
  deviceMode <-? find_string DEVICE_MODE_PAYMODE_NAME (rd_payload data);
  st_modify (fun s => s <| deviceMode_ := deviceMode |>);;
  call (RequestDeviceMode (deviceModeType +:+ ":" +:+ deviceMode) (rd_value data =? MODE_ENTER));;
  HandleSceenModeBoost deviceModeType.

(** socperf_plugin.cpp:1338-1361 [SocPerfPlugin::HandleSceenOrientationBoost] *)
Definition HandleSceenOrientationBoost (deviceOrientationType : string) : M unit :=
  ret_if negb (String.eqb deviceOrientationType DEVICE_ORIENTATION_TYPE_KEY);
  s ← st_get;
  ret_if negb (String.eqb (deviceMode_ s) DISPLAY_MODE_GLOBAL_FULL);
  let on := screenStatus_ s =? SCREEN_ON in
  if on && String.eqb (deviceOrientation_ s) DISPLAY_ORIENTAYION_LANDSCAPE then global_landscape
  else st_when (on && String.eqb (deviceOrientation_ s) DISPLAY_ORIENTAYION_PORTRAIT)
    (on_off PERF_REQUEST_CMD_ID_DISPLAY_MODE_FULL false;;
     on_off PERF_REQUEST_CMD_ID_DISPLAY_MODE_MAIN false;;
     on_off PERF_REQUEST_CMD_ID_DISPLAY_GLOBAL_L false;;
     on_off PERF_REQUEST_CMD_ID_DISPLAY_GLOBAL_P true).

(** socperf_plugin.cpp:1319-1336 [SocPerfPlugin::HandleDeviceOrientationStatusChange] *)
Definition HandleDeviceOrientationStatusChange data : M unit :=
  ret_if negb (rd_value data =? MODE_ENTER) && negb (rd_value data =? MODE_QUIT);
  deviceOrientationType <-? find_string DEVICE_MODE_TYPE_KEY (rd_payload data);
  deviceOrientation <-? find_string DEVICE_MODE_PAYMODE_NAME (rd_payload data);
  st_modify (fun s => s <| deviceOrientation_ := deviceOrientation |>);;
  HandleSceenOrientationBoost deviceOrientationType.

(** socperf_plugin.cpp:1850-1892 [SocPerfPlugin::HandlePerformanceModeChange] *)
Definition HandlePerformanceModeChange data : M unit :=
  ret_if (rd_value data <? POWER_MODE_MIN) || (rd_value data >? POWER_MODE_MAX);
  st_modify (fun s => s <| performanceMode_ := rd_value data |>);;
  s ← st_get;
  if rd_value data =? PERFORMANCE_MODE then
    if screenStatus_ s =? SCREEN_ON then
      on_off PERF_REQUEST_CMD_ID_SCREEN_OFF_PERFORMANCE_MODE false;;
      on_off PERF_REQUEST_CMD_ID_SCREEN_ON_PERFORMANCE_MODE true
    else st_when (screenStatus_ s =? SCREEN_OFF)
      (on_off PERF_REQUEST_CMD_ID_SCREEN_ON_PERFORMANCE_MODE false;;
       on_off PERF_REQUEST_CMD_ID_SCREEN_OFF_PERFORMANCE_MODE true)
  else
    on_off PERF_REQUEST_CMD_ID_SCREEN_ON_PERFORMANCE_MODE false;;
    on_off PERF_REQUEST_CMD_ID_SCREEN_OFF_PERFORMANCE_MODE false;;
    if screenStatus_ s =? SCREEN_ON then
      on_off PERF_REQUEST_CMD_ID_SCREEN_OFF false;;
      on_off PERF_REQUEST_CMD_ID_SCREEN_ON true
    else st_when (screenStatus_ s =? SCREEN_OFF)
      (on_off PERF_REQUEST_CMD_ID_SCREEN_ON false;;
       on_off PERF_REQUEST_CMD_ID_SCREEN_OFF true).

(** ** Battery *)

(** socperf_plugin.cpp:1700-1709 [SocPerfPlugin::GetLimitCapacity] *)
Definition GetLimitCapacity (capacity : Z) (s : SocPerf K) : Z :=
  foldl (fun tempCap key => if (key >=? capacity) && (key <=? tempCap) then key else tempCap)
    (maxBatteryLimitCapacity_ s) (keys_in_order (socperfBatteryConfig_ s)).

(** socperf_plugin.cpp:1711-1715 [SocPerfPlugin::GetConfigs] *)
Definition GetConfigs (size : nat) : list Z := replicate size (2 ^ 31 - 1).

(** The entry that reading the map gives, filing an empty one. *)
Definition battery_config (capacity : Z) : M Frequencies :=
  s ← st_get;
  let f := default (mkFrequencies [] []) (socperfBatteryConfig_ s !! capacity) in
  st_modify (fun s => s <| socperfBatteryConfig_ ::= <[capacity := f]> |>);;
  mret f.

(** socperf_plugin.cpp:1717-1731 [SocPerfPlugin::HandleRecoverBatteryLimit] *)
Definition HandleRecoverBatteryLimit : M unit :=
  s ← st_get;
  ret_if lastBatteryLimitCap_ s =? -1;
  call (PowerLimitBoost false "type=Low_battery_limit");;
  f ← battery_config (lastBatteryLimitCap_ s);
  call (LimitRequest (freq_tags f) (GetConfigs (length (freq_configs f))) "type=Low_battery_limit");;
  st_modify (fun s => s <| lastBatteryLimitCap_ := -1 |>).

(** socperf_plugin.cpp:1733-1748 [SocPerfPlugin::HandleBatteryLimit] *)
Definition HandleBatteryLimit (capacity : Z) : M unit :=
  s ← st_get;
  let limitCapacity := GetLimitCapacity capacity s in
  ret_if lastBatteryLimitCap_ s =? limitCapacity;
  call (PowerLimitBoost true "type=Low_battery_limit");;
  f ← battery_config limitCapacity;
  call (LimitRequest (freq_tags f) (freq_configs f) "type=Low_battery_limit");;
  st_modify (fun s => s <| lastBatteryLimitCap_ := limitCapacity |>).

(** socperf_plugin.cpp:1690-1698 [SocPerfPlugin::HandleFreqLimit] *)
Definition HandleFreqLimit data (isChargeState : bool) : M unit :=
  s ← st_get;
  if (rd_value data >? maxBatteryLimitCapacity_ s) || isChargeState then HandleRecoverBatteryLimit
  else HandleBatteryLimit (to_s32 (rd_value data)).

(** socperf_plugin.cpp:1667-1688 [SocPerfPlugin::HandleBatteryStatusChange] *)
Definition HandleBatteryStatusChange data : M unit :=
  s ← st_get;
  ret_if bool_decide (socperfBatteryConfig_ s = ∅);
  z <-? find_integer COMMON_EVENT_CHARGE_STATE (rd_payload data);
  let chargeState := to_s32 z in
  HandleFreqLimit data ((chargeState =? CHARGE_STATE_ENABLE) || (chargeState =? CHARGE_STATE_FULL)).

(** ** Configuration from the cloud *)

(** The conversions that [NLOHMANN_DEFINE_TYPE_NON_INTRUSIVE] and the library make;
    [None] is an exception. *)
Definition json_map {A} (f : J -> option A) (j : J) : option (gmap string A) :=
  entries ← json_entries j;
  list_to_map <$> mapM (fun kv => (kv.1,.) <$> f kv.2) entries.
Definition json_list {A} (f : J -> option A) (j : J) : option (list A) := json_array j ≫= mapM f.

(** socperf_plugin.h:262-262 [NLOHMANN_DEFINE_TYPE_NON_INTRUSIVE] *)
Definition json_SubItem (j : J) : option SubItem :=
  name ← find_string "name" j;
  value ← find_string "value" j;
  properties ← json_find "properties" j ≫= json_map json_string;
  Some (mkSubItem name value properties).

(** socperf_plugin.h:263-263 [NLOHMANN_DEFINE_TYPE_NON_INTRUSIVE] *)
Definition json_Item (j : J) : option Item :=
  properties ← json_find "itemProperties" j ≫= json_map json_string;
  subs ← json_find "subItemList" j ≫= json_list json_SubItem;
  Some (mkItem properties subs).

(** socperf_plugin.h:264-264 [NLOHMANN_DEFINE_TYPE_NON_INTRUSIVE] *)
Definition json_PluginConfig (j : J) : option PluginConfig :=
  mkPluginConfig <$> (json_find "itemList" j ≫= json_list json_Item).

(** socperf_plugin.cpp:1750-1779 [SocPerfPlugin::HandleRssCloudConfigUpdate] *)
Definition HandleRssCloudConfigUpdate data : M unit :=
  params <-? json_find CLOUD_PARAMS (rd_payload data);
  ret_if negb (json_is_object params);
  plugin <-? json_find PLUGIN_NAME params;
  ret_if negb (json_is_object plugin);
  pluginConfigs <-? json_map json_PluginConfig plugin;
  (c <-? pluginConfigs !! SPECIAL_EXTENSION_STRING; LoadSpecialExtension c);;
  (c <-? pluginConfigs !! WEAK_ACTION_STRING; LoadWeakInterAction c);;
  (c <-? pluginConfigs !! CONFIG_NAME_SOCPERF_BUNDLE_NAME_BOOST_LIST; InitBundleNameBoostLists c).

(** ** Dispatch *)

(** The member function that an entry of the function map calls. *)
Definition run_handler (h : Handler) data : M unit :=
  match h with
  | HWindowFocus => HandleWindowFocus data
  | HEventClick => HandleEventClick data
  | HLoadPage => HandleLoadPage data
  | HEventSlide => HandleEventSlide data
  | HEventWebGesture => HandleEventWebGesture data
  | HPopPage => HandlePopPage data
  | HAppAbilityStart => HandleAppAbilityStart data
  | HResizeWindow => HandleResizeWindow data
  | HMoveWindow => HandleMoveWindow data
  | HRemoteAnimation => HandleRemoteAnimation data
  | HDragStatusBar => HandleDragStatusBar data
  | HWebGestureMove => HandleWebGestureMove data
  | HWebSlideNormal => HandleWebSlideNormal data
  | HLoadUrl => HandleLoadUrl data
  | HMousewheel => HandleMousewheel data
  | HAppStateChange => HandleAppStateChange data
  | HDeviceModeStatusChange => HandleDeviceModeStatusChange data
  | HSocperfAccountActivating => HandleSocperfAccountActivating data
  | HWebDragResize => HandleWebDragResize data
  | HFileCopyStatus => HandleFileCopyStatus data
  | HWebSildeScroll => HandleWebSildeScroll data
  | HCustEvent => HandleCustEvent data
  | HCustEventBegin => HandleCustEventBegin data
  | HCustEventEnd => HandleCustEventEnd data
  | HCustAction => HandleCustAction data
  | HAppColdStartEx => HandleAppColdStartEx data
  | HSceneRotation => HandleSceneRotation data
  | HBmmMoniterStatus => HandleBmmMoniterStatus data
  | HPowerModeChanged => HandlePowerModeChanged data
  | HScreenStatusAnalysis => HandleScreenStatusAnalysis data
  | HGameBoost => HandleGameBoost data
  | HEventKey => HandleEventKey data
  | HPowerEventKey => HandlePowerEventKey data
  | HCrownRotation => HandleCrownRotation data
  | HUninstallEvent => HandleUninstallEvent data
  | HProcessStateChange => SocPerf_HandleProcessStateChange data
  | HCameraStateChange => HandleCameraStateChange data
  | HGameStateChange => HandleGameStateChange data
  | HSocperfSceneBoard => HandleSocperfSceneBoard data
  | HRgmBootingStatus => HandleRgmBootingStatus data
  | HRecentBuild => HandleRecentBuild data
  | HDeviceOrientationStatusChange => HandleDeviceOrientationStatusChange data
  | HBatteryStatusChange => HandleBatteryStatusChange data
  | HSchedModeChange => HandleSchedModeChange data
  | HRssCloudConfigUpdate => HandleRssCloudConfigUpdate data
  | HReportAbilityStatus => ReportAbilityStatus data
  | HDisplayPowerWakeUp => HandleDisplayPowerWakeUp data
  | HSwiperFlingEndEx => HandleSwiperFlingEndEx data
  | HLiveBroadcast => HandleLiveBroadcast data
  | HOobeClone => HandleOobeClone data
  | HResTypeCreateLivingApp => HandleResTypeCreateLivingApp data
  | HPerformanceModeChange => HandlePerformanceModeChange data
  end.

(** socperf_plugin.cpp:514-523 [SocPerfPlugin::DispatchResource] *)
Definition SocPerf_DispatchResource data : M unit :=
  s ← st_get;
  h <-? functionMap s !! rd_resType data;
  run_handler h data.
End handlers.
