(* ===== verification/SocPerfFacts.v ===== *)
(** * SocPerf plugin: safety

    When a handler is defined, what every handler keeps, and the life of the delayed
    tasks. *)
From S2P Require Import Prelude Json ResType PluginConfig PluginMgr SignatureValidator SocPerf SocPerfHandlers.

(** ** An environment for examples of the SocPerf plugin

    The outer state is the clock; each reading takes two seconds.  Applications are
    named by their uid; every signature is right. *)
#[export] Instance soc_demo_build : Build := {| WITH_FFRT := true; WITH_EXT_RES := false |}.
#[export] Instance soc_demo_flags : SocBuild :=
  {| CUST_SOC_PERF := true; CROWN_POWER_KEY := true; FILE_COPY_SOC_PERF := true |}.

#[export] Instance soc_demo_env : SocEnv Z := {|
  se_dlopen path _ _ := if String.eqb path "libtypes.z.so" then Some true else None;
  se_reqAppType name k := (if String.eqb name "com.game" then APP_TYPE_GAME else 1, k);
  se_has_service_manager _ := true;
  se_has_bundle_manager _ := true;
  se_GetNameForUid uid k := ((0, if uid =? 100 then "com.game" else "com.other"), k);
  se_now_ms k := (k, k + 2000);
  se_IsScreenOn k := (false, k);
|}.
#[export] Instance soc_demo_checker : SignatureChecker Z := fun _ k => (CHECK_OK, k).

(** Parameters: the library, battery limits, and the weak interaction mode. *)
Definition soc_demo_config : ConfigReader :=
  let sub n v := mkSubItem n v ∅ in
  let limit c v := mkItem {[ITEM_KEY_CAPACITY := c]} [mkSubItem "freq" v {[RES_ID := "1005"]}] in
  {[PLUGIN_NAME :=
     {[CNOFIG_NAME_SOCPERF_CRUCIAL_FUNC :=
         mkPluginConfig [mkItem ∅ [sub SUB_ITEM_KEY_NAME_SOCPERF_RERQ_APPTYPE_PATH "libtypes.z.so";
                                   sub SUB_ITEM_KEY_NAME_SOCPERF_RERQ_APPTYPE_FUNC "GetType"]];
       CONFIG_NAME_SOCPERF_FEATURE_SWITCH :=
         mkPluginConfig [mkItem ∅ [sub SUB_ITEM_KEY_NAME_SOCPERF_GAME_BOOST "1"]];
       WEAK_ACTION_STRING := mkPluginConfig [mkItem ∅ [sub ENABLE_STRING "1"; sub KEY_APP_TYPE "2"]];
       CONFIG_NAME_SOCPERF_BATTERY_CAPACITY_LIMIT_FREQ := mkPluginConfig [limit "10" "900"; limit "20" "1500"]]}]}.

Definition soc_demo_mgr : PluginMgr json (SocPerf Z) :=
  (new_PluginMgr (new_SocPerf 10000)) <| configReader_ := Some soc_demo_config |>.

(** The manager and the plugin after the start. *)
Definition soc_demo_started : PluginMgr json (SocPerf Z) :=
  match SocPerf_Init (J := json) soc_demo_mgr with Some (_, p) => p | None => soc_demo_mgr end.

Definition soc_event (resType value : Z) (fields : list (string * json)) : ResData json :=
  mkResData resType value (JObject fields).

(** Unfolds the function that is called. *)
Ltac head_of t := lazymatch t with ?f _ => head_of f | _ => t end.
Ltac unfold_head := lazymatch goal with |- safe _ ?m => let f := head_of m in unfold f end.

Section facts.
Context {J K : Type} `{!Json J} `{!Build} `{!SocBuild} `{!SocEnv K} `{!SignatureChecker K}.
Implicit Types (data : ResData J) (s : SocPerf K).

(** ** The invariant *)

(** The waiting tasks have distinct identities that were given out, and a pending
    check of the wake-up is the one that the plugin knows, so there is at most one. *)
Record timers_ok (tasks : list (nat * SocTask * Z)) (next : nat) (wake : option nat) : Prop := {
  tm_given x : x ∈ tasks -> (x.1.1 < next)%nat;
  tm_distinct : NoDup ((fun x => x.1.1) <$> tasks);
  tm_wake id delay : (id, TWakeUpTimeOut, delay) ∈ tasks -> wake = Some id;
  tm_delay id t delay : (id, t, delay) ∈ tasks ->
    delay = match t with TScreenOff => SCREEN_OFF_TIME_DELAY | TWakeUpTimeOut => WAKE_UP_TIME_DELAY end;
}.
Definition timers s : Prop := timers_ok (sp_tasks s) (sp_next s) (wakeUpTimeOutTask_ s).

(** With the two facts about the library fixed, for the proofs below. *)
Definition soc_at (func lib : bool) s : Prop := timers s /\ reqAppTypeFunc_ s = func /\ handle_ s = lib.

(** The function for types of applications is there only while its library is. *)
Definition soc_inv s : Prop := timers s /\ (reqAppTypeFunc_ s = true -> handle_ s = true).

Section with_library.
Context (func lib : bool) (Hlib : func = true -> lib = true).
#[local] Abbreviation I := (soc_at func lib).

Lemma safe_modify_same (f : SocPerf K -> SocPerf K) :
  (forall s, I s -> I (f s)) -> safe I (st_modify f).
Proof. apply safe_modify. Qed.

Lemma safe_call c : safe I (call (K := K) c).
Proof. apply safe_modify. intros s Hs. exact Hs. Qed.
Lemma safe_on_env {A} (f : K -> A * K) : safe I (on_env f).
Proof. intros s Hs. unfold on_env. destruct (f (sp_env s)). exact Hs. Qed.
Lemma safe_reqAppType name s : I s -> reqAppTypeFunc_ s = true -> safe I (reqAppType name).
Proof.
  intros (_ & Ef & _) Hr s' (Hs' & Ef' & El). unfold reqAppType. rewrite run_get_bind.
  replace (handle_ s') with true by (rewrite El; symmetry; apply Hlib; congruence).
  by apply safe_on_env.
Qed.
#[local] Hint Resolve safe_call safe_on_env : safe.

(** A change of members that the invariant does not speak of. *)
#[local] Hint Extern 2 (safe _ (st_modify _)) =>
  apply safe_modify; intros ? Hsame; exact Hsame : safe.

Lemma safe_is_key_app uid : safe I (is_key_app (K := K) uid).
Proof. unfold is_key_app. safe_auto. Qed.
#[local] Hint Resolve safe_is_key_app : safe.
Lemma safe_any_key_app uids : safe I (any_key_app (K := K) uids).
Proof. induction uids; simpl; safe_auto. Qed.
#[local] Hint Resolve safe_any_key_app : safe.
Lemma safe_UpdateWeakActionStatus : safe I UpdateWeakActionStatus.
Proof. unfold UpdateWeakActionStatus. safe_auto. Qed.
#[local] Hint Resolve safe_UpdateWeakActionStatus : safe.

Lemma safe_for_each_sub (f : SubItem -> ST (SocPerf K) unit) c :
  (forall sub, safe I (f sub)) -> safe I (for_each_sub f c).
Proof. intros Hf. unfold for_each_sub. safe_auto. Qed.
Lemma safe_LoadWeakInterAction c : safe I (LoadWeakInterAction (K := K) c).
Proof. apply safe_for_each_sub. intros sub. unfold SetWeakActionEnable. safe_auto. Qed.
Lemma safe_LoadSpecialExtension c : safe I (LoadSpecialExtension (K := K) c).
Proof. apply safe_for_each_sub. intros sub. unfold AddSpecialExtension. safe_auto. Qed.
Lemma safe_InitBundleNameBoostLists c : safe I (InitBundleNameBoostLists (K := K) c).
Proof. apply safe_for_each_sub. intros sub. safe_auto. Qed.
#[local] Hint Resolve safe_LoadWeakInterAction safe_LoadSpecialExtension safe_InitBundleNameBoostLists : safe.

Lemma safe_IsGameEvent data : safe I (IsGameEvent data).
Proof. unfold IsGameEvent. safe_auto. Qed.
#[local] Hint Resolve safe_IsGameEvent : safe.
Lemma safe_game_suppresses data : safe I (game_suppresses data).
Proof. unfold game_suppresses. safe_auto. Qed.
Lemma safe_HandleMoveEventBoost data b : safe I (HandleMoveEventBoost data b).
Proof. unfold HandleMoveEventBoost, on_off. safe_auto. Qed.
Lemma safe_HandleContinuousDrag st : safe I (HandleContinuousDrag (K := K) st).
Proof. unfold HandleContinuousDrag, on_off. safe_auto. Qed.
Lemma safe_battery_config c : safe I (battery_config (K := K) c).
Proof. unfold battery_config. safe_auto. Qed.
#[local] Hint Resolve safe_game_suppresses safe_HandleMoveEventBoost safe_HandleContinuousDrag
  safe_battery_config : safe.

(** ** Delayed tasks *)

Lemma timers_filter (P : nat * SocTask * Z -> Prop) `{!forall x, Decision (P x)} s :
  timers s -> timers (s <| sp_tasks ::= filter P |>).
Proof.
  intros [T1 T2 T3 T4]. split; simpl.
  - intros x [_ Hx]%list_elem_of_filter. by apply T1.
  - eapply sublist_NoDup; [exact T2|]. apply fmap_sublist, sublist_filter.
  - intros id d [_ Hx]%list_elem_of_filter. by eapply T3.
  - intros id t d [_ Hx]%list_elem_of_filter. by eapply T4.
Qed.

Lemma safe_skip id : safe I (skip (K := K) id).
Proof. apply safe_modify. intros s (Ht & Hr). split; [by apply timers_filter|exact Hr]. Qed.
#[local] Hint Resolve safe_skip : safe.

Lemma timers_submit s t delay :
  timers s -> delay = match t with TScreenOff => SCREEN_OFF_TIME_DELAY | TWakeUpTimeOut => WAKE_UP_TIME_DELAY end ->
  (t = TWakeUpTimeOut -> forall id d, (id, TWakeUpTimeOut, d) ∉ sp_tasks s) ->
  timers (s <| sp_tasks ::= fun l => l ++ [(sp_next s, t, delay)] |> <| sp_next := S (sp_next s) |>
            <| wakeUpTimeOutTask_ := match t with TScreenOff => wakeUpTimeOutTask_ s | TWakeUpTimeOut => Some (sp_next s) end |>).
Proof.
  intros [T1 T2 T3 T4] Hd Hnone. split; simpl.
  - intros x [Hx| ->%list_elem_of_singleton]%elem_of_app; simpl; [apply T1 in Hx|]; lia.
  - rewrite fmap_app. apply NoDup_app. split_and!; [done| |apply NoDup_singleton].
    simpl. intros id Hid ->%list_elem_of_singleton. apply list_elem_of_fmap in Hid as (x & Ex & Hx).
    apply T1 in Hx. lia.
  - intros id d [Hx|Hx%list_elem_of_singleton]%elem_of_app; [|by simplify_eq].
    destruct t; [by eapply T3|]. exfalso. by eapply Hnone.
  - intros id t' d [Hx|Hx%list_elem_of_singleton]%elem_of_app; [by eapply T4|]. by simplify_eq.
Qed.

(** The pending check of the wake-up is taken back. *)
Lemma run_skip_wakeUpTimeOut s : timers s -> exists s', skip_wakeUpTimeOut s = Some (tt, s') /\ timers s' /\
  (forall id d, (id, TWakeUpTimeOut, d) ∉ sp_tasks s') /\
  reqAppTypeFunc_ s' = reqAppTypeFunc_ s /\ handle_ s' = handle_ s.
Proof.
  intros Ht. unfold skip_wakeUpTimeOut. rewrite run_get_bind.
  destruct (wakeUpTimeOutTask_ s) as [w|] eqn:Ew.
  - eexists. split; [reflexivity|]. split_and!; [by apply timers_filter| |done|done].
    intros id d [Hne Hx]%list_elem_of_filter. apply Hne. simpl. apply (tm_wake _ _ _ Ht) in Hx. congruence.
  - exists s. split_and!; try done. intros id d Hx. apply (tm_wake _ _ _ Ht) in Hx. congruence.
Qed.

Lemma safe_submit_screen_off : safe I (submit (K := K) TScreenOff SCREEN_OFF_TIME_DELAY).
Proof.
  intros s (Ht & Hr). unfold submit. rewrite run_get_bind. simpl. split; [|exact Hr].
  refine (timers_submit s TScreenOff _ Ht eq_refl _). done.
Qed.
#[local] Hint Resolve safe_submit_screen_off : safe.

Lemma safe_HandleScreenOn : safe I HandleScreenOn.
Proof. unfold HandleScreenOn, global_landscape, global_portrait, on_off. safe_auto. Qed.
Lemma safe_HandleScreenOff : safe I HandleScreenOff.
Proof. unfold HandleScreenOff, on_off. safe_auto. Qed.
#[local] Hint Resolve safe_HandleScreenOn safe_HandleScreenOff : safe.

Lemma safe_HandleScreenStatusAnalysis data : safe I (HandleScreenStatusAnalysis data).
Proof.
  unfold HandleScreenStatusAnalysis. apply safe_bind; [safe_auto|]. intros _.
  destruct (_ =? _); [|safe_auto]. apply safe_when. intros _ s (Ht & Hr).
  destruct (run_skip_wakeUpTimeOut s Ht) as (s' & E & [T1 T2 T3 T4] & Hnone & E1 & E2).
  unfold mbind, ST_bind. rewrite E. simpl. split; [|unfold over; simpl; by rewrite E1, E2].
  split; simpl; [done..| |done]. intros id d Hx. exfalso. by eapply Hnone.
Qed.

Lemma safe_HandleDisplayPowerWakeUp data : safe I (HandleDisplayPowerWakeUp data).
Proof.
  unfold HandleDisplayPowerWakeUp. destruct (_ =? _); [|safe_auto].
  apply safe_bind; [safe_auto|]. intros _. apply safe_when. intros _ s (Ht & Hr).
  destruct (run_skip_wakeUpTimeOut s Ht) as (s' & E & Ht' & Hnone & E1 & E2).
  unfold mbind, ST_bind. rewrite E. simpl. split; [|simpl; by rewrite E1, E2].
  exact (timers_submit s' TWakeUpTimeOut _ Ht' eq_refl (fun _ => Hnone)).
Qed.
#[local] Hint Resolve safe_HandleScreenStatusAnalysis safe_HandleDisplayPowerWakeUp : safe.

(** ** Handlers that ask for the type of an application *)

Lemma safe_UpdateUidToAppMsgMap data : safe I (UpdateUidToAppMsgMap data).
Proof.
  unfold UpdateUidToAppMsgMap. safe_auto. eapply safe_reqAppType; [done|by apply negb_false_iff].
Qed.
#[local] Hint Resolve safe_UpdateUidToAppMsgMap : safe.

Lemma safe_UpdateFocusAppType data b : safe I (UpdateFocusAppType data b).
Proof.
  unfold UpdateFocusAppType, SocPerf_GetBundleNameByUid. safe_auto.
  eapply safe_reqAppType; [done|by apply negb_false_iff].
Qed.
#[local] Hint Resolve safe_UpdateFocusAppType : safe.

(** ** Every handler *)

(** The two fields whose type is not tested before they are read as text. *)
Definition throws (h : Handler) data : bool :=
  match h with
  | HAppAbilityStart =>
      (rd_value data =? APP_WARM_START)
      && match json_find "supportWarmSmartGC" (rd_payload data) with
         | Some j => bool_decide (json_string j = None)
         | None => false
         end
  | HSchedModeChange =>
      match json_find SCHED_MODE_KEY (rd_payload data) with
      | Some j => bool_decide (json_string j = None)
      | None => false
      end
  | _ => false
  end.

Lemma safe_HandleAppAbilityStart data :
  throws HAppAbilityStart data = false -> safe I (HandleAppAbilityStart data).
Proof.
  unfold HandleAppAbilityStart, UpdateUidToAppMsgMap_typed, boost. simpl. intros Ht.
  destruct (rd_value data =? APP_COLD_START).
  - safe_auto. eapply safe_reqAppType; [done|by apply negb_false_iff].
  - destruct (_ =? APP_WARM_START); [|safe_auto]. simpl in Ht.
    destruct (json_find _ _) as [j|]; [|safe_auto]. apply bool_decide_eq_false in Ht.
    destruct (json_string j); [|done]. simpl. safe_auto.
Qed.

Lemma safe_HandleSchedModeChange data :
  throws HSchedModeChange data = false -> safe I (HandleSchedModeChange data).
Proof.
  unfold HandleSchedModeChange. simpl. intros Ht. destruct (json_find _ _) as [j|]; [|safe_auto].
  apply bool_decide_eq_false in Ht. destruct (json_string j); [|done]. simpl. safe_auto.
Qed.

Lemma safe_run_handler h data : throws h data = false -> safe I (run_handler h data).
Proof.
  destruct h; intros Ht; simpl run_handler;
    first [ by apply safe_HandleAppAbilityStart | by apply safe_HandleSchedModeChange | clear Ht ];
    first [ solve [eauto 1 with safe nocore]
          | unfold_head ];
    unfold on_at, boost_at, boost, on_off, ReportConfiguredLimitBoost, HandleDeadProcess, UpdateCustGameState,
      HandleSceenModeBoost, HandleSceenOrientationBoost, global_landscape, global_portrait,
      HandleFreqLimit, HandleRecoverBatteryLimit, HandleBatteryLimit; safe_auto.
  apply safe_modify. intros s Hs. by case_bool_decide.
Qed.

Lemma safe_run_task t : safe I (run_task (K := K) t).
Proof. unfold run_task. safe_auto. Qed.
End with_library.

(** ** Runs *)

(** The two facts fixed at their current values. *)
Lemma soc_at_here s : soc_inv s -> soc_at (reqAppTypeFunc_ s) (handle_ s) s.
Proof. by intros [Ht _]. Qed.
Lemma soc_inv_at func lib s : (func = true -> lib = true) -> soc_at func lib s -> soc_inv s.
Proof. intros Hl (Ht & <- & <-). done. Qed.

Lemma inv_safe (m : ST (SocPerf K) unit) :
  (forall func lib, (func = true -> lib = true) -> safe (soc_at func lib) m) -> safe soc_inv m.
Proof.
  intros Hm s Hs. pose proof (Hm _ _ (proj2 Hs) s (soc_at_here s Hs)) as Hr.
  destruct (m s) as [[[] s']|]; [|done]. eapply soc_inv_at; [|exact Hr]. apply Hs.
Qed.

(** What happens to the plugin after its start: an event arrives, or a delayed task
    comes due. *)
Inductive SocEvent := SDispatch (data : ResData J) | SFire (id : nat).
Definition soc_step (e : SocEvent) : ST (SocPerf K) unit :=
  match e with SDispatch data => SocPerf_DispatchResource data | SFire id => soc_fire id end.

(** A thrown exception is what the handler of this event ends in. *)
Definition step_throws s (e : SocEvent) : bool :=
  match e with
  | SDispatch data => match functionMap s !! rd_resType data with Some h => throws h data | None => false end
  | SFire _ => false
  end.

Lemma run_throws h data s : throws h data = true -> run_handler h data s = None.
Proof.
  destruct h; try done; simpl; intros Ht.
  - apply andb_true_iff in Ht as [Ev Ht]. unfold HandleAppAbilityStart.
    apply Z.eqb_eq in Ev. rewrite Ev. simpl. destruct (json_find _ _) as [j|]; [|done].
    apply bool_decide_eq_true in Ht. by rewrite Ht.
  - unfold HandleSchedModeChange. destruct (json_find _ _) as [j|]; [|done].
    apply bool_decide_eq_true in Ht. by rewrite Ht.
Qed.

Lemma safe_soc_fire id : safe soc_inv (soc_fire (K := K) id).
Proof.
  apply inv_safe. intros func lib Hl. unfold soc_fire. apply safe_get_bind. intros s Hs.
  destruct (find _ _) as [[[i t] d]|]; [|apply safe_ret].
  apply safe_bind; [by apply safe_skip|]. intros _. by apply safe_run_task.
Qed.

Lemma soc_step_outcome e s :
  soc_inv s -> if step_throws s e then soc_step e s = None
               else exists s', soc_step e s = Some (tt, s') /\ soc_inv s'.
Proof.
  intros Hs. destruct e as [data|id]; simpl.
  - unfold SocPerf_DispatchResource. rewrite run_get_bind.
    destruct (functionMap s !! rd_resType data) as [h|]; [|by eauto].
    destruct (throws h data) eqn:E; [by apply run_throws|].
    destruct (safe_run soc_inv (run_handler h data) s) as ([] & s' & Er & Hs');
      [|done|by eauto]. apply inv_safe. intros func lib Hl. by apply safe_run_handler.
  - destruct (safe_run soc_inv _ s (safe_soc_fire id) Hs) as ([] & s' & Er & Hs'). eauto.
Qed.

(** The plugin stops the service in exactly two cases.  In every state that meets
    the invariant, an event or a delayed task has no defined outcome only when it is
    a warm start or a change of the scheduling mode whose field is there but is not
    text; otherwise the handler returns, and the invariant holds again. *)
Theorem soc_throws_exactly e s :
  soc_inv s ->
  (soc_step e s = None <-> step_throws s e = true) /\
  (forall s', soc_step e s = Some (tt, s') -> soc_inv s').
Proof.
  intros Hs. pose proof (soc_step_outcome e s Hs) as H1. destruct (step_throws s e).
  - rewrite H1. split; [done|]. congruence.
  - destruct H1 as (s' & -> & Hs'). split; [done|]. intros ? [= <-]. done.
Qed.

(** ** Start *)

(** A part of the start that runs in the plugin, and one that does not touch it. *)
Lemma safe_in_plugin {A} (P : SocPerf K -> Prop) (m : ST (SocPerf K) A) :
  safe P m -> safe (fun p => P (host p)) (in_plugin (J := J) m).
Proof. intros Hm p Hp. specialize (Hm _ Hp). unfold in_plugin. by destruct (m (host p)) as [[a s]|]. Qed.

Lemma safe_with_config (P : SocPerf K -> Prop) name use :
  (forall c, safe P (use c)) -> safe (fun p => P (host p)) (with_config (J := J) name use).
Proof.
  intros Hu. unfold with_config. apply safe_get_bind. intros p Hp. apply safe_bind; [by apply safe_in_plugin|].
  intros _. apply safe_modify. intros p' Hp'. exact Hp'.
Qed.

Lemma safe_subscribe (P : SocPerf K -> Prop) lib t :
  safe (fun p => P (host p)) (SubscribeResource (J := J) (K := SocPerf K) lib t).
Proof. unfold SubscribeResource. safe_auto. apply safe_modify. intros p Hp. exact Hp. Qed.
Lemma safe_subscribe_accurately (P : SocPerf K -> Prop) lib t v :
  safe (fun p => P (host p)) (SubscribeResourceAccurately (J := J) (K := SocPerf K) lib t v).
Proof.
  unfold SubscribeResourceAccurately. safe_auto;
    first [apply safe_subscribe | apply safe_modify; intros p' Hp'; exact Hp'].
Qed.

(** The libraries are opened when none was before. *)
Lemma spec_LoadPerfCrucialSo c :
  spec False (soc_at false false) (LoadPerfCrucialSo (K := K) c) (fun _ => soc_inv).
Proof.
  unfold LoadPerfCrucialSo. eapply spec_bind with (R := fun _ => soc_at false false).
  - apply safe_for_each_sub. intros sub.
    safe_auto; apply safe_modify; intros s Hs; exact Hs.
  - intros _ s Hs. rewrite run_get_bind. destruct Hs as (Ht & Ef & El).
    assert (Hs : soc_inv s) by (split; [done|congruence]).
    destruct (negb _ && negb _); [|exact Hs]. simpl. unfold InitPerfCrucialFunc. rewrite run_get_bind.
    destruct (se_dlopen _ _ _) as [[]|]; simpl; split; try exact Ht; simpl; congruence.
Qed.

(** A change of members that the invariant does not speak of. *)
#[local] Hint Extern 2 (safe _ (st_modify _)) =>
  apply safe_modify; intros ? Hsame; exact Hsame : safe.

Lemma safe_LoadEventId c : safe (soc_at false false) (LoadEventId (K := K) c).
Proof. apply safe_for_each_sub. intros sub. safe_auto. Qed.
Lemma safe_LoadBattery c : safe soc_inv (LoadBatteryCapacityLimitFreq (K := K) c).
Proof. unfold LoadBatteryCapacityLimitFreq, HandleBatterySubValue. safe_auto. Qed.
Lemma safe_LoadPolicyMode c c' : safe soc_inv (LoadPolicyMode (K := K) c c').
Proof.
  unfold LoadPolicyMode. safe_auto. apply safe_modify. intros s Hs. by destruct (ApplyPolicyLimits _ _ _).
Qed.
#[local] Hint Resolve safe_subscribe safe_subscribe_accurately : safe.

Lemma spec_seq {S A B} (P : S -> Prop) (m : ST S A) (k : A -> ST S B) Q :
  safe P m -> (forall a, spec False P (k a) Q) -> spec False P (m ≫= k) Q.
Proof. intros Hm Hk. by apply spec_bind with (R := fun _ => P). Qed.

Lemma spec_SocPerf_Init :
  spec False (fun p => soc_at false false (host p)) (SocPerf_Init (J := J) (K := K))
    (fun _ p => soc_inv (host p)).
Proof.
  set (P0 := fun p : PluginMgr J (SocPerf K) => soc_at false false (host p)).
  set (P1 := fun p : PluginMgr J (SocPerf K) => soc_inv (host p)).
  assert (Hset : forall f, (forall s, soc_at false false s -> soc_at false false (f s)) ->
    safe P0 (in_plugin (st_modify f))).
  { intros f Hf. by apply (safe_in_plugin (soc_at false false)), safe_modify. }
  pose proof (safe_with_config (soc_at false false)) as Hc0.
  pose proof (safe_with_config soc_inv) as Hc1.
  unfold SocPerf_Init. apply spec_seq; [by apply Hc0, safe_LoadEventId|intros _].
  apply spec_seq; [by apply Hset|intros _]. apply spec_seq; [by apply Hset|intros _].
  apply spec_seq; [by apply Hset|intros _].
  apply spec_seq; [unfold InitFeatureSwitch, PluginMgr_RemoveConfig; safe_auto|intros boost].
  apply spec_seq; [by apply Hset|intros _].
  apply spec_seq; [by apply Hc0; intros c; apply safe_LoadSpecialExtension|intros _].
  apply spec_bind with (R := fun _ => P0); [by intros p Hp|]. intros p0.
  apply spec_seq; [safe_auto|intros _]. apply spec_seq; [safe_auto|intros _].
  apply spec_bind with (R := fun _ => P1).
  { intros p Hp. unfold InitPerfCrucialSo, with_config. rewrite run_get_bind. unfold mbind, ST_bind, in_plugin.
    pose proof (spec_LoadPerfCrucialSo (PluginMgr_GetConfig PLUGIN_NAME CNOFIG_NAME_SOCPERF_CRUCIAL_FUNC p) _ Hp) as Hl.
    by destruct (LoadPerfCrucialSo _ _) as [[[] s]|]. }
  intros _. apply spec_seq; [apply Hc1; intros c; apply inv_safe; intros; by apply safe_InitBundleNameBoostLists|intros _].
  apply spec_seq; [apply Hc1; intros c; apply inv_safe; intros; by apply safe_LoadWeakInterAction|intros _].
  apply spec_seq; [apply Hc1; intros c; apply safe_LoadBattery|intros _].
  change (safe P1 (InitPolicyMode (J := J) (K := K))). unfold InitPolicyMode, PluginMgr_RemoveConfig.
  safe_auto. apply (safe_in_plugin soc_inv), safe_LoadPolicyMode.
Qed.

(** An event whose two text fields are text when they are there. *)
Definition polite (e : SocEvent) : bool :=
  match e with
  | SDispatch data => negb (throws HAppAbilityStart data) && negb (throws HSchedModeChange data)
  | SFire _ => true
  end.

Lemma polite_no_throw e s : polite e = true -> step_throws s e = false.
Proof.
  destruct e as [data|]; [|done]. intros [H1 H2]%andb_true_iff. simpl.
  destruct (functionMap s !! _) as [h|]; [|done].
  destruct h; try done; by apply negb_true_iff.
Qed.

Lemma soc_run evs s :
  soc_inv s -> forallb polite evs = true -> exists s', st_iter soc_step evs s = Some (tt, s') /\ soc_inv s'.
Proof.
  revert s. induction evs as [|e evs IH]; intros s Hs Hp; simpl; [by eauto|].
  simpl in Hp. apply andb_true_iff in Hp as [He Hp].
  pose proof (soc_step_outcome e s Hs) as Ho. rewrite polite_no_throw in Ho by done.
  destruct Ho as (s' & E & Hs'). unfold mbind, ST_bind. rewrite E. by apply IH.
Qed.

(** C12: From its start the plugin runs safely and never waits for two wake-ups.
    Whatever parameters the manager has, the start returns; whatever events arrive
    after it, and in whatever order the delayed tasks come due, every handler
    returns, as long as the two fields that are not tested are text; and at most one
    check of the wake-up is pending, the one the plugin can take back. *)
Theorem soc_runs_safely (p : PluginMgr J (SocPerf K)) k evs :
  host p = new_SocPerf k -> forallb polite evs = true ->
  exists p1 s', SocPerf_Init (J := J) p = Some (tt, p1) /\
    st_iter soc_step evs (host p1) = Some (tt, s') /\
    NoDup ((fun x => x.1.1) <$> sp_tasks s') /\
    (forall id delay, (id, TWakeUpTimeOut, delay) ∈ sp_tasks s' ->
       wakeUpTimeOutTask_ s' = Some id /\ delay = WAKE_UP_TIME_DELAY) /\
    (reqAppTypeFunc_ s' = true -> handle_ s' = true).
Proof.
  intros Hp Hev. assert (H0' : soc_at false false (host p)).
  { rewrite Hp. split; [|done]. split; simpl; [|apply NoDup_nil_2|..]; intros *; by intros ?%elem_of_nil. }
  pose proof (spec_SocPerf_Init p H0') as Hi.
  destruct (SocPerf_Init p) as [[[] p1]|] eqn:Ei; [|done].
  destruct (soc_run evs (host p1) Hi Hev) as (s' & Er & [T1 T2 T3 T4] & Hl).
  exists p1, s'. split_and!; try done. intros id delay Hx. split; [by eapply T3|]. by apply T4 in Hx.
Qed.
End facts.

Lemma soc_demo_inv : soc_inv (host soc_demo_started).
Proof.
  split; [|by vm_compute]. split; vm_compute; [|apply NoDup_nil_2|..]; intros *; by intros ?%elem_of_nil.
Qed.

(** A warm start with a number where text is expected. *)
Lemma soc_throws_exactly_witness :
  let s := host soc_demo_started in
  let e := SDispatch (soc_event RES_TYPE_APP_ABILITY_START APP_WARM_START [("supportWarmSmartGC", JInteger 1)]) in
  soc_inv s /\ soc_step e s = None.
Proof.
  intros s e. split; [exact soc_demo_inv|]. apply (proj1 (soc_throws_exactly e s soc_demo_inv)). vm_compute. reflexivity.
Defined.

(** Two wake-ups, the screen goes off, and both tasks come due. *)
Definition soc_demo_events : list (SocEvent (J := json)) :=
  [SDispatch (soc_event RES_TYPE_DISPLAY_POWER_WAKE_UP WAKE_UP_START []);
   SDispatch (soc_event RES_TYPE_DISPLAY_POWER_WAKE_UP WAKE_UP_START []);
   SDispatch (soc_event RES_TYPE_SCREEN_STATUS SCREEN_OFF []); SFire 1; SFire 2].

Lemma soc_runs_safely_witness :
  host soc_demo_mgr = new_SocPerf 10000 /\ forallb polite soc_demo_events = true /\
  exists p1 s', SocPerf_Init (J := json) soc_demo_mgr = Some (tt, p1) /\
    st_iter soc_step (take 3 soc_demo_events) (host p1) = Some (tt, s') /\
    sp_tasks s' = [(1%nat, TWakeUpTimeOut, WAKE_UP_TIME_DELAY); (2%nat, TScreenOff, SCREEN_OFF_TIME_DELAY)].
Proof.
  split; [reflexivity|]. split; [vm_compute; reflexivity|].
  destruct (soc_runs_safely soc_demo_mgr 10000 (take 3 soc_demo_events)) as (p1 & s' & E1 & E2 & _);
    [reflexivity|vm_compute; reflexivity|].
  exists p1, s'. split_and!; [exact E1|exact E2|].
  assert (Ep : host p1 = host soc_demo_started) by (unfold soc_demo_started; rewrite E1; reflexivity).
  rewrite Ep in E2.
  assert (E3 : sp_tasks s' = match st_iter soc_step (take 3 soc_demo_events) (host soc_demo_started) with
                             | Some (_, s) => sp_tasks s | None => [] end) by (rewrite E2; reflexivity).
  rewrite E3. vm_compute. reflexivity.
Defined.
