(* ===== verification/SocPerfBattery.v ===== *)
(** * SocPerf plugin: battery limits

    The plugin lowers frequencies when the battery is low.  What it asks for amounts,
    after any history of reports, to the limits of the least configured capacity that
    the level does not exceed, and to none while the battery charges. *)
From S2P Require Import Prelude Json ResType PluginConfig PluginMgr SignatureValidator SocPerf SocPerfHandlers SocPerfFacts.

(** ** What the requests amount to *)

(** The limits in force are the last value asked for each tag; the greatest integer
    lifts a limit. *)
Definition set_limit (m : gmap Z Z) (tc : Z * Z) : gmap Z Z :=
  if tc.2 =? 2 ^ 31 - 1 then delete tc.1 m else <[tc.1 := tc.2]> m.
Definition set_limits (tags configs : list Z) (m : gmap Z Z) : gmap Z Z :=
  foldl set_limit m (zip tags configs).
Definition in_force_step (m : gmap Z Z) (c : SocCall) : gmap Z Z :=
  match c with LimitRequest tags configs _ => set_limits tags configs m | _ => m end.
Definition in_force (calls : list SocCall) : gmap Z Z := foldl in_force_step ∅ calls.

(** The limits that a configuration of one capacity means. *)
Definition limits_of (f : Frequencies) : gmap Z Z := set_limits (freq_tags f) (freq_configs f) ∅.

(** What should be in force at a level: the limits of the least capacity at or above
    it. *)
Definition required (cfg : gmap Z Frequencies) (level : Z) (charging : bool) : gmap Z Z :=
  if charging then ∅ else
  match head (filter (fun c => level <= c) (keys_in_order cfg)) with
  | Some c => default ∅ (limits_of <$> cfg !! c)
  | None => ∅
  end.

Lemma set_limits_agree l m m' :
  (forall t, t ∉ l.*1 -> m !! t = m' !! t) -> foldl set_limit m l = foldl set_limit m' l.
Proof.
  revert m m'. induction l as [|[t c] l IH]; intros m m' Hm; simpl.
  - apply map_eq. intros t. apply Hm, not_elem_of_nil.
  - apply IH. intros u Hu. unfold set_limit. simpl.
    destruct (decide (u = t)) as [->|].
    + destruct (c =? _); [by rewrite !lookup_delete_eq|by rewrite !lookup_insert_eq].
    + destruct (c =? _); [rewrite !lookup_delete_ne by done|rewrite !lookup_insert_ne by done];
        apply Hm; rewrite fmap_cons, not_elem_of_cons; done.
Qed.

Lemma set_limits_dom l m t : (t ∉ l.*1) -> foldl set_limit m l !! t = m !! t.
Proof.
  revert m. induction l as [|[u c] l IH]; intros m Ht; simpl; [done|].
  rewrite fmap_cons, not_elem_of_cons in Ht. destruct Ht as [Hne Ht]. rewrite IH by done.
  unfold set_limit. simpl in *. destruct (c =? _); [by rewrite lookup_delete_ne|by rewrite lookup_insert_ne].
Qed.

(** All tags are named again: what was in force before does not matter. *)
Lemma set_limits_replace f m :
  length (freq_tags f) = length (freq_configs f) -> (forall t, is_Some (m !! t) -> t ∈ freq_tags f) ->
  set_limits (freq_tags f) (freq_configs f) m = limits_of f.
Proof.
  intros Hlen Hm. apply set_limits_agree. intros t. rewrite fst_zip by lia. intros Ht. rewrite lookup_empty.
  destruct (m !! t) eqn:E; [|done]. exfalso. apply Ht, Hm. by rewrite E.
Qed.

Lemma set_limits_lift f m :
  length (freq_tags f) = length (freq_configs f) -> (forall t, is_Some (m !! t) -> t ∈ freq_tags f) ->
  set_limits (freq_tags f) (GetConfigs (length (freq_configs f))) m = ∅.
Proof.
  intros Hlen Hm. trans (set_limits (freq_tags f) (GetConfigs (length (freq_configs f))) ∅).
  - apply set_limits_agree. intros t. unfold GetConfigs. rewrite fst_zip by (rewrite length_replicate; lia).
    intros Ht. rewrite lookup_empty. destruct (m !! t) eqn:E; [|done]. exfalso. apply Ht, Hm. by rewrite E.
  - unfold set_limits, GetConfigs. rewrite <- Hlen. generalize (freq_tags f) as l.
    induction l as [|t l IH]; simpl; [done|]. unfold set_limit at 2. simpl. by rewrite delete_empty.
Qed.

Lemma limits_of_dom f t : is_Some (limits_of f !! t) -> t ∈ freq_tags f.
Proof.
  intros H. destruct (decide (t ∈ freq_tags f)) as [|Hn]; [done|]. exfalso.
  unfold limits_of, set_limits in H. rewrite set_limits_dom, lookup_empty in H; [by destruct H|].
  intros (x & -> & Hx)%list_elem_of_fmap. destruct x as [a b]. apply elem_of_zip_l in Hx. done.
Qed.

Section battery.
Context {J K : Type} `{!Json J} `{!Build} `{!SocBuild} `{!SocEnv K} `{!SignatureChecker K}.
Implicit Types (data : ResData J) (s : SocPerf K).

(** ** The capacity that applies *)

Lemma fold_least level (keys : list Z) acc :
  level <= acc ->
  let c := foldl (fun tempCap key => if (key >=? level) && (key <=? tempCap) then key else tempCap) acc keys in
  level <= c /\ c <= acc /\ (c = acc \/ c ∈ keys) /\ forall k, k ∈ keys -> level <= k -> c <= k.
Proof.
  revert acc. induction keys as [|k keys IH]; intros acc Ha; simpl.
  - split_and!; [done|lia|by left|]. intros k Hk. by apply elem_of_nil in Hk.
  - destruct ((k >=? level) && (k <=? acc)) eqn:E.
    + destruct (IH k ltac:(lia)) as (H1 & H2 & H3 & H4). split_and!; [lia|lia| |].
      * right. rewrite elem_of_cons. tauto.
      * intros k' [->|Hk']%elem_of_cons Hl; [lia|by apply H4].
    + destruct (IH acc Ha) as (H1 & H2 & H3 & H4). split_and!; [lia|lia| |].
      * rewrite elem_of_cons. tauto.
      * intros k' [->|Hk']%elem_of_cons Hl; [|by apply H4]. lia.
Qed.

(** The parameters of the limits, as loading leaves them. *)
Record battery_ok s : Prop := {
  bat_max c : is_Some (socperfBatteryConfig_ s !! c) -> 0 <= c <= maxBatteryLimitCapacity_ s;
  bat_in : (maxBatteryLimitCapacity_ s = -1 /\ socperfBatteryConfig_ s = ∅)
           \/ is_Some (socperfBatteryConfig_ s !! maxBatteryLimitCapacity_ s);
  bat_s32 : maxBatteryLimitCapacity_ s < 2 ^ 31;
  bat_len c f : socperfBatteryConfig_ s !! c = Some f -> length (freq_tags f) = length (freq_configs f);
}.

Lemma head_filter_sorted (P : Z -> Prop) `{!forall x, Decision (P x)} (l : list Z) x :
  Sorted Z.le l -> x ∈ l -> P x -> (forall y, y ∈ l -> P y -> x <= y) -> head (filter P l) = Some x.
Proof.
  intros Hs Hx HP Hmin. apply Sorted_StronglySorted in Hs; [|intros ???; lia].
  induction Hs as [|y l Hs IH Hall]; [by apply elem_of_nil in Hx|].
  rewrite filter_cons. destruct (decide (P y)) as [Hy|Hy]; simpl.
  - f_equal. apply Z.le_antisymm; [|apply Hmin; [apply elem_of_cons; by left|done]].
    apply elem_of_cons in Hx as [->|Hx]; [lia|]. rewrite Forall_forall in Hall. by apply Hall.
  - apply IH; [|intros; apply Hmin; [apply elem_of_cons; by right|done]].
    apply elem_of_cons in Hx as [->|]; done.
Qed.

Lemma keys_in_order_sorted {A} (m : gmap Z A) : Sorted Z.le (keys_in_order m).
Proof.
  unfold keys_in_order. induction (in_order_sorted m) as [|x l Hs IH Hhd]; simpl; constructor; [done|].
  destruct Hhd; simpl; constructor. done.
Qed.

Lemma GetLimitCapacity_spec s level :
  battery_ok s -> socperfBatteryConfig_ s <> ∅ -> level <= maxBatteryLimitCapacity_ s ->
  head (filter (fun c => level <= c) (keys_in_order (socperfBatteryConfig_ s))) = Some (GetLimitCapacity level s)
  /\ is_Some (socperfBatteryConfig_ s !! GetLimitCapacity level s).
Proof.
  intros Hok Hne Hl. destruct (fold_least level (keys_in_order (socperfBatteryConfig_ s)) _ Hl) as (H1 & H2 & H3 & H4).
  fold (GetLimitCapacity level s) in H1, H2, H3, H4.
  assert (Hin : is_Some (socperfBatteryConfig_ s !! GetLimitCapacity level s)).
  { destruct H3 as [->|H3]; [by destruct (bat_in _ Hok) as [[]|]|by apply elem_of_keys_in_order]. }
  split; [|done]. apply head_filter_sorted; [apply keys_in_order_sorted|by apply elem_of_keys_in_order|done|].
  intros y Hy Hly. by apply H4.
Qed.

(** ** Histories *)

Definition same_tags (cfg : gmap Z Frequencies) : Prop :=
  forall c1 c2 f1 f2 t, cfg !! c1 = Some f1 -> cfg !! c2 = Some f2 -> t ∈ freq_tags f1 -> t ∈ freq_tags f2.

(** What is in force belongs to the capacity that the plugin remembers. *)
Record battery_inv (cfg : gmap Z Frequencies) s : Prop := {
  bi_cfg : socperfBatteryConfig_ s = cfg;
  bi_ok : battery_ok s;
  bi_state : (lastBatteryLimitCap_ s = -1 /\ in_force (sp_calls s) = ∅)
             \/ exists f, cfg !! lastBatteryLimitCap_ s = Some f /\ in_force (sp_calls s) = limits_of f;
}.

Lemma in_force_app cs c : in_force (cs ++ [c]) = in_force_step (in_force cs) c.
Proof. unfold in_force. by rewrite foldl_app. Qed.

Lemma battery_ok_same s s' :
  socperfBatteryConfig_ s' = socperfBatteryConfig_ s -> maxBatteryLimitCapacity_ s' = maxBatteryLimitCapacity_ s ->
  battery_ok s -> battery_ok s'.
Proof. intros E1 E2 [H1 H2 H3 H4]. split; rewrite ?E1, ?E2; done. Qed.

(** Reading an entry that is there changes nothing. *)
Lemma run_battery_config c f s :
  socperfBatteryConfig_ s !! c = Some f -> battery_config c s = Some (f, s).
Proof.
  intros Hc. unfold battery_config. rewrite run_get_bind, Hc.
  assert (E : s <| socperfBatteryConfig_ ::= <[c := f]> |> = s);
    [|trans (Some (f, s <| socperfBatteryConfig_ ::= <[c := f]> |>)); [done|by rewrite E]].
  destruct s. unfold over. simpl in *. f_equal. by apply insert_id.
Qed.

(** In any remembered state every limit in force is on a tag of the configuration. *)
Lemma in_force_tags cfg s c f t :
  battery_inv cfg s -> same_tags cfg -> cfg !! c = Some f -> is_Some (in_force (sp_calls s) !! t) -> t ∈ freq_tags f.
Proof.
  intros Hb Hsame Hc Ht. destruct (bi_state _ _ Hb) as [[_ E]|(f0 & E0 & E)]; rewrite E in Ht.
  - rewrite lookup_empty in Ht. by destruct Ht.
  - eapply Hsame; [exact E0|exact Hc|]. by apply limits_of_dom.
Qed.

Lemma run_HandleRecoverBatteryLimit cfg s :
  battery_inv cfg s -> exists s', HandleRecoverBatteryLimit s = Some (tt, s') /\
    battery_inv cfg s' /\ in_force (sp_calls s') = ∅.
Proof.
  intros Hb. pose proof (bi_state _ _ Hb) as Hst. unfold HandleRecoverBatteryLimit. rewrite run_get_bind.
  destruct (Z.eqb_spec (lastBatteryLimitCap_ s) (-1)) as [El|Hne].
  { exists s. split_and!; [done|done|]. destruct Hst as [[_ ?]|(f & Hf & _)]; [done|].
    rewrite El, <- (bi_cfg _ _ Hb) in Hf. pose proof (bat_max _ (bi_ok _ _ Hb) (-1)) as Hm. rewrite Hf in Hm.
    specialize (Hm ltac:(done)). lia. }
  destruct Hst as [[? _]|(f & Hf & Eq)]; [done|].
  assert (Htags : forall t, is_Some (in_force (sp_calls s) !! t) -> t ∈ freq_tags f).
  { intros t. rewrite Eq. apply limits_of_dom. }
  rewrite <- (bi_cfg _ _ Hb) in Hf. unfold mbind, ST_bind, call, st_modify.
  erewrite run_battery_config by exact Hf. eexists. split; [reflexivity|].
  assert (Ef : in_force ((sp_calls s ++ [PowerLimitBoost false "type=Low_battery_limit"]) ++
    [LimitRequest (freq_tags f) (GetConfigs (length (freq_configs f))) "type=Low_battery_limit"]) = ∅).
  { rewrite !in_force_app. simpl. apply set_limits_lift; [|done]. by eapply bat_len; [apply (bi_ok _ _ Hb)|]. }
  split; [|exact Ef]. split; [apply (bi_cfg _ _ Hb)|by apply (battery_ok_same s); [..|apply (bi_ok _ _ Hb)]|].
  left. split; [done|exact Ef].
Qed.

Lemma run_HandleBatteryLimit cfg s level :
  battery_inv cfg s -> same_tags cfg -> cfg <> ∅ -> level <= maxBatteryLimitCapacity_ s ->
  exists s', HandleBatteryLimit level s = Some (tt, s') /\ battery_inv cfg s' /\
    in_force (sp_calls s') = required cfg level false.
Proof.
  intros Hb Hsame Hne Hl. pose proof (bi_cfg _ _ Hb) as Ec.
  destruct (GetLimitCapacity_spec s level (bi_ok _ _ Hb) ltac:(congruence) Hl) as [Hhd [f Hf]].
  assert (Hreq : required cfg level false = limits_of f).
  { unfold required. rewrite Ec in Hhd, Hf. rewrite Hhd. simpl. by rewrite Hf. }
  rewrite Hreq. unfold HandleBatteryLimit. rewrite run_get_bind.
  destruct (Z.eqb_spec (lastBatteryLimitCap_ s) (GetLimitCapacity level s)) as [El|Hnew].
  { exists s. split_and!; [done|done|]. destruct (bi_state _ _ Hb) as [[E1 _]|(f0 & E0 & ->)].
    - pose proof (bat_max _ (bi_ok _ _ Hb) (GetLimitCapacity level s)) as Hm. rewrite Hf in Hm.
      specialize (Hm ltac:(done)). lia.
    - rewrite El, <- Ec, Hf in E0. by injection E0 as <-. }
  unfold mbind, ST_bind, call, st_modify. erewrite run_battery_config by exact Hf.
  eexists. split; [reflexivity|].
  assert (Ef : in_force ((sp_calls s ++ [PowerLimitBoost true "type=Low_battery_limit"]) ++
    [LimitRequest (freq_tags f) (freq_configs f) "type=Low_battery_limit"]) = limits_of f).
  { rewrite !in_force_app. simpl. apply set_limits_replace; [by eapply bat_len; [apply (bi_ok _ _ Hb)|]|].
    intros t Ht. eapply in_force_tags; [exact Hb|exact Hsame| |exact Ht]. by rewrite <- Ec. }
  split; [|exact Ef]. split; [exact Ec|by apply (battery_ok_same s); [..|apply (bi_ok _ _ Hb)]|].
  right. exists f. split; [by rewrite <- Ec|exact Ef].
Qed.

(** Whether a report says that the battery charges; [None] when it says nothing. *)
Definition charging data : option bool :=
  z ← find_integer COMMON_EVENT_CHARGE_STATE (rd_payload data);
  Some ((to_s32 z =? CHARGE_STATE_ENABLE) || (to_s32 z =? CHARGE_STATE_FULL)).

Lemma run_HandleBatteryStatusChange cfg s data b :
  battery_inv cfg s -> same_tags cfg -> charging data = Some b -> - 2 ^ 31 <= rd_value data ->
  exists s', HandleBatteryStatusChange data s = Some (tt, s') /\ battery_inv cfg s' /\
    in_force (sp_calls s') = required cfg (rd_value data) b.
Proof.
  intros Hb Hsame Hc Hv. pose proof (bi_cfg _ _ Hb) as Ec. unfold HandleBatteryStatusChange. rewrite run_get_bind.
  case_bool_decide as Hempty.
  { exists s. split_and!; [done|done|]. rewrite Ec in Hempty. subst cfg. rewrite Hempty in *.
    destruct (bi_state _ _ Hb) as [[_ ->]|(f & Hf & _)]; [|by rewrite lookup_empty in Hf].
    unfold required. by destruct b. }
  unfold charging in Hc. destruct (find_integer _ _) as [z|]; [|done]. simpl in Hc. injection Hc as Hc.
  cbv zeta. rewrite Hc. unfold HandleFreqLimit. rewrite run_get_bind.
  destruct b; [rewrite orb_true_r; by apply run_HandleRecoverBatteryLimit|]. rewrite orb_false_r.
  destruct (rd_value data >? maxBatteryLimitCapacity_ s) eqn:Em.
  - destruct (run_HandleRecoverBatteryLimit cfg s Hb) as (s' & E1 & E2 & E3). exists s'. split_and!; [done|done|].
    rewrite E3. unfold required. destruct (filter _ _) as [|c l] eqn:Ef; [done|]. exfalso.
    assert (Hin : c ∈ filter (fun c => rd_value data <= c) (keys_in_order cfg)) by (rewrite Ef; apply elem_of_cons; by left).
    apply list_elem_of_filter in Hin as [Hle Hin]. apply elem_of_keys_in_order in Hin. rewrite <- Ec in Hin.
    apply (bat_max _ (bi_ok _ _ Hb)) in Hin. lia.
  - pose proof (bat_s32 _ (bi_ok _ _ Hb)). rewrite to_s32_id by (unfold is_s32; lia).
    apply run_HandleBatteryLimit; [done|done|congruence|lia].
Qed.

(** ** Loading *)

(** The capacity that an item of the configuration gives. *)
Definition item_capacity (item : Item) : Z := atoi (default "" (itemProperties item !! ITEM_KEY_CAPACITY)).

Definition loading s : Prop := battery_ok s /\ lastBatteryLimitCap_ s = -1 /\ sp_calls s = [].

Lemma loading_HandleBatterySubValue capacity tag config :
  0 <= capacity < 2 ^ 31 -> safe loading (HandleBatterySubValue (K := K) capacity tag config).
Proof.
  intros Hc s ([H1 H2 H3 H4] & Hl & Hcs). unfold HandleBatterySubValue. rewrite run_get_bind.
  set (f := default (mkFrequencies [] []) (socperfBatteryConfig_ s !! capacity)).
  assert (Hf : length (freq_tags f) = length (freq_configs f)).
  { subst f. destruct (socperfBatteryConfig_ s !! capacity) eqn:E; [by eapply H4|done]. }
  cbv zeta. destruct (capacity >? maxBatteryLimitCapacity_ s) eqn:E; simpl.
  - split; [|done]. split; simpl; [| |lia|].
    + intros c Hx. destruct (decide (c = capacity)) as [->|]; [lia|].
      rewrite lookup_insert_ne in Hx by done. apply H1 in Hx. lia.
    + right. rewrite lookup_insert_eq. done.
    + intros c f' Hx. apply lookup_insert_Some in Hx as [[<- <-]|[_ Hx]]; [|by eapply H4].
      simpl. by rewrite !length_app, Hf.
  - split; [|done]. split; simpl; [| |lia|].
    + intros c Hx. destruct (decide (c = capacity)) as [->|]; [lia|].
      rewrite lookup_insert_ne in Hx by done. by apply H1 in Hx.
    + right. destruct (decide (capacity = maxBatteryLimitCapacity_ s)) as [->|];
        [by rewrite lookup_insert_eq|rewrite lookup_insert_ne by done]. destruct H2 as [[]|]; [lia|done].
    + intros c f' Hx. apply lookup_insert_Some in Hx as [[<- <-]|[_ Hx]]; [|by eapply H4].
      simpl. by rewrite !length_app, Hf.
Qed.

Lemma loading_Load c :
  (forall item, item ∈ itemList c -> 0 <= item_capacity item) ->
  safe loading (LoadBatteryCapacityLimitFreq (K := K) c).
Proof.
  intros Hc. apply spec_iter. intros item Hitem. cbv zeta. apply safe_iter. intros sub.
  apply loading_HandleBatterySubValue. split; [by apply Hc|]. apply to_s32_range.
Qed.

(** C13: The limits that are in force fit the last report, with capacities that are not
    negative and all limit the same tags. After any history of battery reports that all carry
    the charge state and a level of at least -2^31, each of which is answered, the requests of
    the plugin amount to exactly the limits of the least configured capacity at or above the
    reported level, and to no limit at all while the battery charges, is full, or is above
    every capacity. Where capacities limit different tags this fails: the tags of the old one
    stay limited (socperf_plugin.cpp:1742). *)
Theorem battery_limits_in_force c k s0 (evs : list (ResData J)) :
  (forall item, item ∈ itemList c -> 0 <= item_capacity item) ->
  LoadBatteryCapacityLimitFreq c (new_SocPerf k) = Some (tt, s0) ->
  same_tags (socperfBatteryConfig_ s0) ->
  (forall d, d ∈ evs -> is_Some (charging d) /\ - 2 ^ 31 <= rd_value d) ->
  exists s', st_iter HandleBatteryStatusChange evs s0 = Some (tt, s') /\
    in_force (sp_calls s') =
      match last evs with
      | Some d => required (socperfBatteryConfig_ s0) (rd_value d) (default false (charging d))
      | None => ∅
      end.
Proof.
  intros Hc Hload Hsame Hev.
  assert (H0' : loading (new_SocPerf k)).
  { split; [|done]. split; simpl; [|by left|done|]; intros *; rewrite lookup_empty; [by intros []|done]. }
  pose proof (loading_Load c Hc _ H0') as Hok. rewrite Hload in Hok. destruct Hok as (Hok & Hl & Hcs).
  set (cfg := socperfBatteryConfig_ s0) in *.
  assert (Hb : battery_inv cfg s0) by (split; [done|done|left; by rewrite Hcs]).
  assert (Hstart : in_force (sp_calls s0) = ∅) by by rewrite Hcs.
  revert Hb Hstart. generalize s0 as s, (∅ : gmap Z Z) as m. clear Hload Hok Hl Hcs H0'. clearbody cfg.
  induction evs as [|d evs IH]; intros s m Hb Hs; simpl st_iter; [by exists s|].
  destruct (Hev d) as [[b Eb] Hv]; [apply elem_of_cons; by left|].
  destruct (run_HandleBatteryStatusChange cfg s d b Hb Hsame Eb Hv) as (s1 & E1 & Hb1 & Ef1).
  destruct (IH (fun d' Hd => Hev d' ltac:(apply elem_of_cons; by right)) s1 _ Hb1 Ef1) as (s' & E2 & Ef2).
  exists s'. split; [unfold mbind, ST_bind; by rewrite E1|]. rewrite Ef2, last_cons.
  destruct (last evs); [done|]. by rewrite Eb.
Qed.
End battery.

(** The battery falls through two limits and is charged. *)
Definition battery_event (level state : Z) : ResData json :=
  soc_event RES_TYPE_REPORT_BATTERY_STATUS_CHANGE level [(COMMON_EVENT_CHARGE_STATE, JInteger state)].

Lemma battery_limits_in_force_witness :
  let c := PluginMgr_GetConfig PLUGIN_NAME CONFIG_NAME_SOCPERF_BATTERY_CAPACITY_LIMIT_FREQ soc_demo_mgr in
  let s0 := match LoadBatteryCapacityLimitFreq c (new_SocPerf 0) with Some (_, s) => s | None => new_SocPerf 0 end in
  let evs := [battery_event 15 0; battery_event 8 0] in
  (exists s', st_iter HandleBatteryStatusChange evs s0 = Some (tt, s') /\ in_force (sp_calls s') = {[1005 := 900]}) /\
  (exists s', st_iter HandleBatteryStatusChange (evs ++ [battery_event 9 1]) s0 = Some (tt, s')
              /\ in_force (sp_calls s') = ∅).
Proof.
  intros c s0 evs.
  assert (Hc : forall item, item ∈ itemList c -> 0 <= item_capacity item).
  { intros item Hi. apply Z.leb_le. apply list_elem_of_In in Hi. revert item Hi. apply forallb_forall.
    vm_compute. reflexivity. }
  assert (Hl : LoadBatteryCapacityLimitFreq c (new_SocPerf 0) = Some (tt, s0)) by (vm_compute; reflexivity).
  assert (Hs : same_tags (socperfBatteryConfig_ s0)).
  { intros c1 c2 f1 f2 t H1 H2 H3.
    assert (Hall : map_Forall (fun _ f => freq_tags f = [1005]) (socperfBatteryConfig_ s0)).
    { apply (bool_decide_unpack _). vm_compute. exact I. }
    rewrite (Hall _ _ H1) in H3. by rewrite (Hall _ _ H2). }
  assert (He : forall l : list (ResData json), (forall d, d ∈ l -> d ∈ evs ++ [battery_event 9 1]) ->
    forall d, d ∈ l -> is_Some (charging d) /\ - 2 ^ 31 <= rd_value d).
  { intros l Hsub d Hd. apply Hsub, list_elem_of_In in Hd.
    assert (Hall : forallb (fun d : ResData json => bool_decide (is_Some (charging d)) && (- 2 ^ 31 <=? rd_value d))
                     (evs ++ [battery_event 9 1]) = true) by (vm_compute; reflexivity).
    rewrite forallb_forall in Hall. apply Hall, andb_true_iff in Hd as [H1 H2].
    split; [exact (bool_decide_eq_true_1 _ H1)|by apply Z.leb_le]. }
  split.
  - destruct (battery_limits_in_force c 0 s0 evs Hc Hl Hs) as (s' & E1 & E2).
    { apply He. intros d Hd. apply elem_of_app. by left. }
    exists s'. split; [exact E1|]. rewrite E2. vm_compute. reflexivity.
  - destruct (battery_limits_in_force c 0 s0 (evs ++ [battery_event 9 1]) Hc Hl Hs) as (s' & E1 & E2).
    { by apply He. }
    exists s'. split; [exact E1|]. rewrite E2. vm_compute. reflexivity.
Defined.
