(* ===== verification/SocPerfMode.v ===== *)
(** * SocPerf plugin: the weak interaction mode

    The mode is on when it is enabled, no customised game runs and no focused
    application is one of the configured ones. *)
From S2P Require Import Prelude Json ResType PluginConfig PluginMgr SignatureValidator SocPerf SocPerfHandlers SocPerfFacts.

(** ** SocPerf plugin: start

    Which event types the plugin subscribes to and which it handles. *)
Lemma elem_of_set_in_order X x : x ∈ set_in_order X <-> x ∈ X.
Proof. unfold set_in_order. rewrite merge_sort_Permutation. apply elem_of_elements. Qed.
Lemma elem_of_pairs_in_order X x : x ∈ pairs_in_order X <-> x ∈ X.
Proof. unfold pairs_in_order. rewrite merge_sort_Permutation. apply elem_of_elements. Qed.

Lemma lookup_insert_handler_None kv m t :
  insert_handler kv m !! t = None <-> m !! t = None /\ t <> kv.1.
Proof.
  destruct kv as [k h]. unfold insert_handler. simpl. destruct (m !! k) eqn:E.
  - split; [|tauto]. intros Ht. split; [done|congruence].
  - rewrite lookup_insert_None. naive_solver.
Qed.

(** A type has a handler when it is in the list of entries. *)
Lemma insert_handlers_dom l m t :
  is_Some (insert_handlers l m !! t) <-> is_Some (m !! t) \/ t ∈ l.*1.
Proof.
  revert m. induction l as [|kv l IH]; intros m; simpl.
  - split; [by left|]. intros [?|Ht]; [done|]. by apply elem_of_nil in Ht.
  - rewrite IH, elem_of_cons, <- !not_eq_None_Some, lookup_insert_handler_None.
    destruct (decide (t = kv.1)); tauto.
Qed.

Lemma elem_of_when_built {A} b (l : list A) x : x ∈ when_built b l <-> b = true /\ x ∈ l.
Proof. destruct b; simpl; [tauto|]. rewrite elem_of_nil. naive_solver. Qed.

Section start.
Context {J K : Type} `{!Json J} {B : Build} {SB : SocBuild} `{!SocEnv K} `{!SignatureChecker K}.
Implicit Types (s : SocPerf K) (p : PluginMgr J (SocPerf K)).

(** The tables belong to the configured event types; [X] and [Y] are the event types
    to subscribe to. *)
Context (X : gset Z) (Y : gset (Z * Z)).
Definition tables s : Prop :=
  X = sp_resTypes s /\ Y = sp_resTypeWithVal_ s /\
  sp_resTypes s = list_to_set (soc_resTypes s) /\
  sp_resTypeWithVal_ s = list_to_set (soc_resTypeWithVal s) /\
  functionMap s = insert_handlers (first_handlers ++ event_handlers s) ∅.

(** What is subscribed. *)
Definition listed (t : Z) p : Prop := LIB_NAME ∈ GetPluginListByResType t p.
Definition listed_at (t v : Z) p : Prop :=
  LIB_NAME ∈ GetPluginListByResTypeAndValue t v p \/ listed t p.
Definition all_listed p : Prop :=
  (forall t, t ∈ X -> listed t p) /\ (forall t v, (t, v) ∈ Y -> listed_at t v p).
Definition started p : Prop := tables (host p) /\ all_listed p.

(** Steps that leave the tables alone. *)
#[local] Hint Extern 2 (safe _ (st_modify _)) =>
  apply safe_modify; intros ? Hsame; exact Hsame : safe.
Lemma tables_call c : safe tables (call (K := K) c).
Proof. unfold call. safe_auto. Qed.
Lemma tables_on_env {A} (f : K -> A * K) : safe tables (on_env f).
Proof. intros s Hs. unfold on_env. destruct (f (sp_env s)). exact Hs. Qed.
#[local] Hint Resolve tables_call tables_on_env : safe.

Lemma tables_for_each_sub (f : SubItem -> ST (SocPerf K) unit) c :
  (forall sub, safe tables (f sub)) -> safe tables (for_each_sub f c).
Proof. intros Hf. unfold for_each_sub. safe_auto. Qed.

Lemma tables_any_key_app uids : safe tables (any_key_app (K := K) uids).
Proof. induction uids; simpl; unfold is_key_app; safe_auto. Qed.
#[local] Hint Resolve tables_any_key_app : safe.

Lemma tables_LoadWeakInterAction c : safe tables (LoadWeakInterAction (K := K) c).
Proof.
  apply tables_for_each_sub. intros sub. unfold SetWeakActionEnable, UpdateWeakActionStatus. safe_auto.
Qed.
Lemma tables_LoadSpecialExtension c : safe tables (LoadSpecialExtension (K := K) c).
Proof. apply tables_for_each_sub. intros sub. unfold AddSpecialExtension. safe_auto. Qed.
Lemma tables_InitBundleNameBoostLists c : safe tables (InitBundleNameBoostLists (K := K) c).
Proof. apply tables_for_each_sub. intros sub. safe_auto. Qed.
Lemma tables_LoadPerfCrucialSo c : safe tables (LoadPerfCrucialSo (K := K) c).
Proof.
  unfold LoadPerfCrucialSo, InitPerfCrucialFunc. apply safe_bind; [|intros _; safe_auto].
  apply tables_for_each_sub. intros sub. safe_auto.
Qed.
Lemma tables_LoadBattery c : safe tables (LoadBatteryCapacityLimitFreq (K := K) c).
Proof. unfold LoadBatteryCapacityLimitFreq, HandleBatterySubValue. safe_auto. Qed.
Lemma tables_LoadPolicyMode c c' : safe tables (LoadPolicyMode (K := K) c c').
Proof.
  unfold LoadPolicyMode. safe_auto. apply safe_modify. intros s Hs. by destruct (ApplyPolicyLimits _ _ _).
Qed.

(** Parts of the start keep what is subscribed. *)
Lemma started_in_plugin {A} (m : ST (SocPerf K) A) : safe tables m -> safe started (in_plugin (J := J) m).
Proof.
  intros Hm p [Ht Hl]. specialize (Hm _ Ht). unfold in_plugin. destruct (m (host p)) as [[a s]|]; [|done].
  split; [exact Hm|exact Hl].
Qed.
Lemma started_with_config name use : (forall c, safe tables (use c)) -> safe started (with_config (J := J) name use).
Proof.
  intros Hu. unfold with_config. apply safe_get_bind. intros p Hp. apply safe_bind; [by apply started_in_plugin|].
  intros _. apply safe_modify. intros p' Hp'. exact Hp'.
Qed.

Lemma soc_add_lib_lookup {A} `{!EqDecision A} `{!Countable A} lib k (m : gmap A (list string)) k' :
  default [] (add_lib lib k m !! k') = default [] (m !! k') ++ (if decide (k' = k) then [lib] else []).
Proof.
  unfold add_lib. destruct (decide (k' = k)) as [->|].
  - by rewrite lookup_insert_eq.
  - rewrite lookup_insert_ne by done. by rewrite app_nil_r.
Qed.

Lemma run_subscribe_all l p : exists p', st_iter (SubscribeResource (J := J) LIB_NAME) l p = Some (tt, p') /\
  host p' = host p /\ (forall t, listed t p' <-> listed t p \/ t ∈ l) /\
  resTyperesValueLibMap_ p' = resTyperesValueLibMap_ p.
Proof.
  revert p. induction l as [|x l IH]; intros p; simpl st_iter.
  { exists p. split_and!; try done. intros t. rewrite elem_of_nil. tauto. }
  destruct (IH (p <| resTypeLibMap_ ::= add_lib LIB_NAME x |>)) as (p' & E1 & E2 & E3 & E4).
  exists p'. split_and!; [exact E1|exact E2| |exact E4]. intros t. rewrite E3. unfold listed at 1 2, GetPluginListByResType.
  simpl. rewrite soc_add_lib_lookup, elem_of_app, elem_of_cons.
  destruct (decide (t = x)); [rewrite list_elem_of_singleton|rewrite elem_of_nil]; tauto.
Qed.

Lemma run_subscribe_accurately_all l p : exists p',
  st_iter (fun '(t, v) => SubscribeResourceAccurately (J := J) LIB_NAME t v) l p = Some (tt, p') /\
  host p' = host p /\ (forall t, listed t p -> listed t p') /\
  (forall t v, (t, v) ∈ l \/ listed_at t v p -> listed_at t v p').
Proof.
  revert p. induction l as [|[x y] l IH]; intros p; simpl st_iter.
  { exists p. split_and!; try done. intros t v [?%elem_of_nil|]; done. }
  assert (Hstep : exists p1, SubscribeResourceAccurately (J := J) LIB_NAME x y p = Some (tt, p1) /\ host p1 = host p /\
    (forall t, listed t p -> listed t p1) /\ (forall t v, (t, v) = (x, y) \/ listed_at t v p -> listed_at t v p1)).
  { unfold SubscribeResourceAccurately, SubscribeResource. simpl. rewrite run_get_bind.
    unfold listed_at, listed, GetPluginListByResTypeAndValue, GetPluginListByResType.
    destruct (negb _); (eexists; split_and!; [reflexivity|reflexivity|..]); simpl.
    - intros t Ht. rewrite soc_add_lib_lookup, elem_of_app. by left.
    - intros t v Ht. rewrite soc_add_lib_lookup, elem_of_app.
      destruct Ht as [[= -> ->]|[?|?]]; [|tauto..]. right. right. rewrite decide_True by done.
      by apply list_elem_of_singleton.
    - done.
    - intros t v Ht. rewrite soc_add_lib_lookup, elem_of_app.
      destruct Ht as [[= -> ->]|[?|?]]; [|tauto..]. left. right. rewrite decide_True by done.
      by apply list_elem_of_singleton. }
  destruct Hstep as (p1 & E & Eh & Hs1 & Hs2). destruct (IH p1) as (p' & E1 & E2 & E3 & E4).
  exists p'. split_and!; [unfold mbind, ST_bind; by rewrite E|congruence|auto|].
  intros t v [[Hx|Hx]%elem_of_cons|Hx]; apply E4; [right; apply Hs2; by left|by left|right; apply Hs2; by right].
Qed.

(** The start from the moment the tables are made. *)
Definition start_rest (boost : bool) : ST (PluginMgr J (SocPerf K)) unit :=
  in_plugin (st_modify (fun s => s <| socperfGameBoostSwitch_ := boost |>));;
  InitSpecialExtension;;
  p ← st_get;
  st_iter (fun resType => SubscribeResource LIB_NAME resType) (set_in_order (sp_resTypes (host p)));;
  st_iter (fun '(resType, val) => SubscribeResourceAccurately LIB_NAME resType val)
    (pairs_in_order (sp_resTypeWithVal_ (host p)));;
  InitPerfCrucialSo;; InitBundleNameBoostList;; InitWeakInterAction;; InitBatteryCapacityLimitFreq;; InitPolicyMode.

Lemma run_start_rest boost :
  spec False (fun q => tables (host q)) (start_rest boost) (fun _ => started).
Proof.
  unfold start_rest. apply spec_seq; [apply (safe_in_plugin tables); safe_auto|intros _].
  apply spec_seq; [by apply (safe_with_config tables); intros; apply tables_LoadSpecialExtension|intros _].
  intros q Hq. rewrite run_get_bind. pose proof Hq as (EX & EY & _).
  destruct (run_subscribe_all (set_in_order (sp_resTypes (host q))) q) as (q1 & E1 & H1 & L1 & _).
  destruct (run_subscribe_accurately_all (pairs_in_order (sp_resTypeWithVal_ (host q))) q1) as (q2 & E2 & H2 & L2 & A2).
  erewrite run_bind by exact E1. erewrite run_bind by exact E2.
  assert (Hs : started q2).
  { split; [by rewrite H2, H1|]. split.
    - intros t Ht. apply L2, L1. right. apply elem_of_set_in_order. by rewrite <- EX.
    - intros t v Ht. apply A2. left. apply elem_of_pairs_in_order. by rewrite <- EY. }
  revert Hs. generalize q2. change (safe started (InitPerfCrucialSo (J := J) (K := K);; InitBundleNameBoostList;;
    InitWeakInterAction;; InitBatteryCapacityLimitFreq;; InitPolicyMode)).
  apply safe_bind; [by apply started_with_config, tables_LoadPerfCrucialSo|intros _].
  apply safe_bind; [by apply started_with_config, tables_InitBundleNameBoostLists|intros _].
  apply safe_bind; [by apply started_with_config, tables_LoadWeakInterAction|intros _].
  apply safe_bind; [by apply started_with_config, tables_LoadBattery|intros _].
  unfold InitPolicyMode, PluginMgr_RemoveConfig. safe_auto. by apply started_in_plugin, tables_LoadPolicyMode.
Qed.
End start.

Section types.
Context {J K : Type} `{!Json J} {B : Build} {SB : SocBuild} `{!SocEnv K} `{!SignatureChecker K}.
Implicit Types (s : SocPerf K) (p : PluginMgr J (SocPerf K)).

Ltac find_member := repeat first [apply list_elem_of_here | apply list_elem_of_further].
Ltac each_member :=
  unfold first_handlers, event_handlers, other_handlers, soc_resTypes, soc_other_resTypes, soc_resTypeWithVal, when_built;
  destruct CUST_SOC_PERF, CROWN_POWER_KEY, FILE_COPY_SOC_PERF; simpl;
  repeat match goal with |- context [negb ?b] => destruct (negb b); simpl end;
  repeat (apply Forall_cons; split); try apply Forall_nil.

(** Every handled type is to be subscribed to, as a whole or with some value. *)
Lemma handled_types s t :
  t ∈ (first_handlers ++ event_handlers s).*1 -> t ∈ soc_resTypes s \/ exists v, (t, v) ∈ soc_resTypeWithVal s.
Proof.
  revert t. apply Forall_forall. each_member;
    first [ exact I | left; by find_member | right; eexists; by find_member ].
Qed.

(** The two types that are subscribed to in every build but handled in one only. *)
Definition unhandled (t : Z) : Prop :=
  CROWN_POWER_KEY = false /\ (t = RES_TYPE_MMI_INPUT_POWER_KEY \/ t = RES_TYPE_CROWN_ROTATION_STATUS).

Lemma subscribed_types s t :
  t ∈ soc_resTypes s \/ (exists v, (t, v) ∈ soc_resTypeWithVal s) ->
  t ∈ (first_handlers ++ event_handlers s).*1 \/ unhandled t.
Proof.
  intros [Ht|[v Ht]].
  - revert t Ht. apply Forall_forall. unfold unhandled. each_member;
      first [ exact I | left; by find_member | right; split; [done|]; by (left + right) ].
  - change t with (t, v).1. revert Ht. generalize (t, v). clear t v. apply Forall_forall. unfold unhandled. each_member;
      first [ exact I | left; by find_member ].
Qed.

(** The plugin is subscribed to what it handles.  From any parameters, and in
    every build, the start subscribes to each event type that has a handler, as a
    whole or with single values, and each type and value of its lists is subscribed;
    conversely each of them has a handler, except that the power key and the crown
    are subscribed to also in a build without their handlers. *)
Theorem soc_handled_types_are_subscribed p :
  exists p', SocPerf_Init (J := J) p = Some (tt, p') /\
    (forall t h, functionMap (host p') !! t = Some h ->
       listed t p' \/ exists v, listed_at t v p') /\
    (forall t, t ∈ sp_resTypes (host p') -> listed t p') /\
    (forall t v, (t, v) ∈ sp_resTypeWithVal_ (host p') -> listed_at t v p') /\
    (forall t, t ∈ sp_resTypes (host p') \/ (exists v, (t, v) ∈ sp_resTypeWithVal_ (host p')) ->
       is_Some (functionMap (host p') !! t) \/ unhandled t).
Proof.
  assert (Hid : safe (fun _ : PluginMgr J (SocPerf K) => True) InitEventId).
  { apply (safe_with_config (fun _ => True)). intros c s _. 
    assert (Hs : safe (fun _ => True) (LoadEventId (K := K) c)).
    { unfold LoadEventId, for_each_sub. safe_auto; by apply safe_modify. }
    exact (Hs s I). }
  destruct (safe_run _ _ p Hid I) as ([] & p1 & E1 & _).
  set (s1 := host p1).
  set (X := list_to_set (soc_resTypes s1) : gset Z).
  set (Y := list_to_set (soc_resTypeWithVal s1) : gset (Z * Z)).
  set (p2 := p1 <| host := s1 <| sp_resTypes := X |> <| sp_resTypeWithVal_ := Y |>
                    <| functionMap := insert_handlers (first_handlers ++ event_handlers s1) ∅ |> |>).
  set (boost := feature_switch SUB_ITEM_KEY_NAME_SOCPERF_GAME_BOOST
                  (PluginMgr_GetConfig PLUGIN_NAME CONFIG_NAME_SOCPERF_FEATURE_SWITCH p2)).
  set (p3 := p2 <| configReader_ ::= fmap (ConfigReader_RemoveConfig PLUGIN_NAME CONFIG_NAME_SOCPERF_FEATURE_SWITCH) |>).
  assert (Ht : tables X Y (host p3)) by done.
  pose proof (run_start_rest X Y boost p3 Ht) as Hr.
  assert (E : SocPerf_Init p = start_rest boost p3) by (unfold SocPerf_Init; erewrite run_bind by exact E1; reflexivity).
  rewrite E. destruct (start_rest boost p3) as [[[] p']|]; [|done].
  destruct Hr as [(EX & EY & HX & HY & Hf) [H1 H2]]. exists p'. split; [done|]. rewrite <- EX, <- EY.
  assert (Hh : forall t, is_Some (functionMap (host p') !! t) <-> t ∈ (first_handlers ++ event_handlers (host p')).*1).
  { intros t. rewrite Hf, insert_handlers_dom, lookup_empty. split; [intros [[]|]; done|by right]. }
  assert (HXm : forall t, t ∈ X <-> t ∈ soc_resTypes (host p')) by (intros t; by rewrite EX, HX, elem_of_list_to_set).
  assert (HYm : forall x, x ∈ Y <-> x ∈ soc_resTypeWithVal (host p')) by (intros x; by rewrite EY, HY, elem_of_list_to_set).
  split_and!; [|exact H1|exact H2|].
  - intros t h Hth. destruct (handled_types (host p') t) as [Hin|[v Hin]]; [by apply Hh; rewrite Hth| |].
    + left. by apply H1, HXm.
    + right. exists v. by apply H2, HYm.
  - intros t Hin. destruct (subscribed_types (host p') t) as [Hs|Hs]; [|left; by apply Hh|by right].
    destruct Hin as [Hin|[v Hin]]; [left; by apply HXm|right; exists v; by apply HYm].
Qed.
End types.

Section mode.
Context {J K : Type} `{!Json J} {B : Build} {SB : SocBuild} `{!SocEnv K} `{!SignatureChecker K}.
Implicit Types (data : ResData J) (s : SocPerf K).

(** The verdict on a signature depends on the name alone. *)
Context (verdict : string -> Z) (Hverdict : forall n (k : K), check_signature n k = (verdict n, k)).

(** ** What the mode should be *)

Definition key_app s (uid : Z) : bool :=
  match uidToAppMsgMap_ s !! uid with
  | None => false
  | Some msg =>
      (bool_decide (msg_bundleName msg ∈ keyAppName_ s) && (verdict (msg_bundleName msg) =? CHECK_OK))
      || bool_decide (msg_appType msg ∈ keyAppType_ s)
  end.
Definition weak_mode s : bool :=
  weakActionEnable_ s && negb (custGameState_ s) && negb (existsb (key_app s) (set_in_order (focusAppUids_ s))).

(** The state after the mode was brought up to date: the service is told of a change,
    and only of a change. *)
Definition weak_updated s : SocPerf K :=
  if Bool.eqb (weak_mode s) (weakActionStatus_ s) then s
  else s <| weakActionStatus_ := weak_mode s |>
         <| sp_calls ::= fun l => l ++ [RequestDeviceMode WEAK_ACTION_MODE (weak_mode s)] |>.

Lemma run_is_key_app uid s : is_key_app uid s = Some (key_app s uid, s).
Proof.
  unfold is_key_app, key_app. rewrite run_get_bind. destruct (uidToAppMsgMap_ s !! uid) as [msg|]; [|done].
  destruct (bool_decide (_ ∈ keyAppName_ s)); [|done]. unfold mbind, ST_bind, on_env. rewrite Hverdict. simpl.
  assert (E : s <| sp_env := sp_env s |> = s) by by destruct s. by rewrite E.
Qed.

Lemma run_any_key_app uids s : any_key_app uids s = Some (existsb (key_app s) uids, s).
Proof.
  induction uids as [|uid uids IH]; [done|]. cbn [any_key_app existsb].
  erewrite run_bind by apply run_is_key_app. by destruct (key_app s uid).
Qed.

Lemma run_UpdateWeakActionStatus s : UpdateWeakActionStatus s = Some (tt, weak_updated s).
Proof.
  unfold UpdateWeakActionStatus. rewrite run_get_bind. erewrite run_bind by apply run_any_key_app.
  assert (E : (if custGameState_ s then false
               else if existsb (key_app s) (set_in_order (focusAppUids_ s)) then false else weakActionEnable_ s)
              = weak_mode s).
  { unfold weak_mode. destruct (custGameState_ s), (existsb _ _), (weakActionEnable_ s); done. }
  cbv zeta. rewrite E. unfold weak_updated. by destruct (Bool.eqb _ _).
Qed.

Lemma weak_updated_status s : weakActionStatus_ (weak_updated s) = weak_mode s.
Proof. unfold weak_updated. destruct (Bool.eqb _ _) eqn:E; [by apply Bool.eqb_prop in E|done]. Qed.

Lemma weak_updated_mode s : weak_mode (weak_updated s) = weak_mode s.
Proof. unfold weak_updated. by destruct (Bool.eqb _ _). Qed.

(** Steps that touch neither the mode nor what it depends on. *)
Definition mode_is (b w : bool) s : Prop := weakActionStatus_ s = b /\ weak_mode s = w.
#[local] Hint Extern 2 (keeps _ (st_modify _)) =>
  apply keeps_modify; intros ? Hsame; exact Hsame : keeps.

(** ** Focus *)

#[local] Hint Extern 1 (keeps _ (on_env _)) =>
  intros ? ?; unfold on_env; destruct (_ (sp_env _)); assumption : keeps.

Lemma keeps_reqAppType b name : keeps (fun s => weakActionStatus_ s = b) (reqAppType (K := K) name).
Proof. intros s Hs. unfold reqAppType, on_env, st_undefined. rewrite run_get_bind.
  destruct (negb _); [done|]. by destruct (se_reqAppType _ _). Qed.
Lemma keeps_name b uid : keeps (fun s => weakActionStatus_ s = b) (SocPerf_GetBundleNameByUid (K := K) uid).
Proof.
  intros s Hs. unfold SocPerf_GetBundleNameByUid, mbind, ST_bind, st_get, on_env.
  destruct (negb _); [done|]. destruct (negb _); [done|]. by destruct (se_GetNameForUid _ _).
Qed.
#[local] Hint Resolve keeps_reqAppType keeps_name : keeps.

(** The state in which the focus is recorded. *)
Definition focused data s : SocPerf K := s <| focusAppUids_ ::= fun X => {[GetUidByData data]} ∪ X |>.

Lemma weak_updated_map s : uidToAppMsgMap_ (weak_updated s) = uidToAppMsgMap_ s.
Proof. unfold weak_updated. by destruct (Bool.eqb _ _). Qed.

Lemma focus_effect data s s' :
  GetUidByData data <> INVALID_VALUE -> UpdateFocusAppType data true s = Some (tt, s') ->
  weakActionStatus_ s' = weak_mode (focused data s) /\
  (is_Some (uidToAppMsgMap_ s !! GetUidByData data) -> weak_mode s' = weak_mode (focused data s)).
Proof.
  intros Hu. apply Z.eqb_neq in Hu. unfold UpdateFocusAppType. rewrite Hu. cbn [negb].
  erewrite run_bind by reflexivity. fold (focused data s). erewrite run_bind by apply run_UpdateWeakActionStatus.
  cbv zeta. rewrite run_get_bind, weak_updated_map. change (uidToAppMsgMap_ (focused data s)) with (uidToAppMsgMap_ s).
  pose proof (weak_updated_status (focused data s)) as Hw. pose proof (weak_updated_mode (focused data s)) as Hm.
  destruct (uidToAppMsgMap_ s !! _) as [msg|]; intros E.
  - assert (Hk : mode_is (weak_mode (focused data s)) (weak_mode (focused data s)) s').
    { eapply keeps_run; [| |exact E]; [keeps_auto|done]. }
    destruct Hk. done.
  - split; [|by intros []]. eapply (keeps_run (fun s0 => weakActionStatus_ s0 = weak_mode (focused data s)));
      [|exact Hw|exact E]. keeps_auto.
Qed.

Lemma unfocus_effect data s s' :
  GetUidByData data <> INVALID_VALUE -> UpdateFocusAppType data false s = Some (tt, s') ->
  weakActionStatus_ s' = weak_mode s'.
Proof.
  intros Hu. apply Z.eqb_neq in Hu. unfold UpdateFocusAppType. rewrite Hu. cbn [negb].
  erewrite run_bind by reflexivity. erewrite run_bind by apply run_UpdateWeakActionStatus.
  intros E. injection E as <-. simpl. change (weakActionStatus_ (weak_updated (s <| focusAppUids_ ::= fun X => X ∖ {[GetUidByData data]} |>))
    = weak_mode (weak_updated (s <| focusAppUids_ ::= fun X => X ∖ {[GetUidByData data]} |>))).
  by rewrite weak_updated_status, weak_updated_mode.
Qed.

(** ** Customised games *)

Lemma cust_game_effect uid data s s' b :
  UpdateCustGameState uid data s = Some (b, s') ->
  b = custGameState_ s' /\ weakActionStatus_ s' = weak_mode s'.
Proof.
  unfold UpdateCustGameState. intros E.
  match type of E with (?m ≫= ?k) s = _ => assert (Hm : exists s1, m s = Some (tt, s1)) end.
  { destruct (_ =? GAME_GEE_FOCUS_STATE); [by eexists|]. unfold st_when. destruct (_ =? _); by eexists. }
  destruct Hm as [s1 Hm]. erewrite run_bind in E by exact Hm. clear Hm.
  erewrite run_bind in E by apply run_UpdateWeakActionStatus. rewrite run_get_bind in E. injection E as <- <-.
  by rewrite weak_updated_status, weak_updated_mode.
Qed.

(** C14: The weak mode follows focus and games. With verdicts on signatures that depend on the
    name alone, in a state of the invariant [soc_inv] and for an event with a valid uid: after
    an application lost the focus, and after a customised game gained or lost it, the handler
    returned and the mode is on exactly when it is enabled, no customised game runs and no
    focused application is a configured one; after an application gained the focus the same
    holds if its type was known before. If it was not, the mode is still the one without the
    type that was just learned. *)
Theorem weak_mode_follows data s :
  soc_inv s -> GetUidByData data <> INVALID_VALUE ->
  (rd_value data = WINDOW_UNFOCUS -> exists s', HandleWindowFocus data s = Some (tt, s') /\
     weakActionStatus_ s' = weak_mode s') /\
  (rd_value data = WINDOW_FOCUS -> exists s', HandleWindowFocus data s = Some (tt, s') /\
     weakActionStatus_ s' = weak_mode (focused data s) /\
     (is_Some (uidToAppMsgMap_ s !! GetUidByData data) -> weakActionStatus_ s' = weak_mode s')) /\
  (forall game, is_Some (find_integer UID_NAME (rd_payload game)) ->
     find_integer GAME_ENV (rd_payload game) = Some GAME_CUST ->
     exists s', HandleGameStateChange game s = Some (tt, s') /\ weakActionStatus_ s' = weak_mode s').
Proof.
  intros Hinv Hu.
  assert (Hrun : forall h d, throws h d = false -> exists s', run_handler h d s = Some (tt, s')).
  { intros h d Ht. destruct (safe_run soc_inv (run_handler h d) s) as ([] & s' & E & _); [|done|eauto].
    apply inv_safe. intros func lib Hl. by apply safe_run_handler. }
  split_and!.
  - intros Hv. destruct (Hrun HWindowFocus data eq_refl) as [s' E]. exists s'. split; [exact E|].
    simpl in E. unfold HandleWindowFocus in E. rewrite Hv in E. simpl in E. by eapply unfocus_effect.
  - intros Hv. destruct (Hrun HWindowFocus data eq_refl) as [s' E]. exists s'. split; [exact E|].
    simpl in E. unfold HandleWindowFocus in E. rewrite Hv in E. simpl in E.
    erewrite run_bind in E by reflexivity. destruct (focus_effect data _ s' Hu E) as [H1 H2].
    split; [exact H1|]. intros Hk. by rewrite H1, <- H2.
  - intros d [z Ez] Eg. destruct (Hrun HGameStateChange d eq_refl) as [s' E]. exists s'. split; [exact E|].
    simpl in E. unfold HandleGameStateChange in E. rewrite Ez, Eg in E. simpl in E.
    destruct (UpdateCustGameState (to_s32 z) d s) as [[b s1]|] eqn:Ec; [|unfold mbind, ST_bind in E; by rewrite Ec in E].
    erewrite run_bind in E by exact Ec. injection E as <-. apply cust_game_effect in Ec as [-> Hw].
    assert (Es : s1 <| custGameState_ := custGameState_ s1 |> = s1) by by destruct s1. by rewrite Es.
Qed.
End mode.

(** A game gets the focus for the first time: the mode stays on although it should be
    off, until the next change. *)
Lemma weak_mode_follows_witness :
  let s := host soc_demo_started in
  let data := soc_event RES_TYPE_WINDOW_FOCUS WINDOW_FOCUS [(UID_NAME, JString "100")] in
  exists s', HandleWindowFocus data s = Some (tt, s') /\ weakActionStatus_ s' = true /\
    weak_mode (fun _ => CHECK_OK) s' = false.
Proof.
  intros s data.
  assert (Hv : forall n (k : Z), check_signature n k = (CHECK_OK, k)) by reflexivity.
  destruct (weak_mode_follows (fun _ => CHECK_OK) Hv data s soc_demo_inv) as (_ & Hf & _);
    [vm_compute; discriminate|].
  destruct (Hf eq_refl) as (s' & E & Hw & _). exists s'. split; [exact E|]. split.
  - rewrite Hw. vm_compute. reflexivity.
  - assert (Em : weak_mode (fun _ => CHECK_OK) s'
                 = match HandleWindowFocus data s with Some (_, s) => weak_mode (fun _ => CHECK_OK) s | None => true end)
      by (rewrite E; reflexivity).
    rewrite Em. vm_compute. reflexivity.
Defined.
