(* ===== verification/SignatureFacts.v ===== *)
(** * Signatures: the caches are transparent

    The validator keeps two caches.  Against a service whose answers change only when
    an application is installed, removed or updated, and which tells the validator
    so, they never show: every check answers as it would without them. *)
From S2P Require Import Prelude SignatureValidator.

(** Queries do not change the service, and it agrees with itself about names. *)
Class PureBundleMgr (K : Type) `{!BundleMgr K} := {
  pure_name u (k : K) : (bm_GetBundleNameByUid u k).2 = k;
  pure_uid n u (k : K) : (bm_GetUidByBundleName n u k).2 = k;
  pure_signature u (k : K) : (bm_GetSignatureInfoByUid u k).2 = k;
  pure_users (k : K) : (bm_GetCurrentUserId k).2 = k;
  uid_has_name n u (k : K) :
    0 <= (bm_GetUidByBundleName n u k).1 ->
    (bm_GetBundleNameByUid (bm_GetUidByBundleName n u k).1 k).1 = n;
}.

Section facts.
Context {K : Type} `{!BundleMgr K}.
#[local] Abbreviation V := (Validator K).
Implicit Types (k : K) (v : V) (n : string).

(** ** The check without caches *)

Definition name_of k u : string := (bm_GetBundleNameByUid u k).1.
Definition signature_of k u : Z * string := (bm_GetSignatureInfoByUid u k).1.

Fixpoint find_uid k n (uid : Z) (users : list Z) : Z :=
  match users with
  | [] => uid
  | userId :: users =>
      let uid := (bm_GetUidByBundleName n userId k).1 in
      if uid >=? 0 then uid else find_uid k n uid users
  end.
Definition uid_of k n : Z := find_uid k n (-1) (bm_GetCurrentUserId k).1.

Definition plain_signature (cfg : gmap string string) k n (uid : Z) : Z :=
  match cfg !! n with
  | None => ERR_NO_SIGNATURE_CONFIG
  | Some c =>
      if (signature_of k uid).1 =? 0
      then if String.eqb (signature_of k uid).2 c then CHECK_OK else ERR_SIGNATURE_NO_MATCH
      else ERR_INTERNAL_ERROR
  end.

Definition plain_check (cfg : gmap string string) k n : Z :=
  if String.eqb n "" then ERR_PARAM_INVALID
  else if uid_of k n <? 0 then ERR_INTERNAL_ERROR else plain_signature cfg k n (uid_of k n).

Definition plain_check_uid (cfg : gmap string string) k (uid : Z) : Z :=
  if String.eqb (name_of k uid) "" then ERR_INTERNAL_ERROR
  else plain_signature cfg k (name_of k uid) uid.

(** ** Histories *)

(** What can happen to the validator: a check of one of the three kinds, a change of
    one application in the service (which becomes [k]) with its notice, and a new
    part of the configuration. *)
Inductive SigOp :=
  | SCheck (bundleName : string)
  | SCheckUid (uid : Z)
  | SCheckInList (whiteList : list string) (bundleName : string)
  | SInstall (bundleName : string) (k : K)
  | SConfig (config : list (string * string)).

Definition exec_sig (op : SigOp) v : list Z * V :=
  match op with
  | SCheck n => let '(r, v) := CheckSignatureByBundleName n v in ([r], v)
  | SCheckUid u => let '(r, v) := CheckSignatureByUid u v in ([r], v)
  | SCheckInList l n => let '(r, v) := CheckBundleInList l n v in ([r], v)
  | SInstall n k => ([], OnAppInstallChanged n (v <| bundleMgr_ := k |>))
  | SConfig l => ([], AddSignatureConfig l v)
  end.

Fixpoint run_sig (ops : list SigOp) v : list Z * V :=
  match ops with
  | [] => ([], v)
  | op :: ops => let '(r, v) := exec_sig op v in let '(rs, v) := run_sig ops v in (r ++ rs, v)
  end.

Definition add_config (l : list (string * string)) (cfg : gmap string string) : gmap string string :=
  foldl (fun cfg kv => <[kv.1 := kv.2]> cfg) cfg l.

Fixpoint plain_run (ops : list SigOp) (cfg : gmap string string) k : list Z :=
  match ops with
  | [] => []
  | SCheck n :: ops => plain_check cfg k n :: plain_run ops cfg k
  | SCheckUid u :: ops => plain_check_uid cfg k u :: plain_run ops cfg k
  | SCheckInList l n :: ops =>
      (if bool_decide (n ∈ l) && negb (String.eqb n "") then plain_check cfg k n else ERR_NOT_IN_LIST)
      :: plain_run ops cfg k
  | SInstall n k' :: ops => plain_run ops cfg k'
  | SConfig l :: ops => plain_run ops (add_config l cfg) k
  end.

(** A change of one application leaves the users, and what the service says of every
    other application, as they were. *)
Definition only_changes n k k' : Prop :=
  (forall n', n' <> n -> uid_of k' n' = uid_of k n') /\
  (forall u, name_of k u <> n -> name_of k' u = name_of k u /\ signature_of k' u = signature_of k u).

Fixpoint legal (ops : list SigOp) k : Prop :=
  match ops with
  | [] => True
  | SInstall n k' :: ops => only_changes n k k' /\ legal ops k'
  | _ :: ops => legal ops k
  end.

(** ** The invariant *)

Record coherent v : Prop := {
  coh_mgr : has_bundleMgr_ v = true;
  coh_size : Z.of_nat (size (validCache_ v)) <= MAX_SIGNATURE_CACHE;
  coh_uid n u : bundleNameToUid_ v !! n = Some u -> 0 <= u /\ uid_of (bundleMgr_ v) n = u;
  coh_valid n u b : validCache_ v !! n = Some (u, b) ->
    name_of (bundleMgr_ v) u = n /\ (signature_of (bundleMgr_ v) u).1 = 0 /\
    exists c, signatureConfig_ v !! n = Some c /\ b = String.eqb (signature_of (bundleMgr_ v) u).2 c;
}.

Context `{!PureBundleMgr K}.

Lemma on_bundleMgr_pure {A} (f : K -> A * K) v :
  (f (bundleMgr_ v)).2 = bundleMgr_ v -> on_bundleMgr f v = ((f (bundleMgr_ v)).1, v).
Proof.
  unfold on_bundleMgr. destruct (f _) as [a k]. simpl. intros ->. by destruct v.
Qed.

Lemma coherent_report n r v : coherent v -> coherent (ReportCheckError n r v).
Proof. intros []. by split. Qed.

(** Dropping an entry of either cache is harmless. *)
Lemma coherent_forget n v :
  coherent v -> coherent (v <| validCache_ ::= delete n |>).
Proof.
  intros [H1 H2 H3 H4]. split; simpl; try done.
  - etrans; [|exact H2]. apply Nat2Z.inj_le. apply map_subseteq_size, delete_subseteq.
  - intros n' u b [_ Hl]%lookup_delete_Some. by apply H4.
Qed.

Lemma coherent_new_entry n u c v :
  coherent v -> name_of (bundleMgr_ v) u = n -> (signature_of (bundleMgr_ v) u).1 = 0 ->
  signatureConfig_ v !! n = Some c ->
  coherent (UpdateSignatureCache n u (String.eqb (signature_of (bundleMgr_ v) u).2 c) v).
Proof.
  intros [H1 H2 H3 H4] Hn Hs Hc. unfold UpdateSignatureCache, MAX_SIGNATURE_CACHE in *.
  destruct (_ >=? _) eqn:E; split; simpl; try done.
  - rewrite map_size_insert, lookup_empty, map_size_empty. done.
  - intros n' u' b [[<- [= <- <-]]|[_ Hl]]%lookup_insert_Some; [eauto|]. by rewrite lookup_empty in Hl.
  - rewrite Z.geb_leb, Z.leb_gt in E. unfold MAX_SIGNATURE_CACHE. rewrite map_size_insert.
    destruct (validCache_ v !! n); unfold id; lia.
  - intros n' u' b [[<- [= <- <-]]|[_ Hl]]%lookup_insert_Some; [eauto|by apply H4].
Qed.

(** ** Checks *)

(** What a check does: it answers [r], and stays coherent with the same service and
    configuration. *)
Definition answers (r : Z) v (o : Z * V) : Prop :=
  o.1 = r /\ coherent o.2 /\ bundleMgr_ o.2 = bundleMgr_ v /\ signatureConfig_ o.2 = signatureConfig_ v.

Lemma answers_report r n reason v v' :
  coherent v' -> bundleMgr_ v' = bundleMgr_ v -> signatureConfig_ v' = signatureConfig_ v ->
  answers r v (r, ReportCheckError n reason v').
Proof. intros. split_and!; [done|by apply coherent_report|done|done]. Qed.

Lemma answers_CheckSignature n u v :
  coherent v -> name_of (bundleMgr_ v) u = n ->
  answers (plain_signature (signatureConfig_ v) (bundleMgr_ v) n u) v (CheckSignature u n v).
Proof.
  intros Hv Hn. unfold CheckSignature, plain_signature, GetSignatureFromConfig.
  rewrite (coh_mgr _ Hv). simpl.
  destruct (signatureConfig_ v !! n) as [c|] eqn:Ec; [|by apply answers_report].
  (* the miss, from a state [v'] that differs in the cache only *)
  assert (Hmiss : forall v', coherent v' -> bundleMgr_ v' = bundleMgr_ v ->
    signatureConfig_ v' = signatureConfig_ v ->
    answers (if (signature_of (bundleMgr_ v) u).1 =? 0
             then if String.eqb (signature_of (bundleMgr_ v) u).2 c then CHECK_OK else ERR_SIGNATURE_NO_MATCH
             else ERR_INTERNAL_ERROR) v
      (let '(signatureInfo, v) := GetSignatureInfo u v' in
       match signatureInfo with
       | Some signatureInfo =>
           let isValid := String.eqb signatureInfo c in
           let v := UpdateSignatureCache n u isValid v in
           let v := if negb isValid then ReportCheckError n "ERR_SIGNATURE_NO_MATCH" v else v in
           (if isValid then CHECK_OK else ERR_SIGNATURE_NO_MATCH, v)
       | None => (ERR_INTERNAL_ERROR, ReportCheckError n "ERR_INTERNAL_ERROR/GetSignatureError" v)
       end)).
  { intros v' Hv' Em Es. unfold GetSignatureInfo. rewrite on_bundleMgr_pure by apply pure_signature.
    fold (signature_of (bundleMgr_ v') u). rewrite Em.
    destruct (signature_of (bundleMgr_ v) u) as [ret info] eqn:Ei. simpl.
    destruct (ret =? 0) eqn:E0; [|by apply answers_report].
    assert (Hc : coherent (UpdateSignatureCache n u (String.eqb info c) v')).
    { pose proof (coherent_new_entry n u c v' Hv') as H. rewrite Em, Es, Ei in H. apply H; [done| |done].
      simpl. by apply Z.eqb_eq. }
    assert (Hm : bundleMgr_ (UpdateSignatureCache n u (String.eqb info c) v') = bundleMgr_ v
                 /\ signatureConfig_ (UpdateSignatureCache n u (String.eqb info c) v') = signatureConfig_ v).
    { unfold UpdateSignatureCache. by destruct (_ >=? _). }
    destruct Hm. simpl. destruct (String.eqb info c); simpl; [by split_and!|by apply answers_report]. }
  unfold CheckSignatureCache. destruct (validCache_ v !! n) as [[cu cb]|] eqn:Ev; [|by apply Hmiss].
  destruct (Z.eqb_spec cu u) as [->|]; [|apply Hmiss; [by apply coherent_forget|done..]].
  pose proof (coh_valid _ Hv _ _ _ Ev) as (_ & Es & c' & Ec' & ->). rewrite Ec in Ec'. injection Ec' as <-.
  rewrite Es. simpl. by split_and!.
Qed.

Lemma find_uid_name k n uid users :
  0 <= find_uid k n uid users -> uid < 0 -> name_of k (find_uid k n uid users) = n.
Proof.
  revert uid. induction users as [|x users IH]; intros uid; simpl; [lia|].
  destruct (_ >=? 0) eqn:E; [intros H _; by apply uid_has_name|].
  intros H _. apply IH; [done|]. rewrite Z.geb_leb, Z.leb_gt in E. lia.
Qed.

Lemma run_uid_for_users n uid users v :
  coherent v -> find_uid (bundleMgr_ v) n uid users = uid_of (bundleMgr_ v) n -> uid < 0 ->
  let o := uid_for_users n uid users v in
  o.1 = uid_of (bundleMgr_ v) n /\ coherent o.2 /\
  bundleMgr_ o.2 = bundleMgr_ v /\ signatureConfig_ o.2 = signatureConfig_ v.
Proof.
  intros Hv. revert uid. induction users as [|x users IH]; intros uid Hf Hneg; simpl in *; [done|].
  rewrite on_bundleMgr_pure by apply pure_uid.
  destruct (_ >=? 0) eqn:E; [|apply IH; [done|]; rewrite Z.geb_leb, Z.leb_gt in E; lia].
  rewrite Z.geb_leb, Z.leb_le in E. simpl. split_and!; try done.
  destruct Hv as [H1 H2 H3 H4]. split; simpl; try done.
  intros n' u' [[<- <-]|[_ Hl]]%lookup_insert_Some; [done|by apply H3].
Qed.

Lemma answers_ByBundleName n v :
  coherent v -> answers (plain_check (signatureConfig_ v) (bundleMgr_ v) n) v (CheckSignatureByBundleName n v).
Proof.
  intros Hv. unfold CheckSignatureByBundleName, plain_check. rewrite (coh_mgr _ Hv). simpl.
  destruct (String.eqb_spec n "") as [->|Hn]; [by apply answers_report|].
  assert (Hrest : forall uid v', uid = uid_of (bundleMgr_ v) n -> coherent v' ->
    bundleMgr_ v' = bundleMgr_ v -> signatureConfig_ v' = signatureConfig_ v ->
    answers (if uid_of (bundleMgr_ v) n <? 0 then ERR_INTERNAL_ERROR
             else plain_signature (signatureConfig_ v) (bundleMgr_ v) n (uid_of (bundleMgr_ v) n)) v
      (if uid <? 0 then (ERR_INTERNAL_ERROR, ReportCheckError n "ERR_INTERNAL_ERROR/ConvertUid" v')
       else CheckSignature uid n v')).
  { intros uid v' -> Hv' Em Es. destruct (_ <? 0) eqn:E; [by apply answers_report|].
    rewrite Z.ltb_ge in E. rewrite <- Em, <- Es.
    destruct (answers_CheckSignature n (uid_of (bundleMgr_ v') n) v' Hv') as (A1 & A2 & A3 & A4).
    { apply find_uid_name; [|lia]. fold (uid_of (bundleMgr_ v') n). by rewrite Em. }
    split_and!; [done|done|congruence..]. }
  destruct (bundleNameToUid_ v !! n) as [u|] eqn:Eu; simpl.
  - pose proof (coh_uid _ Hv _ _ Eu) as [Hpos Hu].
    destruct (Z.ltb_spec u 0); [lia|]. change (answers (if uid_of (bundleMgr_ v) n <? 0 then ERR_INTERNAL_ERROR
      else plain_signature (signatureConfig_ v) (bundleMgr_ v) n (uid_of (bundleMgr_ v) n)) v
      (if u <? 0 then (ERR_INTERNAL_ERROR, ReportCheckError n "ERR_INTERNAL_ERROR/ConvertUid" v)
       else CheckSignature u n v)). by apply Hrest.
  - unfold GetCurrentUserId. rewrite (coh_mgr _ Hv). simpl. rewrite on_bundleMgr_pure by apply pure_users.
    pose proof (run_uid_for_users n (-1) (bm_GetCurrentUserId (bundleMgr_ v)).1 v Hv eq_refl ltac:(lia)) as H.
    destruct (uid_for_users _ _ _ _) as [uid v']. destruct H as (E1 & E2 & E3 & E4). by apply Hrest.
Qed.

Lemma answers_ByUid u v :
  coherent v -> answers (plain_check_uid (signatureConfig_ v) (bundleMgr_ v) u) v (CheckSignatureByUid u v).
Proof.
  intros Hv. unfold CheckSignatureByUid, plain_check_uid. rewrite (coh_mgr _ Hv). simpl.
  rewrite on_bundleMgr_pure by apply pure_name. fold (name_of (bundleMgr_ v) u).
  destruct (String.eqb_spec (name_of (bundleMgr_ v) u) ""); [by apply answers_report|].
  by apply answers_CheckSignature.
Qed.

(** ** Changes *)

Lemma coherent_install n k v :
  coherent v -> only_changes n (bundleMgr_ v) k ->
  coherent (OnAppInstallChanged n (v <| bundleMgr_ := k |>)).
Proof.
  intros [H1 H2 H3 H4] [Hu Hs]. split; simpl; try done.
  - etrans; [|exact H2]. apply Nat2Z.inj_le. apply map_subseteq_size, delete_subseteq.
  - intros n' u [Hne Hl]%lookup_delete_Some. destruct (H3 _ _ Hl). by rewrite Hu.
  - intros n' u b [Hne Hl]%lookup_delete_Some. destruct (H4 _ _ _ Hl) as (En & E0 & c & Ec & Eb).
    destruct (Hs u) as [-> ->]; [congruence|]. eauto.
Qed.

Lemma AddSignatureConfig_spec l v :
  coherent v -> let v' := AddSignatureConfig l v in
  coherent v' /\ bundleMgr_ v' = bundleMgr_ v /\ signatureConfig_ v' = add_config l (signatureConfig_ v).
Proof.
  revert v. induction l as [|[n c] l IH]; intros v Hv; simpl; [done|].
  unfold AddSignatureConfig. simpl.
  destruct (IH (v <| signatureConfig_ ::= <[n:=c]> |> <| validCache_ ::= delete n |>)) as (E1 & E2 & E3); [|done].
  destruct Hv as [H1 H2 H3 H4]. split; simpl; try done.
  - etrans; [|exact H2]. apply Nat2Z.inj_le. apply map_subseteq_size, delete_subseteq.
  - intros n' u b [Hne Hl]%lookup_delete_Some. destruct (H4 _ _ _ Hl) as (En & E0 & c' & Ec & Eb).
    split_and!; try done. exists c'. by rewrite lookup_insert_ne.
Qed.

Lemma answers_InList l n v :
  coherent v ->
  answers (if bool_decide (n ∈ l) && negb (String.eqb n "")
           then plain_check (signatureConfig_ v) (bundleMgr_ v) n else ERR_NOT_IN_LIST) v
    (CheckBundleInList l n v).
Proof.
  intros Hv. unfold CheckBundleInList. destruct (String.eqb n ""); simpl;
    [rewrite orb_true_r, andb_false_r; done|]. rewrite orb_false_r, andb_true_r.
  destruct l as [|x l]; [done|]. rewrite (bool_decide_false (x :: l = [])) by done.
  case_bool_decide; [by apply answers_ByBundleName|done].
Qed.

(** C15: The caches never show.  However checks, new configurations and changes of
    applications alternate, as long as the validator is told of each change, every
    check by name, by uid or against a list answers what a check without caches
    answers at that moment; and the cache of verdicts holds at most 200 entries. *)
Theorem signature_cache_transparent k (ops : list SigOp) :
  legal ops k ->
  let v0 := InitSignatureDependencyInterface k (new_Validator k) in
  (run_sig ops v0).1 = plain_run ops ∅ k /\
  Z.of_nat (size (validCache_ (run_sig ops v0).2)) <= MAX_SIGNATURE_CACHE.
Proof.
  intros Hl v0. assert (Hv : coherent v0).
  { split; [done|done|..]; intros n u; [|intros b]; simpl; rewrite lookup_empty; done. }
  assert (Ek : bundleMgr_ v0 = k) by done. assert (Ec : signatureConfig_ v0 = ∅) by done.
  revert Hv Ek Ec. generalize v0, (∅ : gmap string string). clear v0.
  revert k Hl. induction ops as [|op ops IH]; intros k Hl v cfg Hv Ek Ec; [split; [done|apply (coh_size _ Hv)]|].
  assert (Hcheck : forall r rest o, answers r v o ->
    let '(rs, v') := run_sig ops o.2 in legal ops k -> rest = plain_run ops cfg k ->
    o.1 :: rs = r :: rest /\ Z.of_nat (size (validCache_ v')) <= MAX_SIGNATURE_CACHE).
  { intros r rest [r' v'] (E1 & E2 & E3 & E4). simpl in *.
    pose proof (fun H => IH k H v' cfg E2 ltac:(congruence) ltac:(congruence)) as H.
    destruct (run_sig ops v') as [rs v'']. intros Hleg ->. destruct (H Hleg) as [H1 H2]. simpl in *.
    split; [congruence|done]. }
  destruct op as [n|u|l n|n k'|l]; simpl in *.
  - specialize (Hcheck _ (plain_run ops cfg k) _ (answers_ByBundleName n v Hv)). subst.
    destruct (CheckSignatureByBundleName n v) as [r v'] eqn:E; simpl in *.
    destruct (run_sig ops v'). by apply Hcheck.
  - specialize (Hcheck _ (plain_run ops cfg k) _ (answers_ByUid u v Hv)). subst.
    destruct (CheckSignatureByUid u v) as [r v'] eqn:E; simpl in *.
    destruct (run_sig ops v'). by apply Hcheck.
  - specialize (Hcheck _ (plain_run ops cfg k) _ (answers_InList l n v Hv)). subst.
    destruct (CheckBundleInList l n v) as [r v'] eqn:E; simpl in *.
    destruct (run_sig ops v'). by apply Hcheck.
  - subst. destruct Hl as [Ho Hl].
    pose proof (IH k' Hl _ (signatureConfig_ v) (coherent_install n k' v Hv Ho) eq_refl eq_refl) as H.
    by destruct (run_sig ops _).
  - subst. destruct (AddSignatureConfig_spec l v Hv) as (E1 & E2 & E3).
    pose proof (IH _ Hl _ _ E1 E2 E3) as H. by destruct (run_sig ops _).
Qed.
End facts.

(** ** A service for examples: uid and signature of each application, for one user. *)
Definition demo_service : Type := list (string * (Z * string)).
#[export] Instance demo_bundleMgr : BundleMgr demo_service := {|
  bm_GetBundleNameByUid u k :=
    (match find (fun x => x.2.1 =? u) k with Some x => x.1 | None => "" end, k);
  bm_GetUidByBundleName n _ k :=
    (match find (fun x => String.eqb x.1 n) k with
     | Some x => if match find (fun y => y.2.1 =? x.2.1) k with Some y => String.eqb y.1 n | None => false end
                 then x.2.1 else -1
     | None => -1
     end, k);
  bm_GetSignatureInfoByUid u k :=
    (match find (fun x => x.2.1 =? u) k with Some x => (0, x.2.2) | None => (1, "") end, k);
  bm_GetCurrentUserId k := ([100], k);
|}.

#[export] Instance demo_pure : PureBundleMgr demo_service.
Proof.
  split; try done. intros n u k. simpl.
  destruct (find (fun x => String.eqb x.1 n) k) as [x|] eqn:Ex; [|simpl; lia].
  destruct (find (fun y => y.2.1 =? x.2.1) k) as [y|] eqn:Ey; [|simpl; lia].
  destruct (String.eqb_spec y.1 n) as [En|]; [|simpl; lia]. intros _. by rewrite Ey.
Qed.

(** A check, the same again from the cache, an update with another signature, and two
    more checks. *)
Lemma signature_cache_transparent_witness :
  let k := [("com.a", (7, "sig1")); ("com.b", (8, "sig2"))] : demo_service in
  let k' := [("com.a", (7, "other")); ("com.b", (8, "sig2"))] : demo_service in
  let ops := [SConfig [("com.a", "sig1")]; SCheck "com.a"; SCheckUid 7; SInstall "com.a" k';
              SCheck "com.a"; SCheckInList ["com.b"] "com.b"; SCheckInList ["com.b"] "com.c"] in
  legal ops k /\
  (run_sig ops (InitSignatureDependencyInterface k (new_Validator k))).1
  = [CHECK_OK; CHECK_OK; ERR_SIGNATURE_NO_MATCH; ERR_NO_SIGNATURE_CONFIG; ERR_NOT_IN_LIST] /\
  plain_run ops ∅ k = [CHECK_OK; CHECK_OK; ERR_SIGNATURE_NO_MATCH; ERR_NO_SIGNATURE_CONFIG; ERR_NOT_IN_LIST].
Proof.
  intros k k' ops. assert (Hl : legal ops k).
  { simpl. split; [|done]. split.
    - intros n Hn. unfold uid_of. cbn -[String.eqb]. destruct (String.eqb_spec "com.a" n); [congruence|].
      destruct (String.eqb_spec "com.b" n) as [<-|]; [vm_compute; reflexivity|reflexivity].
    - intros u. unfold name_of, signature_of. cbn -[Z.eqb]. by destruct (7 =? u). }
  split; [exact Hl|]. destruct (signature_cache_transparent k ops Hl) as [H _].
  split; [|reflexivity]. rewrite H. reflexivity.
Defined.
