(* ===== verification/CommonUtil.v ===== *)
(** * Common utilities

    [res_sched_string_util.cpp], [res_sched_json_util.cpp] and the size rounding of
    [res_sched_system_util.cpp].  [strtol] and its relatives belong to the C library:
    they are modelled by the text they accept.  Numbers in floating point are left out. *)
From S2P Require Import Prelude Json.

(** ** Reading numbers *)

(** [c_str()]: the text up to the first zero. *)
Fixpoint c_str (s : string) : string :=
  match s with
  | EmptyString => EmptyString
  | String c s' => if bool_decide (c = Ascii.zero) then EmptyString else String c (c_str s')
  end.

(** The digits at the front: their value after [acc], and what follows them. *)
Fixpoint read_digits (acc : Z) (s : string) : Z * string :=
  match s with
  | EmptyString => (acc, EmptyString)
  | String c s' =>
      match digit_of c with
      | Some d => read_digits (acc * 10 + d) s'
      | None => (acc, s)
      end
  end.

(** The digits after the sign; nothing when there is none. *)
Definition scan_digits (neg : bool) (s : string) : option (bool * Z * string) :=
  match s with
  | EmptyString => None
  | String c _ =>
      match digit_of c with
      | Some _ => let '(m, rest) := read_digits 0 s in Some (neg, m, rest)
      | None => None
      end
  end.

(** What the [strto] functions with base 10 find: a sign, a magnitude and the rest of
    the text. *)
Definition scan_number (s : string) : option (bool * Z * string) :=
  match skip_space s with
  | String "-"%char s' => scan_digits true s'
  | String "+"%char s' => scan_digits false s'
  | s' => scan_digits false s'
  end.

(** [strtol] at a width: the number, whether it is out of range, and the rest. *)
Definition strtol (bits : Z) (s : string) : option (Z * bool * string) :=
  match scan_number s with
  | None => None
  | Some (neg, m, rest) =>
      let v := if neg then - m else m in
      if v <? - 2 ^ (bits - 1) then Some (- 2 ^ (bits - 1), true, rest)
      else if v >? 2 ^ (bits - 1) - 1 then Some (2 ^ (bits - 1) - 1, true, rest)
      else Some (v, false, rest)
  end.

(** [strtoul]: the range is that of the magnitude; a minus sign negates the result. *)
Definition strtoul (bits : Z) (s : string) : option (Z * bool * string) :=
  match scan_number s with
  | None => None
  | Some (neg, m, rest) =>
      if m >? 2 ^ bits - 1 then Some (2 ^ bits - 1, true, rest)
      else Some ((if neg then - m else m) mod 2 ^ bits, false, rest)
  end.

Section numbers.
(** The width of [long] on the target. *)
Context (long_bits : Z).

(** res_sched_string_util.cpp:72-85 [StrToInt32] *)
Definition StrToInt32 (value : string) : option Z :=
  match strtol long_bits (c_str value) with
  | None => None
  | Some (res, erange, rest) =>
      if erange || negb (bool_decide (rest = "")) || ((res <? - 2 ^ 31) || (res >? 2 ^ 31 - 1))
      then None else Some (to_s32 res)
  end.

(** res_sched_string_util.cpp:87-99 [StrToInt64] *)
Definition StrToInt64 (value : string) : option Z :=
  match strtol 64 (c_str value) with
  | None => None
  | Some (res, erange, rest) =>
      if erange || negb (bool_decide (rest = "")) then None else Some res
  end.

(** res_sched_string_util.cpp:101-114 [StrToUInt32] the conversion comes before the test *)
Definition StrToUInt32 (value : string) : option Z :=
  match strtoul long_bits (c_str value) with
  | None => None
  | Some (res, erange, rest) =>
      let res := to_u32 res in
      if erange || negb (bool_decide (rest = "")) || (res >? 2 ^ 32 - 1)
      then None else Some res
  end.

(** res_sched_string_util.cpp:116-129 [StrToUInt64] *)
Definition StrToUInt64 (value : string) : option Z :=
  match strtoul 64 (c_str value) with
  | None => None
  | Some (res, erange, rest) =>
      if erange || negb (bool_decide (rest = "")) || (res >? 2 ^ 64 - 1)
      then None else Some res
  end.
End numbers.

(** ** Texts *)

Definition is_digit (c : ascii) : bool := bool_decide (is_Some (digit_of c)).
Definition is_alpha (c : ascii) : bool :=
  let n := Z.of_N (N_of_ascii c) in
  ((65 <=? n) && (n <=? 90)) || ((97 <=? n) && (n <=? 122)).
Definition is_alnum (c : ascii) : bool := is_alpha c || is_digit c.

Definition MIN_BUNDLE_NAME_LEN : nat := 7. (* res_sched_string_util.cpp:25 *)
Definition MAX_BUNDLE_NAME_LEN : nat := 127. (* res_sched_string_util.cpp:26 *)
Definition MAX_NUMBER_SIZE : nat := 10. (* res_sched_string_util.cpp:27 *)

(** res_sched_string_util.cpp:43-70 [CheckBundleName] *)
Definition CheckBundleName (bundleName : string) : bool :=
  if bool_decide (bundleName = "") then false else
  if bool_decide (String.length bundleName < MIN_BUNDLE_NAME_LEN)%nat
     || bool_decide (MAX_BUNDLE_NAME_LEN < String.length bundleName)%nat then false else
  match String.list_ascii_of_string bundleName with
  | [] => false
  | front :: _ as l =>
      if negb (is_alpha front) then false else
      forallb (fun ch => is_alnum ch || bool_decide (ch = "_"%char) || bool_decide (ch = "."%char)) l
  end.

(** res_sched_string_util.cpp:131-157 [IsNumericString] *)
Definition IsNumericString (str : string) : bool :=
  let l := String.list_ascii_of_string str in
  if bool_decide (MAX_NUMBER_SIZE < length l)%nat || bool_decide (length l = 0%nat) then false else
  match l with
  | [c] => is_digit c
  | c :: l' => (is_digit c || bool_decide (c = "-"%char)) && forallb is_digit l'
  | [] => false
  end.

(** [find_first_not_of] and [erase] before it. *)
Fixpoint drop_front (blank : ascii -> bool) (l : list ascii) : list ascii :=
  match l with
  | c :: l' => if blank c then drop_front blank l' else l
  | [] => []
  end.

(** The two erasures of a trim. *)
Definition trim_with (blank : ascii -> bool) (value : string) : string :=
  let l := drop_front blank (String.list_ascii_of_string value) in
  String.string_of_list_ascii (rev (drop_front blank (rev l))).

(** res_sched_string_util.cpp:159-173 [StringTrim] *)
Definition StringTrim (value : string) : string := trim_with is_space value.

(** res_sched_string_util.cpp:175-190 [StringTrimSpace] *)
Definition StringTrimSpace (value : string) : string :=
  trim_with (fun c => bool_decide (c = " "%char)) value.

(** ** JSON *)

(** The text form of a value: [json::parse] without exceptions and [dump]; and
    [json::object()]. *)
Class JsonText (J : Type) := {
  json_object : J;
  json_parse : string -> option J;
  json_dump : J -> string;
}.

Section json.
Context {J : Type} `{!Json J} `{!JsonText J} (long_bits : Z).

(** res_sched_string_util.cpp:192-215 [StringToJson] fills the object [payload] *)
Definition StringToJson (str : string) (payload : J) : option J :=
  if bool_decide (str = "") then None else
  match json_parse (J := J) str with
  | None => None
  | Some j =>
      match json_entries j with
      | None => None
      | Some l => Some (foldl (fun acc p => json_set p.1 p.2 acc) payload l)
      end
  end.

(** [!jsonObj.is_null() && !name.empty() && jsonObj.contains(name)] with [at(name)]. *)
Definition find_named (name : string) (j : J) : option J :=
  if json_is_null j || bool_decide (name = "") then None else json_find name j.

(** res_sched_json_util.cpp:27-41 [ParseIntParameterFromJson] *)
Definition ParseIntParameterFromJson (name : string) (jsonObj : J) : option Z :=
  match find_named name jsonObj with
  | None => None
  | Some v =>
      match json_string v ≫= StrToInt32 long_bits with
      | Some n => Some n
      | None => to_s32 <$> json_integer v
      end
  end.

(** res_sched_json_util.cpp:43-50 [ParseStringParameterFromJson] *)
Definition ParseStringParameterFromJson (name : string) (jsonObj : J) : option string :=
  find_named name jsonObj ≫= json_string.

(** res_sched_json_util.cpp:52-59 [ParseBoolParameterFromJson] *)
Definition ParseBoolParameterFromJson (name : string) (jsonObj : J) : option bool :=
  find_named name jsonObj ≫= json_boolean.

(** res_sched_json_util.cpp:75-84 [ParseStringJsonPayloadToNumber] *)
Definition ParseStringJsonPayloadToNumber (name : string) (jsonObj : J) : option Z :=
  atoi <$> find_string name jsonObj.

(** res_sched_json_util.cpp:123-137 [GetArrayFromJson] *)
Definition GetArrayFromJson (jsonObj : J) (name : string) : option J :=
  if json_is_null jsonObj || bool_decide (name = "") then None else
  v ← json_find name jsonObj; l ← json_array v; Some v.

(** res_sched_json_util.cpp:139-153 [GetObjFromJson] *)
Definition GetObjFromJson (jsonObj : J) (name : string) : option J :=
  if json_is_null jsonObj || bool_decide (name = "") then None else
  v ← json_find name jsonObj; if json_is_object v then Some v else None.

(** res_sched_json_util.cpp:155-175 [LoadContentToJsonObj] *)
Definition LoadContentToJsonObj (content : string) : option J :=
  if bool_decide (content = "") then None else
  j ← json_parse content; if json_is_object j then Some j else None.

(** res_sched_json_util.cpp:177-184 [DumpJsonToString] *)
Definition DumpJsonToString (jsonObj : J) (content : string) : string :=
  if negb (json_is_object jsonObj) then content else json_dump jsonObj.
End json.

(** ** Rounding a size *)

Definition BYTES_PER_KB : Z := 1024. (* res_sched_system_util.cpp:30 *)

(** res_sched_system_util.cpp:81-88 [value]] the loop, with fuel; [value] is
    a [uint16_t], [unit] and the products are [uint32_t] *)
Fixpoint round_loop (fuel : nat) (uSize value unit : Z) : option Z :=
  match fuel with
  | O => None
  | S fuel =>
      if to_u32 (value * unit) <? uSize then
        let value := (value * 2) mod 2 ^ 16 in
        if value >=? BYTES_PER_KB then round_loop fuel uSize 1 (to_u32 (unit * BYTES_PER_KB))
        else round_loop fuel uSize value unit
      else Some (to_u32 (value * unit))
  end.

(** res_sched_system_util.cpp:71-89 [RoundStorageSize] *)
Definition RoundStorageSize (fuel : nat) (size : Z) : option Z :=
  if size <? 0 then Some size else round_loop fuel size 1 1.
