(* ===== verification/CommonUtilFacts.v ===== *)
(** * Facts about the common utilities

    Which texts the number readers accept, and when rounding a size ends. *)
From S2P Require Import Prelude CommonUtil.

Abbreviation text := String.string_of_list_ascii.

(** ** Numerals *)

Definition digit_val (c : ascii) : Z := default 0 (digit_of c).
Definition digits_val (acc : Z) (ds : list ascii) : Z :=
  foldl (fun acc c => acc * 10 + digit_val c) acc ds.

(** What [strtol] reads as [z] to the end: spaces, a sign or none, and digits. *)
Definition numeral (s : string) (z : Z) : Prop :=
  exists ws sgn ds,
    c_str s = text (ws ++ sgn ++ ds)
    /\ Forall (fun c => is_space c = true) ws
    /\ ds <> [] /\ Forall (fun c => is_digit c = true) ds
    /\ ((sgn = [] \/ sgn = ["+"%char]) /\ z = digits_val 0 ds
        \/ sgn = ["-"%char] /\ z = - digits_val 0 ds).

Lemma digit_of_range c d : digit_of c = Some d -> 0 <= d <= 9.
Proof. unfold digit_of. case_match eqn:E; [|done]. intros [= <-]. lia. Qed.

Lemma is_digit_spec c : is_digit c = true <-> exists d, digit_of c = Some d.
Proof. unfold is_digit. rewrite bool_decide_eq_true. done. Qed.

Lemma digit_not_space c : is_digit c = true -> is_space c = false.
Proof.
  rewrite is_digit_spec. intros [d H]. unfold digit_of, is_space in *.
  case_match eqn:E; [|done]. lia.
Qed.

Lemma digit_not_sign c : is_digit c = true -> c <> "-"%char /\ c <> "+"%char.
Proof. rewrite is_digit_spec. by intros [d H]; split; intros ->. Qed.

Lemma digits_val_nonneg ds : forall acc, 0 <= acc -> 0 <= digits_val acc ds.
Proof.
  induction ds as [|c ds IH]; intros acc H; [done|]. apply IH.
  unfold digit_val. destruct (digit_of c) eqn:E; simpl; [apply digit_of_range in E|]; lia.
Qed.

Lemma digits_val_cons acc c d ds :
  digit_of c = Some d -> digits_val acc (c :: ds) = digits_val (acc * 10 + d) ds.
Proof. intros E. unfold digits_val. simpl. unfold digit_val. by rewrite E. Qed.

Lemma read_digits_spec s : forall acc,
  exists ds rest, read_digits acc s = (digits_val acc ds, rest)
    /\ s = text ds +:+ rest /\ Forall (fun c => is_digit c = true) ds.
Proof.
  induction s as [|c s IH]; intros acc; simpl.
  - exists [], "". by split_and!.
  - destruct (digit_of c) as [d|] eqn:E.
    + destruct (IH (acc * 10 + d)) as (ds & rest & -> & -> & Hds).
      exists (c :: ds), rest. split_and!; [|done|].
      * by rewrite (digits_val_cons _ _ d).
      * constructor; [|done]. apply is_digit_spec. eauto.
    + exists [], (String c s). by split_and!.
Qed.

Lemma read_digits_text ds : forall acc,
  Forall (fun c => is_digit c = true) ds -> read_digits acc (text ds) = (digits_val acc ds, "").
Proof.
  induction ds as [|c ds IH]; intros acc H; [done|].
  apply Forall_cons in H as [[d Hc]%is_digit_spec H].
  rewrite (digits_val_cons _ _ d) by done. simpl. by rewrite Hc, IH.
Qed.

Lemma text_nil l : text l = "" -> l = [].
Proof. by destruct l. Qed.

Lemma append_nil s : s +:+ "" = s.
Proof. induction s as [|c s IH]; [done|]. exact (f_equal (String c) IH). Qed.

Lemma text_app l l' : text (l ++ l') = text l +:+ text l'.
Proof. induction l as [|c l IH]; [done|]. exact (f_equal (String c) IH). Qed.

Lemma skip_space_spec s :
  exists ws, s = text ws +:+ skip_space s /\ Forall (fun c => is_space c = true) ws.
Proof.
  induction s as [|c s IH]; simpl; [by exists []|]. destruct (is_space c) eqn:E.
  - destruct IH as (ws & Hs & Hw). exists (c :: ws). split; [|by constructor].
    exact (f_equal (String c) Hs).
  - by exists [].
Qed.

Lemma skip_space_text ws l :
  Forall (fun c => is_space c = true) ws ->
  (forall c l', l = c :: l' -> is_space c = false) -> skip_space (text (ws ++ l)) = text l.
Proof.
  intros Hw Hl. induction ws as [|c ws IH]; simpl.
  - destruct l as [|c l']; [done|]. simpl. by rewrite (Hl c l').
  - apply Forall_cons in Hw as [Hc Hw]. rewrite Hc. by apply IH.
Qed.

Lemma scan_digits_spec neg s neg' m :
  scan_digits neg s = Some (neg', m, "") <->
  neg' = neg /\ exists ds, s = text ds /\ ds <> [] /\ Forall (fun c => is_digit c = true) ds
                          /\ m = digits_val 0 ds.
Proof.
  unfold scan_digits. split.
  - destruct s as [|c s']; [done|]. destruct (digit_of c) eqn:Ec; [|done].
    destruct (read_digits_spec (String c s') 0) as (ds & rest & -> & Hs & Hd).
    intros [= -> <- ->]. rewrite append_nil in Hs. split; [done|].
    exists ds. split_and!; try done. by intros ->.
  - intros (-> & ds & -> & Hne & Hd & ->). pose proof (read_digits_text ds 0 Hd) as Hr.
    destruct ds as [|c ds]; [done|]. apply Forall_cons in Hd as [[d Hc]%is_digit_spec _].
    change (text (c :: ds)) with (String c (text ds)) in *. cbv beta iota. by rewrite Hc, Hr.
Qed.

(** The sign that is scanned. *)
Lemma scan_number_sign s :
  exists sgn s' neg, skip_space s = text sgn +:+ s' /\ scan_number s = scan_digits neg s'
    /\ ((sgn = [] \/ sgn = ["+"%char]) /\ neg = false \/ sgn = ["-"%char] /\ neg = true).
Proof.
  unfold scan_number. destruct (skip_space s) as [|c s'].
  - exists [], "", false. split_and!; [done..|auto].
  - destruct (decide (c = "-"%char)) as [->|H1]; [by exists ["-"%char], s', true; split_and!; auto|].
    destruct (decide (c = "+"%char)) as [->|H2]; [by exists ["+"%char], s', false; split_and!; auto|].
    exists [], (String c s'), false. split_and!; auto.
    destruct c as [[] [] [] [] [] [] [] []]; done.
Qed.

Lemma scan_number_signed sgn neg ds s :
  ds <> [] -> Forall (fun c => is_digit c = true) ds ->
  (sgn = [] \/ sgn = ["+"%char]) /\ neg = false \/ sgn = ["-"%char] /\ neg = true ->
  skip_space s = text (sgn ++ ds) -> scan_number s = scan_digits neg (text ds).
Proof.
  intros Hne Hd Hsgn Hs. unfold scan_number. rewrite Hs.
  destruct Hsgn as [[[->| ->] ->]|[-> ->]]; [|done..].
  destruct ds as [|c ds]; [done|]. apply Forall_cons in Hd as [Hc _].
  apply digit_not_sign in Hc as [H1 H2].
  destruct c as [[] [] [] [] [] [] [] []]; done.
Qed.

(** What is scanned to the end is a numeral. *)
Lemma scan_number_numeral s z :
  numeral s z <->
  exists neg m, scan_number (c_str s) = Some (neg, m, "") /\ z = (if neg : bool then - m else m).
Proof.
  split.
  - intros (ws & sgn & ds & Hs & Hw & Hne & Hd & Hz).
    exists (bool_decide (sgn = ["-"%char])), (digits_val 0 ds).
    split; [|destruct Hz as [[[->| ->] ->]|[-> ->]]; done].
    rewrite (scan_number_signed sgn (bool_decide (sgn = ["-"%char])) ds); try done.
    + apply scan_digits_spec. eauto 10.
    + destruct Hz as [[[->| ->] _]|[-> _]]; auto.
    + rewrite Hs. apply skip_space_text; [done|]. intros c l'.
      destruct Hz as [[[->| ->] _]|[-> _]]; simpl; [|by intros [= <- _]..].
      intros ->. apply Forall_cons in Hd as [Hc _]. by apply digit_not_space.
  - intros (neg & m & Hscan & ->).
    destruct (skip_space_spec (c_str s)) as (ws & Hs & Hw).
    destruct (scan_number_sign (c_str s)) as (sgn & s' & neg' & Hsk & E & Hsgn).
    rewrite E in Hscan. apply scan_digits_spec in Hscan as (-> & ds & -> & Hne & Hd & ->).
    exists ws, sgn, ds. rewrite !text_app, <- Hsk. split_and!; try done.
    destruct Hsgn as [[? ->]|[-> ->]]; auto.
Qed.

(** A text has one reading. *)
Lemma numeral_unique s z z' : numeral s z -> numeral s z' -> z = z'.
Proof.
  intros (n & m & E & ->)%scan_number_numeral (n' & m' & E' & ->)%scan_number_numeral.
  rewrite E in E'. by simplify_eq.
Qed.

(** ** Printing is read back *)

Lemma text_of_list s : text (String.list_ascii_of_string s) = s.
Proof. apply String.string_of_list_ascii_of_string. Qed.

(** [c_str] keeps a text without zeros. *)
Lemma c_str_id l : Forall (fun c => c <> Ascii.zero) l -> c_str (text l) = text l.
Proof.
  induction 1 as [|c l Hc _ IH]; [done|]. simpl. rewrite bool_decide_false by done. by rewrite IH.
Qed.

Lemma uint_digits d :
  Forall (fun c => is_digit c = true) (String.list_ascii_of_string (DecimalString.NilEmpty.string_of_uint d)).
Proof. induction d; simpl; constructor; done. Qed.

Lemma digits_val_parse s : forall acc,
  Forall (fun c => is_digit c = true) (String.list_ascii_of_string s) ->
  digits_val acc (String.list_ascii_of_string s) = parse_digits acc s.
Proof.
  induction s as [|c s IH]; intros acc H; [done|].
  apply Forall_cons in H as [[d Hc]%is_digit_spec H].
  simpl String.list_ascii_of_string. rewrite (digits_val_cons _ _ d) by done. simpl. rewrite Hc. by apply IH.
Qed.

Lemma digit_not_zero c : is_digit c = true -> c <> Ascii.zero.
Proof. intros H ->. done. Qed.

Lemma numeral_uint d (neg : bool) :
  d <> Decimal.Nil ->
  numeral ((if neg then "-" else "") +:+ DecimalString.NilEmpty.string_of_uint d)
    ((if neg then -1 else 1) * Z.of_N (Pos.of_uint d)).
Proof.
  intros Hd. set (s := DecimalString.NilEmpty.string_of_uint d).
  pose proof (uint_digits d) as Hall. fold s in Hall.
  exists [], (if neg then ["-"%char] else []), (String.list_ascii_of_string s).
  assert (Hv : digits_val 0 (String.list_ascii_of_string s) = Z.of_N (Pos.of_uint d)).
  { rewrite digits_val_parse by done. apply parse_digits_zero. }
  rewrite Hv. split_and!; [|done| |done|].
  - replace ((if neg then "-" else "") +:+ s)
      with (text ((if neg then ["-"%char] else []) ++ String.list_ascii_of_string s)).
    + apply c_str_id. cbn [app]. rewrite Forall_app. split; [by destruct neg; repeat constructor|].
      eapply Forall_impl; [exact Hall | apply digit_not_zero].
    + rewrite text_app, text_of_list. by destruct neg.
  - unfold s. by destruct d.
  - destruct neg; [right|left]; auto with lia.
Qed.

Lemma numeral_to_string z : numeral (to_string z) z.
Proof.
  destruct z as [|p|p].
  - apply (numeral_uint (Decimal.D0 Decimal.Nil) false). done.
  - pose proof (numeral_uint (Pos.to_uint p) false (to_uint_nonnil p)) as H.
    rewrite DecimalPos.Unsigned.of_to in H. unfold to_string. simpl in *.
    destruct (Pos.to_uint p) eqn:E; [by pose proof (to_uint_nonnil p)|exact H..].
  - pose proof (numeral_uint (Pos.to_uint p) true (to_uint_nonnil p)) as H.
    rewrite DecimalPos.Unsigned.of_to in H. unfold to_string. simpl in *.
    destruct (Pos.to_uint p) eqn:E; [by pose proof (to_uint_nonnil p)|exact H..].
Qed.

(** ** The readers *)

Lemma scan_number_nonneg s neg m : scan_number s = Some (neg, m, "") -> 0 <= m.
Proof.
  destruct (scan_number_sign s) as (sgn & s' & neg' & _ & -> & _).
  intros (_ & ds & _ & _ & _ & ->)%scan_digits_spec. by apply digits_val_nonneg.
Qed.

Lemma strtol_spec bits s z :
  strtol bits (c_str s) = Some (z, false, "") <->
  numeral s z /\ - 2 ^ (bits - 1) <= z < 2 ^ (bits - 1).
Proof.
  rewrite scan_number_numeral. unfold strtol. split.
  - destruct (scan_number (c_str s)) as [[[neg m] rest]|]; [|done].
    repeat case_match; intros [= <- <-]; split; eauto; lia.
  - intros [(neg & m & -> & Hz) Hr]. rewrite <- Hz.
    destruct (Z.ltb_spec z (- 2 ^ (bits - 1))); [lia|].
    by destruct (Z.gtb_spec z (2 ^ (bits - 1) - 1)); [lia|].
Qed.

Lemma strtoul_spec bits s z :
  strtoul bits (c_str s) = Some (z, false, "") <->
  exists v, numeral s v /\ Z.abs v < 2 ^ bits /\ z = v mod 2 ^ bits.
Proof.
  unfold strtoul. split.
  - destruct (scan_number (c_str s)) as [[[neg m] rest]|] eqn:E; [|done].
    case_match; [done|]. intros [= <- ->]. pose proof (scan_number_nonneg _ _ _ E).
    exists (if neg then - m else m). split_and!; [apply scan_number_numeral; eauto| |done].
    destruct neg; lia.
  - intros (v & (neg & m & E & ->)%scan_number_numeral & Hr & ->). rewrite E.
    destruct (Z.gtb_spec m (2 ^ bits - 1)); [|done]. destruct neg; lia.
Qed.

(** Each reader in terms of what the library function returns. *)
Lemma reader_spec {A} (o : option (Z * bool * string)) (bad : Z -> bool) (f : Z -> A) a :
  match o with
  | None => None
  | Some (res, erange, rest) =>
      if erange || negb (bool_decide (rest = "")) || bad res then None else Some (f res)
  end = Some a <-> exists res, o = Some (res, false, "") /\ bad res = false /\ a = f res.
Proof.
  split.
  - destruct o as [[[res erange] rest]|]; [|done]. destruct erange; [done|].
    destruct (decide (rest = "")) as [->|H]; [|by rewrite (bool_decide_false _ H)].
    simpl. destruct (bad res) eqn:E; [done|]. intros [= <-]. eauto.
  - intros (res & -> & E & ->). simpl. by rewrite E.
Qed.

Lemma StrToInt64_iff s z : StrToInt64 s = Some z <-> numeral s z /\ - 2 ^ 63 <= z < 2 ^ 63.
Proof.
  unfold StrToInt64. pose proof (reader_spec (strtol 64 (c_str s)) (fun _ => false) id z) as H.
  rewrite <- (strtol_spec 64). destruct (strtol 64 (c_str s)) as [[[res erange] rest]|]; [|done].
  rewrite orb_false_r in H. unfold id in H. rewrite H. naive_solver.
Qed.

Lemma StrToUInt64_iff s z :
  StrToUInt64 s = Some z <-> exists v, numeral s v /\ Z.abs v < 2 ^ 64 /\ z = v mod 2 ^ 64.
Proof.
  unfold StrToUInt64. rewrite (reader_spec _ (fun res => res >? 2 ^ 64 - 1) id).
  rewrite <- strtoul_spec. split; [by intros (res & ? & _ & ->)|].
  intros H. exists z. split_and!; try done. apply strtoul_spec in H as (v & _ & _ & ->).
  pose proof (Z.mod_pos_bound v (2 ^ 64)). lia.
Qed.

Section readers.
Context (long_bits : Z) (Hbits : long_bits = 32 \/ long_bits = 64).

Lemma StrToInt32_iff s z : StrToInt32 long_bits s = Some z <-> numeral s z /\ is_s32 z.
Proof.
  unfold StrToInt32. rewrite (reader_spec _ (fun res => (res <? - 2 ^ 31) || (res >? 2 ^ 31 - 1)) to_s32).
  split.
  - intros (res & [Hn Hr]%strtol_spec & Hb & ->).
    assert (is_s32 res) by (unfold is_s32; lia). by rewrite to_s32_id.
  - intros [Hn Hr]. exists z. rewrite strtol_spec, to_s32_id by done. unfold is_s32 in Hr.
    split_and!; try done; destruct Hbits as [->| ->]; lia.
Qed.

Lemma StrToUInt32_iff s z :
  StrToUInt32 long_bits s = Some z <->
  exists v, numeral s v /\ Z.abs v < 2 ^ long_bits /\ z = v mod 2 ^ 32.
Proof.
  unfold StrToUInt32. rewrite (reader_spec _ (fun res => to_u32 res >? 2 ^ 32 - 1) to_u32).
  assert (Hw : forall v, to_u32 (v mod 2 ^ long_bits) = v mod 2 ^ 32).
  { intros v. unfold to_u32. destruct Hbits as [->| ->]; [by rewrite Z.mod_mod|].
    symmetry. apply Znumtheory.Zmod_div_mod; [lia..|]. by exists (2 ^ 32). }
  split.
  - intros (res & (v & ? & ? & ->)%strtoul_spec & _ & ->). eauto.
  - intros (v & ? & ? & ->). exists (v mod 2 ^ long_bits). rewrite strtoul_spec.
    split_and!; eauto. pose proof (to_u32_range (v mod 2 ^ long_bits)). unfold is_u32 in *. lia.
Qed.

Lemma StrToInt32_to_string z :
  StrToInt32 long_bits (to_string z) = if bool_decide (is_s32 z) then Some z else None.
Proof.
  case_bool_decide as Hz.
  - apply StrToInt32_iff. split; [apply numeral_to_string | done].
  - destruct (StrToInt32 long_bits (to_string z)) as [z'|] eqn:E; [|done].
    apply StrToInt32_iff in E as [Hn Hr].
    by rewrite (numeral_unique _ _ _ Hn (numeral_to_string z)) in Hr.
Qed.
End readers.

(** Reading decimal text.  The readers of signed numbers accept a text exactly when it is
    a numeral (spaces, a sign, digits, and nothing else) whose value fits, and return that
    value, whatever the width of [long] is; so a printed number is read back and a number out
    of range is refused.  The readers of unsigned numbers accept a minus sign and wrap around.
    The one for 32 bits converts before it tests: where [long] has 64 bits it accepts every
    numeral below 2^64 and returns it modulo 2^32. *)
Theorem numbers_read_exactly long_bits s z :
  long_bits = 32 \/ long_bits = 64 ->
  (StrToInt32 long_bits s = Some z <-> numeral s z /\ is_s32 z)
  /\ (StrToInt64 s = Some z <-> numeral s z /\ - 2 ^ 63 <= z < 2 ^ 63)
  /\ (StrToUInt64 s = Some z <-> exists v, numeral s v /\ Z.abs v < 2 ^ 64 /\ z = v mod 2 ^ 64)
  /\ (StrToUInt32 long_bits s = Some z <->
        exists v, numeral s v /\ Z.abs v < 2 ^ long_bits /\ z = v mod 2 ^ 32)
  /\ (StrToInt32 long_bits (to_string z) = if bool_decide (is_s32 z) then Some z else None).
Proof.
  intros Hbits. split_and!.
  - by apply StrToInt32_iff.
  - apply StrToInt64_iff.
  - apply StrToUInt64_iff.
  - by apply StrToUInt32_iff.
  - by apply StrToInt32_to_string.
Qed.

Lemma numbers_read_exactly_witness :
  StrToInt32 64 " -17" = Some (-17) /\ StrToInt32 64 "17x" = None
  /\ StrToInt32 64 "2147483648" = None /\ StrToUInt32 64 "4294967297" = Some 1
  /\ StrToUInt64 "-1" = Some (2 ^ 64 - 1)
  /\ (StrToInt32 64 " -17" = Some (-17) <-> numeral " -17" (-17) /\ is_s32 (-17)).
Proof.
  split_and!; [reflexivity..|]. apply (numbers_read_exactly 64 " -17" (-17)). by right.
Defined.

(** ** Rounding a size *)

(** One turn of the loop. *)
Definition round_next (p : Z * Z) : Z * Z :=
  let value := (p.1 * 2) mod 2 ^ 16 in
  if value >=? BYTES_PER_KB then (1, to_u32 (p.2 * BYTES_PER_KB)) else (value, p.2).

Lemma round_loop_step fuel size p :
  round_loop (S fuel) size p.1 p.2 =
  if to_u32 (p.1 * p.2) <? size then round_loop fuel size (round_next p).1 (round_next p).2
  else Some (to_u32 (p.1 * p.2)).
Proof. simpl. unfold round_next. repeat case_match; done. Qed.

(** The states of the loop: 32 with growing products, and those after the overflow. *)
Definition round_state (i : nat) : Z * Z := (2 ^ (Z.of_nat i mod 10), 2 ^ (10 * (Z.of_nat i / 10))).
Definition round_states : list (Z * Z) :=
  (round_state <$> seq 0 40) ++ ((fun i => (2 ^ Z.of_nat i, 0)) <$> seq 0 10).

Lemma round_state_next : Forall (fun i => round_next (round_state i) = round_state (S i)
    /\ to_u32 ((round_state i).1 * (round_state i).2) = 2 ^ Z.of_nat i) (seq 0 32).
Proof. apply (bool_decide_unpack _). by vm_compute. Qed.

Lemma round_states_closed : Forall (fun p => round_next p ∈ round_states
    /\ to_u32 (p.1 * p.2) <= 2 ^ 31) round_states.
Proof. apply (bool_decide_unpack _). by vm_compute. Qed.

Lemma round_ends size n : forall i, (i + n = 31)%nat -> size <= 2 ^ 31 ->
  ((0 < i)%nat -> 2 ^ (Z.of_nat i - 1) < size) ->
  exists k, 0 <= k <= 31
    /\ round_loop (S n) size (round_state i).1 (round_state i).2 = Some (2 ^ k)
    /\ size <= 2 ^ k /\ (0 < k -> 2 ^ (k - 1) < size).
Proof.
  induction n as [|n IH]; intros i Hi Hs Hlow; rewrite round_loop_step;
    (destruct (proj1 (Forall_forall _ _) round_state_next i) as [Hn ->]; [apply elem_of_seq; lia|]);
    destruct (Z.ltb_spec (2 ^ Z.of_nat i) size).
  - replace i with 31%nat in * by lia. lia.
  - exists (Z.of_nat i). split_and!; [lia..|done|done|]. intros. apply Hlow. lia.
  - rewrite Hn. apply IH; [lia|done|]. intros _. by replace (Z.of_nat (S i) - 1) with (Z.of_nat i) by lia.
  - exists (Z.of_nat i). split_and!; [lia..|done|done|]. intros. apply Hlow. lia.
Qed.

Lemma round_diverges size fuel : 2 ^ 31 < size -> forall p,
  p ∈ round_states -> round_loop fuel size p.1 p.2 = None.
Proof.
  intros Hs. induction fuel as [|fuel IH]; intros p Hp; [done|].
  destruct (proj1 (Forall_forall _ _) round_states_closed p Hp) as [Hn Hle].
  rewrite round_loop_step. destruct (Z.ltb_spec (to_u32 (p.1 * p.2)) size); [by apply IH | lia].
Qed.

(** C37: Rounding a storage size (in megabytes) to a power of two.  Up to 2^31 the loop ends
    within 32 tests and returns the least power of two that is not smaller.  Above 2^31 it
    never ends: the product of [value] and [unit] is taken in 32 bits, so it stays below the
    size for ever.  A negative size is returned unchanged. *)
Theorem rounding_ends_up_to_2_31 size :
  (size < 0 -> RoundStorageSize 0 size = Some size)
  /\ (0 <= size <= 2 ^ 31 -> exists k, 0 <= k <= 31 /\ RoundStorageSize 32 size = Some (2 ^ k)
        /\ size <= 2 ^ k /\ (0 < k -> 2 ^ (k - 1) < size))
  /\ (2 ^ 31 < size -> forall fuel, RoundStorageSize fuel size = None).
Proof.
  unfold RoundStorageSize. split_and!; intros Hs.
  - by destruct (Z.ltb_spec size 0); [|lia].
  - destruct (Z.ltb_spec size 0); [lia|]. apply (round_ends size 31 0); lia.
  - intros fuel. destruct (Z.ltb_spec size 0); [lia|].
    apply (round_diverges size fuel Hs (1, 1)). apply (bool_decide_unpack _). by vm_compute.
Qed.

Lemma rounding_ends_up_to_2_31_witness :
  RoundStorageSize 32 120000 = Some 131072 /\ RoundStorageSize 50 (2 ^ 31 + 1) = None
  /\ exists k, 0 <= k <= 31 /\ RoundStorageSize 32 120000 = Some (2 ^ k)
        /\ 120000 <= 2 ^ k /\ (0 < k -> 2 ^ (k - 1) < 120000).
Proof.
  split_and!; [reflexivity..|].
  apply (proj1 (proj2 (rounding_ends_up_to_2_31 120000))). lia.
Defined.
