(* ===== verification/LruCache.v ===== *)
(** * Cache with least-recently-used replacement

    [res_sched_lru_cache.h]: a list of pairs, the most recently used first, and a map
    from keys to iterators into the list.  An iterator is the identity of a node;
    following one that is not in the list is undefined.  The facts below show that the
    pair behaves as a plain list of bounded length. *)
From S2P Require Import Prelude.

(** res_sched_lru_cache.h:26-32 [ResschedLRUCache] the members; each node has an identity *)
Record LRU (K V : Type) `{Countable K} := mkLRU {
  capacity_ : nat;
  lruList : list (nat * (K * V));
  relationMap : gmap K nat;
  next_node : nat;
}.
Arguments mkLRU {_ _ _ _}.
Arguments capacity_ {_ _ _ _}.
Arguments lruList {_ _ _ _}.
Arguments relationMap {_ _ _ _}.
Arguments next_node {_ _ _ _}.
#[export] Instance LRU_eta K V `{Countable K} : Eta (LRU K V) := fun c =>
  mkLRU (capacity_ c) (lruList c) (relationMap c) (next_node c).

(** A filter that drops nothing. *)
Lemma filter_id {A} (P : A -> Prop) `{!forall x, Decision (P x)} (l : list A) :
  (forall x, x ∈ l -> P x) -> filter P l = l.
Proof.
  induction l as [|x l IH]; intros Hl; [done|]. rewrite filter_cons, decide_True by (apply Hl; by left).
  rewrite IH; [done|]. intros y Hy. apply Hl. by right.
Qed.

Section lru.
Context {K V : Type} `{Countable K}.
Implicit Types (l : list (nat * (K * V))).

(** res_sched_lru_cache.h:33-33 [ResschedLRUCache] *)
Definition new_LRU (capacity : nat) : LRU K V := mkLRU capacity [] ∅ 0.

(** The node an iterator points at. *)
Fixpoint node_at (it : nat) l : option (K * V) :=
  match l with
  | [] => None
  | (it', p) :: l' => if decide (it = it') then Some p else node_at it l'
  end.

(** [erase(it)] of a node that is in the list. *)
Definition erase_node (it : nat) l := filter (fun n => n.1 <> it) l.

Definition set_node (it : nat) (value : V) l :=
  (fun n => if decide (n.1 = it) then (n.1, (n.2.1, value)) else n) <$> l.

Definition push_front (key : K) (value : V) : ST (LRU K V) unit :=
  st_modify (fun c => c <| lruList ::= cons (next_node c, (key, value)) |>
                        <| relationMap ::= <[key := next_node c]> |>
                        <| next_node ::= S |>).

(** res_sched_lru_cache.h:34-42 [get] *)
Definition lru_get (key : K) : ST (LRU K V) (option V) :=
  c ← st_get;
  match relationMap c !! key with
  | None => mret None
  | Some it =>
      p ← st_some (node_at it (lruList c));
      st_modify (fun c => c <| lruList ::= fun l => (it, p) :: erase_node it l |>);;
      mret (Some p.2)
  end.

(** res_sched_lru_cache.h:43-61 [put] *)
Definition lru_put (key : K) (value : V) : ST (LRU K V) unit :=
  c ← st_get;
  match relationMap c !! key with
  | Some it =>
      st_some (node_at it (lruList c));;
      if decide (fst <$> head (lruList c) = Some it)
      then st_modify (fun c => c <| lruList ::= set_node it value |>)
      else st_modify (fun c => c <| lruList ::= erase_node it |>);; push_front key value
  | None =>
      st_when (bool_decide (capacity_ c <= length (lruList c))%nat)
        (back ← st_some (last (lruList c));
         st_modify (fun c => c <| relationMap ::= delete back.2.1 |>
                              <| lruList ::= fun l => take (length l - 1) l |>));;
      push_front key value
  end.

(** ** The reference: a list of pairs of bounded length *)

Definition del_key (key : K) (r : list (K * V)) : list (K * V) := filter (fun p => p.1 <> key) r.

Fixpoint find_key (key : K) (r : list (K * V)) : option V :=
  match r with
  | [] => None
  | (k, v) :: r' => if decide (key = k) then Some v else find_key key r'
  end.

(** A hit moves the pair to the front. *)
Definition ref_get (key : K) (r : list (K * V)) : option V * list (K * V) :=
  match find_key key r with
  | Some v => (Some v, (key, v) :: del_key key r)
  | None => (None, r)
  end.

(** The new pair comes first and the oldest one drops out when there are too many. *)
Definition ref_put (capacity : nat) (key : K) (value : V) (r : list (K * V)) : list (K * V) :=
  take capacity ((key, value) :: del_key key r).

Definition entries (c : LRU K V) : list (K * V) := (lruList c).*2.

(** What keeps the list and the map together. *)
Record lru_ok (c : LRU K V) : Prop := {
  lru_ids : NoDup (lruList c).*1;
  lru_fresh : Forall (fun it => it < next_node c)%nat (lruList c).*1;
  lru_related key it : relationMap c !! key = Some it <-> exists v, (it, (key, v)) ∈ lruList c;
  lru_bounded : (length (lruList c) <= capacity_ c)%nat;
}.

(** ** Facts *)

Lemma new_lru_ok capacity : lru_ok (new_LRU capacity).
Proof.
  split; simpl; [constructor|constructor| |lia]. intros key it. split.
  - by rewrite lookup_empty.
  - intros [v Hin]. set_solver.
Qed.

Lemma node_at_spec l it p : NoDup l.*1 -> node_at it l = Some p <-> (it, p) ∈ l.
Proof.
  induction l as [|[it' p'] l IH]; simpl; intros Hnd.
  - split; [done|set_solver].
  - apply NoDup_cons in Hnd as [Hni Hnd]. case_decide as E.
    + subst it'. split; [intros [= ->]; set_solver|].
      intros [[= ->]|Hin]%elem_of_cons; [done|]. destruct Hni. apply list_elem_of_fmap. by exists (it, p).
    + rewrite IH by done. rewrite elem_of_cons. naive_solver.
Qed.

Lemma lru_keys c : lru_ok c -> NoDup (entries c).*1.
Proof.
  intros [Hids _ Hrel _]. unfold entries. revert Hids Hrel.
  generalize (relationMap c) as m. generalize (lruList c) as l.
  intros l m Hids Hrel. 
  assert (Hu : forall i j k v w, (i, (k, v)) ∈ l -> (j, (k, w)) ∈ l -> i = j).
  { intros i j k v w Hi Hj. assert (m !! k = Some i) by (apply Hrel; eauto).
    assert (m !! k = Some j) by (apply Hrel; eauto). congruence. }
  clear Hrel. induction l as [|[i [k v]] l IH]; simpl in *; [constructor|].
  apply NoDup_cons in Hids as [Hni Hids]. apply NoDup_cons. split.
  - rewrite !list_elem_of_fmap. intros ([k' w] & -> & ([j [k'' w']] & [= -> ->] & Hj)%list_elem_of_fmap).
    simpl in *. assert (i = j) as <- by (eapply Hu; [left | right; exact Hj]).
    apply Hni, list_elem_of_fmap. by exists (i, (k'', w')).
  - apply IH; [done|]. intros i' j' k' v' w' H1 H2. eapply Hu; right; eauto.
Qed.

Lemma find_key_spec key v (r : list (K * V)) : NoDup r.*1 -> find_key key r = Some v <-> (key, v) ∈ r.
Proof.
  induction r as [|[k w] r IH]; simpl; intros Hnd.
  - split; [done|set_solver].
  - apply NoDup_cons in Hnd as [Hni Hnd]. case_decide as E.
    + subst k. split; [intros [= ->]; set_solver|].
      intros [[= ->]|Hin]%elem_of_cons; [done|]. destruct Hni. apply list_elem_of_fmap. by exists (key, v).
    + rewrite IH by done. rewrite elem_of_cons. naive_solver.
Qed.

(** The map finds a key exactly when the list has it. *)
Lemma relation_find c key :
  lru_ok c ->
  match relationMap c !! key with
  | Some it => exists v, (it, (key, v)) ∈ lruList c /\ node_at it (lruList c) = Some (key, v)
                        /\ find_key key (entries c) = Some v
  | None => find_key key (entries c) = None
  end.
Proof.
  intros Hok. pose proof (lru_keys c Hok) as Hk. destruct Hok as [Hids _ Hrel _].
  destruct (relationMap c !! key) as [it|] eqn:E.
  - apply Hrel in E as [v Hin]. exists v. split_and!; [done|by apply node_at_spec|].
    apply find_key_spec; [done|]. apply list_elem_of_fmap. by exists (it, (key, v)).
  - destruct (find_key key (entries c)) as [v|] eqn:F; [|done].
    apply find_key_spec in F; [|done]. apply list_elem_of_fmap in F as ([it p] & Hp & Hin).
    simpl in Hp. subst p. assert (relationMap c !! key = Some it) by (apply Hrel; eauto). congruence.
Qed.

Lemma erase_entries c key it v :
  lru_ok c -> (it, (key, v)) ∈ lruList c ->
  (erase_node it (lruList c)).*2 = del_key key (entries c).
Proof.
  intros Hok Hin. pose proof (lru_keys c Hok) as Hk. destruct Hok as [Hids _ _ _].
  unfold entries, erase_node, del_key in *. revert Hids Hk Hin.
  assert (Hagree : forall l : list (nat * (K * V)), (forall n, n ∈ l -> n.1 = it <-> n.2.1 = key) ->
    (filter (fun n => n.1 <> it) l).*2 = filter (fun p => p.1 <> key) l.*2).
  { clear. induction l as [|n l IH]; intros Hl; [done|]. cbn [fmap list_fmap].
    rewrite !filter_cons. pose proof (Hl n ltac:(left)).
    destruct (decide (n.1 <> it)), (decide (n.2.1 <> key)); try tauto; cbn [fmap list_fmap];
      rewrite IH; try done; intros n' Hn'; apply Hl; by right. }
  intros Hids Hk Hin. apply Hagree. intros [i [k w]] Hn. simpl. split.
  - intros ->. pose proof (proj2 (node_at_spec _ _ _ Hids) Hn) as H1.
    pose proof (proj2 (node_at_spec _ _ _ Hids) Hin) as H2. congruence.
  - intros ->. destruct (list_elem_of_lookup_1 _ _ Hn) as [a Ha].
    destruct (list_elem_of_lookup_1 _ _ Hin) as [b Hb].
    assert (a = b) as ->; [|congruence].
    eapply (NoDup_lookup _ a b key Hk); rewrite !list_lookup_fmap; [by rewrite Ha | by rewrite Hb].
Qed.

Lemma erase_perm it p (l : list (nat * (K * V))) :
  NoDup l.*1 -> (it, p) ∈ l -> (it, p) :: erase_node it l ≡ₚ l.
Proof.
  unfold erase_node. induction l as [|[it' p'] l IH]; intros Hnd Hin; [set_solver|].
  apply NoDup_cons in Hnd as [Hni Hnd]. rewrite filter_cons. apply elem_of_cons in Hin as [[= <- <-]|Hin].
  - simpl. rewrite decide_False by tauto. f_equiv. rewrite filter_id; [done|].
    intros n Hn Heq. apply Hni, list_elem_of_fmap. by exists n.
  - simpl. assert (it' <> it) by (intros ->; apply Hni, list_elem_of_fmap; by exists (it, p)).
    rewrite decide_True by done. rewrite Permutation_swap. by rewrite IH.
Qed.

Lemma lru_ok_perm c l : lru_ok c -> l ≡ₚ lruList c -> lru_ok (c <| lruList := l |>).
Proof.
  intros [Hids Hfr Hrel Hb] Hp. split; simpl.
  - by rewrite Hp.
  - by rewrite Hp.
  - intros key it. rewrite Hrel. by setoid_rewrite Hp.
  - by rewrite Hp.
Qed.

(** The cache without the nodes of one key. *)
Record lru_ok_but (key : K) (c : LRU K V) : Prop := {
  but_ids : NoDup (lruList c).*1;
  but_fresh : Forall (fun it => it < next_node c)%nat (lruList c).*1;
  but_related k it : k <> key -> relationMap c !! k = Some it <-> exists v, (it, (k, v)) ∈ lruList c;
  but_absent it v : (it, (key, v)) ∉ lruList c;
  but_bounded : (length (lruList c) < capacity_ c)%nat;
}.

Lemma push_front_ok key value c :
  lru_ok_but key c -> exists c', push_front key value c = Some (tt, c') /\ lru_ok c'
    /\ capacity_ c' = capacity_ c /\ entries c' = (key, value) :: entries c.
Proof.
  intros [Hids Hfr Hrel Habs Hb]. eexists. split; [done|]. split; [|done].
  split; simpl.
  - apply NoDup_cons. split; [|done]. rewrite Forall_forall in Hfr. intros Hin%Hfr. lia.
  - constructor; [lia|]. eapply Forall_impl; [exact Hfr|]. simpl. lia.
  - intros k it. destruct (decide (k = key)) as [->|Hne].
    + rewrite lookup_insert, decide_True by done. split; [intros [= <-]; eexists; by left|].
      intros [v [[= -> ->]|Hin]%elem_of_cons]; [done|]. by destruct (Habs it v).
    + rewrite lookup_insert_ne by done. rewrite (Hrel k it Hne). split; intros [v Hv]; exists v.
      * by right.
      * apply elem_of_cons in Hv as [[= -> -> ->]|Hv]; done.
  - lia.
Qed.
(** A hit. *)
Lemma lru_get_hit key c it v :
  lru_ok c -> relationMap c !! key = Some it -> node_at it (lruList c) = Some (key, v) ->
  (it, (key, v)) ∈ lruList c ->
  exists c', lru_get key c = Some (Some v, c') /\ lru_ok c' /\ capacity_ c' = capacity_ c
    /\ entries c' = (key, v) :: del_key key (entries c).
Proof.
  intros Hok E Hn Hin. unfold lru_get. rewrite run_get_bind, E. unfold mbind, ST_bind. rewrite Hn.
  eexists. split; [done|]. split_and!; [|done|].
  - apply lru_ok_perm; [done|]. apply erase_perm; [apply Hok | done].
  - unfold entries at 1. simpl. f_equal. by eapply erase_entries.
Qed.

(** Dropping the oldest node. *)
Lemma drop_last_ok c key :
  lru_ok c -> (0 < capacity_ c)%nat -> relationMap c !! key = None ->
  (capacity_ c <= length (lruList c))%nat ->
  exists back, last (lruList c) = Some back
    /\ lru_ok_but key (c <| relationMap ::= delete back.2.1 |>
                         <| lruList ::= fun l => take (length l - 1) l |>)
    /\ take (length (lruList c) - 1) (lruList c) = take (capacity_ c - 1) (lruList c).
Proof.
  intros Hok Hcap E Hlen. pose proof (lru_keys c Hok) as Hk. destruct Hok as [Hids Hfr Hrel Hb].
  destruct (last (lruList c)) as [[it [k v]]|] eqn:El.
  2:{ apply last_None in El. rewrite El in Hlen. simpl in Hlen. lia. }
  exists (it, (k, v)). split; [done|].
  apply last_Some in El as [l' El]. rewrite El in *. unfold entries in Hk. rewrite El in Hk.
  rewrite length_app in *. simpl in *.
  rewrite Nat.add_sub, take_app_length. split; [|by replace (capacity_ c - 1)%nat with (length l') by lia;
    rewrite take_app_length].
  rewrite !fmap_app in *. simpl in *. apply NoDup_app in Hids as (Hids & Hd & _).
  apply NoDup_app in Hk as (_ & Hdk & _). apply Forall_app in Hfr as [Hfr _].
  split; simpl; rewrite ?El, ?length_app; simpl; rewrite ?Nat.add_sub, ?take_app_length; try done.
  - intros k' it' Hne. destruct (decide (k' = k)) as [->|Hk'].
    + rewrite lookup_delete, decide_True by done. split; [done|]. intros [w Hin].
      destruct (Hdk k); [|set_solver]. apply list_elem_of_fmap. exists (k, w).
      split; [done|]. apply list_elem_of_fmap. by exists (it', (k, w)).
    + rewrite lookup_delete_ne by done. rewrite Hrel. split; intros [w Hw]; exists w; set_solver.
  - intros it' w Hin. assert (relationMap c !! key = Some it') by (apply Hrel; exists w; set_solver).
    congruence.
  - lia.
Qed.

Lemma lru_put_new key value c :
  lru_ok c -> (0 < capacity_ c)%nat -> relationMap c !! key = None ->
  exists c', lru_put key value c = Some (tt, c') /\ lru_ok c' /\ capacity_ c' = capacity_ c
    /\ entries c' = ref_put (capacity_ c) key value (entries c).
Proof.
  intros Hok Hcap E. assert (Hdel : del_key key (entries c) = entries c).
  { apply filter_id. intros [k v] Hin Heq. simpl in Heq. subst k.
    apply list_elem_of_fmap in Hin as ([it p] & Hp & Hin). simpl in Hp. subst p.
    assert (relationMap c !! key = Some it) by (apply Hok; eauto). congruence. }
  unfold lru_put, ref_put. rewrite run_get_bind, E, Hdel. destruct (capacity_ c) as [|n] eqn:Ecap; [lia|].
  simpl take. case_bool_decide as Hlen; cbn [st_when].
  - rewrite <- Ecap in Hcap, Hlen. destruct (drop_last_ok c key Hok Hcap E Hlen) as (back & El & Hbut & Htake).
    destruct (push_front_ok key value _ Hbut) as (c' & Ec & Hok' & Hc' & He').
    exists c'. unfold mbind, ST_bind. rewrite El. split_and!; [exact Ec|done|by rewrite Hc'|].
    rewrite He'. unfold entries. simpl. rewrite Htake, Ecap. simpl. rewrite Nat.sub_0_r. by rewrite <- fmap_take.
  - assert (Hbut : lru_ok_but key c).
    { destruct Hok as [H1 H2 H3 H4]. split; try done; [|lia]. intros it v Hin.
      assert (relationMap c !! key = Some it) by (apply H3; eauto). congruence. }
    destruct (push_front_ok key value _ Hbut) as (c' & Ec & Hok' & Hc' & He').
    exists c'. split_and!; [exact Ec|done|by rewrite Hc'|]. rewrite He'. f_equal.
    symmetry. apply take_ge. unfold entries. rewrite length_fmap. lia.
Qed.

(** Operations on a node that comes first. *)
Lemma head_node_only it p (l : list (nat * (K * V))) value :
  NoDup ((it, p) :: l).*1 ->
  erase_node it ((it, p) :: l) = l /\ set_node it value ((it, p) :: l) = (it, (p.1, value)) :: l.
Proof.
  intros Hnd. cbn [fmap list_fmap] in Hnd. apply NoDup_cons in Hnd as [Hni _].
  assert (Hne : forall n, n ∈ l -> n.1 <> it).
  { intros n Hn Heq. apply Hni, list_elem_of_fmap. by exists n. }
  split.
  - unfold erase_node. rewrite filter_cons, decide_False by (simpl; tauto). by apply filter_id.
  - unfold set_node. cbn [fmap list_fmap]. rewrite decide_True by done. f_equal.
    rewrite <- (list_fmap_id l) at 2. apply list_fmap_ext. intros i n Hn%list_elem_of_lookup_2.
    by rewrite decide_False by (apply Hne, Hn).
Qed.

Lemma set_front_ok c it key v l value :
  lru_ok c -> lruList c = (it, (key, v)) :: l ->
  lru_ok (c <| lruList := (it, (key, value)) :: l |>).
Proof.
  intros [H1 H2 H3 H4] El. rewrite El in *. split; simpl; try done.
  intros k i. rewrite H3. split; intros [w Hw%elem_of_cons].
  - destruct Hw as [[= -> -> ->]|Hw]; eexists; [by left | by right].
  - destruct Hw as [[= -> -> ->]|Hw]; eexists; [by left | by right].
Qed.

(** Erasing the node of a key. *)
Lemma erase_ok_but c it key v :
  lru_ok c -> (it, (key, v)) ∈ lruList c -> lru_ok_but key (c <| lruList ::= erase_node it |>).
Proof.
  intros Hok Hin. pose proof (erase_perm it (key, v) _ (lru_ids _ Hok) Hin) as Hperm.
  destruct Hok as [Hids Hfr Hrel Hb]. pose proof Hids as Hids'.
  rewrite <- Hperm in Hids. cbn [fmap list_fmap] in Hids. apply NoDup_cons in Hids as [Hni Hids].
  rewrite <- Hperm in Hfr. cbn [fmap list_fmap] in Hfr. apply Forall_cons in Hfr as [_ Hfr].
  assert (Hmem : forall i k w, (i, (k, w)) ∈ erase_node it (lruList c) <-> (i, (k, w)) ∈ lruList c /\ i <> it).
  { intros i k w. unfold erase_node. rewrite list_elem_of_filter. simpl. tauto. }
  assert (Hone : relationMap c !! key = Some it) by (apply Hrel; eauto).
  split; simpl; try done.
  - intros k i Hne. rewrite Hrel. split; intros [w Hw]; exists w; [|by apply Hmem in Hw as [? _]].
    apply Hmem. split; [done|]. intros ->.
    pose proof (proj2 (node_at_spec _ _ _ Hids') Hw). pose proof (proj2 (node_at_spec _ _ _ Hids') Hin).
    congruence.
  - intros i w [Hw Hi]%Hmem. assert (relationMap c !! key = Some i) by (apply Hrel; eauto). congruence.
  - apply Permutation_length in Hperm. simpl in Hperm. lia.
Qed.

Lemma lru_put_known key value c it v :
  lru_ok c -> relationMap c !! key = Some it -> node_at it (lruList c) = Some (key, v) ->
  (it, (key, v)) ∈ lruList c ->
  exists c', lru_put key value c = Some (tt, c') /\ lru_ok c' /\ capacity_ c' = capacity_ c
    /\ entries c' = ref_put (capacity_ c) key value (entries c).
Proof.
  intros Hok E Hn Hin. pose proof (erase_entries _ _ _ _ Hok Hin) as Her.
  pose proof (erase_perm it (key, v) _ (lru_ids _ Hok) Hin) as Hperm.
  assert (Hlen : (length (del_key key (entries c)) < capacity_ c)%nat).
  { rewrite <- Her, length_fmap. apply Permutation_length in Hperm. simpl in Hperm.
    pose proof (lru_bounded _ Hok). lia. }
  unfold lru_put. rewrite run_get_bind, E. unfold mbind, ST_bind at 1. rewrite Hn. cbn [st_some].
  unfold mret, ST_ret. unfold ref_put. rewrite take_ge by (simpl; lia). case_decide as Ehd.
  - destruct (lruList c) as [|[it' p] l] eqn:El; [done|]. simpl in Ehd. simplify_eq.
    simpl in Hn. rewrite decide_True in Hn by done. simplify_eq.
    pose proof (lru_ids _ Hok) as Hids. rewrite El in Hids.
    destruct (head_node_only it (key, v) l value Hids) as [H1 H2].
    eexists. split; [done|]. split_and!; [|done|].
    + replace (c <| lruList ::= set_node it value |>) with (c <| lruList := (it, (key, value)) :: l |>).
      * by eapply set_front_ok.
      * unfold over. by rewrite El, H2.
    + rewrite <- Her, H1. unfold entries. simpl. by rewrite El, H2.
  - destruct (push_front_ok key value _ (erase_ok_but _ _ _ _ Hok Hin)) as (c' & Ec & Hok' & Hc' & He').
    exists c'. split_and!; [exact Ec|done|by rewrite Hc'|]. rewrite He'. unfold entries at 1. simpl. by rewrite Her.
Qed.

Lemma lru_get_spec key c :
  lru_ok c -> exists c', lru_get key c = Some ((ref_get key (entries c)).1, c') /\ lru_ok c'
     /\ capacity_ c' = capacity_ c /\ entries c' = (ref_get key (entries c)).2.
Proof.
  intros Hok. pose proof (relation_find c key Hok) as Hrf.
  unfold ref_get. destruct (relationMap c !! key) as [it|] eqn:E.
  - destruct Hrf as (v & Hin & Hn & ->). by eapply lru_get_hit.
  - rewrite Hrf. exists c. unfold lru_get. by rewrite run_get_bind, E.
Qed.

Lemma lru_put_spec key value c :
  lru_ok c -> (0 < capacity_ c)%nat ->
  exists c', lru_put key value c = Some (tt, c') /\ lru_ok c'
     /\ capacity_ c' = capacity_ c /\ entries c' = ref_put (capacity_ c) key value (entries c).
Proof.
  intros Hok Hcap. pose proof (relation_find c key Hok) as Hrf.
  destruct (relationMap c !! key) as [it|] eqn:E.
  - destruct Hrf as (v & Hin & Hn & _). by eapply lru_put_known.
  - by apply lru_put_new.
Qed.

(** C21: The cache implements its reference.  As long as its list and map belong together, which
    holds from the start and after every operation, no operation follows a dangling iterator,
    and [get] and [put] do to the pairs, in the order of their use, what the reference does on
    a plain list: a hit moves the pair to the front, a new pair comes first, and the least
    recently used pair drops out when there are more than the capacity allows. *)
Theorem lru_refines_list key value c :
  lru_ok c -> (0 < capacity_ c)%nat ->
  (exists c', lru_get key c = Some ((ref_get key (entries c)).1, c') /\ lru_ok c'
     /\ capacity_ c' = capacity_ c /\ entries c' = (ref_get key (entries c)).2)
  /\ (exists c', lru_put key value c = Some (tt, c') /\ lru_ok c'
     /\ capacity_ c' = capacity_ c /\ entries c' = ref_put (capacity_ c) key value (entries c)).
Proof. intros Hok Hcap. split; [by apply lru_get_spec | by apply lru_put_spec]. Qed.
End lru.

Lemma lru_refines_list_witness :
  (let run := lru_put 1 10;; lru_put 2 20;; lru_get 1;; lru_put 3 30;; lru_get 2 in
   match run (new_LRU 2) with Some (r, c) => r = None /\ entries c = [(3, 30); (1, 10)] | None => False end)
  /\ exists c', lru_put 1 10 (new_LRU (K := Z) (V := Z) 2) = Some (tt, c') /\ lru_ok c'
       /\ capacity_ c' = 2%nat /\ entries c' = ref_put 2 1 10 [].
Proof.
  split; [by vm_compute|].
  apply (proj2 (lru_refines_list 1 10 (new_LRU (K := Z) (V := Z) 2) (new_lru_ok 2) ltac:(simpl; lia))).
Defined.
