(* ===== verification/Ipc.v ===== *)
(** * Callers

    What the service knows about who calls it: the identity that [IPCSkeleton] gives, and
    the answers of the access token kit, which is another repository. *)
From S2P Require Import Prelude.

(** [ATokenTypeEnum] of the access token kit. *)
Inductive TokenType := TOKEN_INVALID | TOKEN_HAP | TOKEN_NATIVE | TOKEN_SHELL.
#[export] Instance TokenType_eq : EqDecision TokenType.
Proof. solve_decision. Defined.

(** The calling identity of a request. *)
Record Caller := mkCaller {
  c_pid : Z;
  c_uid : Z;
  c_tokenId : Z;
  c_fullTokenId : Z;
}.

(** The access token kit in an outer state.  The name of a token without an application is
    empty; a permission is granted when the answer is 0. *)
Class AccessTokenKit (K : Type) := {
  at_GetTokenTypeFlag : Z -> K -> TokenType;
  at_GetHapTokenInfo : Z -> K -> string;
  at_VerifyAccessToken : Z -> string -> K -> Z;
}.

(** [ApplicationState] of the application framework, another repository. *)
Class ApplicationState := {
  AS_FOREGROUND : Z;
  AS_BACKGROUND : Z;
  AS_TERMINATED : Z;
  AS_END : Z;
}.

(** The states in which an application is not in the foreground any more. *)
Definition state_leaves `{!ApplicationState} (state : Z) : bool :=
  (state =? AS_BACKGROUND) || (state =? AS_TERMINATED) || (state =? AS_END).
