(* ===== verification/NotifierMgr.v ===== *)
(** * Notifiers of the system load

    [notifier_mgr.cpp]: clients register a remote callback; each change of the system load
    level is handed to a queue that calls them.  Applications in the background are left
    out and told when they come back.  A remote object is a number; [None] is a null
    pointer.  What the manager does to the outside is in [n_trace].  The mutexes are not
    modelled: an operation runs to its end. *)
From S2P Require Import Prelude ResType Ipc.

Definition MAX_REPORT_SIZE : nat := 100. (* notifier_mgr.cpp:34 *)
Definition REPORT_INTERVAL_MS : Z := 2 * 60 * 60 * 1000 * 1000. (* notifier_mgr.cpp:35 *)
Definition FIRST_REPORT_DELAY_MS : Z := 10 * 1000 * 1000. (* notifier_mgr.cpp:36 *)
Definition SYSTEMLOAD_FILE : string := "/data/service/el1/public/ressched/systemload". (* notifier_mgr.cpp:54 *)

(** [SystemloadLevel] *)
Definition LOW : Z := 0. (* res_value.h:605 *)
Definition NORMAL : Z := 1. (* res_value.h:606 *)
Definition MEDIUM : Z := 2. (* res_value.h:607 *)
Definition HIGH : Z := 3. (* res_value.h:608 *)
Definition OVERHEATED : Z := 4. (* res_value.h:609 *)
Definition EMERGENCY : Z := 6. (* res_value.h:611 *)
Definition ESCAPE : Z := 7. (* res_value.h:612 *)
Definition SYSTEMLOAD_LEVEL : Z := 0. (* res_value.h:619 *)

(** notifier_mgr.cpp:39-41 [g_DeviceStatusType] *)
Definition g_DeviceStatusType : gmap Z string := {[ SYSTEMLOAD_LEVEL := "systemLoadChange" ]}.

(** notifier_mgr.cpp:43-52 [g_systemloadPair] *)
Definition g_systemloadPair : list (string * Z) :=
  [("LOW", LOW); ("NORMAL", NORMAL); ("MEDIUM", MEDIUM); ("HIGH", HIGH);
   ("OVERHEATED", OVERHEATED); ("WARNING", WARNING); ("EMERGENCY", EMERGENCY);
   ("ESCAPE", ESCAPE)].

(** notifier_mgr.h:36-41 [NotifierInfo] *)
Record NotifierInfo := mkNotifierInfo {
  notifier : Z;
  foreground : bool;
  hapApp : bool;
  level : Z;
}.
#[export] Instance NotifierInfo_eta : Eta NotifierInfo := fun i =>
  mkNotifierInfo (notifier i) (foreground i) (hapApp i) (level i).

(** What the manager does to the outside. *)
Inductive NCall :=
  | NAddDeath (notifier : Z)
  | NRemoveDeath (notifier : Z)
  | NSave (path text : string)
  | NSubmit (notifiers : list Z) (level : Z)
  | NOnSystemloadLevel (notifier level : Z)
  | NHiSysEvent (bundleNames : list string).

(** notifier_mgr.h:65-74 [notifierMap_] the members; [n_delayed] holds the delays of the
    tasks that wait to report *)
Record NotifierMgr := mkNotifierMgr {
  n_initialized_ : bool;
  isTaskSubmit_ : bool;
  notifierMap_ : gmap Z NotifierInfo;
  hisyseventBundleNames_ : gset string;
  systemloadLevel_ : Z;
  notifierDeathRecipient_ : bool;
  notifierHandler_ : option (list (list Z * Z));
  n_delayed : list Z;
  n_trace : list NCall;
}.
#[export] Instance NotifierMgr_eta : Eta NotifierMgr := fun s =>
  mkNotifierMgr (n_initialized_ s) (isTaskSubmit_ s) (notifierMap_ s) (hisyseventBundleNames_ s)
    (systemloadLevel_ s) (notifierDeathRecipient_ s) (notifierHandler_ s) (n_delayed s) (n_trace s).

(** The singleton when the process starts. *)
Definition new_NotifierMgr : NotifierMgr :=
  mkNotifierMgr false false ∅ ∅ LOW false None [] [].

(** The file of the level, and the application manager's answer about a process (empty
    when it fails). *)
Class NotifierHost (K : Type) := {
  nh_LoadStringFromFile : string -> K -> option string;
  nh_GetBundleNameByPid : Z -> K -> string;
}.

Section notifier_mgr.
Context {K : Type} `{!NotifierHost K} `{!AccessTokenKit K} `{!ApplicationState}.
#[local] Abbreviation M := (ST NotifierMgr).

Definition n_record (c : NCall) : M unit := st_modify (fun s => s <| n_trace ::= fun l => l ++ [c] |>).

(** notifier_mgr.cpp:71-93 [NotifierMgr::Init] *)
Definition NotifierMgr_Init (k : K) : M unit :=
  s ← st_get;
  ret_if n_initialized_ s;
  st_modify (fun s => s <| notifierDeathRecipient_ := true |> <| notifierHandler_ := Some [] |>);;
  match nh_LoadStringFromFile SYSTEMLOAD_FILE k with
  | None => mret tt
  | Some systemload =>
      st_iter (fun vec => st_when (bool_decide (vec.1 = systemload))
        (st_modify (fun s => s <| systemloadLevel_ := vec.2 |>))) g_systemloadPair
  end;;
  st_modify (fun s => s <| n_initialized_ := true |>).

(** notifier_mgr.cpp:95-98 [NotifierMgr::Deinit] *)
Definition NotifierMgr_Deinit : M unit := st_modify (fun s => s <| notifierHandler_ := None |>).

(** notifier_mgr.cpp:145-150 [NotifierMgr::NotifierEventReportDelay] *)
Definition NotifierEventReportDelay (delay : Z) : M unit :=
  st_modify (fun s => s <| n_delayed ::= fun l => l ++ [delay] |>).

(** notifier_mgr.cpp:159-170 [NotifierMgr::NotifierEventReport] *)
Definition NotifierEventReport : M unit :=
  s ← st_get;
  st_when (bool_decide (hisyseventBundleNames_ s <> ∅))
    (n_record (NHiSysEvent (merge_sort strings.String.le (elements (hisyseventBundleNames_ s)))));;
  st_modify (fun s => s <| hisyseventBundleNames_ := ∅ |>).

(** notifier_mgr.cpp:152-157 [NotifierMgr::NotifierEventReportPeriod] *)
Definition NotifierEventReportPeriod : M unit :=
  NotifierEventReport;; NotifierEventReportDelay REPORT_INTERVAL_MS.

(** notifier_mgr.cpp:126-143 [NotifierMgr::ReportPidToHisysevent] *)
Definition ReportPidToHisysevent (k : K) (pid : Z) : M unit :=
  let bundleName := nh_GetBundleNameByPid pid k in
  ret_if bool_decide (bundleName = "");
  st_modify (fun s => s <| hisyseventBundleNames_ ::= union {[ bundleName ]} |>);;
  s ← st_get;
  st_when (negb (isTaskSubmit_ s))
    (NotifierEventReportDelay FIRST_REPORT_DELAY_MS;; st_modify (fun s => s <| isTaskSubmit_ := true |>));;
  s ← st_get;
  st_when (bool_decide (MAX_REPORT_SIZE <= size (hisyseventBundleNames_ s))%nat) NotifierEventReport.

(** notifier_mgr.cpp:308-317 [NotifierMgr::IsHapApp] *)
Definition IsHapApp (k : K) (caller : Caller) : bool :=
  bool_decide (at_GetTokenTypeFlag (c_tokenId caller) k = TOKEN_HAP).

(** notifier_mgr.cpp:100-124 [NotifierMgr::RegisterNotifier] *)
Definition RegisterNotifier (k : K) (caller : Caller) (pid : Z) (obj : option Z) : M unit :=
  obj <-? obj;
  s ← st_get;
  ret_if negb (notifierDeathRecipient_ s);
  st_when (bool_decide (notifierMap_ s !! pid = None))
    (st_modify (fun s => s <| notifierMap_ ::= <[pid := mkNotifierInfo obj true (IsHapApp k caller) LOW]> |>);;
     n_record (NAddDeath obj));;
  ReportPidToHisysevent k pid.

(** notifier_mgr.cpp:188-197 [NotifierMgr::UnRegisterNotifier] *)
Definition UnRegisterNotifier (pid : Z) : M unit :=
  s ← st_get;
  info <-? notifierMap_ s !! pid;
  n_record (NRemoveDeath (notifier info));;
  st_modify (fun s => s <| notifierMap_ ::= delete pid |>).

(** notifier_mgr.cpp:275-287 [NotifierMgr::RemoveNotifierLock] the first entry by pid *)
Definition RemoveNotifierLock (obj : Z) : M unit :=
  s ← st_get;
  p <-? head (filter (fun p => notifier p.2 = obj) (in_order (notifierMap_ s)));
  n_record (NRemoveDeath (notifier p.2));;
  st_modify (fun s => s <| notifierMap_ ::= delete p.1 |>).

(** notifier_mgr.cpp:199-207 [NotifierMgr::OnRemoteNotifierDied] *)
Definition OnRemoteNotifierDied (obj : option Z) : M unit :=
  obj <-? obj; RemoveNotifierLock obj.

(** notifier_mgr.cpp:331-343 [NotifierMgr::HandleDeviceLevelChange] the queue is used without
    a test *)
Definition HandleDeviceLevelChange (notifierVec : list Z) (level : Z) : M unit :=
  s ← st_get;
  q ← st_some (notifierHandler_ s);
  st_modify (fun s => s <| notifierHandler_ := Some (q ++ [(notifierVec, level)]) |>);;
  n_record (NSubmit notifierVec level).

(** Whether a change of the level reaches a client. *)
Definition is_listening (info : NotifierInfo) : bool := negb (hapApp info && negb (foreground info)).

(** notifier_mgr.cpp:289-306 [NotifierMgr::OnDeviceLevelChangedLock] *)
Definition OnDeviceLevelChangedLock (newLevel : Z) : M unit :=
  s ← st_get;
  let told := filter (fun p => is_listening p.2 = true) (in_order (notifierMap_ s)) in
  st_modify (fun s => s <| notifierMap_ ::=
    fmap (fun info => if is_listening info then info <| level := newLevel |> else info) |>);;
  HandleDeviceLevelChange ((fun p => notifier p.2) <$> told) newLevel.

(** notifier_mgr.cpp:209-239 [NotifierMgr::OnDeviceLevelChanged] *)
Definition NotifierMgr_OnDeviceLevelChanged (type newLevel : Z) : M unit :=
  ret_if bool_decide (g_DeviceStatusType !! type = None);
  ret_if (newLevel <? LOW) || (newLevel >? ESCAPE);
  st_modify (fun s => s <| systemloadLevel_ := newLevel |>);;
  st_iter (fun vec => s ← st_get;
    st_when (systemloadLevel_ s =? vec.2) (n_record (NSave SYSTEMLOAD_FILE vec.1))) g_systemloadPair;;
  s ← st_get;
  ret_if bool_decide (notifierHandler_ s = None);
  OnDeviceLevelChangedLock newLevel.

(** notifier_mgr.cpp:241-267 [NotifierMgr::OnApplicationStateChange] *)
Definition NotifierMgr_OnApplicationStateChange (state pid : Z) : M unit :=
  s ← st_get;
  info <-? notifierMap_ s !! pid;
  ret_if negb (hapApp info);
  st_when (state =? AS_FOREGROUND)
    (st_modify (fun s => s <| notifierMap_ ::= alter (fun i => i <| foreground := true |>) pid |>);;
     s ← st_get;
     st_when (negb (systemloadLevel_ s =? level info))
       (st_modify (fun s => s <| notifierMap_ ::= alter (fun i => i <| level := systemloadLevel_ s |>) pid |>);;
        HandleDeviceLevelChange [notifier info] (systemloadLevel_ s)));;
  st_when (state_leaves state)
    (st_modify (fun s => s <| notifierMap_ ::= alter (fun i => i <| foreground := false |>) pid |>)).

(** notifier_mgr.cpp:269-273 [NotifierMgr::GetSystemloadLevel] *)
Definition NotifierMgr_GetSystemloadLevel (s : NotifierMgr) : Z := systemloadLevel_ s.

(** notifier_mgr.cpp:319-329 [NotifierMgr::DumpRegisterInfo] *)
Definition NotifierMgr_DumpRegisterInfo (s : NotifierMgr) : list (Z * bool) :=
  (fun p => (p.1, hapApp p.2)) <$> in_order (notifierMap_ s).

(** notifier_mgr.cpp:333-341 [func] the queue runs its oldest
    task *)
Definition run_notifier_queue : M unit :=
  s ← st_get;
  match notifierHandler_ s with
  | Some ((objs, l) :: q) =>
      st_modify (fun s => s <| notifierHandler_ := Some q |>);;
      st_iter (fun obj => n_record (NOnSystemloadLevel obj l)) objs
  | _ => mret tt
  end.

(** A task that reports comes due. *)
Definition run_notifier_report : M unit :=
  s ← st_get;
  match n_delayed s with
  | _ :: l => st_modify (fun s => s <| n_delayed := l |>);; NotifierEventReportPeriod
  | [] => mret tt
  end.
End notifier_mgr.
