(* ===== verification/EventListenerMgr.v ===== *)
(** * Event listeners

    [event_listener_mgr.cpp]: clients register for an event type and a group; an event is
    handed to a queue that calls the listeners of its type that are in its group.  Remote
    objects and the outside are as in [NotifierMgr.v]. *)
From S2P Require Import Prelude Json ResType CommonUtil.

Definition EVENT_START : Z := 0. (* res_value.h:41 *)
Definition EVENT_KEY_PERF_SCENE : Z := 23. (* res_value.h:63 *)
Definition EVENT_END : Z := 27. (* res_value.h:66 *)
Definition LISTENER_GROUP_COMMON : Z := 1. (* res_value.h:85 *)

(** event_listener_mgr.h:38-42 [EventListenerInfo] *)
Record EventListenerInfo := mkEventListenerInfo {
  listener : Z;
  el_pid : Z;
  groups : gset Z;
}.
#[export] Instance EventListenerInfo_eta : Eta EventListenerInfo := fun i =>
  mkEventListenerInfo (listener i) (el_pid i) (groups i).

(** What the manager does to the outside. *)
Inductive ECall (J : Type) :=
  | EAddDeath (listener : Z)
  | ERemoveDeath (listener : Z)
  | EOnReceiveEvent (listener eventType eventValue listenerGroup : Z) (extInfo : string).
Arguments EAddDeath {_}.
Arguments ERemoveDeath {_}.
Arguments EOnReceiveEvent {_}.

(** A task of the queue: the listeners and the event. *)
Record ETask (J : Type) := mkETask {
  et_listeners : list Z;
  et_type : Z;
  et_value : Z;
  et_extInfo : J;
  et_group : Z;
}.
Arguments mkETask {_}.
Arguments et_listeners {_}.
Arguments et_type {_}.
Arguments et_value {_}.
Arguments et_extInfo {_}.
Arguments et_group {_}.

(** event_listener_mgr.h:67-71 [eventListenerMap_] the members *)
Record EventListenerMgr (J : Type) := mkEventListenerMgr {
  e_initialized_ : bool;
  eventListenerMap_ : gmap Z (gmap Z EventListenerInfo);
  eventListenerDeathRecipient_ : bool;
  eventSenderQueue_ : option (list (ETask J));
  e_trace : list (ECall J);
}.
Arguments mkEventListenerMgr {_}.
Arguments e_initialized_ {_}.
Arguments eventListenerMap_ {_}.
Arguments eventListenerDeathRecipient_ {_}.
Arguments eventSenderQueue_ {_}.
Arguments e_trace {_}.
#[export] Instance EventListenerMgr_eta J : Eta (EventListenerMgr J) := fun s =>
  mkEventListenerMgr (e_initialized_ s) (eventListenerMap_ s) (eventListenerDeathRecipient_ s)
    (eventSenderQueue_ s) (e_trace s).

(** The singleton when the process starts. *)
Definition new_EventListenerMgr {J} : EventListenerMgr J := mkEventListenerMgr false ∅ false None [].

Section event_listener_mgr.
Context {J : Type} `{!Json J} `{!JsonText J}.
(** The flag of the build and [StrToInt] of the common library of the system. *)
Context (with_ext_res : bool) (StrToInt : string -> option Z).
#[local] Abbreviation M := (ST (EventListenerMgr J)).

Definition e_record (c : ECall J) : M unit := st_modify (fun s => s <| e_trace ::= fun l => l ++ [c] |>).

(** event_listener_mgr.cpp:43-54 [EventListenerMgr::Init] *)
Definition EventListenerMgr_Init : M unit :=
  s ← st_get;
  ret_if e_initialized_ s;
  st_modify (fun s => s <| eventListenerDeathRecipient_ := true |> <| eventSenderQueue_ := Some [] |>
                       <| e_initialized_ := true |>).

(** event_listener_mgr.cpp:56-59 [EventListenerMgr::Deinit] *)
Definition EventListenerMgr_Deinit : M unit := st_modify (fun s => s <| eventSenderQueue_ := None |>).

(** The entry of a listener. *)
Definition listener_at (eventType pid : Z) (m : gmap Z (gmap Z EventListenerInfo)) : option EventListenerInfo :=
  m !! eventType ≫= lookup pid.

(** [eventListenerMap_[eventType][pid] = info] *)
Definition set_listener (eventType pid : Z) (info : EventListenerInfo)
    (m : gmap Z (gmap Z EventListenerInfo)) : gmap Z (gmap Z EventListenerInfo) :=
  <[eventType := <[pid := info]> (default ∅ (m !! eventType))]> m.

(** event_listener_mgr.cpp:61-94 [EventListenerMgr::RegisterEventListener] *)
Definition RegisterEventListener (callingPid : Z) (obj : option Z) (eventType listenerGroup : Z) : M unit :=
  obj <-? obj;
  s ← st_get;
  ret_if negb (eventListenerDeathRecipient_ s);
  match listener_at eventType callingPid (eventListenerMap_ s) with
  | Some info =>
      st_when (bool_decide (listenerGroup ∉ groups info))
        (st_modify (fun s => s <| eventListenerMap_ ::=
           set_listener eventType callingPid (info <| groups ::= union {[ listenerGroup ]} |>) |>))
  | None =>
      st_modify (fun s => s <| eventListenerMap_ ::=
        set_listener eventType callingPid (mkEventListenerInfo obj callingPid {[ listenerGroup ]}) |>);;
      e_record (EAddDeath obj)
  end.

(** event_listener_mgr.cpp:96-117 [EventListenerMgr::UnRegisterEventListener] *)
Definition UnRegisterEventListener (callingPid eventType listenerGroup : Z) : M unit :=
  s ← st_get;
  listeners <-? eventListenerMap_ s !! eventType;
  info <-? listeners !! callingPid;
  let info := info <| groups ::= fun g => g ∖ {[ listenerGroup ]} |> in
  if bool_decide (groups info <> ∅)
  then st_modify (fun s => s <| eventListenerMap_ ::= set_listener eventType callingPid info |>)
  else
    e_record (ERemoveDeath (listener info));;
    let listeners := delete callingPid listeners in
    st_modify (fun s => s <| eventListenerMap_ ::=
      if bool_decide (listeners = ∅) then delete eventType else <[eventType := listeners]> |>).

(** event_listener_mgr.cpp:168-182 [EventListenerMgr::RemoveListenerLock] at each event type the
    first entry by pid; the map of a type stays when it gets empty *)
Definition RemoveListenerLock (obj : Z) : M unit :=
  s ← st_get;
  st_iter (fun e =>
    p <-? head (filter (fun p => listener p.2 = obj) (in_order e.2));
    e_record (ERemoveDeath (listener p.2));;
    st_modify (fun s => s <| eventListenerMap_ ::= alter (delete p.1) e.1 |>))
    (in_order (eventListenerMap_ s)).

(** event_listener_mgr.cpp:119-127 [EventListenerMgr::OnRemoteListenerDied] *)
Definition OnRemoteListenerDied (obj : option Z) : M unit :=
  obj <-? obj; RemoveListenerLock obj.

(** event_listener_mgr.cpp:32-32 [DEFAULT_VALUE] *)
Definition EXT_DEFAULT_VALUE : Z := -1.

(** event_listener_mgr.cpp:130-141 [EventListenerMgr::GetExtTypeByEventExtInfo] *)
Definition GetExtTypeByEventExtInfo (extInfo : J) : Z :=
  match find_string "extType" extInfo with
  | None => EXT_DEFAULT_VALUE
  | Some text => default EXT_DEFAULT_VALUE (StrToInt text)
  end.

(** event_listener_mgr.cpp:226-240 [EventListenerMgr::HandleSendEvent] *)
Definition HandleSendEvent (listenerVec : list Z) (eventType eventValue : Z) (extInfo : J)
    (listenerGroup : Z) : M unit :=
  s ← st_get;
  q ← st_some (eventSenderQueue_ s);
  st_modify (fun s => s <| eventSenderQueue_ :=
    Some (q ++ [mkETask listenerVec eventType eventValue extInfo listenerGroup]) |>).

(** event_listener_mgr.cpp:184-209 [EventListenerMgr::SendEventLock] *)
Definition SendEventLock (eventType eventValue : Z) (extInfo : J) (listenerGroup targetPid : Z) : M unit :=
  s ← st_get;
  listeners <-? eventListenerMap_ s !! eventType;
  let listenerArray :=
    if targetPid >=? 0 then
      match listeners !! targetPid with
      | Some info => if bool_decide (listenerGroup ∈ groups info) then [listener info] else []
      | None => []
      end
    else (fun p => listener p.2) <$> filter (fun p => listenerGroup ∈ groups p.2) (in_order listeners) in
  HandleSendEvent listenerArray eventType eventValue extInfo listenerGroup.

(** event_listener_mgr.cpp:144-166 [EventListenerMgr::SendEvent] *)
Definition SendEvent (eventType eventValue : Z) (extInfo : J) (listenerGroup targetPid : Z) : M unit :=
  ret_if (eventType <? EVENT_START) || (eventType >? EVENT_END);
  s ← st_get;
  ret_if bool_decide (eventSenderQueue_ s = None);
  let extType := if with_ext_res && (eventType =? EVENT_KEY_PERF_SCENE)
                 then GetExtTypeByEventExtInfo extInfo else EXT_DEFAULT_VALUE in
  let eventType := if extType =? EXT_DEFAULT_VALUE then eventType else to_u32 extType in
  SendEventLock eventType eventValue extInfo listenerGroup targetPid.

(** event_listener_mgr.cpp:211-224 [EventListenerMgr::DumpRegisterInfo] *)
Definition EventListenerMgr_DumpRegisterInfo (s : EventListenerMgr J) : gmap Z (list Z) :=
  (fun listeners => (fun p => el_pid p.2) <$> in_order listeners) <$> eventListenerMap_ s.

(** event_listener_mgr.cpp:229-238 [func] the queue runs its oldest task *)
Definition run_event_queue : M unit :=
  s ← st_get;
  match eventSenderQueue_ s with
  | Some (t :: q) =>
      st_modify (fun s => s <| eventSenderQueue_ := Some q |>);;
      st_iter (fun obj => e_record (EOnReceiveEvent obj (et_type t) (et_value t) (et_group t)
                                      (json_dump (et_extInfo t)))) (et_listeners t)
  | _ => mret tt
  end.
End event_listener_mgr.
