(* ===== verification/ServiceWorld.v ===== *)
(** * State of the service process

    The singletons of the service process that handle requests: the plugin manager, the
    manager of scene recognizers, notifiers, event listeners, [ResSchedMgr],
    [ResSchedService] and [ResSchedIpcThread].  A request acts on one record [Service];
    [in_plugins] and its relatives run an operation of one part.  The outer state is the
    one of the plugin manager. *)
From S2P Require Import Prelude Json ResType CommonUtil LruCache Ipc PluginConfig PluginMgr NotifierMgr EventListenerMgr.

(** What the manager promises of the scene recognizers: they take an event. *)
Class SceneDispatcher (J S : Type) := scene_dispatch : ResData J -> ST S unit.

(** The outside of the service besides the plugins: the wall clock in milliseconds, the
    thread and the process that run, the kill of a process by the executor service, the
    foreground applications, and the switch of the debug build. *)
Class ServiceHost (K : Type) := {
  sh_GetCurrentTimestamp : K -> Z;
  sh_gettid : K -> Z;
  sh_getpid : K -> Z;
  sh_KillProcess : Z -> K -> Z;
  sh_GetForegroundApplications : K -> option (list Z);
  (** whether the library [libapp_preload_plugin] has the function, and its answer *)
  sh_has_preload_func : K -> bool;
  sh_OnIsAllowedAppPreload : string -> Z -> K -> bool;
  sh_const_debuggable : Z;
}.

(** The flags of the build. *)
Class ServiceBuild := {
  FILE_COPY_SOC_PERF : bool;
  LOAD_LEVEL_2D : bool;
}.

(** [ErrCodeOffset] of the two modules. *)
Class ErrCodes := {
  RES_SCHED_COMMON_ERR_OFFSET : Z;
  RES_SCHED_SERVICE_ERR_OFFSET : Z;
  ERR_INVALID_OPERATION : Z;
  ERR_INVALID_VALUE : Z;
}.
Definition ERR_OK : Z := 0.
Definition RES_SCHED_KILL_PROCESS_FAIL : Z := -1. (* res_sched_errors.h:29 *)
Definition RES_SCHED_CONNECT_FAIL : Z := -2. (* res_sched_errors.h:30 *)
Definition RES_SCHED_ACCESS_TOKEN_FAIL : Z := -3. (* res_sched_errors.h:31 *)
Definition RES_SCHED_REQUEST_FAIL : Z := -4. (* res_sched_errors.h:32 *)
Definition RES_SCHED_DATA_ERROR : Z := -5. (* res_sched_errors.h:33 *)
Definition ERR_RES_SCHED_INVALID_PARAM `{!ErrCodes} : Z := RES_SCHED_COMMON_ERR_OFFSET + 1. (* res_sched_errors.h:38 *)
Definition ERR_RES_SCHED_PARCEL_ERROR `{!ErrCodes} : Z := RES_SCHED_SERVICE_ERR_OFFSET + 1. (* res_sched_errors.h:44 *)
Definition ERR_RES_SCHED_PERMISSION_DENIED `{!ErrCodes} : Z := RES_SCHED_SERVICE_ERR_OFFSET + 2. (* res_sched_errors.h:45 *)

(** What the service does to the outside besides its parts. *)
Inductive SCall :=
  | SHiSysEvent (event info : string) (count : Z)
  | SRecordExitReason (pid : Z) (reason : string)
  | SKill (pid : Z)
  | SSendDebugCommand (isSync : bool)
  | SInitExecutor (config switch : list string)
  | SSetQos (tid pid : Z)
  | SDumpText (fd : Z) (text : string).

(** The lists of event types that a kind of caller may report. *)
Record AllowLists := mkAllowLists {
  allowSCB : gset Z;
  allowAllSA : gset Z;
  allowSomeSA : gmap Z (gset Z);
  allowAllApp : gset Z;
  allowFgApp : gset Z;
}.
#[export] Instance AllowLists_eta : Eta AllowLists := fun a =>
  mkAllowLists (allowSCB a) (allowAllSA a) (allowSomeSA a) (allowAllApp a) (allowFgApp a).
Definition no_lists : AllowLists := mkAllowLists ∅ ∅ ∅ ∅ ∅.

(** res_sched_mgr.h:184-191 [killProcess_] the members *)
Record ResSchedMgr := mkResSchedMgr {
  killProcess_ : bool;
  foregroundPids_ : gset Z;
  allowExt : AllowLists;
}.
#[export] Instance ResSchedMgr_eta : Eta ResSchedMgr := fun m =>
  mkResSchedMgr (killProcess_ m) (foregroundPids_ m) (allowExt m).

(** res_ipc_init.h:29-32 [ipcThreadTids_] the members *)
Record IpcThread := mkIpcThread {
  selfPid_ : Z;
  ipcThreadTids_ : gset Z;
  qos_isInit_ : bool;
}.
#[export] Instance IpcThread_eta : Eta IpcThread := fun t =>
  mkIpcThread (selfPid_ t) (ipcThreadTids_ t) (qos_isInit_ t).

(** res_sched_service.h:121-146 [appRequestCountMap_] the members *)
Record ResSchedService := mkResSchedService {
  appPreloadFunc_ : bool;
  isLoadAppPreloadPlugin_ : bool;
  appRequestCountMap_ : gmap Z Z;
  errLogRecordMap_ : gmap Z (Z * Z);
  lastEventReportTime_ : Z;
  allRequestCount_ : Z;
  bigDataReportCount_ : Z;
  nextCheckTime_ : Z;
  nextReportBigDataTime_ : Z;
  isReportBigData_ : bool;
  isPrintLimitLog_ : bool;
  actualSystemLoadLevel_ : Z;
  debugSystemLoadLevel_ : Z;
  systemLoadLevelDebugEnable_ : bool;
  allow : AllowLists;
  permissionCache_ : LRU Z Z;
}.
#[export] Instance ResSchedService_eta : Eta ResSchedService := fun s =>
  mkResSchedService (appPreloadFunc_ s) (isLoadAppPreloadPlugin_ s) (appRequestCountMap_ s)
    (errLogRecordMap_ s) (lastEventReportTime_ s) (allRequestCount_ s) (bigDataReportCount_ s)
    (nextCheckTime_ s) (nextReportBigDataTime_ s) (isReportBigData_ s) (isPrintLimitLog_ s)
    (actualSystemLoadLevel_ s) (debugSystemLoadLevel_ s) (systemLoadLevelDebugEnable_ s) (allow s)
    (permissionCache_ s).

Definition new_ResSchedService : ResSchedService :=
  mkResSchedService false false ∅ ∅ 0 0 0 0 0 false true 0 0 false no_lists (new_LRU 256).

(** The process; [svc_ready] says whether the ability has made the service object. *)
Record Service (J K S : Type) := mkService {
  plugins : PluginMgr J K;
  scenes : S;
  notifiers : NotifierMgr;
  listeners : EventListenerMgr J;
  rsmgr : ResSchedMgr;
  ipcThread : IpcThread;
  svc : ResSchedService;
  svc_ready : bool;
  s_trace : list SCall;
}.
Arguments mkService {_ _ _}.
Arguments plugins {_ _ _}.
Arguments scenes {_ _ _}.
Arguments notifiers {_ _ _}.
Arguments listeners {_ _ _}.
Arguments rsmgr {_ _ _}.
Arguments ipcThread {_ _ _}.
Arguments svc {_ _ _}.
Arguments svc_ready {_ _ _}.
Arguments s_trace {_ _ _}.
#[export] Instance Service_eta J K S : Eta (Service J K S) := fun s =>
  mkService (plugins s) (scenes s) (notifiers s) (listeners s) (rsmgr s) (ipcThread s) (svc s)
    (svc_ready s) (s_trace s).

(** The process when it starts. *)
Definition new_Service {J K S} (k : K) (scene : S) : Service J K S :=
  mkService (new_PluginMgr k) scene new_NotifierMgr new_EventListenerMgr
    (mkResSchedMgr false ∅ no_lists) (mkIpcThread 0 ∅ false) new_ResSchedService false [].

Section parts.
Context {J K S : Type}.
#[local] Abbreviation M := (ST (Service J K S)).

(** Runs an operation on one part of the state. *)
Definition in_part {P A} (part : Service J K S -> P) (set : P -> Service J K S -> Service J K S)
    (m : ST P A) : M A :=
  fun s => match m (part s) with
           | Some (a, p) => Some (a, set p s)
           | None => None
           end.
Definition in_plugins {A} : ST (PluginMgr J K) A -> M A := in_part plugins (fun p s => s <| plugins := p |>).
Definition in_scenes {A} : ST S A -> M A := in_part scenes (fun p s => s <| scenes := p |>).
Definition in_notifiers {A} : ST NotifierMgr A -> M A :=
  in_part notifiers (fun p s => s <| notifiers := p |>).
Definition in_listeners {A} : ST (EventListenerMgr J) A -> M A :=
  in_part listeners (fun p s => s <| listeners := p |>).
Definition in_cache {A} : ST (LRU Z Z) A -> M A :=
  in_part (fun s => permissionCache_ (svc s)) (fun p s => s <| svc ::= fun x => x <| permissionCache_ := p |> |>).

Definition upd_svc (f : ResSchedService -> ResSchedService) : M unit := st_modify (fun s => s <| svc ::= f |>).
Definition upd_mgr (f : ResSchedMgr -> ResSchedMgr) : M unit := st_modify (fun s => s <| rsmgr ::= f |>).
Definition get_svc : M ResSchedService := fun s => Some (svc s, s).
Definition get_host : M K := fun s => Some (host (plugins s), s).
Definition s_record (c : SCall) : M unit := st_modify (fun s => s <| s_trace ::= fun l => l ++ [c] |>).
End parts.
