(* ===== verification/ResSchedMgr.v ===== *)
(** * Manager of the service and kill of a process

    [res_sched_mgr.cpp], [kill_process.cpp] and [res_ipc_init.cpp]: hands an event to the
    plugins and to the scene recognizers, keeps the processes in the foreground and the
    extensions of the lists of allowed event types.  Trace marks are left out. *)
From S2P Require Import Prelude Json ResType CommonUtil LruCache Ipc PluginConfig PluginMgr NotifierMgr EventListenerMgr ServiceWorld.

(** res_sched_mgr.cpp:49-219 [resTypeToStr] *)
Definition resTypeToStr (file_copy : bool) : gmap Z string := list_to_map (
  [(SYNC_RES_TYPE_THAW_ONE_APP, "SYNC_RES_TYPE_THAW_ONE_APP");
   (SYNC_RES_TYPE_GET_APP_TYPE, "SYNC_RES_TYPE_GET_APP_TYPE");
   (SYNC_RES_TYPE_GET_ALL_SUSPEND_STATE, "SYNC_RES_TYPE_GET_ALL_SUSPEND_STATE");
   (SYNC_RES_TYPE_GET_THERMAL_DATA, "SYNC_RES_TYPE_GET_THERMAL_DATA");
   (RES_TYPE_SCREEN_STATUS, "SCREEN_STATUS");
   (RES_TYPE_APP_STATE_CHANGE, "APP_STATE_CHANGE");
   (RES_TYPE_ABILITY_STATE_CHANGE, "ABILITY_STATE_CHANGE");
   (RES_TYPE_EXTENSION_STATE_CHANGE, "EXTENSION_STATE_CHANGE");
   (RES_TYPE_PROCESS_STATE_CHANGE, "PROCESS_STATE_CHANGE");
   (RES_TYPE_WINDOW_FOCUS, "WINDOW_FOCUS");
   (RES_TYPE_TRANSIENT_TASK, "TRANSIENT_TASK");
   (RES_TYPE_CONTINUOUS_TASK, "CONTINUOUS_TASK");
   (RES_TYPE_CGROUP_ADJUSTER, "CGROUP_ADJUSTER");
   (RES_TYPE_CLICK_RECOGNIZE, "CLICK_RECOGNIZE");
   (RES_TYPE_PUSH_PAGE, "PUSH_PAGE");
   (RES_TYPE_SLIDE_RECOGNIZE, "SLIDE_RECOGNIZE");
   (RES_TYPE_WINDOW_VISIBILITY_CHANGE, "WINDOW_VISIBILITY_CHANGE");
   (RES_TYPE_REPORT_MMI_PROCESS, "REPORT_MMI_PROCESS");
   (RES_TYPE_REPORT_RENDER_THREAD, "REPORT_RENDER_THREAD");
   (RES_TYPE_APP_INSTALL_UNINSTALL, "APP_INSTALL_UNINSTALL");
   (RES_TYPE_WIFI_CONNECT_STATE_CHANGE, "WIFI_CONNECT_STATE_CHANGE");
   (RES_TYPE_USER_SWITCH, "USER_SWITCH");
   (RES_TYPE_USER_REMOVE, "USER_REMOVE");
   (RES_TYPE_SCREEN_LOCK, "SCREEN_LOCK");
   (RES_TYPE_BLUETOOTH_A2DP_CONNECT_STATE_CHANGE, "BLUETOOTH_A2DP_CONNECT_STATE_CHANGE");
   (RES_TYPE_NETWORK_LATENCY_REQUEST, "NETWORK_LATENCY_REQUEST");
   (RES_TYPE_CALL_STATE_UPDATE, "CALL_STATE_UPDATE");
   (RES_TYPE_THREAD_QOS_CHANGE, "THREAD_QOS_CHANGE");
   (RES_TYPE_PROCESS_QOS_CHANGE, "PROCESS_QOS_CHANGE");
   (RES_TYPE_AUDIO_RENDER_STATE_CHANGE, "AUDIO_RENDER_STATE_CHANGE");
   (RES_TYPE_AUDIO_RING_MODE_CHANGE, "AUDIO_RING_MODE_CHANGE");
   (RES_TYPE_AUDIO_VOLUME_KEY_CHANGE, "AUDIO_VOLUME_KEY_CHANGE");
   (RES_TYPE_APP_ABILITY_START, "APP_ABILITY_START");
   (RES_TYPE_PRELOAD_APPLICATION, "RES_TYPE_PRELOAD_APPLICATION");
   (RES_TYPE_POP_PAGE, "POP_PAGE");
   (RES_TYPE_WEB_GESTURE, "WEB_GESTURE");
   (RES_TYPE_DEVICE_STILL_STATE_CHANGE, "DEVICE_STILL_STATE_CHANGE");
   (RES_TYPE_RESIZE_WINDOW, "RES_TYPE_RESIZE_WINDOW");
   (RES_TYPE_MOVE_WINDOW, "RES_TYPE_MOVE_WINDOW");
   (RES_TYPE_SHOW_REMOTE_ANIMATION, "RES_TYPE_SHOW_REMOTE_ANIMATION");
   (RES_TYPE_LOAD_PAGE, "RES_TYPE_LOAD_PAGE");
   (RES_TYPE_REPORT_CAMERA_STATE, "RES_TYPE_REPORT_CAMERA_STATE");
   (RES_TYPE_RUNNINGLOCK_STATE, "RES_TYPE_RUNNINGLOCK_STATE");
   (RES_TYPE_DRAG_STATUS_BAR, "RES_TYPE_DRAG_STATUS_BAR");
   (RES_TYPE_REPORT_SCENE_BOARD, "RES_TYPE_REPORT_SCENE_BOARD");
   (RES_TYPE_REPORT_KEY_THREAD, "RES_TYPE_REPORT_KEY_THREAD");
   (RES_TYPE_REPORT_WINDOW_STATE, "RES_TYPE_REPORT_WINDOW_STATE");
   (RES_TYPE_REPORT_SCENE_SCHED, "RES_TYPE_REPORT_SCENE_SCHED");
   (RES_TYPE_WEB_GESTURE_MOVE, "RES_TYPE_WEB_GESTURE_MOVE");
   (RES_TYPE_WEB_SLIDE_NORMAL, "RES_TYPE_WEB_SLIDE_NORMAL");
   (RES_TYPE_LOAD_URL, "RES_TYPE_LOAD_URL");
   (RES_TYPE_MOUSEWHEEL, "RES_TYPE_MOUSEWHEEL");
   (RES_TYPE_WEBVIEW_AUDIO_STATUS_CHANGE, "RES_TYPE_WEBVIEW_AUDIO_STATUS_CHANGE");
   (RES_TYPE_MMI_INPUT_STATE, "RES_TYPE_MMI_INPUT_STATE");
   (RES_TYPE_ANCO_CUST, "RES_TYPE_ANCO_CUST");
   (RES_TYPE_TIMEZONE_CHANGED, "RES_TYPE_TIMEZONE_CHANGED");
   (RES_TYPE_TIME_CHANGED, "RES_TYPE_TIME_CHANGED");
   (RES_TYPE_NITZ_TIME_CHANGED, "RES_TYPE_NITZ_TIME_CHANGED");
   (RES_TYPE_NITZ_TIMEZONE_CHANGED, "RES_TYPE_NITZ_TIMEZONE_CHANGED");
   (RES_TYPE_CHARGING_DISCHARGING, "RES_TYPE_CHARGING_DISCHARGING");
   (RES_TYPE_USB_DEVICE, "RES_TYPE_USB_DEVICE");
   (RES_TYPE_CALL_STATE_CHANGED, "RES_TYPE_CALL_STATE_CHANGED");
   (RES_TYPE_WIFI_P2P_STATE_CHANGED, "RES_TYPE_WIFI_P2P_STATE_CHANGED");
   (RES_TYPE_CONNECTION_OBSERVER, "RES_TYPE_CONNECTION_OBSERVER");
   (RES_TYPE_AV_SESSION_ON_SESSION_CREATE, "RES_TYPE_AV_SESSION_ON_SESSION_CREATE");
   (RES_TYPE_AV_SESSION_ON_SESSION_RELEASE, "RES_TYPE_AV_SESSION_ON_SESSION_RELEASE");
   (RES_TYPE_AV_SESSION_ON_TOP_SESSION_CHANGE, "RES_TYPE_AV_SESSION_ON_TOP_SESSION_CHANGE");
   (RES_TYPE_ON_APP_STATE_CHANGED, "RES_TYPE_ON_APP_STATE_CHANGED");
   (RES_TYPE_PROCESS_PRE_FOREGROUND_CHANGE, "RES_TYPE_PROCESS_PRE_FOREGROUND_CHANGE");
   (RES_TYPE_EFFICIENCY_RESOURCES_STATE_CHANGED, "RES_TYPE_EFFICIENCY_RESOURCES_STATE_CHANGED");
   (RES_TYPE_AV_CODEC_STATE, "RES_TYPE_AV_CODEC_STATE");
   (RES_TYPE_APP_ASSOCIATED_START, "RES_TYPE_APP_ASSOCIATED_START");
   (RES_TYPE_THERMAL_STATE, "RES_TYPE_THERMAL_STATE");
   (RES_TYPE_SOCPERF_CUST_EVENT_BEGIN, "RES_TYPE_SOCPERF_CUST_EVENT_BEGIN");
   (RES_TYPE_SOCPERF_CUST_EVENT_END, "RES_TYPE_SOCPERF_CUST_EVENT_END");
   (RES_TYPE_WINDOW_DRAWING_CONTENT_CHANGE, "RES_TYPE_WINDOW_DRAWING_CONTENT_CHANGE");
   (RES_TYPE_REPORT_SCREEN_CAPTURE, "RES_TYPE_REPORT_SCREEN_CAPTURE");
   (RES_TYPE_LONG_FRAME, "RES_TYPE_LONG_FRAME");
   (RES_TYPE_KEY_PERF_SCENE, "RES_TYPE_KEY_PERF_SCENE");
   (RES_TYPE_SUPER_LAUNCHER, "RES_TYPE_SUPER_LAUNCHER");
   (RES_TYPE_CAST_SCREEN, "RES_TYPE_CAST_SCREEN");
   (RES_TYPR_SCREEN_COLLABROATION, "RES_TYPR_SCREEN_COLLABROATION");
   (RES_TYPE_SA_CONTROL_APP_EVENT, "RES_TYPE_SA_CONTROL_APP_EVENT");
   (RES_TYPE_SYSTEM_CPU_LOAD, "RES_TYPE_SYSTEM_CPU_LOAD");
   (RES_TYPE_UPLOAD_DOWNLOAD, "RES_TYPE_UPLOAD_DOWNLOAD");
   (RES_TYPE_SPLIT_SCREEN, "RES_TYPE_SPLIT_SCREEN");
   (RES_TYPE_FLOATING_WINDOW, "RES_TYPE_FLOATING_WINDOW");
   (RES_TYPE_REPORT_DISTRIBUTE_TID, "RES_TYPE_REPORT_DISTRIBUTE_TID");
   (RES_TYPE_FRAME_RATE_REPORT, "RES_TYPE_FRAME_RATE_REPORT");
   (RES_TYPE_WEB_DRAG_RESIZE, "RES_TYPE_WEB_DRAG_RESIZE");
   (RES_TYPE_WEBVIEW_SCREEN_CAPTURE, "RES_TYPE_WEBVIEW_SCREEN_CAPTURE");
   (RES_TYPE_WEBVIEW_VIDEO_STATUS_CHANGE, "RES_TYPE_WEBVIEW_VIDEO_STATUS_CHANGE");
   (RES_TYPE_LOCATION_STATUS_CHANGE, "RES_TYPE_LOCATION_STATUS_CHANGE");
   (RES_TYPE_DEVICE_MODE_STATUS, "RES_TYPE_DEVICE_MODE_STATUS");
   (RES_TYPE_REPORT_DISTRIBUTE_COMPONENT_CHANGE, "RES_TYPE_REPORT_DISTRIBUTE_COMPONENT_CHANGE");
   (RES_TYPE_FORM_STATE_CHANGE_EVENT, "RES_TYPE_FORM_STATE_CHANGE_EVENT");
   (RES_TYPE_POWER_MODE_CHANGED, "RES_TYPE_POWER_MODE_CHANGED");
   (RES_TYPE_THERMAL_SCENARIO_REPORT, "RES_TYPE_THERMAL_SCENARIO_REPORT");
   (SYNC_RES_TYPE_SHOULD_FORCE_KILL_PROCESS, "SYNC_RES_TYPE_SHOULD_FORCE_KILL_PROCESS");
   (RES_TYPE_BOOT_COMPLETED, "RES_TYPE_BOOT_COMPLETED");
   (RES_TYPE_CONTINUOUS_STARTUP, "RES_TYPE_CONTINUOUS_STARTUP");
   (RES_TYPE_AUDIO_RENDERER_SILENT_PLAYBACK, "RES_TYPE_AUDIO_RENDERER_SILENT_PLAYBACK");
   (RES_TYPE_REPORT_GAME_SCHED, "RES_TYPE_REPORT_GAME_SCHED");
   (RES_TYPE_BT_SERVICE_EVENT, "RES_TYPE_BT_SERVICE_EVENT");
   (RES_TYPE_APP_FRAME_DROP, "RES_TYPE_APP_FRAME_DROP");
   (RES_TYPE_CLOUD_CONFIG_UPDATE, "RES_TYPE_CLOUD_CONFIG_UPDATE");
   (RES_TYPE_GAME_INFO_NOTIFY, "RES_TYPE_GAME_INFO_NOTIFY");
   (RES_TYPE_RSS_CLOUD_CONFIG_UPDATE, "RES_TYPE_RSS_CLOUD_CONFIG_UPDATE");
   (RES_TYPE_APP_GAME_BOOST_EVENT, "RES_TYPE_APP_GAME_BOOST_EVENT");
   (RES_TYPE_GESTURE_ANIMATION, "RES_TYPE_GESTURE_ANIMATION");
   (RES_TYPE_AUDIO_RENDERER_STANDBY, "RES_TYPE_AUDIO_RENDERER_STANDBY");
   (RES_TYPE_AXIS_EVENT, "RES_TYPE_AXIS_EVENT");
   (RES_TYPE_INTENT_CTRL_APP, "RES_TYPE_INTENT_CTRL_APP");
   (RES_TYPE_DISPLAY_MULTI_SCREEN, "RES_TYPE_DISPLAY_MULTI_SCREEN");
   (RES_TYPE_CROWN_ROTATION_STATUS, "RES_TYPE_CROWN_ROTATION_STATUS");
   (SYNC_RES_TYPE_APP_IS_IN_TAIHANG_LIST, "SYNC_RES_TYPE_APP_IS_IN_TAIHANG_LIST");
   (RES_TYPE_RED_ENVELOPE, "RES_TYPE_RED_ENVELOPE");
   (RES_TYPE_GET_GAME_SCENE_INFO, "RES_TYPE_GET_GAME_SCENE_INFO");
   (RES_TYPE_RAISE_WORKER_THREAD_PRIORITY, "RES_TYPE_RAISE_WORKER_THREAD_PRIORITY");
   (SYNC_RES_TYPE_GET_SUSPEND_STATE_BY_UID, "SYNC_RES_TYPE_GET_SUSPEND_STATE_BY_UID");
   (SYNC_RES_TYPE_GET_SUSPEND_STATE_BY_PID, "SYNC_RES_TYPE_GET_SUSPEND_STATE_BY_PID");
   (RES_TYPE_CAMERA_RESET_PRIORITY, "RES_TYPE_CAMERA_RESET_PRIORITY");
   (RES_TYPE_LOAD_KILL_REASON_CONFIG, "RES_TYPE_LOAD_KILL_REASON_CONFIG");
   (RES_TYPE_COMPONENT_STATE_CHANGE, "RES_TYPE_COMPONENT_STATE_CHANGE");
   (RES_TYPE_FLOAT_START_FROM_SIDEBAR, "RES_TYPE_FLOAT_START_FROM_SIDEBAR");
   (SYNC_RES_TYPE_DFX_CTRL_IMAGE_INTERFACE, "SYNC_RES_TYPE_DFX_CTRL_IMAGE_INTERFACE")]
  ++ (if file_copy then [(RES_TYPE_FILE_COPY_STATUS, "RES_TYPE_FILE_COPY_STATUS")] else [])
  ++ [(RES_TYPE_CHECK_APP_IS_IN_SCHEDULE_LIST, "RES_TYPE_CHECK_APP_IS_IN_SCHEDULE_LIST");
   (RES_TYPE_PAGE_TRANSITION, "RES_TYPE_PAGE_TRANSITION");
   (RES_TYPE_DYNAMICALLY_SET_SUSPEND_EXEMPT, "RES_TYPE_DYNAMICALLY_SET_SUSPEND_EXEMPT");
   (RES_TYPE_WEB_SLIDE_SCROLL, "RES_TYPE_WEB_SLIDE_SCROLL");
   (RES_TYPE_PARAM_UPDATE_EVENT, "RES_TYPE_PARAM_UPDATE_EVENT");
   (RES_TYPE_WIFI_POWER_STATE_CHANGE, "RES_TYPE_WIFI_POWER_STATE_CHANGE");
   (RES_TYPE_OVERLAY_EVENT, "RES_TYPE_OVERLAY_EVENT");
   (RES_TYPE_APP_OPT_FROM_RECENT, "RES_TYPE_APP_OPT_FROM_RECENT");
   (RES_TYPE_SWIPE_DIRECTION_UP, "RES_TYPE_SWIPE_DIRECTION_UP");
   (RES_TYPE_WINDOW_PANEL, "RES_TYPE_WINDOW_PANEL");
   (RES_TYPE_WINDOW_SPLIT_SCREEN, "RES_TYPE_WINDOW_SPLIT_SCREEN");
   (RES_TYPE_SUPPLY_LEVEL, "RES_TYPE_SUPPLY_LEVEL");
   (RES_TYPE_DEVICE_IDLE_CHANGED, "RES_TYPE_DEVICE_IDLE_CHANGED");
   (RES_TYPE_USER_SLEEP_STATE_CHANGED, "RES_TYPE_USER_SLEEP_STATE_CHANGED");
   (RES_TYPE_ADJUST_PROTECTLRU_RECLAIM_RATIO, "RES_TYPE_ADJUST_PROTECTLRU_RECLAIM_RATIO");
   (RES_TYPE_BACKGROUND_STATUS, "RES_TYPE_BACKGROUND_STATUS");
   (SYNC_RES_TYPE_QUERY_TOPN_BUNDLE_USAGE_INFO, "SYNC_RES_TYPE_QUERY_TOPN_BUNDLE_USAGE_INFO");
   (RES_TYPE_MEM_OFF_PEAK, "RES_TYPE_MEM_OFF_PEAK");
   (RES_TYPE_NAP_MODE, "RES_TYPE_NAP_MODE");
   (RES_TYPE_BACKPRESSED_EVENT, "RES_TYPE_BACKPRESSED_EVENT");
   (SYNC_RES_TYPE_GET_SMART_GC_SCENE_INFO, "SYNC_RES_TYPE_GET_SMART_GC_SCENE_INFO");
   (RES_TYPE_LIVE_VIEW_EVENT, "RES_TYPE_LIVE_VIEW_EVENT");
   (RES_TYPE_IME_QOS_CHANGE, "RES_TYPE_IME_QOS_CHANGE");
   (RES_TYPE_WEB_SUBWIN_TASK, "RES_TYPE_WEB_SUBWIN_TASK");
   (RES_TYPE_CTRL_FORKALL_IMAGE_INTERFACE, "RES_TYPE_CTRL_FORKALL_IMAGE_INTERFACE");
   (RES_TYPE_CREATE_LIVING_APP_PROCESS, "RES_TYPE_CREATE_LIVING_APP_PROCESS");
   (RES_TYPE_IMAGE_PROCESS_STATE_CHANGED, "RES_TYPE_IMAGE_PROCESS_STATE_CHANGED");
   (SYNC_RES_TYPE_GET_IS_TEMPLATE_PROCESS, "SYNC_RES_TYPE_GET_IS_TEMPLATE_PROCESS");
   (RES_TYPE_SNAPSHOT_FAILURE, "RES_TYPE_SNAPSHOT_FAILURE");
   (SYNC_RES_TYPE_FORKALL_CONFIG_CHANGE, "SYNC_RES_TYPE_FORKALL_CONFIG_CHANGE");
   (RES_TYPE_INPUT_METHOD_CHANGE, "RES_TYPE_INPUT_METHOD_CHANGE");
   (SYNC_RES_TYPE_GET_UI_NODE_GC_CONFIG, "SYNC_RES_TYPE_GET_UI_NODE_GC_CONFIG");
   (SYNC_RES_TYPE_NOTIFY_MAKE_IMAGE, "SYNC_RES_TYPE_NOTIFY_MAKE_IMAGE");
   (RES_TYPE_NEARLINK_SERVICE_EVENT, "RES_TYPE_NEARLINK_SERVICE_EVENT");
   (RES_TYPE_REPORT_NFC_SIGNAL, "RES_TYPE_REPORT_NFC_SIGNAL");
   (RES_TYPE_DISTRIBUTED_CONTINUATION_EVENT, "RES_TYPE_DISTRIBUTED_CONTINUATION_EVENT");
   (RES_TYPE_BGTASK_ADJUST_EVENT, "RES_TYPE_BGTASK_ADJUST_EVENT");
   (RES_TYPE_DIALOG_SHOW_EVENT, "RES_TYPE_DIALOG_SHOW_EVENT");
   (RES_TYPE_LV_INTO_INIM, "RES_TYPE_LV_INTO_INIM");
   (RES_TYPE_CAMERA_TORCH_STATE_CHANGE, "RES_TYPE_CAMERA_TORCH_STATE_CHANGE")]).

Definition MAX_IPC_THREAD_NUM : nat := 32. (* res_ipc_init.h:33 *)

Section res_sched_mgr.
Context {J K S N : Type} `{!Json J} `{!Build} `{!PluginHost J K} `{!Xml N} `{!SceneDispatcher J S}
  `{!NotifierHost K} `{!AccessTokenKit K} `{!ApplicationState} `{!ServiceHost K} `{!ServiceBuild}.
Context (long_bits : Z).
#[local] Abbreviation M := (ST (Service J K S)).

(** ** Quality of service of the IPC threads *)

(** res_ipc_init.cpp:68-72 [ResSchedIpcThread::SetInitFlag] *)
Definition SetInitFlag (flag : bool) : M unit :=
  k ← get_host;
  st_modify (fun s => s <| ipcThread ::= fun t => t <| selfPid_ := sh_getpid k |> <| qos_isInit_ := flag |> |>).

(** res_ipc_init.cpp:31-66 [ResSchedIpcThread::SetQos] each thread once *)
Definition SetQos (clientPid : Z) : M unit :=
  s ← st_get;
  let t := ipcThread s in
  ret_if negb (qos_isInit_ t);
  ret_if clientPid =? selfPid_ t;
  k ← get_host;
  let tid := sh_gettid k in
  ret_if bool_decide (tid ∈ ipcThreadTids_ t);
  st_when (bool_decide (MAX_IPC_THREAD_NUM < size (ipcThreadTids_ t))%nat)
    (st_modify (fun s => s <| ipcThread ::= fun t => t <| ipcThreadTids_ := ∅ |> |>));;
  st_modify (fun s => s <| ipcThread ::= fun t => t <| ipcThreadTids_ ::= union {[ tid ]} |> |>);;
  s_record (SSetQos tid (selfPid_ t)).

(** ** Events *)

(** res_sched_mgr.cpp:260-272 [ResSchedMgr::ReportDataInner] the plugin manager may write
    another type into the shared event before the recognizers see it *)
Definition ReportDataInner (resType value : Z) (payload : J) : M unit :=
  let resData := mkResData resType value payload in
  s ← st_get;
  in_plugins (PluginMgr_DispatchResource (Some resData));;
  in_scenes (scene_dispatch (if isInit (plugins s) then effective (K := K) resData else resData)).

(** res_sched_mgr.cpp:254-258 [ResSchedMgr::ReportData] *)
Definition ResSchedMgr_ReportData (resType value : Z) (payload : J) : M unit :=
  ReportDataInner resType value payload.

(** ** Kill of a process *)

(** kill_process.cpp:35-66 [KillProcess::KillProcessByPidWithClient] *)
Definition KillProcessByPidWithClient (payload : J) : M Z :=
  match (if json_is_null payload then None else find_string "pid" payload) ≫= StrToInt32 long_bits with
  | None => mret RES_SCHED_KILL_PROCESS_FAIL
  | Some pid =>
      if pid <=? 0 then mret RES_SCHED_KILL_PROCESS_FAIL else
      match find_string "killReason" payload with
      | Some killReason => s_record (SRecordExitReason pid killReason)
      | None => mret tt
      end;;
      k ← get_host;
      s_record (SKill pid);;
      mret (sh_KillProcess pid k)
  end.

(** res_sched_mgr.cpp:274-277 [ResSchedMgr::KillProcessByClient] the pointer is used without a
    test *)
Definition KillProcessByClient (payload : J) : M Z :=
  s ← st_get;
  if killProcess_ (rsmgr s) then KillProcessByPidWithClient payload else st_undefined.

(** ** Start and stop *)

(** res_sched_mgr.cpp:279-296 [ResSchedMgr::InitExecutorPlugin] the executor gets the
    configuration and the switches; a process that starts parses them too *)
Definition InitExecutorPlugin (isProcessInit : bool) : M unit :=
  configStrs ← in_plugins GetConfigReaderStr;
  switchStrs ← in_plugins GetPluginSwitchStr;
  s_record (SInitExecutor configStrs switchStrs);;
  st_when isProcessInit
    (in_plugins (ParseConfigReader configStrs);;
     in_plugins (ParsePluginSwitch switchStrs false));;
  SetInitFlag true.

(** res_sched_mgr.cpp:235-247 [ResSchedMgr::Init] *)
Definition ResSchedMgr_Init : M unit :=
  in_plugins (PluginMgr_Init false);;
  in_plugins (SetResTypeStrMap (resTypeToStr FILE_COPY_SOC_PERF));;
  upd_mgr (fun m => m <| killProcess_ := true |>);;
  InitExecutorPlugin true.

(** res_sched_mgr.cpp:249-252 [ResSchedMgr::Stop] *)
Definition ResSchedMgr_Stop : M unit := in_plugins PluginMgr_Stop.

(** ** Processes in the foreground *)

(** res_sched_mgr.cpp:298-316 [ResSchedMgr::OnApplicationStateChange] *)
Definition ResSchedMgr_OnApplicationStateChange (state pid : Z) : M unit :=
  st_when (state =? AS_FOREGROUND)
    (upd_mgr (fun m => m <| foregroundPids_ ::= union {[ pid ]} |>));;
  st_when (state_leaves state)
    (upd_mgr (fun m => m <| foregroundPids_ ::= fun f => f ∖ {[ pid ]} |>)).

(** res_sched_mgr.cpp:318-323 [ResSchedMgr::IsForegroundApp] *)
Definition IsForegroundApp (pid : Z) (s : Service J K S) : bool :=
  bool_decide (pid ∈ foregroundPids_ (rsmgr s)).

(** res_sched_mgr.cpp:325-345 [ResSchedMgr::InitForegroundAppInfo] *)
Definition InitForegroundAppInfo : M unit :=
  k ← get_host;
  fgapplist <-? sh_GetForegroundApplications k;
  upd_mgr (fun m => m <| foregroundPids_ ::= union (list_to_set fgapplist) |>).

(** res_sched_mgr.cpp:347-351 [ResSchedMgr::ReportAppStateInProcess] *)
Definition ReportAppStateInProcess (state pid : Z) : M unit :=
  in_notifiers (NotifierMgr_OnApplicationStateChange state pid);;
  ResSchedMgr_OnApplicationStateChange state pid.

(** res_sched_mgr.cpp:353-356 [ResSchedMgr::ReportProcessStateInProcess] *)
Definition ReportProcessStateInProcess (state pid : Z) : M unit :=
  ResSchedMgr_OnApplicationStateChange state pid.

(** ** Extensions of the lists *)

Definition upd_ext (f : AllowLists -> AllowLists) : M unit := upd_mgr (fun m => m <| allowExt ::= f |>).

(** res_sched_mgr.cpp:383-386 [ResSchedMgr::AddAllowSCBReportResExt] *)
Definition AddAllowSCBReportResExt (l : gset Z) : M unit := upd_ext (fun a => a <| allowSCB ::= union l |>).

(** res_sched_mgr.cpp:389-392 [ResSchedMgr::AddAllowAllSAReportResExt] *)
Definition AddAllowAllSAReportResExt (l : gset Z) : M unit := upd_ext (fun a => a <| allowAllSA ::= union l |>).

(** res_sched_mgr.cpp:395-404 [ResSchedMgr::AddAllowSomeSAReportResExt] the callers of a type
    are joined *)
Definition AddAllowSomeSAReportResExt (l : gmap Z (gset Z)) : M unit :=
  upd_ext (fun a => a <| allowSomeSA ::= union_with (fun x y => Some (x ∪ y)) l |>).

(** res_sched_mgr.cpp:406-409 [ResSchedMgr::AddAllowAllAppReportResExt] *)
Definition AddAllowAllAppReportResExt (l : gset Z) : M unit := upd_ext (fun a => a <| allowAllApp ::= union l |>).

(** res_sched_mgr.cpp:411-414 [ResSchedMgr::AddAllowFgAppReportResExt] *)
Definition AddAllowFgAppReportResExt (l : gset Z) : M unit := upd_ext (fun a => a <| allowFgApp ::= union l |>).

(** ** Entry points for plugins *)

(** res_sched_mgr.cpp:442-445 [ReportDataInProcess] *)
Definition ReportDataInProcess (resType value : Z) (payload : J) : M unit :=
  ResSchedMgr_ReportData resType value payload.

(** res_sched_mgr.cpp:447-450 [KillProcessInProcess] *)
Definition KillProcessInProcess (payload : J) : M Z := KillProcessByClient payload.

(** res_sched_mgr.cpp:452-457 [ReportSyncEventInProcess] *)
Definition ReportSyncEventInProcess (type value : Z) (payload : J) : M (Z * option J) :=
  in_plugins (PluginMgr_DeliverResource (Some (mkResData type value payload))).
End res_sched_mgr.
