(* ===== verification/ResSchedService.v ===== *)
(** * The service

    [res_sched_service.cpp]: the requests that arrive from other processes.  Who may report
    what, how often and how much; what is handed to the plugins; notifiers, listeners and
    the dump.  A request that returns an error code and fills result parameters returns a
    tuple; [None] is a parameter left as it was. *)
From S2P Require Import Prelude Json ResType CommonUtil LruCache Ipc PluginConfig PluginMgr NotifierMgr EventListenerMgr ServiceWorld ResSchedMgr.

Definition PAYLOAD_MAX_SIZE : nat := 4096. (* res_sched_service.cpp:38 *)
Definition APP_PRELOAD_PLIGIN_NAME : string := "libapp_preload_plugin.z.so". (* res_sched_service.cpp:42 *)
Definition NEEDED_PERMISSION : string := "ohos.permission.REPORT_RESOURCE_SCHEDULE_EVENT". (* res_sched_service.cpp:43 *)
Definition SCENEBOARD_BUNDLE_NAME : string := "com.ohos.sceneboard". (* res_sched_service.cpp:44 *)
Definition MEMMGR_UID : Z := 1111. (* res_sched_service.cpp:45 *)
Definition SAMGR_UID : Z := 5555. (* res_sched_service.cpp:46 *)
Definition FOUNDATION_UID : Z := 5523. (* res_sched_service.cpp:47 *)
Definition GRAPHIC_UID : Z := 1003. (* res_sched_service.cpp:48 *)
Definition HIVIEW_UID : Z := 1201. (* res_sched_service.cpp:49 *)
Definition SINGLE_UID_REQUEST_LIMIT_COUNT : Z := 250. (* res_sched_service.cpp:51 *)
Definition ALL_UID_REQUEST_LIMIT_COUNT : Z := 650. (* res_sched_service.cpp:52 *)
Definition LIMIT_REQUEST_TIME : Z := 1000. (* res_sched_service.cpp:53 *)
Definition FOUR_HOUR_TIME : Z := 4 * 60 * 60 * 1000. (* res_sched_service.cpp:54 *)
Definition ONE_DAY_TIME_MILLS : Z := 24 * 60 * 60 * 1000. (* res_sched_service.cpp:55 *)
Definition INTERVAL : Z := 5 * 1000. (* res_sched_service.cpp:56 *)
Definition ERR_LOG_COUNT : Z := 1. (* res_sched_service.cpp:57 *)
Definition DEBUG_LEVEL_MINIMUM : Z := 0. (* res_sched_service.cpp:235 *)
Definition DEBUG_LEVEL_MAXIMUM : Z := 7. (* res_sched_service.cpp:236 *)

(** res_sched_service.cpp:62-84 [SCB_RES] *)
Definition SCB_RES : gset Z := list_to_set
  [SYNC_RES_TYPE_THAW_ONE_APP; RES_TYPE_REPORT_SCENE_BOARD; RES_TYPE_SHOW_REMOTE_ANIMATION;
   RES_TYPE_KEY_PERF_SCENE; RES_TYPE_MOVE_WINDOW; RES_TYPE_RESIZE_WINDOW;
   RES_TYPE_ONLY_PERF_APP_COLD_START; RES_TYPE_SCENE_ROTATION;
   SYNC_RES_TYPE_CHECK_MUTEX_BEFORE_START; RES_TYPE_COSMIC_CUBE_STATE_CHANGE;
   RES_TYPE_GESTURE_ANIMATION; RES_TYPE_RAISE_WORKER_THREAD_PRIORITY; RES_TYPE_RECENT_BUILD;
   RES_TYPE_APP_OPT_FROM_RECENT; RES_TYPE_SWIPE_DIRECTION_UP; RES_TYPE_WINDOW_PANEL;
   RES_TYPE_WINDOW_SPLIT_SCREEN; SYNC_RES_TYPE_REQUEST_MUTEX_STATUS;
   RES_TYPE_FLOATING_WINDOW_V1; RES_TYPE_FLOATING_WINDOW_V2; RES_TYPE_FLOATING_BALL].

(** res_sched_service.cpp:85-133 [THIRDPART_RES] *)
Definition THIRDPART_RES : gset Z := list_to_set
  [RES_TYPE_CLICK_RECOGNIZE; RES_TYPE_KEY_EVENT; RES_TYPE_PUSH_PAGE; RES_TYPE_SLIDE_RECOGNIZE;
   RES_TYPE_POP_PAGE; RES_TYPE_LOAD_PAGE; RES_TYPE_WEB_GESTURE; RES_TYPE_REPORT_KEY_THREAD;
   RES_TYPE_REPORT_WINDOW_STATE; RES_TYPE_REPORT_SCENE_SCHED; RES_TYPE_WEB_GESTURE_MOVE;
   RES_TYPE_WEB_SLIDE_NORMAL; RES_TYPE_LOAD_URL; RES_TYPE_MOUSEWHEEL;
   RES_TYPE_WEBVIEW_AUDIO_STATUS_CHANGE; RES_TYPE_REPORT_RENDER_THREAD; RES_TYPE_LONG_FRAME;
   RES_TYPE_WEBVIEW_SCREEN_CAPTURE; RES_TYPE_WEBVIEW_VIDEO_STATUS_CHANGE;
   RES_TYPE_BT_SERVICE_EVENT; RES_TYPE_APP_FRAME_DROP; RES_TYPE_GC_EVENT;
   RES_TYPE_REPORT_DISTRIBUTE_TID; RES_TYPE_AXIS_EVENT; RES_TYPE_CROWN_ROTATION_STATUS;
   RES_TYPE_RED_ENVELOPE; RES_TYPE_WEB_DRAG_RESIZE; RES_TYPE_SET_BACKGROUND_PROCESS_PRIORITY;
   RES_TYPE_SHORT_TERM_LOAD; RES_TYPE_CHECK_APP_IS_IN_SCHEDULE_LIST; RES_TYPE_PAGE_TRANSITION;
   RES_TYPE_VOICE_RECOGNIZE_WAKE; RES_TYPE_WEB_SLIDE_SCROLL; RES_TYPE_ABILITY_OR_PAGE_SWITCH;
   RES_TYPE_FLOAT_START_FROM_SIDEBAR; RES_TYPE_OVERLAY_EVENT; RES_TYPE_BACKGROUND_STATUS;
   RES_TYPE_BACKPRESSED_EVENT; SYNC_RES_TYPE_GET_SMART_GC_SCENE_INFO; RES_TYPE_WEB_SUBWIN_TASK;
   SYNC_RES_TYPE_APP_IS_IN_TAIHANG_LIST; RES_TYPE_CTRL_FORKALL_IMAGE_INTERFACE;
   RES_TYPE_SNAPSHOT_FAILURE; SYNC_RES_TYPE_GET_UI_NODE_GC_CONFIG;
   RES_TYPE_COMPONENT_STATE_CHANGE; RES_TYPE_DIALOG_SHOW_EVENT; RES_TYPE_LV_INTO_INIM].

(** res_sched_service.cpp:134-146 [FG_THIRDPART_RES] *)
Definition FG_THIRDPART_RES : gset Z := list_to_set
  [RES_TYPE_CLICK_RECOGNIZE; RES_TYPE_KEY_EVENT; RES_TYPE_SLIDE_RECOGNIZE; RES_TYPE_LOAD_URL;
   RES_TYPE_MOUSEWHEEL; RES_TYPE_LONG_FRAME; RES_TYPE_WEB_DRAG_RESIZE; RES_TYPE_APP_FRAME_DROP;
   RES_TYPE_AXIS_EVENT; RES_TYPE_WEB_SLIDE_SCROLL; RES_TYPE_OVERLAY_EVENT].

(** res_sched_service.cpp:147-200 [SA_RES] *)
Definition SA_RES (file_copy : bool) : gset Z := list_to_set (
  [SYNC_RES_TYPE_THAW_ONE_APP; SYNC_RES_TYPE_GET_ALL_SUSPEND_STATE;
   SYNC_RES_TYPE_GET_THERMAL_DATA; RES_TYPE_BLUETOOTH_A2DP_CONNECT_STATE_CHANGE;
   RES_TYPE_NETWORK_LATENCY_REQUEST; RES_TYPE_THREAD_QOS_CHANGE; RES_TYPE_PROCESS_QOS_CHANGE;
   RES_TYPE_MOVE_WINDOW; RES_TYPE_ANCO_CUST; RES_TYPE_SOCPERF_CUST_ACTION;
   RES_TYPE_SOCPERF_CUST_EVENT_BEGIN; RES_TYPE_SOCPERF_CUST_EVENT_END;
   RES_TYPE_SA_CONTROL_APP_EVENT; RES_TYPE_REPORT_DISTRIBUTE_COMPONENT_CHANGE;
   RES_TYPE_THERMAL_SCENARIO_REPORT; RES_TYPE_AUDIO_RENDERER_SILENT_PLAYBACK;
   RES_TYPE_CLOUD_CONFIG_UPDATE; RES_TYPE_BT_SERVICE_EVENT; RES_TYPE_REPORT_BOKER_GATT_CONNECT;
   SYNC_RES_TYPE_REQUEST_MUTEX_STATUS; SYNC_RES_TYPE_GET_NWEB_PRELOAD_SET;
   RES_TYPE_AUDIO_RENDERER_STANDBY; RES_TYPE_INTENT_CTRL_APP; RES_TYPE_DISPLAY_MULTI_SCREEN;
   RES_TYPE_SHORT_TERM_LOAD; SYNC_RES_TYPE_GET_SUSPEND_STATE_BY_UID;
   SYNC_RES_TYPE_GET_SUSPEND_STATE_BY_PID]
  ++ (if file_copy then [RES_TYPE_FILE_COPY_STATUS] else [])
  ++ [RES_TYPE_DYNAMICALLY_SET_SUSPEND_EXEMPT; RES_TYPE_CAMERA_PRELAUNCH;
   RES_TYPE_CAMERA_RESET_PRIORITY; RES_TYPE_DEVICE_MODE_STATUS; RES_TYPE_PARAM_UPDATE_EVENT;
   RES_TYPE_TDP_TURBO; RES_TYPE_BACKGROUND_STATUS; SYNC_RES_TYPE_QUERY_TOPN_BUNDLE_USAGE_INFO;
   RES_TYPE_CAMERA_STATUS_CHANGED; RES_TYPE_NAP_MODE; RES_TYPE_CODEC_ENCODE_STATUS_CHANGED;
   RES_TYPE_CAMERA_LENS_STATUS_CHANGED; RES_TYPE_LOAD_KILL_REASON_CONFIG;
   RES_TYPE_SA_PULL_APP_IDENTIFIER; RES_TYPE_START_INPUT_METHOD_PROCESS;
   RES_TYPE_START_UIEXTENSION_PROC; RES_TYPE_SCHED_MODE_CHANGE;
   RES_TYPE_AVCODE_HARDWARE_RESOURCES; RES_TYPE_FIRST_FRAME_DRAWN; RES_TYPE_OOBE_CLONE;
   RES_TYPE_NEARLINK_SERVICE_EVENT; RES_TYPE_REPORT_NFC_SIGNAL]).

(** res_sched_service.cpp:201-233 [ALLOW_SOME_UID_REPORT_RES] *)
Definition ALLOW_SOME_UID_REPORT_RES : gmap Z (gset Z) := list_to_map [
  (RES_TYPE_MODEM_PA_HIGH_POWER_ABNORMAL, {[ 1201 ]});
  (RES_TYPE_APP_HIGH_POWER_CONSUMPTION, {[ 1201 ]});
  (RES_TYPE_APP_ABILITY_START, {[ 5523 ]});
  (RES_TYPE_PRELOAD_APPLICATION, {[ 5523 ]});
  (RES_TYPE_APP_ASSOCIATED_START, {[ 5523 ]});
  (RES_TYPE_IMAGE_PROCESS_STATE_CHANGED, {[ 5523 ]});
  (RES_TYPE_REPORT_SCREEN_CAPTURE, {[ 1013 ]});
  (RES_TYPE_LOCATION_STATUS_CHANGE, {[ 1021 ]});
  (RES_TYPE_SYSTEM_CPU_LOAD, {[ 1201 ]});
  (RES_TYPE_FRAME_RATE_REPORT, {[ 1003 ]});
  (RES_TYPE_FORM_STATE_CHANGE_EVENT, {[ 5523 ]});
  (RES_TYPE_FORM_RENDER_EVENT, {[ 5523 ]});
  (RES_TYPE_SEND_FRAME_EVENT, {[ 1003 ]});
  (RES_TYPE_CLICK_RECOGNIZE, {[ 6696 ]});
  (RES_TYPE_REPORT_GAME_SCHED, {[ 7800 ]});
  (RES_TYPE_GAME_INFO_NOTIFY, {[ 7011; 5523 ]});
  (SYNC_RES_TYPE_SHOULD_FORCE_KILL_PROCESS, {[ 5523 ]});
  (RES_TYPE_GET_GAME_SCENE_INFO, {[ 7800 ]});
  (RES_TYPE_APP_GAME_BOOST_EVENT, {[ 7800 ]});
  (RES_TYPE_FRAME_RATE_REPORT_FROM_RS, {[ 1003 ]});
  (RES_TRPE_GAME_SUSPEND_MODE, {[ 7800 ]});
  (RES_TYPE_ADJUST_PROTECTLRU_RECLAIM_RATIO, {[ 1111 ]});
  (RES_TYPE_STANDBY_FREEZE_FAILED, {[ 1201 ]});
  (RES_TYPE_IME_QOS_CHANGE, {[ 3820 ]});
  (RES_TYPE_AVCODE_HARDWARE_RESOURCES, {[ 1013 ]});
  (RES_TYPE_CREATE_LIVING_APP_PROCESS, {[ 5523 ]});
  (RES_TYPE_CTRL_FORKALL_IMAGE_INTERFACE, {[ 1096 ]});
  (RES_TYPE_INPUT_METHOD_CHANGE, {[ 3820 ]});
  (SYNC_RES_TYPE_NOTIFY_MAKE_IMAGE, {[ 3820 ]});
  (SYNC_RES_TYPE_DFX_CTRL_IMAGE_INTERFACE, {[ 3063 ]});
  (RES_TYPE_CAMERA_TORCH_STATE_CHANGE, {[ 1047 ]})].

Section res_sched_service.
Context {J K S N : Type} `{!Json J} `{!JsonText J} `{!Build} `{!PluginHost J K} `{!Xml N}
  `{!SceneDispatcher J S} `{!NotifierHost K} `{!AccessTokenKit K} `{!ApplicationState}
  `{!ServiceHost K} `{!ServiceBuild} `{!ErrCodes}.
Context (long_bits : Z).
#[local] Abbreviation M := (ST (Service J K S)).
#[local] Abbreviation now := (in_plugins (S := S) (now_ms (J := J) (K := K))).
#[local] Abbreviation svc_StrToInt := (ph_StrToInt (J := J) (K := K)).

(** ** Allowed event types *)

Definition upd_allow (f : AllowLists -> AllowLists) : M unit := upd_svc (fun x => x <| allow ::= f |>).

(** res_sched_service.cpp:976-979 [ResSchedService::AddSCBRes] *)
Definition AddSCBRes (l : gset Z) : M unit := upd_allow (fun a => a <| allowSCB ::= union l |>).
(** res_sched_service.cpp:981-984 [ResSchedService::AddAllSARes] *)
Definition AddAllSARes (l : gset Z) : M unit := upd_allow (fun a => a <| allowAllSA ::= union l |>).
(** res_sched_service.cpp:986-990 [ResSchedService::AddSomeSARes] [insert] keeps what a type has *)
Definition AddSomeSARes (l : gmap Z (gset Z)) : M unit :=
  upd_allow (fun a => a <| allowSomeSA ::= fun m => m ∪ l |>).
(** res_sched_service.cpp:991-994 [ResSchedService::AddAllAppRes] *)
Definition AddAllAppRes (l : gset Z) : M unit := upd_allow (fun a => a <| allowAllApp ::= union l |>).
(** res_sched_service.cpp:995-998 [ResSchedService::AddFgAppRes] *)
Definition AddFgAppRes (l : gset Z) : M unit := upd_allow (fun a => a <| allowFgApp ::= union l |>).

(** res_sched_service.cpp:954-966 [ResSchedService::InitAllowIpcReportRes] *)
Definition InitAllowIpcReportRes : M unit :=
  AddSCBRes SCB_RES;;
  AddAllSARes (SA_RES FILE_COPY_SOC_PERF);;
  AddSomeSARes ALLOW_SOME_UID_REPORT_RES;;
  AddAllAppRes THIRDPART_RES;;
  AddFgAppRes FG_THIRDPART_RES;;
  s ← st_get;
  let ext := allowExt (rsmgr s) in
  AddSCBRes (allowSCB ext);;
  AddAllSARes (allowAllSA ext);;
  AddSomeSARes (allowSomeSA ext);;
  AddAllAppRes (allowAllApp ext);;
  AddFgAppRes (allowFgApp ext).

(** ** Who may report a type *)

(** res_sched_service.cpp:240-258 [ResSchedService::IsThirdPartType] *)
Definition IsThirdPartType (caller : Caller) (type : Z) (s : Service J K S) : bool :=
  if bool_decide (type ∉ allowAllApp (allow (svc s))) then false else
  if bool_decide (type ∈ allowFgApp (allow (svc s))) && negb (IsForegroundApp (c_pid caller) s) then false else
  bool_decide (at_GetTokenTypeFlag (c_tokenId caller) (host (plugins s)) = TOKEN_HAP).

(** res_sched_service.cpp:260-277 [ResSchedService::IsSBDResType] *)
Definition IsSBDResType (caller : Caller) (type : Z) (s : Service J K S) : bool :=
  if bool_decide (type ∉ allowSCB (allow (svc s))) then false else
  if bool_decide (at_GetTokenTypeFlag (c_tokenId caller) (host (plugins s)) <> TOKEN_HAP) then false else
  bool_decide (at_GetHapTokenInfo (c_tokenId caller) (host (plugins s)) = SCENEBOARD_BUNDLE_NAME).

(** Whether the lists let a native caller report a type. *)
Definition sa_listed (type uid : Z) (a : AllowLists) : bool :=
  match allowSomeSA a !! type with
  | Some uids => bool_decide (uid ∈ uids)
  | None => bool_decide (type ∈ allowAllSA a)
  end.

(** res_sched_service.cpp:279-308 [ResSchedService::IsHasPermission] *)
Definition IsHasPermission (caller : Caller) (type uid : Z) : M bool :=
  s ← st_get;
  if negb (sa_listed type uid (allow (svc s))) then mret false else
  let tokenId := c_tokenId caller in
  if bool_decide (at_GetTokenTypeFlag tokenId (host (plugins s)) <> TOKEN_NATIVE) then mret false else
  cached ← in_cache (lru_get tokenId);
  match cached with
  | Some hasPermission => mret (hasPermission =? 0)
  | None =>
      let hasPermission := at_VerifyAccessToken tokenId NEEDED_PERMISSION (host (plugins s)) in
      in_cache (lru_put tokenId hasPermission);;
      mret (hasPermission =? 0)
  end.

(** ** Limits *)

(** res_sched_service.cpp:931-939 [ResSchedService::CheckAndUpdateLimitData] *)
Definition CheckAndUpdateLimitData (nowTime : Z) : M unit :=
  s ← get_svc;
  st_when (nowTime - nextCheckTime_ s >=? 0)
    (upd_svc (fun x => x <| nextCheckTime_ := nowTime + LIMIT_REQUEST_TIME |>
                         <| appRequestCountMap_ := ∅ |> <| allRequestCount_ := 0 |>
                         <| isPrintLimitLog_ := true |>)).

(** res_sched_service.cpp:907-929 [ResSchedService::IsLimitRequest] *)
Definition IsLimitRequest (uid : Z) : M bool :=
  nowTime ← now;
  CheckAndUpdateLimitData nowTime;;
  s ← get_svc;
  if allRequestCount_ s >=? ALL_UID_REQUEST_LIMIT_COUNT then mret true else
  match appRequestCountMap_ s !! uid with
  | None =>
      upd_svc (fun x => x <| appRequestCountMap_ ::= <[uid := 1]> |> <| allRequestCount_ ::= Z.add 1 |>);;
      mret false
  | Some n =>
      if n >=? SINGLE_UID_REQUEST_LIMIT_COUNT then mret true else
      upd_svc (fun x => x <| appRequestCountMap_ ::= <[uid := n + 1]> |> <| allRequestCount_ ::= Z.add 1 |>);;
      mret false
  end.

(** res_sched_service.cpp:863-875 [ResSchedService::ReportBigData] *)
Definition ReportBigData : M unit :=
  s ← get_svc;
  ret_if negb (isReportBigData_ s);
  nowTime ← now;
  ret_if nowTime <? nextReportBigDataTime_ s;
  s_record (SHiSysEvent "SERVICE_REQUEST_LIMIT" "" (bigDataReportCount_ s));;
  upd_svc (fun x => x <| isReportBigData_ := false |> <| bigDataReportCount_ := 0 |>).

(** res_sched_service.cpp:898-905 [ResSchedService::InreaseBigDataCount] *)
Definition InreaseBigDataCount : M unit :=
  s ← get_svc;
  st_when (negb (isReportBigData_ s))
    (nowTime ← now;
     upd_svc (fun x => x <| isReportBigData_ := true |> <| nextReportBigDataTime_ := nowTime + FOUR_HOUR_TIME |>));;
  upd_svc (fun x => x <| bigDataReportCount_ ::= fun n => to_s32 (n + 1) |>).

(** res_sched_service.cpp:854-861 [ResSchedService::PrintLimitLog] without the log *)
Definition PrintLimitLog : M unit :=
  s ← get_svc; st_when (isPrintLimitLog_ s) (upd_svc (fun x => x <| isPrintLimitLog_ := false |>)).

(** res_sched_service.cpp:941-952 [ResSchedService::RemoteRequestCheck] *)
Definition RemoteRequestCheck (caller : Caller) : M Z :=
  ReportBigData;;
  limited ← IsLimitRequest (c_uid caller);
  if limited : bool then
    InreaseBigDataCount;; PrintLimitLog;; mret RES_SCHED_REQUEST_FAIL
  else mret ERR_OK.

(** ** The check of a report *)

(** res_sched_service.cpp:877-896 [ResSchedService::ReportPermissionErrorEvent] *)
Definition ReportPermissionErrorEvent : M unit :=
  currentTime ← now;
  s ← get_svc;
  ret_if currentTime - lastEventReportTime_ s <? ONE_DAY_TIME_MILLS;
  let errorInfo := foldl (fun text p =>
    if p.2.2 >? 0 then text +:+ "(" +:+ to_string p.1 +:+ ", " +:+ to_string p.2.2 +:+ ") " else text)
    "no permission errors: " (in_order (errLogRecordMap_ s)) in
  s_record (SHiSysEvent "ABNORMAL_ERR" errorInfo 0);;
  upd_svc (fun x => x <| lastEventReportTime_ := currentTime |> <| errLogRecordMap_ := ∅ |>).

(** res_sched_service.cpp:821-833 [errLogRecordMap_] the record of a refused type: the
    time of its last log line and a count *)
Definition count_refusal (type currentTime : Z) : M unit :=
  upd_svc (fun x => x <| errLogRecordMap_ ::= fun m =>
    match m !! type with
    | Some (last, count) =>
        <[type := (if currentTime >? last + INTERVAL then currentTime else last,
                   to_s32 (count + ERR_LOG_COUNT))]> m
    | None => <[type := (currentTime, ERR_LOG_COUNT)]> m
    end |>).

(** res_sched_service.cpp:816-852 [ResSchedService::CheckReportDataParcel] *)
Definition CheckReportDataParcel (caller : Caller) (type value : Z) (payload : string) : M Z :=
  s ← st_get;
  allowed ← (if IsSBDResType caller type s || IsThirdPartType caller type s then mret true
             else IsHasPermission caller type (c_uid caller));
  if negb allowed then
    k ← get_host;
    count_refusal type (sh_GetCurrentTimestamp k);;
    ReportPermissionErrorEvent;;
    mret ERR_RES_SCHED_PERMISSION_DENIED
  else if bool_decide (PAYLOAD_MAX_SIZE < String.length payload)%nat then
    s_record (SHiSysEvent "ABNORMAL_ERR" ("payload oversize:" +:+ to_string type) 0);;
    mret ERR_RES_SCHED_PARCEL_ERROR
  else mret ERR_OK.

(** ** Reports *)

(** res_sched_service.cpp:310-326 [ResSchedService::StringToJsonObj] *)
Definition StringToJsonObj (str : string) : J :=
  if bool_decide (str = "") then json_object else
  match json_parse str with
  | None => json_object
  | Some j => if json_is_object j then j else json_object
  end.

(** res_sched_service.cpp:329-341 [ResSchedService::GetExtTypeByResPayload] *)
Definition Service_GetExtTypeByResPayload (payload : string) : Z :=
  match find_string "extType" (StringToJsonObj payload) with
  | None => DEFAULT_VALUE
  | Some text => default DEFAULT_VALUE (svc_StrToInt text)
  end.

(** res_sched_service.cpp:354-361 [RES_TYPE_KEY_PERF_SCENE] the type that a performance scene
    names *)
Definition real_type (resType : Z) (payload : string) : Z :=
  if WITH_EXT_RES && (resType =? RES_TYPE_KEY_PERF_SCENE) then
    let extType := Service_GetExtTypeByResPayload payload in
    if extType =? DEFAULT_VALUE then resType else to_u32 extType
  else resType.

(** res_sched_service.cpp:344-377 [ResSchedService::ReportData] *)
Definition ReportData (caller : Caller) (resType value : Z) (payload : string) : M Z :=
  checkResult ← RemoteRequestCheck caller;
  if negb (checkResult =? ERR_OK) then mret checkResult else
  let resType := real_type resType payload in
  ret ← CheckReportDataParcel caller resType value payload;
  if negb (ret =? ERR_OK) then mret ret else
  let reportDataPayload := StringToJsonObj payload in
  let reportDataPayload := json_set "callingUid" (json_of_string (to_string (c_uid caller))) reportDataPayload in
  let reportDataPayload := json_set "clientPid" (json_of_string (to_string (c_pid caller))) reportDataPayload in
  let reportDataPayload :=
    json_set "callingFullTokenID" (json_of_string (to_string (c_fullTokenId caller))) reportDataPayload in
  ResSchedMgr_ReportData resType value reportDataPayload;;
  SetQos (c_pid caller);;
  mret ERR_OK.

(** res_sched_service.cpp:379-417 [ResSchedService::ReportSyncEvent] the code, the reply and the
    result *)
Definition ReportSyncEvent (caller : Caller) (resType value : Z) (payload : string)
    : M (Z * option string * Z) :=
  checkResult ← RemoteRequestCheck caller;
  if negb (checkResult =? ERR_OK) then mret (ERR_OK, None, checkResult) else
  let realResType := real_type resType payload in
  ret ← CheckReportDataParcel caller realResType value payload;
  if negb (ret =? ERR_OK) then mret (ERR_OK, None, ret) else
  let payloadJsonValue := StringToJsonObj payload in
  let payloadJsonValue := json_set "clientPid" (json_of_string (to_string (c_pid caller))) payloadJsonValue in
  let payloadJsonValue := json_set "callingUid" (json_of_string (to_string (c_uid caller))) payloadJsonValue in
  let payloadJsonValue :=
    json_set "callingFullTokenID" (json_of_string (to_string (c_fullTokenId caller))) payloadJsonValue in
  r ← in_plugins (PluginMgr_DeliverResource (Some (mkResData realResType value payloadJsonValue)));
  SetQos (c_pid caller);;
  mret (ERR_OK, Some (json_dump (default json_null r.2)), r.1).

(** res_sched_service.cpp:419-440 [ResSchedService::KillProcess] the code and the result *)
Definition KillProcess (caller : Caller) (payload : string) : M (Z * Z) :=
  k ← get_host;
  let uid := c_uid caller in
  if (negb (uid =? MEMMGR_UID) && negb (uid =? SAMGR_UID) && negb (uid =? HIVIEW_UID)
        && negb (uid =? GRAPHIC_UID))
     || bool_decide (at_GetTokenTypeFlag (c_tokenId caller) k <> TOKEN_NATIVE)
  then mret (ERR_OK, RES_SCHED_KILL_PROCESS_FAIL) else
  if bool_decide (PAYLOAD_MAX_SIZE < String.length payload)%nat
  then mret (ERR_OK, RES_SCHED_KILL_PROCESS_FAIL) else
  r ← KillProcessByClient long_bits (StringToJsonObj payload);
  mret (ERR_OK, r).

(** ** Notifiers and listeners *)

(** res_sched_service.cpp:442-451 [ResSchedService::RegisterSystemloadNotifier] *)
Definition RegisterSystemloadNotifier (caller : Caller) (notifier : option Z) : M Z :=
  match notifier with
  | None => mret RES_SCHED_DATA_ERROR
  | Some _ =>
      k ← get_host;
      in_notifiers (RegisterNotifier k caller (c_pid caller) notifier);;
      mret ERR_OK
  end.

(** res_sched_service.cpp:453-457 [ResSchedService::UnRegisterSystemloadNotifier] *)
Definition UnRegisterSystemloadNotifier (caller : Caller) : M Z :=
  in_notifiers (UnRegisterNotifier (c_pid caller));; mret ERR_OK.

(** res_sched_service.cpp:459-470 [ResSchedService::RegisterEventListener] *)
Definition Service_RegisterEventListener (caller : Caller) (eventListener : option Z)
    (eventType listenerGroup : Z) : M Z :=
  checkResult ← RemoteRequestCheck caller;
  if negb (checkResult =? ERR_OK) then mret checkResult else
  in_listeners (RegisterEventListener (c_pid caller) eventListener eventType listenerGroup);;
  mret ERR_OK.

(** res_sched_service.cpp:472-476 [ResSchedService::UnRegisterEventListener] *)
Definition Service_UnRegisterEventListener (caller : Caller) (eventType listenerGroup : Z) : M Z :=
  in_listeners (UnRegisterEventListener (c_pid caller) eventType listenerGroup);; mret ERR_OK.

(** res_sched_service.cpp:478-486 [ResSchedService::GetSystemloadLevel] *)
Definition GetSystemloadLevel (s : Service J K S) : Z :=
  if systemLoadLevelDebugEnable_ (svc s) then debugSystemLoadLevel_ (svc s)
  else NotifierMgr_GetSystemloadLevel (notifiers s).

(** res_sched_service.cpp:488-492 [ResSchedService::GetResTypeList] *)
Definition Service_GetResTypeList (s : Service J K S) : gset Z := GetResTypeList (plugins s).

(** res_sched_service.cpp:494-505 [ResSchedService::OnDeviceLevelChanged] *)
Definition OnDeviceLevelChanged (type level : Z) (debugReport : bool) : M unit :=
  st_when ((type =? SYSTEMLOAD_LEVEL) && negb debugReport)
    (upd_svc (fun x => x <| actualSystemLoadLevel_ := level |>));;
  s ← get_svc;
  let level := if (type =? SYSTEMLOAD_LEVEL) && systemLoadLevelDebugEnable_ s
               then debugSystemLoadLevel_ s else level in
  in_notifiers (NotifierMgr_OnDeviceLevelChanged type level).

(** ** Preloading and link jumps *)

(** res_sched_service.cpp:528-544 [ResSchedService::LoadAppPreloadPlugin] *)
Definition LoadAppPreloadPlugin : M unit :=
  s ← st_get;
  if bool_decide (GetPluginLib APP_PRELOAD_PLIGIN_NAME (plugins s) = None)
  then upd_svc (fun x => x <| isLoadAppPreloadPlugin_ := false |>)
  else
    ret_if isLoadAppPreloadPlugin_ (svc s);
    k ← get_host;
    upd_svc (fun x => x <| appPreloadFunc_ := sh_has_preload_func k |> <| isLoadAppPreloadPlugin_ := true |>).

(** res_sched_service.cpp:507-526 [ResSchedService::IsAllowedAppPreload] the function pointer stays when
    the library is closed; a call of it then is undefined *)
Definition IsAllowedAppPreload (caller : Caller) (bundleName : string) (preloadMode : Z) : M (Z * bool) :=
  k ← get_host;
  if negb (c_uid caller =? FOUNDATION_UID)
     || bool_decide (at_GetTokenTypeFlag (c_tokenId caller) k <> TOKEN_NATIVE)
  then mret (ERR_OK, false) else
  LoadAppPreloadPlugin;;
  s ← st_get;
  if negb (appPreloadFunc_ (svc s)) then mret (ERR_OK, false) else
  if bool_decide (GetPluginLib APP_PRELOAD_PLIGIN_NAME (plugins s) = None) then st_undefined else
  mret (ERR_OK, sh_OnIsAllowedAppPreload bundleName preloadMode k).

(** res_sched_service.cpp:546-566 [ResSchedService::IsAllowedLinkJump] *)
Definition IsAllowedLinkJump (caller : Caller) (s : Service J K S) : Z * Z :=
  let k := host (plugins s) in
  if bool_decide (at_GetTokenTypeFlag (c_tokenId caller) k <> TOKEN_HAP)
  then (ERR_OK, RES_SCHED_ACCESS_TOKEN_FAIL) else
  if negb (GetLinkJumpOptConfig (at_GetHapTokenInfo (c_tokenId caller) k) (plugins s))
  then (ERR_OK, ERR_RES_SCHED_INVALID_PARAM) else (ERR_OK, ERR_OK).

(** ** Dump *)

Definition nl : string := String "010"%char "".
Definition quote : string := String "034"%char "".

(** res_sched_service.cpp:568-577 [ResSchedService::CheckDumpPermission] *)
Definition CheckDumpPermission (caller : Caller) (k : K) : bool :=
  at_VerifyAccessToken (c_tokenId caller) "ohos.permission.DUMP" k =? 0.

(** res_sched_service.cpp:579-586 [ResSchedService::CheckENGMode] *)
Definition CheckENGMode : bool := negb (sh_const_debuggable =? 0).

(** res_sched_service.cpp:723-733 [ResSchedService::DumpUsage] *)
Definition DumpUsage : M string :=
  help ← in_plugins DumpHelpFromPlugin;
  mret ("usage: resource schedule service dump [<options>]" +:+ nl
    +:+ "    -h: show the help." +:+ nl +:+ "    -a: show all info." +:+ nl
    +:+ "    -p: show the all plugin info." +:+ nl +:+ "    -p (plugin name): show one plugin info." +:+ nl
    +:+ "    setSystemLoadLevel (LevelNum/reset): set system load level. LevelNum range: 0-7" +:+ nl
    +:+ "    getSystemloadInfo: get system load info." +:+ nl +:+ help).

(** res_sched_service.cpp:735-743 [ResSchedService::DumpUserUsage] *)
Definition DumpUserUsage : string :=
  "usage: resource schedule service dump [<options>]" +:+ nl
  +:+ "setPreloadSwitch      |setPreloadSwitch [value], 1:open, 0:close." +:+ nl
  +:+ "getPreloadSwitch      |getPreloadSwitch." +:+ nl
  +:+ "preloadAbilityStage   |preloadAbilityStage [bundleName]." +:+ nl
  +:+ "preloadWindowStage    |preloadWindowStage [bundleName] [abilityName]." +:+ nl
  +:+ "preloadProcess        |preloadProcess [bundleName]." +:+ nl.

(** res_sched_service.cpp:746-750 [ResSchedService::DumpUsage2D] *)
Definition DumpUsage2D : string :=
  "    setSystemLoadLevel (LevelNum/reset): set system load level. LevelNum range: 0-7" +:+ nl
  +:+ "    getSystemloadInfo: get system load info." +:+ nl.

Definition usage : M string := if LOAD_LEVEL_2D then mret DumpUsage2D else DumpUsage.

(** res_sched_service.cpp:753-757 [ResSchedService::DumpAllInfo] *)
Definition DumpAllInfo : M string :=
  text ← in_plugins DumpAllPlugin;
  mret ("================Resource Schedule Service Infos================" +:+ nl +:+ text).

(** res_sched_service.cpp:810-814 [ResSchedService::DumpAllPluginConfig] *)
Definition Service_DumpAllPluginConfig : M string :=
  text ← in_plugins DumpAllPluginConfig;
  mret ("================Resource Schedule Plugin Config================" +:+ nl +:+ text).

(** res_sched_service.cpp:702-721 [ResSchedService::DumpSystemLoadInfo] *)
Definition DumpSystemLoadInfo (s : Service J K S) : string :=
  let info := NotifierMgr_DumpRegisterInfo (notifiers s) in
  let pids hap := String.concat "" ((fun p => to_string p.1 +:+ " ") <$> filter (fun p => p.2 = hap) info) in
  "systemloadLevel:" +:+ to_string (NotifierMgr_GetSystemloadLevel (notifiers s)) +:+ nl
  +:+ "natives:" +:+ pids false +:+ nl +:+ "apps:" +:+ pids true +:+ nl.

(** res_sched_service.cpp:759-777 [ResSchedService::DumpExecutorDebugCommand] *)
Definition DumpExecutorDebugCommand (args : list string) : M string :=
  let times := match args !! 2%nat with
               | Some a => if atoi a >? 0 then atoi a else 1
               | None => 1
               end in
  let isSync := match args !! 1%nat with Some a => atoi a =? 0 | None => true end in
  st_iter (fun _ => s_record (SSendDebugCommand isSync)) (replicate (Z.to_nat times) tt);;
  mret ("Send debug command to resource_schedule_executor." +:+ nl).

Definition bad_level_text : string :=
  "Err setSystemLoadLevel param. Please insert 0-7 to start debug, " +:+ quote +:+ "reset" +:+ quote +:+ " to close debug".

(** res_sched_service.cpp:779-808 [ResSchedService::DumpSetSystemLoad] *)
Definition DumpSetSystemLoad (args : list string) : M string :=
  if bool_decide (length args <> 2%nat)
  then mret ("Err setSystemLoadLevel param num. Please insert one param after "
             +:+ quote +:+ "setSystemLoadLevel" +:+ quote) else
  switchStr ← st_some (args !! 1%nat);
  if bool_decide (switchStr = "reset") then
    upd_svc (fun x => x <| systemLoadLevelDebugEnable_ := false |> <| debugSystemLoadLevel_ := 0 |>);;
    s ← get_svc;
    OnDeviceLevelChanged SYSTEMLOAD_LEVEL (actualSystemLoadLevel_ s) false;;
    mret ("Set SystemLoad Close" +:+ nl)
  else match svc_StrToInt switchStr with
  | None => mret bad_level_text
  | Some switchInfo =>
      if (switchInfo <=? DEBUG_LEVEL_MAXIMUM) && (switchInfo >=? DEBUG_LEVEL_MINIMUM) then
        upd_svc (fun x => x <| systemLoadLevelDebugEnable_ := true |> <| debugSystemLoadLevel_ := switchInfo |>);;
        OnDeviceLevelChanged SYSTEMLOAD_LEVEL switchInfo true;;
        mret ("setSystemLoadLevel Debug On with Level: " +:+ to_string switchInfo +:+ nl)
      else mret bad_level_text
  end.

(** res_sched_service.cpp:679-700 [ResSchedService::DumpExt] *)
Definition DumpExt (args : list string) : M string :=
  option ← st_some (args !! 0%nat);
  if bool_decide (option = "-h") then usage
  else if bool_decide (option = "-a") then DumpAllInfo
  else if bool_decide (option = "-p") then in_plugins DumpAllPlugin
  else if bool_decide (option = "getSystemloadInfo") then s ← st_get; mret (DumpSystemLoadInfo s)
  else if bool_decide (option = "sendDebugToExecutor") then DumpExecutorDebugCommand args
  else if bool_decide (option = "PluginConfig") then Service_DumpAllPluginConfig
  else mret "Error params.".

(** The commands for the plugin that preloads applications. *)
Definition preload_commands : list string :=
  ["setPreloadSwitch"; "getPreloadSwitch"; "preloadAbilityStage"; "preloadWindowStage"; "preloadProcess";
   "backgroundLoader"].

(** res_sched_service.cpp:642-677 [ResSchedService::DumpPreloadUserMode] *)
Definition DumpPreloadUserMode (caller : Caller) (fd : Z) (args : list string) : M Z :=
  k ← get_host;
  if negb (CheckDumpPermission caller k) then mret ERR_RES_SCHED_PERMISSION_DENIED else
  match args with
  | [] => s_record (SDumpText fd DumpUserUsage);; mret ERR_RES_SCHED_PERMISSION_DENIED
  | option :: _ =>
      if bool_decide (option ∈ preload_commands) then
        text ← in_plugins (DumpOnePlugin "libapp_preload_plugin.z.so" args);
        s_record (SDumpText fd text);;
        mret ERR_OK
      else mret ERR_RES_SCHED_PERMISSION_DENIED
  end.

(** Who may dump: in the build with the level for two displays three commands work outside
    the debug mode. *)
Definition dump_denied (caller : Caller) (args : list string) (k : K) : bool :=
  if LOAD_LEVEL_2D then
    negb (CheckDumpPermission caller k)
    || negb CheckENGMode
       && match args with
          | [] => false
          | option :: _ => bool_decide (option ∉ ["setSystemLoadLevel"; "getSystemloadInfo"; "-h"])
          end
  else negb (CheckDumpPermission caller k) || negb CheckENGMode.

(** res_sched_service.cpp:588-640 [ResSchedService::Dump] *)
Definition Dump (caller : Caller) (fd : Z) (args : list string) : M Z :=
  r ← DumpPreloadUserMode caller fd args;
  if r =? ERR_OK then mret ERR_OK else
  k ← get_host;
  if dump_denied caller args k then mret ERR_RES_SCHED_PERMISSION_DENIED else
  result ← (match args with
            | [] => usage
            | [_] => DumpExt args
            | option :: param :: rest =>
                if bool_decide (option = "-p") then in_plugins (DumpOnePlugin param rest)
                else if bool_decide (option = "sendDebugToExecutor") then DumpExecutorDebugCommand args
                else if bool_decide (option = "setSystemLoadLevel") then DumpSetSystemLoad args
                else mret ""
            end);
  s_record (SDumpText fd result);;
  mret ERR_OK.

(** ** The ability *)

(** res_sched_service_ability.cpp:48-82 [ResSchedServiceAbility::OnStart] without the listeners of
    other services, the observers and the common events *)
Definition OnStart : M unit :=
  ResSchedMgr_Init;;
  k ← get_host;
  in_notifiers (NotifierMgr_Init k);;
  in_listeners EventListenerMgr_Init;;
  st_modify (fun s => s <| svc_ready := true |>);;
  InitAllowIpcReportRes.

(** res_sched_service_ability.cpp:122-129 [ResSchedServiceAbility::OnDeviceLevelChanged] *)
Definition Ability_OnDeviceLevelChanged (type level : Z) : M unit :=
  s ← st_get;
  ret_if negb (svc_ready s);
  OnDeviceLevelChanged type level false.

Definition SA_REMOVE : Z := 0. (* res_value.h:36 *)
Definition SA_ADD : Z := 1. (* res_value.h:37 *)

(** The ids of other services. *)
Context (RES_SCHED_EXE_ABILITY_ID APP_MGR_SERVICE_ID : Z).

Definition ability_payload (systemAbilityId : Z) (deviceId : string) : J :=
  json_set "deviceId" (json_of_string deviceId) (json_set "saId" (json_of_int systemAbilityId) json_null).

(** res_sched_service_ability.cpp:97-110 [ResSchedServiceAbility::OnAddSystemAbility] *)
Definition OnAddSystemAbility (systemAbilityId : Z) (deviceId : string) : M unit :=
  (if systemAbilityId =? RES_SCHED_EXE_ABILITY_ID then InitExecutorPlugin false
   else st_when (systemAbilityId =? APP_MGR_SERVICE_ID) InitForegroundAppInfo);;
  ResSchedMgr_ReportData RES_TYPE_SYSTEM_ABILITY_STATUS_CHANGE SA_ADD (ability_payload systemAbilityId deviceId).

(** res_sched_service_ability.cpp:112-120 [ResSchedServiceAbility::OnRemoveSystemAbility] *)
Definition OnRemoveSystemAbility (systemAbilityId : Z) (deviceId : string) : M unit :=
  ResSchedMgr_ReportData RES_TYPE_SYSTEM_ABILITY_STATUS_CHANGE SA_REMOVE (ability_payload systemAbilityId deviceId).

(** res_sched_service_ability.cpp:84-95 [ResSchedServiceAbility::OnStop] *)
Definition OnStop : M unit := ResSchedMgr_Stop.
End res_sched_service.
