(* ===== verification/ServiceDemo.v ===== *)
(** * A service for examples

    Concrete answers of the outside: a token kit that knows one application, the scene board
    and one native service, two loaded plugins, and a recognizer that notes the types it
    gets. *)
From S2P Require Import Prelude Json ResType CommonUtil LruCache Ipc PluginConfig PluginMgr PluginMgrFacts NotifierMgr EventListenerMgr ServiceWorld ResSchedMgr ResSchedService.

#[export] Instance demo_text : JsonText json := {|
  json_object := JObject [];
  json_parse s := if String.eqb s "bad" then None else Some (JObject []);
  json_dump _ := "{}";
|}.
(** Tokens 1 and 2 belong to an application and the scene board, token 3 to a service. *)
#[export] Instance demo_tokens : AccessTokenKit Z := {|
  at_GetTokenTypeFlag t _ :=
    if t =? 1 then TOKEN_HAP else if t =? 2 then TOKEN_HAP else if t =? 3 then TOKEN_NATIVE else TOKEN_INVALID;
  at_GetHapTokenInfo t _ := if t =? 2 then "com.ohos.sceneboard" else "com.example.app";
  at_VerifyAccessToken t _ _ := if t =? 3 then 0 else -1;
|}.
#[export] Instance demo_states : ApplicationState :=
  {| AS_FOREGROUND := 2; AS_BACKGROUND := 4; AS_TERMINATED := 5; AS_END := 6 |}.
#[export] Instance demo_notifier_host : NotifierHost Z := {|
  nh_LoadStringFromFile _ _ := Some "HIGH";
  nh_GetBundleNameByPid pid _ := if pid =? 0 then "" else "com.example.app";
|}.
#[export] Instance demo_service_host : ServiceHost Z := {|
  sh_GetCurrentTimestamp k := k;
  sh_gettid _ := 77;
  sh_getpid _ := 1901;
  sh_KillProcess _ _ := 0;
  sh_GetForegroundApplications _ := Some [100];
  sh_has_preload_func _ := true;
  sh_OnIsAllowedAppPreload _ _ _ := true;
  sh_const_debuggable := 0;
|}.
#[export] Instance demo_service_build : ServiceBuild := {| FILE_COPY_SOC_PERF := false; LOAD_LEVEL_2D := false |}.
#[export] Instance demo_codes : ErrCodes := {|
  RES_SCHED_COMMON_ERR_OFFSET := 1000;
  RES_SCHED_SERVICE_ERR_OFFSET := 2000;
  ERR_INVALID_OPERATION := 38;
  ERR_INVALID_VALUE := 22;
|}.
#[export] Instance demo_scenes : SceneDispatcher json (list Z) := fun d => st_modify (fun l => l ++ [rd_resType d]).
#[export] Instance demo_plugins : PluginHost json Z := demo_host.
#[export] Instance demo_service_flags : Build := demo_build.

(** The service after its start, with the plugins of the example. *)
Definition demo_service : Service json Z (list Z) :=
  let s := (new_Service 0 []) <| plugins := demo_mgr |> in
  default s (snd <$> InitAllowIpcReportRes s).

Definition app_caller : Caller := mkCaller 100 20010001 1 1.
Definition sa_caller : Caller := mkCaller 555 1003 3 3.
