(* ===== verification/ServiceFacts.v ===== *)
(** * Facts about the service

    How many requests are let through, and what a report has to pass before it reaches the
    plugins and the scene recognizers. *)
From S2P Require Import Prelude Json ResType CommonUtil LruCache Ipc PluginConfig PluginMgr NotifierMgr EventListenerMgr ServiceWorld ResSchedMgr ResSchedService ServiceDemo.

(** ** Sums over a map *)

Definition map_sum (m : gmap Z Z) : Z := map_fold (fun _ v acc => v + acc) 0 m.

Lemma map_sum_insert m i x : m !! i = None -> map_sum (<[i := x]> m) = x + map_sum m.
Proof. intros Hi. unfold map_sum. apply (map_fold_insert_L (fun _ v acc => v + acc) 0 i x m); [intros; lia|done]. Qed.

Lemma map_sum_update m i x y : m !! i = Some x -> map_sum (<[i := y]> m) = map_sum m - x + y.
Proof.
  intros Hi. rewrite <- (insert_delete_eq m i y).
  rewrite map_sum_insert by apply lookup_delete_eq.
  assert (map_sum m = x + map_sum (delete i m)) as ->; [|lia].
  rewrite <- (map_sum_insert (delete i m) i x) by apply lookup_delete_eq. by rewrite insert_delete_id.
Qed.

(** ** The limit of requests *)

(** The counters of a window: their sum, and the limits of one caller and of all. *)
Record limits_ok (x : ResSchedService) : Prop := {
  lim_sum : allRequestCount_ x = map_sum (appRequestCountMap_ x);
  lim_each : map_Forall (fun _ n => 1 <= n <= SINGLE_UID_REQUEST_LIMIT_COUNT) (appRequestCountMap_ x);
  lim_all : allRequestCount_ x <= ALL_UID_REQUEST_LIMIT_COUNT;
}.

Definition count_of (uid : Z) (x : ResSchedService) : Z := default 0 (appRequestCountMap_ x !! uid).

(** The start of a window when the last one is over. *)
Definition window_step (t : Z) (x : ResSchedService) : ResSchedService :=
  if t - nextCheckTime_ x >=? 0
  then x <| nextCheckTime_ := t + LIMIT_REQUEST_TIME |> <| appRequestCountMap_ := ∅ |>
         <| allRequestCount_ := 0 |> <| isPrintLimitLog_ := true |>
  else x.

(** Whether a caller has used up its share, or all callers theirs. *)
Definition over_limit (uid : Z) (x : ResSchedService) : bool :=
  (allRequestCount_ x >=? ALL_UID_REQUEST_LIMIT_COUNT) || (count_of uid x >=? SINGLE_UID_REQUEST_LIMIT_COUNT).

Definition count_request (uid : Z) (x : ResSchedService) : ResSchedService :=
  x <| appRequestCountMap_ ::= <[uid := count_of uid x + 1]> |> <| allRequestCount_ ::= Z.add 1 |>.

Lemma window_limits_ok t x : limits_ok x -> limits_ok (window_step t x).
Proof.
  intros Hx. unfold window_step. case_match; [|done]. split; simpl.
  - unfold map_sum. by rewrite map_fold_empty.
  - apply map_Forall_empty.
  - done.
Qed.

Lemma count_request_ok uid x : limits_ok x -> over_limit uid x = false -> limits_ok (count_request uid x).
Proof.
  intros [Hs He Ha] Ho. unfold over_limit, count_of in *. apply orb_false_iff in Ho as [Ho1 Ho2].
  unfold count_request, count_of. split; simpl.
  - destruct (appRequestCountMap_ x !! uid) as [n|] eqn:E; simpl in *.
    + rewrite (map_sum_update _ _ n) by done. lia.
    + rewrite map_sum_insert by done. lia.
  - apply map_Forall_insert_2; [|done].
    destruct (appRequestCountMap_ x !! uid) as [n|] eqn:E; simpl in *; [specialize (He _ _ E); simpl in He|];
      unfold SINGLE_UID_REQUEST_LIMIT_COUNT in *; lia.
  - unfold ALL_UID_REQUEST_LIMIT_COUNT in *. lia.
Qed.

Lemma new_limits_ok : limits_ok new_ResSchedService.
Proof. split; simpl; [by unfold map_sum; rewrite map_fold_empty|apply map_Forall_empty|done]. Qed.

Section service.
Context {J K S N : Type} `{!Json J} `{!JsonText J} `{!Build} `{!PluginHost J K} `{!Xml N}
  `{!SceneDispatcher J S} `{!NotifierHost K} `{!AccessTokenKit K} `{!ApplicationState}
  `{!ServiceHost K} `{!ServiceBuild} `{!ErrCodes}.
Context (long_bits : Z).
Implicit Types (s : Service J K S).

(** A clock is read: the outer state may change. *)
Definition tick (k : K) s : Service J K S := s <| plugins ::= fun p => p <| host := k |> |>.
Definition clock s : Z * K := ph_now_ms (J := J) (host (plugins s)).

Lemma now_run s : in_plugins (now_ms (J := J) (K := K)) s = Some ((clock s).1, tick (clock s).2 s).
Proof.
  unfold in_plugins, in_part, now_ms, on_host, clock, tick, over. by destruct (ph_now_ms (host (plugins s))).
Qed.

(** The limit in one step. *)
Definition limit_state (uid : Z) s : ResSchedService :=
  let x := window_step (clock s).1 (svc s) in if over_limit uid x then x else count_request uid x.

Lemma IsLimitRequest_run uid s :
  IsLimitRequest uid s =
  Some (over_limit uid (window_step (clock s).1 (svc s)), (tick (clock s).2 s) <| svc := limit_state uid s |>).
Proof.
  unfold IsLimitRequest. rewrite (run_bind _ _ _ _ _ (now_run s)).
  set (t := (clock s).1). set (s1 := tick (clock s).2 s).
  assert (Hw : CheckAndUpdateLimitData t s1 = Some (tt, s1 <| svc := window_step t (svc s) |>)).
  { unfold CheckAndUpdateLimitData, window_step. unfold mbind, ST_bind, get_svc, st_when.
    change (svc s1) with (svc s). by case_match. }
  rewrite (run_bind _ _ _ _ _ Hw). unfold limit_state. fold t.
  set (x := window_step t (svc s)). unfold mbind, ST_bind, get_svc.
  change (svc (s1 <| svc := x |>)) with x.
  unfold over_limit, count_request, count_of.
  destruct (allRequestCount_ x >=? ALL_UID_REQUEST_LIMIT_COUNT) eqn:E1; [done|].
  destruct (appRequestCountMap_ x !! uid) as [n|] eqn:E2; simpl; [|done].
  by destruct (n >=? SINGLE_UID_REQUEST_LIMIT_COUNT) eqn:E3.
Qed.
(** What a check leaves alone: everything but counters, the clock, the record of refusals, the
    cache and the trace. *)
Record quiet s s' : Prop := {
  q_plugins : plugins s' = (plugins s) <| host := host (plugins s') |>;
  q_scenes : scenes s' = scenes s;
  q_notifiers : notifiers s' = notifiers s;
  q_listeners : listeners s' = listeners s;
  q_rsmgr : rsmgr s' = rsmgr s;
  q_ipc : ipcThread s' = ipcThread s;
  q_allow : allow (svc s') = allow (svc s);
}.

Lemma quiet_refl s : quiet s s.
Proof. split; try done. by destruct (plugins s). Qed.
Lemma quiet_trans s1 s2 s3 : quiet s1 s2 -> quiet s2 s3 -> quiet s1 s3.
Proof. intros [A1 A2 A3 A4 A5 A6 A7] [B1 B2 B3 B4 B5 B6 B7]. split; try congruence. by rewrite B1, A1. Qed.
Lemma quiet_tick k s : quiet s (tick k s).
Proof. by split. Qed.

Lemma quiet_upd_svc f s : allow (f (svc s)) = allow (svc s) -> quiet s (s <| svc ::= f |>).
Proof. intros Hf. split; simpl; try done. by destruct (plugins s). Qed.
Lemma quiet_record c s : quiet s (s <| s_trace ::= fun l => l ++ [c] |>).
Proof. split; simpl; try done. by destruct (plugins s). Qed.

(** The three fields of the limit. *)
Definition same_limits (x y : ResSchedService) : Prop :=
  appRequestCountMap_ x = appRequestCountMap_ y /\ allRequestCount_ x = allRequestCount_ y
  /\ nextCheckTime_ x = nextCheckTime_ y.

Lemma same_limits_ok x y : same_limits x y -> limits_ok y -> limits_ok x.
Proof. intros (E1 & E2 & _) [L1 L2 L3]. split; by rewrite ?E1, ?E2. Qed.

Lemma run_get_svc {B} (k : ResSchedService -> ST (Service J K S) B) s : (get_svc ≫= k) s = k (svc s) s.
Proof. done. Qed.

(** When the window of a request is checked: big data reads the clock before when there is any. *)
Definition check_time s : Z :=
  if isReportBigData_ (svc s) then (clock (tick (clock s).2 s)).1 else (clock s).1.

Lemma ReportBigData_run s :
  exists s1, ReportBigData s = Some (tt, s1) /\ quiet s s1 /\ same_limits (svc s1) (svc s)
    /\ permissionCache_ (svc s1) = permissionCache_ (svc s) /\ (clock s1).1 = check_time s.
Proof.
  unfold ReportBigData, check_time. rewrite run_get_svc.
  destruct (isReportBigData_ (svc s)) eqn:E; cbn [negb]; cbv iota.
  - rewrite (run_bind _ _ _ _ _ (now_run s)). case_match.
    + eexists. split_and!; [done|apply quiet_tick|done|done|done].
    + eexists. split_and!; [done|by split|done|done|done].
  - exists s. by split_and!; [|apply quiet_refl|..].
Qed.

Lemma InreaseBigDataCount_run s :
  exists s1, InreaseBigDataCount s = Some (tt, s1) /\ quiet s s1 /\ same_limits (svc s1) (svc s)
    /\ permissionCache_ (svc s1) = permissionCache_ (svc s).
Proof.
  unfold InreaseBigDataCount. rewrite run_get_svc.
  destruct (isReportBigData_ (svc s)) eqn:E; cbn [negb st_when].
  - eexists. split_and!; [done|by apply quiet_upd_svc|done|done].
  - unfold mbind at 1, ST_bind at 1. rewrite (run_bind _ _ _ _ _ (now_run s)).
    eexists. split_and!; [done|by split|done|done].
Qed.

Lemma PrintLimitLog_run s :
  exists s1, PrintLimitLog s = Some (tt, s1) /\ quiet s s1 /\ same_limits (svc s1) (svc s)
    /\ permissionCache_ (svc s1) = permissionCache_ (svc s).
Proof.
  unfold PrintLimitLog. rewrite run_get_svc. destruct (isPrintLimitLog_ (svc s)); cbn [st_when].
  - eexists. split_and!; [done|by apply quiet_upd_svc|done|done].
  - exists s. by split_and!; [|apply quiet_refl|..].
Qed.

(** One check: the answer and the counters after it. *)
Definition check_window (uid : Z) s : ResSchedService := window_step (check_time s) (svc s).

Lemma RemoteRequestCheck_run caller s :
  exists s1, RemoteRequestCheck caller s
    = Some (if over_limit (c_uid caller) (check_window (c_uid caller) s) then RES_SCHED_REQUEST_FAIL else ERR_OK, s1)
    /\ quiet s s1 /\ permissionCache_ (svc s1) = permissionCache_ (svc s)
    /\ same_limits (svc s1)
         (if over_limit (c_uid caller) (check_window (c_uid caller) s) then check_window (c_uid caller) s
          else count_request (c_uid caller) (check_window (c_uid caller) s)).
Proof.
  unfold RemoteRequestCheck. destruct (ReportBigData_run s) as (s1 & E1 & Q1 & L1 & P1 & T1).
  rewrite (run_bind _ _ _ _ _ E1), (run_bind _ _ _ _ _ (IsLimitRequest_run _ s1)). rewrite T1.
  set (s2 := (tick (clock s1).2 s1) <| svc := limit_state (c_uid caller) s1 |>).
  set (uid := c_uid caller).
  assert (Hw : same_limits (window_step (check_time s) (svc s1)) (check_window uid s)
               /\ over_limit uid (window_step (check_time s) (svc s1)) = over_limit uid (check_window uid s)
               /\ allow (window_step (check_time s) (svc s1)) = allow (svc s1)
               /\ permissionCache_ (window_step (check_time s) (svc s1)) = permissionCache_ (svc s1)).
  { destruct L1 as (L1 & L2 & L3). unfold check_window, window_step, over_limit, count_of, same_limits.
    rewrite L3. case_match; simpl; by rewrite ?L1, ?L2, ?L3. }
  destruct Hw as (Hw & Ho & Ha & Hp). fold uid. rewrite Ho.
  assert (Q2 : quiet s s2 /\ permissionCache_ (svc s2) = permissionCache_ (svc s) /\ same_limits (svc s2)
    (if over_limit uid (check_window uid s) then check_window uid s else count_request uid (check_window uid s))).
  { unfold s2, limit_state. fold uid. rewrite T1, Ho. destruct (over_limit uid (check_window uid s)).
    - split_and!; [|simpl; congruence|done]. eapply quiet_trans; [exact Q1|]. split; try done.
    - split_and!; [|simpl; congruence|]. 
      + eapply quiet_trans; [exact Q1|]. split; try done.
      + destruct Hw as (W1 & W2 & W3). unfold same_limits, count_request, count_of. simpl.
        by rewrite W1, W2, W3. }
  destruct Q2 as (Q2 & P2 & L2). destruct (over_limit uid (check_window uid s)).
  - destruct (InreaseBigDataCount_run s2) as (s3 & E3 & Q3 & L3 & P3).
    destruct (PrintLimitLog_run s3) as (s4 & E4 & Q4 & L4 & P4).
    exists s4. rewrite (run_bind _ _ _ _ _ E3), (run_bind _ _ _ _ _ E4). split_and!; [done| |congruence|].
    + eapply quiet_trans; [exact Q2|]. by eapply quiet_trans.
    + unfold same_limits in *. intuition congruence.
  - exists s2. by split_and!.
Qed.

(** A sequence of requests. *)
Fixpoint run_checks (cs : list Caller) : ST (Service J K S) (list Z) :=
  match cs with
  | [] => mret []
  | c :: cs => r ← RemoteRequestCheck c; rs ← run_checks cs; mret (r :: rs)
  end.

(** How many requests of a caller, or of all, were let through. *)
Definition accepted (uid : Z) (cs : list Caller) (rs : list Z) : Z :=
  Z.of_nat (length (filter (fun p => c_uid p.1 = uid /\ p.2 = ERR_OK) (zip cs rs))).
Definition accepted_all (cs : list Caller) (rs : list Z) : Z :=
  Z.of_nat (length (filter (fun p => p.2 = ERR_OK) (zip cs rs))).

Lemma accepted_cons uid c cs r rs :
  accepted uid (c :: cs) (r :: rs)
  = (if decide (c_uid c = uid /\ r = ERR_OK) then 1 else 0) + accepted uid cs rs.
Proof. unfold accepted. simpl zip. rewrite filter_cons. simpl. case_decide; simpl; lia. Qed.
Lemma accepted_all_cons c cs r rs :
  accepted_all (c :: cs) (r :: rs) = (if decide (r = ERR_OK) then 1 else 0) + accepted_all cs rs.
Proof. unfold accepted_all. simpl zip. rewrite filter_cons. simpl. case_decide; simpl; lia. Qed.

Lemma window_same t x : nextCheckTime_ (window_step t x) = nextCheckTime_ x -> window_step t x = x.
Proof. unfold window_step. case_match; [|done]. simpl. unfold LIMIT_REQUEST_TIME. lia. Qed.

Lemma window_later t x : nextCheckTime_ x <= nextCheckTime_ (window_step t x).
Proof. unfold window_step. case_match; [|done]. simpl. unfold LIMIT_REQUEST_TIME. lia. Qed.

(** One request counts when it is let through in a window that goes on. *)
Lemma check_counts c s :
  limits_ok (svc s) ->
  exists r s1, RemoteRequestCheck c s = Some (r, s1) /\ quiet s s1 /\ limits_ok (svc s1)
    /\ nextCheckTime_ (svc s) <= nextCheckTime_ (svc s1)
    /\ (nextCheckTime_ (svc s1) = nextCheckTime_ (svc s) ->
         (forall uid, count_of uid (svc s1)
            = (if decide (c_uid c = uid /\ r = ERR_OK) then 1 else 0) + count_of uid (svc s))
         /\ allRequestCount_ (svc s1) = (if decide (r = ERR_OK) then 1 else 0) + allRequestCount_ (svc s)).
Proof.
  intros Hl. destruct (RemoteRequestCheck_run c s) as (s1 & E & Q & _ & L). unfold check_window in *.
  pose proof (window_limits_ok (check_time s) _ Hl) as Hw.
  pose proof (window_later (check_time s) (svc s)) as Hlater.
  pose proof (window_same (check_time s) (svc s)) as Hsame.
  set (x := window_step (check_time s) (svc s)) in *.
  destruct (over_limit (c_uid c) x) eqn:Ho; eexists _, s1; (split; [exact E|]); (split; [done|]);
    destruct L as (L1 & L2 & L3).
  - split_and!; [by apply (same_limits_ok _ x)|by rewrite L3|].
    rewrite L3. intros Hx%Hsame. unfold count_of. rewrite L1, L2, Hx. split; [|done].
    intros uid. by rewrite decide_False by (intros [_ ?]; discriminate).
  - split_and!; [apply (same_limits_ok _ (count_request (c_uid c) x)); [done|by apply count_request_ok]|by rewrite L3|].
    rewrite L3. intros Hx%Hsame. unfold count_of. rewrite L1, L2. simpl. rewrite Hx. split; [|done].
    intros uid. destruct (decide (c_uid c = uid)) as [<-|Hne].
    + rewrite lookup_insert_eq, decide_True by done. simpl. unfold count_of. lia.
    + rewrite lookup_insert_ne, decide_False by naive_solver. done.
Qed.

Lemma count_nonneg uid x : limits_ok x -> 0 <= count_of uid x <= SINGLE_UID_REQUEST_LIMIT_COUNT.
Proof.
  intros [_ He _]. unfold count_of. destruct (appRequestCountMap_ x !! uid) as [n|] eqn:E; simpl; [|done].
  specialize (He _ _ E). simpl in He. lia.
Qed.

Lemma run_checks_spec cs : forall s, limits_ok (svc s) ->
  exists rs s', run_checks cs s = Some (rs, s') /\ quiet s s' /\ limits_ok (svc s')
    /\ length rs = length cs /\ nextCheckTime_ (svc s) <= nextCheckTime_ (svc s')
    /\ (nextCheckTime_ (svc s') = nextCheckTime_ (svc s) ->
         (forall uid, count_of uid (svc s') = accepted uid cs rs + count_of uid (svc s))
         /\ allRequestCount_ (svc s') = accepted_all cs rs + allRequestCount_ (svc s)).
Proof.
  induction cs as [|c cs IH]; intros s Hl.
  - exists [], s. split_and!; try done. apply quiet_refl.
  - destruct (check_counts c s Hl) as (r & s1 & E1 & Q1 & L1 & N1 & C1).
    destruct (IH s1 L1) as (rs & s' & E2 & Q2 & L2 & Hlen & N2 & C2).
    exists (r :: rs), s'. cbn [run_checks]. rewrite (run_bind _ _ _ _ _ E1), (run_bind _ _ _ _ _ E2).
    split_and!; [done|by eapply quiet_trans|done|simpl; lia|lia|]. intros Hn.
    destruct C1 as [C1 D1]; [lia|]. destruct C2 as [C2 D2]; [lia|]. split.
    + intros uid. rewrite accepted_cons, C2, C1. lia.
    + rewrite accepted_all_cons, D2, D1. lia.
Qed.

Lemma allRequestCount_nonneg x : limits_ok x -> 0 <= allRequestCount_ x.
Proof.
  intros [-> He _]. unfold map_sum. revert He. generalize (appRequestCountMap_ x).
  intros m. induction m as [|i n m Hi IH] using map_ind; intros He; [by rewrite map_fold_empty|].
  apply map_Forall_insert in He as [Hn He]; [|done]. fold (map_sum (<[i := n]> m)).
  rewrite map_sum_insert by done. specialize (IH He). unfold map_sum. simpl in Hn. lia.
Qed.


(** ** The gate of reports *)

(** The cache of permissions is in order. *)
Definition cache_ok s : Prop :=
  lru_ok (permissionCache_ (svc s)) /\ (0 < capacity_ (permissionCache_ (svc s)))%nat.

(** The verdict about a permission: the remembered one, or the one the token kit gives. *)
Definition verdict (token : Z) s : Z :=
  default (at_VerifyAccessToken token NEEDED_PERMISSION (host (plugins s)))
    (find_key token (entries (permissionCache_ (svc s)))).

(** Who may report a type: the scene board, an application (for some types only in the
    foreground), or a native service with the permission that the lists name. *)
Definition authorised (caller : Caller) (type : Z) s : Prop :=
  let a := allow (svc s) in
  let token := c_tokenId caller in
  match at_GetTokenTypeFlag token (host (plugins s)) with
  | TOKEN_HAP =>
      (type ∈ allowSCB a /\ at_GetHapTokenInfo token (host (plugins s)) = SCENEBOARD_BUNDLE_NAME)
      \/ (type ∈ allowAllApp a /\ (type ∈ allowFgApp a -> c_pid caller ∈ foregroundPids_ (rsmgr s)))
  | TOKEN_NATIVE =>
      match allowSomeSA a !! type with
      | Some uids => c_uid caller ∈ uids
      | None => type ∈ allowAllSA a
      end /\ verdict token s = 0
  | _ => False
  end.

Lemma in_cache_run {A} (m : ST (LRU Z Z) A) a c s :
  m (permissionCache_ (svc s)) = Some (a, c) ->
  in_cache m s = Some (a, s <| svc ::= fun x => x <| permissionCache_ := c |> |>).
Proof. intros E. unfold in_cache, in_part. by rewrite E. Qed.

Lemma IsHasPermission_run caller type uid s :
  cache_ok s ->
  exists s1, IsHasPermission caller type uid s
    = Some (sa_listed type uid (allow (svc s))
            && bool_decide (at_GetTokenTypeFlag (c_tokenId caller) (host (plugins s)) = TOKEN_NATIVE)
            && (verdict (c_tokenId caller) s =? 0), s1)
    /\ quiet s s1 /\ cache_ok s1.
Proof.
  intros [Hok Hcap]. unfold IsHasPermission. rewrite run_get_bind.
  destruct (sa_listed type uid (allow (svc s))); cbn [negb andb];
    [|exists s; by split_and!; [|apply quiet_refl|..]].
  destruct (decide (at_GetTokenTypeFlag (c_tokenId caller) (host (plugins s)) = TOKEN_NATIVE)) as [Ht|Ht].
  2:{ rewrite bool_decide_true, bool_decide_false by done. exists s. by split_and!; [|apply quiet_refl|..]. }
  rewrite bool_decide_false, bool_decide_true by tauto. cbn [andb].
  destruct (lru_get_spec (c_tokenId caller) _ Hok) as (c1 & E1 & Hok1 & Hc1 & He1).
  rewrite (run_bind _ _ _ _ _ (in_cache_run _ _ _ _ E1)).
  set (s1 := s <| svc ::= fun x => x <| permissionCache_ := c1 |> |>).
  assert (Q1 : quiet s s1) by by apply quiet_upd_svc.
  assert (C1 : cache_ok s1) by (split; [exact Hok1 | simpl; lia]).
  unfold verdict. unfold ref_get in *.
  destruct (find_key (c_tokenId caller) (entries (permissionCache_ (svc s)))) as [v|]; simpl.
  - by exists s1.
  - destruct (lru_put_spec (c_tokenId caller)
      (at_VerifyAccessToken (c_tokenId caller) NEEDED_PERMISSION (host (plugins s))) c1 Hok1) as (c2 & E2 & Hok2 & Hc2 & _);
      [lia|].
    exists (s1 <| svc ::= fun x => x <| permissionCache_ := c2 |> |>). split_and!.
    + by rewrite (run_bind _ _ _ _ _ (in_cache_run _ _ _ s1 E2)).
    + eapply quiet_trans; [exact Q1|]. by apply quiet_upd_svc.
    + split; [exact Hok2 | simpl; lia].
Qed.

(** The three tests of the code together say who is authorised. *)
Lemma authorised_iff caller type s :
  authorised caller type s <->
  IsSBDResType caller type s || IsThirdPartType caller type s
  || (sa_listed type (c_uid caller) (allow (svc s))
      && bool_decide (at_GetTokenTypeFlag (c_tokenId caller) (host (plugins s)) = TOKEN_NATIVE)
      && (verdict (c_tokenId caller) s =? 0)) = true.
Proof.
  unfold authorised, IsSBDResType, IsThirdPartType, IsForegroundApp, sa_listed.
  rewrite !orb_true_iff, !andb_true_iff.
  destruct (at_GetTokenTypeFlag (c_tokenId caller) (host (plugins s))); simpl;
    repeat case_bool_decide; simplify_eq; repeat case_match; rewrite ?bool_decide_eq_true, ?Z.eqb_eq; naive_solver.
Qed.

Lemma classic_authorised caller type s : authorised caller type s \/ ~ authorised caller type s.
Proof. rewrite authorised_iff. destruct (_ || _); auto. Qed.

Lemma ReportPermissionErrorEvent_run s :
  exists s1, ReportPermissionErrorEvent s = Some (tt, s1) /\ quiet s s1
    /\ permissionCache_ (svc s1) = permissionCache_ (svc s).
Proof.
  unfold ReportPermissionErrorEvent. rewrite (run_bind _ _ _ _ _ (now_run s)), run_get_svc.
  case_match; (eexists; split_and!; [done|by split|done]).
Qed.

Lemma CheckReportDataParcel_run caller type value payload s :
  cache_ok s ->
  exists s1, quiet s s1 /\ cache_ok s1
    /\ (~ authorised caller type s ->
         CheckReportDataParcel caller type value payload s = Some (ERR_RES_SCHED_PERMISSION_DENIED, s1))
    /\ (authorised caller type s -> (PAYLOAD_MAX_SIZE < String.length payload)%nat ->
         CheckReportDataParcel caller type value payload s = Some (ERR_RES_SCHED_PARCEL_ERROR, s1))
    /\ (authorised caller type s -> (String.length payload <= PAYLOAD_MAX_SIZE)%nat ->
         CheckReportDataParcel caller type value payload s = Some (ERR_OK, s1)).
Proof.
  intros Hc. unfold CheckReportDataParcel.
  set (g := IsSBDResType caller type s || IsThirdPartType caller type s).
  assert (exists b s1, (if g then mret true else IsHasPermission caller type (c_uid caller)) s = Some (b, s1)
    /\ quiet s s1 /\ cache_ok s1 /\ b = g || (sa_listed type (c_uid caller) (allow (svc s))
      && bool_decide (at_GetTokenTypeFlag (c_tokenId caller) (host (plugins s)) = TOKEN_NATIVE)
      && (verdict (c_tokenId caller) s =? 0))) as (b & s1 & E & Q & C & Hb).
  { destruct g; [exists true, s; split_and!; [done|apply quiet_refl|done|done]|].
    destruct (IsHasPermission_run caller type (c_uid caller) s Hc) as (s1 & E & Q & C). eauto 10. }
  assert (Ha : authorised caller type s <-> b = true) by by rewrite authorised_iff, Hb.
  rewrite run_get_bind. fold g. rewrite (run_bind _ _ _ _ _ E). destruct b; cbn [negb].
  - destruct (decide (PAYLOAD_MAX_SIZE < String.length payload)%nat) as [Hlen|Hlen];
      [rewrite bool_decide_true by done|rewrite bool_decide_false by done].
    + exists (s1 <| s_trace ::= fun l => l ++ [SHiSysEvent "ABNORMAL_ERR" ("payload oversize:" +:+ to_string type) 0] |>).
      split_and!; [|done|naive_solver|done|intros; lia].
      eapply quiet_trans; [exact Q|apply quiet_record].
    + exists s1. split_and!; [done|done|naive_solver|intros; lia|done].
  - unfold get_host. unfold mbind at 1, ST_bind at 1.
    match goal with |- context [count_refusal ?t ?k] => set (refuse := count_refusal t k) end.
    assert (exists s2, refuse s1 = Some (tt, s2) /\ quiet s1 s2 /\ permissionCache_ (svc s2) = permissionCache_ (svc s1))
      as (s2 & E2 & Q2 & P2).
    { eexists. split_and!; [done|by apply quiet_upd_svc|done]. }
    destruct (ReportPermissionErrorEvent_run s2) as (s3 & E3 & Q3 & P3).
    exists s3. rewrite (run_bind _ _ _ _ _ E2), (run_bind _ _ _ _ _ E3). split_and!; [| |done|naive_solver..].
    + eapply quiet_trans; [exact Q|]. by eapply quiet_trans.
    + unfold cache_ok. by rewrite P3, P2.
Qed.

(** What becomes of a report. *)
Inductive Gate := Limited | Denied | TooLong | Passed.

Definition gate_spec (caller : Caller) (resType : Z) (payload : string) s (g : Gate) : Prop :=
  if over_limit (c_uid caller) (check_window (c_uid caller) s) then g = Limited else
  exists s1, RemoteRequestCheck caller s = Some (ERR_OK, s1)
    /\ match g with
       | Limited => False
       | Denied => ~ authorised caller (real_type (K := K) resType payload) s1
       | TooLong => authorised caller (real_type (K := K) resType payload) s1
                    /\ (PAYLOAD_MAX_SIZE < String.length payload)%nat
       | Passed => authorised caller (real_type (K := K) resType payload) s1
                   /\ (String.length payload <= PAYLOAD_MAX_SIZE)%nat
       end.

(** The payload with the identity of the caller, as the two requests write it. *)
Definition stamped (fields : list (string * Z)) (payload : string) : J :=
  foldl (fun j p => json_set p.1 (json_of_string (to_string p.2)) j) (StringToJsonObj payload) fields.

Definition forward_report (caller : Caller) (resType value : Z) (payload : string) : ST (Service J K S) Z :=
  ResSchedMgr_ReportData (real_type (K := K) resType payload) value
    (stamped [("callingUid", c_uid caller); ("clientPid", c_pid caller);
              ("callingFullTokenID", c_fullTokenId caller)] payload);;
  SetQos (c_pid caller);;
  mret ERR_OK.

Definition forward_sync (caller : Caller) (resType value : Z) (payload : string)
    : ST (Service J K S) (Z * option string * Z) :=
  r ← in_plugins (PluginMgr_DeliverResource (Some (mkResData (real_type (K := K) resType payload) value
         (stamped [("clientPid", c_pid caller); ("callingUid", c_uid caller);
                   ("callingFullTokenID", c_fullTokenId caller)] payload))));
  SetQos (c_pid caller);;
  mret (ERR_OK, Some (json_dump (default json_null r.2)), r.1).

(** C19: The gate of reports.  Each report meets one of four fates, decided by the limit of
    requests, then by whether the caller is authorised for the type (after a performance scene
    was replaced by the type it names), then by the size of the payload.  Only a report that
    passes all three reaches the plugins and the scene recognizers, with the identity of the
    caller written into its payload; any other returns its own error code, and until then only
    counters, the cache and the record of refusals have changed.  A synchronous report passes
    the same gate, with the code as its result. *)
Theorem report_gate caller resType value payload s :
  cache_ok s -> ERR_RES_SCHED_PERMISSION_DENIED <> ERR_OK -> ERR_RES_SCHED_PARCEL_ERROR <> ERR_OK ->
  exists g s2, gate_spec caller resType payload s g /\ quiet s s2 /\ cache_ok s2
    /\ ReportData caller resType value payload s
       = match g with
         | Limited => Some (RES_SCHED_REQUEST_FAIL, s2)
         | Denied => Some (ERR_RES_SCHED_PERMISSION_DENIED, s2)
         | TooLong => Some (ERR_RES_SCHED_PARCEL_ERROR, s2)
         | Passed => forward_report caller resType value payload s2
         end
    /\ ReportSyncEvent caller resType value payload s
       = match g with
         | Limited => Some ((ERR_OK, None, RES_SCHED_REQUEST_FAIL), s2)
         | Denied => Some ((ERR_OK, None, ERR_RES_SCHED_PERMISSION_DENIED), s2)
         | TooLong => Some ((ERR_OK, None, ERR_RES_SCHED_PARCEL_ERROR), s2)
         | Passed => forward_sync caller resType value payload s2
         end.
Proof.
  intros Hc Hn1 Hn2. unfold gate_spec, ReportData, ReportSyncEvent.
  destruct (RemoteRequestCheck_run caller s) as (s1 & E1 & Q1 & P1 & _).
  rewrite !(run_bind _ _ _ _ _ E1), E1. destruct (over_limit _ _);
    [change (negb (RES_SCHED_REQUEST_FAIL =? ERR_OK)) with true|change (negb (ERR_OK =? ERR_OK)) with false];
    cbv iota.
  - exists Limited, s1. split_and!; try done. unfold cache_ok. by rewrite P1.
  - assert (C1 : cache_ok s1) by (unfold cache_ok; by rewrite P1). cbv zeta.
    set (type := real_type resType payload).
    destruct (CheckReportDataParcel_run caller type value payload s1 C1) as (s2 & Q2 & C2 & H1' & H2' & H3').
    assert (Q : quiet s s2) by by eapply quiet_trans.
    destruct (classic_authorised caller type s1) as [Ha|Ha].
    + destruct (decide (PAYLOAD_MAX_SIZE < String.length payload)%nat) as [Hl|Hl].
      * exists TooLong, s2. rewrite !(run_bind _ _ _ _ _ (H2' Ha Hl)).
        apply Z.eqb_neq in Hn2. rewrite Hn2. split_and!; try done. by exists s1.
      * exists Passed, s2. rewrite !(run_bind _ _ _ _ _ (H3' Ha ltac:(lia))).
        split_and!; try done. exists s1. split_and!; [done..|lia].
    + exists Denied, s2. rewrite !(run_bind _ _ _ _ _ (H1' Ha)).
      apply Z.eqb_neq in Hn1. rewrite Hn1. split_and!; try done. by exists s1.
Qed.
End service.

(** ** Examples *)

Lemma demo_limits : limits_ok (svc demo_service).
Proof. split; [by vm_compute|apply (bool_decide_unpack _); by vm_compute|by vm_compute]. Qed.

Lemma demo_cache : cache_ok demo_service.
Proof. split; [apply (new_lru_ok 256)|apply Nat.ltb_lt; by vm_compute]. Qed.


Lemma report_gate_witness :
  (** a service reports a frame rate: it passes, reaches the recognizer and a plugin *)
  (match ReportData sa_caller RES_TYPE_FRAME_RATE_REPORT 0 "{}" demo_service with
   | Some (r, s) => r = ERR_OK /\ scenes s = [RES_TYPE_FRAME_RATE_REPORT] | None => False end)
  (** the same from an application is refused *)
  /\ (match ReportData app_caller RES_TYPE_FRAME_RATE_REPORT 0 "{}" demo_service with
      | Some (r, s) => r = ERR_RES_SCHED_PERMISSION_DENIED /\ scenes s = [] | None => False end)
  /\ exists g s2, gate_spec app_caller RES_TYPE_FRAME_RATE_REPORT "{}" demo_service g /\ quiet demo_service s2.
Proof.
  split; [by vm_compute|]. split; [by vm_compute|].
  destruct (report_gate (J := json) app_caller RES_TYPE_FRAME_RATE_REPORT 0 "{}" demo_service demo_cache)
    as (g & s2 & Hg & Q & _); [discriminate..|].
  exists g, s2. split; [exact Hg | exact Q].
Defined.
