(* ===== verification/NotifierFacts.v ===== *)
(** * Facts about the notifiers

    What a client has been told about the system load, over any history of registrations,
    deaths, changes of the level and changes of applications. *)
From S2P Require Import Prelude ResType Ipc ServiceDemo NotifierMgr.

(** ** Histories *)

(** The last level that was submitted for a remote object since it was registered last. *)
Definition told_step (obj : Z) (acc : option Z) (c : NCall) : option Z :=
  match c with
  | NAddDeath o => if decide (o = obj) then None else acc
  | NSubmit objs l => if decide (obj ∈ objs) then Some l else acc
  | _ => acc
  end.
Definition told (obj : Z) (tr : list NCall) : option Z := foldl (told_step obj) None tr.

(** The calls that were made, and all that were submitted, in order. *)
Definition flat (t : list Z * Z) : list (Z * Z) := (fun o => (o, t.2)) <$> t.1.
Definition delivered (tr : list NCall) : list (Z * Z) :=
  omap (fun c => match c with NOnSystemloadLevel o l => Some (o, l) | _ => None end) tr.
Definition submitted (tr : list NCall) : list (Z * Z) :=
  tr ≫= (fun c => match c with NSubmit objs l => flat (objs, l) | _ => [] end).

Lemma told_app obj tr tr' : told obj (tr ++ tr') = foldl (told_step obj) (told obj tr) tr'.
Proof. apply foldl_app. Qed.
Lemma delivered_app tr tr' : delivered (tr ++ tr') = delivered tr ++ delivered tr'.
Proof. apply omap_app. Qed.
Lemma submitted_app tr tr' : submitted (tr ++ tr') = submitted tr ++ submitted tr'.
Proof. apply bind_app. Qed.

(** Calls that say nothing about levels. *)
Definition silent (c : NCall) : bool :=
  match c with NAddDeath _ | NSubmit _ _ | NOnSystemloadLevel _ _ => false | _ => true end.

(** ** The invariant *)

(** What the clients know, in terms of the table, the current level and the trace. *)
Record clients_ok (m : gmap Z NotifierInfo) (cur : Z) (tr : list NCall) : Prop := {
  cl_level pid info : m !! pid = Some info -> level info = default LOW (told (notifier info) tr);
  cl_current pid info : m !! pid = Some info -> is_listening info = true ->
    told (notifier info) tr = None \/ told (notifier info) tr = Some cur;
  cl_distinct p1 p2 i1 i2 : m !! p1 = Some i1 -> m !! p2 = Some i2 -> notifier i1 = notifier i2 -> p1 = p2;
}.

Record notifiers_ok (s : NotifierMgr) : Prop := {
  no_clients : clients_ok (notifierMap_ s) (systemloadLevel_ s) (n_trace s);
  no_queue : exists q, notifierHandler_ s = Some q
    /\ delivered (n_trace s) ++ (q ≫= flat) = submitted (n_trace s);
  no_recipient : notifierDeathRecipient_ s = true;
  no_reports : length (n_delayed s) = (if isTaskSubmit_ s then 1 else 0)%nat;
  no_names : (size (hisyseventBundleNames_ s) < MAX_REPORT_SIZE)%nat;
}.

Section notifier.
Context {K : Type} `{!NotifierHost K} `{!AccessTokenKit K} `{!ApplicationState}.

(** What can happen to the manager while the service runs. *)
Inductive NEvent :=
  | EvRegister (k : K) (caller : Caller) (obj : option Z)
  | EvUnRegister (pid : Z)
  | EvDied (obj : option Z)
  | EvLevel (type newLevel : Z)
  | EvState (state pid : Z)
  | EvRunQueue
  | EvReport.

Definition run_event (e : NEvent) : ST NotifierMgr unit :=
  match e with
  | EvRegister k caller obj => RegisterNotifier k caller (c_pid caller) obj
  | EvUnRegister pid => UnRegisterNotifier pid
  | EvDied obj => OnRemoteNotifierDied obj
  | EvLevel type newLevel => NotifierMgr_OnDeviceLevelChanged type newLevel
  | EvState state pid => NotifierMgr_OnApplicationStateChange state pid
  | EvRunQueue => run_notifier_queue
  | EvReport => run_notifier_report
  end.

(** Two processes do not register the same remote object. *)
Definition own_object (e : NEvent) (s : NotifierMgr) : Prop :=
  match e with
  | EvRegister _ caller (Some obj) =>
      forall pid info, notifierMap_ s !! pid = Some info -> notifier info = obj -> pid = c_pid caller
  | _ => True
  end.

(** A history from one state to another. *)
Inductive n_run : list NEvent -> NotifierMgr -> NotifierMgr -> Prop :=
  | n_run_nil s : n_run [] s s
  | n_run_cons e es s s1 s2 :
      own_object e s -> run_event e s = Some (tt, s1) -> n_run es s1 s2 -> n_run (e :: es) s s2.

(** ** Preservation *)

Lemma clients_silent m cur tr c : silent c = true -> clients_ok m cur tr -> clients_ok m cur (tr ++ [c]).
Proof.
  intros Hc [H1 H2 H3]. assert (Ht : forall o, told o (tr ++ [c]) = told o tr).
  { intros o. rewrite told_app. by destruct c. }
  split; [| |done]; intros pid info Hi; rewrite Ht; eauto.
Qed.

Lemma clients_call m cur tr o l : clients_ok m cur tr -> clients_ok m cur (tr ++ [NOnSystemloadLevel o l]).
Proof.
  intros [H1 H2 H3]. split; [| |done]; intros pid info Hi; rewrite told_app; simpl; eauto.
Qed.

Lemma clients_delete m cur tr pid : clients_ok m cur tr -> clients_ok (delete pid m) cur tr.
Proof.
  intros [H1 H2 H3]. split.
  - intros p i [_ Hi]%lookup_delete_Some. eauto.
  - intros p i [_ Hi]%lookup_delete_Some. eauto.
  - intros p1 p2 i1 i2 [_ Hi1]%lookup_delete_Some [_ Hi2]%lookup_delete_Some. eauto.
Qed.

(** A new client has not been told anything. *)
Lemma clients_register m cur tr pid obj hap :
  clients_ok m cur tr -> m !! pid = None ->
  (forall p i, m !! p = Some i -> notifier i = obj -> p = pid) ->
  clients_ok (<[pid := mkNotifierInfo obj true hap LOW]> m) cur (tr ++ [NAddDeath obj]).
Proof.
  intros [H1 H2 H3] Hnone Hown.
  assert (Hne : forall p i, m !! p = Some i -> notifier i <> obj).
  { intros p i Hi Ho. assert (p = pid) by eauto. congruence. }
  assert (Ht : forall p i, m !! p = Some i -> told (notifier i) (tr ++ [NAddDeath obj]) = told (notifier i) tr).
  { intros p i Hi. rewrite told_app. simpl. rewrite decide_False; [done|]. intros Ho. by apply (Hne p i Hi). }
  assert (Hp : told obj (tr ++ [NAddDeath obj]) = None) by (rewrite told_app; simpl; by rewrite decide_True).
  split.
  - intros p i [[<- <-]|[_ Hi]]%lookup_insert_Some; [simpl; by rewrite Hp|]. rewrite (Ht p i Hi). eauto.
  - intros p i [[<- <-]|[_ Hi]]%lookup_insert_Some; [simpl; rewrite Hp; by left|].
    rewrite (Ht p i Hi). eauto.
  - intros p1 p2 i1 i2 [[<- <-]|[N1 Hi1]]%lookup_insert_Some [[<- <-]|[N2 Hi2]]%lookup_insert_Some Heq;
      [done|..]; simpl in Heq.
    + by destruct (Hne _ _ Hi2).
    + by destruct (Hne _ _ Hi1).
    + eauto.
Qed.

(** The level that every listening client is told. *)
Lemma clients_level m cur tr l :
  clients_ok m cur tr ->
  clients_ok ((fun info => if is_listening info then info <| level := l |> else info) <$> m) l
    (tr ++ [NSubmit ((fun p => notifier p.2) <$> filter (fun p => is_listening p.2 = true) (in_order m)) l]).
Proof.
  intros [H1 H2 H3]. set (objs := _ <$> filter _ _).
  assert (Hin : forall p i, m !! p = Some i -> notifier i ∈ objs <-> is_listening i = true).
  { intros p i Hi. unfold objs. rewrite list_elem_of_fmap. split.
    - intros ([p' i'] & Ho & [Hl Hi']%list_elem_of_filter). apply elem_of_in_order in Hi'. simpl in *.
      assert (p = p') as <- by eauto. congruence.
    - intros Hl. exists (p, i). split; [done|]. apply list_elem_of_filter. by rewrite elem_of_in_order. }
  assert (Ht : forall p i, m !! p = Some i -> told (notifier i) (tr ++ [NSubmit objs l])
    = if is_listening i then Some l else told (notifier i) tr).
  { intros p i Hi. rewrite told_app. simpl. destruct (is_listening i) eqn:El.
    - rewrite decide_True; [done|]. by apply (Hin p i Hi).
    - rewrite decide_False; [done|]. rewrite (Hin p i Hi). congruence. }
  assert (Hlook : forall p i, ((fun info => if is_listening info then info <| level := l |> else info) <$> m) !! p
      = Some i -> exists i0, m !! p = Some i0 /\ notifier i = notifier i0 /\ is_listening i = is_listening i0
        /\ level i = if is_listening i0 then l else level i0).
  { intros p i. rewrite lookup_fmap. destruct (m !! p) as [i0|]; [|done]. simpl. intros [= <-].
    exists i0. by destruct (is_listening i0) eqn:El. }
  split.
  - intros p i (i0 & Hi & Hn & Hl & ->)%Hlook. rewrite Hn, (Ht p i0 Hi).
    destruct (is_listening i0); [done|]. eauto.
  - intros p i (i0 & Hi & Hn & Hl & _)%Hlook. rewrite Hn, (Ht p i0 Hi), Hl. intros ->. by right.
  - intros p1 p2 i1 i2 (j1 & Hj1 & -> & _)%Hlook (j2 & Hj2 & -> & _)%Hlook. eauto.
Qed.

(** A client that is looked at again is told the level when it is behind. *)
Lemma clients_tell m cur tr pid info :
  clients_ok m cur tr -> m !! pid = Some info ->
  clients_ok (<[pid := info <| foreground := true |> <| level := cur |>]> m) cur
    (tr ++ (if cur =? level info then [] else [NSubmit [notifier info] cur])).
Proof.
  intros [H1 H2 H3] Hi. set (tr' := if _ : bool then _ else _).
  assert (Ho : forall p i, m !! p = Some i -> p <> pid -> told (notifier i) (tr ++ tr') = told (notifier i) tr).
  { intros p i Hp Hne. rewrite told_app. unfold tr'. case_match; [done|]. simpl.
    rewrite decide_False; [done|]. rewrite list_elem_of_singleton. intros Heq. apply Hne. eauto. }
  assert (Hs : default LOW (told (notifier info) (tr ++ tr')) = cur
               /\ (told (notifier info) (tr ++ tr') = None \/ told (notifier info) (tr ++ tr') = Some cur)).
  { rewrite told_app. unfold tr'. destruct (Z.eqb_spec cur (level info)) as [E|E]; simpl.
    - rewrite E, (H1 _ _ Hi). destruct (told (notifier info) tr); auto.
    - rewrite decide_True by by apply list_elem_of_singleton. auto. }
  split.
  - intros p i [[<- <-]|[Hne Hp]]%lookup_insert_Some; [simpl; by destruct Hs as [-> _]|].
    rewrite (Ho p i); eauto.
  - intros p i [[<- <-]|[Hne Hp]]%lookup_insert_Some; [simpl; by destruct Hs|].
    rewrite (Ho p i); eauto.
  - intros p1 p2 i1 i2 [[<- <-]|[N1 Hi1]]%lookup_insert_Some [[<- <-]|[N2 Hi2]]%lookup_insert_Some Heq;
      simpl in Heq; eauto.
Qed.

(** A client that leaves the foreground. *)
Lemma clients_leave m cur tr pid info :
  clients_ok m cur tr -> m !! pid = Some info -> hapApp info = true ->
  clients_ok (<[pid := info <| foreground := false |>]> m) cur tr.
Proof.
  intros [H1 H2 H3] Hi Hh. split.
  - intros p i [[<- <-]|[Hne Hp]]%lookup_insert_Some; simpl; eauto.
  - intros p i [[<- <-]|[Hne Hp]]%lookup_insert_Some; simpl; [|eauto].
    unfold is_listening. simpl. by rewrite Hh.
  - intros p1 p2 i1 i2 [[<- <-]|[N1 Hi1]]%lookup_insert_Some [[<- <-]|[N2 Hi2]]%lookup_insert_Some Heq;
      simpl in Heq; eauto.
Qed.

(** ** Each event *)

Lemma no_names_left : (size (∅ : gset string) < MAX_REPORT_SIZE)%nat.
Proof. apply Nat.ltb_lt. reflexivity. Qed.

(** A call without levels, with changes outside the table. *)
Lemma ok_silent s c :
  silent c = true -> notifiers_ok s -> notifiers_ok (s <| n_trace ::= fun l => l ++ [c] |>).
Proof.
  intros Hc [N1 (q & Hq & Hd) N3 N4 N5]. split; try done; simpl.
  - by apply clients_silent.
  - exists q. split; [done|]. rewrite delivered_app, submitted_app, <- Hd.
    by destruct c; simpl; rewrite ?app_nil_r.
Qed.

Lemma ok_report s : notifiers_ok s ->
  exists s', NotifierEventReport s = Some (tt, s') /\ notifiers_ok s'
    /\ n_delayed s' = n_delayed s /\ isTaskSubmit_ s' = isTaskSubmit_ s.
Proof.
  intros Hs. unfold NotifierEventReport. rewrite run_get_bind.
  assert (Hend : forall s, notifiers_ok s -> notifiers_ok (s <| hisyseventBundleNames_ := ∅ |>)).
  { intros s0 [N1 N2 N3 N4 N5]. split; try done. apply no_names_left. }
  case_bool_decide; cbn [st_when].
  - eexists. split_and!; [done|apply Hend; by apply ok_silent|done|done].
  - eexists. split_and!; [done|by apply Hend|done|done].
Qed.

Lemma ok_pid k pid s : notifiers_ok s ->
  exists s', ReportPidToHisysevent k pid s = Some (tt, s') /\ notifiers_ok s'.
Proof.
  intros Hs. unfold ReportPidToHisysevent. cbv zeta. case_match; [by exists s|].
  set (b := nh_GetBundleNameByPid pid k).
  set (s1 := s <| hisyseventBundleNames_ ::= union {[ b ]} |>).
  set (s2 := if isTaskSubmit_ s then s1
             else s1 <| n_delayed ::= fun l => l ++ [FIRST_REPORT_DELAY_MS] |> <| isTaskSubmit_ := true |>).
  assert (Hsize : (size ({[ b ]} ∪ hisyseventBundleNames_ s) <= S (size (hisyseventBundleNames_ s)))%nat).
  { rewrite size_union_alt, size_singleton. pose proof (subseteq_size (hisyseventBundleNames_ s ∖ {[b]})
      (hisyseventBundleNames_ s) ltac:(set_solver)). lia. }
  assert (H2 : forall X, (size X < MAX_REPORT_SIZE)%nat -> notifiers_ok (s2 <| hisyseventBundleNames_ := X |>)).
  { intros X HX. unfold s2. destruct Hs as [N1 N2 N3 N4 N5]. destruct (isTaskSubmit_ s) eqn:E; split; try done; simpl.
    - by rewrite E.
    - rewrite length_app, N4. done. }
  assert (Hrun : forall Q, (exists s', (s ← st_get; st_when (bool_decide
      (MAX_REPORT_SIZE <= size (hisyseventBundleNames_ s))%nat) NotifierEventReport) s2 = Some (tt, s') /\ Q s') ->
    exists s', (st_modify (fun s => s <| hisyseventBundleNames_ ::= union {[ b ]} |>);;
      s ← st_get;
      st_when (negb (isTaskSubmit_ s))
        (NotifierEventReportDelay FIRST_REPORT_DELAY_MS;; st_modify (fun s => s <| isTaskSubmit_ := true |>));;
      s ← st_get;
      st_when (bool_decide (MAX_REPORT_SIZE <= size (hisyseventBundleNames_ s))%nat) NotifierEventReport) s
      = Some (tt, s') /\ Q s').
  { intros Q (s' & E & HQ). exists s'. split; [|done]. rewrite <- E. unfold s2, s1.
    unfold mbind, ST_bind, st_modify, st_get. simpl. by destruct (isTaskSubmit_ s). }
  apply Hrun. rewrite run_get_bind.
  assert (Hn : hisyseventBundleNames_ s2 = {[ b ]} ∪ hisyseventBundleNames_ s) by (unfold s2; by destruct (isTaskSubmit_ s)).
  rewrite Hn. destruct (decide (MAX_REPORT_SIZE <= size ({[ b ]} ∪ hisyseventBundleNames_ s))%nat) as [Hl|Hl];
    [rewrite bool_decide_true by done|rewrite bool_decide_false by done]; cbn [st_when].
  - unfold NotifierEventReport. rewrite run_get_bind. rewrite Hn. rewrite bool_decide_true by set_solver.
    cbn [st_when]. eexists. split; [done|].
    pose proof (ok_silent (s2 <| hisyseventBundleNames_ := ∅ |>)
      (NHiSysEvent (merge_sort strings.String.le (elements ({[b]} ∪ hisyseventBundleNames_ s)))) eq_refl) as Hk.
    apply Hk, H2, no_names_left.
  - exists s2. split; [done|]. replace s2 with (s2 <| hisyseventBundleNames_ := {[ b ]} ∪ hisyseventBundleNames_ s |>).
    + apply H2. lia.
    + unfold s2. by destruct (isTaskSubmit_ s).
Qed.

Lemma ok_register k caller obj s :
  notifiers_ok s -> own_object (EvRegister k caller obj) s ->
  exists s', RegisterNotifier k caller (c_pid caller) obj s = Some (tt, s') /\ notifiers_ok s'.
Proof.
  intros Hs Hown. unfold RegisterNotifier. destruct obj as [obj|]; [|by exists s].
  rewrite run_get_bind, (no_recipient _ Hs). cbn [negb]. case_bool_decide as Hnone; cbn [st_when].
  - set (s1 := s <| notifierMap_ ::= <[c_pid caller := mkNotifierInfo obj true (IsHapApp k caller) LOW]> |>
                 <| n_trace ::= fun l => l ++ [NAddDeath obj] |>).
    destruct (ok_pid k (c_pid caller) s1) as (s' & E & Hs').
    { destruct Hs as [N1 (q & Hq & Hd) N3 N4 N5]. split; try done; simpl.
      - apply clients_register; eauto.
      - exists q. split; [done|]. rewrite delivered_app, submitted_app, <- Hd. simpl. by rewrite !app_nil_r. }
    exists s'. split; [exact E | exact Hs'].
  - destruct (ok_pid k (c_pid caller) s Hs) as (s' & E & Hs'). exists s'. split; [exact E | exact Hs'].
Qed.

Lemma ok_remove pid o s :
  notifiers_ok s ->
  notifiers_ok (s <| n_trace ::= fun l => l ++ [NRemoveDeath o] |> <| notifierMap_ ::= delete pid |>).
Proof.
  intros Hs. apply (ok_silent _ (NRemoveDeath o)) in Hs; [|done].
  destruct Hs as [N1 N2 N3 N4 N5]. split; try done. by apply clients_delete.
Qed.

Lemma ok_unregister pid s :
  notifiers_ok s -> exists s', UnRegisterNotifier pid s = Some (tt, s') /\ notifiers_ok s'.
Proof.
  intros Hs. unfold UnRegisterNotifier. rewrite run_get_bind.
  destruct (notifierMap_ s !! pid) as [info|]; [|by exists s].
  eexists. split; [done|]. by apply ok_remove.
Qed.

Lemma ok_died obj s :
  notifiers_ok s -> exists s', OnRemoteNotifierDied obj s = Some (tt, s') /\ notifiers_ok s'.
Proof.
  intros Hs. unfold OnRemoteNotifierDied, RemoveNotifierLock. destruct obj as [obj|]; [|by exists s].
  rewrite run_get_bind. destruct (head _) as [p|]; [|by exists s].
  eexists. split; [done|]. by apply ok_remove.
Qed.

(** Handing a level to the queue. *)
Lemma ok_submit s m cur objs l :
  notifiers_ok s -> clients_ok m cur (n_trace s ++ [NSubmit objs l]) ->
  exists s', HandleDeviceLevelChange objs l (s <| notifierMap_ := m |> <| systemloadLevel_ := cur |>) = Some (tt, s')
    /\ notifiers_ok s' /\ notifierMap_ s' = m /\ systemloadLevel_ s' = cur
    /\ n_trace s' = n_trace s ++ [NSubmit objs l].
Proof.
  intros [N1 (q & Hq & Hd) N3 N4 N5] Hc. unfold HandleDeviceLevelChange. rewrite run_get_bind.
  unfold mbind at 1, ST_bind at 1. simpl. rewrite Hq. simpl.
  eexists. split; [done|]. split; [|done]. split; try done; simpl.
  exists (q ++ [(objs, l)]). split; [done|].
  rewrite delivered_app, submitted_app, bind_app, <- Hd. simpl. by rewrite !app_nil_r, app_assoc.
Qed.

Lemma save_level s :
  exists tr, st_iter (fun vec => s ← st_get;
    st_when (systemloadLevel_ s =? vec.2) (n_record (NSave SYSTEMLOAD_FILE vec.1))) g_systemloadPair s
    = Some (tt, s <| n_trace := n_trace s ++ tr |>) /\ Forall (fun c => silent c = true) tr.
Proof.
  generalize g_systemloadPair as l. intros l. revert s. induction l as [|v l IH]; intros s.
  - exists []. split; [|done]. simpl. rewrite app_nil_r. by destruct s.
  - cbn [st_iter]. destruct (systemloadLevel_ s =? v.2) eqn:E.
    + set (s1 := s <| n_trace ::= fun l => l ++ [NSave SYSTEMLOAD_FILE v.1] |>).
      destruct (IH s1) as (tr & E1 & Htr). exists (NSave SYSTEMLOAD_FILE v.1 :: tr). split; [|by constructor].
      rewrite (run_bind _ _ s tt s1); [|by rewrite run_get_bind, E]. rewrite E1. simpl. by rewrite <- app_assoc.
    + destruct (IH s) as (tr & E1 & Htr). exists tr. split; [|done].
      rewrite (run_bind _ _ s tt s); [done|]. by rewrite run_get_bind, E.
Qed.

Lemma ok_silents tr s :
  Forall (fun c => silent c = true) tr -> notifiers_ok s -> notifiers_ok (s <| n_trace := n_trace s ++ tr |>).
Proof.
  intros Htr. revert s. induction Htr as [|c tr Hc _ IH]; intros s Hs.
  - rewrite app_nil_r. by destruct s.
  - specialize (IH (s <| n_trace ::= fun l => l ++ [c] |>) (ok_silent _ _ Hc Hs)).
    simpl in IH. rewrite <- app_assoc in IH. exact IH.
Qed.

Lemma ok_level type newLevel s :
  notifiers_ok s ->
  exists s', NotifierMgr_OnDeviceLevelChanged type newLevel s = Some (tt, s') /\ notifiers_ok s'
    /\ systemloadLevel_ s' = (if bool_decide (g_DeviceStatusType !! type = None)
                                 || ((newLevel <? LOW) || (newLevel >? ESCAPE)) then systemloadLevel_ s else newLevel).
Proof.
  intros Hs. unfold NotifierMgr_OnDeviceLevelChanged.
  destruct (bool_decide _); [by exists s|]. destruct (_ || _); [by exists s|]. cbn [orb].
  destruct (save_level (s <| systemloadLevel_ := newLevel |>)) as (tr & E & Htr).
  rewrite (run_bind _ _ _ tt (s <| systemloadLevel_ := newLevel |>)) by done.
  rewrite (run_bind _ _ _ _ _ E), run_get_bind. simpl.
  apply (ok_silents tr) in Hs; [|done]. set (s0 := s <| n_trace := n_trace s ++ tr |>) in *.
  destruct (no_queue _ Hs) as (q & Hq & _). change (notifierHandler_ s) with (notifierHandler_ s0).
  rewrite Hq, bool_decide_false by done.
  destruct (ok_submit s0 _ _ _ _ Hs (clients_level _ _ _ newLevel (no_clients _ Hs))) as (s' & E' & Hs' & _ & Hl & _).
  exists s'. split; [|done]. unfold OnDeviceLevelChangedLock. rewrite run_get_bind. exact E'.
Qed.

Lemma alter_as_insert {A} (f : A -> A) (m : gmap Z A) i x : m !! i = Some x -> alter f i m = <[i := f x]> m.
Proof.
  intros Hi. apply map_eq. intros j. destruct (decide (i = j)) as [<-|Hne].
  - rewrite lookup_insert_eq, lookup_alter_eq. by rewrite Hi.
  - by rewrite lookup_insert_ne, lookup_alter_ne.
Qed.

Lemma ok_foreground pid info s :
  notifiers_ok s -> notifierMap_ s !! pid = Some info -> hapApp info = true ->
  exists s' info', (st_modify (fun s => s <| notifierMap_ ::= alter (fun i => i <| foreground := true |>) pid |>);;
     s ← st_get;
     st_when (negb (systemloadLevel_ s =? level info))
       (st_modify (fun s => s <| notifierMap_ ::= alter (fun i => i <| level := systemloadLevel_ s |>) pid |>);;
        HandleDeviceLevelChange [notifier info] (systemloadLevel_ s))) s = Some (tt, s')
    /\ notifiers_ok s' /\ notifierMap_ s' !! pid = Some info' /\ hapApp info' = true.
Proof.
  intros Hs Hi Hh. pose proof (clients_tell _ _ _ _ _ (no_clients _ Hs) Hi) as Ht.
  set (m := <[pid := _]> _) in Ht.
  rewrite (run_bind _ _ _ tt (s <| notifierMap_ ::= alter (fun i => i <| foreground := true |>) pid |>)) by done.
  rewrite run_get_bind. simpl. destruct (Z.eqb_spec (systemloadLevel_ s) (level info)) as [E|E]; cbn [negb st_when].
  - eexists _, (info <| foreground := true |>). split; [done|]. split_and!; [| |done].
    + destruct Hs as [N1 N2 N3 N4 N5]. split; try done. simpl. rewrite (alter_as_insert _ _ _ _ Hi).
      rewrite app_nil_r in Ht.
      replace (info <| foreground := true |>)
        with (info <| foreground := true |> <| level := systemloadLevel_ s |>); [exact Ht|].
      rewrite E. by destruct info.
    + simpl. by rewrite lookup_alter_eq, Hi.
  - destruct (ok_submit s m (systemloadLevel_ s) [notifier info] (systemloadLevel_ s) Hs Ht)
      as (s' & E' & Hs' & Hm & _).
    exists s', (info <| foreground := true |> <| level := systemloadLevel_ s |>).
    split_and!; [|done|rewrite Hm; apply lookup_insert_eq|done].
    set (s1 := s <| notifierMap_ ::= alter (fun i => i <| foreground := true |>) pid |>).
    assert (Hst : s1 <| notifierMap_ ::= alter (fun i => i <| level := systemloadLevel_ s |>) pid |>
      = s <| notifierMap_ := m |> <| systemloadLevel_ := systemloadLevel_ s |>).
    { unfold s1, m. destruct s as [? ? mp ? ? ? ? ? ?]. cbn in *. unfold over. f_equal. cbn.
      rewrite (alter_as_insert _ mp _ _ Hi).
      by rewrite (alter_as_insert _ (<[pid := _]> mp) _ _ (lookup_insert_eq _ _ _)), insert_insert_eq. }
    rewrite (run_bind _ _ _ tt (s1 <| notifierMap_ ::= alter (fun i => i <| level := systemloadLevel_ s |>) pid |>))
      by done.
    by rewrite Hst.
Qed.

Lemma ok_state state pid s :
  notifiers_ok s -> exists s', NotifierMgr_OnApplicationStateChange state pid s = Some (tt, s') /\ notifiers_ok s'.
Proof.
  intros Hs. unfold NotifierMgr_OnApplicationStateChange. rewrite run_get_bind.
  destruct (notifierMap_ s !! pid) as [info|] eqn:Hi; [|by exists s].
  destruct (hapApp info) eqn:Hh; cbn [negb]; [|by exists s].
  assert (exists s1 info1, st_when (state =? AS_FOREGROUND)
    (st_modify (fun s => s <| notifierMap_ ::= alter (fun i => i <| foreground := true |>) pid |>);;
     s ← st_get;
     st_when (negb (systemloadLevel_ s =? level info))
       (st_modify (fun s => s <| notifierMap_ ::= alter (fun i => i <| level := systemloadLevel_ s |>) pid |>);;
        HandleDeviceLevelChange [notifier info] (systemloadLevel_ s))) s = Some (tt, s1)
    /\ notifiers_ok s1 /\ notifierMap_ s1 !! pid = Some info1 /\ hapApp info1 = true)
    as (s1 & info1 & E1 & Hs1 & Hi1 & Hh1).
  { destruct (state =? AS_FOREGROUND); cbn [st_when]; [|by exists s, info]. by apply ok_foreground. }
  rewrite (run_bind _ _ _ _ _ E1). destruct (state_leaves state); cbn [st_when]; [|by exists s1].
  eexists. split; [done|]. pose proof (clients_leave _ _ _ _ _ (no_clients _ Hs1) Hi1 Hh1) as Hc.
  destruct Hs1 as [N1 N2 N3 N4 N5]. split; try done. simpl. by rewrite (alter_as_insert _ _ _ _ Hi1).
Qed.

Lemma ok_run_queue s :
  notifiers_ok s -> exists s', run_notifier_queue s = Some (tt, s') /\ notifiers_ok s'.
Proof.
  intros Hs. unfold run_notifier_queue. rewrite run_get_bind. destruct (no_queue _ Hs) as (q & Hq & Hd). rewrite Hq.
  destruct q as [|[objs l] q]; [by exists s|].
  rewrite (run_bind _ _ _ tt (s <| notifierHandler_ := Some q |>)) by done.
  assert (Hpre : clients_ok (notifierMap_ s) (systemloadLevel_ s) (n_trace s)
    /\ delivered (n_trace s) ++ flat (objs, l) ++ (q ≫= flat) = submitted (n_trace s)).
  { split; [apply Hs|exact Hd]. }
  destruct Hs as [_ _ N3 N4 N5]. revert Hpre. clear Hq Hd.
  assert (Hgen : forall tr, clients_ok (notifierMap_ s) (systemloadLevel_ s) tr ->
    delivered tr ++ flat (objs, l) ++ (q ≫= flat) = submitted tr ->
    exists s', st_iter (fun obj => n_record (NOnSystemloadLevel obj l)) objs
      (s <| notifierHandler_ := Some q |> <| n_trace := tr |>) = Some (tt, s') /\ notifiers_ok s').
  { induction objs as [|o objs IH]; intros tr Hc Hd.
    - eexists. split; [done|]. split; try done. by exists q.
    - destruct (IH (tr ++ [NOnSystemloadLevel o l])) as (s' & E & Hs').
      + by apply clients_call.
      + rewrite delivered_app, submitted_app, <- Hd. simpl. by rewrite app_nil_r, <- app_assoc.
      + exists s'. split; [|done]. exact E. }
  intros [Hc Hd]. destruct (Hgen _ Hc Hd) as (s' & E & Hs'). exists s'. split; [|done].
  rewrite <- E. by destruct s.
Qed.

Lemma ok_run_report s :
  notifiers_ok s -> exists s', run_notifier_report s = Some (tt, s') /\ notifiers_ok s'.
Proof.
  intros Hs. unfold run_notifier_report. rewrite run_get_bind. destruct (n_delayed s) as [|d l] eqn:El; [by exists s|].
  pose proof (no_reports _ Hs) as Hr. rewrite El in Hr. destruct (isTaskSubmit_ s) eqn:Et; [|done].
  destruct l; [|done]. destruct (ok_report s Hs) as (s1 & E & Hs1 & Hd1 & Ht1).
  assert (E' : NotifierEventReport (s <| n_delayed := [] |>) = Some (tt, s1 <| n_delayed := [] |>)).
  { revert E. unfold NotifierEventReport. rewrite !run_get_bind. simpl. case_bool_decide; by intros [= <-]. }
  rewrite (run_bind _ _ _ tt (s <| n_delayed := [] |>)) by done. unfold NotifierEventReportPeriod.
  rewrite (run_bind _ _ _ _ _ E'). eexists. split; [done|].
  destruct Hs1 as [N1 N2 N3 N4 N5]. split; try done. simpl. by rewrite Ht1, Et.
Qed.

(** Every event is answered and keeps the invariant. *)
Lemma ok_event e s :
  notifiers_ok s -> own_object e s -> exists s', run_event e s = Some (tt, s') /\ notifiers_ok s'.
Proof.
  intros Hs Ho. destruct e as [k caller obj|pid|obj|type l|state pid| |]; simpl.
  - by apply ok_register.
  - by apply ok_unregister.
  - by apply ok_died.
  - destruct (ok_level type l s Hs) as (s' & E & Hs' & _). eauto.
  - by apply ok_state.
  - by apply ok_run_queue.
  - by apply ok_run_report.
Qed.

Lemma ok_run es s s' : n_run es s s' -> notifiers_ok s -> notifiers_ok s'.
Proof.
  induction 1 as [|e es s s1 s2 Ho E _ IH]; [done|]. intros Hs. apply IH.
  destruct (ok_event e s Hs Ho) as (s1' & E' & Hs1). congruence.
Qed.

Lemma ok_init k :
  exists s, NotifierMgr_Init k new_NotifierMgr = Some (tt, s) /\ notifiers_ok s.
Proof.
  unfold NotifierMgr_Init. rewrite run_get_bind. cbn [n_initialized_ new_NotifierMgr].
  assert (Hfresh : forall l, notifiers_ok (mkNotifierMgr true false ∅ ∅ l true (Some []) [] [])).
  { intros l. split; try done; [by exists []|apply no_names_left]. }
  unfold mbind, ST_bind, st_modify. destruct (nh_LoadStringFromFile SYSTEMLOAD_FILE k) as [text|].
  2:{ eexists. split; [done|apply Hfresh]. }
  assert (Hgen : forall l lvl, exists cur,
    st_iter (fun vec => st_when (bool_decide (vec.1 = text))
        (fun s => Some (tt, s <| systemloadLevel_ := vec.2 |>))) l
        (mkNotifierMgr false false ∅ ∅ lvl true (Some []) [] [])
      = Some (tt, mkNotifierMgr false false ∅ ∅ cur true (Some []) [] [])).
  { induction l as [|v l IH]; intros lvl; [by eexists|].
    cbn [st_iter]. unfold mbind, ST_bind.
    destruct (bool_decide (v.1 = text)); cbn [st_when]; apply IH. }
  destruct (Hgen g_systemloadPair LOW) as (cur & E).
  eexists. split; [|apply (Hfresh cur)].
  change (new_NotifierMgr <| notifierDeathRecipient_ := true |> <| notifierHandler_ := Some [] |>)
    with (mkNotifierMgr false false ∅ ∅ LOW true (Some []) [] []).
  by rewrite E.
Qed.

(** C16: What clients know about the system load. From the start of the manager until its
    stop, after any history of events in which no two processes share a remote object, every
    further such event is answered, and for each registered client: its record holds the level
    it was told last (or the lowest one when it was told none since it registered); and unless
    it is an application in the background, it was told the current level last or was told
    none yet. A client that registers is not told the level until it changes. The calls made
    so far, followed by those that wait in the queue, are all that were submitted, in order;
    and one report of the clients is pending once a client was named. After the stop an
    application that comes to the foreground would follow a null pointer
    (notifier_mgr.cpp:342). *)
Theorem clients_know_the_level k es s0 s :
  NotifierMgr_Init k new_NotifierMgr = Some (tt, s0) -> n_run es s0 s ->
  (forall pid info, notifierMap_ s !! pid = Some info ->
     level info = default LOW (told (notifier info) (n_trace s))
     /\ (hapApp info = false \/ foreground info = true ->
          told (notifier info) (n_trace s) = None \/ told (notifier info) (n_trace s) = Some (systemloadLevel_ s)))
  /\ (exists q, notifierHandler_ s = Some q /\ delivered (n_trace s) ++ (q ≫= flat) = submitted (n_trace s))
  /\ length (n_delayed s) = (if isTaskSubmit_ s then 1 else 0)%nat
  /\ (forall e, own_object e s -> exists s', run_event e s = Some (tt, s')).
Proof.
  intros E0 Hrun. destruct (ok_init k) as (s0' & E & Hs0). rewrite E in E0. injection E0 as <-.
  pose proof (ok_run _ _ _ Hrun Hs0) as Hs. split_and!.
  - intros pid info Hi. destruct (no_clients _ Hs) as [C1 C2 _]. split; [eauto|].
    intros Hl. apply (C2 _ _ Hi). unfold is_listening. by destruct (hapApp info), (foreground info), Hl.
  - apply Hs.
  - apply Hs.
  - intros e Ho. destruct (ok_event e s Hs Ho) as (s' & E' & _). eauto.
Qed.
End notifier.

(** A native service and an application register; the application leaves to the background,
    the level rises, the application comes back and the queue runs. *)
Definition demo_history : list (NEvent (K := Z)) :=
  [EvRegister 0 (mkCaller 555 1003 3 3) (Some 7);
   EvRegister 0 (mkCaller 100 20010001 1 1) (Some 8);
   EvState AS_BACKGROUND 100;
   EvLevel SYSTEMLOAD_LEVEL MEDIUM;
   EvRunQueue;
   EvState AS_FOREGROUND 100;
   EvRunQueue].

Definition demo_notifiers (n : nat) : NotifierMgr :=
  default new_NotifierMgr (snd <$>
    foldl (fun o e => match o with Some (_, s) => run_event e s | None => None end)
      (NotifierMgr_Init 0 new_NotifierMgr) (take n demo_history)).

Lemma demo_notifiers_run : n_run demo_history (demo_notifiers 0) (demo_notifiers 7).
Proof.
  apply (n_run_cons _ _ _ (demo_notifiers 1)); [|vm_compute; reflexivity|].
  { intros pid info. change (notifierMap_ (demo_notifiers 0)) with (∅ : gmap Z NotifierInfo).
    by rewrite lookup_empty. }
  apply (n_run_cons _ _ _ (demo_notifiers 2)); [|vm_compute; reflexivity|].
  { intros pid info. change (notifierMap_ (demo_notifiers 1)) with ({[ 555 := mkNotifierInfo 7 true false LOW ]} : gmap Z NotifierInfo).
    intros [_ <-]%lookup_singleton_Some. done. }
  apply (n_run_cons _ _ _ (demo_notifiers 3)); [done|vm_compute; reflexivity|].
  apply (n_run_cons _ _ _ (demo_notifiers 4)); [done|vm_compute; reflexivity|].
  apply (n_run_cons _ _ _ (demo_notifiers 5)); [done|vm_compute; reflexivity|].
  apply (n_run_cons _ _ _ (demo_notifiers 6)); [done|vm_compute; reflexivity|].
  apply (n_run_cons _ _ _ (demo_notifiers 7)); [done|vm_compute; reflexivity|].
  constructor.
Qed.

Lemma clients_know_the_level_witness :
  (forall pid info, notifierMap_ (demo_notifiers 7) !! pid = Some info ->
     level info = default LOW (told (notifier info) (n_trace (demo_notifiers 7)))
     /\ (hapApp info = false \/ foreground info = true ->
          told (notifier info) (n_trace (demo_notifiers 7)) = None
          \/ told (notifier info) (n_trace (demo_notifiers 7)) = Some (systemloadLevel_ (demo_notifiers 7))))
  /\ length (n_trace (demo_notifiers 7)) = 7%nat.
Proof.
  destruct (clients_know_the_level 0 demo_history (demo_notifiers 0) (demo_notifiers 7)) as (H1 & _);
    [vm_compute; reflexivity|apply demo_notifiers_run|].
  split; [exact H1|vm_compute; reflexivity].
Defined.
