(* ===== verification/SceneRecognizer.v ===== *)
(** * Scene recognizers

    The state of [scene_recognize/src]: [SceneRecognizerMgr] with its queue, the four
    recognizers and their delayed tasks, and the three small recognizers: continuous
    installation, first start after a system upgrade, background sensitive tasks.  What a
    recognizer reports to the service is recorded in [sc_calls]; no report gives a result, and
    the service carries the calls out in their order.  Time is not modelled: a delayed task may
    come due at any moment after it was submitted.  Mutexes are not modelled: a task runs to
    its end. *)
From Stdlib Require Import SpecFloat.
From S2P Require Import Prelude Json ResType CommonUtil PluginConfig PluginMgr.

(** Values of [res_value.h] used here. *)
Definition APP_INSTALL_END : Z := 1. (* res_value.h:151 *)
Definition APP_CHANGED : Z := 2. (* res_value.h:152 *)
Definition APP_INSTALL_START : Z := 6. (* res_value.h:156 *)
Definition PROCESS_FOREGROUND : Z := 2. (* res_value.h:173 *)
Definition SLIDE_EVENT_DETECTING : Z := 2. (* res_value.h:239 *)
Definition AXIS_EVENT_END : Z := 1. (* res_value.h:253 *)
Definition TOUCH_EVENT_PULL_UP : Z := 4. (* res_value.h:266 *)
Definition START_CONTINUOUS_INSTALL : Z := 0. (* res_value.h:702 *)
Definition STOP_CONTINUOUS_INSTALL : Z := 1. (* res_value.h:703 *)
Definition PERCEIVABLE_START : Z := 0. (* res_value.h:715 *)
Definition PERCEIVABLE_STOP : Z := 1. (* res_value.h:716 *)
Definition EVENT_DRAW_FRAME_REPORT : Z := 1. (* res_value.h:42 *)
Definition EVENT_VALUE_DRAW_FRAME_REPORT_START : Z := 1. (* res_value.h:71 *)
Definition EVENT_VALUE_DRAW_FRAME_REPORT_STOP : Z := 2. (* res_value.h:72 *)

(** scene_recognizer_mgr.h:31-38 [RecognizeType] *)
Inductive RecognizeType :=
  | CONTINUOUS_APP_INSTALL_RECOGNIZER
  | SYSTEM_UPGRADE_SCENE_RECOGNIZER
  | BACKGROUND_SENSITIVE_TASK_OVERLAPPING_SCENE_RECOGNIZER
  | SLIDE_RECOGNIZER.
#[export] Instance RecognizeType_eq : EqDecision RecognizeType.
Proof. solve_decision. Defined.

Definition EXIT_INSTALL_DELAY_TIME : Z := 50 * 1000 * 1000. (* continuous_app_install_recognizer.cpp:25 *)
Definition OLD_SYSTEM_FINGERPRINT_PATH : string := "/data/service/el1/public/ressched/device_version". (* system_upgrade_scene_recognizer.cpp:31 *)
Definition SEPARATOR : string := "|". (* system_upgrade_scene_recognizer.cpp:32 *)
(** system_upgrade_scene_recognizer.cpp:33-40 [FINGERPRINTS] *)
Definition FINGERPRINTS : list string :=
  ["const.product.software.version"; "const.product.build.type"; "const.product.brand";
   "const.product.name"; "const.product.incremental.version";
   "const.comp.hl.product_base_version.real"].
Definition PID_MIN : Z := -1. (* background_sensitive_task_overlapping_scene_recognizer.cpp:30 *)
Definition PID_MAX : Z := 2 ^ 31 - 1. (* background_sensitive_task_overlapping_scene_recognizer.cpp:31 *)
Definition PID_KEY : string := "pid". (* background_sensitive_task_overlapping_scene_recognizer.cpp:32 *)
Definition TYPE_IDS_KEY : string := "typeIds". (* background_sensitive_task_overlapping_scene_recognizer.cpp:33 *)

Definition DEFAULT_LIST_FLING_TIME_OUT_TIME : Z := 3 * 1000 * 1000. (* slide_recognizer_proxy.h:37 *)
Definition DEFAULT_LIST_FLING_END_TIME : Z := 150 * 1000. (* slide_recognizer_proxy.h:38 *)
(** A number in single precision. *)
Definition float_of_Z (z : Z) : spec_float := binary_normalize 24 128 z 0 false.
Definition DEFAULT_LIST_FLING_SPEED_LIMIT : spec_float := float_of_Z 3. (* slide_recognizer_proxy.h:39 *)
Definition DEFAULT_SCREEN_ID : Z := 0. (* slide_recognizer_proxy.h:40 *)
Definition MAX_INSTANCE_COUNT : nat := 10. (* slide_recognizer_proxy.h:67 *)

(** slide_recognizer_proxy.h:28-35 [SlideRecognizeStat] *)
Inductive SlideRecognizeStat := IDLE | SLIDE_NORMAL_DETECTING | SLIDE_NORMAL | LIST_FLING.
#[export] Instance SlideRecognizeStat_eq : EqDecision SlideRecognizeStat.
Proof. solve_decision. Defined.

(** [BackgroundMode::Type] of the background task manager, another repository. *)
Class BackgroundMode := {
  BM_DATA_TRANSFER : Z;
  BM_AUDIO_PLAYBACK : Z;
  BM_LOCATION : Z;
  BM_MULTI_DEVICE_CONNECTION : Z;
  BM_VOIP : Z;
  BM_END : Z;
}.

(** The outside of the recognizers: files, system parameters, the display manager, the clock
    in milliseconds; the conversion [get<uint32_t>()] of the JSON library, empty when it throws;
    [StrToInt] of the common library of the system, and [strtof] of the C library, with the
    number, whether it is out of range, and the rest of the text, empty without a number. *)
Class SceneHost (J K : Type) := {
  sch_LoadStringFromFile : string -> K -> string;
  sch_GetParameter : string -> K -> string;
  sch_ConvertScreenIdToRsScreenId : Z -> K -> option Z;
  sch_GetNowMillTime : K -> Z;
  sch_get_u32 : J -> option Z;
  sch_StrToInt : string -> option Z;
  sch_strtof : string -> option (spec_float * bool * string);
}.

(** What a recognizer does to the outside. *)
Inductive SceneCall (J : Type) :=
  | CReportData (resType value : Z) (payload : J)
  | CSendEvent (eventType eventValue : Z) (extInfo : J)
  | CSaveStringToFile (path text : string)
  | CReportFileSize (path : string).
Arguments CReportData {_}.
Arguments CSendEvent {_}.
Arguments CSaveStringToFile {_}.
Arguments CReportFileSize {_}.

(** continuous_app_install_recognizer.h:31-32 [exitAppInstall_] the members; a task handle is a
    number *)
Record ContinuousAppInstallRecognizer := mkInstallRecognizer {
  exitAppInstall_ : option nat;
  isInContinuousInstall_ : bool;
}.
#[export] Instance ContinuousAppInstallRecognizer_eta : Eta ContinuousAppInstallRecognizer := fun r =>
  mkInstallRecognizer (exitAppInstall_ r) (isInContinuousInstall_ r).

(** background_sensitive_task_overlapping_scene_recognizer.h:28-31 [foregroundPid_] the members *)
Record BackgroundRecognizer := mkBackgroundRecognizer {
  foregroundPid_ : Z;
  sceneboardPid_ : Z;
  perceivableTasks_ : gmap Z (list Z);
  isInBackgroundPerceivableScene_ : bool;
}.
#[export] Instance BackgroundRecognizer_eta : Eta BackgroundRecognizer := fun r =>
  mkBackgroundRecognizer (foregroundPid_ r) (sceneboardPid_ r) (perceivableTasks_ r)
    (isInBackgroundPerceivableScene_ r).

(** slide_recognizer.h:46-54 [slideState_] the members, with the times and the limit that each
    recognizer inherits *)
Record SlideRecognizer := mkSlideRecognizer {
  slideState_ : SlideRecognizeStat;
  listFlingEndTask_ : option nat;
  listFlingTimeOutTask_ : option nat;
  slideDetectingTime_ : Z;
  isInTouching_ : bool;
  slidePid_ : string;
  slideUid_ : string;
  scrTid_ : string;
  listFlingTimeOutTime_ : Z;
  listFlingEndTime_ : Z;
  listFlingSpeedLimit_ : spec_float;
}.
#[export] Instance SlideRecognizer_eta : Eta SlideRecognizer := fun r =>
  mkSlideRecognizer (slideState_ r) (listFlingEndTask_ r) (listFlingTimeOutTask_ r)
    (slideDetectingTime_ r) (isInTouching_ r) (slidePid_ r) (slideUid_ r) (scrTid_ r)
    (listFlingTimeOutTime_ r) (listFlingEndTime_ r) (listFlingSpeedLimit_ r).

(** slide_recognizer.cpp:39-41 [SlideRecognizer::SlideRecognizer] *)
Definition new_SlideRecognizer : SlideRecognizer :=
  mkSlideRecognizer IDLE None None (-1) false "" "" "" DEFAULT_LIST_FLING_TIME_OUT_TIME
    DEFAULT_LIST_FLING_END_TIME DEFAULT_LIST_FLING_SPEED_LIMIT.

(** slide_recognizer_proxy.h:55-68 [instances_] the members; recognizers are objects of the
    store [slides_], because a task keeps its recognizer alive after the map forgot it *)
Record SlideRecognizerProxy := mkSlideRecognizerProxy {
  p_listFlingTimeOutTime_ : Z;
  p_listFlingEndTime_ : Z;
  p_listFlingSpeedLimit_ : spec_float;
  instances_ : gmap Z nat;
  displayIdToRsScreenId_ : gmap Z Z;
}.
#[export] Instance SlideRecognizerProxy_eta : Eta SlideRecognizerProxy := fun p =>
  mkSlideRecognizerProxy (p_listFlingTimeOutTime_ p) (p_listFlingEndTime_ p)
    (p_listFlingSpeedLimit_ p) (instances_ p) (displayIdToRsScreenId_ p).

(** What waits in the queue: an event for a recognizer, or the start of a detection. *)
Inductive SceneTask (J : Type) :=
  | TOnDispatch (recognizer : RecognizeType) (resData : ResData J)
  | TStartDetecting (self : nat) (payload : J).
Arguments TOnDispatch {_}.
Arguments TStartDetecting {_}.

(** What waits for its time. *)
Inductive SceneTimer (J : Type) :=
  | DExitInstall
  | DListFlingEnd (self : nat) (payload : J).
Arguments DExitInstall {_}.
Arguments DListFlingEnd {_}.

(** scene_recognizer_mgr.h:50-51 [sceneRecognizers_] the manager with its recognizers, the
    delayed tasks with their delays, and the calls *)
Record Scenes (J : Type) := mkScenes {
  ffrtQueue_ : option (list (SceneTask J));
  sc_timers : gmap nat (SceneTimer J * Z);
  sc_next : nat;
  sc_calls : list (SceneCall J);
  installs : ContinuousAppInstallRecognizer;
  isSystemUpgraded_ : bool;
  background : BackgroundRecognizer;
  proxy : SlideRecognizerProxy;
  slides_ : gmap nat SlideRecognizer;
}.
Arguments mkScenes {_}.
Arguments ffrtQueue_ {_}.
Arguments sc_timers {_}.
Arguments sc_next {_}.
Arguments sc_calls {_}.
Arguments installs {_}.
Arguments isSystemUpgraded_ {_}.
Arguments background {_}.
Arguments proxy {_}.
Arguments slides_ {_}.
#[export] Instance Scenes_eta J : Eta (Scenes J) := fun s =>
  mkScenes (ffrtQueue_ s) (sc_timers s) (sc_next s) (sc_calls s) (installs s) (isSystemUpgraded_ s)
    (background s) (proxy s) (slides_ s).

(** The types that a recognizer takes. *)
Definition acceptRes_ (r : RecognizeType) : list Z :=
  match r with
  | CONTINUOUS_APP_INSTALL_RECOGNIZER => [RES_TYPE_APP_INSTALL_UNINSTALL]
  | SYSTEM_UPGRADE_SCENE_RECOGNIZER => [RES_TYPE_BOOT_COMPLETED]
  | BACKGROUND_SENSITIVE_TASK_OVERLAPPING_SCENE_RECOGNIZER =>
      [RES_TYPE_APP_STATE_CHANGE; RES_TYPE_CONTINUOUS_TASK; RES_TYPE_REPORT_SCENE_BOARD]
  | SLIDE_RECOGNIZER =>
      [RES_TYPE_SLIDE_RECOGNIZE; RES_TYPE_SEND_FRAME_EVENT; RES_TYPE_CLICK_RECOGNIZE; RES_TYPE_AXIS_EVENT]
  end.

(** scene_recognizer_base.cpp:20-26 [SceneRecognizerBase::Accept] *)
Definition Accept (r : RecognizeType) (resType : Z) : bool := bool_decide (resType ∈ acceptRes_ r).

Section recognizers.
Context {J K : Type} `{!Json J} `{!SceneHost J K} `{!BackgroundMode}.
#[local] Abbreviation M := (ST (Scenes J)).

Definition c_record (c : SceneCall J) : M unit := st_modify (fun s => s <| sc_calls ::= fun l => l ++ [c] |>).
Definition scene_report (resType value : Z) (payload : J) : M unit := c_record (CReportData resType value payload).
Definition scene_send (eventType eventValue : Z) (extInfo : J) : M unit :=
  c_record (CSendEvent eventType eventValue extInfo).

(** [ffrt::submit_h] with a delay, and [ffrt::skip]. *)
Definition submit_h (t : SceneTimer J) (delay : Z) : M nat := fun s =>
  Some (sc_next s, s <| sc_timers ::= <[sc_next s := (t, delay)]> |> <| sc_next ::= S |>).
Definition skip_task (handle : option nat) : M unit :=
  handle <-? handle; st_modify (fun s => s <| sc_timers ::= delete handle |>).

(** ** Continuous installation *)

Definition upd_installs (f : ContinuousAppInstallRecognizer -> ContinuousAppInstallRecognizer) : M unit :=
  st_modify (fun s => s <| installs ::= f |>).

(** continuous_app_install_recognizer.cpp:40-67 [ContinuousAppInstallRecognizer::OnDispatchResource] *)
Definition Install_OnDispatchResource (resType value : Z) : M unit :=
  ret_if negb (resType =? RES_TYPE_APP_INSTALL_UNINSTALL);
  s ← st_get;
  if value =? APP_INSTALL_START then
    skip_task (exitAppInstall_ (installs s));;
    st_when (negb (isInContinuousInstall_ (installs s)))
      (scene_report RES_TYPE_CONTINUOUS_INSTALL START_CONTINUOUS_INSTALL json_null;;
       upd_installs (fun r => r <| isInContinuousInstall_ := true |>))
  else if (value =? APP_INSTALL_END) || (value =? APP_CHANGED) then
    skip_task (exitAppInstall_ (installs s));;
    handle ← submit_h DExitInstall EXIT_INSTALL_DELAY_TIME;
    upd_installs (fun r => r <| exitAppInstall_ := Some handle |>)
  else mret tt.

(** continuous_app_install_recognizer.cpp:60-65 [ContinuousAppInstallRecognizer::OnDispatchResource] the delayed
    task *)
Definition ExitInstall : M unit :=
  scene_report RES_TYPE_CONTINUOUS_INSTALL STOP_CONTINUOUS_INSTALL json_null;;
  upd_installs (fun r => r <| isInContinuousInstall_ := false |>).

(** ** First start after an upgrade *)

(** system_upgrade_scene_recognizer.cpp:68-82 [SystemUpgradeSceneRecognizer::GetCurSystemFingerprint] *)
Definition GetCurSystemFingerprint (k : K) : string :=
  foldl (fun cur item =>
    let itemFingerprint := sch_GetParameter (J := J) item k in
    if bool_decide (itemFingerprint = "") then cur
    else (if bool_decide (cur <> "") then cur +:+ SEPARATOR else cur) +:+ itemFingerprint) "" FINGERPRINTS.

(** system_upgrade_scene_recognizer.cpp:56-66 [SystemUpgradeSceneRecognizer::Init] *)
Definition SystemUpgrade_Init (k : K) : M unit :=
  let oldSystemFingerprint := sch_LoadStringFromFile (J := J) OLD_SYSTEM_FINGERPRINT_PATH k in
  let curSystemFingerprint := GetCurSystemFingerprint k in
  st_modify (fun s => s <| isSystemUpgraded_ :=
    bool_decide (oldSystemFingerprint = "") || negb (bool_decide (oldSystemFingerprint = curSystemFingerprint)) |>);;
  s ← st_get;
  st_when (isSystemUpgraded_ s) (c_record (CSaveStringToFile OLD_SYSTEM_FINGERPRINT_PATH curSystemFingerprint));;
  c_record (CReportFileSize OLD_SYSTEM_FINGERPRINT_PATH).

(** system_upgrade_scene_recognizer.cpp:84-94 [SystemUpgradeSceneRecognizer::OnDispatchResource] *)
Definition Upgrade_OnDispatchResource (resType : Z) : M unit :=
  ret_if negb (resType =? RES_TYPE_BOOT_COMPLETED);
  s ← st_get;
  st_when (isSystemUpgraded_ s) (scene_report RES_TYPE_FIRST_BOOT_AFTER_SYSTEM_UPGRADE 0 json_null).

(** ** Background sensitive tasks *)

(** background_sensitive_task_overlapping_scene_recognizer.cpp:32-37 [PERCEIVABLE_MODES] *)
Definition PERCEIVABLE_MODES : list Z :=
  [BM_LOCATION; BM_VOIP; BM_AUDIO_PLAYBACK; BM_MULTI_DEVICE_CONNECTION].

Definition upd_background (f : BackgroundRecognizer -> BackgroundRecognizer) : M unit :=
  st_modify (fun s => s <| background ::= f |>).

(** background_sensitive_task_overlapping_scene_recognizer.cpp:120-135 [BackgroundSensitiveTaskOverlappingSceneRecognizer::CheckEnterScene] *)
Definition CheckEnterScene (r : BackgroundRecognizer) : bool :=
  if isInBackgroundPerceivableScene_ r || (foregroundPid_ r =? sceneboardPid_ r) then false
  else if bool_decide (1 < size (perceivableTasks_ r))%nat then true
  else bool_decide (0 < size (perceivableTasks_ r))%nat
       && bool_decide (perceivableTasks_ r !! foregroundPid_ r = None).

(** background_sensitive_task_overlapping_scene_recognizer.cpp:137-143 [BackgroundSensitiveTaskOverlappingSceneRecognizer::EnterScene] *)
Definition EnterScene : M unit :=
  scene_report RES_TYPE_BACKGROUND_PERCEIVABLE_SCENE PERCEIVABLE_START json_null;;
  upd_background (fun r => r <| isInBackgroundPerceivableScene_ := true |>).

(** background_sensitive_task_overlapping_scene_recognizer.cpp:145-151 [BackgroundSensitiveTaskOverlappingSceneRecognizer::ExitScene] *)
Definition ExitScene : M unit :=
  scene_report RES_TYPE_BACKGROUND_PERCEIVABLE_SCENE PERCEIVABLE_STOP json_null;;
  upd_background (fun r => r <| isInBackgroundPerceivableScene_ := false |>).

(** background_sensitive_task_overlapping_scene_recognizer.cpp:213-216 [BackgroundSensitiveTaskOverlappingSceneRecognizer::IsValidPid] *)
Definition IsValidPid (pid : Z) : bool := (pid >=? PID_MIN) && (pid <=? PID_MAX).

(** background_sensitive_task_overlapping_scene_recognizer.cpp:218-231 [BackgroundSensitiveTaskOverlappingSceneRecognizer::IsValidFilteredTypeIds] *)
Definition IsValidFilteredTypeIds (filteredTypeIds : list Z) : bool :=
  forallb (fun typeId => negb ((typeId <? BM_DATA_TRANSFER) || (typeId >? BM_END))) filteredTypeIds
  && negb (Z.of_nat (length filteredTypeIds) >? BM_END).

Definition when_entering : M unit := s ← st_get; st_when (CheckEnterScene (background s)) EnterScene.
Definition when_leaving : M unit :=
  s ← st_get;
  st_when (negb (CheckEnterScene (background s)) && isInBackgroundPerceivableScene_ (background s)) ExitScene.

(** background_sensitive_task_overlapping_scene_recognizer.cpp:153-164 [BackgroundSensitiveTaskOverlappingSceneRecognizer::HandleTaskStart] *)
Definition HandleTaskStart (pid : Z) (filteredTypeIds : list Z) : M unit :=
  ret_if negb (IsValidPid pid) || negb (IsValidFilteredTypeIds filteredTypeIds);
  upd_background (fun r => r <| perceivableTasks_ ::= <[pid := filteredTypeIds]> |>);;
  when_entering.

(** background_sensitive_task_overlapping_scene_recognizer.cpp:166-185 [BackgroundSensitiveTaskOverlappingSceneRecognizer::HandleTaskUpdate] *)
Definition HandleTaskUpdate (pid : Z) (filteredTypeIds : list Z) : M unit :=
  if bool_decide (filteredTypeIds = []) then
    upd_background (fun r => r <| perceivableTasks_ ::= delete pid |>);;
    when_leaving
  else
    upd_background (fun r => r <| perceivableTasks_ ::= <[pid := filteredTypeIds]> |>);;
    when_entering.

(** background_sensitive_task_overlapping_scene_recognizer.cpp:187-196 [BackgroundSensitiveTaskOverlappingSceneRecognizer::HandleTaskStop] *)
Definition HandleTaskStop (pid : Z) : M unit :=
  s ← st_get;
  ret_if bool_decide (perceivableTasks_ (background s) !! pid = None);
  upd_background (fun r => r <| perceivableTasks_ ::= delete pid |>);;
  when_leaving.

(** background_sensitive_task_overlapping_scene_recognizer.cpp:198-211 [BackgroundSensitiveTaskOverlappingSceneRecognizer::HandleForeground] the pid is
    kept when the text is no number *)
Definition HandleForeground (value : Z) (pid : string) : M unit :=
  ret_if negb (value =? PROCESS_FOREGROUND);
  upd_background (fun r => r <| foregroundPid_ ::= fun old => default old (sch_StrToInt (J := J) (K := K) pid) |>);;
  s ← st_get;
  let r := background s in
  if (foregroundPid_ r =? sceneboardPid_ r) && isInBackgroundPerceivableScene_ r then ExitScene
  else when_entering.

(** [payload.value(key, std::vector<uint32_t>())] on a field that is an array: the elements,
    or an exception. *)
Definition vector_u32 (l : list J) : M (list Z) := st_some (mapM (sch_get_u32 (K := K)) l).

(** background_sensitive_task_overlapping_scene_recognizer.cpp:78-110 [BackgroundSensitiveTaskOverlappingSceneRecognizer::HandleContinuousTask] *)
Definition HandleContinuousTask (value : Z) (pid : string) (payload : J) : M unit :=
  let pid := default (-1) (sch_StrToInt (J := J) (K := K) pid) in
  typeIds ← match json_find TYPE_IDS_KEY payload ≫= json_array with
            | Some l => vector_u32 l
            | None => mret []
            end;
  let typeIds := filter (fun typeId => typeId ∈ PERCEIVABLE_MODES) typeIds in
  if (value =? CONTINUOUS_TASK_START) && negb (bool_decide (typeIds = [])) then HandleTaskStart pid typeIds
  else if value =? CONTINUOUS_TASK_UPDATE then HandleTaskUpdate pid typeIds
  else if value =? CONTINUOUS_TASK_END then HandleTaskStop pid
  else mret tt.

(** background_sensitive_task_overlapping_scene_recognizer.cpp:57-76 [BackgroundSensitiveTaskOverlappingSceneRecognizer::OnDispatchResource] *)
Definition Background_OnDispatchResource (resType value : Z) (payload : J) : M unit :=
  pid <-? find_string PID_KEY payload;
  if resType =? RES_TYPE_APP_STATE_CHANGE then HandleForeground value pid
  else if resType =? RES_TYPE_CONTINUOUS_TASK then HandleContinuousTask value pid payload
  else if resType =? RES_TYPE_REPORT_SCENE_BOARD then
    upd_background (fun r => r <| sceneboardPid_ ::= fun old => default old (sch_StrToInt (J := J) (K := K) pid) |>)
  else mret tt.
End recognizers.
