(* ===== verification/SlideRecognizer.v ===== *)
(** * Slide recognizer and the manager of scene recognizers

    [slide_recognizer.cpp], [slide_recognizer_proxy.cpp] and [scene_recognizer_mgr.cpp].  The
    proxy hands an event to the recognizer of its screen; a recognizer follows a touch: a slide
    is detected, becomes a normal slide with the first frame, and a fast release makes it a
    fling, which ends when no frame comes, when its time is out or with the next touch.
    [run_scene_queue] and [run_scene_timer] are the steps of the queue and of the clock. *)
From Stdlib Require Import SpecFloat.
From S2P Require Import Prelude Json ResType CommonUtil PluginConfig PluginMgr SceneRecognizer.

Definition AXIS_EVENT_FACTOR : Z := 10. (* slide_recognizer.cpp:34 *)
Definition AXIS_EVENT_TYPE : string := "axis_event_type". (* slide_recognizer.cpp:35 *)
Definition UP_SPEED_KEY : string := "up_speed". (* slide_recognizer.cpp:36 *)
Definition PAYLOAD_KEY_SCREEN_ID : string := "screenId". (* slide_recognizer_proxy.cpp:40 *)
Definition PAYLOAD_KEY_DISPLAY_ID : string := "displayId". (* slide_recognizer_proxy.cpp:41 *)

(** [std::from_chars] to a [uint64_t]: digits at the very front, without a sign; what follows
    them does not matter. *)
Definition from_chars_u64 (s : string) : option Z :=
  match s with
  | EmptyString => None
  | String c _ =>
      match digit_of c with
      | None => None
      | Some _ => let '(m, _) := read_digits 0 s in if m <? 2 ^ 64 then Some m else None
      end
  end.

Section slides.
Context {J K : Type} `{!Json J} `{!SceneHost J K} `{!BackgroundMode}.
#[local] Abbreviation M := (ST (Scenes J)).

(** [payload[key] = v]: an exception when the payload is neither an object nor null. *)
Definition set_field (key : string) (v payload : J) : M J :=
  if json_is_object payload || json_is_null payload then mret (json_set key v payload) else st_undefined.

(** res_sched_string_util.cpp:29-41 [StrToFloat] *)
Definition StrToFloat (value : string) : option spec_float :=
  match sch_strtof (J := J) (K := K) (c_str value) with
  | Some (res, erange, rest) => if erange || negb (bool_decide (rest = "")) then None else Some res
  | None => None
  end.

Definition get_slide (self : nat) : M SlideRecognizer := fun s =>
  match slides_ s !! self with
  | Some r => Some (r, s)
  | None => None
  end.
Definition upd_slide (self : nat) (f : SlideRecognizer -> SlideRecognizer) : M unit :=
  st_modify (fun s => s <| slides_ ::= alter f self |>).

(** slide_recognizer.cpp:262-273 [SlideRecognizer::FillRealPidAndUid] *)
Definition FillRealPidAndUid (self : nat) (payload : J) : M J :=
  r ← get_slide self;
  payload ← (if bool_decide (slidePid_ r = "") then mret payload
             else set_field "clientPid" (json_of_string (slidePid_ r)) payload);
  payload ← (if bool_decide (slideUid_ r = "") then mret payload
             else set_field "callingUid" (json_of_string (slideUid_ r)) payload);
  set_field "scrTid" (json_of_string (scrTid_ r)) payload.

(** slide_recognizer.cpp:275-286 [SlideRecognizer::BuildExtInfoWithScreenId] *)
Definition BuildExtInfoWithScreenId (payload : J) : J :=
  json_set "screenId"
    (json_of_string (default (to_string DEFAULT_SCREEN_ID) (find_string "screenId" payload))) json_null.

Definition frame_report (value : Z) (payload : J) : M unit :=
  scene_send EVENT_DRAW_FRAME_REPORT value (BuildExtInfoWithScreenId payload).

(** slide_recognizer.cpp:48-60 [SlideRecognizer::ReportListFlingLockedEnd] *)
Definition ReportListFlingLockedEnd (self : nat) (payload : J) : M unit :=
  r ← get_slide self;
  ret_if negb (bool_decide (slideState_ r = LIST_FLING));
  scene_report RES_TYPE_SLIDE_RECOGNIZE SLIDE_EVENT_OFF payload;;
  frame_report EVENT_VALUE_DRAW_FRAME_REPORT_STOP payload;;
  upd_slide self (fun r => r <| slideState_ := IDLE |>).

(** slide_recognizer.cpp:96-109 [SlideRecognizer::HandleSlideOFFEvent] *)
Definition HandleSlideOFFEvent (self : nat) (payload : J) : M unit :=
  r ← get_slide self;
  skip_task (listFlingEndTask_ r);;
  skip_task (listFlingTimeOutTask_ r);;
  frame_report EVENT_VALUE_DRAW_FRAME_REPORT_STOP payload;;
  upd_slide self (fun r => r <| slideState_ := IDLE |>).

(** scene_recognizer_mgr.cpp:68-74 [SceneRecognizerMgr::SubmitTask] *)
Definition SubmitTask (t : SceneTask J) : M unit :=
  s ← st_get;
  q <-? ffrtQueue_ s;
  st_modify (fun s => s <| ffrtQueue_ := Some (q ++ [t]) |>).

(** slide_recognizer.cpp:111-121 [SlideRecognizer::HandleSlideDetecting] *)
Definition HandleSlideDetecting (self : nat) (payload : J) : M unit :=
  upd_slide self (fun r => r <| isInTouching_ := true |>);;
  SubmitTask (TStartDetecting self payload).

(** slide_recognizer.cpp:123-144 [SlideRecognizer::StartDetecting] *)
Definition StartDetecting (k : K) (self : nat) (payload : J) : M unit :=
  frame_report EVENT_VALUE_DRAW_FRAME_REPORT_START payload;;
  upd_slide self (fun r => r <| slideDetectingTime_ := sch_GetNowMillTime (J := J) k |>);;
  upd_slide self (fun r => r <| slideState_ := SLIDE_NORMAL_DETECTING |>);;
  clientPid <-? find_string "clientPid" payload;
  upd_slide self (fun r => r <| slidePid_ := clientPid |>);;
  callingUid <-? find_string "callingUid" payload;
  upd_slide self (fun r => r <| slideUid_ := callingUid |>);;
  scrTid <-? find_string "scrTid" payload;
  upd_slide self (fun r => r <| scrTid_ := scrTid |>).

(** The end of a fling is awaited anew: when no frame comes, or when its time is out. *)
Definition await_end (self : nat) (payload : J) : M unit :=
  r ← get_slide self;
  skip_task (listFlingEndTask_ r);;
  handle ← submit_h (DListFlingEnd self payload) (listFlingEndTime_ r);
  upd_slide self (fun r => r <| listFlingEndTask_ := Some handle |>).
Definition await_timeout (self : nat) (payload : J) : M unit :=
  r ← get_slide self;
  skip_task (listFlingTimeOutTask_ r);;
  handle ← submit_h (DListFlingEnd self payload) (listFlingTimeOutTime_ r);
  upd_slide self (fun r => r <| listFlingTimeOutTask_ := Some handle |>).

(** slide_recognizer.cpp:146-165 [SlideRecognizer::HandleListFlingStart] *)
Definition HandleListFlingStart (self : nat) (payload : J) : M unit :=
  frame_report EVENT_VALUE_DRAW_FRAME_REPORT_START payload;;
  await_end self payload;;
  await_timeout self payload.

(** slide_recognizer.cpp:85-94 [SlideRecognizer::HandleSlideEvent] *)
Definition HandleSlideEvent (self : nat) (value : Z) (payload : J) : M unit :=
  if value =? SLIDE_EVENT_DETECTING then HandleSlideDetecting self payload
  else if value =? SLIDE_EVENT_ON then HandleListFlingStart self payload
  else if value =? SLIDE_EVENT_OFF then HandleSlideOFFEvent self payload
  else mret tt.

(** slide_recognizer.cpp:167-190 [SlideRecognizer::HandleSendFrameEvent] *)
Definition HandleSendFrameEvent (self : nat) (payload : J) : M unit :=
  r ← get_slide self;
  match slideState_ r with
  | SLIDE_NORMAL_DETECTING =>
      (if isInTouching_ r then
         scene_report RES_TYPE_SLIDE_RECOGNIZE SLIDE_NORMAL_BEGIN payload;;
         upd_slide self (fun r => r <| slideState_ := SLIDE_NORMAL |>)
       else upd_slide self (fun r => r <| slideState_ := IDLE |>));;
      frame_report EVENT_VALUE_DRAW_FRAME_REPORT_STOP payload
  | LIST_FLING => await_end self payload
  | _ => mret tt
  end.

(** slide_recognizer.cpp:192-206 [SlideRecognizer::ListFlingEnd] *)
Definition ListFlingEnd (self : nat) (payload : J) : M unit :=
  r ← get_slide self;
  ret_if negb (bool_decide (slideState_ r = LIST_FLING));
  skip_task (listFlingEndTask_ r);;
  skip_task (listFlingTimeOutTask_ r);;
  upd_slide self (fun r => r <| listFlingEndTask_ := None |> <| listFlingTimeOutTask_ := None |>);;
  payload ← FillRealPidAndUid self payload;
  ReportListFlingLockedEnd self payload.

Definition is_up (value : Z) : bool := (value =? TOUCH_EVENT_UP) || (value =? TOUCH_EVENT_PULL_UP).

(** slide_recognizer.cpp:231-249 [SlideRecognizer::HandleClickEvent] the speed of a release, if
    the payload names the client and a number *)
Definition up_speed (payload : J) : option spec_float :=
  _ ← find_string "clientPid" payload;
  text ← find_string UP_SPEED_KEY payload;
  upSpeed ← StrToFloat text;
  Some (if bool_decide (find_string AXIS_EVENT_TYPE payload = Some AXIS_EVENT_TYPE)
        then SFmul 24 128 upSpeed (float_of_Z AXIS_EVENT_FACTOR) else upSpeed).

(** slide_recognizer.cpp:208-260 [SlideRecognizer::HandleClickEvent] *)
Definition HandleClickEvent (self : nat) (value : Z) (payload : J) : M unit :=
  (if value =? TOUCH_EVENT_DOWN then
     ListFlingEnd self payload;;
     upd_slide self (fun r => r <| slideState_ := IDLE |> <| isInTouching_ := true |>)
   else st_when (is_up value) (upd_slide self (fun r => r <| isInTouching_ := false |>)));;
  r ← get_slide self;
  ret_if negb (bool_decide (slideState_ r = SLIDE_NORMAL)
               || bool_decide (slideState_ r = SLIDE_NORMAL_DETECTING));
  st_when (is_up value)
    (st_when (negb (bool_decide (slideState_ r = SLIDE_NORMAL_DETECTING)))
       (filled ← FillRealPidAndUid self payload;
        scene_report RES_TYPE_SLIDE_RECOGNIZE SLIDE_NORMAL_END filled);;
     upSpeed <-? up_speed payload;
     st_when (SFltb (listFlingSpeedLimit_ r) upSpeed)
       (frame_report EVENT_VALUE_DRAW_FRAME_REPORT_START payload;;
        filled ← FillRealPidAndUid self payload;
        scene_report RES_TYPE_SLIDE_RECOGNIZE SLIDE_EVENT_ON filled;;
        upd_slide self (fun r => r <| slideState_ := LIST_FLING |>))).

(** slide_recognizer.cpp:62-83 [SlideRecognizer::OnDispatchResource] *)
Definition Slide_OnDispatchResource (self : nat) (resType value : Z) (payload : J) : M unit :=
  if resType =? RES_TYPE_SLIDE_RECOGNIZE then HandleSlideEvent self value payload
  else if resType =? RES_TYPE_SEND_FRAME_EVENT then
    payload ← FillRealPidAndUid self payload; HandleSendFrameEvent self payload
  else if resType =? RES_TYPE_CLICK_RECOGNIZE then HandleClickEvent self value payload
  else if resType =? RES_TYPE_AXIS_EVENT then
    st_when (value =? AXIS_EVENT_END) (HandleClickEvent self TOUCH_EVENT_UP payload)
  else mret tt.

(** slide_recognizer.cpp:288-291 [SlideRecognizer::IsTaskClean] *)
Definition IsTaskClean (r : SlideRecognizer) : bool :=
  bool_decide (listFlingEndTask_ r = None) && bool_decide (listFlingTimeOutTask_ r = None).

(** slide_recognizer.cpp:293-297 [SlideRecognizer::GetSlideStatus] *)
Definition GetSlideStatus (r : SlideRecognizer) : SlideRecognizeStat := slideState_ r.

(** ** The proxy *)

Definition upd_proxy (f : SlideRecognizerProxy -> SlideRecognizerProxy) : M unit :=
  st_modify (fun s => s <| proxy ::= f |>).

(** slide_recognizer_proxy.cpp:54-66 [SlideRecognizerProxy::ExtractIdFromPayload] *)
Definition ExtractIdFromPayload (payload : J) (key : string) : option Z :=
  find_string key payload ≫= from_chars_u64.

(** slide_recognizer_proxy.cpp:68-88 [SlideRecognizerProxy::ConvertDisplayIdToRsScreenId] *)
Definition ConvertDisplayIdToRsScreenId (k : K) (displayId : Z) : M Z :=
  s ← st_get;
  match displayIdToRsScreenId_ (proxy s) !! displayId with
  | Some rsScreenId => mret rsScreenId
  | None =>
      match sch_ConvertScreenIdToRsScreenId (J := J) displayId k with
      | None => mret DEFAULT_SCREEN_ID
      | Some rsScreenId =>
          upd_proxy (fun p => p <| displayIdToRsScreenId_ ::= <[displayId := rsScreenId]> |>);;
          mret rsScreenId
      end
  end.

(** Whether the proxy may forget a recognizer. *)
Definition is_idle (s : Scenes J) (self : nat) : bool :=
  match slides_ s !! self with
  | Some r => bool_decide (GetSlideStatus r = IDLE) && IsTaskClean r
  | None => false
  end.

(** slide_recognizer_proxy.cpp:139-149 [SlideRecognizerProxy::CleanupIdleInstances] *)
Definition CleanupIdleInstances : M unit :=
  s ← st_get;
  upd_proxy (fun p => p <| instances_ ::= filter (fun x => is_idle s x.2 = false) |>).

(** slide_recognizer_proxy.cpp:121-137 [SlideRecognizerProxy::GetOrCreateInstance] *)
Definition GetOrCreateInstance (screenId : Z) : M nat :=
  s ← st_get;
  match instances_ (proxy s) !! screenId with
  | Some recognizer => mret recognizer
  | None =>
      let recognizer := sc_next s in
      let p := proxy s in
      st_modify (fun s => s <| sc_next ::= S |> <| slides_ ::= <[recognizer :=
        new_SlideRecognizer <| listFlingTimeOutTime_ := p_listFlingTimeOutTime_ p |>
                            <| listFlingEndTime_ := p_listFlingEndTime_ p |>
                            <| listFlingSpeedLimit_ := p_listFlingSpeedLimit_ p |>]> |>);;
      upd_proxy (fun p => p <| instances_ ::= <[screenId := recognizer]> |>);;
      s ← st_get;
      st_when (bool_decide (MAX_INSTANCE_COUNT < size (instances_ (proxy s)))%nat) CleanupIdleInstances;;
      mret recognizer
  end.

(** slide_recognizer_proxy.cpp:97-109 [SlideRecognizerProxy::OnDispatchResource] the screen of an event *)
Definition screen_of (k : K) (resType value : Z) (payload : J) : M Z :=
  match ExtractIdFromPayload payload PAYLOAD_KEY_SCREEN_ID, ExtractIdFromPayload payload PAYLOAD_KEY_DISPLAY_ID with
  | Some screenId, _ => mret screenId
  | None, Some displayId =>
      if (resType =? RES_TYPE_CLICK_RECOGNIZE) && (value =? TOUCH_EVENT_DOWN)
      then ConvertDisplayIdToRsScreenId k displayId
      else s ← st_get; mret (default DEFAULT_SCREEN_ID (displayIdToRsScreenId_ (proxy s) !! displayId))
  | None, None => mret DEFAULT_SCREEN_ID
  end.

(** slide_recognizer_proxy.cpp:90-119 [SlideRecognizerProxy::OnDispatchResource] *)
Definition Proxy_OnDispatchResource (k : K) (resType value : Z) (payload : J) : M unit :=
  screenId ← screen_of k resType value payload;
  recognizer ← GetOrCreateInstance screenId;
  payload ← set_field "screenId" (json_of_string (to_string screenId)) payload;
  Slide_OnDispatchResource recognizer resType value payload.

(** A setting of the proxy and of all its recognizers. *)
Definition set_everywhere (f : SlideRecognizerProxy -> SlideRecognizerProxy)
    (g : SlideRecognizer -> SlideRecognizer) : M unit :=
  upd_proxy f;;
  s ← st_get;
  st_modify (fun s => s <| slides_ := map_fold (fun _ self m => alter g self m) (slides_ s) (instances_ (proxy s)) |>).

(** slide_recognizer_proxy.cpp:151-158 [SlideRecognizerProxy::SetListFlingTimeoutTime] *)
Definition SetListFlingTimeoutTime (value : Z) : M unit :=
  set_everywhere (fun p => p <| p_listFlingTimeOutTime_ := value |>)
    (fun r => r <| listFlingTimeOutTime_ := value |>).

(** slide_recognizer_proxy.cpp:160-167 [SlideRecognizerProxy::SetListFlingEndTime] *)
Definition SetListFlingEndTime (value : Z) : M unit :=
  set_everywhere (fun p => p <| p_listFlingEndTime_ := value |>)
    (fun r => r <| listFlingEndTime_ := value |>).

(** slide_recognizer_proxy.cpp:169-176 [SlideRecognizerProxy::SetListFlingSpeedLimit] *)
Definition SetListFlingSpeedLimit (value : spec_float) : M unit :=
  set_everywhere (fun p => p <| p_listFlingSpeedLimit_ := value |>)
    (fun r => r <| listFlingSpeedLimit_ := value |>).

(** ** The manager *)

(** The recognizers in the order of their types; no two take the same event. *)
Definition sceneRecognizers_ : list RecognizeType :=
  [CONTINUOUS_APP_INSTALL_RECOGNIZER; SYSTEM_UPGRADE_SCENE_RECOGNIZER;
   BACKGROUND_SENSITIVE_TASK_OVERLAPPING_SCENE_RECOGNIZER; SLIDE_RECOGNIZER].

(** scene_recognizer_mgr.cpp:27-38 [SceneRecognizerMgr::SceneRecognizerMgr] *)
Definition new_SceneRecognizerMgr (k : K) : option (Scenes J) :=
  snd <$> SystemUpgrade_Init k
    (mkScenes (Some []) ∅ 0 [] (mkInstallRecognizer None false) false
       (mkBackgroundRecognizer (-1) (-1) ∅ false)
       (mkSlideRecognizerProxy DEFAULT_LIST_FLING_TIME_OUT_TIME DEFAULT_LIST_FLING_END_TIME
          DEFAULT_LIST_FLING_SPEED_LIMIT ∅ ∅) ∅).

(** scene_recognizer_mgr.cpp:49-67 [SceneRecognizerMgr::DispatchResource] *)
Definition Scenes_DispatchResource (resData : option (ResData J)) : M unit :=
  s ← st_get;
  ret_if bool_decide (ffrtQueue_ s = None);
  resData <-? resData;
  st_iter (fun recognizer =>
    ret_if negb (Accept recognizer (rd_resType resData));
    SubmitTask (TOnDispatch recognizer resData)) sceneRecognizers_.

(** scene_recognizer_mgr.cpp:63-65 [SceneRecognizerMgr::DispatchResource] a task *)
Definition run_scene_task (k : K) (t : SceneTask J) : M unit :=
  match t with
  | TOnDispatch CONTINUOUS_APP_INSTALL_RECOGNIZER d => Install_OnDispatchResource (rd_resType d) (rd_value d)
  | TOnDispatch SYSTEM_UPGRADE_SCENE_RECOGNIZER d => Upgrade_OnDispatchResource (rd_resType d)
  | TOnDispatch BACKGROUND_SENSITIVE_TASK_OVERLAPPING_SCENE_RECOGNIZER d =>
      Background_OnDispatchResource (K := K) (rd_resType d) (rd_value d) (rd_payload d)
  | TOnDispatch SLIDE_RECOGNIZER d => Proxy_OnDispatchResource k (rd_resType d) (rd_value d) (rd_payload d)
  | TStartDetecting self payload => StartDetecting k self payload
  end.

(** The queue runs its oldest task. *)
Definition run_scene_queue (k : K) : M unit :=
  s ← st_get;
  match ffrtQueue_ s with
  | Some (t :: q) => st_modify (fun s => s <| ffrtQueue_ := Some q |>);; run_scene_task k t
  | _ => mret tt
  end.

(** A delayed task comes due: it leaves the pending ones and runs. *)
Definition run_scene_timer (handle : nat) : M unit :=
  s ← st_get;
  t <-? sc_timers s !! handle;
  st_modify (fun s => s <| sc_timers ::= delete handle |>);;
  match t.1 with
  | DExitInstall => ExitInstall
  | DListFlingEnd self payload => ReportListFlingLockedEnd self payload
  end.
End slides.
