(* ===== verification/SceneFacts.v ===== *)
(** * Facts about the scene recognizers

    The invariant of the recognizers: tasks and handles belong to recognizers that exist, the
    reports of two scenes alternate, at most one exit of an installation is pending, and each
    fling on a screen is awaited.  Every task, timer and event keeps it and is defined. *)
From Stdlib Require Import SpecFloat.
From S2P Require Import Prelude Json ResType CommonUtil CommonUtilFacts PluginConfig PluginMgr SceneRecognizer SlideRecognizer.

(** ** Screens as text *)

Lemma from_chars_digits d :
  d <> Decimal.Nil ->
  from_chars_u64 (DecimalString.NilEmpty.string_of_uint d)
  = if Z.of_N (Pos.of_uint d) <? 2 ^ 64 then Some (Z.of_N (Pos.of_uint d)) else None.
Proof.
  intros Hd. set (s := DecimalString.NilEmpty.string_of_uint d).
  assert (Hr : read_digits 0 s = (Z.of_N (Pos.of_uint d), "")).
  { unfold s. rewrite <- (text_of_list (DecimalString.NilEmpty.string_of_uint d)).
    rewrite read_digits_text by apply uint_digits. rewrite digits_val_parse by apply uint_digits.
    by rewrite parse_digits_zero. }
  assert (Hs : exists c s', s = String c s' /\ is_Some (digit_of c)).
  { unfold s. destruct d; [done|..]; simpl; eauto. }
  destruct Hs as (c & s' & Es & [x Ex]). unfold from_chars_u64. rewrite Es, Ex, <- Es, Hr. done.
Qed.

(** The number of a screen is read back from its text. *)
Lemma from_chars_to_string z : 0 <= z < 2 ^ 64 -> from_chars_u64 (to_string z) = Some z.
Proof.
  intros Hz. destruct z as [|p|p]; [done| |lia]. unfold to_string. simpl.
  unfold DecimalString.NilZero.string_of_uint.
  pose proof (from_chars_digits (Pos.to_uint p) (to_uint_nonnil p)) as H.
  rewrite DecimalPos.Unsigned.of_to in H.
  destruct (Z.ltb_spec (Z.of_N (N.pos p)) (2 ^ 64)) as [_|]; [|lia].
  destruct (Pos.to_uint p) eqn:E; [by pose proof (to_uint_nonnil p)|exact H..].
Qed.

Lemma from_chars_range s z : from_chars_u64 s = Some z -> 0 <= z < 2 ^ 64.
Proof.
  destruct s as [|c s]; [done|]. unfold from_chars_u64. destruct (digit_of c); [|done].
  destruct (read_digits_spec (String c s) 0) as (ds & rest & -> & _).
  pose proof (digits_val_nonneg ds 0). case_match eqn:E; [|done]. intros [= <-].
  apply Z.ltb_lt in E. lia.
Qed.

(** ** Scenes that are entered and left *)

(** Reads the reports of a scene, 0 for the start and anything else for the stop: whether the
    scene is on afterwards, [None] when it starts twice, or, in the strict reading, when it
    stops without a start. *)
Fixpoint in_scene (strict on : bool) (reports : list Z) : option bool :=
  match reports with
  | [] => Some on
  | v :: l =>
      if v =? 0 then if on then None else in_scene strict true l
      else if strict && negb on then None else in_scene strict false l
  end.

Lemma in_scene_app strict l1 l2 : forall on,
  in_scene strict on (l1 ++ l2) = in_scene strict on l1 ≫= fun on => in_scene strict on l2.
Proof.
  induction l1 as [|v l1 IH]; intros on; [done|]. simpl.
  repeat case_match; try done; apply IH.
Qed.

Section facts.
Context {J K : Type} `{!Json J} `{!JsonLaws J} `{!SceneHost J K} `{!BackgroundMode}.

(** The reports of a type among the calls. *)
Definition reports (t : Z) (l : list (SceneCall J)) : list Z :=
  omap (fun c => match c with
                 | CReportData t' v _ => if t' =? t then Some v else None
                 | _ => None
                 end) l.

Lemma reports_app t l1 l2 : reports t (l1 ++ l2) = reports t l1 ++ reports t l2.
Proof. apply omap_app. Qed.

(** ** The invariant *)

(** A payload that takes fields, as slides need it, and an event whose task types can be read. *)
Definition obj (payload : J) : Prop := json_is_object payload = true \/ json_is_null payload = true.
Definition event_ok (d : ResData J) : Prop :=
  (Accept SLIDE_RECOGNIZER (rd_resType d) = true -> obj (rd_payload d))
  /\ (rd_resType d = RES_TYPE_CONTINUOUS_TASK ->
      forall l, json_find TYPE_IDS_KEY (rd_payload d) ≫= json_array = Some l ->
      is_Some (mapM (sch_get_u32 (K := K)) l)).

Definition task_ok (slides : gmap nat SlideRecognizer) (t : SceneTask J) : Prop :=
  match t with
  | TOnDispatch r d => event_ok d /\ (r = SLIDE_RECOGNIZER -> obj (rd_payload d))
  | TStartDetecting self _ => is_Some (slides !! self)
  end.
Definition call_ok (c : SceneCall J) : Prop :=
  match c with CReportData t v p => event_ok (mkResData t v p) /\ t <> RES_TYPE_KEY_PERF_SCENE | _ => True end.

(** The event with which a recognizer of a screen starts to await the end of a fling. *)
Definition on_event (screen : Z) (d : ResData J) : Prop :=
  rd_resType d = RES_TYPE_SLIDE_RECOGNIZE /\ rd_value d = SLIDE_EVENT_ON
  /\ ExtractIdFromPayload (rd_payload d) PAYLOAD_KEY_SCREEN_ID = Some screen.

(** The time-out of a recognizer is pending; the event is in the queue, or among the reports
    that are still to be carried out, those after the first [n]. *)
Definition timed (s : Scenes J) (self : nat) (r : SlideRecognizer) : Prop :=
  exists h p d, listFlingTimeOutTask_ r = Some h /\ sc_timers s !! h = Some (DListFlingEnd self p, d).
Definition queued (q : list (SceneTask J)) (screen : Z) : Prop :=
  exists d, TOnDispatch SLIDE_RECOGNIZER d ∈ q /\ on_event screen d.
Definition reported (l : list (SceneCall J)) (screen : Z) : Prop :=
  exists t v p, CReportData t v p ∈ l /\ on_event screen (mkResData t v p).

(** The handles of a recognizer. *)
Definition owns (r : SlideRecognizer) (h : nat) : Prop :=
  listFlingEndTask_ r = Some h \/ listFlingTimeOutTask_ r = Some h.

(** [n] reports were carried out; the fling of the recognizer [ex] need not be awaited. *)
Record scenes_ok (n : nat) (ex : option nat) (s : Scenes J) : Prop := {
  so_queue : exists q, ffrtQueue_ s = Some q /\ Forall (task_ok (slides_ s)) q;
  so_timers h t d : sc_timers s !! h = Some (t, d) -> (h < sc_next s)%nat
    /\ match t with
       | DExitInstall => exitAppInstall_ (installs s) = Some h
       | DListFlingEnd self p => is_Some (slides_ s !! self) /\ obj p
       end;
  so_exit h : exitAppInstall_ (installs s) = Some h -> (h < sc_next s)%nat
    /\ forall self p d, sc_timers s !! h <> Some (DListFlingEnd self p, d);
  so_slides self r : slides_ s !! self = Some r -> (self < sc_next s)%nat
    /\ (forall h, owns r h -> (h < sc_next s)%nat
        /\ forall t d, sc_timers s !! h = Some (t, d) -> exists p, t = DListFlingEnd self p)
    /\ (forall h, listFlingEndTask_ r = Some h -> listFlingTimeOutTask_ r <> Some h);
  so_instances screen self : instances_ (proxy s) !! screen = Some self ->
    is_Some (slides_ s !! self) /\ 0 <= screen < 2 ^ 64;
  so_distinct sc1 sc2 self :
    instances_ (proxy s) !! sc1 = Some self -> instances_ (proxy s) !! sc2 = Some self -> sc1 = sc2;
  so_displays d screen : displayIdToRsScreenId_ (proxy s) !! d = Some screen -> 0 <= screen < 2 ^ 64;
  so_awaited screen self r : ex <> Some self -> instances_ (proxy s) !! screen = Some self ->
    slides_ s !! self = Some r -> slideState_ r = LIST_FLING ->
    timed s self r \/ (exists q, ffrtQueue_ s = Some q /\ queued q screen)
    \/ reported (drop n (sc_calls s)) screen;
  so_calls : (n <= length (sc_calls s))%nat /\ Forall call_ok (drop n (sc_calls s));
  so_install : in_scene false false (reports RES_TYPE_CONTINUOUS_INSTALL (sc_calls s))
    = Some (isInContinuousInstall_ (installs s));
  so_background : in_scene true false (reports RES_TYPE_BACKGROUND_PERCEIVABLE_SCENE (sc_calls s))
    = Some (isInBackgroundPerceivableScene_ (background s));
}.

Lemma scenes_ok_weaken n ex s : scenes_ok n None s -> scenes_ok n ex s.
Proof. intros [H1 H2 H3 H4 H5 H6 H7 H8 H9 H10 H11]. split; try done. intros ? self ? _. by eapply H8. Qed.

(** The fling of the recognizer is awaited after all, or there is none. *)
Lemma scenes_ok_settle n self s :
  scenes_ok n (Some self) s ->
  (forall screen r, instances_ (proxy s) !! screen = Some self -> slides_ s !! self = Some r ->
     slideState_ r = LIST_FLING ->
     timed s self r \/ (exists q, ffrtQueue_ s = Some q /\ queued q screen)
     \/ reported (drop n (sc_calls s)) screen) ->
  scenes_ok n None s.
Proof.
  intros [H1 H2 H3 H4 H5 H6 H7 H8 H9 H10 H11] Hself. split; try done.
  intros screen self' r _ Hi Hr Hf. destruct (decide (self' = self)) as [->|Hne]; [by eapply Hself|].
  eapply H8; [congruence|done..].
Qed.

(** ** Calls *)

Lemma reported_snoc l c screen : reported l screen -> reported (l ++ [c]) screen.
Proof. intros (t & v & p & Hin & Ho). exists t, v, p. split; [set_solver|done]. Qed.

Lemma ok_record n ex c :
  call_ok c -> reports RES_TYPE_CONTINUOUS_INSTALL [c] = [] ->
  reports RES_TYPE_BACKGROUND_PERCEIVABLE_SCENE [c] = [] -> safe (scenes_ok n ex) (c_record c).
Proof.
  intros Hc Hi Hb. apply safe_modify. intros s [H1 H2 H3 H4 H5 H6 H7 H8 [H9 H9'] H10 H11].
  assert (Hd : drop n (sc_calls s ++ [c]) = drop n (sc_calls s) ++ [c]) by by rewrite drop_app_le.
  split; try done; simpl; rewrite ?Hd, ?reports_app, ?Hi, ?Hb, ?app_nil_r; try done.
  - intros screen self r He Hin Hr Hf. destruct (H8 _ _ _ He Hin Hr Hf) as [?|[?|?]]; auto using reported_snoc.
  - rewrite length_app. split; [lia|]. apply Forall_app. auto.
Qed.

(** A report that is no change of scene. *)
Lemma scene_ok_report n ex t v p :
  event_ok (mkResData t v p) -> t <> RES_TYPE_KEY_PERF_SCENE -> t <> RES_TYPE_CONTINUOUS_INSTALL ->
  t <> RES_TYPE_BACKGROUND_PERCEIVABLE_SCENE -> safe (scenes_ok n ex) (scene_report t v p).
Proof.
  intros Hp Hk Hi Hb. apply ok_record; [done|..]; cbn [reports omap list_omap];
    by rewrite (proj2 (Z.eqb_neq _ _)).
Qed.

Lemma ok_send n ex t v e : safe (scenes_ok n ex) (scene_send t v e).
Proof. by apply ok_record. Qed.

Lemma obj_null : obj json_null.
Proof. right. apply json_null_is_null. Qed.

Lemma event_ok_other t v p : obj p -> t <> RES_TYPE_CONTINUOUS_TASK -> event_ok (mkResData t v p).
Proof. intros Hp Ht. split; [done|]. intros E. by destruct Ht. Qed.
(** No recognizer reads the payload of most events. *)
Lemma event_ok_unread t v p :
  Accept SLIDE_RECOGNIZER t = false -> t <> RES_TYPE_CONTINUOUS_TASK -> event_ok (mkResData t v p).
Proof. intros Ha Ht. split; simpl; [by rewrite Ha|]. intros E. by destruct Ht. Qed.

(** ** Timers *)

(** A pending task goes: no fling but the exempt one was awaited by it. *)
Lemma ok_cancel n ex s h :
  scenes_ok n ex s ->
  (forall self p d, sc_timers s !! h = Some (DListFlingEnd self p, d) ->
     ex = Some self \/ forall r, slides_ s !! self = Some r -> listFlingTimeOutTask_ r <> Some h) ->
  scenes_ok n ex (s <| sc_timers ::= delete h |>).
Proof.
  intros [H1 H2 H3 H4 H5 H6 H7 H8 H9 H10 H11] Hh. split; try done; simpl.
  - intros h' t d [_ Ht]%lookup_delete_Some. by eapply H2.
  - intros h' He. destruct (H3 h' He) as [? Hn]. split; [done|].
    intros self p d [_ Ht]%lookup_delete_Some. by eapply Hn.
  - intros self r Hr. destruct (H4 self r Hr) as (? & Ho & ?). split_and!; [done| |done].
    intros h' Hh'. destruct (Ho h' Hh') as [? Ht]. split; [done|].
    intros t d [_ E]%lookup_delete_Some. by eapply Ht.
  - intros screen self r He Hi Hr Hf. destruct (H8 _ _ _ He Hi Hr Hf) as [(h' & p & d & Eh & Et)|?]; [left|auto].
    exists h', p, d. split; [done|]. simpl. rewrite lookup_delete_ne; [done|]. intros <-.
    destruct (Hh _ _ _ Et) as [?|Hr']; [congruence|by eapply Hr'].
Qed.

(** A new pending task with a new handle. *)
Lemma scene_ok_submit n ex s self p d :
  is_Some (slides_ s !! self) -> obj p -> scenes_ok n ex s ->
  scenes_ok n ex (s <| sc_timers ::= <[sc_next s := (DListFlingEnd self p, d)]> |> <| sc_next ::= S |>)
  /\ sc_timers s !! sc_next s = None.
Proof.
  intros Hself Hp [H1 H2 H3 H4 H5 H6 H7 H8 H9 H10 H11].
  assert (Hnew : sc_timers s !! sc_next s = None).
  { destruct (sc_timers s !! sc_next s) as [[t d']|] eqn:E; [|done]. destruct (H2 _ _ _ E). lia. }
  split; [|done]. split; try done; simpl.
  - intros h t d' [[<- [= <- <-]]|[? Ht]]%lookup_insert_Some; [auto with lia|].
    destruct (H2 _ _ _ Ht). auto with lia.
  - intros h He. destruct (H3 h He) as [? Hn]. split; [lia|].
    intros self' p' d' [[? ?]|[? Ht]]%lookup_insert_Some; [lia|by eapply Hn].
  - intros self' r Hr. destruct (H4 self' r Hr) as (? & Ho & ?). split_and!; [lia| |done].
    intros h' Hh'. destruct (Ho h' Hh') as [? Ht]. split; [lia|].
    intros t d' [[? ?]|[? E]]%lookup_insert_Some; [lia|by eapply Ht].
  - intros screen self' r He Hi Hr Hf. destruct (H8 _ _ _ He Hi Hr Hf) as [(h' & p' & d' & Eh & Et)|?]; [left|auto].
    exists h', p', d'. split; [done|]. simpl. rewrite lookup_insert_ne; [done|]. intros <-. congruence.
Qed.

(** ** Recognizers *)

(** A recognizer changes.  Its handles are old ones or those of its own tasks, and if it is in
    a fling afterwards, the fling is awaited. *)
Lemma ok_set_slide n ex ex' s self f r :
  scenes_ok n ex s -> slides_ s !! self = Some r ->
  (forall h, owns (f r) h -> owns r h \/ exists p d, sc_timers s !! h = Some (DListFlingEnd self p, d)) ->
  (forall h, listFlingEndTask_ (f r) = Some h -> listFlingTimeOutTask_ (f r) <> Some h) ->
  ex' = ex \/ ex = Some self ->
  (slideState_ (f r) = LIST_FLING -> ex' <> Some self ->
     timed s self (f r)
     \/ (forall screen, instances_ (proxy s) !! screen = Some self ->
          (exists q, ffrtQueue_ s = Some q /\ queued q screen) \/ reported (drop n (sc_calls s)) screen)
     \/ ex <> Some self /\ slideState_ r = LIST_FLING /\ listFlingTimeOutTask_ (f r) = listFlingTimeOutTask_ r) ->
  scenes_ok n ex' (s <| slides_ ::= alter f self |>).
Proof.
  intros [H1 H2 H3 H4 H5 H6 H7 H8 H9 H10 H11] Er Hown Hne Hex Hfl.
  assert (Hsome : forall i, is_Some (alter f self (slides_ s) !! i) <-> is_Some (slides_ s !! i)).
  { intros i. apply lookup_alter_is_Some. }
  split; try done; simpl.
  - destruct H1 as (q & Eq & Hq). exists q. split; [done|]. eapply Forall_impl; [exact Hq|].
    intros []; simpl; [done|]. by rewrite Hsome.
  - intros h t d Ht. destruct (H2 _ _ _ Ht) as [? Hk]. split; [done|].
    destruct t; [done|]. by rewrite Hsome.
  - intros self' r' [(-> & r0 & E & ->)|[? Hr]]%lookup_alter_Some; [|by apply H4].
    rewrite Er in E. injection E as <-. destruct (H4 _ _ Er) as (? & Ho & Hd).
    split_and!; [done| |done]. intros h [Hh|(p & d & Ht)]%Hown; [by apply Ho|].
    split; [by destruct (H2 _ _ _ Ht)|]. intros t d' Ht'. rewrite Ht in Ht'. injection Ht' as <- <-. by exists p.
  - intros screen self' Hi. rewrite Hsome. by eapply H5.
  - intros screen self' r' He Hi [(-> & r0 & E & ->)|[? Hr]]%lookup_alter_Some Hf.
    + rewrite Er in E. injection E as <-.
      destruct (Hfl Hf He) as [?|[Hc|(Hex' & Hf' & Et)]]; [auto|auto|].
      unfold timed. rewrite Et. by eapply H8.
    + eapply H8; [|done..]. destruct Hex; congruence.
Qed.

(** A recognizer changes, but not its handles, and does not start a fling. *)
Lemma ok_upd_slide n ex self f :
  (forall r, listFlingEndTask_ (f r) = listFlingEndTask_ r /\ listFlingTimeOutTask_ (f r) = listFlingTimeOutTask_ r
     /\ (slideState_ (f r) = LIST_FLING -> slideState_ r = LIST_FLING)) ->
  safe (scenes_ok n ex) (upd_slide self f).
Proof.
  intros Hf. apply safe_modify. intros s Hs. destruct (slides_ s !! self) as [r|] eqn:Er.
  - destruct (Hf r) as (E1 & E2 & E3).
    eapply (ok_set_slide n ex ex); [done|done| | |by left|].
    + intros h. unfold owns. rewrite E1, E2. auto.
    + rewrite E1, E2. apply (so_slides _ _ _ Hs self r Er).
    + intros Hl He. right; right. auto.
  - replace (s <| slides_ ::= alter f self |>) with s; [done|].
    destruct s. cbv [over]. simpl in *. f_equal. symmetry. apply alter_id. congruence.
Qed.

(** A recognizer stops its fling. *)
Lemma ok_upd_idle n ex self f :
  (forall r, listFlingEndTask_ (f r) = listFlingEndTask_ r /\ listFlingTimeOutTask_ (f r) = listFlingTimeOutTask_ r
     /\ slideState_ (f r) <> LIST_FLING) ->
  ex = None \/ ex = Some self ->
  spec False (scenes_ok n ex) (upd_slide self f) (fun _ => scenes_ok n None).
Proof.
  intros Hf Hex. apply spec_modify. intros s Hs. destruct (slides_ s !! self) as [r|] eqn:Er.
  - destruct (Hf r) as (E1 & E2 & E3).
    eapply (ok_set_slide n ex None); [done|done| | |by destruct Hex; auto|].
    + intros h. unfold owns. rewrite E1, E2. auto.
    + rewrite E1, E2. apply (so_slides _ _ _ Hs self r Er).
    + done.
  - replace (s <| slides_ ::= alter f self |>) with s.
    + destruct Hex as [->| ->]; [done|]. eapply scenes_ok_settle; [done|]. congruence.
    + destruct s. cbv [over]. simpl in *. f_equal. symmetry. apply alter_id. congruence.
Qed.

(** ** Waiting for the end of a fling *)

Lemma run_get_slide {B} self (k : SlideRecognizer -> ST (Scenes J) B) s r :
  slides_ s !! self = Some r -> (get_slide self ≫= k) s = k r s.
Proof. intros E. unfold get_slide, mbind, ST_bind. by rewrite E. Qed.

(** A handle of a recognizer is skipped; the other one stays. *)
Lemma ok_skip n ex s self r o :
  scenes_ok n ex s -> slides_ s !! self = Some r -> (forall h, o = Some h -> owns r h) ->
  (ex = Some self \/ forall h, o = Some h -> listFlingTimeOutTask_ r <> Some h) ->
  exists s', skip_task o s = Some (tt, s') /\ scenes_ok n ex s' /\ slides_ s' = slides_ s
    /\ proxy s' = proxy s /\ sc_calls s' = sc_calls s.
Proof.
  intros Hs Er Ho Hex. destruct o as [h|]; [|by exists s].
  eexists. split_and!; [done| |done..]. apply ok_cancel; [done|]. intros self' p d Ht.
  destruct (so_slides _ _ _ Hs self r Er) as (_ & Hown & _).
  destruct (Hown h (Ho _ eq_refl)) as [_ Hk]. destruct (Hk _ _ Ht) as [p' [= -> ->]].
  destruct Hex as [->|Hne]; [by left|right]. intros r' Er'. rewrite Er in Er'. injection Er' as <-. eauto.
Qed.

Lemma fresh_not_owned n ex s self r :
  scenes_ok n ex s -> slides_ s !! self = Some r -> ~ owns r (sc_next s).
Proof.
  intros Hs Er Ho. destruct (so_slides _ _ _ Hs self r Er) as (_ & Hown & _).
  destruct (Hown _ Ho). lia.
Qed.

Lemma ok_await_end n ex self p s r :
  scenes_ok n ex s -> slides_ s !! self = Some r -> obj p ->
  exists s', await_end self p s = Some (tt, s') /\ scenes_ok n ex s' /\ proxy s' = proxy s
    /\ is_Some (slides_ s' !! self).
Proof.
  intros Hs Er Hp. unfold await_end. rewrite (run_get_slide self _ s r Er).
  destruct (ok_skip n ex s self r (listFlingEndTask_ r)) as (s1 & E1 & Hs1 & F1 & G1 & _);
    [done|done|by left| |].
  { right. intros h. destruct (so_slides _ _ _ Hs self r Er) as (_ & _ & Hd). apply Hd. }
  rewrite (run_bind _ _ _ _ _ E1). rewrite <- F1 in Er.
  destruct (scene_ok_submit n ex s1 self p (listFlingEndTime_ r)) as [Hs2 Hnew]; [by eexists|done|done|].
  eexists. split_and!; [done| |done|simpl; apply lookup_alter_is_Some; by eexists].
  eapply (ok_set_slide n ex ex _ self _ r Hs2); [done| | |by left|].
  - intros h [Hh|Hh]; simpl in Hh; [injection Hh as <-; right|by left; right].
    exists p, (listFlingEndTime_ r). apply lookup_insert_eq.
  - simpl. intros h [= <-] Hc. eapply (fresh_not_owned n ex s1); [done..|]. by right.
  - intros Hf He. right; right. split; [congruence|done].
Qed.

Lemma ok_await_timeout n ex self p s r :
  scenes_ok n ex s -> slides_ s !! self = Some r -> obj p -> ex = None \/ ex = Some self ->
  exists s', await_timeout self p s = Some (tt, s') /\ scenes_ok n None s' /\ proxy s' = proxy s
    /\ is_Some (slides_ s' !! self).
Proof.
  intros Hs Er Hp Hex. assert (Hs0 : scenes_ok n (Some self) s).
  { destruct Hex as [->| ->]; [by apply scenes_ok_weaken|done]. }
  unfold await_timeout. rewrite (run_get_slide self _ s r Er).
  destruct (ok_skip n (Some self) s self r (listFlingTimeOutTask_ r)) as (s1 & E1 & Hs1 & F1 & G1 & _);
    [done|done|by right|by left|].
  rewrite (run_bind _ _ _ _ _ E1). rewrite <- F1 in Er.
  destruct (scene_ok_submit n (Some self) s1 self p (listFlingTimeOutTime_ r)) as [Hs2 Hnew]; [by eexists|done|done|].
  eexists. split_and!; [done| |done|simpl; apply lookup_alter_is_Some; by eexists].
  eapply (ok_set_slide n (Some self) None _ self _ r Hs2); [done| | |by right|].
  - intros h [Hh|Hh]; simpl in Hh; [by left; left|injection Hh as <-; right].
    exists p, (listFlingTimeOutTime_ r). apply lookup_insert_eq.
  - simpl. intros h Hc [= <-]. eapply (fresh_not_owned n (Some self) s1); [done..|]. by left.
  - intros Hf _. left. exists (sc_next s1), p, (listFlingTimeOutTime_ r). split; [done|]. apply lookup_insert_eq.
Qed.

(** ** Payloads *)

Lemma set_field_run key v p s : obj p ->
  set_field key v p s = Some (json_set key v p, s) /\ obj (json_set key v p).
Proof.
  intros Hp. unfold set_field. split; [|left; by apply json_set_object].
  by destruct Hp as [->| ->]; rewrite ?orb_true_r.
Qed.

Lemma fill_run self p s r :
  slides_ s !! self = Some r -> obj p ->
  exists p', FillRealPidAndUid self p s = Some (p', s) /\ obj p'
    /\ find_string "screenId" p' = find_string "screenId" p.
Proof.
  intros Er Hp. unfold FillRealPidAndUid. rewrite (run_get_slide self _ s r Er).
  assert (Hset : forall (b : bool) key v q, obj q -> key <> "screenId" ->
    exists q', (if b then mret q else set_field key (json_of_string v) q) s = Some (q', s)
      /\ obj q' /\ find_string "screenId" q' = find_string "screenId" q).
  { intros b key v q Hq Hk. destruct b; [by exists q|].
    destruct (set_field_run key (json_of_string v) q s Hq) as [E Ho].
    eexists. split_and!; [exact E|done|by apply find_string_set_ne]. }
  destruct (Hset (bool_decide (slidePid_ r = "")) "clientPid" (slidePid_ r) p) as (p1 & E1 & Ho1 & S1); [done..|].
  destruct (Hset (bool_decide (slideUid_ r = "")) "callingUid" (slideUid_ r) p1) as (p2 & E2 & Ho2 & S2); [done..|].
  destruct (Hset false "scrTid" (scrTid_ r) p2) as (p3 & E3 & Ho3 & S3); [done..|].
  rewrite (run_bind _ _ _ _ _ E1), (run_bind _ _ _ _ _ E2). exists p3. split_and!; [done..|]. congruence.
Qed.

(** A task joins the queue. *)
Lemma ok_submit_task n ex t s :
  scenes_ok n ex s -> task_ok (slides_ s) t ->
  exists s', SubmitTask t s = Some (tt, s') /\ scenes_ok n ex s' /\ slides_ s' = slides_ s
    /\ proxy s' = proxy s /\ sc_calls s' = sc_calls s
    /\ forall q, ffrtQueue_ s = Some q -> ffrtQueue_ s' = Some (q ++ [t]).
Proof.
  intros [(q & Eq & Hq) H2 H3 H4 H5 H6 H7 H8 H9 H10 H11] Ht. unfold SubmitTask.
  rewrite run_get_bind, Eq. eexists. split_and!; [done| |done..|by intros ? [= ->]].
  split; try done; simpl.
  - exists (q ++ [t]). split; [done|]. apply Forall_app. auto.
  - intros sc i r He Hi Hr Hf. destruct (H8 _ _ _ He Hi Hr Hf) as [?|[(q' & Eq' & d & Hd & Ho)|?]]; [auto| |auto].
    right; left. exists (q ++ [t]). split; [done|]. exists d. split; [|done].
    rewrite Eq in Eq'. injection Eq' as <-. set_solver.
Qed.

(** ** Handlers of the slide recognizer *)

Section handlers.
(** The recognizer and the only screen that may name it. *)
Context (n : nat) (screen : Z) (self : nat).

Definition at_home (s : Scenes J) : Prop :=
  is_Some (slides_ s !! self) /\ forall sc, instances_ (proxy s) !! sc = Some self -> sc = screen.
#[local] Abbreviation L ex := (fun s => scenes_ok n ex s /\ at_home s).

Lemma at_home_same (s s' : Scenes J) :
  at_home s -> proxy s' = proxy s -> is_Some (slides_ s' !! self) -> at_home s'.
Proof. intros [_ H2] Hp Hs. split; [done|]. by rewrite Hp. Qed.

(** What keeps the invariant and leaves recognizers and screens where they are. *)
Lemma safe_home {A} ex (m : ST (Scenes J) A) :
  safe (scenes_ok n ex) m -> keeps at_home m -> safe (L ex) m.
Proof.
  intros H1 H2 s [Hs Hh]. specialize (H1 s Hs). specialize (H2 s Hh).
  by destruct (m s) as [[a s']|].
Qed.

Lemma home_upd i f : keeps at_home (upd_slide i f).
Proof. apply keeps_modify. intros s [H1 H2]. split; [by apply lookup_alter_is_Some|done]. Qed.
Lemma home_record c : keeps at_home (c_record c).
Proof. by apply keeps_modify. Qed.
Lemma home_skip o : keeps at_home (skip_task o).
Proof. destruct o; [by apply keeps_modify|apply keeps_ret]. Qed.
#[local] Hint Resolve home_upd home_record home_skip : keeps.

Lemma safe_send ex v p : safe (L ex) (frame_report v p).
Proof. apply safe_home; [apply ok_send|apply home_record]. Qed.
Lemma safe_report ex v p : obj p -> safe (L ex) (scene_report RES_TYPE_SLIDE_RECOGNIZE v p).
Proof.
  intros Hp. apply safe_home; [|apply home_record]. apply scene_ok_report; [by apply event_ok_other|done..].
Qed.
Lemma safe_same ex f :
  (forall r, listFlingEndTask_ (f r) = listFlingEndTask_ r /\ listFlingTimeOutTask_ (f r) = listFlingTimeOutTask_ r
     /\ (slideState_ (f r) = LIST_FLING -> slideState_ r = LIST_FLING)) ->
  safe (L ex) (upd_slide self f).
Proof. intros Hf. apply safe_home; [by apply ok_upd_slide|apply home_upd]. Qed.
Lemma spec_idle ex f :
  (forall r, listFlingEndTask_ (f r) = listFlingEndTask_ r /\ listFlingTimeOutTask_ (f r) = listFlingTimeOutTask_ r
     /\ slideState_ (f r) <> LIST_FLING) ->
  ex = None \/ ex = Some self ->
  spec False (L ex) (upd_slide self f) (fun _ => L None).
Proof.
  intros Hf Hex s [Hs Hh]. split; [by apply (ok_upd_idle n ex self f Hf Hex s)|by apply (home_upd self f s)].
Qed.
Lemma safe_await_end ex p : obj p -> safe (L ex) (await_end self p).
Proof.
  intros Hp s [Hs Hh]. destruct (proj1 Hh) as [r Er].
  destruct (ok_await_end n ex self p s r Hs Er Hp) as (s' & -> & Hs' & Hpr & Hse).
  split; [done|by eapply at_home_same].
Qed.
Lemma spec_await_timeout ex p :
  obj p -> ex = None \/ ex = Some self -> spec False (L ex) (await_timeout self p) (fun _ => L None).
Proof.
  intros Hp Hex s [Hs Hh]. destruct (proj1 Hh) as [r Er].
  destruct (ok_await_timeout n ex self p s r Hs Er Hp Hex) as (s' & -> & Hs' & Hpr & Hse).
  split; [done|by eapply at_home_same].
Qed.
#[local] Hint Resolve safe_send : safe.
#[local] Hint Extern 2 (safe _ (scene_report _ _ _)) => apply safe_report; assumption : safe.
#[local] Hint Extern 2 (safe _ (await_end _ _)) => apply safe_await_end; assumption : safe.
#[local] Hint Extern 2 (safe _ (upd_slide _ _)) => apply safe_same; by intros [] : safe.

(** Reads the recognizer. *)
Lemma spec_get_slide {B} ex (k : SlideRecognizer -> ST (Scenes J) B) Q :
  (forall r, spec False (fun s => L ex s /\ slides_ s !! self = Some r) (k r) Q) ->
  spec False (L ex) (get_slide self ≫= k) Q.
Proof.
  intros Hk s [Hs Hh]. destruct (proj1 Hh) as [r Er]. rewrite (run_get_slide self k s r Er).
  by apply Hk.
Qed.
Lemma safe_get_slide {B} ex (k : SlideRecognizer -> ST (Scenes J) B) :
  (forall r, safe (L ex) (k r)) -> safe (L ex) (get_slide self ≫= k).
Proof. intros Hk. apply spec_get_slide. intros r s [Hs _]. by apply Hk. Qed.
Lemma spec_fill {B} ex p (k : J -> ST (Scenes J) B) Q :
  obj p -> (forall p', obj p' -> find_string "screenId" p' = find_string "screenId" p ->
              spec False (L ex) (k p') Q) ->
  spec False (L ex) (FillRealPidAndUid self p ≫= k) Q.
Proof.
  intros Hp Hk s [Hs Hh]. destruct (proj1 Hh) as [r Er].
  destruct (fill_run self p s r Er Hp) as (p' & E & Hp' & Hf). rewrite (run_bind _ _ _ _ _ E). by apply Hk.
Qed.

(** A step that keeps the condition, and the rest. *)
Lemma safe_then {A} P (m : ST (Scenes J) unit) (k : ST (Scenes J) A) Q :
  safe P m -> spec False P k Q -> spec False P (m;; k) Q.
Proof. intros H1 H2. by apply spec_bind with (R := fun _ => P). Qed.

(** Skips one or both handles of a recognizer whose fling is exempt. *)
Lemma spec_skip r o :
  (forall h, o = Some h -> owns r h) ->
  safe (fun s => L (Some self) s /\ slides_ s !! self = Some r) (skip_task o).
Proof.
  intros Ho s [[Hs Hh] Er].
  destruct (ok_skip n (Some self) s self r o Hs Er Ho) as (s' & -> & Hs' & E1 & E2 & _); [by left|].
  split; [split; [done|eapply at_home_same; [done|done|]]|]; rewrite E1; [apply Hh|done].
Qed.

Lemma spec_ReportListFlingLockedEnd ex p :
  obj p -> ex = None \/ ex = Some self ->
  spec False (L ex) (ReportListFlingLockedEnd self p) (fun _ => L None).
Proof.
  intros Hp Hex. apply spec_get_slide. intros r. destruct (decide (slideState_ r = LIST_FLING)) as [Hf|Hf].
  - rewrite bool_decide_true by done. cbn [negb].
    apply spec_conseq with (P' := L ex) (Q' := fun _ => L None); [|by intros s []|done].
    apply safe_then; [by apply safe_report|].
    apply safe_then; [by apply safe_send|]. by apply spec_idle.
  - rewrite bool_decide_false by done. cbn [negb]. apply spec_ret. intros s [[Hs Hh] Er]. split; [|done].
    destruct Hex as [->| ->]; [done|]. eapply scenes_ok_settle; [done|]. congruence.
Qed.

Lemma safe_HandleSlideOFFEvent p : safe (L None) (HandleSlideOFFEvent self p).
Proof.
  apply spec_get_slide. intros r.
  apply spec_conseq with (P' := fun s => L (Some self) s /\ slides_ s !! self = Some r) (Q' := fun _ => L None);
    [|intros s [[Hs Hh] Er]; split; [split; [by apply scenes_ok_weaken|done]|done]|done].
  apply safe_then; [apply spec_skip; by left|].
  apply safe_then; [apply spec_skip; by right|].
  apply spec_conseq with (P' := L (Some self)) (Q' := fun _ => L None); [|by intros s []|done].
  apply safe_then; [apply safe_send|]. apply spec_idle; [by intros []|by right].
Qed.

Lemma safe_HandleListFlingStart ex p :
  obj p -> ex = None \/ ex = Some self ->
  spec False (L ex) (HandleListFlingStart self p) (fun _ => L None).
Proof.
  intros Hp Hex. apply safe_then; [apply safe_send|].
  apply safe_then; [by apply safe_await_end|]. by apply spec_await_timeout.
Qed.

Lemma safe_HandleSendFrameEvent p : obj p -> safe (L None) (HandleSendFrameEvent self p).
Proof. intros Hp. apply safe_get_slide. intros r. destruct (slideState_ r); safe_auto. Qed.

Lemma safe_ListFlingEnd p : obj p -> safe (L None) (ListFlingEnd self p).
Proof.
  intros Hp. apply spec_get_slide. intros r. destruct (decide (slideState_ r = LIST_FLING)) as [Hf|Hf].
  2:{ rewrite bool_decide_false by done. cbn [negb]. apply spec_ret. by intros s []. }
  rewrite bool_decide_true by done. cbn [negb].
  apply spec_conseq with (P' := fun s => L (Some self) s /\ slides_ s !! self = Some r) (Q' := fun _ => L None);
    [|intros s [[Hs Hh] Er]; split; [split; [by apply scenes_ok_weaken|done]|done]|done].
  apply safe_then; [apply spec_skip; by left|].
  apply safe_then; [apply spec_skip; by right|].
  apply spec_bind with (R := fun _ => L (Some self)).
  - apply spec_modify. intros s [[Hs Hh] Er]. split.
    + eapply (ok_set_slide n (Some self)); [done..| | |by left|done]; [by intros h [|]|done].
    + eapply at_home_same; [done|done|]. simpl. apply lookup_alter_is_Some. by eexists.
  - intros _. apply spec_fill; [done|]. intros p' Hp' _. apply spec_ReportListFlingLockedEnd; auto.
Qed.

Context (Hscreen : 0 <= screen < 2 ^ 64).

(** A payload that names the screen. *)
Definition names_screen (p : J) : Prop := obj p /\ find_string "screenId" p = Some (to_string screen).

Lemma names_on_event p : names_screen p -> on_event screen (mkResData RES_TYPE_SLIDE_RECOGNIZE SLIDE_EVENT_ON p).
Proof.
  intros [_ Hp]. split_and!; [done..|]. unfold ExtractIdFromPayload, PAYLOAD_KEY_SCREEN_ID. simpl. rewrite Hp.
  by apply from_chars_to_string.
Qed.

(** The start of a fling is reported, so it will be awaited. *)
Lemma spec_start_fling p :
  names_screen p ->
  safe (L None) (scene_report RES_TYPE_SLIDE_RECOGNIZE SLIDE_EVENT_ON p;;
                 upd_slide self (fun r => r <| slideState_ := LIST_FLING |>)).
Proof.
  intros Hp s [Hs Hh]. destruct (proj1 Hh) as [r Er].
  assert (Hs1 : scenes_ok n None (s <| sc_calls ::= fun l => l ++ [CReportData RES_TYPE_SLIDE_RECOGNIZE SLIDE_EVENT_ON p] |>)).
  { assert (Hev : event_ok (mkResData RES_TYPE_SLIDE_RECOGNIZE SLIDE_EVENT_ON p)) by (apply event_ok_other; [apply Hp|done]).
    apply (scene_ok_report n None _ _ _ Hev); done. }
  split.
  - eapply (ok_set_slide n None None _ self); [exact Hs1|done|by left| |by left|].
    + simpl. apply (so_slides _ _ _ Hs self r Er).
    + intros _ _. right; left. intros sc Hsc. right. destruct Hh as [_ Hh]. rewrite (Hh sc Hsc).
      exists RES_TYPE_SLIDE_RECOGNIZE, SLIDE_EVENT_ON, p. split; [|by apply names_on_event].
      simpl. rewrite drop_app_le by apply Hs. set_solver.
  - eapply at_home_same; [exact Hh|done|]. simpl. apply lookup_alter_is_Some. by eexists.
Qed.

Lemma safe_HandleClickEvent v p : names_screen p -> safe (L None) (HandleClickEvent self v p).
Proof.
  intros Hp. unfold HandleClickEvent. apply safe_then.
  { destruct (v =? TOUCH_EVENT_DOWN); [apply safe_bind; [apply safe_ListFlingEnd, Hp|intros _]|]; safe_auto. }
  apply safe_get_slide. intros r. case_match; [apply safe_ret|]. apply safe_when. intros _.
  apply safe_bind; [|intros _].
  - apply safe_when. intros _. apply spec_fill; [apply Hp|]. intros p' Hp' _. by apply safe_report.
  - case_match; [|apply safe_ret]. apply safe_when. intros _. apply safe_then; [apply safe_send|].
    apply spec_fill; [apply Hp|]. intros p' Hp' Hf. apply spec_start_fling. split; [done|].
    rewrite Hf. apply Hp.
Qed.

Lemma safe_HandleSlideDetecting p : safe (L None) (HandleSlideDetecting self p).
Proof.
  apply safe_then; [safe_auto|]. intros s [Hs Hh].
  destruct (ok_submit_task n None (TStartDetecting self p) s Hs) as (s' & -> & Hs' & E1 & E2 & _); [apply Hh|].
  split; [done|]. eapply at_home_same; [done|done|]. rewrite E1. apply Hh.
Qed.

Lemma safe_StartDetecting k p : safe (L None) (StartDetecting k self p).
Proof. unfold StartDetecting. safe_auto. Qed.

(** An event; the fling may be exempt when the event makes the recognizer await its end. *)
Lemma spec_Slide_OnDispatchResource ex t v p :
  names_screen p ->
  ex = None \/ ex = Some self /\ t = RES_TYPE_SLIDE_RECOGNIZE /\ v = SLIDE_EVENT_ON ->
  spec False (L ex) (Slide_OnDispatchResource self t v p) (fun _ => L None).
Proof.
  intros Hp [->|(-> & -> & ->)].
  - unfold Slide_OnDispatchResource, HandleSlideEvent. repeat case_match; try (apply safe_ret).
    + apply safe_HandleSlideDetecting.
    + apply safe_HandleListFlingStart; [apply Hp|by left].
    + apply safe_HandleSlideOFFEvent.
    + apply spec_fill; [apply Hp|]. intros p' Hp' _. by apply safe_HandleSendFrameEvent.
    + by apply safe_HandleClickEvent.
    + apply safe_when. intros _. by apply safe_HandleClickEvent.
  - apply safe_HandleListFlingStart; [apply Hp|by right].
Qed.
End handlers.

(** ** The proxy *)

(** The display manager gives numbers of 64 bits. *)
Context (screen_u64 : forall d (k : K) screen,
  sch_ConvertScreenIdToRsScreenId (J := J) d k = Some screen -> 0 <= screen < 2 ^ 64).

Lemma ok_display n ex d screen s :
  0 <= screen < 2 ^ 64 -> scenes_ok n ex s ->
  scenes_ok n ex (s <| proxy ::= fun p => p <| displayIdToRsScreenId_ ::= <[d := screen]> |> |>).
Proof.
  intros Hsc [H1 H2 H3 H4 H5 H6 H7 H8 H9 H10 H11]. split; try done. simpl.
  intros d' sc [[_ <-]|[_ Hd]]%lookup_insert_Some; [done|by eapply H7].
Qed.

Lemma screen_of_run n ex k t v p s :
  scenes_ok n ex s ->
  exists screen s', screen_of k t v p s = Some (screen, s') /\ scenes_ok n ex s' /\ 0 <= screen < 2 ^ 64
    /\ instances_ (proxy s') = instances_ (proxy s)
    /\ forall sc, ExtractIdFromPayload p PAYLOAD_KEY_SCREEN_ID = Some sc -> screen = sc.
Proof.
  intros Hs. unfold screen_of.
  destruct (ExtractIdFromPayload p PAYLOAD_KEY_SCREEN_ID) as [sc|] eqn:E1.
  { apply bind_Some in E1 as (text & _ & Et). pose proof (from_chars_range _ _ Et).
    exists sc, s. split_and!; try done; [lia..|congruence]. }
  assert (H0 : 0 <= DEFAULT_SCREEN_ID < 2 ^ 64) by done.
  destruct (ExtractIdFromPayload p PAYLOAD_KEY_DISPLAY_ID) as [d|].
  2:{ exists DEFAULT_SCREEN_ID, s. by split_and!. }
  case_match.
  - unfold ConvertDisplayIdToRsScreenId. rewrite run_get_bind.
    destruct (displayIdToRsScreenId_ (proxy s) !! d) as [sc|] eqn:E2.
    { pose proof (so_displays _ _ _ Hs _ _ E2). exists sc, s. split_and!; [done|done|lia|lia|done|done]. }
    destruct (sch_ConvertScreenIdToRsScreenId d k) as [sc|] eqn:E3; [|exists DEFAULT_SCREEN_ID, s; by split_and!].
    pose proof (screen_u64 _ _ _ E3).
    eexists sc, _. split_and!; [done|by apply ok_display|lia|lia|done|done].
  - rewrite run_get_bind. eexists _, s. split; [done|]. split; [done|]. split; [|done].
    destruct (displayIdToRsScreenId_ (proxy s) !! d) as [sc|] eqn:E2; [by eapply so_displays|done].
Qed.

Lemma ok_forget n ex (P : Z * nat -> Prop) `{!forall x, Decision (P x)} s :
  scenes_ok n ex s -> scenes_ok n ex (s <| proxy ::= fun p => p <| instances_ ::= filter P |> |>).
Proof.
  intros [H1 H2 H3 H4 H5 H6 H7 H8 H9 H10 H11]. split; try done; simpl.
  - intros sc i [Hi _]%map_lookup_filter_Some. by eapply H5.
  - intros sc1 sc2 i [Hi _]%map_lookup_filter_Some [Hj _]%map_lookup_filter_Some. by eapply H6.
  - intros sc i r He [Hi _]%map_lookup_filter_Some. by eapply H8.
Qed.

Lemma ok_create n ex screen r s :
  0 <= screen < 2 ^ 64 -> scenes_ok n ex s -> listFlingEndTask_ r = None -> listFlingTimeOutTask_ r = None ->
  slideState_ r = IDLE -> instances_ (proxy s) !! screen = None ->
  scenes_ok n ex (s <| sc_next ::= S |> <| slides_ ::= <[sc_next s := r]> |>
                    <| proxy ::= fun p => p <| instances_ ::= <[screen := sc_next s]> |> |>).
Proof.
  intros Hsc [H1 H2 H3 H4 H5 H6 H7 H8 H9 H10 H11] Hr1 Hr2 Hr3 Hnone.
  assert (Hfresh : slides_ s !! sc_next s = None).
  { destruct (slides_ s !! sc_next s) as [r'|] eqn:E; [|done]. destruct (H4 _ _ E). lia. }
  assert (Hmono : forall i, is_Some (slides_ s !! i) -> is_Some (<[sc_next s := r]> (slides_ s) !! i)).
  { intros i. rewrite lookup_insert_is_Some'. auto. }
  assert (Hnew : forall sc, instances_ (proxy s) !! sc <> Some (sc_next s)).
  { intros sc Hc. destruct (H5 _ _ Hc) as [[r' E] _]. congruence. }
  split; try done; simpl.
  - destruct H1 as (q & Eq & Hq). exists q. split; [done|]. eapply Forall_impl; [exact Hq|].
    intros []; simpl; auto.
  - intros h t d Ht. destruct (H2 _ _ _ Ht) as [? Hk]. split; [lia|]. destruct t; [done|]. by destruct Hk; auto.
  - intros h Hh. destruct (H3 h Hh). split; [lia|done].
  - intros i r' [[<- <-]|[? E]]%lookup_insert_Some.
    + split_and!; [lia| |congruence]. intros h [?|?]; congruence.
    + destruct (H4 _ _ E) as (? & Ho & ?). split_and!; [lia| |done]. intros h Hh. destruct (Ho h Hh). split; [lia|done].
  - intros sc i [[<- <-]|[_ Hi]]%lookup_insert_Some; [split; [rewrite lookup_insert_eq; eauto|done]|].
    destruct (H5 _ _ Hi). auto.
  - intros sc1 sc2 i [[<- <-]|[_ Hi]]%lookup_insert_Some [[<- E]|[_ Hj]]%lookup_insert_Some;
      [done|by destruct (Hnew sc2)|subst i; by destruct (Hnew sc1)|by eapply H6].
  - intros sc i r' He [[<- <-]|[_ Hi]]%lookup_insert_Some; [rewrite lookup_insert_eq; intros [= <-]; congruence|].
    rewrite lookup_insert_ne by (intros <-; by destruct (Hnew sc)). by eapply H8.
Qed.

Lemma GetOrCreateInstance_run n ex screen s :
  0 <= screen < 2 ^ 64 -> scenes_ok n ex s ->
  exists self s', GetOrCreateInstance screen s = Some (self, s') /\ scenes_ok n ex s' /\ at_home screen self s'
    /\ forall i, instances_ (proxy s) !! screen = Some i -> self = i.
Proof.
  intros Hsc Hs. unfold GetOrCreateInstance. rewrite run_get_bind.
  destruct (instances_ (proxy s) !! screen) as [i|] eqn:E.
  { exists i, s. split_and!; [done..| |by intros ? [= ->]]. destruct (so_instances _ _ _ Hs _ _ E) as [Hi _].
    split; [done|]. intros sc Hi'. by eapply (so_distinct _ _ _ Hs). }
  cbv zeta. set (r := new_SlideRecognizer <| listFlingTimeOutTime_ := _ |> <| listFlingEndTime_ := _ |>
                                          <| listFlingSpeedLimit_ := _ |>).
  assert (Hs1 := ok_create n ex screen r s Hsc Hs eq_refl eq_refl eq_refl E).
  assert (Hh : at_home screen (sc_next s) (s <| sc_next ::= S |> <| slides_ ::= <[sc_next s := r]> |>
                    <| proxy ::= fun p => p <| instances_ ::= <[screen := sc_next s]> |> |>)).
  { split; [simpl; rewrite lookup_insert_eq; by eexists|]. intros sc Hi.
    eapply (so_distinct _ _ _ Hs1); [exact Hi|]. simpl. apply lookup_insert_eq. }
  match goal with |- context [st_modify ?f ≫= _] => rewrite (run_bind (st_modify f) _ s tt (f s)) by done end.
  match goal with |- context [upd_proxy ?f ≫= _] =>
    rewrite (run_bind (upd_proxy f) _ _ tt (s <| sc_next ::= S |> <| slides_ ::= <[sc_next s := r]> |>
                                              <| proxy ::= f |>)) by done end.
  rewrite run_get_bind. case_bool_decide; cbn [st_when].
  - unfold CleanupIdleInstances. eexists _, _. split_and!; [done|by apply ok_forget| |done].
    destruct Hh as [Hh1 Hh2]. split; [exact Hh1|]. intros sc Hi. apply Hh2. simpl in *.
    by apply map_lookup_filter_Some in Hi as [? _].
  - eexists _, _. by split_and!.
Qed.

Lemma Proxy_OnDispatchResource_run n ex k t v p s :
  scenes_ok n ex s -> obj p ->
  (forall self, ex = Some self -> t = RES_TYPE_SLIDE_RECOGNIZE /\ v = SLIDE_EVENT_ON
     /\ exists sc, ExtractIdFromPayload p PAYLOAD_KEY_SCREEN_ID = Some sc /\ instances_ (proxy s) !! sc = ex) ->
  exists s', Proxy_OnDispatchResource k t v p s = Some (tt, s') /\ scenes_ok n None s'.
Proof.
  intros Hs Hp Hex. unfold Proxy_OnDispatchResource.
  destruct (screen_of_run n ex k t v p s Hs) as (screen & s1 & E1 & Hs1 & Hsc & Hi1 & Hx).
  rewrite (run_bind _ _ _ _ _ E1).
  destruct (GetOrCreateInstance_run n ex screen s1 Hsc Hs1) as (self & s2 & E2 & Hs2 & Hh & Hself).
  rewrite (run_bind _ _ _ _ _ E2).
  destruct (set_field_run "screenId" (json_of_string (to_string screen)) p s2 Hp) as [E3 Hp3].
  rewrite (run_bind _ _ _ _ _ E3).
  assert (Hnames : names_screen screen (json_set "screenId" (json_of_string (to_string screen)) p)).
  { split; [done|]. by apply find_string_set_eq. }
  assert (Hcase : ex = None \/ ex = Some self /\ t = RES_TYPE_SLIDE_RECOGNIZE /\ v = SLIDE_EVENT_ON).
  { destruct ex as [i|]; [right|by left]. destruct (Hex i eq_refl) as (Ht & Hv & sc & Hsc' & Hi).
    rewrite (Hself i); [done|]. rewrite (Hx sc Hsc'), Hi1. done. }
  pose proof (spec_Slide_OnDispatchResource n screen self Hsc ex t v _ Hnames Hcase s2 (conj Hs2 Hh)) as H'.
  destruct (Slide_OnDispatchResource self t v _ s2) as [[[] s']|]; [|done]. exists s'. by destruct H'.
Qed.
End facts.
