(* ===== verification/SceneReach.v ===== *)
(** * Scene recognizers: every step

    Each task of the queue, each delayed task and each event keeps the invariant of
    [SceneFacts.v] and is defined. *)
From Stdlib Require Import SpecFloat.
From S2P Require Import Prelude Json ResType CommonUtil CommonUtilFacts PluginConfig PluginMgr SceneRecognizer SlideRecognizer SceneFacts.

Section steps.
Context {J K : Type} `{!Json J} `{!JsonLaws J} `{!SceneHost J K} `{!BackgroundMode}.
#[local] Abbreviation ok := (scenes_ok (K := K)).
Implicit Types (s : Scenes J).

(** ** The scenes of installation and of background tasks *)

(** The scene of continuous installation changes with its report. *)
Lemma ok_installing n ex s v :
  (v = 0 -> isInContinuousInstall_ (installs s) = false) ->
  ok n ex s ->
  ok n ex (s <| sc_calls ::= fun l => l ++ [CReportData RES_TYPE_CONTINUOUS_INSTALL v json_null] |>
             <| installs ::= fun r => r <| isInContinuousInstall_ := v =? 0 |> |>).
Proof.
  intros Hv [H1 H2 H3 H4 H5 H6 H7 H8 [H9 H9'] H10 H11].
  set (c := CReportData RES_TYPE_CONTINUOUS_INSTALL v json_null).
  assert (Hd : drop n (sc_calls s ++ [c]) = drop n (sc_calls s) ++ [c]) by by rewrite drop_app_le.
  split; try done; simpl; rewrite ?Hd, ?reports_app; try done.
  - intros screen self r He Hin Hr Hf. destruct (H8 _ _ _ He Hin Hr Hf) as [?|[?|?]]; auto using reported_snoc.
  - rewrite length_app. split; [lia|]. apply Forall_app. split; [done|]. constructor; [|done].
    split; [|done]. apply event_ok_other; [apply obj_null|done].
  - rewrite in_scene_app, H10. cbn [reports omap list_omap option_bind mbind c].
    rewrite Z.eqb_refl. cbn [in_scene]. destruct (Z.eqb_spec v 0); [by rewrite Hv|done].
  - rewrite in_scene_app, H11. done.
Qed.

(** The same for background tasks, where the reports alternate. *)
Lemma ok_background n ex s (on : bool) v :
  isInBackgroundPerceivableScene_ (background s) = negb on -> (v =? 0) = on ->
  ok n ex s ->
  ok n ex (s <| sc_calls ::= fun l => l ++ [CReportData RES_TYPE_BACKGROUND_PERCEIVABLE_SCENE v json_null] |>
             <| background ::= fun r => r <| isInBackgroundPerceivableScene_ := on |> |>).
Proof.
  intros Hon Hv [H1 H2 H3 H4 H5 H6 H7 H8 [H9 H9'] H10 H11].
  set (c := CReportData RES_TYPE_BACKGROUND_PERCEIVABLE_SCENE v json_null).
  assert (Hd : drop n (sc_calls s ++ [c]) = drop n (sc_calls s) ++ [c]) by by rewrite drop_app_le.
  split; try done; simpl; rewrite ?Hd, ?reports_app; try done.
  - intros screen self r He Hin Hr Hf. destruct (H8 _ _ _ He Hin Hr Hf) as [?|[?|?]]; auto using reported_snoc.
  - rewrite length_app. split; [lia|]. apply Forall_app. split; [done|]. constructor; [|done].
    split; [|done]. apply event_ok_other; [apply obj_null|done].
  - rewrite in_scene_app, H10. done.
  - rewrite in_scene_app, H11, Hon. cbn [reports omap list_omap option_bind mbind c].
    rewrite Z.eqb_refl. cbn [in_scene]. rewrite Hv. by destruct on.
Qed.

Lemma safe_EnterScene n s :
  isInBackgroundPerceivableScene_ (background s) = false -> ok n None s ->
  exists s', EnterScene s = Some (tt, s') /\ ok n None s'.
Proof. intros Hi Hs. eexists. split; [done|]. by apply (ok_background n None s true). Qed.
Lemma safe_ExitScene n s :
  isInBackgroundPerceivableScene_ (background s) = true -> ok n None s ->
  exists s', ExitScene s = Some (tt, s') /\ ok n None s'.
Proof. intros Hi Hs. eexists. split; [done|]. by apply (ok_background n None s false). Qed.

Lemma safe_of_run {A} (P : Scenes J -> Prop) (m : ST (Scenes J) A) :
  (forall s, P s -> exists a s', m s = Some (a, s') /\ P s') -> safe P m.
Proof. intros Hm s Hs. destruct (Hm s Hs) as (a & s' & -> & Hs'). done. Qed.

Lemma safe_when_entering n : safe (ok n None) when_entering.
Proof.
  apply safe_of_run. intros s Hs. exists tt. unfold when_entering. rewrite run_get_bind.
  destruct (CheckEnterScene (background s)) eqn:E; cbn [st_when]; [|by exists s].
  apply safe_EnterScene; [|done]. unfold CheckEnterScene in E.
  by destruct (isInBackgroundPerceivableScene_ (background s)).
Qed.
Lemma safe_when_leaving n : safe (ok n None) when_leaving.
Proof.
  apply safe_of_run. intros s Hs. exists tt. unfold when_leaving. rewrite run_get_bind.
  destruct (negb _ && _) eqn:E; cbn [st_when]; [|by exists s].
  apply andb_true_iff in E as [_ E]. by apply safe_ExitScene.
Qed.

(** Other members of the background recognizer. *)
Lemma safe_upd_background n ex f :
  (forall r, isInBackgroundPerceivableScene_ (f r) = isInBackgroundPerceivableScene_ r) ->
  safe (ok n ex) (upd_background f).
Proof.
  intros Hf. apply safe_modify. intros s [H1 H2 H3 H4 H5 H6 H7 H8 H9 H10 H11]. split; try done.
  simpl. by rewrite Hf.
Qed.
#[local] Hint Resolve safe_when_entering safe_when_leaving : safe.
#[local] Hint Extern 2 (safe _ (upd_background _)) => apply safe_upd_background; by intros [] : safe.

Lemma safe_HandleForeground n v pid : safe (ok n None) (HandleForeground (K := K) v pid).
Proof.
  unfold HandleForeground. case_match; [apply safe_ret|]. apply safe_bind; [safe_auto|intros _].
  apply safe_of_run. intros s Hs. exists tt. rewrite run_get_bind. cbv zeta.
  destruct (_ && _) eqn:E; [|destruct (safe_run _ _ _ (safe_when_entering n) Hs) as ([] & ?); eauto].
  apply andb_true_iff in E as [_ E]. by apply safe_ExitScene.
Qed.

Lemma safe_HandleContinuousTask n v pid p :
  event_ok (K := K) (mkResData RES_TYPE_CONTINUOUS_TASK v p) -> safe (ok n None) (HandleContinuousTask (K := K) v pid p).
Proof.
  intros [_ Hp]. unfold HandleContinuousTask. cbv zeta. apply safe_bind.
  - destruct (json_find TYPE_IDS_KEY p ≫= json_array) as [l|] eqn:E; [|apply safe_ret].
    destruct (Hp eq_refl l E) as [ids Eids]. simpl in *. unfold vector_u32. rewrite Eids. apply safe_ret.
  - intros ids. unfold HandleTaskStart, HandleTaskUpdate, HandleTaskStop. safe_auto.
Qed.

Lemma safe_Background n d :
  event_ok (K := K) d -> safe (ok n None) (Background_OnDispatchResource (K := K) (rd_resType d) (rd_value d) (rd_payload d)).
Proof.
  intros Hd. unfold Background_OnDispatchResource. case_match; [|apply safe_ret].
  case_match; [apply safe_HandleForeground|]. case_match eqn:E; [|safe_auto].
  apply Z.eqb_eq in E. apply safe_HandleContinuousTask. destruct d as [t v p]. simpl in *. by subst t.
Qed.

Lemma safe_Upgrade n t : safe (ok n None) (Upgrade_OnDispatchResource t).
Proof.
  unfold Upgrade_OnDispatchResource. case_match; [apply safe_ret|]. apply safe_get_bind. intros s _.
  apply safe_when. intros _. apply scene_ok_report; [|done..]. apply event_ok_other; [apply obj_null|done].
Qed.

(** The pending exit of an installation is taken back. *)
Lemma skip_exit_run n s :
  ok n None s ->
  exists s', skip_task (exitAppInstall_ (installs s)) s = Some (tt, s') /\ ok n None s'
    /\ installs s' = installs s /\ (forall h d, sc_timers s' !! h <> Some (DExitInstall, d)).
Proof.
  intros Hs. destruct (exitAppInstall_ (installs s)) as [h|] eqn:E.
  - eexists. split; [done|]. split_and!; [|done|].
    + apply ok_cancel; [done|]. intros self p d Ht. by destruct (proj2 (so_exit _ _ _ Hs h E) self p d).
    + intros h' d. simpl. intros [Hne Ht]%lookup_delete_Some. destruct (so_timers _ _ _ Hs _ _ _ Ht) as [_ Hh]. congruence.
  - exists s. split_and!; [done..|]. intros h d Ht. destruct (so_timers _ _ _ Hs _ _ _ Ht) as [_ Hh]. congruence.
Qed.

Lemma ok_exit_pending n s d :
  ok n None s -> (forall h d, sc_timers s !! h <> Some (DExitInstall, d)) ->
  ok n None (s <| sc_timers ::= <[sc_next s := (DExitInstall, d)]> |> <| sc_next ::= S |>
               <| installs ::= fun r => r <| exitAppInstall_ := Some (sc_next s) |> |>).
Proof.
  intros [H1 H2 H3 H4 H5 H6 H7 H8 H9 H10 H11] Hno.
  assert (Hnew : sc_timers s !! sc_next s = None).
  { destruct (sc_timers s !! sc_next s) as [[t d']|] eqn:E; [|done]. destruct (H2 _ _ _ E). lia. }
  split; try done; simpl.
  - intros h t d' [[<- [= <- <-]]|[? Ht]]%lookup_insert_Some; [auto with lia|].
    destruct (H2 _ _ _ Ht) as [? Hk]. split; [lia|]. destruct t; [by destruct (Hno _ _ Ht)|done].
  - intros h [= <-]. split; [lia|]. intros self p d'. by rewrite lookup_insert_eq.
  - intros self r Hr. destruct (H4 self r Hr) as (? & Ho & ?). split_and!; [lia| |done].
    intros h' Hh'. destruct (Ho h' Hh') as [? Ht]. split; [lia|].
    intros t d' [[? ?]|[? E]]%lookup_insert_Some; [lia|by eapply Ht].
  - intros screen self r He Hi Hr Hf. destruct (H8 _ _ _ He Hi Hr Hf) as [(h' & p' & d' & Eh & Et)|?]; [left|auto].
    exists h', p', d'. split; [done|]. simpl. rewrite lookup_insert_ne; [done|]. intros <-. congruence.
Qed.

Lemma safe_Install n t v : safe (ok n None) (Install_OnDispatchResource t v).
Proof.
  apply safe_of_run. intros s Hs. exists tt. unfold Install_OnDispatchResource.
  case_match; [by exists s|]. rewrite run_get_bind.
  destruct (skip_exit_run n s Hs) as (s1 & E1 & Hs1 & Ei & Hno).
  repeat case_match; [..|by exists s]; rewrite (run_bind _ _ _ _ _ E1).
  - destruct (isInContinuousInstall_ (installs s)) eqn:E; cbn [negb st_when]; [by exists s1|].
    eexists. split; [done|]. apply (ok_installing n None s1 0); [|done]. intros _. by rewrite Ei.
  - eexists. split; [done|]. by apply ok_exit_pending.
Qed.

Lemma ExitInstall_run n s : ok n None s -> exists s', ExitInstall s = Some (tt, s') /\ ok n None s'.
Proof. intros Hs. eexists. split; [done|]. by apply (ok_installing n None s 1). Qed.

(** ** Tasks, timers and events *)

Section tasks.
Context (screen_u64 : forall d (k : K) screen,
  sch_ConvertScreenIdToRsScreenId (J := J) d k = Some screen -> 0 <= screen < 2 ^ 64).

(** The recognizer whose fling was awaited by a task that is run. *)
Definition exempted s (t : SceneTask J) : option nat :=
  match t with
  | TOnDispatch SLIDE_RECOGNIZER d =>
      if (rd_resType d =? RES_TYPE_SLIDE_RECOGNIZE) && (rd_value d =? SLIDE_EVENT_ON)
      then screen ← ExtractIdFromPayload (rd_payload d) PAYLOAD_KEY_SCREEN_ID;
           instances_ (proxy s) !! screen
      else None
  | _ => None
  end.

Lemma ok_pop n s t q :
  ok n None s -> ffrtQueue_ s = Some (t :: q) ->
  ok n (exempted s t) (s <| ffrtQueue_ := Some q |>) /\ task_ok (K := K) (slides_ s) t.
Proof.
  intros [(q' & Eq & Hq) H2 H3 H4 H5 H6 H7 H8 H9 H10 H11] E. rewrite Eq in E. injection E as ->.
  apply Forall_cons in Hq as [Ht Hq]. split; [|done]. split; try done; simpl.
  - by exists q.
  - intros screen self r He Hi Hr Hf.
    destruct (H8 screen self r) as [?|[(q' & Eq' & d & Hd & Ho)|?]]; [done..|auto| |auto].
    rewrite Eq in Eq'. injection Eq' as <-. right; left. exists q. split; [done|].
    apply elem_of_cons in Hd as [<-|Hd]; [|by exists d]. destruct He. simpl.
    destruct Ho as (-> & -> & ->). simpl. done.
Qed.

Lemma run_scene_task_run n k s t :
  ok n (exempted s t) s -> task_ok (K := K) (slides_ s) t ->
  exists s', run_scene_task k t s = Some (tt, s') /\ ok n None s'.
Proof.
  intros Hs Ht. destruct t as [[] d|self p]; simpl in Hs.
  - destruct (safe_run _ _ _ (safe_Install n (rd_resType d) (rd_value d)) Hs) as ([] & ?); eauto.
  - destruct (safe_run _ _ _ (safe_Upgrade n (rd_resType d)) Hs) as ([] & ?); eauto.
  - destruct (safe_run _ _ _ (safe_Background n d (proj1 Ht)) Hs) as ([] & ?); eauto.
  - eapply (Proxy_OnDispatchResource_run screen_u64 n _ k); [exact Hs|by apply Ht|].
    intros self. destruct (_ && _) eqn:E; [|done]. apply andb_true_iff in E as [E1%Z.eqb_eq E2%Z.eqb_eq].
    intros Hx. split_and!; [done..|]. apply bind_Some in Hx as (sc & Esc & Hi). exists sc. split; [done|].
    rewrite Esc. done.
  - assert (Hsafe : safe (ok n None) (StartDetecting k self p)).
    { unfold StartDetecting, frame_report.
      assert (Hsame : forall f : SlideRecognizer -> SlideRecognizer,
        (forall r, listFlingEndTask_ (f r) = listFlingEndTask_ r /\ listFlingTimeOutTask_ (f r) = listFlingTimeOutTask_ r
          /\ (slideState_ (f r) = LIST_FLING -> slideState_ r = LIST_FLING)) ->
        safe (ok n None) (upd_slide self f)) by (intros; by apply ok_upd_slide).
      repeat first [apply safe_bind; [|intros _]|case_match|apply safe_ret|apply ok_send|apply Hsame; by intros []]. }
    destruct (safe_run _ _ _ Hsafe Hs) as ([] & ?); eauto.
Qed.

Lemma run_scene_queue_run n k s :
  ok n None s -> exists s', run_scene_queue k s = Some (tt, s') /\ ok n None s'.
Proof.
  intros Hs. unfold run_scene_queue. rewrite run_get_bind.
  destruct (so_queue _ _ _ Hs) as (q & Eq & _). rewrite Eq. destruct q as [|t q]; [by exists s|].
  destruct (ok_pop n s t q Hs Eq) as [Hs' Ht]. by apply run_scene_task_run.
Qed.

End tasks.

Lemma run_scene_timer_run n h s :
  ok n None s -> exists s', run_scene_timer h s = Some (tt, s') /\ ok n None s'.
Proof.
  intros Hs. unfold run_scene_timer. rewrite run_get_bind.
  destruct (sc_timers s !! h) as [[[|self p] d]|] eqn:E; [| |by exists s];
    destruct (so_timers _ _ _ Hs _ _ _ E) as [_ Hk].
  - apply ExitInstall_run. apply ok_cancel; [done|]. intros self p d' Ht. congruence.
  - destruct Hk as [Hself Hp].
    assert (Hs' : ok n (Some self) (s <| sc_timers ::= delete h |>)).
    { apply ok_cancel; [by apply scenes_ok_weaken|]. intros self' p' d' Ht. left. congruence. }
    set (screen := default 0 (fst <$> head (filter (fun x => x.2 = self) (map_to_list (instances_ (proxy s)))))).
    assert (Hh : at_home screen self (s <| sc_timers ::= delete h |>)).
    { split; [done|]. intros sc Hi. simpl in Hi. unfold screen.
      destruct (filter _ _) as [|[sc' self'] l] eqn:Ef.
      - exfalso. assert (Hin : (sc, self) ∈ filter (fun x => x.2 = self) (map_to_list (instances_ (proxy s)))).
        { apply list_elem_of_filter. split; [done|]. by apply elem_of_map_to_list. }
        rewrite Ef in Hin. by apply not_elem_of_nil in Hin.
      - assert (Hin : (sc', self') ∈ filter (fun x => x.2 = self) (map_to_list (instances_ (proxy s)))).
        { rewrite Ef. apply list_elem_of_here. }
        apply list_elem_of_filter in Hin as [Es Hin%elem_of_map_to_list]. simpl in *. subst self'.
        by eapply (so_distinct _ _ _ Hs). }
    pose proof (spec_ReportListFlingLockedEnd n screen self (Some self) p Hp (or_intror eq_refl) _ (conj Hs' Hh)) as H'.
    destruct (ReportListFlingLockedEnd self p _) as [[[] s']|] eqn:Er; [|done].
    destruct H' as [H' _]. exists s'. split; [exact Er|done].
Qed.

(** An event goes to the queue, for each recognizer that takes it. *)
Lemma dispatch_list_run n d rs : forall s q,
  event_ok (K := K) d -> ok n None s -> ffrtQueue_ s = Some q ->
  exists s', st_iter (fun recognizer =>
       ret_if negb (Accept recognizer (rd_resType d)); SubmitTask (TOnDispatch recognizer d)) rs s = Some (tt, s')
    /\ ok n None s' /\ sc_calls s' = sc_calls s /\ slides_ s' = slides_ s
    /\ ffrtQueue_ s' = Some (q ++ ((fun r => TOnDispatch r d) <$> filter (fun r => Accept r (rd_resType d) = true) rs)).
Proof.
  induction rs as [|r rs IH]; intros s q Hd Hs Eq.
  { exists s. split_and!; [done..|]. simpl. by rewrite app_nil_r. }
  cbn [st_iter]. destruct (Accept r (rd_resType d)) eqn:Ea; cbn [negb].
  - assert (Ht : task_ok (K := K) (slides_ s) (TOnDispatch r d)) by (split; [done|intros ->; by apply Hd]).
    destruct (ok_submit_task n None (TOnDispatch r d) s Hs Ht) as (s1 & E1 & Hs1 & Es & _ & Ec & Hq).
    rewrite (run_bind _ _ _ _ _ E1).
    destruct (IH s1 _ Hd Hs1 (Hq _ Eq)) as (s' & E' & Hs' & Ec' & Es' & Eq').
    exists s'. split_and!; [done..|congruence|congruence|]. rewrite Eq', <- app_assoc.
    by rewrite filter_cons_True by done.
  - destruct (IH s q Hd Hs Eq) as (s' & E' & Hs' & Ec' & Es' & Eq').
    exists s'. split_and!; [done..|]. rewrite Eq', filter_cons_False; [done|]. by rewrite Ea.
Qed.

Lemma dispatch_run n d s :
  event_ok (K := K) d -> ok n None s ->
  exists s', Scenes_DispatchResource (Some d) s = Some (tt, s') /\ ok n None s' /\ sc_calls s' = sc_calls s
    /\ slides_ s' = slides_ s
    /\ forall screen, on_event screen d -> exists q, ffrtQueue_ s' = Some q /\ queued q screen.
Proof.
  intros Hd Hs. unfold Scenes_DispatchResource. rewrite run_get_bind.
  destruct (so_queue _ _ _ Hs) as (q & Eq & _). rewrite bool_decide_false by (rewrite Eq; done).
  destruct (dispatch_list_run n d sceneRecognizers_ s q Hd Hs Eq) as (s' & E & Hs' & Ec & Es & Eq').
  exists s'. split_and!; [done..|]. intros screen Ho. eexists. split; [exact Eq'|]. exists d. split; [|done].
  apply elem_of_app. right. apply list_elem_of_fmap. exists SLIDE_RECOGNIZER. split; [done|].
  apply list_elem_of_filter. split; [|unfold sceneRecognizers_; set_solver].
  destruct Ho as (-> & _). done.
Qed.

(** A report of a recognizer is carried out. *)
Lemma carry_report_run n s t v p rest :
  ok n None s -> drop n (sc_calls s) = CReportData t v p :: rest ->
  exists s', Scenes_DispatchResource (Some (mkResData t v p)) s = Some (tt, s') /\ ok (S n) None s'
    /\ sc_calls s' = sc_calls s /\ slides_ s' = slides_ s.
Proof.
  intros Hs Hdrop. destruct (so_calls _ _ _ Hs) as [Hlen Hall]. rewrite Hdrop in Hall.
  apply Forall_cons in Hall as [[Hd _] Hall].
  destruct (dispatch_run n _ s Hd Hs) as (s' & E & Hs' & Ec & Es & Hq).
  assert (Hrest : drop (S n) (sc_calls s') = rest).
  { rewrite Ec. change (S n) with (1 + n)%nat. rewrite Nat.add_comm, <- drop_drop, Hdrop. done. }
  exists s'. split_and!; [done| |done|done]. destruct Hs' as [H1 H2 H3 H4 H5 H6 H7 H8 H9 H10 H11].
  split; try done; rewrite ?Hrest.
  - intros screen self r He Hi Hr Hf. destruct (H8 _ _ _ He Hi Hr Hf) as [?|[?|(t' & v' & p' & Hin & Ho)]]; [auto..|].
    rewrite Ec, Hdrop in Hin. apply elem_of_cons in Hin as [[= -> -> ->]|Hin]; [auto|].
    right; right. exists t', v', p'. auto.
  - split; [|done]. rewrite Ec. apply (f_equal length) in Hdrop. rewrite length_drop in Hdrop. simpl in Hdrop. lia.
Qed.

(** So is any other call: the recognizers do not see it. *)
Lemma carry_other n s c rest :
  ok n None s -> drop n (sc_calls s) = c :: rest -> (forall t v p, c <> CReportData t v p) -> ok (S n) None s.
Proof.
  intros Hs Hdrop Hc. destruct (so_calls _ _ _ Hs) as [Hlen Hall]. rewrite Hdrop in Hall.
  apply Forall_cons in Hall as [_ Hall].
  assert (Hrest : drop (S n) (sc_calls s) = rest).
  { change (S n) with (1 + n)%nat. rewrite Nat.add_comm, <- drop_drop, Hdrop. done. }
  destruct Hs as [H1 H2 H3 H4 H5 H6 H7 H8 H9 H10 H11]. split; try done; rewrite ?Hrest.
  - intros screen self r He Hi Hr Hf. destruct (H8 _ _ _ He Hi Hr Hf) as [?|[?|(t' & v' & p' & Hin & Ho)]]; [auto..|].
    rewrite Hdrop in Hin. apply elem_of_cons in Hin as [E|Hin]; [by destruct (Hc t' v' p')|].
    right; right. exists t', v', p'. auto.
  - split; [|done]. apply (f_equal length) in Hdrop. rewrite length_drop in Hdrop. simpl in Hdrop. lia.
Qed.

(** ** Settings and the start *)

Lemma set_everywhere_run n s f g :
  (forall p, instances_ (f p) = instances_ p /\ displayIdToRsScreenId_ (f p) = displayIdToRsScreenId_ p) ->
  (forall r, listFlingEndTask_ (g r) = listFlingEndTask_ r /\ listFlingTimeOutTask_ (g r) = listFlingTimeOutTask_ r
     /\ slideState_ (g r) = slideState_ r) ->
  ok n None s -> exists s', set_everywhere f g s = Some (tt, s') /\ ok n None s' /\ sc_calls s' = sc_calls s.
Proof.
  intros Hf Hg Hs. eexists. split_and!; [done| |done]. set (s1 := s <| proxy ::= f |>).
  assert (Hs1 : ok n None s1).
  { destruct (Hf (proxy s)) as [E1 E2]. destruct Hs as [H1 H2 H3 H4 H5 H6 H7 H8 H9 H10 H11].
    split; try done; simpl; rewrite ?E1, ?E2; done. }
  change (ok n None (s1 <| slides_ := map_fold (fun _ self m => alter g self m) (slides_ s1) (instances_ (proxy s1)) |>)).
  apply (map_fold_weak_ind (fun m _ => ok n None (s1 <| slides_ := m |>))); [exact Hs1|].
  intros _ self _ m _ Hm.
  apply (ok_upd_slide n None self g) in Hm; [exact Hm|]. intros r. destruct (Hg r) as (? & ? & ->). auto.
Qed.

Lemma init_ok k : exists s, new_SceneRecognizerMgr k = Some s /\ ok (length (sc_calls s)) None s
  /\ Forall (fun c => forall t v p, c <> CReportData t v p) (sc_calls s).
Proof.
  unfold new_SceneRecognizerMgr, SystemUpgrade_Init. cbv zeta.
  set (s0 := mkScenes _ _ _ _ _ _ _ _ _).
  set (old := sch_LoadStringFromFile OLD_SYSTEM_FINGERPRINT_PATH k). set (cur := GetCurSystemFingerprint k).
  assert (Hs0 : forall b l, l = [CReportFileSize OLD_SYSTEM_FINGERPRINT_PATH]
      \/ l = [CSaveStringToFile OLD_SYSTEM_FINGERPRINT_PATH cur; CReportFileSize OLD_SYSTEM_FINGERPRINT_PATH] ->
    ok (length l) None (s0 <| isSystemUpgraded_ := b |> <| sc_calls := l |>)
    /\ Forall (fun c => forall t v p, c <> CReportData t v p) l).
  { intros b l [-> | ->]; (split; [|by repeat constructor]); (split; simpl; try done; by exists []). }
  set (b := bool_decide (old = "") || negb (bool_decide (old = cur))).
  rewrite (run_bind (st_modify _) _ s0 tt (s0 <| isSystemUpgraded_ := b |>)) by done.
  rewrite run_get_bind. change (isSystemUpgraded_ (s0 <| isSystemUpgraded_ := b |>)) with b.
  destruct b; cbn [st_when]; (eexists; split; [reflexivity|]); apply Hs0; auto.
Qed.
End steps.
