(* ===== verification/SceneService.v ===== *)
(** * Scene recognizers inside the service

    The recognizers report to the service, which dispatches the report to the plugins and to
    the recognizers again.  [carry_out] runs a step of the recognizers and then the calls it
    made, in their order; [SvEvent] is what can happen next. *)
From Stdlib Require Import SpecFloat.
From S2P Require Import Prelude Json ResType CommonUtil LruCache Ipc PluginConfig PluginMgr NotifierMgr EventListenerMgr ServiceWorld ResSchedMgr.
From S2P Require Import SceneRecognizer SlideRecognizer SceneFacts SceneReach.

(** scene_recognizer_mgr.cpp:49-67 [SceneRecognizerMgr::DispatchResource] as the part of the
    service that takes events *)
#[export] Instance scenes_dispatcher {J} : SceneDispatcher J (Scenes J) :=
  fun d => Scenes_DispatchResource (Some d).

Section service.
Context {J K : Type} `{!Json J} `{!Build} `{!PluginHost J K} `{!SceneHost J K} `{!BackgroundMode}.
#[local] Abbreviation M := (ST (Service J K (Scenes J))).

(** A call of a recognizer reaches the service. *)
Definition perform (c : SceneCall J) : M unit :=
  match c with
  | CReportData resType value payload => ResSchedMgr_ReportData resType value payload
  | CSendEvent eventType eventValue extInfo =>
      in_listeners (SendEvent WITH_EXT_RES (ph_StrToInt (J := J) (K := K)) eventType eventValue extInfo
                      LISTENER_GROUP_COMMON (-1))
  | CSaveStringToFile _ _ | CReportFileSize _ => mret tt
  end.

Definition carry_out (step : ST (Scenes J) unit) : M unit :=
  s ← st_get;
  let before := length (sc_calls (scenes s)) in
  in_scenes step;;
  s ← st_get;
  st_iter perform (drop before (sc_calls (scenes s))).

(** What can happen: an event is reported, the queue of the recognizers runs its oldest task,
    a delayed task comes due, a setting of the slide recognizers changes. *)
Inductive SvEvent :=
  | SvReport (resType value : Z) (payload : J)
  | SvQueue
  | SvTimer (handle : nat)
  | SvListFlingTimeoutTime (value : Z)
  | SvListFlingEndTime (value : Z)
  | SvListFlingSpeedLimit (value : spec_float).

Definition run_sv (e : SvEvent) : M unit :=
  match e with
  | SvReport resType value payload => ResSchedMgr_ReportData resType value payload
  | SvQueue => k ← get_host; carry_out (run_scene_queue k)
  | SvTimer handle => carry_out (run_scene_timer handle)
  | SvListFlingTimeoutTime value => carry_out (SetListFlingTimeoutTime value)
  | SvListFlingEndTime value => carry_out (SetListFlingEndTime value)
  | SvListFlingSpeedLimit value => carry_out (SetListFlingSpeedLimit value)
  end.

(** ** What the service does with a call *)

Lemma dispatch_plugins_total d : total (PluginMgr_DispatchResource (J := J) (K := K) d).
Proof.
  unfold PluginMgr_DispatchResource, UpdateReportCount, UpdateLogReportCount, DispatchResourceToPluginAsync,
    now_ms, on_host. total_auto.
  all: intros s; try (destruct (ph_now_ms (host s)); by eexists).
Qed.

Lemma send_total (e : bool) f t v x g p : total (SendEvent (J := J) e f t v x g p).
Proof.
  intros s. unfold SendEvent. case_match; [by eexists|]. rewrite run_get_bind.
  destruct (eventSenderQueue_ s) as [q|] eqn:Eq; [|by eexists]. rewrite bool_decide_false by done. cbv zeta.
  unfold SendEventLock. rewrite run_get_bind. case_match; [|by eexists].
  unfold HandleSendEvent. rewrite run_get_bind, Eq. by eexists.
Qed.

(** A report reaches the recognizers, with its type or the one it names. *)
Lemma report_run t v p s sc :
  let d := mkResData t v p in
  Scenes_DispatchResource (Some (if isInit (plugins s) then effective (K := K) d else d)) (scenes s) = Some (tt, sc) ->
  exists s', ResSchedMgr_ReportData t v p s = Some (tt, s') /\ scenes s' = sc.
Proof.
  intros d E. unfold ResSchedMgr_ReportData, ReportDataInner. rewrite run_get_bind.
  destruct (dispatch_plugins_total (Some d) (plugins s)) as [[[] pl] Ep].
  rewrite (run_bind _ _ s tt (s <| plugins := pl |>)) by (unfold in_plugins, in_part; fold d; by rewrite Ep).
  exists (s <| plugins := pl |> <| scenes := sc |>). split; [|done]. unfold in_scenes, in_part.
  change (scenes (s <| plugins := pl |>)) with (scenes s). unfold scene_dispatch, scenes_dispatcher.
  fold d. by rewrite E.
Qed.

Lemma effective_same t v p : t <> RES_TYPE_KEY_PERF_SCENE ->
  effective (K := K) (mkResData t v p) = mkResData t v p.
Proof.
  intros Ht. unfold effective, GetExtTypeByResPayload. simpl.
  rewrite (proj2 (Z.eqb_neq _ _) Ht). cbn [negb]. destruct WITH_EXT_RES; by rewrite Z.eqb_refl.
Qed.
End service.

Section facts.
Context {J K : Type} `{!Json J} `{!JsonLaws J} `{!Build} `{!PluginHost J K} `{!SceneHost J K} `{!BackgroundMode}.
Context (screen_u64 : forall d (k : K) screen,
  sch_ConvertScreenIdToRsScreenId (J := J) d k = Some screen -> 0 <= screen < 2 ^ 64).
#[local] Abbreviation ok := (scenes_ok (K := K)).
Implicit Types (s : Service J K (Scenes J)).

Lemma perform_run n c rest s :
  ok n None (scenes s) -> drop n (sc_calls (scenes s)) = c :: rest ->
  exists s', perform c s = Some (tt, s') /\ ok (S n) None (scenes s')
    /\ sc_calls (scenes s') = sc_calls (scenes s) /\ slides_ (scenes s') = slides_ (scenes s).
Proof.
  intros Hs Hd. destruct c as [t v p|t v x|path text|path]; simpl.
  - destruct (carry_report_run n (scenes s) t v p rest Hs Hd) as (sc & E & Hsc & Ec & Es).
    destruct (so_calls _ _ _ Hs) as [_ Hall]. rewrite Hd in Hall. apply Forall_cons in Hall as [[_ Hk] _].
    destruct (report_run t v p s sc) as (s' & E' & E2).
    { rewrite (effective_same t v p Hk). by destruct (isInit (plugins s)). }
    exists s'. rewrite E2. by split_and!.
  - destruct (send_total WITH_EXT_RES (ph_StrToInt (J := J) (K := K)) t v x LISTENER_GROUP_COMMON (-1) (listeners s))
      as [[[] l] El].
    exists (s <| listeners := l |>). split_and!; [unfold in_listeners, in_part; by rewrite El| |done..].
    by eapply carry_other.
  - exists s. split_and!; [done| |done..]. by eapply carry_other.
  - exists s. split_and!; [done| |done..]. by eapply carry_other.
Qed.

(** Between two steps all calls are carried out. *)
Definition sv_ok s : Prop := ok (length (sc_calls (scenes s))) None (scenes s).

Lemma perform_list_run l : forall n s,
  ok n None (scenes s) -> drop n (sc_calls (scenes s)) = l ->
  exists s', st_iter perform l s = Some (tt, s') /\ sv_ok s'
    /\ sc_calls (scenes s') = sc_calls (scenes s) /\ slides_ (scenes s') = slides_ (scenes s).
Proof.
  induction l as [|c l IH]; intros n s Hs Hd.
  - exists s. split_and!; [done| |done..]. destruct (so_calls _ _ _ Hs) as [Hle _].
    apply (f_equal length) in Hd. rewrite length_drop in Hd. simpl in Hd. unfold sv_ok.
    by replace (length (sc_calls (scenes s))) with n by lia.
  - destruct (perform_run n c l s Hs Hd) as (s1 & E1 & Hs1 & Ec1 & Es1).
    destruct (IH (S n) s1 Hs1) as (s' & E' & Hs' & Ec & Es).
    { rewrite Ec1. change (S n) with (1 + n)%nat. rewrite Nat.add_comm, <- drop_drop, Hd. done. }
    exists s'. cbn [st_iter]. rewrite (run_bind _ _ _ _ _ E1). split_and!; [done..|congruence|congruence].
Qed.

Lemma carry_out_run (m : ST (Scenes J) unit) s sc :
  m (scenes s) = Some (tt, sc) -> ok (length (sc_calls (scenes s))) None sc ->
  exists s', carry_out m s = Some (tt, s') /\ sv_ok s'
    /\ sc_calls (scenes s') = sc_calls sc /\ slides_ (scenes s') = slides_ sc.
Proof.
  intros E Hsc. unfold carry_out. rewrite run_get_bind. cbv zeta.
  rewrite (run_bind _ _ s tt (s <| scenes := sc |>)) by (unfold in_scenes, in_part; by rewrite E).
  rewrite run_get_bind. set (s1 := s <| scenes := sc |>) in *. assert (Es1 : scenes s1 = sc) by done.
  rewrite Es1. rewrite <- Es1 in Hsc. destruct (perform_list_run _ _ s1 Hsc eq_refl) as (s' & E' & Hs' & Ec & El).
  rewrite Es1 in *. eauto.
Qed.

(** The payloads of slides are objects, and task types can be read. *)
Definition fine_event (e : SvEvent) : Prop :=
  match e with
  | SvReport _ v p => forall t, event_ok (K := K) (mkResData t v p)
  | _ => True
  end.

Lemma run_sv_ok e s : sv_ok s -> fine_event e -> exists s', run_sv e s = Some (tt, s') /\ sv_ok s'.
Proof.
  intros Hs He.
  assert (Hcarry : forall m, (exists sc, m (scenes s) = Some (tt, sc) /\ ok (length (sc_calls (scenes s))) None sc) ->
    exists s', carry_out m s = Some (tt, s') /\ sv_ok s').
  { intros m (sc & E & Hsc). destruct (carry_out_run m s sc E Hsc) as (s' & ? & ? & _). eauto. }
  assert (Hset : forall f g,
    (forall p, instances_ (f p) = instances_ p /\ displayIdToRsScreenId_ (f p) = displayIdToRsScreenId_ p) ->
    (forall r, listFlingEndTask_ (g r) = listFlingEndTask_ r /\ listFlingTimeOutTask_ (g r) = listFlingTimeOutTask_ r
       /\ slideState_ (g r) = slideState_ r) ->
    exists s', carry_out (set_everywhere f g) s = Some (tt, s') /\ sv_ok s').
  { intros f g Hf Hg. apply Hcarry. destruct (set_everywhere_run _ (scenes s) f g Hf Hg Hs) as (sc & ? & ? & _). eauto. }
  destruct e as [t v p| |h|x|x|x]; simpl; [|apply Hcarry..|apply Hset|apply Hset|apply Hset]; try by intros [].
  - assert (Hd : exists t', (if isInit (plugins s) then effective (K := K) (mkResData t v p) else mkResData t v p)
        = mkResData t' v p).
    { destruct (isInit (plugins s)); [|by exists t]. unfold effective. simpl. case_match; eauto. }
    destruct Hd as [t' Ed].
    destruct (dispatch_run _ (mkResData t' v p) (scenes s) (He t') Hs) as (sc & E & Hsc & Ec & _).
    destruct (report_run t v p s sc) as (s' & E' & Es); [by rewrite Ed|].
    exists s'. split; [done|]. unfold sv_ok. by rewrite Es, Ec.
  - by apply run_scene_queue_run.
  - by apply run_scene_timer_run.
Qed.

(** A history of the service. *)
Inductive sv_run : list SvEvent -> Service J K (Scenes J) -> Service J K (Scenes J) -> Prop :=
  | sv_run_nil s : sv_run [] s s
  | sv_run_cons e es s s1 s2 :
      fine_event e -> run_sv e s = Some (tt, s1) -> sv_run es s1 s2 -> sv_run (e :: es) s s2.

Lemma sv_run_ok es s s' : sv_run es s s' -> sv_ok s -> sv_ok s'.
Proof.
  induction 1 as [|e es s s1 s2 He E _ IH]; [done|]. intros Hs. apply IH.
  destruct (run_sv_ok e s Hs He) as (s1' & E' & Hs1). congruence.
Qed.

(** The service with recognizers that were just made. *)
Definition starts (k : K) s : Prop := new_SceneRecognizerMgr k = Some (scenes s).

Lemma starts_ok k s : starts k s -> sv_ok s.
Proof.
  intros E. destruct (init_ok (J := J) k) as (sc & E' & Hsc & _). unfold starts in E. rewrite E' in E.
  injection E as ->. done.
Qed.

(** A time-out that comes due ends the fling. *)
Lemma timeout_run s h self p d r :
  sv_ok s -> sc_timers (scenes s) !! h = Some (DListFlingEnd self p, d) ->
  slides_ (scenes s) !! self = Some r -> slideState_ r = LIST_FLING ->
  exists s', run_sv (SvTimer h) s = Some (tt, s')
    /\ slides_ (scenes s') !! self = Some (r <| slideState_ := IDLE |>)
    /\ sc_calls (scenes s') = sc_calls (scenes s) ++
         [CReportData RES_TYPE_SLIDE_RECOGNIZE SLIDE_EVENT_OFF p;
          CSendEvent EVENT_DRAW_FRAME_REPORT EVENT_VALUE_DRAW_FRAME_REPORT_STOP (BuildExtInfoWithScreenId p)].
Proof.
  intros Hs Et Er Hf. destruct (run_scene_timer_run _ h (scenes s) Hs) as (sc & E & Hsc).
  destruct (carry_out_run (run_scene_timer h) s sc E Hsc) as (s' & E' & _ & Ec & El).
  exists s'. split; [exact E'|]. rewrite Ec, El.
  unfold run_scene_timer in E. rewrite run_get_bind, Et in E. unfold ReportListFlingLockedEnd in E.
  rewrite (run_bind (st_modify _) _ _ tt ((scenes s) <| sc_timers ::= delete h |>)) in E by done.
  cbn [fst] in E. rewrite (run_get_slide self _ _ r) in E by done.
  rewrite bool_decide_true in E by done. cbn [negb] in E. injection E as <-. simpl. split.
  - by rewrite lookup_alter_eq, Er.
  - by rewrite <- app_assoc.
Qed.

(** C38: Flings end.  From the start of the recognizers, whatever events arrive at the service
    and in whatever order the queue and the delayed tasks run, every step is answered.  A
    recognizer that the proxy knows for a screen and that is in a fling has the event in the
    queue that starts its time-out, or has a pending time-out; and when that comes due, it
    reports the end of the fling and is idle. *)
Theorem flings_end k s0 es s :
  starts k s0 -> sv_run es s0 s ->
  (forall e, fine_event e -> exists s', run_sv e s = Some (tt, s'))
  /\ (forall screen self r,
       instances_ (proxy (scenes s)) !! screen = Some self -> slides_ (scenes s) !! self = Some r ->
       slideState_ r = LIST_FLING ->
       (exists q d, ffrtQueue_ (scenes s) = Some q /\ TOnDispatch SLIDE_RECOGNIZER d ∈ q /\ on_event screen d)
       \/ (exists h p delay s', listFlingTimeOutTask_ r = Some h
            /\ sc_timers (scenes s) !! h = Some (DListFlingEnd self p, delay)
            /\ run_sv (SvTimer h) s = Some (tt, s')
            /\ slides_ (scenes s') !! self = Some (r <| slideState_ := IDLE |>)
            /\ sc_calls (scenes s') = sc_calls (scenes s) ++
                 [CReportData RES_TYPE_SLIDE_RECOGNIZE SLIDE_EVENT_OFF p;
                  CSendEvent EVENT_DRAW_FRAME_REPORT EVENT_VALUE_DRAW_FRAME_REPORT_STOP
                    (BuildExtInfoWithScreenId p)])).
Proof.
  intros Hstart Hrun. pose proof (sv_run_ok _ _ _ Hrun (starts_ok k s0 Hstart)) as Hs. split.
  - intros e He. destruct (run_sv_ok e s Hs He) as (s' & ? & _). eauto.
  - intros screen self r Hi Hr Hf.
    destruct (so_awaited _ _ _ Hs screen self r) as [(h & p & delay & Eh & Et)|[(q & Eq & d & Hd & Ho)|Hrep]]; try done.
    + right. destruct (timeout_run s h self p delay r Hs Et Hr Hf) as (s' & ? & ? & ?).
      exists h, p, delay, s'. auto.
    + left. eauto.
    + destruct Hrep as (t & v & p & Hin & _). rewrite drop_all in Hin. by apply not_elem_of_nil in Hin.
Qed.

(** C39: Scenes are reported in turn.  In every history the reports of background sensitive
    tasks alternate between start and stop; an installation is never started twice without a
    stop between (a stop without a start is possible: a changed application asks for one); the
    recognizers know whether their scene is on; and at most one exit of an installation is
    pending, the one whose handle is kept. *)
Theorem scenes_reported_in_turn k s0 es s :
  starts k s0 -> sv_run es s0 s ->
  let sc := scenes s in
  in_scene true false (reports RES_TYPE_BACKGROUND_PERCEIVABLE_SCENE (sc_calls sc))
    = Some (isInBackgroundPerceivableScene_ (background sc))
  /\ in_scene false false (reports RES_TYPE_CONTINUOUS_INSTALL (sc_calls sc))
    = Some (isInContinuousInstall_ (installs sc))
  /\ (forall h delay, sc_timers sc !! h = Some (DExitInstall, delay) -> exitAppInstall_ (installs sc) = Some h).
Proof.
  intros Hstart Hrun. pose proof (sv_run_ok _ _ _ Hrun (starts_ok k s0 Hstart)) as Hs. cbv zeta. split_and!.
  - apply Hs.
  - apply Hs.
  - intros h delay Ht. by destruct (so_timers _ _ _ Hs _ _ _ Ht).
Qed.
End facts.
