(* ===== verification/SceneRules.v ===== *)
(** * Scene recognizers: rules, and examples

    When the background scene is entered and left, what happens when every recognizer of the
    table is busy, and a service on which the theorems of [SceneService.v] are applied. *)
From Stdlib Require Import SpecFloat.
From S2P Require Import Prelude Json ResType CommonUtil LruCache Ipc PluginConfig PluginMgr PluginMgrFacts NotifierMgr EventListenerMgr.
From S2P Require Import ServiceWorld ResSchedMgr ServiceDemo SceneRecognizer SlideRecognizer SceneFacts SceneReach SceneService.

Section rules.
Context {J K : Type} `{!Json J} `{!SceneHost J K} `{!BackgroundMode}.
Implicit Types (s : Scenes J).

(** The rules of the comment before [CheckEnterScene], read on the recognizer alone: more than
    one application has sensitive tasks, or one that is not in the foreground; and the
    foreground is not the scene board. *)
Definition scene_rule (r : BackgroundRecognizer) : bool :=
  negb (foregroundPid_ r =? sceneboardPid_ r)
  && (bool_decide (1 < size (perceivableTasks_ r))%nat
      || bool_decide (0 < size (perceivableTasks_ r))%nat
         && bool_decide (perceivableTasks_ r !! foregroundPid_ r = None)).

(** The recognizer after a change of scene, with the report of the change. *)
Definition moved (s : Scenes J) (r : BackgroundRecognizer) (on : bool) : Scenes J :=
  s <| background := r <| isInBackgroundPerceivableScene_ := on |> |>
    <| sc_calls ::= fun l => l ++
         if eqb on (isInBackgroundPerceivableScene_ r) then []
         else [CReportData RES_TYPE_BACKGROUND_PERCEIVABLE_SCENE
                 (if on then PERCEIVABLE_START else PERCEIVABLE_STOP) json_null] |>.

Lemma CheckEnterScene_rule r :
  CheckEnterScene r = negb (isInBackgroundPerceivableScene_ r) && scene_rule r.
Proof.
  unfold CheckEnterScene, scene_rule.
  destruct (isInBackgroundPerceivableScene_ r), (foregroundPid_ r =? sceneboardPid_ r); done.
Qed.

Lemma background_eta r : r <| isInBackgroundPerceivableScene_ := isInBackgroundPerceivableScene_ r |> = r.
Proof. by destruct r. Qed.
Lemma moved_same s r : moved s r (isInBackgroundPerceivableScene_ r) = s <| background := r |>.
Proof.
  unfold moved. rewrite eqb_reflx, background_eta. destruct s. cbv [over]. simpl. by rewrite app_nil_r.
Qed.

Lemma when_entering_run s :
  when_entering s = Some (tt, moved s (background s)
    (isInBackgroundPerceivableScene_ (background s) || scene_rule (background s))).
Proof.
  unfold when_entering. rewrite run_get_bind, CheckEnterScene_rule.
  destruct (isInBackgroundPerceivableScene_ (background s)) eqn:E; cbn [negb andb orb st_when].
  - rewrite <- E, moved_same. by destruct s.
  - destruct (scene_rule (background s)); cbn [st_when].
    + unfold moved. rewrite E. done.
    + rewrite <- E, moved_same. by destruct s.
Qed.

Lemma when_leaving_run s :
  when_leaving s = Some (tt, moved s (background s) false).
Proof.
  unfold when_leaving. rewrite run_get_bind, CheckEnterScene_rule.
  destruct (isInBackgroundPerceivableScene_ (background s)) eqn:E; cbn [negb andb orb st_when].
  - unfold moved. rewrite E. done.
  - rewrite andb_false_r. cbn [st_when]. rewrite <- E, moved_same. by destruct s.
Qed.

(** C40: The rules of the background scene, exactly.  A task that starts or changes, and another
    foreground application, enter the scene when the rules say so and never leave it, except
    that the scene board in the foreground ends it.  But a task that stops ends the scene
    whatever other sensitive tasks are left: the rules are asked while the scene is on, and
    the test answers that it cannot be entered. *)
Theorem background_scene_rules s pid ids v (text : string) :
  let r := background s in
  let started := r <| perceivableTasks_ ::= <[pid := ids]> |> in
  let stopped := r <| perceivableTasks_ ::= delete pid |> in
  let front := r <| foregroundPid_ := default (foregroundPid_ r) (sch_StrToInt (J := J) (K := K) text) |> in
  HandleTaskStart pid ids s
    = Some (tt, if IsValidPid pid && IsValidFilteredTypeIds ids
                then moved s started (isInBackgroundPerceivableScene_ r || scene_rule started) else s)
  /\ HandleTaskUpdate pid ids s
    = Some (tt, if bool_decide (ids = []) then moved s stopped false
                else moved s started (isInBackgroundPerceivableScene_ r || scene_rule started))
  /\ HandleTaskStop pid s
    = Some (tt, if bool_decide (perceivableTasks_ r !! pid = None) then s else moved s stopped false)
  /\ HandleForeground (K := K) v text s
    = Some (tt, if v =? PROCESS_FOREGROUND
                then moved s front (negb (foregroundPid_ front =? sceneboardPid_ r)
                                    && (isInBackgroundPerceivableScene_ r || scene_rule front))
                else s).
Proof.
  cbv zeta. split_and!.
  - unfold HandleTaskStart. destruct (IsValidPid pid), (IsValidFilteredTypeIds ids); try done.
    cbn [negb orb andb]. exact (when_entering_run (s <| background ::= _ |>)).
  - unfold HandleTaskUpdate. case_bool_decide.
    + exact (when_leaving_run (s <| background ::= _ |>)).
    + exact (when_entering_run (s <| background ::= _ |>)).
  - unfold HandleTaskStop. rewrite run_get_bind. case_bool_decide; [done|].
    exact (when_leaving_run (s <| background ::= _ |>)).
  - unfold HandleForeground. destruct (v =? PROCESS_FOREGROUND); [cbn [negb]|done].
    set (front := (background s) <| foregroundPid_ := _ |>).
    rewrite (run_bind (upd_background _) _ s tt (s <| background := front |>)) by done.
    rewrite run_get_bind. cbv zeta.
    change (background (s <| background := front |>)) with front.
    change (sceneboardPid_ (background s)) with (sceneboardPid_ front).
    change (isInBackgroundPerceivableScene_ (background s)) with (isInBackgroundPerceivableScene_ front).
    destruct (foregroundPid_ front =? sceneboardPid_ front) eqn:Eb; cbn [andb negb].
    + destruct (isInBackgroundPerceivableScene_ front) eqn:Ei.
      * unfold moved. rewrite Ei. done.
      * rewrite when_entering_run. change (background (s <| background := front |>)) with front.
        rewrite Ei. unfold scene_rule at 1. rewrite Eb. done.
    + by rewrite when_entering_run.
Qed.
End rules.

Section busy.
Context {J K : Type} `{!Json J} `{!JsonLaws J} `{!Build} `{!PluginHost J K} `{!SceneHost J K} `{!BackgroundMode}.

(** A task that comes due clears no handle. *)
Lemma timer_keeps_handles (sc sc' : Scenes J) h self r :
  slides_ sc !! self = Some r -> IsTaskClean r = false -> run_scene_timer h sc = Some (tt, sc') ->
  exists r', slides_ sc' !! self = Some r' /\ IsTaskClean r' = false.
Proof.
  intros Er Hc. unfold run_scene_timer. rewrite run_get_bind.
  destruct (sc_timers sc !! h) as [[[|self' p] d]|]; cbn [fst]; [by intros [= <-]; eauto| |by intros [= <-]; eauto].
  unfold mbind at 1, ST_bind at 1. cbn [st_modify]. unfold ReportListFlingLockedEnd.
  destruct (slides_ sc !! self') as [r'|] eqn:E'.
  2:{ unfold get_slide, mbind at 1, ST_bind at 1. simpl. by rewrite E'. }
  rewrite (run_get_slide self' _ _ r') by done.
  destruct (negb _); intros [= <-]; simpl; [by eauto|].
  destruct (decide (self' = self)) as [->|Hne]; [|by rewrite lookup_alter_ne by done; eauto].
  rewrite lookup_alter_eq, Er. eauto.
Qed.

(** A table of busy recognizers forgets a new one.  When ten screens have recognizers that
    are in a slide or keep the handle of a task, an event of another screen makes a recognizer
    that the table drops at once: the table is what it was, so the next event of that screen
    makes another one.  A recognizer whose fling ended by itself stays busy, because the
    tasks that come due leave the handles as they are. *)
Theorem busy_table_forgets (screen_u64 : forall d (k : K) screen,
    sch_ConvertScreenIdToRsScreenId (J := J) d k = Some screen -> 0 <= screen < 2 ^ 64)
    k (s0 s : Service J K (Scenes J)) es screen :
  starts k s0 -> sv_run es s0 s -> 0 <= screen < 2 ^ 64 ->
  let sc := scenes s in
  size (instances_ (proxy sc)) = MAX_INSTANCE_COUNT ->
  (forall i self, instances_ (proxy sc) !! i = Some self -> is_idle sc self = false) ->
  instances_ (proxy sc) !! screen = None ->
  (exists self sc', GetOrCreateInstance screen sc = Some (self, sc')
     /\ instances_ (proxy sc') = instances_ (proxy sc)
     /\ is_Some (slides_ sc' !! self) /\ (forall i, instances_ (proxy sc') !! i <> Some self))
  /\ (forall h sc' self r, slides_ sc !! self = Some r -> IsTaskClean r = false ->
       run_scene_timer h sc = Some (tt, sc') ->
       exists r', slides_ sc' !! self = Some r' /\ IsTaskClean r' = false).
Proof.
  intros Hstart Hrun Hsc sc Hsize Hbusy Hnone. subst sc. set (sc := scenes s) in *.
  assert (Hs : scenes_ok (K := K) (length (sc_calls sc)) None sc).
  { exact (sv_run_ok screen_u64 _ _ _ Hrun (starts_ok k s0 Hstart)). }
  assert (Hfresh : slides_ sc !! sc_next sc = None).
  { destruct (slides_ sc !! sc_next sc) as [r'|] eqn:E; [|done]. destruct (so_slides _ _ _ Hs _ _ E). lia. }
  assert (Hnew : forall i, instances_ (proxy sc) !! i <> Some (sc_next sc)).
  { intros i Hi. destruct (so_instances _ _ _ Hs _ _ Hi) as [[r' E] _]. congruence. }
  split; [|intros h sc' self r Er Hc E; by eapply timer_keeps_handles].
  unfold GetOrCreateInstance. rewrite run_get_bind, Hnone. cbv zeta.
  set (r := new_SlideRecognizer <| listFlingTimeOutTime_ := _ |> <| listFlingEndTime_ := _ |>
                                <| listFlingSpeedLimit_ := _ |>).
  match goal with |- context [st_modify ?f ≫= _] => rewrite (run_bind (st_modify f) _ sc tt (f sc)) by done end.
  match goal with |- context [upd_proxy ?f ≫= _] =>
    rewrite (run_bind (upd_proxy f) _ _ tt (sc <| sc_next ::= S |> <| slides_ ::= <[sc_next sc := r]> |>
                                              <| proxy ::= f |>)) by done end.
  rewrite run_get_bind. rewrite bool_decide_true by (simpl; rewrite map_size_insert_None by done; lia).
  cbn [st_when]. unfold CleanupIdleInstances.
  match goal with |- context [mbind _ _ ?x = _] => set (sc1 := x) end.
  assert (Hfil : filter (fun x : Z * nat => is_idle sc1 x.2 = false) (<[screen := sc_next sc]> (instances_ (proxy sc)))
    = instances_ (proxy sc)).
  { rewrite map_filter_insert_False by (unfold is_idle; simpl; rewrite lookup_insert_eq; done).
    rewrite delete_id by done. apply map_filter_id. intros i self Hi. simpl.
    unfold is_idle. simpl. rewrite lookup_insert_ne by (intros <-; by destruct (Hnew i)).
    by apply (Hbusy i self). }
  eexists (sc_next sc), _. split; [done|]. split; [exact Hfil|]. split; [simpl; rewrite lookup_insert_eq; by eexists|].
  intros i. simpl. match goal with |- ?m !! _ <> _ => replace m with (instances_ (proxy sc)) end. apply Hnew.
Qed.
End busy.

(** ** Examples *)

#[export] Instance demo_scene_host : SceneHost json Z := {|
  sch_LoadStringFromFile _ _ := "";
  sch_GetParameter _ _ := "v1";
  sch_ConvertScreenIdToRsScreenId d _ := if d =? 5 then Some 50 else None;
  sch_GetNowMillTime k := k;
  sch_get_u32 j := json_integer j;
  sch_StrToInt s := StrToInt32 64 s;
  sch_strtof s := if String.eqb s "5" then Some (float_of_Z 5, false, "") else None;
|}.
#[export] Instance demo_modes : BackgroundMode := {|
  BM_DATA_TRANSFER := 1; BM_AUDIO_PLAYBACK := 2; BM_LOCATION := 4;
  BM_MULTI_DEVICE_CONNECTION := 6; BM_VOIP := 8; BM_END := 12 |}.

Lemma demo_screens : forall d (k : Z) screen,
  sch_ConvertScreenIdToRsScreenId (J := json) d k = Some screen -> 0 <= screen < 2 ^ 64.
Proof. intros d k screen. simpl. destruct (d =? 5); [intros [= <-]; lia|done]. Qed.

(** A history that is evaluated is a history. *)
Fixpoint run_all {J K} `{!Json J} `{!Build} `{!PluginHost J K} `{!SceneHost J K} `{!BackgroundMode}
    (es : list (SvEvent (J := J))) (s : Service J K (Scenes J)) : option (Service J K (Scenes J)) :=
  match es with
  | [] => Some s
  | e :: es => match run_sv e s with Some (_, s) => run_all es s | None => None end
  end.
Lemma run_all_run {J K} `{!Json J} `{!Build} `{!PluginHost J K} `{!SceneHost J K} `{!BackgroundMode}
    es : forall (s s' : Service J K (Scenes J)),
  Forall (fine_event (K := K)) es -> run_all es s = Some s' -> sv_run es s s'.
Proof.
  induction es as [|e es IH]; intros s s' Hf; simpl; [intros [= <-]; constructor|].
  apply Forall_cons in Hf as [He Hf]. destruct (run_sv e s) as [[[] s1]|] eqn:E; [|done].
  intros Hr. econstructor; [done..|]. by apply IH.
Qed.

(** Payloads of text fields without task types. *)
Definition plain (l : list (string * json)) : bool := bool_decide (assoc TYPE_IDS_KEY l = None).
Lemma plain_event_ok t v l : plain l = true -> event_ok (K := Z) (mkResData t v (JObject l)).
Proof.
  intros Hl%bool_decide_eq_true. split; [by left|]. intros _ l'. simpl. by rewrite Hl.
Qed.
Definition plain_event (e : SvEvent (J := json)) : bool :=
  match e with
  | SvReport _ _ (JObject l) => plain l
  | SvReport _ _ _ => false
  | _ => true
  end.
Lemma plain_events_fine es : forallb plain_event es = true -> Forall (fine_event (K := Z)) es.
Proof.
  intros Hes. apply List.Forall_forall. intros e He. apply (proj1 (List.forallb_forall _ _) Hes) in He.
  destruct e as [t v []| | | | |]; try done. intros t'. by apply plain_event_ok.
Qed.

Definition demo_scenes_start : Service json Z (Scenes json) :=
  let s := new_Service 0 (default (mkScenes None ∅ 0 [] (mkInstallRecognizer None false) false
      (mkBackgroundRecognizer 0 0 ∅ false) (mkSlideRecognizerProxy 0 0 (float_of_Z 0) ∅ ∅) ∅)
      (new_SceneRecognizerMgr 0)) in
  s <| plugins := demo_mgr |>.

(** A touch on screen 1 that becomes a slide and then a fling. *)
Definition client : list (string * json) :=
  [("screenId", JString "1"); ("clientPid", JString "100"); ("callingUid", JString "20010001")].
Definition demo_fling : list (SvEvent (J := json)) :=
  [SvReport RES_TYPE_SLIDE_RECOGNIZE SLIDE_EVENT_DETECTING (JObject client); SvQueue; SvQueue;
   SvReport RES_TYPE_SEND_FRAME_EVENT 0 (JObject client); SvQueue; SvQueue;
   SvReport RES_TYPE_CLICK_RECOGNIZE TOUCH_EVENT_UP (JObject (client ++ [("up_speed", JString "5")]));
   SvQueue; SvQueue; SvQueue].
(** Ten screens whose recognizers await the end of a fling. *)
Definition demo_busy : list (SvEvent (J := json)) :=
  flat_map (fun i => [SvReport RES_TYPE_SLIDE_RECOGNIZE SLIDE_EVENT_ON
                        (JObject [("screenId", JString (to_string (Z.of_nat i)))]); SvQueue]) (seq 0 10).
Definition demo_after (es : list (SvEvent (J := json))) : Service json Z (Scenes json) :=
  default demo_scenes_start (run_all es demo_scenes_start).

Lemma demo_history_run es :
  forallb plain_event es = true -> is_Some (run_all es demo_scenes_start) ->
  sv_run es demo_scenes_start (demo_after es).
Proof.
  intros Hes [s' E]. apply run_all_run; [by apply plain_events_fine|]. unfold demo_after. by rewrite E.
Qed.

(** The fling of the example has a pending time-out, and is over after it. *)
Lemma flings_end_witness :
  let s := demo_after demo_fling in
  (exists r, slides_ (scenes s) !! 0%nat = Some r /\ slideState_ r = LIST_FLING) /\
  exists h p delay s', sc_timers (scenes s) !! h = Some (DListFlingEnd 0 p, delay)
    /\ run_sv (SvTimer h) s = Some (tt, s')
    /\ exists r', slides_ (scenes s') !! 0%nat = Some r' /\ slideState_ r' = IDLE.
Proof.
  cbv zeta. set (s := demo_after demo_fling).
  assert (Hr : exists r, slides_ (scenes s) !! 0%nat = Some r /\ slideState_ r = LIST_FLING).
  { eexists. split; [vm_compute; reflexivity|reflexivity]. }
  split; [exact Hr|]. destruct Hr as (r & Er & Hf).
  destruct (flings_end demo_screens 0 demo_scenes_start demo_fling s) as [_ H].
  { vm_compute. reflexivity. }
  { apply demo_history_run; [vm_compute; reflexivity|eexists; vm_compute; reflexivity]. }
  destruct (H 1 0%nat r) as [(q & d & Hq & Hd & _)|(h & p & delay & s' & _ & Et & Es & Es' & _)].
  { vm_compute. reflexivity. }
  { exact Er. }
  { exact Hf. }
  - exfalso. assert (E : ffrtQueue_ (scenes s) = Some []) by (vm_compute; reflexivity).
    rewrite E in Hq. injection Hq as <-. by apply not_elem_of_nil in Hd.
  - exists h, p, delay, s'. split; [exact Et|]. split; [exact Es|].
    exists (r <| slideState_ := IDLE |>). split; [exact Es'|reflexivity].
Defined.

Lemma scenes_reported_in_turn_witness :
  let sc := scenes (demo_after demo_fling) in
  in_scene true false (reports RES_TYPE_BACKGROUND_PERCEIVABLE_SCENE (sc_calls sc))
    = Some (isInBackgroundPerceivableScene_ (background sc))
  /\ in_scene false false (reports RES_TYPE_CONTINUOUS_INSTALL (sc_calls sc))
    = Some (isInContinuousInstall_ (installs sc)).
Proof.
  destruct (scenes_reported_in_turn demo_screens 0 demo_scenes_start demo_fling (demo_after demo_fling))
    as (H1 & H2 & _).
  { vm_compute. reflexivity. }
  { apply demo_history_run; [vm_compute; reflexivity|eexists; vm_compute; reflexivity]. }
  split; [exact H1|exact H2].
Defined.

Lemma busy_table_forgets_witness :
  let sc := scenes (demo_after demo_busy) in
  size (instances_ (proxy sc)) = MAX_INSTANCE_COUNT /\
  exists self sc', GetOrCreateInstance 10 sc = Some (self, sc') /\ instances_ (proxy sc') = instances_ (proxy sc).
Proof.
  split; [vm_compute; reflexivity|].
  destruct (busy_table_forgets demo_screens 0 demo_scenes_start (demo_after demo_busy) demo_busy 10)
    as ((self & sc' & E & Ei & _) & _).
  { vm_compute. reflexivity. }
  { apply demo_history_run; [vm_compute; reflexivity|eexists; vm_compute; reflexivity]. }
  { lia. }
  { vm_compute. reflexivity. }
  { apply map_Forall_lookup. apply (bool_decide_unpack _). vm_compute. exact I. }
  { vm_compute. reflexivity. }
  exists self, sc'. split; [exact E|exact Ei].
Defined.
