(* ===== verification/Client.v ===== *)
(** * The client library

    [res_sched_client.cpp]: a process reports events, asks questions and registers callbacks
    through one [ResSchedClient].  The service, the system ability manager and the clock are
    the class [RemoteService]: a call by IPC may fail, and then its out parameters are not
    written.  Callbacks are numbers, a null one is [None].  Allocation does not fail. *)
From S2P Require Import Prelude Json ResType CommonUtil ServiceWorld.

(** ** The outside *)

Class RemoteService (W : Type) := {
  rs_GetSystemAbilityManager : W -> bool;
  rs_CheckSystemAbility : W -> option Z;
  rs_iface_cast : Z -> bool;
  rs_SubscribeSystemAbility : W -> Z * W;
  (** [GetNowMillTime(true)], and whether the task of a mutex check ends in its 100 ms. *)
  rs_GetNowMillTime : W -> Z;
  rs_in_time : W -> bool;
  (** The interface of the service; the first argument is the remote object. *)
  rs_GetResTypeList : Z -> W -> option (gset Z) * W;
  rs_ReportData : Z -> Z -> Z -> string -> W -> W;
  rs_ReportSyncEvent : Z -> Z -> Z -> string -> W -> option (string * Z) * W;
  rs_KillProcess : Z -> string -> W -> option Z * W;
  rs_RegisterSystemloadNotifier : Z -> W -> W;
  rs_UnRegisterSystemloadNotifier : Z -> W -> W;
  rs_RegisterEventListener : Z -> Z -> Z -> W -> W;
  rs_UnRegisterEventListener : Z -> Z -> Z -> W -> W;
  rs_GetSystemloadLevel : Z -> W -> option Z * W;
  rs_IsAllowedAppPreload : Z -> string -> Z -> W -> option bool * W;
  (** The flag goes to the service only ([[in]] of the interface). *)
  rs_IsAllowedLinkJump : Z -> bool -> W -> option Z * W;
}.

(** [RES_SCHED_SYS_ABILITY_ID] of the system, and the order in which an unordered map is
    walked: any order of its entries. *)
Class ClientEnv := {
  RES_SCHED_SYS_ABILITY_ID : Z;
  walk {A} : gmap Z A -> list (Z * A);
  walk_perm {A} (m : gmap Z A) : walk m ≡ₚ map_to_list m;
}.

Definition ONE_DAY_MILLS : Z := 24 * 60 * 60 * 1000. (* res_sched_client.cpp:38 *)
Definition GET_RES_SCHED_SERVICE_FAILED `{!ErrCodes} : Z := ERR_RES_SCHED_INVALID_PARAM + 1. (* res_sched_errors.h:39 *)

(** ** State *)

(** What the client does besides its calls of the service. *)
Inductive CCall :=
  | CAddDeath (obj : Z)
  | CRemoveDeath (obj : Z)
  | CAbnormal (func msg : string)
  | COnSystemloadLevel (notifier level : Z)
  | COnReceiveEvent (listener eventType eventValue : Z) (extInfo : gmap string string).

(** res_sched_client.h:230-241 [registeredInnerEvents] the members; the listeners are their
    lists of callbacks, and the flags of the file *)
Record Client (W : Type) := mkClient {
  rss_ : option Z;
  remoteObject_ : option Z;
  recipient_ : bool;
  systemloadLevelListener_ : option (list Z);
  innerEventListener_ : option (gmap Z (gmap Z (list Z)));
  resSchedSvcStatusListener_ : bool;
  systemloadCbRegistered_ : bool;
  isGetResTypeList_ : bool;
  resTypeList_ : gset Z;
  registeredInnerEvents : gmap Z (gset Z);
  lastDiscardReportTime_ : Z;
  discardEventStats_ : gmap Z Z;
  g_isDestroyed : bool;
  g_isReportConnectErr : bool;
  remote : W;
  c_trace : list CCall;
}.
Arguments mkClient {_}.
Arguments rss_ {_}.
Arguments remoteObject_ {_}.
Arguments recipient_ {_}.
Arguments systemloadLevelListener_ {_}.
Arguments innerEventListener_ {_}.
Arguments resSchedSvcStatusListener_ {_}.
Arguments systemloadCbRegistered_ {_}.
Arguments isGetResTypeList_ {_}.
Arguments resTypeList_ {_}.
Arguments registeredInnerEvents {_}.
Arguments lastDiscardReportTime_ {_}.
Arguments discardEventStats_ {_}.
Arguments g_isDestroyed {_}.
Arguments g_isReportConnectErr {_}.
Arguments remote {_}.
Arguments c_trace {_}.
#[export] Instance Client_eta W : Eta (Client W) := fun s =>
  mkClient (rss_ s) (remoteObject_ s) (recipient_ s) (systemloadLevelListener_ s) (innerEventListener_ s)
    (resSchedSvcStatusListener_ s) (systemloadCbRegistered_ s) (isGetResTypeList_ s) (resTypeList_ s)
    (registeredInnerEvents s) (lastDiscardReportTime_ s) (discardEventStats_ s) (g_isDestroyed s)
    (g_isReportConnectErr s) (remote s) (c_trace s).

(** The static instance when the process starts. *)
Definition new_Client {W} (w : W) : Client W :=
  mkClient None None false None None false false false ∅ ∅ 0 ∅ false false w [].

(** ** The listeners *)

(** res_sched_client.cpp:571-585 [RegisterSystemloadLevelCb] *)
Definition RegisterSystemloadLevelCb (callbackObj : option Z) (cbs : list Z) : list Z :=
  match callbackObj with
  | Some cb => if bool_decide (cb ∈ cbs) then cbs else cbs ++ [cb]
  | None => cbs
  end.

(** res_sched_client.cpp:587-594 [UnRegisterSystemloadLevelCb] *)
Definition UnRegisterSystemloadLevelCb (callbackObj : option Z) (cbs : list Z) : list Z :=
  filter (fun cb => Some cb <> callbackObj) cbs.

(** The listeners of a type and a group. *)
Definition listeners_of (eventType listenerGroup : Z) (m : gmap Z (gmap Z (list Z))) : option (list Z) :=
  m !! eventType ≫= lookup listenerGroup.

(** res_sched_client.cpp:626-651 [InnerEventListener::RegisterEventListener] *)
Definition Inner_RegisterEventListener (eventListener : option Z) (eventType listenerGroup : Z)
    (m : gmap Z (gmap Z (list Z))) : gmap Z (gmap Z (list Z)) :=
  match eventListener with
  | None => m
  | Some l =>
      match m !! eventType with
      | None => <[eventType := {[ listenerGroup := [l] ]}]> m
      | Some item =>
          let listenerItem := default [] (item !! listenerGroup) in
          <[eventType := <[listenerGroup :=
              if bool_decide (l ∈ listenerItem) then listenerItem else listenerItem ++ [l]]> item]> m
      end
  end.

(** res_sched_client.cpp:653-678 [InnerEventListener::UnRegisterEventListener] *)
Definition Inner_UnRegisterEventListener (eventListener : option Z) (eventType listenerGroup : Z)
    (m : gmap Z (gmap Z (list Z))) : gmap Z (gmap Z (list Z)) :=
  match m !! eventType with
  | None => m
  | Some item =>
      match item !! listenerGroup with
      | None => m
      | Some listenerItem =>
          let listenerItem := filter (fun l => Some l <> eventListener) listenerItem in
          let item := if bool_decide (listenerItem = []) then delete listenerGroup item
                      else <[listenerGroup := listenerItem]> item in
          if bool_decide (item = ∅) then delete eventType m else <[eventType := item]> m
      end
  end.

(** res_sched_client.cpp:716-725 [InnerEventListener::IsInnerEventMapEmpty] *)
Definition IsInnerEventMapEmpty (eventType listenerGroup : Z) (m : gmap Z (gmap Z (list Z))) : bool :=
  match listeners_of eventType listenerGroup m with
  | None => true
  | Some l => bool_decide (l = [])
  end.

(** ** The client *)
Section client.
Context {J W : Type} `{!Json J} `{!JsonText J} `{!RemoteService W} `{!ClientEnv} `{!ErrCodes}.
#[local] Abbreviation M := (ST (Client W)).

Definition upd (f : Client W -> Client W) : M unit := st_modify f.
Definition c_record (c : CCall) : M unit := upd (fun s => s <| c_trace ::= fun l => l ++ [c] |>).
(** A call to the outside, with and without a result. *)
Definition call {A} (f : W -> A * W) : M A :=
  fun s => Some ((f (remote s)).1, s <| remote := (f (remote s)).2 |>).
Definition tell (f : W -> W) : M unit := upd (fun s => s <| remote ::= f |>).

(** res_sched_client.cpp:727-738 [InnerEventListener::GetRegisteredTypesAndGroup] *)
Definition GetRegisteredTypesAndGroup (m : gmap Z (gmap Z (list Z))) : gmap Z (list Z) :=
  (fun item => (walk item).*1) <$> m.

(** res_sched_client.cpp:67-83 [StringToJsonObj] *)
Definition StringToJsonObj (str : string) : J :=
  if bool_decide (str = "") then json_object else
  match json_parse str with
  | None => json_object
  | Some jsonTmp => if json_is_object jsonTmp then jsonTmp else json_object
  end.

(** [payload[it->first] = it->second] for each entry, on a value that was null. *)
Definition json_of_map (mapPayload : gmap string string) : J :=
  foldl (fun j p => json_set p.1 (json_of_string p.2) j) json_null (by_name mapPayload).

(** res_sched_client.cpp:400-406 [ReportConnectError] *)
Definition ReportConnectError (reason : string) : M unit :=
  s ← st_get;
  st_when (negb (g_isReportConnectErr s))
    (upd (fun s => s <| g_isReportConnectErr := true |>);;
     c_record (CAbnormal "ReportConnectError" reason)).

(** res_sched_client.cpp:445-465 [AddResSaListenerLocked] *)
Definition AddResSaListenerLocked : M unit :=
  s ← st_get;
  ret_if resSchedSvcStatusListener_ s;
  ret_if negb (rs_GetSystemAbilityManager (remote s));
  upd (fun s => s <| resSchedSvcStatusListener_ := true |>);;
  ret ← call rs_SubscribeSystemAbility;
  st_when (negb (ret =? ERR_OK)) (upd (fun s => s <| resSchedSvcStatusListener_ := false |>)).

(** res_sched_client.cpp:359-398 [TryConnect] *)
Definition TryConnect : M Z :=
  s ← st_get;
  if g_isDestroyed s then mret GET_RES_SCHED_SERVICE_FAILED else
  match rss_ s with
  | Some _ => mret ERR_OK
  | None =>
      if negb (rs_GetSystemAbilityManager (remote s)) then
        ReportConnectError "GetSystemAbilityManager error";; mret GET_RES_SCHED_SERVICE_FAILED
      else
      upd (fun s => s <| remoteObject_ := rs_CheckSystemAbility (remote s) |>);;
      match rs_CheckSystemAbility (remote s) with
      | None => ReportConnectError "CheckSystemAbility error";; mret GET_RES_SCHED_SERVICE_FAILED
      | Some obj =>
          if negb (rs_iface_cast obj) then
            ReportConnectError "cast remoteObject error";; mret GET_RES_SCHED_SERVICE_FAILED
          else
          upd (fun s => s <| rss_ := Some obj |> <| recipient_ := true |>);;
          c_record (CAddDeath obj);;
          AddResSaListenerLocked;;
          upd (fun s => s <| g_isReportConnectErr := false |>);;
          mret ERR_OK
      end
  end.

(** res_sched_client.cpp:350-357 [GetProxy] *)
Definition GetProxy : M (option Z) :=
  ret ← TryConnect;
  s ← st_get;
  mret (if ret =? ERR_OK then rss_ s else None).

(** The connection is given up. *)
Definition drop_connection : M unit :=
  s ← st_get;
  match rss_ s with Some obj => c_record (CRemoveDeath obj) | None => mret tt end;;
  upd (fun s => s <| rss_ := None |> <| systemloadCbRegistered_ := false |> <| registeredInnerEvents := ∅ |>).

(** res_sched_client.cpp:434-443 [StopRemoteObject] *)
Definition StopRemoteObject : M unit := drop_connection.

(** res_sched_client.cpp:55-65 [~ResSchedClient] *)
Definition Client_destroy : M unit := upd (fun s => s <| g_isDestroyed := true |>);; drop_connection.

(** res_sched_client.cpp:560-563 [ResSchedDeathRecipient::OnRemoteDied] *)
Definition OnRemoteDied : M unit := StopRemoteObject.

(** The text of the events that were discarded. *)
Definition discard_report (m : gmap Z Z) : string * bool :=
  foldl (fun acc p =>
    if p.2 >? 0 then (acc.1 +:+ "(" +:+ to_string p.1 +:+ ", " +:+ to_string p.2 +:+ ") ", true) else acc)
    ("discard events: ", false) (walk m).

(** res_sched_client.cpp:408-432 [ReportDiscardEventError] a counter is an [int32_t] *)
Definition ReportDiscardEventError (resType : Z) : M unit :=
  s ← st_get;
  let currentTime := rs_GetNowMillTime (remote s) in
  match discardEventStats_ s !! resType with
  | None => upd (fun s => s <| discardEventStats_ ::= <[resType := 1]> |>)
  | Some n =>
      if n =? 2 ^ 31 - 1 then st_undefined
      else upd (fun s => s <| discardEventStats_ ::= <[resType := n + 1]> |>)
  end;;
  s ← st_get;
  st_when (currentTime - lastDiscardReportTime_ s >=? ONE_DAY_MILLS)
    (let '(reportMsg, hasEvents) := discard_report (discardEventStats_ s) in
     st_when hasEvents
       (c_record (CAbnormal "ReportDiscardEventError" reportMsg);;
        upd (fun s => s <| discardEventStats_ := ∅ |> <| lastDiscardReportTime_ := currentTime |>))).

(** res_sched_client.cpp:85-115 [ResSchedClient::ReportData] *)
Definition Client_ReportData (resType value : Z) (mapPayload : gmap string string) : M unit :=
  ret ← TryConnect;
  ret_if negb (ret =? ERR_OK);
  s ← st_get;
  obj <-? rss_ s;
  st_when (negb (isGetResTypeList_ s))
    (types ← call (rs_GetResTypeList obj);
     match types with Some l => upd (fun s => s <| resTypeList_ := l |>) | None => mret tt end;;
     upd (fun s => s <| isGetResTypeList_ := true |>));;
  s ← st_get;
  if negb (resType =? RES_TYPE_SEND_FRAME_EVENT) && negb (resType =? RES_TYPE_AXIS_EVENT)
     && negb (resType =? RES_TYPE_KEY_PERF_SCENE) && bool_decide (resType ∉ resTypeList_ s)
  then ReportDiscardEventError resType
  else tell (rs_ReportData obj resType value (json_dump (json_of_map mapPayload))).

(** res_sched_client.cpp:123-169 [ReportMutexBeforeStartEvent] the task makes its call in any
    case; what it stores after the timeout is not read *)
Definition ReportMutexBeforeStartEvent (resType value : Z) (payload : J) (proxy : Z) : M (Z * J) :=
  s ← st_get;
  let isSucceed := rs_in_time (remote s) in
  out ← call (rs_ReportSyncEvent proxy resType value (json_dump payload));
  out ← st_some out;
  mret (if isSucceed then (out.2, StringToJsonObj out.1) else (RES_SCHED_REQUEST_FAIL, json_null)).

(** res_sched_client.cpp:171-191 [ResSchedJsonClient::ReportSyncEvent] gives the result and the
    reply; the result is read although a failed call does not write it *)
Definition Json_ReportSyncEvent (resType value : Z) (payload reply : J) : M (Z * J) :=
  proxy ← GetProxy;
  match proxy with
  | None => mret (RES_SCHED_CONNECT_FAIL, reply)
  | Some proxy =>
      if resType =? SYNC_RES_TYPE_CHECK_MUTEX_BEFORE_START
      then ReportMutexBeforeStartEvent resType value payload proxy
      else
        out ← call (rs_ReportSyncEvent proxy resType value (json_dump payload));
        out ← st_some out;
        mret (out.2, StringToJsonObj out.1)
  end.

(** res_sched_client.cpp:193-206 [ResSchedClient::ReportSyncEvent] *)
Definition Client_ReportSyncEvent (resType value : Z) (payload reply : gmap string string)
    : M (Z * gmap string string) :=
  out ← Json_ReportSyncEvent resType value (json_of_map payload) json_null;
  mret (out.1, foldl (fun acc p => <[p.1 := json_dump p.2]> acc) reply (default [] (json_entries out.2))).

(** res_sched_client.cpp:208-223 [ResSchedClient::KillProcess] *)
Definition Client_KillProcess (mapPayload : gmap string string) : M Z :=
  proxy ← GetProxy;
  match proxy with
  | None => mret RES_SCHED_KILL_PROCESS_FAIL
  | Some proxy => out ← call (rs_KillProcess proxy (json_dump (json_of_map mapPayload))); st_some out
  end.

(** res_sched_client.cpp:509-520 [InitSystemloadListenersLocked] *)
Definition InitSystemloadListenersLocked : M Z :=
  s ← st_get;
  match systemloadLevelListener_ s with
  | Some _ => mret ERR_OK
  | None => upd (fun s => s <| systemloadLevelListener_ := Some [] |>);; mret ERR_OK
  end.

(** res_sched_client.cpp:522-533 [InitInnerEventListenerLocked] *)
Definition InitInnerEventListenerLocked : M Z :=
  s ← st_get;
  match innerEventListener_ s with
  | Some _ => mret ERR_OK
  | None => upd (fun s => s <| innerEventListener_ := Some ∅ |>);; mret ERR_OK
  end.

(** [registeredInnerEvents[eventType].insert(listenerGroup)] *)
Definition add_registered (eventType listenerGroup : Z) (m : gmap Z (gset Z)) : gmap Z (gset Z) :=
  <[eventType := {[ listenerGroup ]} ∪ default ∅ (m !! eventType)]> m.

(** The service is told of the system load listener when it does not know it and it has a
    callback. *)
Definition register_systemload : M unit :=
  s ← st_get;
  cbs ← st_some (systemloadLevelListener_ s);
  match rss_ s with
  | Some obj =>
      st_when (negb (systemloadCbRegistered_ s) && negb (bool_decide (cbs = [])))
        (tell (rs_RegisterSystemloadNotifier obj);;
         upd (fun s => s <| systemloadCbRegistered_ := true |>))
  | None => mret tt
  end.

(** res_sched_client.cpp:225-239 [ResSchedClient::RegisterSystemloadNotifier] *)
Definition Client_RegisterSystemloadNotifier (callbackObj : option Z) : M unit :=
  ret ← InitSystemloadListenersLocked;
  ret_if negb (ret =? ERR_OK);
  upd (fun s => s <| systemloadLevelListener_ ::= fmap (RegisterSystemloadLevelCb callbackObj) |>);;
  register_systemload;;
  AddResSaListenerLocked.

(** res_sched_client.cpp:547-553 [UnRegisterSystemloadListenersLocked] *)
Definition UnRegisterSystemloadListenersLocked : M unit :=
  s ← st_get;
  cbs ← st_some (systemloadLevelListener_ s);
  match rss_ s with
  | Some obj =>
      st_when (bool_decide (cbs = []))
        (tell (rs_UnRegisterSystemloadNotifier obj);;
         upd (fun s => s <| systemloadCbRegistered_ := false |>))
  | None => mret tt
  end.

(** res_sched_client.cpp:241-251 [ResSchedClient::UnRegisterSystemloadNotifier] *)
Definition Client_UnRegisterSystemloadNotifier (callbackObj : option Z) : M unit :=
  s ← st_get;
  cbs <-? systemloadLevelListener_ s;
  upd (fun s => s <| systemloadLevelListener_ := Some (UnRegisterSystemloadLevelCb callbackObj cbs) |>);;
  UnRegisterSystemloadListenersLocked.

(** res_sched_client.cpp:253-273 [ResSchedClient::RegisterEventListener] *)
Definition Client_RegisterEventListener (eventListener : option Z) (eventType listenerGroup : Z) : M unit :=
  ret ← InitInnerEventListenerLocked;
  ret_if negb (ret =? ERR_OK);
  upd (fun s => s <| innerEventListener_ ::=
    fmap (Inner_RegisterEventListener eventListener eventType listenerGroup) |>);;
  s ← st_get;
  inner ← st_some (innerEventListener_ s);
  match rss_ s with
  | Some obj =>
      st_when (match registeredInnerEvents s !! eventType with
               | None => true
               | Some item => bool_decide (listenerGroup ∉ item)
               end && negb (IsInnerEventMapEmpty eventType listenerGroup inner))
        (tell (rs_RegisterEventListener obj eventType listenerGroup);;
         upd (fun s => s <| registeredInnerEvents ::= add_registered eventType listenerGroup |>))
  | None => mret tt
  end;;
  AddResSaListenerLocked.

(** res_sched_client.cpp:535-544 [UnRegisterEventListenerLocked] *)
Definition UnRegisterEventListenerLocked (eventType listenerGroup : Z) : M unit :=
  s ← st_get;
  inner ← st_some (innerEventListener_ s);
  match rss_ s with
  | Some obj =>
      st_when (IsInnerEventMapEmpty eventType listenerGroup inner)
        (tell (rs_UnRegisterEventListener obj eventType listenerGroup);;
         upd (fun s => s <| registeredInnerEvents ::= alter (fun item => item ∖ {[ listenerGroup ]}) eventType |>))
  | None => mret tt
  end.

(** res_sched_client.cpp:275-286 [ResSchedClient::UnRegisterEventListener] *)
Definition Client_UnRegisterEventListener (eventListener : option Z) (eventType listenerGroup : Z) : M unit :=
  s ← st_get;
  inner <-? innerEventListener_ s;
  upd (fun s => s <| innerEventListener_ :=
    Some (Inner_UnRegisterEventListener eventListener eventType listenerGroup inner) |>);;
  UnRegisterEventListenerLocked eventType listenerGroup.

(** res_sched_client.cpp:492-507 [ResSchedClient::RecoverEventListener] *)
Definition RecoverEventListener : M unit :=
  s ← st_get;
  inner ← st_some (innerEventListener_ s);
  st_iter (fun typeAndGroup =>
    st_iter (fun group =>
      s ← st_get;
      obj <-? rss_ s;
      tell (rs_RegisterEventListener obj typeAndGroup.1 group);;
      upd (fun s => s <| registeredInnerEvents ::= add_registered typeAndGroup.1 group |>))
      typeAndGroup.2)
    (walk (GetRegisteredTypesAndGroup inner)).

(** res_sched_client.cpp:467-490 [ResSchedClient::OnAddSystemAbility] *)
Definition OnAddSystemAbility (systemAbilityId : Z) : M unit :=
  ret_if negb (systemAbilityId =? RES_SCHED_SYS_ABILITY_ID);
  ret ← TryConnect;
  ret_if negb (ret =? ERR_OK);
  ret ← InitInnerEventListenerLocked;
  s ← st_get;
  st_when ((ret =? ERR_OK) && bool_decide (is_Some (rss_ s))) RecoverEventListener;;
  ret ← InitSystemloadListenersLocked;
  ret_if negb (ret =? ERR_OK);
  register_systemload.

(** res_sched_client.cpp:288-303 [ResSchedClient::GetSystemloadLevel] *)
Definition Client_GetSystemloadLevel : M Z :=
  ret ← TryConnect;
  if negb (ret =? ERR_OK) then mret RES_SCHED_CONNECT_FAIL else
  s ← st_get;
  match rss_ s with
  | None => mret RES_SCHED_CONNECT_FAIL
  | Some obj => out ← call (rs_GetSystemloadLevel obj); st_some out
  end.

(** res_sched_client.cpp:315-331 [ResSchedClient::IsAllowedAppPreload] *)
Definition Client_IsAllowedAppPreload (bundleName : string) (preloadMode : Z) : M bool :=
  ret ← TryConnect;
  if negb (ret =? ERR_OK) then mret false else
  s ← st_get;
  match rss_ s with
  | None => mret false
  | Some obj => out ← call (rs_IsAllowedAppPreload obj bundleName preloadMode); st_some out
  end.

(** res_sched_client.cpp:333-348 [ResSchedClient::IsAllowedLinkJump] gives the flag and the
    result; the interface has the flag as an input, so that nothing writes it *)
Definition Client_IsAllowedLinkJump (isAllowedLinkJump : bool) : M (bool * Z) :=
  ret ← TryConnect;
  if negb (ret =? ERR_OK) then mret (isAllowedLinkJump, RES_SCHED_CONNECT_FAIL) else
  s ← st_get;
  match rss_ s with
  | None => mret (isAllowedLinkJump, RES_SCHED_CONNECT_FAIL)
  | Some obj => out ← call (rs_IsAllowedLinkJump obj isAllowedLinkJump); ret ← st_some out; mret (isAllowedLinkJump, ret)
  end.

(** ** Calls of the service *)

(** res_sched_client.cpp:602-618 [SystemloadLevelListener::OnSystemloadLevel] *)
Definition OnSystemloadLevel (level : Z) : M Z :=
  s ← st_get;
  st_iter (fun notifier => c_record (COnSystemloadLevel notifier level))
    (default [] (systemloadLevelListener_ s));;
  mret ERR_OK.

(** The entries of an object that are strings. *)
Definition string_entries (j : J) : gmap string string :=
  foldl (fun acc p => match json_string p.2 with Some v => <[p.1 := v]> acc | None => acc end)
    ∅ (default [] (json_entries j)).

(** res_sched_client.cpp:680-714 [InnerEventListener::OnReceiveEvent] *)
Definition Inner_OnReceiveEvent (eventType eventValue listenerGroup : Z) (extInfo : string) : M Z :=
  let extInfoMap := string_entries (StringToJsonObj extInfo) in
  s ← st_get;
  match innerEventListener_ s ≫= listeners_of eventType listenerGroup with
  | None => mret RES_SCHED_DATA_ERROR
  | Some listenerList =>
      st_iter (fun listener => c_record (COnReceiveEvent listener eventType eventValue extInfoMap)) listenerList;;
      mret ERR_OK
  end.
End client.
