(* ===== verification/KillEvent.v ===== *)
(** * The reasons of kills

    [kill_event_listener.cpp]: which reasons a caller may give for a kill, and how often each
    was given.  It is a listener of the client library, which is part of its state. *)
From S2P Require Import Prelude Json ResType CommonUtil ServiceWorld EventListenerMgr Client.

Definition UID : string := "uid". (* kill_event_listener.cpp:23 *)
Definition REASON : string := "reason". (* kill_event_listener.cpp:24 *)
Definition RESULT : string := "result". (* kill_event_listener.cpp:25 *)
Definition CLOUD_PUSH_CONFIG : string := "CLOUD_PUSH_CONFIG". (* kill_event_listener.cpp:26 *)
Definition REPORT_INTERVAL_MS : Z := 24 * 60 * 60 * 1000 * 1000. (* kill_event_listener.cpp:27 *)
Definition FIRST_REPORT_DELAY_MS : Z := 10 * 1000 * 1000. (* kill_event_listener.cpp:28 *)
Definition MAX_CACHE_REASON_COUNT : Z := 1000. (* kill_event_listener.cpp:29 *)
Definition EVENT_UPDATE_KILL_REASON_CONFIG : Z := 18. (* res_value.h:58 *)

(** kill_event_listener.h:46-55 [killReasonMap_] the members, the delayed tasks with their
    delays, and the counts that were reported *)
Record KillEventListener (W : Type) := mkKillEventListener {
  killReasonMap_ : gmap Z (gset string);
  k_isTaskSubmit_ : bool;
  k_isRegister_ : bool;
  isConfigInited_ : bool;
  killCountMap_ : gmap string Z;
  k_delayed : list Z;
  k_reported : list (gmap string Z);
  k_client : Client W;
}.
Arguments mkKillEventListener {_}.
Arguments killReasonMap_ {_}.
Arguments k_isTaskSubmit_ {_}.
Arguments k_isRegister_ {_}.
Arguments isConfigInited_ {_}.
Arguments killCountMap_ {_}.
Arguments k_delayed {_}.
Arguments k_reported {_}.
Arguments k_client {_}.
#[export] Instance KillEventListener_eta W : Eta (KillEventListener W) := fun s =>
  mkKillEventListener (killReasonMap_ s) (k_isTaskSubmit_ s) (k_isRegister_ s) (isConfigInited_ s)
    (killCountMap_ s) (k_delayed s) (k_reported s) (k_client s).

(** The static instance when the process starts. *)
Definition new_KillEventListener {W} (c : Client W) : KillEventListener W :=
  mkKillEventListener ∅ false false false ∅ [] [] c.

Section kill_event_listener.
Context {J W : Type} `{!Json J} `{!JsonText J} `{!RemoteService W} `{!ClientEnv} `{!ErrCodes}.
(** The width of [long], and the listener's own address. *)
Context (long_bits self : Z).
#[local] Abbreviation M := (ST (KillEventListener W)).

Definition k_upd (f : KillEventListener W -> KillEventListener W) : M unit := st_modify f.
Definition in_client {A} (m : ST (Client W) A) : M A := fun s =>
  match m (k_client s) with Some (a, c) => Some (a, s <| k_client := c |>) | None => None end.

(** The strings of an array. *)
Definition reasons_of (l : list J) : gset string := list_to_set (omap json_string l).

(** kill_event_listener.cpp:174-196 [configOfSingleUid] one turn of the loop *)
Definition uid_config (configOfSingleUid : J) : option (Z * gset string) :=
  uidStr ← find_string UID configOfSingleUid;
  reasonsOfUid ← json_find REASON configOfSingleUid ≫= json_array;
  uid ← StrToUInt32 long_bits uidStr;
  Some (uid, reasons_of reasonsOfUid).

(** kill_event_listener.cpp:164-201 [ParseKillConfig] *)
Definition ParseKillConfig (reasonsConfig : J) : M unit :=
  result <-? json_find RESULT reasonsConfig ≫= json_array;
  k_upd (fun s => s <| killReasonMap_ := ∅ |>);;
  st_iter (fun config =>
    match uid_config config with
    | Some (uid, reasonsSet) => k_upd (fun s => s <| killReasonMap_ ::= <[uid := reasonsSet]> |>)
    | None => mret tt
    end) result.

(** kill_event_listener.cpp:43-56 [KillEventListener::OnReceiveEvent] *)
Definition Kill_OnReceiveEvent (eventType eventValue : Z) (extInfo : gmap string string) : M unit :=
  text <-? extInfo !! CLOUD_PUSH_CONFIG;
  ret_if bool_decide (text = "");
  reasonsConfig <-? LoadContentToJsonObj text;
  ParseKillConfig reasonsConfig.

(** kill_event_listener.cpp:58-67 [RegisterKillConfigUpdate] *)
Definition RegisterKillConfigUpdate : M unit :=
  s ← st_get;
  st_when (negb (k_isRegister_ s))
    (in_client (Client_RegisterEventListener (Some self) EVENT_UPDATE_KILL_REASON_CONFIG LISTENER_GROUP_COMMON);;
     k_upd (fun s => s <| k_isRegister_ := true |>)).

(** kill_event_listener.cpp:146-162 [InitKillConfig] *)
Definition InitKillConfig : M unit :=
  s ← st_get;
  ret_if isConfigInited_ s;
  out ← in_client (Json_ReportSyncEvent RES_TYPE_LOAD_KILL_REASON_CONFIG 0 json_null json_null);
  ret_if negb (out.1 =? 0);
  ParseKillConfig out.2;;
  k_upd (fun s => s <| isConfigInited_ := true |>).

(** kill_event_listener.cpp:37-41 [KillEventListener::Init] *)
Definition KillEventListener_Init : M unit := RegisterKillConfigUpdate;; InitKillConfig.

(** kill_event_listener.cpp:69-84 [IsConfigKillReason] *)
Definition IsConfigKillReason (callerUid : Z) (reason : string) (s : KillEventListener W) : bool :=
  match killReasonMap_ s !! callerUid with
  | None => false
  | Some configReasons => bool_decide (reason ∈ configReasons)
  end.

(** The key of a kill. *)
Definition kill_key (callerUid : Z) (reason : string) (isAllowed : bool) : string :=
  "uid:" +:+ to_string callerUid +:+ ",reason:" +:+ reason +:+ ",allow" +:+ to_string (Z.b2z isAllowed).

(** kill_event_listener.cpp:128-144 [UpdateKillCount] a count is a [uint32_t] *)
Definition UpdateKillCount (callerUid : Z) (reason : string) (isAllowed : bool) : M unit :=
  let killKey := kill_key callerUid reason isAllowed in
  s ← st_get;
  ret_if (Z.of_nat (size (killCountMap_ s)) >=? MAX_CACHE_REASON_COUNT)
         && bool_decide (killCountMap_ s !! killKey = None);
  match killCountMap_ s !! killKey with
  | None => k_upd (fun s => s <| killCountMap_ ::= <[killKey := 1]> |>)
  | Some n => k_upd (fun s => s <| killCountMap_ ::= <[killKey := to_u32 (n + 1)]> |>)
  end.

(** kill_event_listener.cpp:96-106 [ReportKillEvent] *)
Definition ReportKillEvent : M unit :=
  s ← st_get;
  st_when (negb (k_isTaskSubmit_ s))
    (k_upd (fun s => s <| k_delayed ::= fun l => l ++ [FIRST_REPORT_DELAY_MS] |>);;
     k_upd (fun s => s <| k_isTaskSubmit_ := true |>)).

(** kill_event_listener.cpp:86-94 [KillEventListener::IsAllowedKill] *)
Definition Kill_IsAllowedKill (callerUid : Z) (reason : string) : M bool :=
  RegisterKillConfigUpdate;;
  InitKillConfig;;
  s ← st_get;
  let isAllowed := IsConfigKillReason callerUid reason s in
  UpdateKillCount callerUid reason isAllowed;;
  ReportKillEvent;;
  mret true.

(** kill_event_listener.cpp:108-126 [ReportKillEventPeriod] the report lists all counts *)
Definition ReportKillEventPeriod (period : Z) : M unit :=
  k_upd (fun s => s <| k_reported ::= fun l => l ++ [killCountMap_ s] |>);;
  k_upd (fun s => s <| killCountMap_ := ∅ |>);;
  k_upd (fun s => s <| k_delayed ::= fun l => l ++ [period] |>).

(** A delayed task comes due. *)
Definition run_kill_report : M unit :=
  s ← st_get;
  match k_delayed s with
  | [] => mret tt
  | _ :: l => k_upd (fun s => s <| k_delayed := l |>);; ReportKillEventPeriod REPORT_INTERVAL_MS
  end.

(** res_sched_client.cpp:305-308 [ResSchedClient::IsAllowedKill] *)
Definition Client_IsAllowedKill (callerUid : Z) (Reason : string) : M bool := Kill_IsAllowedKill callerUid Reason.

(** res_sched_client.cpp:310-313 [ResSchedClient::InitKillReasonListener] *)
Definition InitKillReasonListener : M unit := KillEventListener_Init.

(** ** Counts *)

(** A kill: the caller, the reason and whether it was allowed. *)
Definition count_kills (ks : list (Z * string * bool)) : M unit :=
  st_iter (fun k => UpdateKillCount k.1.1 k.1.2 k.2) ks.
Definition key_of (k : Z * string * bool) : string := kill_key k.1.1 k.1.2 k.2.
Definition occurrences (key : string) (ks : list (Z * string * bool)) : Z :=
  Z.of_nat (length (filter (fun k => key_of k = key) ks)).

Lemma occurrences_app key ks k :
  occurrences key (ks ++ [k]) = occurrences key ks + (if decide (key_of k = key) then 1 else 0).
Proof.
  unfold occurrences. rewrite filter_app, length_app, filter_cons. case_decide; cbn; lia.
Qed.

Lemma occurrences_nonneg key ks : 0 <= occurrences key ks.
Proof. unfold occurrences. lia. Qed.

(** What the table says after some kills. *)
Record counted (ks : list (Z * string * bool)) (m : gmap string Z) : Prop := {
  ct_size : Z.of_nat (size m) <= MAX_CACHE_REASON_COUNT;
  ct_count key n : m !! key = Some n -> n = to_u32 (occurrences key ks) /\ 0 < occurrences key ks;
  ct_missing key : m !! key = None -> 0 < occurrences key ks -> Z.of_nat (size m) = MAX_CACHE_REASON_COUNT;
}.

(** The table after one more kill. *)
Definition count_one (k : Z * string * bool) (m : gmap string Z) : gmap string Z :=
  match m !! key_of k with
  | Some n => <[key_of k := to_u32 (n + 1)]> m
  | None => if Z.of_nat (size m) >=? MAX_CACHE_REASON_COUNT then m else <[key_of k := 1]> m
  end.

Lemma count_one_run k s :
  UpdateKillCount k.1.1 k.1.2 k.2 s = Some (tt, s <| killCountMap_ ::= count_one k |>).
Proof.
  destruct k as [[uid reason] allowed], s. unfold UpdateKillCount, count_one. rewrite run_get_bind.
  unfold key_of, k_upd, st_modify, mret, ST_ret. cbn.
  destruct (_ !! kill_key uid reason allowed) as [n|] eqn:E.
  - rewrite bool_decide_false, andb_false_r by done. unfold over. cbn. by rewrite E.
  - rewrite bool_decide_true, andb_true_r by done.
    destruct (_ >=? _) eqn:Es; unfold over; cbn; by rewrite E, Es.
Qed.

Lemma to_u32_succ n : to_u32 (to_u32 n + 1) = to_u32 (n + 1).
Proof. unfold to_u32. apply Zplus_mod_idemp_l. Qed.

Lemma counted_one ks k m : counted ks m -> counted (ks ++ [k]) (count_one k m).
Proof.
  intros [Hs Hc Hm]. unfold count_one. destruct (m !! key_of k) as [n|] eqn:E.
  - assert (Hsz : size (<[key_of k := to_u32 (n + 1)]> m) = size m) by (apply map_size_insert_Some; by rewrite E).
    split.
    + by rewrite Hsz.
    + intros key x. rewrite occurrences_app. destruct (decide (key_of k = key)) as [<-|Hne].
      * rewrite lookup_insert_eq. intros [= <-]. destruct (Hc _ _ E) as [-> Hp]. split; [apply to_u32_succ|lia].
      * rewrite lookup_insert_ne by done. rewrite Z.add_0_r. apply Hc.
    + intros key. rewrite occurrences_app, Hsz. destruct (decide (key_of k = key)) as [<-|Hne].
      * by rewrite lookup_insert_eq.
      * rewrite lookup_insert_ne, Z.add_0_r by done. apply Hm.
  - assert (Hzero : Z.of_nat (size m) < MAX_CACHE_REASON_COUNT -> occurrences (key_of k) ks = 0).
    { intros Hlt. pose proof (occurrences_nonneg (key_of k) ks). specialize (Hm _ E). lia. }
    destruct (Z.geb_spec (Z.of_nat (size m)) MAX_CACHE_REASON_COUNT) as [Hfull|Hfree].
    + split; [done| |intros; lia]. intros key x Hx. rewrite occurrences_app.
      destruct (decide (key_of k = key)) as [<-|Hne]; [congruence|]. rewrite Z.add_0_r. by apply Hc.
    + assert (Hsz : size (<[key_of k := 1]> m) = S (size m)) by (by apply map_size_insert_None).
      split.
      * rewrite Hsz. lia.
      * intros key x. rewrite occurrences_app. destruct (decide (key_of k = key)) as [<-|Hne].
        -- rewrite lookup_insert_eq, Hzero by done. intros [= <-]. done.
        -- rewrite lookup_insert_ne, Z.add_0_r by done. apply Hc.
      * intros key. rewrite occurrences_app. destruct (decide (key_of k = key)) as [<-|Hne].
        -- by rewrite lookup_insert_eq.
        -- rewrite lookup_insert_ne, Z.add_0_r by done. intros Hn Hp. specialize (Hm key Hn Hp). lia.
Qed.

Lemma count_kills_run ks s : count_kills ks s = Some (tt, s <| killCountMap_ ::= fun m => foldl (fun m k => count_one k m) m ks |>).
Proof.
  revert s. induction ks as [|k ks IH]; intros s; [by destruct s|]. unfold count_kills in *. cbn [st_iter].
  rewrite (run_bind _ _ _ _ _ (count_one_run k s)), IH. done.
Qed.

(** The counts of kills: after any kills since the table was empty, it has at most 1000
    keys, the count of a key in it is the number of its kills (as a [uint32_t]), and a kill
    is missing from it only when it is full. *)
Theorem kills_are_counted ks s :
  killCountMap_ s = ∅ ->
  exists s', count_kills ks s = Some (tt, s')
    /\ Z.of_nat (size (killCountMap_ s')) <= MAX_CACHE_REASON_COUNT
    /\ (forall key n, killCountMap_ s' !! key = Some n -> n = to_u32 (occurrences key ks))
    /\ (forall k, k ∈ ks -> killCountMap_ s' !! key_of k = None ->
           Z.of_nat (size (killCountMap_ s')) = MAX_CACHE_REASON_COUNT).
Proof.
  intros Hempty. eexists. split; [apply count_kills_run|].
  assert (Hc : counted ks (foldl (fun m k => count_one k m) (killCountMap_ s) ks)).
  { rewrite Hempty. clear Hempty. induction ks as [|k ks IH] using rev_ind.
    - split; [done| |done]. intros key n. cbn. by rewrite lookup_empty.
    - rewrite foldl_app. by apply counted_one. }
  split_and!; [apply Hc|intros key n Hn; by apply (ct_count _ _ Hc)|].
  intros k Hk Hn. apply (ct_missing _ _ Hc (key_of k) Hn). unfold occurrences.
  apply list_elem_of_lookup in Hk as [i Hi].
  assert (Hin : k ∈ filter (fun x => key_of x = key_of k) ks).
  { apply list_elem_of_filter. split; [done|]. by apply list_elem_of_lookup_2 in Hi. }
  destruct (filter _ ks); [by apply elem_of_nil in Hin|]. cbn. lia.
Qed.

(** ** The configuration *)

(** The reasons that the entries list for a caller: the last entry wins. *)
Definition configured (uid : Z) (l : list J) : option (gset string) :=
  last (omap (fun c => p ← uid_config c; if decide (p.1 = uid) then Some p.2 else None) l).
Definition config_step (m : gmap Z (gset string)) (c : J) : gmap Z (gset string) :=
  match uid_config c with Some (uid, reasons) => <[uid := reasons]> m | None => m end.

Lemma config_steps l uid : foldl config_step ∅ l !! uid = configured uid l.
Proof.
  unfold configured. induction l as [|c l IH] using rev_ind; [apply lookup_empty|].
  rewrite foldl_app, omap_app. cbn [foldl omap list_omap]. unfold config_step at 1.
  destruct (uid_config c) as [[u reasons]|]; cbn.
  - destruct (decide (u = uid)) as [->|Hne].
    + by rewrite lookup_insert_eq, last_snoc.
    + by rewrite lookup_insert_ne, app_nil_r.
  - by rewrite app_nil_r.
Qed.

Lemma config_run l s :
  st_iter (fun config => match uid_config config with
    | Some (uid, reasonsSet) => k_upd (fun s => s <| killReasonMap_ ::= <[uid := reasonsSet]> |>)
    | None => mret tt end) l s
  = Some (tt, s <| killReasonMap_ ::= fun m => foldl config_step m l |>).
Proof.
  revert s. induction l as [|c l IH]; intros s; [by destruct s|]. cbn [st_iter foldl].
  unfold config_step at 2. destruct (uid_config c) as [[uid reasons]|]; unfold mbind, ST_bind; cbn; apply IH.
Qed.

(** What the configuration allows: when a configuration with an array [result] was taken,
    a reason is allowed for a caller exactly when the last well-formed entry of that caller
    lists it; what was configured before does not count.  Any other configuration leaves
    the rules as they were. *)
Theorem kill_config_decides config s :
  exists s', ParseKillConfig config s = Some (tt, s')
    /\ forall uid reason, IsConfigKillReason uid reason s' =
       match json_find RESULT config ≫= json_array with
       | Some l => bool_decide (reason ∈ default ∅ (configured uid l))
       | None => IsConfigKillReason uid reason s
       end.
Proof.
  unfold ParseKillConfig. destruct (json_find RESULT config ≫= json_array) as [l|]; [|by exists s].
  eexists. split.
  - unfold mbind, ST_bind. cbn. apply config_run.
  - intros uid reason. unfold IsConfigKillReason. cbn. rewrite config_steps.
    destruct (configured uid l); [done|]. cbn. symmetry. by apply bool_decide_eq_false.
Qed.
End kill_event_listener.
