(* ===== verification/ClientFacts.v ===== *)
(** * Facts about the client library

    The listeners of a process and what the service keeps for it: over any history of
    registrations, reports, deaths and restarts of the service. *)
From S2P Require Import Prelude Json ResType CommonUtil ServiceWorld EventListenerMgr Client.

(** ** What the service keeps for a process

    The living service, if there is one, has a table of the types and groups that the
    process listens to.  A registration adds to it, when the service lets the request
    through, and its removal takes from it, by the object of the living service only; other
    calls leave it.  [rr_refused] are the types and groups whose registration the service
    turned down and that it does not keep. *)
Class RemoteRegistry (W : Type) `{!RemoteService W} := {
  rr_ready : W -> Prop;
  rr_living : W -> option Z;
  rr_keeps : W -> Z -> Z -> Prop;
  rr_refused : W -> Z -> Z -> Prop;
  (** Whether the service lets the next request of the process through. *)
  rr_accepts : W -> bool;
  rr_asked (w : W) (t g : Z) : Prop := rr_keeps w t g \/ rr_refused w t g;
  same_registry (w w' : W) : Prop :=
    rr_ready w' /\ rr_living w' = rr_living w
    /\ (forall t g, (rr_keeps w' t g <-> rr_keeps w t g) /\ (rr_refused w' t g <-> rr_refused w t g));
  rr_exclusive w t g : rr_ready w -> rr_refused w t g -> ~ rr_keeps w t g;
  rr_register o t g w : rr_ready w ->
    let w' := rs_RegisterEventListener o t g w in
    rr_ready w' /\ rr_living w' = rr_living w
    /\ (forall t' g', ~ (rr_living w = Some o /\ t' = t /\ g' = g) ->
          (rr_keeps w' t' g' <-> rr_keeps w t' g') /\ (rr_refused w' t' g' <-> rr_refused w t' g'))
    /\ (rr_living w = Some o ->
          if rr_accepts w then rr_keeps w' t g else (rr_keeps w' t g <-> rr_keeps w t g) /\ rr_asked w' t g);
  rr_unregister o t g w : rr_ready w ->
    let w' := rs_UnRegisterEventListener o t g w in
    rr_ready w' /\ rr_living w' = rr_living w
    /\ (forall t' g', ~ (rr_living w = Some o /\ t' = t /\ g' = g) ->
          (rr_keeps w' t' g' <-> rr_keeps w t' g') /\ (rr_refused w' t' g' <-> rr_refused w t' g'))
    /\ (rr_living w = Some o -> ~ rr_asked w' t g);
  rr_SubscribeSystemAbility w : rr_ready w -> same_registry w (rs_SubscribeSystemAbility w).2;
  rr_GetResTypeList o w : rr_ready w -> same_registry w (rs_GetResTypeList o w).2;
  rr_ReportData o t v p w : rr_ready w -> same_registry w (rs_ReportData o t v p w);
  rr_ReportSyncEvent o t v p w : rr_ready w -> same_registry w (rs_ReportSyncEvent o t v p w).2;
  rr_KillProcess o p w : rr_ready w -> same_registry w (rs_KillProcess o p w).2;
  rr_RegisterSystemloadNotifier o w : rr_ready w -> same_registry w (rs_RegisterSystemloadNotifier o w);
  rr_UnRegisterSystemloadNotifier o w : rr_ready w -> same_registry w (rs_UnRegisterSystemloadNotifier o w);
  rr_GetSystemloadLevel o w : rr_ready w -> same_registry w (rs_GetSystemloadLevel o w).2;
  rr_IsAllowedAppPreload o b m w : rr_ready w -> same_registry w (rs_IsAllowedAppPreload o b m w).2;
  rr_IsAllowedLinkJump o b w : rr_ready w -> same_registry w (rs_IsAllowedLinkJump o b w).2;
}.

Section asked.
Context {W : Type} `{!RemoteService W} `{!RemoteRegistry W}.

Lemma rr_asked_same w w' t g : same_registry w w' -> rr_asked w' t g <-> rr_asked w t g.
Proof. intros (_ & _ & H). unfold rr_asked. by destruct (H t g) as [-> ->]. Qed.

Lemma rr_asked_register o t g w t' g' : rr_ready w ->
  rr_asked (rs_RegisterEventListener o t g w) t' g'
  <-> rr_asked w t' g' \/ (rr_living w = Some o /\ t' = t /\ g' = g).
Proof.
  intros Hw. destruct (rr_register o t g w Hw) as (_ & _ & Hother & Hown).
  destruct (decide (rr_living w = Some o /\ t' = t /\ g' = g)) as [(Ho & -> & ->)|Hne].
  - split; [by right|intros _]. specialize (Hown Ho). destruct (rr_accepts w); [by left|apply Hown].
  - unfold rr_asked. destruct (Hother t' g' Hne) as [-> ->]. naive_solver.
Qed.

Lemma rr_asked_unregister o t g w t' g' : rr_ready w ->
  rr_asked (rs_UnRegisterEventListener o t g w) t' g'
  <-> rr_asked w t' g' /\ ~ (rr_living w = Some o /\ t' = t /\ g' = g).
Proof.
  intros Hw. destruct (rr_unregister o t g w Hw) as (_ & _ & Hother & Hown).
  destruct (decide (rr_living w = Some o /\ t' = t /\ g' = g)) as [(Ho & -> & ->)|Hne].
  - split; [intros Ha; by destruct (Hown Ho)|naive_solver].
  - unfold rr_asked. destruct (Hother t' g' Hne) as [-> ->]. naive_solver.
Qed.
End asked.

(** ** The map of the listeners *)

Lemma listeners_of_insert t item (m : gmap Z (gmap Z (list Z))) t' g' :
  listeners_of t' g' (<[t := item]> m) = if decide (t' = t) then item !! g' else listeners_of t' g' m.
Proof.
  unfold listeners_of. case_decide; [subst; by rewrite lookup_insert_eq|].
  by rewrite lookup_insert_ne by done.
Qed.

Lemma listeners_of_register l t g m t' g' :
  listeners_of t' g' (Inner_RegisterEventListener (Some l) t g m) =
  if decide (t' = t /\ g' = g) then
    let old := default [] (listeners_of t g m) in
    Some (if bool_decide (l ∈ old) then old else old ++ [l])
  else listeners_of t' g' m.
Proof.
  unfold Inner_RegisterEventListener. destruct (m !! t) as [item|] eqn:E; rewrite listeners_of_insert.
  - destruct (decide (t' = t)) as [->|Ht]; [|by rewrite decide_False by tauto].
    destruct (decide (g' = g)) as [->|Hg].
    + rewrite decide_True, lookup_insert_eq by done. unfold listeners_of. by rewrite E.
    + rewrite decide_False by tauto. rewrite lookup_insert_ne by done. unfold listeners_of. by rewrite E.
  - destruct (decide (t' = t)) as [->|Ht]; [|by rewrite decide_False by tauto].
    unfold listeners_of. rewrite E. cbn.
    destruct (decide (g' = g)) as [->|Hg].
    + by rewrite decide_True, lookup_singleton_eq by done.
    + rewrite decide_False by tauto. by rewrite lookup_singleton_ne by done.
Qed.

Lemma listeners_of_unregister l t g m t' g' :
  listeners_of t' g' (Inner_UnRegisterEventListener l t g m) =
  if decide (t' = t /\ g' = g) then
    old ← listeners_of t g m;
    let rest := filter (fun x => Some x <> l) old in
    if bool_decide (rest = []) then None else Some rest
  else listeners_of t' g' m.
Proof.
  unfold Inner_UnRegisterEventListener.
  destruct (m !! t) as [item|] eqn:E; last first.
  { case_decide as H; [|done]. destruct H as [-> ->]. unfold listeners_of. by rewrite E. }
  destruct (item !! g) as [old|] eqn:Eg; last first.
  { case_decide as H; [|done]. destruct H as [-> ->]. unfold listeners_of. rewrite E. cbn. by rewrite Eg. }
  set (rest := filter _ old). set (item' := if bool_decide (rest = []) then _ else _).
  assert (Hlook : forall t' g', listeners_of t' g'
      (if bool_decide (item' = ∅) then delete t m else <[t := item']> m) =
      if decide (t' = t) then item' !! g' else listeners_of t' g' m).
  { intros t2 g2. case_bool_decide as Hi; [|apply listeners_of_insert].
    unfold listeners_of. case_decide as Ht; [subst t2|].
    - rewrite lookup_delete_eq. cbn. by rewrite Hi.
    - by rewrite lookup_delete_ne by done. }
  rewrite Hlook. destruct (decide (t' = t)) as [->|Ht]; [|by rewrite decide_False by tauto].
  destruct (decide (g' = g)) as [->|Hg].
  - rewrite decide_True by done. unfold listeners_of. rewrite E. cbn. rewrite Eg. cbn.
    unfold item'. fold rest. destruct (bool_decide (rest = [])); [apply lookup_delete_eq|apply lookup_insert_eq].
  - rewrite decide_False by tauto. unfold listeners_of. rewrite E. cbn.
    unfold item'. destruct (bool_decide (rest = [])); [by apply lookup_delete_ne|by apply lookup_insert_ne].
Qed.

Lemma registered_add t g m t' g' :
  g' ∈ default ∅ (add_registered t g m !! t') <-> g' ∈ default ∅ (m !! t') \/ (t' = t /\ g' = g).
Proof.
  unfold add_registered. destruct (decide (t' = t)) as [->|Ht].
  - rewrite lookup_insert_eq. cbn. set_solver.
  - rewrite lookup_insert_ne by done. naive_solver.
Qed.

Lemma registered_remove t g (m : gmap Z (gset Z)) t' g' :
  g' ∈ default ∅ (alter (fun item => item ∖ {[ g ]}) t m !! t')
  <-> g' ∈ default ∅ (m !! t') /\ ~ (t' = t /\ g' = g).
Proof.
  destruct (decide (t' = t)) as [->|Ht].
  - rewrite lookup_alter_eq. destruct (m !! t); cbn; set_solver.
  - rewrite lookup_alter_ne by done. naive_solver.
Qed.

(** ** The state *)
Section facts.
Context {J W : Type} `{!Json J} `{!JsonText J} `{!RemoteService W} `{!RemoteRegistry W} `{!ClientEnv} `{!ErrCodes}.
Implicit Types s : Client W.

Definition local s : gmap Z (gmap Z (list Z)) := default ∅ (innerEventListener_ s).
Definition has_local s (t g : Z) : Prop := is_Some (listeners_of t g (local s)).
Definition registered s (t g : Z) : Prop := g ∈ default ∅ (registeredInnerEvents s !! t).

(** The part of the state that the listeners depend on is the same. *)
Record same_core s s' : Prop := {
  sc_rss : rss_ s' = rss_ s;
  sc_local : local s' = local s;
  sc_registered : registeredInnerEvents s' = registeredInnerEvents s;
  sc_alive : g_isDestroyed s' = g_isDestroyed s;
  sc_registry : same_registry (remote s) (remote s');
}.

(** What holds between the operations of the client. *)
Record client_ok s : Prop := {
  co_ready : rr_ready (remote s);
  co_alive : g_isDestroyed s = false;
  co_lists t g l : listeners_of t g (local s) = Some l -> l <> [] /\ NoDup l;
  co_local t g : registered s t g -> has_local s t g;
  co_off t g : rss_ s = None -> ~ registered s t g;
  co_service o t g : rr_living (remote s) = Some o ->
    rr_asked (remote s) t g <-> rss_ s = Some o /\ registered s t g;
}.

(** The client is connected and has told its service of all listeners. *)
Record synced s : Prop := {
  sy_ok : client_ok s;
  sy_rss : rss_ s <> None;
  sy_all t g : has_local s t g -> registered s t g;
}.

Lemma same_registry_refl w : rr_ready w -> same_registry w w.
Proof. by intros Hw. Qed.

Lemma client_ok_core s s' : client_ok s -> same_core s s' -> client_ok s'.
Proof.
  intros Hs [Hr Hl Hg Ha Hsame]. pose proof Hsame as (Hready & Hliving & _).
  split; unfold registered, has_local; rewrite ?Hr, ?Hl, ?Hg, ?Ha; try apply Hs; [done|].
  intros o t g Ho. rewrite (rr_asked_same _ _ _ _ Hsame). apply Hs. by rewrite <- Hliving.
Qed.

Lemma synced_core s s' : synced s -> same_core s s' -> synced s'.
Proof.
  intros Hs Hc. split; [eapply client_ok_core; [apply Hs|done]|rewrite (sc_rss _ _ Hc); apply Hs|].
  intros t g. unfold has_local, registered. rewrite (sc_local _ _ Hc), (sc_registered _ _ Hc). apply Hs.
Qed.

(** ** Operations that do not touch the listeners *)
Section frame.
Context (P : Client W -> Prop).
Hypothesis P_ready : forall s, P s -> rr_ready (remote s).
Hypothesis P_core : forall s s', P s -> same_core s s' -> P s'.
Hypothesis P_connect : forall s o, P s -> rss_ s = None -> P (s <| rss_ := Some o |>).

Lemma keeps_upd (f : Client W -> Client W) :
  (forall s, same_registry (remote s) (remote s) -> same_core s (f s)) -> keeps P (upd f).
Proof.
  intros Hf. apply keeps_modify. intros s Hs. eapply P_core; [done|].
  apply Hf, same_registry_refl, P_ready, Hs.
Qed.

Lemma keeps_ask {A} (f : W -> A * W) :
  (forall w, rr_ready w -> same_registry w (f w).2) -> keeps P (call f).
Proof.
  intros Hf s Hs. cbn. eapply P_core; [done|]. split; try done. apply Hf, P_ready, Hs.
Qed.

Lemma keeps_tell (f : W -> W) :
  (forall w, rr_ready w -> same_registry w (f w)) -> keeps P (tell f).
Proof.
  intros Hf s Hs. cbn. eapply P_core; [done|]. split; try done. apply Hf, P_ready, Hs.
Qed.

Lemma keeps_record c : keeps P (c_record c).
Proof. by apply keeps_upd. Qed.

#[local] Hint Resolve keeps_record : keeps.
#[local] Hint Extern 1 (keeps P (upd _)) => by apply keeps_upd : keeps.
#[local] Hint Extern 1 (keeps P (call _)) =>
  apply keeps_ask; first [apply rr_SubscribeSystemAbility|apply rr_GetResTypeList|apply rr_ReportSyncEvent
    |apply rr_KillProcess|apply rr_GetSystemloadLevel|apply rr_IsAllowedAppPreload|apply rr_IsAllowedLinkJump] : keeps.
#[local] Hint Extern 1 (keeps P (tell _)) =>
  apply keeps_tell; first [apply rr_ReportData|apply rr_RegisterSystemloadNotifier
    |apply rr_UnRegisterSystemloadNotifier] : keeps.

Lemma keeps_ReportConnectError reason : keeps P (ReportConnectError reason).
Proof. unfold ReportConnectError. keeps_auto. Qed.
Lemma keeps_AddResSaListenerLocked : keeps P AddResSaListenerLocked.
Proof. unfold AddResSaListenerLocked. keeps_auto. Qed.
#[local] Hint Resolve keeps_ReportConnectError keeps_AddResSaListenerLocked : keeps.

Lemma keeps_TryConnect : keeps P TryConnect.
Proof.
  intros s Hs. unfold TryConnect. rewrite run_get_bind.
  assert (Hfail : forall reason (r : Z), keeps P (ReportConnectError reason;; mret r)) by (intros; keeps_auto).
  destruct (g_isDestroyed s); [done|]. destruct (rss_ s) eqn:Er; [done|].
  destruct (negb _); [by apply Hfail|].
  assert (Hs1 : P (s <| remoteObject_ := rs_CheckSystemAbility (remote s) |>))
    by (apply (P_core s); [done|split; try done; apply same_registry_refl; exact (P_ready s Hs)]).
  rewrite (run_bind _ _ _ _ _ eq_refl).
  destruct (rs_CheckSystemAbility (remote s)) as [obj|]; [|by apply Hfail].
  destruct (negb _); [by apply Hfail|].
  rewrite (run_bind _ _ _ _ _ eq_refl).
  assert (Hs2 : P (s <| remoteObject_ := Some obj |> <| rss_ := Some obj |> <| recipient_ := true |>)).
  { eapply P_core; [by apply (P_connect _ obj Hs1)|]. split; try done. apply same_registry_refl.
    exact (P_ready s Hs). }
  revert Hs2. apply (keeps_bind P); [apply keeps_record|intros []]. keeps_auto.
Qed.
#[local] Hint Resolve keeps_TryConnect : keeps.

Lemma keeps_Client_ReportData t v p : keeps P (Client_ReportData t v p).
Proof. unfold Client_ReportData, ReportDiscardEventError. keeps_auto. Qed.

Lemma keeps_Json_ReportSyncEvent t v p r : keeps P (Json_ReportSyncEvent t v p r).
Proof. unfold Json_ReportSyncEvent, ReportMutexBeforeStartEvent, GetProxy. keeps_auto. Qed.
#[local] Hint Resolve keeps_Json_ReportSyncEvent : keeps.

Lemma keeps_Client_ReportSyncEvent t v p r : keeps P (Client_ReportSyncEvent t v p r).
Proof. unfold Client_ReportSyncEvent. keeps_auto. Qed.

Lemma keeps_Client_KillProcess p : keeps P (Client_KillProcess p).
Proof. unfold Client_KillProcess, GetProxy. keeps_auto. Qed.

Lemma keeps_Client_GetSystemloadLevel : keeps P Client_GetSystemloadLevel.
Proof. unfold Client_GetSystemloadLevel. keeps_auto. Qed.

Lemma keeps_Client_IsAllowedAppPreload b m : keeps P (Client_IsAllowedAppPreload b m).
Proof. unfold Client_IsAllowedAppPreload. keeps_auto. Qed.

Lemma keeps_Client_IsAllowedLinkJump b : keeps P (Client_IsAllowedLinkJump b).
Proof. unfold Client_IsAllowedLinkJump. keeps_auto. Qed.

Lemma keeps_register_systemload : keeps P register_systemload.
Proof. unfold register_systemload. keeps_auto. Qed.

Lemma keeps_InitSystemloadListenersLocked : keeps P InitSystemloadListenersLocked.
Proof. unfold InitSystemloadListenersLocked. keeps_auto. Qed.

Lemma keeps_InitInnerEventListenerLocked : keeps P InitInnerEventListenerLocked.
Proof.
  intros s Hs. unfold InitInnerEventListenerLocked. rewrite run_get_bind.
  destruct (innerEventListener_ s) eqn:E; [done|]. cbn. apply (P_core s); [done|].
  split; try done; [unfold local; cbn; by rewrite E|]. apply same_registry_refl. exact (P_ready s Hs).
Qed.
#[local] Hint Resolve keeps_register_systemload keeps_InitSystemloadListenersLocked : keeps.

Lemma keeps_Client_RegisterSystemloadNotifier cb : keeps P (Client_RegisterSystemloadNotifier cb).
Proof. unfold Client_RegisterSystemloadNotifier. keeps_auto. Qed.

Lemma keeps_Client_UnRegisterSystemloadNotifier cb : keeps P (Client_UnRegisterSystemloadNotifier cb).
Proof. unfold Client_UnRegisterSystemloadNotifier, UnRegisterSystemloadListenersLocked. keeps_auto. Qed.

Lemma keeps_OnSystemloadLevel level : keeps P (OnSystemloadLevel level).
Proof. unfold OnSystemloadLevel. keeps_auto. Qed.

Lemma keeps_Inner_OnReceiveEvent t v g ext : keeps P (Inner_OnReceiveEvent t v g ext).
Proof. unfold Inner_OnReceiveEvent. keeps_auto. Qed.
End frame.

(** ** Operations on the listeners *)

(** A new map of listeners. *)
Definition set_local m s : Client W := s <| innerEventListener_ := Some m |>.
(** The service learns of a type and a group. *)
Definition enter (obj t g : Z) s : Client W :=
  s <| remote ::= rs_RegisterEventListener obj t g |> <| registeredInnerEvents ::= add_registered t g |>.
Definition leave (obj t g : Z) s : Client W :=
  s <| remote ::= rs_UnRegisterEventListener obj t g |>
    <| registeredInnerEvents ::= alter (fun item => item ∖ {[ g ]}) t |>.

Lemma IsInnerEventMapEmpty_spec s t g :
  client_ok s -> IsInnerEventMapEmpty t g (local s) = false <-> has_local s t g.
Proof.
  intros Hs. unfold IsInnerEventMapEmpty, has_local.
  destruct (listeners_of t g (local s)) as [l|] eqn:E; [|by split; [|intros [? ?]]].
  rewrite bool_decide_eq_false. split; [by eexists|intros _]. by apply (co_lists s Hs t g).
Qed.

Lemma registered_enter obj t g s t' g' :
  registered (enter obj t g s) t' g' <-> registered s t' g' \/ (t' = t /\ g' = g).
Proof. apply registered_add. Qed.

Lemma enter_ok obj t g s :
  client_ok s -> rss_ s = Some obj -> has_local s t g -> client_ok (enter obj t g s).
Proof.
  intros Hs Ho Hl. destruct (rr_register obj t g (remote s) (co_ready s Hs)) as (Hw1 & Hw2 & _).
  split.
  - done.
  - apply Hs.
  - apply Hs.
  - intros t' g'. rewrite registered_enter. intros [H1|[-> ->]]; [|done]. by apply Hs in H1.
  - cbn. congruence.
  - intros o t' g'. rewrite registered_enter. cbn. rewrite Hw2, rr_asked_register by apply Hs. intros Hliving.
    rewrite (co_service s Hs o) by done. rewrite Hliving, Ho. naive_solver.
Qed.

Lemma enter_synced obj t g s :
  synced s -> rss_ s = Some obj -> has_local s t g -> synced (enter obj t g s).
Proof.
  intros [Hs _ Hall] Ho Hl. split; [by apply enter_ok|cbn; congruence|].
  intros t' g' H1. apply registered_enter. left. by apply Hall.
Qed.

Lemma registered_leave obj t g s t' g' :
  registered (leave obj t g s) t' g' <-> registered s t' g' /\ ~ (t' = t /\ g' = g).
Proof. apply registered_remove. Qed.

(** The map changes at one type and group only, and not to an empty list. *)
Definition local_change (t g : Z) (m m' : gmap Z (gmap Z (list Z))) : Prop :=
  (forall t' g', ~ (t' = t /\ g' = g) -> listeners_of t' g' m' = listeners_of t' g' m)
  /\ (forall l, listeners_of t g m' = Some l -> l <> [] /\ NoDup l).

Lemma register_change l t g s :
  client_ok s -> local_change t g (local s) (Inner_RegisterEventListener l t g (local s)).
Proof.
  intros Hs. destruct l as [l|]; [|by split; [|apply Hs]]. split.
  - intros t' g' Hne. rewrite listeners_of_register. by rewrite decide_False.
  - intros l'. rewrite listeners_of_register, decide_True by done. intros [= <-].
    destruct (listeners_of t g (local s)) as [old|] eqn:E; cbn; [|split; [done|apply NoDup_singleton]].
    destruct (co_lists s Hs _ _ _ E) as [Hn Hd].
    case_bool_decide; [done|]. split; [by destruct old|].
    apply NoDup_app. split_and!; [done| |apply NoDup_singleton]. set_solver.
Qed.

Lemma unregister_change l t g s :
  client_ok s -> local_change t g (local s) (Inner_UnRegisterEventListener l t g (local s)).
Proof.
  intros Hs. split.
  - intros t' g' Hne. rewrite listeners_of_unregister. by rewrite decide_False.
  - intros l'. rewrite listeners_of_unregister, decide_True by done.
    destruct (listeners_of t g (local s)) as [old|] eqn:E; [|done]. cbn.
    case_bool_decide; [done|]. intros [= <-]. split; [done|].
    apply NoDup_filter. by apply (co_lists s Hs t g).
Qed.

Lemma set_local_lists t g m s :
  client_ok s -> local_change t g (local s) m ->
  forall t' g' l, listeners_of t' g' m = Some l -> l <> [] /\ NoDup l.
Proof.
  intros Hs [H1 H2] t' g' l Hl. destruct (decide (t' = t /\ g' = g)) as [[-> ->]|Hne]; [by apply H2|].
  rewrite H1 in Hl by done. by apply (co_lists s Hs t' g').
Qed.

(** A change that leaves a listener, or leaves what was not registered. *)
Lemma set_local_ok t g m s :
  client_ok s -> local_change t g (local s) m ->
  (registered s t g -> is_Some (listeners_of t g m)) -> client_ok (set_local m s).
Proof.
  intros Hs Hm Hk. split; try apply Hs.
  - apply (set_local_lists t g m s Hs Hm).
  - intros t' g' Hr. unfold has_local. cbn. destruct (decide (t' = t /\ g' = g)) as [[-> ->]|Hne]; [by apply Hk|].
    rewrite (proj1 Hm) by done. by apply Hs.
Qed.

Lemma leave_ok obj t g m s :
  client_ok s -> local_change t g (local s) m -> rss_ s = Some obj -> client_ok (leave obj t g (set_local m s)).
Proof.
  intros Hs Hm Ho. destruct (rr_unregister obj t g (remote s) (co_ready s Hs)) as (Hw1 & Hw2 & _).
  split.
  - done.
  - apply Hs.
  - apply (set_local_lists t g m s Hs Hm).
  - intros t' g'. rewrite registered_leave. intros [Hr Hne]. unfold has_local. cbn.
    rewrite (proj1 Hm) by done. by apply Hs.
  - cbn. congruence.
  - intros o t' g'. rewrite registered_leave. cbn. rewrite Hw2, rr_asked_unregister by apply Hs. intros Hliving.
    rewrite (co_service s Hs o) by done. rewrite Hliving, Ho. unfold registered. cbn. naive_solver.
Qed.

#[local] Instance registered_dec s t g : Decision (registered s t g).
Proof. unfold registered. apply _. Defined.

(** What a registration does to the listeners, before it subscribes to the system ability. *)
Definition after_register l (t g : Z) s : Client W :=
  let m := Inner_RegisterEventListener l t g (local s) in
  match rss_ s with
  | Some obj =>
      if bool_decide (registered s t g) || IsInnerEventMapEmpty t g m then set_local m s
      else enter obj t g (set_local m s)
  | None => set_local m s
  end.

Definition after_unregister l (t g : Z) s : Client W :=
  let m := Inner_UnRegisterEventListener l t g (local s) in
  match rss_ s with
  | Some obj => if IsInnerEventMapEmpty t g m then leave obj t g (set_local m s) else set_local m s
  | None => set_local m s
  end.

Lemma init_inner_run s : InitInnerEventListenerLocked s = Some (ERR_OK, set_local (local s) s).
Proof.
  unfold InitInnerEventListenerLocked, local, set_local. rewrite run_get_bind.
  destruct (innerEventListener_ s) as [m|] eqn:Em; [|done]. cbn. unfold mret, ST_ret. do 2 f_equal.
  destruct s. cbn in *. by subst.
Qed.

Lemma register_run l t g s :
  Client_RegisterEventListener l t g s = AddResSaListenerLocked (after_register l t g s).
Proof.
  unfold Client_RegisterEventListener.
  pose proof (init_inner_run s) as E.
  rewrite (run_bind _ _ _ _ _ E). cbn. unfold mbind, ST_bind. cbn.
  change (rss_ (over _ _ _)) with (rss_ s). unfold after_register.
  set (m := Inner_RegisterEventListener l t g (local s)).
  destruct (rss_ s) as [obj|]; [|done]. cbn.
  set (b := match registeredInnerEvents s !! t with Some _ => _ | None => _ end).
  assert (Eb : b = negb (bool_decide (registered s t g))).
  { unfold b. case_bool_decide as Hr; unfold registered in Hr; destruct (registeredInnerEvents s !! t) as [item|];
      cbn in *; try done; [by apply bool_decide_eq_false; intros []|by apply bool_decide_eq_true]. }
  rewrite Eb, <- negb_orb. destruct (_ || _); done.
Qed.

Lemma unregister_run l t g s m :
  innerEventListener_ s = Some m -> Client_UnRegisterEventListener l t g s = Some (tt, after_unregister l t g s).
Proof.
  intros E. unfold Client_UnRegisterEventListener. rewrite run_get_bind, E. cbn.
  unfold UnRegisterEventListenerLocked, mbind, ST_bind. cbn. unfold after_unregister, local. rewrite E. cbn.
  destruct (rss_ s) as [obj|]; [|done]. destruct (IsInnerEventMapEmpty _ _ _); done.
Qed.

Lemma after_register_ok l t g s : client_ok s -> client_ok (after_register l t g s).
Proof.
  intros Hs. unfold after_register.
  set (m := Inner_RegisterEventListener l t g (local s)).
  assert (Hm : client_ok (set_local m s)).
  { apply (set_local_ok t g); [done|by apply register_change|]. intros Hr%(co_local s Hs).
    destruct l as [l|]; [|done]. unfold m. rewrite listeners_of_register. by rewrite decide_True. }
  destruct (rss_ s) as [obj|] eqn:Ho; [|done].
  destruct (bool_decide _); [done|]. destruct (IsInnerEventMapEmpty t g m) eqn:Em; [done|]. cbn.
  apply enter_ok; [done..|]. by apply IsInnerEventMapEmpty_spec.
Qed.

Lemma after_unregister_ok l t g s : client_ok s -> client_ok (after_unregister l t g s).
Proof.
  intros Hs. unfold after_unregister.
  set (m := Inner_UnRegisterEventListener l t g (local s)).
  pose proof (unregister_change l t g s Hs : local_change t g (local s) m) as Hm.
  destruct (rss_ s) as [obj|] eqn:Ho.
  - destruct (IsInnerEventMapEmpty t g m) eqn:Em; [by apply leave_ok|].
    apply (set_local_ok t g); [done..|]. intros _. unfold IsInnerEventMapEmpty in Em.
    by destruct (listeners_of t g m).
  - apply (set_local_ok t g); [done..|]. intros Hr. by destruct (co_off s Hs t g Ho).
Qed.

Lemma after_register_synced l t g s : synced s -> synced (after_register l t g s).
Proof.
  intros [Hs Hr Hall]. split; [by apply after_register_ok| |].
  - unfold after_register. destruct (rss_ s) eqn:Ho; [|done]. destruct (_ || _); cbn; congruence.
  - pose proof (after_register_ok l t g s Hs) as Hs'. revert Hs'. unfold after_register.
    set (m := Inner_RegisterEventListener l t g (local s)).
    destruct (rss_ s) as [obj|] eqn:Ho; [|done]. intros Hs' t' g' Hl.
    assert (Hl' : is_Some (listeners_of t' g' m)) by (revert Hl; destruct (_ || _); exact (fun x => x)).
    destruct (decide (t' = t /\ g' = g)) as [[-> ->]|Hne].
    + destruct (bool_decide (registered s t g)) eqn:Eb; cbn in *.
      * by apply bool_decide_eq_true in Eb.
      * destruct (IsInnerEventMapEmpty t g m) eqn:Em; cbn in *; [|apply registered_enter; by right].
        apply (IsInnerEventMapEmpty_spec _ t g Hs') in Hl. cbn in Hl. unfold local in Hl. cbn in Hl. congruence.
    + assert (Hr0 : registered s t' g').
      { apply Hall. unfold has_local. by rewrite <- (proj1 (register_change l t g s Hs) t' g' Hne). }
      destruct (_ || _); [done|]. apply registered_enter. by left.
Qed.

Lemma after_unregister_synced l t g s : synced s -> synced (after_unregister l t g s).
Proof.
  intros [Hs Hr Hall]. split; [by apply after_unregister_ok| |].
  - unfold after_unregister. destruct (rss_ s) eqn:Ho; [|done]. destruct (IsInnerEventMapEmpty _ _ _); cbn; congruence.
  - pose proof (unregister_change l t g s Hs) as [Hm Hn]. unfold after_unregister.
    set (m := Inner_UnRegisterEventListener l t g (local s)) in *.
    destruct (rss_ s) as [obj|] eqn:Ho; [|done]. intros t' g' Hl.
    assert (Hl' : is_Some (listeners_of t' g' m)) by (revert Hl; destruct (IsInnerEventMapEmpty _ _ _); exact (fun x => x)).
    assert (Hr0 : registered s t' g').
    { apply Hall. unfold has_local. destruct (decide (t' = t /\ g' = g)) as [[-> ->]|Hne]; [|by rewrite <- Hm].
      revert Hl'. unfold m. rewrite listeners_of_unregister, decide_True by done.
      destruct (listeners_of t g (local s)); [done|]. by intros [? ?]. }
    destruct (IsInnerEventMapEmpty t g m) eqn:Em; [|done].
    apply registered_leave. split; [done|]. intros [-> ->]. destruct Hl' as [x Hx].
    unfold IsInnerEventMapEmpty in Em. rewrite Hx in Em. apply bool_decide_eq_true in Em. by apply Hn in Hx as [? _].
Qed.

(** ** The service is announced *)

(** The types and groups in the order in which they are registered again. *)
Definition pairs_of (m : gmap Z (gmap Z (list Z))) : list (Z * Z) :=
  walk (GetRegisteredTypesAndGroup m) ≫= (fun p => (fun g => (p.1, g)) <$> p.2).
Definition enter_all (obj : Z) (l : list (Z * Z)) s : Client W := foldl (fun s p => enter obj p.1 p.2 s) s l.

Lemma elem_of_walk {A} (m : gmap Z A) k x : (k, x) ∈ walk m <-> m !! k = Some x.
Proof. rewrite walk_perm. apply elem_of_map_to_list. Qed.

Lemma elem_of_pairs m t g : (t, g) ∈ pairs_of m <-> is_Some (listeners_of t g m).
Proof.
  unfold pairs_of, listeners_of. rewrite list_elem_of_bind. split.
  - intros ([t' gs] & (x & [= <- <-] & Hg)%list_elem_of_fmap & Hw). cbn in Hg.
    apply elem_of_walk in Hw. unfold GetRegisteredTypesAndGroup in Hw. rewrite lookup_fmap in Hw.
    destruct (m !! t) as [item|]; [|done]. cbn in *. injection Hw as <-.
    apply list_elem_of_fmap in Hg as ([g' l] & -> & Hl%elem_of_walk). cbn. by rewrite Hl.
  - destruct (m !! t) as [item|] eqn:E; cbn; [|by intros [? ?]]. intros [l Hl].
    exists (t, (walk item).*1). split.
    + apply list_elem_of_fmap. exists g. split; [done|]. apply list_elem_of_fmap. exists (g, l).
      split; [done|]. by apply elem_of_walk.
    + apply elem_of_walk. unfold GetRegisteredTypesAndGroup. by rewrite lookup_fmap, E.
Qed.

Lemma enter_all_app obj l l' s : enter_all obj (l ++ l') s = enter_all obj l' (enter_all obj l s).
Proof. apply foldl_app. Qed.

Lemma enter_all_cons obj t g l s : enter_all obj ((t, g) :: l) s = enter_all obj l (enter obj t g s).
Proof. done. Qed.

Lemma enter_all_rss obj l s : rss_ (enter_all obj l s) = rss_ s.
Proof. revert s. induction l as [|p l IH]; intros s; [done|]. cbn. etransitivity; [apply IH|done]. Qed.

Lemma enter_all_local obj l s : innerEventListener_ (enter_all obj l s) = innerEventListener_ s.
Proof. revert s. induction l as [|p l IH]; intros s; [done|]. cbn. etransitivity; [apply IH|done]. Qed.

Lemma registered_enter_all obj l s t g :
  registered (enter_all obj l s) t g <-> registered s t g \/ (t, g) ∈ l.
Proof.
  revert s. induction l as [|[t' g'] l IH]; intros s; [cbn; set_solver|].
  rewrite enter_all_cons, IH, registered_enter, elem_of_cons. naive_solver.
Qed.

Lemma enter_all_ok obj l s :
  client_ok s -> rss_ s = Some obj -> (forall t g, (t, g) ∈ l -> has_local s t g) -> client_ok (enter_all obj l s).
Proof.
  revert s. induction l as [|[t g] l IH]; intros s Hs Ho Hl; [done|]. rewrite enter_all_cons.
  apply IH; [|done|].
  - apply enter_ok; [done..|]. apply Hl. by left.
  - intros t' g' H1. apply (Hl t' g'). by right.
Qed.

Lemma recover_run obj m s :
  innerEventListener_ s = Some m -> rss_ s = Some obj ->
  RecoverEventListener s = Some (tt, enter_all obj (pairs_of m) s).
Proof.
  intros Em Ho. unfold RecoverEventListener. rewrite run_get_bind, Em. rewrite (run_bind _ _ _ _ _ eq_refl).
  unfold pairs_of. generalize (walk (GetRegisteredTypesAndGroup m)). intros l. clear Em. revert s Ho.
  induction l as [|[t gs] l IH]; intros s Ho; [done|]. cbn [st_iter].
  assert (E : st_iter (fun group => s ← st_get; obj <-? rss_ s;
      tell (rs_RegisterEventListener obj t group);; upd (fun s => s <| registeredInnerEvents ::= add_registered t group |>))
      gs s = Some (tt, enter_all obj ((fun g => (t, g)) <$> gs) s)).
  { revert s Ho. induction gs as [|g gs IHg]; intros s Ho; [done|]. cbn [st_iter].
    unfold mbind, ST_bind. cbn. rewrite Ho. cbn. by apply IHg. }
  rewrite (run_bind _ _ _ _ _ E), IH by (by rewrite enter_all_rss). by rewrite <- enter_all_app.
Qed.

Lemma total_upd f : total (upd (W := W) f).
Proof. intros s. by eexists. Qed.
Lemma total_call {A} (f : W -> A * W) : total (call f).
Proof. intros s. by eexists. Qed.
Lemma total_tell f : total (tell (W := W) f).
Proof. intros s. by eexists. Qed.
Lemma total_record c : total (c_record (W := W) c).
Proof. intros s. by eexists. Qed.
#[local] Hint Resolve total_upd total_call total_tell total_record : total.
Lemma total_ReportConnectError reason : total (ReportConnectError (W := W) reason).
Proof. unfold ReportConnectError. total_auto. Qed.
Lemma total_AddResSaListenerLocked : total (AddResSaListenerLocked (W := W)).
Proof. unfold AddResSaListenerLocked. total_auto. Qed.
#[local] Hint Resolve total_ReportConnectError total_AddResSaListenerLocked : total.
Lemma total_TryConnect : total (TryConnect (W := W)).
Proof. unfold TryConnect. total_auto. Qed.

(** When connecting fails there is no connection. *)
Lemma TryConnect_fail s r s' :
  client_ok s -> TryConnect s = Some (r, s') -> r <> ERR_OK -> rss_ s' = None.
Proof.
  intros Hs. unfold TryConnect. rewrite run_get_bind, (co_alive s Hs).
  destruct (rss_ s) as [o|] eqn:Ho; [by intros [= <- <-]|].
  assert (Hfail : forall reason s0, rss_ s0 = None ->
    (ReportConnectError reason;; mret GET_RES_SCHED_SERVICE_FAILED) s0 = Some (r, s') -> rss_ s' = None).
  { intros reason s0 Hn. unfold ReportConnectError. rewrite <- Hn.
    unfold mbind, ST_bind, st_when, mret, ST_ret. cbn. destruct (negb _); intros [= <- <-]; reflexivity. }
  destruct (negb _); [intros E _; by eapply Hfail; [|exact E]|].
  rewrite (run_bind _ _ _ _ _ eq_refl).
  destruct (rs_CheckSystemAbility (remote s)) as [obj|]; [|intros E _; by eapply Hfail; [|exact E]].
  destruct (negb _); [intros E _; by eapply Hfail; [|exact E]|].
  rewrite (run_bind _ _ _ _ _ eq_refl), (run_bind _ _ _ _ _ eq_refl).
  match goal with |- (AddResSaListenerLocked ≫= _) ?s0 = _ -> _ =>
    destruct (total_AddResSaListenerLocked s0) as [[[] s2] E2] end.
  rewrite (run_bind _ _ _ _ _ E2). by intros [= <- <-].
Qed.

Lemma client_ok_connect s o : client_ok s -> rss_ s = None -> client_ok (s <| rss_ := Some o |>).
Proof.
  intros Hs Hn. split; try apply Hs; [by cbn|].
  intros o' t g Hliving. rewrite (co_service s Hs o' t g Hliving), Hn.
  split; [by intros [? _]|]. intros [_ Hr]. by destruct (co_off s Hs t g Hn).
Qed.

Lemma synced_connect s o : synced s -> rss_ s = None -> synced (s <| rss_ := Some o |>).
Proof. intros Hs Hn. by destruct (sy_rss s Hs). Qed.

(** What [OnAddSystemAbility] reaches. *)
Lemma OnAddSystemAbility_run s : client_ok s ->
  exists s', OnAddSystemAbility RES_SCHED_SYS_ABILITY_ID s = Some (tt, s')
    /\ client_ok s' /\ (rss_ s' <> None -> synced s') /\ (rss_ s <> None -> rss_ s' <> None).
Proof.
  intros Hs. unfold OnAddSystemAbility. rewrite Z.eqb_refl. cbn [negb].
  destruct (total_TryConnect s) as [[r s1] E1].
  rewrite (run_bind _ _ _ _ _ E1).
  assert (Hs1 : client_ok s1).
  { eapply (keeps_run client_ok TryConnect); [|done|done].
    apply keeps_TryConnect; [apply co_ready|apply client_ok_core|apply client_ok_connect]. }
  assert (Hrss : rss_ s <> None -> rss_ s1 <> None).
  { intros Hn. unfold TryConnect in E1. rewrite run_get_bind, (co_alive s Hs) in E1.
    destruct (rss_ s) eqn:Ho; [|done]. injection E1 as <- <-. congruence. }
  destruct (decide (r = ERR_OK)) as [->|Hr]; last first.
  { apply Z.eqb_neq in Hr as Hr'. rewrite Hr'. exists s1. split_and!; [done..| |done].
    by rewrite (TryConnect_fail s r s1 Hs E1 Hr). }
  rewrite Z.eqb_refl. cbn [negb].
  assert (E2 : InitInnerEventListenerLocked s1 = Some (ERR_OK, set_local (local s1) s1)).
  { apply init_inner_run. }
  rewrite (run_bind _ _ _ _ _ E2), run_get_bind, Z.eqb_refl. cbn [andb].
  set (s2 := set_local (local s1) s1).
  assert (Hs2 : client_ok s2).
  { apply (client_ok_core s1); [done|]. split; try done. apply same_registry_refl, Hs1. }
  set (P3 := fun x => client_ok x /\ (rss_ x <> None -> synced x) /\ (rss_ s <> None -> rss_ x <> None)).
  assert (H3 : exists s3, st_when (bool_decide (is_Some (rss_ s2))) RecoverEventListener s2 = Some (tt, s3) /\ P3 s3).
  { destruct (rss_ s2) as [obj|] eqn:Ho.
    - rewrite bool_decide_true by done. eexists. split; [by eapply recover_run|].
      assert (Hall : forall t g, has_local s2 t g <-> (t, g) ∈ pairs_of (local s1)) by (intros t g; by rewrite elem_of_pairs).
      assert (Hok : client_ok (enter_all obj (pairs_of (local s1)) s2)).
      { apply enter_all_ok; [done..|]. intros t g. apply Hall. }
      split_and!; [done| |by intros _; rewrite enter_all_rss, Ho]. intros Hn. split; [done..|]. intros t g Hl.
      apply registered_enter_all. right. apply Hall. revert Hl.
      unfold has_local, local. by rewrite enter_all_local.
    - rewrite bool_decide_false by (by intros [? ?]). exists s2. split; [done|]. split_and!; [done|by rewrite Ho|]. intros Hn. by apply Hrss in Hn. }
  destruct H3 as (s3 & E3 & Hs3). rewrite (run_bind _ _ _ _ _ E3).
  assert (Hdef : exists s4, (ret ← InitSystemloadListenersLocked; ret_if negb (ret =? ERR_OK); register_systemload) s3
      = Some (tt, s4)).
  { unfold InitSystemloadListenersLocked, register_systemload, mbind, ST_bind. cbn.
    destruct (systemloadLevelListener_ s3) as [cbs|] eqn:El; cbn; rewrite ?El; cbn;
      match goal with |- context [rss_ ?x] => destruct (rss_ x) end; unfold st_when;
      try match goal with |- context [if ?b then _ else _] => destruct b end; by eexists. }
  destruct Hdef as [s4 E4]. exists s4. split; [done|].
  assert (Hresp : forall s s', P3 s -> same_core s s' -> P3 s').
  { intros x y (H1 & H2 & H3) Hc. split_and!; [by eapply client_ok_core| |by rewrite (sc_rss _ _ Hc)].
    rewrite (sc_rss _ _ Hc). intros Hn. eapply synced_core; eauto. }
  assert (Hready : forall s, P3 s -> rr_ready (remote s)) by (intros x [Hx _]; apply Hx).
  eapply (keeps_run P3); [|exact Hs3|exact E4].
  apply keeps_bind; [by apply keeps_InitSystemloadListenersLocked|intros ret].
  destruct (negb _); [apply keeps_ret|by apply keeps_register_systemload].
Qed.

(** ** Histories *)

(** What the process, the service and the system do. *)
Inductive CEvent :=
  | CeReport (resType value : Z) (payload : gmap string string)
  | CeSync (resType value : Z) (payload reply : gmap string string)
  | CeJsonSync (resType value : Z) (payload reply : J)
  | CeKill (payload : gmap string string)
  | CeGetLevel
  | CePreload (bundleName : string) (preloadMode : Z)
  | CeLinkJump (b : bool)
  | CeRegisterLoad (cb : option Z)
  | CeUnRegisterLoad (cb : option Z)
  | CeRegister (l : option Z) (eventType listenerGroup : Z)
  | CeUnRegister (l : option Z) (eventType listenerGroup : Z)
  | CeLevel (level : Z)
  | CeEvent (eventType eventValue listenerGroup : Z) (extInfo : string)
  | CeAdded (systemAbilityId : Z)
  | CeDied
  | CeWorld (w : W).

Definition run_cevent (e : CEvent) : ST (Client W) unit :=
  match e with
  | CeReport t v p => Client_ReportData t v p
  | CeSync t v p r => _ ← Client_ReportSyncEvent t v p r; mret tt
  | CeJsonSync t v p r => _ ← Json_ReportSyncEvent t v p r; mret tt
  | CeKill p => _ ← Client_KillProcess p; mret tt
  | CeGetLevel => _ ← Client_GetSystemloadLevel; mret tt
  | CePreload b m => _ ← Client_IsAllowedAppPreload b m; mret tt
  | CeLinkJump b => _ ← Client_IsAllowedLinkJump b; mret tt
  | CeRegisterLoad cb => Client_RegisterSystemloadNotifier cb
  | CeUnRegisterLoad cb => Client_UnRegisterSystemloadNotifier cb
  | CeRegister l t g => Client_RegisterEventListener l t g
  | CeUnRegister l t g => Client_UnRegisterEventListener l t g
  | CeLevel level => _ ← OnSystemloadLevel level; mret tt
  | CeEvent t v g ext => _ ← Inner_OnReceiveEvent t v g ext; mret tt
  | CeAdded id => OnAddSystemAbility id
  | CeDied => OnRemoteDied
  | CeWorld w => upd (fun s => s <| remote := w |>)
  end.

(** What can happen: the death of a service is reported when it is dead; outside, a service
    may end, and a new one starts with an object of its own and an empty table. *)
Definition may_happen (e : CEvent) s : Prop :=
  match e with
  | CeDied => rss_ s = None \/ rr_living (remote s) <> rss_ s
  | CeWorld w => rr_ready w /\
      (same_registry (remote s) w \/ rr_living w = None
       \/ (rr_living w <> rss_ s /\ forall t g, ~ rr_asked w t g))
  | _ => True
  end.

Inductive client_reach : Client W -> Prop :=
  | cr_start w : rr_ready w -> (forall t g, ~ rr_asked w t g) -> client_reach (new_Client w)
  | cr_step s e s' : client_reach s -> may_happen e s -> run_cevent e s = Some (tt, s') -> client_reach s'.

(** Steps in which no death is reported. *)
Inductive no_death : Client W -> Client W -> Prop :=
  | nd_refl s : no_death s s
  | nd_step s e s' s'' : e <> CeDied -> may_happen e s -> run_cevent e s = Some (tt, s') ->
      no_death s' s'' -> no_death s s''.

Lemma event_kept (P : Client W -> Prop) e s s' :
  (forall s, P s -> client_ok s) -> (forall s s', P s -> same_core s s' -> P s') ->
  (forall s o, P s -> rss_ s = None -> P (s <| rss_ := Some o |>)) ->
  (forall l t g s, P s -> P (after_register l t g s)) ->
  (forall l t g s, P s -> P (after_unregister l t g s)) ->
  (forall id, keeps P (OnAddSystemAbility id)) ->
  (e = CeDied -> P s -> P s') -> (forall w, e = CeWorld w -> P s -> P s') ->
  run_cevent e s = Some (tt, s') -> P s -> P s'.
Proof.
  intros Hok Hcore Hconn Hreg Hunreg Hadd Hdied Hworld E Hs.
  assert (Hready : forall s, P s -> rr_ready (remote s)) by (intros x Hx; apply Hok, Hx).
  assert (Hk : e <> CeDied -> (forall w, e <> CeWorld w) -> keeps P (run_cevent e));
    [|destruct e; try (eapply (keeps_run P); [by apply Hk|exact Hs|exact E]); eauto].
  intros Hd Hw. destruct e; cbn; try done.
  - by apply keeps_Client_ReportData.
  - apply keeps_bind; [by apply keeps_Client_ReportSyncEvent|intros; apply keeps_ret].
  - apply keeps_bind; [by apply keeps_Json_ReportSyncEvent|intros; apply keeps_ret].
  - apply keeps_bind; [by apply keeps_Client_KillProcess|intros; apply keeps_ret].
  - apply keeps_bind; [by apply keeps_Client_GetSystemloadLevel|intros; apply keeps_ret].
  - apply keeps_bind; [by apply keeps_Client_IsAllowedAppPreload|intros; apply keeps_ret].
  - apply keeps_bind; [by apply keeps_Client_IsAllowedLinkJump|intros; apply keeps_ret].
  - by apply keeps_Client_RegisterSystemloadNotifier.
  - by apply keeps_Client_UnRegisterSystemloadNotifier.
  - intros x Hx. rewrite register_run.
    by apply (keeps_AddResSaListenerLocked P Hready Hcore), Hreg.
  - intros x Hx. destruct (innerEventListener_ x) as [m|] eqn:Em.
    + rewrite (unregister_run _ _ _ _ m) by done. by apply Hunreg.
    + unfold Client_UnRegisterEventListener. by rewrite run_get_bind, Em.
  - apply keeps_bind; [by apply keeps_OnSystemloadLevel|intros; apply keeps_ret].
  - apply keeps_bind; [by apply keeps_Inner_OnReceiveEvent|intros; apply keeps_ret].
  - by destruct (Hw w).
Qed.

Lemma keeps_OnAddSystemAbility_ok id : keeps client_ok (OnAddSystemAbility id).
Proof.
  intros s Hs. destruct (decide (id = RES_SCHED_SYS_ABILITY_ID)) as [->|Hne].
  - by destruct (OnAddSystemAbility_run s Hs) as (s' & -> & H1 & _).
  - unfold OnAddSystemAbility. apply Z.eqb_neq in Hne. by rewrite Hne.
Qed.

Lemma died_ok s s' : client_ok s -> may_happen CeDied s -> run_cevent CeDied s = Some (tt, s') -> client_ok s'.
Proof.
  intros Hs Hm E. assert (Hnone : forall t g, ~ g ∈ default ∅ ((∅ : gmap Z (gset Z)) !! t)) by (intros t g; by rewrite lookup_empty).
  assert (Hc : rss_ s' = None /\ registeredInnerEvents s' = ∅ /\ remote s' = remote s
    /\ g_isDestroyed s' = g_isDestroyed s /\ innerEventListener_ s' = innerEventListener_ s).
  { revert E. cbn. unfold OnRemoteDied, StopRemoteObject, drop_connection. rewrite run_get_bind.
    destruct (rss_ s); cbn; by intros [= <-]. }
  destruct Hc as (H1 & H2 & H3 & H4 & H5).
  split; unfold registered, has_local, local; rewrite ?H1, ?H2, ?H3, ?H4, ?H5; try apply Hs.
  - intros t g Hr. by destruct (Hnone t g).
  - intros t g _. apply Hnone.
  - intros o t g Ho. rewrite (co_service s Hs o t g Ho). cbn in Hm.
    split; [|by intros [? _]]. intros [Hr Hg]. exfalso.
    destruct Hm as [Hm|Hm]; [congruence|]. apply Hm. congruence.
Qed.

Lemma world_ok s w : client_ok s -> may_happen (CeWorld w) s -> client_ok (s <| remote := w |>).
Proof.
  intros Hs [Hr Hm]. split; try apply Hs; [done|]. cbn. intros o t g Ho.
  destruct Hm as [Hsame|[Hn|[Hne Hk]]].
  - rewrite (rr_asked_same _ _ _ _ Hsame). apply Hs. destruct Hsame as (_ & Hl & _). congruence.
  - congruence.
  - split; [by intros ?%Hk|]. intros [Hrss _]. congruence.
Qed.

Lemma keeps_OnAddSystemAbility_synced id : keeps synced (OnAddSystemAbility id).
Proof.
  intros s Hs. destruct (decide (id = RES_SCHED_SYS_ABILITY_ID)) as [->|Hne].
  - destruct (OnAddSystemAbility_run s (sy_ok s Hs)) as (s' & -> & _ & H1 & H2).
    apply H1, H2, Hs.
  - unfold OnAddSystemAbility. apply Z.eqb_neq in Hne. by rewrite Hne.
Qed.

Lemma event_ok e s s' : may_happen e s -> run_cevent e s = Some (tt, s') -> client_ok s -> client_ok s'.
Proof.
  intros Hm E. apply (event_kept client_ok e); try done.
  - apply client_ok_core.
  - apply client_ok_connect.
  - apply after_register_ok.
  - apply after_unregister_ok.
  - apply keeps_OnAddSystemAbility_ok.
  - intros -> Hs. by apply (died_ok s).
  - intros w -> Hs. injection E as <-. by apply world_ok.
Qed.

Lemma event_synced e s s' :
  e <> CeDied -> may_happen e s -> run_cevent e s = Some (tt, s') -> synced s -> synced s'.
Proof.
  intros Hd Hm E. apply (event_kept synced e); try done.
  - apply sy_ok.
  - apply synced_core.
  - apply synced_connect.
  - apply after_register_synced.
  - apply after_unregister_synced.
  - apply keeps_OnAddSystemAbility_synced.
  - intros w -> [Hs Hr Hall]. injection E as <-. split; [by apply world_ok|done..].
Qed.

Lemma reach_ok s : client_reach s -> client_ok s.
Proof.
  induction 1 as [w Hw Hk|s e s' _ IH Hm E]; [|by eapply event_ok].
  split; try done; unfold registered; cbn.
  intros o t g _. split; [by intros ?%Hk|]. by intros [? _].
Qed.

Lemma no_death_synced s s' : no_death s s' -> synced s -> synced s'.
Proof.
  induction 1 as [|s e s' s'' Hd Hm E _ IH]; [done|]. intros Hs. apply IH. by apply (event_synced e s).
Qed.

Lemma synced_service s o t g :
  synced s -> rr_living (remote s) = Some o -> rss_ s = Some o ->
  rr_keeps (remote s) t g <-> has_local s t g /\ ~ rr_refused (remote s) t g.
Proof.
  intros Hs Ho Hr. pose proof (co_service s (sy_ok s Hs) o t g Ho) as Hk. split.
  - intros Hkeep. split; [|intros Hn; by apply (rr_exclusive _ _ _ (co_ready s (sy_ok s Hs)) Hn)].
    apply (co_local s (sy_ok s Hs)). apply Hk. by left.
  - intros [Hl Hn]. assert (Ha : rr_asked (remote s) t g) by (apply Hk; split; [done|by apply Hs]). by destruct Ha.
Qed.

(** The service never works for nothing: in every state that a process reaches, over
    registrations, reports, connections, deaths and restarts of the service, each type and
    group that the living service keeps for the process has local listeners, all different,
    and the process is connected to that service. *)
Theorem kept_listeners_exist s o t g :
  client_reach s -> rr_living (remote s) = Some o -> rr_keeps (remote s) t g ->
  rss_ s = Some o /\ exists l, listeners_of t g (local s) = Some l /\ l <> [] /\ NoDup l.
Proof.
  intros Hs%reach_ok Ho Hk. destruct (proj1 (co_service s Hs o t g Ho) (or_introl Hk)) as [Hr Hg]. split; [done|].
  destruct (co_local s Hs t g Hg) as [l Hl]. exists l. split; [done|]. by apply (co_lists s Hs t g).
Qed.

(** C18: When the service is announced, the process tells it of all its listeners, and keeps
    it up to date: after [OnAddSystemAbility], which always ends, and any operations until
    the death of that service is reported, the service, while it lives, keeps exactly the
    types and groups that have local listeners, but for those whose registration it turned
    down, as it may for the limit of requests; the process has noted those as registered
    all the same. *)
Theorem announced_service_knows_all s :
  client_reach s ->
  exists s1, OnAddSystemAbility RES_SCHED_SYS_ABILITY_ID s = Some (tt, s1)
    /\ forall o s2, rss_ s1 = Some o -> no_death s1 s2 -> rss_ s2 = Some o -> rr_living (remote s2) = Some o ->
       forall t g, (rr_keeps (remote s2) t g <-> has_local s2 t g /\ ~ rr_refused (remote s2) t g)
                   /\ (has_local s2 t g <-> registered s2 t g).
Proof.
  intros Hs%reach_ok. destruct (OnAddSystemAbility_run s Hs) as (s1 & E & _ & Hsync & _).
  exists s1. split; [done|]. intros o s2 Hr Hn Hr2 Ho t g.
  assert (Hs2 : synced s2) by (apply (no_death_synced s1); [done|apply Hsync; congruence]).
  split; [by apply (synced_service s2 o)|]. split; [apply Hs2|apply (co_local s2 (sy_ok s2 Hs2))].
Qed.
End facts.
