(* ===== verification/ClientService.v ===== *)
(** * Client and service

    The client library of one process together with the service: its requests, with the limit
    of requests, and its event listener manager meet what [RemoteRegistry] asks, and events
    reach the listeners that were registered for them.  At the end, examples. *)
From S2P Require Import Prelude Json ResType CommonUtil LruCache Ipc PluginConfig PluginMgr NotifierMgr EventListenerMgr ServiceWorld ResSchedMgr ResSchedService ServiceDemo ServiceFacts.
From S2P Require Import Client ClientFacts KillEvent.

(** ** The device *)

(** The service that lives, by its object, with its whole state; the process with its identity and
    the remote objects of its listener for events and of its notifier; and what the process
    reads of its own clock.  [dv_refused] is for the theorems only: the types and groups whose
    registration the service turned down and that it does not keep. *)
Record Device (J K S : Type) := mkDevice {
  dv_obj : option Z;
  dv_service : Service J K S;
  dv_caller : Caller;
  dv_listener : Z;
  dv_notifier : Z;
  dv_refused : gset (Z * Z);
  dv_time : Z;
  dv_in_time : bool;
}.
Arguments mkDevice {_ _ _}.
Arguments dv_obj {_ _ _}.
Arguments dv_service {_ _ _}.
Arguments dv_caller {_ _ _}.
Arguments dv_listener {_ _ _}.
Arguments dv_notifier {_ _ _}.
Arguments dv_refused {_ _ _}.
Arguments dv_time {_ _ _}.
Arguments dv_in_time {_ _ _}.
#[export] Instance Device_eta J K S : Eta (Device J K S) := fun d =>
  mkDevice (dv_obj d) (dv_service d) (dv_caller d) (dv_listener d) (dv_notifier d) (dv_refused d) (dv_time d) (dv_in_time d).
Definition dv_events {J K S} (d : Device J K S) : EventListenerMgr J := listeners (dv_service d).
Definition dv_pid {J K S} (d : Device J K S) : Z := c_pid (dv_caller d).

Section device.
Context {J K S : Type} `{!Json J} `{!JsonText J} `{!Build} `{!PluginHost J K} `{!SceneDispatcher J S}
  `{!NotifierHost K} `{!AccessTokenKit K} `{!ApplicationState} `{!ServiceHost K} `{!ServiceBuild} `{!ErrCodes}.
Context (long_bits : Z).
#[local] Abbreviation Dev := (Device J K S).
Implicit Types d : Dev.

(** A request at an object is served when the service of the object lives; without an answer the
    out parameters are not written. *)
Definition serve {A} (o : Z) (m : ST (Service J K S) A) d : option A * Dev :=
  if bool_decide (dv_obj d = Some o) then
    match m (dv_service d) with
    | Some (a, s) => (Some a, d <| dv_service := s |>)
    | None => (None, d)
    end
  else (None, d).
Definition serve_ {A} (o : Z) (m : ST (Service J K S) A) d : Dev := (serve o m d).2.

(** Whether the service keeps a type and a group for the process. *)
Definition device_keeps d (t g : Z) : Prop :=
  exists info, listener_at t (dv_pid d) (eventListenerMap_ (dv_events d)) = Some info /\ g ∈ groups info.
#[export] Instance device_keeps_dec d t g : Decision (device_keeps d t g).
Proof.
  refine (match listener_at t (dv_pid d) (eventListenerMap_ (dv_events d)) as o return
      listener_at t (dv_pid d) (eventListenerMap_ (dv_events d)) = o -> Decision (device_keeps d t g) with
    | Some info => fun E => cast_if (decide (g ∈ groups info))
    | None => fun E => right _
    end eq_refl); unfold device_keeps; rewrite E; naive_solver.
Defined.

(** Notes what became of a registration. *)
Definition note_refused (t g : Z) d : Dev :=
  d <| dv_refused ::= fun r => if decide (device_keeps d t g) then r ∖ {[ (t, g) ]} else r ∪ {[ (t, g) ]} |>.

(** A registration goes through the check of the service, which may turn it down. *)
Definition device_register (o t g : Z) d : Dev :=
  if bool_decide (dv_obj d = Some o) then
    note_refused t g (serve_ o (Service_RegisterEventListener (dv_caller d) (Some (dv_listener d)) t g) d)
  else d.
Definition device_unregister (o t g : Z) d : Dev :=
  if bool_decide (dv_obj d = Some o) then
    (serve_ o (Service_UnRegisterEventListener (dv_caller d) t g) d) <| dv_refused ::= fun r => r ∖ {[ (t, g) ]} |>
  else d.

#[export] Instance device_service : RemoteService Dev := {|
  rs_GetSystemAbilityManager _ := true;
  rs_CheckSystemAbility := dv_obj;
  rs_iface_cast _ := true;
  rs_SubscribeSystemAbility d := (0, d);
  rs_GetNowMillTime := dv_time;
  rs_in_time := dv_in_time;
  rs_GetResTypeList o := serve o (s ← st_get; mret (Service_GetResTypeList s));
  rs_ReportData o t v p d := serve_ o (ReportData (dv_caller d) t v p) d;
  rs_ReportSyncEvent o t v p d :=
    serve o (r ← ReportSyncEvent (dv_caller d) t v p; mret (default "" r.1.2, r.2)) d;
  rs_KillProcess o p d := serve o (r ← KillProcess long_bits (dv_caller d) p; mret r.2) d;
  rs_RegisterSystemloadNotifier o d := serve_ o (RegisterSystemloadNotifier (dv_caller d) (Some (dv_notifier d))) d;
  rs_UnRegisterSystemloadNotifier o d := serve_ o (UnRegisterSystemloadNotifier (dv_caller d)) d;
  rs_RegisterEventListener := device_register;
  rs_UnRegisterEventListener := device_unregister;
  rs_GetSystemloadLevel o := serve o (s ← st_get; mret (GetSystemloadLevel s));
  rs_IsAllowedAppPreload o b m d := serve o (r ← IsAllowedAppPreload (dv_caller d) b m; mret r.2) d;
  rs_IsAllowedLinkJump o _ d := serve o (s ← st_get; mret (IsAllowedLinkJump (dv_caller d) s).2) d;
|}.

(** The manager is initialised; the process, and no other, has its listener; and what the service
    turned down it does not keep. *)
Record device_ready d : Prop := {
  dr_watched : eventListenerDeathRecipient_ (dv_events d) = true;
  dr_own t p info : listener_at t p (eventListenerMap_ (dv_events d)) = Some info ->
    listener info = dv_listener d <-> p = dv_pid d;
  dr_refused t g : (t, g) ∈ dv_refused d -> ~ device_keeps d t g;
}.

(** Whether the limit of requests lets the next one through. *)
Definition device_accepts d : bool :=
  negb (over_limit (c_uid (dv_caller d)) (check_window (c_uid (dv_caller d)) (dv_service d))).

(** *** Requests that leave the listeners alone *)

(** The service keeps its listeners. *)
Definition listeners_kept {A} (m : ST (Service J K S) A) : Prop := forall e, keeps (fun s => listeners s = e) m.

Section kept.
Context (e : EventListenerMgr J).
#[local] Abbreviation kept := (keeps (S := Service J K S) (fun s => listeners s = e)).

Lemma kept_in_plugins {A} (m : ST (PluginMgr J K) A) : kept (in_plugins m).
Proof. intros s Hs. cbn. unfold in_plugins, in_part. by destruct (m _) as [[a p]|]. Qed.
Lemma kept_in_scenes {A} (m : ST S A) : kept (in_scenes m).
Proof. intros s Hs. cbn. unfold in_scenes, in_part. by destruct (m _) as [[a p]|]. Qed.
Lemma kept_in_notifiers {A} (m : ST NotifierMgr A) : kept (in_notifiers m).
Proof. intros s Hs. cbn. unfold in_notifiers, in_part. by destruct (m _) as [[a p]|]. Qed.
Lemma kept_in_cache {A} (m : ST (LRU Z Z) A) : kept (in_cache m).
Proof. intros s Hs. cbn. unfold in_cache, in_part. by destruct (m _) as [[a p]|]. Qed.
Lemma kept_upd_svc f : kept (upd_svc f).
Proof. by intros s Hs. Qed.
Lemma kept_get_svc : kept get_svc.
Proof. by intros s Hs. Qed.
Lemma kept_service_host : kept get_host.
Proof. by intros s Hs. Qed.
Lemma kept_s_record c : kept (s_record c).
Proof. by intros s Hs. Qed.
#[local] Hint Resolve kept_in_plugins kept_in_scenes kept_in_notifiers kept_in_cache kept_upd_svc kept_get_svc
  kept_service_host kept_s_record : keeps.
#[local] Hint Extern 1 (keeps _ (st_modify _)) => by apply keeps_modify : keeps.

Lemma kept_RemoteRequestCheck c : kept (RemoteRequestCheck c).
Proof.
  unfold RemoteRequestCheck, ReportBigData, IsLimitRequest, CheckAndUpdateLimitData, InreaseBigDataCount,
    PrintLimitLog. keeps_auto.
Qed.
Lemma kept_CheckReportDataParcel c t v p : kept (CheckReportDataParcel c t v p).
Proof. unfold CheckReportDataParcel, IsHasPermission, ReportPermissionErrorEvent, count_refusal. keeps_auto. Qed.
Lemma kept_SetQos p : kept (SetQos p).
Proof. unfold SetQos. keeps_auto. Qed.
#[local] Hint Resolve kept_RemoteRequestCheck kept_CheckReportDataParcel kept_SetQos : keeps.

Lemma kept_ReportData c t v p : kept (ReportData c t v p).
Proof. unfold ReportData, ResSchedMgr_ReportData, ReportDataInner. keeps_auto. Qed.
Lemma kept_ReportSyncEvent c t v p : kept (ReportSyncEvent c t v p).
Proof. unfold ReportSyncEvent. keeps_auto. Qed.
Lemma kept_KillProcess c p : kept (KillProcess long_bits c p).
Proof. unfold KillProcess, KillProcessByClient, KillProcessByPidWithClient. keeps_auto. Qed.
Lemma kept_RegisterSystemloadNotifier c n : kept (RegisterSystemloadNotifier c n).
Proof. unfold RegisterSystemloadNotifier. keeps_auto. Qed.
Lemma kept_UnRegisterSystemloadNotifier c : kept (UnRegisterSystemloadNotifier c).
Proof. unfold UnRegisterSystemloadNotifier. keeps_auto. Qed.
Lemma kept_IsAllowedAppPreload c b m : kept (IsAllowedAppPreload c b m).
Proof. unfold IsAllowedAppPreload, LoadAppPreloadPlugin. keeps_auto. Qed.
Lemma kept_reading {A} (f : Service J K S -> A) : kept (s ← st_get; mret (f s)).
Proof. keeps_auto. Qed.
End kept.
#[local] Hint Resolve kept_ReportData kept_ReportSyncEvent kept_KillProcess kept_RegisterSystemloadNotifier
  kept_UnRegisterSystemloadNotifier kept_IsAllowedAppPreload kept_reading : keeps.

(** The process and the table of the service are as they were. *)
Definition same_device d d' : Prop :=
  device_ready d' /\ dv_obj d' = dv_obj d
  /\ (forall t g, (device_keeps d' t g <-> device_keeps d t g) /\ ((t, g) ∈ dv_refused d' <-> (t, g) ∈ dv_refused d)).

Lemma serve_same {A} o (m : ST (Service J K S) A) d :
  listeners_kept m -> device_ready d -> same_device d (serve o m d).2.
Proof.
  intros Hm Hd. unfold serve. case_bool_decide; [|by split].
  specialize (Hm (dv_events d) (dv_service d) eq_refl). destruct (m (dv_service d)) as [[a s]|]; [|by split].
  cbn. unfold same_device, device_keeps, dv_events, dv_pid. cbn in *. rewrite Hm.
  split; [|by split_and!]. destruct Hd as [Hr Ho Hn].
  by split; unfold device_keeps, dv_events, dv_pid; cbn; rewrite ?Hm.
Qed.

(** *** The table of the manager *)

Lemma listener_at_set t p info m t' p' :
  listener_at t' p' (set_listener t p info m)
  = if decide (t' = t /\ p' = p) then Some info else listener_at t' p' m.
Proof.
  unfold listener_at, set_listener. destruct (decide (t' = t)) as [->|Ht].
  - rewrite lookup_insert_eq. cbn. destruct (decide (p' = p)) as [->|Hp].
    + by rewrite lookup_insert_eq, decide_True.
    + rewrite lookup_insert_ne, decide_False by naive_solver. by destruct (m !! t).
  - by rewrite lookup_insert_ne, decide_False by naive_solver.
Qed.

(** What a registration and its removal do to the table of the manager. *)
Lemma mgr_register p l t g (e : EventListenerMgr J) :
  eventListenerDeathRecipient_ e = true ->
  exists e', RegisterEventListener p (Some l) t g e = Some (tt, e')
    /\ eventListenerDeathRecipient_ e' = true
    /\ forall t' p', listener_at t' p' (eventListenerMap_ e') =
        if decide (t' = t /\ p' = p) then
          Some (match listener_at t p (eventListenerMap_ e) with
                | Some info => info <| groups ::= union {[ g ]} |>
                | None => mkEventListenerInfo l p {[ g ]} end)
        else listener_at t' p' (eventListenerMap_ e).
Proof.
  intros Hr. unfold RegisterEventListener. rewrite run_get_bind, Hr. cbn [negb].
  destruct (listener_at t p (eventListenerMap_ e)) as [info|] eqn:E.
  - destruct (decide (g ∈ groups info)) as [Hg|Hg].
    + rewrite bool_decide_false by tauto. exists e. split_and!; [done..|]. intros t' p'.
      case_decide as Hd; [|done]. destruct Hd as [-> ->]. rewrite E. f_equal.
      destruct info as [a b gs]. change (mkEventListenerInfo a b gs = mkEventListenerInfo a b ({[ g ]} ∪ gs)).
      change (g ∈ gs) in Hg. f_equal. set_solver.
    + rewrite bool_decide_true by done. eexists. split_and!; [done..|]. intros t' p'. apply listener_at_set.
  - eexists. split_and!; [done..|]. intros t' p'. apply listener_at_set.
Qed.

Lemma listener_at_delete t p (listeners : gmap Z EventListenerInfo) m t' p' :
  m !! t = Some listeners ->
  listener_at t' p' ((if bool_decide (delete p listeners = ∅) then delete t
                      else <[t := delete p listeners]>) m)
  = if decide (t' = t /\ p' = p) then None else listener_at t' p' m.
Proof.
  intros E. unfold listener_at.
  assert (Hq : forall q, (if decide (q = p) then None else listeners !! q) = delete p listeners !! q).
  { intros q. case_decide as Hp; [subst; by rewrite lookup_delete_eq|by rewrite lookup_delete_ne]. }
  destruct (decide (t' = t)) as [->|Ht].
  - rewrite E. cbn. transitivity (delete p listeners !! p').
    + case_bool_decide as Hd; [by rewrite lookup_delete_eq, Hd|by rewrite lookup_insert_eq].
    + rewrite <- Hq. by destruct (decide (p' = p)); destruct (decide (t = t /\ p' = p)); naive_solver.
  - rewrite decide_False by naive_solver.
    case_bool_decide; [by rewrite lookup_delete_ne|by rewrite lookup_insert_ne].
Qed.

Lemma mgr_unregister p t g (e : EventListenerMgr J) :
  exists e', UnRegisterEventListener p t g e = Some (tt, e')
    /\ eventListenerDeathRecipient_ e' = eventListenerDeathRecipient_ e
    /\ forall t' p', listener_at t' p' (eventListenerMap_ e') =
        if decide (t' = t /\ p' = p) then
          info ← listener_at t p (eventListenerMap_ e);
          let info := info <| groups ::= fun gs => gs ∖ {[ g ]} |> in
          if decide (groups info = ∅) then None else Some info
        else listener_at t' p' (eventListenerMap_ e).
Proof.
  unfold UnRegisterEventListener. rewrite run_get_bind.
  assert (Hnone : listener_at t p (eventListenerMap_ e) = None -> forall t' p',
    listener_at t' p' (eventListenerMap_ e) =
        if decide (t' = t /\ p' = p) then
          info ← listener_at t p (eventListenerMap_ e);
          let info := info <| groups ::= fun gs => gs ∖ {[ g ]} |> in
          if decide (groups info = ∅) then None else Some info
        else listener_at t' p' (eventListenerMap_ e)).
  { intros E t' p'. case_decide as Hd; [|done]. destruct Hd as [-> ->]. by rewrite E. }
  destruct (eventListenerMap_ e !! t) as [listeners|] eqn:E; last first.
  { exists e. split_and!; [done..|]. apply Hnone. unfold listener_at. by rewrite E. }
  destruct (listeners !! p) as [info|] eqn:Ep; last first.
  { exists e. split_and!; [done..|]. apply Hnone. unfold listener_at. by rewrite E. }
  assert (Eat : listener_at t p (eventListenerMap_ e) = Some info) by (unfold listener_at; by rewrite E).
  rewrite Eat. cbn [mbind option_bind]. cbv zeta.
  destruct (decide (groups (info <| groups ::= fun gs => gs ∖ {[ g ]} |>) = ∅)) as [Hg|Hg].
  - rewrite bool_decide_false by tauto. eexists. split_and!; [done..|]. intros t' p'.
    cbn. by apply listener_at_delete.
  - rewrite bool_decide_true by done. eexists. split_and!; [done..|]. intros t' p'. apply listener_at_set.
Qed.

(** *** Registrations at the service *)

(** What a registration leaves of the device besides the service and what it turned down. *)
Definition same_process d d' : Prop :=
  dv_obj d' = dv_obj d /\ dv_caller d' = dv_caller d /\ dv_listener d' = dv_listener d.

(** The manager of the service is ready for the process. *)
Definition manager_ready d : Prop :=
  eventListenerDeathRecipient_ (dv_events d) = true
  /\ forall t p info, listener_at t p (eventListenerMap_ (dv_events d)) = Some info ->
       listener info = dv_listener d <-> p = dv_pid d.

Lemma register_served o t g d :
  device_ready d -> dv_obj d = Some o ->
  let d' := serve_ o (Service_RegisterEventListener (dv_caller d) (Some (dv_listener d)) t g) d in
  same_process d d' /\ dv_refused d' = dv_refused d /\ manager_ready d'
  /\ forall t' g', device_keeps d' t' g' <-> device_keeps d t' g' \/ (device_accepts d = true /\ t' = t /\ g' = g).
Proof.
  intros [Hr Hown _] Ho. cbv zeta. unfold serve_, serve. rewrite bool_decide_true by done.
  unfold Service_RegisterEventListener, device_accepts.
  destruct (RemoteRequestCheck_run (dv_caller d) (dv_service d)) as (s1 & E & Q & _).
  rewrite (run_bind _ _ _ _ _ E). pose proof (q_listeners _ _ Q) as Hl.
  destruct (over_limit _ _); cbn [negb].
  - change (RES_SCHED_REQUEST_FAIL =? ERR_OK) with false. cbn. unfold manager_ready, device_keeps, dv_events, dv_pid.
    cbn. rewrite Hl. split_and!; [done..|]. naive_solver.
  - rewrite Z.eqb_refl. cbn [negb].
    destruct (mgr_register (c_pid (dv_caller d)) (dv_listener d) t g (listeners s1)) as (e & Ee & Hr' & Hm).
    { by rewrite Hl. }
    unfold in_listeners, in_part, mbind, ST_bind. rewrite Ee. cbn. rewrite Hl in Hm.
    unfold manager_ready, device_keeps, dv_events, dv_pid in *. cbn. split_and!; try done.
    + intros t' p' info. rewrite Hm. case_decide as Hp; [|apply Hown].
      destruct Hp as [-> ->]. intros [= <-].
      destruct (listener_at t _ _) as [i|] eqn:Ei; cbn; [by apply Hown in Ei|done].
    + intros t' g'. rewrite Hm. destruct (decide (t' = t)) as [->|Ht].
      * rewrite decide_True by done.
        destruct (listener_at t _ _) as [i|]; cbn; split.
        -- intros (x & [= <-] & Hx). cbn in Hx. set_solver.
        -- intros [(x & [= <-] & Hx)|(_ & _ & ->)]; eexists; (split; [done|]); cbn; set_solver.
        -- intros (x & [= <-] & Hx). cbn in Hx. set_solver.
        -- intros [(x & [=] & Hx)|(_ & _ & ->)]. eexists; split; [done|]; cbn; set_solver.
      * rewrite decide_False by naive_solver. naive_solver.
Qed.

Lemma unregister_served o t g d :
  device_ready d -> dv_obj d = Some o ->
  let d' := serve_ o (Service_UnRegisterEventListener (dv_caller d) t g) d in
  same_process d d' /\ dv_refused d' = dv_refused d /\ manager_ready d'
  /\ forall t' g', device_keeps d' t' g' <-> device_keeps d t' g' /\ ~ (t' = t /\ g' = g).
Proof.
  intros [Hr Hown _] Ho. cbv zeta. unfold serve_, serve. rewrite bool_decide_true by done.
  unfold Service_UnRegisterEventListener, in_listeners, in_part, mbind, ST_bind.
  destruct (mgr_unregister (c_pid (dv_caller d)) t g (listeners (dv_service d))) as (e & Ee & Hr' & Hm).
  rewrite Ee. cbn. unfold manager_ready, device_keeps, dv_events, dv_pid in *. cbn. split_and!; try done.
  - congruence.
  - intros t' p' info. rewrite Hm. case_decide as Hp; [|apply Hown].
    destruct Hp as [-> ->]. destruct (listener_at t _ _) as [i|] eqn:Ei; cbn; [|done].
    case_decide; [done|]. intros [= <-]. cbn. by apply Hown in Ei.
  - intros t' g'. rewrite Hm. destruct (decide (t' = t)) as [->|Ht].
    + rewrite decide_True by done.
      destruct (listener_at t _ _) as [i|] eqn:Ei; cbn; [|naive_solver].
      case_decide as Hg; cbn in Hg; split.
      * by intros (? & ? & _).
      * intros [(x & [= <-] & Hx) Hn]. exfalso. apply Hn. set_solver.
      * intros (x & [= <-] & Hx). cbn in Hx. split; [exists i; set_solver|set_solver].
      * intros [(x & [= <-] & Hx) Hn]. eexists. split; [done|]. cbn. set_solver.
    + rewrite decide_False by naive_solver. naive_solver.
Qed.

Lemma refused_noted t g d t' g' :
  (t', g') ∈ dv_refused (note_refused t g d)
  <-> if decide (t' = t /\ g' = g) then ~ device_keeps d t g else (t', g') ∈ dv_refused d.
Proof. unfold note_refused. cbn. destruct (decide (device_keeps d t g)); case_decide; set_solver. Qed.

(** A registration: all of [RemoteRegistry] that it has to meet. *)
Lemma device_register_spec o t g d :
  device_ready d ->
  let d' := device_register o t g d in
  device_ready d' /\ dv_obj d' = dv_obj d
  /\ (forall t' g', ~ (dv_obj d = Some o /\ t' = t /\ g' = g) ->
        (device_keeps d' t' g' <-> device_keeps d t' g') /\ ((t', g') ∈ dv_refused d' <-> (t', g') ∈ dv_refused d))
  /\ (dv_obj d = Some o ->
        if device_accepts d then device_keeps d' t g
        else (device_keeps d' t g <-> device_keeps d t g) /\ (device_keeps d' t g \/ (t, g) ∈ dv_refused d')).
Proof.
  intros Hd. cbv zeta. unfold device_register. case_bool_decide as Ho; [|by split_and!].
  destruct (register_served o t g d Hd Ho) as (Hp & Hf & [Hr Hown] & Hk).
  set (d1 := serve_ _ _ d) in *.
  assert (Hk2 : forall t' g', device_keeps (note_refused t g d1) t' g' <-> device_keeps d1 t' g') by done.
  split_and!.
  - split; [exact Hr|exact Hown|]. intros t' g' Hy%refused_noted Hkeep%Hk2. revert Hy. case_decide as Hc.
    + destruct Hc as [-> ->]. tauto.
    + rewrite Hf. intros Hy%(dr_refused d Hd). apply Hk in Hkeep. tauto.
  - apply Hp.
  - intros t' g' Hne. rewrite Hk2, Hk, refused_noted, Hf, decide_False by naive_solver. naive_solver.
  - intros _. destruct (device_accepts d); rewrite Hk2, Hk; [naive_solver|].
    rewrite refused_noted, decide_True, Hk by done. destruct (decide (device_keeps d t g)); naive_solver.
Qed.

Lemma device_unregister_spec o t g d :
  device_ready d ->
  let d' := device_unregister o t g d in
  device_ready d' /\ dv_obj d' = dv_obj d
  /\ (forall t' g', ~ (dv_obj d = Some o /\ t' = t /\ g' = g) ->
        (device_keeps d' t' g' <-> device_keeps d t' g') /\ ((t', g') ∈ dv_refused d' <-> (t', g') ∈ dv_refused d))
  /\ (dv_obj d = Some o -> ~ (device_keeps d' t g \/ (t, g) ∈ dv_refused d')).
Proof.
  intros Hd. cbv zeta. unfold device_unregister. case_bool_decide as Ho; [|by split_and!].
  destruct (unregister_served o t g d Hd Ho) as (Hp & Hf & [Hr Hown] & Hk).
  set (d1 := serve_ _ _ d) in *. set (d2 := d1 <| dv_refused ::= _ |>).
  assert (Hk2 : forall t' g', device_keeps d2 t' g' <-> device_keeps d1 t' g') by done.
  assert (Hf2 : forall t' g', (t', g') ∈ dv_refused d2 <-> (t', g') ∈ dv_refused d /\ ~ (t' = t /\ g' = g)).
  { intros t' g'. unfold d2. cbn. rewrite Hf. set_solver. }
  split_and!.
  - split; [exact Hr|exact Hown|]. intros t' g'. rewrite Hf2, Hk2, Hk. intros [Hy%(dr_refused d Hd) _]. tauto.
  - apply Hp.
  - intros t' g' Hne. rewrite Hk2, Hk, Hf2. naive_solver.
  - intros _. rewrite Hk2, Hk, Hf2. naive_solver.
Qed.

#[export] Program Instance device_registry : RemoteRegistry Dev := {|
  rr_ready := device_ready;
  rr_living := dv_obj;
  rr_keeps := device_keeps;
  rr_refused d t g := (t, g) ∈ dv_refused d;
  rr_accepts := device_accepts;
|}.
Next Obligation. intros d t g Hd. apply (dr_refused d Hd). Qed.
Next Obligation. intros o t g d. apply device_register_spec. Qed.
Next Obligation. intros o t g d. apply device_unregister_spec. Qed.
Next Obligation. intros d Hd. by split. Qed.
Solve All Obligations with
  intros; apply serve_same; [intros e; first [solve [auto with keeps]|apply keeps_bind; [auto with keeps|intros; apply keeps_ret]]|assumption].

(** ** An event on its way *)
Context (with_ext_res : bool) (StrToInt : string -> option Z) `{!ClientEnv}.
Implicit Types s : Client Dev.

(** The service sends an event and its queue runs. *)
Definition emit (eventType eventValue : Z) (extInfo : J) (listenerGroup : Z) : ST (EventListenerMgr J) unit :=
  SendEvent with_ext_res StrToInt eventType eventValue extInfo listenerGroup (-1);; run_event_queue.

(** The calls that the manager makes of a remote object. *)
Definition calls_of (obj : Z) (l : list (ECall J)) : list (Z * Z * Z * string) :=
  omap (fun c => match c with
    | EOnReceiveEvent o t v g ext => if decide (o = obj) then Some (t, v, g, ext) else None
    | _ => None end) l.

(** The event goes from the service to the process, which calls its listeners. *)
Definition deliver (eventType eventValue : Z) (extInfo : J) (listenerGroup : Z) : ST (Client Dev) unit := fun s =>
  let d := remote s in
  match in_listeners (emit eventType eventValue extInfo listenerGroup) (dv_service d) with
  | None => None
  | Some (_, x) =>
      st_iter (fun '(t, v, g, ext) => _ ← Inner_OnReceiveEvent t v g ext; mret tt)
        (calls_of (dv_listener d) (drop (length (e_trace (dv_events d))) (e_trace (listeners x))))
        (s <| remote := d <| dv_service := x |> |>)
  end.

Lemma only_one {A} (x : A) (l : list A) : NoDup l -> (forall y, y ∈ l -> y = x) -> x ∈ l -> l = [x].
Proof.
  intros Hd Hall Hx. destruct l as [|y l]; [by apply elem_of_nil in Hx|].
  rewrite (Hall y) in * by (by left). f_equal. destruct l as [|z l]; [done|].
  apply NoDup_cons in Hd as [Hn _]. destruct Hn. rewrite (Hall z) by (right; by left). by left.
Qed.

(** The listeners that an event is for. *)
Definition addressees (g : Z) (listeners : gmap Z EventListenerInfo) : list Z :=
  (fun p => listener p.2) <$> filter (fun p => g ∈ groups p.2) (in_order listeners).

Lemma record_all (F : Z -> ECall J) l (e : EventListenerMgr J) :
  exists e', st_iter (fun obj => e_record (F obj)) l e = Some (tt, e') /\ e_trace e' = e_trace e ++ (F <$> l).
Proof.
  revert e. induction l as [|x l IH]; intros e; [exists e; split; [done|by rewrite app_nil_r]|].
  destruct (IH (e <| e_trace ::= fun l => l ++ [F x] |>)) as (e' & E & Ht).
  exists e'. split; [exact E|]. rewrite Ht. cbn. by rewrite <- app_assoc.
Qed.

(** What the manager records when an event is sent to it with an empty queue. *)
Lemma emit_run t v ext g (e : EventListenerMgr J) :
  EVENT_START <= t <= EVENT_END -> with_ext_res && (t =? EVENT_KEY_PERF_SCENE) = false ->
  eventSenderQueue_ e = Some [] ->
  exists e', emit t v ext g e = Some (tt, e')
    /\ e_trace e' = e_trace e ++
       ((fun obj => EOnReceiveEvent obj t v g (json_dump ext))
         <$> from_option (addressees g) [] (eventListenerMap_ e !! t)).
Proof.
  intros Ht Hx Hq. unfold emit, SendEvent.
  assert (Hr : (t <? EVENT_START) || (t >? EVENT_END) = false) by (apply orb_false_iff; lia).
  rewrite Hr, Hx. unfold mbind at 1, ST_bind at 1. rewrite run_get_bind, Hq, Z.eqb_refl.
  rewrite bool_decide_false by done. unfold SendEventLock. rewrite run_get_bind.
  destruct (eventListenerMap_ e !! t) as [listeners|]; cbn [from_option].
  - unfold HandleSendEvent. change (-1 >=? 0) with false. cbv beta iota zeta. rewrite run_get_bind, Hq.
    fold (addressees g listeners).
    unfold run_event_queue, mbind, ST_bind, st_get, st_some, st_modify, mret, ST_ret. cbn.
    edestruct (record_all (fun obj => EOnReceiveEvent obj t v g (json_dump ext))) as (e' & E & He).
    exists e'. split; [exact E|exact He].
  - exists e. cbn. unfold run_event_queue. rewrite run_get_bind, Hq. split; [done|by rewrite app_nil_r].
Qed.

Lemma calls_of_addressees obj t v g x (l : list (Z * EventListenerInfo)) :
  calls_of obj ((fun o => EOnReceiveEvent o t v g x) <$> ((fun p => listener p.2) <$> filter (fun p => g ∈ groups p.2) l))
  = (fun _ => (t, v, g, x)) <$> filter (fun p => listener p.2 = obj /\ g ∈ groups p.2) l.
Proof.
  induction l as [|p l IH]; [done|]. rewrite !filter_cons.
  destruct (decide (g ∈ groups p.2)) as [Hg|Hg].
  - cbn. destruct (decide (listener p.2 = obj)) as [Ho|Ho].
    + rewrite decide_True by done. cbn. f_equal. apply IH.
    + rewrite decide_False by naive_solver. apply IH.
  - rewrite (decide_False (P := _ /\ _)) by naive_solver. apply IH.
Qed.

(** The process is called exactly when the service keeps the type and the group for it. *)
Lemma own_calls d t v g x :
  device_ready d ->
  let l := calls_of (dv_listener d) ((fun o => EOnReceiveEvent o t v g x) <$>
             from_option (addressees g) [] (eventListenerMap_ (dv_events d) !! t)) in
  (device_keeps d t g -> l = [(t, v, g, x)]) /\ (~ device_keeps d t g -> l = []).
Proof.
  intros Hready. pose proof (dr_own d Hready) as Hd. cbv zeta. unfold device_keeps.
  assert (Hlook : forall p i, listener_at t p (eventListenerMap_ (dv_events d)) = Some i <->
    exists ls, eventListenerMap_ (dv_events d) !! t = Some ls /\ ls !! p = Some i).
  { intros p i. unfold listener_at. destruct (eventListenerMap_ (dv_events d) !! t); naive_solver. }
  specialize (Hd t). revert Hd Hlook.
  destruct (eventListenerMap_ (dv_events d) !! t) as [ls|]; cbn [from_option]; intros Hd Hlook.
  - unfold addressees. rewrite calls_of_addressees. split.
    + intros (info & (? & [= <-] & Hp)%Hlook & Hg).
      rewrite (only_one (dv_pid d, info) (filter _ _)); [done|..].
      * apply NoDup_filter. rewrite in_order_perm. apply NoDup_map_to_list.
      * intros [p i] [[Hl _] Hin%elem_of_in_order]%list_elem_of_filter. cbn in Hl.
        assert (p = dv_pid d) as -> by (apply (Hd p i); [apply Hlook; eauto|done]). congruence.
      * apply list_elem_of_filter. split; [|by apply elem_of_in_order]. cbn.
        split; [|done]. by apply (Hd (dv_pid d) info); [apply Hlook; eauto|].
    + intros Hn. destruct (filter _ _) as [|[p i] r] eqn:E; [done|]. destruct Hn.
      assert (Hin1 : (p, i) ∈ filter (fun p => listener p.2 = dv_listener d /\ g ∈ groups p.2) (in_order ls))
        by (rewrite E; by left).
      apply list_elem_of_filter in Hin1 as [[Hl Hg] Hin%elem_of_in_order]. cbn in *.
      exists i. split; [|done]. apply Hlook. exists ls. split; [done|].
      assert (p = dv_pid d) as <- by (apply (Hd p i); [apply Hlook; eauto|done]). done.
  - split; [|done]. intros (info & (? & [=] & _)%Hlook & _).
Qed.

Lemma receive_run t v g ext s :
  exists r s', Inner_OnReceiveEvent t v g ext s = Some (r, s')
    /\ c_trace s' = c_trace s ++ ((fun l => COnReceiveEvent l t v (string_entries (StringToJsonObj ext)))
                                  <$> default [] (listeners_of t g (local s))).
Proof.
  unfold Inner_OnReceiveEvent. cbv zeta. rewrite run_get_bind. unfold local.
  destruct (innerEventListener_ s) as [m|] eqn:Em; cbn.
  - destruct (listeners_of t g m) as [l|]; cbn; [|eexists _, _; split; [done|by rewrite app_nil_r]].
    set (f := fun listener => c_record _).
    assert (Hf : exists s', st_iter f l s = Some (tt, s') /\ c_trace s' = c_trace s ++
      ((fun l => COnReceiveEvent l t v (string_entries (StringToJsonObj ext))) <$> l)).
    { clear Em. revert s. induction l as [|x l IH]; intros s; [exists s; split; [done|by rewrite app_nil_r]|].
      destruct (IH (s <| c_trace ::= fun l => l ++ [COnReceiveEvent x t v (string_entries (StringToJsonObj ext))] |>))
        as (s' & E & Ht).
      exists s'. split; [exact E|]. rewrite Ht. cbn. by rewrite <- app_assoc. }
    destruct Hf as (s' & E & Ht). eexists _, s'. rewrite (run_bind _ _ _ _ _ E). by split.
  - eexists _, _. split; [done|]. unfold listeners_of. rewrite lookup_empty. by rewrite app_nil_r.
Qed.

(** C17: An event reaches exactly its listeners: once a service was announced to the process,
    and after any operations until its death is reported, an event that this service sends
    to a group, its queue being empty, leads to one call of each local listener of the type
    and the group, in the order of their registration, with the strings of the event, and to
    no other call; except that none is called for a type and a group whose registration the
    limit of requests of the service turned down, which the process takes for registered. *)
Theorem event_reaches_its_listeners s0 s1 s o t v ext g :
  client_reach s0 -> OnAddSystemAbility RES_SCHED_SYS_ABILITY_ID s0 = Some (tt, s1) -> rss_ s1 = Some o ->
  no_death s1 s -> rss_ s = Some o -> dv_obj (remote s) = Some o ->
  EVENT_START <= t <= EVENT_END -> with_ext_res && (t =? EVENT_KEY_PERF_SCENE) = false ->
  eventSenderQueue_ (dv_events (remote s)) = Some [] ->
  exists s', deliver t v ext g s = Some (tt, s')
    /\ c_trace s' = c_trace s ++
       ((fun l => COnReceiveEvent l t v (string_entries (StringToJsonObj (json_dump ext))))
         <$> if decide ((t, g) ∈ dv_refused (remote s)) then [] else default [] (listeners_of t g (local s))).
Proof.
  intros Hs0%reach_ok E1 Hr1 Hn Hr Ho Ht Hx Hq.
  assert (Hs : synced s).
  { apply (no_death_synced s1); [done|]. destruct (OnAddSystemAbility_run s0 Hs0) as (? & E & _ & Hsync & _).
    rewrite E1 in E. injection E as <-. apply Hsync. congruence. }
  pose proof (synced_service s o t g Hs Ho Hr) as Hk.
  destruct (emit_run t v ext g _ Ht Hx Hq) as (e' & Ee & Htr).
  destruct (own_calls (remote s) t v g (json_dump ext) (co_ready s (sy_ok s Hs))) as [Hyes Hno].
  unfold deliver, in_listeners, in_part. cbv zeta.
  change (listeners (dv_service (remote s))) with (dv_events (remote s)). rewrite Ee.
  match goal with |- context [e_trace (listeners ?x)] => change (listeners x) with e' end.
  rewrite Htr, drop_app_length. set (s2 := s <| remote := _ |>).
  assert (Hsilent : ~ rr_keeps (remote s) t g ->
    exists s' : Client Dev, st_iter (fun '(t, v, g, ext) => _ ← Inner_OnReceiveEvent t v g ext; mret tt)
      (calls_of (dv_listener (remote s)) ((fun obj => EOnReceiveEvent obj t v g (json_dump ext))
         <$> from_option (addressees g) [] (eventListenerMap_ (dv_events (remote s)) !! t))) s2 = Some (tt, s')
      /\ c_trace s' = c_trace s ++ []).
  { intros Hnk. rewrite Hno by exact Hnk. exists s2. split; [done|]. by rewrite app_nil_r. }
  case_decide as Hf; [apply Hsilent; rewrite Hk; tauto|].
  destruct (listeners_of t g (local s)) as [l|] eqn:El; cbn [default].
  - rewrite Hyes by (apply Hk; unfold has_local; by rewrite El). cbn [st_iter].
    destruct (receive_run t v g (json_dump ext) s2) as (r & s' & Er & Htr').
    exists s'. unfold mbind, ST_bind. rewrite Er. split; [done|]. rewrite Htr'.
    change (local s2) with (local s). by rewrite El.
  - apply Hsilent. rewrite Hk. intros [Hl _]. unfold has_local in Hl. rewrite El in Hl. by destruct Hl.
Qed.
End device.

(** ** Examples *)

(** A device with a service that was just started, and the library of a process. *)
#[export] Instance demo_env : ClientEnv := {| RES_SCHED_SYS_ABILITY_ID := 1901; walk A := map_to_list; walk_perm A m := reflexivity _ |}.
#[local] Abbreviation DemoDevice := (Device json Z (list Z)).
#[export] Instance demo_remote : RemoteService DemoDevice := device_service 32.
#[export] Instance demo_registry : RemoteRegistry DemoDevice := device_registry 32.
Definition demo_listening : Service json Z (list Z) :=
  default demo_service (snd <$> in_listeners EventListenerMgr_Init demo_service).
Definition demo_device (o : option Z) : DemoDevice := mkDevice o demo_listening app_caller 55 56 ∅ 0 true.
(** A service that has let through all requests of the caller in its window. *)
Definition demo_busy (o : Z) : DemoDevice :=
  (demo_device (Some o)) <| dv_service ::= fun s => s <| svc ::= fun x =>
    x <| appRequestCountMap_ := {[ 20010001 := SINGLE_UID_REQUEST_LIMIT_COUNT ]} |> <| nextCheckTime_ := 2 ^ 62 |> |> |>.

Lemma no_listeners_ready (d : DemoDevice) :
  eventListenerDeathRecipient_ (dv_events d) = true -> eventListenerMap_ (dv_events d) = ∅ -> dv_refused d = ∅ ->
  rr_ready d /\ forall t g, ~ rr_asked d t g.
Proof.
  intros Hw He Hf. assert (Hn : forall t p, listener_at t p (eventListenerMap_ (dv_events d)) = None).
  { intros t p. by rewrite He. }
  split; [split; [done|..]|].
  - intros t p info. by rewrite Hn.
  - intros t g. rewrite Hf. set_solver.
  - intros t g [(info & Hi & _)|Hr]; [by rewrite Hn in Hi|]. cbn in Hr. rewrite Hf in Hr. set_solver.
Qed.

Lemma demo_device_ready o : rr_ready (demo_device o) /\ forall t g, ~ rr_asked (demo_device o) t g.
Proof. by apply no_listeners_ready. Qed.

Definition run_events (es : list CEvent) (s : Client DemoDevice) : Client DemoDevice :=
  foldl (fun s e => default s (snd <$> run_cevent e s)) s es.

Ltac run_demo := vm_compute; reflexivity.

(** One listener registers before the service is announced, one after it. *)
Definition demo_client : Client DemoDevice := run_events [CeRegister (Some 201) 18 1] (new_Client (demo_device (Some 7))).
Definition demo_announced : Client DemoDevice := run_events [CeAdded 1901] demo_client.
Definition demo_told : Client DemoDevice := run_events [CeRegister (Some 202) 18 1] demo_announced.

Lemma demo_client_reach : client_reach demo_client.
Proof.
  apply (cr_step (new_Client (demo_device (Some 7))) (CeRegister (Some 201) 18 1)); [|done|run_demo].
  apply cr_start; apply demo_device_ready.
Qed.

Lemma event_reaches_its_listeners_witness :
  rss_ demo_announced = Some 7 /\ default [] (listeners_of 18 1 (local demo_told)) = [201; 202]
  /\ exists s', deliver false (fun _ => None) 18 3 (JObject []) 1 demo_told = Some (tt, s')
    /\ c_trace s' = c_trace demo_told ++
       ((fun l => COnReceiveEvent l 18 3 (string_entries (J := json) (StringToJsonObj (json_dump (JObject [])))))
         <$> if decide ((18, 1) ∈ dv_refused (remote demo_told)) then [] else default [] (listeners_of 18 1 (local demo_told))).
Proof.
  split; [run_demo|]. split; [run_demo|].
  apply (event_reaches_its_listeners 32 false (fun _ => None) demo_client demo_announced demo_told 7);
    [apply demo_client_reach|run_demo|run_demo| |run_demo|run_demo|by unfold EVENT_START, EVENT_END|done|run_demo].
  apply (nd_step demo_announced (CeRegister (Some 202) 18 1) demo_told); [done|done|run_demo|apply nd_refl].
Defined.

Lemma kept_listeners_exist_witness :
  client_reach demo_announced /\ rr_keeps (remote demo_announced) 18 1
  /\ rss_ demo_announced = Some 7
  /\ exists l, listeners_of 18 1 (local demo_announced) = Some l /\ l <> [] /\ NoDup l.
Proof.
  assert (Hr : client_reach demo_announced)
    by (apply (cr_step demo_client (CeAdded 1901)); [apply demo_client_reach|done|run_demo]).
  assert (Hk : rr_keeps (remote demo_announced) 18 1)
    by (exists (mkEventListenerInfo 55 100 {[ 1 ]}); split; run_demo).
  split; [done|]. split; [done|]. apply (kept_listeners_exist demo_announced 7 18 1); [done|run_demo|done].
Defined.

Lemma announced_service_knows_all_witness :
  exists s1, OnAddSystemAbility RES_SCHED_SYS_ABILITY_ID demo_client = Some (tt, s1)
    /\ forall o s2, rss_ s1 = Some o -> no_death s1 s2 -> rss_ s2 = Some o -> rr_living (remote s2) = Some o ->
       forall t g, (rr_keeps (remote s2) t g <-> has_local s2 t g /\ ~ rr_refused (remote s2) t g)
                   /\ (has_local s2 t g <-> registered s2 t g).
Proof. apply announced_service_knows_all, demo_client_reach. Defined.

(** The order of two notices matters.  When the death of the old service is reported after
    the announcement of the new one, the announcement finds the old connection, the listeners
    are registered with the dead service, and the new one never learns of them. *)
Lemma late_death_loses_listeners :
  exists s : Client DemoDevice, client_reach (J := json) s /\ rss_ s = Some 8 /\ rr_living (remote s) = Some 8
    /\ has_local s 18 1 /\ ~ rr_keeps (remote s) 18 1.
Proof.
  set (s1 := run_events [CeWorld (demo_device None)] demo_announced).
  set (s2 := run_events [CeWorld (demo_device (Some 8))] s1).
  set (s3 := run_events [CeAdded 1901] s2). set (s4 := run_events [CeDied] s3).
  exists (run_events [CeGetLevel] s4). split.
  - apply (cr_step s4 CeGetLevel); [|done|run_demo].
    apply (cr_step s3 CeDied); [|by right|run_demo].
    apply (cr_step s2 (CeAdded 1901)); [|done|run_demo].
    apply (cr_step s1 (CeWorld (demo_device (Some 8)))); [| |run_demo].
    + apply (cr_step demo_announced (CeWorld (demo_device None))); [| |run_demo].
      * apply (cr_step demo_client (CeAdded 1901)); [apply demo_client_reach|done|run_demo].
      * split; [|by right; left]. apply demo_device_ready.
    + split; [apply demo_device_ready|]. right. right. split; [done|apply demo_device_ready].
  - split_and!; [run_demo|run_demo|eexists; run_demo|].
    by intros (info & Hi & _).
Qed.

(** A service that turns down the registration: the process takes its listener for registered, the
    service does not know it, and no event reaches it. *)
Definition demo_turned_down : Client DemoDevice :=
  run_events [CeAdded 1901; CeRegister (Some 201) 18 1] (new_Client (demo_busy 7)).

Lemma refused_listener_hears_nothing :
  client_reach demo_turned_down /\ listeners_of 18 1 (local demo_turned_down) = Some [201]
  /\ registered demo_turned_down 18 1 /\ rr_refused (remote demo_turned_down) 18 1
  /\ (c_trace <$> (snd <$> deliver false (fun _ => None) 18 3 (JObject []) 1 demo_turned_down)) = Some (c_trace demo_turned_down).
Proof.
  split_and!; [|run_demo..].
  apply (cr_step (run_events [CeAdded 1901] (new_Client (demo_busy 7))) (CeRegister (Some 201) 18 1)); [|done|run_demo].
  apply (cr_step (new_Client (demo_busy 7)) (CeAdded 1901)); [|done|run_demo].
  apply cr_start; by apply no_listeners_ready.
Qed.

Lemma kills_are_counted_witness :
  exists s', count_kills (W := DemoDevice) [(100, "x", true); (100, "x", true)] (new_KillEventListener (new_Client (demo_device (Some 7)))) = Some (tt, s')
    /\ Z.of_nat (size (killCountMap_ s')) <= MAX_CACHE_REASON_COUNT
    /\ (forall key n, killCountMap_ s' !! key = Some n -> n = to_u32 (occurrences key [(100, "x", true); (100, "x", true)]))
    /\ (forall k, k ∈ [(100, "x", true); (100, "x", true)] -> killCountMap_ s' !! key_of k = None ->
           Z.of_nat (size (killCountMap_ s')) = MAX_CACHE_REASON_COUNT).
Proof. by apply kills_are_counted. Defined.
