(* ===== verification/SchedReports.v ===== *)
(** * Reports of the scheduling controller

    The observers and the common events of [sched_controller] turn what other services tell
    into events of this one: what they call of [ResSchedMgr], and the constants of
    [res_type.h] and [res_value.h] in use only there. *)
From S2P Require Import Prelude Json ResType.

(** The event types of [res_type.h]. *)
Definition RES_TYPE_WIFI_P2P_STATE_CHANGED : Z := 64. (* res_type.h:159 *)
Definition RES_TYPE_OUTPUT_DEVICE_CHANGE : Z := 110. (* res_type.h:249 *)
Definition RES_TRPE_PIP_STATUS : Z := 135. (* res_type.h:297 *)
Definition RES_TYPE_AUDIO_SCENE_CHANGE : Z := 141. (* res_type.h:307 *)
Definition RES_TYPE_USER_NOT_CARE_CHARGE_SLEEP : Z := 169. (* res_type.h:361 *)
Definition RES_TYPE_PAGE_CHANGE : Z := 187. (* res_type.h:397 *)
Definition RES_TYPE_MEDIA_CTRL_EVENT : Z := 189. (* res_type.h:399 *)
Definition RES_TYPE_AUDIO_FOCUS_CHANGE_EVENT : Z := 193. (* res_type.h:407 *)
Definition RES_TYPE_OBSERVER_MANAGER_STATUS_CHANGE : Z := 194. (* res_type.h:409 *)
Definition RES_TYPE_DATA_CLONE_STATE : Z := 196. (* res_type.h:413 *)
Definition RES_TYPE_USER_UNLOCKED : Z := 205. (* res_type.h:427 *)
Definition RES_TYPE_BATTERY_LOW : Z := 215. (* res_type.h:447 *)

(** [enum AppInstallStatus] of [res_value.h]. *)
Definition APP_INSTALL_END : Z := 1. (* res_value.h:151 *)
Definition APP_CHANGED : Z := 2. (* res_value.h:152 *)
Definition APP_REPLACED : Z := 3. (* res_value.h:153 *)
Definition APP_FULLY_REMOVED : Z := 4. (* res_value.h:154 *)
Definition BUNDLE_REMOVED : Z := 5. (* res_value.h:155 *)
Definition APP_INSTALL_START : Z := 6. (* res_value.h:156 *)

(** [enum ScreenLockStatus] of [res_value.h]. *)
Definition SCREEN_UNLOCK : Z := 0. (* res_value.h:163 *)
Definition SCREEN_LOCK : Z := 1. (* res_value.h:164 *)

(** [enum WindowVisibilityStatus] of [res_value.h]. *)
Definition INVISIBLE : Z := 0. (* res_value.h:229 *)
Definition VISIBLE : Z := 1. (* res_value.h:230 *)

(** [enum ConnectionObserverStatus] of [res_value.h]. *)
Definition EXTENSION_CONNECTED : Z := 0. (* res_value.h:463 *)
Definition EXTENSION_DISCONNECTED : Z := 1. (* res_value.h:464 *)
Definition DLP_ABILITY_OPENED : Z := 2. (* res_value.h:465 *)
Definition DLP_ABILITY_CLOSED : Z := 3. (* res_value.h:466 *)
Definition EXTENSION_SUSPENDED : Z := 4. (* res_value.h:467 *)
Definition EXTENSION_RESUMED : Z := 5. (* res_value.h:468 *)

(** [enum ChargeStatus] of [res_value.h]. *)
Definition EVENT_CHARGING : Z := 0. (* res_value.h:476 *)
Definition EVENT_DISCHARGING : Z := 1. (* res_value.h:477 *)

(** [enum UsbDeviceStatus] of [res_value.h]. *)
Definition USB_DEVICE_ATTACHED : Z := 0. (* res_value.h:484 *)
Definition USB_DEVICE_DETACHED : Z := 1. (* res_value.h:485 *)
Definition USB_DEVICE_STATE : Z := 2. (* res_value.h:486 *)

(** [enum AvCodecState] of [res_value.h]. *)
Definition CODEC_STOP_INFO : Z := 1. (* res_value.h:494 *)

(** [enum KeyUploadOrDownloadStatus] of [res_value.h]. *)
Definition ENTER_UPLOAD_DOWNLOAD_SCENE : Z := 0. (* res_value.h:569 *)
Definition EXIT_UPLOAD_DOWNLOAD_SCENE : Z := 1. (* res_value.h:570 *)

(** [enum BootCompletedStatus] of [res_value.h]. *)
Definition START_BOOT_COMPLETED : Z := 0. (* res_value.h:679 *)

(** [enum ContinuousStartupStatus] of [res_value.h]. *)
Definition START_CONTINUOUS_STARTUP : Z := 0. (* res_value.h:687 *)
Definition STOP_CONTINUOUS_STARTUP : Z := 1. (* res_value.h:688 *)

(** [enum WifiConnectionState] of [res_value.h]. *)
Definition WIFI_STATE_SCAN : Z := 2. (* res_value.h:842 *)
Definition WIFI_STATE_CONNECTED : Z := 3. (* res_value.h:843 *)
Definition WIFI_STATE_DISCONNECTED : Z := 5. (* res_value.h:845 *)

(** [enum InnerAudioState] of [res_value.h]. *)
Definition AUDIO_STATE_RUNNING : Z := 0. (* res_value.h:922 *)
Definition AUDIO_STATE_STOP : Z := 1. (* res_value.h:923 *)

(** [enum AudioCaptureState] of [res_value.h]. *)
Definition AUDIO_CAPTURE_BEGIN : Z := 0. (* res_value.h:963 *)
Definition AUDIO_CAPTURE_END : Z := 1. (* res_value.h:964 *)
Definition AUDIO_CAPTURE_CHANGE : Z := 2. (* res_value.h:965 *)

(** [enum SystemAbilitySign] of [res_value.h]. *)
Definition ADD_SYSTEM_ABILITY : Z := 0. (* res_value.h:1004 *)
Definition REMOVE_SYSTEM_ABILITY : Z := 1. (* res_value.h:1005 *)

(** [enum DataCloneState] of [res_value.h]. *)
Definition CLONE_END : Z := 0. (* res_value.h:1012 *)
Definition NEW_DEVICE_CLONE_START : Z := 1. (* res_value.h:1013 *)
Definition OLD_DEVICE_CLONE_START : Z := 2. (* res_value.h:1014 *)

(** [enum NlServiceEvent] of [res_value.h]. *)
Definition NL_SWITCH_STATE : Z := 2. (* res_value.h:1065 *)

(** ** Payloads *)

(** Further conversions to JSON: from a truth value, an unsigned number and an array. *)
Class JsonMore (J : Type) := {
  json_of_bool : bool -> J;
  json_of_unsigned : Z -> J;
  json_of_array : list J -> J;
}.

#[export] Instance json_more : JsonMore json := {|
  json_of_bool := JBool;
  json_of_unsigned := JUnsigned;
  json_of_array := JArray;
|}.

(** ** Calls *)

(** [ReportData] and [ReportDataInProcess], the states of applications and processes that
    are told to the managers, and the callback of the data share. *)
Inductive RCall (J : Type) :=
  | RReport (resType value : Z) (payload : J)
  | RReportInProcess (resType value : Z) (payload : J)
  | RAppState (state pid : Z)
  | RProcessState (state pid : Z)
  | RDataShareReady.
Arguments RReport {_}.
Arguments RReportInProcess {_}.
Arguments RAppState {_}.
Arguments RProcessState {_}.
Arguments RDataShareReady {_}.

(** The state of an observer with the calls that were made so far. *)
Record With (S J : Type) := mkWith { own : S; calls : list (RCall J) }.
Arguments mkWith {_ _}.
Arguments own {_ _}.
Arguments calls {_ _}.
#[export] Instance With_eta S J : Eta (With S J) := fun s => mkWith (own s) (calls s).

Section reports.
Context {J S : Type} `{!Json J} `{!JsonMore J}.

Definition r_call (c : RCall J) : ST (With S J) unit := st_modify (fun s => s <| calls ::= fun l => l ++ [c] |>).
Definition r_report (resType value : Z) (payload : J) : ST (With S J) unit := r_call (RReport resType value payload).
Definition r_get : ST (With S J) S := fun s => Some (own s, s).
Definition r_upd (f : S -> S) : ST (With S J) unit := st_modify (fun s => s <| own ::= f |>).

(** Fields that are set one after the other, on a payload and on a value that was null. *)
Definition set_fields (l : list (string * J)) (payload : J) : J := foldl (fun j p => json_set p.1 p.2 j) payload l.
Definition fields (l : list (string * J)) : J := set_fields l json_null.
(** [std::to_string] as a field. *)
Definition num (z : Z) : J := json_of_string (to_string z).
Definition text (s : string) : J := json_of_string s.
End reports.

(** A part of a larger observer. *)
Definition in_own {J S T A} (part : T -> S) (set : S -> T -> T) (m : ST (With S J) A) : ST (With T J) A := fun s =>
  match m (mkWith (part (own s)) (calls s)) with
  | Some (a, s') => Some (a, mkWith (set (own s') (own s)) (calls s'))
  | None => None
  end.
