(* ===== verification/EventController.v ===== *)
(** * Common events

    [event_controller.cpp]: four subscribers receive the common events of the system and
    report them.  The names of the events and the event service belong to other
    repositories. *)
From S2P Require Import Prelude Json ResType CommonUtil ServiceWorld SchedReports.

(** ** The outside *)

(** The names of [CommonEventSupport]. *)
Class CommonEventSupport := {
  COMMON_EVENT_CONNECTIVITY_CHANGE : string;
  COMMON_EVENT_PACKAGE_INSTALLATION_STARTED : string;
  COMMON_EVENT_PACKAGE_ADDED : string;
  COMMON_EVENT_PACKAGE_REMOVED : string;
  COMMON_EVENT_PACKAGE_CHANGED : string;
  COMMON_EVENT_PACKAGE_REPLACED : string;
  COMMON_EVENT_SCREEN_ON : string;
  COMMON_EVENT_SCREEN_OFF : string;
  COMMON_EVENT_USER_SWITCHED : string;
  COMMON_EVENT_USER_REMOVED : string;
  COMMON_EVENT_TIMEZONE_CHANGED : string;
  COMMON_EVENT_BUNDLE_REMOVED : string;
  COMMON_EVENT_PACKAGE_FULLY_REMOVED : string;
  COMMON_EVENT_TIME_CHANGED : string;
  COMMON_EVENT_NITZ_TIME_CHANGED : string;
  COMMON_EVENT_NITZ_TIMEZONE_CHANGED : string;
  COMMON_EVENT_CHARGING : string;
  COMMON_EVENT_USB_DEVICE_ATTACHED : string;
  COMMON_EVENT_DISCHARGING : string;
  COMMON_EVENT_USB_DEVICE_DETACHED : string;
  COMMON_EVENT_USB_STATE : string;
  COMMON_EVENT_CALL_STATE_CHANGED : string;
  COMMON_EVENT_WIFI_P2P_STATE_CHANGED : string;
  COMMON_EVENT_POWER_SAVE_MODE_CHANGED : string;
  COMMON_EVENT_BOOT_COMPLETED : string;
  COMMON_EVENT_POWER_CONNECTED : string;
  COMMON_EVENT_POWER_DISCONNECTED : string;
  COMMON_EVENT_WIFI_POWER_STATE : string;
  COMMON_EVENT_USER_UNLOCKED : string;
  COMMON_EVENT_BATTERY_CHANGED : string;
  COMMON_EVENT_BATTERY_LOW : string;
  COMMON_EVENT_BATTERY_OKAY : string;
  (** [Constants::UID] and [Constants::USER_ID] of the application framework. *)
  CONSTANTS_UID : string;
  CONSTANTS_USER_ID : string;
}.

(** The system: its ability manager, the id and the answers of the event service, and the
    bundle manager with the uid of an application. *)
Class EventHost (K : Type) := {
  COMMON_EVENT_SERVICE_ID : Z;
  ev_GetSystemAbilityManager : K -> bool;
  ev_SubscribeSystemAbility : Z -> K -> Z;
  ev_GetBundleMgrObject : K -> bool;
  ev_GetBundleMgr : K -> bool;
  ev_GetApplicationUid : string -> Z -> K -> Z;
}.

(** A common event: its code, and the action, element and parameters of its want. *)
Record CommonEventData := mkCommonEventData {
  code : Z;
  action : string;
  element_bundle : string;
  want_ints : string -> option Z;
  want_strings : string -> option string;
  want_bools : string -> option bool;
}.
Definition GetIntParam (w : CommonEventData) (key : string) (d : Z) : Z := default d (want_ints w key).
Definition GetStringParam (w : CommonEventData) (key : string) : string := default "" (want_strings w key).
Definition GetBoolParam (w : CommonEventData) (key : string) (d : bool) : bool := default d (want_bools w key).

Definition COMMON_EVENT_MEDIA_CTRL_EVENT : string := "usual.event.MEDIA_CTRL_EVENT". (* event_controller.cpp:41 *)
Definition COMMON_EVENT_CAMERA_STATUS : string := "usual.event.CAMERA_STATUS". (* event_controller.cpp:42 *)
Definition COMMON_EVENT_CLONE : string := "usual.event.clone.PerformanceCloneState". (* event_controller.cpp:43 *)
Definition COMMON_EVENT_GAME_STATUS : string := "usual.event.gameservice.GAME_STATUS_CHANGE_UNI". (* event_controller.cpp:44 *)
Definition DATA_SHARE_READY : string := "usual.event.DATA_SHARE_READY". (* event_controller.cpp:45 *)
Definition CONFIG_UPDATED_ACTION : string := "usual.event.DUE_SA_CFG_UPDATED". (* event_controller.cpp:46 *)
Definition DEVICE_MODE_PAYMODE_NAME : string := "deviceMode". (* event_controller.cpp:47 *)
Definition EventController_DEVICE_MODE_TYPE_KEY : string := "deviceModeType".
Definition SCENE_BOARD_NAME : string := "com.ohos.sceneboard". (* event_controller.cpp:49 *)
Definition CAMERA_STATE : string := "cameraState". (* event_controller.cpp:50 *)
Definition CAMERA_TYPE : string := "cameraType". (* event_controller.cpp:51 *)
Definition IS_SYSTEM_CAMERA : string := "isSystemCamera". (* event_controller.cpp:52 *)
Definition GAME_UID : string := "uid". (* event_controller.cpp:53 *)
Definition GAME_STATUS : string := "type". (* event_controller.cpp:54 *)
Definition GAME_ENV : string := "env". (* event_controller.cpp:55 *)
Definition PID : string := "pid". (* event_controller.cpp:56 *)
Definition COMMON_EVENT_CAPACITY : string := "soc". (* event_controller.cpp:57 *)
Definition COMMON_EVENT_CHARGE_STATE : string := "chargeState". (* event_controller.cpp:58 *)
Definition EVENT_INFO_TYPE : string := "type". (* event_controller.cpp:59 *)
Definition EVENT_INFO_SUBTYPE : string := "subtype". (* event_controller.cpp:60 *)
Definition COMMON_EVENT_USER_SLEEP_STATE_CHANGED : string := "common.event.USER_NOT_CARE_CHARGE_SLEEP". (* event_controller.cpp:61 *)
Definition COMMON_EVENT_AUDIO_FOCUS_CHANGE : string := "usual.event.AUDIO_FOCUS_CHANGE_EVENT". (* event_controller.cpp:62 *)
Definition COMMON_EVENT_CLONE_STATE : string := "usual.event.clone.CommonEventCloneState". (* event_controller.cpp:63 *)
Definition CLONE_STATE : string := "cloneState". (* event_controller.cpp:65 *)
Definition BACKUP_PERMISSION : string := "ohos.permission.BACKUP". (* event_controller.cpp:66 *)
Definition STREAM_ID : string := "streamId". (* event_controller.cpp:67 *)
Definition COMMON_EVENT_NEARLINK_HOST_STATE_UPDATE : string := "usual.event.nearlink.host.STATE_UPDATE". (* event_controller.cpp:68 *)
Definition INTERRUPT_HINT_NONE : Z := 0. (* event_controller.h:29 *)
Definition INTERRUPT_HINT_EXIT_STANDALONE : Z := 8. (* event_controller.h:37 *)

(** ** State *)

(** [CommonEventSubscribeInfo]: the events, and who may publish them. *)
Record SubscribeInfo := mkSubscribeInfo {
  events : list string;
  publisherBundleName : option string;
  permission : option string;
  publisherUid : option Z;
}.

(** event_controller.h:53-55 [resType_] a subscriber: what it reported last *)
Record Subscriber (J : Type) := mkSubscriber {
  sub_info : SubscribeInfo;
  resType_ : Z;
  value_ : Z;
  payload_ : J;
}.
Arguments mkSubscriber {_}.
Arguments sub_info {_}.
Arguments resType_ {_}.
Arguments value_ {_}.
Arguments payload_ {_}.
#[export] Instance Subscriber_eta J : Eta (Subscriber J) := fun s =>
  mkSubscriber (sub_info s) (resType_ s) (value_ s) (payload_ s).

(** event_controller.h:70-73 [mediaCtrlSubscriber_] the members of the listener, with the
    subscriptions at the event service *)
Record EventListener (J : Type) := mkEventListener {
  subscriber_ : option (Subscriber J);
  lockScreenSubscriber_ : option (Subscriber J);
  cloneStateSubscriber_ : option (Subscriber J);
  mediaCtrlSubscriber_ : option (Subscriber J);
}.
Arguments mkEventListener {_}.
Arguments subscriber_ {_}.
Arguments lockScreenSubscriber_ {_}.
Arguments cloneStateSubscriber_ {_}.
Arguments mediaCtrlSubscriber_ {_}.
#[export] Instance EventListener_eta J : Eta (EventListener J) := fun s =>
  mkEventListener (subscriber_ s) (lockScreenSubscriber_ s) (cloneStateSubscriber_ s) (mediaCtrlSubscriber_ s).

(** What the controller asks of the event service. *)
Inductive EvCall :=
  | EvSubscribe (info : SubscribeInfo)
  | EvUnSubscribe (info : SubscribeInfo)
  | EvUnSubscribeSystemAbility (id : Z).

(** The singleton: its listener, and the calls of the event service. *)
Record EventController (J : Type) := mkEventController {
  sysAbilityListener_ : option (EventListener J);
  ev_calls : list EvCall;
}.
Arguments mkEventController {_}.
Arguments sysAbilityListener_ {_}.
Arguments ev_calls {_}.
#[export] Instance EventController_eta J : Eta (EventController J) := fun s =>
  mkEventController (sysAbilityListener_ s) (ev_calls s).

Definition no_subscribers {J} : EventListener J := mkEventListener None None None None.
Definition new_EventController {J} : EventController J := mkEventController None [].

(** ** Receiving events *)
Section receive.
Context {J K : Type} `{!Json J} `{!JsonText J} `{!JsonMore J} `{!CommonEventSupport} `{!EventHost K}.
#[local] Abbreviation M := (ST (With (Subscriber J) J)).

(** event_controller.cpp:170-176 [EventController::ReportDataInProcess] *)
Definition Event_ReportDataInProcess (resType value : Z) (payload : J) : M unit :=
  r_report resType value payload;;
  r_upd (fun s => s <| resType_ := resType |> <| value_ := value |> <| payload_ := payload |>).

(** event_controller.cpp:109-120 [EventController::HandlePkgAddRemove] *)
Definition HandlePkgAddRemove (w : CommonEventData) (payload : J) : J :=
  set_fields
    [("bundleName", text (element_bundle w)); ("uid", json_of_int (GetIntParam w CONSTANTS_UID (-1)));
     ("userId", json_of_int (GetIntParam w CONSTANTS_USER_ID (-1)));
     ("appIndex", json_of_int (GetIntParam w "appIndex" (-1)))] payload.

(** event_controller.cpp:122-158 [EventController::GetUid] *)
Definition GetUid (userId : Z) (bundleName : string) (k : K) : Z :=
  if negb (ev_GetSystemAbilityManager k) then -1
  else if negb (ev_GetBundleMgrObject k) then -1
  else if negb (ev_GetBundleMgr k) then -1
  else to_s32 (ev_GetApplicationUid bundleName userId k).

(** event_controller.cpp:160-168 [EventController::HandleConnectivityChange] *)
Definition HandleConnectivityChange (w : CommonEventData) (c : Z) (payload : J) : M unit :=
  ret_if negb (GetIntParam w "NetType" (-1) =? 1);
  Event_ReportDataInProcess RES_TYPE_WIFI_CONNECT_STATE_CHANGE c payload.

(** event_controller.cpp:193-197 [EventController::DataShareIsReady] *)
Definition DataShareIsReady : M unit := r_call RDataShareReady.

(** event_controller.cpp:590-632 [EventController::HandlePkgCommonEvent] *)
Definition HandlePkgCommonEvent (w : CommonEventData) (payload : J) : M bool :=
  let report value :=
    Event_ReportDataInProcess RES_TYPE_APP_INSTALL_UNINSTALL value (HandlePkgAddRemove w payload);; mret true in
  let on name := bool_decide (action w = name) in
  if on COMMON_EVENT_PACKAGE_REMOVED then report APP_UNINSTALL
  else if on COMMON_EVENT_PACKAGE_INSTALLATION_STARTED then report APP_INSTALL_START
  else if on COMMON_EVENT_PACKAGE_ADDED then report APP_INSTALL_END
  else if on COMMON_EVENT_PACKAGE_CHANGED then report APP_CHANGED
  else if on COMMON_EVENT_PACKAGE_REPLACED then report APP_REPLACED
  else if on COMMON_EVENT_PACKAGE_FULLY_REMOVED then report APP_FULLY_REMOVED
  else if on COMMON_EVENT_BUNDLE_REMOVED then report BUNDLE_REMOVED
  else mret false.

(** event_controller.cpp:523-544 [EventController::HandleMediaCtrlEvent] *)
Definition HandleMediaCtrlEvent (w : CommonEventData) : M unit :=
  ret_if negb (bool_decide (GetStringParam w "cmd" = "OnPlay"));
  Event_ReportDataInProcess RES_TYPE_MEDIA_CTRL_EVENT 0
    (set_fields
      [(GAME_UID, json_of_int (GetIntParam w GAME_UID (-1))); (PID, json_of_int (GetIntParam w PID (-1)))] json_object).

(** event_controller.cpp:546-568 [EventController::HandleAudioFocusChangeEvent] *)
Definition HandleAudioFocusChangeEvent (w : CommonEventData) : M unit :=
  let hintType := GetIntParam w "hintType" (-1) in
  ret_if negb ((hintType >=? INTERRUPT_HINT_NONE) && (hintType <=? INTERRUPT_HINT_EXIT_STANDALONE));
  Event_ReportDataInProcess RES_TYPE_AUDIO_FOCUS_CHANGE_EVENT 0
    (set_fields
      [(GAME_UID, json_of_int (GetIntParam w "uid" (-1))); (STREAM_ID, json_of_int (GetIntParam w STREAM_ID (-1)))]
      json_object).

(** event_controller.cpp:570-588 [EventController::HandleCloneStateEvent] *)
Definition HandleCloneStateEvent (w : CommonEventData) (payload : J) : M unit :=
  let cloneState := GetIntParam w CLONE_STATE (-1) in
  st_when ((cloneState =? CLONE_END) || (cloneState =? NEW_DEVICE_CLONE_START) || (cloneState =? OLD_DEVICE_CLONE_START))
    (Event_ReportDataInProcess RES_TYPE_DATA_CLONE_STATE cloneState payload).

(** event_controller.cpp:463-469 [EventController::handleNearlinkEvent] *)
Definition handleNearlinkEvent (c : Z) (payload : J) : M unit :=
  Event_ReportDataInProcess RES_TYPE_NEARLINK_SERVICE_EVENT NL_SWITCH_STATE (json_set "ACTION" (num c) payload).

(** event_controller.cpp:471-521 [EventController::handleLeftEvent] *)
Definition handleLeftEvent (userId : Z) (payload : J) (w : CommonEventData) : M unit :=
  let on name := bool_decide (action w = name) in
  if on COMMON_EVENT_USER_SLEEP_STATE_CHANGED then
    Event_ReportDataInProcess RES_TYPE_USER_NOT_CARE_CHARGE_SLEEP (Z.b2z (GetBoolParam w "isSleep" false)) payload
  else if on COMMON_EVENT_BATTERY_CHANGED then
    Event_ReportDataInProcess RES_TYPE_REPORT_BATTERY_STATUS_CHANGE (GetIntParam w COMMON_EVENT_CAPACITY (-1))
      (json_set COMMON_EVENT_CHARGE_STATE (json_of_int (GetIntParam w COMMON_EVENT_CHARGE_STATE (-1))) payload)
  else if on COMMON_EVENT_BATTERY_LOW then Event_ReportDataInProcess RES_TYPE_BATTERY_LOW 1 payload
  else if on COMMON_EVENT_BATTERY_OKAY then Event_ReportDataInProcess RES_TYPE_BATTERY_LOW 0 payload
  else if on COMMON_EVENT_MEDIA_CTRL_EVENT then HandleMediaCtrlEvent w
  else if on COMMON_EVENT_AUDIO_FOCUS_CHANGE then HandleAudioFocusChangeEvent w
  else if on COMMON_EVENT_CLONE then
    Event_ReportDataInProcess RES_TYPE_OOBE_CLONE (GetIntParam w "cloneState" (-1)) payload
  else if on COMMON_EVENT_USB_STATE then
    Event_ReportDataInProcess RES_TYPE_USB_DEVICE USB_DEVICE_STATE
      (set_fields [("connected", json_of_bool (GetBoolParam w "connected" false));
                   ("hdc", json_of_bool (GetBoolParam w "hdc" false))] payload)
  else if on COMMON_EVENT_CLONE_STATE then HandleCloneStateEvent w payload
  else if on COMMON_EVENT_NEARLINK_HOST_STATE_UPDATE then handleNearlinkEvent userId payload
  else mret tt.

(** The payload of a change of the power supply. *)
Definition power_payload (state : string) (payload : J) : J :=
  set_fields [(EventController_DEVICE_MODE_TYPE_KEY, text "powerConnectStatus");
              (DEVICE_MODE_PAYMODE_NAME, text state)] payload.

(** event_controller.cpp:411-461 [EventController::handleOtherEvent] *)
Definition handleOtherEvent (userId : Z) (payload : J) (w : CommonEventData) : M unit :=
  let on name := bool_decide (action w = name) in
  if on COMMON_EVENT_BOOT_COMPLETED then
    Event_ReportDataInProcess RES_TYPE_BOOT_COMPLETED START_BOOT_COMPLETED payload
  else if on COMMON_EVENT_POWER_CONNECTED then
    Event_ReportDataInProcess RES_TYPE_DEVICE_MODE_STATUS MODE_ENTER (power_payload "powerConnected" payload)
  else if on COMMON_EVENT_POWER_DISCONNECTED then
    Event_ReportDataInProcess RES_TYPE_DEVICE_MODE_STATUS MODE_ENTER (power_payload "powerDisConnected" payload)
  else if on COMMON_EVENT_CAMERA_STATUS then
    Event_ReportDataInProcess RES_TYPE_REPORT_CAMERA_STATE (GetIntParam w CAMERA_STATE 1)
      (json_set CAMERA_TYPE (json_of_int (GetIntParam w IS_SYSTEM_CAMERA 0)) payload)
  else if on COMMON_EVENT_GAME_STATUS then
    Event_ReportDataInProcess RES_TYPE_REPORT_GAME_STATE_CHANGE (GetIntParam w GAME_STATUS (-1))
      (set_fields [(GAME_UID, json_of_int (GetIntParam w GAME_UID (-1)));
                   (GAME_ENV, json_of_int (GetIntParam w GAME_ENV (-1)))] payload)
  else if on CONFIG_UPDATED_ACTION then
    Event_ReportDataInProcess RES_TYPE_PARAM_UPDATE_EVENT userId
      (set_fields [("type", text (GetStringParam w EVENT_INFO_TYPE));
                   ("subtype", text (GetStringParam w EVENT_INFO_SUBTYPE))] payload)
  else if on COMMON_EVENT_USER_UNLOCKED then
    Event_ReportDataInProcess RES_TYPE_USER_UNLOCKED (GetIntParam w GAME_STATUS (-1)) payload
  else handleLeftEvent userId payload w.

(** event_controller.cpp:361-409 [EventController::handleEvent] *)
Definition handleEvent (userId : Z) (payload : J) (w : CommonEventData) : M unit :=
  let on name := bool_decide (action w = name) in
  if on COMMON_EVENT_TIMEZONE_CHANGED then
    Event_ReportDataInProcess RES_TYPE_TIMEZONE_CHANGED RES_TYPE_TIMEZONE_CHANGED payload
  else if on COMMON_EVENT_TIME_CHANGED then Event_ReportDataInProcess RES_TYPE_TIME_CHANGED userId payload
  else if on COMMON_EVENT_NITZ_TIME_CHANGED then Event_ReportDataInProcess RES_TYPE_NITZ_TIME_CHANGED userId payload
  else if on COMMON_EVENT_NITZ_TIMEZONE_CHANGED then
    Event_ReportDataInProcess RES_TYPE_NITZ_TIMEZONE_CHANGED userId payload
  else if on COMMON_EVENT_CHARGING then
    Event_ReportDataInProcess RES_TYPE_CHARGING_DISCHARGING EVENT_CHARGING payload
  else if on COMMON_EVENT_DISCHARGING then
    Event_ReportDataInProcess RES_TYPE_CHARGING_DISCHARGING EVENT_DISCHARGING payload
  else if on COMMON_EVENT_USB_DEVICE_ATTACHED then
    Event_ReportDataInProcess RES_TYPE_USB_DEVICE USB_DEVICE_ATTACHED payload
  else if on COMMON_EVENT_USB_DEVICE_DETACHED then
    Event_ReportDataInProcess RES_TYPE_USB_DEVICE USB_DEVICE_DETACHED payload
  else if on COMMON_EVENT_WIFI_P2P_STATE_CHANGED then
    Event_ReportDataInProcess RES_TYPE_WIFI_P2P_STATE_CHANGED userId payload
  else if on COMMON_EVENT_POWER_SAVE_MODE_CHANGED then
    Event_ReportDataInProcess RES_TYPE_POWER_MODE_CHANGED userId payload
  else if on COMMON_EVENT_WIFI_POWER_STATE then
    Event_ReportDataInProcess RES_TYPE_WIFI_POWER_STATE_CHANGE userId (json_set "state" (num userId) payload)
  else handleOtherEvent userId payload w.

(** event_controller.cpp:307-359 [EventController::OnReceiveEvent] *)
Definition Event_OnReceiveEvent (w : CommonEventData) : M unit :=
  let payload : J := json_object in
  let on name := bool_decide (action w = name) in
  handled ← HandlePkgCommonEvent w payload;
  ret_if (handled : bool);
  if on COMMON_EVENT_SCREEN_ON then Event_ReportDataInProcess RES_TYPE_SCREEN_STATUS SCREEN_ON payload
  else if on COMMON_EVENT_SCREEN_OFF then Event_ReportDataInProcess RES_TYPE_SCREEN_STATUS SCREEN_OFF payload
  else if on COMMON_EVENT_CONNECTIVITY_CHANGE then HandleConnectivityChange w (code w) payload
  else if on COMMON_EVENT_USER_SWITCHED then Event_ReportDataInProcess RES_TYPE_USER_SWITCH (code w) payload
  else if on COMMON_EVENT_USER_REMOVED then Event_ReportDataInProcess RES_TYPE_USER_REMOVE (code w) payload
  else if on "common.event.UNLOCK_SCREEN" then
    Event_ReportDataInProcess RES_TYPE_SCREEN_LOCK SCREEN_UNLOCK payload
  else if on "common.event.LOCK_SCREEN" then Event_ReportDataInProcess RES_TYPE_SCREEN_LOCK SCREEN_LOCK payload
  else if on COMMON_EVENT_CALL_STATE_CHANGED then
    Event_ReportDataInProcess RES_TYPE_CALL_STATE_CHANGED (code w)
      (json_set "state" (json_of_int (GetIntParam w "state" (-1))) payload)
  else if on DATA_SHARE_READY then DataShareIsReady
  else handleEvent (code w) payload w.
End receive.

(** ** Subscribing *)
Section subscribe.
Context {J K : Type} `{!Json J} `{!JsonText J} `{!JsonMore J} `{!CommonEventSupport} `{!EventHost K}.
#[local] Abbreviation M := (ST (EventController J)).

Definition ev_record (c : EvCall) : M unit := st_modify (fun s => s <| ev_calls ::= fun l => l ++ [c] |>).

(** event_controller.cpp:212-218 [AddBatteryCommonEvent] *)
Definition AddBatteryCommonEvent (matchingSkills : list string) : list string :=
  matchingSkills ++ [COMMON_EVENT_BATTERY_CHANGED; COMMON_EVENT_BATTERY_LOW; COMMON_EVENT_BATTERY_OKAY].

(** A subscriber that has reported nothing. *)
Definition new_subscriber (info : SubscribeInfo) : Subscriber J := mkSubscriber info 0 0 json_null.

(** The infos of the four subscribers. *)
Definition main_info : SubscribeInfo := mkSubscribeInfo (AddBatteryCommonEvent
  [COMMON_EVENT_CONNECTIVITY_CHANGE; COMMON_EVENT_PACKAGE_INSTALLATION_STARTED; COMMON_EVENT_PACKAGE_ADDED;
   COMMON_EVENT_PACKAGE_REMOVED; COMMON_EVENT_PACKAGE_CHANGED; COMMON_EVENT_PACKAGE_REPLACED;
   COMMON_EVENT_SCREEN_ON; COMMON_EVENT_SCREEN_OFF; COMMON_EVENT_USER_SWITCHED; COMMON_EVENT_USER_REMOVED;
   COMMON_EVENT_TIMEZONE_CHANGED; COMMON_EVENT_BUNDLE_REMOVED; COMMON_EVENT_PACKAGE_FULLY_REMOVED;
   COMMON_EVENT_TIME_CHANGED; COMMON_EVENT_NITZ_TIME_CHANGED; COMMON_EVENT_NITZ_TIMEZONE_CHANGED;
   COMMON_EVENT_CHARGING; COMMON_EVENT_USB_DEVICE_ATTACHED; COMMON_EVENT_DISCHARGING;
   COMMON_EVENT_USB_DEVICE_DETACHED; COMMON_EVENT_USB_STATE; COMMON_EVENT_CALL_STATE_CHANGED;
   COMMON_EVENT_WIFI_P2P_STATE_CHANGED; COMMON_EVENT_POWER_SAVE_MODE_CHANGED; COMMON_EVENT_BOOT_COMPLETED;
   COMMON_EVENT_POWER_CONNECTED; COMMON_EVENT_POWER_DISCONNECTED; COMMON_EVENT_WIFI_POWER_STATE;
   COMMON_EVENT_USER_UNLOCKED; DATA_SHARE_READY; COMMON_EVENT_CAMERA_STATUS; COMMON_EVENT_CLONE;
   COMMON_EVENT_GAME_STATUS; CONFIG_UPDATED_ACTION; COMMON_EVENT_USER_SLEEP_STATE_CHANGED;
   COMMON_EVENT_AUDIO_FOCUS_CHANGE; COMMON_EVENT_NEARLINK_HOST_STATE_UPDATE]) None None None.
Definition lock_info : SubscribeInfo :=
  mkSubscribeInfo ["common.event.UNLOCK_SCREEN"; "common.event.LOCK_SCREEN"] (Some SCENE_BOARD_NAME) None None.
Definition clone_info : SubscribeInfo := mkSubscribeInfo [COMMON_EVENT_CLONE_STATE] None (Some BACKUP_PERMISSION) None.
Definition media_info : SubscribeInfo := mkSubscribeInfo [COMMON_EVENT_MEDIA_CTRL_EVENT] None None (Some 6700).

Definition upd_listener (f : EventListener J -> EventListener J) : M unit :=
  st_modify (fun s => s <| sysAbilityListener_ ::= fmap f |>).

(** event_controller.cpp:199-210 [SubscribeCommonEvent] *)
Definition SubscribeCommonEvent (info : SubscribeInfo) : M unit := ev_record (EvSubscribe info).

(** event_controller.cpp:272-281 [SubscribeLockScreenCommonEvent] *)
Definition SubscribeLockScreenCommonEvent : M unit :=
  upd_listener (fun l => l <| lockScreenSubscriber_ := Some (new_subscriber lock_info) |>);;
  SubscribeCommonEvent lock_info.

(** event_controller.cpp:283-293 [SubscribeCloneStateCommonEvent] *)
Definition SubscribeCloneStateCommonEvent : M unit :=
  upd_listener (fun l => l <| cloneStateSubscriber_ := Some (new_subscriber clone_info) |>);;
  SubscribeCommonEvent clone_info.

(** event_controller.cpp:295-305 [SubscribeMediaCtrlCommonEvent] *)
Definition SubscribeMediaCtrlCommonEvent : M unit :=
  upd_listener (fun l => l <| mediaCtrlSubscriber_ := Some (new_subscriber media_info) |>);;
  SubscribeCommonEvent media_info.

(** event_controller.cpp:220-270 [OnAddSystemAbility] *)
Definition Event_OnAddSystemAbility (systemAbilityId : Z) : M unit :=
  upd_listener (fun l => l <| subscriber_ := Some (new_subscriber main_info) |>);;
  SubscribeCommonEvent main_info;;
  SubscribeLockScreenCommonEvent;;
  SubscribeCloneStateCommonEvent;;
  SubscribeMediaCtrlCommonEvent.

(** event_controller.cpp:634-647 [OnRemoveSystemAbility] *)
Definition Event_OnRemoveSystemAbility (systemAbilityId : Z) : M unit := upd_listener (fun _ => no_subscribers).

(** A subscriber is taken back. *)
Definition drop_subscriber (get : EventListener J -> option (Subscriber J))
    (clear : EventListener J -> EventListener J) : M unit :=
  s ← st_get;
  sub <-? sysAbilityListener_ s ≫= get;
  ev_record (EvUnSubscribe (sub_info sub));; upd_listener clear.

(** event_controller.cpp:649-669 [SystemAbilityStatusChangeListener::Stop] *)
Definition EventListener_Stop : M unit :=
  drop_subscriber subscriber_ (fun l => l <| subscriber_ := None |>);;
  drop_subscriber lockScreenSubscriber_ (fun l => l <| lockScreenSubscriber_ := None |>);;
  drop_subscriber cloneStateSubscriber_ (fun l => l <| cloneStateSubscriber_ := None |>);;
  drop_subscriber mediaCtrlSubscriber_ (fun l => l <| mediaCtrlSubscriber_ := None |>).

(** event_controller.cpp:70-107 [EventController::Init] *)
Definition EventController_Init (k : K) : M unit :=
  s ← st_get;
  ret_if bool_decide (is_Some (sysAbilityListener_ s));
  ret_if negb (ev_GetSystemAbilityManager k);
  st_when (ev_SubscribeSystemAbility COMMON_EVENT_SERVICE_ID k =? ERR_OK)
    (st_modify (fun s => s <| sysAbilityListener_ := Some no_subscribers |>)).

(** event_controller.cpp:178-191 [EventController::Stop] *)
Definition EventController_Stop (k : K) : M unit :=
  s ← st_get;
  ret_if negb (bool_decide (is_Some (sysAbilityListener_ s)));
  EventListener_Stop;;
  st_when (ev_GetSystemAbilityManager k) (ev_record (EvUnSubscribeSystemAbility COMMON_EVENT_SERVICE_ID));;
  st_modify (fun s => s <| sysAbilityListener_ := None |>).
End subscribe.
