(* ===== verification/EventFacts.v ===== *)
(** * Facts about the common events

    Every event that is subscribed has its report. *)
From S2P Require Import Prelude Json ResType CommonUtil ServiceWorld SchedReports ServiceDemo EventController.

Section facts.
Context {J : Type} `{!Json J} `{!JsonText J} `{!JsonMore J} `{!CommonEventSupport}.
Implicit Types w : CommonEventData.

(** The events that the four subscribers receive. *)
Definition subscribed_names : list string :=
  events main_info ++ events lock_info ++ events clone_info ++ events media_info.

(** What the plugins are told of an event that carries what it must. *)
#[local] Abbreviation Row := (string * (CommonEventData -> option (RCall J)))%type.
Definition tell (t v : Z) (p : J) : option (RCall J) := Some (RReport t v p).
Definition always (t v : Z) : CommonEventData -> option (RCall J) := fun _ => tell t v json_object.
Definition package (v : Z) : CommonEventData -> option (RCall J) := fun w =>
  tell RES_TYPE_APP_INSTALL_UNINSTALL v (HandlePkgAddRemove w json_object).
Definition ints (l : list (string * (string * Z))) w : J :=
  set_fields ((fun f => (f.1, json_of_int (GetIntParam w f.2.1 f.2.2))) <$> l) json_object.
Definition texts (l : list (string * string)) : J := set_fields ((fun f => (f.1, text f.2)) <$> l) json_object.

(** The reports by the names of the events, in the order of the tests of the code; one event is
    no report but a callback. *)
Definition pkg_rows : list Row :=
  [(COMMON_EVENT_PACKAGE_REMOVED, package APP_UNINSTALL);
   (COMMON_EVENT_PACKAGE_INSTALLATION_STARTED, package APP_INSTALL_START);
   (COMMON_EVENT_PACKAGE_ADDED, package APP_INSTALL_END);
   (COMMON_EVENT_PACKAGE_CHANGED, package APP_CHANGED);
   (COMMON_EVENT_PACKAGE_REPLACED, package APP_REPLACED);
   (COMMON_EVENT_PACKAGE_FULLY_REMOVED, package APP_FULLY_REMOVED);
   (COMMON_EVENT_BUNDLE_REMOVED, package BUNDLE_REMOVED)].
Definition receive_rows : list Row :=
  [(COMMON_EVENT_SCREEN_ON, always RES_TYPE_SCREEN_STATUS SCREEN_ON);
   (COMMON_EVENT_SCREEN_OFF, always RES_TYPE_SCREEN_STATUS SCREEN_OFF);
   (COMMON_EVENT_CONNECTIVITY_CHANGE, fun w =>
      if GetIntParam w "NetType" (-1) =? 1 then tell RES_TYPE_WIFI_CONNECT_STATE_CHANGE (code w) json_object else None);
   (COMMON_EVENT_USER_SWITCHED, fun w => tell RES_TYPE_USER_SWITCH (code w) json_object);
   (COMMON_EVENT_USER_REMOVED, fun w => tell RES_TYPE_USER_REMOVE (code w) json_object);
   ("common.event.UNLOCK_SCREEN", always RES_TYPE_SCREEN_LOCK SCREEN_UNLOCK);
   ("common.event.LOCK_SCREEN", always RES_TYPE_SCREEN_LOCK SCREEN_LOCK);
   (COMMON_EVENT_CALL_STATE_CHANGED, fun w => tell RES_TYPE_CALL_STATE_CHANGED (code w) (ints [("state", ("state", -1))] w));
   (DATA_SHARE_READY, fun _ => Some RDataShareReady)].
Definition event_rows : list Row :=
  [(COMMON_EVENT_TIMEZONE_CHANGED, always RES_TYPE_TIMEZONE_CHANGED RES_TYPE_TIMEZONE_CHANGED);
   (COMMON_EVENT_TIME_CHANGED, fun w => tell RES_TYPE_TIME_CHANGED (code w) json_object);
   (COMMON_EVENT_NITZ_TIME_CHANGED, fun w => tell RES_TYPE_NITZ_TIME_CHANGED (code w) json_object);
   (COMMON_EVENT_NITZ_TIMEZONE_CHANGED, fun w => tell RES_TYPE_NITZ_TIMEZONE_CHANGED (code w) json_object);
   (COMMON_EVENT_CHARGING, always RES_TYPE_CHARGING_DISCHARGING EVENT_CHARGING);
   (COMMON_EVENT_DISCHARGING, always RES_TYPE_CHARGING_DISCHARGING EVENT_DISCHARGING);
   (COMMON_EVENT_USB_DEVICE_ATTACHED, always RES_TYPE_USB_DEVICE USB_DEVICE_ATTACHED);
   (COMMON_EVENT_USB_DEVICE_DETACHED, always RES_TYPE_USB_DEVICE USB_DEVICE_DETACHED);
   (COMMON_EVENT_WIFI_P2P_STATE_CHANGED, fun w => tell RES_TYPE_WIFI_P2P_STATE_CHANGED (code w) json_object);
   (COMMON_EVENT_POWER_SAVE_MODE_CHANGED, fun w => tell RES_TYPE_POWER_MODE_CHANGED (code w) json_object);
   (COMMON_EVENT_WIFI_POWER_STATE, fun w =>
      tell RES_TYPE_WIFI_POWER_STATE_CHANGE (code w) (texts [("state", to_string (code w))]))].
Definition power (state : string) : CommonEventData -> option (RCall J) := fun _ =>
  tell RES_TYPE_DEVICE_MODE_STATUS MODE_ENTER (texts [("deviceModeType", "powerConnectStatus"); ("deviceMode", state)]).
Definition other_rows : list Row :=
  [(COMMON_EVENT_BOOT_COMPLETED, always RES_TYPE_BOOT_COMPLETED START_BOOT_COMPLETED);
   (COMMON_EVENT_POWER_CONNECTED, power "powerConnected");
   (COMMON_EVENT_POWER_DISCONNECTED, power "powerDisConnected");
   (COMMON_EVENT_CAMERA_STATUS, fun w => tell RES_TYPE_REPORT_CAMERA_STATE (GetIntParam w CAMERA_STATE 1)
      (ints [(CAMERA_TYPE, (IS_SYSTEM_CAMERA, 0))] w));
   (COMMON_EVENT_GAME_STATUS, fun w => tell RES_TYPE_REPORT_GAME_STATE_CHANGE (GetIntParam w GAME_STATUS (-1))
      (ints [(GAME_UID, (GAME_UID, -1)); (GAME_ENV, (GAME_ENV, -1))] w));
   (CONFIG_UPDATED_ACTION, fun w => tell RES_TYPE_PARAM_UPDATE_EVENT (code w)
      (texts [("type", GetStringParam w EVENT_INFO_TYPE); ("subtype", GetStringParam w EVENT_INFO_SUBTYPE)]));
   (COMMON_EVENT_USER_UNLOCKED, fun w => tell RES_TYPE_USER_UNLOCKED (GetIntParam w GAME_STATUS (-1)) json_object)].
Definition left_rows : list Row :=
  [(COMMON_EVENT_USER_SLEEP_STATE_CHANGED, fun w =>
      tell RES_TYPE_USER_NOT_CARE_CHARGE_SLEEP (Z.b2z (GetBoolParam w "isSleep" false)) json_object);
   (COMMON_EVENT_BATTERY_CHANGED, fun w =>
      tell RES_TYPE_REPORT_BATTERY_STATUS_CHANGE (GetIntParam w COMMON_EVENT_CAPACITY (-1))
        (ints [(COMMON_EVENT_CHARGE_STATE, (COMMON_EVENT_CHARGE_STATE, -1))] w));
   (COMMON_EVENT_BATTERY_LOW, always RES_TYPE_BATTERY_LOW 1);
   (COMMON_EVENT_BATTERY_OKAY, always RES_TYPE_BATTERY_LOW 0);
   (COMMON_EVENT_MEDIA_CTRL_EVENT, fun w =>
      if bool_decide (GetStringParam w "cmd" = "OnPlay") then
        tell RES_TYPE_MEDIA_CTRL_EVENT 0 (ints [(GAME_UID, (GAME_UID, -1)); (PID, (PID, -1))] w) else None);
   (COMMON_EVENT_AUDIO_FOCUS_CHANGE, fun w =>
      if (GetIntParam w "hintType" (-1) >=? 0) && (GetIntParam w "hintType" (-1) <=? 8) then
        tell RES_TYPE_AUDIO_FOCUS_CHANGE_EVENT 0 (ints [(GAME_UID, ("uid", -1)); (STREAM_ID, (STREAM_ID, -1))] w)
      else None);
   (COMMON_EVENT_CLONE, fun w => tell RES_TYPE_OOBE_CLONE (GetIntParam w "cloneState" (-1)) json_object);
   (COMMON_EVENT_USB_STATE, fun w => tell RES_TYPE_USB_DEVICE USB_DEVICE_STATE
      (set_fields ((fun f => (f, json_of_bool (GetBoolParam w f false))) <$> ["connected"; "hdc"]) json_object));
   (COMMON_EVENT_CLONE_STATE, fun w =>
      if (GetIntParam w "cloneState" (-1) >=? 0) && (GetIntParam w "cloneState" (-1) <=? 2) then
        tell RES_TYPE_DATA_CLONE_STATE (GetIntParam w "cloneState" (-1)) json_object else None);
   (COMMON_EVENT_NEARLINK_HOST_STATE_UPDATE, fun w =>
      tell RES_TYPE_NEARLINK_SERVICE_EVENT NL_SWITCH_STATE (texts [("ACTION", to_string (code w))]))].
Definition all_rows : list Row := pkg_rows ++ receive_rows ++ event_rows ++ other_rows ++ left_rows.

(** The first entry of a name. *)
Fixpoint first_of {A} (name : string) (l : list (string * A)) : option A :=
  match l with
  | [] => None
  | (n, a) :: l => if bool_decide (name = n) then Some a else first_of name l
  end.
Definition in_rows (l : list Row) w : option (RCall J) := first_of (action w) l ≫= fun f => f w.
Definition expected w : option (RCall J) := in_rows all_rows w.

(** What a subscriber notes of a report. *)
Definition noted (o : Subscriber J) (c : RCall J) : Subscriber J :=
  match c with RReport t v p => o <| resType_ := t |> <| value_ := v |> <| payload_ := p |> | _ => o end.
Definition after (s : With (Subscriber J) J) (c : option (RCall J)) : With (Subscriber J) J :=
  match c with Some c => mkWith (noted (own s) c) (calls s ++ [c]) | None => s end.

(** ** One event *)

Definition does (m : ST (With (Subscriber J) J) unit) (c : option (RCall J)) : Prop :=
  forall s, m s = Some (tt, after s c).

(** One test of the code and its entry. *)
Lemma does_test name f l w m m' :
  does m (f w) -> does m' (in_rows l w) ->
  does (if bool_decide (action w = name) then m else m') (in_rows ((name, f) :: l) w).
Proof. intros Hm Hm'. unfold in_rows. cbn. by case_bool_decide. Qed.

Ltac tests := repeat lazymatch goal with
  | |- does (if _ then _ else _) _ => apply does_test; [try by intros []|] end.

Lemma does_if (b : bool) m c : does m c -> does (ret_if negb b; m) (if b then c else None).
Proof. intros Hm. by destruct b. Qed.

Lemma does_left w : does (handleLeftEvent (code w) json_object w) (in_rows left_rows w).
Proof.
  unfold handleLeftEvent, left_rows. cbv zeta. tests.
  - apply does_if. by intros [].
  - apply does_if. by intros [].
  - unfold HandleCloneStateEvent, CLONE_STATE, CLONE_END, NEW_DEVICE_CLONE_START, OLD_DEVICE_CLONE_START. cbv zeta.
    set (n := GetIntParam w "cloneState" (-1)).
    assert (E : (n =? 0) || (n =? 1) || (n =? 2) = (n >=? 0) && (n <=? 2)).
    { destruct (Z.eqb_spec n 0), (Z.eqb_spec n 1), (Z.eqb_spec n 2), (Z.geb_spec n 0), (Z.leb_spec n 2); cbn; lia. }
    rewrite E. destruct (_ && _); by intros [].
  - by intros [].
Qed.

Lemma does_other w : does (handleOtherEvent (code w) json_object w) (in_rows (other_rows ++ left_rows) w).
Proof. unfold handleOtherEvent, other_rows. cbv zeta. cbn [app]. tests. apply does_left. Qed.

Lemma does_event w : does (handleEvent (code w) json_object w) (in_rows (event_rows ++ other_rows ++ left_rows) w).
Proof. unfold handleEvent, event_rows. cbv zeta. cbn [app]. tests. apply does_other. Qed.

Lemma does_receive w : does (Event_OnReceiveEvent w) (expected w).
Proof.
  unfold Event_OnReceiveEvent, expected, all_rows. cbv zeta.
  assert (Hpkg : forall m l, does m (in_rows l w) ->
    does (handled ← HandlePkgCommonEvent w json_object; ret_if (handled : bool); m) (in_rows (pkg_rows ++ l) w)).
  { intros m l Hm. unfold HandlePkgCommonEvent, pkg_rows, in_rows. cbv zeta. cbn [app first_of].
    repeat (case_bool_decide; [by intros []|]). exact Hm. }
  apply Hpkg. unfold receive_rows. cbn [app]. tests; [|apply does_event].
  apply does_if. by intros [].
Qed.

(** ** Histories *)

Lemma does_history ws s :
  exists s', st_iter Event_OnReceiveEvent ws s = Some (tt, s') /\ calls s' = calls s ++ omap expected ws
    /\ own s' = foldl noted (own s) (omap expected ws).
Proof.
  revert s. induction ws as [|w ws IH]; intros s; [exists s; by rewrite app_nil_r|]. cbn [st_iter omap list_omap].
  rewrite (run_bind _ _ _ _ _ (does_receive w s)). destruct (IH (after s (expected w))) as (s' & E & Hc & Ho).
  exists s'. split; [exact E|]. rewrite Hc, Ho. destruct (expected w) as [c|]; [|done]. cbn. by rewrite <- app_assoc.
Qed.

(** The value of the last report of a type. *)
Definition told (t : Z) (l : list (RCall J)) : option Z :=
  foldl (fun acc c => match c with RReport t' v _ => if decide (t' = t) then Some v else acc | _ => acc end) None l.

(** The states of the device that have two events each, with the values that plugins know them by. *)
Definition device_states : list (Z * list (string * Z)) :=
  [(RES_TYPE_SCREEN_STATUS, [(COMMON_EVENT_SCREEN_ON, SCREEN_ON); (COMMON_EVENT_SCREEN_OFF, SCREEN_OFF)]);
   (RES_TYPE_SCREEN_LOCK, [("common.event.UNLOCK_SCREEN", SCREEN_UNLOCK); ("common.event.LOCK_SCREEN", SCREEN_LOCK)]);
   (RES_TYPE_CHARGING_DISCHARGING, [(COMMON_EVENT_CHARGING, EVENT_CHARGING); (COMMON_EVENT_DISCHARGING, EVENT_DISCHARGING)]);
   (RES_TYPE_BATTERY_LOW, [(COMMON_EVENT_BATTERY_LOW, 1); (COMMON_EVENT_BATTERY_OKAY, 0)])].
(** What the last event of a state says. *)
Definition last_state (names : list (string * Z)) (ws : list CommonEventData) : option Z :=
  foldl (fun acc w => match first_of (action w) names with Some v => Some v | None => acc end) None ws.

Lemma first_of_in {A} name (l : list (string * A)) a : first_of name l = Some a -> (name, a) ∈ l.
Proof.
  induction l as [|[n b] l IH]; [done|]. cbn. case_bool_decide as Hn; [intros [= <-]; subst; by left|].
  intros Hf. right. by apply IH.
Qed.
Lemma first_of_unique {A} name (l : list (string * A)) a : NoDup l.*1 -> (name, a) ∈ l -> first_of name l = Some a.
Proof.
  induction l as [|[n b] l IH]; [by intros _ ?%elem_of_nil|]. cbn. intros [Hn Hd]%NoDup_cons [[= -> ->]|Hin]%elem_of_cons.
  - by rewrite bool_decide_true.
  - rewrite bool_decide_false; [by apply IH|]. intros ->. apply Hn. apply list_elem_of_fmap. by exists (n, a).
Qed.

(** Reports of the type of a state come from its events only. *)
Definition report_of (t : Z) (c : option (RCall J)) : option Z :=
  match c with Some (RReport t' v _) => if decide (t' = t) then Some v else None | _ => None end.

Lemma state_rows t names :
  (t, names) ∈ device_states ->
  (forall n v, (n, v) ∈ names -> (n, always t v) ∈ all_rows)
  /\ Forall (fun row : Row => (exists v, (row.1, v) ∈ names) \/ forall w, report_of t (row.2 w) = None) all_rows.
Proof.
  unfold device_states. intros Hs.
  repeat (apply elem_of_cons in Hs as [[= -> ->]|Hs]; [split|]); [..|by apply elem_of_nil in Hs].
  all: try (intros n v Hn; repeat (apply elem_of_cons in Hn as [[= -> ->]|Hn]); [..|by apply elem_of_nil in Hn];
    unfold all_rows; cbn; repeat first [by left|right]).
  all: unfold all_rows; cbn [app pkg_rows receive_rows event_rows other_rows left_rows].
  all: repeat (apply Forall_cons; split; [first [right; intros w; cbn; repeat case_match; done
    |left; eexists; rewrite !elem_of_cons; cbn; eauto]|]); by apply Forall_nil.
Qed.

Lemma state_step t names w :
  NoDup all_rows.*1 -> (t, names) ∈ device_states -> report_of t (expected w) = first_of (action w) names.
Proof.
  intros Hd [Hin Hrows]%state_rows. unfold expected, in_rows.
  destruct (first_of (action w) names) as [v|] eqn:En.
  - apply first_of_in, Hin, (first_of_unique _ _ _ Hd) in En. rewrite En. cbn. by rewrite decide_True.
  - destruct (first_of (action w) all_rows) as [f|] eqn:Ef; [|done]. apply first_of_in in Ef.
    rewrite Forall_forall in Hrows. destruct (Hrows _ Ef) as [[v Hv]|Hnone]; [|apply Hnone]. cbn in Hv.
    exfalso. clear -En Hv. induction names as [|[n x] l IH]; [by apply elem_of_nil in Hv|]. cbn in En.
    case_bool_decide as Hn; [done|]. apply elem_of_cons in Hv as [Hv|Hv]; [|auto]. injection Hv as Hv _. by apply Hn.
Qed.

Lemma told_history t names ws :
  NoDup all_rows.*1 -> (t, names) ∈ device_states -> told t (omap expected ws) = last_state names ws.
Proof.
  intros Hd Hs. unfold told, last_state. generalize (None : option Z).
  induction ws as [|w ws IH]; intros acc; [done|]. cbn [omap list_omap foldl].
  rewrite <- (state_step t names w Hd Hs). destruct (expected w) as [[t' v p| | | |]|]; cbn [foldl report_of];
    try apply IH. case_decide; apply IH.
Qed.

(** C26: The plugins know the device by its events.  When the names of the events differ, over any
    history of common events that a subscriber receives: every call returns; the plugins are told
    of each event exactly what its entry in the table says, with the type, the value and the
    payload, in the order of the events, and nothing of events that are not in the table or do not
    carry what is asked; the subscriber notes the last report; and what the plugins were told last
    of the screen, of its lock, of the charger and of a low battery is what the last event of this
    state says.  The names in the table are exactly the names that are subscribed. *)
Theorem events_are_reported info ws :
  NoDup all_rows.*1 ->
  exists s', st_iter Event_OnReceiveEvent ws (mkWith (new_subscriber info) []) = Some (tt, s')
    /\ calls s' = omap expected ws
    /\ own s' = foldl noted (new_subscriber info) (omap expected ws)
    /\ (forall t names, (t, names) ∈ device_states -> told t (calls s') = last_state names ws)
    /\ (forall name, name ∈ all_rows.*1 <-> name ∈ subscribed_names).
Proof.
  intros Hd. destruct (does_history ws (mkWith (new_subscriber info) [])) as (s' & E & Hc & Ho). cbn in Hc, Ho.
  exists s'. split_and!; [exact E|exact Hc|exact Ho|intros t names Hs; rewrite Hc; by apply told_history|].
  intros name. unfold all_rows, subscribed_names. cbn.
  split; intros Hn; repeat (apply elem_of_cons in Hn as [->|Hn]; [clear; set_solver|]); by apply elem_of_nil in Hn.
Qed.
End facts.

(** ** Examples *)

(** The names of the system. *)
#[export] Instance demo_common : CommonEventSupport := {|
  COMMON_EVENT_CONNECTIVITY_CHANGE := "usual.event.CONNECTIVITY_CHANGE";
  COMMON_EVENT_PACKAGE_INSTALLATION_STARTED := "usual.event.PACKAGE_INSTALLATION_STARTED";
  COMMON_EVENT_PACKAGE_ADDED := "usual.event.PACKAGE_ADDED"; COMMON_EVENT_PACKAGE_REMOVED := "usual.event.PACKAGE_REMOVED";
  COMMON_EVENT_PACKAGE_CHANGED := "usual.event.PACKAGE_CHANGED"; COMMON_EVENT_PACKAGE_REPLACED := "usual.event.PACKAGE_REPLACED";
  COMMON_EVENT_SCREEN_ON := "usual.event.SCREEN_ON"; COMMON_EVENT_SCREEN_OFF := "usual.event.SCREEN_OFF";
  COMMON_EVENT_USER_SWITCHED := "usual.event.USER_SWITCHED"; COMMON_EVENT_USER_REMOVED := "usual.event.USER_REMOVED";
  COMMON_EVENT_TIMEZONE_CHANGED := "usual.event.TIMEZONE_CHANGED"; COMMON_EVENT_BUNDLE_REMOVED := "usual.event.BUNDLE_REMOVED";
  COMMON_EVENT_PACKAGE_FULLY_REMOVED := "usual.event.PACKAGE_FULLY_REMOVED"; COMMON_EVENT_TIME_CHANGED := "usual.event.TIME_CHANGED";
  COMMON_EVENT_NITZ_TIME_CHANGED := "usual.event.NITZ_TIME_CHANGED";
  COMMON_EVENT_NITZ_TIMEZONE_CHANGED := "usual.event.NITZ_TIMEZONE_CHANGED"; COMMON_EVENT_CHARGING := "usual.event.CHARGING";
  COMMON_EVENT_USB_DEVICE_ATTACHED := "usual.event.USB_DEVICE_ATTACHED"; COMMON_EVENT_DISCHARGING := "usual.event.DISCHARGING";
  COMMON_EVENT_USB_DEVICE_DETACHED := "usual.event.USB_DEVICE_DETACHED"; COMMON_EVENT_USB_STATE := "usual.event.USB_STATE";
  COMMON_EVENT_CALL_STATE_CHANGED := "usual.event.CALL_STATE_CHANGED";
  COMMON_EVENT_WIFI_P2P_STATE_CHANGED := "usual.event.WIFI_P2P_STATE_CHANGED";
  COMMON_EVENT_POWER_SAVE_MODE_CHANGED := "usual.event.POWER_SAVE_MODE_CHANGED";
  COMMON_EVENT_BOOT_COMPLETED := "usual.event.BOOT_COMPLETED"; COMMON_EVENT_POWER_CONNECTED := "usual.event.POWER_CONNECTED";
  COMMON_EVENT_POWER_DISCONNECTED := "usual.event.POWER_DISCONNECTED";
  COMMON_EVENT_WIFI_POWER_STATE := "usual.event.WIFI_POWER_STATE"; COMMON_EVENT_USER_UNLOCKED := "usual.event.USER_UNLOCKED";
  COMMON_EVENT_BATTERY_CHANGED := "usual.event.BATTERY_CHANGED"; COMMON_EVENT_BATTERY_LOW := "usual.event.BATTERY_LOW";
  COMMON_EVENT_BATTERY_OKAY := "usual.event.BATTERY_OKAY"; CONSTANTS_UID := "uid"; CONSTANTS_USER_ID := "userId";
|}.

Definition demo_want (name : string) : CommonEventData := mkCommonEventData 100 name "" (fun _ => None) (fun _ => None) (fun _ => None).

(** The screen goes on, the battery is low, a network that is no wireless one changes, the screen
    goes off. *)
Definition demo_device_events : list CommonEventData :=
  demo_want <$> ["usual.event.SCREEN_ON"; "usual.event.BATTERY_LOW"; "usual.event.CONNECTIVITY_CHANGE";
                 "usual.event.SCREEN_OFF"; "usual.event.UNKNOWN"].

Lemma events_are_reported_witness :
  exists s', st_iter (Event_OnReceiveEvent (J := json)) demo_device_events (mkWith (new_subscriber main_info) [])
      = Some (tt, s')
    /\ length (calls s') = 3%nat /\ told RES_TYPE_SCREEN_STATUS (calls s') = Some SCREEN_OFF
    /\ told RES_TYPE_BATTERY_LOW (calls s') = Some 1 /\ told RES_TYPE_SCREEN_LOCK (calls s') = None.
Proof.
  destruct (events_are_reported (J := json) main_info demo_device_events) as (s' & E & Hc & _ & Ht & _).
  - apply (bool_decide_unpack _). vm_compute. exact I.
  - exists s'. split; [exact E|]. split; [rewrite Hc; vm_compute; reflexivity|]. unfold device_states in Ht. split_and!.
    + rewrite (Ht _ _ ltac:(left)). vm_compute. reflexivity.
    + rewrite (Ht _ _ ltac:(do 3 right; left)). vm_compute. reflexivity.
    + rewrite (Ht _ _ ltac:(right; left)). vm_compute. reflexivity.
Defined.
