(* ===== verification/AudioObserver.v ===== *)
(** * The audio observer

    [audio_observer.cpp]: the renderers and capturers of the audio framework become events
    about sessions and about processes.  Shared pointers that may be null are options. *)
From S2P Require Import Prelude Json ResType SchedReports.

(** ** The outside *)

(** The states of the audio framework, and the order in which an unordered set is walked:
    any order of its elements. *)
Class AudioFramework := {
  RENDERER_RUNNING : Z;
  RENDERER_STOPPED : Z;
  RENDERER_RELEASED : Z;
  RENDERER_PAUSED : Z;
  CAPTURER_RUNNING : Z;
  CAPTURER_STOPPED : Z;
  CAPTURER_RELEASED : Z;
  set_order : gset Z -> list Z;
  set_order_perm X : set_order X ≡ₚ elements X;
}.

(** [AudioRendererChangeInfo], [AudioCapturerChangeInfo] and [AudioDeviceDescriptor]. *)
Record RendererInfo := mkRendererInfo {
  r_clientUID : Z; r_sessionId : Z; rendererState : Z; r_clientPid : Z; contentType : Z; streamUsage : Z }.
Record CapturerInfo := mkCapturerInfo {
  c_clientUID : Z; c_sessionId : Z; capturerState : Z; c_clientPid : Z; sourceType : Z }.

(** ** State *)

(** audio_observer.h:29-33 [ProcessRenderState] *)
Record ProcessRenderState := mkProcessRenderState {
  prs_pid : Z;
  prs_uid : Z;
  renderRunningSessionSet : gset Z;
}.
#[export] Instance ProcessRenderState_eta : Eta ProcessRenderState := fun s =>
  mkProcessRenderState (prs_pid s) (prs_uid s) (renderRunningSessionSet s).

(** audio_observer.h:78-84 [processRenderStateMap_] the members *)
Record AudioObserver := mkAudioObserver {
  mode_ : Z;
  renderState_ : gmap Z Z;
  volumeState_ : gmap Z Z;
  processRenderStateMap_ : gmap Z ProcessRenderState;
  capturerStateMap_ : gmap Z (gset Z);
  capturerInfoPidToUidMap_ : gmap Z Z;
}.
#[export] Instance AudioObserver_eta : Eta AudioObserver := fun s =>
  mkAudioObserver (mode_ s) (renderState_ s) (volumeState_ s) (processRenderStateMap_ s) (capturerStateMap_ s)
    (capturerInfoPidToUidMap_ s).
Definition new_AudioObserver : AudioObserver := mkAudioObserver (-1) ∅ ∅ ∅ ∅ ∅.

Section audio.
Context {J : Type} `{!Json J} `{!JsonMore J} `{!AudioFramework}.
(** [json::object()]. *)
Context (empty_object : J).
#[local] Abbreviation M := (ST (With AudioObserver J)).

Definition PID_MIN : Z := 0. (* audio_observer.cpp:24 *)

(** audio_observer.cpp:35-50 [MarshallingAudioRendererChangeInfo] *)
Definition MarshallingAudioRendererChangeInfo (i : RendererInfo) : J :=
  fields [("uid", num (r_clientUID i)); ("sessionId", num (r_sessionId i));
          ("rendererState", json_of_int (rendererState i)); ("pid", num (r_clientPid i));
          ("rendererInfo.contentType", json_of_int (contentType i));
          ("rendererInfo.streamUsage", json_of_int (streamUsage i))].

(** audio_observer.cpp:52-59 [IsRenderStateChange] *)
Definition IsRenderStateChange (i : RendererInfo) (s : AudioObserver) : bool :=
  match renderState_ s !! r_sessionId i with
  | Some state => negb (state =? rendererState i)
  | None => true
  end.

(** audio_observer.cpp:230-233 [IsValidPid] *)
Definition IsValidPid (pid : Z) : bool := (pid >? PID_MIN) && (pid <=? 2 ^ 31 - 1).

(** The pids with sessions that are new or stopped, which the calls of a change collect. *)
Record Changed := mkChanged { newRunningPid : gset Z; newStopSessionPid : gset Z }.
#[local] Instance Changed_eta : Eta Changed := fun c => mkChanged (newRunningPid c) (newStopSessionPid c).

(** audio_observer.cpp:156-174 [ProcessRunningSessionState] *)
Definition ProcessRunningSessionState (i : RendererInfo) (c : Changed) : M Changed :=
  let pid := r_clientPid i in
  s ← r_get;
  match processRenderStateMap_ s !! pid with
  | Some _ =>
      r_upd (fun s => s <| processRenderStateMap_ ::=
        alter (fun p => p <| renderRunningSessionSet ::= union {[ r_sessionId i ]} |>) pid |>);;
      mret c
  | None =>
      r_upd (fun s => s <| processRenderStateMap_ ::=
        <[pid := mkProcessRenderState pid (r_clientUID i) {[ r_sessionId i ]}]> |>);;
      mret (c <| newRunningPid ::= union {[ pid ]} |>)
  end.

(** audio_observer.cpp:176-192 [ProcessStopSessionState] *)
Definition ProcessStopSessionState (i : RendererInfo) (c : Changed) : M Changed :=
  let pid := r_clientPid i in
  if negb (IsValidPid pid) then mret c else
  r_upd (fun s => s <| processRenderStateMap_ ::=
    alter (fun p => p <| renderRunningSessionSet ::= fun l => l ∖ {[ r_sessionId i ]} |>) pid |>);;
  mret (c <| newStopSessionPid ::= union {[ pid ]} |>).

(** audio_observer.cpp:135-154 [HandleInnerAudioStateChange] *)
Definition HandleInnerAudioStateChange (i : RendererInfo) (c : Changed) : M Changed :=
  if rendererState i =? RENDERER_RUNNING then ProcessRunningSessionState i c
  else if (rendererState i =? RENDERER_STOPPED) || (rendererState i =? RENDERER_RELEASED)
          || (rendererState i =? RENDERER_PAUSED) then ProcessStopSessionState i c
  else mret c.

(** audio_observer.cpp:223-228 [MarshallingInnerAudioRendererChangeInfo] *)
Definition MarshallingInnerAudioRendererChangeInfo (p : ProcessRenderState) : J :=
  fields [("uid", num (prs_uid p)); ("pid", num (prs_pid p))].

(** audio_observer.cpp:194-206 [HandleStartAudioStateEvent] *)
Definition HandleStartAudioStateEvent (pids : gset Z) : M unit :=
  st_iter (fun pid =>
    s ← r_get;
    p <-? processRenderStateMap_ s !! pid;
    ret_if bool_decide (renderRunningSessionSet p = ∅);
    r_report RES_TYPE_INNER_AUDIO_STATE AUDIO_STATE_RUNNING (MarshallingInnerAudioRendererChangeInfo p))
    (set_order pids).

(** audio_observer.cpp:208-221 [HandleStopAudioStateEvent] *)
Definition HandleStopAudioStateEvent (pids : gset Z) : M unit :=
  st_iter (fun pid =>
    s ← r_get;
    p <-? processRenderStateMap_ s !! pid;
    ret_if negb (bool_decide (renderRunningSessionSet p = ∅));
    r_upd (fun s => s <| processRenderStateMap_ ::= delete pid |>);;
    r_report RES_TYPE_INNER_AUDIO_STATE AUDIO_STATE_STOP (MarshallingInnerAudioRendererChangeInfo p))
    (set_order pids).

(** audio_observer.cpp:67-77 [audioRendererChangeInfos] the loop over the renderers; a null
    one is read *)
Fixpoint renderer_loop (l : list (option RendererInfo)) (c : Changed) : M Changed :=
  match l with
  | [] => mret c
  | i :: l =>
      i ← st_some i;
      s ← r_get;
      st_when (IsRenderStateChange i s)
        (r_report RES_TYPE_AUDIO_RENDER_STATE_CHANGE (rendererState i) (MarshallingAudioRendererChangeInfo i));;
      c ← HandleInnerAudioStateChange i c;
      renderer_loop l c
  end.

(** audio_observer.cpp:61-84 [AudioObserver::OnRendererStateChange] *)
Definition OnRendererStateChange (l : list (option RendererInfo)) : M unit :=
  c ← renderer_loop l (mkChanged ∅ ∅);
  r_upd (fun s => s <| renderState_ :=
    foldl (fun m i => match i with Some i => <[r_sessionId i := rendererState i]> m | None => m end) ∅ l |>);;
  HandleStartAudioStateEvent (newRunningPid c);;
  HandleStopAudioStateEvent (newStopSessionPid c).

(** audio_observer.cpp:86-94 [AudioObserver::OnRingerModeUpdated] *)
Definition OnRingerModeUpdated (ringerMode : Z) : M unit :=
  s ← r_get;
  st_when (negb (ringerMode =? mode_ s))
    (r_upd (fun s => s <| mode_ := ringerMode |>);;
     r_report RES_TYPE_AUDIO_RING_MODE_CHANGE ringerMode empty_object).

(** audio_observer.cpp:96-111 [AudioObserver::OnVolumeKeyEvent] *)
Definition OnVolumeKeyEvent (volumeType volume : Z) : M unit :=
  s ← r_get;
  ret_if bool_decide (volumeState_ s !! volumeType = Some volume);
  r_upd (fun s => s <| volumeState_ ::= <[volumeType := volume]> |>);;
  r_report RES_TYPE_AUDIO_VOLUME_KEY_CHANGE volume
    (fields [("volumeType", num volumeType); ("volumeLevel", num volume)]).

(** audio_observer.cpp:113-119 [AudioObserver::OnAudioSceneChange] *)
Definition OnAudioSceneChange (audioScene : Z) : M unit :=
  r_report RES_TYPE_AUDIO_SCENE_CHANGE audioScene (fields [("audioScene", num audioScene)]).

(** audio_observer.cpp:121-133 [AudioObserver::OnPreferredOutputDeviceUpdated] the devices are
    pairs of type and id *)
Definition OnPreferredOutputDeviceUpdated (descs : list (Z * Z)) : M unit :=
  r_upd (fun s => s <| volumeState_ := ∅ |>);;
  st_iter (fun desc =>
    r_report RES_TYPE_OUTPUT_DEVICE_CHANGE desc.2 (fields [("deviceType", num desc.1); ("deviceId", num desc.2)]))
    descs.

(** The payload of the begin and of the end of a capture. *)
Definition capture_payload (pid uid : Z) : J := fields [("pid", num pid); ("uid", num uid)].

(** audio_observer.cpp:260-272 [ProcessCapturerBegin] *)
Definition ProcessCapturerBegin (pid uid sessionId : Z) : M unit :=
  s ← r_get;
  st_when (negb (bool_decide (is_Some (capturerStateMap_ s !! pid))))
    (r_report RES_TYPE_AUDIO_CAPTURE_STATUS_CHANGED AUDIO_CAPTURE_BEGIN (capture_payload pid uid));;
  r_upd (fun s => s <| capturerStateMap_ ::= fun m => <[pid := {[ sessionId ]} ∪ default ∅ (m !! pid)]> m |>);;
  r_upd (fun s => s <| capturerInfoPidToUidMap_ ::= <[pid := uid]> |>).

(** audio_observer.cpp:274-290 [ProcessCapturerEnd] *)
Definition ProcessCapturerEnd (pid uid sessionId : Z) : M unit :=
  s ← r_get;
  sessions <-? capturerStateMap_ s !! pid;
  r_upd (fun s => s <| capturerStateMap_ ::= <[pid := sessions ∖ {[ sessionId ]}]> |>);;
  st_when (bool_decide (sessions ∖ {[ sessionId ]} = ∅))
    (r_upd (fun s => s <| capturerInfoPidToUidMap_ ::= delete pid |> <| capturerStateMap_ ::= delete pid |>);;
     r_report RES_TYPE_AUDIO_CAPTURE_STATUS_CHANGED AUDIO_CAPTURE_END (capture_payload pid uid)).

(** audio_observer.cpp:292-310 [ProcessCapturerEndCaseByUnregister] *)
Definition ProcessCapturerEndCaseByUnregister : M unit :=
  s ← r_get;
  ret_if bool_decide (capturerStateMap_ s = ∅);
  st_iter (fun pid =>
    s ← r_get;
    let uid := default 0 (capturerInfoPidToUidMap_ s !! pid) in
    r_upd (fun s => s <| capturerInfoPidToUidMap_ ::= delete pid |>);;
    r_report RES_TYPE_AUDIO_CAPTURE_STATUS_CHANGED AUDIO_CAPTURE_END (capture_payload pid uid))
    (set_order (dom (capturerStateMap_ s)));;
  r_upd (fun s => s <| capturerStateMap_ := ∅ |>).

(** audio_observer.cpp:312-329 [ReportCapturerStateChange] *)
Definition ReportCapturerStateChange (l : list (option CapturerInfo)) : M unit :=
  r_report RES_TYPE_AUDIO_CAPTURE_STATUS_CHANGED AUDIO_CAPTURE_CHANGE
    (json_of_array (omap (fun i => i ← i; Some (fields
      [("uid", num (c_clientUID i)); ("sessionId", num (c_sessionId i));
       ("capturerState", num (capturerState i)); ("sourceType", num (sourceType i))])) l)).

(** audio_observer.cpp:235-258 [AudioObserver::OnCapturerStateChange] *)
Definition OnCapturerStateChange (l : list (option CapturerInfo)) : M unit :=
  ReportCapturerStateChange l;;
  st_iter (fun i =>
    i <-? i;
    ret_if c_clientPid i =? 0;
    if capturerState i =? CAPTURER_RUNNING then
      ProcessCapturerBegin (c_clientPid i) (c_clientUID i) (c_sessionId i)
    else st_when ((capturerState i =? CAPTURER_STOPPED) || (capturerState i =? CAPTURER_RELEASED))
      (ProcessCapturerEnd (c_clientPid i) (c_clientUID i) (c_sessionId i))) l.

(** audio_observer.cpp:25-33 [AudioObserver::Init] with what the framework tells *)
Definition AudioObserver_Init (renderers : list (option RendererInfo)) (capturers : list (option CapturerInfo)) : M unit :=
  OnRendererStateChange renderers;;
  OnCapturerStateChange capturers.
End audio.
