(* ===== verification/AudioFacts.v ===== *)
(** * Facts about the audio observer

    What the plugins were told last about a process is true, over any history of callbacks. *)
From S2P Require Import Prelude Json ResType SchedReports AudioObserver.

Lemma to_string_inj x y : to_string x = to_string y -> x = y.
Proof. intros E. rewrite <- (parse_dec_to_string x), <- (parse_dec_to_string y). by rewrite E. Qed.

Section facts.
Context {J : Type} `{!Json J} `{!JsonLaws J} `{!JsonMore J} `{!AudioFramework} (empty_object : J).
Implicit Types s : With AudioObserver J.

Lemma elem_of_set_order x X : x ∈ set_order X <-> x ∈ X.
Proof. rewrite <- elem_of_elements. apply elem_of_Permutation_proper, set_order_perm. Qed.

(** ** Fields of payloads *)

Lemma find_set_fields l (j : J) k v :
  json_is_object j = true \/ json_is_null j = true -> k ∉ l.*1 ->
  json_find k (set_fields ((k, v) :: l) j) = Some v /\ json_is_object (set_fields ((k, v) :: l) j) = true.
Proof.
  intros Hj. induction l as [|[k' v'] l IH] using rev_ind; intros Hk.
  - cbn. split; [by apply json_find_set_eq|by apply json_set_object].
  - rewrite fmap_app, elem_of_app in Hk. unfold set_fields in *. rewrite app_comm_cons, foldl_app.
    destruct IH as [H1 H2]; [tauto|]. cbn [foldl fst snd]. split; [|apply json_set_object; by left].
    rewrite json_find_set_ne; [done|]. intros ->. apply Hk. right. apply list_elem_of_here.
Qed.

Lemma payload_pid (pid uid : Z) :
  find_string "pid" (fields [("uid", num uid); ("pid", num pid)] : J) = Some (to_string pid)
  /\ find_string "pid" (capture_payload pid uid : J) = Some (to_string pid).
Proof.
  unfold find_string, capture_payload, fields. cbn.
  assert (Ho : json_is_object (json_set "uid" (num uid) (json_null : J)) = true)
    by (apply json_set_object; right; apply json_null_is_null).
  split.
  - rewrite json_find_set_eq by (by left). apply json_string_of_string.
  - rewrite json_find_set_ne by done. rewrite json_find_set_eq by (right; apply json_null_is_null).
    apply json_string_of_string.
Qed.

(** ** What was told *)

(** The last state of a process, 0 or 1, that was reported with a type. *)
Definition told_step (type pid : Z) (acc : option Z) (c : RCall J) : option Z :=
  match c with
  | RReport t v p =>
      if (t =? type) && (v <? 2) && bool_decide (find_string "pid" p = Some (to_string pid)) then Some v else acc
  | _ => acc
  end.
Definition told (type pid : Z) (l : list (RCall J)) : option Z := foldl (told_step type pid) None l.

Lemma told_snoc type pid l c : told type pid (l ++ [c]) = told_step type pid (told type pid l) c.
Proof. unfold told. by rewrite foldl_app. Qed.

Lemma told_pid type type' pid pid' v l p :
  find_string "pid" p = Some (to_string pid') -> v < 2 ->
  told type pid (l ++ [RReport type' v p]) = if decide (type' = type /\ pid' = pid) then Some v else told type pid l.
Proof.
  intros Hp Hv. rewrite told_snoc. cbn. rewrite Hp.
  destruct (Z.eqb_spec type' type) as [->|Ht]; cbn; [|by rewrite decide_False by tauto].
  destruct (Z.ltb_spec v 2); [|lia]. cbn.
  destruct (decide (pid' = pid)) as [->|Hne].
  - by rewrite bool_decide_true, decide_True.
  - rewrite bool_decide_false, decide_False; [done|tauto|]. intros [= E%to_string_inj]. done.
Qed.

Lemma told_other type type' pid v l p :
  type' <> type \/ 2 <= v -> told type pid (l ++ [RReport type' v p]) = told type pid l.
Proof.
  intros Ht. rewrite told_snoc. cbn.
  destruct (Z.eqb_spec type' type), (Z.ltb_spec v 2); cbn; try done. lia.
Qed.

(** Two types of reports. *)
Definition inner := told RES_TYPE_INNER_AUDIO_STATE.
Definition capture := told RES_TYPE_AUDIO_CAPTURE_STATUS_CHANGED.

#[local] Arguments told : simpl never.
#[local] Arguments inner : simpl never.
#[local] Arguments capture : simpl never.

(** ** The invariant *)

Record renderers_ok (m : gmap Z ProcessRenderState) (l : list (RCall J)) : Prop := {
  ro_told pid : inner pid l = Some AUDIO_STATE_RUNNING <-> is_Some (m !! pid);
  ro_entry pid p : m !! pid = Some p -> prs_pid p = pid /\ renderRunningSessionSet p <> ∅;
}.

Record captures_ok (m : gmap Z (gset Z)) (uids : gmap Z Z) (l : list (RCall J)) : Prop := {
  ca_told pid : capture pid l = Some AUDIO_CAPTURE_BEGIN <-> is_Some (m !! pid);
  ca_entry pid x : m !! pid = Some x -> x <> ∅ /\ is_Some (uids !! pid);
}.

Record audio_ok s : Prop := {
  ao_renderers : renderers_ok (processRenderStateMap_ (own s)) (calls s);
  ao_captures : captures_ok (capturerStateMap_ (own s)) (capturerInfoPidToUidMap_ (own s)) (calls s);
}.

(** ** Frames *)

Definition rendP s : Prop := renderers_ok (processRenderStateMap_ (own s)) (calls s).
Definition capP s : Prop := captures_ok (capturerStateMap_ (own s)) (capturerInfoPidToUidMap_ (own s)) (calls s).

Lemma cap_report t v p : t <> RES_TYPE_AUDIO_CAPTURE_STATUS_CHANGED \/ 2 <= v -> keeps capP (r_report t v p).
Proof.
  intros Ht. apply keeps_modify. intros s [H1 H2]. split; cbn; [|done].
  intros pid. unfold capture. by rewrite told_other.
Qed.
Lemma rend_report t v p : t <> RES_TYPE_INNER_AUDIO_STATE -> keeps rendP (r_report t v p).
Proof.
  intros Ht. apply keeps_modify. intros s [H1 H2]. split; cbn; [|done].
  intros pid. unfold inner. rewrite told_other by (by left). apply H1.
Qed.
Lemma cap_upd f :
  (forall x, capturerStateMap_ (f x) = capturerStateMap_ x /\ capturerInfoPidToUidMap_ (f x) = capturerInfoPidToUidMap_ x) ->
  keeps capP (r_upd f).
Proof.
  intros Hf. apply keeps_modify. intros s. unfold capP. cbn. by destruct (Hf (own s)) as [-> ->].
Qed.
Lemma rend_upd f : (forall x, processRenderStateMap_ (f x) = processRenderStateMap_ x) -> keeps rendP (r_upd f).
Proof. intros Hf. apply keeps_modify. intros s. unfold rendP. cbn. by rewrite Hf. Qed.
Lemma keeps_r_get P : keeps P (r_get (J := J) (S := AudioObserver)).
Proof. by intros s Hs. Qed.

#[local] Hint Resolve keeps_r_get : keeps.
#[local] Hint Extern 1 (keeps capP (r_report _ _ _)) => apply cap_report; first [by left | by right] : keeps.
#[local] Hint Extern 1 (keeps rendP (r_report _ _ _)) => by apply rend_report : keeps.
#[local] Hint Extern 1 (keeps capP (r_upd _)) => by apply cap_upd : keeps.
#[local] Hint Extern 1 (keeps rendP (r_upd _)) => by apply rend_upd : keeps.

Lemma cap_HandleInnerAudioStateChange i c : keeps capP (HandleInnerAudioStateChange i c).
Proof.
  unfold HandleInnerAudioStateChange, ProcessRunningSessionState, ProcessStopSessionState. keeps_auto.
Qed.
#[local] Hint Resolve cap_HandleInnerAudioStateChange : keeps.

Lemma cap_renderer_loop l c : keeps capP (renderer_loop l c).
Proof. revert c. induction l as [|i l IH]; intros c; cbn [renderer_loop]; keeps_auto. Qed.
#[local] Hint Resolve cap_renderer_loop : keeps.

Lemma cap_OnRendererStateChange l : keeps capP (OnRendererStateChange l).
Proof. unfold OnRendererStateChange, HandleStartAudioStateEvent, HandleStopAudioStateEvent. keeps_auto. Qed.

Lemma rend_OnCapturerStateChange l : keeps rendP (OnCapturerStateChange l).
Proof.
  unfold OnCapturerStateChange, ReportCapturerStateChange, ProcessCapturerBegin, ProcessCapturerEnd. keeps_auto.
Qed.
Lemma rend_Unregister : keeps rendP ProcessCapturerEndCaseByUnregister.
Proof. unfold ProcessCapturerEndCaseByUnregister. keeps_auto. Qed.

(** ** Renderers *)

(** While the renderers of a change are walked: processes that are new are not told yet, and
    processes without running sessions are noted. *)
Record walking (c : Changed) (m : gmap Z ProcessRenderState) (l : list (RCall J)) : Prop := {
  wa_new pid : pid ∈ newRunningPid c -> is_Some (m !! pid) /\ inner pid l <> Some AUDIO_STATE_RUNNING;
  wa_told pid : inner pid l = Some AUDIO_STATE_RUNNING -> is_Some (m !! pid);
  wa_entry pid p : m !! pid = Some p ->
    (inner pid l = Some AUDIO_STATE_RUNNING \/ pid ∈ newRunningPid c)
    /\ prs_pid p = pid /\ (renderRunningSessionSet p = ∅ -> pid ∈ newStopSessionPid c);
}.
Definition walkP c s : Prop := walking c (processRenderStateMap_ (own s)) (calls s).

Lemma walk_report c t v p : t <> RES_TYPE_INNER_AUDIO_STATE -> keeps (walkP c) (r_report t v p).
Proof.
  intros Ht. apply keeps_modify. intros s [H1 H2 H3]. unfold inner in *.
  split; cbn; intros pid; unfold inner; rewrite told_other by (by left); auto.
Qed.

Lemma walk_run i c : spec True (walkP c) (ProcessRunningSessionState i c) walkP.
Proof.
  intros s [H1 H2 H3]. unfold ProcessRunningSessionState, mbind, ST_bind. cbn.
  destruct (processRenderStateMap_ (own s) !! r_clientPid i) as [p0|] eqn:E; cbn; split; cbn.
  - intros pid Hp. rewrite lookup_alter_is_Some. by apply H1.
  - intros pid Hp. rewrite lookup_alter_is_Some. by apply H2.
  - intros pid p. destruct (decide (pid = r_clientPid i)) as [->|Hne].
    + rewrite lookup_alter_eq, E. intros [= <-]. cbn. destruct (H3 _ _ E) as (Ht & Hp & _).
      split_and!; [done|done|set_solver].
    + rewrite lookup_alter_ne by done. apply H3.
  - intros pid Hp. destruct (decide (pid = r_clientPid i)) as [->|Hne].
    + rewrite lookup_insert_eq. split; [done|]. intros Ht%H2. rewrite E in Ht. by destruct Ht.
    + rewrite lookup_insert_ne by done. apply H1. set_solver.
  - intros pid Hp. destruct (decide (pid = r_clientPid i)) as [->|Hne]; [by rewrite lookup_insert_eq|].
    rewrite lookup_insert_ne by done. by apply H2.
  - intros pid p. destruct (decide (pid = r_clientPid i)) as [->|Hne].
    + rewrite lookup_insert_eq. intros [= <-]. cbn. split_and!; [right; set_solver|done|set_solver].
    + rewrite lookup_insert_ne by done. intros Hp. destruct (H3 _ _ Hp) as (Ht & Hpid & Hs).
      split_and!; [set_solver|done|done].
Qed.

Lemma walk_stop i c : spec True (walkP c) (ProcessStopSessionState i c) walkP.
Proof.
  intros s [H1 H2 H3]. unfold ProcessStopSessionState. destruct (negb _); [done|].
  cbn. split; cbn.
  - intros pid Hp. rewrite lookup_alter_is_Some. by apply H1.
  - intros pid Hp. rewrite lookup_alter_is_Some. by apply H2.
  - intros pid p. destruct (decide (pid = r_clientPid i)) as [->|Hne].
    + rewrite lookup_alter_eq. destruct (_ !! _) as [p0|] eqn:E; [|done]. intros [= <-]. cbn.
      destruct (H3 _ _ E) as (Ht & Hp & _). split_and!; [done|done|set_solver].
    + rewrite lookup_alter_ne by done. intros Hp. destruct (H3 _ _ Hp) as (Ht & Hpid & Hs).
      split_and!; [done|done|set_solver].
Qed.

Lemma walk_loop l c : spec True (walkP c) (renderer_loop l c) walkP.
Proof.
  revert c. induction l as [|i l IH]; intros c; cbn [renderer_loop]; [by apply spec_ret|].
  destruct i as [i|]; [|by intros s Hs]. intros s Hs.
  rewrite (run_bind _ _ _ _ _ eq_refl), (run_bind _ _ _ _ _ eq_refl).
  assert (Hr : keeps (walkP c) (st_when (IsRenderStateChange i (own s))
    (r_report RES_TYPE_AUDIO_RENDER_STATE_CHANGE (rendererState i) (MarshallingAudioRendererChangeInfo i))))
    by (apply keeps_when; by apply walk_report).
  revert s Hs Hr. intros s Hs Hr. revert Hs. generalize s at 1 3. apply spec_bind with (R := fun _ => walkP c); [exact Hr|].
  intros _. apply spec_bind with (R := walkP); [|apply IH].
  unfold HandleInnerAudioStateChange. destruct (_ =? _); [apply walk_run|].
  destruct (_ || _); [apply walk_stop|by apply spec_ret].
Qed.
(** What is left to do after the walk: processes to be told about, and processes to be
    looked at for their removal. *)
Record settling (news stops : list Z) (m : gmap Z ProcessRenderState) (l : list (RCall J)) : Prop := {
  se_told pid : inner pid l = Some AUDIO_STATE_RUNNING -> is_Some (m !! pid);
  se_entry pid p : m !! pid = Some p ->
    prs_pid p = pid
    /\ (inner pid l = Some AUDIO_STATE_RUNNING \/ pid ∈ news \/ renderRunningSessionSet p = ∅)
    /\ (renderRunningSessionSet p = ∅ -> pid ∈ stops);
}.
Definition settleP news stops s : Prop := settling news stops (processRenderStateMap_ (own s)) (calls s).

Lemma settle_start news stops :
  spec True (settleP news stops)
    (st_iter (fun pid : Z =>
      s ← r_get;
      p <-? processRenderStateMap_ s !! pid;
      ret_if bool_decide (renderRunningSessionSet p = ∅);
      r_report RES_TYPE_INNER_AUDIO_STATE AUDIO_STATE_RUNNING (MarshallingInnerAudioRendererChangeInfo p)) news)
    (fun _ => settleP [] stops).
Proof.
  induction news as [|pid news IH]; cbn [st_iter]; [by apply spec_ret|].
  apply spec_bind with (R := fun _ => settleP news stops); [|by intros _].
  intros s [H1 H2]. rewrite (run_bind _ _ _ _ _ eq_refl).
  destruct (processRenderStateMap_ (own s) !! pid) as [p|] eqn:E; cbn.
  - destruct (H2 _ _ E) as (Hp & _). case_bool_decide as Hempty; cbn; split; cbn; try done.
    + intros pid' p' E'. destruct (H2 _ _ E') as (? & Ht & ?). split_and!; [done| |done].
      destruct (decide (pid' = pid)) as [->|]; [|set_solver]. simplify_eq. auto.
    + intros pid'. unfold inner. rewrite (told_pid _ _ _ (prs_pid p)) by (apply payload_pid || done).
      case_decide as Hd; [|apply H1]. destruct Hd as [_ <-]. by rewrite Hp, E.
    + intros pid' p' E'. destruct (H2 _ _ E') as (? & Ht & ?). split_and!; [done| |done].
      unfold inner. rewrite (told_pid _ _ _ (prs_pid p)) by (apply payload_pid || done).
      case_decide as Hd; [by left|]. change (told _ pid' (calls s)) with (inner pid' (calls s)).
      assert (pid' <> pid) by (intros ->; apply Hd; split; [done|congruence]). set_solver.
  - split; [done|]. intros pid' p' E'. destruct (H2 _ _ E') as (? & Ht & ?). split_and!; [done| |done].
    assert (pid' <> pid) by (intros ->; congruence). set_solver.
Qed.

Lemma settle_stop stops :
  spec True (settleP [] stops)
    (st_iter (fun pid : Z =>
      s ← r_get;
      p <-? processRenderStateMap_ s !! pid;
      ret_if negb (bool_decide (renderRunningSessionSet p = ∅));
      r_upd (fun s : AudioObserver => s <| processRenderStateMap_ ::= delete pid |>);;
      r_report RES_TYPE_INNER_AUDIO_STATE AUDIO_STATE_STOP (MarshallingInnerAudioRendererChangeInfo p)) stops)
    (fun _ => settleP [] []).
Proof.
  induction stops as [|pid stops IH]; cbn [st_iter]; [by apply spec_ret|].
  apply spec_bind with (R := fun _ => settleP [] stops); [|by intros _].
  intros s [H1 H2]. rewrite (run_bind _ _ _ _ _ eq_refl).
  destruct (processRenderStateMap_ (own s) !! pid) as [p|] eqn:E; cbn.
  - destruct (H2 _ _ E) as (Hp & _). case_bool_decide as Hempty; cbn; split; cbn; try done.
    + intros pid'. unfold inner. rewrite (told_pid _ _ _ (prs_pid p)) by (apply payload_pid || done).
      case_decide as Hd; [done|]. intros Ht. rewrite lookup_delete_ne; [by apply H1|].
      intros <-. apply Hd. split; [done|congruence].
    + intros pid' p'. rewrite lookup_delete_Some. intros [Hne E']. destruct (H2 _ _ E') as (? & Ht & Hs).
      split_and!; [done| |intros He; specialize (Hs He); set_solver].
      unfold inner. rewrite (told_pid _ _ _ (prs_pid p)) by (apply payload_pid || done).
      by rewrite decide_False by (intros [_ ?]; congruence).
    + intros pid' p' E'. destruct (H2 _ _ E') as (? & Ht & Hs). split_and!; [done..|].
      intros He. specialize (Hs He). assert (pid' <> pid) by (intros ->; congruence). set_solver.
  - split; [done|]. intros pid' p' E'. destruct (H2 _ _ E') as (? & Ht & Hs). split_and!; [done..|].
    intros He. specialize (Hs He). assert (pid' <> pid) by (intros ->; congruence). set_solver.
Qed.

Lemma rend_OnRendererStateChange l : keeps rendP (OnRendererStateChange l).
Proof.
  unfold OnRendererStateChange. apply spec_bind with (R := walkP).
  - apply spec_conseq with (walkP (mkChanged ∅ ∅)) walkP; [apply walk_loop| |done].
    intros s [H1 H2]. split; [set_solver|intros pid; apply H1|].
    intros pid p E. destruct (H2 _ _ E) as [Hp Hne]. split_and!; [left; apply H1; by eexists|done|done].
  - intros c.
    apply spec_bind with (R := fun _ => settleP (set_order (newRunningPid c)) (set_order (newStopSessionPid c))).
    + apply spec_modify. intros s [H1 H2 H3]. split; cbn; [done|].
      intros pid p E. destruct (H3 _ _ E) as (Ht & Hp & Hs).
      rewrite !elem_of_set_order. tauto.
    + intros _. eapply spec_bind; [apply settle_start|]. intros ?. eapply spec_conseq; [apply settle_stop|done|].
      intros ? s [H1 H2]. split.
      * intros pid. split; [apply H1|]. intros [p E]. destruct (H2 _ _ E) as (_ & Ht & He). set_solver.
      * intros pid p E. destruct (H2 _ _ E) as (Hp & Ht & He). split; [done|set_solver].
Qed.

(** ** Capturers *)

Lemma cap_begin pid uid sessionId : keeps capP (ProcessCapturerBegin pid uid sessionId).
Proof.
  intros s [H1 H2]. unfold ProcessCapturerBegin. rewrite (run_bind _ _ _ _ _ eq_refl).
  case_bool_decide as Hin; cbn; split; cbn.
  - intros pid'. rewrite H1. destruct (decide (pid' = pid)) as [->|]; [|by rewrite lookup_insert_ne].
    rewrite lookup_insert_eq. by split.
  - intros pid' x. destruct (decide (pid' = pid)) as [->|]; [|rewrite !lookup_insert_ne by done; apply H2].
    rewrite !lookup_insert_eq. intros [= <-]. split; [set_solver|by eexists].
  - intros pid'. unfold capture. rewrite (told_pid _ _ _ pid) by (apply payload_pid || done).
    case_decide as Hd; [destruct Hd as [_ <-]; by rewrite lookup_insert_eq|].
    rewrite lookup_insert_ne by tauto. apply H1.
  - intros pid' x. destruct (decide (pid' = pid)) as [->|]; [|rewrite !lookup_insert_ne by done; apply H2].
    rewrite !lookup_insert_eq. intros [= <-]. split; [set_solver|by eexists].
Qed.

Lemma cap_end pid uid sessionId : keeps capP (ProcessCapturerEnd pid uid sessionId).
Proof.
  intros s [H1 H2]. unfold ProcessCapturerEnd. rewrite (run_bind _ _ _ _ _ eq_refl).
  destruct (capturerStateMap_ (own s) !! pid) as [x|] eqn:E; [|done].
  rewrite (run_bind _ _ _ _ _ eq_refl). case_bool_decide as Hempty; cbn; split; cbn.
  - intros pid'. unfold capture. rewrite (told_pid _ _ _ pid) by (apply payload_pid || done).
    rewrite delete_insert_eq. case_decide as Hd.
    + destruct Hd as [_ <-]. rewrite lookup_delete_eq. split; [done|by intros []].
    + rewrite lookup_delete_ne by tauto. apply H1.
  - intros pid' y. rewrite delete_insert_eq, lookup_delete_Some. intros [Hne Hy].
    rewrite lookup_delete_ne by done. by apply H2.
  - intros pid'. rewrite H1. destruct (decide (pid' = pid)) as [->|]; [|by rewrite lookup_insert_ne].
    rewrite lookup_insert_eq, E. by split.
  - intros pid' y. destruct (decide (pid' = pid)) as [->|]; [|rewrite lookup_insert_ne by done; apply H2].
    rewrite lookup_insert_eq. intros [= <-]. split; [done|by eapply H2].
Qed.

Lemma cap_OnCapturerStateChange l : keeps capP (OnCapturerStateChange l).
Proof.
  unfold OnCapturerStateChange, ReportCapturerStateChange. apply keeps_bind.
  - apply cap_report. by right.
  - intros _. apply keeps_iter. intros [i|]; [|apply keeps_ret]. destruct (_ =? 0); [apply keeps_ret|].
    destruct (_ =? _); [apply cap_begin|]. apply keeps_when, cap_end.
Qed.

Lemma cap_Unregister : keeps capP ProcessCapturerEndCaseByUnregister.
Proof.
  unfold ProcessCapturerEndCaseByUnregister. apply spec_bind with (R := fun m s => m = own s /\ capP s); [done|].
  intros m. case_bool_decide; [apply spec_ret; tauto|].
  set (left_to_tell := fun (pids : list Z) (s : With AudioObserver J) => forall pid, capture pid (calls s) = Some AUDIO_CAPTURE_BEGIN -> pid ∈ pids).
  apply spec_bind with (R := fun _ => left_to_tell []).
  - apply spec_conseq with (left_to_tell (set_order (dom (capturerStateMap_ m)))) (fun _ => left_to_tell []); [|..|done].
    + generalize (set_order (dom (capturerStateMap_ m))). intros pids.
      induction pids as [|pid pids IH]; [by apply spec_ret|]. cbn [st_iter].
      apply spec_bind with (R := fun _ => left_to_tell pids); [|by intros _].
      intros s Hs. rewrite (run_bind _ _ _ _ _ eq_refl). cbn. intros pid'. cbn. unfold capture.
      rewrite (told_pid _ _ _ pid) by (apply payload_pid || done). case_decide as Hd; [done|].
      intros Ht. specialize (Hs pid' Ht). assert (pid' <> pid) by (intros ->; apply Hd; done). set_solver.
    + intros s [-> [H1 H2]] pid Ht. rewrite elem_of_set_order, elem_of_dom. by apply H1.
  - intros _. apply spec_modify. intros s Hs. split; cbn.
    + intros pid. rewrite lookup_empty. split; [intros Ht; specialize (Hs _ Ht); set_solver|by intros []].
    + intros pid x. by rewrite lookup_empty.
Qed.
(** ** Histories *)

(** The callbacks, and the subscribing and unsubscribing of [ObserverManager]. *)
Inductive AEvent :=
  | ARenderers (l : list (option RendererInfo))
  | ACapturers (l : list (option CapturerInfo))
  | AUnregister
  | ARingerMode (ringerMode : Z)
  | AVolumeKey (volumeType volume : Z)
  | AScene (audioScene : Z)
  | ADevices (descs : list (Z * Z)).

Definition audio_event (e : AEvent) : ST (With AudioObserver J) unit :=
  match e with
  | ARenderers l => OnRendererStateChange l
  | ACapturers l => OnCapturerStateChange l
  | AUnregister => ProcessCapturerEndCaseByUnregister
  | ARingerMode m => OnRingerModeUpdated empty_object m
  | AVolumeKey t v => OnVolumeKeyEvent t v
  | AScene a => OnAudioSceneChange a
  | ADevices l => OnPreferredOutputDeviceUpdated l
  end.

Lemma cap_event e : keeps capP (audio_event e).
Proof.
  destruct e; cbn; auto using cap_OnRendererStateChange, cap_OnCapturerStateChange, cap_Unregister;
    unfold OnRingerModeUpdated, OnVolumeKeyEvent, OnAudioSceneChange, OnPreferredOutputDeviceUpdated; keeps_auto.
Qed.
Lemma rend_event e : keeps rendP (audio_event e).
Proof.
  destruct e; cbn; auto using rend_OnRendererStateChange, rend_OnCapturerStateChange, rend_Unregister;
    unfold OnRingerModeUpdated, OnVolumeKeyEvent, OnAudioSceneChange, OnPreferredOutputDeviceUpdated; keeps_auto.
Qed.

(** The framework gives no null renderer. *)
Definition no_null (e : AEvent) : Prop := match e with ARenderers l => Forall is_Some l | _ => True end.

Lemma total_r_get : total (r_get (J := J) (S := AudioObserver)).
Proof. intros s. by eexists. Qed.
Lemma total_r_report t v p : total (r_report (J := J) (S := AudioObserver) t v p).
Proof. apply total_modify. Qed.
Lemma total_r_upd f : total (r_upd (J := J) (S := AudioObserver) f).
Proof. apply total_modify. Qed.
#[local] Hint Resolve total_r_get total_r_report total_r_upd : total.

Lemma total_renderer_loop l c : Forall is_Some l -> total (renderer_loop l c).
Proof.
  intros Hl. revert c. induction Hl as [|i l [x ->] Hl IH]; intros c; cbn [renderer_loop]; [total_auto|].
  cbn [st_some]. unfold HandleInnerAudioStateChange, ProcessRunningSessionState, ProcessStopSessionState.
  total_auto; apply IH.
Qed.

Lemma total_event e : no_null e -> total (audio_event e).
Proof.
  intros He. destruct e; cbn; unfold OnRendererStateChange, HandleStartAudioStateEvent, HandleStopAudioStateEvent,
    OnRingerModeUpdated, OnVolumeKeyEvent, OnAudioSceneChange, OnPreferredOutputDeviceUpdated, OnCapturerStateChange,
    ReportCapturerStateChange, ProcessCapturerEndCaseByUnregister, ProcessCapturerBegin, ProcessCapturerEnd;
    total_auto; by apply total_renderer_loop.
Qed.

Lemma audio_history l :
  Forall no_null l ->
  exists s, st_iter audio_event l (mkWith new_AudioObserver []) = Some (tt, s) /\ capP s /\ rendP s.
Proof.
  intros Hl. set (s0 := mkWith new_AudioObserver []).
  assert (Hc : capP s0) by (split; cbn; [intros pid; split; [done|by intros []]|intros pid x; by rewrite lookup_empty]).
  assert (Hr : rendP s0) by (split; cbn; [intros pid; split; [done|by intros []]|intros pid x; by rewrite lookup_empty]).
  revert Hc Hr. generalize s0. induction Hl as [|e l He Hl IH]; intros s Hc Hr; [by exists s|].
  cbn [st_iter]. destruct (total_event e He s) as [[[] s'] E]. rewrite (run_bind _ _ _ _ _ E).
  apply IH; [by apply (keeps_run _ _ _ _ _ (cap_event e) Hc E)|by apply (keeps_run _ _ _ _ _ (rend_event e) Hr E)].
Qed.

(** C27: Over any history of callbacks of the audio framework that hands over no null renderer,
    in any order of the unordered sets, every callback returns; what the plugins were told last
    about the playing of a process is RUNNING just when the observer has an entry for it, which
    then names the process and has at least one running session; and what they were told last
    about its capturing is BEGIN just when it has a session that captures. *)
Theorem plugins_know_the_audio l :
  Forall no_null l ->
  exists s, st_iter audio_event l (mkWith new_AudioObserver []) = Some (tt, s) /\
    forall pid,
      (told RES_TYPE_INNER_AUDIO_STATE pid (calls s) = Some AUDIO_STATE_RUNNING <->
       exists p, processRenderStateMap_ (own s) !! pid = Some p /\ prs_pid p = pid /\ renderRunningSessionSet p <> ∅) /\
      (told RES_TYPE_AUDIO_CAPTURE_STATUS_CHANGED pid (calls s) = Some AUDIO_CAPTURE_BEGIN <->
       exists sessions, capturerStateMap_ (own s) !! pid = Some sessions /\ sessions <> ∅).
Proof.
  intros Hl. destruct (audio_history l Hl) as (s & E & [Hc1 Hc2] & [Hr1 Hr2]).
  exists s. split; [done|]. intros pid. split.
  - change (inner pid (calls s) = Some AUDIO_STATE_RUNNING <-> exists p, processRenderStateMap_ (own s) !! pid = Some p
      /\ prs_pid p = pid /\ renderRunningSessionSet p <> ∅). rewrite Hr1. split; [intros [p Hp]; eauto|].
    intros (p & Hp & _). by exists p.
  - change (capture pid (calls s) = Some AUDIO_CAPTURE_BEGIN <->
      exists sessions, capturerStateMap_ (own s) !! pid = Some sessions /\ sessions <> ∅). rewrite Hc1.
    split; [intros [x Hx]; exists x; split; [done|by eapply Hc2]|]. intros (x & Hx & _). by exists x.
Qed.
End facts.

(** ** A concrete framework *)

#[local] Instance demo_audio : AudioFramework := {|
  RENDERER_RUNNING := 2; RENDERER_STOPPED := 3; RENDERER_RELEASED := 4; RENDERER_PAUSED := 5;
  CAPTURER_RUNNING := 2; CAPTURER_STOPPED := 3; CAPTURER_RELEASED := 4;
  set_order := elements; set_order_perm := fun X => reflexivity _;
|}.

(** A process plays with two sessions and captures; one session pauses, and the capturer is
    released. *)
Definition demo_audio_history : list AEvent :=
  [ARenderers [Some (mkRendererInfo 20010 1 2 1234 0 1); Some (mkRendererInfo 20010 2 2 1234 0 1)];
   ACapturers [Some (mkCapturerInfo 20010 3 2 1234 0)];
   ARenderers [Some (mkRendererInfo 20010 1 5 1234 0 1)];
   ACapturers [Some (mkCapturerInfo 20010 3 4 1234 0)]].

Lemma plugins_know_the_audio_witness :
  Forall no_null demo_audio_history /\
  exists s, st_iter (audio_event (JObject [])) demo_audio_history (mkWith new_AudioObserver []) = Some (tt, s)
    /\ told RES_TYPE_INNER_AUDIO_STATE 1234 (calls s) = Some AUDIO_STATE_RUNNING
    /\ told RES_TYPE_AUDIO_CAPTURE_STATUS_CHANGED 1234 (calls s) = Some AUDIO_CAPTURE_END.
Proof.
  assert (Hn : Forall no_null demo_audio_history) by (repeat constructor; by eexists).
  split; [exact Hn|].
  destruct (plugins_know_the_audio (JObject []) demo_audio_history Hn) as (s & E & Hs).
  exists s. split; [exact E|]. vm_compute in E. injection E as <-. split; vm_compute; reflexivity.
Defined.
