(* ===== verification/AppStateObserver.v ===== *)
(** * The observer of application states

    [app_state_observer.cpp]: what the application manager tells becomes events.
    [app_startup_scene_rec.cpp]: applications that start one after the other are a scene,
    which is left fifteen seconds after the last start. *)
From S2P Require Import Prelude Json ResType CommonUtil SchedReports.

(** ** The outside *)

(** The states of the application framework, the values of [PreloadMode] and the rest being
    numbers, and [UIExtensionUtils::IsUIExtension]. *)
Class AppExecFwk := {
  EXTENSION_STATE_CREATE : Z;
  EXTENSION_STATE_READY : Z;
  EXTENSION_STATE_CONNECTED : Z;
  EXTENSION_STATE_DISCONNECTED : Z;
  EXTENSION_STATE_TERMINATED : Z;
  EXTENSION_STATE_FOREGROUND : Z;
  EXTENSION_STATE_BACKGROUND : Z;
  FWK_ABILITY_STATE_CREATE : Z;
  FWK_ABILITY_STATE_READY : Z;
  FWK_ABILITY_STATE_CONNECTED : Z;
  FWK_ABILITY_STATE_DISCONNECTED : Z;
  FWK_ABILITY_STATE_TERMINATED : Z;
  FWK_ABILITY_STATE_FOREGROUND : Z;
  FWK_ABILITY_STATE_BACKGROUND : Z;
  IsUIExtension : Z -> bool;
}.

(** [AppStateData], [AbilityStateData], [ProcessData], [PreloadProcessData] and
    [PageStateData]; a token is there or not. *)
Record AppStateData := mkAppStateData {
  as_pid : Z; as_uid : Z; as_bundleName : string; as_state : Z; as_extensionType : Z; as_isFocused : bool;
  as_isPreloadModule : Z; as_preloadMode : Z; as_callerBundleName : string; as_byCallStatus : Z }.
Record AbilityStateData := mkAbilityStateData {
  ab_pid : Z; ab_uid : Z; ab_bundleName : string; ab_abilityName : string; ab_token : bool; ab_isInnerNotify : bool;
  ab_abilityRecordId : Z; ab_abilityType : Z; ab_abilityState : Z; ab_callerUid : Z; ab_preloadMode : Z;
  ab_extensionAbilityType : Z; ab_processType : Z; ab_callerBundleName : string }.
Record ProcessData := mkProcessData {
  pd_pid : Z; pd_uid : Z; pd_processType : Z; pd_renderUid : Z; pd_bundleName : string; pd_state : Z;
  pd_extensionType : Z; pd_isKeepAlive : bool; pd_isTestMode : bool; pd_processName : string; pd_hostPid : Z;
  pd_callerPid : Z; pd_callerUid : Z; pd_killReason : string; pd_isPreloadModule : Z; pd_preloadMode : Z;
  pd_isPreloadUIExtension : bool }.
Record PreloadProcessData := mkPreloadProcessData {
  pp_isPreForeground : bool; pp_pid : Z; pp_uid : Z; pp_bundleName : string }.
Record PageStateData := mkPageStateData {
  pg_bundleName : string; pg_moduleName : string; pg_abilityName : string; pg_pageName : string;
  pg_targetBundleName : string; pg_targetModuleName : string }.

(** ** State *)

Definition CONTINUOUS_START_TIME_OUT : Z := 15 * 1000 * 1000. (* app_startup_scene_rec.cpp:24 *)
Definition MAX_NO_REPEAT_APP_COUNT : nat := 4. (* app_startup_scene_rec.cpp:25 *)
Definition MAX_CONTINUOUS_START_NUM : nat := 5. (* app_startup_scene_rec.cpp:26 *)
Definition APP_START_UP : Z := 0. (* app_startup_scene_rec.cpp:27 *)

(** app_startup_scene_rec.h:41-47 [appStartCount_] the queue holds the handles of tasks
    that wait; [next_task] is the handle of the next one *)
Record AppStartupSceneRec := mkAppStartupSceneRec {
  appStartCount_ : Z;
  lastAppStartTime_ : Z;
  isReportContinuousStartup_ : bool;
  startPkgs_ : list string;
  startUidSet_ : gset string;
  startup_queue : option (list nat);
  exitContinuousStartupTask : option nat;
  next_task : nat;
}.
#[export] Instance AppStartupSceneRec_eta : Eta AppStartupSceneRec := fun s =>
  mkAppStartupSceneRec (appStartCount_ s) (lastAppStartTime_ s) (isReportContinuousStartup_ s) (startPkgs_ s)
    (startUidSet_ s) (startup_queue s) (exitContinuousStartupTask s) (next_task s).

(** The recognizer, and the starts that [ffrt::submit] has not given to it yet. *)
Record AppStates := mkAppStates { startup : AppStartupSceneRec; submitted : list (string * string) }.
#[export] Instance AppStates_eta : Eta AppStates := fun s => mkAppStates (startup s) (submitted s).
Definition new_AppStates : AppStates := mkAppStates (mkAppStartupSceneRec 0 0 false [] ∅ None None 0) [].

(** ** Applications that start one after the other *)
Section startup.
Context {J : Type} `{!Json J}.
#[local] Abbreviation M := (ST (With AppStates J)).
#[local] Abbreviation upd_rec f := (r_upd (fun s : AppStates => s <| startup ::= f |>)).

(** app_startup_scene_rec.cpp:35-39 [AppStartupSceneRec::Init] *)
Definition Startup_Init : M unit := upd_rec (fun r => r <| startup_queue := Some [] |>).

(** [ffrtQueue_->cancel] of the pending exit; a queue that is not there is followed *)
Definition cancel_exit : M unit :=
  s ← r_get;
  h <-? exitContinuousStartupTask (startup s);
  _ ← st_some (startup_queue (startup s));
  upd_rec (fun r => r <| startup_queue ::= fmap (filter (.≠ h)) |> <| exitContinuousStartupTask := None |>).

(** app_startup_scene_rec.cpp:40-50 [AppStartupSceneRec::Deinit] *)
Definition Startup_Deinit : M unit :=
  cancel_exit;;
  upd_rec (fun r => r <| startup_queue := None |> <| startPkgs_ := [] |> <| startUidSet_ := ∅ |>).

(** app_startup_scene_rec.cpp:57-60 [AppStartupSceneRec::IsAppStartUp] *)
Definition IsAppStartUp (abilityState : Z) : bool := abilityState =? APP_START_UP.

(** app_startup_scene_rec.cpp:89-102 [AppStartupSceneRec::CleanRecordSceneData] *)
Definition CleanRecordSceneData : M unit :=
  upd_rec (fun r => r <| appStartCount_ := 0 |> <| startPkgs_ := [] |> <| startUidSet_ := ∅ |>
                      <| exitContinuousStartupTask := None |>);;
  s ← r_get;
  st_when (isReportContinuousStartup_ (startup s))
    (r_report RES_TYPE_CONTINUOUS_STARTUP STOP_CONTINUOUS_STARTUP json_null;;
     upd_rec (fun r => r <| isReportContinuousStartup_ := false |>)).

(** app_startup_scene_rec.cpp:103-114 [AppStartupSceneRec::UpdateAppStartupNum] a count of 32
    bits with a sign is undefined above its range *)
Definition UpdateAppStartupNum (uid : string) (curTime : Z) (bundleName : string) : M unit :=
  s ← r_get;
  (if appStartCount_ (startup s) =? 2 ^ 31 - 1 then st_undefined else
  upd_rec (fun r => r <| lastAppStartTime_ := curTime |> <| appStartCount_ ::= Z.add 1 |>);;
  ret_if isReportContinuousStartup_ (startup s);
  upd_rec (fun r => r <| startPkgs_ ::= fun l => l ++ [bundleName] |> <| startUidSet_ ::= union {[ uid ]} |>)).

(** app_startup_scene_rec.cpp:115-121 [AppStartupSceneRec::IsContinuousStartup] *)
Definition IsContinuousStartup (r : AppStartupSceneRec) : bool :=
  bool_decide (MAX_CONTINUOUS_START_NUM <= length (startPkgs_ r))%nat
  && bool_decide (MAX_NO_REPEAT_APP_COUNT <= size (startUidSet_ r))%nat.

(** [submit_h] of the exit, fifteen seconds after this start *)
Definition submit_exit : M unit :=
  s ← r_get;
  _ ← st_some (startup_queue (startup s));
  upd_rec (fun r => r <| startup_queue ::= fmap (fun l => l ++ [next_task r]) |>
                      <| exitContinuousStartupTask := Some (next_task r) |> <| next_task ::= S |>).

(** app_startup_scene_rec.cpp:62-88 [AppStartupSceneRec::RecordIsContinuousStartup] at a time
    of the clock *)
Definition RecordIsContinuousStartup (curTime : Z) (uid bundleName : string) : M unit :=
  cancel_exit;;
  s ← r_get;
  st_when (curTime - lastAppStartTime_ (startup s) >=? CONTINUOUS_START_TIME_OUT) CleanRecordSceneData;;
  UpdateAppStartupNum uid curTime bundleName;;
  s ← r_get;
  st_when (IsContinuousStartup (startup s) && negb (isReportContinuousStartup_ (startup s)))
    (r_report RES_TYPE_CONTINUOUS_STARTUP START_CONTINUOUS_STARTUP json_null;;
     upd_rec (fun r => r <| isReportContinuousStartup_ := true |>));;
  submit_exit.

(** app_startup_scene_rec.cpp:84-87 [submit_h] the
    delayed task, when it comes due *)
Definition exit_due (h : nat) : M unit :=
  s ← r_get;
  ret_if negb (bool_decide (h ∈ default [] (startup_queue (startup s))));
  upd_rec (fun r => r <| startup_queue ::= fmap (filter (.≠ h)) |>);;
  CleanRecordSceneData.

(** A start that was submitted is recorded. *)
Definition run_submitted (curTime : Z) : M unit :=
  s ← r_get;
  match submitted s with
  | [] => mret tt
  | (uid, bundleName) :: rest =>
      r_upd (fun s : AppStates => s <| submitted := rest |>);;
      RecordIsContinuousStartup curTime uid bundleName
  end.
End startup.

(** ** The observer *)
Section observer.
Context {J : Type} `{!Json J} `{!JsonMore J} `{!AppExecFwk}.
#[local] Abbreviation M := (ST (With AppStates J)).

(** app_state_observer.h:48-52 [ValidateAppStateData] *)
Definition ValidateAppStateData (d : AppStateData) : bool :=
  (as_uid d >? 0) && negb (bool_decide (as_bundleName d = "")).
(** app_state_observer.h:54-60 [ValidateAbilityStateData] *)
Definition ValidateAbilityStateData (d : AbilityStateData) : bool :=
  (ab_uid d >? 0) && (ab_pid d >=? 0) && negb (bool_decide (ab_bundleName d = ""))
  && negb (bool_decide (ab_abilityName d = "")) && ab_token d.
(** app_state_observer.h:62-66 [ValidateProcessData] *)
Definition ValidateProcessData (d : ProcessData) : bool :=
  (pd_uid d >? 0) && (pd_pid d >=? 0) && negb (bool_decide (pd_bundleName d = "")).
(** app_state_observer.h:68-71 [ValidateUIExtensionAbilityStateData] *)
Definition ValidateUIExtensionAbilityStateData (d : AbilityStateData) : bool := ab_extensionAbilityType d >=? 0.
(** app_state_observer.h:73-77 [ValidatePageStateData] *)
Definition ValidatePageStateData (d : PageStateData) : bool :=
  CheckBundleName (pg_bundleName d) && negb (bool_decide (pg_pageName d = "")).

Definition CALL_TO_BACKGROUND : Z := 1. (* app_state_observer.cpp:30 *)

(** app_state_observer.cpp:33-48 [extensionStateToAbilityState_] *)
Definition extensionStateToAbilityState_ : gmap Z Z := list_to_map
  [(EXTENSION_STATE_CREATE, FWK_ABILITY_STATE_CREATE); (EXTENSION_STATE_READY, FWK_ABILITY_STATE_READY);
   (EXTENSION_STATE_CONNECTED, FWK_ABILITY_STATE_CONNECTED);
   (EXTENSION_STATE_DISCONNECTED, FWK_ABILITY_STATE_DISCONNECTED);
   (EXTENSION_STATE_TERMINATED, FWK_ABILITY_STATE_TERMINATED);
   (EXTENSION_STATE_FOREGROUND, FWK_ABILITY_STATE_FOREGROUND);
   (EXTENSION_STATE_BACKGROUND, FWK_ABILITY_STATE_BACKGROUND)].

(** app_state_observer.cpp:50-63 [RmsApplicationStateObserver::OnForegroundApplicationChanged] *)
Definition OnForegroundApplicationChanged (d : AppStateData) : M unit :=
  ret_if negb (ValidateAppStateData d);
  r_report RES_TYPE_APP_STATE_CHANGE (as_state d)
    (fields [("pid", num (as_pid d)); ("uid", num (as_uid d)); ("bundleName", text (as_bundleName d));
             ("preloadMode", num (as_preloadMode d)); ("isFocused", num (Z.b2z (as_isFocused d)))]).

(** app_state_observer.cpp:145-165 [RmsApplicationStateObserver::IsUIExtensionAbilityStateChanged] *)
Definition IsUIExtensionAbilityStateChanged (d : AbilityStateData) : bool :=
  if negb (ValidateUIExtensionAbilityStateData d) then false
  else if negb (bool_decide (is_Some (extensionStateToAbilityState_ !! ab_abilityState d))) then false
  else IsUIExtension (ab_extensionAbilityType d).

(** app_state_observer.cpp:65-112 [RmsApplicationStateObserver::OnAbilityStateChanged] *)
Definition OnAbilityStateChanged (d : AbilityStateData) : M unit :=
  ret_if negb (ValidateAbilityStateData d);
  ret_if ab_isInnerNotify d;
  let '(abilityState, payload) :=
    if IsUIExtensionAbilityStateChanged d then
      match extensionStateToAbilityState_ !! ab_abilityState d with
      | Some st => (st, fields [("processType", num (ab_processType d)); ("uiExtensionState", num (ab_abilityState d))])
      | None => (ab_abilityState d, json_null)
      end
    else (ab_abilityState d, json_null) in
  r_report RES_TYPE_ABILITY_STATE_CHANGE abilityState
    (set_fields
      [("pid", num (ab_pid d)); ("uid", num (ab_uid d)); ("bundleName", text (ab_bundleName d));
       ("abilityName", text (ab_abilityName d)); ("recordId", num (ab_abilityRecordId d));
       ("abilityType", num (ab_abilityType d)); ("abilityState", num abilityState);
       ("callerUid", num (ab_callerUid d)); ("preloadMode", num (ab_preloadMode d));
       ("extensionAbilityType", num (ab_extensionAbilityType d))] payload);;
  st_when (IsAppStartUp abilityState)
    (r_upd (fun s : AppStates => s <| submitted ::= fun l => l ++ [(to_string (ab_uid d), ab_bundleName d)] |>)).

(** app_state_observer.cpp:114-143 [RmsApplicationStateObserver::OnExtensionStateChanged] *)
Definition OnExtensionStateChanged (d : AbilityStateData) : M unit :=
  ret_if negb (ValidateAbilityStateData d);
  if IsUIExtensionAbilityStateChanged d then OnAbilityStateChanged d else
  r_report RES_TYPE_EXTENSION_STATE_CHANGE (ab_abilityState d)
    (fields
      [("pid", num (ab_pid d)); ("uid", num (ab_uid d)); ("bundleName", text (ab_bundleName d));
       ("abilityName", text (ab_abilityName d)); ("recordId", num (ab_abilityRecordId d));
       ("extensionState", num (ab_abilityState d)); ("abilityType", num (ab_abilityType d));
       ("extensionAbilityType", num (ab_extensionAbilityType d));
       ("callerBundleName", text (ab_callerBundleName d))]).

(** app_state_observer.cpp:167-186 [RmsApplicationStateObserver::MarshallingProcessData] *)
Definition MarshallingProcessData (d : ProcessData) : J :=
  fields
    [("pid", num (pd_pid d)); ("uid", num (pd_uid d)); ("processType", num (pd_processType d));
     ("renderUid", num (pd_renderUid d)); ("bundleName", text (pd_bundleName d)); ("state", num (to_u32 (pd_state d)));
     ("extensionType", num (to_u32 (pd_extensionType d))); ("isKeepAlive", num (Z.b2z (pd_isKeepAlive d)));
     ("isTestMode", num (Z.b2z (pd_isTestMode d))); ("processName", text (pd_processName d));
     ("hostPid", num (pd_hostPid d)); ("callerPid", num (pd_callerPid d)); ("callerUid", num (pd_callerUid d));
     ("killReason", text (pd_killReason d)); ("isPreloadModule", num (pd_isPreloadModule d));
     ("preloadMode", num (pd_preloadMode d)); ("isPreloadUIExtension", num (Z.b2z (pd_isPreloadUIExtension d)))].

(** app_state_observer.cpp:188-199 [RmsApplicationStateObserver::OnProcessCreated] *)
Definition OnProcessCreated (d : ProcessData) : M unit :=
  ret_if negb (ValidateProcessData d);
  r_report RES_TYPE_PROCESS_STATE_CHANGE PROCESS_CREATED (MarshallingProcessData d).

(** app_state_observer.cpp:201-214 [RmsApplicationStateObserver::OnProcessDied] *)
Definition OnProcessDied (d : ProcessData) : M unit :=
  ret_if negb (ValidateProcessData d);
  r_report RES_TYPE_PROCESS_STATE_CHANGE PROCESS_DIED (MarshallingProcessData d);;
  r_call (RProcessState PROCESS_DIED (pd_pid d)).

(** app_state_observer.cpp:216-236 [RmsApplicationStateObserver::OnApplicationStateChanged] *)
Definition OnApplicationStateChanged (d : AppStateData) : M unit :=
  ret_if negb (ValidateAppStateData d);
  r_report RES_TYPE_APP_STATE_CHANGE (as_state d)
    (fields
      [("pid", num (as_pid d)); ("uid", num (as_uid d)); ("bundleName", text (as_bundleName d));
       ("extensionType", num (to_u32 (as_extensionType d))); ("isPreload", num (as_isPreloadModule d));
       ("preloadMode", num (as_preloadMode d)); ("state", num (as_state d));
       ("callerBundleName", text (as_callerBundleName d));
       ("isStartedByCallToBackground", num (Z.b2z (as_byCallStatus d =? CALL_TO_BACKGROUND)))]);;
  r_call (RAppState (as_state d) (as_pid d)).

(** app_state_observer.cpp:238-247 [RmsApplicationStateObserver::MarshallingAppStateData] *)
Definition MarshallingAppStateData (d : AppStateData) : J :=
  fields
    [("pid", json_of_int (as_pid d)); ("uid", json_of_int (as_uid d)); ("bundleName", text (as_bundleName d));
     ("state", json_of_unsigned (to_u32 (as_state d)));
     ("extensionType", json_of_unsigned (to_u32 (as_extensionType d)));
     ("isFocused", json_of_bool (as_isFocused d)); ("preloadMode", num (as_preloadMode d))].

(** app_state_observer.cpp:249-261 [RmsApplicationStateObserver::OnAppStateChanged] *)
Definition OnAppStateChanged (d : AppStateData) : M unit :=
  ret_if negb (ValidateAppStateData d);
  r_report RES_TYPE_ON_APP_STATE_CHANGED (as_state d) (MarshallingAppStateData d);;
  r_call (RAppState (as_state d) (as_pid d)).

(** app_state_observer.cpp:263-275 [RmsApplicationStateObserver::OnAppCacheStateChanged] *)
Definition OnAppCacheStateChanged (d : AppStateData) : M unit :=
  ret_if negb (ValidateAppStateData d);
  r_report RES_TYPE_KEY_PERF_SCENE (as_state d) (json_set "extType" (num 10008) (MarshallingAppStateData d)).

(** app_state_observer.cpp:277-283 [RmsApplicationStateObserver::MarshallingPreForegroundData] *)
Definition MarshallingPreForegroundData (d : PreloadProcessData) : J :=
  fields
    [("isPreForeground", json_of_bool (pp_isPreForeground d)); ("pid", json_of_int (pp_pid d));
     ("uid", json_of_int (pp_uid d)); ("bundleName", text (pp_bundleName d))].

(** app_state_observer.cpp:285-295 [RmsApplicationStateObserver::OnProcessPreForegroundChanged] *)
Definition OnProcessPreForegroundChanged (d : PreloadProcessData) : M unit :=
  ret_if (pp_uid d <=? 0) || (pp_pid d <=? 0);
  r_report RES_TYPE_PROCESS_PRE_FOREGROUND_CHANGE 0 (MarshallingPreForegroundData d).

(** app_state_observer.cpp:297-309 [RmsApplicationStateObserver::OnProcessStateChanged] *)
Definition OnProcessStateChanged (d : ProcessData) : M unit :=
  ret_if negb (ValidateProcessData d);
  r_report RES_TYPE_PROCESS_STATE_CHANGE (pd_state d) (MarshallingProcessData d);;
  r_call (RProcessState (pd_state d) (pd_pid d)).

(** app_state_observer.cpp:311-321 [RmsApplicationStateObserver::OnAppStopped] *)
Definition OnAppStopped (d : AppStateData) : M unit :=
  ret_if negb (ValidateAppStateData d);
  r_report RES_TYPE_APP_STOPPED (as_state d) (MarshallingAppStateData d).

(** app_state_observer.cpp:323-331 [RmsApplicationStateObserver::MarshallingPageStateData] *)
Definition MarshallingPageStateData (d : PageStateData) : J :=
  fields
    [("bundleName", text (pg_bundleName d)); ("moduleName", text (pg_moduleName d));
     ("abilityName", text (pg_abilityName d)); ("pageName", text (pg_pageName d));
     ("targetBundleName", text (pg_targetBundleName d)); ("targetModuleName", text (pg_targetModuleName d))].

(** app_state_observer.cpp:333-343 [RmsApplicationStateObserver::OnPageShow] *)
Definition OnPageShow (d : PageStateData) : M unit :=
  ret_if negb (ValidatePageStateData d);
  r_report RES_TYPE_PAGE_CHANGE 0 (MarshallingPageStateData d).
End observer.
