(* ===== verification/StartupFacts.v ===== *)
(** * Facts about applications that start one after the other

    The scene of continuous starts is told exactly while the starts of the last run, which
    ends with a pause of fifteen seconds, are enough. *)
From S2P Require Import Prelude Json ResType SchedReports AppStateObserver.

(** ** The reference: the run of starts *)

(** What happens: a start at a time, or the time-out. *)
Inductive StartEvent :=
  | EStart (curTime : Z) (uid bundleName : string)
  | EExitDue (h : nat).

(** The uids of the starts since the last pause, with the time of the last one. *)
Record Run := mkRun { run_uids : list string; run_last : Z }.
(** Enough starts, of enough applications. *)
Definition enough (r : Run) : Prop :=
  (MAX_CONTINUOUS_START_NUM <= length (run_uids r))%nat
  /\ (MAX_NO_REPEAT_APP_COUNT <= size (list_to_set (run_uids r) : gset string))%nat.

Section facts.
Context {J : Type} `{!Json J}.
Implicit Types s : With AppStates J.

Definition start_event (e : StartEvent) : ST (With AppStates J) unit :=
  match e with
  | EStart curTime uid bundleName => RecordIsContinuousStartup curTime uid bundleName
  | EExitDue h => exit_due h
  end.

(** The task that is due is the one of the last start: an earlier one was cancelled. *)
Definition run_step (pending : list nat) (r : Run) (e : StartEvent) : Run :=
  match e with
  | EStart curTime uid _ =>
      mkRun ((if curTime - run_last r >=? CONTINUOUS_START_TIME_OUT then [] else run_uids r) ++ [uid]) curTime
  | EExitDue h => if bool_decide (h ∈ pending) then mkRun [] (run_last r) else r
  end.

Definition pending s : list nat := default [] (startup_queue (startup (own s))).

(** The history with its run beside it. *)
Fixpoint run_history (l : list StartEvent) (r : Run) s : option (Run * With AppStates J) :=
  match l with
  | [] => Some (r, s)
  | e :: l =>
      match start_event e s with
      | Some (_, s') => run_history l (run_step (pending s) r e) s'
      | None => None
      end
  end.

(** The reports about the scene. *)
Definition scenes (l : list (RCall J)) : list Z :=
  omap (fun c => match c with
    | RReport t v _ => if t =? RES_TYPE_CONTINUOUS_STARTUP then Some v else None
    | _ => None end) l.
(** START and STOP by turns, and the last one. *)
Fixpoint turns (n : nat) : list Z :=
  match n with
  | O => []
  | S n => [START_CONTINUOUS_STARTUP; STOP_CONTINUOUS_STARTUP] ++ turns n
  end.
Definition by_turns (on : bool) (l : list Z) : Prop :=
  exists n, l = turns n ++ (if on then [START_CONTINUOUS_STARTUP] else []).

Lemma turns_snoc n : turns (S n) = turns n ++ [START_CONTINUOUS_STARTUP; STOP_CONTINUOUS_STARTUP].
Proof. induction n as [|n IH]; [done|]. cbn [turns] in *. rewrite IH at 1. by rewrite <- !app_assoc. Qed.

Lemma scenes_snoc l c : scenes (l ++ [c]) = scenes l ++ scenes [c].
Proof. apply omap_app. Qed.

(** ** The invariant *)

Definition gathered (r : Run) (a : AppStartupSceneRec) : Prop :=
  length (startPkgs_ a) = length (run_uids r) /\ startUidSet_ a = list_to_set (run_uids r).

#[local] Arguments scenes : simpl never.

(** What holds while a start is recorded: [settled] says that the flag is right. *)
Record recording (settled : Prop) (n : Z) (r : Run) s : Prop := {
  re_told : by_turns (isReportContinuousStartup_ (startup (own s))) (scenes (calls s));
  re_on : isReportContinuousStartup_ (startup (own s)) = true -> enough r;
  re_off : isReportContinuousStartup_ (startup (own s)) = false -> gathered r (startup (own s)) /\ (settled -> ~ enough r);
  re_last : lastAppStartTime_ (startup (own s)) = run_last r;
  re_count : 0 <= appStartCount_ (startup (own s)) <= n;
}.

(** No exit waits, or the one of the last start. *)
Definition idle s : Prop := startup_queue (startup (own s)) = Some [] /\ exitContinuousStartupTask (startup (own s)) = None.
Definition waiting s : Prop :=
  exists h, startup_queue (startup (own s)) = Some [h] /\ exitContinuousStartupTask (startup (own s)) = Some h.

Definition startup_ok (n : Z) (r : Run) s : Prop :=
  recording True n r s /\ (waiting s \/ idle s /\ isReportContinuousStartup_ (startup (own s)) = false).

Lemma by_turns_on l : by_turns false l -> by_turns true (l ++ [START_CONTINUOUS_STARTUP]).
Proof. intros [n ->]. exists n. by rewrite app_nil_r. Qed.
Lemma by_turns_off l : by_turns true l -> by_turns false (l ++ [STOP_CONTINUOUS_STARTUP]).
Proof. intros [n ->]. exists (S n). by rewrite app_nil_r, turns_snoc, <- app_assoc. Qed.

Lemma not_enough_nil t : ~ enough (mkRun [] t).
Proof. intros [Hn _]. cbn in Hn. unfold MAX_CONTINUOUS_START_NUM in Hn. lia. Qed.

Lemma enough_more l u t t' : enough (mkRun l t) -> enough (mkRun (l ++ [u]) t').
Proof.
  intros [H1 H2]. split; cbn in *; [rewrite length_app; cbn; lia|].
  etrans; [exact H2|]. apply subseteq_size. rewrite list_to_set_app. set_solver.
Qed.

Lemma cancel_spec n r : spec False (startup_ok n r) cancel_exit (fun _ s => recording True n r s /\ idle s).
Proof.
  intros s [[H1 H2 H3 H4 H5] Hq]. unfold cancel_exit. rewrite (run_bind _ _ _ _ _ eq_refl).
  destruct Hq as [(h & Hq & He)|[[Hq He] Hf]]; rewrite He; [|by split].
  rewrite Hq. cbn. split; [by split|]. split; cbn; [|done]. rewrite Hq. cbn.
  by rewrite decide_False by tauto.
Qed.

Lemma clean_spec n r : spec False (fun s => recording True n r s /\ startup_queue (startup (own s)) = Some [])
  CleanRecordSceneData
  (fun _ s => recording True n (mkRun [] (run_last r)) s /\ idle s /\ isReportContinuousStartup_ (startup (own s)) = false).
Proof.
  intros s [[H1 H2 H3 H4 H5] Hq]. unfold CleanRecordSceneData. rewrite !(run_bind _ _ _ _ _ eq_refl).
  assert (Hnil : forall t, True -> ~ enough (mkRun [] t)) by (intros t _; apply not_enough_nil).
  destruct (isReportContinuousStartup_ (startup (own s))) eqn:Eon; cbn; rewrite ?Eon; cbn;
    (split; [split; cbn; try done; try lia|]); rewrite ?Eon; try done.
  - rewrite scenes_snoc. by apply by_turns_off.
  - intros _. split; [by split|apply Hnil].
  - intros _. split; [by split|apply Hnil].
Qed.

Lemma update_spec n r uid curTime bundleName : n < 2 ^ 31 - 1 ->
  spec False (fun s => recording True n r s /\ idle s) (UpdateAppStartupNum uid curTime bundleName)
    (fun _ s => recording False (n + 1) (mkRun (run_uids r ++ [uid]) curTime) s /\ idle s).
Proof.
  intros Hn s [[H1 H2 H3 H4 H5] Hq]. unfold UpdateAppStartupNum. rewrite (run_bind _ _ _ _ _ eq_refl).
  destruct (Z.eqb_spec (appStartCount_ (startup (own s))) (2 ^ 31 - 1)) as [E|_]; [lia|].
  rewrite (run_bind _ _ _ _ _ eq_refl). destruct r as [l t]. cbn in *.
  destruct (isReportContinuousStartup_ (startup (own s))) eqn:Eon; cbn; (split; [|done]); split; cbn;
    rewrite ?Eon; try done; try lia.
  - intros _. eapply enough_more. by apply H2.
  - intros _. split; [|done]. destruct (H3 eq_refl) as [[Hp Hu] _]. split; cbn.
    + rewrite !length_app, Hp. done.
    + rewrite Hu, list_to_set_app_L. cbn. set_solver.
Qed.

Lemma enough_gathered r (a : AppStartupSceneRec) : gathered r a -> IsContinuousStartup a = true <-> enough r.
Proof.
  intros [Hp Hu]. unfold IsContinuousStartup, enough. rewrite Hp, Hu, andb_true_iff, !bool_decide_eq_true. done.
Qed.

Lemma announce_spec n r :
  spec False (fun s => recording False n r s /\ idle s)
    (s ← r_get;
     st_when (IsContinuousStartup (startup s) && negb (isReportContinuousStartup_ (startup s)))
       (r_report RES_TYPE_CONTINUOUS_STARTUP START_CONTINUOUS_STARTUP json_null;;
        r_upd (fun s : AppStates => s <| startup ::= fun r => r <| isReportContinuousStartup_ := true |> |>)))
    (fun _ s => recording True n r s /\ idle s).
Proof.
  intros s [[H1 H2 H3 H4 H5] Hq]. rewrite (run_bind _ _ _ _ _ eq_refl).
  destruct (isReportContinuousStartup_ (startup (own s))) eqn:Eon.
  - rewrite andb_false_r. cbn. split; [|done]. split; rewrite ?Eon; try done; lia.
  - destruct (H3 eq_refl) as [Hg _]. pose proof (enough_gathered r _ Hg) as He.
    destruct (IsContinuousStartup (startup (own s))) eqn:Ec; cbn; (split; [|done]).
    + split; cbn; try done; [rewrite scenes_snoc; by apply by_turns_on|intros _; by apply He].
    + split; rewrite ?Eon; try done. intros _. split; [done|]. intros _ Hen. apply He in Hen. congruence.
Qed.

Lemma submit_spec n r : spec False (fun s => recording True n r s /\ idle s) submit_exit (fun _ => startup_ok n r).
Proof.
  intros s [[H1 H2 H3 H4 H5] [Hq He]]. unfold submit_exit. rewrite (run_bind _ _ _ _ _ eq_refl). rewrite Hq. cbn.
  split; [by split|]. left. eexists. cbn. rewrite Hq. done.
Qed.

Lemma start_spec n r curTime uid bundleName : n < 2 ^ 31 - 1 ->
  spec False (startup_ok n r) (RecordIsContinuousStartup curTime uid bundleName)
    (fun _ => startup_ok (n + 1) (run_step [] r (EStart curTime uid bundleName))).
Proof.
  intros Hn. unfold RecordIsContinuousStartup. eapply spec_bind; [apply cancel_spec|]. intros ?.
  apply spec_bind with (R := fun x s => x = own s /\ recording True n r s /\ idle s); [done|]. intros x.
  set (r' := mkRun (if curTime - run_last r >=? CONTINUOUS_START_TIME_OUT then [] else run_uids r) (run_last r)).
  apply spec_bind with (R := fun _ s => recording True n r' s /\ idle s).
  - intros s (-> & Hs & Hi). rewrite (re_last _ _ _ _ Hs). unfold r'. destruct (_ >=? _); cbn.
    + pose proof (clean_spec n r s (conj Hs (proj1 Hi))) as Hc. destruct (CleanRecordSceneData s) as [[[] s']|]; tauto.
    + destruct r. by split.
  - intros _. eapply spec_bind; [apply (update_spec n r' uid curTime bundleName Hn)|]. intros ?.
    cbn [run_step]. intros s Hs. rewrite (run_bind _ _ _ _ _ eq_refl).
    pose proof (announce_spec _ _ s Hs) as Ha. rewrite (run_bind _ _ _ _ _ eq_refl) in Ha. cbn [run_uids r'] in Ha.
    unfold mbind at 1, ST_bind. destruct (st_when _ _ s) as [[[] s']|]; [|done]. by apply submit_spec.
Qed.

Lemma exit_spec n r h p : 0 <= n ->
  spec False (fun s => startup_ok n r s /\ pending s = p) (exit_due h) (fun _ => startup_ok n (run_step p r (EExitDue h))).
Proof.
  intros Hn s [Hs <-]. unfold exit_due, run_step. rewrite (run_bind _ _ _ _ _ eq_refl). fold (pending s).
  destruct (bool_decide (h ∈ pending s)) eqn:Eh; [|done]. apply bool_decide_eq_true in Eh. cbn [negb].
  rewrite (run_bind _ _ _ _ _ eq_refl). destruct Hs as [Hs [(h' & Hq & He)|[[Hq He] Hf]]]; unfold pending in Eh; rewrite Hq in Eh;
    cbn in Eh; [apply list_elem_of_singleton in Eh as ->|by apply elem_of_nil in Eh].
  match goal with |- match CleanRecordSceneData ?x with _ => _ end =>
    pose proof (clean_spec n r x) as Hc; destruct (CleanRecordSceneData x) as [[[] s']|] end.
  - destruct Hc as (H1 & H2 & H3); [|split; [done|by right]]. split.
    + by destruct Hs.
    + cbn. rewrite Hq. cbn. by rewrite decide_False by tauto.
  - apply Hc. split; [by destruct Hs|]. cbn. rewrite Hq. cbn. by rewrite decide_False by tauto.
Qed.

Lemma startup_history l n r s :
  startup_ok n r s -> 0 <= n -> n + Z.of_nat (length l) < 2 ^ 31 ->
  exists r' s', run_history l r s = Some (r', s') /\ startup_ok (n + Z.of_nat (length l)) r' s'.
Proof.
  revert n r s. induction l as [|e l IH]; intros n r s Hs Hn Hl; cbn [run_history length] in *.
  - exists r, s. split; [done|]. by rewrite Z.add_0_r.
  - assert (Hstep : match start_event e s with
      | Some (_, s') => startup_ok (n + 1) (run_step (pending s) r e) s' | None => False end).
    { destruct e as [t u b|h]; cbn [start_event].
      - apply (start_spec n r t u b); [lia|done].
      - pose proof (exit_spec n r h (pending s) Hn s (conj Hs eq_refl)) as He.
        destruct (exit_due h s) as [[[] s']|]; [|done]. destruct He as [[H1 H2 H3 H4 H5] Hq].
        split; [|done]. split; try done. lia. }
    destruct (start_event e s) as [[[] s']|]; [|done].
    destruct (IH (n + 1) _ _ Hstep) as (r' & s'' & E & Hs''); [lia..|].
    exists r', s''. split; [done|]. by replace (n + Z.of_nat (S (length l))) with (n + 1 + Z.of_nat (length l)) by lia.
Qed.

(** C29: From the initialisation on, over any history of fewer than 2^31 starts and time-outs,
    every one returns; START and STOP of the scene are told by turns; the last told is START
    exactly while the run of starts since the last pause of fifteen seconds has at least five
    starts of at least four applications; and then the time-out that ends the scene waits. *)
Theorem continuous_startup_exact l :
  Z.of_nat (length l) < 2 ^ 31 ->
  exists r s0 s, Startup_Init (mkWith new_AppStates ([] : list (RCall J))) = Some (tt, s0)
    /\ run_history l (mkRun [] 0) s0 = Some (r, s)
    /\ by_turns (bool_decide (MAX_CONTINUOUS_START_NUM <= length (run_uids r))%nat
                 && bool_decide (MAX_NO_REPEAT_APP_COUNT <= size (list_to_set (run_uids r) : gset string))%nat)
         (scenes (calls s))
    /\ (enough r -> exists h, pending s = [h] /\ exitContinuousStartupTask (startup (own s)) = Some h).
Proof.
  intros Hl.
  assert (H0 : startup_ok 0 (mkRun [] 0)
    (mkWith (new_AppStates <| startup ::= fun r => r <| startup_queue := Some [] |> |>) ([] : list (RCall J)))).
  { split; [|by right]. split; cbn; try done; [by exists 0%nat|]. intros _. split; [by split|intros _; apply not_enough_nil]. }
  destruct (startup_history l 0 _ _ H0) as (r & s & E & [[H1 H2 H3 H4 H5] Hq]); [lia..|].
  eexists r, _, s. split; [reflexivity|]. split; [exact E|]. split.
  - replace (_ && _) with (isReportContinuousStartup_ (startup (own s))); [exact H1|].
    apply eq_true_iff_eq. rewrite andb_true_iff, !bool_decide_eq_true.
    change (isReportContinuousStartup_ (startup (own s)) = true <-> enough r). split; [exact H2|].
    intros He. destruct (isReportContinuousStartup_ (startup (own s))) eqn:Ef; [done|]. destruct (H3 eq_refl) as [_ Hne]. by destruct Hne.
  - intros He. destruct Hq as [(h & Hq & Hx)|[_ Ef]]; [exists h; unfold pending; by rewrite Hq|].
    destruct (H3 Ef) as [_ Hne]. by destruct Hne.
Qed.
End facts.

(** Four applications are started five times within a second, a sixth start comes twenty
    seconds later. *)
Definition demo_starts : list StartEvent :=
  [EStart 1000000 "1" "a"; EStart 1200000 "2" "b"; EStart 1400000 "1" "a"; EStart 1600000 "3" "c";
   EStart 1800000 "4" "d"; EStart 21000000 "5" "e"].

Lemma continuous_startup_exact_witness :
  Z.of_nat (length demo_starts) < 2 ^ 31
  /\ exists r s0 s, Startup_Init (mkWith new_AppStates ([] : list (RCall json))) = Some (tt, s0)
    /\ run_history demo_starts (mkRun [] 0) s0 = Some (r, s)
    /\ scenes (calls s) = [START_CONTINUOUS_STARTUP; STOP_CONTINUOUS_STARTUP].
Proof.
  assert (Hl : Z.of_nat (length demo_starts) < 2 ^ 31) by reflexivity.
  split; [exact Hl|]. destruct (continuous_startup_exact (J := json) demo_starts Hl) as (r & s0 & s & E0 & E & _).
  exists r, s0, s. split; [exact E0|]. split; [exact E|].
  injection E0 as <-. vm_compute in E. injection E as <- <-. vm_compute. reflexivity.
Defined.
