(* ===== verification/WindowObservers.v ===== *)
(** * The observers of windows, displays and sessions

    [window_state_observer.cpp], [fold_display_mode_observer.cpp], [connection_subscriber.cpp],
    [av_session_state_listener.cpp], [account_observer.cpp], [continuation_observer.cpp],
    [display_power_event_observer.cpp], [download_upload_observer.cpp], [mmi_observer.cpp] and
    [sched_telephony_observer.cpp]: callbacks of other services become events. *)
From S2P Require Import Prelude Json ResType CommonUtil SchedReports.

(** ** The outside *)

(** The enumerations of the window and the display manager. *)
Class Rosen := {
  WINDOW_VISIBILITY_STATE_TOTALLY_OCCUSION : Z;
  ROSEN_WINDOW_MODE_SPLIT : Z;
  ROSEN_WINDOW_MODE_FLOATING : Z;
  ROSEN_WINDOW_MODE_FULLSCREEN_FLOATING : Z;
  ROSEN_WINDOW_MODE_SPLIT_FLOATING : Z;
  WINDOW_STYLE_FREE_MULTI_WINDOW : Z;
  FOLD_FULL : Z;
  FOLD_SUB : Z;
  FOLD_MAIN : Z;
  FOLD_GLOBAL_FULL : Z;
  DISPLAY_WAKE_UP : Z;
  EVENT_BEGIN : Z;
}.

(** [FocusChangeInfo], [WindowVisibilityInfo], [WindowDrawingContentInfo], [ConnectionData],
    [DlpStateData], [AVSessionDescriptor] and [OnCallbackInfo]. *)
Record FocusChangeInfo := mkFocusChangeInfo {
  fc_pid : Z; fc_uid : Z; fc_windowId : Z; fc_windowType : Z; fc_displayId : Z; fc_realDisplayId : Z }.
Record WindowVisibilityInfo := mkWindowVisibilityInfo {
  wv_pid : Z; wv_uid : Z; wv_windowId : Z; wv_windowType : Z; wv_visibilityState : Z; wv_callingPid : Z;
  wv_moduleName : string }.
Record WindowDrawingContentInfo := mkWindowDrawingContentInfo {
  wd_pid : Z; wd_uid : Z; wd_windowId : Z; wd_windowType : Z; drawingContentState_ : bool }.
Record ConnectionData := mkConnectionData {
  extensionPid : Z; extensionUid : Z; extensionBundleName : string; extensionModuleName : string;
  extensionName : string; cd_extensionType : Z; cd_callerUid : Z; cd_callerPid : Z; cd_callerName : string;
  cd_isSuspended : bool }.
Record DlpStateData := mkDlpStateData {
  targetPid : Z; targetUid : Z; targetBundleName : string; targetModuleName : string; targetAbilityName : string;
  dlp_callerUid : Z; dlp_callerPid : Z; dlp_callerName : string }.
Record AVSessionDescriptor := mkAVSessionDescriptor { av_sessionId : string; av_pid : Z; av_uid : Z }.
Record OnCallbackInfo := mkOnCallbackInfo { continueState : Z; oc_bundleName : string; continueType : string }.

(** ** State *)

Definition DISPLAY_MODE_FULL : string := "displayFull". (* fold_display_mode_observer.cpp:29 *)
Definition DISPLAY_MODE_SUB : string := "displaySub". (* fold_display_mode_observer.cpp:30 *)
Definition DISPLAY_MODE_MAIN : string := "displayMain". (* fold_display_mode_observer.cpp:31 *)
Definition DISPLAY_MODE_GLOBAL_FULL : string := "displayGlobalFull". (* fold_display_mode_observer.cpp:32 *)
Definition DISPLAY_ORIENTATION_LANDSCAPE : string := "displayLandscape". (* fold_display_mode_observer.cpp:33 *)
Definition DISPLAY_ORIENTATION_PORTRAIT : string := "displayPortrait". (* fold_display_mode_observer.cpp:34 *)
Definition FOLD_DEVICE_MODE_STR : string := "deviceMode". (* fold_display_mode_observer.cpp:35 DEVICE_MODE_STR *)
Definition FOLD_DEVICE_MODE_TYPE_KEY : string := "deviceModeType". (* fold_display_mode_observer.cpp:36 DEVICE_MODE_TYPE_KEY *)
Definition DISPLAY_MODE_KEY : string := "display". (* fold_display_mode_observer.cpp:37 *)
Definition DEVICE_ORIENTATION_TYPE_KEY : string := "deviceOrientation". (* fold_display_mode_observer.cpp:38 *)
Definition DISPLAY_MODE_UNKOWN : string := "displayUnknown". (* fold_display_mode_observer.h:29 *)

(** The constants of [RSSWindowMode]. *)
Definition WINDOW_MODE_SPLIT_FLOATING : Z := 0. (* window_state_observer.h:41 *)
Definition WINDOW_MODE_SPLIT : Z := 1. (* window_state_observer.h:42 *)
Definition WINDOW_MODE_FLOATING : Z := 2. (* window_state_observer.h:43 *)
Definition WINDOW_MODE_OTHER : Z := 3. (* window_state_observer.h:44 *)
Definition WINDOW_MODE_FLOATING_CHANGED : Z := 1. (* window_state_observer.h:49 *)
Definition WINDOW_MODE_SPLIT_CHANGED : Z := 2. (* window_state_observer.h:50 *)
Definition WINDOW_MODE_SPLIT_FLOATING_CHANGED : Z := 3. (* window_state_observer.h:51 *)
Definition WINDOW_MODE_SPLIT_BIT : Z := 1. (* window_state_observer.cpp:26 *)
Definition WINDOW_MODE_BIT_EXIT : Z := 1. (* window_state_observer.cpp:27 *)
Definition FREE_MULTI_WINDOW_STATE_CHANGE : Z := 10024. (* window_state_observer.cpp:28 *)
Definition CONTINUATION_STATE : Z := 0. (* continuation_observer.cpp:27 *)
Definition MMI_STATE : Z := 0. (* mmi_observer.cpp:28 *)

(** The members of these observers that change. *)
Record Watched := mkWatched {
  lastWindowMode_ : Z;
  currentDisplayMode : string;
  displayOrientation_ : string;
  currentDisplayOrientation_ : string;
  isReportedScene_ : bool;
}.
#[export] Instance Watched_eta : Eta Watched := fun s =>
  mkWatched (lastWindowMode_ s) (currentDisplayMode s) (displayOrientation_ s) (currentDisplayOrientation_ s)
    (isReportedScene_ s).
Definition new_Watched : Watched :=
  mkWatched WINDOW_MODE_OTHER DISPLAY_MODE_UNKOWN DISPLAY_MODE_UNKOWN DISPLAY_MODE_UNKOWN false.

Section watched.
Context {J : Type} `{!Json J} `{!JsonText J} `{!JsonMore J} `{!Rosen}.
#[local] Abbreviation M := (ST (With Watched J)).

(** ** Windows *)

(** window_state_observer.cpp:36-42 [focusChangeInfo] the payload *)
Definition focus_payload (i : FocusChangeInfo) : J :=
  fields [("pid", num (fc_pid i)); ("uid", num (fc_uid i)); ("windowId", num (fc_windowId i));
          ("windowType", num (fc_windowType i)); ("displayId", num (fc_displayId i));
          ("realDisplayId", num (fc_realDisplayId i))].

(** window_state_observer.cpp:30-45 [WindowStateObserver::OnFocused] *)
Definition OnFocused (info : option FocusChangeInfo) : M unit :=
  i <-? info; r_report RES_TYPE_WINDOW_FOCUS WINDOW_FOCUS (focus_payload i).

(** window_state_observer.cpp:47-62 [WindowStateObserver::OnUnfocused] *)
Definition OnUnfocused (info : option FocusChangeInfo) : M unit :=
  i <-? info; r_report RES_TYPE_WINDOW_FOCUS WINDOW_UNFOCUS (focus_payload i).

(** window_state_observer.cpp:64-76 [WindowVisibilityObserver::MarshallingWindowVisibilityInfo] *)
Definition MarshallingWindowVisibilityInfo (i : WindowVisibilityInfo) : J :=
  let isVisible := wv_visibilityState i <? WINDOW_VISIBILITY_STATE_TOTALLY_OCCUSION in
  fields [("pid", num (wv_pid i)); ("uid", num (wv_uid i)); ("windowId", num (wv_windowId i));
          ("windowType", num (wv_windowType i)); ("isVisible", json_of_bool isVisible);
          ("visibilityState", num (wv_visibilityState i)); ("callingPid", num (wv_callingPid i));
          ("moduleName", text (wv_moduleName i))].

(** window_state_observer.cpp:78-93 [WindowVisibilityObserver::OnWindowVisibilityChanged] *)
Definition OnWindowVisibilityChanged (l : list (option WindowVisibilityInfo)) : M unit :=
  st_iter (fun info =>
    i <-? info;
    r_report RES_TYPE_WINDOW_VISIBILITY_CHANGE
      (if wv_visibilityState i <? WINDOW_VISIBILITY_STATE_TOTALLY_OCCUSION then VISIBLE else INVISIBLE)
      (MarshallingWindowVisibilityInfo i)) l.

(** window_state_observer.cpp:95-103 [WindowDrawingContentObserver::MarshallingWindowDrawingContentInfo] *)
Definition MarshallingWindowDrawingContentInfo (i : WindowDrawingContentInfo) : J :=
  fields [("pid", num (wd_pid i)); ("uid", num (wd_uid i)); ("windowId", num (wd_windowId i));
          ("windowType", num (wd_windowType i)); ("drawingContentState", json_of_bool (drawingContentState_ i))].

(** window_state_observer.cpp:105-120 [WindowDrawingContentObserver::OnWindowDrawingContentChanged] *)
Definition OnWindowDrawingContentChanged (l : list (option WindowDrawingContentInfo)) : M unit :=
  st_iter (fun info =>
    i <-? info;
    r_report RES_TYPE_WINDOW_DRAWING_CONTENT_CHANGE (if drawingContentState_ i then Drawing else NotDrawing)
      (MarshallingWindowDrawingContentInfo i)) l.

(** window_state_observer.cpp:151-170 [WindowModeObserver::MarshallingWindowModeType] *)
Definition MarshallingWindowModeType (mode : Z) : Z :=
  if mode =? ROSEN_WINDOW_MODE_SPLIT then WINDOW_MODE_SPLIT
  else if (mode =? ROSEN_WINDOW_MODE_FLOATING) || (mode =? ROSEN_WINDOW_MODE_FULLSCREEN_FLOATING) then
    WINDOW_MODE_FLOATING
  else if mode =? ROSEN_WINDOW_MODE_SPLIT_FLOATING then WINDOW_MODE_SPLIT_FLOATING
  else WINDOW_MODE_OTHER.

(** window_state_observer.cpp:121-149 [WindowModeObserver::OnWindowModeUpdate] *)
Definition OnWindowModeUpdate (mode : Z) : M unit :=
  s ← r_get;
  let nowWindowMode := MarshallingWindowModeType mode in
  let windowModeChangeBit := Z.lxor nowWindowMode (lastWindowMode_ s) in
  let windowModeSplitValue := Z.land (Z.shiftr nowWindowMode WINDOW_MODE_SPLIT_BIT) WINDOW_MODE_BIT_EXIT in
  let windowModeFloatingValue := Z.land nowWindowMode WINDOW_MODE_BIT_EXIT in
  (if windowModeChangeBit =? WINDOW_MODE_FLOATING_CHANGED then
     r_report RES_TYPE_FLOATING_WINDOW windowModeFloatingValue json_null
   else if windowModeChangeBit =? WINDOW_MODE_SPLIT_CHANGED then
     r_report RES_TYPE_SPLIT_SCREEN windowModeSplitValue json_null
   else st_when (windowModeChangeBit =? WINDOW_MODE_SPLIT_FLOATING_CHANGED)
     (r_report RES_TYPE_SPLIT_SCREEN windowModeSplitValue json_null;;
      r_report RES_TYPE_FLOATING_WINDOW windowModeFloatingValue json_null));;
  r_upd (fun s => s <| lastWindowMode_ := nowWindowMode |>).

(** window_state_observer.cpp:189-198 [WindowModeObserver::GetCurrentUserId] from the active
    accounts, when they can be read *)
Definition GetCurrentUserId (userIds : option (list Z)) : option Z := userIds ≫= head.

(** window_state_observer.cpp:172-187 [WindowModeObserver::InitWindowMode] with the mode that
    the window manager of a user gives *)
Definition InitWindowMode (userIds : option (list Z)) (GetWindowModeType : Z -> option Z) : M unit :=
  type <-? GetWindowModeType (default (-1) (GetCurrentUserId userIds));
  r_upd (fun s => s <| lastWindowMode_ := MarshallingWindowModeType type |>).

(** window_state_observer.cpp:200-207 [PiPStateObserver::OnPiPStateChanged] *)
Definition OnPiPStateChanged (bundleName : string) (isForeground : bool) : M unit :=
  r_report RES_TRPE_PIP_STATUS (Z.b2z isForeground) (fields [("bundleName", text bundleName)]).

(** window_state_observer.cpp:209-217 [WindowStyleObserver::OnWindowStyleUpdate] *)
Definition OnWindowStyleUpdate (styleType : Z) : M unit :=
  r_report RES_TYPE_KEY_PERF_SCENE (if styleType =? WINDOW_STYLE_FREE_MULTI_WINDOW then 1 else 0)
    (fields [("extType", num FREE_MULTI_WINDOW_STATE_CHANGE)]).

(** ** Displays *)

(** fold_display_mode_observer.cpp:63-69 [FoldDisplayModeObserver::ReportDisplayModeStatus] *)
Definition ReportDisplayModeStatus (status : Z) (mode : string) : M unit :=
  r_report RES_TYPE_DEVICE_MODE_STATUS status
    (fields [(FOLD_DEVICE_MODE_TYPE_KEY, text DISPLAY_MODE_KEY); (FOLD_DEVICE_MODE_STR, text mode)]).

(** The report and the new mode of the branches that enter one. *)
Definition enter_display_mode (mode : string) : M unit :=
  ReportDisplayModeStatus MODE_ENTER mode;;
  r_upd (fun s => s <| currentDisplayMode := mode |>).

(** fold_display_mode_observer.cpp:41-61 [FoldDisplayModeObserver::OnDisplayModeChanged] *)
Definition OnDisplayModeChanged (diplayMode : Z) : M unit :=
  if diplayMode =? FOLD_FULL then enter_display_mode DISPLAY_MODE_FULL
  else if diplayMode =? FOLD_SUB then enter_display_mode DISPLAY_MODE_SUB
  else if diplayMode =? FOLD_MAIN then enter_display_mode DISPLAY_MODE_MAIN
  else if diplayMode =? FOLD_GLOBAL_FULL then enter_display_mode DISPLAY_MODE_GLOBAL_FULL
  else
    s ← r_get;
    ReportDisplayModeStatus MODE_QUIT (currentDisplayMode s);;
    r_upd (fun s => s <| currentDisplayMode := DISPLAY_MODE_UNKOWN |>).

(** fold_display_mode_observer.cpp:97-103 [FoldDisplayOrientationObserver::ReportDisplayOrientationStatus] *)
Definition ReportDisplayOrientationStatus (status : Z) (orientation : string) : M unit :=
  r_report RES_TYPE_DEVICE_ORIENTATION_STATUS status
    (fields [(FOLD_DEVICE_MODE_TYPE_KEY, text DEVICE_ORIENTATION_TYPE_KEY); (FOLD_DEVICE_MODE_STR, text orientation)]).

(** fold_display_mode_observer.cpp:81-94 [FoldDisplayOrientationObserver::OnChange] with width
    and height of the default display, if there is one *)
Definition OnChange (defaultDisplay : option (Z * Z)) : M unit :=
  match defaultDisplay with
  | Some (deviceWidth, deviceHeight) =>
      r_upd (fun s => s <| displayOrientation_ :=
        if deviceHeight >? deviceWidth then DISPLAY_ORIENTATION_PORTRAIT else DISPLAY_ORIENTATION_LANDSCAPE |>)
  | None => mret tt
  end;;
  s ← r_get;
  ret_if bool_decide (displayOrientation_ s = currentDisplayOrientation_ s);
  ReportDisplayOrientationStatus MODE_ENTER (displayOrientation_ s);;
  r_upd (fun s => s <| currentDisplayOrientation_ := displayOrientation_ s |>).

(** display_power_event_observer.cpp:25-39 [DisplayPowerEventObserver::OnDisplayPowerEvent] *)
Definition OnDisplayPowerEvent (event status : Z) : M unit :=
  ret_if negb (event =? DISPLAY_WAKE_UP);
  st_when (status =? EVENT_BEGIN) (r_report RES_TYPE_DISPLAY_POWER_WAKE_UP WAKE_UP_START json_null).

(** ** Connections, sessions, accounts, input, telephony *)

(** connection_subscriber.cpp:23-36 [ConnectionSubscriber::MarshallingConnectionData] *)
Definition MarshallingConnectionData (d : ConnectionData) : J :=
  fields
    [("extensionPid", json_of_int (extensionPid d)); ("extensionUid", json_of_int (extensionUid d));
     ("extensionBundleName", text (extensionBundleName d)); ("extensionModuleName", text (extensionModuleName d));
     ("extensionName", text (extensionName d)); ("extensionType", json_of_unsigned (to_u32 (cd_extensionType d)));
     ("callerUid", json_of_int (cd_callerUid d)); ("callerPid", json_of_int (cd_callerPid d));
     ("callerName", text (cd_callerName d)); ("isSuspended", json_of_bool (cd_isSuspended d))].

Definition report_connection (status : Z) (payload : J) : M unit := r_report RES_TYPE_CONNECTION_OBSERVER status payload.

(** connection_subscriber.cpp:38-45 [ConnectionSubscriber::OnExtensionConnected] *)
Definition OnExtensionConnected (d : ConnectionData) : M unit :=
  report_connection EXTENSION_CONNECTED (MarshallingConnectionData d).
(** connection_subscriber.cpp:47-54 [ConnectionSubscriber::OnExtensionDisconnected] *)
Definition OnExtensionDisconnected (d : ConnectionData) : M unit :=
  report_connection EXTENSION_DISCONNECTED (MarshallingConnectionData d).
(** connection_subscriber.cpp:56-63 [ConnectionSubscriber::OnExtensionSuspended] *)
Definition OnExtensionSuspended (d : ConnectionData) : M unit :=
  report_connection EXTENSION_SUSPENDED (MarshallingConnectionData d).
(** connection_subscriber.cpp:65-72 [ConnectionSubscriber::OnExtensionResumed] *)
Definition OnExtensionResumed (d : ConnectionData) : M unit :=
  report_connection EXTENSION_RESUMED (MarshallingConnectionData d).

(** connection_subscriber.cpp:74-84 [ConnectionSubscriber::MarshallingDlpStateData] *)
Definition MarshallingDlpStateData (d : DlpStateData) : J :=
  fields
    [("targetPid", json_of_int (targetPid d)); ("targetUid", json_of_int (targetUid d));
     ("targetBundleName", text (targetBundleName d)); ("targetModuleName", text (targetModuleName d));
     ("targetAbilityName", text (targetAbilityName d)); ("callerUid", json_of_int (dlp_callerUid d));
     ("callerPid", json_of_int (dlp_callerPid d)); ("callerName", text (dlp_callerName d))].

(** connection_subscriber.cpp:86-93 [ConnectionSubscriber::OnDlpAbilityOpened] *)
Definition OnDlpAbilityOpened (d : DlpStateData) : M unit :=
  report_connection DLP_ABILITY_OPENED (MarshallingDlpStateData d).
(** connection_subscriber.cpp:95-102 [ConnectionSubscriber::OnDlpAbilityClosed] *)
Definition OnDlpAbilityClosed (d : DlpStateData) : M unit :=
  report_connection DLP_ABILITY_CLOSED (MarshallingDlpStateData d).

(** av_session_state_listener.cpp:24-30 [AvSessionStateListener::MarshallingAVSessionDescriptor] *)
Definition MarshallingAVSessionDescriptor (d : AVSessionDescriptor) : J :=
  fields [("sessionId_", text (av_sessionId d)); ("pid_", json_of_int (av_pid d)); ("uid_", json_of_int (av_uid d))].
(** av_session_state_listener.cpp:32-38 [AvSessionStateListener::OnSessionCreate] *)
Definition OnSessionCreate (d : AVSessionDescriptor) : M unit :=
  r_report RES_TYPE_AV_SESSION_ON_SESSION_CREATE 0 (MarshallingAVSessionDescriptor d).
(** av_session_state_listener.cpp:40-46 [AvSessionStateListener::OnSessionRelease] *)
Definition OnSessionRelease (d : AVSessionDescriptor) : M unit :=
  r_report RES_TYPE_AV_SESSION_ON_SESSION_RELEASE 0 (MarshallingAVSessionDescriptor d).
(** av_session_state_listener.cpp:48-54 [AvSessionStateListener::OnTopSessionChange] *)
Definition OnTopSessionChange (d : AVSessionDescriptor) : M unit :=
  r_report RES_TYPE_AV_SESSION_ON_TOP_SESSION_CHANGE 0 (MarshallingAVSessionDescriptor d).

(** account_observer.cpp:31-37 [AccountObserver::OnAccountsChanged] *)
Definition OnAccountsChanged (id : Z) : M unit := r_report RES_TYPE_ACCOUNT_ACTIVATING 0 (fields [("id", num id)]).

(** continuation_observer.cpp:29-38 [ContinuationObserver::OnCallback] *)
Definition OnCallback (info : OnCallbackInfo) : M unit :=
  r_report RES_TYPE_DISTRIBUTED_CONTINUATION_EVENT CONTINUATION_STATE
    (fields [("continueState", num (continueState info)); ("bundleName", text (oc_bundleName info));
             ("continueType", text (continueType info))]).

(** mmi_observer.cpp:30-45 [MmiObserver::SyncBundleName] *)
Definition SyncBundleName (pid uid : Z) (bundleName : string) (syncStatus : Z) : M unit :=
  ret_if negb (CheckBundleName bundleName);
  r_report RES_TYPE_MMI_INPUT_STATE MMI_STATE
    (fields [("pid", num pid); ("uid", num uid); ("bundleName", text bundleName); ("syncStatus", num syncStatus)]).

(** sched_telephony_observer.cpp:23-28 [SchedTelephonyObserver::OnCallStateUpdated] *)
Definition OnCallStateUpdated (callState : Z) : M unit := r_report RES_TYPE_CALL_STATE_UPDATE callState json_object.

(** ** Uploads and downloads *)

(** download_upload_observer.cpp:35-41 [DownLoadUploadObserver::IsReporEnterScene] *)
Definition IsReporEnterScene (count : Z) (s : Watched) : bool := (count >? 0) && negb (isReportedScene_ s).
(** download_upload_observer.cpp:43-49 [DownLoadUploadObserver::IsReporExitScene] *)
Definition IsReporExitScene (count : Z) (s : Watched) : bool := (count =? 0) && isReportedScene_ s.
(** download_upload_observer.cpp:51-57 [DownLoadUploadObserver::HandleEnterScene] *)
Definition HandleEnterScene : M unit :=
  r_report RES_TYPE_UPLOAD_DOWNLOAD ENTER_UPLOAD_DOWNLOAD_SCENE json_object;;
  r_upd (fun s => s <| isReportedScene_ := true |>).
(** download_upload_observer.cpp:59-65 [DownLoadUploadObserver::HandleExitScene] *)
Definition HandleExitScene : M unit :=
  r_report RES_TYPE_UPLOAD_DOWNLOAD EXIT_UPLOAD_DOWNLOAD_SCENE json_object;;
  r_upd (fun s => s <| isReportedScene_ := false |>).

(** download_upload_observer.cpp:23-33 [DownLoadUploadObserver::OnRunningTaskCountUpdate] *)
Definition OnRunningTaskCountUpdate (count : Z) : M unit :=
  s ← r_get;
  if IsReporEnterScene count s then HandleEnterScene
  else st_when (IsReporExitScene count s) HandleExitScene.
End watched.

(** ** The observer of system events

    [hisysevent_observer.cpp]: events that other services log, as texts of JSON, become
    events about codecs, running locks, cameras and the wireless network. *)
Definition WIFI_CONNECTION : string := "WIFI_CONNECTION". (* hisysevent_observer.cpp:26 *)
Definition WIFI_SCAN : string := "WIFI_SCAN". (* hisysevent_observer.cpp:27 *)
Definition CAMERA_CONNECT : string := "CAMERA_CONNECT". (* hisysevent_observer.cpp:28 *)
Definition CAMERACONNECT : Z := 0. (* hisysevent_observer.cpp:30 *)
Definition CAMERADISCONNECT : Z := 1. (* hisysevent_observer.cpp:31 *)
Definition RUNNINGLOCK_DISABLE : Z := 0. (* hisysevent_observer.cpp:32 *)
Definition RUNNINGLOCK_ENABLE : Z := 1. (* hisysevent_observer.cpp:33 *)
Definition RUNNINGLOCK_PROXIED : Z := 2. (* hisysevent_observer.cpp:34 *)
Definition HISYSEVENT_MAX_LENGTH : nat := 1024. (* hisysevent_observer.cpp:35 MAX_LENGTH *)

Definition LOCK_STATE_DISABLE : Z := 0. (* hisysevent_observer.h:64 RUNNINGLOCK_STATE_DISABLE *)
Definition LOCK_STATE_ENABLE : Z := 1. (* hisysevent_observer.h:65 RUNNINGLOCK_STATE_ENABLE *)
Definition LOCK_STATE_PROXIED : Z := 2. (* hisysevent_observer.h:66 RUNNINGLOCK_STATE_PROXIED *)
Definition LOCK_STATE_UNPROXIED_RESTORE : Z := 3. (* hisysevent_observer.h:67 RUNNINGLOCK_STATE_UNPROXIED_RESTORE *)
Definition WIFI_CONNECTED : Z := 0. (* hisysevent_observer.h:74 CONNECTED *)
Definition WIFI_DISCONNECTED : Z := 1. (* hisysevent_observer.h:75 DISCONNECTED *)

Section hisysevent.
Context {J : Type} `{!Json J} `{!JsonText J} `{!JsonMore J}.
(** The observer keeps no state that changes. *)
#[local] Abbreviation M := (ST (With unit J)).

(** hisysevent_observer.cpp:64-72 [HiSysEventObserver::CheckJsonValue] *)
Definition CheckJsonValue (value : J) (params : list string) : bool :=
  forallb (fun param => bool_decide (is_Some (json_find param value))) params.

(** A field that is there and an integer. *)
Definition int_field (root : J) (key : string) : option Z := json_find key root ≫= json_integer.

(** hisysevent_observer.cpp:118-149 [HiSysEventObserver::ProcessAvCodecEvent] *)
Definition ProcessAvCodecEvent (root : J) (eventName : string) : M unit :=
  uid <-? int_field root "CLIENT_UID";
  pid <-? int_field root "CLIENT_PID";
  instanceId <-? int_field root "CODEC_INSTANCE_ID";
  let payload := fields [("uid", num (to_s32 uid)); ("pid", num (to_s32 pid)); ("instanceId", num (to_s32 instanceId))] in
  if bool_decide (eventName = "CODEC_START_INFO") then r_report RES_TYPE_AV_CODEC_STATE CODEC_START_INFO payload
  else st_when (bool_decide (eventName = "CODEC_STOP_INFO")) (r_report RES_TYPE_AV_CODEC_STATE CODEC_STOP_INFO payload).

(** hisysevent_observer.cpp:151-202 [HiSysEventObserver::ProcessRunningLockEvent] *)
Definition ProcessRunningLockEvent (root : J) (eventName : string) : M unit :=
  uid <-? int_field root "UID";
  pid <-? int_field root "PID";
  type <-? int_field root "TYPE";
  let payload := fields [("uid", num (to_s32 uid)); ("pid", num (to_s32 pid)); ("type", num (to_u32 type))] in
  state <-? int_field root "STATE";
  let lockState := to_s32 state in
  if lockState =? LOCK_STATE_DISABLE then r_report RES_TYPE_RUNNINGLOCK_STATE RUNNINGLOCK_DISABLE payload
  else if lockState =? LOCK_STATE_ENABLE then r_report RES_TYPE_RUNNINGLOCK_STATE RUNNINGLOCK_ENABLE payload
  else st_when ((lockState =? LOCK_STATE_PROXIED) || (lockState =? LOCK_STATE_UNPROXIED_RESTORE))
    (r_report RES_TYPE_RUNNINGLOCK_STATE RUNNINGLOCK_PROXIED payload).

(** hisysevent_observer.cpp:204-227 [HiSysEventObserver::ProcessCameraEvent] *)
Definition ProcessCameraEvent (root : J) (eventName : string) : M unit :=
  uid <-? int_field root "UID";
  pid <-? int_field root "PID";
  let payload := fields [("uid", num (to_s32 uid)); ("pid", num (to_s32 pid))] in
  r_report RES_TYPE_REPORT_CAMERA_STATE
    (if bool_decide (eventName = CAMERA_CONNECT) then CAMERACONNECT else CAMERADISCONNECT) payload.

(** hisysevent_observer.cpp:229-274 [HiSysEventObserver::ProcessWifiEvent] *)
Definition ProcessWifiEvent (root : J) (eventName : string) : M unit :=
  uid <-? int_field root "uid_";
  pid <-? int_field root "pid_";
  let payload := fields [("uid", num (to_s32 uid)); ("pid", num (to_s32 pid))] in
  type <-? int_field root "TYPE";
  let connectionType := to_s32 type in
  if bool_decide (eventName = WIFI_CONNECTION) then
    if connectionType =? WIFI_CONNECTED then
      r_report RES_TYPE_WIFI_CONNECT_STATE_CHANGE WIFI_STATE_CONNECTED payload
    else st_when (connectionType =? WIFI_DISCONNECTED)
      (r_report RES_TYPE_WIFI_CONNECT_STATE_CHANGE WIFI_STATE_DISCONNECTED payload)
  else st_when (bool_decide (eventName = WIFI_SCAN))
    (r_report RES_TYPE_WIFI_CONNECT_STATE_CHANGE WIFI_STATE_SCAN payload).

(** hisysevent_observer.cpp:38-57 [HiSysEventObserver::HiSysEventObserver] *)
Definition handleObserverMap_ : gmap string (J -> string -> M unit) := list_to_map
  [("RUNNINGLOCK", ProcessRunningLockEvent); ("CAMERA_CONNECT", ProcessCameraEvent);
   ("CAMERA_DISCONNECT", ProcessCameraEvent); ("WIFI_CONNECTION", ProcessWifiEvent); ("WIFI_SCAN", ProcessWifiEvent)].

(** hisysevent_observer.cpp:102-116 [HiSysEventObserver::ProcessHiSysEvent] [at] and [get]
    throw without a text in the field *)
Definition ProcessHiSysEvent (eventName : string) (root : J) : M unit :=
  domain ← st_some (find_string "domain_" root);
  if bool_decide (domain = "AV_CODEC") then ProcessAvCodecEvent root eventName
  else function <-? handleObserverMap_ !! eventName; function root eventName.

(** hisysevent_observer.cpp:74-100 [HiSysEventObserver::OnEvent] on the text of the record, if
    there is one *)
Definition HiSysEvent_OnEvent (sysEvent : option string) : M unit :=
  eventDetail <-? sysEvent;
  ret_if bool_decide (HISYSEVENT_MAX_LENGTH < String.length eventDetail)%nat;
  root <-? json_parse eventDetail;
  ret_if negb (CheckJsonValue root ["domain_"; "name_"]) || negb (bool_decide (is_Some (find_string "domain_" root)))
         || negb (bool_decide (is_Some (find_string "name_" root)));
  eventName ← st_some (find_string "name_" root);
  ProcessHiSysEvent eventName root.
End hisysevent.
