(* ===== verification/OobeManager.v ===== *)
(** * Tasks that wait for the first start

    [oobe_manager.cpp], [oobe_datashare_utils.cpp]: until the user has agreed to the basic
    statement, tasks are kept; the setting is read from the data share, watched there, and
    polled for a while. *)
From S2P Require Import Prelude CommonUtil ServiceWorld.

(** ** The outside *)

(** What a query for a setting answers: no result set, or the number of rows and the text of
    the first, if it can be read. *)
Inductive QueryAnswer :=
  | DsNull
  | DsRows (count : Z) (value : option string).

(** The data share, and whether the ability of this service is found; further error codes. *)
Class DataShare (K : Type) := {
  ds_GetSystemAbility : K -> bool;
  ds_Create : K -> bool * K;
  ds_Query : string -> K -> QueryAnswer * K;
  ERR_NO_INIT : Z;
  ERR_NAME_NOT_FOUND : Z;
}.

(** What is called there; an observer is there or null.  And the tasks that ran. *)
Inductive DsCall :=
  | DsRegister (uri : string)
  | DsUnregister (uri : string) (observer : bool)
  | DsRelease.

(** ** State *)

Definition KEYWORD : string := "basic_statement_agreed". (* oobe_manager.cpp:31 *)
Definition MAX_RETRY_COUNT : Z := 150. (* oobe_manager.cpp:32 *)
Definition DELAYTIME_US : Z := 2 * 1000 * 1000. (* oobe_manager.cpp:33 *)
Definition OOBE_INVALID : Z := -1. (* oobe_manager.h:61 INVALID *)
Definition OOBE_IS_FALSE : Z := 0. (* oobe_manager.h:62 IS_FALSE *)
Definition OOBE_IS_TRUE : Z := 1. (* oobe_manager.h:63 IS_TRUE *)
Definition SETTING_URI_PROXY : string :=
  "datashare:///com.ohos.settingsdata/entry/settingsdata/SETTINGSDATA?Proxy=true". (* oobe_datashare_utils.cpp:35 *)

(** The function of an observer: only [StartListen] makes one, which reads the setting. *)
Inductive UpdateFunc := FlushFunc.

(** oobe_manager.h:65-69 [OOBEManager] with the state of [DataShareUtils], the delayed checks
    and the ready callbacks that wait, and what was called and run; a task is a number *)
Record Oobe (K : Type) := mkOobe {
  oobeValue_ : Z;
  oobeTasks_ : list nat;
  dataShareFunctions_ : list (string * UpdateFunc);
  observer_ : option (option UpdateFunc);
  remoteObj_ : bool;
  isDataShareReady_ : bool;
  isConnectDataShareSucc : bool;
  checks : list Z;
  readies : nat;
  ds_calls : list DsCall;
  executed : list nat;
  ds_env : K;
}.
Arguments mkOobe {_}. Arguments oobeValue_ {_}. Arguments oobeTasks_ {_}. Arguments dataShareFunctions_ {_}.
Arguments observer_ {_}. Arguments remoteObj_ {_}. Arguments isDataShareReady_ {_}.
Arguments isConnectDataShareSucc {_}. Arguments checks {_}. Arguments readies {_}. Arguments ds_calls {_}.
Arguments executed {_}. Arguments ds_env {_}.
#[export] Instance Oobe_eta K : Eta (Oobe K) := fun s =>
  mkOobe (oobeValue_ s) (oobeTasks_ s) (dataShareFunctions_ s) (observer_ s) (remoteObj_ s) (isDataShareReady_ s)
    (isConnectDataShareSucc s) (checks s) (readies s) (ds_calls s) (executed s) (ds_env s).
Definition new_Oobe {K} (k : K) : Oobe K := mkOobe OOBE_INVALID [] [] None false false false [] 0 [] [] k.

(** [strtoll] of a text: the nearest number of 64 bits. *)
Definition strtoll (s : string) : Z := Z.max (- 2 ^ 63) (Z.min (2 ^ 63 - 1) (parse_dec s)).

Section oobe.
Context {K : Type} `{!DataShare K} `{!ErrCodes}.
#[local] Abbreviation M := (ST (Oobe K)).

Definition ds_record (c : DsCall) : M unit := st_modify (fun s => s <| ds_calls ::= fun l => l ++ [c] |>).
(** A call of the data share that answers. *)
Definition ds_ask {A} (f : K -> A * K) : M A := fun s =>
  let '(a, k) := f (ds_env s) in Some (a, s <| ds_env := k |>).

(** ** The data share *)

(** oobe_datashare_utils.cpp:114-131 [DataShareUtils::InitSystemAbilityManager] *)
Definition InitSystemAbilityManager : M unit :=
  s ← st_get;
  st_when (ds_GetSystemAbility (ds_env s)) (st_modify (fun s => s <| remoteObj_ := true |>)).

(** oobe_datashare_utils.cpp:41-46 [DataShareUtils::GetInstance] *)
Definition DataShareUtils_GetInstance : M unit := InitSystemAbilityManager.

(** oobe_datashare_utils.cpp:82-99 [DataShareUtils::CreateDataShareHelper] whether there is one *)
Definition CreateDataShareHelper : M bool :=
  s ← st_get;
  if negb (remoteObj_ s) then mret false else
  ok ← ds_ask ds_Create;
  st_modify (fun s => s <| isConnectDataShareSucc := ok |>);;
  mret ok.

(** oobe_datashare_utils.cpp:101-112 [DataShareUtils::ReleaseDataShareHelper] *)
Definition ReleaseDataShareHelper : M unit := ds_record DsRelease.

(** oobe_datashare_utils.cpp:133-137 [DataShareUtils::AssembleUri] *)
Definition AssembleUri (key : string) : string := SETTING_URI_PROXY +:+ "&key=" +:+ key.

(** oobe_datashare_utils.cpp:139-142 [DataShareUtils::IsConnectDataShareSucc] *)
Definition IsConnectDataShareSucc : M bool := s ← st_get; mret (isConnectDataShareSucc s).
(** oobe_datashare_utils.cpp:144-148 [DataShareUtils::GetDataShareReadyFlag] *)
Definition GetDataShareReadyFlag : M bool := s ← st_get; mret (isDataShareReady_ s).
(** oobe_datashare_utils.cpp:150-154 [DataShareUtils::SetDataShareReadyFlag] *)
Definition SetDataShareReadyFlag (readyFlag : bool) : M unit :=
  st_modify (fun s => s <| isDataShareReady_ := readyFlag |>).

(** oobe_datashare_utils.cpp:48-80 [DataShareUtils::GetStringValue] the code, and the value *)
Definition GetStringValue (key : string) : M (Z * string) :=
  helper ← CreateDataShareHelper;
  if negb helper then mret (ERR_NO_INIT, "") else
  resultSet ← ds_ask (ds_Query key);
  ReleaseDataShareHelper;;
  mret match resultSet with
  | DsNull => (ERR_INVALID_OPERATION, "")
  | DsRows count value =>
      if count =? 0 then (ERR_NAME_NOT_FOUND, "")
      else match value with Some value => (ERR_OK, value) | None => (ERR_INVALID_VALUE, "") end
  end.

(** oobe_datashare_utils.h:52-75 [DataShareUtils::GetValue] for an int, when there is one *)
Definition GetValue (key : string) : M (Z * Z) :=
  r ← GetStringValue key;
  mret (r.1, if r.1 =? ERR_OK then to_s32 (strtoll r.2) else 0).

(** ** The manager *)

Definition set_value (v : Z) : M unit := st_modify (fun s => s <| oobeValue_ := v |>).
(** [task->ExcutingTask()]. *)
Definition execute_task (task : nat) : M unit := st_modify (fun s => s <| executed ::= fun l => l ++ [task] |>).

(** oobe_manager.cpp:52-55 [OOBEManager::GetOOBValue] *)
Definition GetOOBValue : M Z := s ← st_get; mret (oobeValue_ s).

(** oobe_manager.cpp:207-225 [OOBEManager::FlushOobeValue] *)
Definition FlushOobeValue : M Z :=
  DataShareUtils_GetInstance;;
  r ← GetValue KEYWORD;
  let '(res, result) := r in
  if negb (res =? ERR_OK) then mret res else
  (if negb (result =? 0) then
     set_value OOBE_IS_TRUE;;
     s ← st_get;
     st_iter execute_task (oobeTasks_ s);;
     st_modify (fun s => s <| oobeTasks_ := [] |>)
   else set_value OOBE_IS_FALSE);;
  mret res.

(** oobe_manager.cpp:136-152 [OOBEManager::UnregisterObserver] *)
Definition UnregisterObserver : M Z :=
  DataShareUtils_GetInstance;;
  helper ← CreateDataShareHelper;
  if negb helper then mret ERR_NO_INIT else
  s ← st_get;
  ds_record (DsUnregister (AssembleUri KEYWORD) (bool_decide (is_Some (observer_ s))));;
  ReleaseDataShareHelper;;
  st_modify (fun s => s <| observer_ := None |>);;
  mret ERR_OK.

(** oobe_manager.cpp:57-102 [OOBEManager::RegisterObserver] *)
Definition RegisterObserver (key : string) (func : UpdateFunc) : M Z :=
  DataShareUtils_GetInstance;;
  connected ← IsConnectDataShareSucc;
  if negb connected then
    DataShareUtils_GetInstance;;
    ready ← GetDataShareReadyFlag;
    if ready : bool then mret ERR_NO_INIT
    else
      st_modify (fun s => s <| dataShareFunctions_ ::= fun l => l ++ [(key, func)] |>);;
      mret ERR_NO_INIT
  else
  DataShareUtils_GetInstance;;
  helper ← CreateDataShareHelper;
  if negb helper then mret ERR_NO_INIT else
  s ← st_get;
  st_when (bool_decide (is_Some (observer_ s))) (UnregisterObserver;; mret tt);;
  st_modify (fun s => s <| observer_ := Some (Some func) |>);;
  ds_record (DsRegister (AssembleUri key));;
  ReleaseDataShareHelper;;
  st_modify (fun s => s <| checks ::= fun l => l ++ [0] |>);;
  mret ERR_OK.

(** oobe_manager.cpp:104-125 [OOBEManager::CheckOobeValue] *)
Definition CheckOobeValue (count : Z) : M unit :=
  s ← st_get;
  if (oobeValue_ s =? OOBE_INVALID) && (count <? MAX_RETRY_COUNT) then
    ret ← FlushOobeValue;
    st_when (ret =? ERR_INVALID_OPERATION) (st_modify (fun s => s <| checks ::= fun l => l ++ [count + 1] |>))
  else mret tt.

(** oobe_manager.cpp:127-134 [OOBEManager::ReRegisterObserver] *)
Definition ReRegisterObserver (key : string) (func : UpdateFunc) : M unit :=
  FlushOobeValue;;
  s ← st_get;
  ret_if oobeValue_ s =? OOBE_IS_TRUE;
  RegisterObserver key func;;
  mret tt.

(** oobe_manager.cpp:154-159 [OOBEManager::ResDataAbilityObserver::OnChange] *)
Definition Oobe_OnChange : M unit :=
  s ← st_get;
  update <-? (observer_ s ≫= id);
  match update with FlushFunc => FlushOobeValue;; mret tt end.

(** oobe_manager.cpp:166-178 [OOBEManager::Initialize] *)
Definition Oobe_Initialize : M unit :=
  DataShareUtils_GetInstance;;
  r ← GetValue KEYWORD;
  ret_if negb (r.1 =? ERR_OK);
  set_value (if negb (r.2 =? 0) then OOBE_IS_TRUE else OOBE_IS_FALSE).

(** oobe_manager.cpp:180-193 [OOBEManager::SubmitTask] *)
Definition Oobe_SubmitTask (task : option nat) : M bool :=
  match task with
  | None => mret false
  | Some task =>
      s ← st_get;
      (if oobeValue_ s =? OOBE_IS_TRUE then execute_task task
       else st_modify (fun s => s <| oobeTasks_ ::= fun l => l ++ [task] |>));;
      mret true
  end.

(** oobe_manager.cpp:195-205 [OOBEManager::StartListen] *)
Definition StartListen : M unit :=
  FlushOobeValue;;
  s ← st_get;
  ret_if oobeValue_ s =? OOBE_IS_TRUE;
  RegisterObserver KEYWORD FlushFunc;;
  mret tt.

(** oobe_manager.cpp:227-233 [OOBEManager::OnReceiveDataShareReadyCallBack] *)
Definition OnReceiveDataShareReadyCallBack : M unit := st_modify (fun s => s <| readies ::= S |>).

(** oobe_manager.cpp:235-246 [OOBEManager::ExecuteDataShareFunction] *)
Definition ExecuteDataShareFunction : M unit :=
  s ← st_get;
  let dataShareFunctions := dataShareFunctions_ s in
  st_modify (fun s => s <| dataShareFunctions_ := [] |>);;
  st_iter (fun f => ReRegisterObserver f.1 f.2) dataShareFunctions.

(** The submitted callback that the data share is ready, and a check that comes due. *)
Definition run_ready : M unit :=
  s ← st_get;
  match readies s with
  | O => mret tt
  | S n =>
      st_modify (fun s => s <| readies := n |>);;
      DataShareUtils_GetInstance;;
      SetDataShareReadyFlag true;;
      ExecuteDataShareFunction
  end.
Definition run_check (i : nat) : M unit :=
  s ← st_get;
  count <-? checks s !! i;
  st_modify (fun s => s <| checks ::= delete i |>);;
  CheckOobeValue count.
End oobe.
