(* ===== verification/OobeFacts.v ===== *)
(** * Facts about the tasks that wait for the first start

    Every task runs once, in the order of submission, and none waits once the statement is
    agreed; the polling of the setting ends. *)
From S2P Require Import Prelude CommonUtil ServiceWorld OobeManager.

Section facts.
Context {K : Type} `{!DataShare K} `{!ErrCodes}.
Implicit Types s : Oobe K.

(** What happens: calls of the manager, its tasks, a change of the setting, and a change of
    anything outside. *)
Inductive OobeEvent :=
  | OStartListen
  | OSubmitTask (task : option nat)
  | OUnregisterObserver
  | ODataShareReady
  | ORunReady
  | ORunCheck (i : nat)
  | OOnChange
  | OOutside (k : K).

Definition oobe_event (e : OobeEvent) : ST (Oobe K) unit :=
  match e with
  | OStartListen => StartListen
  | OSubmitTask task => Oobe_SubmitTask task;; mret tt
  | OUnregisterObserver => UnregisterObserver;; mret tt
  | ODataShareReady => OnReceiveDataShareReadyCallBack
  | ORunReady => run_ready
  | ORunCheck i => run_check i
  | OOnChange => Oobe_OnChange
  | OOutside k => st_modify (fun s => s <| ds_env := k |>)
  end.
Definition submitted_tasks (l : list OobeEvent) : list nat :=
  omap (fun e => match e with OSubmitTask task => task | _ => None end) l.

(** ** The invariant *)

Record oobe_ok (tasks : list nat) s : Prop := {
  ok_tasks : executed s ++ oobeTasks_ s = tasks;
  ok_agreed : oobeValue_ s = OOBE_IS_TRUE -> oobeTasks_ s = [];
  ok_checks : Forall (fun c => 0 <= c <= MAX_RETRY_COUNT) (checks s);
}.

Lemma total_ds_ask {A} (f : K -> A * K) : total (ds_ask f).
Proof. intros s. unfold ds_ask. destruct (f (ds_env s)). by eexists. Qed.
#[local] Hint Resolve total_ds_ask : total.

(** Nothing that matters to a predicate changes. *)
Definition same_tasks s s' : Prop :=
  executed s' = executed s /\ oobeTasks_ s' = oobeTasks_ s /\ oobeValue_ s' = oobeValue_ s /\ checks s' = checks s.
Definition frame (P : Oobe K -> Prop) : Prop := forall s s', same_tasks s s' -> P s -> P s'.

Lemma keeps_frame P f : frame P -> (forall s, same_tasks s (f s)) -> keeps P (st_modify f).
Proof. intros HP Hf. apply keeps_modify. intros s. by apply HP. Qed.
Lemma keeps_ds_ask P {A} (f : K -> A * K) : frame P -> keeps P (ds_ask f).
Proof. intros HP s Hs. unfold ds_ask. destruct (f (ds_env s)). by eapply HP; [|exact Hs]. Qed.

Section framed.
Context (P : Oobe K -> Prop) (HP : frame P).
#[local] Hint Extern 1 (keeps P (ds_ask _)) => by apply keeps_ds_ask : keeps.
#[local] Hint Extern 2 (keeps P (st_modify _)) => by apply keeps_frame : keeps.

Lemma keeps_ds_record c : keeps P (ds_record c).
Proof. unfold ds_record. keeps_auto. Qed.
Lemma keeps_instance : keeps P DataShareUtils_GetInstance.
Proof. unfold DataShareUtils_GetInstance, InitSystemAbilityManager. keeps_auto. Qed.
#[local] Hint Resolve keeps_ds_record keeps_instance : keeps.
Lemma keeps_helper : keeps P CreateDataShareHelper.
Proof. unfold CreateDataShareHelper. keeps_auto. Qed.
#[local] Hint Resolve keeps_helper : keeps.
Lemma keeps_GetValue key : keeps P (GetValue key).
Proof. unfold GetValue, GetStringValue, ReleaseDataShareHelper. keeps_auto. Qed.
Lemma keeps_Unregister : keeps P UnregisterObserver.
Proof. unfold UnregisterObserver, ReleaseDataShareHelper. keeps_auto. Qed.
End framed.

Lemma frame_ok tasks : frame (oobe_ok tasks).
Proof. intros s s' (E1 & E2 & E3 & E4) [? ? ?]. split; by rewrite ?E1, ?E2, ?E3, ?E4. Qed.
#[local] Hint Resolve frame_ok : core.

Lemma run_tasks l s : st_iter execute_task l s = Some (tt, s <| executed ::= fun x => x ++ l |>).
Proof.
  revert s. induction l as [|x l IH]; intros s; [destruct s; unfold over; cbn; by rewrite app_nil_r|].
  cbn [st_iter]. rewrite (run_bind _ _ _ _ _ eq_refl), IH. by destruct s; unfold over; cbn; rewrite <- app_assoc.
Qed.

(** Everything that reads or registers is defined, and keeps the invariant. *)
Lemma total_GetValue key : total (GetValue key).
Proof. unfold GetValue, GetStringValue, CreateDataShareHelper, ReleaseDataShareHelper, ds_record. total_auto. Qed.
Lemma total_instance : total DataShareUtils_GetInstance.
Proof. unfold DataShareUtils_GetInstance, InitSystemAbilityManager. total_auto. Qed.
Lemma total_helper : total CreateDataShareHelper.
Proof. unfold CreateDataShareHelper. total_auto. Qed.
#[local] Hint Resolve total_GetValue total_instance total_helper : total.

(** The checks that wait are among those of before. *)
Definition okP tasks l s : Prop := oobe_ok tasks s /\ checks s = l.
Lemma frame_okP tasks l : frame (okP tasks l).
Proof. intros s s' Hs [Hok <-]. split; [by eapply frame_ok|]. by destruct Hs as (_ & _ & _ & ->). Qed.
#[local] Hint Resolve frame_okP : core.

Lemma flush_spec tasks l : spec False (okP tasks l) FlushOobeValue (fun _ => okP tasks l).
Proof.
  intros s Hs. unfold FlushOobeValue. destruct (total_instance s) as [[[] s1] E1]. rewrite (run_bind _ _ _ _ _ E1).
  pose proof (keeps_run _ _ _ _ _ (keeps_instance _ (frame_okP tasks l)) Hs E1) as Hs1.
  destruct (total_GetValue KEYWORD s1) as [[[res result] s2] E2]. rewrite (run_bind _ _ _ _ _ E2).
  pose proof (keeps_run _ _ _ _ _ (keeps_GetValue _ (frame_okP tasks l) KEYWORD) Hs1 E2) as [[H1 H2 H3] Hl].
  destruct (negb (res =? ERR_OK)); [by split|]. destruct (negb (result =? 0)).
  - unfold mbind, ST_bind, set_value, st_modify, st_get. rewrite run_tasks. cbn.
    split; [|done]. split; cbn; [by rewrite app_nil_r|done|done].
  - cbn. split; [|done]. by split.
Qed.

Lemma total_flush : total FlushOobeValue.
Proof.
  unfold FlushOobeValue, set_value. apply total_bind; [total_auto|]. intros _. apply total_bind; [total_auto|].
  intros [res result]. total_auto.
Qed.
Lemma keeps_flush tasks : keeps (oobe_ok tasks) FlushOobeValue.
Proof.
  intros s Hs. pose proof (flush_spec tasks (checks s) s (conj Hs eq_refl)) as Hf.
  destruct (FlushOobeValue s) as [[r s']|]; [by destruct Hf|done].
Qed.

Lemma keeps_add_check tasks c : 0 <= c <= MAX_RETRY_COUNT ->
  keeps (oobe_ok tasks) (st_modify (fun s => s <| checks ::= fun l => l ++ [c] |>)).
Proof. intros Hc. apply keeps_modify. intros s [? ? ?]. split; cbn; [done..|]. by apply Forall_app_2; [|constructor]. Qed.

#[local] Hint Resolve keeps_flush keeps_ds_record keeps_instance keeps_helper keeps_Unregister : keeps.
#[local] Hint Resolve total_flush : total.
#[local] Hint Extern 2 (keeps (oobe_ok _) (st_modify _)) => by apply keeps_frame : keeps.
#[local] Hint Extern 1 (keeps _ (ds_record _)) => by apply keeps_ds_record : keeps.
#[local] Hint Extern 1 (keeps _ DataShareUtils_GetInstance) => by apply keeps_instance : keeps.
#[local] Hint Extern 1 (keeps _ CreateDataShareHelper) => by apply keeps_helper : keeps.
#[local] Hint Extern 1 (keeps _ UnregisterObserver) => by apply keeps_Unregister : keeps.

Lemma total_Unregister : total UnregisterObserver.
Proof. unfold UnregisterObserver, ds_record, ReleaseDataShareHelper, ds_record. total_auto. Qed.
#[local] Hint Resolve total_Unregister : total.

Lemma total_Register key func : total (RegisterObserver key func).
Proof.
  unfold RegisterObserver, IsConnectDataShareSucc, GetDataShareReadyFlag, ReleaseDataShareHelper, ds_record. total_auto.
Qed.
Lemma keeps_Register tasks key func : keeps (oobe_ok tasks) (RegisterObserver key func).
Proof.
  unfold RegisterObserver, IsConnectDataShareSucc, GetDataShareReadyFlag, ReleaseDataShareHelper. keeps_auto.
  by apply keeps_add_check.
Qed.
#[local] Hint Resolve total_Register : total.
#[local] Hint Resolve keeps_Register : keeps.

Lemma total_oobe_event e : total (oobe_event e).
Proof.
  destruct e; cbn [oobe_event]; unfold StartListen, Oobe_SubmitTask, execute_task, OnReceiveDataShareReadyCallBack,
    run_ready, SetDataShareReadyFlag, ExecuteDataShareFunction, ReRegisterObserver, run_check, CheckOobeValue,
    Oobe_OnChange; total_auto.
Qed.

Lemma keeps_check tasks i : keeps (oobe_ok tasks) (run_check i).
Proof.
  unfold run_check. apply spec_bind with (R := fun x s => x = s /\ oobe_ok tasks s); [by intros s Hs|]. intros x.
  destruct (checks x !! i) as [c|] eqn:E; [|by apply spec_ret; intros s [_ Hs]].
  apply spec_bind with (R := fun _ s => oobe_ok tasks s /\ 0 <= c <= MAX_RETRY_COUNT).
  - apply spec_modify. intros s [-> [H1 H2 H3]]. split; [|exact (Forall_lookup_1 _ _ _ _ H3 E)].
    split; cbn; [done..|]. by apply Forall_delete.
  - intros _. apply spec_pure. intros Hc. unfold CheckOobeValue.
    apply keeps_bind; [by apply keeps_get|]. intros s. destruct (oobeValue_ s =? OOBE_INVALID); [|apply keeps_ret].
    cbn [andb]. destruct (Z.ltb_spec c MAX_RETRY_COUNT); [|apply keeps_ret].
    apply keeps_bind; [apply keeps_flush|]. intros ret. apply keeps_when, keeps_add_check. lia.
Qed.

Lemma oobe_step tasks e s s' :
  oobe_ok tasks s -> oobe_event e s = Some (tt, s') -> oobe_ok (tasks ++ submitted_tasks [e]) s'.
Proof.
  intros Hs E. assert (Hk : forall tasks', oobe_ok tasks' s -> keeps (oobe_ok tasks') (oobe_event e) -> oobe_ok tasks' s').
  { intros tasks' Hs' Hk. by apply (keeps_run _ _ _ _ _ Hk Hs' E). }
  destruct e as [|[task|]| | | |i| |k]; cbn [submitted_tasks omap list_omap]; rewrite ?app_nil_r;
    try (apply Hk; [done|]; cbn [oobe_event]; unfold StartListen, Oobe_SubmitTask, OnReceiveDataShareReadyCallBack,
      run_ready, SetDataShareReadyFlag, ExecuteDataShareFunction, ReRegisterObserver, Oobe_OnChange; keeps_auto; fail).
  - destruct Hs as [H1 H2 H3]. cbn in E. unfold Oobe_SubmitTask, mbind, ST_bind in E. cbn in E.
    destruct (Z.eqb_spec (oobeValue_ s) OOBE_IS_TRUE) as [Ev|Ev]; cbn in E; injection E as <-; split; cbn; try done.
    + rewrite <- H1, (H2 Ev), !app_nil_r. done.
    + by rewrite app_assoc, H1.
  - apply Hk; [done|]. apply keeps_check.
Qed.

Lemma oobe_history l tasks s :
  oobe_ok tasks s ->
  exists s', st_iter oobe_event l s = Some (tt, s') /\ oobe_ok (tasks ++ submitted_tasks l) s'.
Proof.
  revert tasks s. induction l as [|e l IH]; intros tasks s Hs; [exists s; by rewrite app_nil_r|].
  cbn [st_iter]. destruct (total_oobe_event e s) as [[[] s1] E]. rewrite (run_bind _ _ _ _ _ E).
  destruct (IH _ _ (oobe_step _ _ _ _ Hs E)) as (s' & E' & Hs'). exists s'. split; [done|].
  change (e :: l) with ([e] ++ l). unfold submitted_tasks in *. by rewrite omap_app, app_assoc.
Qed.

(** ** Polling *)

(** How many runs are left: each check that waits runs again at most until its count is
    reached. *)
Definition runs_left (l : list Z) : nat := sum_list_with (fun c => Z.to_nat (MAX_RETRY_COUNT + 1 - c)) l.

Lemma keeps_flush_checks l : keeps (fun s => checks s = l) FlushOobeValue.
Proof.
  assert (Hf : frame (fun s => checks s = l)) by (intros s s' (_ & _ & _ & ->); done).
  assert (Hm : forall f : Oobe K -> Oobe K, (forall s, checks (f s) = checks s) ->
    keeps (fun s => checks s = l) (st_modify f)) by (intros f Hs; apply keeps_modify; intros s <-; apply Hs).
  unfold FlushOobeValue. apply keeps_bind; [by apply keeps_instance|]. intros _.
  apply keeps_bind; [by apply keeps_GetValue|]. intros [res result]. destruct (negb _); [apply keeps_ret|].
  apply keeps_bind; [|intros _; apply keeps_ret]. unfold set_value, execute_task. destruct (negb _); [|by apply Hm].
  apply keeps_bind; [by apply Hm|]. intros _. apply keeps_bind; [apply keeps_get|]. intros s.
  apply keeps_bind; [apply keeps_iter; intros; by apply Hm|]. intros _. by apply Hm.
Qed.

(** A check that runs is gone, or comes back with a higher count. *)
Lemma check_spec s c rest :
  checks s = c :: rest -> 0 <= c <= MAX_RETRY_COUNT ->
  exists s', run_check 0 s = Some (tt, s')
    /\ (checks s' = rest \/ c < MAX_RETRY_COUNT /\ checks s' = rest ++ [c + 1]).
Proof.
  intros Hs Hc. unfold run_check. rewrite run_get_bind. rewrite Hs. cbn [lookup list_lookup].
  rewrite (run_bind _ _ _ _ _ eq_refl). unfold CheckOobeValue. rewrite run_get_bind.
  set (s1 := s <| checks ::= delete 0%nat |>). assert (E1 : checks s1 = rest) by (cbn; by rewrite Hs).
  destruct (oobeValue_ s1 =? OOBE_INVALID); cbn [andb]; [|exists s1; auto].
  destruct (Z.ltb_spec c MAX_RETRY_COUNT); [|exists s1; auto].
  destruct (total_flush s1) as [[ret s2] E2]. rewrite (run_bind _ _ _ _ _ E2).
  assert (E3 : checks s2 = rest) by by apply (keeps_run (fun s => checks s = rest) _ _ _ _
    (keeps_flush_checks rest) E1 E2).
  destruct (ret =? ERR_INVALID_OPERATION); cbn; [|by exists s2; auto].
  eexists. split; [done|]. cbn. rewrite E3. auto.
Qed.

Lemma polling_ends n s :
  Forall (fun c => 0 <= c <= MAX_RETRY_COUNT) (checks s) -> (runs_left (checks s) <= n)%nat ->
  exists s', st_iter run_check (repeat 0%nat n) s = Some (tt, s') /\ checks s' = [].
Proof.
  revert s. induction n as [|n IH]; intros s Hc Hn; cbn [repeat st_iter].
  - exists s. split; [done|]. destruct Hc as [|c cs Hc]; [done|]. unfold runs_left, MAX_RETRY_COUNT in *. cbn in Hn. lia.
  - destruct (checks s) as [|c rest] eqn:Es.
    + assert (E : run_check 0 s = Some (tt, s)) by (unfold run_check; rewrite run_get_bind; by rewrite Es).
      rewrite (run_bind _ _ _ _ _ E). apply IH; rewrite Es; [done|]. unfold runs_left. cbn. lia.
    + apply Forall_cons in Hc as [Hc Hrest]. destruct (check_spec s c rest Es Hc) as (s' & E & Hs').
      rewrite (run_bind _ _ _ _ _ E). unfold runs_left, MAX_RETRY_COUNT in *. cbn in Hn.
      destruct Hs' as [Es'|[Hlt Es']]; apply IH; rewrite Es'.
      * done.
      * unfold runs_left, MAX_RETRY_COUNT in *. lia.
      * apply Forall_app_2; [done|]. constructor; [lia|constructor].
      * unfold runs_left, MAX_RETRY_COUNT in *. rewrite sum_list_with_app. cbn. lia.
Qed.

(** The construction. *)
Definition fresh s : Prop := executed s ++ oobeTasks_ s = [] /\ checks s = [].
Lemma total_init : total Oobe_Initialize.
Proof. unfold Oobe_Initialize, set_value. total_auto. Qed.
Lemma keeps_init : keeps fresh Oobe_Initialize.
Proof.
  assert (Hf : frame fresh) by (intros s s' (E1 & E2 & E3 & E4); unfold fresh; by rewrite E1, E2, E4).
  unfold Oobe_Initialize. apply keeps_bind; [by apply keeps_instance|]. intros _.
  apply keeps_bind; [by apply keeps_GetValue|]. intros r. destruct (negb _); [apply keeps_ret|].
  apply keeps_modify. by intros s Hs.
Qed.

(** C36: Over any history of the manager, from its start on, with any answers of the data share:
    every call returns; the tasks that ran followed by the tasks that wait are the tasks that
    were submitted, in their order, so that none is lost and none runs twice; while the
    statement is known to be agreed no task waits; and the polling ends: 151 runs for each
    check that waits, the oldest first, leave none. *)
Theorem tasks_wait_for_agreement (k : K) l :
  exists s0 s, Oobe_Initialize (new_Oobe k) = Some (tt, s0)
    /\ st_iter oobe_event l s0 = Some (tt, s)
    /\ executed s ++ oobeTasks_ s = submitted_tasks l
    /\ (oobeValue_ s = OOBE_IS_TRUE -> oobeTasks_ s = [])
    /\ exists s', st_iter run_check (repeat 0%nat (151 * length (checks s))) s = Some (tt, s') /\ checks s' = [].
Proof.
  destruct (total_init (new_Oobe k)) as [[[] s0] E0].
  assert (H0 : oobe_ok [] s0).
  { destruct (keeps_run _ _ _ _ _ keeps_init (conj eq_refl eq_refl : fresh (new_Oobe k)) E0) as [He Hc].
    destruct (app_eq_nil _ _ He) as [_ Ht]. split; [done..|]. rewrite Hc. constructor. }
  destruct (oobe_history l [] s0 H0) as (s & E & [H1 H2 H3]). exists s0, s. split_and!; try done.
  apply polling_ends; [done|]. clear -H3. induction H3 as [|c cs Hc H3 IH]; [done|].
  unfold runs_left in *. cbn. unfold MAX_RETRY_COUNT in *. lia.
Qed.
End facts.
