(* ===== verification/ObserverManager.v ===== *)
(** * The manager of observers

    [observer_manager.cpp]: when a service of the system starts, the observers for it are
    made and registered there, and when it stops they are dropped.  A pointer of the manager
    is an element of the set of observers that are there; the state of an observer is kept
    beside, and is fresh when the observer is made. *)
From stdpp Require Import finite.
From S2P Require Import Prelude Json ResType CommonUtil ServiceWorld SchedReports AudioObserver AppStateObserver WindowObservers OobeManager.

(** ** The outside *)

(** The system abilities, of [system_ability_definition.h]. *)
Class SystemAbilities := {
  DFX_SYS_EVENT_SERVICE_ABILITY_ID : Z;
  MULTIMODAL_INPUT_SERVICE_ID : Z;
  TELEPHONY_STATE_REGISTRY_SYS_ABILITY_ID : Z;
  AUDIO_POLICY_SERVICE_ID : Z;
  DISPLAY_MANAGER_SERVICE_ID : Z;
  DISPLAY_MANAGER_SERVICE_SA_ID : Z;
  ABILITY_MGR_SERVICE_ID : Z;
  DISTRIBUTED_KV_DATA_SERVICE_ABILITY_ID : Z;
  DOWNLOAD_SERVICE_ID : Z;
  AVSESSION_SERVICE_ID : Z;
  SUBSYS_ACCOUNT_SYS_ABILITY_ID_BEGIN : Z;
  WINDOW_MANAGER_SERVICE_ID : Z;
  APP_MGR_SERVICE_ID : Z;
  DISTRIBUTED_SCHED_SA_ID : Z;
  MSDP_MOVEMENT_SERVICE_ID : Z;
}.

(** The flags of the build. *)
Class ObserverBuild := {
  WITH_APP_NAP_ENABLE : bool;
  MMI_ENABLE : bool;
  TELEPHONY_STATE_REGISTRY_ENABLE : bool;
  AUDIO_FRAMEWORK_ENABLE : bool;
  REQUEST_REQUEST : bool;
  MULTIMEDIA_AV_SESSION_ENABLE : bool;
  CONTINUATION_ENABLE : bool;
}.

(** What is registered at another service. *)
Inductive Callback :=
  | CHiSysEvent | CTelephony | CRenderer | CCapturer | CRingerMode | CVolumeKey | CAudioScene | COutputDevice
  | CPowerKey | CMmi | CDisplayMode | CDisplayOrientation | CDisplayPower | CConnection | CContinuation
  | CAvSession | CDownload | CAccount | CFocus | CVisibility | CDrawing | CWindowMode | CPip | CWindowStyle
  | CAppState.
#[export] Instance Callback_eq_dec : EqDecision Callback.
Proof. solve_decision. Defined.

(** A call to another service: registering under a number (the process for audio, the slot for
    telephony, the subscription for a key), the same with the rules of system events, and
    the subscription to a system ability with a listener that may be null. *)
Inductive FwCall :=
  | FRegister (c : Callback) (key : Z)
  | FAddListener (rules : list (string * string))
  | FUnregister (c : Callback) (key : Z)
  | FSubscribeSystemAbility (systemAbilityId : Z) (listener : bool).

(** The other services: they answer a call with a code (for a key with its subscription), and
    can be asked. *)
Class Frameworks (K : Type) := {
  fw : FwCall -> K -> Z * K;
  WM_OK : Z;
  DM_OK : Z;
  fw_GetSystemAbilityManager : K -> bool;
  fw_GetAppManager : K -> bool;
  fw_IsNeedReportEvents : K -> option bool;
  fw_getpid : K -> Z;
  fw_AudioSystemManager : K -> bool;
  fw_GroupManager : K -> bool;
  fw_GetCurrentRendererChangeInfos : K -> list (option RendererInfo);
  fw_GetCurrentCapturerChangeInfos : K -> list (option CapturerInfo);
  fw_GetAllMmiSubscribedEvents : K -> list ((Z * Z * string) * Z);
  fw_IsFoldable : K -> bool;
  fw_GetFoldDisplayMode : K -> Z;
  fw_GetWindowStyleType : K -> Z;
  fw_QueryActiveOsAccountIds : K -> option (list Z);
  fw_GetWindowModeType : Z -> K -> option Z;
}.

(** ** State *)

(** observer_manager.h:134-164 [hiSysEventObserver_] the pointers to observers *)
Inductive Observer :=
  | hiSysEventObserver_ | mmiEventObserver_ | telephonyObserver_ | continuationObserver_ | audioObserver_
  | avSessionStateListener_ | sysAbilityListener_ | connectionSubscriber_ | foldDisplayModeObserver_
  | foldDisplayOrientationObserver_ | downLoadUploadObserver_ | accountObserver_ | pipStateObserver_
  | windowStateObserver_ | windowVisibilityObserver_ | windowDrawingContentObserver_ | windowModeObserver_
  | windowStyleObserver_ | appStateObserver_ | displayPowerEventListener_.
#[export] Instance Observer_eq_dec : EqDecision Observer.
Proof. solve_decision. Defined.
#[export] Program Instance Observer_finite : Finite Observer := {|
  enum := [hiSysEventObserver_; mmiEventObserver_; telephonyObserver_; continuationObserver_; audioObserver_;
    avSessionStateListener_; sysAbilityListener_; connectionSubscriber_; foldDisplayModeObserver_;
    foldDisplayOrientationObserver_; downLoadUploadObserver_; accountObserver_; pipStateObserver_;
    windowStateObserver_; windowVisibilityObserver_; windowDrawingContentObserver_; windowModeObserver_;
    windowStyleObserver_; appStateObserver_; displayPowerEventListener_] |}.
Next Obligation. apply (bool_decide_unpack _). vm_compute. exact I. Qed.
Next Obligation. intros x. apply (bool_decide_unpack _). by destruct x. Qed.

(** The functions of the two maps, by what they call. *)
Inductive Handler :=
  | HHiSysEvent | HMMiEvent | HTelephony | HAudio | HDisplayMode | HDisplayManagerServiceSA | HConnection
  | HDataShare | HDownloadUpload | HAVSession | HAccount | HWindowState | HAppState | HContinuation.

(** observer_manager.h:130-166 [pid_] the members, the state of the observers, the
    calls to other services, and these services *)
Record ObserverManager (K D : Type) := mkObserverManager {
  observers : gset Observer;
  handleObserverMap_ : gmap Z Handler;
  removeObserverMap_ : gmap Z Handler;
  pid_ : Z;
  slotId_ : Z;
  isNeedReport_ : bool;
  powerKeySubscribeId_ : Z;
  audio : AudioObserver;
  watched : Watched;
  apps : AppStates;
  oobe : Oobe D;
  fw_calls : list FwCall;
  fw_env : K;
}.
Arguments mkObserverManager {_ _}. Arguments observers {_ _}. Arguments handleObserverMap_ {_ _}.
Arguments removeObserverMap_ {_ _}. Arguments pid_ {_ _}. Arguments slotId_ {_ _}. Arguments isNeedReport_ {_ _}.
Arguments powerKeySubscribeId_ {_ _}. Arguments audio {_ _}. Arguments watched {_ _}. Arguments apps {_ _}.
Arguments oobe {_ _}. Arguments fw_calls {_ _}. Arguments fw_env {_ _}.
#[export] Instance ObserverManager_eta K D : Eta (ObserverManager K D) := fun s =>
  mkObserverManager (observers s) (handleObserverMap_ s) (removeObserverMap_ s) (pid_ s) (slotId_ s) (isNeedReport_ s)
    (powerKeySubscribeId_ s) (audio s) (watched s) (apps s) (oobe s) (fw_calls s) (fw_env s).
Definition new_ObserverManager {K D} (o : Oobe D) (k : K) : ObserverManager K D :=
  mkObserverManager ∅ ∅ ∅ (-1) 0 true (-1) new_AudioObserver new_Watched new_AppStates o [] k.

Definition OPERATION_SUCCESS : Z := 0. (* observer_manager.cpp:58 *)

Section manager.
Context {J K D : Type} `{!Json J} `{!JsonText J} `{!JsonMore J} `{!AudioFramework} `{!AppExecFwk} `{!Rosen}
  `{!DataShare D} `{!ErrCodes} `{!SystemAbilities} `{!ObserverBuild} `{!Frameworks K}.
#[local] Abbreviation Mgr := (ObserverManager K D).
#[local] Abbreviation M := (ST (With Mgr J)).

(** ** Primitives *)

Definition o_upd (f : Mgr -> Mgr) : M unit := r_upd f.
(** Whether a pointer is not null, and its assignments. *)
Definition there (o : Observer) : M bool := s ← r_get; mret (bool_decide (o ∈ observers s)).
Definition put (o : Observer) : M unit := o_upd (fun s => s <| observers ::= union {[ o ]} |>).
Definition drop (o : Observer) : M unit := o_upd (fun s => s <| observers ::= fun x => x ∖ {[ o ]} |>).
(** A call to another service. *)
Definition call (c : FwCall) : M Z := fun s =>
  let '(res, k) := fw c (fw_env (own s)) in
  Some (res, s <| own ::= fun m => m <| fw_calls ::= fun l => l ++ [c] |> <| fw_env := k |> |>).
Definition ask {A} (f : K -> A) : M A := s ← r_get; mret (f (fw_env s)).
(** Code of one build only. *)
Definition in_build (b : bool) (m : M unit) : M unit := st_when b m.
(** The state of the observers. *)
Definition in_audio {A} (m : ST (With AudioObserver J) A) : M A := in_own audio (fun a s => s <| audio := a |>) m.
Definition in_watched {A} (m : ST (With Watched J) A) : M A := in_own watched (fun a s => s <| watched := a |>) m.
Definition in_apps {A} (m : ST (With AppStates J) A) : M A := in_own apps (fun a s => s <| apps := a |>) m.
Definition in_oobe {A} (m : ST (Oobe D) A) : M A := fun s =>
  match m (oobe (own s)) with
  | Some (a, o) => Some (a, s <| own ::= fun x => x <| oobe := o |> |>)
  | None => None
  end.
(** [if (!p) p = make_shared<...>()], with the state of the new observer. *)
Definition make (o : Observer) (init : M unit) : M unit :=
  is_there ← there o;
  st_when (negb is_there) (put o;; init).
(** The code of a registration that does not matter. *)
Definition call_ (c : FwCall) : M unit := call c;; mret tt.

(** ** System events, telephony *)

(** observer_manager.cpp:269-293 [sysRules] *)
Definition sysRules (isNeedReport : bool) : list (string * string) :=
  [("AUDIO", "STREAM_CHANGE"); ("CAMERA", "CAMERA_CONNECT"); ("CAMERA", "CAMERA_DISCONNECT");
   ("BT_SERVICE", "BR_SWITCH_STATE"); ("BT_SERVICE", "BLE_SWITCH_STATE"); ("COMMUNICATION", "WIFI_CONNECTION");
   ("COMMUNICATION", "WIFI_SCAN"); ("AV_CODEC", "CODEC_START_INFO"); ("AV_CODEC", "CODEC_STOP_INFO");
   ("MULTIMEDIA", "PLAYER_STATE")] ++ (if isNeedReport then [("POWER", "RUNNINGLOCK")] else []).

(** observer_manager.cpp:262-304 [ObserverManager::InitHiSysEventObserver] *)
Definition InitHiSysEventObserver : M unit :=
  make hiSysEventObserver_ (mret tt);;
  s ← r_get;
  call_ (FAddListener (sysRules (isNeedReport_ s))).

(** observer_manager.cpp:306-320 [ObserverManager::DisableHiSysEventObserver] *)
Definition DisableHiSysEventObserver : M unit :=
  is_there ← there hiSysEventObserver_;
  ret_if negb is_there;
  call_ (FUnregister CHiSysEvent 0);;
  drop hiSysEventObserver_.

(** observer_manager.cpp:323-343 [ObserverManager::InitTelephonyObserver] *)
Definition InitTelephonyObserver : M unit := in_build TELEPHONY_STATE_REGISTRY_ENABLE
  (make telephonyObserver_ (mret tt);;
   o_upd (fun s => s <| slotId_ := 0 |>);;
   call_ (FRegister CTelephony 0)).

(** observer_manager.cpp:345-358 [ObserverManager::DisableTelephonyObserver] *)
Definition DisableTelephonyObserver : M unit := in_build TELEPHONY_STATE_REGISTRY_ENABLE
  (is_there ← there telephonyObserver_;
   ret_if negb is_there;
   o_upd (fun s => s <| slotId_ := 0 |>);;
   call_ (FUnregister CTelephony 0);;
   drop telephonyObserver_).

(** ** Audio *)

(** observer_manager.cpp:399-421 [ObserverManager::InitAudioEventListener] *)
Definition InitAudioEventListener : M unit := in_build AUDIO_FRAMEWORK_ENABLE
  (s ← r_get;
   call_ (FRegister CRenderer (pid_ s));;
   call_ (FRegister CCapturer (pid_ s))).

(** observer_manager.cpp:360-397 [ObserverManager::InitAudioObserver] the system manager is
    tested once, and used after it without a test *)
Definition InitAudioObserver : M unit := in_build AUDIO_FRAMEWORK_ENABLE
  (pid ← ask fw_getpid;
   o_upd (fun s => s <| pid_ := pid |>);;
   make audioObserver_ (o_upd (fun s => s <| audio := new_AudioObserver |>));;
   InitAudioEventListener;;
   audioSystemMgr ← ask fw_AudioSystemManager;
   groupMgr ← ask fw_GroupManager;
   st_when (audioSystemMgr && groupMgr) (call_ (FRegister CRingerMode pid));;
   (if negb audioSystemMgr then st_undefined else mret tt);;
   call_ (FRegister CVolumeKey pid);;
   call_ (FRegister CAudioScene 0);;
   call_ (FRegister COutputDevice 0);;
   renderers ← ask fw_GetCurrentRendererChangeInfos;
   capturers ← ask fw_GetCurrentCapturerChangeInfos;
   in_audio (AudioObserver_Init renderers capturers)).

(** observer_manager.cpp:423-472 [ObserverManager::DisableAudioObserver] *)
Definition DisableAudioObserver : M unit := in_build AUDIO_FRAMEWORK_ENABLE
  (is_there ← there audioObserver_;
   ret_if negb is_there;
   s ← r_get;
   call_ (FUnregister CRenderer (pid_ s));;
   call_ (FUnregister CCapturer (pid_ s));;
   in_audio ProcessCapturerEndCaseByUnregister;;
   call_ (FUnregister CRingerMode (pid_ s));;
   call_ (FUnregister CVolumeKey (pid_ s));;
   call_ (FUnregister CAudioScene 0);;
   drop audioObserver_).

(** ** Input *)

(** observer_manager.cpp:535-560 [ObserverManager::GetAllMmiStatusData] *)
Definition GetAllMmiStatusData : M unit :=
  mmiStatusData ← ask fw_GetAllMmiSubscribedEvents;
  st_iter (fun data =>
    let '(pid, uid, bundleName, status) := data in
    r_report RES_TYPE_MMI_STATUS_CHANGE 0
      (fields [("pid", json_of_int pid); ("uid", json_of_int uid); ("bundleName", text bundleName);
               ("status", json_of_int status)])) mmiStatusData.

(** observer_manager.cpp:475-511 [ObserverManager::InitMMiEventObserver] *)
Definition InitMMiEventObserver : M unit :=
  id ← call (FRegister CPowerKey 0);
  o_upd (fun s => s <| powerKeySubscribeId_ := id |>);;
  in_build WITH_APP_NAP_ENABLE
    (s ← r_get;
     ret_if negb (isNeedReport_ s);
     make mmiEventObserver_ (mret tt);;
     res ← call (FRegister CMmi 0);
     ret_if negb (res =? OPERATION_SUCCESS);
     GetAllMmiStatusData).

(** observer_manager.cpp:482-485 [SubscribeKeyEvent] the power key *)
Definition OnPowerKey (keyCode : Z) : M unit := r_report RES_TYPE_MMI_INPUT_POWER_KEY keyCode json_null.

(** observer_manager.cpp:513-532 [ObserverManager::DisableMMiEventObserver] *)
Definition DisableMMiEventObserver : M unit :=
  s ← r_get;
  call_ (FUnregister CPowerKey (powerKeySubscribeId_ s));;
  in_build WITH_APP_NAP_ENABLE
    (is_there ← there mmiEventObserver_;
     ret_if negb is_there;
     call_ (FUnregister CMmi 0);;
     drop mmiEventObserver_).

(** ** Displays *)

(** observer_manager.cpp:564-591 [ObserverManager::InitDisplayModeObserver] *)
Definition InitDisplayModeObserver : M unit :=
  isFoldable ← ask fw_IsFoldable;
  ret_if negb (isFoldable : bool);
  make foldDisplayModeObserver_
    (o_upd (fun s => s <| watched ::= fun w => w <| currentDisplayMode := DISPLAY_MODE_UNKOWN |> |>));;
  ret ← call (FRegister CDisplayMode 0);
  if ret =? DM_OK then
    displayMode ← ask fw_GetFoldDisplayMode;
    in_watched (OnDisplayModeChanged displayMode)
  else drop foldDisplayModeObserver_.

(** observer_manager.cpp:593-609 [ObserverManager::DisableDisplayModeObserver] *)
Definition DisableDisplayModeObserver : M unit :=
  is_there ← there foldDisplayModeObserver_;
  ret_if negb (is_there : bool);
  ret ← call (FUnregister CDisplayMode 0);
  st_when (ret =? DM_OK) (drop foldDisplayModeObserver_).

(** observer_manager.cpp:611-636 [ObserverManager::InitDisplayOrientationObserver] *)
Definition InitDisplayOrientationObserver : M unit :=
  isFoldable ← ask fw_IsFoldable;
  ret_if negb (isFoldable : bool);
  make foldDisplayOrientationObserver_
    (o_upd (fun s => s <| watched ::= fun w =>
       w <| displayOrientation_ := DISPLAY_MODE_UNKOWN |> <| currentDisplayOrientation_ := DISPLAY_MODE_UNKOWN |> |>));;
  ret ← call (FRegister CDisplayOrientation 0);
  st_when (negb (ret =? DM_OK)) (drop foldDisplayOrientationObserver_).

(** observer_manager.cpp:638-654 [ObserverManager::DisableDisplayOrientationObserver] *)
Definition DisableDisplayOrientationObserver : M unit :=
  is_there ← there foldDisplayOrientationObserver_;
  ret_if negb (is_there : bool);
  ret ← call (FUnregister CDisplayOrientation 0);
  st_when (ret =? DM_OK) (drop foldDisplayOrientationObserver_).

(** observer_manager.cpp:1051-1072 [ObserverManager::InitDisplayPowerEventObserver] *)
Definition InitDisplayPowerEventObserver : M unit :=
  make displayPowerEventListener_ (mret tt);;
  res ← call (FRegister CDisplayPower 0);
  st_when (negb (res =? DM_OK)) (drop displayPowerEventListener_).

(** observer_manager.cpp:1074-1088 [ObserverManager::DisableDisplayPowerEventObserver] *)
Definition DisableDisplayPowerEventObserver : M unit :=
  is_there ← there displayPowerEventListener_;
  ret_if negb (is_there : bool);
  res ← call (FUnregister CDisplayPower 0);
  st_when (res =? DM_OK) (drop displayPowerEventListener_).

(** observer_manager.cpp:1039-1043 [ObserverManager::InitDisplayManagerServiceSAObserver] *)
Definition InitDisplayManagerServiceSAObserver : M unit :=
  InitDisplayOrientationObserver;; InitDisplayPowerEventObserver.

(** observer_manager.cpp:1045-1049 [ObserverManager::DisableDisplayManagerServiceSAObserver] *)
Definition DisableDisplayManagerServiceSAObserver : M unit :=
  DisableDisplayOrientationObserver;; DisableDisplayPowerEventObserver.

(** ** Connections, continuation, data share, sessions, transfers, accounts *)

(** observer_manager.cpp:656-672 [ObserverManager::InitConnectionSubscriber] *)
Definition InitConnectionSubscriber : M unit :=
  make connectionSubscriber_ (mret tt);; call_ (FRegister CConnection 0).

(** observer_manager.cpp:674-690 [ObserverManager::DisableConnectionSubscriber] *)
Definition DisableConnectionSubscriber : M unit :=
  is_there ← there connectionSubscriber_;
  ret_if negb (is_there : bool);
  call_ (FUnregister CConnection 0);;
  drop connectionSubscriber_.

(** observer_manager.cpp:693-713 [ObserverManager::InitContinuationObserver] *)
Definition InitContinuationObserver : M unit :=
  make continuationObserver_ (mret tt);; call_ (FRegister CContinuation 0).

(** observer_manager.cpp:715-729 [ObserverManager::DisableContinuationObserver] *)
Definition DisableContinuationObserver : M unit :=
  is_there ← there continuationObserver_;
  ret_if negb (is_there : bool);
  call_ (FUnregister CContinuation 0);;
  drop continuationObserver_.

(** observer_manager.cpp:732-736 [ObserverManager::InitDataShareObserver] *)
Definition InitDataShareObserver : M unit := in_oobe StartListen.

(** observer_manager.cpp:738-742 [ObserverManager::DisableDataShareObserver] *)
Definition DisableDataShareObserver : M unit := in_oobe UnregisterObserver;; mret tt.

(** observer_manager.cpp:744-760 [ObserverManager::InitAVSessionStateChangeListener] *)
Definition InitAVSessionStateChangeListener : M unit :=
  make avSessionStateListener_ (mret tt);; call_ (FRegister CAvSession 0).

(** observer_manager.cpp:762-766 [ObserverManager::DisableAVSessionStateChangeListener] *)
Definition DisableAVSessionStateChangeListener : M unit := drop avSessionStateListener_.

(** observer_manager.cpp:769-785 [ObserverManager::InitDownloadUploadObserver] *)
Definition InitDownloadUploadObserver : M unit :=
  make downLoadUploadObserver_ (o_upd (fun s => s <| watched ::= fun w => w <| isReportedScene_ := false |> |>));;
  call_ (FRegister CDownload 0).

(** observer_manager.cpp:787-792 [ObserverManager::DisableDownloadUploadObserver] *)
Definition DisableDownloadUploadObserver : M unit :=
  call_ (FUnregister CDownload 0);; drop downLoadUploadObserver_.

(** observer_manager.cpp:795-817 [ObserverManager::InitAccountObserver] *)
Definition InitAccountObserver : M unit := make accountObserver_ (mret tt);; call_ (FRegister CAccount 0).

(** observer_manager.cpp:1034-1037 [ObserverManager::DisableAccountObserver] *)
Definition DisableAccountObserver : M unit := mret tt.

(** ** Windows *)

(** observer_manager.cpp:863-879 [ObserverManager::SubscribeWindowModeChange] *)
Definition SubscribeWindowModeChange : M unit :=
  make windowModeObserver_
    (o_upd (fun s => s <| watched ::= fun w => w <| lastWindowMode_ := WINDOW_MODE_OTHER |> |>);;
     call_ (FRegister CWindowMode 0);;
     userIds ← ask fw_QueryActiveOsAccountIds;
     k ← ask id;
     in_watched (InitWindowMode userIds (fun userId => fw_GetWindowModeType userId k))).

(** observer_manager.cpp:881-902 [ObserverManager::SubscribePipChange] *)
Definition SubscribePipChange : M unit := make pipStateObserver_ (call_ (FRegister CPip 0)).

(** observer_manager.cpp:904-924 [ObserverManager::InitWindowStyleObserver] *)
Definition InitWindowStyleObserver : M bool :=
  make windowStyleObserver_ (mret tt);;
  res ← call (FRegister CWindowStyle 0);
  if res =? WM_OK then
    windowStyle ← ask fw_GetWindowStyleType;
    in_watched (OnWindowStyleUpdate windowStyle);;
    mret true
  else mret false.

(** observer_manager.cpp:819-861 [ObserverManager::InitWindowStateObserver] *)
Definition InitWindowStateObserver : M unit :=
  make windowStateObserver_ (call_ (FRegister CFocus 0));;
  make windowVisibilityObserver_ (call_ (FRegister CVisibility 0));;
  make windowDrawingContentObserver_ (call_ (FRegister CDrawing 0));;
  SubscribeWindowModeChange;;
  SubscribePipChange;;
  InitWindowStyleObserver;;
  mret tt.

(** [if (p) { unregister; p = nullptr; }] *)
Definition unmake (o : Observer) (c : Callback) : M unit :=
  is_there ← there o;
  st_when is_there (call_ (FUnregister c 0);; drop o).

(** observer_manager.cpp:949-956 [ObserverManager::UnsubscribeWindowModeChange] *)
Definition UnsubscribeWindowModeChange : M unit := unmake windowModeObserver_ CWindowMode.

(** observer_manager.cpp:958-965 [ObserverManager::UnsubscribePipChange] *)
Definition UnsubscribePipChange : M unit := unmake pipStateObserver_ CPip.

(** observer_manager.cpp:967-980 [ObserverManager::DisableWindowStyleObserver] *)
Definition DisableWindowStyleObserver : M bool :=
  is_there ← there windowStyleObserver_;
  if negb is_there then mret true else
  res ← call (FUnregister CWindowStyle 0);
  if negb (res =? WM_OK) then mret false else
  drop windowStyleObserver_;;
  mret true.

(** observer_manager.cpp:926-947 [ObserverManager::DisableWindowStateObserver] *)
Definition DisableWindowStateObserver : M unit :=
  unmake windowStateObserver_ CFocus;;
  unmake windowVisibilityObserver_ CVisibility;;
  unmake windowDrawingContentObserver_ CDrawing;;
  UnsubscribeWindowModeChange;;
  UnsubscribePipChange;;
  DisableWindowStyleObserver;;
  mret tt.

(** ** Applications *)

(** observer_manager.cpp:982-992 [GetAppManagerInstance] whether there is one *)
Definition GetAppManagerInstance (k : K) : bool := fw_GetSystemAbilityManager k && fw_GetAppManager k.

(** observer_manager.cpp:994-1014 [ObserverManager::SubscribeAppState] *)
Definition SubscribeAppState : M unit :=
  appManager ← ask GetAppManagerInstance;
  ret_if negb (appManager : bool);
  put appStateObserver_;;
  err ← call (FRegister CAppState 0);
  st_when (negb (err =? 0)) (drop appStateObserver_).

(** observer_manager.cpp:1016-1032 [ObserverManager::UnsubscribeAppState] *)
Definition UnsubscribeAppState : M unit :=
  is_there ← there appStateObserver_;
  ret_if negb (is_there : bool);
  appManager ← ask GetAppManagerInstance;
  st_when appManager (call_ (FUnregister CAppState 0));;
  drop appStateObserver_.

(** ** The two maps *)

(** observer_manager.cpp:82-112 [ObserverManager::InitObserverCbMap] what a function of the map
    calls *)
Definition run_handler (h : Handler) : M unit :=
  match h with
  | HHiSysEvent => InitHiSysEventObserver
  | HMMiEvent => InitMMiEventObserver
  | HTelephony => InitTelephonyObserver
  | HAudio => InitAudioObserver
  | HDisplayMode => InitDisplayModeObserver
  | HDisplayManagerServiceSA => InitDisplayManagerServiceSAObserver
  | HConnection => InitConnectionSubscriber
  | HDataShare => InitDataShareObserver
  | HDownloadUpload => InitDownloadUploadObserver
  | HAVSession => InitAVSessionStateChangeListener
  | HAccount => InitAccountObserver
  | HWindowState => InitWindowStateObserver
  | HAppState => SubscribeAppState
  | HContinuation => InitContinuationObserver
  end.

(** observer_manager.cpp:114-145 [ObserverManager::InitRemoveObserverCbMap] what a function of
    the map calls *)
Definition run_remover (h : Handler) : M unit :=
  match h with
  | HHiSysEvent => DisableHiSysEventObserver
  | HMMiEvent => DisableMMiEventObserver
  | HTelephony => DisableTelephonyObserver
  | HAudio => DisableAudioObserver
  | HDisplayMode => DisableDisplayModeObserver
  | HDisplayManagerServiceSA => DisableDisplayManagerServiceSAObserver
  | HConnection => DisableConnectionSubscriber
  | HDataShare => DisableDataShareObserver
  | HDownloadUpload => DisableDownloadUploadObserver
  | HAVSession => DisableAVSessionStateChangeListener
  | HAccount => DisableAccountObserver
  | HWindowState => DisableWindowStateObserver
  | HAppState => UnsubscribeAppState
  | HContinuation => DisableContinuationObserver
  end.

Definition if_built (b : bool) (id : Z) (h : Handler) : list (Z * Handler) := if b then [(id, h)] else [].

(** observer_manager.cpp:82-112 [ObserverManager::InitObserverCbMap] the entries; those of
    [InitRemoveObserverCbMap] have the same ids *)
Definition handlers : list (Z * Handler) :=
  if_built WITH_APP_NAP_ENABLE DFX_SYS_EVENT_SERVICE_ABILITY_ID HHiSysEvent
  ++ if_built MMI_ENABLE MULTIMODAL_INPUT_SERVICE_ID HMMiEvent
  ++ [(TELEPHONY_STATE_REGISTRY_SYS_ABILITY_ID, HTelephony); (AUDIO_POLICY_SERVICE_ID, HAudio);
      (DISPLAY_MANAGER_SERVICE_ID, HDisplayMode); (DISPLAY_MANAGER_SERVICE_SA_ID, HDisplayManagerServiceSA);
      (ABILITY_MGR_SERVICE_ID, HConnection); (DISTRIBUTED_KV_DATA_SERVICE_ABILITY_ID, HDataShare)]
  ++ if_built REQUEST_REQUEST DOWNLOAD_SERVICE_ID HDownloadUpload
  ++ if_built MULTIMEDIA_AV_SESSION_ENABLE AVSESSION_SERVICE_ID HAVSession
  ++ [(SUBSYS_ACCOUNT_SYS_ABILITY_ID_BEGIN, HAccount); (WINDOW_MANAGER_SERVICE_ID, HWindowState);
      (APP_MGR_SERVICE_ID, HAppState)]
  ++ if_built CONTINUATION_ENABLE DISTRIBUTED_SCHED_SA_ID HContinuation.

(** observer_manager.cpp:114-145 [ObserverManager::InitRemoveObserverCbMap] *)
Definition InitRemoveObserverCbMap : M unit := o_upd (fun s => s <| removeObserverMap_ := list_to_map handlers |>).

(** observer_manager.cpp:82-112 [ObserverManager::InitObserverCbMap] *)
Definition InitObserverCbMap : M unit :=
  o_upd (fun s => s <| handleObserverMap_ := list_to_map handlers |>);;
  InitRemoveObserverCbMap.

(** observer_manager.cpp:192-206 [ObserverManager::AddItemToSysAbilityListener] *)
Definition AddItemToSysAbilityListener (systemAbilityId : Z) : M unit :=
  is_there ← there sysAbilityListener_;
  res ← call (FSubscribeSystemAbility systemAbilityId is_there);
  st_when (negb (res =? ERR_OK)) (drop sysAbilityListener_).

(** observer_manager.cpp:244-259 [ObserverManager::GetReportFunc] *)
Definition GetReportFunc : M unit :=
  need ← ask fw_IsNeedReportEvents;
  need <-? need;
  o_upd (fun s => s <| isNeedReport_ := need |>).

(** The abilities that are subscribed to. *)
Definition subscribed_abilities : list Z :=
  [DFX_SYS_EVENT_SERVICE_ABILITY_ID; TELEPHONY_STATE_REGISTRY_SYS_ABILITY_ID; AUDIO_POLICY_SERVICE_ID;
   MSDP_MOVEMENT_SERVICE_ID; MULTIMODAL_INPUT_SERVICE_ID; DISPLAY_MANAGER_SERVICE_ID; DISPLAY_MANAGER_SERVICE_SA_ID;
   ABILITY_MGR_SERVICE_ID; DISTRIBUTED_KV_DATA_SERVICE_ABILITY_ID]
  ++ (if REQUEST_REQUEST then [DOWNLOAD_SERVICE_ID] else [])
  ++ (if MULTIMEDIA_AV_SESSION_ENABLE then [AVSESSION_SERVICE_ID] else [])
  ++ [SUBSYS_ACCOUNT_SYS_ABILITY_ID_BEGIN; WINDOW_MANAGER_SERVICE_ID; APP_MGR_SERVICE_ID]
  ++ (if CONTINUATION_ENABLE then [DISTRIBUTED_SCHED_SA_ID] else []).

(** observer_manager.cpp:147-190 [ObserverManager::InitSysAbilityListener] *)
Definition InitSysAbilityListener : M unit :=
  is_there ← there sysAbilityListener_;
  ret_if (is_there : bool);
  put sysAbilityListener_;;
  systemAbilityManager ← ask fw_GetSystemAbilityManager;
  if negb systemAbilityManager then drop sysAbilityListener_ else
  InitObserverCbMap;;
  GetReportFunc;;
  st_iter AddItemToSysAbilityListener subscribed_abilities.

(** observer_manager.cpp:64-68 [ObserverManager::Init] *)
Definition ObserverManager_Init : M unit := in_apps Startup_Init;; InitSysAbilityListener.

(** observer_manager.cpp:70-80 [ObserverManager::Disable] *)
Definition ObserverManager_Disable : M unit :=
  o_upd (fun s => s <| handleObserverMap_ := ∅ |> <| removeObserverMap_ := ∅ |>);;
  in_build WITH_APP_NAP_ENABLE DisableHiSysEventObserver;;
  DisableTelephonyObserver;;
  in_apps Startup_Deinit;;
  drop sysAbilityListener_.

(** The report that an ability was added or removed. *)
Definition report_ability (sign systemAbilityId : Z) : M unit :=
  r_call (RReportInProcess RES_TYPE_OBSERVER_MANAGER_STATUS_CHANGE sign (fields [("saId", num systemAbilityId)])).

(** observer_manager.cpp:208-224 [SystemAbilityStatusChangeListener::OnAddSystemAbility] *)
Definition Mgr_OnAddSystemAbility (systemAbilityId : Z) : M unit :=
  s ← r_get;
  function <-? handleObserverMap_ s !! systemAbilityId;
  run_handler function;;
  report_ability ADD_SYSTEM_ABILITY systemAbilityId.

(** observer_manager.cpp:226-242 [SystemAbilityStatusChangeListener::OnRemoveSystemAbility] *)
Definition Mgr_OnRemoveSystemAbility (systemAbilityId : Z) : M unit :=
  s ← r_get;
  function <-? removeObserverMap_ s !! systemAbilityId;
  run_remover function;;
  report_ability REMOVE_SYSTEM_ABILITY systemAbilityId.
End manager.
