(* ===== verification/ObserverFacts.v ===== *)
(** * Facts about the manager of observers

    The observers are registered exactly at the services that are there. *)
From stdpp Require Import finite.
From S2P Require Import Prelude Json ResType CommonUtil ServiceWorld SchedReports AudioObserver AppStateObserver WindowObservers OobeManager ObserverManager AudioFacts OobeFacts.

(** ** Who is registered, by the calls *)

Definition registered_step (c : Callback) (b : bool) (call : FwCall) : bool :=
  match call with
  | FRegister c' _ => if decide (c' = c) then true else b
  | FAddListener _ => if decide (CHiSysEvent = c) then true else b
  | FUnregister c' _ => if decide (c' = c) then false else b
  | FSubscribeSystemAbility _ _ => b
  end.
Definition registered (c : Callback) (l : list FwCall) : bool := foldl (registered_step c) false l.
#[local] Arguments registered : simpl never.

(** The function of the maps that is about a callback, and that is about an observer. *)
Definition handler_of (c : Callback) : Handler :=
  match c with
  | CHiSysEvent => HHiSysEvent
  | CTelephony => HTelephony
  | CRenderer | CCapturer | CRingerMode | CVolumeKey | CAudioScene | COutputDevice => HAudio
  | CPowerKey | CMmi => HMMiEvent
  | CDisplayMode => HDisplayMode
  | CDisplayOrientation | CDisplayPower => HDisplayManagerServiceSA
  | CConnection => HConnection
  | CContinuation => HContinuation
  | CAvSession => HAVSession
  | CDownload => HDownloadUpload
  | CAccount => HAccount
  | CFocus | CVisibility | CDrawing | CWindowMode | CPip | CWindowStyle => HWindowState
  | CAppState => HAppState
  end.
Definition owner (o : Observer) : option Handler :=
  match o with
  | hiSysEventObserver_ => Some HHiSysEvent
  | mmiEventObserver_ => Some HMMiEvent
  | telephonyObserver_ => Some HTelephony
  | continuationObserver_ => Some HContinuation
  | audioObserver_ => Some HAudio
  | avSessionStateListener_ => Some HAVSession
  | sysAbilityListener_ => None
  | connectionSubscriber_ => Some HConnection
  | foldDisplayModeObserver_ => Some HDisplayMode
  | foldDisplayOrientationObserver_ | displayPowerEventListener_ => Some HDisplayManagerServiceSA
  | downLoadUploadObserver_ => Some HDownloadUpload
  | accountObserver_ => Some HAccount
  | pipStateObserver_ | windowStateObserver_ | windowVisibilityObserver_ | windowDrawingContentObserver_
  | windowModeObserver_ | windowStyleObserver_ => Some HWindowState
  | appStateObserver_ => Some HAppState
  end.
(** What is never unregistered. *)
Definition sticky (c : Callback) : bool :=
  match c with COutputDevice | CAvSession | CAccount => true | _ => false end.

#[export] Instance Handler_eq_dec : EqDecision Handler.
Proof. solve_decision. Defined.

Definition upd {A} `{!EqDecision A} (f : A -> bool) (x : A) (b : bool) : A -> bool :=
  fun y => if decide (x = y) then b else f y.
#[local] Arguments upd : simpl never.
Lemma upd_eq {A} `{!EqDecision A} (f : A -> bool) x b : upd f x b x = b.
Proof. unfold upd. by rewrite decide_True. Qed.
Lemma upd_ne {A} `{!EqDecision A} (f : A -> bool) x y b : x <> y -> upd f x b y = f y.
Proof. intros Hxy. unfold upd. by rewrite decide_False. Qed.

(** The device: whether it folds, whether the reports of the extension library are needed, and
    whether the audio system has a group manager. *)
Class DeviceKind := { foldable : bool; need_report : bool; group_manager : bool }.

Section facts.
Context {J K D : Type} `{!Json J} `{!JsonText J} `{!JsonMore J} `{!AudioFramework} `{!AppExecFwk} `{!Rosen}
  `{!DataShare D} `{!ErrCodes} `{!SystemAbilities} `{!ObserverBuild} `{!Frameworks K} `{!DeviceKind}.
#[local] Abbreviation Mgr := (ObserverManager K D).
#[local] Abbreviation M := (ST (With Mgr J)).
Implicit Types s : With Mgr J.

(** Services that are there and accept what is asked, on such a device. *)
Record accepting : Prop := {
  ac_fw c k : (fw c k).1 = 0;
  ac_WM : WM_OK = 0;
  ac_DM : DM_OK = 0;
  ac_sam k : fw_GetSystemAbilityManager k = true;
  ac_app k : fw_GetAppManager k = true;
  ac_report k : default true (fw_IsNeedReportEvents k) = need_report;
  ac_audio k : fw_AudioSystemManager k = true;
  ac_group k : fw_GroupManager k = group_manager;
  ac_renderers k : Forall is_Some (fw_GetCurrentRendererChangeInfos k);
  ac_foldable k : fw_IsFoldable k = foldable;
}.

(** The callbacks and the observers that this build has on this device. *)
Definition callback_built (c : Callback) : bool :=
  match c with
  | CTelephony => TELEPHONY_STATE_REGISTRY_ENABLE
  | CRingerMode => AUDIO_FRAMEWORK_ENABLE && group_manager
  | CRenderer | CCapturer | CVolumeKey | CAudioScene | COutputDevice => AUDIO_FRAMEWORK_ENABLE
  | CMmi => WITH_APP_NAP_ENABLE && need_report
  | CDisplayMode | CDisplayOrientation => foldable
  | _ => true
  end.
Definition observer_built (o : Observer) : bool :=
  match o with
  | telephonyObserver_ => TELEPHONY_STATE_REGISTRY_ENABLE
  | audioObserver_ => AUDIO_FRAMEWORK_ENABLE
  | mmiEventObserver_ => WITH_APP_NAP_ENABLE && need_report
  | foldDisplayModeObserver_ | foldDisplayOrientationObserver_ => foldable
  | _ => true
  end.

(** ** Effects *)

(** The callbacks that are registered and the observers that are there. *)
Record effect (rg : Callback -> bool) (ob : Observer -> bool) s : Prop := {
  ef_rg c : registered c (fw_calls (own s)) = rg c;
  ef_ob o : bool_decide (o ∈ observers (own s)) = ob o;
  ef_add : handleObserverMap_ (own s) = list_to_map handlers;
  ef_remove : removeObserverMap_ (own s) = list_to_map handlers;
  ef_report : isNeedReport_ (own s) = need_report;
}.

Definition triple {A} rg ob (m : M A) (r : A) rg' ob' : Prop :=
  forall s, effect rg ob s -> exists s', m s = Some (r, s') /\ effect rg' ob' s'.

Context (Hac : accepting).

Lemma t_ret {A} rg ob (a : A) : triple rg ob (mret a) a rg ob.
Proof. intros s Hs. by exists s. Qed.
Lemma t_bind {A B} rg ob (m : M A) (k : A -> M B) r rg1 ob1 r2 rg2 ob2 :
  triple rg ob m r rg1 ob1 -> triple rg1 ob1 (k r) r2 rg2 ob2 -> triple rg ob (m ≫= k) r2 rg2 ob2.
Proof.
  intros Hm Hk s Hs. destruct (Hm s Hs) as (s1 & E1 & Hs1). rewrite (run_bind _ _ _ _ _ E1). by apply Hk.
Qed.
Lemma t_conseq {A} rg ob (m : M A) r rg1 ob1 rg' ob' :
  triple rg ob m r rg1 ob1 -> (forall c, rg1 c = rg' c) -> (forall o, ob1 o = ob' o) -> triple rg ob m r rg' ob'.
Proof.
  intros Hm Hrg Hob s Hs. destruct (Hm s Hs) as (s1 & E1 & [? ? ? ? ?]). exists s1. split; [done|].
  split; [intros c; by rewrite <- Hrg|intros o; by rewrite <- Hob|done..].
Qed.

(** Anything that leaves the members of the manager that matter. *)
Definition unseen (f : Mgr -> Mgr) : Prop :=
  forall m, fw_calls (f m) = fw_calls m /\ observers (f m) = observers m /\ handleObserverMap_ (f m) = handleObserverMap_ m
    /\ removeObserverMap_ (f m) = removeObserverMap_ m /\ isNeedReport_ (f m) = isNeedReport_ m.
Lemma effect_unseen rg ob f s l : unseen f -> effect rg ob s -> effect rg ob (mkWith (f (own s)) l).
Proof.
  intros Hf [? ? ? ? ?]. destruct (Hf (own s)) as (E1 & E2 & E3 & E4 & E5).
  split; cbn; by rewrite ?E1, ?E2, ?E3, ?E4, ?E5.
Qed.
Lemma t_upd rg ob f : unseen f -> triple rg ob (o_upd f) tt rg ob.
Proof. intros Hf s Hs. eexists. split; [reflexivity|]. by apply effect_unseen. Qed.
Lemma t_report rg ob t v p : triple rg ob (r_report t v p) tt rg ob.
Proof. intros s Hs. eexists. split; [reflexivity|]. by apply (effect_unseen _ _ id). Qed.
Lemma t_call_report rg ob c : triple rg ob (r_call c) tt rg ob.
Proof. intros s Hs. eexists. split; [reflexivity|]. by apply (effect_unseen _ _ id). Qed.

Lemma t_get {A} rg ob (k : Mgr -> M A) r rg' ob' :
  (forall m, isNeedReport_ m = need_report -> triple rg ob (k m) r rg' ob') -> triple rg ob (r_get ≫= k) r rg' ob'.
Proof. intros Hk s Hs. rewrite (run_bind _ _ _ _ _ eq_refl). apply Hk; [by apply Hs|done]. Qed.
Lemma t_ask {A B} rg ob (f : K -> B) (k : B -> M A) r rg' ob' :
  (forall x, triple rg ob (k (f x)) r rg' ob') -> triple rg ob (ask f ≫= k) r rg' ob'.
Proof. intros Hk s Hs. rewrite (run_bind _ _ _ _ _ eq_refl). by apply Hk. Qed.

Lemma t_there rg ob o : triple rg ob (there o) (ob o) rg ob.
Proof.
  intros s Hs. exists s. split; [|done]. unfold there. rewrite (run_bind _ _ _ _ _ eq_refl).
  by rewrite (ef_ob _ _ _ Hs o).
Qed.
Lemma t_put rg ob o : triple rg ob (put o) tt rg (upd ob o true).
Proof.
  intros s [? Hob ? ? ?]. eexists. split; [reflexivity|]. split; cbn; try done.
  intros o'. unfold upd. case_decide as Ho; [subst; apply bool_decide_eq_true; set_solver|].
  rewrite <- Hob. apply bool_decide_ext. set_solver.
Qed.
Lemma t_drop rg ob o : triple rg ob (drop o) tt rg (upd ob o false).
Proof.
  intros s [? Hob ? ? ?]. eexists. split; [reflexivity|]. split; cbn; try done.
  intros o'. unfold upd. case_decide as Ho; [subst; apply bool_decide_eq_false; set_solver|].
  rewrite <- Hob. apply bool_decide_ext. set_solver.
Qed.

Lemma registered_snoc c l x : registered c (l ++ [x]) = registered_step c (registered c l) x.
Proof. unfold registered. by rewrite foldl_app. Qed.

Lemma t_call rg ob x : triple rg ob (call x) 0 (fun c => registered_step c (rg c) x) ob.
Proof.
  intros s [Hrg ? ? ? ?]. unfold call. pose proof (ac_fw Hac x (fw_env (own s))) as E.
  destruct (fw x (fw_env (own s))) as [res k]. cbn in E. subst res. eexists. split; [reflexivity|].
  split; cbn; try done. intros c. by rewrite registered_snoc, Hrg.
Qed.
Lemma t_register rg ob c k : triple rg ob (call (FRegister c k)) 0 (upd rg c true) ob.
Proof. eapply t_conseq; [apply t_call|done|done]. Qed.
Lemma t_unregister rg ob c k : triple rg ob (call (FUnregister c k)) 0 (upd rg c false) ob.
Proof. eapply t_conseq; [apply t_call|done|done]. Qed.
Lemma t_listener rg ob l : triple rg ob (call (FAddListener l)) 0 (upd rg CHiSysEvent true) ob.
Proof. eapply t_conseq; [apply t_call|done|done]. Qed.
Lemma t_call_ rg ob x rg' : triple rg ob (call x) 0 rg' ob -> triple rg ob (call_ x) tt rg' ob.
Proof. intros Hx. eapply t_bind; [exact Hx|apply t_ret]. Qed.

Lemma t_in_own {S} rg ob (part : Mgr -> S) (set : S -> Mgr -> Mgr) (m : ST (With S J) unit) :
  (forall x, unseen (set x)) -> total m -> triple rg ob (in_own part set m) tt rg ob.
Proof.
  intros Hset Hm s Hs. unfold in_own. destruct (Hm (mkWith (part (own s)) (calls s))) as [[[] s'] ->].
  eexists. split; [reflexivity|]. by apply effect_unseen.
Qed.
Lemma run_in_oobe {A} rg ob (m : ST (Oobe D) A) s :
  total m -> effect rg ob s -> exists a s', in_oobe m s = Some (a, s') /\ effect rg ob s'.
Proof.
  intros Hm Hs. unfold in_oobe. destruct (Hm (oobe (own s))) as [[a o] ->]. eexists a, _. split; [reflexivity|].
  by apply (effect_unseen _ _ (fun x => x <| oobe := o |>)).
Qed.
Lemma t_in_oobe rg ob (m : ST (Oobe D) unit) : total m -> triple rg ob (in_oobe m) tt rg ob.
Proof. intros Hm s Hs. destruct (run_in_oobe _ _ m s Hm Hs) as ([] & s' & E & Hs'). by exists s'. Qed.
Lemma t_in_oobe_bind {A B} rg ob (m : ST (Oobe D) A) (k : A -> M B) r rg' ob' :
  total m -> (forall a, triple rg ob (k a) r rg' ob') -> triple rg ob (in_oobe m ≫= k) r rg' ob'.
Proof.
  intros Hm Hk s Hs. destruct (run_in_oobe _ _ m s Hm Hs) as (a & s' & E & Hs'). rewrite (run_bind _ _ _ _ _ E).
  by apply Hk.
Qed.

Lemma t_there_as rg ob o b : ob o = b -> triple rg ob (there o) b rg ob.
Proof. intros <-. apply t_there. Qed.
(** An observer is made only when it is not there. *)
Lemma t_make_not rg ob o init : ob o = true -> triple rg ob (make o init) tt rg ob.
Proof. intros E. unfold make. eapply t_bind; [by apply t_there_as|]. apply t_ret. Qed.
Lemma t_make rg ob o init rg' ob' :
  ob o = false -> triple rg (upd ob o true) init tt rg' ob' -> triple rg ob (make o init) tt rg' ob'.
Proof.
  intros E Hinit. unfold make. eapply t_bind; [by apply t_there_as|]. cbn. eapply t_bind; [apply t_put|]. done.
Qed.

(** ** What the handlers do *)

(** By which abilities are there and which were ever there. *)
Definition callbacks (cur ever : Handler -> bool) (c : Callback) : bool :=
  callback_built c && (if sticky c then ever (handler_of c) else cur (handler_of c)).
Definition pointers (cur ever : Handler -> bool) (o : Observer) : bool :=
  match owner o with
  | None => true
  | Some h => observer_built o && match o with accountObserver_ => ever h | _ => cur h end
  end.

Lemma t_iter {A} rg ob (f : A -> M unit) l :
  (forall x, triple rg ob (f x) tt rg ob) -> triple rg ob (st_iter f l) tt rg ob.
Proof. intros Hf. induction l as [|x l IH]; [apply t_ret|]. eapply t_bind; [apply Hf|exact IH]. Qed.

(** The operations of the observers are defined. *)
Section totals.
Context {S : Type}.
Lemma total_get_own : total (r_get (J := J) (S := S)).
Proof. intros s. by eexists. Qed.
Lemma total_report t v p : total (r_report (J := J) (S := S) t v p).
Proof. apply total_modify. Qed.
Lemma total_upd_own f : total (r_upd (J := J) (S := S) f).
Proof. apply total_modify. Qed.
End totals.
#[local] Hint Resolve total_get_own total_report total_upd_own : total.

Lemma total_display_mode mode : total (OnDisplayModeChanged (J := J) mode).
Proof. unfold OnDisplayModeChanged, enter_display_mode, ReportDisplayModeStatus. total_auto. Qed.
Lemma total_window_mode ids f : total (InitWindowMode (J := J) ids f).
Proof. unfold InitWindowMode. total_auto. Qed.
Lemma total_window_style t : total (OnWindowStyleUpdate (J := J) t).
Proof. apply total_report. Qed.

Lemma total_audio_init r c : Forall is_Some r -> total (AudioObserver_Init (J := J) r c).
Proof.
  intros Hr. unfold AudioObserver_Init. apply total_bind; [|intros _].
  - exact (total_event (json_null : J) (ARenderers r) Hr).
  - exact (total_event (json_null : J) (ACapturers c) I).
Qed.
Lemma total_audio_end : total (ProcessCapturerEndCaseByUnregister (J := J)).
Proof. exact (total_event (json_null : J) AUnregister I). Qed.

Ltac at_point := repeat (rewrite upd_eq || rewrite upd_ne by discriminate).
Ltac use_known := repeat match goal with
  | E : ?x = true |- _ => rewrite E
  | E : ?x = false |- _ => rewrite E
  end.
Ltac known := at_point; unfold pointers, callbacks, callback_built; cbn; use_known; cbn; reflexivity.
Ltac unseen := intros []; cbn; by split_and!.
Ltac total_obs := try (apply total_modify); total_auto.
(** One step of a handler: the code decides. *)
Ltac eff :=
  lazymatch goal with
  | |- triple _ _ (mret _) _ _ _ => apply t_ret
  | |- triple _ _ (r_get ≫= _) _ _ _ =>
      let m := fresh "m" in let Hm := fresh "Hm" in apply t_get; intros m Hm; rewrite ?Hm; cbn [negb]
  | |- triple _ _ (ask _ ≫= _) _ _ _ =>
      let k := fresh "k" in apply t_ask; intros k;
      unfold GetAppManagerInstance;
      rewrite ?(ac_foldable Hac), ?(ac_sam Hac), ?(ac_app Hac), ?(ac_audio Hac), ?(ac_group Hac); cbn [negb andb]
  | |- triple _ _ (in_oobe _ ≫= _) _ _ _ => apply t_in_oobe_bind; [|intros ?]
  | |- triple _ _ (_ ≫= _) _ _ _ => eapply t_bind; [eff|cbv beta; rewrite ?(ac_WM Hac), ?(ac_DM Hac); cbn [negb]]
  | |- triple _ _ (call_ _) _ _ _ => apply t_call_; eff
  | |- triple _ _ (call (FRegister _ _)) _ _ _ => apply t_register
  | |- triple _ _ (call (FUnregister _ _)) _ _ _ => apply t_unregister
  | |- triple _ _ (call (FAddListener _)) _ _ _ => apply t_listener
  | |- triple _ _ (there _) _ _ _ => apply t_there_as; known
  | |- triple _ _ (put _) _ _ _ => apply t_put
  | |- triple _ _ (drop _) _ _ _ => apply t_drop
  | |- triple _ _ (o_upd _) _ _ _ => apply t_upd; unseen
  | |- triple _ _ (r_report _ _ _) _ _ _ => apply t_report
  | |- triple _ _ (in_watched _) _ _ _ =>
      apply t_in_own; [intros ?; unseen|first [apply total_display_mode|apply total_window_mode|apply total_window_style]]
  | |- triple _ _ (in_audio _) _ _ _ =>
      apply t_in_own; [intros ?; unseen|first [apply total_audio_init, (ac_renderers Hac)|apply total_audio_end]]
  | |- triple _ _ (st_iter _ _) _ _ _ => apply t_iter; intros [[[? ?] ?] ?]; apply t_report
  | |- triple _ _ (make _ _) _ _ _ => first [apply t_make_not; known | apply t_make; [known|]]
  | |- triple _ _ (st_when _ _) _ _ _ => use_known; change (0 =? 0) with true; cbn [st_when negb andb]
  | |- triple _ _ (if _ then _ else _) _ _ _ => use_known; change (0 =? 0) with true; cbn [negb andb]
  end.
Ltac effs := repeat eff.
Ltac points := intros []; at_point; unfold callbacks, pointers, callback_built; cbn; at_point; use_known; cbn; try reflexivity.
Ltac effects := eapply t_conseq; [effs|points|points].

Definition after (b : bool) (h : Handler) (m : M unit) : Prop := forall cur ever,
  triple (callbacks cur ever) (pointers cur ever) m tt
    (callbacks (upd cur h b) (if b then upd ever h true else ever))
    (pointers (upd cur h b) (if b then upd ever h true else ever)).
Ltac by_cases h := intros cur ever; destruct (cur h) eqn:?Ecur.

Lemma on_hisys : after true HHiSysEvent InitHiSysEventObserver.
Proof. unfold InitHiSysEventObserver. by_cases HHiSysEvent; effects. Qed.
Lemma off_hisys : after false HHiSysEvent DisableHiSysEventObserver.
Proof. unfold DisableHiSysEventObserver. by_cases HHiSysEvent; effects. Qed.
Lemma on_connection : after true HConnection InitConnectionSubscriber.
Proof. unfold InitConnectionSubscriber. by_cases HConnection; effects. Qed.
Lemma off_connection : after false HConnection DisableConnectionSubscriber.
Proof. unfold DisableConnectionSubscriber. by_cases HConnection; effects. Qed.
Lemma on_continuation : after true HContinuation InitContinuationObserver.
Proof. unfold InitContinuationObserver. by_cases HContinuation; effects. Qed.
Lemma off_continuation : after false HContinuation DisableContinuationObserver.
Proof. unfold DisableContinuationObserver. by_cases HContinuation; effects. Qed.
Lemma on_account : after true HAccount InitAccountObserver.
Proof. unfold InitAccountObserver. intros cur ever. destruct (ever HAccount) eqn:Eever; effects. Qed.
Lemma off_account : after false HAccount DisableAccountObserver.
Proof. unfold DisableAccountObserver. by_cases HAccount; effects. Qed.
Lemma on_session : after true HAVSession InitAVSessionStateChangeListener.
Proof. unfold InitAVSessionStateChangeListener. by_cases HAVSession; effects. Qed.
Lemma off_session : after false HAVSession DisableAVSessionStateChangeListener.
Proof. unfold DisableAVSessionStateChangeListener. by_cases HAVSession; effects. Qed.
Lemma on_app : after true HAppState SubscribeAppState.
Proof. unfold SubscribeAppState. by_cases HAppState; effects. Qed.
Lemma off_app : after false HAppState UnsubscribeAppState.
Proof. unfold UnsubscribeAppState. by_cases HAppState; effects. Qed.
Lemma on_download : after true HDownloadUpload InitDownloadUploadObserver.
Proof. unfold InitDownloadUploadObserver. by_cases HDownloadUpload; effects. Qed.
Lemma off_download : after false HDownloadUpload DisableDownloadUploadObserver.
Proof. unfold DisableDownloadUploadObserver. by_cases HDownloadUpload; effects. Qed.
Lemma on_display_mode : after true HDisplayMode InitDisplayModeObserver.
Proof. unfold InitDisplayModeObserver. destruct foldable eqn:Efold; by_cases HDisplayMode; effects. Qed.
Lemma off_display_mode : after false HDisplayMode DisableDisplayModeObserver.
Proof. unfold DisableDisplayModeObserver. destruct foldable eqn:Efold; by_cases HDisplayMode; effects. Qed.
Lemma on_display_manager : after true HDisplayManagerServiceSA InitDisplayManagerServiceSAObserver.
Proof.
  unfold InitDisplayManagerServiceSAObserver, InitDisplayOrientationObserver, InitDisplayPowerEventObserver.
  destruct foldable eqn:Efold; by_cases HDisplayManagerServiceSA; effects.
Qed.
Lemma off_display_manager : after false HDisplayManagerServiceSA DisableDisplayManagerServiceSAObserver.
Proof.
  unfold DisableDisplayManagerServiceSAObserver, DisableDisplayOrientationObserver, DisableDisplayPowerEventObserver.
  destruct foldable eqn:Efold; by_cases HDisplayManagerServiceSA; effects.
Qed.
Lemma on_windows : after true HWindowState InitWindowStateObserver.
Proof.
  unfold InitWindowStateObserver, SubscribeWindowModeChange, SubscribePipChange, InitWindowStyleObserver.
  by_cases HWindowState; effects.
Qed.
Lemma off_windows : after false HWindowState DisableWindowStateObserver.
Proof.
  unfold DisableWindowStateObserver, UnsubscribeWindowModeChange, UnsubscribePipChange, DisableWindowStyleObserver, unmake.
  by_cases HWindowState; effects.
Qed.
Lemma on_telephony : after true HTelephony InitTelephonyObserver.
Proof.
  unfold InitTelephonyObserver, in_build. destruct TELEPHONY_STATE_REGISTRY_ENABLE eqn:Eb; by_cases HTelephony; effects.
Qed.
Lemma off_telephony : after false HTelephony DisableTelephonyObserver.
Proof.
  unfold DisableTelephonyObserver, in_build. destruct TELEPHONY_STATE_REGISTRY_ENABLE eqn:Eb; by_cases HTelephony; effects.
Qed.
Lemma on_input : after true HMMiEvent InitMMiEventObserver.
Proof.
  unfold InitMMiEventObserver, OPERATION_SUCCESS, in_build, GetAllMmiStatusData.
  destruct WITH_APP_NAP_ENABLE eqn:Eb, need_report eqn:Eneed; by_cases HMMiEvent; effects.
Qed.
Lemma off_input : after false HMMiEvent DisableMMiEventObserver.
Proof.
  unfold DisableMMiEventObserver, in_build. destruct WITH_APP_NAP_ENABLE eqn:Eb, need_report eqn:Eneed; by_cases HMMiEvent; effects.
Qed.
Lemma on_audio : after true HAudio InitAudioObserver.
Proof.
  unfold InitAudioObserver, InitAudioEventListener, in_build.
  destruct AUDIO_FRAMEWORK_ENABLE eqn:Eb, group_manager eqn:Egroup; by_cases HAudio; effects.
Qed.
Lemma off_audio : after false HAudio DisableAudioObserver.
Proof.
  unfold DisableAudioObserver, in_build. destruct AUDIO_FRAMEWORK_ENABLE eqn:Eb, group_manager eqn:Egroup; by_cases HAudio; effects.
Qed.
Lemma on_data_share : after true HDataShare InitDataShareObserver.
Proof.
  intros cur ever. eapply t_conseq; [apply t_in_oobe; exact (total_oobe_event OStartListen)|points|points].
Qed.
Lemma off_data_share : after false HDataShare DisableDataShareObserver.
Proof.
  intros cur ever.
  eapply t_conseq; [apply t_in_oobe_bind; [apply total_Unregister|intros _; apply t_ret]|points|points].
Qed.

Lemma on_handler h : after true h (run_handler h).
Proof.
  destruct h; cbn [run_handler]; auto using on_hisys, on_input, on_telephony, on_audio, on_display_mode,
    on_display_manager, on_connection, on_data_share, on_download, on_session, on_account, on_windows, on_app,
    on_continuation.
Qed.
Lemma off_handler h : after false h (run_remover h).
Proof.
  destruct h; cbn [run_remover]; auto using off_hisys, off_input, off_telephony, off_audio, off_display_mode,
    off_display_manager, off_connection, off_data_share, off_download, off_session, off_account, off_windows, off_app,
    off_continuation.
Qed.

(** ** Histories *)

(** An ability is added or removed; or callbacks change the state of the observers, and
    anything changes in the other services. *)
Inductive MgrEvent :=
  | MAdd (systemAbilityId : Z)
  | MRemove (systemAbilityId : Z)
  | MElse (a : AudioObserver) (w : Watched) (p : AppStates) (o : Oobe D) (k : K).

Definition mgr_event (e : MgrEvent) : M unit :=
  match e with
  | MAdd id => Mgr_OnAddSystemAbility id
  | MRemove id => Mgr_OnRemoveSystemAbility id
  | MElse a w p o k => o_upd (fun m => m <| audio := a |> <| watched := w |> <| apps := p |> <| oobe := o |> <| fw_env := k |>)
  end.

(** Whether the last that happened to an ability is that it was added, and whether it was ever
    added. *)
Definition is_on (id : Z) (l : list MgrEvent) : bool :=
  foldl (fun b e => match e with
    | MAdd i => if decide (i = id) then true else b
    | MRemove i => if decide (i = id) then false else b
    | _ => b end) false l.
Definition was_on (id : Z) (l : list MgrEvent) : bool :=
  foldl (fun b e => match e with MAdd i => if decide (i = id) then true else b | _ => b end) false l.

(** The same by the functions of the maps. *)
Definition next_cur (f : Handler -> bool) (e : MgrEvent) : Handler -> bool :=
  match e with
  | MAdd i => match (list_to_map handlers : gmap Z Handler) !! i with Some h => upd f h true | None => f end
  | MRemove i => match (list_to_map handlers : gmap Z Handler) !! i with Some h => upd f h false | None => f end
  | _ => f
  end.
Definition next_ever (f : Handler -> bool) (e : MgrEvent) : Handler -> bool :=
  match e with
  | MAdd i => match (list_to_map handlers : gmap Z Handler) !! i with Some h => upd f h true | None => f end
  | _ => f
  end.

Lemma mgr_step cur ever e :
  triple (callbacks cur ever) (pointers cur ever) (mgr_event e) tt
    (callbacks (next_cur cur e) (next_ever ever e)) (pointers (next_cur cur e) (next_ever ever e)).
Proof.
  destruct e as [i|i|a w p o k]; cbn [mgr_event next_cur next_ever].
  - intros s Hs. unfold Mgr_OnAddSystemAbility. rewrite (run_bind _ _ _ _ _ eq_refl), (ef_add _ _ _ Hs).
    destruct (_ !! i) as [h|]; [|by exists s]. revert s Hs.
    eapply t_bind; [apply (on_handler h cur ever)|]. apply t_call_report.
  - intros s Hs. unfold Mgr_OnRemoveSystemAbility. rewrite (run_bind _ _ _ _ _ eq_refl), (ef_remove _ _ _ Hs).
    destruct (_ !! i) as [h|]; [|by exists s]. revert s Hs.
    eapply t_bind; [apply (off_handler h cur ever)|]. apply t_call_report.
  - apply t_upd. unseen.
Qed.

Lemma history cur ever l :
  triple (callbacks cur ever) (pointers cur ever) (st_iter mgr_event l) tt
    (callbacks (foldl next_cur cur l) (foldl next_ever ever l)) (pointers (foldl next_cur cur l) (foldl next_ever ever l)).
Proof.
  revert cur ever. induction l as [|e l IH]; intros cur ever; [apply t_ret|].
  cbn [st_iter foldl]. eapply t_bind; [apply mgr_step|apply IH].
Qed.
(** The ids are different, and so are the functions. *)
Lemma handlers_differ : NoDup handlers.*2.
Proof.
  apply (bool_decide_unpack _). unfold handlers, if_built.
  destruct WITH_APP_NAP_ENABLE, MMI_ENABLE, REQUEST_REQUEST, MULTIMEDIA_AV_SESSION_ENABLE, CONTINUATION_ENABLE;
    vm_compute; exact I.
Qed.
Lemma same_handler i j h :
  NoDup handlers.*1 -> (i, h) ∈ handlers -> (list_to_map handlers : gmap Z Handler) !! j = Some h -> j = i.
Proof.
  intros Hnd Hi Hj%elem_of_list_to_map_2. apply list_elem_of_lookup in Hi as [n Hn], Hj as [n' Hn'].
  assert (n' = n) as -> by (eapply (NoDup_lookup _ _ _ h handlers_differ); rewrite list_lookup_fmap; [by rewrite Hn'|by rewrite Hn]).
  congruence.
Qed.

Lemma next_is_on i h l cur ever :
  NoDup handlers.*1 -> (i, h) ∈ handlers ->
  foldl next_cur cur l h = foldl (fun b e => match e with
    | MAdd j => if decide (j = i) then true else b
    | MRemove j => if decide (j = i) then false else b
    | _ => b end) (cur h) l
  /\ foldl next_ever ever l h = foldl (fun b e => match e with
    | MAdd j => if decide (j = i) then true else b | _ => b end) (ever h) l.
Proof.
  intros Hnd Hi. assert (Hmap : (list_to_map handlers : gmap Z Handler) !! i = Some h) by by apply elem_of_list_to_map.
  assert (Hstep : forall j (f : Handler -> bool) b,
    (match (list_to_map handlers : gmap Z Handler) !! j with Some h' => upd f h' b | None => f end) h
    = if decide (j = i) then b else f h).
  { intros j f b. case_decide as Hj; [subst j; rewrite Hmap; apply upd_eq|].
    destruct (_ !! j) as [h'|] eqn:E; [|done]. apply upd_ne. intros ->. apply Hj. by eapply same_handler. }
  revert cur ever. induction l as [|e l IH]; intros cur ever; [done|]. cbn [foldl].
  destruct (IH (next_cur cur e) (next_ever ever e)) as [-> ->].
  destruct e as [j|j|]; cbn [next_cur next_ever]; rewrite ?Hstep; done.
Qed.

(** ** The start *)

(** The extension library may say that its reports are not needed; without it they are. *)
Lemma run_report_func rg ob s :
  isNeedReport_ (own s) = true ->
  (forall c, registered c (fw_calls (own s)) = rg c) -> (forall o, bool_decide (o ∈ observers (own s)) = ob o) ->
  handleObserverMap_ (own s) = list_to_map handlers -> removeObserverMap_ (own s) = list_to_map handlers ->
  exists s', GetReportFunc s = Some (tt, s') /\ effect rg ob s'.
Proof.
  intros Hn Hrg Hob Ha Hr. unfold GetReportFunc. rewrite (run_bind _ _ _ _ _ eq_refl).
  pose proof (ac_report Hac (fw_env (own s))) as Hk.
  destruct (fw_IsNeedReportEvents (fw_env (own s))) as [b|]; cbn in Hk;
    eexists; (split; [reflexivity|]); (split; cbn; congruence || done).
Qed.
Lemma t_add_item rg ob i : triple rg ob (AddItemToSysAbilityListener i) tt rg ob.
Proof.
  unfold AddItemToSysAbilityListener. eapply t_bind; [apply t_there|]. eapply t_bind; [apply t_call|]. apply t_ret.
Qed.

Lemma started o k :
  exists s0, ObserverManager_Init (mkWith (new_ObserverManager o k) []) = Some (tt, s0)
    /\ effect (callbacks (fun _ => false) (fun _ => false)) (pointers (fun _ => false) (fun _ => false)) s0.
Proof.
  unfold ObserverManager_Init. rewrite (run_bind _ _ _ _ _ eq_refl). unfold InitSysAbilityListener.
  rewrite (run_bind _ _ _ _ _ eq_refl). rewrite bool_decide_false by (cbn; set_solver).
  rewrite (run_bind _ _ _ _ _ eq_refl), (run_bind _ _ _ _ _ eq_refl).
  match goal with |- context [negb ?b] => replace b with true by (symmetry; apply (ac_sam Hac)) end.
  cbn [negb]. rewrite (run_bind _ _ _ _ _ eq_refl).
  match goal with |- exists s0, (_ ≫= _) ?s = _ /\ _ =>
    destruct (run_report_func (callbacks (fun _ => false) (fun _ => false)) (pointers (fun _ => false) (fun _ => false)) s)
      as (s1 & E1 & Hs) end; try done.
  - intros c. unfold callbacks. by destruct (sticky c); rewrite andb_false_r.
  - intros []; unfold pointers; cbn [owner]; rewrite ?andb_false_r;
      first [apply bool_decide_eq_false; cbn; set_solver|apply bool_decide_eq_true; cbn; set_solver].
  - rewrite (run_bind _ _ _ _ _ E1). revert Hs. apply t_iter. intros i. apply t_add_item.
Qed.

(** C28: Observers follow their services.  The device may fold or not, the extension library may
    want reports or not, and the audio system may lack a group manager; but the ability manager,
    the application manager and the audio system are there, every registration, its withdrawal
    and every subscription succeeds, and no null renderer is handed over.  Then, over any history
    of system abilities that are added and removed, in any order and repeatedly, mixed with
    callbacks that change the state of the observers: every call returns, and a callback is
    registered at its service exactly if this build has it on this device and the last that
    happened to the service is that it was added; except the listeners of the preferred output
    device, of sessions and of accounts, which stay registered for ever. *)
Theorem observers_follow_services o k l :
  NoDup handlers.*1 ->
  exists s0 s, ObserverManager_Init (mkWith (new_ObserverManager o k) []) = Some (tt, s0)
    /\ st_iter mgr_event l s0 = Some (tt, s)
    /\ forall c i, (i, handler_of c) ∈ handlers ->
        registered c (fw_calls (own s)) = callback_built c && (if sticky c then was_on i l else is_on i l).
Proof.
  intros Hnd. destruct (started o k) as (s0 & E0 & H0'). destruct (history _ _ l _ H0') as (s & E & Hs).
  exists s0, s. split; [exact E0|]. split; [exact E|]. intros c i Hi. rewrite (ef_rg _ _ _ Hs c).
  unfold callbacks. destruct (next_is_on i (handler_of c) l (fun _ => false) (fun _ => false) Hnd Hi) as [-> ->]. done.
Qed.
End facts.

(** ** A concrete device *)

#[local] Instance demo_audio : AudioFramework := {|
  RENDERER_RUNNING := 2; RENDERER_STOPPED := 3; RENDERER_RELEASED := 4; RENDERER_PAUSED := 5;
  CAPTURER_RUNNING := 2; CAPTURER_STOPPED := 3; CAPTURER_RELEASED := 4;
  set_order := elements; set_order_perm := fun X => reflexivity _;
|}.
#[local] Instance demo_framework : AppExecFwk := {|
  EXTENSION_STATE_CREATE := 0; EXTENSION_STATE_READY := 1; EXTENSION_STATE_CONNECTED := 2;
  EXTENSION_STATE_DISCONNECTED := 3; EXTENSION_STATE_TERMINATED := 4; EXTENSION_STATE_FOREGROUND := 5;
  EXTENSION_STATE_BACKGROUND := 6; FWK_ABILITY_STATE_CREATE := 0; FWK_ABILITY_STATE_READY := 1;
  FWK_ABILITY_STATE_CONNECTED := 7; FWK_ABILITY_STATE_DISCONNECTED := 8; FWK_ABILITY_STATE_TERMINATED := 5;
  FWK_ABILITY_STATE_FOREGROUND := 2; FWK_ABILITY_STATE_BACKGROUND := 4; IsUIExtension := fun _ => false;
|}.
#[local] Instance demo_rosen : Rosen := {|
  WINDOW_VISIBILITY_STATE_TOTALLY_OCCUSION := 2; ROSEN_WINDOW_MODE_SPLIT := 1; ROSEN_WINDOW_MODE_FLOATING := 2;
  ROSEN_WINDOW_MODE_FULLSCREEN_FLOATING := 5; ROSEN_WINDOW_MODE_SPLIT_FLOATING := 3;
  WINDOW_STYLE_FREE_MULTI_WINDOW := 1; FOLD_FULL := 1; FOLD_SUB := 3; FOLD_MAIN := 2; FOLD_GLOBAL_FULL := 5;
  DISPLAY_WAKE_UP := 0; EVENT_BEGIN := 0;
|}.
#[local] Instance demo_share : DataShare unit := {|
  ds_GetSystemAbility := fun _ => true; ds_Create := fun k => (true, k);
  ds_Query := fun _ k => (DsRows 1 (Some "0"), k); ERR_NO_INIT := 2; ERR_NAME_NOT_FOUND := 3;
|}.
#[local] Instance demo_errors : ErrCodes := {|
  RES_SCHED_COMMON_ERR_OFFSET := 100; RES_SCHED_SERVICE_ERR_OFFSET := 200; ERR_INVALID_OPERATION := 4;
  ERR_INVALID_VALUE := 5;
|}.
#[local] Instance demo_abilities : SystemAbilities := {|
  DFX_SYS_EVENT_SERVICE_ABILITY_ID := 1203; MULTIMODAL_INPUT_SERVICE_ID := 3101;
  TELEPHONY_STATE_REGISTRY_SYS_ABILITY_ID := 4005; AUDIO_POLICY_SERVICE_ID := 3009; DISPLAY_MANAGER_SERVICE_ID := 3308;
  DISPLAY_MANAGER_SERVICE_SA_ID := 4607; ABILITY_MGR_SERVICE_ID := 180; DISTRIBUTED_KV_DATA_SERVICE_ABILITY_ID := 1301;
  DOWNLOAD_SERVICE_ID := 3706; AVSESSION_SERVICE_ID := 6700; SUBSYS_ACCOUNT_SYS_ABILITY_ID_BEGIN := 200;
  WINDOW_MANAGER_SERVICE_ID := 4606; APP_MGR_SERVICE_ID := 501; DISTRIBUTED_SCHED_SA_ID := 1401;
  MSDP_MOVEMENT_SERVICE_ID := 2907;
|}.
#[local] Instance demo_build : ObserverBuild := {|
  WITH_APP_NAP_ENABLE := true; MMI_ENABLE := true; TELEPHONY_STATE_REGISTRY_ENABLE := true;
  AUDIO_FRAMEWORK_ENABLE := true; REQUEST_REQUEST := true; MULTIMEDIA_AV_SESSION_ENABLE := true;
  CONTINUATION_ENABLE := true;
|}.
#[local] Instance demo_frameworks : Frameworks unit := {|
  fw := fun _ k => (0, k); WM_OK := 0; DM_OK := 0; fw_GetSystemAbilityManager := fun _ => true;
  fw_GetAppManager := fun _ => true; fw_IsNeedReportEvents := fun _ => None; fw_getpid := fun _ => 1096;
  fw_AudioSystemManager := fun _ => true; fw_GroupManager := fun _ => true;
  fw_GetCurrentRendererChangeInfos := fun _ => []; fw_GetCurrentCapturerChangeInfos := fun _ => [];
  fw_GetAllMmiSubscribedEvents := fun _ => []; fw_IsFoldable := fun _ => false; fw_GetFoldDisplayMode := fun _ => 1;
  fw_GetWindowStyleType := fun _ => 0; fw_QueryActiveOsAccountIds := fun _ => Some [100];
  fw_GetWindowModeType := fun _ _ => Some 2;
|}.

#[local] Instance demo_kind : DeviceKind := {| foldable := false; need_report := true; group_manager := true |}.
Lemma demo_accepting : accepting (K := unit).
Proof. split; done. Qed.

(** The audio service starts, stops and starts again; the window service stops after its start; the
    device does not fold. *)
Definition demo_abilities_history : list (MgrEvent (K := unit) (D := unit)) :=
  [MAdd AUDIO_POLICY_SERVICE_ID; MAdd WINDOW_MANAGER_SERVICE_ID; MAdd DISPLAY_MANAGER_SERVICE_ID;
   MRemove AUDIO_POLICY_SERVICE_ID; MRemove WINDOW_MANAGER_SERVICE_ID; MAdd AUDIO_POLICY_SERVICE_ID].

Lemma observers_follow_services_witness :
  accepting (K := unit) /\ NoDup handlers.*1
  /\ exists s0 s, ObserverManager_Init (mkWith (new_ObserverManager (new_Oobe tt) tt) ([] : list (RCall json))) = Some (tt, s0)
    /\ st_iter mgr_event demo_abilities_history s0 = Some (tt, s)
    /\ registered CRenderer (fw_calls (own s)) = true /\ registered CFocus (fw_calls (own s)) = false
    /\ registered CDisplayMode (fw_calls (own s)) = false.
Proof.
  assert (Hnd : NoDup handlers.*1) by (apply (bool_decide_unpack _); vm_compute; exact I).
  split; [exact demo_accepting|]. split; [exact Hnd|].
  destruct (observers_follow_services (J := json) demo_accepting (new_Oobe tt) tt demo_abilities_history Hnd)
    as (s0 & s & E0 & E & Hs).
  exists s0, s. split; [exact E0|]. split; [exact E|]. split_and!.
  - rewrite (Hs CRenderer AUDIO_POLICY_SERVICE_ID); [reflexivity|apply (bool_decide_unpack _); vm_compute; exact I].
  - rewrite (Hs CFocus WINDOW_MANAGER_SERVICE_ID); [reflexivity|apply (bool_decide_unpack _); vm_compute; exact I].
  - rewrite (Hs CDisplayMode DISPLAY_MANAGER_SERVICE_ID); [reflexivity|apply (bool_decide_unpack _); vm_compute; exact I].
Defined.
