(* ===== verification/Executor.v ===== *)
(** * The executor

    [res_sched_exe_mgr.cpp], [res_sched_exe_service.cpp] and [res_json_type.cpp]: the process
    with more rights that runs plugins of its own, sets scheduling policies of threads and
    kills processes on behalf of the service.  It gets the configuration from the service,
    in one message or in batches.  Trace marks are left out; an exception that nobody
    catches is undefined. *)
From S2P Require Import Prelude Json CommonUtil Ipc ProcessGroup PluginConfig PluginMgr ServiceWorld.

(** ** Constants *)

Definition RES_TYPE_FIRST : Z := 0. (* res_exe_type.h:26 *)
Definition RES_TYPE_COMMON_SYNC : Z := RES_TYPE_FIRST. (* res_exe_type.h:28 *)
Definition RES_TYPE_THERMAL_AWARE_SYNC_EVENT : Z := 1. (* res_exe_type.h:30 *)
Definition EWS_TYPE_SOCPERF_EXECUTOR_SYNC_EVENT : Z := 2. (* res_exe_type.h:32 *)
Definition RES_TYPE_EXECUTOR_PLUGIN_INIT : Z := 7. (* res_exe_type.h:42 *)
Definition RES_TYPE_GPU_LOAD_AWARE_SYNC_EVENT : Z := 8. (* res_exe_type.h:44 *)
Definition RES_TYPE_SYNC_END : Z := 9. (* res_exe_type.h:46 *)
Definition RES_TYPE_ASYNC_FIRST : Z := RES_TYPE_SYNC_END. (* res_exe_type.h:49 *)
Definition RES_TYPE_COMMON_ASYNC : Z := RES_TYPE_ASYNC_FIRST. (* res_exe_type.h:51 *)
Definition RES_TYPE_THERMAL_AWARE_ASYNC_EVENT : Z := 10. (* res_exe_type.h:53 *)
Definition EWS_TYPE_SOCPERF_EXECUTOR_ASYNC_EVENT : Z := 11. (* res_exe_type.h:55 *)
Definition RES_TYPE_SOCK_EXECUTOR_ASYNC_EVENT : Z := 12. (* res_exe_type.h:57 *)
Definition RES_TYPE_EXT_SUSPEND_MANAGER_SA_CHANGED : Z := 13. (* res_exe_type.h:59 *)
Definition RES_TYPE_STANDBY_EXECUTOR_ASYNC_EVENT : Z := 14. (* res_exe_type.h:61 *)
Definition RES_TYPE_LAST : Z := 1000. (* res_exe_type.h:63 *)
Definition RES_TYPE_DEBUG : Z := RES_TYPE_LAST. (* res_exe_type.h:65 *)

Definition RSSEXE_NO_ERR : Z := 0. (* res_sched_exe_constants.h:35 *)
Definition RSSEXE_PERMISSION_DENIED : Z := 1. (* res_sched_exe_constants.h:37 *)
Definition RSSEXE_PLUGIN_ERROR : Z := -1. (* res_sched_exe_constants.h:47 *)
Definition RSSEXE_GET_SERVICE_FAIL : Z := 5. (* res_sched_exe_constants.h:55 *)
Definition RSSEXE_CONNECT_FAIL : Z := 6. (* res_sched_exe_constants.h:57 *)
Definition RSSEXE_REPLY_EMPTY : Z := 7. (* res_sched_exe_constants.h:59 *)

Definition SIGNAL_KILL : Z := 9. (* res_sched_exe_mgr.cpp:37 *)
Definition MAX_CONFIG_SIZE : Z := 1024 * 1024. (* res_sched_exe_mgr.cpp:38 *)
Definition PAYLOAD_MAX_SIZE : Z := 4096. (* res_sched_exe_service.cpp:41 *)
Definition RSS_UID : Z := 1096. (* res_sched_exe_service.cpp:43 *)
Definition DUMP_PERMISSION : string := "ohos.permission.DUMP". (* res_sched_exe_service.cpp:40 *)
Definition RES_TYPE_EXT : string := "extType". (* res_sched_exe_service.cpp:44 *)

(** res_sched_exe_mgr.cpp:45-53 [resTypeToStr] *)
Definition resTypeToStr : gmap Z string := list_to_map [
  (RES_TYPE_COMMON_SYNC, "RES_TYPE_COMMON_SYNC");
  (RES_TYPE_COMMON_ASYNC, "RES_TYPE_COMMON_ASYNC");
  (RES_TYPE_THERMAL_AWARE_SYNC_EVENT, "THERMAL_AWARE_SYNC_EVENT");
  (RES_TYPE_THERMAL_AWARE_ASYNC_EVENT, "THERMAL_AWARE_ASYNC_EVENT");
  (RES_TYPE_SOCK_EXECUTOR_ASYNC_EVENT, "SOCK_EXECUTOR_ASYNC_EVENT");
  (RES_TYPE_STANDBY_EXECUTOR_ASYNC_EVENT, "RES_TYPE_STANDBY_EXECUTOR_ASYNC_EVENT");
  (RES_TYPE_DEBUG, "DEBUG_COMMAND")].

(** ** The outside *)

(** More of the JSON library: [is_number()] with [get<int>()], which cuts a fraction off, and
    the conversion from a truth value. *)
Class JsonNumber (J : Type) := {
  json_int : J -> option Z;
  json_of_bool : bool -> J;
}.

Class ExeHost (K : Type) := {
  (** [kill], and what it does to the processes *)
  xh_kill : Z -> Z -> K -> Z * K;
  (** [realpath], a file read to its end, and [PathToRealPath] of the common library *)
  xh_realpath : string -> K -> option string;
  xh_read_file : string -> K -> option string;
  xh_PathToRealPath : string -> K -> bool;
  (** [Publish] of the ability *)
  xh_Publish : K -> bool;
  (** [GetIntParameter] of the parameter for a debug build *)
  xh_const_debuggable : Z;
  (** the number of the suspend manager's ability *)
  SUSPEND_MANAGER_SYSTEM_ABILITY_ID : Z;
}.

(** What the executor does to the outside besides its plugins. *)
Inductive XCall :=
  | XAddListener (said : Z)
  | XDumpText (fd : Z) (text : string).

(** res_sched_exe_mgr.h:79-82 [ipcMessage_] the members; the manager of the plugins, whose
    [host] is the outside, and the process groups of the executor *)
Record Executor (J K O : Type) := mkExecutor {
  x_plugins : PluginMgr J K;
  x_groups : ProcessGroup O;
  x_isInit : bool;
  ipcNumber_ : Z;
  ipcMessage_ : gmap Z string;
  x_trace : list XCall;
}.
Arguments mkExecutor {_ _ _}.
Arguments x_plugins {_ _ _}.
Arguments x_groups {_ _ _}.
Arguments x_isInit {_ _ _}.
Arguments ipcNumber_ {_ _ _}.
Arguments ipcMessage_ {_ _ _}.
Arguments x_trace {_ _ _}.
#[export] Instance Executor_eta J K O : Eta (Executor J K O) := fun s =>
  mkExecutor (x_plugins s) (x_groups s) (x_isInit s) (ipcNumber_ s) (ipcMessage_ s) (x_trace s).

(** The process when it starts. *)
Definition new_Executor {J K O} (k : K) (g : ProcessGroup O) : Executor J K O :=
  mkExecutor (new_PluginMgr k) g false 0 ∅ [].

Section executor.
Context {J K O N : Type} `{!Json J} `{!JsonText J} `{!JsonNumber J} `{!Build} `{!PluginHost J K}
  `{!Xml N} `{!Os J O} `{!AccessTokenKit K} `{!ExeHost K} `{!ErrCodes}.
#[local] Abbreviation M := (ST (Executor J K O)).

(** Runs an operation of the plugin manager, of the process groups, or of the outside. *)
Definition x_in_plugins {A} (m : ST (PluginMgr J K) A) : M A := fun s =>
  match m (x_plugins s) with
  | Some (a, p) => Some (a, s <| x_plugins := p |>)
  | None => None
  end.
Definition x_in_groups {A} (m : ST (ProcessGroup O) A) : M A := fun s =>
  match m (x_groups s) with
  | Some (a, g) => Some (a, s <| x_groups := g |>)
  | None => None
  end.
Definition x_host : M K := fun s => Some (host (x_plugins s), s).
Definition x_record (c : XCall) : M unit := st_modify (fun s => s <| x_trace ::= fun l => l ++ [c] |>).

(** [j[k] = v]: an exception on a value that is neither an object nor null. *)
Definition json_put (k : string) (v j : J) : M J :=
  if json_is_object j || json_is_null j then mret (json_set k v j) else st_undefined.

(** [size()] and [empty()] of a value. *)
Definition json_size (j : J) : Z :=
  if json_is_null j then 0 else
  match json_entries j, json_array j with
  | Some l, _ => Z.of_nat (length l)
  | _, Some l => Z.of_nat (length l)
  | _, _ => 1
  end.
Definition json_empty (j : J) : bool := json_size j =? 0.

(** [value(k, std::vector<std::string>())] of an object whose field is an array: an exception
    when an element is not a string. *)
Definition string_list (k : string) (payload : J) : option (list string) :=
  match json_find k payload with
  | Some v => json_array v ≫= mapM json_string
  | None => Some []
  end.
Definition has_array (k : string) (payload : J) : bool :=
  bool_decide (is_Some (json_find k payload ≫= json_array)).

Definition too_large (text : string) : bool := Z.of_nat (String.length text) >? MAX_CONFIG_SIZE.

(** ** Values on the wire *)

(** res_json_type.cpp:28-42 [ResJsonType::Marshalling] the text; the parcel takes it *)
Definition Marshalling (jsonContext : J) : option string :=
  let jsonStr := DumpJsonToString jsonContext "" in
  if String.eqb jsonStr "" then None else Some jsonStr.

(** res_json_type.cpp:22-26 [ResJsonType::ReadFromParcel] *)
Definition ReadFromParcel (jsonStr : string) : option J := LoadContentToJsonObj jsonStr.

(** res_json_type.cpp:44-59 [ResJsonType::Unmarshalling] *)
Definition Unmarshalling (jsonStr : string) : option J := ReadFromParcel jsonStr.

(** ** Start of the plugins *)

(** res_sched_exe_mgr.cpp:58-62 [ResSchedExeMgr::Init] *)
Definition ResSchedExeMgr_Init : M unit :=
  x_in_plugins (PluginMgr_Init true);;
  x_in_plugins (SetResTypeStrMap resTypeToStr).

(** res_sched_exe_mgr.cpp:64-67 [ResSchedExeMgr::Stop] *)
Definition ResSchedExeMgr_Stop : M unit := x_in_plugins PluginMgr_Stop.

(** res_sched_exe_mgr.cpp:155-182 [ResSchedExeMgr::InitPluginMgr] the flag is set before the
    sizes are tested *)
Definition InitPluginMgr (payload : J) : M unit :=
  ret_if negb (has_array "config" payload) || negb (has_array "switch" payload);
  st_modify (fun s => s <| x_isInit := true |>);;
  configStrs ← st_some (string_list "config" payload);
  switchStrs ← st_some (string_list "switch" payload);
  ret_if existsb too_large configStrs;
  x_in_plugins (ParseConfigReader configStrs);;
  ret_if existsb too_large switchStrs;
  x_in_plugins (ParsePluginSwitch switchStrs true).

(** The three fields of a batch, when they have their types. *)
Definition batch_of (payload : J) : option (Z * Z * string) :=
  index ← json_find "MESSAGE_INDEX" payload ≫= json_int;
  number ← json_find "MESSAGE_NUMBER" payload ≫= json_int;
  message ← find_string "IPC_MESSAGE" payload;
  Some (index, number, message).

(** res_sched_exe_mgr.cpp:120-153 [ResSchedExeMgr::InitPluginMgrPretreatment] a text that does
    not parse is tried as null *)
Definition InitPluginMgrPretreatment (payload : J) : M unit :=
  s ← st_get;
  ret_if x_isInit s;
  match batch_of payload with
  | Some (index, number, message) =>
      st_modify (fun s => s <| ipcMessage_ ::= fun m =>
        match m !! index with Some _ => m | None => <[index := message]> m end |>);;
      st_modify (fun s => s <| ipcNumber_ ::= fun n => to_s32 (n + 1) |>);;
      s ← st_get;
      st_when (number =? ipcNumber_ s)
        (let ipcMessage := String.concat "" (in_order (ipcMessage_ s)).*2 in
         InitPluginMgr (default json_null (StringToJson ipcMessage json_null));;
         st_modify (fun s => s <| ipcNumber_ := 0 |> <| ipcMessage_ := ∅ |>))
  | None => InitPluginMgr payload
  end.

(** ** Requests *)

(** res_sched_exe_mgr.cpp:235-242 [ResSchedExeMgr::ParseValue] *)
Definition ParseValue (name : string) (payload : J) : option Z := atoi <$> find_string name payload.

(** res_sched_exe_mgr.cpp:244-264 [ResSchedExeMgr::GetCgroupFileContent] *)
Definition GetCgroupFileContent (payload reply : J) : M J :=
  match find_integer "pid" payload with
  | None => mret reply
  | Some n =>
      let pid := to_s32 n in
      let path := "/proc/" +:+ to_string pid +:+ "/cgroup" in
      k ← x_host;
      match (if Z.of_nat (String.length path) >? PATH_MAX then None else xh_realpath path k)
            ≫= (fun realPath => xh_read_file realPath k) with
      | None => mret reply
      | Some text => json_put "res" (json_of_string text) reply
      end
  end.

(** res_sched_exe_mgr.cpp:266-281 [ResSchedExeMgr::CheckProcTaskForCgroup] *)
Definition CheckProcTaskForCgroup (payload reply : J) : M J :=
  match find_integer "pid" payload, find_integer "tid" payload with
  | Some pid, Some tid =>
      let pathName := "/proc/" +:+ to_string (to_s32 pid) +:+ "/task/" +:+ to_string (to_s32 tid) +:+ "/comm" in
      k ← x_host;
      json_put "res" (json_of_bool (xh_PathToRealPath pathName k)) reply
  | _, _ => mret reply
  end.

(** The two requests that set a policy, by the function that sets it. *)
Definition answer_policy (set : Z -> Z -> ST (ProcessGroup O) bool) (payload reply : J) : M J :=
  match ParseValue "tid" payload, ParseValue "policy" payload with
  | Some tid, Some policy =>
      ok ← x_in_groups (set tid (to_u32 policy));
      json_put "ret" (json_of_string (to_string (if ok : bool then 0 else -1))) reply
  | _, _ => mret reply
  end.

(** res_sched_exe_mgr.cpp:192-233 [ResSchedExeMgr::HandleRequestForCgroup] *)
Definition HandleRequestForCgroup (resType : Z) (payload reply : J) : M J :=
  if resType =? RES_TYPE_CGROUP_SYNC_EVENT then GetCgroupFileContent payload reply
  else if resType =? RES_TYPE_CGROUP_PROC_TASK_SYNC_EVENT then CheckProcTaskForCgroup payload reply
  else if resType =? RES_TYPE_SET_THREAD_SCHED_POLICY_SYNC_EVENT
  then answer_policy (CgroupAction_SetThreadSchedPolicy (J := J)) payload reply
  else if resType =? RES_TYPE_SET_THREAD_GROUP_SCHED_POLICY_SYNC_EVENT
  then answer_policy (CgroupAction_SetThreadGroupSchedPolicy (J := J)) payload reply
  else mret reply.

(** [case] of the requests for process groups. *)
Definition is_cgroup_request (resType : Z) : bool :=
  (resType =? RES_TYPE_CGROUP_SYNC_EVENT) || (resType =? RES_TYPE_CGROUP_PROC_TASK_SYNC_EVENT)
  || (resType =? RES_TYPE_SET_THREAD_SCHED_POLICY_SYNC_EVENT)
  || (resType =? RES_TYPE_SET_THREAD_GROUP_SCHED_POLICY_SYNC_EVENT).

(** res_sched_exe_mgr.cpp:69-98 [ResSchedExeMgr::SendRequestSync] the result and the reply *)
Definition Mgr_SendRequestSync (resType value : Z) (payload reply : J) : M (Z * J) :=
  reply ←
    (if resType =? RES_TYPE_EXECUTOR_PLUGIN_INIT then InitPluginMgrPretreatment payload;; mret reply
     else if is_cgroup_request resType then HandleRequestForCgroup resType payload reply
     else
       r ← x_in_plugins (PluginMgr_DeliverResource (Some (mkResData resType value payload)));
       let reply := default reply r.2 in
       if negb (r.1 =? RSSEXE_PLUGIN_ERROR)
       then json_put "retCode" (json_of_string (to_string r.1)) reply else mret reply);
  reply ← (if json_empty reply
           then json_put "retCode" (json_of_string (to_string RSSEXE_REPLY_EMPTY)) reply else mret reply);
  mret (RSSEXE_NO_ERR, reply).

(** res_sched_exe_mgr.cpp:100-111 [ResSchedExeMgr::SendRequestAsync] *)
Definition Mgr_SendRequestAsync (resType value : Z) (payload : J) : M unit :=
  if resType =? RES_TYPE_EXECUTOR_PLUGIN_INIT then InitPluginMgrPretreatment payload
  else x_in_plugins (PluginMgr_DispatchResource (Some (mkResData resType value payload))).

(** res_sched_exe_mgr.cpp:113-118 [ResSchedExeMgr::KillProcess] *)
Definition Mgr_KillProcess (pid : Z) : M Z :=
  x_in_plugins (on_host (J := J) (xh_kill pid SIGNAL_KILL)).

(** ** The service *)

(** res_sched_exe_service.cpp:46-49 [IsTypeVaild] *)
Definition IsTypeVaild (type : Z) : bool := (RES_TYPE_FIRST <=? type) && (type <? RES_TYPE_LAST).

(** res_sched_exe_service.cpp:51-56 [IsCallingClientRss] *)
Definition IsCallingClientRss (caller : Caller) : bool := RSS_UID =? c_uid caller.

(** res_sched_exe_service.cpp:58-72 [GetExtResType] the type is not tested again *)
Definition GetExtResType (resType : Z) (context : J) : option Z :=
  if negb (resType =? RES_TYPE_COMMON_SYNC) && negb (resType =? RES_TYPE_COMMON_ASYNC) then Some resType else
  text ← find_string RES_TYPE_EXT context;
  type ← ph_StrToInt (J := J) (K := K) text;
  Some (to_u32 type).

(** The checks that the two requests share: the error, or the type and the value. *)
Definition admit_request (caller : Caller) (resType : Z) (context : J) : Z + Z :=
  if negb (IsCallingClientRss caller) then inl ERR_INVALID_OPERATION else
  if negb (IsTypeVaild resType) then inl ERR_INVALID_VALUE else
  if json_size context >? PAYLOAD_MAX_SIZE then inl ERR_INVALID_VALUE else
  match GetExtResType resType context with
  | None => inl ERR_INVALID_VALUE
  | Some resType => inr resType
  end.

(** res_sched_exe_service.cpp:115-143 [ResSchedExeService::SendRequestSync] the error code, and
    the response with the result unless they are left as they were *)
Definition Service_SendRequestSync (caller : Caller) (resType value : Z) (context : J)
    : M (Z * option (J * Z)) :=
  match admit_request caller resType context with
  | inl err => mret (err, None)
  | inr resType =>
      r ← Mgr_SendRequestSync resType value context json_null;
      mret (ERR_OK, Some (r.2, r.1))
  end.

(** res_sched_exe_service.cpp:145-170 [ResSchedExeService::SendRequestAsync] *)
Definition Service_SendRequestAsync (caller : Caller) (resType value : Z) (context : J) : M Z :=
  match admit_request caller resType context with
  | inl err => mret err
  | inr resType => Mgr_SendRequestAsync resType value context;; mret ERR_OK
  end.

(** res_sched_exe_service.cpp:172-187 [ResSchedExeService::KillProcess] an unsigned number is
    tested, a signed one is used *)
Definition Service_KillProcess (caller : Caller) (pid : Z) : M (Z * option Z) :=
  if negb (IsCallingClientRss caller) then mret (ERR_INVALID_OPERATION, None) else
  if pid <=? 0 then mret (ERR_INVALID_VALUE, None) else
  funcResult ← Mgr_KillProcess (to_s32 pid);
  mret (ERR_OK, Some funcResult).

(** res_sched_exe_service.cpp:86-96 [ResSchedExeService::OnStart] *)
Definition Service_OnStart : M unit :=
  ResSchedExeMgr_Init;;
  k ← x_host;
  ret_if negb (xh_Publish k);
  x_record (XAddListener SUSPEND_MANAGER_SYSTEM_ABILITY_ID).

(** res_sched_exe_service.cpp:98-103 [ResSchedExeService::OnStop] *)
Definition Service_OnStop : M unit := ResSchedExeMgr_Stop.

(** res_sched_exe_service.cpp:105-113 [ResSchedExeService::OnRemoveSystemAbility] *)
Definition Service_OnRemoveSystemAbility (systemAbilityId : Z) : M unit :=
  st_when (systemAbilityId =? SUSPEND_MANAGER_SYSTEM_ABILITY_ID)
    (Mgr_SendRequestAsync RES_TYPE_EXT_SUSPEND_MANAGER_SA_CHANGED 0 json_null).

(** ** Dump *)

(** res_sched_exe_service.cpp:189-202 [ResSchedExeService::AllowDump] *)
Definition AllowDump (caller : Caller) (k : K) : bool :=
  negb (xh_const_debuggable =? 0) && (at_VerifyAccessToken (c_tokenId caller) DUMP_PERMISSION k =? 0).

#[local] Definition newline : string := String "010"%char "".

(** res_sched_exe_service.cpp:246-254 [ResSchedExeService::DumpUsage] *)
Definition DumpUsage : M string :=
  help ← x_in_plugins DumpHelpFromPlugin;
  mret ("usage: resource schedule executor dump [<options>]" +:+ newline
    +:+ "    -h: show the help." +:+ newline +:+ "    -a: show all info." +:+ newline
    +:+ "    -p: show the all plugin info." +:+ newline
    +:+ "    -p (plugin name): show one plugin info." +:+ newline +:+ help).

(** res_sched_exe_service.cpp:256-260 [ResSchedExeService::DumpAllInfo] *)
Definition DumpAllInfo : M string :=
  text ← x_in_plugins DumpAllPlugin;
  mret ("================Resource Schedule Executor Infos================" +:+ newline +:+ text).

(** res_sched_exe_service.cpp:204-244 [ResSchedExeService::Dump] the arguments as UTF-8 *)
Definition Dump (caller : Caller) (fd : Z) (argsInStr : list string) : M Z :=
  k ← x_host;
  if negb (AllowDump caller k) then mret RSSEXE_PERMISSION_DENIED else
  result ←
    match argsInStr with
    | [] => DumpUsage
    | [option] =>
        if String.eqb option "-h" then DumpUsage
        else if String.eqb option "-a" then DumpAllInfo
        else if String.eqb option "-p" then x_in_plugins DumpAllPlugin
        else mret "Error params."
    | option :: name :: argsInStrToPlugin =>
        if String.eqb option "-p" then x_in_plugins (DumpOnePlugin name argsInStrToPlugin) else mret ""
    end;
  x_record (XDumpText fd result);;
  mret RSSEXE_NO_ERR.
End executor.
