(* ===== verification/ExeClient.v ===== *)
(** * The client of the executor

    [res_sched_exe_client.cpp]: the service process connects to the executor, sends requests
    and cuts the configuration of the plugins into batches when its text is longer than a
    message may be.  The executor and the system ability manager are the class
    [RemoteExecutor].  Allocation does not fail. *)
From S2P Require Import Prelude Json CommonUtil Executor.

Definition MAX_IPC_MESSAGE_SIZE : Z := 200000. (* res_sched_exe_client.cpp:36 *)
Definition IPC_BATCHES_SIZE : Z := 180000. (* res_sched_exe_client.cpp:37 *)

(** ** The outside *)

(** A call through the remote object; the out parameters are written only when the call
    succeeds. *)
Class RemoteExecutor (J W : Type) := {
  xr_GetSystemAbilityManager : W -> bool;
  xr_CheckSystemAbility : W -> option Z;
  xr_iface_cast : Z -> bool;
  xr_SendRequestSync : Z -> Z -> Z -> J -> W -> option (J * Z) * W;
  xr_SendRequestAsync : Z -> Z -> Z -> J -> W -> W;
  xr_KillProcess : Z -> Z -> W -> option Z * W;
}.

(** What the client does besides its calls of the executor. *)
Inductive XcCall :=
  | XcAddDeath (obj : Z)
  | XcRemoveDeath (obj : Z).

(** res_sched_exe_client.h:107-109 [resSchedExe_] the members *)
Record ExeClient (W : Type) := mkExeClient {
  xc_remoteObject_ : option Z;
  resSchedExe_ : option Z;
  xc_recipient_ : bool;
  xc_remote : W;
  xc_trace : list XcCall;
}.
Arguments mkExeClient {_}.
Arguments xc_remoteObject_ {_}.
Arguments resSchedExe_ {_}.
Arguments xc_recipient_ {_}.
Arguments xc_remote {_}.
Arguments xc_trace {_}.
#[export] Instance ExeClient_eta W : Eta (ExeClient W) := fun s =>
  mkExeClient (xc_remoteObject_ s) (resSchedExe_ s) (xc_recipient_ s) (xc_remote s) (xc_trace s).

(** The instance when it is made. *)
Definition new_ExeClient {W} (w : W) : ExeClient W := mkExeClient None None false w [].

(** ** Batches *)

(** res_sched_exe_client.cpp:140-143 [ProcessJson] the loop over the text *)
Fixpoint split_from (fuel : nat) (batch : Z) (text : string) (idx : Z) : list string :=
  match fuel with
  | O => []
  | S fuel =>
      if idx <? Z.of_nat (String.length text) then
        let end_ := Z.min (idx + batch) (Z.of_nat (String.length text)) in
        substring (Z.to_nat idx) (Z.to_nat (end_ - idx)) text :: split_from fuel batch text (idx + batch)
      else []
  end.
(** res_sched_exe_client.cpp:138-143 [ProcessJson] the pieces of the text *)
Definition split_text (batch : Z) (text : string) : list string :=
  split_from (S (String.length text)) batch text 0.

Section client.
Context {J W : Type} `{!Json J} `{!JsonText J} `{!RemoteExecutor J W}.
#[local] Abbreviation M := (ST (ExeClient W)).

Definition xc_record (c : XcCall) : M unit := st_modify (fun s => s <| xc_trace ::= fun l => l ++ [c] |>).
Definition xc_call {A} (f : W -> A * W) : M A := fun s => Some ((f (xc_remote s)).1, s <| xc_remote := (f (xc_remote s)).2 |>).

(** res_sched_exe_client.cpp:147-151 [ProcessJson] the message of one batch *)
Definition batch_message (number index : Z) (msg : string) : J :=
  json_set "MESSAGE_NUMBER" (json_of_int number)
    (json_set "MESSAGE_INDEX" (json_of_int index)
      (json_set "IPC_MESSAGE" (json_of_string msg) json_null)).
(** res_sched_exe_client.cpp:145-154 [ProcessJson] the messages of all *)
Definition batch_messages (messageValue : list string) : list J :=
  imap (fun i msg => batch_message (to_s32 (Z.of_nat (length messageValue))) (Z.of_nat i) msg) messageValue.

(** res_sched_exe_client.cpp:131-158 [ProcessJson] the batches, when the text is too long *)
Definition ProcessJson (context : J) : option (list J) :=
  let dumpJsonStr := DumpJsonToString context "" in
  if Z.of_nat (String.length dumpJsonStr) >? MAX_IPC_MESSAGE_SIZE
  then Some (batch_messages (split_text IPC_BATCHES_SIZE dumpJsonStr)) else None.

(** ** Connection *)

(** res_sched_exe_client.cpp:175-206 [TryConnect] *)
Definition TryConnect : M Z :=
  s ← st_get;
  match resSchedExe_ s with
  | Some _ => mret RSSEXE_NO_ERR
  | None =>
      if negb (xr_GetSystemAbilityManager (J := J) (xc_remote s)) then mret RSSEXE_GET_SERVICE_FAIL else
      st_modify (fun s => s <| xc_remoteObject_ := xr_CheckSystemAbility (J := J) (xc_remote s) |>);;
      match xr_CheckSystemAbility (J := J) (xc_remote s) with
      | None => mret RSSEXE_GET_SERVICE_FAIL
      | Some obj =>
          if negb (xr_iface_cast (J := J) (W := W) obj) then mret RSSEXE_GET_SERVICE_FAIL else
          st_modify (fun s => s <| resSchedExe_ := Some obj |> <| xc_recipient_ := true |>);;
          xc_record (XcAddDeath obj);;
          mret RSSEXE_NO_ERR
      end
  end.

(** res_sched_exe_client.cpp:166-173 [GetProxy] *)
Definition GetProxy : M (option Z) :=
  ret ← TryConnect;
  s ← st_get;
  mret (if ret =? RSSEXE_NO_ERR then resSchedExe_ s else None).

(** res_sched_exe_client.cpp:208-215 [StopRemoteObject] *)
Definition StopRemoteObject : M unit :=
  s ← st_get;
  match resSchedExe_ s with Some obj => xc_record (XcRemoveDeath obj) | None => mret tt end;;
  st_modify (fun s => s <| resSchedExe_ := None |>).

(** res_sched_exe_client.cpp:222-225 [OnRemoteDied] *)
Definition OnRemoteDied : M unit := StopRemoteObject.

(** res_sched_exe_client.cpp:45-48 [~ResSchedExeClient] *)
Definition ExeClient_destroy : M unit := StopRemoteObject.

(** ** Requests *)

(** res_sched_exe_client.cpp:105-129 [SendRequestInner] the result and the reply; the result
    of a call that fails has no value *)
Definition SendRequestInner (isSync : bool) (resType value : Z) (context reply : J) : M (Z * J) :=
  proxy ← GetProxy;
  match proxy with
  | None => mret (RSSEXE_CONNECT_FAIL, reply)
  | Some obj =>
      if isSync then
        out ← xc_call (xr_SendRequestSync obj resType value context);
        st_some ((fun o => (o.2, o.1)) <$> out)
      else
        xc_call (fun w => (tt, xr_SendRequestAsync obj resType value context w));;
        mret (RSSEXE_NO_ERR, reply)
  end.

(** res_sched_exe_client.cpp:76-90 [SendRequestBatches] *)
Fixpoint SendRequestBatches (isSync : bool) (resType : Z) (splitContext : list J) (value : Z)
    (ret : Z) (reply : J) : M (Z * J) :=
  match splitContext with
  | [] => mret (ret, reply)
  | jsonMsg :: splitContext =>
      r ← SendRequestInner isSync resType value jsonMsg reply;
      if negb (r.1 =? RSSEXE_NO_ERR) then mret r
      else SendRequestBatches isSync resType splitContext value r.1 r.2
  end.

(** The common part of the two requests. *)
Definition send_request (isSync : bool) (resType value : Z) (context reply : J) : M (Z * J) :=
  match (if resType =? RES_TYPE_EXECUTOR_PLUGIN_INIT then ProcessJson context else None) with
  | Some splitContext => SendRequestBatches isSync resType splitContext value RSSEXE_NO_ERR reply
  | None => SendRequestInner isSync resType value context reply
  end.

(** res_sched_exe_client.cpp:50-60 [SendRequestSync] *)
Definition Client_SendRequestSync (resType value : Z) (context reply : J) : M (Z * J) :=
  send_request true resType value context reply.

(** res_sched_exe_client.cpp:62-74 [SendRequestAsync] *)
Definition Client_SendRequestAsync (resType value : Z) (context : J) : M unit :=
  send_request false resType value context json_null;; mret tt.

(** res_sched_exe_client.cpp:92-103 [KillProcess] *)
Definition Client_KillProcess (pid : Z) : M Z :=
  proxy ← GetProxy;
  match proxy with
  | None => mret RSSEXE_CONNECT_FAIL
  | Some obj =>
      out ← xc_call (xr_KillProcess (J := J) obj (to_u32 pid));
      mret (default RSSEXE_GET_SERVICE_FAIL out)
  end.

(** res_sched_exe_client.cpp:160-164 [SendDebugCommand] *)
Definition SendDebugCommand (isSync : bool) : M unit :=
  SendRequestInner isSync RES_TYPE_DEBUG 0 json_null json_null;; mret tt.
End client.
