(* ===== verification/ExecutorFacts.v ===== *)
(** * The configuration of the executor

    What the service sends when it starts: the executor starts its plugins on exactly that
    configuration, whether it arrives in one message or in batches, and in whatever order
    the batches arrive.  At the end, a small executor for examples. *)
From S2P Require Import Prelude Json CommonUtil Ipc ProcessGroup World Demo PluginConfig PluginMgr PluginMgrFacts NotifierMgr EventListenerMgr ServiceWorld ServiceDemo Executor ExeClient.

(** ** Cutting a text *)

Lemma substring_length n m s : (n + m <= String.length s)%nat -> String.length (substring n m s) = m.
Proof.
  revert n m. induction s as [|c s IH]; intros n m Hl; simpl in Hl.
  - by assert (n = 0%nat /\ m = 0%nat) as [-> ->] by lia.
  - destruct n as [|n]; simpl; [|apply IH; lia]. destruct m as [|m]; simpl; [done|]. f_equal. apply IH. lia.
Qed.

Lemma substring_app n a b s : substring n a s +:+ substring (n + a) b s = substring n (a + b) s.
Proof.
  revert n a b. induction s as [|c s IH]; intros n a b.
  - destruct n, a, b; done.
  - destruct n as [|n]; [|apply IH]. destruct a as [|a]; [by destruct b|].
    change (String c (substring 0 a s +:+ substring (0 + a) b s) = String c (substring 0 (a + b) s)). by rewrite IH.
Qed.

Lemma concat_cons x l : String.concat "" (x :: l) = x +:+ String.concat "" l.
Proof.
  destruct l as [|y l]; [|done]. change (x = x +:+ ""). induction x as [|c x IH]; [done|].
  change (String c x = String c (x +:+ "")). by rewrite <- IH.
Qed.

Section split.
Variables (batch : Z) (text : string).
Hypothesis Hbatch : 0 < batch.
#[local] Abbreviation len := (Z.of_nat (String.length text)).

(** Enough fuel: the pieces are the rest of the text. *)
Lemma concat_split_from fuel idx :
  0 <= idx -> len - idx < Z.of_nat fuel ->
  String.concat "" (split_from fuel batch text idx)
  = if idx <? len then substring (Z.to_nat idx) (Z.to_nat (len - idx)) text else "".
Proof.
  revert idx. induction fuel as [|fuel IH]; intros idx Hi Hf; cbn [split_from].
  - by destruct (Z.ltb_spec idx len); [lia|].
  - destruct (Z.ltb_spec idx len) as [Hl|Hl]; [|done]. rewrite concat_cons, IH by lia.
    destruct (Z.ltb_spec (idx + batch) len) as [Hb|Hb].
    + rewrite Z.min_l by lia. replace (Z.to_nat (idx + batch)) with (Z.to_nat idx + Z.to_nat (idx + batch - idx))%nat by lia.
      rewrite substring_app. f_equal. lia.
    + rewrite Z.min_r by lia. set (t := substring _ _ _). clearbody t.
      induction t as [|c t IHt]; [done|].
      change (String c (t +:+ "") = String c t). by rewrite IHt.
Qed.

Lemma concat_split : String.concat "" (split_text batch text) = text.
Proof.
  unfold split_text. rewrite concat_split_from by lia. destruct (Z.ltb_spec 0 len) as [Hl|Hl].
  - replace (Z.to_nat (len - 0)) with (String.length text) by lia. apply substring_all.
  - by destruct text; [|cbn in Hl; lia].
Qed.

Lemma length_split_from fuel idx :
  0 <= idx -> Z.of_nat (length (split_from fuel batch text idx)) <= Z.max 0 (len - idx).
Proof.
  revert idx. induction fuel as [|fuel IH]; intros idx Hi; cbn [split_from]; [simpl; lia|].
  destruct (Z.ltb_spec idx len) as [Hl|Hl]; [|simpl; lia]. cbn [length].
  specialize (IH (idx + batch)). lia.
Qed.

Lemma length_split : Z.of_nat (length (split_text batch text)) <= len.
Proof. pose proof (length_split_from (S (String.length text)) 0). unfold split_text. lia. Qed.
End split.

Lemma st_iter_fmap {S A B} (f : B -> ST S unit) (g : A -> B) l s :
  st_iter f (g <$> l) s = st_iter (fun x => f (g x)) l s.
Proof.
  revert s. induction l as [|x l IH]; intros s; [done|]. cbn. unfold mbind, ST_bind.
  by destruct (f (g x) s) as [[[] s']|].
Qed.

(** ** Values in order of their keys *)

Lemma keys_sorted {A} (m : gmap Z A) : Sorted Z.le (in_order m).*1.
Proof.
  induction (in_order_sorted m) as [|x l Hs IH Hhd]; simpl; constructor; [done|].
  destruct Hhd; simpl; constructor. done.
Qed.

Lemma seqZ_sorted a n : Sorted Z.le (seqZ a (Z.of_nat n)).
Proof.
  revert a. induction n as [|n IH]; intros a; [constructor|].
  rewrite seqZ_cons by lia. replace (Z.pred (Z.of_nat (S n))) with (Z.of_nat n) by lia.
  constructor; [apply IH|]. destruct n as [|n]; [constructor|].
  rewrite seqZ_cons by lia. constructor. lia.
Qed.

(** The elements with their places. *)
Definition indexed {A} (l : list A) : list (Z * A) := imap (fun i x => (Z.of_nat i, x)) l.

Lemma keys_indexed {A} (l : list A) : (indexed l).*1 = seqZ 0 (Z.of_nat (length l)).
Proof.
  unfold indexed. rewrite fmap_imap. apply list_eq. intros i.
  rewrite list_lookup_imap. destruct (l !! i) as [x|] eqn:E; symmetry.
  - apply lookup_lt_Some in E. apply lookup_seqZ. split; [done|lia].
  - apply lookup_ge_None in E. apply lookup_seqZ_ge. lia.
Qed.

Lemma in_order_indexed {A} (l : list A) (m : gmap Z A) :
  map_to_list m ≡ₚ indexed l -> (in_order m).*2 = l.
Proof.
  intros Hp.
  assert (Hk : (in_order m).*1 = seqZ 0 (Z.of_nat (length l))).
  { apply (Sorted_unique Z.le); [apply keys_sorted|apply seqZ_sorted|].
    by rewrite in_order_perm, Hp, keys_indexed. }
  apply list_eq. intros i. rewrite list_lookup_fmap.
  destruct (in_order m !! i) as [[k v]|] eqn:E; cbn.
  - assert (Hi : (in_order m).*1 !! i = Some k) by (rewrite list_lookup_fmap, E; done).
    rewrite Hk in Hi. apply lookup_seqZ in Hi as [-> Hi].
    apply list_elem_of_lookup_2 in E. rewrite in_order_perm, Hp in E.
    apply elem_of_lookup_imap in E as (j & y & [= Ej ->] & Ej'). by replace i with j by lia.
  - symmetry. apply lookup_ge_None. apply lookup_ge_None in E.
    rewrite <- (length_fmap fst), Hk, length_seqZ in E. rewrite Nat2Z.id in E. done.
Qed.

(** ** What the executor does with a configuration *)

Section executor_facts.
Context {J K O N : Type} `{!Json J} `{!JsonLaws J} `{!JsonText J} `{!JsonNumber J} `{!Build}
  `{!PluginHost J K} `{!Xml N} `{!Os J O} `{!AccessTokenKit K} `{!ExeHost K} `{!ErrCodes}.
#[local] Abbreviation Exe := (Executor J K O).
#[local] Abbreviation M := (ST Exe).

(** The configuration as [ResSchedMgr::InitExecutorPlugin] builds it. *)
Definition init_payload (configStrs switchStrs : J) : J :=
  json_set "switch" switchStrs (json_set "config" configStrs json_null).

(** The library reads back the text that it prints, and walks the fields of an object; null
    is not one. *)
Definition reads_back (c w : J) : Prop :=
  json_is_object (json_null : J) = false
  /\ json_dump (init_payload c w) <> ""
  /\ json_parse (json_dump (init_payload c w)) = Some (init_payload c w)
  /\ json_entries (init_payload c w) = Some [("config", c); ("switch", w)].

(** The state with other batches. *)
Definition with_batches (n : Z) (m : gmap Z string) (s : Exe) : Exe := s <| ipcNumber_ := n |> <| ipcMessage_ := m |>.

(** An operation that neither reads nor writes the batches. *)
Definition ignores_batches {A} (m : M A) : Prop := forall n mm s,
  m (with_batches n mm s) = (fun r => (r.1, with_batches n mm r.2)) <$> m s.

Lemma ignores_ret {A} (a : A) : ignores_batches (mret a).
Proof. done. Qed.
Lemma ignores_bind {A B} (m : M A) (k : A -> M B) :
  ignores_batches m -> (forall a, ignores_batches (k a)) -> ignores_batches (m ≫= k).
Proof.
  intros Hm Hk n mm s. unfold mbind, ST_bind. rewrite Hm. destruct (m s) as [[a s']|]; [|done]. apply Hk.
Qed.
Lemma ignores_some {A} (o : option A) : ignores_batches (st_some o).
Proof. by destruct o. Qed.
Lemma ignores_plugins {A} (m : ST (PluginMgr J K) A) : ignores_batches (x_in_plugins m).
Proof. intros n mm s. unfold x_in_plugins. cbn. by destruct (m (x_plugins s)) as [[a p]|]. Qed.
Lemma ignores_init b : ignores_batches (st_modify (fun s => s <| x_isInit := b |>)).
Proof. done. Qed.

Lemma InitPluginMgr_ignores p : ignores_batches (InitPluginMgr (N := N) p).
Proof.
  unfold InitPluginMgr. destruct (_ || _); [apply ignores_ret|].
  apply ignores_bind; [apply ignores_init|intros _].
  apply ignores_bind; [apply ignores_some|intros cs]. apply ignores_bind; [apply ignores_some|intros ws].
  destruct (existsb too_large cs); [apply ignores_ret|].
  apply ignores_bind; [apply ignores_plugins|intros _]. destruct (existsb too_large ws); [apply ignores_ret|].
  apply ignores_plugins.
Qed.

(** Waiting for the first batch. *)
Definition awaits (s : Exe) : Prop := x_isInit s = false /\ ipcNumber_ s = 0 /\ ipcMessage_ s = ∅.

Lemma with_batches_awaits s : awaits s -> with_batches 0 ∅ s = s.
Proof. destruct s as [p g b n m t]. intros (? & Hn & Hm). cbn in Hn, Hm. by subst. Qed.

Lemma with_batches_twice n m n' m' s : with_batches n m (with_batches n' m' s) = with_batches n m s.
Proof. done. Qed.

Context (json_int_of_int : forall z, is_s32 z -> json_int (J := J) (json_of_int z) = Some z).

Lemma batch_of_message number index msg :
  is_s32 number -> is_s32 index ->
  batch_of (J := J) (batch_message number index msg) = Some (index, number, msg).
Proof.
  intros Hn Hi. unfold batch_of, batch_message.
  set (j0 := json_set "IPC_MESSAGE" (json_of_string msg) json_null : J).
  assert (Ho0 : json_is_object j0 = true) by (apply json_set_object; right; apply json_null_is_null).
  set (j1 := json_set "MESSAGE_INDEX" (json_of_int index) j0).
  assert (Ho1 : json_is_object j1 = true) by (apply json_set_object; by left).
  rewrite (json_find_set_ne "MESSAGE_NUMBER" "MESSAGE_INDEX") by done.
  subst j1. rewrite json_find_set_eq by (by left). cbn. rewrite json_int_of_int by done. cbn.
  rewrite json_find_set_eq by (by left). cbn. rewrite json_int_of_int by done. cbn.
  rewrite find_string_set_ne by done. rewrite find_string_set_ne by done. subst j0.
  rewrite find_string_set_eq by (right; apply json_null_is_null). done.
Qed.

(** The configuration is not taken for a batch. *)
Lemma payload_not_batch c w :
  json_is_object (json_null : J) = false -> batch_of (init_payload c w) = None.
Proof.
  intros Hn. unfold batch_of, init_payload. rewrite !json_find_set_ne by done.
  destruct (json_find "MESSAGE_INDEX" json_null) eqn:E; [|done].
  apply json_find_object in E. by rewrite Hn in E.
Qed.

(** One batch is kept and counted; with the last one the plugins start. *)
Lemma pretreat_batch number index msg k (m : gmap Z string) s :
  x_isInit s = false -> is_s32 number -> is_s32 index -> 0 <= k -> k < number -> m !! index = None ->
  InitPluginMgrPretreatment (N := N) (batch_message number index msg) (with_batches k m s)
  = if number =? k + 1 then
      (fun r => (tt, with_batches 0 ∅ r.2))
      <$> InitPluginMgr (N := N) (default json_null
            (StringToJson (String.concat "" (in_order (<[index := msg]> m)).*2) json_null)) s
    else Some (tt, with_batches (k + 1) (<[index := msg]> m) s).
Proof.
  intros Hs Hn Hi Hk0 Hk Hm. unfold InitPluginMgrPretreatment. rewrite run_get_bind.
  change (x_isInit (with_batches k m s)) with (x_isInit s). rewrite Hs, batch_of_message by done.
  erewrite run_bind by reflexivity. erewrite run_bind by reflexivity. rewrite run_get_bind.
  match goal with |- _ ?s1 = _ => assert (Es1 : s1 = with_batches (k + 1) (<[index := msg]> m) s) end.
  { rewrite <- (to_s32_id (k + 1)) by (unfold is_s32 in *; lia). unfold with_batches. cbn.
    unfold over. cbn. rewrite Hm. done. }
  rewrite Es1. change (ipcNumber_ (with_batches (k + 1) _ s)) with (k + 1).
  destruct (number =? k + 1); [|done]. cbn [st_when].
  change (ipcMessage_ (with_batches (k + 1) ?m s)) with m. cbv zeta.
  unfold mbind, ST_bind. rewrite InitPluginMgr_ignores.
  by destruct (InitPluginMgr _ s) as [[[] s']|].
Qed.

(** All batches that are missing, in any order. *)
Lemma pretreat_batches number l k (m : gmap Z string) s :
  x_isInit s = false -> is_s32 number -> Forall is_s32 l.*1 -> 0 <= k -> number = k + Z.of_nat (length l) ->
  l <> [] -> NoDup l.*1 -> Forall (fun i => m !! i = None) l.*1 ->
  st_iter (fun im => InitPluginMgrPretreatment (N := N) (batch_message number im.1 im.2)) l (with_batches k m s)
  = (fun r => (tt, with_batches 0 ∅ r.2))
    <$> InitPluginMgr (N := N) (default json_null
          (StringToJson (String.concat "" (in_order (list_to_map l ∪ m)).*2) json_null)) s.
Proof.
  intros Hs Hn. revert k m. induction l as [|[i msg] l IH]; intros k m Hi Hk0 Hk Hne Hnd Hm; [done|].
  cbn in Hi, Hm, Hnd. apply Forall_cons in Hi as [Hi Hil]. apply Forall_cons in Hm as [Hmi Hml].
  apply NoDup_cons in Hnd as [Hni Hnd]. cbn [length] in Hk. cbn [st_iter fst snd].
  unfold mbind at 1, ST_bind at 1. rewrite pretreat_batch by (done || lia).
  assert (Em : list_to_map l ∪ <[i := msg]> m = list_to_map ((i, msg) :: l) ∪ m).
  { cbn. rewrite <- insert_union_l, insert_union_r; [done|]. by apply not_elem_of_list_to_map_1. }
  destruct (Z.eqb_spec number (k + 1)) as [->|Hlast].
  - destruct l; [|cbn [length] in Hk; lia]. cbn in Em. rewrite (left_id_L ∅ (∪)) in Em. rewrite Em.
    by destruct (InitPluginMgr _ s) as [[[] s']|].
  - rewrite IH, Em; [done|done|lia|lia|..|done|].
    + intros ->. cbn in Hk. lia.
    + apply Forall_forall. intros i' Hi'. rewrite lookup_insert_ne by (intros ->; done).
      by eapply Forall_forall in Hml.
Qed.

Lemma InitPluginMgr_returns p s :
  awaits s ->
  (fun r => (tt, with_batches 0 ∅ r.2)) <$> InitPluginMgr (N := N) p s = InitPluginMgr (N := N) p s.
Proof.
  intros Hs. pose proof (InitPluginMgr_ignores p 0 ∅ s) as E. rewrite with_batches_awaits in E by done.
  rewrite E at 2. by destruct (InitPluginMgr p s) as [[[] s']|].
Qed.

Lemma dump_payload c w : DumpJsonToString (init_payload c w) "" = json_dump (init_payload c w).
Proof.
  unfold DumpJsonToString, init_payload. rewrite json_set_object; [done|].
  left. apply json_set_object. right. apply json_null_is_null.
Qed.

Lemma payload_read c w :
  reads_back c w -> StringToJson (json_dump (init_payload c w)) json_null = Some (init_payload c w).
Proof.
  intros (_ & Hne & Hp & He). unfold StringToJson. rewrite bool_decide_false by done. rewrite Hp. by rewrite He.
Qed.

(** The batches of a text, in any order, do what one message does. *)
Lemma run_batches batch c w l s :
  0 < batch -> reads_back c w -> Z.of_nat (String.length (json_dump (init_payload c w))) < 2 ^ 31 ->
  awaits s -> l ≡ₚ batch_messages (split_text batch (json_dump (init_payload c w))) ->
  st_iter (InitPluginMgrPretreatment (N := N)) l s = InitPluginMgr (N := N) (init_payload c w) s.
Proof.
  intros Hb Hr Hlen Hs Hl. set (chunks := split_text batch _) in Hl.
  pose proof (concat_split batch (json_dump (init_payload c w)) Hb) as Hcat. fold chunks in Hcat.
  pose proof (length_split batch (json_dump (init_payload c w)) Hb) as Hlc. fold chunks in Hlc.
  set (pairs := indexed chunks).
  assert (Hmsgs : batch_messages chunks
    = (fun im => batch_message (Z.of_nat (length chunks)) im.1 im.2 : J) <$> pairs).
  { unfold batch_messages, pairs, indexed. rewrite fmap_imap, to_s32_id by (unfold is_s32; lia). done. }
  rewrite Hmsgs in Hl. apply Permutation_map_inv in Hl as (l' & -> & Hl').
  assert (Hlen' : length l' = length chunks) by (rewrite <- (Permutation_length Hl'); apply length_imap).
  assert (Hk : l'.*1 ≡ₚ seqZ 0 (Z.of_nat (length chunks))) by (by rewrite <- Hl', <- keys_indexed).
  assert (Hnd : NoDup l'.*1) by (rewrite Hk; apply NoDup_seqZ).
  rewrite st_iter_fmap. rewrite <- (with_batches_awaits s Hs) at 1.
  rewrite (pretreat_batches (Z.of_nat (length chunks))); [|apply Hs|unfold is_s32; lia|..|done|].
  - rewrite (right_id_L ∅ (∪)), (in_order_indexed chunks), Hcat, payload_read by
      (done || (rewrite map_to_list_to_map by done; by symmetry)).
    by apply InitPluginMgr_returns.
  - rewrite Hk. apply Forall_forall. intros i Hi%elem_of_seqZ. unfold is_s32. lia.
  - lia.
  - lia.
  - intros ->. destruct chunks; [|done]. destruct Hr as (_ & Hne & _). by apply Hne.
  - apply Forall_forall. intros i _. apply lookup_empty.

Qed.

(** C31: the configuration may be sent in pieces of any size, and the pieces may arrive in any
    order: the executor ends where one message with the whole configuration takes it, its
    plugins started once on that configuration and nothing left of the pieces. *)
Theorem batches_in_any_order batch c w l s :
  0 < batch -> reads_back c w -> Z.of_nat (String.length (json_dump (init_payload c w))) < 2 ^ 31 ->
  awaits s -> l ≡ₚ batch_messages (split_text batch (DumpJsonToString (init_payload c w) "")) ->
  st_iter (InitPluginMgrPretreatment (N := N)) l s = InitPluginMgr (N := N) (init_payload c w) s.
Proof. rewrite dump_payload. apply run_batches. Qed.

(** ** The service process and the executor *)

(** The executor that lives, by its object. *)
Record ExeDevice := mkExeDevice {
  xd_obj : option Z;
  xd_exe : Exe;
}.

(** What the other process gets of a value. *)
Definition transport (j : J) : option J := Marshalling j ≫= Unmarshalling.

Context (caller : Caller).

(** A request: an exception ends the executor; the out parameters are written when the error
    code is that of success. *)
Definition at_executor {A} (o : Z) (m : M (Z * option A)) (d : ExeDevice) : option A * ExeDevice :=
  if bool_decide (xd_obj d = Some o) then
    match m (xd_exe d) with
    | Some ((err, out), e) => (if err =? ERR_OK then out else None, mkExeDevice (xd_obj d) e)
    | None => (None, mkExeDevice None (xd_exe d))
    end
  else (None, d).

#[local] Instance executor_device : RemoteExecutor J ExeDevice := {|
  xr_GetSystemAbilityManager _ := true;
  xr_CheckSystemAbility := xd_obj;
  xr_iface_cast _ := true;
  xr_SendRequestSync o resType value context d :=
    match transport context with
    | None => (None, d)
    | Some context =>
        let '(out, d) := at_executor o (Service_SendRequestSync (N := N) caller resType value context) d in
        (o ← out; reply ← transport o.1; Some (reply, o.2), d)
    end;
  xr_SendRequestAsync o resType value context d :=
    match transport context with
    | None => d
    | Some context =>
        (at_executor o (err ← Service_SendRequestAsync (N := N) caller resType value context; mret (err, Some tt)) d).2
    end;
  xr_KillProcess o pid := at_executor o (Service_KillProcess caller pid);
|}.

(** A message that arrives as it was sent and is not too large. *)
Definition sendable (j : J) : Prop := transport j = Some j /\ json_size j <= PAYLOAD_MAX_SIZE.

(** The client has, or finds, the living executor. *)
Definition linked (o : Z) (s : ExeClient ExeDevice) : Prop :=
  xd_obj (xc_remote s) = Some o /\ (resSchedExe_ s = None \/ resSchedExe_ s = Some o).

Context (Hcaller : c_uid caller = RSS_UID).
(** The answer to the configuration. *)
Definition init_reply : J := json_set "retCode" (json_of_string (to_string RSSEXE_REPLY_EMPTY)) json_null.
Context (Hreply : is_Some (transport init_reply)).

Lemma run_mgr_init j e e' :
  InitPluginMgrPretreatment (N := N) j e = Some (tt, e') ->
  Mgr_SendRequestSync (N := N) RES_TYPE_EXECUTOR_PLUGIN_INIT 0 j json_null e
  = Some ((RSSEXE_NO_ERR, init_reply), e').
Proof.
  intros Hp. unfold Mgr_SendRequestSync. rewrite Z.eqb_refl. unfold mbind, ST_bind. rewrite Hp.
  cbn [mret ST_ret]. assert (He : json_empty (json_null : J) = true)
    by (unfold json_empty, json_size; by rewrite json_null_is_null).
  rewrite He. unfold json_put. by rewrite json_null_is_null, orb_true_r.
Qed.

Lemma run_service_init j e e' :
  json_size j <= PAYLOAD_MAX_SIZE -> InitPluginMgrPretreatment (N := N) j e = Some (tt, e') ->
  Service_SendRequestSync (N := N) caller RES_TYPE_EXECUTOR_PLUGIN_INIT 0 j e
  = Some ((ERR_OK, Some (init_reply, RSSEXE_NO_ERR)), e').
Proof.
  intros Hsz Hp. unfold Service_SendRequestSync.
  assert (Ha : admit_request (K := K) caller RES_TYPE_EXECUTOR_PLUGIN_INIT j = inr RES_TYPE_EXECUTOR_PLUGIN_INIT).
  { unfold admit_request, IsCallingClientRss. rewrite Hcaller.
    replace (json_size j >? PAYLOAD_MAX_SIZE) with false by lia. done. }
  rewrite Ha. by erewrite run_bind by by apply run_mgr_init.
Qed.

Lemma run_GetProxy o s :
  linked o s -> exists s', GetProxy (J := J) s = Some (Some o, s')
    /\ xc_remote s' = xc_remote s /\ resSchedExe_ s' = Some o.
Proof.
  intros [Ho [Hc|Hc]]; unfold GetProxy, TryConnect; rewrite run_get_bind || idtac;
    unfold mbind, ST_bind, st_get; rewrite Hc.
  - cbn. rewrite Ho. cbn. eexists. by split_and!.
  - cbn. rewrite Hc. exists s. by split_and!.
Qed.

Lemma run_init_request o j reply s e' :
  linked o s -> sendable j -> InitPluginMgrPretreatment (N := N) j (xd_exe (xc_remote s)) = Some (tt, e') ->
  exists r s', SendRequestInner true RES_TYPE_EXECUTOR_PLUGIN_INIT 0 j reply s = Some ((RSSEXE_NO_ERR, r), s')
    /\ linked o s' /\ resSchedExe_ s' = Some o /\ xd_exe (xc_remote s') = e'.
Proof.
  intros Hs [Ht Hsz] Hp. destruct (run_GetProxy o s Hs) as (s1 & E1 & Er & Eo). destruct Hs as [Ho _].
  destruct Hreply as [r Hr]. exists r, (s1 <| xc_remote := mkExeDevice (Some o) e' |>).
  unfold SendRequestInner. erewrite run_bind by exact E1. unfold xc_call at 1.
  assert (Ec : xr_SendRequestSync o RES_TYPE_EXECUTOR_PLUGIN_INIT 0 j (xc_remote s1)
    = (Some (r, RSSEXE_NO_ERR), mkExeDevice (Some o) e')).
  { rewrite Er. cbn. rewrite Ht. unfold at_executor. rewrite bool_decide_true by done.
    erewrite run_service_init by done.
    change (ERR_OK =? ERR_OK) with true. cbn. by rewrite Hr, Ho. }
  unfold mbind at 1, ST_bind at 1. rewrite Ec. cbn. split_and!; [done|split; [done|by right]|done|done].
Qed.

Lemma run_init_batches o l s e' ret reply :
  linked o s -> Forall sendable l -> l <> [] ->
  st_iter (InitPluginMgrPretreatment (N := N)) l (xd_exe (xc_remote s)) = Some (tt, e') ->
  exists r s', SendRequestBatches true RES_TYPE_EXECUTOR_PLUGIN_INIT l 0 ret reply s = Some ((RSSEXE_NO_ERR, r), s')
    /\ linked o s' /\ xd_exe (xc_remote s') = e'.
Proof.
  revert s ret reply. induction l as [|j l IH]; intros s ret reply Hs Hl Hne E; [done|].
  apply Forall_cons in Hl as [Hj Hl]. cbn [st_iter] in E. unfold mbind, ST_bind in E.
  destruct (InitPluginMgrPretreatment j _) as [[[] e1]|] eqn:Ej; [|done].
  destruct (run_init_request o j reply s e1 Hs Hj Ej) as (r1 & s1 & E1 & Hs1 & _ & He1).
  cbn [SendRequestBatches]. erewrite run_bind by exact E1. cbn [fst snd].
  change (negb (RSSEXE_NO_ERR =? RSSEXE_NO_ERR)) with false. cbv iota.
  destruct l as [|j2 l].
  - cbn in E. injection E as <-. exists r1, s1. by split_and!.
  - apply IH; [done|done|done|]. by rewrite He1.
Qed.

(** The messages that carry the configuration: itself, or its batches when its text is long. *)
Definition init_messages (c w : J) : list J := default [init_payload c w] (ProcessJson (init_payload c w)).

(** C30: when the service process sends the configuration through its client, connected or
    not, a living executor that waits for it answers without an error and ends in the state
    that the start of its plugins on that configuration gives, whether the text fits in one
    message of 200000 bytes or is cut into batches of 180000; provided that the text is shorter
    than 2^31, that the library reads it back as it was, and that each message that is sent
    does so too.  A text that is cut inside a character does not: its pieces arrive changed. *)
Theorem configuration_arrives o c w reply s e' :
  linked o s -> reads_back c w -> Z.of_nat (String.length (json_dump (init_payload c w))) < 2 ^ 31 ->
  Forall sendable (init_messages c w) -> awaits (xd_exe (xc_remote s)) ->
  InitPluginMgr (N := N) (init_payload c w) (xd_exe (xc_remote s)) = Some (tt, e') ->
  exists r s', Client_SendRequestSync RES_TYPE_EXECUTOR_PLUGIN_INIT 0 (init_payload c w) reply s
      = Some ((RSSEXE_NO_ERR, r), s')
    /\ linked o s' /\ xd_exe (xc_remote s') = e'.
Proof.
  intros Hs Hr Hlen. unfold init_messages, Client_SendRequestSync, send_request, ProcessJson.
  rewrite Z.eqb_refl, dump_payload.
  destruct (_ >? MAX_IPC_MESSAGE_SIZE); cbn [default]; intros Hm Ha E.
  - apply run_init_batches; [done|done|..].
    + intros Hnil. pose proof (concat_split IPC_BATCHES_SIZE (json_dump (init_payload c w)) eq_refl) as Hcat.
      apply (f_equal length) in Hnil. unfold batch_messages in Hnil. rewrite length_imap in Hnil.
      destruct (split_text _ _); [|done]. destruct Hr as (_ & Hne & _). by apply Hne.
    + rewrite <- E. by apply (run_batches IPC_BATCHES_SIZE).
  - apply Forall_cons in Hm as [Hp _].
    destruct (run_init_request o (init_payload c w) reply s e' Hs Hp) as (r & s' & E' & Hs' & _ & He').
    + unfold InitPluginMgrPretreatment. rewrite run_get_bind. destruct Ha as (-> & _).
      rewrite payload_not_batch by apply Hr. done.
    + by exists r, s'.
Qed.
End executor_facts.

(** ** Examples *)

Definition demo_reply : json := JObject [("retCode", JString "7")].
Definition demo_lists : json := JArray [JString ""].

(** Two texts are enough: one of the configuration, one of the answer. *)
#[export] Instance demo_exe_text : JsonText json := {|
  json_object := JObject [];
  json_parse s :=
    if String.eqb s "0123456789ABCDEFGHIJ" then Some (JObject [("config", demo_lists); ("switch", demo_lists)])
    else if String.eqb s "reply" then Some demo_reply
    else if String.eqb s "batch 0" then Some (batch_message 1 0 "0123456789ABCDEFGHIJ") else None;
  json_dump j :=
    match json_find "config" j, json_find "MESSAGE_INDEX" j with
    | Some _, _ => "0123456789ABCDEFGHIJ"
    | None, Some _ => "batch 0"
    | None, None => "reply"
    end;
|}.
#[export] Instance demo_numbers : JsonNumber json := {|
  json_int j := match j with JInteger z | JUnsigned z => Some z | _ => None end;
  json_of_bool := JBool;
|}.
#[export] Instance demo_xml : Xml unit := {|
  xml_read _ := None;
  xml_name _ := None;
  xml_is_comment _ := false;
  xml_children _ := [];
  xml_attrs _ := [];
  xml_prop _ _ := None;
  xml_content _ := None;
|}.
#[export] Instance demo_exe_host : ExeHost Z := {|
  xh_kill _ _ k := (0, k);
  xh_realpath p _ := Some p;
  xh_read_file _ _ := None;
  xh_PathToRealPath _ _ := true;
  xh_Publish _ := true;
  xh_const_debuggable := 1;
  SUSPEND_MANAGER_SYSTEM_ABILITY_ID := 1907;
|}.
#[export] Instance demo_exe_os : Os json DemoOs := demo_os "linux" true.
Definition rss_caller : Caller := mkCaller 700 1096 3 3.

(** The executor after its start. *)
Definition demo_exe : Executor json Z DemoOs :=
  let e := new_Executor 0 demo_process_group in default e (snd <$> ResSchedExeMgr_Init e).

Lemma demo_int : forall z, is_s32 z -> json_int (J := json) (json_of_int z) = Some z.
Proof. done. Qed.

Lemma batches_in_any_order_witness :
  exists l e', l = rev (batch_messages (split_text 8 "0123456789ABCDEFGHIJ")) /\ length l = 3%nat
    /\ st_iter (InitPluginMgrPretreatment (N := unit)) l demo_exe = Some (tt, e')
    /\ x_isInit e' = true /\ isInit (x_plugins e') = true /\ ipcMessage_ e' = ∅.
Proof.
  eexists _, _. split; [reflexivity|]. split; [reflexivity|]. split.
  - etransitivity.
    + apply (batches_in_any_order demo_int 8 demo_lists demo_lists); [done| |done|done|].
      * split_and!; done.
      * symmetry. apply Permutation_rev.
    + vm_compute. reflexivity.
  - vm_compute. split_and!; reflexivity.
Defined.

(** A text of more than 200000 characters, and a library that writes the configuration so and
    keeps the parts of a batch apart. *)
Fixpoint crosses (n : nat) : string := match n with O => "" | S n => String "x" (crosses n) end.
Definition long_text : string := crosses (Z.to_nat 200001).
Lemma length_crosses n : String.length (crosses n) = n.
Proof. induction n; cbn; congruence. Qed.

Definition long_payload : json := init_payload demo_lists demo_lists.
Definition long_dump (j : json) : string :=
  match json_find "config" j, json_find "MESSAGE_INDEX" j, find_string "IPC_MESSAGE" j with
  | Some _, _, _ => long_text
  | None, Some i, Some m => String "b" (String match json_int i with Some 0 => "0" | _ => "1" end%char m)
  | _, _, _ => "reply"
  end.
Definition long_parse (s : string) : option json :=
  match s with
  | String "x" _ => Some long_payload
  | String "b" (String i m) => Some (batch_message 2 (if decide (i = "0"%char) then 0 else 1) m)
  | _ => Some demo_reply
  end.
Definition long_text_library : JsonText json := {| json_object := JObject []; json_parse := long_parse; json_dump := long_dump |}.

Lemma length_long_text : Z.of_nat (String.length long_text) = 200001.
Proof. unfold long_text. rewrite length_crosses. lia. Qed.

Lemma long_text_shape : exists t, long_text = String "x" t.
Proof.
  unfold long_text. destruct (Z.to_nat 200001) as [|n] eqn:E; [lia|]. by exists (crosses n).
Qed.

Lemma long_messages :
  ProcessJson (JsonText0 := long_text_library) long_payload
  = Some [batch_message 2 0 (substring 0 (Z.to_nat 180000) long_text);
          batch_message 2 1 (substring (Z.to_nat 180000) (Z.to_nat 20001) long_text)].
Proof.
  unfold ProcessJson. change (DumpJsonToString (JsonText0 := long_text_library) long_payload "") with long_text.
  rewrite length_long_text. change (200001 >? MAX_IPC_MESSAGE_SIZE) with true. cbv iota.
  unfold split_text. pose proof length_long_text as Hl.
  destruct (String.length long_text) as [|[|k]] eqn:Ek; [lia..|]. cbn [split_from]. rewrite Ek, !Hl. done.
Qed.

(** Once with a text that fits in one message, once with a text that is cut into two. *)
Lemma configuration_arrives_witness :
  (exists r s', Client_SendRequestSync (RemoteExecutor0 := executor_device (N := unit) rss_caller)
      RES_TYPE_EXECUTOR_PLUGIN_INIT 0 (init_payload demo_lists demo_lists) JNull
      (new_ExeClient (mkExeDevice (Some 5) demo_exe)) = Some ((RSSEXE_NO_ERR, r), s')
    /\ x_isInit (xd_exe (xc_remote s')) = true)
  /\ (length <$> ProcessJson (JsonText0 := long_text_library) long_payload) = Some 2%nat
  /\ exists r s', Client_SendRequestSync (JsonText0 := long_text_library)
      (RemoteExecutor0 := executor_device (JsonText0 := long_text_library) (N := unit) rss_caller)
      RES_TYPE_EXECUTOR_PLUGIN_INIT 0 long_payload JNull
      (new_ExeClient (mkExeDevice (Some 5) demo_exe)) = Some ((RSSEXE_NO_ERR, r), s')
    /\ x_isInit (xd_exe (xc_remote s')) = true.
Proof.
  split.
  { destruct (InitPluginMgr (N := unit) (init_payload demo_lists demo_lists) demo_exe) as [[[] e']|] eqn:E;
      [|vm_compute in E; discriminate E].
    destruct (configuration_arrives (JsonText0 := demo_exe_text) demo_int rss_caller eq_refl (mk_is_Some _ demo_reply eq_refl) 5
      demo_lists demo_lists JNull (new_ExeClient (mkExeDevice (Some 5) demo_exe)) e') as (r & s' & E' & _ & He).
    - split; [done|by left].
    - split_and!; done.
    - done.
    - change (init_messages demo_lists demo_lists) with [init_payload demo_lists demo_lists].
      repeat apply Forall_cons_2; [..|apply Forall_nil_2]; (split; [reflexivity|vm_compute; discriminate]).
    - done.
    - exact E.
    - exists r, s'. split; [exact E'|]. rewrite He. vm_compute in E. injection E as <-. reflexivity. }
  split; [by rewrite long_messages|].
  destruct (InitPluginMgr (N := unit) long_payload demo_exe) as [[[] e']|] eqn:E;
    [|vm_compute in E; discriminate E].
  destruct long_text_shape as [t Ht].
  destruct (configuration_arrives (JsonText0 := long_text_library) demo_int rss_caller eq_refl (mk_is_Some _ demo_reply eq_refl) 5
    demo_lists demo_lists JNull (new_ExeClient (mkExeDevice (Some 5) demo_exe)) e') as (r & s' & E' & _ & He).
  - split; [done|by left].
  - split; [done|]. split; [change (long_text <> ""); by rewrite Ht|]. split; [|done].
    change (long_parse long_text = Some long_payload). by rewrite Ht.
  - change (Z.of_nat (String.length long_text) < 2 ^ 31). by rewrite length_long_text.
  - unfold init_messages. change (init_payload demo_lists demo_lists) with long_payload. rewrite long_messages.
    cbn [default]. generalize (substring 0 (Z.to_nat 180000) long_text).
    generalize (substring (Z.to_nat 180000) (Z.to_nat 20001) long_text). intros t1 t2.
    repeat apply Forall_cons_2; [..|apply Forall_nil_2]; (split; [reflexivity|vm_compute; discriminate]).
  - done.
  - exact E.
  - exists r, s'. split; [exact E'|]. rewrite He. vm_compute in E. injection E as <-. reflexivity.
Defined.
