(* ===== verification/SocPerfExecutor.v ===== *)
(** * SocPerf plugin of the executor

    [socperf_executor_config.cpp], [socperf_executor_wirte_node.cpp] and
    [socperf_executor_plugin.cpp]: the table of resources read from the configuration files,
    the nodes of the kernel it writes, and the plugin that does so on request.  A request of
    a resource the table does not know puts a null entry into it, as the code does.  What is
    printed for debugging is left out. *)
From S2P Require Import Prelude Json CommonUtil PluginConfig PluginMgr Executor.

Definition SOCPERF_RESOURCE_CONFIG_XML : string := "etc/soc_perf/socperf_resource_config.xml". (* socperf_common.h:31 *)
Definition INVALID_VALUE : Z := - 2 ^ 31. (* socperf_common.h:32 *)
Definition MIN_RESOURCE_ID : Z := 1000. (* socperf_common.h:33 *)
Definition MAX_RESOURCE_ID : Z := 5999. (* socperf_common.h:34 *)
Definition RES_ID_NUMS_PER_TYPE : Z := 1000. (* socperf_common.h:35 *)
Definition RES_ID_NUMS_PER_TYPE_EXT : Z := 10000. (* socperf_common.h:36 *)
Definition WRITE_NODE : Z := 0. (* socperf_common.h:37 *)
Definition REPORT_TO_PERFSO : Z := 1. (* socperf_common.h:38 *)
Definition MAX_FREQUE_NODE : Z := 1. (* socperf_common.h:39 *)
Definition NODE_DEFAULT_VALUE : Z := -1. (* socperf_common.h:40 *)
Definition SOCPERF_EVENT_WIRTE_NODE : Z := 1. (* socperf_executor_wirte_node.h:29 *)
Definition LIB_NAME : string := "libsocperf_executor_plugin.z.so". (* socperf_executor_plugin.cpp:30 *)
Definition QOSID_STRING : string := "qosId". (* socperf_executor_plugin.cpp:31 *)
Definition VALUE_STRING : string := "value". (* socperf_executor_plugin.cpp:32 *)
#[local] Definition FILE_PATH_MAX : Z := 4096.

(** ** Resources *)

(** socperf_common.h:58-62 [ResNode] with [GovResNode], the two classes of resources *)
Inductive NodeKind : Type :=
  | Plain (path : string) (pairResId : Z)
  | Gov (paths : list string) (levelToStr : gmap Z (list string)).

(** socperf_common.h:42-56 [ResourceNode] *)
Record ResourceNode := mkResourceNode {
  rn_id : Z;
  rn_name : string;
  rn_def : Z;
  rn_available : gset Z;
  rn_persistMode : Z;
  rn_isMaxValue : bool;
  rn_kind : NodeKind;
}.
#[export] Instance ResourceNode_eta : Eta ResourceNode := fun n =>
  mkResourceNode (rn_id n) (rn_name n) (rn_def n) (rn_available n) (rn_persistMode n) (rn_isMaxValue n) (rn_kind n).

(** socperf_common.h:64-68 [ResNode] *)
Definition new_ResNode (resId : Z) (resName : string) (resMode resPair resPersistMode : Z) : ResourceNode :=
  mkResourceNode resId resName INVALID_VALUE ∅ resPersistMode (resMode =? MAX_FREQUE_NODE) (Plain "" resPair).

(** socperf_common.h:97-98 [GovResNode] *)
Definition new_GovResNode (govResId : Z) (govResName : string) (govPersistMode : Z) : ResourceNode :=
  mkResourceNode govResId govResName INVALID_VALUE ∅ govPersistMode false (Gov [] ∅).

Definition isGov (n : ResourceNode) : bool := match rn_kind n with Gov _ _ => true | Plain _ _ => false end.

(** socperf_common.h:134-145 [IsNumber] *)
Definition IsNumber (str : string) : bool :=
  match String.list_ascii_of_string str with
  | [] => true
  | c :: l => (bool_decide (c = "-"%char) || is_digit c) && forallb is_digit l
  end.

(** socperf_common.h:147-153 [IsValidRangeResId] *)
Definition IsValidRangeResId (id : Z) : bool := negb ((id <? MIN_RESOURCE_ID) || (id >? MAX_RESOURCE_ID)).

(** socperf_common.h:155-161 [IsValidPersistMode] *)
Definition IsValidPersistMode (persistMode : Z) : bool :=
  negb (negb (persistMode =? WRITE_NODE) && negb (persistMode =? REPORT_TO_PERFSO)).

(** socperf_common.h:163-179 [SplitEx] of a pattern with one character *)
Fixpoint SplitEx (str : string) (pattern : ascii) : list string :=
  match str with
  | EmptyString => [""]
  | String c str =>
      if bool_decide (c = pattern) then "" :: SplitEx str pattern else
      match SplitEx str pattern with
      | [] => [String c ""]
      | piece :: pieces => String c piece :: pieces
      end
  end.

(** ** State *)

(** What the plugin uses from outside. *)
Class NodeHost (K N : Type) := {
  (** [GetCfgFiles], [GetOneCfgFile], and [xmlReadFile] with its root element *)
  nd_GetCfgFiles : string -> K -> option (list (option string));
  nd_GetOneCfgFile : string -> K -> option string;
  nd_xmlReadFile : string -> K -> option (option N);
  nd_realpath : string -> K -> option string;
  (** [open(path, O_RDWR | O_CLOEXEC)] *)
  nd_open : string -> K -> Z * K;
  (** the order in which a hash map with these keys is walked *)
  nd_walk : gset Z -> list Z;
  (** the destructor's order *)
  nd_walk_files : gmap string Z -> list Z;
}.

(** Calls of the kernel. *)
Inductive NodeCall :=
  | NWrite (fd : Z) (text : string)
  | NClose (fd : Z).

(** socperf_executor_config.h:36-36 [resourceNodeInfo_] with the members of the writer and of
    the plugin; the flag says whether the function map is filled *)
Record SocExe (K : Type) := mkSocExe {
  resourceNodeInfo_ : gmap Z (option ResourceNode);
  fdInfo_ : gmap string Z;
  se_functionMap_ : bool;
  se_resTypeWithVal_ : list (Z * Z);
  se_host : K;
  se_trace : list NodeCall;
}.
Arguments mkSocExe {_}.
Arguments resourceNodeInfo_ {_}.
Arguments fdInfo_ {_}.
Arguments se_functionMap_ {_}.
Arguments se_resTypeWithVal_ {_}.
Arguments se_host {_}.
Arguments se_trace {_}.
#[export] Instance SocExe_eta K : Eta (SocExe K) := fun s =>
  mkSocExe (resourceNodeInfo_ s) (fdInfo_ s) (se_functionMap_ s) (se_resTypeWithVal_ s) (se_host s) (se_trace s).

Definition new_SocExe {K} (k : K) : SocExe K := mkSocExe ∅ ∅ false [] k [].

Section soc_executor.
Context {K N : Type} `{!Xml N} `{!NodeHost K N}.
#[local] Abbreviation M := (ST (SocExe K)).

(** [b ← m; if (!b) return false;] *)
Definition and_then (m k : M bool) : M bool := b ← m; if b : bool then k else mret false.

Definition get_nodes : M (gmap Z (option ResourceNode)) := fun s => Some (resourceNodeInfo_ s, s).
Definition upd_nodes (f : gmap Z (option ResourceNode) -> gmap Z (option ResourceNode)) : M unit :=
  st_modify (fun s => s <| resourceNodeInfo_ ::= f |>).

(** [insert]: an entry that is there stays. *)
Definition insert_node (n : ResourceNode) : M unit :=
  upd_nodes (fun m => match m !! rn_id n with Some _ => m | None => <[rn_id n := Some n]> m end).

(** The entries in the order of the map; a null one is dereferenced. *)
Definition all_nodes (m : gmap Z (option ResourceNode)) (ok : Z -> ResourceNode -> bool) : M bool :=
  (fix go (ids : list Z) : M bool :=
     match ids with
     | [] => mret true
     | id :: ids => n ← st_some (mjoin (m !! id)); and_then (mret (ok id n)) (go ids)
     end) (nd_walk (N := N) (K := K) (dom m)).

(** [xmlStrcmp] with a name. *)
Definition xml_is (name : string) (n : N) : bool := bool_decide (xml_name n = Some name).

(** ** Checks of the attributes *)

(** An attribute that may be absent and must be a number in a range. *)
Definition opt_number (ok : Z -> bool) (text : option string) : bool :=
  match text with None => true | Some t => IsNumber t && ok (atoi t) end.

(** socperf_executor_config.cpp:395-402 [CheckResourcePersistMode] *)
Definition CheckResourcePersistMode (persistMode : option string) : bool := opt_number IsValidPersistMode persistMode.

(** An identity that is there and a name. *)
Definition check_id_name (id name : option string) : bool :=
  bool_decide (is_Some id) && opt_number IsValidRangeResId id && bool_decide (is_Some name).

(** socperf_executor_config.cpp:373-393 [CheckResourceTag] *)
Definition CheckResourceTag (id name pairing mode persistMode : option string) : bool :=
  check_id_name id name && opt_number IsValidRangeResId pairing && opt_number (fun _ => true) mode
  && CheckResourcePersistMode persistMode.

(** socperf_executor_config.cpp:404-416 [CheckResourceTag] of the content *)
Definition CheckResourceContent (persistMode : Z) (def path : option string) : bool :=
  bool_decide (is_Some def) && opt_number (fun _ => true) def
  && ((persistMode =? REPORT_TO_PERFSO) || bool_decide (is_Some path)).

(** socperf_executor_config.cpp:463-479 [CheckGovResourceTag] *)
Definition CheckGovResourceTag (id name persistMode : option string) : bool :=
  check_id_name id name && opt_number IsValidPersistMode persistMode.

(** socperf_executor_config.cpp:432-447 [CheckPairResIdValid] *)
Definition CheckPairResIdValid : M bool :=
  m ← get_nodes;
  all_nodes m (fun _ n =>
    match rn_kind n with
    | Gov _ _ => true
    | Plain _ pairResId => (pairResId =? INVALID_VALUE) || bool_decide (is_Some (m !! pairResId))
    end).

(** socperf_executor_config.cpp:449-461 [CheckDefValid] *)
Definition CheckDefValid : M bool :=
  m ← get_nodes;
  all_nodes m (fun _ n => bool_decide (rn_available n = ∅) || bool_decide (rn_def n ∈ rn_available n)).

(** socperf_executor_config.cpp:360-371 [GetXmlIntProp] *)
Definition GetXmlIntProp (n : N) (propName : string) : Z :=
  match xml_prop propName n with
  | Some v => if IsNumber v then atoi v else -1
  | None => -1
  end.

(** ** Plain resources *)

(** socperf_executor_config.cpp:418-430 [LoadResourceAvailable] *)
Definition LoadResourceAvailable (resNode : ResourceNode) (node : string) : option ResourceNode :=
  let result := SplitEx node " "%char in
  if forallb IsNumber result
  then Some (resNode <| rn_available ::= union (list_to_set (atoll <$> result)) |>) else None.

(** The three texts in the children of a resource: the last of each name counts. *)
Definition freq_content (persistMode : Z) (acc : option string * option string * option string) (n : N)
    : option string * option string * option string :=
  let '(def, path, node) := acc in
  if xml_is "default" n then (xml_content n, path, node)
  else if negb (persistMode =? REPORT_TO_PERFSO) && xml_is "path" n then (def, xml_content n, node)
  else if xml_is "node" n then (def, path, xml_content n) else acc.

(** socperf_executor_config.cpp:218-260 [LoadFreqResourceContent] *)
Definition LoadFreqResourceContent (persistMode : Z) (greatGrandson : list N) (resNode : ResourceNode) : M bool :=
  let '(def, path, node) := foldl (freq_content persistMode) (None, None, None) greatGrandson in
  if negb (CheckResourceContent persistMode def path) then mret false else
  let pairResId := match rn_kind resNode with Plain _ pairResId => pairResId | Gov _ _ => INVALID_VALUE end in
  let resNode := resNode <| rn_def := atoll (default "" def) |> in
  let resNode := if negb (persistMode =? REPORT_TO_PERFSO)
                 then resNode <| rn_kind := Plain (default "" path) pairResId |> else resNode in
  match (match node with Some node => LoadResourceAvailable resNode node | None => Some resNode end) with
  | None => mret false
  | Some resNode => insert_node resNode;; mret true
  end.

Definition int_of (dflt : Z) (text : option string) : Z := match text with Some t => atoi t | None => dflt end.

(** socperf_executor_config.cpp:179-216 [TraversalFreqResource] *)
Definition TraversalFreqResource (grandson : N) : M bool :=
  let id := xml_prop "id" grandson in
  let name := xml_prop "name" grandson in
  let pairing := xml_prop "pair" grandson in
  let mode := xml_prop "mode" grandson in
  let persistMode := xml_prop "switch" grandson in
  if negb (CheckResourceTag id name pairing mode persistMode) then mret false else
  m ← get_nodes;
  if bool_decide (is_Some (m !! int_of 0 id)) then mret true else
  LoadFreqResourceContent (int_of 0 persistMode) (xml_children grandson)
    (new_ResNode (int_of 0 id) (default "" name) (int_of 0 mode) (int_of INVALID_VALUE pairing) (int_of 0 persistMode)).

(** A loop that ends with false at the first false. *)
Fixpoint all_of {A} (f : A -> M bool) (l : list A) : M bool :=
  match l with
  | [] => mret true
  | x :: l => and_then (f x) (all_of f l)
  end.

(** socperf_executor_config.cpp:161-177 [LoadResource] *)
Definition LoadResource (child : N) : M bool :=
  and_then (all_of (fun grandson => if xml_is "res" grandson then TraversalFreqResource grandson else mret true)
              (xml_children child))
    (and_then CheckPairResIdValid CheckDefValid).

(** ** Governors *)

(** socperf_executor_config.cpp:481-495 [LoadGovResourceAvailable] the key of the row is cut to 32 bits *)
Definition LoadGovResourceAvailable (govResNode : ResourceNode) (level node : string) : bool * ResourceNode :=
  let govResNode := govResNode <| rn_available ::= union {[ atoll level ]} |> in
  let result := SplitEx node "|"%char in
  match rn_kind govResNode with
  | Gov paths levelToStr =>
      if bool_decide (length result <> length paths) then (false, govResNode) else
      let key := to_s32 (atoll level) in
      (true, govResNode <| rn_kind := Gov paths
        (match levelToStr !! key with Some _ => levelToStr | None => <[key := result]> levelToStr end) |>)
  | Plain _ _ => (false, govResNode)
  end.

(** One child of a governor. *)
Definition gov_child (persistMode : Z) (n : N) (gov : ResourceNode) : bool * ResourceNode :=
  if xml_is "default" n then
    match xml_content n with
    | Some def => if IsNumber def then (true, gov <| rn_def := atoll def |>) else (false, gov)
    | None => (false, gov)
    end
  else if negb (persistMode =? REPORT_TO_PERFSO) && xml_is "path" n then
    match xml_content n, rn_kind gov with
    | Some path, Gov paths levelToStr => (true, gov <| rn_kind := Gov (paths ++ [path]) levelToStr |>)
    | _, _ => (false, gov)
    end
  else if negb (persistMode =? REPORT_TO_PERFSO) && xml_is "node" n then
    match xml_prop "level" n, xml_content n with
    | Some level, Some node => if IsNumber level then LoadGovResourceAvailable gov level node else (false, gov)
    | _, _ => (false, gov)
    end
  else (true, gov).

(** socperf_executor_config.cpp:319-358 [TraversalGovResource] the node as it is left *)
Fixpoint TraversalGovResource (persistMode : Z) (greatGrandson : list N) (gov : ResourceNode) : bool * ResourceNode :=
  match greatGrandson with
  | [] => (true, gov)
  | n :: greatGrandson =>
      let '(ok, gov) := gov_child persistMode n gov in
      if ok then TraversalGovResource persistMode greatGrandson gov else (false, gov)
  end.

(** One resource of a governor: it is in the table while its children are read. *)
Definition load_gov (grandson : N) : M bool :=
  let id := xml_prop "id" grandson in
  let name := xml_prop "name" grandson in
  let persistMode := xml_prop "switch" grandson in
  if negb (CheckGovResourceTag id name persistMode) then mret false else
  m ← get_nodes;
  if bool_decide (is_Some (m !! int_of 0 id)) then mret true else
  let govResNode := new_GovResNode (int_of 0 id) (default "" name) (int_of 0 persistMode) in
  let '(ok, govResNode) := TraversalGovResource (int_of 0 persistMode) (xml_children grandson) govResNode in
  insert_node govResNode;;
  mret ok.

(** socperf_executor_config.cpp:262-308 [LoadGovResource] *)
Definition LoadGovResource (child : N) : M bool :=
  and_then (all_of (fun grandson => if xml_is "res" grandson then load_gov grandson else mret true)
              (xml_children child))
    CheckDefValid.

(** ** Files *)

(** socperf_executor_config.cpp:144-159 [ParseResourceXmlFile] *)
Definition ParseResourceXmlFile (rootNode : N) : M bool :=
  all_of (fun child => if xml_is "Resource" child then LoadResource child
                       else if xml_is "GovResource" child then LoadGovResource child else mret true)
    (xml_children rootNode).

(** socperf_executor_config.cpp:109-142 [LoadConfigXmlFile] *)
Definition LoadConfigXmlFile (realConfigFile : string) : M bool :=
  if String.eqb realConfigFile "" then mret false else
  s ← st_get;
  match mjoin (nd_xmlReadFile realConfigFile (se_host s)) with
  | None => mret false
  | Some rootNode =>
      if negb (xml_is "Configs" rootNode) then mret false else
      if bool_decide (is_Some (index 0 SOCPERF_RESOURCE_CONFIG_XML realConfigFile))
      then ParseResourceXmlFile rootNode else mret true
  end.

(** socperf_executor_config.cpp:79-95 [GetAllRealConfigPath] *)
Definition GetAllRealConfigPath (configFile : string) (k : K) : list string :=
  match nd_GetCfgFiles (N := N) configFile k with
  | None => []
  | Some paths => rev (omap (fun p => p) paths)
  end.

(** socperf_executor_config.cpp:66-77 [GetRealConfigPath] *)
Definition GetRealConfigPath (configFile : string) (k : K) : string :=
  default "" (p ← nd_GetOneCfgFile (N := N) configFile k;
              if String.eqb p "" || (Z.of_nat (String.length p) >? FILE_PATH_MAX) then None
              else nd_realpath (N := N) p k).

(** socperf_executor_config.cpp:97-107 [LoadAllConfigXmlFile] *)
Definition LoadAllConfigXmlFile (configFile : string) : M bool :=
  s ← st_get;
  all_of LoadConfigXmlFile (GetAllRealConfigPath configFile (se_host s)).

(** socperf_executor_config.cpp:38-47 [SocPerfConfig::Init] *)
Definition SocPerfConfig_Init : M bool := LoadAllConfigXmlFile SOCPERF_RESOURCE_CONFIG_XML.

(** socperf_executor_config.cpp:49-56 [IsGovResId] a null entry is dereferenced *)
Definition IsGovResId (resId : Z) : M bool :=
  m ← get_nodes;
  match m !! resId with
  | None => mret false
  | Some o => n ← st_some o; mret (isGov n)
  end.

(** socperf_executor_config.cpp:58-64 [IsValidResId] *)
Definition IsValidResId (resId : Z) (s : SocExe K) : bool := bool_decide (is_Some (resourceNodeInfo_ s !! resId)).

(** socperf_executor_config.cpp:310-317 [GetResIdNumsPerType] *)
Definition GetResIdNumsPerType (resId : Z) : M Z :=
  m ← get_nodes;
  match m !! resId with
  | None => mret RES_ID_NUMS_PER_TYPE
  | Some o => n ← st_some o;
      mret (if rn_persistMode n =? REPORT_TO_PERFSO then RES_ID_NUMS_PER_TYPE_EXT else RES_ID_NUMS_PER_TYPE)
  end.

(** ** Nodes of the kernel *)

(** [resourceNodeInfo_[resId]]: a null entry is made when there is none. *)
Definition at_node (resId : Z) : M (option ResourceNode) :=
  m ← get_nodes;
  match m !! resId with
  | Some o => mret o
  | None => upd_nodes (<[resId := None]>);; mret None
  end.

(** socperf_executor_wirte_node.cpp:130-148 [GetFdForFilePath] *)
Definition GetFdForFilePath (filePath : string) : M Z :=
  s ← st_get;
  match fdInfo_ s !! filePath with
  | Some fd => mret fd
  | None =>
      match (if String.eqb filePath "" || (Z.of_nat (String.length filePath) >? FILE_PATH_MAX) then None
             else nd_realpath (N := N) filePath (se_host s)) with
      | None => mret (-1)
      | Some path =>
          let '(fd, k) := nd_open (N := N) path (se_host s) in
          st_modify (fun s => s <| se_host := k |>);;
          if fd <? 0 then mret fd else
          st_modify (fun s => s <| fdInfo_ ::= <[filePath := fd]> |>);;
          mret fd
      end
  end.

(** socperf_executor_wirte_node.cpp:114-128 [WriteNode] *)
Definition WriteNode (resId : Z) (filePath value : string) : M unit :=
  o ← at_node resId;
  n <-? o;
  ret_if rn_persistMode n =? REPORT_TO_PERFSO;
  fd ← GetFdForFilePath filePath;
  ret_if fd <? 0;
  st_modify (fun s => s <| se_trace ::= fun l => l ++ [NWrite fd value] |>).

(** The paths of a governor with the texts of a row; a row that is too short is read past its end. *)
Definition write_row (resId : Z) (paths row : list string) : M unit :=
  st_iter (fun '(i, path) => text ← st_some (row !! i); WriteNode resId path text)
    (imap (fun i path => (i, path)) paths).

(** socperf_executor_wirte_node.cpp:57-74 [InitResourceNodeInfo] *)
Definition InitResourceNodeInfo (resourceNode : option ResourceNode) : M unit :=
  n <-? resourceNode;
  ret_if rn_persistMode n =? REPORT_TO_PERFSO;
  match rn_kind n with
  | Gov paths levelToStr => write_row (rn_id n) paths (default [] (levelToStr !! rn_def n))
  | Plain path _ => WriteNode (rn_id n) path (to_string (rn_def n))
  end.

(** socperf_executor_wirte_node.cpp:48-55 [InitThreadWraps] whether or not the table was read *)
Definition InitThreadWraps : M unit :=
  SocPerfConfig_Init;;
  m ← get_nodes;
  st_iter (fun id => InitResourceNodeInfo (mjoin (m !! id))) (nd_walk (N := N) (K := K) (dom m)).

(** socperf_executor_wirte_node.cpp:96-112 [UpdateCurrentValue] *)
Definition UpdateCurrentValue (resId currValue : Z) : M unit :=
  gov ← IsGovResId resId;
  o ← at_node resId;
  n ← st_some o;
  match rn_kind n with
  | Gov paths levelToStr =>
      st_when (negb (rn_persistMode n =? REPORT_TO_PERFSO))
        (match levelToStr !! currValue with
         | Some targetStrs => write_row resId paths targetStrs
         | None => mret tt
         end)
  | Plain path _ => WriteNode resId path (to_string currValue)
  end.

(** socperf_executor_wirte_node.cpp:85-94 [UpdateResIdCurrentValue] *)
Definition UpdateResIdCurrentValue (resId currValue : Z) : M unit :=
  if currValue =? NODE_DEFAULT_VALUE then
    o ← at_node resId;
    n <-? o;
    UpdateCurrentValue resId (rn_def n)
  else UpdateCurrentValue resId currValue.

(** socperf_executor_wirte_node.cpp:76-83 [WriteNodeThreadWraps] the lists have the same length *)
Definition WriteNodeThreadWraps (resIdVec valueVec : list Z) : M unit :=
  st_iter (fun '(resId, value) => UpdateResIdCurrentValue resId value) (zip resIdVec valueVec).

(** socperf_executor_wirte_node.cpp:37-46 [~SocPerfExecutorWirteNode] *)
Definition WirteNode_destroy : M unit :=
  s ← st_get;
  st_iter (fun fd => st_when (0 <=? fd) (st_modify (fun s => s <| se_trace ::= fun l => l ++ [NClose fd] |>)))
    (nd_walk_files (K := K) (N := N) (fdInfo_ s));;
  st_modify (fun s => s <| fdInfo_ := ∅ |>).
End soc_executor.

(** ** The plugin *)

(** The conversion of a value to [std::vector<int32_t>] and [std::vector<int64_t>]: [None] is
    an exception. *)
Class JsonVector (J : Type) := {
  json_int32s : J -> option (list Z);
  json_int64s : J -> option (list Z);
}.

Section plugin.
Context {J K N : Type} `{!Json J} `{!JsonVector J} `{!Xml N} `{!NodeHost K N}.
#[local] Abbreviation PM := (ST (PluginMgr J (SocExe K))).

(** The plugin's own state is the outer state of the manager. *)
Definition in_soc_exe {A} (m : ST (SocExe K) A) : PM A := fun p =>
  match m (host p) with
  | Some (a, s) => Some (a, p <| host := s |>)
  | None => None
  end.

(** socperf_executor_plugin.cpp:89-93 [SocPerfExecutorPlugin::SocPerfInitNode] *)
Definition SocPerfInitNode : PM unit := in_soc_exe (InitThreadWraps (N := N)).

(** socperf_executor_plugin.cpp:37-51 [SocPerfExecutorPlugin::Init] *)
Definition SocPerfExe_Init : PM unit :=
  in_soc_exe (st_modify (fun s => s <| se_resTypeWithVal_ := [(EWS_TYPE_SOCPERF_EXECUTOR_ASYNC_EVENT, SOCPERF_EVENT_WIRTE_NODE)] |>
    <| se_functionMap_ := true |>));;
  p ← st_get;
  st_iter (fun '(resType, val) => SubscribeResourceAccurately LIB_NAME resType val) (se_resTypeWithVal_ (host p));;
  SocPerfInitNode.

(** socperf_executor_plugin.cpp:53-61 [SocPerfExecutorPlugin::Disable] *)
Definition SocPerfExe_Disable : PM unit :=
  in_soc_exe (st_modify (fun s => s <| se_functionMap_ := false |>));;
  p ← st_get;
  st_iter (fun '(resType, val) => UnSubscribeResourceAccurately LIB_NAME resType val) (se_resTypeWithVal_ (host p));;
  in_soc_exe (st_modify (fun s => s <| se_resTypeWithVal_ := [] |>)).

(** [payload[k]] of a value that may be written to: an exception unless it is an object; a
    missing field reads as null. *)
Definition field_or_null (k : string) (payload : J) : option J :=
  if json_is_object payload then Some (default json_null (json_find k payload)) else None.

(** socperf_executor_plugin.cpp:95-109 [SocPerfExecutorPlugin::SocPerfWirteNode] *)
Definition SocPerfWirteNode (data : ResData J) : PM unit :=
  ret_if (rd_value data <=? 0) || json_is_null (rd_payload data);
  qos ← st_some (field_or_null QOSID_STRING (rd_payload data));
  ret_if json_is_null qos;
  value ← st_some (field_or_null VALUE_STRING (rd_payload data));
  ret_if json_is_null value;
  resIdVec ← st_some (json_int32s qos);
  valueVec ← st_some (json_int64s value);
  ret_if negb (Nat.eqb (length resIdVec) (length valueVec));
  in_soc_exe (WriteNodeThreadWraps (N := N) resIdVec valueVec).

(** socperf_executor_plugin.cpp:74-87 [SocPerfExecutorPlugin::HandleSocperfWirteNode] *)
Definition HandleSocperfWirteNode (data : ResData J) : PM unit :=
  ret_if rd_value data <=? 0;
  st_when (rd_value data =? SOCPERF_EVENT_WIRTE_NODE) (SocPerfWirteNode data).

(** socperf_executor_plugin.cpp:63-72 [SocPerfExecutorPlugin::DispatchResource] *)
Definition SocPerfExe_DispatchResource (data : option (ResData J)) : PM unit :=
  data <-? data;
  ret_if rd_value data <=? 0;
  p ← st_get;
  st_when (se_functionMap_ (host p) && (rd_resType data =? EWS_TYPE_SOCPERF_EXECUTOR_ASYNC_EVENT))
    (HandleSocperfWirteNode data).

(** socperf_executor_plugin.cpp:111-119 [OnPluginInit] *)
Definition SocPerfExe_OnPluginInit (libName : string) : PM bool :=
  if negb (String.eqb libName LIB_NAME) then mret false else SocPerfExe_Init;; mret true.

(** socperf_executor_plugin.cpp:121-124 [OnPluginDisable] *)
Definition SocPerfExe_OnPluginDisable : PM unit := SocPerfExe_Disable.

(** socperf_executor_plugin.cpp:126-129 [OnDispatchResource] *)
Definition SocPerfExe_OnDispatchResource (data : option (ResData J)) : PM unit := SocPerfExe_DispatchResource data.
End plugin.
