(* ===== verification/SocPerfExecutorFacts.v ===== *)
(** * Facts about the SocPerf plugin of the executor

    The table that a configuration leaves is sound, whatever the files hold; and on a table
    whose governors are complete, the start and every history of requests of known resources
    write exactly the texts asked for, in order, to the nodes that can be opened. *)
From S2P Require Import Prelude Json CommonUtil PluginConfig PluginMgr Executor SocPerfExecutor.

#[local] Abbreviation Table := (gmap Z (option ResourceNode)).

(** ** What a table must satisfy *)

(** An entry filed under its own valid identity. *)
Definition filed (id : Z) (o : option ResourceNode) : Prop :=
  exists n, o = Some n /\ rn_id n = id /\ MIN_RESOURCE_ID <= id <= MAX_RESOURCE_ID
    /\ (rn_persistMode n = WRITE_NODE \/ rn_persistMode n = REPORT_TO_PERFSO).
Definition all_filed (m : Table) : Prop := map_Forall filed m.

Definition pair_exists (m : Table) (n : ResourceNode) : Prop :=
  match rn_kind n with
  | Gov _ _ => True
  | Plain _ pairResId => pairResId = INVALID_VALUE \/ is_Some (m !! pairResId)
  end.
Definition pairs_exist (m : Table) : Prop := forall id n, m !! id = Some (Some n) -> pair_exists m n.

Definition default_available (n : ResourceNode) : Prop := rn_available n = ∅ \/ rn_def n ∈ rn_available n.
Definition defaults_available (m : Table) : Prop :=
  forall id n, m !! id = Some (Some n) -> default_available n.

Definition sound (m : Table) : Prop := all_filed m /\ pairs_exist m /\ defaults_available m.

Section load.
Context {K N : Type} `{!Xml N} `{!NodeHost K N}.
Context (walk_all : forall X : gset Z, nd_walk (K := K) (N := N) X ≡ₚ elements X).
#[local] Abbreviation M := (ST (SocExe K)).

(** The table of a state has a property. *)
Definition table (P : Table -> Prop) : SocExe K -> Prop := fun s => P (resourceNodeInfo_ s).

Lemma all_nodes_run (m : Table) ok (s : SocExe K) :
  all_filed m ->
  exists b, all_nodes (N := N) m ok s = Some (b, s)
    /\ (b = true -> forall id n, m !! id = Some (Some n) -> ok id n = true).
Proof.
  intros Hm. unfold all_nodes.
  assert (Hin : forall id, id ∈ nd_walk (K := K) (N := N) (dom m) <-> is_Some (m !! id)).
  { intros id. by rewrite walk_all, elem_of_elements, elem_of_dom. }
  revert Hin. generalize (nd_walk (K := K) (N := N) (dom m)). intros ids Hin.
  assert (Hgo : forall l, (forall id, id ∈ l -> is_Some (m !! id)) -> exists b,
    (fix go (ids : list Z) : M bool := match ids with
       | [] => mret true
       | id :: ids => n ← st_some (mjoin (m !! id)); and_then (mret (ok id n)) (go ids)
       end) l s = Some (b, s)
    /\ (b = true -> forall id n, id ∈ l -> m !! id = Some (Some n) -> ok id n = true)).
  { induction l as [|id l IH]; intros Hl; [exists true; split; [done|]; intros _ id n Hx; by apply not_elem_of_nil in Hx|].
    destruct (Hl id) as [o Ho]; [by left|]. destruct (Hm id o Ho) as (n & -> & _).
    destruct IH as (b & E & Hb); [intros; apply Hl; by right|].
    rewrite Ho. cbn [mjoin option_join]. unfold and_then, mbind, ST_bind. cbn. destruct (ok id n) eqn:Eok; cbn.
    - exists b. split; [exact E|]. intros Hbt id' n' [->|Hx]%elem_of_cons E'; [congruence|by eapply Hb].
    - exists false. split; [done|]. discriminate. }
  destruct (Hgo ids) as (b & E & Hb); [intros id; apply Hin|]. exists b. split; [exact E|].
  intros Hbt id n E'. apply (Hb Hbt); [apply Hin; by eexists|done].
Qed.

Lemma CheckPairResIdValid_run s :
  table all_filed s -> exists b, CheckPairResIdValid (N := N) s = Some (b, s) /\ (b = true -> table pairs_exist s).
Proof.
  intros Hs. unfold CheckPairResIdValid, get_nodes. unfold mbind, ST_bind.
  destruct (all_nodes_run (resourceNodeInfo_ s) (fun _ n =>
    match rn_kind n with Gov _ _ => true
    | Plain _ p => (p =? INVALID_VALUE) || bool_decide (is_Some (resourceNodeInfo_ s !! p)) end) s Hs) as (b & E & Hb).
  exists b. split; [exact E|]. intros Hbt id n Hn. specialize (Hb Hbt id n Hn). unfold pair_exists.
  destruct (rn_kind n) as [? p|]; [|done]. apply orb_prop in Hb as [Hb|Hb]; [left; lia|right].
  by apply bool_decide_eq_true in Hb.
Qed.

Lemma CheckDefValid_run s :
  table all_filed s -> exists b, CheckDefValid (N := N) s = Some (b, s) /\ (b = true -> table defaults_available s).
Proof.
  intros Hs. unfold CheckDefValid, get_nodes. unfold mbind, ST_bind.
  destruct (all_nodes_run (resourceNodeInfo_ s) (fun _ n =>
    bool_decide (rn_available n = ∅) || bool_decide (rn_def n ∈ rn_available n)) s Hs) as (b & E & Hb).
  exists b. split; [exact E|]. intros Hbt id n Hn. specialize (Hb Hbt id n Hn).
  apply orb_prop in Hb as [Hb|Hb]; apply bool_decide_eq_true in Hb; [by left|by right].
Qed.

(** ** Loading keeps the table filed; a load that succeeds leaves it sound *)

#[local] Abbreviation runs P m Q := (spec (S := SocExe K) False (table P) m Q).
Definition outcome (P : Table -> Prop) (b : bool) (s : SocExe K) : Prop := table (if b then P else all_filed) s.

Lemma runs_and_then P Q R (m k : M bool) :
  runs P m (outcome Q) -> runs Q k (outcome R) -> runs P (and_then m k) (outcome R).
Proof.
  intros Hm Hk. eapply spec_bind; [exact Hm|]. intros []; [exact Hk|]. by apply spec_ret.
Qed.

Lemma runs_all_of {A} P (f : A -> M bool) l :
  (forall x, x ∈ l -> runs P (f x) (outcome P)) -> runs P (all_of f l) (outcome P).
Proof.
  induction l as [|x l IH]; intros Hf; cbn [all_of]; [by apply spec_ret|].
  eapply runs_and_then; [apply Hf; by left|]. apply IH. intros y Hy. apply Hf. by right.
Qed.

Lemma runs_return P Q b : (forall m, P m -> if b : bool then Q m else all_filed m) -> runs P (mret b) (outcome Q).
Proof. intros H. apply spec_ret. intros s Hs. unfold outcome, table. destruct b; by apply H. Qed.

Lemma runs_checks : runs all_filed (and_then (CheckPairResIdValid (N := N)) (CheckDefValid (N := N))) (outcome sound).
Proof.
  intros s Hs. unfold and_then, mbind, ST_bind.
  destruct (CheckPairResIdValid_run s Hs) as (b & E & Hb). rewrite E. destruct b; [|done].
  destruct (CheckDefValid_run s Hs) as (b' & E' & Hb'). rewrite E'.
  destruct b'; [split_and!; [done|by apply Hb|by apply Hb']|done].
Qed.

(** The table grows by an entry of its own. *)
Lemma insert_keeps_filed n (m : Table) :
  all_filed m -> filed (rn_id n) (Some n) ->
  all_filed (match m !! rn_id n with Some _ => m | None => <[rn_id n := Some n]> m end).
Proof. intros Hm Hn. destruct (m !! rn_id n); [done|]. by apply map_Forall_insert_2. Qed.

Lemma insert_keeps_pairs n (m : Table) :
  pairs_exist m -> isGov n = true ->
  pairs_exist (match m !! rn_id n with Some _ => m | None => <[rn_id n := Some n]> m end).
Proof.
  intros Hm Hg. destruct (m !! rn_id n) eqn:E; [done|]. intros id n' Hn'. unfold pair_exists.
  destruct (decide (id = rn_id n)) as [->|Hne].
  - rewrite lookup_insert_eq in Hn'. injection Hn' as <-. unfold isGov in Hg. by destruct (rn_kind n).
  - rewrite lookup_insert_ne in Hn' by done. specialize (Hm id n' Hn'). unfold pair_exists in Hm.
    destruct (rn_kind n') as [? p|]; [|done]. destruct Hm as [?|Hp]; [by left|right].
    destruct (decide (p = rn_id n)) as [->|]; [by rewrite lookup_insert_eq|by rewrite lookup_insert_ne].
Qed.

Lemma check_id_range id name :
  check_id_name id name = true -> MIN_RESOURCE_ID <= int_of 0 id <= MAX_RESOURCE_ID.
Proof.
  unfold check_id_name, opt_number, IsValidRangeResId. destruct id as [t|]; [|done]. cbn.
  rewrite !andb_true_iff, negb_true_iff, orb_false_iff. lia.
Qed.

Lemma check_mode text :
  opt_number IsValidPersistMode text = true -> int_of 0 text = WRITE_NODE \/ int_of 0 text = REPORT_TO_PERFSO.
Proof.
  unfold opt_number, IsValidPersistMode, WRITE_NODE, REPORT_TO_PERFSO. destruct text as [t|]; cbn; [|by left].
  rewrite andb_true_iff, negb_true_iff, andb_false_iff, !negb_false_iff. lia.
Qed.

Lemma runs_freq_content persistMode l n :
  filed (rn_id n) (Some n) -> runs all_filed (LoadFreqResourceContent persistMode l n) (outcome all_filed).
Proof.
  intros Hn. unfold LoadFreqResourceContent. destruct (foldl _ _ l) as [[def path] node].
  destruct (negb _); [by apply runs_return|]. cbv zeta.
  set (n1 := if negb (persistMode =? REPORT_TO_PERFSO) then _ else _).
  assert (Hn1 : filed (rn_id n1) (Some n1)).
  { destruct Hn as (n' & [= <-] & Hn). exists n1. subst n1. by destruct (negb _). }
  clearbody n1. set (o := match node with Some _ => _ | None => _ end).
  assert (Ho : forall n2, o = Some n2 -> filed (rn_id n2) (Some n2)).
  { intros n2 E. subst o. destruct node as [t|]; [|by injection E as <-].
    unfold LoadResourceAvailable in E. destruct (forallb _ _); [|done]. injection E as <-.
    destruct Hn1 as (n' & [= <-] & Hn1). eexists. by split. }
  clearbody o. destruct o as [n2|]; [|by apply runs_return].
  apply spec_bind with (R := fun _ => table all_filed); [|intros []; by apply (runs_return all_filed)].
  apply spec_modify. intros s Hs. apply insert_keeps_filed; [exact Hs|by apply Ho].
Qed.

Lemma runs_freq grandson : runs all_filed (TraversalFreqResource (K := K) grandson) (outcome all_filed).
Proof.
  unfold TraversalFreqResource. cbv zeta. destruct (negb _) eqn:Ec; [by apply runs_return|].
  apply negb_false_iff in Ec. unfold CheckResourceTag in Ec. rewrite !andb_true_iff in Ec.
  destruct Ec as [[[Hid _] _] Hp]. apply spec_bind with (R := fun _ => table all_filed); [by intros s Hs|]. intros m.
  case_bool_decide; [by apply runs_return|]. apply runs_freq_content. eexists. split; [done|].
  split; [done|]. split; [by eapply check_id_range|by apply check_mode].
Qed.

Lemma runs_LoadResource child : runs all_filed (LoadResource child) (outcome sound).
Proof.
  unfold LoadResource. eapply runs_and_then; [|apply runs_checks]. apply runs_all_of. intros n _.
  destruct (xml_is "res" n); [apply runs_freq|by apply runs_return].
Qed.

(** Reading the children of a governor changes neither its identity nor its kind. *)
Definition same_governor (g g' : ResourceNode) : Prop :=
  rn_id g' = rn_id g /\ rn_persistMode g' = rn_persistMode g /\ isGov g' = isGov g.

Lemma gov_child_same persistMode (n : N) g : same_governor g (gov_child persistMode n g).2.
Proof.
  destruct g as [i nm d av pm mx [p q|ps lv]]; unfold gov_child, LoadGovResourceAvailable, same_governor, isGov;
    cbn; repeat (case_bool_decide || case_match); by simplify_eq/=.
Qed.

Lemma traversal_same persistMode l g : same_governor g (TraversalGovResource (N := N) persistMode l g).2.
Proof.
  revert g. induction l as [|n l IH]; intros g; [done|]. cbn [TraversalGovResource].
  pose proof (gov_child_same persistMode n g) as Hg. destruct (gov_child persistMode n g) as [ok g']. cbn in Hg.
  destruct ok; [|exact Hg]. destruct Hg as (H1 & H2 & H3), (IH g') as (H1' & H2' & H3').
  split_and!; congruence.
Qed.

Definition filed_pairs (m : Table) : Prop := all_filed m /\ pairs_exist m.

Lemma runs_load_gov grandson : runs filed_pairs (load_gov (K := K) grandson) (outcome filed_pairs).
Proof.
  unfold load_gov. cbv zeta. destruct (negb _) eqn:Ec; [apply runs_return; by intros m []|].
  apply negb_false_iff, andb_true_iff in Ec as [Hid Hp].
  apply spec_bind with (R := fun _ => table filed_pairs); [by intros s Hs|]. intros m.
  case_bool_decide; [by apply runs_return|].
  set (g := new_GovResNode _ _ _). pose proof (traversal_same (int_of 0 (xml_prop "switch" grandson)) (xml_children grandson) g) as Hsame.
  destruct (TraversalGovResource _ _ g) as [ok g']. destruct Hsame as (Hi & Hpm & Hg). cbn in Hi, Hpm, Hg.
  apply spec_bind with (R := fun _ => table filed_pairs).
  - apply spec_modify. intros s [Hf Hps]. split.
    + apply insert_keeps_filed; [done|]. exists g'. split; [done|]. split; [done|]. rewrite Hi, Hpm.
      split; [by eapply check_id_range|by apply check_mode].
    + by apply insert_keeps_pairs.
  - intros _. apply runs_return. intros m' [? ?]. by destruct ok.
Qed.

Lemma runs_LoadGovResource child : runs filed_pairs (LoadGovResource child) (outcome sound).
Proof.
  unfold LoadGovResource. eapply runs_and_then.
  - apply runs_all_of. intros n _. destruct (xml_is "res" n); [apply runs_load_gov|by apply runs_return].
  - intros s [Hf Hp]. destruct (CheckDefValid_run s Hf) as (b & E & Hb). rewrite E.
    destruct b; [split_and!; [done|done|by apply Hb]|done].
Qed.

Lemma runs_weaken P P' Q (m : M bool) :
  runs P' m (outcome Q) -> (forall t, P t -> P' t) -> runs P m (outcome Q).
Proof. intros Hm HP s Hs. apply Hm, HP, Hs. Qed.

Lemma runs_ParseResource root : runs sound (ParseResourceXmlFile root) (outcome sound).
Proof.
  unfold ParseResourceXmlFile. apply runs_all_of. intros n _. destruct (xml_is "Resource" n).
  - eapply runs_weaken; [apply runs_LoadResource|by intros t []].
  - destruct (xml_is "GovResource" n); [|by apply runs_return; intros t []].
    eapply runs_weaken; [apply runs_LoadGovResource|by intros t (? & ? & ?)].
Qed.

Lemma runs_Config_Init : runs sound (SocPerfConfig_Init (N := N)) (outcome sound).
Proof.
  assert (Hfail : runs sound (mret false) (outcome sound)) by (by apply runs_return; intros t []).
  unfold SocPerfConfig_Init, LoadAllConfigXmlFile. apply spec_bind with (R := fun _ => table sound); [by intros s Hs|].
  intros s0. apply runs_all_of. intros file _. unfold LoadConfigXmlFile.
  destruct (String.eqb file ""); [done|]. apply spec_bind with (R := fun _ => table sound); [by intros s Hs|].
  intros s1. destruct (mjoin _) as [root|]; [|done]. destruct (negb _); [done|].
  case_bool_decide; [apply runs_ParseResource|by apply runs_return].
Qed.

(** C33: reading the configuration files, whatever they hold, ends with a table in which every
    resource is filed under its own identity between 1000 and 5999 with one of the two modes;
    and when the reading succeeds every pair names a resource that is there and every default
    is among the values that the resource allows, if it lists any. *)
Theorem loaded_table_is_sound (k : K) :
  exists b s, SocPerfConfig_Init (N := N) (new_SocExe k) = Some (b, s)
    /\ all_filed (resourceNodeInfo_ s) /\ (b = true -> sound (resourceNodeInfo_ s)).
Proof.
  assert (H0 : table sound (new_SocExe k)) by (split_and!; [apply map_Forall_empty|intros id n Hn; cbn in Hn; by rewrite lookup_empty in Hn..]).
  pose proof (runs_Config_Init _ H0) as H. destruct (SocPerfConfig_Init _) as [[b s]|]; [|done].
  exists b, s. split; [done|]. unfold outcome, table in H. destruct b; [by split; [apply H|]|done].
Qed.
End load.

(** ** What the start and the requests write *)

(** The texts for the nodes of a resource when it takes a value. *)
Definition node_writes (n : ResourceNode) (value : Z) : list (string * string) :=
  if rn_persistMode n =? REPORT_TO_PERFSO then [] else
  match rn_kind n with
  | Plain path _ => [(path, to_string value)]
  | Gov paths levelToStr => match levelToStr !! value with Some row => zip paths row | None => [] end
  end.

(** What one request asks for, by a table without null entries. *)
Definition request_writes (T : gmap Z ResourceNode) (r : Z * Z) : list (string * string) :=
  match T !! r.1 with
  | Some n => node_writes n (if r.2 =? NODE_DEFAULT_VALUE then rn_def n else r.2)
  | None => []
  end.

(** Each row of a governor has a text for each path, and there is a row for its default. *)
Definition complete (n : ResourceNode) : Prop :=
  match rn_kind n with
  | Plain _ _ => True
  | Gov paths levelToStr =>
      map_Forall (fun _ row => length row = length paths) levelToStr
      /\ (paths = [] \/ is_Some (levelToStr !! rn_def n))
  end.

(** A request of a resource that is known, or of the default of one that is not. *)
Definition request_ok (T : gmap Z ResourceNode) (r : Z * Z) : Prop :=
  is_Some (T !! r.1) \/ r.2 = NODE_DEFAULT_VALUE.

(** The descriptor of a path in the table. *)
Definition fd_of {K} (s : SocExe K) (path : string) : Z := default (-1) (fdInfo_ s !! path).

Section writes.
Context {K N : Type} `{!Xml N} `{!NodeHost K N}.
#[local] Abbreviation M := (ST (SocExe K)).

(** Whether a node can be opened; it does not change. *)
Definition can_open (path : string) (k : K) : bool :=
  match (if String.eqb path "" || (Z.of_nat (String.length path) >? 4096) then None
         else nd_realpath (N := N) path k) with
  | None => false
  | Some p => 0 <=? (nd_open (N := N) p k).1
  end.
Context (opens : string -> bool) (opens_spec : forall path k, can_open path k = opens path).

Definition openable (p : string * string) : Prop := opens p.1 = true.
#[local] Instance openable_dec p : Decision (openable p) := decide (opens p.1 = true).

(** The calls for texts, by a table of descriptors. *)
Definition calls (s : SocExe K) (l : list (string * string)) : list NodeCall :=
  (fun p => NWrite (fd_of s p.1) p.2) <$> filter openable l.

Lemma calls_one s path text : opens path = true -> calls s [(path, text)] = [NWrite (fd_of s path) text].
Proof. intros Ho. unfold calls. by rewrite filter_cons_True. Qed.

Lemma calls_shut s path text : opens path = false -> calls s [(path, text)] = [].
Proof. intros Ho. unfold calls. rewrite filter_cons_False; [done|]. unfold openable. cbn. congruence. Qed.

Context (T : gmap Z ResourceNode).

(** The state shows the table; its descriptors are of nodes that open. *)
Record writing (s : SocExe K) : Prop := {
  wr_table : forall id, mjoin (resourceNodeInfo_ s !! id) = T !! id;
  wr_fds : forall path fd, fdInfo_ s !! path = Some fd -> 0 <= fd /\ opens path = true;
}.

(** From the one state to the other the texts were written. *)
Record wrote (l : list (string * string)) (s s' : SocExe K) : Prop := {
  wt_trace : se_trace s' = se_trace s ++ calls s' l;
  wt_fds : fdInfo_ s ⊆ fdInfo_ s';
  wt_open : forall p, p ∈ l -> openable p -> is_Some (fdInfo_ s' !! p.1);
}.

(** The operation is defined and writes the texts. *)
Definition does (l : list (string * string)) (m : M unit) : Prop :=
  forall s, writing s -> exists s', m s = Some (tt, s') /\ writing s' /\ wrote l s s'.

Lemma calls_mono l s s' :
  fdInfo_ s ⊆ fdInfo_ s' -> (forall p, p ∈ l -> openable p -> is_Some (fdInfo_ s !! p.1)) -> calls s l = calls s' l.
Proof.
  intros Hsub Hl. unfold calls. apply list_fmap_ext. intros i p Hp.
  apply list_elem_of_lookup_2, list_elem_of_filter in Hp as [Ho Hp]. destruct (Hl p Hp Ho) as [fd Hfd].
  unfold fd_of. rewrite Hfd. by rewrite (lookup_weaken _ _ _ _ Hfd Hsub).
Qed.

Lemma does_nothing m : (forall s, writing s -> exists s', m s = Some (tt, s') /\ writing s'
  /\ se_trace s' = se_trace s /\ fdInfo_ s' = fdInfo_ s) -> does [] m.
Proof.
  intros Hm s Hs. destruct (Hm s Hs) as (s' & E & Hs' & Ht & Hf). exists s'. split_and!; [done..|].
  split; [by rewrite Ht, app_nil_r|by rewrite Hf|]. intros p Hp. by apply not_elem_of_nil in Hp.
Qed.

Lemma does_ret : does [] (mret tt).
Proof. apply does_nothing. intros s Hs. by exists s. Qed.

Lemma does_seq l1 l2 m1 m2 : does l1 m1 -> does l2 m2 -> does (l1 ++ l2) (m1;; m2).
Proof.
  intros H1 H2 s Hs. destruct (H1 s Hs) as (s1 & E1 & Hs1 & W1). destruct (H2 s1 Hs1) as (s2 & E2 & Hs2 & W2).
  exists s2. split_and!; [by rewrite (run_bind _ _ _ _ _ E1)|done|]. destruct W1 as [T1 F1 O1], W2 as [T2 F2 O2].
  split; [|by etransitivity|].
  - rewrite T2, T1, (calls_mono l1 s1 s2) by done. unfold calls. by rewrite filter_app, fmap_app, app_assoc.
  - intros p [Hp|Hp]%elem_of_app Ho; [|by apply O2]. destruct (O1 p Hp Ho) as [fd Hfd].
    exists fd. by eapply lookup_weaken.
Qed.

Lemma does_iter {A} (f : A -> list (string * string)) (g : A -> M unit) xs :
  (forall x, x ∈ xs -> does (f x) (g x)) -> does (concat (f <$> xs)) (st_iter g xs).
Proof.
  induction xs as [|x xs IH]; intros Hf; [apply does_ret|]. cbn [st_iter fmap list_fmap concat].
  apply does_seq; [apply Hf; by left|]. apply IH. intros y Hy. apply Hf. by right.
Qed.

(** ** The writer *)

Lemma at_node_known id n s :
  writing s -> T !! id = Some n -> at_node id s = Some (Some n, s).
Proof.
  intros Hs Hn. unfold at_node, get_nodes, mbind, ST_bind. pose proof (wr_table _ Hs id) as E. rewrite Hn in E.
  by destruct (resourceNodeInfo_ s !! id) as [[?|]|]; simplify_eq/=.
Qed.

Lemma does_WriteNode id n path text :
  T !! id = Some n -> does (if rn_persistMode n =? REPORT_TO_PERFSO then [] else [(path, text)]) (WriteNode (N := N) id path text).
Proof.
  intros Hn. destruct (rn_persistMode n =? REPORT_TO_PERFSO) eqn:Ep.
  { apply does_nothing. intros s Hs. exists s. unfold WriteNode.
    rewrite (run_bind _ _ _ _ _ (at_node_known id n s Hs Hn)). by rewrite Ep. }
  intros s Hs. unfold WriteNode. rewrite (run_bind _ _ _ _ _ (at_node_known id n s Hs Hn)). rewrite Ep.
  unfold GetFdForFilePath, mbind, ST_bind, st_get.
  pose proof (opens_spec path (se_host s)) as Ho. unfold can_open in Ho.
  destruct (fdInfo_ s !! path) as [fd|] eqn:Ef.
  - destruct (wr_fds _ Hs path fd Ef) as [Hge Hop]. cbn. destruct (Z.ltb_spec fd 0); [lia|].
    eexists. split; [reflexivity|]. split; [split; apply Hs|]. split; [|done|].
    + rewrite calls_one by done. unfold fd_of. cbn. by rewrite Ef.
    + intros p [->|Hx]%elem_of_cons _; [by exists fd|by apply not_elem_of_nil in Hx].
  - assert (Hshut : opens path = false -> forall s1, writing s1 -> se_trace s1 = se_trace s -> fdInfo_ s1 = fdInfo_ s ->
      writing s1 /\ wrote [(path, text)] s s1).
    { intros Hop s1 Hs1 Ht Hf. split; [done|]. split; [|by rewrite Hf|].
      - by rewrite calls_shut, Ht, app_nil_r.
      - intros p [->|Hx]%elem_of_cons Hopn; [unfold openable in Hopn; cbn in Hopn; congruence|by apply not_elem_of_nil in Hx]. }
    change SocPerfExecutor.FILE_PATH_MAX with 4096. destruct (if _ || _ then None else _) as [real|].
    + destruct (nd_open real (se_host s)) as [fd k]. cbn in Ho |- *. destruct (Z.ltb_spec fd 0) as [Hneg|Hge].
      * unfold mret, ST_ret. rewrite (proj2 (Z.ltb_lt fd 0)) by done.
        eexists. split; [reflexivity|]. apply Hshut; [|split; apply Hs|done|done].
        rewrite <- Ho. apply Z.leb_gt. lia.
      * cbn. rewrite (proj2 (Z.ltb_ge fd 0)) by done. eexists. split; [reflexivity|].
        assert (Hop : opens path = true) by (rewrite <- Ho; apply Z.leb_le; lia).
        split; [split; [apply Hs|]|split].
        -- intros p f. cbn. destruct (decide (p = path)) as [->|]; [|rewrite lookup_insert_ne by done; apply Hs].
           rewrite lookup_insert_eq. by intros [= <-].
        -- rewrite calls_one by done. unfold fd_of. cbn. by rewrite lookup_insert_eq.
        -- by apply insert_subseteq.
        -- intros p [->|Hx]%elem_of_cons _; cbn; [rewrite lookup_insert_eq; by eexists|by apply not_elem_of_nil in Hx].
    + cbn. exists s. split; [done|]. by apply Hshut.
Qed.

Lemma does_row id n paths row :
  T !! id = Some n -> rn_persistMode n <> REPORT_TO_PERFSO -> length row = length paths ->
  does (zip paths row) (write_row (N := N) id paths row).
Proof.
  intros Hn Hp Hlen. unfold write_row.
  assert (Hgen : forall pre row', row = pre ++ row' -> forall paths', length row' = length paths' ->
    does (zip paths' row') (st_iter (fun '(i, path) => text ← st_some (row !! i); WriteNode (N := N) id path text)
      (imap (fun i path => ((length pre + i)%nat, path)) paths'))).
  { intros pre row'. revert pre. induction row' as [|text row' IH]; intros pre Hrow [|path paths'] Hl; try done.
    { apply does_ret. }
    cbn [imap]. change (zip (path :: paths') (text :: row')) with ([(path, text)] ++ zip paths' row').
    cbn [st_iter]. apply does_seq.
    - rewrite Nat.add_0_r, Hrow, lookup_app_r, Nat.sub_diag by lia. cbn.
      pose proof (does_WriteNode id n path text Hn) as Hw.
      destruct (Z.eqb_spec (rn_persistMode n) REPORT_TO_PERFSO); done.
    - specialize (IH (pre ++ [text])). rewrite <- app_assoc in IH. specialize (IH Hrow paths' ltac:(by injection Hl)).
      erewrite imap_ext; [exact IH|]. intros i x _. cbn. rewrite length_app. cbn. f_equal. lia. }
  apply (Hgen [] row eq_refl paths Hlen).
Qed.

Context (walk_all : forall X : gset Z, nd_walk (K := K) (N := N) X ≡ₚ elements X).
Context (T_ok : map_Forall (fun id n => rn_id n = id /\ complete n) T).

Lemma does_node id n value :
  T !! id = Some n ->
  does (node_writes n value)
    (match rn_kind n with
     | Gov paths levelToStr => st_when (negb (rn_persistMode n =? REPORT_TO_PERFSO))
         (match levelToStr !! value with Some row => write_row (N := N) id paths row | None => mret tt end)
     | Plain path _ => WriteNode (N := N) id path (to_string value)
     end).
Proof.
  intros Hn. destruct (T_ok id n Hn) as [_ Hc]. unfold complete in Hc. unfold node_writes.
  destruct (rn_kind n) as [path pairing|paths levelToStr]; [by apply does_WriteNode|].
  destruct (Z.eqb_spec (rn_persistMode n) REPORT_TO_PERFSO); cbn [negb st_when]; [apply does_ret|].
  destruct (levelToStr !! value) as [row|] eqn:Er; [|apply does_ret].
  apply (does_row id n); [done..|]. by apply Hc in Er.
Qed.

Lemma does_update id n value : T !! id = Some n -> does (node_writes n value) (UpdateCurrentValue (N := N) id value).
Proof.
  intros Hn s Hs. destruct (does_node id n value Hn s Hs) as (s' & E & Hs'). exists s'. split; [|done].
  rewrite <- E. unfold UpdateCurrentValue. erewrite run_bind.
  2: { unfold IsGovResId, get_nodes, mbind, ST_bind. pose proof (wr_table _ Hs id) as Ht. rewrite Hn in Ht.
       destruct (resourceNodeInfo_ s !! id) as [[?|]|]; simplify_eq/=. reflexivity. }
  rewrite (run_bind _ _ _ _ _ (at_node_known id n s Hs Hn)). cbn [st_some].
  reflexivity.
Qed.

(** The default of an unknown resource makes a null entry and writes nothing. *)
Lemma at_node_unknown id s :
  writing s -> T !! id = None -> exists s', at_node id s = Some (None, s') /\ writing s'
    /\ se_trace s' = se_trace s /\ fdInfo_ s' = fdInfo_ s.
Proof.
  intros Hs Hn. unfold at_node, get_nodes, mbind, ST_bind. pose proof (wr_table _ Hs id) as E. rewrite Hn in E.
  destruct (resourceNodeInfo_ s !! id) as [[?|]|] eqn:Em; simplify_eq/=; [by exists s|].
  eexists. split; [reflexivity|]. split; [|done]. split; cbn; [|apply Hs].
  intros i. destruct (decide (i = id)) as [->|]; [by rewrite lookup_insert_eq, Hn|].
  rewrite lookup_insert_ne by done. apply Hs.
Qed.

Lemma does_request r :
  request_ok T r -> does (request_writes T r) (UpdateResIdCurrentValue (N := N) r.1 r.2).
Proof.
  unfold request_ok, request_writes, UpdateResIdCurrentValue. destruct r as [id value]. cbn [fst snd].
  destruct (T !! id) as [n|] eqn:Hn; intros Hok.
  - destruct (value =? NODE_DEFAULT_VALUE); [|by apply does_update].
    intros s Hs. rewrite (run_bind _ _ _ _ _ (at_node_known id n s Hs Hn)). by apply does_update.
  - destruct Hok as [[? ?]|Hv]; [done|]. rewrite Hv, Z.eqb_refl. apply does_nothing. intros s Hs.
    destruct (at_node_unknown id s Hs Hn) as (s' & E & Hs'). exists s'. by rewrite (run_bind _ _ _ _ _ E).
Qed.

(** Another value for an unknown resource follows a null pointer. *)
Lemma unknown_undefined id value s :
  writing s -> T !! id = None -> value <> NODE_DEFAULT_VALUE -> UpdateResIdCurrentValue (N := N) id value s = None.
Proof.
  intros Hs Hn Hv. unfold UpdateResIdCurrentValue. rewrite (proj2 (Z.eqb_neq _ _) Hv).
  unfold UpdateCurrentValue, IsGovResId, get_nodes, mbind, ST_bind. pose proof (wr_table _ Hs id) as E.
  rewrite Hn in E. destruct (resourceNodeInfo_ s !! id) as [[?|]|] eqn:Em; simplify_eq/=; [done|].
  destruct (at_node_unknown id s Hs Hn) as (s' & -> & _). done.
Qed.

Lemma does_init id : does (match T !! id with Some n => node_writes n (rn_def n) | None => [] end)
  (InitResourceNodeInfo (N := N) (T !! id)).
Proof.
  unfold InitResourceNodeInfo. destruct (T !! id) as [n|] eqn:Hn; [|apply does_ret].
  destruct (T_ok id n Hn) as [Hid Hc]. pose proof (does_node id n (rn_def n) Hn) as Hd. unfold complete in Hc.
  rewrite Hid. unfold node_writes in Hd |- *. destruct (rn_persistMode n =? REPORT_TO_PERFSO); [apply does_ret|].
  destruct (rn_kind n) as [path pairing|paths levelToStr]; [done|]. cbn [negb st_when] in Hd.
  destruct Hc as [_ [->|[row Hr]]]; [|by rewrite Hr in Hd |- *].
  destruct (levelToStr !! rn_def n); apply does_ret.
Qed.

(** The defaults in the order in which the start walks the table. *)
Definition start_writes (ids : list Z) : list (string * string) :=
  concat ((fun id => match T !! id with Some n => node_writes n (rn_def n) | None => [] end) <$> ids).

Lemma does_start (m : Table) :
  (forall id, mjoin (m !! id) = T !! id) ->
  does (start_writes (nd_walk (K := K) (N := N) (dom m)))
    (st_iter (fun id => InitResourceNodeInfo (N := N) (mjoin (m !! id))) (nd_walk (K := K) (N := N) (dom m))).
Proof. intros Hm. apply does_iter. intros id _. rewrite Hm. apply does_init. Qed.

Lemma does_requests (rs : list (list Z * list Z)) :
  Forall (fun r => Forall (request_ok T) (zip r.1 r.2)) rs ->
  does (concat ((fun r => concat (request_writes T <$> zip r.1 r.2)) <$> rs))
    (st_iter (fun r => WriteNodeThreadWraps (N := N) r.1 r.2) rs).
Proof.
  intros Hrs. apply does_iter. intros r Hr. unfold WriteNodeThreadWraps.
  pose proof (does_iter (request_writes T) (fun '(id, value) => UpdateResIdCurrentValue (N := N) id value) (zip r.1 r.2)) as Hd.
  apply Hd. intros [id value] Hx. apply (does_request (id, value)).
  rewrite Forall_forall in Hrs. specialize (Hrs r Hr). rewrite Forall_forall in Hrs. by apply Hrs.
Qed.
End writes.

(** ** From the files to the nodes *)

(** The entries that are not null. *)
Definition known (m : Table) : gmap Z ResourceNode := omap id m.

Lemma known_lookup m i : mjoin (m !! i) = known m !! i.
Proof. unfold known. rewrite lookup_omap. by destruct (m !! i). Qed.

Section from_files.
Context {K N : Type} `{!Xml N} `{!NodeHost K N}.
Context (walk_all : forall X : gset Z, nd_walk (K := K) (N := N) X ≡ₚ elements X).
#[local] Abbreviation M := (ST (SocExe K)).

(** Reading the files opens no node and writes none. *)
Definition quiet (s : SocExe K) : Prop := fdInfo_ s = ∅ /\ se_trace s = [].

Lemma quiet_nodes f : keeps quiet (upd_nodes (K := K) f).
Proof. apply keeps_modify. intros s Hs. exact Hs. Qed.
Lemma quiet_get : keeps quiet (get_nodes (K := K)).
Proof. by intros s Hs. Qed.
Lemma quiet_and_then (m k : M bool) : keeps quiet m -> keeps quiet k -> keeps quiet (and_then m k).
Proof. intros Hm Hk. unfold and_then. apply keeps_bind; [done|]. intros []; [done|apply keeps_ret]. Qed.
Lemma quiet_all_of {A} (f : A -> M bool) l : (forall x, keeps quiet (f x)) -> keeps quiet (all_of f l).
Proof. intros Hf. induction l; [apply keeps_ret|]. by apply quiet_and_then. Qed.
Lemma quiet_all_nodes m ok : keeps quiet (all_nodes (K := K) (N := N) m ok).
Proof.
  unfold all_nodes. induction (nd_walk _) as [|i l IH]; [apply keeps_ret|].
  apply keeps_bind; [apply keeps_some|]. intros n. apply quiet_and_then; [apply keeps_ret|exact IH].
Qed.
#[local] Hint Resolve quiet_nodes quiet_get quiet_all_nodes : keeps.
Ltac quiet_auto := repeat first
  [ apply quiet_and_then | apply quiet_all_of; intros ? | keeps_step
  | match goal with |- keeps _ (let '(_, _) := ?p in _) => destruct p end ].

Lemma quiet_freq (n : N) : keeps quiet (TraversalFreqResource (K := K) n).
Proof.
  unfold TraversalFreqResource, LoadFreqResourceContent, insert_node. cbv zeta.
  destruct (foldl _ _ _) as [[? ?] ?]. quiet_auto.
Qed.
Lemma quiet_gov (n : N) : keeps quiet (load_gov (K := K) n).
Proof. unfold load_gov, insert_node. quiet_auto. Qed.
#[local] Hint Resolve quiet_freq quiet_gov : keeps.

Lemma quiet_Config_Init : keeps quiet (SocPerfConfig_Init (K := K) (N := N)).
Proof.
  unfold SocPerfConfig_Init, LoadAllConfigXmlFile, LoadConfigXmlFile, ParseResourceXmlFile, LoadResource,
    LoadGovResource, CheckPairResIdValid, CheckDefValid. quiet_auto.
Qed.

Context (opens : string -> bool) (opens_spec : forall path (k : K), can_open (N := N) path k = opens path).

(** C32: The plugin starts on the table that the configuration gave, read with success or not.
    When the rows of its governors are complete and a node can be opened always or never, the
    start writes the default of every resource and each request the value it names, or the
    default for -1, in any history of requests that name known resources, or unknown ones with
    -1 only: exactly these texts, in order, to the nodes that can be opened, and nothing for a
    resource that is reported elsewhere. A value for a resource that is not in the table
    follows a null pointer (socperf_executor_wirte_node.cpp:110), which the last part states.
    *)
Theorem nodes_get_what_is_asked (k : K) b s1 (rs : list (list Z * list Z)) :
  SocPerfConfig_Init (N := N) (new_SocExe k) = Some (b, s1) ->
  let T := known (resourceNodeInfo_ s1) in
  map_Forall (fun _ n => complete n) T -> Forall (fun r => Forall (request_ok T) (zip r.1 r.2)) rs ->
  exists s', (InitThreadWraps (N := N);; st_iter (fun r => WriteNodeThreadWraps (N := N) r.1 r.2) rs) (new_SocExe k)
      = Some (tt, s')
    /\ se_trace s' = calls opens s' (start_writes T (nd_walk (K := K) (N := N) (dom (resourceNodeInfo_ s1)))
         ++ concat ((fun r => concat (request_writes T <$> zip r.1 r.2)) <$> rs))
    /\ (forall path fd, fdInfo_ s' !! path = Some fd -> 0 <= fd /\ opens path = true)
    /\ (forall id value, T !! id = None -> value <> NODE_DEFAULT_VALUE ->
          UpdateResIdCurrentValue (N := N) id value s' = None).
Proof.
  intros E T Hc Hr.
  assert (Hq : quiet s1) by (eapply keeps_run; [apply quiet_Config_Init| |exact E]; done).
  assert (Hf : all_filed (resourceNodeInfo_ s1)).
  { assert (H0 : table (K := K) sound (new_SocExe k))
      by (split_and!; [apply map_Forall_empty|intros id n Hn; cbn in Hn; by rewrite lookup_empty in Hn..]).
    pose proof (runs_Config_Init walk_all _ H0) as H. rewrite E in H. destruct b; [apply H|exact H]. }
  assert (HT : map_Forall (fun id n => rn_id n = id /\ complete n) T).
  { intros id n Hn. split; [|by apply (Hc id)]. subst T. rewrite <- known_lookup in Hn.
    destruct (resourceNodeInfo_ s1 !! id) as [o|] eqn:Eo; [|done]. destruct (Hf id o Eo) as (n' & -> & Hid & _).
    by injection Hn as <-. }
  assert (Hw : writing opens T s1).
  { split; [intros id; apply known_lookup|]. destruct Hq as [-> _]. intros path fd Hfd. by rewrite lookup_empty in Hfd. }
  destruct (does_seq opens T _ _ _ _ (does_start opens opens_spec T HT (resourceNodeInfo_ s1) (known_lookup _))
    (does_requests opens opens_spec T HT rs Hr) s1 Hw) as (s' & E' & Hw' & Ht).
  exists s'. split_and!.
  - rewrite <- E'. unfold InitThreadWraps, get_nodes. unfold mbind, ST_bind. rewrite E. done.
  - rewrite (wt_trace _ _ _ _ Ht). by destruct Hq as [_ ->].
  - apply Hw'.
  - intros id value. by apply (unknown_undefined opens T).
Qed.
End from_files.

(** ** Examples *)

#[export] Instance complete_dec n : Decision (complete n).
Proof. unfold complete. destruct (rn_kind n); apply _. Defined.
#[export] Instance request_ok_dec T r : Decision (request_ok T r).
Proof. unfold request_ok. apply _. Defined.

(** A tree for a file. *)
#[local] Set Warnings "-register-all".
Inductive xml_tree : Type :=
  | Element (name : string) (attrs : list (string * string)) (content : string) (children : list xml_tree).
#[local] Instance tree_xml : Xml xml_tree := {|
  xml_read _ := None;
  xml_name n := match n with Element name _ _ _ => Some name end;
  xml_is_comment _ := false;
  xml_children n := match n with Element _ _ _ l => l end;
  xml_attrs n := match n with Element _ attrs _ _ => Some <$> attrs.*1 end;
  xml_prop k n := match n with Element _ attrs _ _ => assoc k attrs end;
  xml_content n := match n with Element _ _ text _ => Some text end;
|}.

Definition demo_resources : xml_tree :=
  let leaf name text := Element name [] text [] in
  Element "Configs" [] "" [
    Element "Resource" [] "" [
      Element "res" [("id", "1000"); ("name", "cpu")] ""
        [leaf "default" "5"; leaf "path" "/dev/cpu"; leaf "node" "5 7"];
      Element "res" [("id", "1001"); ("name", "gpu"); ("pair", "1000")] ""
        [leaf "default" "1"; leaf "path" "/missing"]];
    Element "GovResource" [] "" [
      Element "res" [("id", "1002"); ("name", "gov")] ""
        [leaf "path" "/dev/a"; leaf "path" "/dev/b"; leaf "default" "0";
         Element "node" [("level", "0")] "slow|low" []; Element "node" [("level", "1")] "fast|high" []]]].

Definition demo_opens (path : string) : bool :=
  negb (String.eqb path "" || (Z.of_nat (String.length path) >? 4096)) && negb (String.eqb path "/missing").

(** Descriptors are given out in turn, from 0 on. *)
#[local] Instance demo_nodes : NodeHost nat xml_tree := {|
  nd_GetCfgFiles _ _ := Some [Some "/system/etc/soc_perf/socperf_resource_config.xml"];
  nd_GetOneCfgFile _ _ := None;
  nd_xmlReadFile _ _ := Some (Some demo_resources);
  nd_realpath path _ := Some path;
  nd_open path k := if String.eqb path "/missing" then (-1, k) else (Z.of_nat k, S k);
  nd_walk X := elements X;
  nd_walk_files m := snd <$> map_to_list m;
|}.

Lemma demo_opens_spec path (k : nat) : can_open (N := xml_tree) path k = demo_opens path.
Proof.
  unfold can_open, demo_opens. destruct (_ || _); [done|]. cbn.
  destruct (String.eqb path "/missing"); [done|]. cbn. apply Z.leb_le. lia.
Qed.

Lemma demo_walk_all (X : gset Z) : nd_walk (K := nat) (N := xml_tree) X ≡ₚ elements X.
Proof. done. Qed.

Definition demo_read : SocExe nat :=
  default (new_SocExe 3%nat) (snd <$> SocPerfConfig_Init (N := xml_tree) (new_SocExe 3%nat)).

Lemma loaded_table_is_sound_witness :
  exists b s, SocPerfConfig_Init (N := xml_tree) (new_SocExe 3%nat) = Some (b, s)
    /\ b = true /\ sound (resourceNodeInfo_ s).
Proof.
  destruct (loaded_table_is_sound demo_walk_all 3%nat) as (b & s & E & _ & Hs).
  exists b, s. assert (Hb : b = true) by (vm_compute in E; congruence). split_and!; [exact E|exact Hb|by apply Hs].
Defined.

Lemma nodes_get_what_is_asked_witness :
  exists s', (InitThreadWraps (N := xml_tree);;
      st_iter (fun r => WriteNodeThreadWraps (N := xml_tree) r.1 r.2) [([1000; 1002], [7; 1]); ([1000; 9; 1001], [-1; -1; 4])])
      (new_SocExe 3%nat) = Some (tt, s')
    /\ se_trace s' = calls demo_opens s'
         ([("/missing", "1"); ("/dev/a", "slow"); ("/dev/b", "low"); ("/dev/cpu", "5")]
          ++ [("/dev/cpu", "7"); ("/dev/a", "fast"); ("/dev/b", "high"); ("/dev/cpu", "5"); ("/missing", "4")])
    /\ se_trace s' = [NWrite 3 "slow"; NWrite 4 "low"; NWrite 5 "5"; NWrite 5 "7"; NWrite 3 "fast"; NWrite 4 "high"; NWrite 5 "5"].
Proof.
  assert (E : SocPerfConfig_Init (N := xml_tree) (new_SocExe 3%nat) = Some (true, demo_read)) by (vm_compute; reflexivity).
  destruct (nodes_get_what_is_asked demo_walk_all demo_opens demo_opens_spec 3%nat true demo_read
    [([1000; 1002], [7; 1]); ([1000; 9; 1001], [-1; -1; 4])] E) as (s' & E' & Ht & Ho & _).
  - apply (bool_decide_unpack _). vm_compute. exact I.
  - apply (bool_decide_unpack _). vm_compute. exact I.
  - exists s'. split; [exact E'|]. split.
    + rewrite Ht. apply f_equal. vm_compute. reflexivity.
    + vm_compute in E'. injection E' as <-. reflexivity.
Defined.
