(* ===== verification/FrameAware.v ===== *)
(** * Frame aware plugin

    [frame_aware_plugin.cpp] hands events to the frame service of another repository and, for
    the requests of a low network latency, to [network_latency_controller.cpp], which holds a
    device file open while some client wants it; each request ends by itself after a minute.
    Tasks of the queue are data; a queue that is replaced drops its tasks. *)
From S2P Require Import Prelude Json ResType PluginConfig PluginMgr SignatureValidator SocPerf CommonUtil.

Definition LIB_NAME : string := "libframe_aware_plugin.z.so". (* frame_aware_plugin.cpp:33 *)
Definition NETWORK_LATENCY_REQUEST_LOW : Z := 0. (* network_latency_controller.h:37 *)
Definition NETWORK_LATENCY_REQUEST_NORMAL : Z := 1. (* network_latency_controller.h:38 *)
Definition PMQOS_LOW_LATENCY_VALUE : Z := 0. (* pmqos_network_latency_switcher.h:75 *)
Definition RES_TYPE_USER_INTERACTION_SCENE : Z := 101. (* res_type.h:233 *)

(** The flag of the build for the frame service, the width of [long], and the conversion to
    the state type of that service. *)
Class FrameBuild := {
  FRAME_AWARE_SCHED : bool;
  frame_long_bits : Z;
  ThreadState : Z -> Z;
}.

(** The device file of the kernel: whether it may be written, [open] and [write]. *)
Class LatencyHost (K : Type) := {
  lh_access : K -> bool;
  lh_open : K -> Z * K;
  lh_write : Z -> Z -> K -> Z * K;
}.

(** Calls of the frame service and of the kernel. *)
Inductive FrameCall :=
  | FInit
  | FStop
  | FReportAppInfo (pid uid : Z) (bundleName : string) (state : Z)
  | FReportProcessInfo (pid uid hostPid : Z) (bundleName : string) (state : Z)
  | FReportContinuousTask (pid uid value : Z)
  | FReportCgroupChange (pid uid oldGroup newGroup : Z)
  | FReportWindowFocus (pid uid value displayId : Z)
  | FReportRenderThread (pid uid value : Z)
  | FReportSlideEvent (pid uid value : Z)
  | FReportInteractionScene (value : Z)
  | LWrite (fd value : Z)
  | LClose (fd : Z).

(** The two switchers of the network latency. *)
Inductive Switcher := Pmqos | Noop.

(** network_latency_controller.h:47-53 [taskHandlerMap_] the members of the controller, the
    descriptor of its switcher, and those of the plugin; [errno_ERANGE] says whether [errno]
    has that value *)
Record FrameAware (K : Type) := mkFrameAware {
  fa_resTypes : gset Z;
  fa_functionMap : gset Z;
  switcher : option Switcher;
  pmqosFd : option Z;
  nl_requests : gset string;
  ffrtQueue_ : option (gmap Z string);
  taskHandlerMap_ : gmap string Z;
  next_task : Z;
  errno_ERANGE : bool;
  fa_host : K;
  fa_trace : list FrameCall;
}.
Arguments mkFrameAware {_}.
Arguments fa_resTypes {_}.
Arguments fa_functionMap {_}.
Arguments switcher {_}.
Arguments pmqosFd {_}.
Arguments nl_requests {_}.
Arguments ffrtQueue_ {_}.
Arguments taskHandlerMap_ {_}.
Arguments next_task {_}.
Arguments errno_ERANGE {_}.
Arguments fa_host {_}.
Arguments fa_trace {_}.
#[export] Instance FrameAware_eta K : Eta (FrameAware K) := fun s =>
  mkFrameAware (fa_resTypes s) (fa_functionMap s) (switcher s) (pmqosFd s) (nl_requests s) (ffrtQueue_ s)
    (taskHandlerMap_ s) (next_task s) (errno_ERANGE s) (fa_host s) (fa_trace s).

Definition new_FrameAware {K} (k : K) : FrameAware K := mkFrameAware ∅ ∅ None None ∅ None ∅ 0 false k [].

(** ** Network latency *)

Section latency.
Context {K : Type} `{!LatencyHost K}.
#[local] Abbreviation M := (ST (FrameAware K)).

Definition f_record (c : FrameCall) : M unit := st_modify (fun s => s <| fa_trace ::= fun l => l ++ [c] |>).

(** A descriptor that is given up is closed. *)
Definition close_fd (fd : option Z) : M unit :=
  match fd with Some fd => f_record (LClose fd) | None => mret tt end.

(** pmqos_network_latency_switcher.h:41-62 [LowLatencyOn] *)
Definition LowLatencyOn : M unit :=
  s ← st_get;
  ret_if bool_decide (is_Some (pmqosFd s));
  let '(fd, k) := lh_open (fa_host s) in
  st_modify (fun s => s <| fa_host := k |>);;
  ret_if fd =? -1;
  f_record (LWrite fd PMQOS_LOW_LATENCY_VALUE);;
  let '(ret, k) := lh_write fd PMQOS_LOW_LATENCY_VALUE k in
  st_modify (fun s => s <| fa_host := k |>);;
  if ret =? -1 then f_record (LClose fd) else st_modify (fun s => s <| pmqosFd := Some fd |>).

(** pmqos_network_latency_switcher.h:64-73 [LowLatencyOff] *)
Definition LowLatencyOff : M unit :=
  s ← st_get;
  ret_if bool_decide (pmqosFd s = None);
  close_fd (pmqosFd s);;
  st_modify (fun s => s <| pmqosFd := None |>).

(** The call of the switcher through its pointer. *)
Definition with_switcher (m : M unit) : M unit :=
  s ← st_get;
  sw ← st_some (switcher s);
  match sw with Pmqos => m | Noop => mret tt end.

(** network_latency_controller.cpp:62-75 [NetworkLatencyController::Init] of a switcher; the
    old one is destroyed *)
Definition NetLat_Init_with (sw : Switcher) : M unit :=
  st_modify (fun s => s <| ffrtQueue_ := Some ∅ |>);;
  s ← st_get;
  close_fd (pmqosFd s);;
  st_modify (fun s => s <| switcher := Some sw |> <| pmqosFd := None |>).

(** network_latency_controller.cpp:46-60 [NetworkLatencyController::Init] *)
Definition NetLat_Init : M unit :=
  s ← st_get;
  NetLat_Init_with (if lh_access (fa_host s) then Pmqos else Noop).

(** network_latency_controller.cpp:145-156 [NetworkLatencyController::AddRequest] *)
Definition AddRequest (identity : string) : M unit :=
  s ← st_get;
  let wasEmpty := bool_decide (nl_requests s = ∅) in
  st_modify (fun s => s <| nl_requests ::= union {[ identity ]} |>);;
  st_when wasEmpty (with_switcher LowLatencyOn).

(** network_latency_controller.cpp:158-169 [NetworkLatencyController::DelRequest] *)
Definition DelRequest (identity : string) : M unit :=
  s ← st_get;
  let wasEmpty := bool_decide (nl_requests s = ∅) in
  st_modify (fun s => s <| nl_requests ::= fun r => r ∖ {[ identity ]} |>);;
  s ← st_get;
  st_when (negb wasEmpty && bool_decide (nl_requests s = ∅)) (with_switcher LowLatencyOff).

(** network_latency_controller.cpp:171-175 [NetworkLatencyController::AutoDisableTask] *)
Definition AutoDisableTask (identity : string) : M unit := DelRequest identity.

(** The loop that cancels the task of an identity. *)
Definition cancel_task (identity : string) : M unit :=
  s ← st_get;
  h <-? taskHandlerMap_ s !! identity;
  st_modify (fun s => s <| ffrtQueue_ ::= fmap (delete h) |> <| taskHandlerMap_ ::= delete identity |>).

(** network_latency_controller.cpp:97-125 [NetworkLatencyController::HandleAddRequest] *)
Definition HandleAddRequest (identity : string) : M unit :=
  cancel_task identity;;
  AddRequest identity;;
  st_modify (fun s => s <| taskHandlerMap_ ::= <[identity := next_task s]> |>
    <| ffrtQueue_ ::= fmap <[next_task s := identity]> |> <| next_task ::= Z.succ |>).

(** network_latency_controller.cpp:127-143 [NetworkLatencyController::HandleDelRequest] *)
Definition HandleDelRequest (identity : string) : M unit := cancel_task identity;; DelRequest identity.

(** network_latency_controller.cpp:77-95 [NetworkLatencyController::HandleRequest] *)
Definition HandleRequest (value : Z) (identity : string) : M unit :=
  s ← st_get;
  ret_if bool_decide (switcher s = None) || bool_decide (ffrtQueue_ s = None);
  if value =? NETWORK_LATENCY_REQUEST_LOW then HandleAddRequest identity
  else if value =? NETWORK_LATENCY_REQUEST_NORMAL then HandleDelRequest identity
  else mret tt.

(** The delayed task of a number comes due; nothing when it was cancelled or has run. *)
Definition task_due (h : Z) : M unit :=
  s ← st_get;
  identity <-? ffrtQueue_ s ≫= lookup h;
  st_modify (fun s => s <| ffrtQueue_ ::= fmap (delete h) |>);;
  AutoDisableTask identity.
End latency.

(** ** The handlers *)

Section handlers.
Context {J K : Type} `{!Json J} `{!LatencyHost K} `{!FrameBuild}.
#[local] Abbreviation M := (ST (FrameAware K)).

(** frame_aware_plugin.cpp:311-322 [FrameAwarePlugin::ConvertToInteger] of a field that holds a
    text; [errno] is tested as it was left by whoever set it last *)
Definition ConvertToInteger (text : string) : M Z :=
  let r := strtol frame_long_bits (c_str text) in
  match r with
  | Some (_, true, _) => st_modify (fun s => s <| errno_ERANGE := true |>)
  | _ => mret tt
  end;;
  s ← st_get;
  mret (match r with
        | None => -1
        | Some (v, _, rest) =>
            let result := to_s32 v in
            if (result <? 0) || errno_ERANGE s || negb (String.eqb rest "") then -1 else result
        end).

(** The fields [pid] and [uid] of a payload, both text. *)
Definition pid_uid (payload : J) : option (string * string) :=
  pid ← find_string "pid" payload; uid ← find_string "uid" payload; Some (pid, uid).

(** frame_aware_plugin.cpp:103-121 [FrameAwarePlugin::HandleAppStateChange] *)
Definition HandleAppStateChange (data : ResData J) : M unit :=
  ret_if negb (json_is_object (rd_payload data));
  ids <-? pid_uid (rd_payload data);
  bundleName <-? find_string "bundleName" (rd_payload data);
  pid ← ConvertToInteger ids.1;
  uid ← ConvertToInteger ids.2;
  f_record (FReportAppInfo pid uid (c_str bundleName) (ThreadState (rd_value data))).

(** frame_aware_plugin.cpp:123-143 [FrameAwarePlugin::HandleProcessStateChange] *)
Definition HandleProcessStateChange (data : ResData J) : M unit :=
  ret_if negb (json_is_object (rd_payload data));
  ids <-? pid_uid (rd_payload data);
  host <-? find_string "hostPid" (rd_payload data);
  bundleName <-? find_string "bundleName" (rd_payload data);
  pid ← ConvertToInteger ids.1;
  uid ← ConvertToInteger ids.2;
  hostPid ← ConvertToInteger host;
  f_record (FReportProcessInfo pid uid hostPid (c_str bundleName) (ThreadState (rd_value data))).

(** frame_aware_plugin.cpp:145-159 [FrameAwarePlugin::HandleContinuousTask] *)
Definition HandleContinuousTask (data : ResData J) : M unit :=
  ret_if negb (json_is_object (rd_payload data));
  ids <-? pid_uid (rd_payload data);
  pid ← ConvertToInteger ids.1;
  uid ← ConvertToInteger ids.2;
  f_record (FReportContinuousTask pid uid (rd_value data)).

(** frame_aware_plugin.cpp:161-185 [FrameAwarePlugin::HandleCgroupAdjuster] *)
Definition HandleCgroupAdjuster (data : ResData J) : M unit :=
  ret_if negb (json_is_object (rd_payload data));
  ids <-? pid_uid (rd_payload data);
  old <-? find_string "oldGroup" (rd_payload data);
  new <-? find_string "newGroup" (rd_payload data);
  pid ← ConvertToInteger ids.1;
  uid ← ConvertToInteger ids.2;
  oldGroup ← ConvertToInteger old;
  newGroup ← ConvertToInteger new;
  st_when (rd_value data =? 0) (f_record (FReportCgroupChange pid uid oldGroup newGroup)).

(** frame_aware_plugin.cpp:187-207 [FrameAwarePlugin::HandleWindowsFocus] *)
Definition HandleWindowsFocus (data : ResData J) : M unit :=
  ret_if negb (json_is_object (rd_payload data));
  ids <-? pid_uid (rd_payload data);
  displayId ← match find_string "displayId" (rd_payload data) with Some t => ConvertToInteger t | None => mret 0 end;
  pid ← ConvertToInteger ids.1;
  uid ← ConvertToInteger ids.2;
  f_record (FReportWindowFocus pid uid (rd_value data) displayId).

(** frame_aware_plugin.cpp:209-224 [FrameAwarePlugin::HandleReportRender] *)
Definition HandleReportRender (data : ResData J) : M unit :=
  ret_if negb (json_is_object (rd_payload data));
  ids <-? pid_uid (rd_payload data);
  pid ← ConvertToInteger ids.1;
  uid ← ConvertToInteger ids.2;
  f_record (FReportRenderThread pid uid (rd_value data)).

(** frame_aware_plugin.cpp:227-250 [FrameAwarePlugin::HandleNetworkLatencyRequest] *)
Definition HandleNetworkLatencyRequest (data : ResData J) : M unit :=
  ret_if negb (json_is_object (rd_payload data));
  pid <-? find_string "clientPid" (rd_payload data);
  identity <-? find_string "identity" (rd_payload data);
  HandleRequest (rd_value data) (pid +:+ ":" +:+ identity).

(** frame_aware_plugin.cpp:253-268 [FrameAwarePlugin::HandleEventSlide] *)
Definition HandleEventSlide (data : ResData J) : M unit :=
  ret_if negb (json_is_object (rd_payload data));
  clientPid <-? find_string "clientPid" (rd_payload data);
  callingUid <-? find_string "callingUid" (rd_payload data);
  pid ← ConvertToInteger clientPid;
  uid ← ConvertToInteger callingUid;
  f_record (FReportSlideEvent pid uid (rd_value data)).

(** frame_aware_plugin.cpp:271-279 [FrameAwarePlugin::HandleScreenLock] writes to the log only *)
Definition HandleScreenLock (data : ResData J) : M unit := mret tt.

(** frame_aware_plugin.cpp:281-289 [FrameAwarePlugin::HandleScreenStatus] writes to the log only *)
Definition HandleScreenStatus (data : ResData J) : M unit := mret tt.

(** frame_aware_plugin.cpp:292-295 [FrameAwarePlugin::HandleInteractionScene] *)
Definition HandleInteractionScene (data : ResData J) : M unit := f_record (FReportInteractionScene (rd_value data)).

(** frame_aware_plugin.cpp:41-66 [FrameAwarePlugin::Init] the function map *)
Definition frame_handlers : list (Z * (ResData J -> M unit)) :=
  (if FRAME_AWARE_SCHED then
    [(RES_TYPE_APP_STATE_CHANGE, HandleAppStateChange);
     (RES_TYPE_PROCESS_STATE_CHANGE, HandleProcessStateChange);
     (RES_TYPE_CONTINUOUS_TASK, HandleContinuousTask);
     (RES_TYPE_CGROUP_ADJUSTER, HandleCgroupAdjuster);
     (RES_TYPE_WINDOW_FOCUS, HandleWindowsFocus);
     (RES_TYPE_REPORT_RENDER_THREAD, HandleReportRender);
     (RES_TYPE_SLIDE_RECOGNIZE, HandleEventSlide);
     (RES_TYPE_SCREEN_LOCK, HandleScreenLock);
     (RES_TYPE_SCREEN_STATUS, HandleScreenStatus);
     (RES_TYPE_USER_INTERACTION_SCENE, HandleInteractionScene)] else [])
  ++ [(RES_TYPE_NETWORK_LATENCY_REQUEST, HandleNetworkLatencyRequest)].

(** frame_aware_plugin.cpp:67-79 [FrameAwarePlugin::Init] the types *)
Definition frame_types : list Z :=
  [RES_TYPE_APP_STATE_CHANGE; RES_TYPE_PROCESS_STATE_CHANGE; RES_TYPE_CONTINUOUS_TASK; RES_TYPE_CGROUP_ADJUSTER;
   RES_TYPE_WINDOW_FOCUS; RES_TYPE_REPORT_RENDER_THREAD; RES_TYPE_NETWORK_LATENCY_REQUEST; RES_TYPE_SLIDE_RECOGNIZE;
   RES_TYPE_SCREEN_LOCK; RES_TYPE_SCREEN_STATUS; RES_TYPE_USER_INTERACTION_SCENE].

(** frame_aware_plugin.cpp:298-309 [FrameAwarePlugin::DispatchResource] the function map holds the
    handlers of the types that it lists *)
Definition Frame_DispatchResource (data : ResData J) : M unit :=
  s ← st_get;
  ret_if bool_decide (rd_resType data ∉ fa_functionMap s);
  match list_find (fun h => h.1 = rd_resType data) frame_handlers with
  | Some (_, h) => h.2 data
  | None => mret tt
  end.

(** ** The plugin *)

#[local] Abbreviation PM := (ST (PluginMgr J (FrameAware K))).

Definition in_frame {A} (m : M A) : PM A := fun p =>
  match m (host p) with
  | Some (a, s) => Some (a, p <| host := s |>)
  | None => None
  end.

(** frame_aware_plugin.cpp:38-87 [FrameAwarePlugin::Init] *)
Definition Frame_Init : PM unit :=
  in_frame NetLat_Init;;
  in_frame (st_modify (fun s => s <| fa_functionMap := list_to_set frame_handlers.*1 |>
    <| fa_resTypes := list_to_set frame_types |>));;
  p ← st_get;
  st_iter (fun resType => SubscribeResource LIB_NAME resType) (set_in_order (fa_resTypes (host p)));;
  st_when FRAME_AWARE_SCHED (in_frame (f_record FInit)).

(** frame_aware_plugin.cpp:89-100 [FrameAwarePlugin::Disable] *)
Definition Frame_Disable : PM unit :=
  p ← st_get;
  st_iter (fun resType => UnSubscribeResource LIB_NAME resType) (set_in_order (fa_resTypes (host p)));;
  st_when FRAME_AWARE_SCHED (in_frame (f_record FStop));;
  in_frame (st_modify (fun s => s <| fa_functionMap := ∅ |> <| fa_resTypes := ∅ |>)).

(** frame_aware_plugin.cpp:324-333 [OnPluginInit] *)
Definition Frame_OnPluginInit (libName : string) : PM bool :=
  if negb (String.eqb libName LIB_NAME) then mret false else Frame_Init;; mret true.

(** frame_aware_plugin.cpp:335-339 [OnPluginDisable] *)
Definition Frame_OnPluginDisable : PM unit := Frame_Disable.

(** frame_aware_plugin.cpp:341-344 [OnDispatchResource] a null event is dereferenced *)
Definition Frame_OnDispatchResource (data : option (ResData J)) : PM unit :=
  data ← st_some data;
  in_frame (Frame_DispatchResource data).
End handlers.

(** ** Facts about the network latency

    The controller against an abstract table of the clients that want a low latency, each
    with its one timer: over any history of requests and timers the device file is held open
    exactly while the table is not empty, and every request ends. *)
(** What happens to the controller. *)
Inductive NetEvent :=
  | NeRequest (value : Z) (identity : string)
  | NeDue (task : Z).

(** The abstract controller: who wants a low latency, with the number of the timer, and the
    next number. *)
Definition Wanted : Type := gmap string Z * Z.

Definition spec_step (e : NetEvent) (a : Wanted) : Wanted :=
  match e with
  | NeRequest value identity =>
      if value =? NETWORK_LATENCY_REQUEST_LOW then (<[identity := a.2]> a.1, a.2 + 1)
      else if value =? NETWORK_LATENCY_REQUEST_NORMAL then (delete identity a.1, a.2) else a
  | NeDue h => (filter (fun p => p.2 <> h) a.1, a.2)
  end.
Definition spec_run (es : list NetEvent) (a : Wanted) : Wanted := foldl (fun a e => spec_step e a) a es.

Section latency_facts.
Context {K : Type} `{!LatencyHost K}.
#[local] Abbreviation M := (ST (FrameAware K)).

Definition net_step (e : NetEvent) : M unit :=
  match e with
  | NeRequest value identity => HandleRequest value identity
  | NeDue h => task_due h
  end.

(** The device can be opened and written at any time. *)
Definition device_works : Prop := forall k,
  let '(fd, k1) := lh_open k in 0 <= fd /\ (lh_write fd PMQOS_LOW_LATENCY_VALUE k1).1 <> -1.

(** The queue and the handles are those of the abstract controller; handles of timers that ran
    may be left over. *)
Record timers (a : Wanted) (s : FrameAware K) : Prop := {
  ti_next : next_task s = a.2;
  ti_handles : forall i h, a.1 !! i = Some h -> taskHandlerMap_ s !! i = Some h;
  ti_old : forall i h, taskHandlerMap_ s !! i = Some h -> h < a.2;
  ti_inj : forall i j h, taskHandlerMap_ s !! i = Some h -> taskHandlerMap_ s !! j = Some h -> i = j;
  ti_queue : exists q, ffrtQueue_ s = Some q /\ forall h i, q !! h = Some i <-> a.1 !! i = Some h;
}.

Section of_switcher.
Context (sw : Switcher).

(** The device file is only held open for somebody, and for anybody when it can be opened. *)
Definition fd_ok (s : FrameAware K) : Prop :=
  (is_Some (pmqosFd s) -> nl_requests s <> ∅)
  /\ (device_works -> sw = Pmqos -> nl_requests s <> ∅ -> is_Some (pmqosFd s))
  /\ (sw = Noop -> pmqosFd s = None).

(** The state shows the abstract controller. *)
Record shows (a : Wanted) (s : FrameAware K) : Prop := {
  sh_timers : timers a s;
  sh_requests : nl_requests s = dom a.1;
  sh_switcher : switcher s = Some sw;
  sh_fd : fd_ok s;
}.

(** The same but for the descriptor, which is as it was. *)
Definition with_fd (s : FrameAware K) (k : K) (fd : option Z) (l : list FrameCall) : FrameAware K :=
  s <| fa_host := k |> <| pmqosFd := fd |> <| fa_trace := l |>.
Lemma with_fd_same s : s = with_fd s (fa_host s) (pmqosFd s) (fa_trace s).
Proof. by destruct s. Qed.

Lemma run_LowLatencyOn s :
  pmqosFd s = None -> exists k fd l, LowLatencyOn s = Some (tt, with_fd s k fd l) /\ (device_works -> is_Some fd).
Proof.
  intros Hn. unfold LowLatencyOn. rewrite run_get_bind, Hn.
  rewrite bool_decide_false by (intros [? ?]; done).
  destruct (lh_open (fa_host s)) as [fd k1] eqn:Eo. unfold mbind, ST_bind, st_modify, f_record. cbn.
  destruct (Z.eqb_spec fd (-1)) as [->|Hfd].
  { exists k1, None, (fa_trace s). split; [destruct s; cbn in *; by subst|].
    intros Hd. specialize (Hd (fa_host s)). rewrite Eo in Hd. lia. }
  destruct (lh_write fd PMQOS_LOW_LATENCY_VALUE k1) as [r k2] eqn:Ew. cbn.
  destruct (Z.eqb_spec r (-1)) as [->|Hr].
  - eexists k2, None, _. split; [destruct s; cbn in *; by subst|].
    intros Hd. specialize (Hd (fa_host s)). rewrite Eo, Ew in Hd. by destruct Hd.
  - eexists k2, (Some fd), _. split; [reflexivity|]. by eexists.
Qed.

Lemma run_LowLatencyOff s : exists l, LowLatencyOff s = Some (tt, with_fd s (fa_host s) None l).
Proof.
  unfold LowLatencyOff. rewrite run_get_bind. case_bool_decide as Hn.
  - exists (fa_trace s). by rewrite (with_fd_same s), Hn at 1.
  - destruct (pmqosFd s) as [fd|] eqn:E; [|done]. by exists (fa_trace s ++ [LClose fd]).
Qed.

Lemma run_switcher (m : M unit) s :
  switcher s = Some sw -> with_switcher m s = match sw with Pmqos => m s | Noop => Some (tt, s) end.
Proof. intros Hsw. unfold with_switcher. rewrite run_get_bind, Hsw. by destruct sw. Qed.

Lemma run_AddRequest i s :
  switcher s = Some sw -> fd_ok s -> exists k fd l,
    AddRequest i s = Some (tt, with_fd (s <| nl_requests ::= union {[ i ]} |>) k fd l)
    /\ (device_works -> sw = Pmqos -> is_Some fd) /\ (sw = Noop -> fd = None).
Proof.
  intros Hsw (Hfd & Hon & Hoff). unfold AddRequest. rewrite run_get_bind. cbv zeta. erewrite run_bind by reflexivity.
  set (s1 := s <| nl_requests ::= union {[ i ]} |>).
  case_bool_decide as He; cbn [st_when].
  - rewrite run_switcher by done.
    assert (Hno : pmqosFd s = None) by (destruct (pmqosFd s) eqn:E; [|done]; exfalso; by apply Hfd; [eexists|]).
    destruct (run_LowLatencyOn s1 Hno) as (k & fd & l & E & Hd). destruct sw.
    + exists k, fd, l. split_and!; [exact E|auto|done].
    + exists (fa_host s1), (pmqosFd s1), (fa_trace s1). rewrite <- with_fd_same. split_and!; [done|done|auto].
  - exists (fa_host s1), (pmqosFd s1), (fa_trace s1). split; [by rewrite <- with_fd_same|].
    split; [intros Hd Hp; exact (Hon Hd Hp He)|exact Hoff].
Qed.

Lemma run_DelRequest i s :
  switcher s = Some sw -> fd_ok s -> exists fd l,
    let s' := with_fd (s <| nl_requests ::= fun r => r ∖ {[ i ]} |>) (fa_host s) fd l in
    DelRequest i s = Some (tt, s') /\ fd_ok s'.
Proof.
  intros Hsw (Hfd & Hon & Hoff). unfold DelRequest. rewrite run_get_bind. cbv zeta. erewrite run_bind by reflexivity.
  rewrite run_get_bind. set (s1 := s <| nl_requests ::= _ |>).
  change (nl_requests s1) with (nl_requests s ∖ {[ i ]}).
  destruct (bool_decide (nl_requests s = ∅)) eqn:Ee; cbn [negb andb st_when].
  - apply bool_decide_eq_true in Ee.
    exists (pmqosFd s1), (fa_trace s1). change (fa_host s) with (fa_host s1). rewrite <- with_fd_same.
    split; [done|]. split_and!; cbn; [intros Hs%Hfd; done| |exact Hoff]. intros _ _ Hne. set_solver.
  - apply bool_decide_eq_false in Ee. case_bool_decide as Hl; cbn [st_when].
    + rewrite run_switcher by done. destruct (run_LowLatencyOff s1) as [l E]. destruct sw eqn:Esw.
      * exists None, l. split; [exact E|]. split_and!; cbn; [by intros []|done|done].
      * exists (pmqosFd s1), (fa_trace s1). change (fa_host s) with (fa_host s1). rewrite <- with_fd_same.
        split; [done|]. split_and!; cbn; [rewrite Hoff by done; by intros []|done|auto].
    + exists (pmqosFd s1), (fa_trace s1). change (fa_host s) with (fa_host s1). rewrite <- with_fd_same.
      split; [done|]. split_and!; cbn; [done| |exact Hoff]. intros Hd Hp _. by apply Hon.
Qed.

(** Cancelling forgets the client and its timer. *)
Definition without (i : string) (a : Wanted) : Wanted := (delete i a.1, a.2).

Lemma timers_with_fd a s k fd l : timers a s -> timers a (with_fd s k fd l).
Proof. intros [? ? ? ? ?]. by split. Qed.

Lemma timers_requests a s f : timers a s -> timers a (s <| nl_requests ::= f |>).
Proof. intros [? ? ? ? ?]. by split. Qed.

Lemma run_cancel i a s :
  timers a s -> exists s1, cancel_task i s = Some (tt, s1) /\ timers (without i a) s1
    /\ nl_requests s1 = nl_requests s /\ switcher s1 = switcher s /\ pmqosFd s1 = pmqosFd s.
Proof.
  intros Ht. unfold cancel_task. rewrite run_get_bind. destruct Ht as [Hn Hh Ho Hi (q & Hq & Hqa)].
  destruct (taskHandlerMap_ s !! i) as [h|] eqn:E.
  - eexists. split; [reflexivity|]. split; [|done]. split; cbn; [done|..].
    + intros j h' [Hne Hj]%lookup_delete_Some. rewrite lookup_delete_ne by done. by apply Hh.
    + intros j h' [_ Hj]%lookup_delete_Some. by eapply Ho.
    + intros j j' h' [_ Hj]%lookup_delete_Some [_ Hj']%lookup_delete_Some. by eapply Hi.
    + exists (delete h q). rewrite Hq. split; [done|]. intros h' j. rewrite !lookup_delete_Some, Hqa.
      split; (intros [Hne Hj]; split; [|done]).
      * intros <-. apply Hne. specialize (Hh _ _ Hj). congruence.
      * intros ->. apply Hne. by eapply Hi; [|apply Hh].
  - exists s. split; [done|]. split; [|done]. split; cbn; [done|..].
    + intros j h' [_ Hj]%lookup_delete_Some. by apply Hh.
    + done.
    + done.
    + exists q. split; [done|]. intros h' j. rewrite Hqa, lookup_delete_Some.
      split; [|by intros [_ ?]]. intros Hj. split; [|done]. intros <-. specialize (Hh _ _ Hj). congruence.
Qed.

Lemma run_low i a s :
  shows a s -> exists s', HandleAddRequest i s = Some (tt, s')
    /\ shows (<[i := a.2]> a.1, a.2 + 1) s'.
Proof.
  intros [Ht Hr Hsw Hfd]. destruct (run_cancel i a s Ht) as (s1 & E1 & [Hn Hh Ho Hi (q & Hq & Hqa)] & Hr1 & Hsw1 & Hfd1).
  unfold HandleAddRequest. rewrite (run_bind _ _ _ _ _ E1).
  destruct (run_AddRequest i s1) as (k & fd & l & E2 & Hon & Hoff); [congruence|unfold fd_ok; by rewrite Hfd1, Hr1|].
  rewrite (run_bind _ _ _ _ _ E2). eexists. split; [reflexivity|]. cbn in Hn, Hh, Ho, Hqa.
  split; cbn; [split; cbn| |congruence|].
  - rewrite Hn. lia.
  - intros j h [[<- <-]|[Hne Hj]]%lookup_insert_Some; [by rewrite lookup_insert_eq, Hn|].
    rewrite lookup_insert_ne by done. apply Hh. by rewrite lookup_delete_ne.
  - intros j h [[<- <-]|[Hne Hj]]%lookup_insert_Some; [lia|]. specialize (Ho _ _ Hj). lia.
  - intros j j' h [[<- <-]|[Hne Hj]]%lookup_insert_Some [[<- Hh']|[Hne' Hj']]%lookup_insert_Some; [done| | |by eapply Hi].
    + specialize (Ho _ _ Hj'). lia.
    + subst. specialize (Ho _ _ Hj). lia.
  - exists (<[next_task s1 := i]> q). rewrite Hq. split; [done|]. intros h j.
    rewrite !lookup_insert_Some, Hqa, Hn, lookup_delete_Some. split.
    + intros [[<- <-]|[Hne [Hij Hj]]]; [by left|by right].
    + intros [[<- <-]|[Hij Hj]]; [by left|right]. split; [|done]. intros <-.
      assert (Hj' : delete i a.1 !! j = Some a.2) by (by rewrite lookup_delete_ne).
      apply Hh, Ho in Hj'. lia.
  - rewrite Hr1, Hr, dom_insert_L. done.
  - split_and!; cbn; [intros _; set_solver|by intros Hd Hp _; apply Hon|exact Hoff].
Qed.

Lemma run_remove i a s s1 :
  shows a s -> timers (without i a) s1 -> nl_requests s1 = nl_requests s -> switcher s1 = switcher s -> pmqosFd s1 = pmqosFd s ->
  exists s', DelRequest i s1 = Some (tt, s') /\ shows (without i a) s'.
Proof.
  intros [_ Hr Hsw Hfd] Ht Hr1 Hsw1 Hfd1.
  destruct (run_DelRequest i s1) as (fd & l & E & Hok); [congruence|unfold fd_ok; by rewrite Hfd1, Hr1|].
  eexists. split; [exact E|]. split; [by apply timers_with_fd, timers_requests| |cbn; congruence|exact Hok]. cbn.
  by rewrite Hr1, Hr, dom_delete_L.
Qed.

(** Removing the client of a timer, or nobody when the timer is not its last. *)
Lemma filter_timer (a : Wanted) (s : FrameAware K) h :
  timers a s ->
  filter (fun p : string * Z => p.2 <> h) a.1
  = match ffrtQueue_ s ≫= lookup h with Some i => delete i a.1 | None => a.1 end.
Proof.
  intros [_ Hh _ Hi (q & -> & Hqa)]. cbn. apply map_eq. intros j. destruct (q !! h) as [i|] eqn:Eq.
  - apply Hqa in Eq. destruct (decide (j = i)) as [->|Hne].
    + rewrite lookup_delete_eq. apply map_lookup_filter_None. right. intros x Hx. cbn. rewrite Eq in Hx. congruence.
    + rewrite lookup_delete_ne by done. destruct (a.1 !! j) as [x|] eqn:Ej.
      * apply map_lookup_filter_Some. split; [done|]. cbn. intros ->. apply Hne. eapply Hi; by apply Hh.
      * by apply map_lookup_filter_None; left.
  - destruct (a.1 !! j) as [x|] eqn:Ej; [|by apply map_lookup_filter_None; left].
    apply map_lookup_filter_Some. split; [done|]. cbn. intros ->. apply Hqa in Ej. congruence.
Qed.

Lemma run_step e a s :
  shows a s -> exists s', net_step e s = Some (tt, s') /\ shows (spec_step e a) s'.
Proof.
  intros Hs. pose proof Hs as [Ht Hr Hsw Hfd]. pose proof Ht as [Hn Hh Ho Hi (q & Hq & Hqa)].
  destruct e as [value i|h]; cbn [net_step spec_step].
  - unfold HandleRequest. rewrite run_get_bind, Hsw, Hq. cbn.
    destruct (value =? NETWORK_LATENCY_REQUEST_LOW); [by apply run_low|].
    destruct (value =? NETWORK_LATENCY_REQUEST_NORMAL); [|by exists s].
    destruct (run_cancel i a s Ht) as (s1 & E1 & Ht1 & Hr1 & Hsw1 & Hfd1). unfold HandleDelRequest.
    rewrite (run_bind _ _ _ _ _ E1). by apply (run_remove i a s s1).
  - unfold task_due. rewrite run_get_bind. pose proof (filter_timer a s h Ht) as Ef. rewrite Hq in Ef |- *. cbn in Ef |- *.
    rewrite Ef. destruct (q !! h) as [i|] eqn:Ei; [|exists s; by destruct a].
    erewrite run_bind by reflexivity. apply Hqa in Ei.
    apply (run_remove i a s); [done| |done|done|done]. split; cbn; [done| |done|done|].
    + intros j h' [_ Hj]%lookup_delete_Some. by apply Hh.
    + exists (delete h q). rewrite Hq. split; [done|]. intros h' j. rewrite !lookup_delete_Some, Hqa.
      split; (intros [Hne Hj]; split; [|done]).
      * intros <-. congruence.
      * intros <-. apply Hne. eapply Hi; by apply Hh.
Qed.

Lemma run_events es a s :
  shows a s -> exists s', st_iter net_step es s = Some (tt, s') /\ shows (spec_run es a) s'.
Proof.
  revert a s. induction es as [|e es IH]; intros a s Hs; [by exists s|].
  destruct (run_step e a s Hs) as (s1 & E1 & Hs1). destruct (IH _ _ Hs1) as (s' & E' & Hs').
  exists s'. split; [|exact Hs']. cbn [st_iter]. by rewrite (run_bind _ _ _ _ _ E1).
Qed.

Lemma run_NetLat_Init (k : K) :
  (if lh_access k then Pmqos else Noop) = sw ->
  exists s, NetLat_Init (new_FrameAware k) = Some (tt, s) /\ shows (∅, 0) s.
Proof.
  intros Ha. unfold NetLat_Init. rewrite run_get_bind. cbn [fa_host new_FrameAware]. rewrite Ha.
  eexists. split; [reflexivity|]. split; cbn; [split; cbn; [done|..]|by rewrite dom_empty_L|done|].
  - intros i h Hx. by rewrite lookup_empty in Hx.
  - intros i h Hx. by rewrite lookup_empty in Hx.
  - intros i j h Hx. by rewrite lookup_empty in Hx.
  - exists ∅. split; [done|]. intros h i. by rewrite !lookup_empty.
  - split_and!; [by intros []|done|done].
Qed.

End of_switcher.

(** When all timers have come due nobody is left. *)
Lemma all_due (m : gmap string Z) n (hs : list Z) :
  (forall i h, m !! i = Some h -> h ∈ hs) -> (spec_run (NeDue <$> hs) (m, n)).1 = ∅.
Proof.
  revert m. induction hs as [|h hs IH]; intros m Hm; cbn.
  - apply map_empty. intros i. destruct (m !! i) eqn:E; [|done]. by apply Hm, not_elem_of_nil in E.
  - apply IH. intros i x [Hx Hne]%map_lookup_filter_Some. apply Hm, elem_of_cons in Hx as [->|Hx]; [by cbn in Hne|done].
Qed.

(** C34: The latency follows the requests.  Over any history of requests and timers the
    controller keeps exactly the clients that asked for a low latency last and whose minute has
    not passed, and its queue holds exactly one timer for each of them.  The device file is held
    open only while there is a client; and it is, while there is one, when the file was found at
    the start and can always be opened and written.  Once the pending timers have come due
    nobody is left, no timer is pending and the file is closed. *)
Theorem latency_follows_requests (k : K) es :
  let wanted := (spec_run es (∅, 0)).1 in
  exists s', (NetLat_Init;; st_iter net_step es) (new_FrameAware k) = Some (tt, s')
    /\ nl_requests s' = dom wanted
    /\ (exists q, ffrtQueue_ s' = Some q /\ forall h i, q !! h = Some i <-> wanted !! i = Some h)
    /\ (is_Some (pmqosFd s') -> wanted <> ∅)
    /\ (device_works -> lh_access k = true -> wanted <> ∅ -> is_Some (pmqosFd s'))
    /\ exists s'', st_iter net_step (NeDue <$> (map_to_list wanted).*2) s' = Some (tt, s'')
         /\ nl_requests s'' = ∅ /\ ffrtQueue_ s'' = Some ∅ /\ pmqosFd s'' = None.
Proof.
  intros wanted. destruct (run_NetLat_Init _ k eq_refl) as (s0 & E0 & Hs0).
  destruct (run_events _ es _ _ Hs0) as (s' & E' & Hs'). exists s'.
  split; [by rewrite (run_bind _ _ _ _ _ E0)|]. pose proof Hs' as [Ht Hr _ (Hfd & Hon & _)]. split; [done|].
  split; [apply Ht|]. rewrite Hr, dom_empty_iff_L in Hfd. split; [exact Hfd|]. split.
  { intros Hd Ha Hw. apply Hon; [done|by rewrite Ha|]. rewrite Hr. by rewrite dom_empty_iff_L. }
  destruct (run_events _ (NeDue <$> (map_to_list wanted).*2) _ _ Hs')
    as (s'' & E'' & [[_ _ _ _ (q & Hq & Hqa)] Hr2 _ (Hfd2 & _)]).
  exists s''. split; [done|].
  assert (Hnone : (spec_run (NeDue <$> (map_to_list wanted).*2) (spec_run es (∅, 0))).1 = ∅).
  { destruct (spec_run es (∅, 0)) as [m n] eqn:Es. subst wanted. cbn [fst] in *.
    apply all_due. intros i h Hx. apply list_elem_of_fmap. exists (i, h).
    split; [done|]. by apply elem_of_map_to_list. }
  rewrite Hnone in *. rewrite dom_empty_L in Hr2. split; [done|]. split.
  - rewrite Hq. f_equal. apply map_eq. intros h. rewrite lookup_empty.
    destruct (q !! h) as [i|] eqn:Eh; [|done]. apply Hqa in Eh. by rewrite lookup_empty in Eh.
  - destruct (pmqosFd s''); [|done]. exfalso. by apply Hfd2; [eexists|].
Qed.
End latency_facts.

(** ** Examples *)

#[local] Instance demo_latency : LatencyHost nat := {|
  lh_access _ := true;
  lh_open k := (7, S k);
  lh_write _ _ k := (4, k);
|}.

(** Two clients; the first asks again, its old timer is gone, and the second one's comes due. *)
Definition demo_net : list NetEvent :=
  [NeRequest 0 "100:a"; NeRequest 0 "200:b"; NeRequest 0 "100:a"; NeDue 0; NeDue 1; NeRequest 5 "100:a"].

Lemma latency_follows_requests_witness :
  exists s', (NetLat_Init (K := nat);; st_iter net_step demo_net) (new_FrameAware 0%nat) = Some (tt, s')
    /\ nl_requests s' = {[ "100:a" ]} /\ fa_trace s' = [LWrite 7 0] /\ is_Some (pmqosFd s').
Proof.
  destruct (latency_follows_requests 0%nat demo_net) as (s' & E & Hr & _ & _ & Hon & _).
  exists s'. split; [exact E|]. split; [rewrite Hr; apply (bool_decide_unpack _); vm_compute; exact I|].
  split; [vm_compute in E; injection E as <-; reflexivity|]. apply Hon.
  - intros k. split; [apply Z.leb_le; reflexivity|discriminate].
  - reflexivity.
  - apply (bool_decide_unpack _). vm_compute. exact I.
Defined.
