(* ===== verification/DeviceStandby.v ===== *)
(** * Device standby plugin

    [device_standby_plugin.cpp] hands every event that it subscribes to on to the standby
    service of another repository. *)
From S2P Require Import Prelude Json ResType CommonUtil PluginConfig PluginMgr SignatureValidator SocPerf.

Definition LIB_NAME : string := "libdevice_standby_plugin.z.so". (* device_standby_plugin.cpp:29 *)

(** The flag of the build for clicks, and the client of the standby service, which gets an event as text. *)
Class StandbyHost (J K : Type) := {
  STANDBY_CLICK_RECOGNIZE : bool;
  st_dump : J -> string;
  st_HandleEvent : Z -> Z -> string -> K -> K;
}.

(** device_standby_plugin.h:29-39 [DeviceStandbyPlugin] the member *)
Record Plugin (K : Type) := mkPlugin { resTypes_ : gset Z; st_host : K }.
Arguments mkPlugin {_}.
Arguments resTypes_ {_}.
Arguments st_host {_}.
#[export] Instance Plugin_eta K : Eta (Plugin K) := fun s => mkPlugin (resTypes_ s) (st_host s).

Section standby.
Context {J K : Type} `{!StandbyHost J K}.
#[local] Abbreviation PM := (ST (PluginMgr J (Plugin K))).

Definition upd_plugin (f : Plugin K -> Plugin K) : PM unit := st_modify (fun p => p <| host ::= f |>).

(** device_standby_plugin.cpp:35-59 [DeviceStandbyPlugin::Init] the types *)
Definition standby_types : list Z :=
  [RES_TYPE_APP_INSTALL_UNINSTALL; RES_TYPE_SCREEN_STATUS; RES_TYPE_TIME_CHANGED; RES_TYPE_NITZ_TIME_CHANGED;
   RES_TYPE_TIMEZONE_CHANGED; RES_TYPE_NITZ_TIMEZONE_CHANGED; RES_TYPE_CHARGING_DISCHARGING; RES_TYPE_USB_DEVICE;
   RES_TYPE_CALL_STATE_CHANGED; RES_TYPE_WIFI_P2P_STATE_CHANGED; RES_TYPE_EFFICIENCY_RESOURCES_STATE_CHANGED;
   RES_TYPE_POWER_MODE_CHANGED]
  ++ (if STANDBY_CLICK_RECOGNIZE (J := J) (K := K) then [RES_TYPE_CLICK_RECOGNIZE] else [])
  ++ [RES_TYPE_MMI_INPUT_POWER_KEY; RES_TYPE_AUDIO_RENDERER_STANDBY; RES_TYPE_AUDIO_RENDERER_SILENT_PLAYBACK;
   RES_TYPE_BT_SERVICE_EVENT; RES_TYPE_REPORT_BOKER_GATT_CONNECT; RES_TYPE_BOOT_COMPLETED;
   RES_TYPE_THERMAL_SCENARIO_REPORT; RES_TYPE_WIFI_CONNECT_STATE_CHANGE; RES_TYPE_INNER_AUDIO_STATE;
   RES_TYPE_AUDIO_CAPTURE_STATUS_CHANGED].

(** device_standby_plugin.cpp:33-65 [DeviceStandbyPlugin::Init] *)
Definition Standby_Init : PM unit :=
  upd_plugin (fun s => s <| resTypes_ ::= union (list_to_set standby_types) |>);;
  p ← st_get;
  st_iter (fun resType => SubscribeResource LIB_NAME resType) (set_in_order (resTypes_ (host p))).

(** device_standby_plugin.cpp:67-74 [DeviceStandbyPlugin::Disable] *)
Definition Standby_Disable : PM unit :=
  p ← st_get;
  st_iter (fun resType => UnSubscribeResource LIB_NAME resType) (set_in_order (resTypes_ (host p)));;
  upd_plugin (fun s => s <| resTypes_ := ∅ |>).

(** device_standby_plugin.cpp:76-88 [DeviceStandbyPlugin::DispatchResource] *)
Definition Standby_DispatchResource (data : option (ResData J)) : PM unit :=
  data <-? data;
  upd_plugin (fun s => s <| st_host ::= st_HandleEvent (J := J) (rd_resType data) (rd_value data) (st_dump (K := K) (rd_payload data)) |>).

(** device_standby_plugin.cpp:90-99 [OnPluginInit] *)
Definition Standby_OnPluginInit (libName : string) : PM bool :=
  if negb (String.eqb libName LIB_NAME) then mret false else Standby_Init;; mret true.

(** device_standby_plugin.cpp:101-105 [OnPluginDisable] *)
Definition Standby_OnPluginDisable : PM unit := Standby_Disable.

(** device_standby_plugin.cpp:107-111 [OnDispatchResource] *)
Definition Standby_OnDispatchResource (data : option (ResData J)) : PM unit := Standby_DispatchResource data.
End standby.
