(* ===== verification/SuspendManager.v ===== *)
(** * Suspend manager base

    [services/suspend_manager_base] and its client library: processes register observers that
    are told when an application becomes active, dozes or is frozen, and ask for the state of
    an application.  An observer is its proxy with the remote object of the proxy; the system
    and the calls of the client by IPC are classes.  Allocation does not fail.  A result
    parameter that is left as it was is [None]. *)
From S2P Require Import Prelude Json ResType CommonUtil LruCache Ipc PluginConfig PluginMgr NotifierMgr EventListenerMgr ServiceWorld ResSchedMgr ResSchedService.

Definition GET_SUSPEND_STATE_PERMISSION : string := "ohos.permission.GET_SUSPEND_STATE". (* suspend_manager_base_service.cpp:27 *)
Definition ACTIVE_STATE : Z := 0. (* suspend_manager_base_observer.h:29 *)
Definition DOZE_STATE : Z := 1. (* suspend_manager_base_observer.h:30 *)
Definition FROZEN_STATE : Z := 2. (* suspend_manager_base_observer.h:31 *)

(** ** Observers *)

Record SuspendObserver := mkSuspendObserver {
  so_proxy : Z;
  so_object : option Z;
}.
#[export] Instance SuspendObserver_eq : EqDecision SuspendObserver.
Proof. solve_decision. Defined.

(** What the observers of the suspend manager and their objects are told. *)
Inductive SuspendCall :=
  | SuOnActive (proxy : Z) (pidList : list Z) (uid : Z)
  | SuOnDoze (proxy : Z) (pidList : list Z) (uid : Z)
  | SuOnFrozen (proxy : Z) (pidList : list Z) (uid : Z)
  | SuRemoveDeath (object : Z).

(** suspend_manager_base_observer.h:51-52 [suspendObservers_] the members *)
Record Suspend (K : Type) := mkSuspend {
  suspendObservers_ : list SuspendObserver;
  recipientMap_ : gset Z;
  su_host : K;
  su_trace : list SuspendCall;
}.
Arguments mkSuspend {_}.
Arguments suspendObservers_ {_}.
Arguments recipientMap_ {_}.
Arguments su_host {_}.
Arguments su_trace {_}.
#[export] Instance Suspend_eta K : Eta (Suspend K) := fun s =>
  mkSuspend (suspendObservers_ s) (recipientMap_ s) (su_host s) (su_trace s).

Definition new_Suspend {K} (k : K) : Suspend K := mkSuspend [] ∅ k [].

(** [AddDeathRecipient] of an object, and [iface_cast] of one: the proxy, or null. *)
Class SuspendHost (K : Type) := {
  su_AddDeathRecipient : Z -> K -> bool * K;
  su_iface_cast : Z -> K -> option Z;
}.

Section observers.
Context {K : Type} `{!SuspendHost K} `{!ErrCodes}.
#[local] Abbreviation M := (ST (Suspend K)).

Definition su_upd (f : Suspend K -> Suspend K) : M unit := st_modify f.
Definition su_record (c : SuspendCall) : M unit := su_upd (fun s => s <| su_trace ::= fun l => l ++ [c] |>).

(** The place of the first observer with the object. *)
Definition find_observer (o : SuspendObserver) (l : list SuspendObserver) : option nat :=
  fst <$> list_find (fun item => so_object item = so_object o) l.

(** suspend_manager_base_observer.cpp:137-156 [SuspendManagerBaseObserver::RegisterSuspendObserverInner] *)
Definition RegisterSuspendObserverInner (observer : option SuspendObserver) : M Z :=
  match observer with
  | None => mret ERR_INVALID_VALUE
  | Some o =>
      s ← st_get;
      if bool_decide (is_Some (find_observer o (suspendObservers_ s))) then mret ERR_OK else
      su_upd (fun s => s <| suspendObservers_ ::= fun l => l ++ [o] |>);;
      mret ERR_OK
  end.

(** suspend_manager_base_observer.cpp:158-177 [SuspendManagerBaseObserver::UnregisterSuspendObserverInner] *)
Definition UnregisterSuspendObserverInner (observer : option SuspendObserver) : M Z :=
  match observer with
  | None => mret ERR_INVALID_VALUE
  | Some o =>
      s ← st_get;
      match find_observer o (suspendObservers_ s) with
      | None => mret ERR_OK
      | Some i => su_upd (fun s => s <| suspendObservers_ ::= delete i |>);; mret ERR_OK
      end
  end.

(** The object of an observer that is there and has one. *)
Definition object_of (observer : option SuspendObserver) : option Z := observer ≫= so_object.

(** suspend_manager_base_observer.cpp:44-75 [SuspendManagerBaseObserver::AddObserverDeathRecipient] *)
Definition AddObserverDeathRecipient (observer : option SuspendObserver) : M Z :=
  match object_of observer with
  | None => mret ERR_INVALID_VALUE
  | Some object =>
      s ← st_get;
      if bool_decide (object ∈ recipientMap_ s) then mret ERR_OK else
      let '(ok, k) := su_AddDeathRecipient object (su_host s) in
      su_upd (fun s => s <| su_host := k |>);;
      if negb ok then mret ERR_INVALID_OPERATION else
      su_upd (fun s => s <| recipientMap_ ::= union {[ object ]} |>);;
      mret ERR_OK
  end.

(** suspend_manager_base_observer.cpp:77-96 [SuspendManagerBaseObserver::RemoveObserverDeathRecipient] *)
Definition RemoveObserverDeathRecipient (observer : option SuspendObserver) : M Z :=
  match object_of observer with
  | None => mret ERR_INVALID_VALUE
  | Some object =>
      s ← st_get;
      st_when (bool_decide (object ∈ recipientMap_ s))
        (su_record (SuRemoveDeath object);;
         su_upd (fun s => s <| recipientMap_ ::= fun r => r ∖ {[ object ]} |>));;
      mret ERR_OK
  end.

(** suspend_manager_base_observer.cpp:24-42 [SuspendManagerBaseObserver::OnObserverDied] of an object that is still there *)
Definition OnObserverDied (object : option Z) : M unit :=
  object <-? object;
  s ← st_get;
  let observer := (fun proxy => mkSuspendObserver proxy (Some object)) <$> su_iface_cast object (su_host s) in
  UnregisterSuspendObserverInner observer;;
  RemoveObserverDeathRecipient observer;;
  mret tt.

(** suspend_manager_base_observer.cpp:99-116 [SuspendManagerBaseObserver::RegisterSuspendObserver] *)
Definition RegisterSuspendObserver (observer : option SuspendObserver) : M Z :=
  ret ← RegisterSuspendObserverInner observer;
  if negb (ret =? ERR_OK) then mret ret else
  ret ← AddObserverDeathRecipient observer;
  if negb (ret =? ERR_OK) then UnregisterSuspendObserverInner observer;; mret ret else
  mret ERR_OK.

(** suspend_manager_base_observer.cpp:118-135 [SuspendManagerBaseObserver::UnregisterSuspendObserver] *)
Definition UnregisterSuspendObserver (observer : option SuspendObserver) : M Z :=
  ret ← UnregisterSuspendObserverInner observer;
  if negb (ret =? ERR_OK) then mret ret else
  ret ← RemoveObserverDeathRecipient observer;
  if negb (ret =? ERR_OK) then RegisterSuspendObserverInner observer;; mret ret else
  mret ERR_OK.

(** suspend_manager_base_observer.cpp:179-202 [updateSuspendCbMap_] *)
Definition updateSuspendCbMap_ : gmap Z (Z -> list Z -> Z -> SuspendCall) :=
  list_to_map [(ACTIVE_STATE, SuOnActive); (DOZE_STATE, SuOnDoze); (FROZEN_STATE, SuOnFrozen)].

(** suspend_manager_base_observer.cpp:204-224 [SuspendManagerBaseObserver::UpdateSuspendObserver] *)
Definition UpdateSuspendObserver (state uid : Z) (pidList : list Z) : M Z :=
  match updateSuspendCbMap_ !! to_u32 state with
  | None => mret ERR_INVALID_VALUE
  | Some cb =>
      s ← st_get;
      st_iter (fun o => su_record (cb (so_proxy o) pidList uid)) (suspendObservers_ s);;
      mret ERR_OK
  end.

(** ** The service *)

(** suspend_manager_base_service.cpp:30-45 [ResSchedService::CheckSuspendPermission] *)
Definition CheckSuspendPermission {K'} `{!AccessTokenKit K'} (caller : Caller) (k : K') : bool :=
  bool_decide (at_GetTokenTypeFlag (c_tokenId caller) k = TOKEN_NATIVE)
  && (at_VerifyAccessToken (c_tokenId caller) GET_SUSPEND_STATE_PERMISSION k =? 0).

(** suspend_manager_base_service.cpp:103-115 [ResSchedService::RegisterSuspendObserver] the code and the result *)
Definition Service_RegisterSuspendObserver {K'} `{!AccessTokenKit K'} (caller : Caller) (k : K')
    (observer : option SuspendObserver) : M (Z * Z) :=
  if negb (CheckSuspendPermission caller k) then mret (ERR_OK, ERR_INVALID_OPERATION) else
  funcResult ← RegisterSuspendObserver observer;
  mret (ERR_OK, funcResult).

(** suspend_manager_base_service.cpp:117-129 [ResSchedService::UnregisterSuspendObserver] *)
Definition Service_UnregisterSuspendObserver {K'} `{!AccessTokenKit K'} (caller : Caller) (k : K')
    (observer : option SuspendObserver) : M (Z * Z) :=
  if negb (CheckSuspendPermission caller k) then mret (ERR_OK, ERR_INVALID_OPERATION) else
  funcResult ← UnregisterSuspendObserver observer;
  mret (ERR_OK, funcResult).
End observers.

(** ** The state of an application *)
Section state.
Context {J K S N : Type} `{!Json J} `{!JsonText J} `{!Build} `{!PluginHost J K} `{!Xml N}
  `{!SceneDispatcher J S} `{!NotifierHost K} `{!AccessTokenKit K} `{!ApplicationState}
  `{!ServiceHost K} `{!ServiceBuild} `{!ErrCodes}.
#[local] Abbreviation M := (ST (Service J K S)).

(** suspend_manager_base_service.cpp:66-71 [StringToJsonObj] The reply that says whether the application is frozen. *)
Definition reply_isFrozen (replyValue : string) : option bool :=
  json_find "isFrozen" (StringToJsonObj (J := J) replyValue) ≫= json_boolean.

(** suspend_manager_base_service.cpp:49-72 [ResSchedService::GetSuspendStateByUid] What both requests do with their type and the field of their payload. *)
Definition ask_suspend_state (caller : Caller) (type : Z) (field : string) (id : Z) : M (Z * option bool * Z) :=
  k ← get_host;
  if negb (CheckSuspendPermission caller k) then mret (ERR_OK, None, ERR_INVALID_OPERATION) else
  let payloadValue := json_dump (json_set field (json_of_int id) (json_null : J)) in
  r ← ReportSyncEvent caller type 0 payloadValue;
  let isFrozen := if r.2 =? ERR_OK then reply_isFrozen (default "" r.1.2) else None in
  mret (ERR_OK, isFrozen, ERR_OK).

(** suspend_manager_base_service.cpp:47-73 [ResSchedService::GetSuspendStateByUid] the code, [isFrozen] and the result *)
Definition GetSuspendStateByUid (caller : Caller) (uid : Z) : M (Z * option bool * Z) :=
  ask_suspend_state caller SYNC_RES_TYPE_GET_SUSPEND_STATE_BY_UID "uid" uid.

(** suspend_manager_base_service.cpp:75-101 [ResSchedService::GetSuspendStateByPid] *)
Definition GetSuspendStateByPid (caller : Caller) (pid : Z) : M (Z * option bool * Z) :=
  ask_suspend_state caller SYNC_RES_TYPE_GET_SUSPEND_STATE_BY_PID "pid" pid.
End state.

(** ** The client library *)

(** The system and the service as the client sees them; the first argument of a call is the
    remote object, [None] a call that did not arrive.  [sr_iface_cast] says whether the proxy
    of an object is there. *)
Class SuspendRemote (W : Type) := {
  sr_GetSystemAbilityManager : W -> bool;
  sr_CheckSystemAbility : W -> option Z;
  sr_iface_cast : Z -> bool;
  sr_GetSuspendStateByUid : Z -> Z -> W -> option (option bool * Z) * W;
  sr_GetSuspendStateByPid : Z -> Z -> W -> option (option bool * Z) * W;
  sr_RegisterSuspendObserver : Z -> Z -> W -> option Z * W;
  sr_UnregisterSuspendObserver : Z -> Z -> W -> option Z * W;
}.

Inductive SuspendClientCall :=
  | ScAddDeath (object : Z)
  | ScRemoveDeath (object : Z).

(** suspend_manager_base_client.h:93-94 [suspendManagerBaseProxy_] The object of the proxy, and whether [recipient_] is there. *)
Record SuspendClient (W : Type) := mkSuspendClient {
  suspendManagerBaseProxy_ : option Z;
  sc_recipient_ : bool;
  sc_remote : W;
  sc_trace : list SuspendClientCall;
}.
Arguments mkSuspendClient {_}.
Arguments suspendManagerBaseProxy_ {_}.
Arguments sc_recipient_ {_}.
Arguments sc_remote {_}.
Arguments sc_trace {_}.
#[export] Instance SuspendClient_eta W : Eta (SuspendClient W) := fun s =>
  mkSuspendClient (suspendManagerBaseProxy_ s) (sc_recipient_ s) (sc_remote s) (sc_trace s).

Definition new_SuspendClient {W} (w : W) : SuspendClient W := mkSuspendClient None false w [].

Section client.
Context {W : Type} `{!SuspendRemote W} `{!ErrCodes}.
#[local] Abbreviation M := (ST (SuspendClient W)).

Definition sc_upd (f : SuspendClient W -> SuspendClient W) : M unit := st_modify f.

(** suspend_manager_base_client.cpp:79-108 [SuspendManagerBaseClient::GetSuspendManagerProxy]
    a proxy has an object *)
Definition GetSuspendManagerProxy : M bool :=
  s ← st_get;
  match suspendManagerBaseProxy_ s with
  | Some _ => mret true
  | None =>
      if negb (sr_GetSystemAbilityManager (sc_remote s)) then mret false else
      match sr_CheckSystemAbility (sc_remote s) with
      | None => mret false
      | Some object =>
          if negb (sr_iface_cast (W := W) object) then mret false else
          sc_upd (fun s => s <| suspendManagerBaseProxy_ := Some object |> <| sc_recipient_ := true |>
                             <| sc_trace ::= fun l => l ++ [ScAddDeath object] |>);;
          mret true
      end
  end.

(** suspend_manager_base_client.cpp:31-38 [SuspendManagerBaseClient::GetSuspendStateByUid] A call of the service, when there is one, with the result for a call that does not arrive. *)
Definition ask_service {A} (no_proxy lost : A) (f : Z -> W -> option A * W) : M A :=
  ok ← GetSuspendManagerProxy;
  s ← st_get;
  match suspendManagerBaseProxy_ s with
  | Some object =>
      if negb ok then mret no_proxy else
      let '(a, w) := f object (sc_remote s) in
      sc_upd (fun s => s <| sc_remote := w |>);;
      mret (default lost a)
  | None => mret no_proxy
  end.

(** suspend_manager_base_client.cpp:29-39 [SuspendManagerBaseClient::GetSuspendStateByUid] [isFrozen] and the result *)
Definition Client_GetSuspendStateByUid (uid : Z) : M (option bool * Z) :=
  ask_service (None, ERR_INVALID_OPERATION) (None, ERR_OK) (fun o => sr_GetSuspendStateByUid o uid).

(** suspend_manager_base_client.cpp:41-51 [SuspendManagerBaseClient::GetSuspendStateByPid] *)
Definition Client_GetSuspendStateByPid (pid : Z) : M (option bool * Z) :=
  ask_service (None, ERR_INVALID_OPERATION) (None, ERR_OK) (fun o => sr_GetSuspendStateByPid o pid).

(** suspend_manager_base_client.cpp:53-61 [SuspendManagerBaseClient::ResetClient] *)
Definition ResetSuspendClient : M unit :=
  s ← st_get;
  match suspendManagerBaseProxy_ s with
  | Some object => sc_upd (fun s => s <| sc_trace ::= fun l => l ++ [ScRemoveDeath object] |>)
  | None => mret tt
  end;;
  sc_upd (fun s => s <| suspendManagerBaseProxy_ := None |> <| sc_recipient_ := false |>).

(** suspend_manager_base_client.cpp:63-67 [SuspendManagerBaseClient::~SuspendManagerBaseClient] *)
Definition SuspendClient_destroy : M unit := ResetSuspendClient.

(** suspend_manager_base_client.cpp:74-77 [SuspendManagerBaseClient::SuspendManagerDeathRecipient::OnRemoteDied] *)
Definition Suspend_OnRemoteDied : M unit := ResetSuspendClient.

(** suspend_manager_base_client.cpp:110-125 [SuspendManagerBaseClient::RegisterSuspendObserver] *)
Definition Client_RegisterSuspendObserver (observer : option Z) : M Z :=
  match observer with
  | None => mret ERR_INVALID_VALUE
  | Some o => ask_service ERR_INVALID_OPERATION ERR_OK (fun object => sr_RegisterSuspendObserver object o)
  end.

(** suspend_manager_base_client.cpp:127-142 [SuspendManagerBaseClient::UnregisterSuspendObserver] *)
Definition Client_UnregisterSuspendObserver (observer : option Z) : M Z :=
  match observer with
  | None => mret ERR_INVALID_VALUE
  | Some o => ask_service ERR_INVALID_OPERATION ERR_OK (fun object => sr_UnregisterSuspendObserver object o)
  end.
End client.
