(* ===== verification/SuspendFacts.v ===== *)
(** * Facts about the observers of the suspend manager

    The manager against the list of who has subscribed, driven by the codes that its callers
    get: over any history it tells each change to the subscribers, each once and in the order
    of their subscriptions, and watches exactly their objects. *)
From S2P Require Import Prelude Json ResType CommonUtil LruCache Ipc PluginConfig PluginMgr NotifierMgr EventListenerMgr ServiceWorld ResSchedMgr ResSchedService SuspendManager.

(** What happens to the manager. *)
Inductive SuspendEvent :=
  | SeRegister (observer : option SuspendObserver)
  | SeUnregister (observer : option SuspendObserver)
  | SeDied (object : option Z)
  | SeUpdate (state uid : Z) (pidList : list Z).

(** ** Who has subscribed *)

Definition others (o : SuspendObserver) (l : list SuspendObserver) : list SuspendObserver :=
  filter (fun o' => so_object o' <> so_object o) l.

#[local] Arguments others : simpl never.

(** The subscribers after an event whose caller got the code. *)
Definition subscribers_step (e : SuspendEvent) (code : Z) (l : list SuspendObserver) : list SuspendObserver :=
  match e with
  | SeRegister (Some o) =>
      if decide (code <> ERR_OK \/ so_object o ∈ so_object <$> l) then l else l ++ [o]
  | SeUnregister (Some o) => others o l
  | SeDied (Some object) => others (mkSuspendObserver 0 (Some object)) l
  | _ => l
  end.

(** What the subscribers are told of an event. *)
Definition tell_all (call : Z -> list Z -> Z -> SuspendCall) (uid : Z) (pidList : list Z) (l : list SuspendObserver)
    : list SuspendCall := (fun o => call (so_proxy o) pidList uid) <$> l.
Definition told_step (e : SuspendEvent) (l : list SuspendObserver) : list SuspendCall :=
  match e with
  | SeUpdate 0 uid pidList => tell_all SuOnActive uid pidList l
  | SeUpdate 1 uid pidList => tell_all SuOnDoze uid pidList l
  | SeUpdate 2 uid pidList => tell_all SuOnFrozen uid pidList l
  | _ => []
  end.

(** A history with the codes that the callers got: the subscribers and what they were told. *)
Fixpoint contract (es : list (SuspendEvent * Z)) (l : list SuspendObserver) : list SuspendObserver * list SuspendCall :=
  match es with
  | [] => (l, [])
  | (e, code) :: es =>
      let '(l', told) := contract es (subscribers_step e code l) in (l', told_step e l ++ told)
  end.

(** The calls of observers in a trace. *)
Definition to_observer (c : SuspendCall) : bool := match c with SuRemoveDeath _ => false | _ => true end.
Definition told (l : list SuspendCall) : list SuspendCall := filter to_observer l.

Section suspend_facts.
Context {K : Type} `{!SuspendHost K} `{!ErrCodes}.
#[local] Abbreviation M := (ST (Suspend K)).

(** The codes of errors are not that of success, and every remote object has a proxy. *)
Definition codes_differ : Prop := ERR_INVALID_VALUE <> ERR_OK /\ ERR_INVALID_OPERATION <> ERR_OK.
Definition proxies_exist : Prop := forall object k, is_Some (su_iface_cast (K := K) object k).

Definition suspend_step (e : SuspendEvent) : M Z :=
  match e with
  | SeRegister o => RegisterSuspendObserver o
  | SeUnregister o => UnregisterSuspendObserver o
  | SeDied object => OnObserverDied object;; mret ERR_OK
  | SeUpdate state uid pidList => UpdateSuspendObserver state uid pidList
  end.
Fixpoint suspend_run (es : list SuspendEvent) : M (list Z) :=
  match es with
  | [] => mret []
  | e :: es => code ← suspend_step e; codes ← suspend_run es; mret (code :: codes)
  end.

(** An observer that arrives has an object, and the state is of the enumeration. *)
Definition arrives (e : SuspendEvent) : Prop :=
  match e with
  | SeRegister (Some o) | SeUnregister (Some o) => so_object o <> None
  | SeUpdate state _ _ => 0 <= state < 2 ^ 32
  | _ => True
  end.

(** The objects of the observers are distinct, there, and watched. *)
Record watched (s : Suspend K) : Prop := {
  wa_distinct : NoDup (so_object <$> suspendObservers_ s);
  wa_there : None ∉ so_object <$> suspendObservers_ s;
  wa_map : forall x, x ∈ recipientMap_ s <-> Some x ∈ so_object <$> suspendObservers_ s;
}.

(** ** Finding an observer *)

Lemma find_none o l : find_observer o l = None <-> so_object o ∉ so_object <$> l.
Proof.
  unfold find_observer. rewrite fmap_None, list_find_None, Forall_forall, list_elem_of_fmap. split.
  - intros Hf (x & Hx & Hin). by apply (Hf x Hin).
  - intros Hn x Hin Hx. apply Hn. by exists x.
Qed.

Lemma others_absent o l : so_object o ∉ so_object <$> l -> others o l = l.
Proof.
  unfold others. induction l as [|y l IH]; intros Hn; [done|]. cbn in Hn. apply not_elem_of_cons in Hn as [Hy Hn].
  rewrite filter_cons_True by done. by f_equal; apply IH.
Qed.

Lemma find_delete o l i :
  NoDup (so_object <$> l) -> find_observer o l = Some i -> delete i l = others o l.
Proof.
  unfold find_observer. intros Hd Hf. apply fmap_Some in Hf as ([j x] & Hf & ->).
  apply list_find_Some in Hf as (Hj & Hx & _). cbn. revert j Hj Hd.
  induction l as [|y l IH]; intros j Hj Hd; [done|]. cbn in Hd. apply NoDup_cons in Hd as [Hy Hd]. unfold others.
  destruct j as [|j]; cbn in Hj.
  - simplify_eq. rewrite filter_cons_False by (intros Hc; by apply Hc). symmetry. apply others_absent. by rewrite <- Hx.
  - rewrite filter_cons_True; [exact (f_equal (cons y) (IH j Hj Hd))|]. intros Heq. apply Hy. rewrite Heq, <- Hx.
    apply list_elem_of_fmap. exists x. split; [done|]. by eapply list_elem_of_lookup_2.
Qed.

Lemma others_last o l : so_object o ∉ so_object <$> l -> others o (l ++ [o]) = l.
Proof.
  intros Hn. unfold others. rewrite filter_app, (filter_cons_False _ o []) by (intros Hc; by apply Hc).
  rewrite filter_nil, app_nil_r. by apply others_absent.
Qed.

Lemma elem_others o l x : x ∈ so_object <$> others o l <-> x ∈ so_object <$> l /\ x <> so_object o.
Proof. unfold others. rewrite !list_elem_of_fmap. setoid_rewrite list_elem_of_filter. naive_solver. Qed.

Lemma NoDup_others o l : NoDup (so_object <$> l) -> NoDup (so_object <$> others o l).
Proof.
  induction l as [|y l IH]; intros Hd; [done|]. cbn in Hd. apply NoDup_cons in Hd as [Hy Hd].
  unfold others. destruct (decide (so_object y <> so_object o)) as [Hne|He].
  - rewrite filter_cons_True by done. cbn. apply NoDup_cons. split; [|by apply IH].
    change (filter _ l) with (others o l). rewrite elem_others. by intros [? _].
  - rewrite filter_cons_False by done. by apply IH.
Qed.

(** ** The operations *)

(** The step goes as the contract says. *)
Definition follows (e : SuspendEvent) (s : Suspend K) (r : option (Z * Suspend K)) : Prop :=
  exists code s', r = Some (code, s') /\ watched s'
    /\ suspendObservers_ s' = subscribers_step e code (suspendObservers_ s)
    /\ told (su_trace s') = told (su_trace s) ++ told_step e (suspendObservers_ s).

Lemma run_Unregister_inner o (s : Suspend K) :
  NoDup (so_object <$> suspendObservers_ s) -> UnregisterSuspendObserverInner (Some o) s
    = Some (ERR_OK, s <| suspendObservers_ ::= others o |>).
Proof.
  intros Hd. unfold UnregisterSuspendObserverInner. rewrite run_get_bind.
  destruct (find_observer o (suspendObservers_ s)) as [i|] eqn:Ef.
  - change (Some (ERR_OK, s <| suspendObservers_ ::= delete i |>) = Some (ERR_OK, s <| suspendObservers_ ::= others o |>)).
    unfold over. by rewrite (find_delete _ _ _ Hd Ef).
  - destruct s as [l r k t]. unfold over. cbn in *. rewrite others_absent by (by apply find_none). reflexivity.
Qed.

(** The observers are those without the object, and it is no longer watched. *)
Definition forgotten (o : SuspendObserver) (x : Z) (s : Suspend K) : Suspend K :=
  s <| suspendObservers_ ::= others o |> <| recipientMap_ ::= fun r => r ∖ {[ x ]} |>
    <| su_trace := su_trace s ++ if decide (x ∈ recipientMap_ s) then [SuRemoveDeath x] else [] |>.

Lemma run_Remove o x s :
  so_object o = Some x ->
  RemoveObserverDeathRecipient (Some o) (s <| suspendObservers_ ::= others o |>) = Some (ERR_OK, forgotten o x s).
Proof.
  intros Ho. unfold RemoveObserverDeathRecipient, object_of. cbn. rewrite Ho, run_get_bind. cbn.
  unfold forgotten. case_bool_decide as Hin; cbn [st_when].
  - by rewrite decide_True.
  - rewrite decide_False by done. destruct s as [l r k t]. cbn in *.
    assert (E : r ∖ {[ x ]} = r) by set_solver. unfold over. cbn. by rewrite E, app_nil_r.
Qed.

Lemma watched_forgotten o x s : so_object o = Some x -> watched s -> watched (forgotten o x s).
Proof.
  intros Ho [Hd Ht Hm]. split; cbn.
  - by apply NoDup_others.
  - rewrite elem_others. by intros [? _].
  - intros y. rewrite elem_others, elem_of_difference, Hm, Ho. set_solver.
Qed.

Lemma told_forgotten o x s : told (su_trace (forgotten o x s)) = told (su_trace s).
Proof. cbn. unfold told. rewrite filter_app. destruct (decide _); cbn; by rewrite app_nil_r. Qed.

Lemma follows_unregister o s :
  codes_differ -> arrives (SeUnregister o) -> watched s -> follows (SeUnregister o) s (UnregisterSuspendObserver o s).
Proof.
  intros [Hv _] Ha Hs. destruct o as [o|]; cbn in Ha.
  - destruct (so_object o) as [x|] eqn:Ho; [|done]. unfold UnregisterSuspendObserver.
    rewrite (run_bind _ _ _ _ _ (run_Unregister_inner o s (wa_distinct _ Hs))). cbn [Z.eqb negb ERR_OK].
    rewrite (run_bind _ _ _ _ _ (run_Remove o x s Ho)). exists ERR_OK, (forgotten o x s).
    split; [done|]. split; [by apply watched_forgotten|]. split; [done|].
    by rewrite told_forgotten, app_nil_r.
  - unfold UnregisterSuspendObserver. rewrite (run_bind _ _ _ ERR_INVALID_VALUE s) by done.
    rewrite (proj2 (Z.eqb_neq _ _) Hv). cbn [negb]. exists ERR_INVALID_VALUE, s. cbn. by rewrite app_nil_r.
Qed.

Lemma run_Register_inner o (s : Suspend K) :
  RegisterSuspendObserverInner (Some o) s
  = Some (ERR_OK, if decide (so_object o ∈ so_object <$> suspendObservers_ s) then s
                  else s <| suspendObservers_ ::= fun l => l ++ [o] |>).
Proof.
  unfold RegisterSuspendObserverInner. rewrite run_get_bind. case_decide as Hin; case_bool_decide as Hf; try done; exfalso.
  - apply Hf, not_eq_None_Some. intros Hc. by apply find_none in Hc.
  - by apply find_none in Hin; rewrite Hin in Hf; destruct Hf.
Qed.

(** The observer is new, and its object is watched. *)
Definition joined (o : SuspendObserver) (x : Z) (s : Suspend K) : Suspend K :=
  s <| suspendObservers_ ::= fun l => l ++ [o] |> <| su_host := (su_AddDeathRecipient x (su_host s)).2 |>
    <| recipientMap_ ::= union {[ x ]} |>.

Lemma watched_joined o x s :
  so_object o = Some x -> so_object o ∉ so_object <$> suspendObservers_ s -> watched s -> watched (joined o x s).
Proof.
  intros Ho Hn [Hd Ht Hm]. split; cbn; rewrite ?fmap_app; cbn.
  - apply NoDup_app. split; [done|]. split; [|apply NoDup_singleton].
    intros y Hy ->%list_elem_of_singleton. done.
  - rewrite elem_of_app, list_elem_of_singleton, Ho. by intros [?|[=]].
  - intros y. rewrite elem_of_union, elem_of_singleton, elem_of_app, list_elem_of_singleton, Hm, Ho. naive_solver.
Qed.

Lemma follows_register o s :
  codes_differ -> arrives (SeRegister o) -> watched s -> follows (SeRegister o) s (RegisterSuspendObserver o s).
Proof.
  intros [Hv Hop] Ha Hs. unfold RegisterSuspendObserver. destruct o as [o|]; cbn in Ha; cycle 1.
  { rewrite (run_bind _ _ _ ERR_INVALID_VALUE s) by done. rewrite (proj2 (Z.eqb_neq _ _) Hv). cbn [negb].
    exists ERR_INVALID_VALUE, s. cbn. by rewrite app_nil_r. }
  destruct (so_object o) as [x|] eqn:Hx; [|done]. rewrite (run_bind _ _ _ _ _ (run_Register_inner o s)). cbn [negb Z.eqb ERR_OK].
  unfold AddObserverDeathRecipient, object_of. cbn [mbind option_bind]. rewrite Hx. case_decide as Hin.
  - exists ERR_OK, s. split; [|split; [done|split; [|by cbn; rewrite app_nil_r]]].
    + erewrite run_bind by (rewrite run_get_bind, bool_decide_true; [reflexivity|by apply wa_map]). done.
    + cbn. rewrite decide_True by (by right; rewrite Hx). done.
  - rewrite <- Hx in Hin. set (s1 := s <| suspendObservers_ ::= _ |>).
    assert (Hmap : x ∉ recipientMap_ s) by (by rewrite (wa_map _ Hs), <- Hx).
    destruct (su_AddDeathRecipient x (su_host s)) as [ok k] eqn:Ek. destruct ok.
    + exists ERR_OK, (joined o x s). unfold joined. rewrite Ek. split; [|split; [|split]].
      * erewrite run_bind; cycle 1.
        { rewrite run_get_bind, bool_decide_false by done. change (su_host s1) with (su_host s). rewrite Ek. reflexivity. }
        reflexivity.
      * pose proof (watched_joined o x s Hx Hin Hs) as Hw. unfold joined in Hw. by rewrite Ek in Hw.
      * cbn. by rewrite decide_False by naive_solver.
      * cbn. by rewrite app_nil_r.
    + set (s2 := s1 <| su_host := k |>).
      assert (Hd : NoDup (so_object <$> suspendObservers_ s2)).
      { pose proof (wa_distinct _ (watched_joined o x s Hx Hin Hs)) as Hw. exact Hw. }
      exists ERR_INVALID_OPERATION, (s <| su_host := k |>). split; [|split; [|split]].
      * erewrite run_bind; cycle 1.
        { rewrite run_get_bind, bool_decide_false by done. change (su_host s1) with (su_host s). rewrite Ek. reflexivity. }
        rewrite (proj2 (Z.eqb_neq _ _) Hop). cbn [negb]. rewrite (run_bind _ _ _ _ _ (run_Unregister_inner o s2 Hd)).
        unfold s2, s1, over. cbn. by rewrite others_last.
      * by destruct Hs.
      * cbn. rewrite decide_True by (by left). done.
      * cbn. by rewrite app_nil_r.
Qed.

Lemma follows_died object s :
  proxies_exist -> watched s -> follows (SeDied object) s ((OnObserverDied object;; mret ERR_OK) s).
Proof.
  intros Hp Hs. destruct object as [x|]; cycle 1.
  { exists ERR_OK, s. cbn. by rewrite app_nil_r. }
  destruct (Hp x (su_host s)) as [proxy Hx]. set (o := mkSuspendObserver proxy (Some x)).
  assert (E : OnObserverDied (Some x) s = Some (tt, forgotten o x s)).
  { unfold OnObserverDied. rewrite run_get_bind. cbv zeta. rewrite Hx. cbn [fmap option_fmap option_map]. fold o.
    rewrite (run_bind _ _ _ _ _ (run_Unregister_inner o s (wa_distinct _ Hs))).
    by rewrite (run_bind _ _ _ _ _ (run_Remove o x s eq_refl)). }
  rewrite (run_bind _ _ _ _ _ E). exists ERR_OK, (forgotten o x s).
  split; [done|]. split; [by apply watched_forgotten|]. split; [done|by rewrite told_forgotten, app_nil_r].
Qed.

Lemma run_notices (f : SuspendObserver -> SuspendCall) l (s : Suspend K) :
  st_iter (fun o => su_record (f o)) l s = Some (tt, s <| su_trace ::= fun t => t ++ (f <$> l) |>).
Proof.
  revert s. induction l as [|o l IH]; intros s.
  - destruct s. unfold over. cbn. by rewrite app_nil_r.
  - cbn [st_iter]. rewrite (run_bind _ _ _ tt (s <| su_trace ::= fun t => t ++ [f o] |>)) by done.
    rewrite IH. unfold over. cbn. by rewrite <- app_assoc.
Qed.

Lemma update_call state :
  0 <= state < 2 ^ 32 ->
  updateSuspendCbMap_ !! to_u32 state
  = match state with 0 => Some SuOnActive | 1 => Some SuOnDoze | 2 => Some SuOnFrozen | _ => None end.
Proof.
  intros Hr. unfold to_u32. rewrite Z.mod_small by done. unfold updateSuspendCbMap_, ACTIVE_STATE, DOZE_STATE, FROZEN_STATE.
  destruct (decide (state = 0)) as [->|]; [done|]. destruct (decide (state = 1)) as [->|]; [done|].
  destruct (decide (state = 2)) as [->|]; [done|].
  rewrite not_elem_of_list_to_map_1 by (cbn; set_solver). by destruct state as [|[[|[]|]|[|[]|]|]|].
Qed.

Lemma run_tell_all call uid pidList (s : Suspend K) :
  (s ← st_get; st_iter (fun o => su_record (call (so_proxy o) pidList uid)) (suspendObservers_ s);; mret ERR_OK) s
  = Some (ERR_OK, s <| su_trace ::= fun t => t ++ tell_all call uid pidList (suspendObservers_ s) |>).
Proof. rewrite run_get_bind. by rewrite (run_bind _ _ _ _ _ (run_notices _ _ _)). Qed.

Lemma told_tell_all call uid pidList t l :
  (forall p, to_observer (call p pidList uid) = true) ->
  told (t ++ tell_all call uid pidList l) = told t ++ tell_all call uid pidList l.
Proof.
  intros Hc. unfold told. rewrite filter_app. f_equal. induction l as [|o l IH]; [done|]. cbn [tell_all fmap list_fmap].
  rewrite filter_cons_True by (by rewrite Hc). by f_equal.
Qed.

Lemma follows_update state uid pidList s :
  codes_differ -> 0 <= state < 2 ^ 32 -> watched s ->
  follows (SeUpdate state uid pidList) s (UpdateSuspendObserver state uid pidList s).
Proof.
  intros [Hv _] Hr Hs. unfold UpdateSuspendObserver. rewrite update_call by done.
  assert (Ht : forall call, (forall p, to_observer (call p pidList uid) = true) ->
    told_step (SeUpdate state uid pidList) (suspendObservers_ s) = tell_all call uid pidList (suspendObservers_ s) ->
    follows (SeUpdate state uid pidList) s
      ((s ← st_get; st_iter (fun o => su_record (call (so_proxy o) pidList uid)) (suspendObservers_ s);; mret ERR_OK) s)).
  { intros call Hc E. rewrite run_tell_all. exists ERR_OK. eexists. split; [reflexivity|].
    split; [by destruct Hs|]. split; [done|]. rewrite E. by apply told_tell_all. }
  assert (Hn : told_step (SeUpdate state uid pidList) (suspendObservers_ s) = [] ->
    follows (SeUpdate state uid pidList) s ((mret ERR_INVALID_VALUE : M Z) s)).
  { intros E. exists ERR_INVALID_VALUE, s. split; [done|]. split; [done|]. split; [done|]. by rewrite E, app_nil_r. }
  destruct state as [|[[|[]|]|[|[]|]|]|]; solve [by apply Hn | by apply Ht].
Qed.

Lemma follows_step e s :
  codes_differ -> proxies_exist -> arrives e -> watched s -> follows e s (suspend_step e s).
Proof.
  intros Hc Hp Ha Hs. destruct e; [by apply follows_register|by apply follows_unregister|by apply follows_died|by apply follows_update].
Qed.

Lemma run_follows es s :
  codes_differ -> proxies_exist -> Forall arrives es -> watched s -> exists codes s',
    suspend_run es s = Some (codes, s') /\ length codes = length es /\ watched s'
    /\ (suspendObservers_ s', told (su_trace s'))
       = ((contract (zip es codes) (suspendObservers_ s)).1, told (su_trace s) ++ (contract (zip es codes) (suspendObservers_ s)).2).
Proof.
  intros Hc Hp. revert s. induction es as [|e es IH]; intros s Ha Hs.
  - exists [], s. cbn. by rewrite app_nil_r.
  - apply Forall_cons in Ha as [He Hes]. destruct (follows_step e s Hc Hp He Hs) as (code & s1 & E1 & Hs1 & Ho & Ht).
    destruct (IH s1 Hes Hs1) as (codes & s2 & E2 & Hl & Hs2 & Hr). exists (code :: codes), s2.
    cbn [suspend_run]. rewrite (run_bind _ _ _ _ _ E1), (run_bind _ _ _ _ _ E2). split; [done|]. split; [by cbn; f_equal|].
    split; [done|]. cbn [zip zip_with contract]. rewrite <- Ho. rewrite Ht in Hr.
    destruct (contract (zip es codes) (suspendObservers_ s1)) as [l' t']. cbn in Hr |- *. by rewrite app_assoc.
Qed.
End suspend_facts.

(** C35: Over any history of registrations, unregistrations, deaths and changes of state the
    suspend manager keeps the contract that its callers see by their codes: who got ERR_OK for a
    registration is told of each change of state from then on until it leaves or dies, exactly
    once, in the order of the registrations, and nobody else is; and exactly the objects of the
    subscribers are watched for their death, each once. *)
Theorem subscribers_are_told {K} `{!SuspendHost K} `{!ErrCodes} (k : K) es :
  codes_differ -> proxies_exist (K := K) -> Forall arrives es -> exists codes s,
    suspend_run es (new_Suspend k) = Some (codes, s)
    /\ length codes = length es
    /\ contract (zip es codes) [] = (suspendObservers_ s, told (su_trace s))
    /\ NoDup (so_object <$> suspendObservers_ s)
    /\ forall x, x ∈ recipientMap_ s <-> Some x ∈ so_object <$> suspendObservers_ s.
Proof.
  intros Hc Hp Ha. destruct (run_follows es (new_Suspend k) Hc Hp Ha) as (codes & s & E & Hl & Hs & Hr).
  { split; cbn; [constructor|set_solver|set_solver]. }
  exists codes, s. split; [done|]. split; [done|]. destruct Hs as [Hd _ Hm]. split; [|done].
  cbn in Hr. rewrite Hr. by destruct (contract _ _).
Qed.

(** A manager whose system refuses the object 9. *)
#[local] Instance example_host : SuspendHost unit := {
  su_AddDeathRecipient := fun object _ => (negb (object =? 9), tt);
  su_iface_cast := fun object _ => Some object;
}.
#[local] Instance example_codes : ErrCodes := {
  RES_SCHED_COMMON_ERR_OFFSET := 100; RES_SCHED_SERVICE_ERR_OFFSET := 200;
  ERR_INVALID_OPERATION := 5; ERR_INVALID_VALUE := 6;
}.
Definition example_history : list SuspendEvent :=
  [SeRegister (Some (mkSuspendObserver 1 (Some 7))); SeRegister (Some (mkSuspendObserver 2 (Some 8)));
   SeRegister (Some (mkSuspendObserver 3 (Some 9))); SeUpdate 2 100 [10]; SeRegister None;
   SeDied (Some 7); SeUpdate 0 100 [10]; SeUpdate 5 100 []].

Lemma subscribers_are_told_witness :
  (exists codes s, suspend_run example_history (new_Suspend tt) = Some (codes, s)
    /\ length codes = length example_history
    /\ contract (zip example_history codes) [] = (suspendObservers_ s, told (su_trace s))
    /\ NoDup (so_object <$> suspendObservers_ s)
    /\ forall x, x ∈ recipientMap_ s <-> Some x ∈ so_object <$> suspendObservers_ s)
  /\ (fun r => (r.1, told (su_trace r.2))) <$> suspend_run example_history (new_Suspend tt)
     = Some ([0; 0; 5; 0; 6; 0; 0; 6], [SuOnFrozen 1 [10] 100; SuOnFrozen 2 [10] 100; SuOnActive 2 [10] 100]).
Proof.
  split; [|reflexivity]. apply (subscribers_are_told tt example_history).
  - by split.
  - intros object []. by eexists.
  - repeat constructor; cbn; lia || done.
Defined.

(** An observer without an object that leaves is enrolled. *)
Lemma leaving_enrols {K} `{!SuspendHost K} `{!ErrCodes} (k : K) proxy :
  codes_differ ->
  fmap (M := option) (fun r => (r.1, suspendObservers_ r.2)) (UnregisterSuspendObserver (Some (mkSuspendObserver proxy None)) (new_Suspend k))
  = Some (ERR_INVALID_VALUE, [mkSuspendObserver proxy None]).
Proof.
  intros [Hv _]. unfold UnregisterSuspendObserver. rewrite (run_bind _ _ _ ERR_OK (new_Suspend k)) by done. cbn [negb Z.eqb ERR_OK].
  rewrite (run_bind _ _ _ ERR_INVALID_VALUE (new_Suspend k)) by done. by rewrite (proj2 (Z.eqb_neq _ _) Hv).
Qed.
