(* ===== verification/FileUtil.v ===== *)
(** * Files

    [res_sched_file_util.cpp] and [res_sched_json_storage_util.cpp]: paths, files and the
    storage of texts of JSON; [res_sched_event_reporter.cpp] and [batch_log_printer.cpp]: the
    daily reports of file sizes and the batches of log lines.  The file system with the
    functions of the C library and of the base library that work on it is a class; the state
    is the file system. *)
From S2P Require Import Prelude Json CommonUtil.

(** What [stat] tells, as far as it is read. *)
Record Stat := mkStat { st_IFDIR : bool; st_ISBLK : bool; st_size : Z }.

Class FileSystem (F : Type) := {
  (** The limit of the length of a path. *)
  PATH_MAX : nat;
  fs_access : string -> F -> bool;
  fs_realpath : string -> F -> option string;
  fs_stat : string -> F -> option Stat;
  fs_readdir : string -> F -> option (list string);
  fs_open_write : string -> F -> option Z;
  fs_open_create : string -> F -> bool * F;
  fs_write : Z -> string -> F -> F;
  fs_mkdir : string -> F -> bool * F;
  (** Streams: the content, or that the file does not open; opening for output, which empties the
      file; and output followed by the close of the stream, with the number of characters that
      the file took, which is less than their number when the disk is full. *)
  fs_read : string -> F -> option string;
  fs_open_out : string -> F -> option F;
  fs_put : string -> string -> F -> nat * F;
  (** [f_bfree] and [f_bsize] of [statfs]. *)
  fs_statfs : string -> F -> option (Z * Z);
  (** [std::filesystem::copy] with its options. *)
  fs_copy : string -> string -> F -> bool * F;
  (** The base library and the configuration policy. *)
  fs_PathToRealPath : string -> F -> option string;
  fs_IncludeTrailingPathDelimiter : string -> string;
  fs_ExtractFileName : string -> string;
  fs_IsEmptyFolder : string -> F -> bool;
  fs_ForceCreateDirectory : string -> F -> bool * F;
  fs_ChangeModeDirectory : string -> Z -> F -> bool * F;
  fs_ForceRemoveDirectory : string -> F -> bool * F;
  fs_RemoveFile : string -> F -> bool * F;
  fs_SaveStringToFile : string -> string -> bool -> F -> bool * F;
  fs_GetOneCfgFile : string -> F -> option string;
}.

(** ** Texts *)

(** The place of the first character at or after a place, and of the last one. *)
Fixpoint find_first (c : Ascii.ascii) (from : nat) (s : string) : option nat :=
  match s with
  | EmptyString => None
  | String c' s' =>
      match from with
      | S from => S <$> find_first c from s'
      | O => if bool_decide (c' = c) then Some O else S <$> find_first c O s'
      end
  end.
Fixpoint find_last (c : Ascii.ascii) (s : string) : option nat :=
  match s with
  | EmptyString => None
  | String c' s' =>
      match find_last c s' with
      | Some i => Some (S i)
      | None => if bool_decide (c' = c) then Some O else None
      end
  end.
Definition contains_char (c : Ascii.ascii) (s : string) : bool := bool_decide (find_first c O s <> None).

(** [substr] with one and with two arguments. *)
Definition substr_from (i : nat) (s : string) : string := substring i (String.length s - i)%nat s.
Definition slash : Ascii.ascii := "/"%char.

(** Two dots somewhere. *)
Fixpoint contains_dots (s : string) : bool :=
  match s with
  | String "."%char (String "."%char _) => true
  | String _ s' => contains_dots s'
  | EmptyString => false
  end.

(** [getline] until there is nothing more to read. *)
Fixpoint lines_of (line s : string) : list string :=
  match s with
  | EmptyString => if bool_decide (line = "") then [] else [line]
  | String c s' =>
      if bool_decide (c = "010"%char) then line :: lines_of "" s' else lines_of (line +:+ String c "") s'
  end.

(** res_sched_file_util.cpp:264-267 [IsValidPath] *)
Definition IsValidPath (path : string) : bool :=
  negb (bool_decide (path = "") || contains_char Ascii.zero path).

(** res_sched_file_util.cpp:275-294 [GetPartitionName] *)
Definition GetPartitionName (path : string) : string :=
  match find_first slash O path with
  | None => "/" +:+ path
  | Some first =>
      match find_first slash (S first) path with
      | None =>
          if bool_decide (String.get O path = Some slash) then path else "/" +:+ substring O first path
      | Some second => substring O (second - first)%nat path
      end
  end.

Section files.
Context {F : Type} `{!FileSystem F}.
#[local] Abbreviation M := (ST F).

Definition fs_ask {A} (f : F -> A) : M A := fun s => Some (f s, s).
Definition fs_do {A} (f : F -> A * F) : M A := fun s => Some (f s).

(** res_sched_file_util.cpp:33-50 [WriteFileReclaim] *)
Definition WriteFileReclaim (pid : Z) : M unit :=
  fd ← fs_ask (fs_open_write ("/proc/" +:+ to_string pid +:+ "/reclaim"));
  fd <-? fd;
  st_modify (fs_write fd "1").

(** res_sched_file_util.cpp:52-59 [GetRealPath] the path when there is one *)
Definition GetRealPath (filePath : string) : M (option string) := fs_ask (fs_PathToRealPath filePath).

(** res_sched_file_util.cpp:61-68 [PathOrFileExists] *)
Definition PathOrFileExists (path : string) : M bool := fs_ask (fs_access (c_str path)).

(** res_sched_file_util.cpp:70-89 [DirIterator] the names that are added *)
Definition DirIterator (filePath : string) : M (option (list string)) :=
  names ← fs_ask (A := option (list string)) (fs_readdir (c_str filePath));
  mret ((fun l : list string => (fun name => fs_IncludeTrailingPathDelimiter filePath +:+ name)
                    <$> filter (fun name => name <> "." /\ name <> "..") l) <$> names).

(** res_sched_file_util.cpp:91-94 [IsEmptyDir] *)
Definition IsEmptyDir (filePath : string) : M bool := fs_ask (fs_IsEmptyFolder filePath).

(** res_sched_file_util.cpp:96-109 [IsDir] *)
Definition IsDir (filePath : string) : M bool :=
  info ← fs_ask (fs_stat (c_str filePath));
  mret (match info with Some info => st_IFDIR info | None => false end).

(** res_sched_file_util.cpp:129-136 [RemoveDirs] *)
Definition RemoveDirs (dir : string) : M bool := fs_do (fs_ForceRemoveDirectory dir).

(** res_sched_file_util.cpp:111-127 [CreateDir] *)
Definition CreateDir (dir : string) (mode : Z) : M bool :=
  ok ← fs_do (fs_ForceCreateDirectory dir);
  if negb ok then mret false else
  ok ← fs_do (fs_ChangeModeDirectory dir mode);
  if negb ok then RemoveDirs dir;; mret false else mret true.

(** res_sched_file_util.cpp:138-145 [RemoveFile] *)
Definition RemoveFile (filePath : string) : M bool := fs_do (fs_RemoveFile filePath).

(** res_sched_file_util.cpp:147-158 [RemoveFileOrDirIfExist] *)
Definition RemoveFileOrDirIfExist (path : string) : M bool :=
  there ← PathOrFileExists path;
  if negb there then mret true else
  isDir ← IsDir path;
  if isDir : bool then RemoveDirs path else RemoveFile path.

(** res_sched_file_util.cpp:160-163 [ExtractFileName] *)
Definition ExtractFileName (filePath : string) : string := fs_ExtractFileName filePath.

(** res_sched_file_util.cpp:165-172 [IsBLKPath] *)
Definition IsBLKPath (filePath : string) : M bool :=
  sb ← fs_ask (fs_stat (c_str filePath));
  mret (match sb with Some sb => st_ISBLK sb | None => false end).

(** res_sched_file_util.cpp:174-177 [SaveStringToFile] *)
Definition SaveStringToFile (filePath content : string) (truncated : bool) : M bool :=
  fs_do (fs_SaveStringToFile filePath content truncated).

(** res_sched_file_util.cpp:179-203 [ReadLinesFromFile] the lines when the file opens *)
Definition ReadLinesFromFile (filePath : string) : M (option (list string)) :=
  if bool_decide (filePath = "") || bool_decide (PATH_MAX (F := F) < String.length filePath)%nat then mret None else
  real ← fs_ask (fs_realpath (c_str filePath));
  match real with
  | None => mret None
  | Some realConfigPath => content ← fs_ask (fs_read realConfigPath); mret (lines_of "" <$> content)
  end.

(** res_sched_file_util.cpp:205-222 [DoCopy] *)
Definition DoCopy (src des : string) : M bool := fs_do (fs_copy src des).

(** res_sched_file_util.cpp:224-243 [CopyFile] [fs_mkdir] is also true when the directory is there *)
Definition CopyFile (src des : string) : M bool :=
  there ← PathOrFileExists src;
  if negb there then mret false else
  removed ← RemoveFileOrDirIfExist des;
  if negb removed then mret false else
  made ← fs_do (fs_mkdir (c_str des));
  if negb made then mret false else DoCopy src des.

(** res_sched_file_util.cpp:245-262 [GetRealConfigPath] *)
Definition GetRealConfigPath (configPath : string) : M (option string) :=
  if bool_decide (configPath = "") then mret None else
  tmpPath ← fs_ask (fs_GetOneCfgFile (c_str configPath));
  match tmpPath with
  | None => mret None
  | Some tmpPath =>
      if bool_decide (PATH_MAX (F := F) < String.length tmpPath)%nat then mret None
      else fs_ask (fs_realpath tmpPath)
  end.

(** res_sched_file_util.cpp:269-273 [GetFileSize] *)
Definition GetFileSize (path : string) (s : F) : Z :=
  match fs_stat (c_str path) s with Some st => to_u64 (st_size st) | None => 0 end.

(** res_sched_file_util.cpp:296-305 [GetDeviceValidSize] the numbers of free blocks and of bytes
    in one, whose product in megabytes is the result; [None] is the result 0 *)
Definition GetDeviceValidSize (path : string) (s : F) : option (Z * Z) :=
  fs_statfs (c_str (GetPartitionName path)) s.
End files.

(** ** The storage of JSON *)

Definition MAX_JSON_FILE_SIZE : Z := 10 * 1024 * 1024. (* res_sched_json_storage_util.cpp:29 *)
Definition MAX_JSON_WRITE_SIZE : Z := 10 * 1024 * 1024. (* res_sched_json_storage_util.cpp:30 *)

Section storage.
Context {J F : Type} `{!JsonText J} `{!FileSystem F}.
#[local] Abbreviation M := (ST F).

(** res_sched_json_storage_util.cpp:157-170 [ResSchedJsonStorage::ConvertFullPath] *)
Definition ConvertFullPath (partialPath : string) : M (option string) :=
  if bool_decide (partialPath = "") || bool_decide (PATH_MAX (F := F) <= String.length partialPath)%nat then mret None
  else fs_ask (fs_realpath (c_str partialPath)).

(** res_sched_json_storage_util.cpp:116-145 [lastSlash] where a file that is not there yet goes *)
Definition node_path (filePath : string) : M (option string) :=
  real ← ConvertFullPath filePath;
  match real with
  | Some realPath => mret (Some realPath)
  | None =>
      match find_last slash filePath with
      | None => mret None
      | Some lastSlash =>
          let parentDir := substring O lastSlash filePath in
          let fileName := substr_from (S lastSlash) filePath in
          if contains_char slash fileName || contains_char "\"%char fileName then mret None else
          if contains_dots fileName then mret None else
          realParentPath ← ConvertFullPath parentDir;
          mret ((fun p => p +:+ "/" +:+ fileName) <$> realParentPath)
      end
  end.

(** res_sched_json_storage_util.cpp:111-155 [ResSchedJsonStorage::CreateNodeFile] *)
Definition CreateNodeFile (filePath : string) : M bool :=
  there ← fs_ask (fs_access (c_str filePath));
  if there : bool then mret true else
  realPath ← node_path filePath;
  match realPath with
  | None => mret false
  | Some realPath => fs_do (fs_open_create (c_str realPath))
  end.

(** res_sched_json_storage_util.cpp:74-74 [ResSchedJsonStorage::SaveJsonValueToFile] what is
    written for a value: up to its first zero, and the end of the line *)
Definition stored_text (value : string) : string := c_str value +:+ String "010"%char "".

(** res_sched_json_storage_util.cpp:48-78 [ResSchedJsonStorage::SaveJsonValueToFile] the state of
    the stream after the output is not looked at *)
Definition SaveJsonValueToFile (value filePath : string) : M Z :=
  if bool_decide (filePath = "") then mret (-1) else
  if (MAX_JSON_WRITE_SIZE <? Z.of_nat (String.length value)) then mret (-1) else
  made ← CreateNodeFile filePath;
  if negb made then mret (-1) else
  real ← ConvertFullPath filePath;
  match real with
  | None => mret (-1)
  | Some realPath =>
      s ← st_get;
      match fs_open_out realPath s with
      | None => mret (-1)
      | Some s1 => st_modify (fun _ => (fs_put realPath (stored_text value) s1).2);; mret 0
      end
  end.

(** res_sched_json_storage_util.cpp:80-109 [ResSchedJsonStorage::ParseJsonValueFromFile] the code,
    and the value when it was assigned one, [None] the discarded one *)
Definition ParseJsonValueFromFile (filePath : string) : M (Z * option (option J)) :=
  real ← ConvertFullPath filePath;
  match real with
  | None => mret (-1, None)
  | Some realPath =>
      data ← fs_ask (fs_read realPath);
      match data with
      | None => mret (-1, None)
      | Some data =>
          if (MAX_JSON_FILE_SIZE <? Z.of_nat (String.length data)) then mret (-1, None) else
          let value := json_parse data in
          mret (match value with None => -1 | Some _ => 0 end, Some value)
      end
  end.

(** res_sched_json_storage_util.cpp:38-41 [ResSchedJsonStorage::RefreshJsonFileInfo] *)
Definition RefreshJsonFileInfo (infos filePath : string) : M Z := SaveJsonValueToFile infos filePath.

(** res_sched_json_storage_util.cpp:43-46 [ResSchedJsonStorage::RestoreJsonFileInfo] *)
Definition RestoreJsonFileInfo (filePath : string) : M (Z * option (option J)) := ParseJsonValueFromFile filePath.
End storage.

(** ** Daily reports and batches of log lines

    [res_sched_event_reporter.cpp]: the sizes of files are reported once a day; the time of the
    last report is kept in a file, and one delayed task waits for the next.
    [batch_log_printer.cpp]: lines of the log are gathered and printed together. *)
(** ** Sizes of files *)

Definition FIRST_REPORT_TIME : Z := 10 * 1000 * 1000. (* res_sched_event_reporter.cpp:27 *)
Definition FILE_SIZE_REPORTER_RECORDER : string := "/data/service/el1/public/ressched/file_size_report_time". (* res_sched_event_reporter.cpp:28 *)
Definition ONE_DAY_MICRO_SECOND : Z := 24 * 60 * 60 * 1000 * 1000. (* res_sched_event_reporter.cpp:29 *)
Definition DATA_FILE_PATH : string := "/data". (* res_sched_event_reporter.cpp:30 *)

(** The clock of the system in microseconds, and the two functions of the base library. *)
Class ReportHost (F : Type) := {
  rh_GetNowMicroTime : F -> Z;
  rh_LoadStringFromFile : string -> F -> string;
  rh_SaveStringToFile : string -> string -> F -> F;
}.

(** A report: the files with their sizes and the free space. *)
Record FileReport := mkFileReport {
  fr_files : list (string * Z);
  fr_remain : option (Z * Z);
}.

(** res_sched_event_reporter.h:54-56 [allFilePaths_] the members, the delays of the tasks that
    wait, and the reports *)
Record Reporter (F : Type) := mkReporter {
  allFilePaths_ : gset string;
  isTaskSubmit_ : bool;
  waiting : list Z;
  rep_host : F;
  reports : list FileReport;
}.
Arguments mkReporter {_}.
Arguments allFilePaths_ {_}.
Arguments isTaskSubmit_ {_}.
Arguments waiting {_}.
Arguments rep_host {_}.
Arguments reports {_}.
#[export] Instance Reporter_eta F : Eta (Reporter F) := fun s =>
  mkReporter (allFilePaths_ s) (isTaskSubmit_ s) (waiting s) (rep_host s) (reports s).

Definition new_Reporter {F} (f : F) : Reporter F := mkReporter ∅ false [] f [].

Section reporter.
Context {F : Type} `{!FileSystem F} `{!ReportHost F}.
#[local] Abbreviation M := (ST (Reporter F)).

(** res_sched_event_reporter.cpp:55-60 [ResschedEventReporter::SubmitDelayTask] *)
Definition SubmitDelayTask (delayTime : Z) : M unit :=
  st_modify (fun s => s <| waiting ::= fun l => l ++ [delayTime] |>).

(** res_sched_event_reporter.cpp:35-46 [ResschedEventReporter::ReportFileSizeEvent] *)
Definition ReportFileSizeEvent (filePaths : list string) : M unit :=
  st_modify (fun s => s <| allFilePaths_ ::= union (list_to_set filePaths) |>);;
  s ← st_get;
  st_when (negb (isTaskSubmit_ s))
    (st_modify (fun s => s <| allFilePaths_ ::= union {[ FILE_SIZE_REPORTER_RECORDER ]} |>);;
     SubmitDelayTask FIRST_REPORT_TIME;;
     st_modify (fun s => s <| isTaskSubmit_ := true |>)).

(** res_sched_event_reporter.cpp:48-53 [ResschedEventReporter::ReportFileSizeEvent] of one path *)
Definition ReportFileSizeEvent_path (filePath : string) : M unit := ReportFileSizeEvent [filePath].

(** res_sched_event_reporter.cpp:86-96 [ResschedEventReporter::ValidReportTime] *)
Definition ValidReportTime (delayTime : Z) : Z :=
  if delayTime <? 0 then 0 else if delayTime >? ONE_DAY_MICRO_SECOND then ONE_DAY_MICRO_SECOND else delayTime.

(** res_sched_event_reporter.cpp:98-119 [ResschedEventReporter::ReportFileSizeInner] *)
Definition ReportFileSizeInner : M unit :=
  s ← st_get;
  let files := (fun item => (item, GetFileSize item (rep_host s))) <$> elements (allFilePaths_ s) in
  let remainSize := GetDeviceValidSize DATA_FILE_PATH (rep_host s) in
  st_modify (fun s => s <| reports ::= fun l => l ++ [mkFileReport files remainSize] |>);;
  st_modify (fun s => s <| rep_host ::= fun f =>
    rh_SaveStringToFile FILE_SIZE_REPORTER_RECORDER (to_string (rh_GetNowMicroTime f)) f |>);;
  SubmitDelayTask ONE_DAY_MICRO_SECOND.

(** res_sched_event_reporter.cpp:62-84 [ResschedEventReporter::ReportFileSizeDaily] the differences
    are taken without the bounds of [int64_t], which they leave only when the recorded time is
    within a day of [2 ^ 63] microseconds *)
Definition ReportFileSizeDaily : M unit :=
  s ← st_get;
  let lastReportTime := rh_LoadStringFromFile FILE_SIZE_REPORTER_RECORDER (rep_host s) in
  if bool_decide (lastReportTime = "") then ReportFileSizeInner else
  match StrToInt64 lastReportTime with
  | None => ReportFileSizeInner
  | Some lastReportTimeValue =>
      if lastReportTimeValue <? 0 then ReportFileSizeInner else
      let nowTime := rh_GetNowMicroTime (rep_host s) in
      if nowTime - lastReportTimeValue <? ONE_DAY_MICRO_SECOND then
        SubmitDelayTask (ValidReportTime (ONE_DAY_MICRO_SECOND - (nowTime - lastReportTimeValue)))
      else ReportFileSizeInner
  end.

(** A waiting task comes due. *)
Definition report_due (i : nat) : M unit :=
  s ← st_get;
  _ <-? waiting s !! i;
  st_modify (fun s => s <| waiting ::= delete i |>);;
  ReportFileSizeDaily.
End reporter.

(** ** Lines of the log *)

Definition PRINT_SIZE : Z := 64. (* batch_log_printer.cpp:24 *)
Definition BATCH_SIZE : Z := 3000. (* batch_log_printer.cpp:25 *)
Definition PRINT_DURATION : Z := 10 * 1000. (* batch_log_printer.cpp:26 *)

(** [GetNowMillTime(true)] and [GetCurrentTimestamp]. *)
Class LogClock (K : Type) := {
  lc_GetNowMillTime : K -> Z;
  lc_GetCurrentTimestamp : K -> Z;
}.

(** batch_log_printer.h:35-37 [logQueue_] the members, with the lines that were printed *)
Record BatchLog (K : Type) := mkBatchLog {
  logQueue_ : list (string * Z);
  allLogs_ : list string;
  lastPrintTimestamp_ : Z;
  lc_clock : K;
  printed : list string;
}.
Arguments mkBatchLog {_}.
Arguments logQueue_ {_}.
Arguments allLogs_ {_}.
Arguments lastPrintTimestamp_ {_}.
Arguments lc_clock {_}.
Arguments printed {_}.
#[export] Instance BatchLog_eta K : Eta (BatchLog K) := fun s =>
  mkBatchLog (logQueue_ s) (allLogs_ s) (lastPrintTimestamp_ s) (lc_clock s) (printed s).

(** The lines that do not fit any more go into the next batch; the separators are not counted. *)
Fixpoint batches (batch : string) (l : list string) : list string :=
  match l with
  | [] => if bool_decide (batch = "") then [] else [batch]
  | item :: l =>
      if Z.of_nat (String.length batch + String.length item) >? BATCH_SIZE then batch :: batches item l
      else batches (if bool_decide (batch = "") then item else batch +:+ "|" +:+ item) l
  end.

Section batch_log.
Context {K : Type} `{!LogClock K}.
#[local] Abbreviation M := (ST (BatchLog K)).

(** batch_log_printer.cpp:31-35 [BatchLogPrinter::BatchLogPrinter] *)
Definition new_BatchLog (k : K) : BatchLog K := mkBatchLog [] [] (lc_GetNowMillTime k) k [].

(** batch_log_printer.cpp:63-80 [BatchLogPrinter::GetBatch] *)
Definition GetBatch : M (list string) :=
  s ← st_get;
  st_modify (fun s => s <| allLogs_ := [] |>);;
  mret (batches "" (allLogs_ s)).

(** batch_log_printer.cpp:48-61 [BatchLogPrinter::RecordLog] *)
Definition RecordLog (log : string) (timestamp : Z) : M unit :=
  st_modify (fun s => s <| allLogs_ ::= fun l => l ++ [to_string timestamp +:+ ":" +:+ log] |>);;
  s ← st_get;
  let currentTimestamp := lc_GetNowMillTime (lc_clock s) in
  st_when ((Z.of_nat (length (allLogs_ s)) >=? PRINT_SIZE)
           || (currentTimestamp - lastPrintTimestamp_ s >=? PRINT_DURATION))
    (batchLogs ← GetBatch;
     st_iter (fun item => st_modify (fun s => s <| printed ::= fun l => l ++ [c_str item] |>)) batchLogs;;
     st_modify (fun s => s <| lastPrintTimestamp_ := currentTimestamp |>)).

(** batch_log_printer.cpp:37-46 [BatchLogPrinter::SubmitLog] *)
Definition SubmitLog (log : string) : M unit :=
  st_modify (fun s => s <| logQueue_ ::= fun l => l ++ [(log, lc_GetCurrentTimestamp (lc_clock s))] |>).

(** The queue runs its oldest task. *)
Definition run_log_task : M unit :=
  s ← st_get;
  match logQueue_ s with
  | [] => mret tt
  | (log, timestamp) :: l => st_modify (fun s => s <| logQueue_ := l |>);; RecordLog log timestamp
  end.
End batch_log.
