(* ===== verification/FileFacts.v ===== *)
(** * Facts about files

    The daily report of the sizes of files, and what the storage of JSON keeps. *)
From S2P Require Import Prelude Json CommonUtil FileUtil.

(** ** The daily report *)

(** What happens: files are named, a task comes due, the world changes. *)
Inductive ReportEvent (F : Type) :=
  | ReAsk (filePaths : list string)
  | ReDue (i : nat)
  | ReWorld (change : F -> F).
Arguments ReAsk {_}.
Arguments ReDue {_}.
Arguments ReWorld {_}.

Section report_facts.
Context {F : Type} `{!FileSystem F} `{!ReportHost F}.
#[local] Abbreviation M := (ST (Reporter F)).

Definition report_step (e : ReportEvent F) : M unit :=
  match e with
  | ReAsk l => ReportFileSizeEvent l
  | ReDue i => report_due i
  | ReWorld f => st_modify (fun s => s <| rep_host ::= f |>)
  end.

(** The files named so far, with the record of the reports itself once there is one. *)
Definition named (es : list (ReportEvent F)) : gset string :=
  foldr (fun e X => match e with ReAsk l => {[ FILE_SIZE_REPORTER_RECORDER ]} ∪ list_to_set l ∪ X | _ => X end) ∅ es.

(** The time of the last report, when the record can be read. *)
Definition last_report (f : F) : option Z :=
  t ← StrToInt64 (rh_LoadStringFromFile FILE_SIZE_REPORTER_RECORDER f);
  if t <? 0 then None else Some t.
Definition day_over (f : F) : bool :=
  match last_report f with
  | None => true
  | Some t => ONE_DAY_MICRO_SECOND <=? rh_GetNowMicroTime f - t
  end.

(** The clock does not show a time before 1970. *)
Definition clock_works : Prop := forall f, 0 <= rh_GetNowMicroTime (F := F) f.

(** The state after the files were named: one task waits, at most a day, once there are files. *)
Record reporting (X : gset string) (s : Reporter F) : Prop := {
  rg_files : allFilePaths_ s = X;
  rg_submitted : isTaskSubmit_ s = bool_decide (X <> ∅);
  rg_record : isTaskSubmit_ s = true -> FILE_SIZE_REPORTER_RECORDER ∈ X;
  rg_waiting : if isTaskSubmit_ s
               then exists d, waiting s = [d] /\ 0 <= d <= ONE_DAY_MICRO_SECOND
               else waiting s = [] /\ reports s = [];
}.

(** What a task does: a report of all files when the day is over, and it waits again, for a day
    after a report and otherwise for the rest of the day. *)
Definition does_its_turn (s s' : Reporter F) : Prop :=
  allFilePaths_ s' = allFilePaths_ s /\ isTaskSubmit_ s' = isTaskSubmit_ s
  /\ if day_over (rep_host s)
     then (exists r, reports s' = reports s ++ [r] /\ (fr_files r).*1 = elements (allFilePaths_ s))
          /\ waiting s' = [ONE_DAY_MICRO_SECOND]
     else reports s' = reports s /\ rep_host s' = rep_host s
          /\ exists t, last_report (rep_host s) = Some t
             /\ waiting s' = [Z.min ONE_DAY_MICRO_SECOND (ONE_DAY_MICRO_SECOND - (rh_GetNowMicroTime (rep_host s) - t))].

Lemma run_inner (s : Reporter F) : exists r f,
  ReportFileSizeInner s = Some (tt, s <| reports ::= fun l => l ++ [r] |> <| rep_host := f |>
    <| waiting ::= fun l => l ++ [ONE_DAY_MICRO_SECOND] |>)
  /\ (fr_files r).*1 = elements (allFilePaths_ s).
Proof.
  exists (mkFileReport ((fun item => (item, GetFileSize item (rep_host s))) <$> elements (allFilePaths_ s))
            (GetDeviceValidSize DATA_FILE_PATH (rep_host s))).
  exists (rh_SaveStringToFile FILE_SIZE_REPORTER_RECORDER (to_string (rh_GetNowMicroTime (rep_host s))) (rep_host s)).
  split; [reflexivity|]. cbn. rewrite <- list_fmap_compose.
  induction (elements (allFilePaths_ s)) as [|x l IH]; [done|]. cbn. by f_equal.
Qed.

Lemma run_due s d : waiting s = [d] -> exists s', report_due 0 s = Some (tt, s') /\ does_its_turn s s'.
Proof.
  intros Hw. unfold report_due. rewrite run_get_bind, Hw. cbn [lookup list_lookup].
  set (s1 := s <| waiting ::= delete 0%nat |>). rewrite (run_bind _ _ _ tt s1) by done.
  assert (Hw1 : waiting s1 = []) by (cbn; by rewrite Hw).
  assert (Hrep : day_over (rep_host s) = true -> exists s', ReportFileSizeInner s1 = Some (tt, s') /\ does_its_turn s s').
  { intros Hd. destruct (run_inner s1) as (r & f & E & Hr). eexists. split; [exact E|].
    unfold does_its_turn. rewrite Hd. cbn in Hw1, Hr |- *. rewrite Hw1. by repeat (split; eauto). }
  unfold ReportFileSizeDaily. rewrite run_get_bind. change (rep_host s1) with (rep_host s). cbv zeta.
  unfold does_its_turn, day_over, last_report in *. case_bool_decide as He; [apply Hrep; by rewrite He|].
  destruct (StrToInt64 _) as [t|] eqn:Et; [|by apply Hrep]. cbn in Hrep |- *.
  destruct (t <? 0) eqn:Hneg; [by apply Hrep|]. set (now := rh_GetNowMicroTime (rep_host s)) in *.
  destruct (now - t <? ONE_DAY_MICRO_SECOND) eqn:Hnow.
  - apply Z.ltb_lt in Hnow. rewrite (proj2 (Z.leb_gt _ _)) by lia. eexists. split; [reflexivity|].
    cbn in Hw1 |- *. rewrite Hw1. split; [done|]. split; [done|]. split; [done|]. split; [done|].
    exists t. split; [done|]. cbn. f_equal. unfold ValidReportTime.
    rewrite (proj2 (Z.ltb_ge _ _)) by lia. rewrite Z.gtb_ltb. by destruct (Z.ltb_spec ONE_DAY_MICRO_SECOND (ONE_DAY_MICRO_SECOND - (now - t))); lia.
  - apply Z.ltb_ge in Hnow. apply Hrep. by apply Z.leb_le.
Qed.

Lemma reporting_turn X s s' :
  clock_works -> reporting X s -> X <> ∅ -> does_its_turn s s' -> reporting X s'.
Proof.
  intros Hc [Hx Hs Hr Hw] HX (Hf & Ht & H'). split; [congruence|congruence|by rewrite Ht|].
  rewrite Ht, Hs, bool_decide_true by done. destruct (day_over _) eqn:Hd.
  - destruct H' as [_ ->]. eexists. split; [done|]. unfold ONE_DAY_MICRO_SECOND. lia.
  - destruct H' as (_ & _ & t & Hl & ->). eexists. split; [done|]. unfold day_over in Hd. rewrite Hl in Hd.
    unfold last_report in Hl. destruct (StrToInt64 _) as [t'|]; [|done]. cbn in Hl.
    destruct (t' <? 0) eqn:?; [done|]. simplify_eq. unfold ONE_DAY_MICRO_SECOND in *. lia.
Qed.

Lemma run_report_step e X s :
  clock_works -> reporting X s -> exists s', report_step e s = Some (tt, s') /\ reporting (named [e] ∪ X) s'.
Proof.
  intros Hc Hs. pose proof Hs as [Hx Hsub Hrec Hw]. destruct e as [l|i|f]; cbn [report_step named foldr].
  - unfold ReportFileSizeEvent. set (s1 := s <| allFilePaths_ ::= union (list_to_set l) |>).
    rewrite (run_bind _ _ _ tt s1) by done. rewrite run_get_bind. change (isTaskSubmit_ s1) with (isTaskSubmit_ s).
    assert (Hne : {[ FILE_SIZE_REPORTER_RECORDER ]} ∪ list_to_set l ∪ ∅ ∪ X <> ∅) by set_solver.
    destruct (isTaskSubmit_ s) eqn:Ht; cbn [negb st_when].
    + exists s1. split; [done|]. split.
      * cbn. rewrite Hx. specialize (Hrec eq_refl). set_solver.
      * cbn. rewrite Ht. by rewrite bool_decide_true.
      * intros _. set_solver.
      * cbn. by rewrite Ht.
    + eexists. split; [reflexivity|]. destruct Hw as [Hw _]. split.
      * cbn. rewrite Hx. set_solver.
      * cbn. by rewrite bool_decide_true.
      * intros _. set_solver.
      * cbn. rewrite Hw. exists FIRST_REPORT_TIME. unfold FIRST_REPORT_TIME, ONE_DAY_MICRO_SECOND. split; [done|lia].
  - rewrite union_empty_l_L. destruct (isTaskSubmit_ s) eqn:Ht.
    + destruct Hw as (d & Hw & _). destruct i as [|i].
      * destruct (run_due s d Hw) as (s' & E & Ht'). exists s'. split; [done|]. eapply reporting_turn; [done..| |done].
        intros HX. by rewrite bool_decide_false in Hsub by (intros Hn; by apply Hn).
      * exists s. split; [|done]. unfold report_due. rewrite run_get_bind, Hw. done.
    + destruct Hw as [Hw _]. exists s. split; [|done]. unfold report_due. rewrite run_get_bind, Hw. done.
  - eexists. split; [reflexivity|]. rewrite union_empty_l_L. by split.
Qed.

Lemma run_report_steps es X s :
  clock_works -> reporting X s -> exists s', st_iter report_step es s = Some (tt, s') /\ reporting (named es ∪ X) s'.
Proof.
  intros Hc. revert X s. induction es as [|e es IH]; intros X s Hs.
  - exists s. split; [done|]. cbn. by rewrite union_empty_l_L.
  - destruct (run_report_step e X s Hc Hs) as (s1 & E1 & Hs1). destruct (IH _ _ Hs1) as (s2 & E2 & Hs2).
    exists s2. split; [cbn [st_iter]; by rewrite (run_bind _ _ _ _ _ E1)|].
    assert (Hn : named (e :: es) ∪ X = named es ∪ (named [e] ∪ X)) by (destruct e; cbn; set_solver).
    by rewrite Hn.
Qed.
End report_facts.

(** C24: Over any history of requests, due tasks and changes of the world, all files that were
    ever named are kept, and from the first request on exactly one task waits, for at most a day;
    when it comes due it either reports the size of every file named so far, which it does
    exactly when the record of the last report is not a time less than a day ago, or it makes no
    report and waits for the rest of the day, and one task waits again. *)
Theorem files_reported_daily {F} `{!FileSystem F} `{!ReportHost F} (f : F) es :
  clock_works (F := F) -> exists s, st_iter report_step es (new_Reporter f) = Some (tt, s)
    /\ allFilePaths_ s = named es
    /\ if bool_decide (named es = ∅) then waiting s = [] /\ reports s = []
       else (exists d, waiting s = [d] /\ 0 <= d <= ONE_DAY_MICRO_SECOND)
            /\ exists s', report_due 0 s = Some (tt, s') /\ does_its_turn s s'.
Proof.
  intros Hc. destruct (run_report_steps es ∅ (new_Reporter f) Hc) as (s & E & [Hx Hs _ Hw]).
  { by split. }
  rewrite union_empty_r_L in Hx, Hs. exists s. split; [done|]. split; [done|]. rewrite Hs in Hw.
  destruct (decide (named es = ∅)) as [Hn|Hn].
  - rewrite bool_decide_false in Hw by (intros Hn'; by apply Hn'). by rewrite bool_decide_true.
  - rewrite bool_decide_true in Hw by done. rewrite bool_decide_false by done. split; [done|].
    destruct Hw as (d & Hd & _). by eapply run_due.
Qed.


(** ** The storage of JSON *)

Lemma substr_from_cons i c s : substr_from (S i) (String c s) = substr_from i s.
Proof. done. Qed.

(** The last place divides the text, and the character is not in what follows. *)
Lemma find_last_split c s i :
  find_last c s = Some i ->
  s = substring 0 i s +:+ String c (substr_from (S i) s) /\ find_last c (substr_from (S i) s) = None.
Proof.
  revert i. induction s as [|c' s IH]; intros i Hi; [done|]. cbn [find_last] in Hi. rewrite substr_from_cons.
  destruct (find_last c s) as [j|] eqn:Ej.
  - simplify_eq. destruct (IH j eq_refl) as [E1 E2]. split; [|done]. exact (f_equal (String c') E1).
  - case_bool_decide as Hc; [|done]. simplify_eq. unfold substr_from. rewrite Nat.sub_0_r, substring_all. by split.
Qed.

Lemma contains_find_last c s : find_last c s = None -> contains_char c s = false.
Proof.
  unfold contains_char. intros Hl. apply bool_decide_eq_false. intros Hf. apply Hf. clear Hf.
  induction s as [|c' s IH]; [done|]. cbn in *. destruct (find_last c s); [done|]. case_bool_decide; [done|].
  by rewrite IH.
Qed.

Section storage_facts.
Context {J F : Type} `{!JsonText J} `{!FileSystem F}.

(** What the file system does: a file that was opened for output is empty, output adds to it what
    the file took, a start of the text, and the paths that lead to a file lead to it afterwards.
    Nothing says that the file takes all of the text, nor that it can be read. *)
Class FileLaws : Prop := {
  fl_open p (f f' : F) old : fs_open_out p f = Some f' -> fs_read p f' = Some old -> old = "";
  fl_put p text (f : F) data :
    fs_read p (fs_put p text f).2 = Some data ->
    exists old, fs_read p f = Some old /\ data = old +:+ substring 0 (fs_put p text f).1 text;
  fl_open_path q p (f f' : F) : fs_open_out p f = Some f' -> fs_realpath q f = Some p -> fs_realpath q f' = Some p;
  fl_put_path q p text (f : F) : fs_realpath q f = Some p -> fs_realpath q (fs_put p text f).2 = Some p;
}.

Lemma run_ConvertFullPath path (s : F) :
  ConvertFullPath path s
  = Some (if bool_decide (path = "") || bool_decide (PATH_MAX (F := F) <= String.length path)%nat then None
          else fs_realpath (c_str path) s, s).
Proof. unfold ConvertFullPath. by destruct (_ || _). Qed.

(** What a reader gets of a file that holds a text. *)
Definition restored (data : string) : Z * option (option J) :=
  if MAX_JSON_FILE_SIZE <? Z.of_nat (String.length data) then (-1, None)
  else (match json_parse (J := J) data with None => -1 | Some _ => 0 end, Some (json_parse data)).

(** The file that is created for a path: at its own place, or in the directory of the path under
    a name that stays there. *)
Definition in_its_place (filePath p : string) (s : F) : Prop :=
  fs_realpath (c_str filePath) s = Some p
  \/ exists dir name parent, filePath = dir +:+ "/" +:+ name /\ fs_realpath (c_str dir) s = Some parent
       /\ p = parent +:+ "/" +:+ name
       /\ contains_char slash name = false /\ contains_char "\"%char name = false /\ contains_dots name = false.

Lemma node_path_in_place filePath (s s' : F) p :
  node_path filePath s = Some (Some p, s') -> s' = s /\ in_its_place filePath p s.
Proof.
  unfold node_path. rewrite (run_bind _ _ _ _ _ (run_ConvertFullPath filePath s)).
  destruct (bool_decide _ || _) eqn:E1; [|destruct (fs_realpath (c_str filePath) s) as [q|] eqn:Eq];
    [|intros [= <- <-]; split; [done|by left]|].
  all: destruct (find_last slash filePath) as [i|] eqn:Ei; [|done].
  all: destruct (find_last_split _ _ _ Ei) as [Hs Hn].
  all: destruct (contains_char slash _ || contains_char _ _) eqn:E2; [done|]; destruct (contains_dots _) eqn:E3; [done|].
  all: rewrite (run_bind _ _ _ _ _ (run_ConvertFullPath _ s)); destruct (bool_decide (substring 0 i filePath = "") || _) eqn:E4; [intros [=]|].
  all: destruct (fs_realpath (c_str (substring 0 i filePath)) s) as [q'|] eqn:Ed; [|intros [=]].
  all: intros [= <- <-]; split; [done|right]; exists (substring 0 i filePath), (substr_from (S i) filePath), q'.
  all: apply orb_false_iff in E2 as [E2a E2b]; split; [exact Hs|done].
Qed.

Lemma run_CreateNodeFile filePath (s s' : F) :
  CreateNodeFile filePath s = Some (true, s') ->
  (s' = s /\ fs_access (c_str filePath) s = true)
  \/ exists p, in_its_place filePath p s /\ fs_open_create (c_str p) s = (true, s').
Proof.
  unfold CreateNodeFile. rewrite (run_bind _ _ _ (fs_access (c_str filePath) s) s) by done.
  destruct (fs_access _ _) eqn:Ea; [intros [= <-]; by left|]. intros E. right.
  unfold mbind, ST_bind in E. destruct (node_path filePath s) as [[[p|] s1]|] eqn:En; [|done|done].
  apply node_path_in_place in En as [-> Hp]. exists p. split; [done|]. unfold fs_do in E. congruence.
Qed.
End storage_facts.
Arguments FileLaws _ {_}.

(** C25: What was saved is restored, as far as the file took it.  When the storage says that a
    text was saved, the file at the path took the first [n] characters of it, the text up to its
    first zero and a line end, and nobody looks whether that is all; reading the path again fails
    when the file cannot be opened, and else gives the parse of exactly these characters, or
    fails when they exceed the limit of ten megabytes, as the line end may make them.  The file
    that was created for the path, if it did not exist, lies at the place of the path itself or in
    the real directory of the path under a last name without separators and double dots. *)
Theorem saved_is_restored {J F} `{!JsonText J} `{!FileSystem F} `{!FileLaws F} value filePath (s s' : F) :
  RefreshJsonFileInfo value filePath s = Some (0, s') ->
  (exists real n s2, fs_realpath (c_str filePath) s' = Some real
     /\ fs_put real (stored_text value) s2 = (n, s')
     /\ (forall data, fs_read real s' = Some data -> data = substring 0 n (stored_text value))
     /\ RestoreJsonFileInfo (J := J) filePath s'
        = Some (match fs_read real s' with
                | None => (-1, None)
                | Some _ => restored (substring 0 n (stored_text value)) end, s'))
  /\ (fs_access (c_str filePath) s = true
      \/ exists p, in_its_place filePath p s /\ (fs_open_create (c_str p) s).1 = true).
Proof.
  unfold RefreshJsonFileInfo, SaveJsonValueToFile. destruct (bool_decide (filePath = "")); [done|].
  destruct (_ <? _); [done|]. intros E. unfold mbind at 1, ST_bind in E.
  destruct (CreateNodeFile filePath s) as [[[] s1]|] eqn:Ec; [|done|done]. cbn [negb] in E.
  rewrite (run_bind _ _ _ _ _ (run_ConvertFullPath filePath s1)) in E.
  destruct (bool_decide (filePath = "") || _) eqn:Eb; [done|].
  destruct (fs_realpath (c_str filePath) s1) as [real|] eqn:Er; [|done].
  unfold mbind, ST_bind, st_get in E. cbv beta iota in E.
  destruct (fs_open_out real s1) as [s2|] eqn:Eo; [|done]. injection E as <-. split.
  - set (s' := (fs_put real (stored_text value) s2).2).
    assert (Hp : fs_realpath (c_str filePath) s' = Some real) by by eapply fl_put_path, fl_open_path.
    assert (Hd : forall data, fs_read real s' = Some data ->
      data = substring 0 (fs_put real (stored_text value) s2).1 (stored_text value)).
    { intros data (old & Hold & ->)%fl_put. by rewrite (fl_open _ _ _ _ Eo Hold). }
    exists real, (fs_put real (stored_text value) s2).1, s2. split_and!; [done|by destruct (fs_put _ _ _)|done|].
    unfold RestoreJsonFileInfo, ParseJsonValueFromFile.
    rewrite (run_bind _ _ _ _ _ (run_ConvertFullPath filePath s')), Eb, Hp.
    rewrite (run_bind _ _ _ (fs_read real s') s') by done.
    destruct (fs_read real s') as [data|] eqn:Ed; [|done]. rewrite (Hd data eq_refl).
    unfold restored. cbv zeta. by destruct (_ <? _).
  - destruct (run_CreateNodeFile _ _ _ Ec) as [[_ Ha]|(p & Hp & Hc)]; [by left|right]. exists p. by rewrite Hc.
Qed.

(** ** Examples *)

(** A clock and files that all lie in one directory; the one of the name [full] takes one character. *)
Definition demo_files : Type := Z * gmap string string.
#[local] Instance demo_fs : FileSystem demo_files := {
  PATH_MAX := 4096%nat;
  fs_access p f := bool_decide (is_Some (f.2 !! p));
  fs_realpath p f := if bool_decide (is_Some (f.2 !! p) \/ p = "/data") then Some p else None;
  fs_stat p f := (fun text => mkStat false false (Z.of_nat (String.length text))) <$> f.2 !! p;
  fs_readdir _ f := Some (map_to_list f.2).*1;
  fs_open_write p f := None;
  fs_open_create p f := (true, (f.1, <[p := default "" (f.2 !! p)]> f.2));
  fs_write _ _ f := f;
  fs_mkdir _ f := (true, f);
  fs_read p f := f.2 !! p;
  fs_open_out p f := Some (f.1, <[p := ""]> f.2);
  fs_put p text f :=
    let n := if bool_decide (p = "/data/full") then 1%nat else String.length text in
    (n, (f.1, alter (fun old => old +:+ substring 0 n text) p f.2));
  fs_statfs _ _ := Some (100, 4096);
  fs_copy _ _ f := (true, f);
  fs_PathToRealPath p f := Some p;
  fs_IncludeTrailingPathDelimiter p := p +:+ "/";
  fs_ExtractFileName p := p;
  fs_IsEmptyFolder _ _ := false;
  fs_ForceCreateDirectory _ f := (true, f);
  fs_ChangeModeDirectory _ _ f := (true, f);
  fs_ForceRemoveDirectory _ f := (true, f);
  fs_RemoveFile p f := (true, (f.1, delete p f.2));
  fs_SaveStringToFile p text _ f := (true, (f.1, <[p := text]> f.2));
  fs_GetOneCfgFile _ _ := None;
}.
#[local] Instance demo_laws : FileLaws demo_files.
Proof.
  split.
  - intros p f f' old [= <-]. cbn. rewrite lookup_insert_eq. by intros [= <-].
  - intros p text f data. cbn. rewrite lookup_alter_eq. destruct (f.2 !! p) as [old|]; [|done].
    intros [= <-]. by exists old.
  - intros q p f f' [= <-]. cbn. intros Hq. case_bool_decide as Hc; [|done]. injection Hq as <-.
    rewrite bool_decide_true; [done|]. left. rewrite lookup_insert_eq. by eexists.
  - intros q p text f. cbn. intros Hq. case_bool_decide as Hc; [|done]. injection Hq as <-.
    rewrite bool_decide_true; [done|]. rewrite lookup_alter_eq, fmap_is_Some. exact Hc.
Qed.
#[local] Instance demo_report : ReportHost demo_files := {
  rh_GetNowMicroTime f := Z.abs f.1;
  rh_LoadStringFromFile p f := default "" (f.2 !! p);
  rh_SaveStringToFile p text f := (f.1, <[p := text]> f.2);
}.

(** The first task reports one file; half a day later its successor waits; a day later it reports
    both. *)
Definition demo_days : list (ReportEvent demo_files) :=
  let later (d : Z) := ReWorld (fun f : demo_files => (f.1 + d, f.2)) in
  [ReAsk ["/data/a"]; ReDue 0; later (ONE_DAY_MICRO_SECOND / 2); ReAsk ["/data/b"]; ReDue 0;
   later ONE_DAY_MICRO_SECOND; ReDue 0].
Definition demo_start : demo_files := (5000, {[ "/data/a" := "xyz"; "/data/b" := "12" ]}).

Lemma files_reported_daily_witness :
  (exists s, st_iter report_step demo_days (new_Reporter demo_start) = Some (tt, s)
    /\ allFilePaths_ s = named demo_days /\ exists s', report_due 0 s = Some (tt, s') /\ does_its_turn s s')
  /\ (fun r => (fun x => length (fr_files x)) <$> reports r.2) <$> st_iter report_step demo_days (new_Reporter demo_start)
     = Some [2; 3]%nat.
Proof.
  split; [|vm_compute; reflexivity].
  destruct (files_reported_daily demo_start demo_days) as (s & E & Hf & H).
  - intros f. apply Z.abs_nonneg.
  - exists s. split; [exact E|]. split; [exact Hf|]. rewrite bool_decide_false in H by (apply (bool_decide_unpack _); vm_compute; exact I).
    exact (proj2 H).
Defined.

(** Values that are their own text. *)
#[local] Instance demo_text : JsonText string := {
  json_object := "{}";
  json_parse s := if bool_decide (s = "") then None else Some s;
  json_dump s := s;
}.

(** A file that takes everything, and one on a full disk; the storage says that both were saved. *)
Lemma saved_is_restored_witness : exists s1 s2,
  RefreshJsonFileInfo "{}" "/data/c" demo_start = Some (0, s1)
  /\ RestoreJsonFileInfo (J := string) "/data/c" s1 = Some ((0, Some (Some ("{}" +:+ String "010"%char ""))), s1)
  /\ RefreshJsonFileInfo "{}" "/data/full" demo_start = Some (0, s2)
  /\ RestoreJsonFileInfo (J := string) "/data/full" s2 = Some ((0, Some (Some "{")), s2).
Proof.
  assert (H : forall path r, (fst <$> RefreshJsonFileInfo "{}" path demo_start = Some 0) ->
    (forall s, RefreshJsonFileInfo "{}" path demo_start = Some (0, s) ->
       forall real n s2, fs_realpath (c_str path) s = Some real -> fs_put real (stored_text "{}") s2 = (n, s) ->
       match fs_read real s with
       | None => (-1, None) | Some _ => restored (J := string) (substring 0 n (stored_text "{}")) end = r) ->
    exists s, RefreshJsonFileInfo "{}" path demo_start = Some (0, s)
      /\ RestoreJsonFileInfo (J := string) path s = Some (r, s)).
  { intros path r H0 Hr. destruct (RefreshJsonFileInfo "{}" path demo_start) as [[c s]|] eqn:E; [|done].
    injection H0 as ->. exists s. split; [done|].
    destruct (saved_is_restored (J := string) "{}" path demo_start s E) as ((real & n & s2 & Hp & Hput & _ & ->) & _).
    by rewrite (Hr s eq_refl real n s2 Hp Hput). }
  destruct (H "/data/c" (0, Some (Some ("{}" +:+ String "010"%char "")))) as (s1 & E1 & R1); [reflexivity| |].
  { intros s E real n s2 Hp Hput. vm_compute in E. injection E as <-. vm_compute in Hp. injection Hp as <-.
    injection Hput as <- _. vm_compute. reflexivity. }
  destruct (H "/data/full" (0, Some (Some "{"))) as (s3 & E3 & R3); [reflexivity| |].
  { intros s E real n s2 Hp Hput. vm_compute in E. injection E as <-. vm_compute in Hp. injection Hp as <-.
    injection Hput as <- _. vm_compute. reflexivity. }
  exists s1, s3. by split_and!.
Defined.
