(* ===== verification/KitSystemload.v ===== *)
(** * System load for scripts

    [interfaces/kits/js/napi/systemload]: functions of scripts are told the load of the system.
    A function that is switched on gets a listener, which the client library calls on any
    thread; the call is passed to the thread of the script, which looks the function up again
    and sends itself an event that makes the call.  The binding for static scripts,
    [kits/ets/taihe/systemload], keeps a list of its own.  One environment of scripts; calls of
    the engine succeed but for the two that pass something on, which are a class. *)
From S2P Require Import Prelude Json ResType CommonUtil ServiceWorld Client.

Definition SYSTEMLOAD_LEVEL : string := "systemLoadChange". (* js_systemload.cpp:29 *)
Definition ON : Z := 1. (* js_systemload.cpp:30 *)
Definition OFF : Z := 0. (* js_systemload.cpp:31 *)
Definition E_PARAM_ERROR : Z := 401. (* js_systemload.h:35 *)

(** js_systemload.h:37-39 [systemloadParamErrMsgMap] *)
Definition systemloadParamErrMsgMap : gmap Z string :=
  {[ E_PARAM_ERROR := "Error 401: Parameter error. The input param is error" ]}.

(** A value of a script: functions are told apart by their identity. *)
Inductive JsValue :=
  | JsString (s : string)
  | JsFunction (f : Z)
  | JsNumber (z : Z)
  | JsUndefined.
#[export] Instance JsValue_eq : EqDecision JsValue.
Proof. solve_decision. Defined.

(** Whether the call of a thread-safe function, and the sending of an event, succeed. *)
Class ScriptEngine (W : Type) := {
  se_call_threadsafe_function : W -> bool;
  se_send_event : W -> bool;
}.

(** js_systemload.h:86-87 [jsCallBackMap_] the callbacks with their listeners; the listeners that
    exist with their functions; the calls that wait for the thread of the script, the events it
    sent itself, and the calls it made; the work for [getLevel] by its promise, and the
    promises that were kept *)
Record LoadKit (W : Type) := mkLoadKit {
  jsCallBackMap_ : gmap string (list (Z * Z));
  lk_listeners : gmap Z Z;
  next_object : Z;
  tsfn_calls : list (Z * Z);
  sent_events : list (Z * Z);
  js_calls : list (Z * Z);
  async_works : gmap Z (option Z);
  resolved : list (Z * Z);
  kit_client : Client W;
}.
Arguments mkLoadKit {_}.
Arguments jsCallBackMap_ {_}.
Arguments lk_listeners {_}.
Arguments next_object {_}.
Arguments tsfn_calls {_}.
Arguments sent_events {_}.
Arguments js_calls {_}.
Arguments async_works {_}.
Arguments resolved {_}.
Arguments kit_client {_}.
#[export] Instance LoadKit_eta W : Eta (LoadKit W) := fun s =>
  mkLoadKit (jsCallBackMap_ s) (lk_listeners s) (next_object s) (tsfn_calls s) (sent_events s) (js_calls s)
    (async_works s) (resolved s) (kit_client s).

Definition new_LoadKit {W} (w : W) : LoadKit W := mkLoadKit ∅ ∅ 0 [] [] [] ∅ [] (new_Client w).

Section systemload.
Context {J W : Type} `{!Json J} `{!JsonText J} `{!RemoteService W} `{!ClientEnv} `{!ErrCodes} `{!ScriptEngine W}.
#[local] Abbreviation M := (ST (LoadKit W)).

Definition in_client {A} (m : ST (Client W) A) : M A := fun s =>
  match m (kit_client s) with
  | Some (a, c) => Some (a, s <| kit_client := c |>)
  | None => None
  end.

(** js_systemload.cpp:60-71 [Systemload::HandleErrCode] the error that is thrown, by its code and message *)
Definition HandleErrCode (errCode : Z) : option (string * string) :=
  if errCode =? ERR_OK then None
  else Some (to_string errCode, default "" (systemloadParamErrMsgMap !! errCode)).

(** js_systemload.cpp:280-315 [Systemload::CheckCallbackParam] an argument that is not given is
    undefined *)
Definition CheckCallbackParam (args : list JsValue) (status : Z) : option (string * JsValue) :=
  if (status =? ON) && negb (Z.of_nat (length args) =? 2) then None else
  match default JsUndefined (args !! 0%nat) with
  | JsString cbType =>
      if negb (bool_decide (c_str cbType = SYSTEMLOAD_LEVEL)) then None else
      let jsCallback := default JsUndefined (args !! 1%nat) in
      let isCallable := match jsCallback with JsFunction _ => true | _ => false end in
      if (status =? ON) && negb isCallable then None else Some (c_str cbType, jsCallback)
  | _ => None
  end.

(** js_systemload.cpp:73-119 [Systemload::OnSystemloadLevel] *)
Definition Systemload_OnSystemloadLevel (callbackObj level : Z) : M unit :=
  s ← st_get;
  callbackList <-? jsCallBackMap_ s !! SYSTEMLOAD_LEVEL;
  ret_if negb (bool_decide (callbackObj ∈ callbackList.*1));
  st_when (se_send_event (remote (kit_client s)))
    (st_modify (fun s => s <| sent_events ::= fun l => l ++ [(callbackObj, level)] |>)).

(** js_systemload.cpp:121-163 [Systemload::RegisterSystemloadCallback] *)
Definition RegisterSystemloadCallback (args : list JsValue) : M (option (string * string)) :=
  match CheckCallbackParam args ON with
  | Some (cbType, JsFunction jsCallback) =>
      st_modify (fun s => s <| jsCallBackMap_ ::= fun m => <[cbType := default [] (m !! cbType)]> m |>);;
      s ← st_get;
      let callbackList := default [] (jsCallBackMap_ s !! cbType) in
      if bool_decide (jsCallback ∈ callbackList.*1) then mret None else
      let systemloadListener := next_object s in
      st_modify (fun s => s <| next_object ::= Z.succ |>
        <| lk_listeners ::= <[systemloadListener := jsCallback]> |>);;
      in_client (Client_RegisterSystemloadNotifier (Some systemloadListener));;
      st_modify (fun s => s <| jsCallBackMap_ ::= <[cbType := callbackList ++ [(jsCallback, systemloadListener)]]> |>);;
      mret None
  | _ => mret (HandleErrCode E_PARAM_ERROR)
  end.

(** js_systemload.cpp:165-200 [Systemload::UnRegisterSystemloadCallback] *)
Definition UnRegisterSystemloadCallback (args : list JsValue) : M (option (string * string)) :=
  match CheckCallbackParam args OFF with
  | Some (cbType, jsCallback) =>
      s ← st_get;
      match jsCallBackMap_ s !! cbType with
      | None => mret (HandleErrCode E_PARAM_ERROR)
      | Some callbackList =>
          match list_find (fun iter => JsFunction iter.1 = jsCallback) callbackList with
          | None => mret (HandleErrCode E_PARAM_ERROR)
          | Some (i, iter) =>
              in_client (Client_UnRegisterSystemloadNotifier (Some iter.2));;
              st_modify (fun s => s <| jsCallBackMap_ ::= <[cbType := delete i callbackList]> |>);;
              mret None
          end
      end
  | None => mret (HandleErrCode E_PARAM_ERROR)
  end.

(** js_systemload.cpp:45-48 [Systemload::SystemloadOn] *)
Definition SystemloadOn (args : list JsValue) : M (option (string * string)) := RegisterSystemloadCallback args.

(** js_systemload.cpp:50-53 [Systemload::SystemloadOff] *)
Definition SystemloadOff (args : list JsValue) : M (option (string * string)) := UnRegisterSystemloadCallback args.

(** js_systemload.cpp:39-43 [Systemload::~Systemload] *)
Definition Systemload_destroy : M unit := st_modify (fun s => s <| jsCallBackMap_ := ∅ |>).

(** js_systemload.cpp:202-225 [Systemload::GetSystemloadLevel] gives the promise *)
Definition GetSystemloadLevel : M Z :=
  s ← st_get;
  let deferred := next_object s in
  st_modify (fun s => s <| next_object ::= Z.succ |> <| async_works ::= <[deferred := None]> |>);;
  mret deferred.

(** js_systemload.cpp:55-58 [Systemload::GetLevel] *)
Definition GetLevel : M Z := GetSystemloadLevel.

(** js_systemload.cpp:227-237 [Systemload::Execute] of a work that waits *)
Definition Execute (deferred : Z) : M unit :=
  s ← st_get;
  match async_works s !! deferred with
  | Some None =>
      result ← in_client Client_GetSystemloadLevel;
      st_modify (fun s => s <| async_works ::= <[deferred := Some result]> |>)
  | _ => mret tt
  end.

(** js_systemload.cpp:239-254 [Systemload::Complete] of a work that was executed *)
Definition Complete (deferred : Z) : M unit :=
  s ← st_get;
  match async_works s !! deferred with
  | Some (Some result) =>
      st_modify (fun s => s <| resolved ::= fun l => l ++ [(deferred, to_u32 result)] |>
        <| async_works ::= delete deferred |>)
  | _ => mret tt
  end.

(** js_systemload.cpp:256-278 [Systemload::CompleteCb] of the oldest event *)
Definition CompleteCb : M unit :=
  s ← st_get;
  match sent_events s with
  | [] => mret tt
  | (callback, level) :: l =>
      st_modify (fun s => s <| sent_events := l |> <| js_calls ::= fun l => l ++ [(callback, to_u32 level)] |>)
  end.

(** ** The listener *)

(** js_systemload_listener.cpp:53-70 [SystemloadListener::OnSystemloadLevel] of a listener that exists *)
Definition Listener_OnSystemloadLevel (listener level : Z) : M unit :=
  s ← st_get;
  callback <-? lk_listeners s !! listener;
  st_when (se_call_threadsafe_function (remote (kit_client s)))
    (st_modify (fun s => s <| tsfn_calls ::= fun l => l ++ [(callback, level)] |>)).

(** js_systemload_listener.cpp:44-51 [SystemloadListener::ThreadSafeCallBack] of the oldest call *)
Definition ThreadSafeCallBack : M unit :=
  s ← st_get;
  match tsfn_calls s with
  | [] => mret tt
  | (callback, level) :: l =>
      st_modify (fun s => s <| tsfn_calls := l |>);;
      Systemload_OnSystemloadLevel callback level
  end.

(** The calls that the client library makes of the listeners, when it is told a level. *)
Definition listener_call (c : CCall) : M unit :=
  match c with
  | COnSystemloadLevel listener level => Listener_OnSystemloadLevel listener level
  | _ => mret tt
  end.
Definition level_arrives (level : Z) : M Z :=
  s ← st_get;
  ret ← in_client (OnSystemloadLevel level);
  s' ← st_get;
  st_iter listener_call (drop (length (c_trace (kit_client s))) (c_trace (kit_client s')));;
  mret ret.
End systemload.

(** res_value.h:604-613 [SystemloadLevel] *)
Inductive SystemloadLevel :=
  | LOW | NORMAL | MEDIUM | HIGH | OVERHEATED | WARNING | EMERGENCY | ESCAPE.
(** res_value.h:604-613 [SystemloadLevel] the numbers *)
Definition level_number (l : SystemloadLevel) : Z :=
  match l with
  | LOW => 0 | NORMAL => 1 | MEDIUM => 2 | HIGH => 3 | OVERHEATED => 4 | WARNING => 5 | EMERGENCY => 6 | ESCAPE => 7
  end.

(** js_systemload_napi_init.cpp:54-80 [InitSystemloadLevelType] the properties of [SystemLoadLevel] *)
Definition systemload_properties : list (string * Z) :=
  prod_map id level_number <$>
  [("LOW", LOW); ("NORMAL", NORMAL); ("MEDIUM", MEDIUM); ("HIGH", HIGH); ("OVERHEATED", OVERHEATED);
   ("WARNING", WARNING); ("EMERGENCY", EMERGENCY); ("ESCAPE", ESCAPE)].

(** ** Static scripts *)

Module Taihe.

(** The list of callbacks with their listeners, the listeners, and the calls made. *)
Record Systemload (W : Type) := mkSystemload {
  callbackList_ : list (Z * Z);
  th_listeners : gmap Z Z;
  th_next : Z;
  th_calls : list (Z * Z);
  th_client : Client W;
}.
Arguments mkSystemload {_}.
Arguments callbackList_ {_}.
Arguments th_listeners {_}.
Arguments th_next {_}.
Arguments th_calls {_}.
Arguments th_client {_}.
#[export] Instance Systemload_eta W : Eta (Systemload W) := fun s =>
  mkSystemload (callbackList_ s) (th_listeners s) (th_next s) (th_calls s) (th_client s).

Section taihe.
Context {J W : Type} `{!Json J} `{!JsonText J} `{!RemoteService W} `{!ClientEnv} `{!ErrCodes}.
#[local] Abbreviation M := (ST (Systemload W)).

Definition th_in_client {A} (m : ST (Client W) A) : M A := fun s =>
  match m (th_client s) with
  | Some (a, c) => Some (a, s <| th_client := c |>)
  | None => None
  end.

(** ohos.resourceschedule.systemload.impl.cpp:35-38 [SystemloadCallback::OnSystemloadLevel] *)
Definition Callback_OnSystemloadLevel (listener level : Z) : M unit :=
  s ← st_get;
  callback <-? th_listeners s !! listener;
  st_modify (fun s => s <| th_calls ::= fun l => l ++ [(callback, level)] |>).

(** ohos.resourceschedule.systemload.impl.cpp:46-65 [onSystemLoadChange] *)
Definition onSystemLoadChange (callback : Z) : M unit :=
  s ← st_get;
  ret_if bool_decide (callback ∈ (callbackList_ s).*1);
  let systemloadListener := th_next s in
  st_modify (fun s => s <| th_next ::= Z.succ |> <| th_listeners ::= <[systemloadListener := callback]> |>);;
  th_in_client (Client_RegisterSystemloadNotifier (Some systemloadListener));;
  st_modify (fun s => s <| callbackList_ ::= fun l => l ++ [(callback, systemloadListener)] |>).

(** ohos.resourceschedule.systemload.impl.cpp:67-80 [offSystemLoadChange] *)
Definition offSystemLoadChange (callback : option Z) : M unit :=
  s ← st_get;
  match list_find (fun iter => Some iter.1 = callback) (callbackList_ s) with
  | None => mret tt
  | Some (i, iter) =>
      th_in_client (Client_UnRegisterSystemloadNotifier (Some iter.2));;
      st_modify (fun s => s <| callbackList_ ::= delete i |>)
  end.

(** ohos.resourceschedule.systemload.impl.cpp:82-85 [getLevelSync] *)
Definition getLevelSync : M Z := th_in_client Client_GetSystemloadLevel.
End taihe.
End Taihe.

(** ** What scripts can rely on

    An abstract binding knows the functions that are switched on, in the order in which they
    were, the calls that wait and the events that were sent. *)

Record Loads := mkLoads {
  lo_on : list Z;
  lo_waiting : list (Z * Z);
  lo_sent : list (Z * Z);
  lo_called : list (Z * Z);
}.
#[export] Instance Loads_eta : Eta Loads := fun a =>
  mkLoads (lo_on a) (lo_waiting a) (lo_sent a) (lo_called a).

(** What happens: a script calls on or off, the service tells a level, the thread of the script
    takes the oldest call or the oldest event, and the service dies. *)
Inductive KitEvent :=
  | KeOn (args : list JsValue)
  | KeOff (args : list JsValue)
  | KeLevel (level : Z)
  | KeThread
  | KeEvent
  | KeDied.

(** The name of the event in the arguments. *)
Definition names_systemload (v : JsValue) : bool :=
  match v with JsString t => bool_decide (c_str t = "systemLoadChange") | _ => false end.
Definition wrong_parameter : option (string * string) :=
  Some ("401", "Error 401: Parameter error. The input param is error").

Definition loads_step (e : KitEvent) (a : Loads) : option (string * string) * Loads :=
  match e with
  | KeOn [name; JsFunction f] =>
      if names_systemload name
      then (None, if bool_decide (f ∈ lo_on a) then a else a <| lo_on ::= fun l => l ++ [f] |>)
      else (wrong_parameter, a)
  | KeOn _ => (wrong_parameter, a)
  | KeOff (name :: JsFunction f :: _) =>
      if names_systemload name && bool_decide (f ∈ lo_on a)
      then (None, a <| lo_on ::= filter (fun g => g <> f) |>) else (wrong_parameter, a)
  | KeOff _ => (wrong_parameter, a)
  | KeLevel level => (None, a <| lo_waiting ::= fun l => l ++ ((fun f => (f, level)) <$> lo_on a) |>)
  | KeThread =>
      (None, match lo_waiting a with
             | [] => a
             | (f, level) :: l =>
                 let a := a <| lo_waiting := l |> in
                 if bool_decide (f ∈ lo_on a) then a <| lo_sent ::= fun l => l ++ [(f, level)] |> else a
             end)
  | KeEvent =>
      (None, match lo_sent a with
             | [] => a
             | (f, level) :: l => a <| lo_sent := l |> <| lo_called ::= fun l => l ++ [(f, to_u32 level)] |>
             end)
  | KeDied => (None, a)
  end.

(** A history: what each step throws, and the state at the end. *)
Fixpoint loads_run (es : list KitEvent) (a : Loads) : list (option (string * string)) * Loads :=
  match es with
  | [] => ([], a)
  | e :: es => let r := loads_step e a in let r' := loads_run es r.2 in (r.1 :: r'.1, r'.2)
  end.

Section systemload_facts.
Context {J W : Type} `{!Json J} `{!JsonText J} `{!RemoteService W} `{!ClientEnv} `{!ErrCodes} `{!ScriptEngine W}.
#[local] Abbreviation M := (ST (LoadKit W)).
Implicit Types (s : LoadKit W) (c : Client W).

Definition kit_step (e : KitEvent) : M (option (string * string)) :=
  match e with
  | KeOn args => SystemloadOn args
  | KeOff args => SystemloadOff args
  | KeLevel level => level_arrives level;; mret None
  | KeThread => ThreadSafeCallBack;; mret None
  | KeEvent => CompleteCb;; mret None
  | KeDied => in_client OnRemoteDied;; mret None
  end.
Fixpoint kit_run (es : list KitEvent) : M (list (option (string * string))) :=
  match es with
  | [] => mret []
  | e :: es => t ← kit_step e; ts ← kit_run es; mret (t :: ts)
  end.

(** The engine passes on what it is given. *)
Definition engine_works : Prop :=
  forall w, se_call_threadsafe_function w = true /\ se_send_event w = true.

(** *** The client library *)

Definition load_listeners c : list Z := default [] (systemloadLevelListener_ c).

Definition listening (cbs : list Z) c : Prop := systemloadLevelListener_ c = Some cbs.

Lemma safe_register_systemload cbs : safe (listening cbs) register_systemload.
Proof.
  unfold register_systemload. apply safe_get_bind. intros c Hc. rewrite Hc. apply safe_bind; [by intros c' Hc'|intros l].
  safe_auto; by apply safe_modify.
Qed.

Lemma safe_AddResSaListenerLocked cbs : safe (listening cbs) AddResSaListenerLocked.
Proof.
  unfold AddResSaListenerLocked. safe_auto; try (by apply safe_modify).
Qed.

Lemma client_register l c : exists c',
  Client_RegisterSystemloadNotifier (Some l) c = Some (tt, c')
  /\ systemloadLevelListener_ c' = Some (RegisterSystemloadLevelCb (Some l) (load_listeners c)).
Proof.
  set (cbs := RegisterSystemloadLevelCb (Some l) (load_listeners c)).
  set (c1 := c <| systemloadLevelListener_ := Some (load_listeners c) |>).
  assert (E1 : InitSystemloadListenersLocked c = Some (ERR_OK, c1)).
  { unfold InitSystemloadListenersLocked. rewrite run_get_bind. unfold c1, load_listeners.
    destruct (systemloadLevelListener_ c) as [l'|] eqn:Ec; [|reflexivity]. destruct c; cbn in *; by subst. }
  unfold Client_RegisterSystemloadNotifier. rewrite (run_bind _ _ _ _ _ E1). cbn [negb Z.eqb ERR_OK].
  set (c2 := c1 <| systemloadLevelListener_ ::= fmap (RegisterSystemloadLevelCb (Some l)) |>).
  rewrite (run_bind _ _ _ tt c2) by done.
  destruct (safe_run (listening cbs) (register_systemload;; AddResSaListenerLocked) c2) as ([] & c' & E & Hc').
  - apply safe_bind; [apply safe_register_systemload|intros _; apply safe_AddResSaListenerLocked].
  - reflexivity.
  - by exists c'.
Qed.

Lemma client_unregister l c cbs :
  listening cbs c -> exists c', Client_UnRegisterSystemloadNotifier (Some l) c = Some (tt, c')
    /\ listening (UnRegisterSystemloadLevelCb (Some l) cbs) c'.
Proof.
  intros Hc. unfold Client_UnRegisterSystemloadNotifier. rewrite run_get_bind, Hc.
  set (cbs' := UnRegisterSystemloadLevelCb (Some l) cbs). set (c1 := c <| systemloadLevelListener_ := Some cbs' |>).
  rewrite (run_bind _ _ _ tt c1) by done.
  destruct (safe_run (listening cbs') UnRegisterSystemloadListenersLocked c1) as ([] & c' & E & Hc').
  - unfold UnRegisterSystemloadListenersLocked. apply safe_get_bind. intros c'' Hc''. rewrite Hc''.
    apply safe_bind; [by intros c3 Hc3|intros l']. safe_auto; by apply safe_modify.
  - reflexivity.
  - by exists c'.
Qed.

Lemma client_level level c :
  OnSystemloadLevel level c
  = Some (ERR_OK, c <| c_trace ::= fun l => l ++ ((fun n => COnSystemloadLevel n level) <$> load_listeners c) |>).
Proof.
  unfold OnSystemloadLevel. rewrite run_get_bind. fold (load_listeners c). generalize (load_listeners c) as l. intros l.
  assert (Hi : st_iter (fun notifier => c_record (COnSystemloadLevel notifier level)) l c
             = Some (tt, c <| c_trace ::= fun t => t ++ ((fun n => COnSystemloadLevel n level) <$> l) |>)).
  { revert c. induction l as [|n l IH]; intros c.
    - destruct c. unfold over. cbn. by rewrite app_nil_r.
    - cbn [st_iter]. rewrite (run_bind _ _ _ tt (c <| c_trace ::= fun t => t ++ [COnSystemloadLevel n level] |>)) by done.
      rewrite IH. unfold over. cbn. by rewrite <- app_assoc. }
  by rewrite (run_bind _ _ _ _ _ Hi).
Qed.

Lemma client_died c : exists c', OnRemoteDied c = Some (tt, c') /\ load_listeners c' = load_listeners c.
Proof.
  unfold OnRemoteDied, StopRemoteObject, drop_connection. rewrite run_get_bind.
  destruct (rss_ c) as [obj|]; eexists; split; reflexivity.
Qed.

(** *** The simulation *)

(** The callbacks of the binding with their listeners, which are distinct objects that the client
    library knows in the same order. *)
Record registered (on : list Z) s : Prop := {
  re_on : (default [] (jsCallBackMap_ s !! SYSTEMLOAD_LEVEL)).*1 = on;
  re_distinct : NoDup on;
  re_objects : NoDup (default [] (jsCallBackMap_ s !! SYSTEMLOAD_LEVEL)).*2;
  re_listeners : forall f l, (f, l) ∈ default [] (jsCallBackMap_ s !! SYSTEMLOAD_LEVEL) -> lk_listeners s !! l = Some f;
  re_fresh : forall l f, lk_listeners s !! l = Some f -> l < next_object s;
  re_client : load_listeners (kit_client s) = (default [] (jsCallBackMap_ s !! SYSTEMLOAD_LEVEL)).*2;
}.
Record shows (a : Loads) s : Prop := {
  sh_registered : registered (lo_on a) s;
  sh_waiting : tsfn_calls s = lo_waiting a;
  sh_sent : sent_events s = lo_sent a;
  sh_called : js_calls s = lo_called a;
}.

Lemma in_client_run {A} (m : ST (Client W) A) s x c :
  m (kit_client s) = Some (x, c) -> in_client m s = Some (x, s <| kit_client := c |>).
Proof. intros E. unfold in_client. by rewrite E. Qed.

(** The listeners are called for their functions. *)
Lemma run_listener_calls level pairs s :
  engine_works -> (forall f l, (f, l) ∈ pairs -> lk_listeners s !! l = Some f) ->
  st_iter listener_call ((fun l => COnSystemloadLevel l level) <$> pairs.*2) s
  = Some (tt, s <| tsfn_calls ::= fun t => t ++ ((fun f => (f, level)) <$> pairs.*1) |>).
Proof.
  intros He. revert s. induction pairs as [|[f l] pairs IH]; intros s Hl.
  - destruct s. unfold over. cbn. by rewrite app_nil_r.
  - cbn [fmap list_fmap st_iter listener_call snd fst].
    rewrite (run_bind _ _ _ tt (s <| tsfn_calls ::= fun t => t ++ [(f, level)] |>)); cycle 1.
    { unfold Listener_OnSystemloadLevel. rewrite run_get_bind, (Hl f l) by left. by rewrite (proj1 (He _)). }
    rewrite IH by (intros f' l' Hin; apply Hl; by right). unfold over. cbn. by rewrite <- app_assoc.
Qed.

Lemma shows_level level a s :
  engine_works -> shows a s -> exists s', level_arrives level s = Some (ERR_OK, s')
    /\ shows (a <| lo_waiting ::= fun l => l ++ ((fun f => (f, level)) <$> lo_on a) |>) s'.
Proof.
  intros He [[Hon Hd Ho Hl Hf Hc] Hw Hs Hcalled]. unfold level_arrives. rewrite run_get_bind.
  set (c1 := (kit_client s) <| c_trace ::= fun l => l ++ ((fun n => COnSystemloadLevel n level) <$> load_listeners (kit_client s)) |>).
  rewrite (run_bind _ _ _ _ _ (in_client_run _ _ _ _ (client_level level (kit_client s)))). fold c1.
  set (s1 := s <| kit_client := c1 |>). rewrite run_get_bind. change (c_trace (kit_client s1)) with
    (c_trace (kit_client s) ++ ((fun n => COnSystemloadLevel n level) <$> load_listeners (kit_client s))).
  rewrite drop_app_length, Hc.
  rewrite (run_bind _ _ _ _ _ (run_listener_calls level _ s1 He Hl)). eexists. split; [reflexivity|].
  rewrite Hon. by split; [split| | |]; cbn; rewrite ?Hw.
Qed.

Lemma filter_absent {B} `{EqDecision B} (y : B) (l : list B) : y ∉ l -> filter (fun z => z <> y) l = l.
Proof.
  induction l as [|z l IH]; intros Hn; [done|]. apply not_elem_of_cons in Hn as [Hz Hn].
  rewrite filter_cons_True by done. by rewrite IH.
Qed.

(** Deleting one of several with distinct images. *)
Lemma delete_distinct {A B} `{EqDecision B} (g : A -> B) (l : list A) i x :
  l !! i = Some x -> NoDup (g <$> l) -> g <$> delete i l = filter (fun y => y <> g x) (g <$> l).
Proof.
  revert i. induction l as [|y l IH]; intros i Hi Hd; [done|]. rewrite fmap_cons in Hd |- *.
  apply NoDup_cons in Hd as [Hy Hd]. destruct i as [|i]; cbn in Hi.
  - injection Hi as ->. rewrite filter_cons_False by (intros Hn; by apply Hn). by rewrite filter_absent.
  - rewrite filter_cons_True; [exact (f_equal (cons (g y)) (IH i Hi Hd))|]. intros Heq. apply Hy. rewrite Heq.
    apply list_elem_of_fmap. exists x. split; [done|]. by eapply list_elem_of_lookup_2.
Qed.

Lemma find_callback f (l : list (Z * Z)) :
  NoDup l.*1 ->
  match list_find (fun iter => JsFunction iter.1 = JsFunction f) l with
  | None => f ∉ l.*1
  | Some (i, iter) => f ∈ l.*1 /\ iter.1 = f /\ iter ∈ l
      /\ (delete i l).*1 = filter (fun g => g <> f) l.*1
      /\ (NoDup l.*2 -> (delete i l).*2 = filter (fun cb => Some cb <> Some iter.2) l.*2)
  end.
Proof.
  intros Hd. destruct (list_find _ l) as [[i iter]|] eqn:E.
  - apply list_find_Some in E as (Hi & Hf & _). injection Hf as Hf. pose proof (list_elem_of_lookup_2 _ _ _ Hi) as Hin.
    split; [apply list_elem_of_fmap; by exists iter|]. split; [done|]. split; [done|].
    split; [rewrite <- Hf; by apply (delete_distinct fst)|]. intros Ho. rewrite (delete_distinct snd _ _ _ Hi Ho).
    apply list_filter_iff. intros x. split; congruence.
  - apply list_find_None in E. intros (iter & -> & Hin)%list_elem_of_fmap.
    rewrite Forall_forall in E. by apply (E iter Hin).
Qed.

Lemma named_on args :
  CheckCallbackParam args ON
  = match args with
    | [name; JsFunction f] => if names_systemload name then Some (SYSTEMLOAD_LEVEL, JsFunction f) else None
    | _ => None
    end.
Proof.
  unfold CheckCallbackParam. destruct args as [|v [|w [|u args]]].
  - reflexivity.
  - reflexivity.
  - cbn. destruct v as [t| | |], w; cbn; try reflexivity; unfold SYSTEMLOAD_LEVEL; case_bool_decide as Ht; cbn; by rewrite ?Ht.
  - cbn [length]. destruct (_ =? 2) eqn:E; [apply Z.eqb_eq in E; lia|]. cbn. by destruct w.
Qed.

Lemma named_off args :
  CheckCallbackParam args OFF
  = match args with
    | name :: rest => if names_systemload name then Some (SYSTEMLOAD_LEVEL, default JsUndefined (rest !! 0%nat)) else None
    | [] => None
    end.
Proof.
  unfold CheckCallbackParam. destruct args as [|v rest]; [reflexivity|]. cbn.
  destruct v as [t| | |]; cbn; try reflexivity. unfold SYSTEMLOAD_LEVEL. case_bool_decide as Ht; cbn; by rewrite ?Ht.
Qed.

(** The state shows the result of a step, which throws what the abstract one throws. *)
Definition follows (r : option (string * string) * Loads) (o : option (option (string * string) * LoadKit W)) : Prop :=
  exists s', o = Some (r.1, s') /\ shows r.2 s'.

Lemma shows_same a s : shows a s -> follows (wrong_parameter, a) (Some (wrong_parameter, s)).
Proof. intros Hs. by exists s. Qed.

Lemma shows_on name f a s :
  shows a s -> names_systemload name = true ->
  follows (None, if bool_decide (f ∈ lo_on a) then a else a <| lo_on ::= fun l => l ++ [f] |>)
    (SystemloadOn [name; JsFunction f] s).
Proof.
  intros [[Hon Hd Ho Hl Hf Hc] Hw Hs Hcalled] Hname. unfold SystemloadOn, RegisterSystemloadCallback.
  rewrite named_on, Hname.
  set (l := default [] (jsCallBackMap_ s !! SYSTEMLOAD_LEVEL)) in *.
  set (s1 := s <| jsCallBackMap_ ::= fun m => <[SYSTEMLOAD_LEVEL := default [] (m !! SYSTEMLOAD_LEVEL)]> m |>).
  rewrite (run_bind _ _ _ tt s1) by done. rewrite run_get_bind. cbv zeta.
  assert (Em : jsCallBackMap_ s1 !! SYSTEMLOAD_LEVEL = Some l) by (cbn; by rewrite lookup_insert_eq).
  rewrite Em. change (default [] (Some l)) with l. rewrite Hon. case_bool_decide as Hin.
  - exists s1. split; [done|]. split; [|done..]. split; cbn; rewrite ?lookup_insert_eq; done.
  - change (next_object s1) with (next_object s). set (n := next_object s).
    set (s2 := s1 <| next_object ::= Z.succ |> <| lk_listeners ::= <[n := f]> |>).
    rewrite (run_bind _ _ _ tt s2) by done.
    destruct (client_register n (kit_client s2)) as (c & Ec & Hlisten). rewrite (run_bind _ _ _ _ _ (in_client_run _ _ _ _ Ec)).
    eexists. split; [reflexivity|].
    assert (Hn : n ∉ l.*2).
    { intros ([g m] & Hm & Hin')%list_elem_of_fmap. cbn in Hm. subst m. apply Hl, Hf in Hin'. unfold n in Hin'. lia. }
    split; [|done..]. split; cbn; rewrite ?lookup_insert_eq; cbn; rewrite ?fmap_app; cbn.
    + by rewrite Hon.
    + apply NoDup_app. split; [done|]. split; [|apply NoDup_singleton]. by intros g Hg ->%list_elem_of_singleton.
    + apply NoDup_app. split; [done|]. split; [|apply NoDup_singleton]. by intros g Hg ->%list_elem_of_singleton.
    + intros g m [Hin'|[= -> ->]%list_elem_of_singleton]%elem_of_app; [|by rewrite lookup_insert_eq].
      rewrite lookup_insert_ne; [by apply Hl|]. intros <-. apply Hn, list_elem_of_fmap. by exists (g, n).
    + intros m g [[<- _]|[_ Hm]]%lookup_insert_Some; [lia|]. apply Hf in Hm. lia.
    + unfold load_listeners. rewrite Hlisten. cbn. change (kit_client s2) with (kit_client s). rewrite Hc.
      by rewrite bool_decide_false.
Qed.

Lemma shows_off name f rest a s :
  shows a s -> names_systemload name = true ->
  follows (if bool_decide (f ∈ lo_on a) then (None, a <| lo_on ::= filter (fun g => g <> f) |>) else (wrong_parameter, a))
    (SystemloadOff (name :: JsFunction f :: rest) s).
Proof.
  intros Hshows Hname. pose proof Hshows as [[Hon Hd Ho Hl Hf Hc] Hw Hs Hcalled].
  unfold SystemloadOff, UnRegisterSystemloadCallback. rewrite named_off, Hname. cbn [lookup list_lookup default].
  rewrite run_get_bind. destruct (jsCallBackMap_ s !! SYSTEMLOAD_LEVEL) as [l|] eqn:Em; cycle 1.
  { rewrite bool_decide_false by (rewrite <- Hon; by intros ?%not_elem_of_nil). by apply shows_same. }
  change (default [] (Some l)) with l in *. rewrite <- Hon in Hd. pose proof (find_callback f l Hd) as Hfind. destruct (list_find _ l) as [[i [g n]]|]; cycle 1.
  { rewrite bool_decide_false by (by rewrite <- Hon). by apply shows_same. }
  destruct Hfind as (Hin & Hg & Hinl & Hdel1 & Hdel2). rewrite bool_decide_true by (by rewrite <- Hon). cbn [snd].
  assert (Hlist : listening l.*2 (kit_client s)).
  { unfold listening. unfold load_listeners in Hc. destruct (systemloadLevelListener_ (kit_client s)) as [cbs|]; cbn in Hc; [by rewrite Hc|].
    exfalso. apply list_elem_of_fmap in Hin as (x & _ & Hx). destruct l; [by apply not_elem_of_nil in Hx|done]. }
  destruct (client_unregister n _ _ Hlist) as (c & Ec & Hlisten). rewrite (run_bind _ _ _ _ _ (in_client_run _ _ _ _ Ec)).
  eexists. split; [reflexivity|]. split; [|done..]. split; cbn; rewrite ?lookup_insert_eq; cbn.
  - rewrite Hdel1. by rewrite Hon.
  - rewrite <- Hon. by apply NoDup_filter.
  - rewrite (Hdel2 Ho). by apply NoDup_filter.
  - intros g' m Hm. apply Hl. by apply list_elem_of_delete_inv in Hm.
  - done.
  - unfold load_listeners. rewrite Hlisten. by rewrite (Hdel2 Ho).
Qed.

Lemma shows_thread a s :
  engine_works -> shows a s -> follows (loads_step KeThread a) ((ThreadSafeCallBack;; mret None) s).
Proof.
  intros He Hshows. pose proof Hshows as [Hreg Hw Hs Hcalled].
  unfold ThreadSafeCallBack. cbn [loads_step fst snd]. rewrite <- Hw.
  destruct (tsfn_calls s) as [|[f level] l] eqn:Et.
  { exists s. split; [unfold mbind, ST_bind; cbn; by rewrite Et|done]. }
  set (s1 := s <| tsfn_calls := l |>).
  assert (E : ThreadSafeCallBack s = Some (tt, if bool_decide (f ∈ lo_on a) then s1 <| sent_events ::= fun l => l ++ [(f, level)] |> else s1)).
  { unfold ThreadSafeCallBack. rewrite run_get_bind, Et. rewrite (run_bind _ _ _ tt s1) by done.
    unfold Systemload_OnSystemloadLevel. rewrite run_get_bind. change (jsCallBackMap_ s1) with (jsCallBackMap_ s).
    destruct Hreg as [Hon _ _ _ _ _].
    destruct (jsCallBackMap_ s !! SYSTEMLOAD_LEVEL) as [cbs|]; cbn in Hon.
    - rewrite Hon. destruct (bool_decide (f ∈ lo_on a)); cbn [negb]; [|reflexivity]. rewrite (proj2 (He _)). reflexivity.
    - by rewrite bool_decide_false by (rewrite <- Hon; by intros ?%not_elem_of_nil). }
  rewrite (run_bind _ _ _ _ _ E). eexists. split; [reflexivity|]. cbn [snd]. destruct Hreg as [Hon Hd Ho Hl Hf Hc].
  change (lo_on (a <| lo_waiting := l |>)) with (lo_on a).
  case_bool_decide; (split; [split; cbn; eassumption|..]); cbn; congruence.
Qed.

Lemma shows_event a s : shows a s -> follows (loads_step KeEvent a) ((CompleteCb;; mret None) s).
Proof.
  intros [[Hon Hd Ho Hl Hf Hc] Hw Hs Hcalled]. cbn [loads_step]. rewrite <- Hs.
  destruct (sent_events s) as [|[f level] l] eqn:Et.
  { exists s. split; [|split; [split; cbn; eassumption|..]; cbn; congruence]. unfold CompleteCb, mbind, ST_bind. cbn. by rewrite Et. }
  eexists. split.
  - unfold CompleteCb. erewrite run_bind; [reflexivity|]. rewrite run_get_bind, Et. reflexivity.
  - split; [split; cbn; eassumption|..]; cbn; congruence.
Qed.

Lemma shows_died a s : shows a s -> follows (None, a) ((in_client OnRemoteDied;; mret None) s).
Proof.
  intros [[Hon Hd Ho Hl Hf Hc] Hw Hs Hcalled]. destruct (client_died (kit_client s)) as (c & Ec & Hlisten).
  rewrite (run_bind _ _ _ _ _ (in_client_run _ _ _ _ Ec)). eexists. split; [reflexivity|].
  split; [split; cbn; try eassumption|..]; cbn; congruence.
Qed.

Lemma shows_step e a s : engine_works -> shows a s -> follows (loads_step e a) (kit_step e s).
Proof.
  intros He Hs. destruct e as [args|args|level| | |]; cbn [kit_step].
  - destruct args as [|name [|[t|f|z|] [|u args]]]; cbn [loads_step];
      try (unfold SystemloadOn, RegisterSystemloadCallback; rewrite named_on; by apply shows_same).
    destruct (names_systemload name) eqn:Hn; [by apply shows_on|].
    unfold SystemloadOn, RegisterSystemloadCallback. rewrite named_on, Hn. by apply shows_same.
  - assert (Hbad : forall rest name, names_systemload name = false ->
        SystemloadOff (name :: rest) s = Some (wrong_parameter, s)).
    { intros rest name Hn. unfold SystemloadOff, UnRegisterSystemloadCallback. by rewrite named_off, Hn. }
    assert (Hother : forall name rest, (forall f, default JsUndefined (rest !! 0%nat) <> JsFunction f) ->
        SystemloadOff (name :: rest) s = Some (wrong_parameter, s)).
    { intros name rest Hv. destruct (names_systemload name) eqn:Hn; [|by apply Hbad].
      unfold SystemloadOff, UnRegisterSystemloadCallback. rewrite named_off, Hn, run_get_bind.
      destruct (jsCallBackMap_ s !! SYSTEMLOAD_LEVEL) as [l|]; [|done].
      destruct (list_find _ l) as [[i x]|] eqn:E; [|done]. apply list_find_Some in E as (_ & E & _). destruct (Hv x.1). by rewrite <- E. }
    destruct args as [|name [|[t|f|z|] rest]]; cbn [loads_step].
    + by apply shows_same.
    + rewrite Hother by done. by apply shows_same.
    + rewrite Hother by done. by apply shows_same.
    + destruct (names_systemload name) eqn:Hn; cbn [andb].
      * pose proof (shows_off name f rest a s Hs Hn) as H1. by case_bool_decide.
      * rewrite Hbad by done. by apply shows_same.
    + rewrite Hother by done. by apply shows_same.
    + rewrite Hother by done. by apply shows_same.
  - destruct (shows_level level a s He Hs) as (s' & E & Hs'). rewrite (run_bind _ _ _ _ _ E). by exists s'.
  - by apply shows_thread.
  - by apply shows_event.
  - by apply shows_died.
Qed.

Lemma shows_run es a s :
  engine_works -> shows a s -> exists s', kit_run es s = Some ((loads_run es a).1, s') /\ shows (loads_run es a).2 s'.
Proof.
  intros He. revert a s. induction es as [|e es IH]; intros a s Hs; [by exists s|].
  destruct (shows_step e a s He Hs) as (s1 & E1 & Hs1). destruct (IH _ _ Hs1) as (s2 & E2 & Hs2).
  exists s2. cbn [kit_run loads_run fst snd]. by rewrite (run_bind _ _ _ _ _ E1), (run_bind _ _ _ _ _ E2).
Qed.
End systemload_facts.

(** C23: Over any history of switching on and off, levels told by the service, steps of the thread
    of the script and deaths of the service, the binding together with the client library behaves
    as the abstract one: a level goes to the functions that are on, in the order in which they were
    switched on, each once; a call that waits is sent on only when its function is still on;
    the events that were sent are made in order; a script gets an error exactly for wrong
    arguments and for a function that is not on. *)
Theorem scripts_are_called {W} `{!RemoteService W} `{!ClientEnv} `{!ErrCodes}
    `{!ScriptEngine W} (w : W) es :
  engine_works (W := W) ->
  let r := loads_run es (mkLoads [] [] [] []) in
  exists s, kit_run es (new_LoadKit w) = Some (r.1, s)
    /\ js_calls s = lo_called r.2
    /\ sent_events s = lo_sent r.2 /\ tsfn_calls s = lo_waiting r.2
    /\ (default [] (jsCallBackMap_ s !! SYSTEMLOAD_LEVEL)).*1 = lo_on r.2
    /\ load_listeners (kit_client s) = (default [] (jsCallBackMap_ s !! SYSTEMLOAD_LEVEL)).*2.
Proof.
  intros He r. destruct (shows_run es (mkLoads [] [] [] []) (new_LoadKit w) He) as (s & E & [[Hon _ _ _ _ Hc] Hw Hs Hcalled]).
  - split; [|done..]. split; try done; try constructor. by intros f l ?%not_elem_of_nil.
  - by exists s.
Qed.

(** ** An example *)

(** A service that is not there. *)
#[local] Instance no_service : RemoteService unit := {
  rs_GetSystemAbilityManager _ := true; rs_CheckSystemAbility _ := None; rs_iface_cast _ := true;
  rs_SubscribeSystemAbility w := (0, w); rs_GetNowMillTime _ := 0; rs_in_time _ := true;
  rs_GetResTypeList _ w := (None, w); rs_ReportData _ _ _ _ w := w; rs_ReportSyncEvent _ _ _ _ w := (None, w);
  rs_KillProcess _ _ w := (None, w); rs_RegisterSystemloadNotifier _ w := w; rs_UnRegisterSystemloadNotifier _ w := w;
  rs_RegisterEventListener _ _ _ w := w; rs_UnRegisterEventListener _ _ _ w := w;
  rs_GetSystemloadLevel _ w := (None, w); rs_IsAllowedAppPreload _ _ _ w := (None, w); rs_IsAllowedLinkJump _ _ w := (None, w);
}.
#[local] Instance kit_env : ClientEnv :=
  {| RES_SCHED_SYS_ABILITY_ID := 1901; walk A := map_to_list; walk_perm A m := reflexivity _ |}.
#[local] Instance kit_codes : ErrCodes := {
  RES_SCHED_COMMON_ERR_OFFSET := 100; RES_SCHED_SERVICE_ERR_OFFSET := 200;
  ERR_INVALID_OPERATION := 5; ERR_INVALID_VALUE := 6;
}.
#[local] Instance kit_engine : ScriptEngine unit := {
  se_call_threadsafe_function _ := true; se_send_event _ := true;
}.

(** Two functions; the second is switched off while its call waits, and again in vain. *)
Definition demo_loads : list KitEvent :=
  let on f := KeOn [JsString "systemLoadChange"; JsFunction f] in
  let off f := KeOff [JsString "systemLoadChange"; JsFunction f] in
  [on 1; on 2; on 1; KeOn [JsString "load"; JsFunction 3]; KeLevel 4; KeDied; off 2; KeThread; KeThread; KeEvent;
   KeEvent; off 2; KeLevel 5].

Lemma scripts_are_called_witness :
  exists s : LoadKit unit, kit_run demo_loads (new_LoadKit tt)
    = Some ([None; None; None; wrong_parameter; None; None; None; None; None; None; None; wrong_parameter; None], s)
    /\ js_calls s = [(1, 4)] /\ tsfn_calls s = [(1, 5)].
Proof.
  destruct (scripts_are_called tt demo_loads) as (s & E & Hcalled & _ & Hw & _).
  - intros []. by split.
  - exists s. split; [exact E|]. split; [exact Hcalled|exact Hw].
Defined.
