(* ===== verification/KitBackground.v ===== *)
(** * Background processes for applications

    [interfaces/kits/c/background_process_manager] and its bindings for scripts,
    [kits/js/napi] and [kits/ets/taihe]: an application sets the priority and the mode of its
    background processes.  Priorities go to the service through the client library, modes to a
    library that is opened for each call.  A number of a script is what it becomes as a 32-bit
    integer. *)
From S2P Require Import Prelude Json ResType CommonUtil ServiceWorld Client KitSystemload.

(** ** Numbers *)

Definition SET_PRIORITY : Z := 1. (* background_process_manager.cpp:27 *)
Definition RESET_PRIORITY : Z := 0. (* background_process_manager.cpp:28 *)
Definition RES_TYPE_CLEAN_BACKGROUND_APP : Z := 20006. (* background_process_manager.cpp:29 *)
Definition RESULT_KEY : string := "result". (* background_process_manager.cpp:31 *)
Definition PERMISSION_ERROR_CODE : string := "201". (* background_process_manager.cpp:32 *)
Definition PROCESS_BACKGROUND : Z := 1. (* background_process_manager.h:54 *)
Definition PROCESS_INACTIVE : Z := 2. (* background_process_manager.h:59 *)
Definition EFFICIENCY_MODE : Z := 1. (* background_process_manager.h:72 *)
Definition DEFAULT_MODE : Z := 2. (* background_process_manager.h:77 *)
Definition CLEAR_RECENT_CARDS : Z := 1. (* background_process_manager.h:87 *)
Definition ERR_BACKGROUND_PROCESS_MANAGER_SUCCESS : Z := 0. (* background_process_manager.h:99 *)
Definition ERR_BACKGROUND_PROCESS_MANAGER_PERMISSION_DENIED : Z := 201. (* background_process_manager.h:104 *)
Definition ERR_BACKGROUND_PROCESS_MANAGER_NOT_SYSTEM_APP : Z := 202. (* background_process_manager.h:109 *)
Definition ERR_BACKGROUND_PROCESS_MANAGER_INVALID_PARAM : Z := 401. (* background_process_manager.h:115 *)
Definition ERR_BACKGROUND_PROCESS_MANAGER_CAPABILITY_NOT_SUPPORTED : Z := 801. (* background_process_manager.h:120 *)
Definition ERR_BACKGROUND_PROCESS_MANAGER_REMOTE_ERROR : Z := 31800001. (* background_process_manager.h:126 *)
Definition ERR_BACKGROUND_PROCESS_MANAGER_PARAMETER_ERROR : Z := 31800002. (* background_process_manager.h:134 *)
Definition ERR_BACKGROUND_PROCESS_MANAGER_SETUP_ERROR : Z := 31800003. (* background_process_manager.h:139 *)
Definition ERR_BACKGROUND_PROCESS_MANAGER_SYSTEM_SCHEDULING : Z := 31800004. (* background_process_manager.h:144 *)

(** The library of modes: whether it opens, and its two functions; and whether the application
    itself belongs to the system. *)
Class AppNapClient (W : Type) := {
  an_dlopen : W -> bool;
  an_SetPowerSaveMode : W -> option (Z -> Z -> W -> Z * W);
  an_IsPowerSaveMode : W -> option (Z -> W -> Z * bool * W);
  an_IsSystemAppByFullTokenID : W -> bool;
}.

(** ** The functions in C *)
Section kit.
Context {J W : Type} `{!Json J} `{!JsonText J} `{!RemoteService W} `{!ClientEnv} `{!ErrCodes} `{!AppNapClient W}.
#[local] Abbreviation M := (ST (Client W)).

(** background_process_manager.cpp:38-42 [IsSelfSystemApp] *)
Definition IsSelfSystemApp (w : W) : bool := an_IsSystemAppByFullTokenID w.

(** background_process_manager.cpp:54-66 [OH_BackgroundProcessManager_SetProcessPriority] *)
Definition OH_SetProcessPriority (pid priority : Z) : M Z :=
  if negb (priority =? PROCESS_BACKGROUND) && negb (priority =? PROCESS_INACTIVE)
  then mret ERR_BACKGROUND_PROCESS_MANAGER_INVALID_PARAM else
  let payload := {[ "PID" := to_string pid; "PRIORITY" := to_string priority ]} in
  Client_ReportData RES_TYPE_SET_BACKGROUND_PROCESS_PRIORITY SET_PRIORITY payload;;
  mret ERR_BACKGROUND_PROCESS_MANAGER_SUCCESS.

(** background_process_manager.cpp:75-83 [OH_BackgroundProcessManager_ResetProcessPriority] *)
Definition OH_ResetProcessPriority (pid : Z) : M Z :=
  let payload := {[ "PID" := to_string pid ]} in
  Client_ReportData RES_TYPE_SET_BACKGROUND_PROCESS_PRIORITY RESET_PRIORITY payload;;
  mret ERR_BACKGROUND_PROCESS_MANAGER_SUCCESS.

(** background_process_manager.cpp:98-116 [OH_BackgroundProcessManager_SetPowerSaveMode] *)
Definition OH_SetPowerSaveMode (pid powerSaveMode : Z) : M Z :=
  s ← st_get;
  if negb (an_dlopen (remote s)) then mret ERR_BACKGROUND_PROCESS_MANAGER_CAPABILITY_NOT_SUPPORTED else
  match an_SetPowerSaveMode (remote s) with
  | None => mret ERR_BACKGROUND_PROCESS_MANAGER_CAPABILITY_NOT_SUPPORTED
  | Some func => call (func pid (to_s32 powerSaveMode))
  end.

(** background_process_manager.cpp:131-145 [OH_BackgroundProcessManager_IsPowerSaveMode] the code of
    the library, and what it says *)
Definition ask_power_save_mode (pid : Z) : M (Z * bool) :=
  s ← st_get;
  if negb (an_dlopen (remote s)) then mret (ERR_BACKGROUND_PROCESS_MANAGER_CAPABILITY_NOT_SUPPORTED, false) else
  match an_IsPowerSaveMode (remote s) with
  | None => mret (ERR_BACKGROUND_PROCESS_MANAGER_CAPABILITY_NOT_SUPPORTED, false)
  | Some func => call (func pid)
  end.

(** background_process_manager.cpp:128-150 [OH_BackgroundProcessManager_IsPowerSaveMode] *)
Definition OH_IsPowerSaveMode (pid : Z) : M Z :=
  r ← ask_power_save_mode pid;
  mret (if r.1 =? 0 then (if r.2 : bool then 1 else 0) else r.1).

(** background_process_manager.cpp:162-192 [OH_BackgroundProcessManager_GetPowerSaveMode] into a
    variable that is there; [None] leaves it as it was *)
Definition OH_GetPowerSaveMode (pid : Z) : M (Z * option Z) :=
  r ← ask_power_save_mode pid;
  mret (if negb (r.1 =? 0) then (r.1, None) else (r.1, Some (if r.2 : bool then DEFAULT_MODE else EFFICIENCY_MODE))).

(** background_process_manager.cpp:194-212 [OH_BackgroundProcessManager_ClearBackgroundApps] *)
Definition OH_ClearBackgroundApps (clearType : Z) : M Z :=
  s ← st_get;
  if negb (IsSelfSystemApp (remote s)) then mret ERR_BACKGROUND_PROCESS_MANAGER_NOT_SYSTEM_APP else
  r ← Client_ReportSyncEvent RES_TYPE_CLEAN_BACKGROUND_APP 0 ∅ ∅;
  mret (if bool_decide (r.2 !! RESULT_KEY = Some PERMISSION_ERROR_CODE)
        then ERR_BACKGROUND_PROCESS_MANAGER_PERMISSION_DENIED else ERR_BACKGROUND_PROCESS_MANAGER_SUCCESS).

(** ** Scripts *)

(** background_process_manager_napi_init.cpp:36-51 [errCodeMsg] *)
Definition errCodeMsg : gmap Z string := list_to_map
  [(ERR_BACKGROUND_PROCESS_MANAGER_INVALID_PARAM, "Parameter error. Possible causes: priority is out of range.");
   (ERR_BACKGROUND_PROCESS_MANAGER_PARAMETER_ERROR, "Parameter error. Possible causes: priority is out of range.");
   (ERR_BACKGROUND_PROCESS_MANAGER_NOT_SYSTEM_APP, "Not System App.");
   (ERR_BACKGROUND_PROCESS_MANAGER_PERMISSION_DENIED, "Permission denied.");
   (ERR_BACKGROUND_PROCESS_MANAGER_CAPABILITY_NOT_SUPPORTED, "Capability not supported.");
   (ERR_BACKGROUND_PROCESS_MANAGER_SETUP_ERROR, "This setting is overridden by setting in Task Manager.");
   (ERR_BACKGROUND_PROCESS_MANAGER_SYSTEM_SCHEDULING, "The setting failed due to system scheduling reasons.")].

(** What is thrown: an error with its code as a text, or a business error; and what a function
    of a script gives back. *)
Inductive Thrown :=
  | ThrowError (code msg : string)
  | ThrowBusinessError (code : Z) (msg : string).
Inductive JsReturn :=
  | JrNumber (z : Z)
  | JrPromiseBoolean (b : bool)
  | JrPromiseNumber (z : Z).

(** background_process_manager_napi_init.cpp:60-68 [HandleErrorCode] *)
Definition HandleErrorCode (errorCode : Z) : option Thrown :=
  ThrowError (to_string errorCode) <$> errCodeMsg !! errorCode.

(** background_process_manager_napi_init.cpp:70-78 [HandleNewErrorCode] *)
Definition HandleNewErrorCode (errorCode : Z) : option Thrown :=
  ThrowBusinessError errorCode <$> errCodeMsg !! errorCode.

Definition refuse (errorCode : Z) : JsReturn * option Thrown := (JrNumber errorCode, HandleErrorCode errorCode).
Definition refuse_new (errorCode : Z) : JsReturn * option Thrown := (JrNumber errorCode, HandleNewErrorCode errorCode).

(** background_process_manager_napi_init.cpp:80-119 [SetProcessPriority] *)
Definition SetProcessPriority (args : list JsValue) : M (JsReturn * option Thrown) :=
  match args with
  | [JsNumber pid; JsNumber priority] =>
      retCode ← OH_SetProcessPriority pid (to_u32 priority);
      mret (JrNumber ERR_BACKGROUND_PROCESS_MANAGER_SUCCESS, HandleErrorCode retCode)
  | _ => mret (refuse ERR_BACKGROUND_PROCESS_MANAGER_INVALID_PARAM)
  end.

(** background_process_manager_napi_init.cpp:121-152 [ResetProcessPriority] *)
Definition ResetProcessPriority (args : list JsValue) : M (JsReturn * option Thrown) :=
  match args with
  | [JsNumber pid] =>
      retCode ← OH_ResetProcessPriority pid;
      mret (JrNumber ERR_BACKGROUND_PROCESS_MANAGER_SUCCESS, HandleErrorCode retCode)
  | _ => mret (refuse ERR_BACKGROUND_PROCESS_MANAGER_INVALID_PARAM)
  end.

(** background_process_manager_napi_init.cpp:154-193 [SetPowerSaveMode] *)
Definition SetPowerSaveMode (args : list JsValue) : M (JsReturn * option Thrown) :=
  match args with
  | [JsNumber pid; JsNumber mode] =>
      retCode ← OH_SetPowerSaveMode pid (to_u32 mode);
      mret (JrNumber ERR_BACKGROUND_PROCESS_MANAGER_SUCCESS, HandleErrorCode retCode)
  | _ => mret (refuse ERR_BACKGROUND_PROCESS_MANAGER_PARAMETER_ERROR)
  end.

(** background_process_manager_napi_init.cpp:195-235 [IsPowerSaveMode] *)
Definition IsPowerSaveMode (args : list JsValue) : M (JsReturn * option Thrown) :=
  match args with
  | [JsNumber pid] =>
      retCode ← OH_IsPowerSaveMode pid;
      mret (if negb (retCode =? 0) && negb (retCode =? 1)
            then JrNumber ERR_BACKGROUND_PROCESS_MANAGER_SUCCESS
            else JrPromiseBoolean (negb (retCode =? 0)), HandleErrorCode retCode)
  | _ => mret (refuse ERR_BACKGROUND_PROCESS_MANAGER_PARAMETER_ERROR)
  end.

(** background_process_manager_napi_init.cpp:237-276 [GetPowerSaveMode] *)
Definition GetPowerSaveMode (args : list JsValue) : M (JsReturn * option Thrown) :=
  match args with
  | [JsNumber pid] =>
      r ← OH_GetPowerSaveMode pid;
      mret (match r.2 with
            | Some processMode => JrPromiseNumber processMode
            | None => JrNumber ERR_BACKGROUND_PROCESS_MANAGER_SUCCESS
            end, HandleErrorCode r.1)
  | _ => mret (refuse ERR_BACKGROUND_PROCESS_MANAGER_PARAMETER_ERROR)
  end.

(** background_process_manager_napi_init.cpp:278-312 [ClearBackgroundApps] *)
Definition ClearBackgroundApps (args : list JsValue) : M (JsReturn * option Thrown) :=
  match args with
  | [JsNumber clearType] =>
      if negb (clearType =? CLEAR_RECENT_CARDS) then mret (refuse_new ERR_BACKGROUND_PROCESS_MANAGER_PARAMETER_ERROR) else
      retCode ← OH_ClearBackgroundApps clearType;
      mret (JrNumber retCode, HandleNewErrorCode retCode)
  | _ => mret (refuse_new ERR_BACKGROUND_PROCESS_MANAGER_PARAMETER_ERROR)
  end.

(** background_process_manager_napi_init.cpp:322-351 [ProcessPriorityInit] the three objects *)
Definition priority_properties : list (string * list (string * Z)) :=
  [("ProcessPriority", [("PROCESS_BACKGROUND", PROCESS_BACKGROUND); ("PROCESS_INACTIVE", PROCESS_INACTIVE)]);
   ("PowerSaveMode", [("EFFICIENCY_MODE", EFFICIENCY_MODE); ("DEFAULT_MODE", DEFAULT_MODE)]);
   ("ClearType", [("CLEAR_RECENT_CARDS", CLEAR_RECENT_CARDS)])].

(** background_process_manager_napi_init.cpp:353-366 [InitBackgroundProcessManagerAPi] the functions
    by their names *)
Definition api_functions : list (string * (list JsValue -> M (JsReturn * option Thrown))) :=
  [("setProcessPriority", SetProcessPriority); ("resetProcessPriority", ResetProcessPriority);
   ("setPowerSaveMode", SetPowerSaveMode); ("isPowerSaveMode", IsPowerSaveMode);
   ("getPowerSaveMode", GetPowerSaveMode); ("clearBackgroundApps", ClearBackgroundApps)].

(** ** Static scripts *)

(** ohos.resourceschedule.backgroundProcessManager.impl.cpp:40-58 [GetErrCodeMsg] *)
Definition GetErrCodeMsg (errorCode : Z) : string :=
  if errorCode =? ERR_BACKGROUND_PROCESS_MANAGER_INVALID_PARAM then "Parameter error. Possible causes: priority is out of range."
  else if errorCode =? ERR_BACKGROUND_PROCESS_MANAGER_PARAMETER_ERROR then "Parameter error. Possible causes: priority is out of range."
  else if errorCode =? ERR_BACKGROUND_PROCESS_MANAGER_PERMISSION_DENIED then "Permission denied."
  else if errorCode =? ERR_BACKGROUND_PROCESS_MANAGER_CAPABILITY_NOT_SUPPORTED then "Capability not supported."
  else if errorCode =? ERR_BACKGROUND_PROCESS_MANAGER_SETUP_ERROR then "This setting is overridden by setting in Task Manager."
  else if errorCode =? ERR_BACKGROUND_PROCESS_MANAGER_SYSTEM_SCHEDULING then "The setting failed due to system scheduling reasons."
  else "".

(** ohos.resourceschedule.backgroundProcessManager.impl.cpp:29-33 [SetProcessPrioritySync] the code is not looked at *)
Definition SetProcessPrioritySync (pid priority : Z) : M unit := _ ← OH_SetProcessPriority pid (to_u32 priority); mret tt.

(** ohos.resourceschedule.backgroundProcessManager.impl.cpp:35-38 [ResetProcessPrioritySync] *)
Definition ResetProcessPrioritySync (pid : Z) : M unit := _ ← OH_ResetProcessPriority pid; mret tt.

(** ohos.resourceschedule.backgroundProcessManager.impl.cpp:60-67 [SetPowerSaveModeSync] the error that is set *)
Definition SetPowerSaveModeSync (pid powerSaveMode : Z) : M (option Thrown) :=
  ret ← OH_SetPowerSaveMode pid (to_u32 powerSaveMode);
  mret (if ret =? ERR_BACKGROUND_PROCESS_MANAGER_SUCCESS then None else Some (ThrowBusinessError ret (GetErrCodeMsg ret))).

(** ohos.resourceschedule.backgroundProcessManager.impl.cpp:69-83 [GetPowerSaveModeSync] *)
Definition GetPowerSaveModeSync (pid : Z) : M (Z * option Thrown) :=
  r ← OH_GetPowerSaveMode pid;
  mret (match r.2 with
        | None => (EFFICIENCY_MODE, Some (ThrowBusinessError r.1 (GetErrCodeMsg r.1)))
        | Some mode => (if mode =? DEFAULT_MODE then DEFAULT_MODE else EFFICIENCY_MODE, None)
        end).

(** ohos.resourceschedule.backgroundProcessManager.impl.cpp:85-95 [IsPowerSaveModeSync] *)
Definition IsPowerSaveModeSync (pid : Z) : M (bool * option Thrown) :=
  ret ← OH_IsPowerSaveMode pid;
  mret (if negb (ret =? 1) && negb (ret =? 0) then (false, Some (ThrowBusinessError ret (GetErrCodeMsg ret)))
        else (negb (ret =? 0), None)).
End kit.
