(* ===== verification/SystemUtil.v ===== *)
(** * Time and the system

    [res_sched_time_util.cpp] and what [res_sched_system_util.cpp] reads of the system.  The
    clocks count nanoseconds; [localtime] and [strftime] are a class.  A signed overflow is
    [None]. *)
From S2P Require Import Prelude Json CommonUtil FileUtil.

(** ** Time *)

Definition SEC_TO_MILLISEC : Z := 1000. (* res_sched_time_util.cpp:23 *)
Definition MAX_FORMAT_BUFF : nat := 32. (* res_sched_time_util.cpp:25 *)

(** The clocks, [gettimeofday], and the text of a time: [lt_strftime] gives nothing when the text
    does not fit into a buffer of that size. *)
Class LocalTime (K TM : Type) := {
  lt_steady_clock : K -> Z;
  lt_system_clock : K -> Z;
  lt_gettimeofday : K -> Z * Z;
  lt_localtime : Z -> option TM;
  lt_strftime : nat -> string -> TM -> option string;
}.

(** A number in three places, filled with zeros in front. *)
Definition three_places (z : Z) : string :=
  let t := to_string z in
  match String.length t with
  | 0%nat => "000" | 1%nat => "00" +:+ t | 2%nat => "0" +:+ t | _ => t
  end.

Section time.
Context {K TM : Type} `{!LocalTime K TM}.

Definition clock_of (steady : bool) (k : K) : Z :=
  if steady then lt_steady_clock (TM := TM) k else lt_system_clock (TM := TM) k.

(** res_sched_time_util.cpp:27-40 [GetNowSecTime] *)
Definition GetNowSecTime (steady : bool) (k : K) : Z := Z.quot (clock_of steady k) (10 ^ 9).

(** res_sched_time_util.cpp:42-55 [GetNowMillTime] *)
Definition GetNowMillTime (steady : bool) (k : K) : Z := Z.quot (clock_of steady k) (10 ^ 6).

(** res_sched_time_util.cpp:57-70 [GetNowMicroTime] *)
Definition GetNowMicroTime (steady : bool) (k : K) : Z := Z.quot (clock_of steady k) (10 ^ 3).

(** res_sched_time_util.cpp:72-78 [GetCurrentTimestamp] *)
Definition GetCurrentTimestamp (k : K) : Z :=
  let '(tv_sec, tv_usec) := lt_gettimeofday (TM := TM) k in tv_sec * SEC_TO_MILLISEC + Z.quot tv_usec SEC_TO_MILLISEC.

(** res_sched_time_util.cpp:80-94 [ConvertTimestampToStr] the text of the format fits *)
Definition ConvertTimestampToStr (timestamp : Z) : string :=
  match lt_localtime (K := K) (Z.quot timestamp SEC_TO_MILLISEC) with
  | None => ""
  | Some local =>
      default "" (lt_strftime (K := K) 64 "%Y-%m-%d %H-%M-%S" local)
      +:+ "." +:+ three_places (Z.rem timestamp SEC_TO_MILLISEC)
  end.

(** res_sched_time_util.cpp:96-99 [GetNextMillTimeStamp] *)
Definition GetNextMillTimeStamp (time : Z) (steady : bool) (k : K) : Z := GetNowMillTime steady k + time.

(** res_sched_time_util.cpp:101-113 [FormatSeconds] *)
Definition FormatSeconds (seconds : Z) (format : string) : string :=
  match lt_localtime (K := K) seconds with
  | None => ""
  | Some time => default "" (lt_strftime (K := K) MAX_FORMAT_BUFF (c_str format) time)
  end.

(** res_sched_time_util.cpp:115-132 [FormatTimeWithMillis] the text of a stream always fits *)
Definition FormatTimeWithMillis (put_time : string -> TM -> string) (millis : Z) : string :=
  if millis <=? 0 then "" else
  match lt_localtime (K := K) (Z.quot millis 1000) with
  | None => ""
  | Some tm =>
      put_time "%Y-%m-%d %H:%M:%S" tm +:+ "."
      +:+ three_places (Z.quot (Z.rem millis 1000) SEC_TO_MILLISEC)
  end.

(** The milliseconds are always shown as zero. *)
Lemma millis_lost put_time millis tm :
  0 < millis -> lt_localtime (K := K) (Z.quot millis 1000) = Some tm ->
  FormatTimeWithMillis put_time millis = put_time "%Y-%m-%d %H:%M:%S" tm +:+ ".000".
Proof.
  intros Hm Ht. unfold FormatTimeWithMillis. rewrite (proj2 (Z.leb_gt _ _)) by done. rewrite Ht.
  rewrite Z.quot_small; [reflexivity|]. unfold SEC_TO_MILLISEC. apply Z.rem_bound_pos; lia.
Qed.
End time.

(** ** The system *)

Definition BYTES_PER_GB : Z := 1024 * 1024 * 1024. (* res_sched_system_util.cpp:29 *)
Definition BYTES_PER_MB : Z := 1024 * 1024. (* res_sched_system_util.cpp:31 *)
Definition PATH_DATA : string := "/data". (* res_sched_system_util.cpp:32 *)
Definition PATH_ROOT : string := "/". (* res_sched_system_util.cpp:33 *)

(** Parameters, [totalram] of [sysinfo], and [f_bsize] and [f_blocks] of [statvfs]. *)
Class SystemInfo (K : Type) := {
  si_GetParameter : string -> string -> K -> string;
  si_totalram : K -> option Z;
  si_statvfs : string -> K -> option (Z * Z);
}.

Section system.
Context {K : Type} `{!SystemInfo K}.

(** res_sched_system_util.cpp:112-115 [GetSystemProperties] *)
Definition GetSystemProperties (name defaultValue : string) (k : K) : string := si_GetParameter name defaultValue k.

(** A result in 64 bits. *)
Definition in_s64 (z : Z) : option Z := if (- 2 ^ 63 <=? z) && (z <? 2 ^ 63) then Some z else None.

(** res_sched_system_util.cpp:36-57 [GetTotalRamSize] *)
Definition GetTotalRamSize (ddrSysProp : string) (k : K) : option Z :=
  match (if bool_decide (ddrSysProp = "") then None else StrToInt64 (GetSystemProperties ddrSysProp "" k)) with
  | Some totalRamSize => in_s64 (totalRamSize * BYTES_PER_KB)
  | None =>
      match si_totalram k with
      | None => Some 0
      | Some totalram => Some (Z.quot (to_s64 totalram) BYTES_PER_GB * BYTES_PER_KB)
      end
  end.

(** res_sched_system_util.cpp:59-69 [GetTotalSizeByStatvfs] *)
Definition GetTotalSizeByStatvfs (path : string) (k : K) : option (option Z) :=
  match si_statvfs (c_str path) k with
  | None => Some None
  | Some (f_bsize, f_blocks) => Some <$> in_s64 (to_s64 f_bsize * to_s64 f_blocks)
  end.

(** res_sched_system_util.cpp:91-110 [GetTotalRomSize] the rounding with its fuel *)
Definition GetTotalRomSize (fuel : nat) (k : K) : option Z :=
  dataRomSize ← GetTotalSizeByStatvfs PATH_DATA k;
  match dataRomSize with
  | None => Some 0
  | Some dataRomSize =>
      rootRomSize ← GetTotalSizeByStatvfs PATH_ROOT k;
      match rootRomSize with
      | None => Some 0
      | Some rootRomSize =>
          totalSizeBytes ← in_s64 (dataRomSize + rootRomSize);
          RoundStorageSize fuel (Z.quot totalSizeBytes BYTES_PER_MB)
      end
  end.

(** The size of the memory is rounded down to gigabytes although the code asks for the ceiling. *)
Lemma ram_rounded_down k totalram :
  si_totalram k = Some totalram -> 0 <= totalram < 2 ^ 63 ->
  GetTotalRamSize "" k = Some (totalram / BYTES_PER_GB * 1024).
Proof.
  intros Hr Hb. unfold GetTotalRamSize. rewrite bool_decide_true by done. rewrite Hr. unfold to_s64.
  rewrite Z.mod_small by lia. f_equal. f_equal. destruct Hb as [Hb _].
  rewrite Z.add_simpl_r. by apply Z.quot_div_nonneg.
Qed.
End system.

(** ** The bundle manager *)

Definition INVALID_UID : Z := -1. (* res_bundle_mgr_helper.h:31 *)
Definition ERR_CONNECT_BMS_FAILED : Z := 100. (* res_bundle_mgr_helper.cpp:27 *)
Definition DEFAULT_USER_ID : Z := 100. (* res_bundle_mgr_helper.cpp:28 *)

(** The services of bundles and of accounts; [bs_iface_cast] says whether the proxy has an object. *)
Class BundleService (W : Type) := {
  bs_GetSystemAbilityManager : W -> bool;
  bs_GetSystemAbility : W -> bool;
  bs_iface_cast : W -> option bool;
  bs_GetNameForUid : Z -> W -> string * W;
  bs_GetUidByBundleName : string -> Z -> W -> Z * W;
  bs_GetSignatureInfoByUid : Z -> W -> Z * string * W;
  bs_QueryActiveOsAccountIds : W -> Z * list Z * W;
}.

(** res_bundle_mgr_helper.h:47-49 [bundleMgr_] whether it is there and has an object, and the death
    recipients added and removed *)
Record BundleHelper (W : Type) := mkBundleHelper {
  bh_bundleMgr_ : option bool;
  bh_recipients : Z;
  bh_world : W;
}.
Arguments mkBundleHelper {_}.
Arguments bh_bundleMgr_ {_}.
Arguments bh_recipients {_}.
Arguments bh_world {_}.
#[export] Instance BundleHelper_eta W : Eta (BundleHelper W) := fun s =>
  mkBundleHelper (bh_bundleMgr_ s) (bh_recipients s) (bh_world s).

Section bundle.
Context {W : Type} `{!BundleService W}.
#[local] Abbreviation M := (ST (BundleHelper W)).

(** res_bundle_mgr_helper.cpp:31-35 [ResBundleMgrHelper::ResBundleMgrHelper] *)
Definition new_BundleHelper (w : W) : BundleHelper W := mkBundleHelper None 0 w.

Definition bs_ask {A} (f : W -> A * W) : M A := fun s =>
  Some ((f (bh_world s)).1, s <| bh_world := (f (bh_world s)).2 |>).

(** res_bundle_mgr_helper.cpp:100-125 [ResBundleMgrHelper::Connect] *)
Definition Connect : M bool :=
  s ← st_get;
  match bh_bundleMgr_ s with
  | Some _ => mret true
  | None =>
      if negb (bs_GetSystemAbilityManager (bh_world s)) || negb (bs_GetSystemAbility (bh_world s)) then mret false else
      st_modify (fun s => s <| bh_bundleMgr_ := bs_iface_cast (bh_world s) |>);;
      match bs_iface_cast (bh_world s) with
      | Some true => st_modify (fun s => s <| bh_recipients ::= Z.succ |>);; mret true
      | _ => mret false
      end
  end.

(** res_bundle_mgr_helper.cpp:127-136 [ResBundleMgrHelper::Disconnect] *)
Definition Disconnect : M unit :=
  s ← st_get;
  match bh_bundleMgr_ s with
  | None => mret tt
  | Some has_object =>
      st_when has_object (st_modify (fun s => s <| bh_recipients ::= Z.pred |>));;
      st_modify (fun s => s <| bh_bundleMgr_ := None |>)
  end.

(** res_bundle_mgr_helper.cpp:138-142 [ResBundleMgrHelper::OnRemoteDied] *)
Definition Bundle_OnRemoteDied : M unit := Disconnect.

(** res_bundle_mgr_helper.cpp:37-41 [ResBundleMgrHelper::~ResBundleMgrHelper] *)
Definition BundleHelper_destroy : M unit := Disconnect.

(** res_bundle_mgr_helper.cpp:43-57 [ResBundleMgrHelper::GetBundleNameByUid] *)
Definition GetBundleNameByUid (uid : Z) : M string :=
  ok ← Connect;
  if negb ok then mret "" else bs_ask (bs_GetNameForUid uid).

(** res_bundle_mgr_helper.cpp:59-73 [ResBundleMgrHelper::GetUidByBundleName] *)
Definition GetUidByBundleName (bundleName : string) (userId : Z) : M Z :=
  ok ← Connect;
  if negb ok then mret INVALID_UID else bs_ask (bs_GetUidByBundleName bundleName userId).

(** res_bundle_mgr_helper.cpp:75-86 [ResBundleMgrHelper::GetCurrentUserId] the ids after those that
    are there *)
Definition GetCurrentUserId (activatedOsAccountIds : list Z) : M (list Z) :=
  r ← bs_ask bs_QueryActiveOsAccountIds;
  let l := activatedOsAccountIds ++ r.2 in
  let l := if negb (r.1 =? 0) then l ++ [DEFAULT_USER_ID] else l in
  mret (if bool_decide (l = []) then l ++ [DEFAULT_USER_ID] else l).

(** res_bundle_mgr_helper.cpp:88-98 [ResBundleMgrHelper::GetSignatureInfoByUid] the code, and the
    text when it is written *)
Definition GetSignatureInfoByUid (uid : Z) : M (Z * option string) :=
  ok ← Connect;
  if negb ok then mret (ERR_CONNECT_BMS_FAILED, None) else
  r ← bs_ask (bs_GetSignatureInfoByUid uid);
  mret (r.1, Some r.2).
End bundle.
