(* ===== verification/Ability.v ===== *)
(** * The ability of the service

    [res_sched_service_ability.cpp] joins the parts of the process: it starts and stops the
    managers, the common events and the observers, and watches other system abilities.  The
    calls that the observers make of [ResSchedMgr] are carried out on the service here.  The
    theorem follows the states of applications from the observer to the gate of reports. *)
From S2P Require Import Prelude Json ResType CommonUtil LruCache Ipc PluginConfig PluginMgr PluginMgrFacts NotifierMgr NotifierFacts EventListenerMgr ServiceWorld ResSchedMgr ResSchedService ServiceDemo ServiceFacts.
From S2P Require Import SceneRecognizer SlideRecognizer SceneFacts SceneReach SceneService SceneRules.
From S2P Require Import SchedReports EventController EventFacts AudioObserver AppStateObserver WindowObservers OobeManager ObserverManager FileUtil FileFacts ObserverFacts.

(** ** The outside *)

(** The ids of the abilities that only this file names. *)
Class AbilityIds := {
  BACKGROUND_TASK_MANAGER_SERVICE_ID : Z;
  RES_SCHED_EXE_ABILITY_ID : Z;
  POWER_MANAGER_SERVICE_ID : Z;
  WIFI_DEVICE_SYS_ABILITY_ID : Z;
  MSDP_USER_STATUS_SERVICE_ID : Z;
  BUNDLE_MGR_SERVICE_SYS_ABILITY_ID : Z;
  SOC_PERF_SERVICE_SA_ID : Z;
  MEMORY_MANAGER_SA_ID : Z;
  LOCATION_LOCATOR_SA_ID : Z;
  ADVANCED_NOTIFICATION_SERVICE_ABILITY_ID : Z;
}.
Definition GAME_SERVICE_SERVICE_ID : Z := 66058. (* res_sched_service_ability.cpp:30 *)
Definition GAME_SERVICE_SERVER_SA_ID : Z := 66006. (* res_sched_service_ability.cpp:31 *)

(** What the base class of abilities answers: whether it listens, and whether it published. *)
Class AbilityHost (K : Type) := {
  abh_AddSystemAbilityListener : Z -> K -> bool;
  abh_Publish : K -> bool;
}.

(** What the ability does to the outside besides its parts. *)
Inductive AbilityCall :=
  | AAddListener (systemAbilityId : Z)
  | ARemoveListener (systemAbilityId : Z)
  | AInitFault (scene info : string)
  | AStartTime.

(** ** State *)

(** The parts of the process, the files it sees, the delayed tasks that wait and the calls. *)
Record Ability (J K SC FW D F : Type) := mkAbility {
  ab_service : Service J K SC;
  ab_events : EventController J;
  ab_observers : ObserverManager FW D;
  ab_files : F;
  ab_reclaims : nat;
  ab_calls : list AbilityCall;
}.
Arguments mkAbility {_ _ _ _ _ _}. Arguments ab_service {_ _ _ _ _ _}. Arguments ab_events {_ _ _ _ _ _}.
Arguments ab_observers {_ _ _ _ _ _}. Arguments ab_files {_ _ _ _ _ _}. Arguments ab_reclaims {_ _ _ _ _ _}.
Arguments ab_calls {_ _ _ _ _ _}.
#[export] Instance Ability_eta J K SC FW D F : Eta (Ability J K SC FW D F) := fun a =>
  mkAbility (ab_service a) (ab_events a) (ab_observers a) (ab_files a) (ab_reclaims a) (ab_calls a).

Section ability.
Context {J K SC N FW D F : Type} `{!Json J} `{!JsonText J} `{!JsonMore J} `{!Build} `{!PluginHost J K} `{!Xml N}
  `{!SceneDispatcher J SC} `{!NotifierHost K} `{!AccessTokenKit K} `{!ApplicationState} `{!ServiceHost K}
  `{!ServiceBuild} `{!ErrCodes} `{!CommonEventSupport} `{!EventHost K} `{!AudioFramework} `{!AppExecFwk} `{!Rosen}
  `{!DataShare D} `{!SystemAbilities} `{!ObserverBuild} `{!Frameworks FW} `{!FileSystem F} `{!AbilityIds}
  `{!AbilityHost K}.
#[local] Abbreviation M := (ST (Ability J K SC FW D F)).

(** Operations of the parts. *)
Definition in_ab {P A} (part : Ability J K SC FW D F -> P) (set : P -> Ability J K SC FW D F -> Ability J K SC FW D F)
    (m : ST P A) : M A := fun a =>
  match m (part a) with Some (x, p) => Some (x, set p a) | None => None end.
Definition in_service {A} : ST (Service J K SC) A -> M A := in_ab ab_service (fun p a => a <| ab_service := p |>).
Definition in_events {A} : ST (EventController J) A -> M A := in_ab ab_events (fun p a => a <| ab_events := p |>).
Definition in_files {A} : ST F A -> M A := in_ab ab_files (fun p a => a <| ab_files := p |>).
Definition ab_record (c : AbilityCall) : M unit := st_modify (fun a => a <| ab_calls ::= fun l => l ++ [c] |>).
Definition ask_host {A} (f : K -> A) : M A := fun a => Some (f (host (plugins (ab_service a))), a).

(** A call that an observer or a subscriber made of the service or of the tasks of the first
    start. *)
Definition deliver (c : RCall J) : M unit :=
  match c with
  | RReport resType value payload => in_service (ResSchedMgr_ReportData resType value payload)
  | RReportInProcess resType value payload => in_service (ReportDataInProcess resType value payload)
  | RAppState state pid => in_service (ReportAppStateInProcess state pid)
  | RProcessState state pid => in_service (ReportProcessStateInProcess state pid)
  | RDataShareReady =>
      in_ab (fun a => oobe (ab_observers a)) (fun o a => a <| ab_observers ::= fun x => x <| oobe := o |> |>)
        OnReceiveDataShareReadyCallBack
  end.

(** An operation of the observers runs, and its calls are carried out in their order. *)
Definition in_observers (m : ST (With (ObserverManager FW D) J) unit) : M unit := fun a =>
  match m (mkWith (ab_observers a) []) with
  | Some (_, w) => st_iter deliver (calls w) (a <| ab_observers := own w |>)
  | None => None
  end.

(** ** Start and stop *)

(** res_sched_service_ability.cpp:140-155 [saList] the ids with their names, walked by id *)
Definition saList : gmap Z string := list_to_map
  [(APP_MGR_SERVICE_ID, "APP_MGR_SERVICE_ID"); (WINDOW_MANAGER_SERVICE_ID, "WINDOW_MANAGER_SERVICE_ID");
   (BACKGROUND_TASK_MANAGER_SERVICE_ID, "BACKGROUND_TASK_MANAGER_SERVICE_ID");
   (RES_SCHED_EXE_ABILITY_ID, "RES_SCHED_EXE_ABILITY_ID"); (POWER_MANAGER_SERVICE_ID, "POWER_MANAGER_SERVICE_ID");
   (GAME_SERVICE_SERVICE_ID, "GAME_SERVICE_SERVICE_ID"); (WIFI_DEVICE_SYS_ABILITY_ID, "WIFI_DEVICE_SYS_ABILITY_ID");
   (MSDP_USER_STATUS_SERVICE_ID, "MSDP_USER_STATUS_SERVICE_ID");
   (BUNDLE_MGR_SERVICE_SYS_ABILITY_ID, "BUNDLE_MGR_SERVICE_SYS_ABILITY_ID");
   (SOC_PERF_SERVICE_SA_ID, "SOC_PERF_SERVICE_SA_ID"); (MEMORY_MANAGER_SA_ID, "MEMORY_MANAGER_SA_ID");
   (LOCATION_LOCATOR_SA_ID, "LOCATION_LOCATOR_SA_ID");
   (ADVANCED_NOTIFICATION_SERVICE_ABILITY_ID, "ADVANCED_NOTIFICATION_SERVICE_ABILITY_ID");
   (GAME_SERVICE_SERVER_SA_ID, "GAME_SERVICE_SERVER_SA_ID")].

(** res_sched_service_ability.cpp:167-186 [ResSchedServiceAbility::ReportSAListenerResult] *)
Definition ReportSAListenerResult (errIds : list string) : M bool :=
  if bool_decide (errIds = []) then mret true else
  ab_record (AInitFault "SaListenerFailed"
    ("Register SA listener failed : " +:+ String.concat "" ((fun errId => errId +:+ " ") <$> errIds)));;
  mret false.

(** res_sched_service_ability.cpp:156-163 [SystemAbilityListenerInit] the body of its loop, with
    the names that failed so far *)
Fixpoint add_listeners (l : list (Z * string)) (errIds : list string) : M (list string) :=
  match l with
  | [] => mret errIds
  | (saId, saIdStr) :: l =>
      added ← ask_host (abh_AddSystemAbilityListener saId);
      ab_record (AAddListener saId);;
      add_listeners l (if added : bool then errIds else errIds ++ [saIdStr])
  end.

(** res_sched_service_ability.cpp:138-165 [ResSchedServiceAbility::SystemAbilityListenerInit] *)
Definition SystemAbilityListenerInit : M unit :=
  errIds ← add_listeners (in_order saList) [];
  ReportSAListenerResult errIds;; mret tt.

(** res_sched_service_ability.cpp:130-136 [ResSchedServiceAbility::ReclaimProcessMemory] after a
    minute *)
Definition ReclaimProcessMemory : M unit := st_modify (fun a => a <| ab_reclaims ::= S |>).
(** res_sched_service_ability.cpp:135-135 [WriteFileReclaim] the delayed task *)
Definition reclaim_due : M unit :=
  a ← st_get;
  ret_if (ab_reclaims a =? 0)%nat;
  st_modify (fun a => a <| ab_reclaims ::= pred |>);;
  pid ← ask_host sh_getpid;
  in_files (WriteFileReclaim pid).

(** event_controller.cpp:671-674 [EventControllerInit] *)
Definition EventControllerInit : M unit := k ← ask_host id; in_events (EventController_Init k).
(** event_controller.cpp:676-679 [EventControllerStop] *)
Definition EventControllerStop : M unit := k ← ask_host id; in_events (EventController_Stop k).

(** res_sched_service_ability.cpp:48-82 [ResSchedServiceAbility::OnStart] *)
Definition Ability_OnStart : M unit :=
  in_service (OnStart (N := N));;
  published ← ask_host abh_Publish;
  st_when (negb published) (ab_record (AInitFault "ServicePublishFailed" "Publish ResSchedService failed."));;
  SystemAbilityListenerInit;;
  EventControllerInit;;
  in_observers ObserverManager_Init;;
  ReclaimProcessMemory;;
  ab_record AStartTime.

(** res_sched_service_ability.cpp:84-95 [ResSchedServiceAbility::OnStop] *)
Definition Ability_OnStop : M unit :=
  in_observers ObserverManager_Disable;;
  EventControllerStop;;
  st_iter (fun id => ab_record (ARemoveListener id))
    [BACKGROUND_TASK_MANAGER_SERVICE_ID; WINDOW_MANAGER_SERVICE_ID; APP_MGR_SERVICE_ID; POWER_MANAGER_SERVICE_ID;
     SOC_PERF_SERVICE_SA_ID];;
  in_service OnStop.

(** ** What arrives *)

(** The callbacks of the observer of applications. *)
Inductive AppCallback :=
  | BForeground (d : AppStateData) | BAbility (d : AbilityStateData) | BExtension (d : AbilityStateData)
  | BProcessCreated (d : ProcessData) | BProcessDied (d : ProcessData) | BApplication (d : AppStateData)
  | BAppState (d : AppStateData) | BCache (d : AppStateData) | BPreForeground (d : PreloadProcessData)
  | BProcessState (d : ProcessData) | BStopped (d : AppStateData) | BPageShow (d : PageStateData).

Definition app_callback (c : AppCallback) : ST (With AppStates J) unit :=
  match c with
  | BForeground d => OnForegroundApplicationChanged d
  | BAbility d => OnAbilityStateChanged d
  | BExtension d => OnExtensionStateChanged d
  | BProcessCreated d => OnProcessCreated d
  | BProcessDied d => OnProcessDied d
  | BApplication d => OnApplicationStateChanged d
  | BAppState d => OnAppStateChanged d
  | BCache d => OnAppCacheStateChanged d
  | BPreForeground d => OnProcessPreForegroundChanged d
  | BProcessState d => OnProcessStateChanged d
  | BStopped d => OnAppStopped d
  | BPageShow d => OnPageShow d
  end.

(** A common event at one of the four subscribers, when it is there. *)
Inductive Which := WMain | WLockScreen | WCloneState | WMediaCtrl.
Definition which_get (w : Which) (l : EventListener J) : option (Subscriber J) :=
  match w with
  | WMain => subscriber_ l
  | WLockScreen => lockScreenSubscriber_ l
  | WCloneState => cloneStateSubscriber_ l
  | WMediaCtrl => mediaCtrlSubscriber_ l
  end.
Definition which_set (w : Which) (x : Subscriber J) (l : EventListener J) : EventListener J :=
  match w with
  | WMain => l <| subscriber_ := Some x |>
  | WLockScreen => l <| lockScreenSubscriber_ := Some x |>
  | WCloneState => l <| cloneStateSubscriber_ := Some x |>
  | WMediaCtrl => l <| mediaCtrlSubscriber_ := Some x |>
  end.
Definition common_event (w : Which) (e : CommonEventData) : M unit := fun a =>
  match EventController.sysAbilityListener_ (ab_events a) ≫= which_get w with
  | None => Some (tt, a)
  | Some x =>
      match Event_OnReceiveEvent e (mkWith x []) with
      | Some (_, x) =>
          st_iter deliver (calls x)
            (a <| ab_events ::= fun s => s <| EventController.sysAbilityListener_ ::= fmap (which_set w (own x)) |> |>)
      | None => None
      end
  end.

(** What can happen to the process. *)
Inductive AbilityEvent :=
  | AbAdd (systemAbilityId : Z) (deviceId : string)
  | AbRemove (systemAbilityId : Z) (deviceId : string)
  | AbDeviceLevel (type level : Z)
  | AbApp (c : AppCallback)
  | AbStartup (curTime : Z)
  | AbObserverAdd (systemAbilityId : Z)
  | AbObserverRemove (systemAbilityId : Z)
  | AbEventServiceAdd (systemAbilityId : Z)
  | AbEventServiceRemove (systemAbilityId : Z)
  | AbCommonEvent (w : Which) (e : CommonEventData)
  | AbReclaim.

Definition run_ability (e : AbilityEvent) : M unit :=
  match e with
  | AbAdd id dev => in_service (OnAddSystemAbility (N := N) RES_SCHED_EXE_ABILITY_ID APP_MGR_SERVICE_ID id dev)
  | AbRemove id dev => in_service (OnRemoveSystemAbility id dev)
  | AbDeviceLevel type level => in_service (Ability_OnDeviceLevelChanged type level)
  | AbApp c => in_observers (in_apps (app_callback c))
  | AbStartup curTime => in_observers (in_apps (run_submitted curTime))
  | AbObserverAdd id => in_observers (Mgr_OnAddSystemAbility id)
  | AbObserverRemove id => in_observers (Mgr_OnRemoveSystemAbility id)
  | AbEventServiceAdd id => in_events (Event_OnAddSystemAbility id)
  | AbEventServiceRemove id => in_events (Event_OnRemoveSystemAbility id)
  | AbCommonEvent w e => common_event w e
  | AbReclaim => reclaim_due
  end.
End ability.

(** ** Who is in the foreground

    What the application manager told about a process, its answers when its service was
    added, and nothing else decides whether a process may report the types of foreground
    applications. *)

(** The state of a process that a callback tells the service. *)
Definition tells `{!AppExecFwk} (c : AppCallback) : option (Z * Z) :=
  match c with
  | BProcessDied d => if ValidateProcessData d then Some (PROCESS_DIED, pd_pid d) else None
  | BProcessState d => if ValidateProcessData d then Some (pd_state d, pd_pid d) else None
  | BApplication d | BAppState d => if ValidateAppStateData d then Some (as_state d, as_pid d) else None
  | _ => None
  end.

(** What foreground applications may report, applications may. *)
Lemma fg_are_allowed t : t ∈ FG_THIRDPART_RES -> t ∈ THIRDPART_RES.
Proof.
  assert (Hs : FG_THIRDPART_RES ⊆ THIRDPART_RES) by (apply (bool_decide_unpack _); vm_compute; exact I).
  apply Hs.
Qed.

Section facts.
Context {J K N FW D F : Type} `{!Json J} `{!JsonLaws J} `{!JsonText J} `{!JsonMore J} `{!Build} `{!PluginHost J K}
  `{!Xml N} `{!SceneHost J K} `{!BackgroundMode} `{!NotifierHost K} `{!AccessTokenKit K} `{!ApplicationState}
  `{!ServiceHost K} `{!ServiceBuild} `{!ErrCodes} `{!CommonEventSupport} `{!EventHost K} `{!AudioFramework}
  `{!AppExecFwk} `{!Rosen} `{!DataShare D} `{!SystemAbilities} `{!ObserverBuild} `{!Frameworks FW} `{!FileSystem F}
  `{!AbilityIds} `{!AbilityHost K}.
Context (screen_u64 : forall d (k : K) screen,
  sch_ConvertScreenIdToRsScreenId (J := J) d k = Some screen -> 0 <= screen < 2 ^ 64).
#[local] Abbreviation A := (Ability J K (Scenes J) FW D F).
#[local] Abbreviation M := (ST A).
#[local] Abbreviation Svc := (Service J K (Scenes J)).

(** *** Calls of the observers *)

(** A report that the recognizers can take: none of them reads its payload, or it is an object
    without task types, whatever type the plugin manager finds in it. *)
Definition unread (t : Z) : bool :=
  negb (Accept SLIDE_RECOGNIZER t) && negb (t =? RES_TYPE_CONTINUOUS_TASK) && negb (t =? RES_TYPE_KEY_PERF_SCENE).
Definition fine_call (c : RCall J) : Prop :=
  match c with
  | RReport t v p | RReportInProcess t v p => unread t = true \/ (obj p /\ json_find TYPE_IDS_KEY p = None)
  | _ => True
  end.
(** A call that says nothing about the state of a process. *)
Definition plain_call (c : RCall J) : Prop :=
  fine_call c /\ match c with RAppState _ _ | RProcessState _ _ => False | _ => True end.
Definition plain_calls {T} (s : With T J) : Prop := Forall plain_call (calls s).

Lemma obj_set_fields l (p : J) : obj p -> obj (set_fields l p).
Proof.
  revert p. induction l as [|[k v] l IH]; intros p Hp; [done|]. apply IH. left. by apply json_set_object.
Qed.
Lemma find_null k : json_find k (json_null : J) = None.
Proof.
  destruct (json_find k json_null) as [v|] eqn:E; [|done]. apply json_find_object in E.
  by rewrite json_null_no_object in E.
Qed.
Section kept.
Context {T : Type}.
#[local] Abbreviation P := (plain_calls (T := T)).
Lemma kept_call c : plain_call c -> keeps P (r_call c).
Proof. intros Hc. apply keeps_modify. intros s Hs. unfold plain_calls. simpl. by apply Forall_app_2; [|constructor]. Qed.
Lemma kept_report t v p : unread t = true -> keeps P (r_report t v p).
Proof. intros Ht. apply kept_call. split; [by left|done]. Qed.
Lemma kept_r_get : keeps P r_get.
Proof. by intros s Hs. Qed.
Lemma kept_r_upd f : keeps P (r_upd f).
Proof. by apply keeps_modify. Qed.
Lemma kept_in_own {U B} (part : T -> U) set (m : ST (With U J) B) : keeps plain_calls m -> keeps P (in_own part set m).
Proof.
  intros Hm s Hs. unfold in_own. specialize (Hm (mkWith (part (own s)) (calls s)) Hs).
  destruct (m _) as [[a s']|]; [exact Hm|done].
Qed.
End kept.

#[local] Hint Resolve kept_r_get kept_r_upd : keeps.

Ltac plain_step :=
  first
  [ apply kept_report; reflexivity
  | apply kept_in_own
  | keeps_step ].
Ltac plain_auto := repeat plain_step.

Lemma kept_Event t v (p : J) : unread t = true -> keeps plain_calls (Event_ReportDataInProcess t v p).
Proof. intros. unfold Event_ReportDataInProcess. plain_auto. by apply kept_report. Qed.

Lemma kept_common_event w : keeps plain_calls (Event_OnReceiveEvent (J := J) w).
Proof.
  unfold Event_OnReceiveEvent, HandlePkgCommonEvent, handleEvent, handleOtherEvent, handleLeftEvent, HandleConnectivityChange,
    HandleCloneStateEvent, HandleAudioFocusChangeEvent, HandleMediaCtrlEvent, handleNearlinkEvent, DataShareIsReady.
  cbv zeta.
  repeat first [ apply kept_Event; reflexivity | apply kept_call; split; done | keeps_step ].
Qed.

(** *** The manager of observers *)
#[local] Abbreviation kept m := (keeps (S := With (ObserverManager FW D) J) plain_calls m).
Lemma kept_in_oobe {B} (m : ST (Oobe D) B) : kept (in_oobe m).
Proof. intros s Hs. unfold in_oobe. by destruct (m _) as [[a o]|]. Qed.
Lemma kept_call_fw c : kept (call c).
Proof. intros s Hs. unfold call. by destruct (fw c _). Qed.
Lemma kept_ask {B} (f : FW -> B) : kept (ask f).
Proof. unfold ask. plain_auto. Qed.
#[local] Hint Resolve kept_in_oobe kept_call_fw kept_ask : keeps.
Lemma kept_make o m : kept m -> kept (make o m).
Proof. intros Hm. unfold make, there, put, o_upd. by plain_auto. Qed.
Lemma kept_style t : keeps (S := With Watched J) plain_calls (OnWindowStyleUpdate t).
Proof.
  apply kept_call. split; [|done]. right. unfold fields. simpl. split.
  - apply (obj_set_fields [(_, _)]), obj_null.
  - by rewrite json_find_set_ne, find_null.
Qed.
Lemma kept_renderers l c : keeps (S := With AudioObserver J) plain_calls (renderer_loop l c).
Proof.
  revert c. induction l as [|i l IH]; intros c; simpl; [plain_auto|].
  unfold HandleInnerAudioStateChange, ProcessRunningSessionState, ProcessStopSessionState.
  repeat first [apply IH | plain_step].
Qed.
Lemma kept_audio_init r c : keeps (S := With AudioObserver J) plain_calls (AudioObserver_Init r c).
Proof.
  unfold AudioObserver_Init, OnRendererStateChange, OnCapturerStateChange, ReportCapturerStateChange, ProcessCapturerBegin,
    ProcessCapturerEnd, HandleStartAudioStateEvent, HandleStopAudioStateEvent.
  repeat first [apply kept_renderers | plain_step].
Qed.
Ltac mgr_auto := repeat first [apply kept_style | apply kept_audio_init | apply kept_make | plain_step].
Lemma kept_handler h : kept (run_handler (J := J) h).
Proof.
  destruct h; cbn [run_handler];
  unfold InitHiSysEventObserver, InitMMiEventObserver, InitTelephonyObserver, InitAudioObserver, InitAudioEventListener,
    InitDisplayModeObserver, InitDisplayManagerServiceSAObserver, InitDisplayOrientationObserver, InitDisplayPowerEventObserver,
    InitConnectionSubscriber, InitDataShareObserver, InitDownloadUploadObserver, InitAVSessionStateChangeListener,
    InitAccountObserver, InitWindowStateObserver, SubscribeAppState, InitContinuationObserver, SubscribeWindowModeChange,
    SubscribePipChange, InitWindowStyleObserver, GetAllMmiStatusData, OnDisplayModeChanged, enter_display_mode,
    ReportDisplayModeStatus, InitWindowMode, in_build, in_watched, in_audio, call_, drop, put, o_upd; mgr_auto.
Qed.
Lemma kept_remover h : kept (run_remover (J := J) h).
Proof.
  destruct h; cbn [run_remover];
  unfold DisableHiSysEventObserver, DisableMMiEventObserver, DisableTelephonyObserver, DisableAudioObserver,
    DisableDisplayModeObserver, DisableDisplayManagerServiceSAObserver, DisableDisplayOrientationObserver,
    DisableDisplayPowerEventObserver, DisableConnectionSubscriber, DisableDataShareObserver, DisableDownloadUploadObserver,
    DisableAVSessionStateChangeListener, DisableAccountObserver, DisableWindowStateObserver, UnsubscribeAppState,
    DisableContinuationObserver, UnsubscribeWindowModeChange, UnsubscribePipChange, DisableWindowStyleObserver, unmake,
    ProcessCapturerEndCaseByUnregister, in_build, in_watched, in_audio, call_, there, drop, put, o_upd; mgr_auto.
Qed.
Lemma kept_report_ability sign id : kept (report_ability (J := J) sign id).
Proof. apply kept_call. split; [by left|done]. Qed.
Lemma kept_add id : kept (Mgr_OnAddSystemAbility (J := J) id).
Proof. unfold Mgr_OnAddSystemAbility. repeat first [apply kept_handler | apply kept_report_ability | plain_step]. Qed.
Lemma kept_remove id : kept (Mgr_OnRemoveSystemAbility (J := J) id).
Proof. unfold Mgr_OnRemoveSystemAbility. repeat first [apply kept_remover | apply kept_report_ability | plain_step]. Qed.
Lemma kept_startup t : kept (in_apps (J := J) (run_submitted t)).
Proof.
  unfold in_apps, run_submitted, RecordIsContinuousStartup, UpdateAppStartupNum, CleanRecordSceneData, cancel_exit, submit_exit.
  plain_auto.
Qed.
Lemma kept_mgr_init : kept (ObserverManager_Init (J := J)).
Proof.
  unfold ObserverManager_Init, InitSysAbilityListener, in_apps, Startup_Init, AddItemToSysAbilityListener, GetReportFunc,
    InitObserverCbMap, InitRemoveObserverCbMap, there, put, drop, o_upd. plain_auto.
Qed.

(** *** The service *)

(** What a call changes of the processes in the foreground. *)
Definition fg_state (state pid : Z) (fg : gset Z) : gset Z :=
  let fg := if state =? AS_FOREGROUND then {[ pid ]} ∪ fg else fg in
  if state_leaves state then fg ∖ {[ pid ]} else fg.
Definition fg_call (c : RCall J) (fg : gset Z) : gset Z :=
  match c with RAppState state pid | RProcessState state pid => fg_state state pid fg | _ => fg end.

(** The parts that only the state calls and requests change. *)
Definition same_parts (s0 s : Svc) : Prop :=
  notifiers s = notifiers s0 /\ rsmgr s = rsmgr s0 /\ svc s = svc s0.
Section same.
Context (s0 : Svc).
#[local] Abbreviation P := (same_parts s0).
Lemma kept_plugins {B} (m : ST (PluginMgr J K) B) : keeps P (in_plugins m).
Proof. intros s Hs. unfold in_plugins, in_part. by destruct (m _) as [[a p]|]. Qed.
Lemma kept_scenes {B} (m : ST (Scenes J) B) : keeps P (in_scenes m).
Proof. intros s Hs. unfold in_scenes, in_part. by destruct (m _) as [[a p]|]. Qed.
Lemma kept_listeners {B} (m : ST (EventListenerMgr J) B) : keeps P (in_listeners m).
Proof. intros s Hs. unfold in_listeners, in_part. by destruct (m _) as [[a p]|]. Qed.
Lemma kept_get_host : keeps P get_host.
Proof. by intros s Hs. Qed.
#[local] Hint Resolve kept_plugins kept_scenes kept_listeners kept_get_host : keeps.
Lemma kept_report_data t v p : keeps P (ResSchedMgr_ReportData t v p).
Proof. unfold ResSchedMgr_ReportData, ReportDataInner. keeps_auto. Qed.
Lemma kept_run_sv e : keeps P (run_sv e).
Proof.
  unfold run_sv, carry_out, perform. repeat first [apply kept_report_data | keeps_step].
Qed.
End same.

(** The service between two steps: all calls of the recognizers are carried out, the records
    of clients and the cache of permissions are in order. *)
Definition svc_ok (s : Svc) : Prop :=
  sv_ok (K := K) s /\ notifiers_ok (notifiers s) /\ cache_ok s.

Lemma same_svc_ok s s' : same_parts s s' -> svc_ok s -> sv_ok (K := K) s' -> svc_ok s'.
Proof. intros (En & _ & Es) (_ & Hn & Hc) Hs. split; [done|]. unfold cache_ok. by rewrite En, Es. Qed.

Lemma report_ok t v p s : fine_call (RReport t v p) -> svc_ok s ->
  exists s', ResSchedMgr_ReportData t v p s = Some (tt, s') /\ svc_ok s' /\ same_parts s s'.
Proof.
  intros Hf Hs. set (d := mkResData t v p).
  assert (Hd : event_ok (K := K) (if isInit (plugins s) then effective (K := K) d else d)).
  { destruct Hf as [[[Ha%negb_true_iff Hc%negb_true_iff%Z.eqb_neq]%andb_true_iff Hk%negb_true_iff%Z.eqb_neq]%andb_true_iff|[Ho Hi]].
    - unfold d. rewrite (effective_same t v p Hk). destruct (isInit (plugins s)); by apply event_ok_unread.
    - assert (H' : forall t', event_ok (K := K) (mkResData t' v p)).
      { intros t'. split; [done|]. intros _ l. simpl. by rewrite Hi. }
      destruct (isInit (plugins s)); [|apply H']. unfold effective. case_match; apply H'. }
  destruct (dispatch_run _ _ (scenes s) Hd (proj1 Hs)) as (sc & E & Hsc & Ec & _).
  destruct (report_run t v p s sc E) as (s' & E' & Es). exists s'.
  pose proof (keeps_run _ _ _ _ _ (kept_report_data s t v p) (conj eq_refl (conj eq_refl eq_refl)) E') as Hp.
  split_and!; [done| |done]. apply (same_svc_ok s); [done..|]. unfold sv_ok. by rewrite Es, Ec.
Qed.

(** *** The ability *)

Definition ab_ok (a : A) : Prop := svc_ok (ab_service a).
Definition fg (a : A) : gset Z := foregroundPids_ (rsmgr (ab_service a)).
Definition lists (a : A) : AllowLists := allow (svc (ab_service a)).

(** What a step does to the processes in the foreground. *)
Definition moved (f : gset Z -> gset Z) (a a' : A) : Prop := ab_ok a' /\ fg a' = f (fg a) /\ lists a' = lists a.
Definition moves (f : gset Z -> gset Z) (m : M unit) : Prop :=
  forall a, ab_ok a -> exists a', m a = Some (tt, a') /\ moved f a a'.

Lemma moved_refl a : ab_ok a -> moved id a a.
Proof. intros Ha. by split; [|split]. Qed.
Lemma moves_seq f g m1 m2 : moves f m1 -> moves g m2 -> moves (g ∘ f) (m1;; m2).
Proof.
  intros Hm1 Hm2 a Ha. destruct (Hm1 a Ha) as (a1 & E1 & Ha1 & Ef1 & El1).
  destruct (Hm2 a1 Ha1) as (a2 & E2 & Ha2 & Ef2 & El2). exists a2. rewrite (run_bind _ _ _ _ _ E1).
  split; [done|]. split; [done|]. split; simpl; congruence.
Qed.
Lemma moves_iter {X} (f : X -> gset Z -> gset Z) (m : X -> M unit) l :
  Forall (fun x => moves (f x) (m x)) l -> moves (fun s => foldl (fun s x => f x s) s l) (st_iter m l).
Proof.
  induction 1 as [|x l Hx _ IH]; simpl; [intros a Ha; exists a; split; [done|by apply moved_refl]|].
  exact (moves_seq _ _ _ _ Hx IH).
Qed.
Lemma moves_service f (m : ST Svc unit) :
  (forall s, svc_ok s -> exists s', m s = Some (tt, s') /\ svc_ok s'
     /\ foregroundPids_ (rsmgr s') = f (foregroundPids_ (rsmgr s)) /\ allow (svc s') = allow (svc s)) ->
  moves f (in_service m).
Proof.
  intros Hm a Ha. destruct (Hm _ Ha) as (s' & E & Hs' & Ef & El). eexists. unfold in_service, in_ab. rewrite E.
  split; [done|]. by split; [|split].
Qed.
(** Steps of other parts. *)
Lemma moves_other {P} (part : A -> P) set (m : ST P unit) :
  (forall p a, ab_service (set p a) = ab_service a) -> total m -> moves id (in_ab part set m).
Proof.
  intros Hset Hm a Ha. destruct (Hm (part a)) as [[[] p] E]. exists (set p a). unfold in_ab. rewrite E.
  split; [done|]. unfold moved, ab_ok, fg, lists. by rewrite Hset.
Qed.

Lemma state_run state pid (s : Svc) :
  exists s', ResSchedMgr_OnApplicationStateChange state pid s = Some (tt, s')
    /\ foregroundPids_ (rsmgr s') = fg_state state pid (foregroundPids_ (rsmgr s))
    /\ svc s' = svc s /\ notifiers s' = notifiers s /\ scenes s' = scenes s.
Proof.
  unfold ResSchedMgr_OnApplicationStateChange, fg_state, upd_mgr.
  destruct (state =? AS_FOREGROUND), (state_leaves state); by eexists.
Qed.

Lemma moves_deliver c : fine_call c -> moves (fg_call c) (deliver c).
Proof.
  intros Hc. destruct c as [t v p|t v p|state pid|state pid|]; cbn [deliver fg_call].
  1,2: apply moves_service; intros s Hs; destruct (report_ok t v p s Hc Hs) as (s' & E & Hs' & _ & Er & Ev);
    exists s'; rewrite Er, Ev; by split_and!.
  - apply moves_service. intros s (Hs & Hn & Hc'). unfold ReportAppStateInProcess.
    destruct (ok_state state pid _ Hn) as (n & En & Hn').
    rewrite (run_bind _ _ s tt (s <| notifiers := n |>)) by (unfold in_notifiers, in_part; by rewrite En).
    destruct (state_run state pid (s <| notifiers := n |>)) as (s' & E & Ef & Ev & Eno & Es). exists s'.
    split_and!; [done| |done|by rewrite Ev]. unfold svc_ok, sv_ok, cache_ok. by rewrite Ev, Eno, Es.
  - apply moves_service. intros s Hs. unfold ReportProcessStateInProcess.
    destruct (state_run state pid s) as (s' & E & Ef & Ev & Eno & Es). exists s'.
    split_and!; [done| |done|by rewrite Ev]. unfold svc_ok, sv_ok, cache_ok. by rewrite Ev, Eno, Es.
  - apply moves_other; [done|]. apply total_modify.
Qed.

Lemma moves_calls l : Forall fine_call l -> moves (fun s => foldl (fun s c => fg_call c s) s l) (st_iter deliver l).
Proof. intros Hl. apply moves_iter. eapply Forall_impl; [exact Hl|]. apply moves_deliver. Qed.
Lemma plain_calls_stay l s : Forall plain_call l -> foldl (fun s c => fg_call c s) s l = s.
Proof. induction 1 as [|c l [_ Hc] _ IH]; [done|]. simpl. by destruct c. Qed.

(** An operation that makes plain calls moves nobody, if it returns. *)
Lemma plain_deliver l : Forall plain_call l -> moves id (st_iter deliver l).
Proof.
  intros Hl a Ha. destruct (moves_calls l) with a as (a' & E & Ha' & Ef & El); [|done|].
  { eapply Forall_impl; [exact Hl|]. by intros c []. }
  exists a'. split; [done|]. split; [done|]. split; [|done]. by rewrite Ef, plain_calls_stay.
Qed.
Lemma in_observers_moved m a a' : keeps plain_calls m -> in_observers m a = Some (tt, a') -> ab_ok a -> moved id a a'.
Proof.
  intros Hm E Ha. unfold in_observers in E. destruct (m _) as [[[] w]|] eqn:Em; [|done].
  assert (Hl : plain_calls w) by (eapply keeps_run; [exact Hm| |exact Em]; constructor).
  destruct (plain_deliver _ Hl (a <| ab_observers := own w |>)) as (a2 & E2 & Hm2); [exact Ha|].
  simpl in *. rewrite E in E2. injection E2 as ->. exact Hm2.
Qed.

(** *** What each event does *)

Lemma report_cache d : fine_call (RReport RES_TYPE_KEY_PERF_SCENE (as_state d)
  (json_set "extType" (num 10008) (MarshallingAppStateData (J := J) d))).
Proof.
  right. split.
  - left. apply json_set_object, obj_set_fields, obj_null.
  - unfold MarshallingAppStateData, fields. simpl. by rewrite !json_find_set_ne, find_null.
Qed.

Lemma app_callback_run c (x : AppStates) :
  exists x' l, app_callback (J := J) c (mkWith x []) = Some (tt, mkWith x' l) /\ Forall fine_call l
    /\ forall s, foldl (fun s c => fg_call c s) s l
       = match tells c with Some (state, pid) => fg_state state pid s | None => s end.
Proof.
  assert (Hnone : exists x' l, Some (tt, mkWith x ([] : list (RCall J))) = Some (tt, mkWith x' l) /\ Forall fine_call l
    /\ forall s, foldl (fun s c => fg_call c s) s l = s) by (eexists x, []; by split_and!).
  destruct c as [d|d|d|d|d|d|d|d|d|d|d|d]; cbn [app_callback tells];
    unfold OnForegroundApplicationChanged, OnExtensionStateChanged, OnAbilityStateChanged, OnProcessCreated,
      OnProcessDied, OnApplicationStateChanged, OnAppStateChanged, OnAppCacheStateChanged,
      OnProcessPreForegroundChanged, OnProcessStateChanged, OnAppStopped, OnPageShow.
  all: repeat match goal with
    | |- context [if negb ?b then mret tt else _] => destruct b; cbn [negb]; [|done]
    | |- context [if ?b then mret tt else _] => destruct b; [done|]
    | |- context [if IsUIExtensionAbilityStateChanged ?d then _ else _] =>
        destruct (IsUIExtensionAbilityStateChanged d)
    | |- context [extensionStateToAbilityState_ !! ?x] => destruct (extensionStateToAbilityState_ !! x)
    | |- context [st_when (IsAppStartUp ?x) _] => destruct (IsAppStartUp x)
    end.
  all: eexists _, _; split; [reflexivity|]; split; [|done].
  all: first [solve [repeat (constructor; try reflexivity)]|constructor; [apply report_cache|constructor]].
Qed.

Lemma moves_app c :
  moves (fun s => match tells c with Some (state, pid) => fg_state state pid s | None => s end)
    (in_observers (in_apps (app_callback c))).
Proof.
  intros a Ha. unfold in_observers, in_apps, in_own. simpl.
  destruct (app_callback_run c (apps (ab_observers a))) as (x' & l & -> & Hl & Hfold). simpl.
  destruct (moves_calls l Hl (a <| ab_observers := (ab_observers a) <| apps := x' |> |>)) as (a' & E & Ha' & Ef & El); [exact Ha|].
  exists a'. split; [exact E|]. split; [done|]. split; [|done]. rewrite Ef. apply Hfold.
Qed.

(** The report that an ability was added or removed. *)
Lemma ability_report_ok v p (s : Svc) : svc_ok s ->
  exists s', ResSchedMgr_ReportData RES_TYPE_SYSTEM_ABILITY_STATUS_CHANGE v p s = Some (tt, s') /\ svc_ok s' /\ same_parts s s'.
Proof. intros Hs. apply report_ok; [by left|done]. Qed.

Lemma total_content i f : total (GetConfigContent (J := J) (K := K) i f).
Proof.
  unfold GetConfigContent, GetAllRealConfigPath. total_auto.
  match goal with |- context [_ l] => induction l as [|[dir|] l IH] end; [apply total_ret| |exact IH].
  unfold CheckRealPath. total_auto.
Qed.

(** The executor gets the configuration; only the plugin manager and the IPC threads take part. *)
Lemma executor_ok (s : Svc) :
  exists s', InitExecutorPlugin (N := N) false s = Some (tt, s') /\ same_parts s s' /\ scenes s' = scenes s.
Proof.
  unfold InitExecutorPlugin, GetConfigReaderStr, GetPluginSwitchStr.
  destruct (total_content 1 "etc/ressched/res_sched_config.xml" (plugins s)) as [[c p] E].
  rewrite (run_bind _ _ s c (s <| plugins := p |>)) by (unfold in_plugins, in_part; by rewrite E).
  destruct (total_content 0 "etc/ressched/res_sched_plugin_switch.xml" p) as [[c2 p2] E2].
  rewrite (run_bind _ _ _ c2 (s <| plugins := p |> <| plugins := p2 |>))
    by (unfold in_plugins, in_part; change (plugins (s <| plugins := p |>)) with p; by rewrite E2).
  by eexists.
Qed.

(** The processes that the application manager names when its service is added. *)
Definition asked (systemAbilityId : Z) (k : K) : gset Z :=
  if systemAbilityId =? RES_SCHED_EXE_ABILITY_ID then ∅
  else if systemAbilityId =? APP_MGR_SERVICE_ID then list_to_set (default [] (sh_GetForegroundApplications k)) else ∅.

Lemma moves_add id dev a : ab_ok a ->
  exists a', in_service (OnAddSystemAbility (N := N) RES_SCHED_EXE_ABILITY_ID APP_MGR_SERVICE_ID id dev) a = Some (tt, a')
    /\ moved (union (asked id (host (plugins (ab_service a))))) a a'.
Proof.
  intros Ha. set (k := host (plugins (ab_service a))).
  assert (Hpre : exists s1, (if id =? RES_SCHED_EXE_ABILITY_ID then InitExecutorPlugin (N := N) false
      else st_when (id =? APP_MGR_SERVICE_ID) InitForegroundAppInfo) (ab_service a) = Some (tt, s1)
    /\ svc_ok s1 /\ foregroundPids_ (rsmgr s1) = asked id k ∪ fg a /\ svc s1 = svc (ab_service a)).
  { unfold asked. destruct (id =? RES_SCHED_EXE_ABILITY_ID).
    - destruct (executor_ok (ab_service a)) as (s1 & E1 & Hp & Es). exists s1. split; [done|]. destruct Hp as (En & Er & Ev).
      split; [|by rewrite Er, Ev, union_empty_l_L]. apply (same_svc_ok (ab_service a)); [done..|]. unfold sv_ok. rewrite Es. apply Ha.
    - destruct (id =? APP_MGR_SERVICE_ID); cbn [st_when].
      + unfold InitForegroundAppInfo. rewrite (run_bind get_host _ _ k (ab_service a)) by done.
        destruct (sh_GetForegroundApplications k) as [l|].
        * eexists. split; [reflexivity|]. split; [exact Ha|]. by split.
        * eexists. split; [reflexivity|]. split; [exact Ha|]. split; [simpl; set_solver|done].
      + eexists. split; [reflexivity|]. split; [exact Ha|]. split; [simpl; set_solver|done]. }
  destruct Hpre as (s1 & E1 & Hs1 & Ef & Ev). unfold in_service, in_ab, OnAddSystemAbility.
  rewrite (run_bind _ _ _ _ _ E1).
  destruct (ability_report_ok SA_ADD (ability_payload id dev) s1 Hs1) as (s2 & -> & Hs2 & _ & Er & Ev2).
  eexists. split; [reflexivity|]. split; [exact Hs2|]. unfold fg, lists. simpl. by rewrite Er, Ev2, Ef, Ev.
Qed.

Lemma moves_remove id dev : moves (fun s => s) (in_service (OnRemoveSystemAbility id dev)).
Proof.
  apply moves_service. intros s Hs.
  destruct (ability_report_ok SA_REMOVE (ability_payload id dev) s Hs) as (s2 & E & Hs2 & _ & Er & Ev2).
  exists s2. by rewrite Er, Ev2.
Qed.

Lemma moves_level type level : moves (fun s => s) (in_service (Ability_OnDeviceLevelChanged type level)).
Proof.
  apply moves_service. intros s (Hs & Hn & Hc). unfold Ability_OnDeviceLevelChanged. rewrite run_get_bind.
  destruct (svc_ready s); cbn [negb]; [|by exists s].
  unfold OnDeviceLevelChanged. set (s1 := if (type =? SYSTEMLOAD_LEVEL) && negb false
    then s <| svc ::= fun x => x <| actualSystemLoadLevel_ := level |> |> else s).
  assert (E1 : st_when ((type =? SYSTEMLOAD_LEVEL) && negb false) (upd_svc (fun x => x <| actualSystemLoadLevel_ := level |>)) s
    = Some (tt, s1)) by (unfold s1; by destruct (_ && _)).
  rewrite (run_bind _ _ _ _ _ E1). cbv zeta. rewrite run_get_svc.
  match goal with |- context [NotifierMgr_OnDeviceLevelChanged ?t ?l] => destruct (ok_level t l (notifiers s1)) as (n & En & Hn' & _) end.
  { unfold s1. by destruct (_ && _). }
  exists (s1 <| notifiers := n |>). unfold in_notifiers, in_part. rewrite En. split; [done|].
  unfold svc_ok, sv_ok, cache_ok in *. unfold s1. by destruct (_ && _).
Qed.

Lemma moves_sv e : fine_event (K := K) e -> moves (fun s => s) (in_service (run_sv e)).
Proof.
  intros He. apply moves_service. intros s Hs. destruct (run_sv_ok screen_u64 e s (proj1 Hs) He) as (s' & E & Hs').
  exists s'. pose proof (keeps_run _ _ _ _ _ (kept_run_sv s e) (conj eq_refl (conj eq_refl eq_refl)) E) as Hp.
  destruct Hp as (En & Er & Ev). rewrite Er, Ev. split; [done|]. split; [|done].
  by apply (same_svc_ok s).
Qed.

Lemma moves_common w e : moves (fun s => s) (common_event w e).
Proof.
  intros a Ha. unfold common_event. destruct (_ ≫= which_get w) as [x|]; [|exists a; split; [done|by apply moved_refl]].
  assert (Ht : total (Event_OnReceiveEvent (J := J) e)).
  { unfold Event_OnReceiveEvent, HandlePkgCommonEvent, handleEvent, handleOtherEvent, handleLeftEvent,
      HandleConnectivityChange, HandleCloneStateEvent, HandleAudioFocusChangeEvent, HandleMediaCtrlEvent,
      handleNearlinkEvent, DataShareIsReady, Event_ReportDataInProcess, r_report, r_upd, r_call. total_auto. }
  destruct (Ht (mkWith x [])) as [[[] w'] E]. rewrite E.
  assert (Hl : plain_calls w') by (eapply keeps_run; [apply kept_common_event| |exact E]; constructor).
  match goal with |- context [st_iter deliver _ ?b] => exact (plain_deliver _ Hl b Ha) end.
Qed.

(** *** Histories *)

(** An event of the ability or of the service. *)
Definition Event : Type := AbilityEvent + SvEvent (J := J).
Definition run_event (e : Event) : M unit :=
  match e with inl e => run_ability (N := N) e | inr e => in_service (run_sv e) end.
Definition possible (e : Event) : Prop := match e with inl _ => True | inr e => fine_event (K := K) e end.
(** The events of which [ObserverFacts] and [StartupFacts] say when they are answered are not
    certain here. *)
Definition certain (e : Event) : Prop :=
  match e with inl (AbStartup _ | AbObserverAdd _ | AbObserverRemove _) => False | _ => possible e end.

(** A history, with the system as each event found it. *)
Inductive ab_run : list (Event * K) -> A -> A -> Prop :=
  | ab_run_nil a : ab_run [] a a
  | ab_run_cons e h a a1 a2 :
      possible e -> run_event e a = Some (tt, a1) -> ab_run h a1 a2 ->
      ab_run ((e, host (plugins (ab_service a))) :: h) a a2.

(** Whether the last that was told about a process is that it is in the foreground. *)
Definition shown_step (pid : Z) (b : bool) (x : Event * K) : bool :=
  match x.1 with
  | inl (AbApp c) =>
      match tells c with
      | Some (state, p) =>
          if negb (p =? pid) then b else if state_leaves state then false else b || (state =? AS_FOREGROUND)
      | None => b
      end
  | inl (AbAdd id _) => b || bool_decide (pid ∈ asked id x.2)
  | _ => b
  end.
Definition shown (pid : Z) (h : list (Event * K)) : bool := foldl (shown_step pid) false h.

Definition fg_event (e : Event) (k : K) (s : gset Z) : gset Z :=
  match e with
  | inl (AbApp c) => match tells c with Some (state, pid) => fg_state state pid s | None => s end
  | inl (AbAdd id _) => asked id k ∪ s
  | _ => s
  end.

Lemma shown_event pid e k s : bool_decide (pid ∈ fg_event e k s) = shown_step pid (bool_decide (pid ∈ s)) (e, k).
Proof.
  unfold shown_step. destruct e as [[]|]; cbn [fst snd fg_event]; try done.
  - rewrite (bool_decide_ext _ (pid ∈ s \/ pid ∈ asked systemAbilityId k)) by set_solver. apply bool_decide_or.
  - destruct (tells c) as [[state p]|]; [|done]. unfold fg_state. destruct (Z.eqb_spec p pid) as [->|Hp]; cbn [negb].
    + destruct (state_leaves state); [apply bool_decide_eq_false; set_solver|].
      destruct (state =? AS_FOREGROUND); [rewrite orb_true_r; apply bool_decide_eq_true; set_solver|by rewrite orb_false_r].
    + apply bool_decide_ext. destruct (state_leaves state), (state =? AS_FOREGROUND); set_solver.
Qed.

Lemma moves_reclaim : moves (fun s => s) reclaim_due.
Proof.
  intros a Ha. unfold reclaim_due. rewrite run_get_bind. destruct (ab_reclaims a =? 0)%nat; [exists a; split; [done|by apply moved_refl]|].
  set (a1 := a <| ab_reclaims ::= pred |>). rewrite (run_bind _ _ a tt a1) by done.
  rewrite (run_bind _ _ a1 (sh_getpid (host (plugins (ab_service a)))) a1) by done.
  refine (moves_other ab_files (fun p a => a <| ab_files := p |>) (WriteFileReclaim _) _ _ a1 Ha); [done|].
  unfold WriteFileReclaim, fs_ask. total_auto. intros f. by eexists.
Qed.

Lemma event_certain e a : certain e -> ab_ok a ->
  exists a', run_event e a = Some (tt, a') /\ moved (fg_event e (host (plugins (ab_service a)))) a a'.
Proof.
  intros He Ha. destruct e as [[]|]; try done; cbn [run_event run_ability].
  - by apply moves_add.
  - by apply moves_remove.
  - by apply moves_level.
  - by apply moves_app.
  - apply (moves_other ab_events (fun p a => a <| ab_events := p |>)); [done| |exact Ha].
    unfold Event_OnAddSystemAbility, SubscribeCommonEvent, SubscribeLockScreenCommonEvent, SubscribeCloneStateCommonEvent,
      SubscribeMediaCtrlCommonEvent, SubscribeCommonEvent, upd_listener, ev_record. total_auto.
  - apply (moves_other ab_events (fun p a => a <| ab_events := p |>)); [done|apply total_modify|exact Ha].
  - by apply moves_common.
  - by apply moves_reclaim.
  - by apply moves_sv.
Qed.

Lemma event_moved e a a' : possible e -> run_event e a = Some (tt, a') -> ab_ok a ->
  moved (fg_event e (host (plugins (ab_service a)))) a a'.
Proof.
  intros He E Ha.
  assert (Hc : certain e -> moved (fg_event e (host (plugins (ab_service a)))) a a').
  { intros Hc. destruct (event_certain e a Hc Ha) as (a2 & E2 & Hm). rewrite E in E2. by injection E2 as <-. }
  destruct e as [[]|]; try (by apply Hc); cbn [run_event run_ability] in E; eapply in_observers_moved; try exact E; try exact Ha.
  - apply kept_startup.
  - apply kept_add.
  - apply kept_remove.
Qed.

Lemma ab_run_moved h a a' : ab_run h a a' -> ab_ok a ->
  ab_ok a' /\ lists a' = lists a
  /\ forall pid, bool_decide (pid ∈ fg a') = foldl (shown_step pid) (bool_decide (pid ∈ fg a)) h.
Proof.
  induction 1 as [|e h a a1 a2 He E _ IH]; intros Ha; [done|].
  destruct (event_moved e a a1 He E Ha) as (Ha1 & Ef & El). destruct (IH Ha1) as (Ha2 & El2 & Hf).
  split; [done|]. split; [congruence|]. intros pid. rewrite Hf. simpl. by rewrite Ef, shown_event.
Qed.

(** *** The start *)

Definition new_Ability (k : K) (sc : Scenes J) (o : Oobe D) (fw : FW) (f : F) : A :=
  mkAbility (new_Service k sc) new_EventController (new_ObserverManager o fw) f 0 [].

(** The lists of the repository, which a start without extensions puts in force. *)
Definition own_lists (a : AllowLists) : Prop :=
  (forall t, t ∈ allowSCB a <-> t ∈ SCB_RES) /\ (forall t, t ∈ allowAllApp a <-> t ∈ THIRDPART_RES)
  /\ (forall t, t ∈ allowFgApp a <-> t ∈ FG_THIRDPART_RES).

(** The service before its lists are filled. *)
Record fresh (sc : Scenes J) (s : Svc) : Prop := {
  fresh_scenes : scenes s = sc;
  fresh_notifiers : notifiers s = new_NotifierMgr;
  fresh_svc : svc s = new_ResSchedService;
  fresh_fg : foregroundPids_ (rsmgr s) = ∅;
  fresh_ext : allowExt (rsmgr s) = no_lists;
}.
Lemma kept_fresh_in {P B} sc (part : Svc -> P) set (m : ST P B) :
  (forall p s, fresh sc s -> fresh sc (set p s)) -> keeps (fresh sc) (in_part part set m).
Proof. intros Hset s Hs. unfold in_part. destruct (m _) as [[a p]|]; [by apply Hset|done]. Qed.
Lemma kept_fresh_init sc : keeps (fresh sc) (ResSchedMgr_Init (J := J) (K := K) (N := N)).
Proof.
  assert (Hpl : forall B (m : ST (PluginMgr J K) B), keeps (fresh sc) (in_plugins m)).
  { intros B m. apply kept_fresh_in. by intros p s []. }
  unfold ResSchedMgr_Init, InitExecutorPlugin, SetInitFlag, get_host, s_record, upd_mgr.
  repeat first [apply Hpl | apply keeps_modify; by intros s [] | intros s Hs; exact Hs | keeps_step].
Qed.

(** The service with lists. *)
Definition at_lists (s : Svc) (a b d e : gset Z) (c : gmap Z (gset Z)) : Svc :=
  s <| svc := (svc s) <| allow := mkAllowLists a b c d e |> |>.
Lemma add_scb (s : Svc) a b c d e l : AddSCBRes l (at_lists s a b d e c) = Some (tt, at_lists s (l ∪ a) b d e c).
Proof. done. Qed.
Lemma add_all_sa (s : Svc) a b c d e l : AddAllSARes l (at_lists s a b d e c) = Some (tt, at_lists s a (l ∪ b) d e c).
Proof. done. Qed.
Lemma add_some_sa (s : Svc) a b c d e l : AddSomeSARes l (at_lists s a b d e c) = Some (tt, at_lists s a b d e (c ∪ l)).
Proof. done. Qed.
Lemma add_all_app (s : Svc) a b c d e l : AddAllAppRes l (at_lists s a b d e c) = Some (tt, at_lists s a b (l ∪ d) e c).
Proof. done. Qed.
Lemma add_fg_app (s : Svc) a b c d e l : AddFgAppRes l (at_lists s a b d e c) = Some (tt, at_lists s a b d (l ∪ e) c).
Proof. done. Qed.
Lemma lists_filled (s : Svc) : allowExt (rsmgr s) = no_lists -> allow (svc s) = no_lists ->
  exists b c, InitAllowIpcReportRes s
    = Some (tt, at_lists s (∅ ∪ (SCB_RES ∪ ∅)) b (∅ ∪ (THIRDPART_RES ∪ ∅)) (∅ ∪ (FG_THIRDPART_RES ∪ ∅)) c).
Proof.
  intros He Ha.
  assert (Es : s = at_lists s ∅ ∅ ∅ ∅ ∅).
  { unfold at_lists. fold no_lists. rewrite <- Ha. destruct s as [? ? ? ? ? ? []]. done. }
  eexists _, _. rewrite Es at 1. unfold InitAllowIpcReportRes.
  rewrite (run_bind _ _ _ _ _ (add_scb _ _ _ _ _ _ _)), (run_bind _ _ _ _ _ (add_all_sa _ _ _ _ _ _ _)),
    (run_bind _ _ _ _ _ (add_some_sa _ _ _ _ _ _ _)), (run_bind _ _ _ _ _ (add_all_app _ _ _ _ _ _ _)),
    (run_bind _ _ _ _ _ (add_fg_app _ _ _ _ _ _ _)), run_get_bind.
  change (allowExt (rsmgr (at_lists s ?a ?b ?d ?e ?c))) with (allowExt (rsmgr s)). rewrite He. cbv zeta.
  by rewrite (run_bind _ _ _ _ _ (add_scb _ _ _ _ _ _ _)), (run_bind _ _ _ _ _ (add_all_sa _ _ _ _ _ _ _)),
    (run_bind _ _ _ _ _ (add_some_sa _ _ _ _ _ _ _)), (run_bind _ _ _ _ _ (add_all_app _ _ _ _ _ _ _)),
    add_fg_app.
Qed.

Lemma at_lists_parts (s : Svc) a b d e c : let s' := at_lists s a b d e c in
  scenes s' = scenes s /\ notifiers s' = notifiers s /\ rsmgr s' = rsmgr s
  /\ permissionCache_ (svc s') = permissionCache_ (svc s) /\ allow (svc s') = mkAllowLists a b c d e.
Proof. done. Qed.

Lemma start_notifiers sc (s1 s2 : Svc) :
  fresh sc s1 -> in_notifiers (NotifierMgr_Init (host (plugins s1))) s1 = Some (tt, s2) ->
  notifiers_ok (notifiers s2) /\ fresh sc (s2 <| notifiers := new_NotifierMgr |>).
Proof.
  intros [Hs Hn Hv Hfg He] E. destruct (ok_init (host (plugins s1))) as (n & En & Hok). rewrite <- Hn in En.
  unfold in_notifiers, in_part in E. rewrite En in E. injection E as <-. split; [exact Hok|by split].
Qed.
(** The steps of the start before the lists. *)
Lemma start_parts (k : K) sc s :
  OnStart (N := N) (new_Service k sc) = Some (tt, s) ->
  exists s2, fresh sc (s2 <| notifiers := new_NotifierMgr |>) /\ notifiers_ok (notifiers s2)
    /\ InitAllowIpcReportRes s2 = Some (tt, s).
Proof.
  intros E. apply run_bind_some in E as ([] & s1 & E1 & E). apply run_bind_some in E as (h & s1' & Eh & E).
  injection Eh as <- <-. apply run_bind_some in E as ([] & s2 & E2 & E). apply run_bind_some in E as ([] & s3 & E3 & E).
  apply run_bind_some in E as ([] & s4 & E4 & E). exists s4.
  assert (Hf : fresh sc s1) by (eapply keeps_run; [apply kept_fresh_init| |exact E1]; by split).
  destruct (start_notifiers sc s1 s2 Hf E2) as [Hn [Hs _ Hv Hfg He]].
  unfold in_listeners, in_part in E3. destruct (EventListenerMgr_Init _) as [[[] l]|]; [|done].
  injection E3 as <-. injection E4 as <-. split; [by split|]. split; [exact Hn|exact E].
Qed.

Lemma start_service (k : K) sc s :
  new_SceneRecognizerMgr k = Some sc -> OnStart (N := N) (new_Service k sc) = Some (tt, s) ->
  svc_ok s /\ foregroundPids_ (rsmgr s) = ∅ /\ own_lists (allow (svc s)).
Proof.
  intros Hsc E. destruct (start_parts k sc s E) as (s2 & [Hs _ Hv Hfg He] & Hok & E2). simpl in *.
  destruct (lists_filled s2 He) as (b & c & El); [by rewrite Hv|].
  rewrite El in E2. injection E2 as <-.
  destruct (at_lists_parts s2 (∅ ∪ (SCB_RES ∪ ∅)) b (∅ ∪ (THIRDPART_RES ∪ ∅)) (∅ ∪ (FG_THIRDPART_RES ∪ ∅)) c)
    as (Es & En & Er & Ec & Ea).
  unfold svc_ok, cache_ok, sv_ok. rewrite Es, En, Er, Ec, Ea, Hs, Hfg, Hv.
  split; [|split; [done|]].
  - split; [by apply (starts_ok k (new_Service k sc))|]. split; [done|]. split; [apply new_lru_ok|simpl; lia].
  - rewrite !(left_id_L ∅ (∪)), !(right_id_L ∅ (∪)). by repeat split.
Qed.

Lemma add_listeners_run l : forall errs (a : A), exists r cs,
  add_listeners l errs a = Some (r, a <| ab_calls := cs |>).
Proof.
  induction l as [|[id name] l IH]; intros errs a; [exists errs, (ab_calls a); by destruct a|]. cbn [add_listeners].
  unfold ask_host, ab_record. rewrite (run_bind _ _ a (abh_AddSystemAbilityListener id (host (plugins (ab_service a)))) a) by done.
  rewrite (run_bind (st_modify _) _ a tt (a <| ab_calls ::= fun l => l ++ [AAddListener id] |>)) by done.
  edestruct IH as (r & cs & ->). by eexists _, cs.
Qed.

(** The start of the ability leaves the service as the start of the service does. *)
Lemma start_ok (k : K) sc o fw f a :
  new_SceneRecognizerMgr k = Some sc -> Ability_OnStart (N := N) (new_Ability k sc o fw f) = Some (tt, a) ->
  ab_ok a /\ fg a = ∅ /\ own_lists (lists a).
Proof.
  intros Hsc E. set (P := fun a : A => ab_ok a /\ fg a = ∅ /\ own_lists (lists a)). change (P a).
  assert (Hmove : forall b b' : A, moved id b b' -> P b -> P b').
  { intros b b' (Hb & Ef & El) (_ & Hf & Hl). unfold P. by rewrite Ef, El. }
  unfold Ability_OnStart in E.
  destruct (in_service (OnStart (N := N)) (new_Ability k sc o fw f)) as [[[] a1]|] eqn:E1;
    [|by unfold mbind, ST_bind in E; rewrite E1 in E].
  rewrite (run_bind _ _ _ _ _ E1) in E.
  assert (HP : P a1).
  { unfold in_service, in_ab in E1. destruct (OnStart _) as [[[] s]|] eqn:Es; [|done]. injection E1 as <-.
    by apply (start_service k sc s). }
  revert E HP. generalize a1. intros b E HP. revert E.
  assert (Hk : keeps P (published ← ask_host abh_Publish;
    st_when (negb published) (ab_record (AInitFault "ServicePublishFailed" "Publish ResSchedService failed."));;
    SystemAbilityListenerInit;; EventControllerInit;; in_observers ObserverManager_Init;; ReclaimProcessMemory;;
    ab_record AStartTime)).
  { assert (Hask : forall B (g : K -> B), keeps P (ask_host g)) by (intros B g c Hc; exact Hc).
    assert (Hrec : forall c, keeps P (ab_record c)) by (intros c; by apply keeps_modify).
    repeat first [apply Hask | apply Hrec | keeps_step].
    - unfold SystemAbilityListenerInit, ReportSAListenerResult. repeat first [apply Hrec | keeps_step].
      intros c Hc. destruct (add_listeners_run (in_order saList) [] c) as (r & cs & ->). exact Hc.
    - unfold EventControllerInit. apply keeps_bind; [apply Hask|]. intros k' c Hc. unfold in_events, in_ab.
      by destruct (EventController_Init k' _) as [[[] x]|].
    - intros c Hc. destruct (in_observers ObserverManager_Init c) as [[[] c']|] eqn:Ec; [|done].
      eapply Hmove; [|exact Hc]. eapply in_observers_moved; [apply kept_mgr_init|exact Ec|apply Hc].
    - unfold ReclaimProcessMemory. by apply keeps_modify. }
  intros E. exact (keeps_run _ _ _ _ _ Hk HP E).
Qed.

(** C22: The gate knows who is in the foreground. After the start of the ability and any
    history of callbacks of the application manager, abilities added and removed, common
    events, levels, reports and timers that returned: the service takes a process for a
    foreground one exactly when that is the last it was told of it; a report of a type that
    only foreground applications may report, by an application other than the scene board,
    which is exempt, is refused for the permission exactly when the application is not in the
    foreground; and the next event is answered when it is a [certain] one, that is, neither
    the start of an ability nor a system ability that is added to or removed from the
    observers, which may not return (observer_manager.cpp:376 and 78). *)
Theorem gate_knows_the_foreground (k : K) sc o fw f a1 h a :
  new_SceneRecognizerMgr k = Some sc ->
  Ability_OnStart (N := N) (new_Ability k sc o fw f) = Some (tt, a1) -> ab_run h a1 a ->
  (forall e, certain e -> exists a', run_event e a = Some (tt, a'))
  /\ (forall pid, IsForegroundApp pid (ab_service a) = shown pid h)
  /\ (forall caller type value payload,
        at_GetTokenTypeFlag (c_tokenId caller) (host (plugins (ab_service a))) = TOKEN_HAP ->
        at_GetHapTokenInfo (c_tokenId caller) (host (plugins (ab_service a))) <> SCENEBOARD_BUNDLE_NAME ->
        type ∈ FG_THIRDPART_RES ->
        exists s', CheckReportDataParcel caller type value payload (ab_service a)
          = Some (if negb (shown (c_pid caller) h) then ERR_RES_SCHED_PERMISSION_DENIED
                  else if bool_decide (PAYLOAD_MAX_SIZE < String.length payload)%nat then ERR_RES_SCHED_PARCEL_ERROR
                  else ERR_OK, s')).
Proof.
  intros Hsc E Hrun. destruct (start_ok k sc o fw f a1 Hsc E) as (Ha1 & Ef1 & Hl).
  destruct (ab_run_moved h a1 a Hrun Ha1) as (Ha & El & Hf). rewrite <- El in Hl.
  assert (Hshown : forall pid, IsForegroundApp pid (ab_service a) = shown pid h).
  { intros pid. unfold IsForegroundApp, shown. change (foregroundPids_ (rsmgr (ab_service a))) with (fg a).
    by rewrite Hf, Ef1. }
  split; [|split; [done|]].
  - intros e He. destruct (event_certain e a He Ha) as (a' & E' & _). by exists a'.
  - intros caller type value payload Hhap Hscb Ht.
    destruct Hl as (_ & Hall & Hfg). specialize (Hshown (c_pid caller)).
    assert (Hauth : authorised caller type (ab_service a) <-> shown (c_pid caller) h = true).
    { unfold authorised. rewrite Hhap. unfold IsForegroundApp in Hshown. rewrite <- Hshown, bool_decide_eq_true.
      split; [intros [[_ ?]|[_ Hi]]; [done|by apply Hi, Hfg]|intros Hp; right; split; [|done]]. apply Hall.
      revert Ht. apply fg_are_allowed. }
    destruct (CheckReportDataParcel_run caller type value payload (ab_service a) (proj2 (proj2 Ha)))
      as (s1 & _ & _ & Hden & Hlong & Hpass). exists s1.
    destruct (shown (c_pid caller) h); cbn [negb]; [|apply Hden; naive_solver].
    case_bool_decide; [by apply Hlong; [apply Hauth|]|apply Hpass; [by apply Hauth|lia]].
Qed.
End facts.

(** ** An example *)

#[local] Instance demo_events : EventHost Z := {|
  COMMON_EVENT_SERVICE_ID := 3299; ev_GetSystemAbilityManager _ := true; ev_SubscribeSystemAbility _ _ := 0;
  ev_GetBundleMgrObject _ := true; ev_GetBundleMgr _ := true; ev_GetApplicationUid _ _ _ := 20010001;
|}.
#[local] Instance demo_ids : AbilityIds := {|
  BACKGROUND_TASK_MANAGER_SERVICE_ID := 1903; RES_SCHED_EXE_ABILITY_ID := 1919; POWER_MANAGER_SERVICE_ID := 3301;
  WIFI_DEVICE_SYS_ABILITY_ID := 1120; MSDP_USER_STATUS_SERVICE_ID := 2908; BUNDLE_MGR_SERVICE_SYS_ABILITY_ID := 401;
  SOC_PERF_SERVICE_SA_ID := 1906; MEMORY_MANAGER_SA_ID := 1909; LOCATION_LOCATOR_SA_ID := 2802;
  ADVANCED_NOTIFICATION_SERVICE_ABILITY_ID := 3203;
|}.
#[local] Instance demo_ability_host : AbilityHost Z :=
  {| abh_AddSystemAbilityListener id _ := negb (id =? 1906); abh_Publish _ := true |}.
#[local] Instance demo_xml_tree : Xml XmlTree := xml_tree (fun _ => None).
#[local] Existing Instance ObserverFacts.demo_audio.
#[local] Existing Instance ObserverFacts.demo_framework.
#[local] Existing Instance ObserverFacts.demo_rosen.
#[local] Existing Instance ObserverFacts.demo_share.
#[local] Existing Instance ObserverFacts.demo_abilities.
#[local] Existing Instance ObserverFacts.demo_build.
#[local] Existing Instance ObserverFacts.demo_frameworks.
#[local] Existing Instance FileFacts.demo_fs.
#[local] Abbreviation DemoAbility := (Ability json Z (Scenes json) unit unit demo_files).

Definition demo_recognizers : Scenes json :=
  default (mkScenes None ∅ 0 [] (mkInstallRecognizer None false) false (mkBackgroundRecognizer 0 0 ∅ false)
    (mkSlideRecognizerProxy 0 0 (float_of_Z 0) ∅ ∅) ∅) (new_SceneRecognizerMgr 0).
Definition demo_ability : DemoAbility := new_Ability 0 demo_recognizers (new_Oobe tt) tt (0, ∅).
(** A state of an application. *)
Definition app_state (pid state : Z) : AppCallback :=
  BApplication (mkAppStateData pid 20010001 "com.example.app" state 0 false 0 0 "" 0).
(** Process 200 comes to the foreground, the application manager names process 100, which then
    goes to the background. *)
Definition demo_history : list (Event (J := json)) :=
  [inl (AbApp (app_state 200 AS_FOREGROUND)); inl (AbAdd APP_MGR_SERVICE_ID "");
   inl (AbCommonEvent WMain (mkCommonEventData 0 "usual.event.SCREEN_ON" "" (fun _ => None) (fun _ => None) (fun _ => None)));
   inl (AbApp (app_state 100 AS_BACKGROUND)); inl (AbRemove APP_MGR_SERVICE_ID "")].
Fixpoint run_events (es : list (Event (J := json))) (a : DemoAbility) : option (list (Event (J := json) * Z) * DemoAbility) :=
  match es with
  | [] => Some ([], a)
  | e :: es =>
      match run_event (N := XmlTree) e a with
      | Some (_, a1) =>
          (fun r => ((e, host (plugins (ab_service a))) :: r.1, r.2)) <$> run_events es a1
      | None => None
      end
  end.
Lemma run_events_run es : forall a h a',
  Forall (possible (K := Z)) es -> run_events es a = Some (h, a') -> ab_run (N := XmlTree) h a a'.
Proof.
  induction es as [|e es IH]; intros a h a' Hes E; simpl in E; [injection E as <- <-; constructor|].
  apply Forall_cons in Hes as [He Hes]. destruct (run_event e a) as [[[] a1]|] eqn:Ee; [|done].
  destruct (run_events es a1) as [[h1 a2]|] eqn:Er; [|done]. injection E as <- <-.
  econstructor; [done..|]. by apply IH.
Qed.
Definition demo_started : DemoAbility :=
  default demo_ability (snd <$> Ability_OnStart (N := XmlTree) demo_ability).
Definition demo_told : list (Event (J := json) * Z) * DemoAbility :=
  default ([], demo_started) (run_events demo_history demo_started).

Lemma gate_knows_the_foreground_witness :
  Ability_OnStart (N := XmlTree) demo_ability = Some (tt, demo_started)
  /\ run_events demo_history demo_started = Some demo_told
  /\ IsForegroundApp 200 (ab_service demo_told.2) = true /\ IsForegroundApp 100 (ab_service demo_told.2) = false
  /\ exists s', CheckReportDataParcel app_caller RES_TYPE_LOAD_URL 0 "{}" (ab_service demo_told.2)
       = Some (ERR_RES_SCHED_PERMISSION_DENIED, s').
Proof.
  assert (Es : Ability_OnStart (N := XmlTree) demo_ability = Some (tt, demo_started)) by (vm_compute; reflexivity).
  assert (Er : run_events demo_history demo_started = Some demo_told) by (vm_compute; reflexivity).
  split; [exact Es|]. split; [exact Er|].
  destruct (gate_knows_the_foreground (N := XmlTree) demo_screens 0 demo_recognizers (new_Oobe tt) tt (0, ∅)
    demo_started demo_told.1 demo_told.2) as (_ & Hfg & Hgate).
  - vm_compute. reflexivity.
  - exact Es.
  - apply (run_events_run demo_history); [by repeat constructor|]. rewrite Er. by destruct demo_told.
  - split; [rewrite Hfg; vm_compute; reflexivity|]. split; [rewrite Hfg; vm_compute; reflexivity|].
    destruct (Hgate app_caller RES_TYPE_LOAD_URL 0 "{}") as (s' & E).
    + vm_compute. reflexivity.
    + vm_compute. discriminate.
    + apply (bool_decide_unpack _). vm_compute. exact I.
    + exists s'. etransitivity; [exact E|]. vm_compute. reflexivity.
Defined.
